(* ===== verification/_CoqProject ===== *)
-Q . S2P
Prelude.v
Json.v
SyncTypes.v
StageFailure.v
SyncModes.v
Effects.v
Deadline.v
StageExec.v
EndpointScope.v
StageRunner.v
IndividualSync.v
VmObjects.v
TenantAssignment.v
BatchSync.v
BranchLifecycle.v
JobParams.v
RuntimePhases.v
Preflight.v
JobRun.v
Concurrent.v
DeletionRequests.v
Dates.v
Text.v
PveCalendar.v
CalendarGrid.v
CalendarProjection.v
ScheduleParser.v
PyFloat.v
IntentDiffs.v
DescriptionMetadata.v
IntentPayload.v
BackendPath.v
Fernet.v
Redaction.v
ErrorDetail.v
BackendStream.v
BackendJson.v
StageStream.v
ConnectionAuthority.v
BackendKey.v
FastapiEndpoint.v
EncryptionGuards.v
EncryptionRecovery.v
BackendRegistration.v
FirewallPush.v
FirewallIntent.v
ApplyJob.v
MergeValidator.v
