(* ===== verification/Prelude.v ===== *)
(** * netbox-proxbox: a verification development

    netbox-proxbox is a NetBox plugin that copies the state of Proxmox
    clusters into NetBox.  A job (jobs.py) checks a backend service
    (proxbox-api), registers the configured endpoints with it, and then asks
    it, endpoint by endpoint and stage by stage (sync_stages.py), to reconcile
    NetBox objects, over a stream whose end decides whether the stage
    succeeded.  Optionally all writes go to a branch that is merged when the
    run has evidence of success (services/branch_lifecycle.py).  In the other
    direction, deletions of virtual machines wait for the approval of a second
    user before they are sent to Proxmox (intent/, views/deletion_requests.py).
    Credentials are stored encrypted, and the key of the backend is adopted
    only when the backend proves that it knows it (models/fastapi_endpoint.py,
    services/backend_key_adoption.py, services/encryption_recovery.py).

    The paths below are relative to src/netbox_proxbox/.  Definitions carry
    the names of the code.

    ** Files

    - Prelude: this file.  Results and exceptions, Python strings, ordered
      dictionaries, loosely typed values ([pyval]), [int(s)], stable sorting,
      and the lemmas and tactics on them that the other files share.
    - Json: [json.loads], for job data that was stored as text.
    - Effects: stateful code as a state and exception monad with a weakest
      precondition and a logic of histories; Concurrent: handlers that run
      interleaved, as trees of commands, with rely-guarantee reasoning.
    - SyncTypes (sync_types.py, choices.py): the sync types, the order of the
      stages, their stream paths, the expansion of a selection.
    - StageFailure (sync_types.py, backend_errors.py, sync_stages.py): from an
      error body to the decision to retry and the message shown.
    - SyncModes (constants.py, sync_params.py, sync_stages.py,
      models/proxmox_endpoint.py): overwrite flags and sync modes, their
      cascade over resource types, the query of a stage.
    - Deadline (services/sync_deadline.py, services/retry_after.py): the
      budget of a job and the delays between attempts.
    - StageExec (sync_stages.py, [_execute_stage_sync]): one stage with its
      retries, over an abstract clock and backend (class [Env]).
    - EndpointScope (sync_stages.py, views/backend_sync.py): which endpoints a
      run addresses and by which rows of the backend.
    - StageRunner (sync_stages.py, [_run_all_stages_sync]): endpoints by
      stages by paths.
    - IndividualSync (services/individual_sync.py): the sync of one object
      with its dependencies.
    - VmObjects (vm_identity.py, sync_params.py): identity of a virtual
      machine, parameters of selected objects; TenantAssignment
      (services/tenant_assignment.py): the rules that fill a tenant; BatchSync
      (sync_stages.py, [_run_batch_selected_sync]): runs over selected objects.
    - BranchLifecycle (services/branch_lifecycle.py): decision, provisioning,
      activation and merge of a branch (class [BranchEnv]).
    - JobParams (sync_ownership.py, views/job_stream.py, jobs.py,
      sync_params.py): what a job row stores.
    - RuntimePhases (jobs.py): the runtimes reported per endpoint.
    - Preflight (jobs.py, views/backend_sync.py): key check, registration of
      endpoints, proof of the NetBox identity (class [PreflightEnv]).
    - JobRun (jobs.py): [ProxboxSyncJob.run] as a whole (class [JobEnv]).
    - DeletionRequests (models/deletion_request.py,
      views/deletion_requests.py, intent/deletion_executor.py,
      intent/deletion_ttl_cron.py, intent/proxmox_tags.py): the four-eyes
      workflow.
    - Dates: proleptic Gregorian dates; Text: splitting, case and patterns on
      strings; PyFloat (intent/payload.py): the conversions of numbers.
    - PveCalendar (services/pve_calendar_event.py): the parser of PVE calendar
      events; CalendarGrid (services/data_protection_calendar.py): month and
      week grids; CalendarProjection (views/data_protection.py): schedules
      projected over a window; ScheduleParser (schemas/schedule_parser.py):
      the next run of a schedule.
    - IntentDiffs (intent/diff_union.py, intent/diff_classify.py,
      services/branch_intent.py): what a branch changes, per virtual machine.
    - DescriptionMetadata (intent/description_metadata.py) and IntentPayload
      (intent/payload.py, intent/snapshot.py): the metadata block of a
      description, the payloads of guests, the snapshots of deleted ones.
    - BackendPath (services/backend_path.py): the segments of request paths.
    - Fernet (utils/encryption.py): encrypted values of a column (the cipher
      is a class, [FernetLib], with its documented laws [FernetLaws]).
    - Redaction (redaction.py) and ErrorDetail (backend_errors.py,
      views/error_utils.py): credentials are removed from texts and values
      before they are shown, and errors become messages.
    - BackendStream and BackendJson (services/backend_proxy.py): the client
      of the event stream and of plain requests (class [StreamEnv]);
      StageStream: the execution of a stage over that client.
    - ConnectionAuthority (services/connection_authority.py,
      sensitive_data.py, cloud_image_ssh.py): approval of a connection target
      before secrets are used.
    - BackendKey (services/backend_key_adoption.py): the exchange in which a
      backend key is registered or verified; FastapiEndpoint
      (models/fastapi_endpoint.py, models/primary_secrets.py): the endpoint
      row that stores the key (class [SecretStore]).
    - EncryptionGuards (services/encryption_recovery.py,
      models/plugin_settings.py): the encrypted columns of the database, and
      the guards under which a save may change them or the key;
      EncryptionRecovery (services/encryption_recovery.py): rotation of the
      key, reset of unreadable columns, and the status reported of them.
    - BackendRegistration (views/backend_sync.py): the push of one Proxmox
      endpoint with its cache, receipts and revocations (class [RegEnv]).
    - FirewallPush (intent/firewall_common.py, services/operational_target.py)
      and FirewallIntent (intent/firewall_payload.py): requests for firewall
      objects (class [FirewallEnv]).
    - ApplyJob (intent/apply_job.py): a job that applies a branch (class
      [ApplyEnv]); MergeValidator (intent/merge_validator.py,
      intent/plan_client.py): the check before a merge.

    ** How the code is modelled

    Pure functions are functions; a call that can raise returns [result].
    Code with effects is a program over a world: the environment (database
    rows, clock, backend, branching plugin) is a type class whose operations
    are the calls the code makes, so that the theorems hold for every
    behaviour of it; each class has an instance that plays a script, with
    which the witnesses and examples run.  Clock readings and timeouts are
    integers in nanoseconds, time stamps of rows in microseconds.
    Django, requests and netbox-branching are such environments; where a
    theorem relies on documented behaviour of a package, it is a named
    hypothesis.  Log calls are left out, except where a record of the job
    depends on them.  Strings are byte strings: lengths and case mapping are
    exact for ASCII text.

    ** What the theorems show

    - JobRun (C1, C2): a branch is merged only after evidence without
      failures; the last evidence of a green run is that of its own stages and
      shows every endpoint synchronised.
    - StageRunner (C3, C15): every request is scoped to a backend row of its
      own endpoint, and every stage of every endpoint leaves a record.
    - DeletionRequests (C4, C23, C24): no deletion is sent without an approval
      by a second user who typed its VMID, under every interleaving; one after
      the other, handlers send a deletion at most once; what the executor
      leaves behind for every answer and every failing save.
    - BackendRegistration (C5, C40) and ConnectionAuthority (C6): credentials
      reach only an approved target and the endpoint's own row, bindings only
      after their receipt; a changed credential changes what is hashed.
    - EncryptionRecovery (C7, C8, C18, C19) and EncryptionGuards (C20): a
      rotation keeps every secret and succeeds on a healthy database, the
      stored key reads every column that any sequence of guarded operations
      leaves behind, a reset clears only what nobody can read, and a delayed
      update yields to a newer state.
    - FastapiEndpoint (C9) and BackendKey (C21): a trusted backend key was
      adopted at its own target; its adoption follows the protocol, and its
      failures carry one of the fixed texts.
    - ApplyJob (C10, C37) and MergeValidator (C17): an apply job never
      destroys a guest and ends as its saves allow; which merges need the
      consent of the backend.
    - FirewallPush (C11, C38): one allowed request or none, with its status;
      no name of an object leaves its path.
    - StageStream (C12) and BackendStream (C13): a stage succeeds only by a
      complete event of the backend; the client always ends with a verdict and
      never replays a sync.
    - Preflight (C14): a preflight that lets the run go on has proof that
      the backend writes to this NetBox.
    - BatchSync (C16): a selected object stays with the endpoint whose rows
      own it.
    - Redaction (C22): what is shown does not depend on the credentials, and
      the rest stays.
    - StageExec (C25, C26): the retries of a stage and their budget.
    - BranchLifecycle (C27): a merge is checked against the branch afterwards.
    - IntentDiffs (C28), DescriptionMetadata (C30), IntentPayload (C31): the
      union of both change streams refines its specification, the metadata
      block survives a round trip, payloads carry the columns of their machine.
    - PveCalendar (C29): the parser accepts exactly its grammar.
    - EndpointScope (C32): each endpoint is addressed through its own backend
      row.
    - StageFailure (C33): the cause that a failed stage reports.
    - SyncModes (C34): the cascade of modes is the closure of the hierarchy.
    - CalendarGrid (C35) and CalendarProjection (C36): the events of the month
      view, and the days of a projected schedule in the zone of the viewer.
    - IndividualSync (C39): dependencies stay in the scope of their object.

    Specifications are written apart from the code: where a theorem compares
    with what is meant (the rows that own an object, the names of credentials,
    the changes a branch asks for, the day a moment has in a zone), the
    definitions it compares with do not call the modelled functions.

    Further theorems without a number describe the same components: the exact
    expansion of sync types and the place of interfaces before addresses, the
    decision on branching and its provisioning, the recursion over
    dependencies, the totals and the timeout of a run, the bounds of the key
    check, the owner and the parameters of a job row, tenants that are never
    overwritten, the window of a next run, and so on.

    Examples beside them show the behaviours listed as findings: runs that
    finish green without having synchronised, a claim lost on the first save,
    what overlapping approvals and a late expiry sweep can do, a deletion that
    was executed and is recorded as failed, a merge that a failing read lets
    through, an echoed input that makes the job try again, values that a sweep
    of a text leaves behind, an endpoint whose broken target cannot be
    replaced.

    ** Bounds and fuel

    - Json: the parser's fuel is twice the length of the text and two more;
      every second step of it consumes a character.
    - The cascade of modes is computed with fuel 3, the depth of
      [SYNC_MODE_HIERARCHY]; C34 proves it reaches the closure.
    - Dependencies of an object recurse to Python's limit of 1000 calls
      ([dependency_recursion_guarded]).
    - Provisioning of a branch polls every half second for 60 seconds, so that
      its 200 rounds are more than enough ([branch_provisioning_total]).
    - Stages have at most [_STAGE_RETRY_MAX] retries and the key check at most
      [BACKEND_KEY_RETRY_MAX_ATTEMPTS] attempts, as in the code.
    - Error bodies are searched to [_CAUSE_RECURSION_LIMIT], as in the code.
    - The substitution of metadata blocks runs with the length of the text and
      one more as fuel, since each step consumes a character; the month of a
      day is searched among the eleven months before December.
    - Redaction replaces matches with the length of the text as fuel, since
      each step consumes a character.
    - The stream and the plain requests have two passes, the second after
      the renewal of a refused key, and readiness is polled at most
      [max_retries] times, as in the code.

    ** Not modelled

    The local phases that write clusters, nodes, firewall objects, CPU models
    and templates from backend payloads, the push of the NetBox endpoint, the
    display of service status, the service monitoring job, the firewall
    previews, the websocket client and the relay of raw stream lines
    ([iter_backend_sse_lines]), storage of credentials in OpenBao and its skip
    mode, what follows the commit of a pending endpoint, instances that hold a
    proof from an earlier form validation, and the declarative parts (models,
    forms, tables, serializers, migrations).  Guards and recovery of encrypted
    columns are modelled over one database whose statements may fail, without
    concurrent transactions, and there the save of a model behind a guard
    writes the row as it was validated (FastapiEndpoint has the save that
    encrypts the key again).  These steps are taken not to raise: the read of
    the request context before a stream (services/backend_context.py), the
    saves of log entries between the attempts of a stage, and the query for
    the enabled endpoints at the start of a staged run (its [except] branch,
    which keeps every requested id, is left out).  The thread pool of a
    run over selected objects is modelled one object at a time. *)
From Stdlib Require Import ZArith Lia Ascii String Permutation Sorted.
From stdpp Require Import base list sets strings pretty.

#[global] Open Scope string_scope.
#[global] Open Scope Z_scope.
#[global] Open Scope list_scope.

(** ** Python results: a value or a raised exception *)

Inductive exn :=
| RuntimeError (msg : string)
| ValueError (msg : string)
| TypeError (msg : string)
| AttributeError (msg : string)
| SyncJobDeadlineReached (msg : string)
| BranchingUnavailableError (msg : string)
| ProxboxPreflightError (msg : string)
| ValidationError (msg : string)
| RequestException (msg : string)
| DatabaseError (msg : string)
| OverflowError (msg : string)
| IndexError (msg : string)
| KeyError (msg : string)
| HttpError (msg : string)
| PlanClientError (msg : string)
| PermissionDeniedError (msg : string)
| ConnectionAuthorityError (msg : string)
| CloudImageBindingReceiptError (msg : string)
| AssertionError (msg : string)
| RequestFailed (detail : string) (status : option Z)
| FirewallPushError (reason detail : string) (status_code : Z)
| OperationalTargetError (reason detail : string) (status_code : Z)
| EncryptionError (cls msg : string)
| EncryptionRecoveryError (cls msg : string)
| BackendKeyAdoptionError (code msg : string) (status_code : option Z) (retry_after : option string)
| MultipleObjectsReturned (msg : string)
| ClusterBindingConflict
| RecursionError
| DoesNotExist.

Inductive result (A : Type) :=
| Ok (a : A)
| Err (e : exn).
Arguments Ok {A} a.
Arguments Err {A} e.

#[global] Instance Ok_inj A : Inj (=) (=) (@Ok A).
Proof. by intros a b [=]. Qed.

(** Code that can raise, in sequence: stdpp's [x ← m; k] and [mapM]. *)
#[global] Instance result_ret : MRet result := fun A a => Ok a.
#[global] Instance result_bind : MBind result := fun A B f m =>
  match m with Ok a => f a | Err e => Err e end.

(** A loop whose steps all succeed. *)
Lemma mapM_Ok {A B} (f : A -> result B) (g : A -> B) (l : list A) :
  (forall x, x ∈ l -> f x = Ok (g x)) -> mapM f l = Ok (List.map g l).
Proof.
  induction l as [|x l IH]; intros H; [done|]. simpl. rewrite (H x) by left. simpl.
  rewrite IH by (intros y Hy; apply H; by right). done.
Qed.

(** A loop that succeeded, step by step. *)
Lemma mapM_Ok_inv {A B} (f : A -> result B) (l : list A) (l' : list B) :
  mapM f l = Ok l' -> Forall2 (fun x y => f x = Ok y) l l'.
Proof.
  revert l'. induction l as [|x l IH]; intros l'; simpl; [by intros [= <-]|].
  destruct (f x) as [y|] eqn:Ex; simpl; [|done]. destruct (mapM f l) as [ys|]; simpl; [|done].
  intros [= <-]. constructor; auto.
Qed.

(** [str(exc)] *)
Definition exn_msg (e : exn) : string :=
  match e with
  | RuntimeError m | ValueError m | TypeError m | AttributeError m
  | SyncJobDeadlineReached m | BranchingUnavailableError m
  | ProxboxPreflightError m | ValidationError m | RequestException m
  | DatabaseError m | OverflowError m | IndexError m | KeyError m
  | HttpError m | PlanClientError m | PermissionDeniedError m | ConnectionAuthorityError m
  | CloudImageBindingReceiptError m | AssertionError m | MultipleObjectsReturned m => m
  | EncryptionError _ m | EncryptionRecoveryError _ m | BackendKeyAdoptionError _ m _ _ => m
  | FirewallPushError _ detail _ | OperationalTargetError _ detail _ => detail
  | RequestFailed detail _ => detail
  | ClusterBindingConflict =>
      "Cluster ownership is ambiguous or conflicts with an existing relation. " ++
      "Review this endpoint's linked Proxmox cluster tracking records and the " ++
      "native cluster's endpoint before retrying; synchronization cannot reassign ownership."
  | RecursionError => "maximum recursion depth exceeded"
  | DoesNotExist => "matching query does not exist."
  end.

(** [isinstance(exc, RuntimeError)]: the subclasses the program declares
    ([SyncJobDeadlineReached], [BranchingUnavailableError],
    [ProxboxPreflightError]) are runtime errors too, and so is the language's
    own [RecursionError]. *)
Definition is_runtime_error (e : exn) : bool :=
  match e with
  | RuntimeError _ | SyncJobDeadlineReached _ | BranchingUnavailableError _
  | ProxboxPreflightError _ | RecursionError => true
  | _ => false
  end.

(** ** Python strings *)

Definition is_space (c : ascii) : bool :=
  let n := nat_of_ascii c in
  (Nat.eqb n 32 || (Nat.leb 9 n && Nat.leb n 13) || (Nat.leb 28 n && Nat.leb n 31))%bool.

Fixpoint lstrip (s : string) : string :=
  match s with
  | String c s' => if is_space c then lstrip s' else s
  | EmptyString => EmptyString
  end.

Fixpoint rstrip (s : string) : string :=
  match s with
  | EmptyString => EmptyString
  | String c s' =>
      match rstrip s' with
      | EmptyString => if is_space c then EmptyString else String c EmptyString
      | r => String c r
      end
  end.

Definition strip (s : string) : string := lstrip (rstrip s).

(** [s.rstrip(c)] for one character. *)
Fixpoint rstrip_char (c0 : ascii) (s : string) : string :=
  match s with
  | EmptyString => EmptyString
  | String c s' =>
      match rstrip_char c0 s' with
      | EmptyString => if Ascii.eqb c c0 then EmptyString else String c EmptyString
      | r => String c r
      end
  end.

Definition lower_char (c : ascii) : ascii :=
  let n := nat_of_ascii c in
  if (Nat.leb 65 n && Nat.leb n 90)%bool then ascii_of_nat (n + 32)%nat else c.

Fixpoint lower (s : string) : string :=
  match s with
  | EmptyString => EmptyString
  | String c s' => String (lower_char c) (lower s')
  end.

Fixpoint startswith (p s : string) : bool :=
  match p, s with
  | EmptyString, _ => true
  | String a p', String b s' => (Ascii.eqb a b && startswith p' s')%bool
  | String _ _, EmptyString => false
  end.

(** [p in s] *)
Fixpoint contains (p s : string) : bool :=
  (startswith p s ||
   match s with
   | EmptyString => false
   | String _ s' => contains p s'
   end)%bool.

(** [s.endswith(p)] *)
Fixpoint endswith (p s : string) : bool :=
  (String.eqb p s ||
   match s with
   | EmptyString => false
   | String _ s' => endswith p s'
   end)%bool.

Fixpoint take_str (n : nat) (s : string) : string :=
  match n, s with
  | S n', String c s' => String c (take_str n' s')
  | _, _ => EmptyString
  end.

Fixpoint join (sep : string) (l : list string) : string :=
  match l with
  | [] => ""
  | [x] => x
  | x :: l' => x +:+ sep +:+ join sep l'
  end.

(** [s.replace(pat, rep)] for a non-empty [pat]; [skip] counts the characters
    of the last match still to drop. *)
Fixpoint replace_from (pat rep : string) (skip : nat) (s : string) : string :=
  match s with
  | EmptyString => EmptyString
  | String c s' =>
      match skip with
      | S n => replace_from pat rep n s'
      | O =>
          if startswith pat s then rep +:+ replace_from pat rep (String.length pat - 1) s'
          else String c (replace_from pat rep 0 s')
      end
  end.

Definition replace (pat rep s : string) : string := replace_from pat rep 0 s.

(** [s.removeprefix(p)] *)
Fixpoint drop_str (n : nat) (s : string) : string :=
  match n, s with
  | S n', String _ s' => drop_str n' s'
  | _, _ => s
  end.

Definition removeprefix (p s : string) : string :=
  if startswith p s then drop_str (String.length p) s else s.

(** [s.split(c)[0]] *)
Fixpoint split_first (c0 : ascii) (s : string) : string :=
  match s with
  | EmptyString => EmptyString
  | String c s' => if Ascii.eqb c c0 then EmptyString else String c (split_first c0 s')
  end.

(** [s.split(c)] *)
Fixpoint split (c0 : ascii) (s : string) : list string :=
  match s with
  | EmptyString => [EmptyString]
  | String c s' =>
      if Ascii.eqb c c0 then EmptyString :: split c0 s'
      else match split c0 s' with
           | [] => [String c EmptyString]
           | x :: l => String c x :: l
           end
  end.

Definition is_empty (s : string) : bool := String.eqb s "".
Definition nonempty (s : string) : bool := negb (is_empty s).
Definition mem_str (s : string) (l : list string) : bool := existsb (String.eqb s) l.
Definition slash : ascii := ascii_of_nat 47.
Definition newline : string := String (ascii_of_nat 10) "".

(** [a or b] on strings *)
Definition str_or (a b : string) : string := if is_empty a then b else a.

#[global] Arguments mem_str : simpl never.
#[global] Arguments strip : simpl never.
#[global] Arguments contains : simpl never.

(** ** Python dictionaries with string keys, in insertion order *)

Abbreviation dict V := (list (string * V)).

Fixpoint dget {V} (k : string) (d : dict V) : option V :=
  match d with
  | [] => None
  | (k', v) :: d' => if String.eqb k k' then Some v else dget k d'
  end.

(** [d[k] = v]: an existing key keeps its position. *)
Fixpoint dset {V} (k : string) (v : V) (d : dict V) : dict V :=
  match d with
  | [] => [(k, v)]
  | (k', v') :: d' => if String.eqb k k' then (k, v) :: d' else (k', v') :: dset k v d'
  end.

(** [del d[k]] *)
Definition ddel {V} (k : string) (d : dict V) : dict V :=
  List.filter (fun kv => negb (String.eqb k (fst kv))) d.

Definition dmem {V} (k : string) (d : dict V) : bool :=
  match dget k d with Some _ => true | None => false end.

Definition dkeys {V} (d : dict V) : list string := List.map fst d.

(** [d.update(e)] *)
Definition dupdate {V} (d e : dict V) : dict V :=
  fold_left (fun acc kv => dset (fst kv) (snd kv) acc) e d.

(** [d.get(k, default)] *)
Definition dget_or {V} (k : string) (dflt : V) (d : dict V) : V :=
  match dget k d with Some v => v | None => dflt end.

(** ** Python values: what JSON fields and loosely typed attributes hold.

    A float is represented by its [repr], which determines it; dictionaries
    have string keys, as JSON objects do. *)

Inductive pyval :=
| VNone
| VBool (b : bool)
| VInt (z : Z)
| VFloat (repr : string)
| VStr (s : string)
| VList (l : list pyval)
| VDict (d : list (string * pyval)).

(** [bool(v)] *)
Definition truthy (v : pyval) : bool :=
  match v with
  | VNone => false
  | VBool b => b
  | VInt z => negb (Z.eqb z 0)
  | VFloat r => negb (mem_str r ["0.0"; "-0.0"])
  | VStr s => nonempty s
  | VList l => match l with [] => false | _ => true end
  | VDict d => match d with [] => false | _ => true end
  end.

(** [v in (None, "")] *)
Definition none_or_empty (v : pyval) : bool :=
  match v with
  | VNone => true
  | VStr s => is_empty s
  | _ => false
  end.

Definition hex_digit (n : nat) : ascii :=
  ascii_of_nat (if Nat.ltb n 10 then 48 + n else 87 + n)%nat.

(** One character inside [repr] of a string delimited by [q]. *)
Definition repr_char (q c : ascii) : string :=
  let n := nat_of_ascii c in
  if Ascii.eqb c "\" then "\\"
  else if Ascii.eqb c q then String "\" (String q "")
  else if Nat.eqb n 10 then "\n"
  else if Nat.eqb n 13 then "\r"
  else if Nat.eqb n 9 then "\t"
  else if (Nat.ltb n 32 || Nat.eqb n 127)%bool
  then "\x" +:+ String (hex_digit (n / 16)) (String (hex_digit (n mod 16)) "")
  else String c "".

Fixpoint repr_body (q : ascii) (s : string) : string :=
  match s with
  | EmptyString => ""
  | String c s' => repr_char q c +:+ repr_body q s'
  end.

Definition single_quote : ascii := ascii_of_nat 39.
Definition double_quote : ascii := ascii_of_nat 34.

(** [repr(s)]: single quotes, unless the text has a single quote and no
    double quote. *)
Definition repr_str (s : string) : string :=
  let q :=
    if (contains (String single_quote "") s && negb (contains (String double_quote "") s))%bool
    then double_quote else single_quote in
  String q "" +:+ repr_body q s +:+ String q "".

Fixpoint repr (v : pyval) : string :=
  match v with
  | VNone => "None"
  | VBool b => if b then "True" else "False"
  | VInt z => pretty z
  | VFloat r => r
  | VStr s => repr_str s
  | VList l => "[" +:+ join ", " (List.map repr l) +:+ "]"
  | VDict d =>
      "{" +:+ join ", " (List.map (fun kv => repr_str (fst kv) +:+ ": " +:+ repr (snd kv)) d)
      +:+ "}"
  end.

(** [str(v)] *)
Definition str (v : pyval) : string :=
  match v with VStr s => s | _ => repr v end.

Definition as_str (v : pyval) : option string :=
  match v with VStr s => Some s | _ => None end.
Definition as_dict (v : pyval) : option (dict pyval) :=
  match v with VDict d => Some d | _ => None end.

(** [d.get(k)], with [None] for a missing key. *)
Definition get (k : string) (d : dict pyval) : pyval := dget_or k VNone d.

(** [a or b] *)
Definition py_or (a b : pyval) : pyval := if truthy a then a else b.

(** ** Integers in text: [int(s)] *)

Definition digit_val (c : ascii) : option Z :=
  let n := nat_of_ascii c in
  if (Nat.leb 48 n && Nat.leb n 57)%bool then Some (Z.of_nat n - 48) else None.

(** Digits with single underscores between them; [prev] tells whether the
    previous character was a digit. *)
Fixpoint int_digits (acc : Z) (prev : bool) (s : string) : option Z :=
  match s with
  | EmptyString => if prev then Some acc else None
  | String c s' =>
      match digit_val c with
      | Some d => int_digits (acc * 10 + d) true s'
      | None =>
          if (Ascii.eqb c "_" && prev)%bool then int_digits acc false s' else None
      end
  end.

Definition int_of_string (s : string) : option Z :=
  match strip s with
  | String "-" s' => option_map Z.opp (int_digits 0 false s')
  | String "+" s' => int_digits 0 false s'
  | s' => int_digits 0 false s'
  end.

(** ** [sorted(l, key=key)]: Python's sort is stable *)

Section SortBy.
Context {A : Type} (key : A -> Z).

Fixpoint insert_by (x : A) (l : list A) : list A :=
  match l with
  | [] => [x]
  | y :: l' => if key x <=? key y then x :: y :: l' else y :: insert_by x l'
  end.

Definition sort_by (l : list A) : list A := foldr insert_by [] l.

Definition key_le (x y : A) : Prop := key x <= key y.

Lemma insert_by_perm (x : A) (l : list A) : Permutation (insert_by x l) (x :: l).
Proof.
  induction l as [|y l IH]; simpl; [done|].
  case (key x <=? key y); [done|].
  rewrite IH. by constructor.
Qed.

Lemma sort_by_perm (l : list A) : Permutation (sort_by l) l.
Proof.
  induction l as [|x l IH]; simpl; [done|].
  rewrite insert_by_perm. by constructor.
Qed.

Lemma insert_by_sorted (x : A) (l : list A) :
  StronglySorted key_le l -> StronglySorted key_le (insert_by x l).
Proof.
  induction 1 as [|y l Hs IH Hall]; simpl; [by repeat constructor|].
  destruct (Z.leb_spec (key x) (key y)) as [Hle|Hlt].
  - constructor; [by constructor|]. constructor; [done|].
    eapply Forall_impl; [exact Hall|]. unfold key_le in *; intros z Hz; lia.
  - constructor; [done|].
    rewrite insert_by_perm. constructor; [unfold key_le; lia|done].
Qed.

Lemma sort_by_sorted (l : list A) : StronglySorted key_le (sort_by l).
Proof. induction l; simpl; [constructor|by apply insert_by_sorted]. Qed.

Lemma insert_by_head (x : A) (l : list A) :
  Forall (key_le x) l -> insert_by x l = x :: l.
Proof.
  destruct 1 as [|y l Hy _]; simpl; [done|].
  unfold key_le in Hy. by rewrite (proj2 (Z.leb_le _ _) Hy).
Qed.

(** Sorting a sorted list changes nothing. *)
Lemma sort_by_id (l : list A) : StronglySorted key_le l -> sort_by l = l.
Proof.
  induction 1 as [|x l _ IH Hall]; simpl; [done|].
  by rewrite IH, insert_by_head.
Qed.

Lemma sort_by_elem (x : A) (l : list A) : x ∈ sort_by l <-> x ∈ l.
Proof. by rewrite sort_by_perm. Qed.

Lemma sort_by_nodup (l : list A) : NoDup l -> NoDup (sort_by l).
Proof. by rewrite sort_by_perm. Qed.

(** Stability: the elements of one key keep their relative order. *)
Lemma insert_by_filter (k : Z) (x : A) (l : list A) :
  StronglySorted key_le l ->
  List.filter (fun y => key y =? k) (insert_by x l) =
  List.filter (fun y => key y =? k) (x :: l).
Proof.
  induction 1 as [|y l _ IH Hall]; simpl; [done|].
  destruct (Z.leb_spec (key x) (key y)) as [Hle|Hlt]; [done|].
  simpl in *. rewrite IH.
  destruct (Z.eqb_spec (key y) k), (Z.eqb_spec (key x) k); try done; lia.
Qed.

Lemma sort_by_stable (k : Z) (l : list A) :
  List.filter (fun y => key y =? k) (sort_by l) = List.filter (fun y => key y =? k) l.
Proof.
  induction l as [|x l IH]; simpl; [done|].
  rewrite insert_by_filter by apply sort_by_sorted. simpl. by rewrite IH.
Qed.

End SortBy.

(** Two sorted permutations agree when the key separates the elements. *)
Lemma sorted_perm_unique {A} (key : A -> Z) (l1 l2 : list A) :
  (forall x y, x ∈ l1 -> y ∈ l1 -> key x = key y -> x = y) ->
  StronglySorted (key_le key) l1 -> StronglySorted (key_le key) l2 ->
  Permutation l1 l2 -> l1 = l2.
Proof.
  revert l2. induction l1 as [|x l1 IH]; intros l2 Hinj Hs1 Hs2 Hp.
  - by apply Permutation_nil in Hp.
  - destruct l2 as [|y l2]; [by apply Permutation_sym, Permutation_nil in Hp|].
    inversion Hs1 as [|? ? Hs1' Ha1]; subst. inversion Hs2 as [|? ? Hs2' Ha2]; subst.
    rewrite !Forall_forall in *.
    assert (Hx : x ∈ y :: l2) by (rewrite <- Hp; left).
    assert (Hy : y ∈ x :: l1) by (rewrite Hp; left).
    assert (x = y) as ->.
    { apply Hinj; [left|done|]. unfold key_le in *.
      apply elem_of_cons in Hx as [->|Hx]; [done|].
      apply elem_of_cons in Hy as [->|Hy]; [done|].
      specialize (Ha1 _ Hy). specialize (Ha2 _ Hx). lia. }
    f_equal. apply IH; [|done|done|by apply Permutation_cons_inv in Hp].
    intros a b Ha Hb. apply Hinj; by right.
Qed.

(** ** Facts on membership tests, deduplication and dictionaries *)

Lemma mem_str_spec (s : string) (l : list string) : mem_str s l = true <-> s ∈ l.
Proof.
  unfold mem_str. rewrite existsb_exists. setoid_rewrite String.eqb_eq.
  rewrite list_elem_of_In. naive_solver.
Qed.

Lemma mem_str_false (s : string) (l : list string) : mem_str s l = false <-> s ∉ l.
Proof. rewrite <- mem_str_spec. by destruct (mem_str s l). Qed.

(** The loops [if x in seen: continue; seen.add(x); out.append(x)]. *)
Fixpoint dedup (seen : list string) (l : list string) : list string :=
  match l with
  | [] => []
  | x :: l' => if mem_str x seen then dedup seen l' else x :: dedup (x :: seen) l'
  end.

Lemma dedup_elem (l seen : list string) (x : string) :
  x ∈ dedup seen l <-> x ∈ l /\ x ∉ seen.
Proof.
  revert seen. induction l as [|y l IH]; intros seen; simpl; [set_solver|].
  destruct (mem_str y seen) eqn:E.
  - apply mem_str_spec in E. rewrite IH. set_solver.
  - apply mem_str_false in E. rewrite !elem_of_cons, IH.
    destruct (decide (x = y)) as [->|]; set_solver.
Qed.

Lemma dedup_nodup (l seen : list string) : NoDup (dedup seen l).
Proof.
  revert seen. induction l as [|y l IH]; intros seen; simpl; [constructor|].
  destruct (mem_str y seen); [done|]. constructor; [|done].
  rewrite dedup_elem. set_solver.
Qed.

Lemma dedup_id (l seen : list string) :
  NoDup l -> (forall x, x ∈ l -> x ∉ seen) -> dedup seen l = l.
Proof.
  intros Hnd. revert seen. induction Hnd as [|y l Hy Hnd IH]; intros seen Hs; simpl; [done|].
  rewrite (proj2 (mem_str_false y seen)) by (apply Hs; left).
  rewrite IH; [done|]. intros x Hx. apply not_elem_of_cons. split; [set_solver|apply Hs; set_solver].
Qed.

Lemma flat_map_ext_in {A B} (f g : A -> list B) (l : list A) :
  (forall x, x ∈ l -> f x = g x) -> flat_map f l = flat_map g l.
Proof.
  induction l as [|x l IH]; simpl; [done|]. intros H.
  rewrite H by left. rewrite IH; [done|]. intros y Hy. apply H. by right.
Qed.

Lemma app_empty_r (s : string) : s +:+ "" = s.
Proof. induction s as [|c s IH]; [done|]. change (String c (s +:+ "") = String c s). by f_equal. Qed.

(** ** Decimal text *)

(** Every character of [s] satisfies [P]. *)
Fixpoint all_chars (P : ascii -> bool) (s : string) : bool :=
  match s with
  | EmptyString => true
  | String c s' => (P c && all_chars P s')%bool
  end.

Lemma append_length (a b : string) :
  String.length (a +:+ b) = (String.length a + String.length b)%nat.
Proof. induction a as [|c a IH]; [done|]. apply (f_equal S IH). Qed.

Lemma all_chars_app (P : ascii -> bool) (s t : string) :
  all_chars P (s +:+ t) = (all_chars P s && all_chars P t)%bool.
Proof.
  induction s as [|c s IH]; [done|]. change (String c s +:+ t) with (String c (s +:+ t)). simpl.
  by rewrite IH, andb_assoc.
Qed.

Lemma all_chars_impl (P Q : ascii -> bool) (s : string) :
  (forall c, P c = true -> Q c = true) -> all_chars P s = true -> all_chars Q s = true.
Proof.
  intros HPQ. induction s as [|c s IH]; simpl; [done|].
  rewrite !andb_true_iff. naive_solver.
Qed.

Lemma rstrip_id (s : string) : all_chars (fun c => negb (is_space c)) s = true -> rstrip s = s.
Proof.
  induction s as [|c s IH]; simpl; [done|]. intros [Hc Hs]%andb_true_iff.
  rewrite IH by done. apply negb_true_iff in Hc. destruct s; [by rewrite Hc|done].
Qed.

Lemma strip_id (s : string) : all_chars (fun c => negb (is_space c)) s = true -> strip s = s.
Proof.
  intros Hs. unfold strip. rewrite rstrip_id by done. destruct s as [|c s]; [done|].
  simpl in *. apply andb_true_iff in Hs as [Hc _]. apply negb_true_iff in Hc. by rewrite Hc.
Qed.

Definition is_digit (c : ascii) : bool :=
  match digit_val c with Some _ => true | None => false end.

(** The characters of an integer's text. *)
Definition int_char (c : ascii) : bool := (is_digit c || Ascii.eqb c "-")%bool.

Lemma pretty_N_char_digit (x : N) :
  (x < 10)%N -> digit_val (pretty_N_char x) = Some (Z.of_N x).
Proof.
  intros Hx. assert (x ∈ [0; 1; 2; 3; 4; 5; 6; 7; 8; 9]%N) as Hin
    by (rewrite !elem_of_cons, elem_of_nil; lia).
  rewrite !elem_of_cons, elem_of_nil in Hin. destruct_or! Hin; subst x; done.
Qed.

Lemma pretty_N_go_chars (x : N) (s : string) :
  all_chars is_digit s = true -> all_chars is_digit (pretty_N_go x s) = true.
Proof.
  revert s. induction (N.lt_wf_0 x) as [x _ IH]; intros s Hs.
  assert (x = 0 ∨ 0 < x)%N as [->|Hx] by lia; [done|].
  rewrite pretty_N_go_step by done. apply IH; [by apply N.div_lt|]. cbn [all_chars].
  rewrite Hs, andb_true_r. unfold is_digit.
  by rewrite pretty_N_char_digit by (by apply N.mod_lt).
Qed.

Lemma pretty_N_chars (x : N) : all_chars is_digit (pretty x) = true.
Proof. unfold pretty, pretty_N. case_decide; [done|]. by apply pretty_N_go_chars. Qed.

Lemma pretty_Z_chars (z : Z) : all_chars int_char (pretty z) = true.
Proof.
  assert (Hd : forall x : N, all_chars int_char (pretty x) = true).
  { intros x. eapply all_chars_impl; [|apply pretty_N_chars]. unfold int_char. by intros c ->. }
  destruct z as [|p|p]; [done| |].
  - apply (Hd (Npos p)).
  - change (pretty (Zneg p)) with ("-" +:+ pretty (Npos p)). rewrite all_chars_app, Hd. done.
Qed.

Lemma int_char_not_space (c : ascii) : int_char c = true -> negb (is_space c) = true.
Proof. destruct c as [[] [] [] [] [] [] [] []]; by vm_compute. Qed.

Lemma strip_pretty (z : Z) : strip (pretty z) = pretty z.
Proof. apply strip_id. eapply all_chars_impl; [apply int_char_not_space|apply pretty_Z_chars]. Qed.

Lemma int_digits_pretty_go (x : N) (p : bool) (s : string) :
  int_digits 0 p (pretty_N_go x s) = int_digits (Z.of_N x) (p || bool_decide (x <> 0%N)) s.
Proof.
  revert p s. induction (N.lt_wf_0 x) as [x _ IH]; intros p s.
  assert (x = 0 ∨ 0 < x)%N as [->|Hx] by lia.
  { rewrite pretty_N_go_0. simpl. by rewrite orb_false_r. }
  rewrite pretty_N_go_step by done. rewrite IH by (by apply N.div_lt). cbn [int_digits].
  rewrite pretty_N_char_digit by (by apply N.mod_lt).
  rewrite (bool_decide_eq_true_2 (x <> 0%N)) by lia. rewrite orb_true_r. f_equal.
  rewrite (N.div_mod x 10) at 3 by done. lia.
Qed.

Lemma int_digits_pretty (x : N) : int_digits 0 false (pretty x) = Some (Z.of_N x).
Proof.
  unfold pretty, pretty_N. case_decide as Hx; [by subst|].
  rewrite int_digits_pretty_go. cbn. by rewrite bool_decide_eq_true_2.
Qed.

(** [int(str(z)) == z] *)
Lemma int_of_string_pretty (z : Z) : int_of_string (pretty z) = Some z.
Proof.
  unfold int_of_string. rewrite strip_pretty. destruct z as [|p|p]; [done| |].
  - change (pretty (Zpos p)) with (pretty (Npos p)).
    pose proof (int_digits_pretty (Npos p)) as Hp. pose proof (pretty_N_chars (Npos p)) as Hc.
    destruct (pretty (Npos p)) as [|c s]; [done|]. simpl in Hc. apply andb_true_iff in Hc as [Hc _].
    destruct c as [[] [] [] [] [] [] [] []]; try discriminate Hc; exact Hp.
  - change (pretty (Zneg p)) with (String "-" (pretty (Npos p))). cbn [option_map].
    by rewrite int_digits_pretty.
Qed.

Section DictFacts.
Context {V : Type}.
Implicit Types (d : dict V) (k : string) (v : V).

Lemma dget_dset_eq k v d : dget k (dset k v d) = Some v.
Proof.
  induction d as [|[k' v'] d IH]; simpl; [by rewrite String.eqb_refl|].
  destruct (String.eqb k k') eqn:E; simpl; by rewrite ?String.eqb_refl, ?E.
Qed.

Lemma dget_dset_ne k k' v d : k <> k' -> dget k (dset k' v d) = dget k d.
Proof.
  intros Hne. induction d as [|[k2 v2] d IH]; simpl.
  - by rewrite (proj2 (String.eqb_neq _ _) Hne).
  - destruct (String.eqb k' k2) eqn:E; simpl.
    + apply String.eqb_eq in E as <-. by rewrite (proj2 (String.eqb_neq _ _) Hne).
    + by rewrite IH.
Qed.

Lemma dget_ddel_eq k d : dget k (ddel k d) = None.
Proof.
  induction d as [|[k' v'] d IH]; simpl; [done|].
  destruct (String.eqb k k') eqn:E; simpl; [done|by rewrite E].
Qed.

Lemma dget_ddel_ne k k' d : k <> k' -> dget k (ddel k' d) = dget k d.
Proof.
  intros Hne. induction d as [|[k2 v2] d IH]; simpl; [done|].
  destruct (String.eqb k' k2) eqn:E; simpl; [|by rewrite IH].
  apply String.eqb_eq in E as <-. rewrite IH.
  by rewrite (proj2 (String.eqb_neq _ _) Hne).
Qed.

Lemma dget_in k v d : dget k d = Some v -> (k, v) ∈ d.
Proof.
  induction d as [|[k' v'] d IH]; simpl; [done|].
  destruct (String.eqb k k') eqn:E.
  - apply String.eqb_eq in E as ->. intros [= ->]. left.
  - intros H. right. auto.
Qed.

Lemma dget_none k d : dget k d = None <-> k ∉ dkeys d.
Proof.
  unfold dkeys. induction d as [|[k' v'] d IH]; simpl; [set_solver|].
  rewrite not_elem_of_cons. destruct (String.eqb k k') eqn:E.
  - apply String.eqb_eq in E as ->. naive_solver.
  - apply String.eqb_neq in E. rewrite IH. naive_solver.
Qed.

Lemma dkeys_dset k v d :
  dkeys (dset k v d) = if dmem k d then dkeys d else dkeys d ++ [k].
Proof.
  unfold dmem, dkeys. induction d as [|[k' v'] d IH]; simpl; [done|].
  destruct (String.eqb k k') eqn:E; simpl.
  - by apply String.eqb_eq in E as ->.
  - rewrite IH. by destruct (dget k d).
Qed.

Lemma dkeys_dset_elem k k' v d : k' ∈ dkeys (dset k v d) <-> k' = k \/ k' ∈ dkeys d.
Proof.
  rewrite dkeys_dset. unfold dmem. destruct (dget k d) eqn:E.
  - split; [by right|]. intros [->|]; [|done]. destruct (decide (k ∈ dkeys d)) as [|Hk]; [done|].
    apply dget_none in Hk. congruence.
  - rewrite elem_of_app, list_elem_of_singleton. tauto.
Qed.

Lemma dkeys_dset_nodup k v d : NoDup (dkeys d) -> NoDup (dkeys (dset k v d)).
Proof.
  rewrite dkeys_dset. unfold dmem. destruct (dget k d) eqn:E; [done|]. apply dget_none in E.
  intros Hd. apply NoDup_app. split; [done|]. split; [|apply NoDup_singleton].
  intros x Hx ->%list_elem_of_singleton. done.
Qed.

Lemma dget_nodup k v d : NoDup (dkeys d) -> (k, v) ∈ d -> dget k d = Some v.
Proof.
  unfold dkeys. induction d as [|[k' v'] d IH]; simpl; [by intros _ ?%not_elem_of_nil|].
  rewrite NoDup_cons, elem_of_cons. intros [Hk Hd] [[= -> ->]|Hin].
  - by rewrite String.eqb_refl.
  - destruct (String.eqb_spec k k') as [->|]; [|by apply IH]. exfalso. apply Hk.
    apply list_elem_of_In, in_map_iff. exists (k', v). split; [done|]. by apply list_elem_of_In.
Qed.

End DictFacts.

Create HintDb dict.
#[export] Hint Resolve dget_dset_eq dget_ddel_eq dget_in : dict.

(** Reads a dictionary that was just updated, deciding the key tests. *)
Ltac dict_simp :=
  repeat first
    [ rewrite dget_dset_eq
    | rewrite dget_ddel_eq
    | rewrite dget_dset_ne by (try congruence; discriminate)
    | rewrite dget_ddel_ne by (try congruence; discriminate) ].

(** Case analysis on every boolean test of the goal, keeping its value. *)
Ltac split_ifs :=
  repeat match goal with
  | |- context [if ?b then _ else _] => destruct b eqn:?
  end.
