(* ===== verification/Json.v ===== *)
(** * JSON text, as the program's calls to [json.loads] read it

    The stage composer looks for an error object encoded in a text.  The parser
    follows Python's: insignificant blanks, the non-finite literals, the escape
    sequences (a [\u] escape becomes the UTF-8 bytes of its code point), a
    repeated key keeping its first position and its last value.  A number with
    a fraction or an exponent is kept as its literal.  [fuel] bounds the nesting
    and the number of items; the length of the text is always enough, because
    every step of the parser consumes a character. *)
From Stdlib Require Import ZArith Lia Ascii String.
From stdpp Require Import base list strings pretty.
From S2P Require Import Prelude.

Definition json_space (c : ascii) : bool :=
  let n := nat_of_ascii c in
  (Nat.eqb n 32 || Nat.eqb n 9 || Nat.eqb n 10 || Nat.eqb n 13)%bool.

Fixpoint skip_ws (s : string) : string :=
  match s with
  | String c s' => if json_space c then skip_ws s' else s
  | EmptyString => EmptyString
  end.

Definition is_digit (c : ascii) : bool :=
  match digit_val c with Some _ => true | None => false end.

Fixpoint span_digits (s : string) : string * string :=
  match s with
  | String c s' =>
      if is_digit c then let '(d, r) := span_digits s' in (String c d, r) else ("", s)
  | EmptyString => ("", "")
  end.

Definition hex_val (c : ascii) : option Z :=
  let n := Z.of_nat (nat_of_ascii c) in
  if ((48 <=? n) && (n <=? 57))%bool then Some (n - 48)
  else if ((97 <=? n) && (n <=? 102))%bool then Some (n - 87)
  else if ((65 <=? n) && (n <=? 70))%bool then Some (n - 55)
  else None.

Definition byte (z : Z) : ascii := ascii_of_nat (Z.to_nat z).

Definition utf8 (cp : Z) : string :=
  if cp <? 128 then String (byte cp) ""
  else if cp <? 2048 then
    String (byte (192 + cp / 64)) (String (byte (128 + cp mod 64)) "")
  else if cp <? 65536 then
    String (byte (224 + cp / 4096))
      (String (byte (128 + (cp / 64) mod 64)) (String (byte (128 + cp mod 64)) ""))
  else
    String (byte (240 + cp / 262144))
      (String (byte (128 + (cp / 4096) mod 64))
        (String (byte (128 + (cp / 64) mod 64)) (String (byte (128 + cp mod 64)) ""))).

Definition hex4 (s : string) : option (Z * string) :=
  match s with
  | String a (String b (String c (String d r))) =>
      match hex_val a, hex_val b, hex_val c, hex_val d with
      | Some x, Some y, Some z, Some w => Some (x * 4096 + y * 256 + z * 16 + w, r)
      | _, _, _, _ => None
      end
  | _ => None
  end.

(** The text after [\u]: a surrogate pair is one code point. *)
Definition unicode_escape (s : string) : option (string * string) :=
  match hex4 s with
  | None => None
  | Some (hi, r) =>
      if ((55296 <=? hi) && (hi <=? 56319) && startswith "\u" r)%bool then
        match hex4 (drop_str 2 r) with
        | Some (lo, r') =>
            if ((56320 <=? lo) && (lo <=? 57343))%bool
            then Some (utf8 (65536 + (hi - 55296) * 1024 + (lo - 56320)), r')
            else Some (utf8 hi, r)
        | None => None
        end
      else Some (utf8 hi, r)
  end.

Definition simple_escape (c : ascii) : option string :=
  let n := nat_of_ascii c in
  if (Nat.eqb n 34 || Nat.eqb n 92 || Nat.eqb n 47)%bool then Some (String c "")
  else if Nat.eqb n 98 then Some (String (ascii_of_nat 8) "")
  else if Nat.eqb n 102 then Some (String (ascii_of_nat 12) "")
  else if Nat.eqb n 110 then Some (String (ascii_of_nat 10) "")
  else if Nat.eqb n 114 then Some (String (ascii_of_nat 13) "")
  else if Nat.eqb n 116 then Some (String (ascii_of_nat 9) "")
  else None.

(** The body of a string literal, after the opening quote. *)
Fixpoint parse_string (fuel : nat) (s : string) : option (string * string) :=
  match fuel with
  | O => None
  | S fuel' =>
      match s with
      | EmptyString => None
      | String c r =>
          let n := nat_of_ascii c in
          if Nat.eqb n 34 then Some ("", r)
          else if Nat.ltb n 32 then None
          else
            let piece :=
              if Nat.eqb n 92 then
                match r with
                | EmptyString => None
                | String e r' =>
                    if Nat.eqb (nat_of_ascii e) 117 then unicode_escape r'
                    else option_map (fun t => (t, r')) (simple_escape e)
                end
              else Some (String c "", r) in
            match piece with
            | None => None
            | Some (t, r') =>
                match parse_string fuel' r' with
                | Some (u, r'') => Some (t +:+ u, r'')
                | None => None
                end
            end
      end
  end.

Definition parse_fraction (s : string) : string * string :=
  match s with
  | String "." r =>
      match span_digits r with
      | ("", _) => ("", s)
      | (d, r') => (String "." d, r')
      end
  | _ => ("", s)
  end.

Definition parse_exponent (s : string) : string * string :=
  match s with
  | String e r =>
      if mem_str (String e "") ["e"; "E"] then
        let '(sign, r1) :=
          match r with
          | String c r' => if mem_str (String c "") ["+"; "-"] then (String c "", r') else ("", r)
          | EmptyString => ("", r)
          end in
        match span_digits r1 with
        | ("", _) => ("", s)
        | (d, r') => (String e "" +:+ sign +:+ d, r')
        end
      else ("", s)
  | EmptyString => ("", s)
  end.

Definition parse_number (s : string) : option (pyval * string) :=
  let '(sign, r) := match s with String "-" r => ("-", r) | _ => ("", s) end in
  let '(d, r1) := span_digits r in
  let '(ip, r2) :=
    match d with
    | String "0" _ => ("0", drop_str 1 r)
    | _ => (d, r1)
    end in
  if is_empty ip then None
  else
    let '(frac, r3) := parse_fraction r2 in
    let '(ex, r4) := parse_exponent r3 in
    if (is_empty frac && is_empty ex)%bool
    then option_map (fun z => (VInt z, r4)) (int_of_string (sign +:+ ip))
    else Some (VFloat (sign +:+ ip +:+ frac +:+ ex), r4).

Definition literal (t : string) (v : pyval) (s : string) : option (pyval * string) :=
  if startswith t s then Some (v, drop_str (String.length t) s) else None.

Definition or_else {A} (a b : option A) : option A :=
  match a with Some _ => a | None => b end.

Definition parse_atom (s : string) : option (pyval * string) :=
  or_else (literal "null" VNone s)
    (or_else (literal "true" (VBool true) s)
      (or_else (literal "false" (VBool false) s)
        (or_else (literal "NaN" (VFloat "nan") s)
          (or_else (literal "Infinity" (VFloat "inf") s)
            (or_else (literal "-Infinity" (VFloat "-inf") s) (parse_number s)))))).

(** A value, the items of an array after the first, and the members of an
    object, which is read up to its closing brace. *)
Fixpoint parse_value (fuel : nat) (s : string) : option (pyval * string) :=
  match fuel with
  | O => None
  | S f =>
      match skip_ws s with
      | String "{" r =>
          match skip_ws r with
          | String "}" r' => Some (VDict [], r')
          | r' => option_map (fun p => (VDict (fst p), snd p)) (parse_members f [] r')
          end
      | String "[" r =>
          match skip_ws r with
          | String "]" r' => Some (VList [], r')
          | r' => option_map (fun p => (VList (fst p), snd p)) (parse_items f r')
          end
      | String c r =>
          if Nat.eqb (nat_of_ascii c) 34
          then option_map (fun p => (VStr (fst p), snd p)) (parse_string (String.length r) r)
          else parse_atom (String c r)
      | EmptyString => None
      end
  end
with parse_items (fuel : nat) (s : string) : option (list pyval * string) :=
  match fuel with
  | O => None
  | S f =>
      match parse_value f s with
      | None => None
      | Some (v, r) =>
          match skip_ws r with
          | String "]" r' => Some ([v], r')
          | String "," r' => option_map (fun p => (v :: fst p, snd p)) (parse_items f r')
          | _ => None
          end
      end
  end
with parse_members (fuel : nat) (acc : dict pyval) (s : string) : option (dict pyval * string) :=
  match fuel with
  | O => None
  | S f =>
      match skip_ws s with
      | String q r =>
          if negb (Nat.eqb (nat_of_ascii q) 34) then None
          else
            match parse_string (String.length r) r with
            | None => None
            | Some (k, r1) =>
                match skip_ws r1 with
                | String ":" r2 =>
                    match parse_value f r2 with
                    | None => None
                    | Some (v, r3) =>
                        match skip_ws r3 with
                        | String "}" r4 => Some (dset k v acc, r4)
                        | String "," r4 => parse_members f (dset k v acc) r4
                        | _ => None
                        end
                    end
                | _ => None
                end
            end
      | EmptyString => None
      end
  end.

(** [json.loads(text)]; [None] is a [JSONDecodeError]. *)
Definition json_loads (text : string) : option pyval :=
  match parse_value (2 + 2 * String.length text) text with
  | Some (v, r) => if is_empty (skip_ws r) then Some v else None
  | None => None
  end.
