(* ===== verification/SyncTypes.v ===== *)
(** * Sync types (sync_types.py, choices.py)

    The slugs an operator selects, their dependency order, the expansion of a
    selection into the stages that run, and the proxbox-api stream path of each
    stage.  The theorems say that normalisation is a canonical form, that the
    expansion adds exactly the interface stage its documentation promises and
    orders it before the IP stage, and that no stage of a normalised selection
    is without a path. *)
From Stdlib Require Import ZArith Lia Permutation Sorted.
From stdpp Require Import base list sets strings pretty sorting.
From S2P Require Import Prelude.

Module SyncTypeChoices.
Definition VIRTUAL_MACHINES := "virtual-machines".
Definition STORAGE := "storage".
Definition VIRTUAL_MACHINES_DISKS := "vm-disks".
Definition VIRTUAL_MACHINES_BACKUPS := "vm-backups".
Definition VIRTUAL_MACHINES_SNAPSHOTS := "vm-snapshots".
Definition DEVICES := "devices".
Definition NETWORK_INTERFACES := "network-interfaces".
Definition VM_INTERFACES := "vm-interfaces".
Definition IP_ADDRESSES := "ip-addresses".
Definition SDN := "sdn".
Definition BACKUP_ROUTINES := "backup-routines".
Definition REPLICATIONS := "replications".
Definition TASK_HISTORY := "task-history".
Definition ALL := "all".
End SyncTypeChoices.
Import SyncTypeChoices.

Definition _SYNC_STAGE_ORDER : list string :=
  [ DEVICES; STORAGE; VIRTUAL_MACHINES; TASK_HISTORY; VIRTUAL_MACHINES_DISKS;
    VIRTUAL_MACHINES_BACKUPS; VIRTUAL_MACHINES_SNAPSHOTS; NETWORK_INTERFACES;
    VM_INTERFACES; IP_ADDRESSES; SDN; REPLICATIONS; BACKUP_ROUTINES ].

Definition _SYNC_TYPE_PATH : dict string :=
  [ (DEVICES, "dcim/devices/create");
    (STORAGE, "virtualization/virtual-machines/storage/create");
    (VIRTUAL_MACHINES, "virtualization/virtual-machines/create");
    (TASK_HISTORY, "virtualization/virtual-machines/task-history/create");
    (VIRTUAL_MACHINES_BACKUPS, "virtualization/virtual-machines/backups/all/create");
    (VIRTUAL_MACHINES_DISKS, "virtualization/virtual-machines/virtual-disks/create");
    (VIRTUAL_MACHINES_SNAPSHOTS, "virtualization/virtual-machines/snapshots/all/create");
    (REPLICATIONS, "proxmox/replication");
    (NETWORK_INTERFACES, "dcim/devices/interfaces/create");
    (VM_INTERFACES, "virtualization/virtual-machines/interfaces/create");
    (IP_ADDRESSES, "virtualization/virtual-machines/interfaces/ip-address/create");
    (SDN, "proxmox/sdn/create");
    (BACKUP_ROUTINES, "proxmox/cluster/backup") ].

Definition _VM_SCOPED_PATH_TEMPLATES : dict string :=
  [ (VIRTUAL_MACHINES, "virtualization/virtual-machines/{vm_id}/create");
    (VIRTUAL_MACHINES_DISKS, "virtualization/virtual-machines/{vm_id}/virtual-disks/create");
    (VIRTUAL_MACHINES_BACKUPS, "virtualization/virtual-machines/{vm_id}/backups/create");
    (VIRTUAL_MACHINES_SNAPSHOTS, "virtualization/virtual-machines/{vm_id}/snapshots/create") ].

Definition _ALLOWED_SYNC_SLUGS : list string := dkeys _SYNC_TYPE_PATH ++ [ALL].

(** [{t: i for i, t in enumerate(order)}.get(t, 99)] *)
Fixpoint order_index (i : Z) (order : list string) (t : string) : Z :=
  match order with
  | [] => 99
  | t' :: order' => if String.eqb t t' then i else order_index (i + 1) order' t
  end.

Definition _STAGE_ORDER_INDEX (t : string) : Z := order_index 0 _SYNC_STAGE_ORDER t.

Definition _TARGETED_VM_SYNC_TYPES : list string :=
  [VIRTUAL_MACHINES; VIRTUAL_MACHINES_BACKUPS; VIRTUAL_MACHINES_SNAPSHOTS].

Definition expanded_sync_stages (types : list string) : list string :=
  if bool_decide (types = [ALL]) then _SYNC_STAGE_ORDER
  else
    let expanded := types in
    let expanded :=
      if (mem_str NETWORK_INTERFACES expanded && negb (mem_str VM_INTERFACES expanded))%bool
      then expanded ++ [VM_INTERFACES] else expanded in
    let expanded :=
      if (mem_str IP_ADDRESSES expanded && negb (mem_str VM_INTERFACES expanded))%bool
      then expanded ++ [VM_INTERFACES] else expanded in
    dedup [] (sort_by _STAGE_ORDER_INDEX expanded).

(** The loop of [normalize_sync_types]: unknown slugs and repetitions are
    dropped, [seen] being the slugs already kept. *)
Fixpoint normalize_loop (seen : list string) (selected : list string) : list string :=
  match selected with
  | [] => []
  | raw :: rest =>
      let s := strip raw in
      if (negb (mem_str s _ALLOWED_SYNC_SLUGS) || mem_str s seen)%bool
      then normalize_loop seen rest
      else s :: normalize_loop (s :: seen) rest
  end.

Definition normalize_sync_types (selected : list string) : list string :=
  let uniq := normalize_loop [] selected in
  match uniq with
  | [] => [ALL]
  | _ => if mem_str ALL uniq then [ALL] else sort_by _STAGE_ORDER_INDEX uniq
  end.

Definition _sync_stream_path (sync_type : string) : result string :=
  match dget sync_type _SYNC_TYPE_PATH with
  | None => Err (ValueError ("Unknown sync_type: " +:+ repr_str sync_type))
  | Some base =>
      if is_empty base then Err (ValueError ("Unknown sync_type: " +:+ repr_str sync_type))
      else Ok (rstrip_char slash base +:+ "/stream")
  end.

Definition _sync_stream_paths_for_stage (sync_type : string) (netbox_vm_ids : list string) :
  result (list string) :=
  let whole :=
    match _sync_stream_path sync_type with
    | Ok p => Ok [p]
    | Err e => Err e
    end in
  match netbox_vm_ids with
  | [] => whole
  | _ =>
      match dget sync_type _VM_SCOPED_PATH_TEMPLATES with
      | None => whole
      | Some template =>
          if is_empty template then whole
          else
            Ok (List.map
                  (fun vm_id => rstrip_char slash (replace "{vm_id}" vm_id template) +:+ "/stream")
                  (List.filter nonempty netbox_vm_ids))
      end
  end.

(** Two decimal digits, as [f"{n:02d}"] for [0 <= n < 100]. *)
Definition pad2 (n : Z) : string := if n <? 10 then "0" +:+ pretty n else pretty n.

(** [seconds] is already truncated to whole seconds by [int]. *)
Definition _format_seconds (seconds : Z) : string :=
  let total := Z.max 0 seconds in
  let mins := total / 60 in
  let secs := total mod 60 in
  let hours := mins / 60 in
  let mins := mins mod 60 in
  if negb (hours =? 0) then pretty hours +:+ "h" +:+ pad2 mins +:+ "m" +:+ pad2 secs +:+ "s"
  else if negb (mins =? 0) then pretty mins +:+ "m" +:+ pad2 secs +:+ "s"
  else pretty secs +:+ "s".

(** ** Lemmas *)

Definition stage_le : string -> string -> Prop := key_le _STAGE_ORDER_INDEX.

Lemma order_index_inj (order : list string) (i : Z) (x y : string) :
  x ∈ order -> 0 <= i -> i + Z.of_nat (length order) <= 99 ->
  order_index i order x = order_index i order y -> x = y.
Proof.
  revert i. induction order as [|t order IH]; intros i Hx Hi Hlen Heq; [set_solver|].
  simpl in *.
  assert (Hge : forall l j z, j <= 99 - Z.of_nat (length l) -> j <= order_index j l z).
  { induction l as [|u l IHl]; intros j z Hj; simpl in *; [lia|].
    destruct (String.eqb z u); [lia|]. specialize (IHl (j + 1) z). lia. }
  pose proof (Hge order (i + 1) x ltac:(lia)). pose proof (Hge order (i + 1) y ltac:(lia)).
  destruct (String.eqb x t) eqn:Ex, (String.eqb y t) eqn:Ey; try lia.
  - apply String.eqb_eq in Ex, Ey. congruence.
  - apply String.eqb_neq in Ex. apply elem_of_cons in Hx as [->|Hx]; [done|].
    apply (IH (i + 1)); try lia; done.
Qed.

Lemma stage_index_inj (x y : string) :
  x ∈ _SYNC_STAGE_ORDER -> _STAGE_ORDER_INDEX x = _STAGE_ORDER_INDEX y -> x = y.
Proof. intros Hx. apply order_index_inj; [done|lia|by vm_compute]. Qed.

(** A slug that is allowed and is not [all] is one of the ordered stages. *)
Lemma allowed_stage (t : string) :
  t ∈ _ALLOWED_SYNC_SLUGS -> t <> ALL -> t ∈ _SYNC_STAGE_ORDER.
Proof.
  intros Hin Hne. cut (t ∈ ALL :: _SYNC_STAGE_ORDER); [by rewrite elem_of_cons; intros [->|]|].
  clear Hne. revert t Hin. apply Forall_forall.
  apply (bool_decide_unpack (Forall (fun t => t ∈ ALL :: _SYNC_STAGE_ORDER) _ALLOWED_SYNC_SLUGS)).
  by vm_compute.
Qed.

Lemma allowed_strip (t : string) : t ∈ _ALLOWED_SYNC_SLUGS -> strip t = t.
Proof.
  revert t. apply Forall_forall.
  apply (bool_decide_unpack (Forall (fun t => strip t = t) _ALLOWED_SYNC_SLUGS)).
  by vm_compute.
Qed.

Lemma normalize_loop_dedup (seen l : list string) :
  normalize_loop seen l =
  dedup seen (List.filter (fun s => mem_str s _ALLOWED_SYNC_SLUGS) (List.map strip l)).
Proof.
  revert seen. induction l as [|raw l IH]; intros seen; [done|].
  simpl normalize_loop. simpl List.map. simpl List.filter.
  destruct (mem_str (strip raw) _ALLOWED_SYNC_SLUGS) eqn:E; simpl; [|apply IH].
  destruct (mem_str (strip raw) seen) eqn:E2; simpl; by rewrite IH.
Qed.

(** The slugs a selection names once blanks and unknown slugs are gone. *)
Definition selects (selected : list string) (t : string) : Prop :=
  t ∈ _ALLOWED_SYNC_SLUGS /\ exists raw, raw ∈ selected /\ strip raw = t.

Lemma normalize_loop_elem (l : list string) (t : string) :
  t ∈ normalize_loop [] l <-> selects l t.
Proof.
  rewrite normalize_loop_dedup, dedup_elem. unfold selects.
  rewrite list_elem_of_In, filter_In, in_map_iff, mem_str_spec.
  setoid_rewrite list_elem_of_In. set_solver.
Qed.

Lemma normalize_loop_nodup (l : list string) : NoDup (normalize_loop [] l).
Proof. rewrite normalize_loop_dedup. apply dedup_nodup. Qed.

Lemma dedup_sorted (l seen : list string) :
  StronglySorted stage_le l -> StronglySorted stage_le (dedup seen l).
Proof.
  intros Hs. revert seen. induction Hs as [|x l Hs IH Hall]; intros seen; simpl; [constructor|].
  destruct (mem_str x seen); [done|]. constructor; [done|].
  apply Forall_forall. intros y Hy. apply dedup_elem in Hy as [Hy _].
  rewrite Forall_forall in Hall. auto.
Qed.

(** The list that [expanded_sync_stages] sorts, when it is not [[all]]. *)
Definition expansion_input (types : list string) : list string :=
  if ((mem_str NETWORK_INTERFACES types || mem_str IP_ADDRESSES types)
      && negb (mem_str VM_INTERFACES types))%bool
  then types ++ [VM_INTERFACES] else types.

Lemma expanded_eq (types : list string) :
  types <> [ALL] ->
  expanded_sync_stages types = dedup [] (sort_by _STAGE_ORDER_INDEX (expansion_input types)).
Proof.
  intros Hne. unfold expanded_sync_stages, expansion_input.
  rewrite bool_decide_eq_false_2 by done.
  assert (Happ : mem_str VM_INTERFACES (types ++ [VM_INTERFACES]) = true).
  { apply mem_str_spec. set_solver. }
  destruct (mem_str NETWORK_INTERFACES types), (mem_str VM_INTERFACES types) eqn:Ev,
    (mem_str IP_ADDRESSES types) eqn:Ei; simpl;
    rewrite ?Ev, ?Ei, ?Happ; simpl; rewrite ?andb_false_r; done.
Qed.

Lemma expanded_elem (types : list string) (t : string) :
  types <> [ALL] ->
  t ∈ expanded_sync_stages types <->
  t ∈ types \/
  (t = VM_INTERFACES /\ (NETWORK_INTERFACES ∈ types \/ IP_ADDRESSES ∈ types)).
Proof.
  intros Hne. rewrite expanded_eq by done. rewrite dedup_elem, sort_by_elem.
  unfold expansion_input.
  destruct (mem_str NETWORK_INTERFACES types) eqn:En, (mem_str IP_ADDRESSES types) eqn:Ei,
    (mem_str VM_INTERFACES types) eqn:Ev; simpl;
    rewrite ?mem_str_spec, ?mem_str_false in *; set_solver.
Qed.

Lemma expanded_sorted (types : list string) :
  StronglySorted stage_le (expanded_sync_stages types).
Proof.
  destruct (decide (types = [ALL])) as [->|Hne].
  - replace (expanded_sync_stages [ALL]) with (sort_by _STAGE_ORDER_INDEX _SYNC_STAGE_ORDER)
      by (by vm_compute).
    apply sort_by_sorted.
  - rewrite expanded_eq by done. apply dedup_sorted, sort_by_sorted.
Qed.

Lemma sort_uniq_canonical (u1 u2 : list string) :
  NoDup u1 -> NoDup u2 -> (forall t, t ∈ u1 <-> t ∈ u2) ->
  (forall t, t ∈ u1 -> t ∈ _SYNC_STAGE_ORDER) ->
  sort_by _STAGE_ORDER_INDEX u1 = sort_by _STAGE_ORDER_INDEX u2.
Proof.
  intros H1 H2 Heq Hin. apply (sorted_perm_unique _STAGE_ORDER_INDEX).
  - intros x y Hx _ . apply stage_index_inj. rewrite sort_by_elem in Hx. auto.
  - apply sort_by_sorted.
  - apply sort_by_sorted.
  - rewrite !sort_by_perm. by apply NoDup_Permutation.
Qed.

(** What normalisation computes, in terms of the slugs selected. *)
Lemma normalize_cases (l : list string) :
  (selects l ALL \/ (forall t, ~ selects l t)) /\ normalize_sync_types l = [ALL] \/
  ~ selects l ALL /\ (exists t, selects l t) /\
  normalize_sync_types l = sort_by _STAGE_ORDER_INDEX (normalize_loop [] l).
Proof.
  unfold normalize_sync_types.
  destruct (normalize_loop [] l) as [|x u] eqn:E.
  - left. split; [|done]. right. intros t. rewrite <- normalize_loop_elem, E. set_solver.
  - destruct (mem_str ALL (x :: u)) eqn:Ea.
    + left. split; [|done]. left. rewrite <- normalize_loop_elem, E. by apply mem_str_spec.
    + right. apply mem_str_false in Ea. rewrite <- E in *. rewrite normalize_loop_elem in Ea.
      split; [done|]. split; [|done]. exists x. rewrite <- normalize_loop_elem, E. left.
Qed.

Lemma normalize_elem (l : list string) (t : string) :
  t ∈ normalize_sync_types l -> t = ALL \/ t ∈ _SYNC_STAGE_ORDER.
Proof.
  destruct (normalize_cases l) as [[_ ->]|(Hall & _ & ->)]; [set_solver|].
  rewrite sort_by_elem, normalize_loop_elem. intros Hs. right.
  apply allowed_stage; [by destruct Hs|]. by intros ->.
Qed.

Lemma normalize_idempotent (l : list string) :
  normalize_sync_types (normalize_sync_types l) = normalize_sync_types l.
Proof.
  destruct (normalize_cases l) as [[_ ->]|(Hn & [t Ht] & Hl)]; [by vm_compute|].
  rewrite Hl. set (u := sort_by _STAGE_ORDER_INDEX (normalize_loop [] l)) in *.
  assert (Hu : forall x, x ∈ u <-> selects l x).
  { intros x. unfold u. by rewrite sort_by_elem, normalize_loop_elem. }
  assert (Hall : ALL ∉ u) by (by rewrite Hu).
  assert (Hloop : normalize_loop [] u = u).
  { rewrite normalize_loop_dedup. rewrite (List.map_ext_in strip id).
    - rewrite List.map_id. rewrite forallb_filter_id.
      + apply dedup_id; [|set_solver]. apply sort_by_nodup, normalize_loop_nodup.
      + apply forallb_forall. intros x Hx. apply mem_str_spec.
        apply list_elem_of_In, Hu in Hx. apply Hx.
    - intros x Hx. apply list_elem_of_In, Hu in Hx. apply allowed_strip, Hx. }
  unfold normalize_sync_types. rewrite Hloop.
  destruct u as [|x u'] eqn:E; [exfalso; by apply Hu, elem_of_nil in Ht|].
  rewrite <- E in *. rewrite (proj2 (mem_str_false ALL u) Hall).
  apply sort_by_id. rewrite E. subst u. rewrite <- E. apply sort_by_sorted.
Qed.

(** ** Properties *)

(** normalisation is a canonical form. Two selections that name the same
    known slugs, whatever the order, the repetitions, the surrounding blanks
    and the unknown slugs, normalise to the same list; and a normalised
    selection is its own normal form. *)
Theorem normalize_sync_types_canonical :
  (forall l1 l2, (forall t, selects l1 t <-> selects l2 t) ->
     normalize_sync_types l1 = normalize_sync_types l2) /\
  (forall l, normalize_sync_types (normalize_sync_types l) = normalize_sync_types l).
Proof.
  split.
  - intros l1 l2 Heq.
    destruct (normalize_cases l1) as [[H1 ->]|(Hn1 & [t1 Ht1] & ->)],
      (normalize_cases l2) as [[H2 ->]|(Hn2 & [t2 Ht2] & ->)].
    + done.
    + destruct H1 as [H1|H1]; [by apply Heq in H1|]. by apply Heq, H1 in Ht2.
    + destruct H2 as [H2|H2]; [by apply Heq in H2|]. by apply Heq, H2 in Ht1.
    + apply sort_uniq_canonical; auto using normalize_loop_nodup.
      * intros t. by rewrite !normalize_loop_elem.
      * intros t. rewrite normalize_loop_elem. intros Hs.
        apply allowed_stage; [by destruct Hs|by intros ->].
  - apply normalize_idempotent.
Qed.

(** the stages of an explicit selection are exactly the selected types,
    plus the VM-interface stage when node interfaces or IP addresses are
    selected; each occurs once, in dependency order. *)
Theorem expanded_sync_stages_exact (types : list string) :
  types <> [ALL] ->
  (forall t, t ∈ expanded_sync_stages types <->
     t ∈ types \/
     t = VM_INTERFACES /\ (NETWORK_INTERFACES ∈ types \/ IP_ADDRESSES ∈ types)) /\
  NoDup (expanded_sync_stages types) /\
  StronglySorted stage_le (expanded_sync_stages types).
Proof.
  intros Hne. split; [intros t; by apply expanded_elem|]. split.
  - rewrite expanded_eq by done. apply dedup_nodup.
  - apply expanded_sorted.
Qed.

Lemma expanded_sync_stages_exact_witness :
  expanded_sync_stages [IP_ADDRESSES; DEVICES; IP_ADDRESSES] =
    [DEVICES; VM_INTERFACES; IP_ADDRESSES] /\
  NoDup (expanded_sync_stages [IP_ADDRESSES; DEVICES; IP_ADDRESSES]).
Proof.
  split; [by vm_compute|].
  refine (proj1 (proj2 (expanded_sync_stages_exact [IP_ADDRESSES; DEVICES; IP_ADDRESSES] _))).
  discriminate.
Defined.

(** whatever was selected, when the IP-address stage runs the
    VM-interface stage runs before it, so an address never looks for an
    interface that this run has not reconciled yet. *)
Theorem interfaces_reconciled_before_ips (types : list string) :
  IP_ADDRESSES ∈ expanded_sync_stages types ->
  exists before between after,
    expanded_sync_stages types = before ++ VM_INTERFACES :: between ++ IP_ADDRESSES :: after.
Proof.
  intros Hip. pose proof (expanded_sorted types) as Hs.
  assert (Hvm : VM_INTERFACES ∈ expanded_sync_stages types).
  { destruct (decide (types = [ALL])) as [->|Hne].
    - apply mem_str_spec. by vm_compute.
    - apply expanded_elem in Hip; [|done]. apply expanded_elem; [done|].
      destruct Hip as [Hip|[Hip _]]; [auto|discriminate Hip]. }
  apply list_elem_of_split in Hvm as (l1 & l2 & Heq). rewrite Heq in *.
  apply elem_of_app in Hip as [Hip|Hip].
  - exfalso. apply (StronglySorted_app_1_elem_of _ _ _ IP_ADDRESSES VM_INTERFACES) in Hs;
      [|done|left]. vm_compute in Hs. by apply Hs.
  - apply elem_of_cons in Hip as [Hip|Hip]; [discriminate Hip|].
    apply list_elem_of_split in Hip as (l3 & l4 & ->). by exists l1, l3, l4.
Qed.

Lemma interfaces_reconciled_before_ips_witness :
  exists before between after,
    expanded_sync_stages [IP_ADDRESSES] =
    before ++ VM_INTERFACES :: between ++ IP_ADDRESSES :: after.
Proof.
  apply (interfaces_reconciled_before_ips [IP_ADDRESSES]).
  apply mem_str_spec. by vm_compute.
Defined.

(** Every selectable type has a stream path. *)
Lemma stage_has_path (t : string) :
  t ∈ _SYNC_STAGE_ORDER ->
  exists p, _sync_stream_path t = Ok p /\ endswith "/stream" p = true.
Proof.
  intros Ht.
  pose (ok := fun t => match _sync_stream_path t with
                       | Ok p => endswith "/stream" p | Err _ => false end).
  assert (Hok : ok t = true).
  { revert t Ht. apply Forall_forall.
    apply (bool_decide_unpack (Forall (fun t => ok t = true) _SYNC_STAGE_ORDER)). by vm_compute. }
  unfold ok in Hok. destruct (_sync_stream_path t) as [p|]; [eauto|done].
Qed.

Lemma expanded_normalized_stage (selected : list string) (stage : string) :
  stage ∈ expanded_sync_stages (normalize_sync_types selected) -> stage ∈ _SYNC_STAGE_ORDER.
Proof.
  destruct (normalize_cases selected) as [[_ ->]|(Hn & _ & Heq)]; [done|].
  assert (Hne : normalize_sync_types selected <> [ALL]).
  { intros H. rewrite Heq in H. apply Hn. rewrite <- normalize_loop_elem.
    rewrite <- (sort_by_elem _STAGE_ORDER_INDEX), H. left. }
  rewrite expanded_elem by done.
  assert (Hall : ALL ∉ normalize_sync_types selected).
  { by rewrite Heq, sort_by_elem, normalize_loop_elem. }
  intros [Hin|[-> _]]; [|by apply mem_str_spec; vm_compute].
  destruct (normalize_elem _ _ Hin) as [->|]; done.
Qed.

Lemma endswith_app (s : string) : endswith "/stream" (s +:+ "/stream") = true.
Proof. induction s as [|c s IH]; [done|]. simpl. rewrite IH. apply orb_true_r. Qed.

(** no stage of a normalised selection is without a backend path: the
    [ValueError] of [_sync_stream_path] is unreachable from a job run, every
    path is a stream route, and a run that targets no VM has exactly one path
    per stage. *)
Theorem normalized_stages_have_paths (selected netbox_vm_ids : list string) (stage : string) :
  stage ∈ expanded_sync_stages (normalize_sync_types selected) ->
  exists paths,
    _sync_stream_paths_for_stage stage netbox_vm_ids = Ok paths /\
    Forall (fun p => endswith "/stream" p = true) paths /\
    (netbox_vm_ids = [] -> length paths = 1%nat).
Proof.
  intros Hst. apply expanded_normalized_stage, stage_has_path in Hst as (p & Hp & Hend).
  unfold _sync_stream_paths_for_stage. rewrite Hp.
  destruct netbox_vm_ids as [|v vs]; [by exists [p]; auto|].
  destruct (dget stage _VM_SCOPED_PATH_TEMPLATES) as [tmpl|]; [|by exists [p]; auto].
  destruct (is_empty tmpl); [by exists [p]; auto|].
  eexists; split; [done|]. split; [|done].
  apply Forall_forall. intros q Hq. apply list_elem_of_In, in_map_iff in Hq as (i & <- & _).
  apply endswith_app.
Qed.

Lemma normalized_stages_have_paths_witness :
  exists paths,
    _sync_stream_paths_for_stage VIRTUAL_MACHINES ["7"; ""] = Ok paths /\
    Forall (fun p => endswith "/stream" p = true) paths /\
    (["7"; ""] = [] -> length paths = 1%nat).
Proof.
  apply (normalized_stages_have_paths [" all "]).
  apply mem_str_spec. by vm_compute.
Defined.
