(* ===== verification/StageFailure.v ===== *)
(** * Failed stages (backend_errors.py, sync_types.py, sync_stages.py)

    How a backend error body becomes an operator-facing text, when a failed
    stage may be retried, which attempt is reported as the cause, and how the
    message is composed.  Payloads are the JSON objects that the stream client
    returns. *)
From Stdlib Require Import ZArith Lia String.
From stdpp Require Import base list sets strings pretty.
From S2P Require Import Prelude Json.

(** ** Error text *)

(** [_detail_text] and [combine_backend_message_and_detail] as the stage
    composer calls them, that is without [render_structured]. *)
Definition _detail_text (value : pyval) : string :=
  match value with VStr s => strip s | _ => "" end.

Definition combine_backend_message_and_detail (payload : dict pyval) : option string :=
  let message := match get "message" payload with VStr s => strip s | _ => "" end in
  let detail := _detail_text (get "detail" payload) in
  if is_empty detail then (if is_empty message then None else Some message)
  else if (is_empty message || String.eqb message detail || contains message detail)%bool
  then Some detail
  else if (startswith "{" detail || startswith "[" detail)%bool then Some detail
  else Some (message +:+ ": " +:+ detail).

Definition _coerce_backend_error_payload (value : pyval) : option (dict pyval) :=
  match value with
  | VDict d => Some d
  | VStr s =>
      let text := strip s in
      if negb (startswith "{" text) then None
      else match json_loads text with Some (VDict d) => Some d | _ => None end
  | _ => None
  end.

(** [isinstance(v, str) and v.strip()]: the stripped text when not blank. *)
Definition nonblank (v : pyval) : option string :=
  match v with
  | VStr s => let t := strip s in if is_empty t then None else Some t
  | _ => None
  end.

(** The first entry of [errors] with a usable [detail] or [message]. *)
Fixpoint first_nested_error (l : list pyval) : option string :=
  match l with
  | [] => None
  | VDict item :: l' =>
      match nonblank (py_or (get "detail" item) (get "message" item)) with
      | Some t => Some t
      | None => first_nested_error l'
      end
  | _ :: l' => first_nested_error l'
  end.

Definition _extract_backend_error_text (payload : dict pyval) : option string :=
  match combine_backend_message_and_detail payload with
  | Some combined => Some combined
  | None =>
      match nonblank (get "error" payload) with
      | Some e => Some e
      | None =>
          match get "errors" payload with
          | VList errors => first_nested_error errors
          | _ => None
          end
      end
  end.

Definition postgres_slot_marker : string :=
  "remaining connection slots are reserved for roles with the superuser attribute".

Definition stage_failed (sync_type : string) (status : Z) : string :=
  "Stage '" +:+ sync_type +:+ "' failed (HTTP " +:+ pretty status +:+ "): ".

Definition _format_stage_sync_error (sync_type : string) (status : Z) (payload : dict pyval) :
  string :=
  let raw_text :=
    match _extract_backend_error_text payload with
    | Some t => t
    | None => "HTTP " +:+ pretty status
    end in
  (* [metadata_payload or payload]: an empty object is falsy *)
  let source_payload :=
    match _coerce_backend_error_payload (VStr raw_text) with
    | Some ((_ :: _) as d) => d
    | _ => payload
    end in
  let raw_text :=
    match nonblank (get "error" source_payload) with Some e => e | None => raw_text end in
  if contains postgres_slot_marker (lower raw_text) then
    stage_failed sync_type status +:+
    "NetBox database is overloaded and has no free PostgreSQL connections for this sync. " +:+
    "Wait for running jobs to finish, then retry. " +:+
    "If this keeps happening, increase PostgreSQL connection capacity or reduce concurrent sync jobs."
  else
    let raw_text :=
      match nonblank (get "exception" source_payload) with
      | Some x => raw_text +:+ " (" +:+ x +:+ ")"
      | None => raw_text
      end in
    stage_failed sync_type status +:+ raw_text.

(** ** Retry eligibility *)

Definition _TRANSPORT_FAILURE_MARKERS : list string :=
  [ "timed out"; "timeout error"; "timeouterror"; "read timeout"; "readtimeout";
    "connecttimeout"; "connectiontimeout"; "pooltimeout"; "writetimeout";
    "gateway timeout"; "gateway time-out"; "connection refused"; "connection reset";
    "connection aborted"; "connection error"; "cannot connect"; "bad gateway";
    "server disconnected"; "temporarily unavailable"; "service unavailable";
    "network is unreachable"; "name or service not known";
    "temporary failure in name resolution"; "nodename nor servname provided";
    "failed to resolve"; "max retries exceeded";
    "eof occurred in violation of protocol"; "remote end closed connection" ].

Definition _ERROR_CAUSE_KEYS : list string :=
  ["python_exception"; "exception"; "detail"; "message"; "error"].

Definition _NESTED_CAUSE_KEYS : list string := _ERROR_CAUSE_KEYS ++ ["msg"].

Definition _CAUSE_RECURSION_LIMIT : nat := 4.

(** [fuel] is the number of levels left before [depth > limit]: a call at depth
    0 has [limit + 1] levels. *)
Fixpoint iter_cause (fuel : nat) (value : pyval) : list string :=
  match fuel with
  | O => []
  | S fuel' =>
      match value with
      | VStr s => [s]
      | VList items => flat_map (iter_cause fuel') items
      | VDict d =>
          flat_map
            (fun key => match dget key d with Some v => iter_cause fuel' v | None => [] end)
            _NESTED_CAUSE_KEYS
      | _ => []
      end
  end.

Definition _iter_cause_strings (value : pyval) : list string :=
  iter_cause (S _CAUSE_RECURSION_LIMIT) value.

(** The text of a payload that is searched for the transport markers. *)
Definition cause_haystack (payload : dict pyval) : string :=
  join " "
    ((match _extract_backend_error_text payload with Some t => t | None => "" end)
     :: flat_map
          (fun key =>
             match dget key payload with Some v => _iter_cause_strings v | None => [] end)
          _ERROR_CAUSE_KEYS).

Definition any_marker (markers : list string) (haystack : string) : bool :=
  existsb (fun marker => contains marker (lower haystack)) markers.

Definition _names_transport_failure (payload : pyval) : bool :=
  any_marker _TRANSPORT_FAILURE_MARKERS
    (match payload with VDict d => cause_haystack d | _ => str payload end).

Definition _is_retryable_stage_failure (status : Z) (payload : pyval) : bool :=
  if ((status >=? 500) || (status =? 429))%bool then true
  else if negb (status =? 400) then false
  else _names_transport_failure payload.

(** ** Attribution *)

Inductive classification := transport | application.

#[global] Instance classification_eq_dec : EqDecision classification.
Proof. solve_decision. Defined.

Definition _TRANSPORT_ATTRIBUTION_MARKERS : list string :=
  [ "tls error"; "tls stream open failure"; "ssl error"; "sslerror";
    "certificate verify failed"; "eof occurred in violation of protocol";
    "ended without a complete event" ].

Definition _names_transport_attribution (payload : pyval) : bool :=
  any_marker _TRANSPORT_ATTRIBUTION_MARKERS
    (match payload with
     | VDict d => match _extract_backend_error_text d with Some t => t | None => "" end
     | _ => str payload
     end).

Definition _classify_stage_failure (status : Z) (payload : pyval) : classification :=
  let by_text :=
    if (_names_transport_failure payload || _names_transport_attribution payload)%bool
    then transport
    else if ((status =? 502) || (status =? 503) || (status =? 504))%bool then transport
    else application in
  match payload with
  | VDict d =>
      match get "failure_kind" d with
      | VStr kind =>
          if String.eqb kind "transport" then transport
          else if String.eqb kind "application" then application
          else if dmem "response" d then application else by_text
      | _ => if dmem "response" d then application else by_text
      end
  | _ => by_text
  end.

(** ** Failed attempts *)

Record _StageFailureAttempt := {
  attempt_index : nat;
  attempt_status : Z;
  attempt_detail : string;
  attempt_classification : classification;
  attempt_elapsed : Z;
  attempt_payload : dict pyval
}.

Definition is_application (a : _StageFailureAttempt) : bool :=
  bool_decide (attempt_classification a = application).

Definition _primary_stage_failure_attempt (attempts : list _StageFailureAttempt) :
  result _StageFailureAttempt :=
  match attempts with
  | [] => Err (ValueError "At least one failed stage attempt is required")
  | a0 :: _ =>
      match List.find is_application attempts with
      | Some a => Ok a
      | None => Ok (List.last attempts a0)
      end
  end.

Definition _truncate_stage_attempt_detail (detail : string) (limit : nat) : string :=
  if Nat.leb (String.length detail) limit then detail
  else take_str (limit - 3) detail +:+ "...".

Definition same_signature (a b : _StageFailureAttempt) : bool :=
  ((attempt_status a =? attempt_status b)
   && String.eqb (attempt_detail a) (attempt_detail b)
   && bool_decide (attempt_classification a = attempt_classification b))%bool.

Definition attempt_summary (a : _StageFailureAttempt) : string :=
  "Attempt " +:+ pretty (attempt_index a) +:+ ": HTTP " +:+ pretty (attempt_status a) +:+ " — "
  +:+ _truncate_stage_attempt_detail (attempt_detail a) 200.

Definition _compose_stage_failure_message (sync_type : string)
  (attempts : list _StageFailureAttempt) : result string :=
  match _primary_stage_failure_attempt attempts with
  | Err e => Err e
  | Ok primary =>
      let message :=
        _format_stage_sync_error sync_type (attempt_status primary) (attempt_payload primary) in
      (* [len(signatures) == 1] *)
      if forallb (same_signature primary) attempts then Ok message
      else
        Ok (join newline
              (message
               :: List.map attempt_summary
                    (List.filter
                       (fun a => negb (Nat.eqb (attempt_index a) (attempt_index primary)))
                       attempts)))
  end.

Definition _backend_not_ready_attempt (attempts : list _StageFailureAttempt) :
  option _StageFailureAttempt :=
  List.find
    (fun a => (((attempt_status a =? 503) || (attempt_status a =? 404))
               && contains "init_ok" (attempt_detail a))%bool)
    attempts.

(** ** What the retry classifier reads *)

(** The value with every [input] field, at any depth, blanked.  FastAPI echoes
    the submitted request body under that key. *)
Fixpoint blank_input (v : pyval) : pyval :=
  match v with
  | VList l => VList (List.map blank_input l)
  | VDict d =>
      VDict (List.map
               (fun kv => (fst kv, if String.eqb (fst kv) "input" then VNone
                                   else blank_input (snd kv))) d)
  | _ => v
  end.

Definition blank_dict (d : dict pyval) : dict pyval :=
  List.map (fun kv => (fst kv, if String.eqb (fst kv) "input" then VNone
                               else blank_input (snd kv))) d.

Lemma dget_blank (k : string) (d : dict pyval) :
  k <> "input" -> dget k (blank_dict d) = option_map blank_input (dget k d).
Proof.
  intros Hk. induction d as [|[k' v] d IH]; simpl; [done|].
  destruct (String.eqb_spec k k') as [<-|]; [|done].
  by rewrite (proj2 (String.eqb_neq _ _) Hk).
Qed.

Lemma get_blank (k : string) (d : dict pyval) :
  k <> "input" -> get k (blank_dict d) = blank_input (get k d).
Proof. intros Hk. unfold get, dget_or. rewrite dget_blank by done. by destruct (dget k d). Qed.

Lemma truthy_blank (v : pyval) : truthy (blank_input v) = truthy v.
Proof. by destruct v as [| | | | |[]|[]]. Qed.

Lemma nonblank_blank (v : pyval) : nonblank (blank_input v) = nonblank v.
Proof. by destruct v. Qed.

Lemma detail_text_blank (v : pyval) : _detail_text (blank_input v) = _detail_text v.
Proof. by destruct v. Qed.

Lemma py_or_blank (a b : pyval) :
  py_or (blank_input a) (blank_input b) = blank_input (py_or a b).
Proof. unfold py_or. rewrite truthy_blank. by destruct (truthy a). Qed.

Lemma first_nested_blank (l : list pyval) :
  first_nested_error (List.map blank_input l) = first_nested_error l.
Proof.
  induction l as [|v l IH]; simpl; [done|].
  destruct v as [| | | | | |item]; simpl; try exact IH.
  fold (blank_dict item). rewrite !get_blank, py_or_blank, nonblank_blank by done.
  by destruct (nonblank _).
Qed.

Lemma extract_blank (d : dict pyval) :
  _extract_backend_error_text (blank_dict d) = _extract_backend_error_text d.
Proof.
  unfold _extract_backend_error_text, combine_backend_message_and_detail.
  rewrite !get_blank, detail_text_blank, nonblank_blank by done.
  replace (match blank_input (get "message" d) with VStr s => strip s | _ => "" end)
    with (match get "message" d with VStr s => strip s | _ => "" end)
    by (by destruct (get "message" d)).
  destruct (get "errors" d) as [| | | | |l|]; simpl; by rewrite ?first_nested_blank.
Qed.

Lemma cause_key_not_input (k : string) : k ∈ _NESTED_CAUSE_KEYS -> k <> "input".
Proof. intros Hk ->. apply mem_str_spec in Hk. by vm_compute in Hk. Qed.

Lemma iter_cause_blank (fuel : nat) (v : pyval) :
  iter_cause fuel (blank_input v) = iter_cause fuel v.
Proof.
  revert v. induction fuel as [|fuel IH]; intros v; [done|].
  destruct v as [| | | | |l|d]; try done.
  - simpl. induction l as [|x l IHl]; simpl; [done|]. by rewrite IH, IHl.
  - change (blank_input (VDict d)) with (VDict (blank_dict d)). cbn [iter_cause].
    apply flat_map_ext_in. intros k Hk. rewrite dget_blank by (by apply cause_key_not_input).
    destruct (dget k d); simpl; auto.
Qed.

Lemma cause_haystack_blank (d : dict pyval) : cause_haystack (blank_dict d) = cause_haystack d.
Proof.
  unfold cause_haystack. rewrite extract_blank. f_equal. f_equal.
  apply flat_map_ext_in. intros k Hk. rewrite dget_blank.
  - destruct (dget k d); simpl; [apply iter_cause_blank|done].
  - apply cause_key_not_input. set_solver.
Qed.

(** Lemmas on the attempts of one stage. *)

Lemma find_app_split {A} (f : A -> bool) (l : list A) (a : A) :
  List.find f l = Some a ->
  exists l1 l2, l = l1 ++ a :: l2 /\ f a = true /\ Forall (fun x => f x = false) l1.
Proof.
  induction l as [|x l IH]; simpl; [done|]. destruct (f x) eqn:E.
  - intros [= ->]. exists [], l. auto.
  - intros (l1 & l2 & -> & Ha & Hall)%IH. exists (x :: l1), l2. auto.
Qed.

Lemma primary_total (attempts : list _StageFailureAttempt) :
  attempts <> [] -> exists a, _primary_stage_failure_attempt attempts = Ok a.
Proof.
  destruct attempts as [|a0 l]; [done|]. intros _. unfold _primary_stage_failure_attempt.
  destruct (List.find _ _); eauto.
Qed.

(** ** Properties *)

(** The classifier reads no text under an [input] field of a structured
    payload: two payloads that differ only there, at any depth, are classified
    alike.  That does not cover a payload whose [detail] is text, into which the
    stream client renders a structured error, echoed input included. *)
Lemma classifier_skips_input (status : Z) (d1 d2 : dict pyval) :
  blank_input (VDict d1) = blank_input (VDict d2) ->
  _is_retryable_stage_failure status (VDict d1) = _is_retryable_stage_failure status (VDict d2).
Proof.
  intros [= Heq]. fold (blank_dict d1) (blank_dict d2) in Heq.
  unfold _is_retryable_stage_failure, _names_transport_failure.
  by rewrite <- (cause_haystack_blank d1), <- (cause_haystack_blank d2), Heq.
Qed.

(** C33: attribution of a failed stage. Every non-empty sequence of attempts
    has a primary one; it is the first application failure when there is one,
    whatever transport failures came before or after it, and otherwise the
    last attempt; and the composed message opens with the primary cause. *)
Theorem primary_cause_reported (sync_type : string) (attempts : list _StageFailureAttempt) :
  attempts <> [] ->
  exists primary rest,
    _primary_stage_failure_attempt attempts = Ok primary /\
    _compose_stage_failure_message sync_type attempts =
      Ok (_format_stage_sync_error sync_type (attempt_status primary) (attempt_payload primary)
          +:+ rest) /\
    ((exists before after, attempts = before ++ primary :: after /\
        attempt_classification primary = application /\
        Forall (fun a => attempt_classification a = transport) before)
     \/ (Forall (fun a => attempt_classification a = transport) attempts /\
         exists before, attempts = before ++ [primary])).
Proof.
  intros Hne. destruct (primary_total attempts Hne) as (primary & Hp).
  assert (Hrest : exists rest, _compose_stage_failure_message sync_type attempts =
      Ok (_format_stage_sync_error sync_type (attempt_status primary) (attempt_payload primary)
          +:+ rest)).
  { unfold _compose_stage_failure_message. rewrite Hp.
    destruct (forallb _ _); [exists ""; by rewrite app_empty_r|].
    destruct (List.map attempt_summary _) as [|x l]; [exists ""; by rewrite app_empty_r|].
    by eexists. }
  destruct Hrest as [rest Hrest]. exists primary, rest. do 2 (split; [done|]).
  unfold _primary_stage_failure_attempt in Hp. destruct attempts as [|a0 l]; [done|].
  destruct (List.find is_application (a0 :: l)) as [a|] eqn:F.
  - left. injection Hp as <-. apply find_app_split in F as (l1 & l2 & -> & Ha & Hall).
    exists l1, l2. split; [done|]. unfold is_application in *.
    rewrite bool_decide_eq_true in Ha. split; [done|].
    eapply Forall_impl; [exact Hall|]. simpl. intros x Hx.
    apply bool_decide_eq_false in Hx. by destruct (attempt_classification x).
  - right. split.
    + apply Forall_forall. intros x Hx%list_elem_of_In.
      pose proof (find_none _ _ F x Hx) as Hf. unfold is_application in Hf.
      apply bool_decide_eq_false in Hf. by destruct (attempt_classification x).
    + destruct (exists_last (l := a0 :: l)) as (l' & x & Heq); [done|].
      exists l'. assert (primary = List.last (a0 :: l) a0) as -> by congruence.
      by rewrite Heq, last_last.
Qed.

Definition sample_timeout : _StageFailureAttempt :=
  {| attempt_index := 1; attempt_status := 503; attempt_detail := "timed out";
     attempt_classification := transport; attempt_elapsed := 0;
     attempt_payload := [("detail", VStr "timed out")] |}.

Definition sample_rejection : _StageFailureAttempt :=
  {| attempt_index := 2; attempt_status := 400; attempt_detail := "bad tag";
     attempt_classification := application; attempt_elapsed := 0;
     attempt_payload := [("detail", VStr "bad tag")] |}.

Lemma primary_cause_reported_witness :
  exists primary rest,
    _primary_stage_failure_attempt [sample_timeout; sample_rejection] = Ok primary /\
    _compose_stage_failure_message "devices" [sample_timeout; sample_rejection] =
      Ok (_format_stage_sync_error "devices" (attempt_status primary) (attempt_payload primary)
          +:+ rest) /\
    ((exists before after, [sample_timeout; sample_rejection] = before ++ primary :: after /\
        attempt_classification primary = application /\
        Forall (fun x => attempt_classification x = transport) before)
     \/ (Forall (fun x => attempt_classification x = transport) [sample_timeout; sample_rejection] /\
         exists before, [sample_timeout; sample_rejection] = before ++ [primary])).
Proof. apply primary_cause_reported. discriminate. Defined.
