(* ===== verification/SyncModes.v ===== *)
(** * Per-resource sync modes and request parameters
    (constants.py, sync_params.py, sync_stages.py, models/proxmox_endpoint.py)

    The NetBox rows the sync reads (the settings singleton and the Proxmox
    endpoints), the resolution of overwrite flags and sync modes for an
    endpoint, the parent-to-child cascade of the mode [disabled], the reason a
    stage is skipped, and the query parameters of a stage.  The theorems show
    that the recursive cascade computes the closure of "disabled" along the
    declared hierarchy, and that resolution falls back to the global settings
    exactly where the endpoint has no value of its own. *)
From Stdlib Require Import ZArith Lia String.
From stdpp Require Import base list sets strings pretty.
From S2P Require Import Prelude SyncTypes.

(** ** Data *)

Definition ALWAYS := "always".
Definition BOOTSTRAP_ONLY := "bootstrap_only".
Definition DISABLED := "disabled".

Definition SYNC_MODE_FIELDS : list string :=
  [ "sync_mode_vm"; "sync_mode_vm_template"; "sync_mode_vm_interface"; "sync_mode_mac";
    "sync_mode_ip_address"; "sync_mode_cluster"; "sync_mode_node"; "sync_mode_storage";
    "sync_mode_sdn"; "sync_mode_sdn_bgp" ].

Definition SYNC_MODE_RESOURCE_TYPES : list string :=
  List.map (removeprefix "sync_mode_") SYNC_MODE_FIELDS.

Definition SYNC_MODE_HIERARCHY : dict string :=
  [ ("node", "cluster"); ("vm_interface", "vm"); ("ip_address", "vm_interface");
    ("mac", "vm_interface"); ("sdn_bgp", "sdn") ].

Definition OVERWRITE_FIELDS : list string :=
  [ "overwrite_device_role"; "overwrite_device_type"; "overwrite_device_tags";
    "overwrite_device_status"; "overwrite_device_description";
    "overwrite_device_custom_fields"; "overwrite_vm_role"; "overwrite_vm_type";
    "overwrite_vm_platform"; "overwrite_vm_tags"; "overwrite_vm_proxmox_tags";
    "overwrite_vm_description"; "overwrite_vm_custom_fields"; "overwrite_vm_cloudinit";
    "overwrite_cluster_tags"; "overwrite_cluster_description";
    "overwrite_cluster_custom_fields"; "overwrite_node_interface_tags";
    "overwrite_node_interface_custom_fields"; "overwrite_storage_tags";
    "overwrite_vm_interface_tags"; "overwrite_vm_interface_custom_fields";
    "overwrite_ip_status"; "overwrite_ip_tags"; "overwrite_ip_custom_fields";
    "overwrite_ip_address_dns_name" ].

Definition OVERWRITE_DEFAULTS (field : string) : bool :=
  negb (String.eqb field "overwrite_vm_platform").

(** The settings singleton.  The overwrite flags and the sync modes are read by
    field name, as the program reads them with [getattr]. *)
Record ProxboxPluginSettings := {
  use_guest_agent_interface_name : bool;
  vm_interface_sync_strategy : string;
  proxbox_fetch_max_concurrency : Z;
  ignore_ipv6_link_local_addresses : bool;
  primary_ip_preference : string;
  parse_description_metadata : bool;
  settings_overwrite : string -> bool;
  settings_sync_mode : string -> string;
  settings_enable_tenant_name_regex : bool;
  settings_tenant_name_regex_rules : list (dict pyval);
  settings_enable_tenant_tag_assignment : bool;
  settings_enable_tenant_from_cluster : bool
}.

(** A Proxmox endpoint row; [None] in an override means "inherit". *)
Record ProxmoxEndpoint := {
  endpoint_pk : Z;
  endpoint_name : string;
  endpoint_enabled : bool;
  endpoint_domain : string;
  endpoint_ip_address : option string;
  endpoint_port : Z;
  endpoint_overwrite : string -> option bool;
  endpoint_sync_mode : string -> option string;
  endpoint_enable_tenant_name_regex : option bool;
  endpoint_tenant_name_regex_rules : option (list (dict pyval));
  endpoint_enable_tenant_tag_assignment : option bool;
  endpoint_enable_tenant_from_cluster : option bool
}.

(** A reflected Proxmox cluster: its name, the core cluster it is bound to and the
    endpoint it was reflected from. *)
Record ProxmoxCluster := {
  proxmox_cluster_name : string;
  netbox_cluster_id : option Z;
  cluster_endpoint_id : option Z
}.

(** The rows of the NetBox database that the sync reads. [nb_settings] is
    [None] when the singleton cannot be loaded ([get_solo] raises a
    [RuntimeError]); the tables are in query order. *)
Record netbox := {
  nb_settings : option ProxboxPluginSettings;
  nb_endpoints : list ProxmoxEndpoint;
  nb_clusters : list ProxmoxCluster
}.

Definition find_endpoint (nb : netbox) (pk : Z) : option ProxmoxEndpoint :=
  List.find (fun e => endpoint_pk e =? pk) (nb_endpoints nb).

(** ** Settings accessors *)

Definition _use_guest_agent_interface_name_setting (nb : netbox) : bool :=
  match nb_settings nb with Some s => use_guest_agent_interface_name s | None => true end.

Definition _vm_interface_sync_strategy_setting (nb : netbox) : string :=
  match nb_settings nb with
  | None => "guest_os_model"
  | Some s =>
      let value := str_or (vm_interface_sync_strategy s) "guest_os_model" in
      if mem_str value ["guest_os_model"; "legacy_rename"] then value else "guest_os_model"
  end.

Definition _proxbox_fetch_max_concurrency_setting (nb : netbox) : Z :=
  match nb_settings nb with
  | Some s => Z.max 1 (proxbox_fetch_max_concurrency s)
  | None => 8
  end.

Definition _ignore_ipv6_link_local_addresses_setting (nb : netbox) : bool :=
  match nb_settings nb with Some s => ignore_ipv6_link_local_addresses s | None => true end.

Definition _primary_ip_preference_setting (nb : netbox) : string :=
  match nb_settings nb with
  | None => "ipv4"
  | Some s =>
      let value := lower (strip (str_or (primary_ip_preference s) "ipv4")) in
      if String.eqb value "ipv6" then "ipv6" else "ipv4"
  end.

Definition _parse_description_metadata_setting (nb : netbox) : bool :=
  match nb_settings nb with Some s => parse_description_metadata s | None => false end.

(** ** Overwrite flags and sync modes of an endpoint *)

Definition _global_overwrites (nb : netbox) : dict bool :=
  match nb_settings nb with
  | Some s => List.map (fun name => (name, settings_overwrite s name)) OVERWRITE_FIELDS
  | None => List.map (fun name => (name, OVERWRITE_DEFAULTS name)) OVERWRITE_FIELDS
  end.

Definition sdn_field (name : string) : bool :=
  mem_str name ["sync_mode_sdn"; "sync_mode_sdn_bgp"].

Definition _default_sync_mode (field_name : string) : string :=
  if sdn_field field_name then DISABLED else ALWAYS.

Definition _global_sync_modes (nb : netbox) : dict string :=
  match nb_settings nb with
  | Some s =>
      List.map (fun name => (name, str_or (settings_sync_mode s name) (_default_sync_mode name)))
        SYNC_MODE_FIELDS
  | None => List.map (fun name => (name, _default_sync_mode name)) SYNC_MODE_FIELDS
  end.

(** [ProxmoxEndpoint.effective_overwrites]; it loads the singleton first. *)
Definition effective_overwrites (nb : netbox) (e : ProxmoxEndpoint) : result (dict bool) :=
  match nb_settings nb with
  | None => Err (RuntimeError "settings unavailable")
  | Some s =>
      Ok (List.map
            (fun name =>
               (name, match endpoint_overwrite e name with
                      | Some b => b
                      | None => settings_overwrite s name
                      end)) OVERWRITE_FIELDS)
  end.

(** [ProxmoxEndpoint.effective_sync_mode]; the resource type is normalised. *)
Definition effective_sync_mode (nb : netbox) (e : ProxmoxEndpoint) (resource_type : string) :
  result string :=
  let normalized := replace "-" "_" (lower (strip resource_type)) in
  let normalized := removeprefix "sync_mode_" normalized in
  if negb (mem_str normalized SYNC_MODE_RESOURCE_TYPES)
  then Err (ValueError ("Unsupported sync mode resource type: " +:+ repr_str resource_type))
  else
    let field_name := "sync_mode_" +:+ normalized in
    match endpoint_sync_mode e field_name with
    | Some (String _ _ as value) => Ok value
    | _ =>
        match nb_settings nb with
        | None => Err (RuntimeError "settings unavailable")
        | Some s => Ok (str_or (settings_sync_mode s field_name) (_default_sync_mode field_name))
        end
    end.

(** The endpoint a per-endpoint resolution is about: [None] stands for every
    case in which the code falls back to the global values (no id, a blank or
    zero id, an id that is not a number, an unknown endpoint). *)
Definition resolved_endpoint (nb : netbox) (proxmox_endpoint_id : option string) :
  option ProxmoxEndpoint :=
  match proxmox_endpoint_id with
  | None => None
  | Some id =>
      if mem_str id [""; "0"] then None
      else match int_of_string id with Some pk => find_endpoint nb pk | None => None end
  end.

Definition effective_overwrites_for_endpoint (nb : netbox) (proxmox_endpoint_id : option string) :
  result (dict bool) :=
  match resolved_endpoint nb proxmox_endpoint_id with
  | None => Ok (_global_overwrites nb)
  | Some e => effective_overwrites nb e
  end.

(** The loop over the mode fields: an [AttributeError] or a [ValueError] of the
    endpoint keeps the global mode, any other exception propagates. *)
Fixpoint endpoint_modes (nb : netbox) (e : ProxmoxEndpoint) (fields : list string) :
  result (dict string) :=
  match fields with
  | [] => Ok []
  | field_name :: rest =>
      let mode :=
        match effective_sync_mode nb e (removeprefix "sync_mode_" field_name) with
        | Ok v => Ok v
        | Err (ValueError _) | Err (AttributeError _) =>
            Ok (dget_or field_name "" (_global_sync_modes nb))
        | Err x => Err x
        end in
      match mode with
      | Err x => Err x
      | Ok v =>
          match endpoint_modes nb e rest with
          | Ok modes => Ok ((field_name, v) :: modes)
          | Err x => Err x
          end
      end
  end.

Definition effective_sync_modes_for_endpoint (nb : netbox) (proxmox_endpoint_id : option string) :
  result (dict string) :=
  match resolved_endpoint nb proxmox_endpoint_id with
  | None => Ok (_global_sync_modes nb)
  | Some e => endpoint_modes nb e SYNC_MODE_FIELDS
  end.

(** ** Tenant-assignment settings of an endpoint *)

Definition effective_tenant_regex_for_endpoint (nb : netbox) (proxmox_endpoint_id : option string) :
  bool * list (dict pyval) :=
  match nb_settings nb with
  | None => (false, [])
  | Some s =>
      let enabled := settings_enable_tenant_name_regex s in
      let rules := settings_tenant_name_regex_rules s in
      match resolved_endpoint nb proxmox_endpoint_id with
      | None => (enabled, rules)
      | Some e =>
          (match endpoint_enable_tenant_name_regex e with Some b => b | None => enabled end,
           match endpoint_tenant_name_regex_rules e with Some r => r | None => rules end)
      end
  end.

Definition effective_tenant_tag_assignment_for_endpoint (nb : netbox)
  (proxmox_endpoint_id : option string) : bool :=
  match nb_settings nb with
  | None => false
  | Some s =>
      let enabled := settings_enable_tenant_tag_assignment s in
      match resolved_endpoint nb proxmox_endpoint_id with
      | None => enabled
      | Some e =>
          match endpoint_enable_tenant_tag_assignment e with Some b => b | None => enabled end
      end
  end.

Definition effective_tenant_from_cluster_for_endpoint (nb : netbox)
  (proxmox_endpoint_id : option string) : bool :=
  match nb_settings nb with
  | None => false
  | Some s =>
      let enabled := settings_enable_tenant_from_cluster s in
      match resolved_endpoint nb proxmox_endpoint_id with
      | None => enabled
      | Some e =>
          match endpoint_enable_tenant_from_cluster e with Some b => b | None => enabled end
      end
  end.

(** ** The cascade *)

(** The module-level variables [sync_mode_*], by name. *)
Abbreviation mode_vars := (dict string).

Definition _set_sync_mode_vars (modes : dict string) : mode_vars :=
  List.map
    (fun field_name => (field_name, str_or (dget_or field_name "" modes)
                                           (_default_sync_mode field_name)))
    SYNC_MODE_FIELDS.

Definition _resource_mode (raw_modes : dict string) (resource_type : string) : string :=
  let field_name := "sync_mode_" +:+ resource_type in
  str_or (dget_or field_name "" raw_modes) (_default_sync_mode field_name).

Definition is_disabled (mode : string) : bool := String.eqb mode DISABLED.

Definition _vm_parent_disabled (raw_modes : dict string) : bool :=
  (is_disabled (_resource_mode raw_modes "vm")
   && is_disabled (_resource_mode raw_modes "vm_template"))%bool.

(** The recursion to the parent; [None] when [fuel] calls were not enough.
    [seen] cuts a cyclic hierarchy, as in the code. *)
Fixpoint effective_mode_rec (fuel : nat) (raw_modes : dict string) (resource_type : string)
  (seen : list string) : option string :=
  match fuel with
  | O => None
  | S fuel' =>
      let raw_mode := _resource_mode raw_modes resource_type in
      if is_disabled raw_mode then Some DISABLED
      else if mem_str resource_type seen then Some raw_mode
      else
        let seen := resource_type :: seen in
        match dget resource_type SYNC_MODE_HIERARCHY with
        | None => Some raw_mode
        | Some parent =>
            if is_empty parent then Some raw_mode
            else if String.eqb parent "vm" then
              Some (if _vm_parent_disabled raw_modes then DISABLED else raw_mode)
            else
              match effective_mode_rec fuel' raw_modes parent seen with
              | None => None
              | Some m => Some (if is_disabled m then DISABLED else raw_mode)
              end
        end
  end.

(** Three calls are enough for every resource type (the deepest chain is
    [ip_address], [vm_interface], [vm]); see [cascade_total]. *)
Definition _effective_resource_mode (raw_modes : dict string) (resource_type : string) : string :=
  match effective_mode_rec 3 raw_modes resource_type [] with
  | Some m => m
  | None => _resource_mode raw_modes resource_type
  end.

Definition _effective_sync_modes (raw_modes : dict string) : dict string :=
  List.map
    (fun field_name =>
       (field_name, _effective_resource_mode raw_modes (removeprefix "sync_mode_" field_name)))
    SYNC_MODE_FIELDS.

Definition _active_sync_modes (vars : mode_vars) : dict string :=
  _effective_sync_modes
    (List.map
       (fun field_name => (field_name, str_or (dget_or field_name "" vars)
                                              (_default_sync_mode field_name)))
       SYNC_MODE_FIELDS).

Definition _sync_mode_for_resource (vars : mode_vars) (resource_type : string) : string :=
  dget_or ("sync_mode_" +:+ resource_type) ALWAYS (_active_sync_modes vars).

Definition resource_disabled (vars : mode_vars) (resource_type : string) : bool :=
  is_disabled (_sync_mode_for_resource vars resource_type).

Definition stage_resource_map : dict string :=
  [ (SyncTypeChoices.DEVICES, "node"); (SyncTypeChoices.NETWORK_INTERFACES, "node");
    (SyncTypeChoices.STORAGE, "storage"); (SyncTypeChoices.VM_INTERFACES, "vm_interface");
    (SyncTypeChoices.IP_ADDRESSES, "ip_address"); (SyncTypeChoices.SDN, "sdn") ].

Definition _stage_skip_reason (vars : mode_vars) (sync_type : string) : option string :=
  let vm_disabled := resource_disabled vars "vm" in
  let template_disabled := resource_disabled vars "vm_template" in
  let by_vm :=
    if (String.eqb sync_type SyncTypeChoices.VIRTUAL_MACHINES
        && (vm_disabled && template_disabled))%bool
    then Some "sync_mode_vm=disabled and sync_mode_vm_template=disabled"
    else if (mem_str sync_type
               [ SyncTypeChoices.VIRTUAL_MACHINES_DISKS;
                 SyncTypeChoices.VIRTUAL_MACHINES_BACKUPS;
                 SyncTypeChoices.VIRTUAL_MACHINES_SNAPSHOTS ]
             && (vm_disabled && template_disabled))%bool
    then Some "VM and VM template sync modes are disabled"
    else None in
  match dget sync_type stage_resource_map with
  | Some resource_type =>
      if resource_disabled vars resource_type
      then Some ("sync_mode_" +:+ resource_type +:+ "=disabled")
      else by_vm
  | None => by_vm
  end.

(** [(iface_disabled, ip_disabled, mac_disabled, disable_on_vm)] *)
Definition _network_stage_options (vars : mode_vars) (stages : list string) :
  bool * bool * bool * bool :=
  let iface_disabled := resource_disabled vars "vm_interface" in
  let ip_disabled := resource_disabled vars "ip_address" in
  let mac_disabled := resource_disabled vars "mac" in
  let dedicated :=
    (mem_str SyncTypeChoices.VM_INTERFACES stages
     || mem_str SyncTypeChoices.IP_ADDRESSES stages)%bool in
  let disable_on_vm :=
    (mem_str SyncTypeChoices.VIRTUAL_MACHINES stages && (dedicated || iface_disabled))%bool in
  (iface_disabled, ip_disabled, mac_disabled, disable_on_vm).

(** ** Query parameters *)

Definition flag (b : bool) : string := if b then "true" else "false".

(** [_build_base_query_params]: besides the query it returns the new value of
    the module-level mode variables, which the call updates. *)
Definition _build_base_query_params (nb : netbox)
  (proxmox_endpoint_ids netbox_endpoint_ids : list string)
  (wire_proxmox_endpoint_ids : option (list string)) : result (dict string * mode_vars) :=
  let base_query :=
    [ ("use_guest_agent_interface_name", flag (_use_guest_agent_interface_name_setting nb));
      ("vm_interface_sync_strategy", _vm_interface_sync_strategy_setting nb);
      ("fetch_max_concurrency", pretty (_proxbox_fetch_max_concurrency_setting nb));
      ("ignore_ipv6_link_local_addresses", flag (_ignore_ipv6_link_local_addresses_setting nb));
      ("primary_ip_preference", _primary_ip_preference_setting nb);
      ("parse_description_metadata", flag (_parse_description_metadata_setting nb)) ] in
  let single_endpoint_id := match proxmox_endpoint_ids with [id] => Some id | _ => None end in
  match effective_overwrites_for_endpoint nb single_endpoint_id with
  | Err e => Err e
  | Ok overwrites =>
      let base_query :=
        dupdate base_query (List.map (fun kv => (fst kv, flag (snd kv))) overwrites) in
      match effective_sync_modes_for_endpoint nb single_endpoint_id with
      | Err e => Err e
      | Ok sync_modes =>
          let vars := _set_sync_mode_vars sync_modes in
          let base_query := dupdate base_query (_active_sync_modes vars) in
          let wire_ids :=
            match wire_proxmox_endpoint_ids with Some l => l | None => proxmox_endpoint_ids end in
          let base_query :=
            match wire_ids with
            | [] => base_query
            | _ => dset "proxmox_endpoint_ids" (join "," wire_ids) base_query
            end in
          let base_query :=
            match netbox_endpoint_ids with
            | [] => base_query
            | _ => dset "netbox_endpoint_ids" (join "," netbox_endpoint_ids) base_query
            end in
          Ok (base_query, vars)
      end
  end.

Definition set_if (c : bool) (k v : string) (d : dict string) : dict string :=
  if c then dset k v d else d.

Definition _build_stage_query_params (base_query : dict string) (sync_type : string)
  (target_vm_ids : list string) (disable_vm_network_on_vm_stage ip_disabled mac_disabled : bool)
  (run_id : option string) : dict string :=
  let at_stage t := String.eqb sync_type t in
  let q := base_query in
  let q := set_if (at_stage SyncTypeChoices.VIRTUAL_MACHINES_BACKUPS) "delete_nonexistent_backup" "true" q in
  let q := set_if (at_stage SyncTypeChoices.VIRTUAL_MACHINES_SNAPSHOTS) "delete_nonexistent_snapshot" "true" q in
  let q :=
    if at_stage SyncTypeChoices.VIRTUAL_MACHINES then
      let q := dset "sync_task_history" "false" q in
      if disable_vm_network_on_vm_stage then dset "sync_vm_network" "false" q
      else
        set_if mac_disabled "sync_vm_interface_macs" "false"
          (set_if ip_disabled "assign_vm_interface_ips" "false" q)
    else q in
  let q :=
    set_if (at_stage SyncTypeChoices.VM_INTERFACES && mac_disabled)%bool "sync_vm_interface_macs" "false" q in
  let q :=
    match run_id with
    | Some (String _ _ as id) => set_if (at_stage SyncTypeChoices.VIRTUAL_MACHINES) "run_id" id q
    | _ => q
    end in
  match target_vm_ids with
  | [] => q
  | _ => dset "netbox_vm_ids" (join "," target_vm_ids) q
  end.

(** ** Lemmas *)

Lemma dget_tabulate {V} (g : string -> V) (fields : list string) (k : string) :
  k ∈ fields -> dget k (List.map (fun f => (f, g f)) fields) = Some (g k).
Proof.
  induction fields as [|f fields IH]; [set_solver|]. intros Hk. simpl.
  destruct (String.eqb_spec k f) as [->|]; [done|]. apply IH. set_solver.
Qed.

Lemma effective_sync_modes_lookup (raw : dict string) (field : string) :
  field ∈ SYNC_MODE_FIELDS ->
  dget field (_effective_sync_modes raw) =
  Some (_effective_resource_mode raw (removeprefix "sync_mode_" field)).
Proof. apply (dget_tabulate (fun f => _effective_resource_mode raw (removeprefix "sync_mode_" f))). Qed.

(** A resource is blocked when its own mode is [disabled], or its parent is
    blocked; the parent [vm] counts as blocked only when VMs and VM templates
    are both disabled. *)
Inductive blocked (raw : dict string) : string -> Prop :=
| blocked_self rt :
    _resource_mode raw rt = DISABLED -> blocked raw rt
| blocked_under_vm rt :
    dget rt SYNC_MODE_HIERARCHY = Some "vm" ->
    _resource_mode raw "vm" = DISABLED -> _resource_mode raw "vm_template" = DISABLED ->
    blocked raw rt
| blocked_under rt parent :
    dget rt SYNC_MODE_HIERARCHY = Some parent -> parent <> "vm" ->
    blocked raw parent -> blocked raw rt.

Lemma is_disabled_spec (m : string) : is_disabled m = true <-> m = DISABLED.
Proof. apply String.eqb_eq. Qed.

Lemma vm_parent_disabled_spec (raw : dict string) :
  _vm_parent_disabled raw = true <->
  _resource_mode raw "vm" = DISABLED /\ _resource_mode raw "vm_template" = DISABLED.
Proof. unfold _vm_parent_disabled. by rewrite andb_true_iff, !is_disabled_spec. Qed.

(** The parent relation, spelled out. *)
Lemma hierarchy_parent (rt parent : string) :
  dget rt SYNC_MODE_HIERARCHY = Some parent ->
  (rt, parent) ∈ [("node", "cluster"); ("vm_interface", "vm"); ("ip_address", "vm_interface");
                  ("mac", "vm_interface"); ("sdn_bgp", "sdn")].
Proof. apply dget_in. Qed.

(** Goes through the declared children one by one. *)
Ltac each_child Hp :=
  apply hierarchy_parent in Hp; rewrite !elem_of_cons, elem_of_nil in Hp;
  destruct_or! Hp; injection Hp as -> ->.

Lemma hierarchy_no_cycle (rt parent : string) :
  dget rt SYNC_MODE_HIERARCHY = Some parent -> parent <> rt /\ parent <> "".
Proof. intros Hp. each_child Hp; split; discriminate. Qed.

(** The cascade on one resource returned, and returned the right mode. *)
Definition cascade_ok (raw : dict string) (rt : string) (r : option string) : Prop :=
  exists m, r = Some m /\
    (m = DISABLED /\ blocked raw rt \/ m = _resource_mode raw rt /\ ~ blocked raw rt).

Lemma cascade_self (raw : dict string) (rt : string) :
  is_disabled (_resource_mode raw rt) = true -> cascade_ok raw rt (Some DISABLED).
Proof.
  intros Hd%is_disabled_spec. exists DISABLED. split; [done|]. left. auto using blocked_self.
Qed.

(** A resource with no parent, or whose parent is [vm]: one call. *)
Lemma cascade_root (fuel : nat) (raw : dict string) (rt : string) (seen : list string) :
  rt ∉ seen ->
  dget rt SYNC_MODE_HIERARCHY = None \/ dget rt SYNC_MODE_HIERARCHY = Some "vm" ->
  cascade_ok raw rt (effective_mode_rec (S fuel) raw rt seen).
Proof.
  intros Hseen Hpar. cbn [effective_mode_rec].
  destruct (is_disabled (_resource_mode raw rt)) eqn:Ed; [by apply cascade_self|].
  assert (Hn : _resource_mode raw rt <> DISABLED) by (rewrite <- is_disabled_spec; congruence).
  rewrite (proj2 (mem_str_false _ _) Hseen).
  destruct Hpar as [Hpar|Hpar]; rewrite Hpar.
  - eexists; split; [done|]. right. split; [done|]. inversion 1; congruence.
  - change (is_empty "vm") with false. change (String.eqb "vm" "vm") with true. cbv iota.
    destruct (_vm_parent_disabled raw) eqn:Ev; eexists; (split; [done|]).
    + apply vm_parent_disabled_spec in Ev as [??]. left. split; [done|]. by apply blocked_under_vm.
    + right. split; [done|].
      inversion 1 as [|? _ Hv Ht|? p Hp Hnv Hb]; subst; [congruence| |congruence].
      rewrite (proj2 (vm_parent_disabled_spec raw)) in Ev; done.
Qed.

(** One step up to a parent other than [vm]. *)
Lemma cascade_step (fuel : nat) (raw : dict string) (rt parent : string) :
  dget rt SYNC_MODE_HIERARCHY = Some parent -> parent <> "vm" ->
  cascade_ok raw parent (effective_mode_rec fuel raw parent [rt]) ->
  cascade_ok raw rt (effective_mode_rec (S fuel) raw rt []).
Proof.
  intros Hpar Hnv (m & Hm & Hspec). cbn [effective_mode_rec].
  destruct (is_disabled (_resource_mode raw rt)) eqn:Ed; [by apply cascade_self|].
  assert (Hn : _resource_mode raw rt <> DISABLED) by (rewrite <- is_disabled_spec; congruence).
  destruct (hierarchy_no_cycle _ _ Hpar) as [_ Hne].
  change (mem_str rt []) with false. cbv iota.
  rewrite Hpar. unfold is_empty. rewrite (proj2 (String.eqb_neq _ _) Hne).
  rewrite (proj2 (String.eqb_neq _ _) Hnv), Hm.
  destruct Hspec as [[-> Hb]|[-> Hb]].
  - eexists; split; [done|]. left. split; [done|]. by eapply blocked_under.
  - assert (Hpn : is_disabled (_resource_mode raw parent) = false).
    { apply not_true_iff_false. rewrite is_disabled_spec. intros Hd. by apply Hb, blocked_self. }
    rewrite Hpn. eexists; split; [done|]. right. split; [done|].
    inversion 1 as [| |? p Hp Hnv' Hb']; subst; congruence.
Qed.

(** At most three calls, and the value they return. *)
Lemma cascade_total (raw : dict string) (rt : string) :
  cascade_ok raw rt (effective_mode_rec 3 raw rt []).
Proof.
  destruct (dget rt SYNC_MODE_HIERARCHY) as [parent|] eqn:Hp;
    [|apply cascade_root; [set_solver|auto]].
  destruct (decide (parent = "vm")) as [->|Hnv]; [apply cascade_root; [set_solver|auto]|].
  apply (cascade_step 2 raw rt parent Hp Hnv). apply cascade_root.
  - destruct (hierarchy_no_cycle _ _ Hp). set_solver.
  - each_child Hp; auto.
Qed.

Lemma effective_resource_mode_ok (raw : dict string) (rt : string) :
  cascade_ok raw rt (Some (_effective_resource_mode raw rt)).
Proof.
  unfold _effective_resource_mode. destruct (cascade_total raw rt) as (m & -> & Hm).
  by exists m.
Qed.

(** The fields as the cascade reads them carry the same modes as the
    variables themselves. *)
Definition read_vars (vars : mode_vars) : mode_vars :=
  List.map (fun f => (f, str_or (dget_or f "" vars) (_default_sync_mode f))) SYNC_MODE_FIELDS.

Lemma str_or_idem (a b : string) : str_or (str_or a b) b = str_or a b.
Proof. unfold str_or, is_empty. split_ifs; congruence. Qed.

Lemma sync_mode_field (rt : string) :
  rt ∈ SYNC_MODE_RESOURCE_TYPES ->
  "sync_mode_" +:+ rt ∈ SYNC_MODE_FIELDS /\ removeprefix "sync_mode_" ("sync_mode_" +:+ rt) = rt.
Proof.
  intros Hrt. change SYNC_MODE_RESOURCE_TYPES with
    ["vm"; "vm_template"; "vm_interface"; "mac"; "ip_address"; "cluster"; "node"; "storage";
     "sdn"; "sdn_bgp"] in Hrt.
  rewrite !elem_of_cons, elem_of_nil in Hrt.
  destruct_or! Hrt; try done; subst rt; (split; [|done]);
    apply (bool_decide_eq_true_1 _); by vm_compute.
Qed.

Lemma resource_mode_read_vars (vars : mode_vars) (rt : string) :
  rt ∈ SYNC_MODE_RESOURCE_TYPES -> _resource_mode (read_vars vars) rt = _resource_mode vars rt.
Proof.
  intros [Hf _]%sync_mode_field. unfold _resource_mode.
  unfold dget_or at 1. unfold read_vars.
  rewrite (dget_tabulate (fun f => str_or (dget_or f "" vars) (_default_sync_mode f))) by done.
  apply str_or_idem.
Qed.

Lemma hierarchy_resource_types (rt parent : string) :
  dget rt SYNC_MODE_HIERARCHY = Some parent -> parent ∈ SYNC_MODE_RESOURCE_TYPES.
Proof. intros Hp. each_child Hp; apply (bool_decide_eq_true_1 _); by vm_compute. Qed.

(** Blocking only depends on the modes of the declared resource types. *)
Lemma blocked_ext (m1 m2 : dict string) (rt : string) :
  (forall r, r ∈ SYNC_MODE_RESOURCE_TYPES -> _resource_mode m1 r = _resource_mode m2 r) ->
  rt ∈ SYNC_MODE_RESOURCE_TYPES -> blocked m1 rt -> blocked m2 rt.
Proof.
  intros Hext Hrt. induction 1 as [rt Hd|rt Hp Hv Ht|rt parent Hp Hnv Hb IH].
  - apply blocked_self. by rewrite <- Hext.
  - apply blocked_under_vm; [done|rewrite <- Hext..]; try done;
      apply (bool_decide_eq_true_1 _); by vm_compute.
  - eapply blocked_under; [done..|]. apply IH. by eapply hierarchy_resource_types.
Qed.

Lemma sync_mode_for_resource_eq (vars : mode_vars) (rt : string) :
  rt ∈ SYNC_MODE_RESOURCE_TYPES ->
  _sync_mode_for_resource vars rt = _effective_resource_mode (read_vars vars) rt.
Proof.
  intros [Hf Hr]%sync_mode_field. unfold _sync_mode_for_resource, dget_or, _active_sync_modes.
  fold (read_vars vars). by rewrite effective_sync_modes_lookup, Hr.
Qed.

Lemma sync_mode_cascade (vars : mode_vars) (rt : string) :
  rt ∈ SYNC_MODE_RESOURCE_TYPES ->
  blocked vars rt /\ _sync_mode_for_resource vars rt = DISABLED \/
  ~ blocked vars rt /\ _sync_mode_for_resource vars rt = _resource_mode vars rt.
Proof.
  intros Hrt. rewrite sync_mode_for_resource_eq by done.
  destruct (effective_resource_mode_ok (read_vars vars) rt) as (m & [= ->] & [[-> Hb]|[-> Hb]]).
  - left. split; [|done]. eapply blocked_ext; [|done..]. apply resource_mode_read_vars.
  - right. rewrite resource_mode_read_vars by done. split; [|done]. contradict Hb.
    eapply blocked_ext; [|done..]. intros. symmetry. by apply resource_mode_read_vars.
Qed.

Lemma resource_disabled_spec (vars : mode_vars) (rt : string) :
  rt ∈ SYNC_MODE_RESOURCE_TYPES -> resource_disabled vars rt = true <-> blocked vars rt.
Proof.
  intros Hrt. unfold resource_disabled. rewrite is_disabled_spec.
  destruct (sync_mode_cascade vars rt Hrt) as [[? ->]|[Hn ->]]; [done|].
  split; [|done]. apply blocked_self.
Qed.

(** ** Properties *)

(** C34: the sync mode the program works with for a resource type is
    [disabled] exactly when the resource is blocked, and otherwise it is the
    mode that was configured for it.  A resource is blocked when its own mode
    is disabled or when its parent in the declared hierarchy is blocked; of the
    children of the virtual machines, whose parent stands for machines and
    templates alike, only when the modes of both are disabled. *)
Theorem sync_mode_cascade_is_closure (vars : mode_vars) (rt : string) :
  rt ∈ SYNC_MODE_RESOURCE_TYPES ->
  (_sync_mode_for_resource vars rt = DISABLED <-> blocked vars rt) /\
  (~ blocked vars rt -> _sync_mode_for_resource vars rt = _resource_mode vars rt).
Proof.
  intros Hrt. destruct (sync_mode_cascade vars rt Hrt) as [[? ->]|[Hn ->]]; [done|].
  split; [|done]. split; [apply blocked_self|done].
Qed.

(** The resource whose mode governs a stage. *)
Definition stage_blocked (vars : mode_vars) (sync_type : string) : Prop :=
  (exists rt, dget sync_type stage_resource_map = Some rt /\ blocked vars rt) \/
  (sync_type ∈ [ SyncTypeChoices.VIRTUAL_MACHINES; SyncTypeChoices.VIRTUAL_MACHINES_DISKS;
                 SyncTypeChoices.VIRTUAL_MACHINES_BACKUPS;
                 SyncTypeChoices.VIRTUAL_MACHINES_SNAPSHOTS ] /\
   blocked vars "vm" /\ blocked vars "vm_template").

Lemma stage_resource_known (t rt : string) :
  dget t stage_resource_map = Some rt -> rt ∈ SYNC_MODE_RESOURCE_TYPES.
Proof.
  intros Hp%dget_in. unfold stage_resource_map in Hp. rewrite !elem_of_cons, elem_of_nil in Hp.
  destruct_or! Hp; try done; simplify_eq; apply (bool_decide_eq_true_1 _); by vm_compute.
Qed.

Lemma vm_types_known : "vm" ∈ SYNC_MODE_RESOURCE_TYPES /\ "vm_template" ∈ SYNC_MODE_RESOURCE_TYPES.
Proof. split; apply (bool_decide_eq_true_1 _); by vm_compute. Qed.

(** a stage is skipped exactly when the resource it synchronises is
    blocked, or it is a virtual-machine stage and VMs and VM templates are both
    blocked: no stage runs for a disabled resource, and no other stage is
    skipped. *)
Theorem stage_skipped_iff_blocked (vars : mode_vars) (sync_type : string) :
  (exists reason, _stage_skip_reason vars sync_type = Some reason) <->
  stage_blocked vars sync_type.
Proof.
  unfold _stage_skip_reason, stage_blocked.
  destruct vm_types_known as [Hvm Htm].
  rewrite <- !resource_disabled_spec by done.
  setoid_rewrite elem_of_cons. rewrite <- mem_str_spec, <- String.eqb_eq.
  destruct (dget sync_type stage_resource_map) as [rt|] eqn:Em.
  - pose proof (resource_disabled_spec vars rt (stage_resource_known _ _ Em)) as Hd.
    destruct (resource_disabled vars rt), (String.eqb sync_type _), (mem_str sync_type _),
      (resource_disabled vars "vm"), (resource_disabled vars "vm_template"); simpl; naive_solver.
  - destruct (String.eqb sync_type _), (mem_str sync_type _),
      (resource_disabled vars "vm"), (resource_disabled vars "vm_template"); simpl; naive_solver.
Qed.

(** The value an endpoint's field resolves to. *)
Definition override_or_global (nb : netbox) (e : ProxmoxEndpoint) (field : string) : string :=
  match endpoint_sync_mode e field with
  | Some (String _ _ as v) => v
  | _ => dget_or field "" (_global_sync_modes nb)
  end.

Lemma effective_sync_mode_field (nb : netbox) (s : ProxboxPluginSettings) (e : ProxmoxEndpoint)
  (field : string) :
  nb_settings nb = Some s -> field ∈ SYNC_MODE_FIELDS ->
  effective_sync_mode nb e (removeprefix "sync_mode_" field) = Ok (override_or_global nb e field).
Proof.
  intros Hs Hf. assert (Hg : dget_or field "" (_global_sync_modes nb) =
    str_or (settings_sync_mode s field) (_default_sync_mode field)).
  { unfold dget_or, _global_sync_modes. rewrite Hs. by rewrite
      (dget_tabulate (fun n => str_or (settings_sync_mode s n) (_default_sync_mode n))). }
  unfold override_or_global, effective_sync_mode. rewrite Hg, Hs.
  unfold SYNC_MODE_FIELDS in Hf. rewrite !elem_of_cons, elem_of_nil in Hf.
  destruct_or! Hf; try done; subst field;
    match goal with |- context [mem_str ?x SYNC_MODE_RESOURCE_TYPES] =>
      let y := eval vm_compute in x in change x with y end;
    change (mem_str _ SYNC_MODE_RESOURCE_TYPES) with true; cbn [negb];
    match goal with |- context [endpoint_sync_mode e ("sync_mode_" +:+ ?x)] =>
      let y := eval vm_compute in ("sync_mode_" +:+ x) in change ("sync_mode_" +:+ x) with y end;
    by repeat case_match.
Qed.

Lemma endpoint_modes_eq (nb : netbox) (s : ProxboxPluginSettings) (e : ProxmoxEndpoint)
  (fields : list string) :
  nb_settings nb = Some s -> (forall f, f ∈ fields -> f ∈ SYNC_MODE_FIELDS) ->
  endpoint_modes nb e fields = Ok (List.map (fun f => (f, override_or_global nb e f)) fields).
Proof.
  intros Hs. induction fields as [|f fields IH]; intros Hin; [done|].
  cbn [endpoint_modes]. rewrite (effective_sync_mode_field nb s) by (try done; apply Hin; left).
  rewrite IH; [done|]. intros. apply Hin. by right.
Qed.

(** for an endpoint the sync modes resolve field by field to the endpoint's
    own value where it has a non-blank one and to the global value everywhere
    else; the resolution never fails while the settings can be read. *)
Theorem endpoint_sync_modes_resolved (nb : netbox) (s : ProxboxPluginSettings)
  (e : ProxmoxEndpoint) (id : string) :
  nb_settings nb = Some s -> resolved_endpoint nb (Some id) = Some e ->
  exists modes, effective_sync_modes_for_endpoint nb (Some id) = Ok modes /\
    forall field, field ∈ SYNC_MODE_FIELDS ->
      dget field modes = Some (override_or_global nb e field).
Proof.
  intros Hs He. unfold effective_sync_modes_for_endpoint. rewrite He.
  rewrite (endpoint_modes_eq nb s) by done.
  eexists. split; [done|]. intros. by apply (dget_tabulate (override_or_global nb e)).
Qed.

(** ** Witnesses *)

Definition sample_settings : ProxboxPluginSettings := {|
  use_guest_agent_interface_name := true; vm_interface_sync_strategy := "";
  proxbox_fetch_max_concurrency := 4; ignore_ipv6_link_local_addresses := true;
  primary_ip_preference := " IPv6 "; parse_description_metadata := false;
  settings_overwrite _ := true;
  settings_sync_mode f := if String.eqb f "sync_mode_sdn" then ALWAYS else "";
  settings_enable_tenant_name_regex := false; settings_tenant_name_regex_rules := [];
  settings_enable_tenant_tag_assignment := false; settings_enable_tenant_from_cluster := false |}.

Definition sample_endpoint (pk : Z) : ProxmoxEndpoint := {|
  endpoint_pk := pk; endpoint_name := "pve-" +:+ pretty pk; endpoint_enabled := true;
  endpoint_domain := "PVE" +:+ pretty pk +:+ ".example.org."; endpoint_ip_address := None;
  endpoint_port := 8006;
  endpoint_overwrite _ := None;
  endpoint_sync_mode f :=
    if String.eqb f "sync_mode_vm_interface" then Some DISABLED else None;
  endpoint_enable_tenant_name_regex := None; endpoint_tenant_name_regex_rules := None;
  endpoint_enable_tenant_tag_assignment := None; endpoint_enable_tenant_from_cluster := None |}.

Definition sample_netbox : netbox :=
  {| nb_settings := Some sample_settings; nb_endpoints := [sample_endpoint 7; sample_endpoint 9];
     nb_clusters := [ {| proxmox_cluster_name := "lab"; netbox_cluster_id := Some 3; cluster_endpoint_id := Some 7 |} ] |}.

Lemma sync_mode_cascade_is_closure_witness :
  _sync_mode_for_resource [("sync_mode_vm_interface", DISABLED)] "ip_address" = DISABLED /\
  blocked [("sync_mode_vm_interface", DISABLED)] "ip_address".
Proof.
  split; [by vm_compute|].
  apply (sync_mode_cascade_is_closure [("sync_mode_vm_interface", DISABLED)] "ip_address");
    [apply (bool_decide_eq_true_1 _)|]; by vm_compute.
Defined.

Lemma endpoint_sync_modes_resolved_witness :
  resolved_endpoint sample_netbox (Some "9") = Some (sample_endpoint 9) /\
  exists modes, effective_sync_modes_for_endpoint sample_netbox (Some "9") = Ok modes /\
    forall field, field ∈ SYNC_MODE_FIELDS ->
      dget field modes = Some (override_or_global sample_netbox (sample_endpoint 9) field).
Proof.
  split; [reflexivity|].
  apply (endpoint_sync_modes_resolved sample_netbox sample_settings (sample_endpoint 9) "9");
    reflexivity.
Defined.
