(* ===== verification/Effects.v ===== *)
(** * Effects

    The program's stateful code as a state and exception monad: a computation
    takes the world and returns a value or a raised exception, with the world
    it leaves behind (an exception does not undo what happened before it).
    The second half is the small program logic the proofs use: a weakest
    precondition with one rule per construct, and the rule for [for] loops. *)
From Stdlib Require Import ZArith Lia String.
From stdpp Require Import base list sets strings.
From S2P Require Import Prelude.

Definition M (W A : Type) : Type := W -> result A * W.

Section Monad.
Context {W : Type}.

#[global] Instance M_ret : MRet (M W) := fun A a w => (Ok a, w).

#[global] Instance M_bind : MBind (M W) := fun A B k m w =>
  match m w with
  | (Ok a, w') => k a w'
  | (Err e, w') => (Err e, w')
  end.

(** [raise e] *)
Definition raise {A} (e : exn) : M W A := fun w => (Err e, w).

(** A pure fallible call. *)
Definition lift {A} (r : result A) : M W A := fun w => (r, w).

Definition gets {A} (f : W -> A) : M W A := fun w => (Ok (f w), w).

Definition modify (f : W -> W) : M W () := fun w => (Ok (), f w).

(** [try: m / except: h]: the handler sees every exception of [m], in the
    world at which it was raised; it re-raises what it does not catch. *)
Definition try_except {A} (m : M W A) (h : exn -> M W A) : M W A := fun w =>
  match m w with
  | (Ok a, w') => (Ok a, w')
  | (Err e, w') => h e w'
  end.

(** [try: m / finally: f]: [f] runs however [m] ends. *)
Definition try_finally {A} (m : M W A) (f : M W ()) : M W A := fun w =>
  let '(r, w') := m w in
  match f w' with
  | (Ok _, w'') => (r, w'')
  | (Err e, w'') => (Err e, w'')
  end.

(** [for x in l: body], threading an accumulator. *)
Fixpoint for_each {A S} (l : list A) (s : S) (body : A -> S -> M W S) : M W S :=
  match l with
  | [] => mret s
  | x :: l' => s' ← body x s; for_each l' s' body
  end.

End Monad.

(** ** Weakest preconditions *)

Definition wp {W A} (m : M W A) (Q : result A -> W -> Prop) (w : W) : Prop :=
  Q (fst (m w)) (snd (m w)).

Section Logic.
Context {W : Type}.

Lemma wp_intro {A} (m : M W A) (Q : result A -> W -> Prop) (w w' : W) (r : result A) :
  wp m Q w -> m w = (r, w') -> Q r w'.
Proof. unfold wp. intros H Hm. by rewrite Hm in H. Qed.

Lemma wp_mono {A} (m : M W A) (P Q : result A -> W -> Prop) (w : W) :
  wp m P w -> (forall r w', P r w' -> Q r w') -> wp m Q w.
Proof. unfold wp. auto. Qed.

Lemma wp_ret {A} (a : A) (Q : result A -> W -> Prop) (w : W) : Q (Ok a) w -> wp (mret a) Q w.
Proof. done. Qed.

Lemma wp_raise {A} (e : exn) (Q : result A -> W -> Prop) (w : W) :
  Q (Err e) w -> wp (raise e) Q w.
Proof. done. Qed.

Lemma wp_lift {A} (r : result A) (Q : result A -> W -> Prop) (w : W) :
  Q r w -> wp (lift r) Q w.
Proof. done. Qed.

Lemma wp_gets {A} (f : W -> A) (Q : result A -> W -> Prop) (w : W) :
  Q (Ok (f w)) w -> wp (gets f) Q w.
Proof. done. Qed.

Lemma wp_modify (f : W -> W) (Q : result () -> W -> Prop) (w : W) :
  Q (Ok ()) (f w) -> wp (modify f) Q w.
Proof. done. Qed.

Lemma wp_bind {A B} (m : M W A) (k : A -> M W B) (Q : result B -> W -> Prop) (w : W) :
  wp m (fun r w' => match r with Ok a => wp (k a) Q w' | Err e => Q (Err e) w' end) w ->
  wp (m ≫= k) Q w.
Proof. unfold wp, mbind, M_bind. by destruct (m w) as [[a|e] w']. Qed.

Lemma wp_try {A} (m : M W A) (h : exn -> M W A) (Q : result A -> W -> Prop) (w : W) :
  wp m (fun r w' => match r with Ok a => Q (Ok a) w' | Err e => wp (h e) Q w' end) w ->
  wp (try_except m h) Q w.
Proof. unfold wp, try_except. by destruct (m w) as [[a|e] w']. Qed.

Lemma wp_finally {A} (m : M W A) (f : M W ()) (Q : result A -> W -> Prop) (w : W) :
  wp m (fun r w' => wp f (fun rf w'' => match rf with Ok _ => Q r w'' | Err e => Q (Err e) w'' end) w') w ->
  wp (try_finally m f) Q w.
Proof.
  unfold wp, try_finally. destruct (m w) as [r w']. simpl. by destruct (f w') as [[]?].
Qed.

(** The loop rule: [Inv] holds of the accumulator before every element, [Exc]
    of a world in which an exception left the loop. *)
Lemma wp_for_each {A S} (l : list A) (body : A -> S -> M W S)
  (Inv : S -> W -> Prop) (Exc : exn -> W -> Prop) :
  (forall x s w, x ∈ l -> Inv s w ->
     wp (body x s) (fun r w' => match r with Ok s' => Inv s' w' | Err e => Exc e w' end) w) ->
  forall s w, Inv s w ->
  wp (for_each l s body) (fun r w' => match r with Ok s' => Inv s' w' | Err e => Exc e w' end) w.
Proof.
  induction l as [|x l IH]; intros Hbody s w Hs; [exact Hs|].
  apply wp_bind. eapply wp_mono; [apply Hbody; [left|exact Hs]|].
  intros [s'|e] w'; [|done]. apply IH. intros. apply Hbody; [by right|done].
Qed.

(** ** Invariants of the world: [m] preserves [I] whatever its outcome *)

Definition keeps {A} (I : W -> Prop) (m : M W A) : Prop := forall w, I w -> I (snd (m w)).

Lemma wp_keeps {A} (I : W -> Prop) (m : M W A) (w : W) :
  keeps I m -> I w -> wp m (fun _ => I) w.
Proof. intros Hm Hw. exact (Hm w Hw). Qed.

Lemma keeps_ret {A} (I : W -> Prop) (a : A) : keeps I (mret a).
Proof. by intros w Hw. Qed.

Lemma keeps_raise {A} (I : W -> Prop) (e : exn) : keeps I (raise (A := A) e).
Proof. by intros w Hw. Qed.

Lemma keeps_lift {A} (I : W -> Prop) (r : result A) : keeps I (lift r).
Proof. by intros w Hw. Qed.

Lemma keeps_gets {A} (I : W -> Prop) (f : W -> A) : keeps I (gets f).
Proof. by intros w Hw. Qed.

Lemma keeps_modify (I : W -> Prop) (f : W -> W) :
  (forall w, I w -> I (f w)) -> keeps I (modify f).
Proof. intros H w Hw. by apply H. Qed.

Lemma keeps_bind {A B} (I : W -> Prop) (m : M W A) (k : A -> M W B) :
  keeps I m -> (forall a, keeps I (k a)) -> keeps I (m ≫= k).
Proof.
  intros Hm Hk w Hw. specialize (Hm w Hw). unfold mbind, M_bind.
  destruct (m w) as [[a|e] w']; [by apply Hk|done].
Qed.

(** Reading a part of the world that the invariant fixes. *)
Lemma keeps_gets_bind {A B} (I : W -> Prop) (f : W -> A) (a : A) (k : A -> M W B) :
  (forall w, I w -> f w = a) -> keeps I (k a) -> keeps I (gets f ≫= k).
Proof.
  intros Hf Hk w Hw. change (I (snd (k (f w) w))). rewrite (Hf w Hw). by apply Hk.
Qed.

Lemma keeps_gets_such {A B} (I : W -> Prop) (Φ : A -> Prop) (f : W -> A) (k : A -> M W B) :
  (forall w, I w -> Φ (f w)) -> (forall a, Φ a -> keeps I (k a)) -> keeps I (gets f ≫= k).
Proof. intros Hf Hk w Hw. by apply (Hk (f w) (Hf w Hw) w). Qed.

Lemma keeps_lift_bind {A B} (I : W -> Prop) (r : result A) (k : A -> M W B) :
  (forall a, r = Ok a -> keeps I (k a)) -> keeps I (lift r ≫= k).
Proof.
  intros Hk w Hw. destruct r as [a|e]; [|done]. by apply (Hk a eq_refl w).
Qed.

Lemma keeps_try {A} (I : W -> Prop) (m : M W A) (h : exn -> M W A) :
  keeps I m -> (forall e, keeps I (h e)) -> keeps I (try_except m h).
Proof.
  intros Hm Hh w Hw. specialize (Hm w Hw). unfold try_except.
  destruct (m w) as [[a|e] w']; [done|by apply Hh].
Qed.

Lemma keeps_for_each {A S} (I : W -> Prop) (l : list A) (s : S) (body : A -> S -> M W S) :
  (forall x s', x ∈ l -> keeps I (body x s')) -> keeps I (for_each l s body).
Proof.
  revert s. induction l as [|x l IH]; intros s H; [apply keeps_ret|].
  apply keeps_bind; [apply H; left|]. intros. apply IH. intros. apply H. by right.
Qed.

(** ** Facts about the returned value, in any world *)

Definition returns {A} (m : M W A) (Φ : A -> Prop) : Prop :=
  forall w a, fst (m w) = Ok a -> Φ a.

Lemma returns_any {A} (m : M W A) : returns m (fun _ => True).
Proof. done. Qed.

Lemma returns_ret {A} (a : A) (Φ : A -> Prop) : Φ a -> returns (mret a) Φ.
Proof. by intros Ha w a' [= <-]. Qed.

Lemma returns_raise {A} (e : exn) (Φ : A -> Prop) : returns (raise e) Φ.
Proof. by intros w a [=]. Qed.

Lemma returns_lift {A} (r : result A) (Φ : A -> Prop) :
  (forall a, r = Ok a -> Φ a) -> returns (lift r) Φ.
Proof. intros Hr w a Ha. by apply Hr. Qed.

Lemma returns_bind {A B} (m : M W A) (k : A -> M W B) (Ψ : A -> Prop) (Φ : B -> Prop) :
  returns m Ψ -> (forall a, Ψ a -> returns (k a) Φ) -> returns (m ≫= k) Φ.
Proof.
  intros Hm Hk w b. specialize (Hm w). unfold mbind, M_bind.
  destruct (m w) as [[a|e] w']; [|done]. apply Hk. by apply Hm.
Qed.

Lemma returns_bind_any {A B} (m : M W A) (k : A -> M W B) (Φ : B -> Prop) :
  (forall a, returns (k a) Φ) -> returns (m ≫= k) Φ.
Proof. intros Hk. eapply returns_bind; [apply returns_any|auto]. Qed.

Lemma returns_mono {A} (m : M W A) (Ψ Φ : A -> Prop) :
  returns m Ψ -> (forall a, Ψ a -> Φ a) -> returns m Φ.
Proof. intros Hm H w a Ha. eauto. Qed.

End Logic.

(** ** Logs: what a computation adds to a log that only ever grows *)

Section Logs.
Context {W Ev : Type} (hist : W -> list Ev).

(** [m] puts in front of the log a segment related to its result by [R]. *)
Definition adds {A} (m : M W A) (R : list Ev -> result A -> Prop) : Prop :=
  forall w, wp m (fun r w' => exists new, hist w' = new ++ hist w /\ R new r) w.

Lemma adds_mono {A} (m : M W A) (R S : list Ev -> result A -> Prop) :
  adds m R -> (forall l r, R l r -> S l r) -> adds m S.
Proof. intros Hm HRS w. eapply wp_mono; [apply Hm|]. intros r w' (new & ? & ?). eauto. Qed.

Lemma adds_bind {A B} (m : M W A) (k : A -> M W B) R S T :
  adds m R -> (forall a, adds (k a) (S a)) ->
  (forall l e, R l (Err e) -> T l (Err e)) ->
  (forall l1 l2 a r, R l1 (Ok a) -> S a l2 r -> T (l2 ++ l1) r) -> adds (m ≫= k) T.
Proof.
  intros Hm Hk Herr Hok w. apply wp_bind. eapply wp_mono; [apply Hm|].
  intros [a|e] w1 (n1 & Hn1 & HR); [|eauto]. eapply wp_mono; [apply Hk|].
  intros r w2 (n2 & Hn2 & HS). exists (n2 ++ n1). rewrite Hn2, Hn1, app_assoc. eauto.
Qed.

Lemma adds_ret {A} (a : A) : adds (mret a) (fun l r => l = [] /\ r = Ok a).
Proof. intros w. apply wp_ret. by exists []. Qed.

Lemma adds_raise {A} (e : exn) : adds (raise (A := A) e) (fun l r => l = [] /\ r = Err e).
Proof. intros w. apply wp_raise. by exists []. Qed.

Lemma adds_raise_bind {A B} (e : exn) (k : A -> M W B) :
  adds (raise e ≫= k) (fun l r => l = [] /\ r = Err e).
Proof. intros w. by exists []. Qed.

Lemma adds_ret_bind {A B} (a : A) (k : A -> M W B) R : adds (k a) R -> adds (mret a ≫= k) R.
Proof. done. Qed.

Lemma adds_lift {A} (a : result A) : adds (lift a) (fun l r => l = [] /\ r = a).
Proof. intros w. apply wp_lift. by exists []. Qed.

Lemma adds_gets {A} (f : W -> A) : adds (gets f) (fun l r => l = [] /\ exists a, r = Ok a).
Proof. intros w. apply wp_gets. exists []. eauto. Qed.

Lemma adds_try {A} (m : M W A) (h : exn -> M W A) R S T :
  adds m R -> (forall e, adds (h e) (S e)) -> (forall l a, R l (Ok a) -> T l (Ok a)) ->
  (forall l1 l2 e r, R l1 (Err e) -> S e l2 r -> T (l2 ++ l1) r) -> adds (try_except m h) T.
Proof.
  intros Hm Hh Hok Herr w. apply wp_try. eapply wp_mono; [apply Hm|].
  intros [a|e] w1 (n1 & Hn1 & HR); [eauto|]. eapply wp_mono; [apply Hh|].
  intros r w2 (n2 & Hn2 & HS). exists (n2 ++ n1). rewrite Hn2, Hn1, app_assoc. eauto.
Qed.

Lemma adds_finally {A} (m : M W A) (f : M W ()) R S T :
  adds m R -> adds f S -> (forall l1 l2 r, R l1 r -> S l2 (Ok ()) -> T (l2 ++ l1) r) ->
  (forall l1 l2 r e, R l1 r -> S l2 (Err e) -> T (l2 ++ l1) (Err e)) -> adds (try_finally m f) T.
Proof.
  intros Hm Hf Hok Herr w. apply wp_finally. eapply wp_mono; [apply Hm|].
  intros r w1 (n1 & Hn1 & HR). eapply wp_mono; [apply Hf|].
  intros [[]|e] w2 (n2 & Hn2 & HS); exists (n2 ++ n1); rewrite Hn2, Hn1, app_assoc; eauto.
Qed.

Lemma adds_returns {A} (m : M W A) R (Φ : A -> Prop) :
  adds m R -> returns m Φ -> adds m (fun l r => R l r /\ forall a, r = Ok a -> Φ a).
Proof.
  intros Hm HΦ w. pose proof (HΦ w) as Hw. specialize (Hm w). unfold wp in *.
  destruct Hm as (new & Hn & HR). exists new. auto.
Qed.

(** A property of segments that is kept by concatenation. *)
Definition closed (P : list Ev -> Prop) : Prop :=
  P [] /\ forall l1 l2, P l1 -> P l2 -> P (l2 ++ l1).

Definition logs {A} (P : list Ev -> Prop) (m : M W A) : Prop := adds m (fun l _ => P l).

Lemma logs_bind {A B} (P : list Ev -> Prop) (m : M W A) (k : A -> M W B) :
  closed P -> logs P m -> (forall a, logs P (k a)) -> logs P (m ≫= k).
Proof. intros [_ HP] Hm Hk. by eapply adds_bind; [exact Hm|exact Hk|auto|auto]. Qed.

Lemma logs_try {A} (P : list Ev -> Prop) (m : M W A) (h : exn -> M W A) :
  closed P -> logs P m -> (forall e, logs P (h e)) -> logs P (try_except m h).
Proof. intros [_ HP] Hm Hk. by eapply adds_try; [exact Hm|exact Hk|auto|auto]. Qed.

Lemma logs_finally {A} (P : list Ev -> Prop) (m : M W A) (f : M W ()) :
  closed P -> logs P m -> logs P f -> logs P (try_finally m f).
Proof. intros [_ HP] Hm Hk. by eapply adds_finally; [exact Hm|exact Hk|auto|auto]. Qed.

Lemma logs_for_each {A S} (P : list Ev -> Prop) (l : list A) (s : S) (body : A -> S -> M W S) :
  closed P -> (forall x s, x ∈ l -> logs P (body x s)) -> logs P (for_each l s body).
Proof.
  intros HP. revert s. induction l as [|x l IH]; intros s Hb; cbn [for_each].
  - eapply adds_mono; [apply adds_ret|]. intros ? ? [-> _]. apply HP.
  - apply logs_bind; [done|apply Hb; left|]. intros s'. apply IH. intros y s'' Hy. apply Hb. by right.
Qed.

Lemma logs_quiet {A} (P : list Ev -> Prop) (m : M W A) :
  closed P -> (forall w, hist (snd (m w)) = hist w) -> logs P m.
Proof. intros HP Hq w. exists []. rewrite Hq. split; [done|apply HP]. Qed.

End Logs.


Create HintDb effects.
#[export] Hint Resolve keeps_ret keeps_raise keeps_lift keeps_gets : effects.

(** One step of a weakest precondition: the rule for the head construct. *)
Ltac wp_step :=
  lazymatch goal with
  | |- wp (mbind _ _) _ _ => apply wp_bind
  | |- wp (mret _) _ _ => apply wp_ret
  | |- wp (raise _) _ _ => apply wp_raise
  | |- wp (lift _) _ _ => apply wp_lift
  | |- wp (gets _) _ _ => apply wp_gets
  | |- wp (modify _) _ _ => apply wp_modify
  | |- wp (try_except _ _) _ _ => apply wp_try
  | |- wp (try_finally _ _) _ _ => apply wp_finally
  end.
Ltac wp_steps := repeat (wp_step; cbv beta iota).

(** Preservation of an invariant through the sequencing constructs. *)
Ltac keeps_step :=
  lazymatch goal with
  | |- keeps _ (mbind _ _) => apply keeps_bind; [|intros ?]
  | |- keeps _ (try_except _ _) => apply keeps_try; [|intros ?]
  | |- keeps _ (for_each _ _ _) => apply keeps_for_each; intros
  | |- keeps _ (if ?b then _ else _) => destruct b eqn:?
  | |- keeps _ (match ?x with _ => _ end) => destruct x eqn:?
  | |- keeps _ _ => solve [eauto with effects]
  end.
