(* ===== verification/Deadline.v ===== *)
(** * Time budgets (services/sync_deadline.py, services/retry_after.py)

    Durations and clock readings are integers, in nanoseconds: the program's
    floats are read as exact decimals.  The clock and the wall time are
    arguments, so the functions here are pure. *)
From Stdlib Require Import ZArith Lia String Ascii.
From stdpp Require Import base list sets strings pretty.
From S2P Require Import Prelude.

Definition sec (n : Z) : Z := n * 1000000000.
Definition msec (n : Z) : Z := n * 1000000.

(** [round(x, 3)]: to the nearest millisecond, ties to even. *)
Definition round3 (t : Z) : Z :=
  let q := t / msec 1 in
  let r := t mod msec 1 in
  if 2 * r <? msec 1 then msec q
  else if msec 1 <? 2 * r then msec (q + 1)
  else msec (if Z.even q then q else q + 1).

(** ** The whole-job deadline *)

Definition remaining_timeout (deadline : option Z) (ceiling now : Z) : result Z :=
  match deadline with
  | None => Ok ceiling
  | Some deadline =>
      let remaining := deadline - now in
      if remaining <=? 0 then Err (SyncJobDeadlineReached "Job deadline reached.")
      else Ok (Z.min ceiling remaining)
  end.

Record SyncJobDeadline := { expires_at : Z; reserve_seconds : Z }.

Definition remaining (d : SyncJobDeadline) (now : Z) : Z :=
  Z.max (expires_at d - reserve_seconds d - now) 0.

Definition cap (d : SyncJobDeadline) (seconds now : Z) : Z :=
  Z.min (Z.max seconds 0) (remaining d now).

Definition executable_expires_at (d : SyncJobDeadline) : Z := expires_at d - reserve_seconds d.

Definition timeout (d : SyncJobDeadline) (seconds now : Z) : result Z :=
  let remaining := remaining d now in
  if remaining <=? 0 then Err (SyncJobDeadlineReached "Job deadline reached.")
  else Ok (Z.min (Z.max seconds (msec 1)) remaining).

(** ** [float(text)]

    A decimal literal, read to a whole number of nanoseconds. *)

Inductive pyfloat :=
| Finite (ns : Z)
| NonFinite.

(** Decimal digits with single underscores between them, up to the first other
    character: the digits' value, how many they are, and the rest. *)
Fixpoint float_digits (acc : Z) (count : Z) (s : string) : Z * Z * string :=
  match s with
  | String c s' =>
      match digit_val c with
      | Some d => float_digits (acc * 10 + d) (count + 1) s'
      | None =>
          match s' with
          | String c' s'' =>
              match digit_val c' with
              | Some d' =>
                  if (Ascii.eqb c "_" && (0 <? count))%bool
                  then float_digits (acc * 10 + d') (count + 1) s''
                  else (acc, count, s)
              | None => (acc, count, s)
              end
          | EmptyString => (acc, count, s)
          end
      end
  | EmptyString => (acc, count, s)
  end.

(** [mantissa * 10 ^ exponent] seconds, in nanoseconds (truncated). *)
Definition scale10 (mantissa exponent : Z) : Z :=
  if 0 <=? exponent + 9 then mantissa * 10 ^ (exponent + 9)
  else mantissa / 10 ^ (- (exponent + 9)).

Definition float_exponent (s : string) : option Z :=
  match s with
  | EmptyString => Some 0
  | String c s' =>
      if (Ascii.eqb c "e" || Ascii.eqb c "E")%bool then
        let '(sign, s') :=
          match s' with
          | String "-" r => (-1, r)
          | String "+" r => (1, r)
          | _ => (1, s')
          end in
        match float_digits 0 0 s' with
        | (e, count, EmptyString) => if 0 <? count then Some (sign * e) else None
        | _ => None
        end
      else None
  end.

(** The literals from here on round to infinity in a double. *)
Definition float_overflow : Z := sec (2 ^ 1024 - 2 ^ 970).

(** An unsigned literal. *)
Definition float_magnitude (s : string) : option pyfloat :=
  if mem_str (lower s) ["inf"; "infinity"; "nan"] then Some NonFinite
  else
    let '(whole, nwhole, s1) := float_digits 0 0 s in
    let '(mantissa, nfrac, s2) :=
      match s1 with
      | String "." r =>
          let '(m, n, r') := float_digits 0 0 r in (whole * 10 ^ n + m, n, r')
      | _ => (whole, 0, s1)
      end in
    if nwhole + nfrac =? 0 then None
    else match float_exponent s2 with
         | Some e =>
             let ns := scale10 mantissa (e - nfrac) in
             Some (if float_overflow <=? ns then NonFinite else Finite ns)
         | None => None
         end.

Definition float_of_string (s : string) : option pyfloat :=
  match strip s with
  | String "-" s' =>
      match float_magnitude s' with
      | Some (Finite n) => Some (Finite (- n))
      | r => r
      end
  | String "+" s' => float_magnitude s'
  | s' => float_magnitude s'
  end.

(** ** [Retry-After] *)

Definition clamp (seconds maximum : Z) : Z := Z.min (Z.max seconds 0) maximum.

(** [http_date] is [parsedate_to_datetime] of the standard library's e-mail
    package ([None] where it raises, UTC assumed where the date has no zone),
    and [now] the current UTC time. *)
Definition parse_retry_after (http_date : string -> option Z) (now : Z) (value : pyval)
  (maximum : Z) : option Z :=
  let text := strip (str value) in
  match float_of_string text with
  | Some (Finite seconds) => Some (clamp seconds maximum)
  | Some NonFinite => None
  | None =>
      match http_date text with
      | None => None
      | Some retry_at => Some (clamp (retry_at - now) maximum)
      end
  end.

Definition _STAGE_RETRY_MAX : nat := 2.
Definition _STAGE_RETRY_INITIAL_DELAY : Z := sec 8.
Definition _STAGE_RETRY_MAX_DELAY : Z := sec 60.

Definition _stage_retry_after (http_date : string -> option Z) (now : Z) (payload : dict pyval) :
  option Z :=
  let value :=
    match get "retry_after" payload, get "headers" payload with
    | VNone, VDict headers => py_or (get "Retry-After" headers) (get "retry-after" headers)
    | value, _ => value
    end in
  parse_retry_after http_date now value _STAGE_RETRY_MAX_DELAY.

Definition _stage_retry_delay (http_date : string -> option Z) (now : Z) (payload : dict pyval)
  (retry_index : nat) : Z :=
  match _stage_retry_after http_date now payload with
  | Some retry_after => retry_after
  | None => Z.min (_STAGE_RETRY_INITIAL_DELAY * 2 ^ Z.of_nat retry_index) _STAGE_RETRY_MAX_DELAY
  end.

(** ** Lemmas *)

Lemma clamp_bounds (x maximum : Z) : 0 <= maximum -> 0 <= clamp x maximum <= maximum.
Proof. unfold clamp. lia. Qed.

Lemma parse_retry_after_bounds (http_date : string -> option Z) (now : Z) (value : pyval)
  (maximum d : Z) :
  0 <= maximum -> parse_retry_after http_date now value maximum = Some d -> 0 <= d <= maximum.
Proof.
  intros Hm. unfold parse_retry_after. repeat case_match; intros Hd; simplify_eq;
    by apply clamp_bounds.
Qed.

Lemma stage_retry_delay_bounds (http_date : string -> option Z) (now : Z) (payload : dict pyval)
  (i : nat) :
  0 <= _stage_retry_delay http_date now payload i <= _STAGE_RETRY_MAX_DELAY.
Proof.
  unfold _stage_retry_delay. destruct (_stage_retry_after _ _ _) as [d|] eqn:E.
  - unfold _stage_retry_after in E. by eapply parse_retry_after_bounds.
  - pose proof (Z.pow_pos_nonneg 2 (Z.of_nat i)).
    unfold _STAGE_RETRY_INITIAL_DELAY, _STAGE_RETRY_MAX_DELAY, sec. lia.
Qed.

Lemma remaining_pos (d : SyncJobDeadline) (now : Z) :
  0 < remaining d now -> now + remaining d now = executable_expires_at d.
Proof. unfold remaining, executable_expires_at. lia. Qed.

(** A positive capped delay ends before the executable deadline. *)
Lemma cap_before_deadline (d : SyncJobDeadline) (delay now : Z) :
  0 < cap d delay now -> now + cap d delay now <= executable_expires_at d.
Proof. unfold cap, remaining, executable_expires_at. lia. Qed.
