(* ===== verification/StageExec.v ===== *)
(** * One stage against the backend (sync_stages.py, [_execute_stage_sync])

    The world of a staged run, and the execution of one stage: up to three
    stream requests, retried only on a retryable failure, each request and
    each back-off capped by the job deadline.

    The outside of the process (the clock, the database rows, the backend) is
    an environment [E] with the operations of the class [Env]; nothing is
    assumed of their results.  The world adds what the module itself keeps
    between calls, the sync-mode variables and the captured endpoint ids, and a
    history of the calls made, which only the theorems read.  Log lines,
    progress frames and heartbeats are not part of the model. *)
From Stdlib Require Import ZArith Lia String.
From stdpp Require Import base list sets strings pretty.
From S2P Require Import Prelude Json StageFailure SyncTypes SyncModes Effects Deadline.

(** ** The environment *)

Record BackendRequestContext := {
  ctx_http_url : option string;
  ctx_headers : dict string;
  ctx_verify_ssl : bool
}.

(** The arguments of [run_sync_stream]. *)
Record stream_request := {
  req_path : string;
  req_query : dict string;
  req_endpoint_id : option Z;
  req_timeout : Z;
  req_deadline : option SyncJobDeadline
}.

(** What [run_sync_stream] gives back: a payload and an HTTP status. *)
Abbreviation stream_outcome := (result (dict pyval * Z)).

Class Env (E : Type) := {
  (* time.monotonic(), in nanoseconds *)
  env_monotonic : E -> Z * E;
  (* time.sleep() *)
  env_sleep : Z -> E -> E;
  (* datetime.now(timezone.utc) and email.utils.parsedate_to_datetime *)
  env_utcnow : E -> Z;
  env_http_date : string -> option Z;
  (* the rows a query sees *)
  env_netbox : E -> netbox;
  (* get_fastapi_request_context() *)
  env_context : option Z -> E -> option BackendRequestContext;
  (* GET /proxmox/endpoints: the rows, or an error text *)
  env_list_endpoints : BackendRequestContext -> E ->
    (list (dict pyval) + string) * E;
  (* services.run_sync_stream() *)
  env_stream : stream_request -> E -> stream_outcome * E
}.

(** An endpoint row of either kind, by its primary key. *)
Inductive endpoint_ref := NetBoxRow (pk : Z) | ProxmoxRow (pk : Z).

Inductive event :=
| EvClock (t : Z)
| EvSleep (d : Z)
| EvStream (r : stream_request) (o : stream_outcome)
(* a verification of the backend key, and whether it succeeded *)
| EvKeyCheck (ok : bool)
(* an endpoint row pushed to the backend, and whether it was accepted *)
| EvPush (row : endpoint_ref) (ok : bool).

(** [history] has the latest event first. *)
Record world (E : Type) := {
  env : E;
  history : list event;
  sync_mode_vars : mode_vars;
  wire_capture : option (dict string)
}.
Arguments env {E} w.
Arguments history {E} w.
Arguments sync_mode_vars {E} w.
Arguments wire_capture {E} w.

Section World.
Context {E : Type} `{!Env E}.

Definition record (ev : event) (e : E) (w : world E) : world E :=
  {| env := e; history := ev :: history w; sync_mode_vars := sync_mode_vars w;
     wire_capture := wire_capture w |}.

Definition set_vars (vars : mode_vars) (w : world E) : world E :=
  {| env := env w; history := history w; sync_mode_vars := vars;
     wire_capture := wire_capture w |}.

Definition monotonic : M (world E) Z := fun w =>
  let '(t, e) := env_monotonic (env w) in (Ok t, record (EvClock t) e w).

Definition sleep (d : Z) : M (world E) () := fun w =>
  (Ok (), record (EvSleep d) (env_sleep d (env w)) w).

Definition run_sync_stream (r : stream_request) : M (world E) (dict pyval * Z) := fun w =>
  let '(o, e) := env_stream r (env w) in (o, record (EvStream r o) e w).

Definition rows : M (world E) netbox := gets (fun w => env_netbox (env w)).

(** ** The stage *)

Definition no_time_left : exn :=
  RuntimeError "Job deadline reached before the stage could finish.".
Definition no_time_to_retry : exn :=
  RuntimeError "Job deadline reached before the stage could be retried.".

Definition stage_budget (deadline : option SyncJobDeadline) : M (world E) Z :=
  match deadline with
  | Some d => now ← monotonic; mret (remaining d now)
  | None => mret (sec 3600)
  end.

Definition failed_attempt (index : nat) (status elapsed : Z) (payload : dict pyval) :
  _StageFailureAttempt :=
  {| attempt_index := S index; attempt_status := status;
     attempt_detail :=
       match _extract_backend_error_text payload with
       | Some (String _ _ as t) => t
       | _ => str (VDict payload)
       end;
     attempt_classification := _classify_stage_failure status (VDict payload);
     attempt_elapsed := elapsed;
     attempt_payload := payload |}.

(** The delay before the next attempt, capped by the deadline. *)
Definition retry_pause (deadline : option SyncJobDeadline) (payload : dict pyval) (index : nat) :
  M (world E) Z :=
  now_utc ← gets (fun w => env_utcnow (env w));
  let retry_delay := _stage_retry_delay env_http_date now_utc payload index in
  match deadline with
  | None => mret retry_delay
  | Some d =>
      now ← monotonic;
      let retry_delay := cap d retry_delay now in
      if retry_delay <=? 0 then raise no_time_to_retry else mret retry_delay
  end.

(** The body after the loop: every attempt failed. *)
Definition stage_failure (sync_type : string) (preflight_hint : option string)
  (attempts : list _StageFailureAttempt) : M (world E) (dict pyval * Z) :=
  user_detail ← lift (_compose_stage_failure_message sync_type attempts);
  raise (RuntimeError
    match preflight_hint with
    | Some (String _ _ as hint) => user_detail +:+ " " +:+ hint
    | _ => user_detail
    end).

(** One pass through the loop body up to the decision to retry: the payload
    and runtime of a successful stage, or the failed attempt.  [budget] is the
    time remaining. *)
Definition attempt_with_budget (index : nat) (request : Z -> stream_request) (stage_started : Z)
  (budget : Z) : M (world E) ((dict pyval * Z) + _StageFailureAttempt) :=
  if budget <=? 0 then raise no_time_left
  else
    attempt_started ← monotonic;
    response ← run_sync_stream (request (Z.min (sec 3600) budget));
    let '(payload, status) := response in
    if status <? 400 then
      _ ← monotonic;
      finished ← monotonic;
      mret (inl (payload, round3 (finished - stage_started)))
    else
      failed ← monotonic;
      _ ← monotonic;
      mret (inr (failed_attempt index status (round3 (failed - attempt_started)) payload)).

Definition stage_attempt (index : nat) (request : Z -> stream_request)
  (deadline : option SyncJobDeadline) (stage_started : Z) :
  M (world E) ((dict pyval * Z) + _StageFailureAttempt) :=
  budget ← stage_budget deadline;
  attempt_with_budget index request stage_started budget.

(** [for _attempt in range(_STAGE_RETRY_MAX + 1)]: [left] attempts remain,
    [index] were made. *)
Fixpoint attempt_loop (left index : nat) (sync_type : string) (request : Z -> stream_request)
  (deadline : option SyncJobDeadline) (preflight_hint : option string) (stage_started : Z)
  (attempts : list _StageFailureAttempt) : M (world E) (dict pyval * Z) :=
  match left with
  | O => stage_failure sync_type preflight_hint attempts
  | S left' =>
      outcome ← stage_attempt index request deadline stage_started;
      match outcome with
      | inl done => mret done
      | inr failure =>
          let attempts := attempts ++ [failure] in
          let payload := attempt_payload failure in
          if (_is_retryable_stage_failure (attempt_status failure) (VDict payload)
              && Nat.ltb index _STAGE_RETRY_MAX)%bool
          then
            delay ← retry_pause deadline payload index;
            _ ← sleep delay;
            attempt_loop left' (S index) sync_type request deadline preflight_hint stage_started
              attempts
          else stage_failure sync_type preflight_hint attempts
      end
  end.

Definition _execute_stage_sync (sync_type stream_path : string) (query_params : dict string)
  (endpoint_id : option Z) (preflight_hint : option string)
  (deadline : option SyncJobDeadline) : M (world E) (dict pyval * Z) :=
  stage_started ← monotonic;
  attempt_loop (S _STAGE_RETRY_MAX) 0 sync_type
    (fun t => {| req_path := stream_path; req_query := query_params;
                 req_endpoint_id := endpoint_id; req_timeout := t; req_deadline := deadline |})
    deadline preflight_hint stage_started [].

(** ** Rules for the environment's operations *)

Lemma wp_monotonic (Q : result Z -> world E -> Prop) (w : world E) :
  (forall t e, Q (Ok t) (record (EvClock t) e w)) -> wp monotonic Q w.
Proof. unfold wp, monotonic. intros HQ. destruct (env_monotonic (env w)). apply HQ. Qed.

Lemma wp_sleep (d : Z) (Q : result () -> world E -> Prop) (w : world E) :
  (forall e, Q (Ok ()) (record (EvSleep d) e w)) -> wp (sleep d) Q w.
Proof. unfold wp, sleep. intros HQ. apply HQ. Qed.

Lemma wp_run_sync_stream (r : stream_request) (Q : stream_outcome -> world E -> Prop) (w : world E) :
  (forall o e, Q o (record (EvStream r o) e w)) -> wp (run_sync_stream r) Q w.
Proof. unfold wp, run_sync_stream. intros HQ. destruct (env_stream r (env w)). apply HQ. Qed.

(** The stream calls of a history, in the order they were made. *)
Definition stream_of (ev : event) : option (stream_request * stream_outcome) :=
  match ev with EvStream r o => Some (r, o) | _ => None end.

Fixpoint streams (h : list event) : list (stream_request * stream_outcome) :=
  match h with
  | [] => []
  | ev :: h' => streams h' ++ match stream_of ev with Some x => [x] | None => [] end
  end.

Lemma streams_app (h1 h2 : list event) : streams (h1 ++ h2) = streams h2 ++ streams h1.
Proof.
  induction h1 as [|ev h1 IH]; simpl; [by rewrite app_nil_r|]. by rewrite IH, app_assoc.
Qed.

(** ** The retry policy, as a relation

    [stage_run request n l r]: with [n] attempts left, a stage may make exactly
    the calls [l] and end with [r]. *)
Inductive stage_run (request : Z -> stream_request) (hint : option string) :
  nat -> list (stream_request * stream_outcome) -> result (dict pyval * Z) -> Prop :=
| run_no_time n :
    stage_run request hint (S n) [] (Err no_time_left)
| run_success n t payload status runtime :
    status < 400 ->
    stage_run request hint (S n) [(request t, Ok (payload, status))] (Ok (payload, runtime))
| run_raised n t e :
    stage_run request hint (S n) [(request t, Err e)] (Err e)
| run_failed n t payload status msg :
    400 <= status -> _is_retryable_stage_failure status (VDict payload) = false \/ n = O ->
    stage_run request hint (S n) [(request t, Ok (payload, status))] (Err (RuntimeError msg))
| run_no_retry_time n t payload status :
    400 <= status -> _is_retryable_stage_failure status (VDict payload) = true ->
    stage_run request hint (S (S n)) [(request t, Ok (payload, status))] (Err no_time_to_retry)
| run_retry n t payload status l r :
    400 <= status -> _is_retryable_stage_failure status (VDict payload) = true ->
    stage_run request hint (S n) l r ->
    stage_run request hint (S (S n)) ((request t, Ok (payload, status)) :: l) r.

Lemma stage_run_length request hint n l r :
  stage_run request hint n l r -> (length l <= n)%nat.
Proof. induction 1; simpl; lia. Qed.

(** All calls carry the stage's own request. *)
Lemma stage_run_requests request hint n l r :
  stage_run request hint n l r -> Forall (fun c => exists t, c.1 = request t) l.
Proof. induction 1; repeat constructor; simpl; eauto. Qed.

(** A stage returns a payload exactly when its last call succeeded. *)
Lemma stage_run_ok request hint n l p rt :
  stage_run request hint n l (Ok (p, rt)) ->
  exists l' t status, l = l' ++ [(request t, Ok (p, status))] /\ status < 400.
Proof.
  remember (Ok (p, rt)) as r eqn:Hr. induction 1; simplify_eq.
  - by exists [], t, status.
  - destruct IHstage_run as (l' & t' & s' & -> & Hs); [done|]. by exists ((request t, Ok (payload, status)) :: l'), t', s'.
Qed.

(** ** The stage follows the policy *)

(** The events a computation adds to the history, related to its result. *)
Definition traces {A} (m : M (world E) A) (R : list event -> result A -> Prop) : Prop :=
  adds history m R.

Lemma traces_mono {A} (m : M (world E) A) (R S : list event -> result A -> Prop) :
  traces m R -> (forall l r, R l r -> S l r) -> traces m S.
Proof. apply adds_mono. Qed.

Lemma traces_bind {A B} (m : M (world E) A) (k : A -> M (world E) B) R S T :
  traces m R -> (forall a, traces (k a) (S a)) ->
  (forall l e, R l (Err e) -> T l (Err e)) ->
  (forall l1 l2 a r, R l1 (Ok a) -> S a l2 r -> T (l2 ++ l1) r) -> traces (m ≫= k) T.
Proof. apply adds_bind. Qed.

Lemma traces_ret {A} (a : A) : traces (mret a) (fun l r => l = [] /\ r = Ok a).
Proof. apply adds_ret. Qed.

Lemma traces_raise {A} (e : exn) : traces (raise (A := A) e) (fun l r => l = [] /\ r = Err e).
Proof. apply adds_raise. Qed.

Lemma traces_lift {A} (a : result A) : traces (lift a) (fun l r => l = [] /\ r = a).
Proof. apply adds_lift. Qed.

Lemma traces_gets {A} (f : world E -> A) : traces (gets f) (fun l r => l = [] /\ exists a, r = Ok a).
Proof. apply adds_gets. Qed.

Lemma traces_monotonic : traces monotonic (fun l r => exists t, l = [EvClock t] /\ r = Ok t).
Proof. intros w. apply wp_monotonic. intros t e. exists [EvClock t]. eauto. Qed.

Lemma traces_sleep (d : Z) : traces (sleep d) (fun l r => l = [EvSleep d] /\ r = Ok ()).
Proof. intros w. apply wp_sleep. intros e. by exists [EvSleep d]. Qed.

(** [m] makes the stream calls related to its result by [R]. *)
Definition appends {A} (m : M (world E) A)
  (R : list (stream_request * stream_outcome) -> result A -> Prop) : Prop :=
  traces m (fun new r => R (streams new) r).

Lemma appends_mono {A} (m : M (world E) A)
  (R S : list (stream_request * stream_outcome) -> result A -> Prop) :
  appends m R -> (forall l r, R l r -> S l r) -> appends m S.
Proof. intros Hm HRS w. eapply wp_mono; [apply Hm|]. intros r w' (new & ? & ?). eauto. Qed.

Lemma appends_ret {A} (a : A) : appends (mret a) (fun l r => l = [] /\ r = Ok a).
Proof. intros w. apply wp_ret. by exists []. Qed.

Lemma appends_raise {A} (e : exn) : appends (raise (A := A) e) (fun l r => l = [] /\ r = Err e).
Proof. intros w. apply wp_raise. by exists []. Qed.

Lemma appends_lift {A} (a : result A) : appends (lift a) (fun l r => l = [] /\ r = a).
Proof. intros w. apply wp_lift. by exists []. Qed.

Lemma appends_gets {A} (f : world E -> A) :
  appends (gets f) (fun l r => l = [] /\ exists a, r = Ok a).
Proof. intros w. apply wp_gets. exists []. eauto. Qed.

Lemma appends_monotonic : appends monotonic (fun l r => l = [] /\ exists t, r = Ok t).
Proof. intros w. apply wp_monotonic. intros t e. exists [EvClock t]. eauto. Qed.

Lemma appends_sleep (d : Z) : appends (sleep d) (fun l r => l = [] /\ r = Ok ()).
Proof. intros w. apply wp_sleep. intros e. by exists [EvSleep d]. Qed.

Lemma appends_stream (q : stream_request) :
  appends (run_sync_stream q) (fun l r => l = [(q, r)]).
Proof. intros w. apply wp_run_sync_stream. intros o e. by exists [EvStream q o]. Qed.

(** Sequencing: the calls of the first part, then those of the second. *)
Lemma appends_bind {A B} (m : M (world E) A) (k : A -> M (world E) B) R
  (S : A -> list (stream_request * stream_outcome) -> result B -> Prop)
  (T : list (stream_request * stream_outcome) -> result B -> Prop) :
  appends m R -> (forall a, appends (k a) (S a)) ->
  (forall l e, R l (Err e) -> T l (Err e)) ->
  (forall l1 l2 a r, R l1 (Ok a) -> S a l2 r -> T (l1 ++ l2) r) ->
  appends (m ≫= k) T.
Proof.
  intros Hm Hk Herr Hok w. apply wp_bind. eapply wp_mono; [apply Hm|].
  intros [a|e] w1 (n1 & Hn1 & HR); [|eauto].
  eapply wp_mono; [apply Hk|]. intros r w2 (n2 & Hn2 & HS).
  exists (n2 ++ n1). rewrite Hn2, Hn1, app_assoc, streams_app. eauto.
Qed.

(** A computation that makes no stream call. *)
Lemma appends_quiet_bind {A B} (m : M (world E) A) (k : A -> M (world E) B)
  (P : result A -> Prop) (T : list (stream_request * stream_outcome) -> result B -> Prop) :
  appends m (fun l r => l = [] /\ P r) ->
  (forall a, P (Ok a) -> appends (k a) T) -> (forall e, P (Err e) -> T [] (Err e)) ->
  appends (m ≫= k) T.
Proof.
  intros Hm Hk Herr w. apply wp_bind. eapply wp_mono; [apply Hm|].
  intros [a|e] w1 (n1 & Hn1 & Hs & HP); [|exists n1; rewrite Hs; eauto].
  eapply wp_mono; [by apply Hk|]. intros r w2 (n2 & Hn2 & HT).
  exists (n2 ++ n1). rewrite Hn2, Hn1, app_assoc, streams_app, Hs. eauto.
Qed.

(** A clock reading in front of a computation. *)
Ltac tick :=
  eapply appends_quiet_bind; [apply appends_monotonic|intros ? _|naive_solver].

Lemma stage_budget_appends deadline :
  appends (stage_budget deadline) (fun l r => l = [] /\ exists b, r = Ok b).
Proof.
  unfold stage_budget. destruct deadline as [d|].
  - tick. eapply appends_mono; [apply appends_ret|naive_solver].
  - eapply appends_mono; [apply appends_ret|naive_solver].
Qed.

Lemma retry_pause_appends deadline payload index :
  appends (retry_pause deadline payload index)
    (fun l r => l = [] /\ (r = Err no_time_to_retry \/ exists d, r = Ok d)).
Proof.
  unfold retry_pause. eapply appends_quiet_bind; [apply appends_gets| |naive_solver].
  intros u _. destruct deadline as [d|].
  - tick. destruct (_ <=? 0);
      (eapply appends_mono; [apply appends_raise || apply appends_ret|naive_solver]).
  - eapply appends_mono; [apply appends_ret|naive_solver].
Qed.

Lemma stage_failure_appends sync_type hint attempts :
  attempts <> [] ->
  appends (stage_failure sync_type hint attempts)
    (fun l r => l = [] /\ exists msg, r = Err (RuntimeError msg)).
Proof.
  intros Hne. unfold stage_failure.
  assert (exists msg, _compose_stage_failure_message sync_type attempts = Ok msg) as [msg ->].
  { unfold _compose_stage_failure_message. destruct (primary_total attempts Hne) as [a ->].
    destruct (forallb _ _); eauto. }
  eapply appends_quiet_bind; [apply appends_lift| |naive_solver].
  intros a _. eapply appends_mono; [apply appends_raise|naive_solver].
Qed.

(** What one attempt does: nothing when no time is left, else one call. *)
Definition attempt_rel (request : Z -> stream_request)
  (l : list (stream_request * stream_outcome))
  (r : result ((dict pyval * Z) + _StageFailureAttempt)) : Prop :=
  l = [] /\ r = Err no_time_left \/
  exists t o, l = [(request t, o)] /\
    match o with
    | Err e => r = Err e
    | Ok (payload, status) =>
        status < 400 /\ (exists rt, r = Ok (inl (payload, rt))) \/
        400 <= status /\ (exists a, r = Ok (inr a) /\ attempt_status a = status /\
                            attempt_payload a = payload)
    end.

Lemma stage_attempt_appends index request deadline started :
  appends (stage_attempt index request deadline started) (attempt_rel request).
Proof.
  unfold stage_attempt.
  eapply appends_quiet_bind; [apply stage_budget_appends| |naive_solver].
  intros b _. unfold attempt_with_budget. destruct (b <=? 0).
  { eapply appends_mono; [apply appends_raise|]. intros l r [-> ->]. by left. }
  tick. eapply appends_bind with (S := fun o l r => l = [] /\
    (o.2 < 400 /\ (exists rt, r = Ok (inl (o.1, rt))) \/
     400 <= o.2 /\ (exists a, r = Ok (inr a) /\ attempt_status a = o.2 /\ attempt_payload a = o.1)));
    [apply appends_stream| | |].
  - intros [payload status]. destruct (Z.ltb_spec status 400).
    + tick. tick. eapply appends_mono; [apply appends_ret|]. intros l r [-> ->]. eauto 6.
    + tick. tick. eapply appends_mono; [apply appends_ret|]. intros l r [-> ->].
      split; [done|]. right. split; [done|]. by eexists.
  - intros l e ->. right. by eexists _, (Err e).
  - intros l1 l2 [payload status] r -> [-> Hr]. right. eauto.
Qed.

Lemma attempt_loop_run (left index : nat) sync_type request deadline hint started attempts :
  (index + S left = S _STAGE_RETRY_MAX)%nat ->
  appends (attempt_loop (S left) index sync_type request deadline hint started attempts)
    (stage_run request hint (S left)).
Proof.
  revert index attempts. induction left as [left IH] using lt_wf_ind. intros index attempts Hi.
  cbn [attempt_loop]. eapply appends_bind with (S := fun o l r =>
    match o with
    | inl out => l = [] /\ r = Ok out
    | inr a => forall t, 400 <= attempt_status a ->
        stage_run request hint (S left) ((request t, Ok (attempt_payload a, attempt_status a)) :: l) r
    end); [apply stage_attempt_appends| | |].
  - intros [out|a]; [apply appends_ret|].
    destruct (_is_retryable_stage_failure _ _) eqn:Er; cbn [andb];
      [destruct (Nat.ltb_spec index _STAGE_RETRY_MAX) as [Hlt|Hge]|].
    + destruct left as [|left]; [unfold _STAGE_RETRY_MAX in *; lia|].
      eapply appends_quiet_bind; [apply retry_pause_appends| |].
      * intros d _. eapply appends_quiet_bind; [apply appends_sleep| |naive_solver].
        intros _ _. eapply appends_mono; [apply IH; lia|]. intros. by constructor.
      * intros e [[= ->]|[? [=]]] t Ht. by constructor.
    + eapply appends_mono; [apply stage_failure_appends; by destruct attempts|].
      intros l r [-> [msg ->]] t Ht. constructor; [done|]. right. lia.
    + eapply appends_mono; [apply stage_failure_appends; by destruct attempts|].
      intros l r [-> [msg ->]] t Ht. constructor; auto.
  - intros l e [[-> [= ->]]|(t & o & -> & Ho)]; [constructor|].
    destruct o as [[payload status]|e']; [naive_solver|]. simplify_eq. constructor.
  - intros l1 l2 o r [[_ [=]]|(t & c & -> & Hc)] HS.
    destruct c as [[payload status]|e']; [|done].
    destruct Hc as [[Hs [rt [= ->]]]|[Hs (a & [= ->] & <- & <-)]].
    + destruct HS as [-> ->]. by constructor.
    + by apply HS.
Qed.

(** ** Time budget *)

(** Every call of the history had a timeout of at most an hour that ended, as
    counted from the clock reading its budget was computed from, before the
    executable part of the job deadline; every pause was at most a minute and
    ended before it too. *)
Fixpoint within_budget (deadline : option SyncJobDeadline) (h : list event) : Prop :=
  match h with
  | [] => True
  | EvStream r _ :: h' =>
      (0 < req_timeout r <= sec 3600 /\
       match deadline, h' with
       | None, _ => True
       | Some d, EvClock _ :: EvClock t :: _ => t + req_timeout r <= executable_expires_at d
       | Some _, _ => False
       end) /\ within_budget deadline h'
  | EvSleep p :: h' =>
      (0 <= p <= _STAGE_RETRY_MAX_DELAY /\
       match deadline, h' with
       | None, _ => True
       | Some d, EvClock t :: _ => t + p <= executable_expires_at d
       | Some _, _ => False
       end) /\ within_budget deadline h'
  | _ :: h' => within_budget deadline h'
  end.

Definition budgeted (deadline : option SyncJobDeadline) (w : world E) : Prop :=
  within_budget deadline (history w).

Lemma monotonic_budgeted deadline : keeps (budgeted deadline) monotonic.
Proof. intros w Hw. by apply (wp_monotonic (fun _ => budgeted deadline)). Qed.

Lemma stage_failure_budgeted deadline sync_type hint attempts :
  keeps (budgeted deadline) (stage_failure sync_type hint attempts).
Proof. unfold stage_failure. repeat keeps_step. Qed.

Lemma attempt_with_budget_budgeted deadline index request started (b : Z) (w : world E) :
  (forall t, req_timeout (request t) = t) -> budgeted deadline w ->
  match deadline with
  | None => b = sec 3600
  | Some d => exists t h, history w = EvClock t :: h /\ b = remaining d t
  end ->
  wp (attempt_with_budget index request started b) (fun _ => budgeted deadline) w.
Proof.
  intros Hreq Hw Hb. unfold attempt_with_budget.
  destruct (Z.leb_spec b 0) as [|Hpos]; [done|].
  wp_step. apply wp_monotonic. intros t1 e1. wp_step. apply wp_run_sync_stream.
  intros o e2. set (w2 := record _ e2 _).
  assert (Hw2 : budgeted deadline w2).
  { unfold budgeted. simpl. rewrite Hreq. split; [|done]. split; [unfold sec in *; lia|].
    destruct deadline as [d|]; [|done]. destruct Hb as (t & h & -> & ->).
    apply remaining_pos in Hpos. lia. }
  destruct o as [[payload status]|e]; [|done].
  destruct (status <? 400); apply (keeps_bind _ _ _ (monotonic_budgeted deadline)); try done;
    intros ?; apply keeps_bind; auto using monotonic_budgeted with effects.
Qed.

Lemma stage_attempt_budgeted deadline index request started :
  (forall t, req_timeout (request t) = t) ->
  keeps (budgeted deadline) (stage_attempt index request deadline started).
Proof.
  intros Hreq w Hw. apply (wp_bind (stage_budget deadline) _ (fun _ => budgeted deadline)).
  unfold stage_budget. destruct deadline as [d|]; [|by apply wp_ret, attempt_with_budget_budgeted].
  wp_step. apply wp_monotonic. intros t e.
  apply wp_ret, attempt_with_budget_budgeted; [done..|]. by exists t, (history w).
Qed.

Lemma retry_pause_budgeted {A} deadline payload index (k : M (world E) A) :
  keeps (budgeted deadline) k ->
  keeps (budgeted deadline)
    (delay ← retry_pause deadline payload index; _ ← sleep delay; k).
Proof.
  intros Hk w Hw. apply (wp_bind (retry_pause deadline payload index) _ (fun _ => budgeted deadline)).
  unfold retry_pause. wp_steps.
  pose proof (stage_retry_delay_bounds env_http_date (env_utcnow (env w)) payload index) as Hd.
  set (delay := _stage_retry_delay _ _ _ _) in *.
  assert (Hsleep : forall d w1, budgeted deadline (record (EvSleep d) (env_sleep d (env w1)) w1) ->
    wp (_ ← sleep d; k) (fun _ => budgeted deadline) w1).
  { intros d w1 Hw1. wp_step. unfold wp at 1. cbn. by apply Hk. }
  destruct deadline as [d|].
  - wp_steps. apply wp_monotonic. intros t e. destruct (Z.leb_spec (cap d delay t) 0) as [|Hpos]; [done|].
    wp_steps. apply Hsleep. pose proof (cap_before_deadline _ _ _ Hpos).
    unfold budgeted. simpl. unfold cap in *. split; [|done]. lia.
  - wp_steps. apply Hsleep. unfold budgeted. simpl. split; [|done]. lia.
Qed.

Lemma attempt_loop_budgeted deadline left index sync_type request hint started attempts :
  (forall t, req_timeout (request t) = t) ->
  keeps (budgeted deadline)
    (attempt_loop left index sync_type request deadline hint started attempts).
Proof.
  intros Hreq. revert index attempts.
  induction left as [|left IH]; intros index attempts; cbn [attempt_loop];
    [apply stage_failure_budgeted|].
  apply keeps_bind; [by apply stage_attempt_budgeted|]. intros [out|a]; [apply keeps_ret|].
  destruct (_ && _)%bool; [|apply stage_failure_budgeted].
  apply retry_pause_budgeted, IH.
Qed.

Lemma execute_stage_budgeted deadline sync_type path query endpoint_id hint :
  keeps (budgeted deadline)
    (_execute_stage_sync sync_type path query endpoint_id hint deadline).
Proof.
  apply keeps_bind; [apply monotonic_budgeted|]. intros. by apply attempt_loop_budgeted.
Qed.

Lemma execute_stage_run sync_type path query endpoint_id hint deadline :
  appends (_execute_stage_sync sync_type path query endpoint_id hint deadline)
    (stage_run
       (fun t => {| req_path := path; req_query := query; req_endpoint_id := endpoint_id;
                    req_timeout := t; req_deadline := deadline |}) hint 3).
Proof. unfold _execute_stage_sync. tick. by apply attempt_loop_run. Qed.

(** ** Properties *)

(** C25: a stage follows the retry policy. Whatever the backend answers (and where
    the log entries of the job can be saved), it makes at most three calls, all with the stage's own path, query and
    backend; a further call is made only after a retryable failure; the stage
    returns a payload exactly when its last call succeeded, and that call's
    payload; and every other outcome is an exception. *)
Theorem execute_stage_follows_retry_policy sync_type path query endpoint_id hint deadline
  (w : world E) :
  exists new, history (snd (_execute_stage_sync sync_type path query endpoint_id hint deadline w))
              = new ++ history w /\
    stage_run
      (fun t => {| req_path := path; req_query := query; req_endpoint_id := endpoint_id;
                   req_timeout := t; req_deadline := deadline |}) hint 3 (streams new)
      (fst (_execute_stage_sync sync_type path query endpoint_id hint deadline w)) /\
    (length (streams new) <= 3)%nat.
Proof.
  destruct (execute_stage_run sync_type path query endpoint_id hint deadline w) as (new & Hh & Hr).
  exists new. split; [done|]. split; [done|]. by eapply stage_run_length.
Qed.

(** C26: a stage never outlives the job deadline by its own choice: whatever
    the clock and the backend do, each call's timeout and each pause between
    calls ends before the persistence reserve begins, and a call is never
    given more than an hour nor a pause more than a minute. *)
Theorem execute_stage_within_budget deadline sync_type path query endpoint_id hint (w : world E) :
  within_budget deadline (history w) ->
  within_budget deadline
    (history (snd (_execute_stage_sync sync_type path query endpoint_id hint deadline w))).
Proof. apply execute_stage_budgeted. Qed.

End World.

(** ** A scripted environment, to run the model on concrete inputs *)

Record script := {
  script_clock : Z;
  script_answers : list stream_outcome;
  script_rows : netbox;
  script_context : option BackendRequestContext;
  script_backend : list (dict pyval) + string
}.

Definition advance (d : Z) (answers : list stream_outcome) (s : script) : script :=
  {| script_clock := script_clock s + d; script_answers := answers; script_rows := script_rows s;
     script_context := script_context s; script_backend := script_backend s |}.

(** Every clock reading takes a millisecond and every stream a second; the
    answers are played in order, then the backend is gone. *)
#[global] Instance script_env : Env script := {|
  env_monotonic s := (script_clock s, advance (msec 1) (script_answers s) s);
  env_sleep d s := advance d (script_answers s) s;
  env_utcnow s := 0;
  env_http_date _ := None;
  env_netbox := script_rows;
  env_context _ s := script_context s;
  env_list_endpoints _ s := (script_backend s, s);
  env_stream _ s :=
    match script_answers s with
    | [] => (Ok ([("detail", VStr "connection refused")], 503), advance (sec 1) [] s)
    | a :: rest => (a, advance (sec 1) rest s)
    end
|}.

Definition start (s : script) : world script :=
  {| env := s; history := []; sync_mode_vars := []; wire_capture := None |}.

Definition sample_script (answers : list stream_outcome) : script :=
  {| script_clock := 0; script_answers := answers; script_rows := sample_netbox;
     script_context := Some {| ctx_http_url := Some "https://proxbox"; ctx_headers := [];
                               ctx_verify_ssl := true |};
     script_backend :=
       inl [ [ ("id", VInt 41); ("name", VStr "pve-7 (nb:7)"); ("domain", VStr "pve7.example.org");
               ("port", VInt 8006) ];
             [ ("id", VInt 43); ("name", VStr "pve-9 (nb:9)"); ("domain", VStr "pve9.example.org");
               ("port", VInt 8006) ] ] |}.

Definition sample_deadline : SyncJobDeadline :=
  {| expires_at := sec 600; reserve_seconds := sec 120 |}.

Definition unavailable : stream_outcome := Ok ([("detail", VStr "Service Unavailable")], 503).
Definition completed : stream_outcome :=
  Ok ([("path", VStr "x"); ("response", VDict [("ok", VBool true)])], 200).

(** A cold backend: the first call fails, the second succeeds after 8 s. *)
Example cold_backend_retried :
  let r := _execute_stage_sync "devices" "dcim/devices/create/stream" [] None None
             (Some sample_deadline) (start (sample_script [unavailable; completed])) in
  fst r = Ok ([("path", VStr "x"); ("response", VDict [("ok", VBool true)])], msec 10009) /\
  List.map snd (streams (history (snd r))) = [unavailable; completed].
Proof. split; vm_compute; reflexivity. Qed.

(** A rejection is not retried. *)
Example rejection_not_retried :
  let r := _execute_stage_sync "devices" "dcim/devices/create/stream" [] None (Some "Check the key.")
             None (start (sample_script [Ok ([("detail", VStr "bad tag")], 422); completed])) in
  fst r = Err (RuntimeError "Stage 'devices' failed (HTTP 422): bad tag Check the key.").
Proof. vm_compute. reflexivity. Qed.

Lemma execute_stage_within_budget_witness :
  within_budget (Some sample_deadline) (history (start (sample_script [unavailable]))) /\
  within_budget (Some sample_deadline)
    (history (snd (_execute_stage_sync "devices" "dcim/devices/create/stream" [] None None
                     (Some sample_deadline) (start (sample_script [unavailable]))))).
Proof.
  split; [exact I|].
  apply (execute_stage_within_budget (Some sample_deadline) "devices" "dcim/devices/create/stream"
           [] None None (start (sample_script [unavailable]))).
  exact I.
Defined.
