(* ===== verification/EndpointScope.v ===== *)
(** * Which endpoints a run may touch
    (sync_stages.py, views/backend_sync.py)

    A run is scoped by NetBox primary keys, the backend filters by its own row
    ids, and a request without a scope means "every endpoint".  This file
    models the selection of the enabled endpoints, the resolution of an
    endpoint to its backend row (by the [(nb:<pk>)] suffix of the row's name,
    and only while the row still dials the endpoint's host and port), and the
    scope of a selected-object run.

    A failing database query (the [except] branches of the selection) is not
    modelled: the rows of the environment can always be read. *)
From Stdlib Require Import ZArith Lia String Ascii.
From stdpp Require Import base list sets strings pretty.
From S2P Require Import Prelude Json StageFailure SyncTypes SyncModes Effects Deadline StageExec.

(** ** The selected and enabled endpoints *)

(** [int(endpoint_id)] succeeds. *)
Definition is_int (s : string) : bool :=
  match int_of_string s with Some _ => true | None => false end.

Definition requested_ids (proxmox_endpoint_ids : list pyval) : list string :=
  List.filter is_int (List.filter nonempty (List.map (fun v => strip (str v)) proxmox_endpoint_ids)).

(** [[int(x) for x in l]] *)
Fixpoint ints_of (l : list string) : result (list Z) :=
  match l with
  | [] => Ok []
  | x :: l' =>
      match int_of_string x, ints_of l' with
      | Some z, Ok zs => Ok (z :: zs)
      | None, _ => Err (ValueError ("invalid literal for int() with base 10: " +:+ repr_str x))
      | _, Err e => Err e
      end
  end.

(** [ProxmoxEndpoint.objects.filter(pk__in=pks, enabled=True)] *)
Definition enabled_among (nb : netbox) (pks : list Z) : list ProxmoxEndpoint :=
  List.filter (fun e => (bool_decide (endpoint_pk e ∈ pks) && endpoint_enabled e)%bool)
    (nb_endpoints nb).

Definition pk_str (e : ProxmoxEndpoint) : string := pretty (endpoint_pk e).

Definition _proxmox_endpoint_scopes (nb : netbox) (proxmox_endpoint_ids : list pyval) :
  list (list string) :=
  let requested := requested_ids proxmox_endpoint_ids in
  match requested with
  | [] =>
      List.map (fun e => [pk_str e]) (List.filter endpoint_enabled (nb_endpoints nb))
  | _ =>
      let enabled_ids :=
        match ints_of requested with
        | Ok pks => List.map pk_str (enabled_among nb pks)
        | Err _ => requested
        end in
      List.map (fun endpoint_id => [endpoint_id])
        (List.filter (fun endpoint_id => mem_str endpoint_id enabled_ids) requested)
  end.

(** [filter(pk=endpoint_id).values_list("name").first() or ""] *)
Definition _endpoint_display_name (nb : netbox) (endpoint_id : option string) : string :=
  match endpoint_id with
  | None => ""
  | Some id =>
      match int_of_string id with
      | Some pk => match find_endpoint nb pk with Some e => endpoint_name e | None => "" end
      | None => ""
      end
  end.

(** ** Backend rows *)

(** [int(value)] on a JSON value; [None] where it raises. *)
Definition py_int (v : pyval) : option Z :=
  match v with
  | VInt z => Some z
  | VBool b => Some (if b then 1 else 0)
  | VStr s => int_of_string s
  | VFloat r => match float_of_string r with Some (Finite ns) => Some (Z.quot ns (sec 1)) | _ => None end
  | VNone | VList _ | VDict _ => None
  end.

Definition _int_or_none (value : pyval) : option Z := py_int value.

Definition proxmox_backend_name (e : ProxmoxEndpoint) : string :=
  str_or (strip (str_or (endpoint_name e) "Proxmox Endpoint")) "Proxmox Endpoint"
  +:+ " (nb:" +:+ pretty (endpoint_pk e) +:+ ")".

Definition _proxmox_connection_target (domain ip_address : string) : string :=
  str_or domain ip_address.

Definition normal_domain (s : string) : string := lower (rstrip_char "." (strip s)).
Definition normal_address (s : string) : string := lower (strip (split_first slash s)).

(** [str(row.get(key) or "")] *)
Definition row_text (key : string) (row : dict pyval) : string :=
  str (py_or (get key row) (VStr "")).

Definition _proxmox_identity_host (row : dict pyval) : string * string :=
  (normal_domain (row_text "domain" row), normal_address (row_text "ip_address" row)).

Definition _proxmox_endpoint_identity (e : ProxmoxEndpoint) : string * string :=
  (normal_domain (endpoint_domain e),
   match endpoint_ip_address e with Some a => normal_address a | None => "" end).

Definition _proxmox_endpoint_target (e : ProxmoxEndpoint) : option (string * Z) :=
  let '(domain, ip) := _proxmox_endpoint_identity e in
  let host := _proxmox_connection_target domain ip in
  if is_empty host then None
  else Some (host, if endpoint_port e =? 0 then 8006 else endpoint_port e).

Definition _proxmox_row_target (row : dict pyval) : option (string * Z) :=
  let '(domain, ip) := _proxmox_identity_host row in
  let host := _proxmox_connection_target domain ip in
  if is_empty host then None
  else match dget "port" row with
       | None => None
       | Some v => match py_int v with Some port => Some (host, port) | None => None end
       end.

Definition _describe_target (t : string * Z) : string := fst t +:+ ":" +:+ pretty (snd t).

Definition _proxmox_targets_match (e : ProxmoxEndpoint) (row : dict pyval) : bool :=
  match _proxmox_endpoint_target e with
  | None => false
  | Some want => bool_decide (Some want = _proxmox_row_target row)
  end.

Definition nb_suffix (pk : Z) : string := "(nb:" +:+ pretty pk +:+ ")".

Definition claims_suffix (suffix : string) (row : dict pyval) : bool :=
  endswith suffix (strip (row_text "name" row)).

Definition _backend_rows_for_endpoint (rows : list (dict pyval)) (e : ProxmoxEndpoint) :
  list (dict pyval) :=
  List.filter (claims_suffix (nb_suffix (endpoint_pk e))) rows.

Definition _backend_row_for_endpoint (rows : list (dict pyval)) (e : ProxmoxEndpoint) :
  option (dict pyval) :=
  match _backend_rows_for_endpoint rows e with [row] => Some row | _ => None end.

(** [(backend_id, None)] as [inl], [(None, reason)] as [inr]. *)
Definition _resolve_backend_row_id (rows : list (dict pyval)) (e : ProxmoxEndpoint) : Z + string :=
  let target_name := proxmox_backend_name e in
  match _backend_rows_for_endpoint rows e with
  | _ :: _ :: _ =>
      inr ("Multiple ProxBox backend rows claim immutable identity nb:" +:+ pretty (endpoint_pk e)
           +:+ "; refusing to choose one.")
  | [] =>
      inr ("Proxmox endpoint '" +:+ target_name +:+ "' is not registered on the ProxBox "
           +:+ "backend yet; cannot scope sync to a single endpoint.")
  | [row] =>
      match _proxmox_endpoint_target e, _proxmox_row_target row with
      | None, _ =>
          inr ("Proxmox endpoint '" +:+ target_name +:+ "' resolves no host or port in "
               +:+ "NetBox, so its ProxBox backend row cannot be confirmed to point at "
               +:+ "it; set a domain or IP address on the endpoint.")
      | Some want, None =>
          inr ("Proxmox endpoint '" +:+ target_name +:+ "' is registered on the ProxBox "
               +:+ "backend, but the stored row resolves no host or port, so it cannot "
               +:+ "be confirmed to still point at " +:+ _describe_target want +:+ ". Refusing "
               +:+ "to use it so this endpoint is not synced from the wrong Proxmox host.")
      | Some want, Some got =>
          if negb (bool_decide (want = got)) then
            inr ("Proxmox endpoint '" +:+ target_name +:+ "' is registered on the ProxBox "
                 +:+ "backend, but the backend's stored copy points at "
                 +:+ _describe_target got +:+ " instead of " +:+ _describe_target want +:+ ". "
                 +:+ "Refusing to use it so this endpoint is not synced from the wrong "
                 +:+ "Proxmox host; re-run once the endpoint push to the backend succeeds.")
          else
            match _int_or_none (get "id" row) with
            | None =>
                inr ("Proxmox endpoint '" +:+ target_name +:+ "' is registered on the ProxBox "
                     +:+ "backend but carries no usable id; cannot scope sync to a single "
                     +:+ "endpoint.")
            | Some backend_id => inl backend_id
            end
      end
  end.

(** [mapping[k] = v] with integer keys. *)
Fixpoint zset (k v : Z) (mapping : list (Z * Z)) : list (Z * Z) :=
  match mapping with
  | [] => [(k, v)]
  | (k', v') :: rest => if k =? k' then (k, v) :: rest else (k', v') :: zset k v rest
  end.

(** The loop of [resolve_backend_endpoint_ids]: endpoints without a usable row
    are left out. *)
Fixpoint resolve_rows (rows : list (dict pyval)) (endpoints : list ProxmoxEndpoint)
  (mapping : list (Z * Z)) : list (Z * Z) :=
  match endpoints with
  | [] => mapping
  | e :: rest =>
      resolve_rows rows rest
        match _resolve_backend_row_id rows e with
        | inl backend_id => zset (endpoint_pk e) backend_id mapping
        | inr _ => mapping
        end
  end.

Section Resolution.
Context {E : Type} `{!Env E}.

Definition _list_backend_proxmox_endpoints (ctx : BackendRequestContext) :
  M (world E) (list (dict pyval) + string) := fun w =>
  let '(r, e) := env_list_endpoints ctx (env w) in
  (Ok r, {| env := e; history := history w; sync_mode_vars := sync_mode_vars w;
            wire_capture := wire_capture w |}).

Definition resolve_backend_endpoint_ids (endpoints : list ProxmoxEndpoint)
  (ctx : BackendRequestContext) : M (world E) (list (Z * Z) * option string) :=
  match List.filter endpoint_enabled endpoints with
  | [] => mret ([], None)
  | endpoints =>
      listed ← _list_backend_proxmox_endpoints ctx;
      match listed with
      | inr list_error => mret ([], Some list_error)
      | inl rows => mret (resolve_rows rows endpoints [], None)
      end
  end.

Definition not_configured : string :=
  "FastAPI endpoint not configured; cannot resolve backend endpoint ids".

(** The first element of every non-empty scope, blank ones left out. *)
Definition scope_pks (endpoint_scopes : list (list string)) : list string :=
  flat_map
    (fun scope => match scope with
                  | pk :: _ => if nonempty (strip pk) then [pk] else []
                  | [] => []
                  end) endpoint_scopes.

Definition usable_context (ctx : option BackendRequestContext) : option BackendRequestContext :=
  match ctx with
  | Some c => match ctx_http_url c with Some (String _ _) => Some c | _ => None end
  | None => None
  end.

(** [capture.update(resolved)], when a capture is active. *)
Definition update_capture (resolved : dict string) (w : world E) : world E :=
  {| env := env w; history := history w; sync_mode_vars := sync_mode_vars w;
     wire_capture :=
       match wire_capture w with Some c => Some (dupdate c resolved) | None => None end |}.

Definition str_mapping (mapping : list (Z * Z)) : dict string :=
  List.map (fun kv => (pretty (fst kv), pretty (snd kv))) mapping.

Definition _resolve_wire_endpoint_ids (endpoint_scopes : list (list string))
  (fastapi_endpoint_id : option Z) : M (world E) (dict string * option string) :=
  match scope_pks endpoint_scopes with
  | [] => mret ([], None)
  | plugin_pks =>
      ctx ← gets (fun w => env_context fastapi_endpoint_id (env w));
      match usable_context ctx with
      | None => mret ([], Some not_configured)
      | Some ctx =>
          pks ← lift (ints_of plugin_pks);
          nb ← rows;
          match enabled_among nb pks with
          | [] => mret ([], None)
          | endpoints =>
              resolution ← resolve_backend_endpoint_ids endpoints ctx;
              let '(mapping, error) := resolution in
              match error with
              | Some ((String _ _) as error) => mret ([], Some error)
              | _ =>
                  let resolved := str_mapping mapping in
                  _ ← modify (update_capture resolved);
                  mret (resolved, None)
              end
          end
      end
  end.

(** [with capture_wire_endpoint_ids() as captured: body]: the outer capture is
    restored however the body ends. *)
Definition capture_wire_endpoint_ids {A} (body : M (world E) A) : M (world E) (A * dict string) :=
  fun w =>
    let set c w := {| env := env w; history := history w; sync_mode_vars := sync_mode_vars w;
                      wire_capture := c |} in
    match body (set (Some []) w) with
    | (Ok a, w') =>
        (Ok (a, match wire_capture w' with Some c => c | None => [] end), set (wire_capture w) w')
    | (Err e, w') => (Err e, set (wire_capture w) w')
    end.

(** ** Selected-object runs *)

Definition _no_endpoint_scope_reason (requested_endpoint_ids : list pyval) : string :=
  match requested_endpoint_ids with
  | _ :: _ =>
      "every Proxmox endpoint selected for this run is disabled or no " +:+
      "longer exists, so there was nothing to sync"
  | [] =>
      "no enabled Proxmox endpoint exists in NetBox, so there was " +:+
      "nothing to sync. Syncing without an endpoint filter is not a " +:+
      "fallback: the backend would sync every endpoint it still holds, " +:+
      "including ones disabled here"
  end.

(** The four results of [_batch_wire_endpoint_scope]. *)
Record batch_scope := {
  scope_ids : string;
  skipped_pks : list string;
  scope_error : option string;
  wire_by_pk : dict string
}.

Definition unresolvable (error : string) : string :=
  "the enabled Proxmox endpoints could not be resolved to ProxBox " +:+
  "backend ids, so this sync would not have been scoped to them: " +:+ error.

Definition none_registered : string :=
  "none of the enabled Proxmox endpoints is registered with this " +:+
  "ProxBox backend under a matching connection target, so this " +:+
  "sync would not have been scoped to them".

(** [[pk for pk in pks if pk in ids]] and [[... if pk not in ids]] *)
Definition resolved_among (ids : dict string) (pks : list string) : list string :=
  flat_map (fun pk => match dget pk ids with Some id => [id] | None => [] end) pks.
Definition missing_among (ids : dict string) (pks : list string) : list string :=
  List.filter (fun pk => negb (dmem pk ids)) pks.

Definition batch_scope_of (plugin_pks : list string) (wire_ids : dict string) : batch_scope :=
  let resolved :=
    fold_left
      (fun d pk => match dget pk wire_ids with Some id => dset pk id d | None => d end)
      plugin_pks [] in
  let skipped := missing_among wire_ids plugin_pks in
  match resolved_among wire_ids plugin_pks with
  | [] => {| scope_ids := ""; skipped_pks := skipped; scope_error := Some none_registered;
             wire_by_pk := [] |}
  | ids => {| scope_ids := join "," ids; skipped_pks := skipped; scope_error := None;
              wire_by_pk := resolved |}
  end.

Definition _batch_wire_endpoint_scope (requested_endpoint_ids : list pyval)
  (fastapi_endpoint_id : option Z) : M (world E) batch_scope :=
  nb ← rows;
  match _proxmox_endpoint_scopes nb requested_endpoint_ids with
  | [] =>
      mret {| scope_ids := ""; skipped_pks := [];
              scope_error := Some (_no_endpoint_scope_reason requested_endpoint_ids);
              wire_by_pk := [] |}
  | endpoint_scopes =>
      resolution ← _resolve_wire_endpoint_ids endpoint_scopes fastapi_endpoint_id;
      let '(wire_ids, error) := resolution in
      match error with
      | Some ((String _ _) as error) =>
          mret {| scope_ids := ""; skipped_pks := []; scope_error := Some (unresolvable error);
                  wire_by_pk := [] |}
      | _ =>
          mret (batch_scope_of
                  (flat_map (fun scope => match scope with pk :: _ => [pk] | [] => [] end)
                     endpoint_scopes) wire_ids)
      end
  end.

End Resolution.

(** ** Lemmas *)

Lemma ints_of_ok (l : list string) :
  Forall (fun x => is_int x = true) l ->
  exists zs, ints_of l = Ok zs /\ forall z, z ∈ zs <-> exists x, x ∈ l /\ int_of_string x = Some z.
Proof.
  induction 1 as [|x l Hx _ (zs & Hzs & Hspec)]; [exists []; set_solver|].
  unfold is_int in Hx. simpl. destruct (int_of_string x) as [z|] eqn:Ez; [|done].
  rewrite Hzs. exists (z :: zs). split; [done|]. intros z'. rewrite elem_of_cons, Hspec.
  setoid_rewrite elem_of_cons. naive_solver.
Qed.

Lemma requested_ids_int (ids : list pyval) :
  Forall (fun x => is_int x = true) (requested_ids ids).
Proof.
  apply Forall_forall. intros x Hx%list_elem_of_In. unfold requested_ids in Hx.
  by apply filter_In in Hx as [_ Hx].
Qed.

Lemma enabled_among_spec (nb : netbox) (pks : list Z) (e : ProxmoxEndpoint) :
  e ∈ enabled_among nb pks <->
  e ∈ nb_endpoints nb /\ endpoint_pk e ∈ pks /\ endpoint_enabled e = true.
Proof.
  unfold enabled_among.
  rewrite list_elem_of_In, filter_In, andb_true_iff, bool_decide_eq_true, <- list_elem_of_In. tauto.
Qed.

(** The scopes are exactly the enabled endpoints among the requested ones, or
    all the enabled ones when none was requested. *)
Lemma scopes_spec (nb : netbox) (ids : list pyval) (scope : list string) :
  scope ∈ _proxmox_endpoint_scopes nb ids <->
  exists e, e ∈ nb_endpoints nb /\ endpoint_enabled e = true /\ scope = [pk_str e] /\
    (requested_ids ids = [] \/ pk_str e ∈ requested_ids ids).
Proof.
  unfold _proxmox_endpoint_scopes. pose proof (requested_ids_int ids) as Hint.
  destruct (ints_of_ok _ Hint) as (zs & Hzs & Hspec).
  destruct (requested_ids ids) as [|r0 rs] eqn:Er; rewrite list_elem_of_In, in_map_iff.
  - setoid_rewrite filter_In. setoid_rewrite <- list_elem_of_In. naive_solver.
  - rewrite Hzs, <- Er in *. setoid_rewrite filter_In. setoid_rewrite mem_str_spec.
    setoid_rewrite <- list_elem_of_In. split.
    + intros (x & <- & Hx & Hen). apply list_elem_of_In, in_map_iff in Hen as (e & <- & He).
      apply list_elem_of_In, enabled_among_spec in He as (? & _ & ?). exists e. auto.
    + intros (e & He & Hen & -> & [Hr|Hr]); [congruence|]. exists (pk_str e). split; [done|].
      split; [done|]. apply list_elem_of_In, in_map_iff. exists e. split; [done|].
      apply list_elem_of_In, enabled_among_spec. split; [done|]. split; [|done].
      apply Hspec. exists (pk_str e). split; [done|]. apply int_of_string_pretty.
Qed.

(** *** The suffix of a row's name names one endpoint *)

Lemma endswith_spec (p s : string) : endswith p s = true -> exists x, s = x +:+ p.
Proof.
  induction s as [|c s IH]; simpl; rewrite orb_true_iff, String.eqb_eq.
  - intros [->|]; [by exists ""|done].
  - intros [->|Hs]; [by exists ""|]. destruct (IH Hs) as [x ->]. by exists (String c x).
Qed.

Definition not_paren (c : ascii) : bool := negb (Ascii.eqb c "(").

Lemma marked_suffix_unique (x1 x2 t1 t2 : string) :
  all_chars not_paren t1 = true -> all_chars not_paren t2 = true ->
  x1 +:+ String "(" t1 = x2 +:+ String "(" t2 -> t1 = t2.
Proof.
  intros H1 H2. revert x2. induction x1 as [|c1 x1 IH]; intros [|c2 x2] Heq.
  - by injection Heq.
  - exfalso. injection Heq as _ Heq. subst t1. rewrite all_chars_app in H1. simpl in H1.
    by rewrite andb_false_r in H1.
  - exfalso. injection Heq as _ Heq. subst t2. rewrite all_chars_app in H2. simpl in H2.
    by rewrite andb_false_r in H2.
  - injection Heq as _ Heq. by eapply IH.
Qed.

Lemma int_char_not_paren (c : ascii) : int_char c = true -> not_paren c = true.
Proof. destruct c as [[] [] [] [] [] [] [] []]; by vm_compute. Qed.

Lemma append_right_cancel (a b t : string) : a +:+ t = b +:+ t -> a = b.
Proof.
  revert b. induction a as [|c a IH]; intros [|d b] Heq; [done| | |].
  - apply (f_equal String.length) in Heq. rewrite !append_length in Heq. simpl in Heq. lia.
  - apply (f_equal String.length) in Heq. rewrite !append_length in Heq. simpl in Heq. lia.
  - injection Heq as -> Heq. f_equal. by apply IH.
Qed.

Lemma nb_suffix_unique (s : string) (pk1 pk2 : Z) :
  endswith (nb_suffix pk1) s = true -> endswith (nb_suffix pk2) s = true -> pk1 = pk2.
Proof.
  intros [x1 ->]%endswith_spec [x2 Hs]%endswith_spec. apply (inj (pretty (A := Z))).
  assert (Hc : forall z : Z, all_chars not_paren ("nb:" +:+ pretty z +:+ ")") = true).
  { intros z. rewrite !all_chars_app. apply andb_true_intro. split; [done|].
    rewrite (all_chars_impl int_char not_paren) by (apply int_char_not_paren || apply pretty_Z_chars).
    done. }
  apply (marked_suffix_unique x1 x2 _ _ (Hc pk1) (Hc pk2)) in Hs.
  apply (inj (String.append "nb:")) in Hs. by apply append_right_cancel in Hs.
Qed.

(** *** Resolution *)

(** The backend id [id] belongs to the one row that claims the endpoint, and
    that row dials the endpoint's own host and port. *)
Definition row_of (rows : list (dict pyval)) (e : ProxmoxEndpoint) (id : Z) : Prop :=
  exists row, _backend_rows_for_endpoint rows e = [row] /\ _proxmox_targets_match e row = true /\
    _int_or_none (get "id" row) = Some id.

Lemma resolve_row_sound (rows : list (dict pyval)) (e : ProxmoxEndpoint) (id : Z) :
  _resolve_backend_row_id rows e = inl id <-> row_of rows e id.
Proof.
  unfold _resolve_backend_row_id, row_of.
  destruct (_backend_rows_for_endpoint rows e) as [|row [|]]; [naive_solver| |naive_solver].
  transitivity (_proxmox_targets_match e row = true /\ _int_or_none (get "id" row) = Some id);
    [|naive_solver].
  unfold _proxmox_targets_match.
  destruct (_proxmox_endpoint_target e) as [want|]; [|naive_solver].
  rewrite bool_decide_eq_true. destruct (_proxmox_row_target row) as [got|]; [|naive_solver].
  destruct (decide (want = got)) as [->|Hne].
  - rewrite bool_decide_eq_true_2 by done. cbn [negb]. destruct (_int_or_none _); naive_solver.
  - rewrite bool_decide_eq_false_2 by done. cbn [negb]. naive_solver.
Qed.

Lemma elem_of_zset (k v : Z) (m : list (Z * Z)) (kv : Z * Z) :
  kv ∈ zset k v m -> kv = (k, v) \/ kv ∈ m.
Proof.
  induction m as [|[k' v'] m IH]; simpl; [set_solver|].
  destruct (k =? k'); set_solver.
Qed.

Lemma resolve_rows_sound (rows : list (dict pyval)) (es : list ProxmoxEndpoint)
  (acc : list (Z * Z)) (pk id : Z) :
  (pk, id) ∈ resolve_rows rows es acc ->
  (pk, id) ∈ acc \/ exists e, e ∈ es /\ pk = endpoint_pk e /\ row_of rows e id.
Proof.
  revert acc. induction es as [|e es IH]; intros acc; cbn [resolve_rows]; [auto|].
  intros [Hacc|(e' & He' & Hrow)]%IH; [|right; exists e'; set_solver].
  destruct (_resolve_backend_row_id rows e) as [id'|] eqn:Er; [|auto].
  apply elem_of_zset in Hacc as [[= -> ->]|]; [|auto].
  right. exists e. split; [left|]. split; [done|]. by apply resolve_row_sound.
Qed.

#[local] Arguments resolve_rows : simpl never.

Section ResolutionFacts.
Context {E : Type} `{!Env E}.

Definition same_but_env (w w' : world E) : Prop :=
  history w' = history w /\ sync_mode_vars w' = sync_mode_vars w.

(** What the resolution of wire ids promises about the world [w] it starts in:
    each captured id is that of an enabled endpoint's own row. *)
Definition wire_id_sound (fid : option Z) (w : world E) (k id : string) : Prop :=
  exists e ctx backend_rows backend_id,
    e ∈ nb_endpoints (env_netbox (env w)) /\ endpoint_enabled e = true /\ k = pk_str e /\
    usable_context (env_context fid (env w)) = Some ctx /\
    fst (env_list_endpoints ctx (env w)) = inl backend_rows /\
    row_of backend_rows e backend_id /\ id = pretty backend_id.

Definition resolution_ok (fid : option Z) (w : world E)
  (r : result (dict string * option string)) (w' : world E) : Prop :=
  same_but_env w w' /\
  forall ids error, r = Ok (ids, error) -> forall k id, (k, id) ∈ ids -> wire_id_sound fid w k id.

Lemma resolve_wire_spec (scopes : list (list string)) (fid : option Z) (w : world E) :
  wp (_resolve_wire_endpoint_ids scopes fid) (resolution_ok fid w) w.
Proof.
  assert (Hnone : forall error w', same_but_env w w' -> resolution_ok fid w (Ok ([], error)) w').
  { intros error w' Hw'. split; [done|]. intros ids err [= <- <-] k id Hin.
    by apply not_elem_of_nil in Hin. }
  assert (Hrefl : same_but_env w w) by done.
  unfold _resolve_wire_endpoint_ids. destruct (scope_pks scopes) as [|p ps]; [by apply Hnone|].
  wp_steps. destruct (usable_context _) as [ctx|] eqn:Hctx; [|by apply Hnone].
  wp_steps. destruct (ints_of (p :: ps)) as [pks|e]; [|split; [done|by intros ?? [=]]].
  unfold rows. wp_steps. destruct (enabled_among _ pks) as [|e0 es] eqn:Hen; [by apply Hnone|].
  wp_steps. unfold resolve_backend_endpoint_ids.
  rewrite (List.filter_ext_in endpoint_enabled (fun _ => true)), List.filter_true; cycle 1.
  { intros e He%list_elem_of_In. rewrite <- Hen in He. by apply enabled_among_spec in He as (_ & _ & ->). }
  wp_steps. unfold _list_backend_proxmox_endpoints, wp at 1.
  destruct (env_list_endpoints ctx (env w)) as [[brows|lerr] e'] eqn:El; cbn; wp_steps.
  - split; [done|]. intros ids err [= <- <-] k id Hin.
    apply list_elem_of_In, in_map_iff in Hin as ([pk bid] & [= <- <-] & Hin).
    apply list_elem_of_In, resolve_rows_sound in Hin as [Hin|(e & He & -> & Hrow)];
      [by apply not_elem_of_nil in Hin|].
    rewrite <- Hen in He. apply enabled_among_spec in He as (He & _ & Hee).
    exists e, ctx, brows, bid. rewrite El. auto 8.
  - destruct lerr; cbn; [|by apply Hnone]. split; [done|]. intros ids err [= <- <-] k id Hin.
    by apply not_elem_of_nil in Hin.
Qed.

(** ** Properties *)

(** the scopes of a run are exactly the endpoints that are enabled in
    NetBox and were requested, or all the enabled ones when the run names
    none; a disabled or unknown endpoint is never in scope, whatever text it
    was requested with. *)
Theorem endpoint_scopes_exact (nb : netbox) (ids : list pyval) (scope : list string) :
  scope ∈ _proxmox_endpoint_scopes nb ids <->
  exists e, e ∈ nb_endpoints nb /\ endpoint_enabled e = true /\ scope = [pk_str e] /\
    (requested_ids ids = [] \/ pk_str e ∈ requested_ids ids).
Proof. apply scopes_spec. Qed.

(** C32: an endpoint is only ever addressed through its own backend row. Every
    id in the resolved map belongs to an endpoint that is enabled at the time of
    resolution, through the single backend row whose name claims that endpoint
    and which still dials the endpoint's host and port; the resolution makes
    no stream call and leaves the sync-mode variables alone. *)
Theorem wire_ids_belong_to_their_endpoint (scopes : list (list string)) (fid : option Z)
  (w : world E) :
  resolution_ok fid w (fst (_resolve_wire_endpoint_ids scopes fid w))
    (snd (_resolve_wire_endpoint_ids scopes fid w)).
Proof. apply resolve_wire_spec. Qed.

(** no backend row is claimed by two endpoints, whatever the endpoints and
    rows are named: distinct primary keys never resolve through one row. *)
Theorem backend_rows_disjoint (rows : list (dict pyval)) (e1 e2 : ProxmoxEndpoint)
  (row : dict pyval) :
  row ∈ _backend_rows_for_endpoint rows e1 -> row ∈ _backend_rows_for_endpoint rows e2 ->
  endpoint_pk e1 = endpoint_pk e2.
Proof.
  unfold _backend_rows_for_endpoint. rewrite !list_elem_of_In, !filter_In.
  intros [_ H1] [_ H2]. by eapply nb_suffix_unique.
Qed.

Lemma resolved_among_spec (ids : dict string) (pks : list string) (id : string) :
  id ∈ resolved_among ids pks <-> exists pk, pk ∈ pks /\ dget pk ids = Some id.
Proof.
  unfold resolved_among. rewrite list_elem_of_In, in_flat_map.
  setoid_rewrite <- list_elem_of_In. split.
  - intros (pk & Hpk & Hid). exists pk. destruct (dget pk ids); set_solver.
  - intros (pk & Hpk & Hid). exists pk. rewrite Hid. set_solver.
Qed.

(** What the caller of a selected-object run can rely on. *)
Definition batch_scope_ok (ids : list pyval) (fid : option Z) (w : world E) (b : batch_scope) : Prop :=
  match scope_error b with
  | Some _ => scope_ids b = "" /\ wire_by_pk b = []
  | None =>
      exists wire, wire <> [] /\ scope_ids b = join "," wire /\
        forall id, id ∈ wire -> exists k, [k] ∈ _proxmox_endpoint_scopes (env_netbox (env w)) ids /\
                                    wire_id_sound fid w k id
  end.

Lemma scope_heads (nb : netbox) (ids : list pyval) (k : string) :
  k ∈ flat_map (fun scope => match scope with pk :: _ => [pk] | [] => [] end)
        (_proxmox_endpoint_scopes nb ids) ->
  [k] ∈ _proxmox_endpoint_scopes nb ids.
Proof.
  rewrite list_elem_of_In, in_flat_map. intros (scope & Hs & Hk).
  apply list_elem_of_In in Hs. pose proof Hs as Hs'. apply scopes_spec in Hs' as (e & _ & _ & -> & _).
  by destruct Hk as [<-|[]].
Qed.

(** a selected-object run is either scoped or refused. When no error is
    reported the scope names at least one backend id, and every id in it is
    that of an endpoint enabled in NetBox and selected for the run; when an
    error is reported the scope and the per-endpoint map are empty. *)
Theorem batch_scope_never_unscoped (ids : list pyval) (fid : option Z) (w : world E)
  (b : batch_scope) :
  fst (_batch_wire_endpoint_scope ids fid w) = Ok b -> batch_scope_ok ids fid w b.
Proof.
  intros Hb. cut (wp (_batch_wire_endpoint_scope ids fid)
    (fun r _ => forall b, r = Ok b -> batch_scope_ok ids fid w b) w); [intros Hw; by apply Hw|].
  clear b Hb. unfold _batch_wire_endpoint_scope, rows. wp_steps.
  destruct (_proxmox_endpoint_scopes _ ids) as [|s0 ss] eqn:Es.
  { wp_steps. intros b [= <-]. done. }
  rewrite <- Es. wp_step. eapply wp_mono; [apply resolve_wire_spec|].
  intros [[wire error]|e] w' [_ Hsound]; [|done]. specialize (Hsound wire error eq_refl).
  assert (Hgood : forall pks, (forall k, k ∈ pks -> [k] ∈ _proxmox_endpoint_scopes (env_netbox (env w)) ids) ->
    batch_scope_ok ids fid w (batch_scope_of pks wire)).
  { intros pks Hpks. unfold batch_scope_of. destruct (resolved_among wire pks) as [|i is_] eqn:Er; [done|].
    exists (i :: is_). split; [done|]. split; [done|]. rewrite <- Er. intros id.
    rewrite resolved_among_spec. intros (k & Hk & Hid). exists k. auto using dget_in. }
  destruct error as [[|c error]|]; wp_steps; intros b [= <-]; [|done|];
    apply Hgood, scope_heads.
Qed.

End ResolutionFacts.

Lemma backend_rows_disjoint_witness :
  endpoint_pk (sample_endpoint 7) = endpoint_pk (sample_endpoint 7).
Proof.
  apply (backend_rows_disjoint [[("name", VStr "pve-7 (nb:7)")]] (sample_endpoint 7)
           (sample_endpoint 7) [("name", VStr "pve-7 (nb:7)")]);
    vm_compute; apply list_elem_of_In; left; reflexivity.
Defined.

Lemma batch_scope_never_unscoped_witness :
  batch_scope_ok [VInt 7] None (start (sample_script []))
    {| scope_ids := "41"; skipped_pks := []; scope_error := None; wire_by_pk := [("7", "41")] |}.
Proof. apply batch_scope_never_unscoped. vm_compute. reflexivity. Defined.
