(* ===== verification/StageRunner.v ===== *)
(** * The staged run (sync_stages.py, [_run_all_stages_sync])

    Endpoint by endpoint, stage by stage: the resolution of each endpoint's
    backend id, its query parameters and sync modes, the skipped stages, the
    stream calls, and the record each outcome leaves.  The safety theorem is
    about the requests that reach the backend: each of them is scoped to the
    backend id of one endpoint that NetBox has enabled and the run selected. *)
From Stdlib Require Import ZArith Lia String.
From stdpp Require Import base list sets strings pretty.
From S2P Require Import Prelude Json StageFailure SyncTypes SyncModes Effects Deadline StageExec EndpointScope.

(** The entries of the job parameters that a staged run reads. *)
Record sync_params := {
  p_proxmox_endpoint_ids : list pyval;
  p_netbox_endpoint_ids : list string;
  p_netbox_vm_ids : list pyval;
  p_fastapi_endpoint_id : option Z;
  p_netbox_branch_schema_id : pyval;
  p_run_id : pyval
}.

(** One entry of [stages_out]. [stage_endpoint_name] is [None] where the code
    leaves the key out. *)
Record stage_record := {
  stage_sync_type : string;
  stage_endpoint_id : option string;
  stage_endpoint_name : option string;
  stage_stream_path : option string;
  stage_runtime_seconds : Z;
  stage_result_summary : dict pyval
}.

Definition ENDPOINT_SCOPE : string := "endpoint-scope".

Definition _SKIPPABLE_STAGES : list string :=
  [ SyncTypeChoices.VIRTUAL_MACHINES_BACKUPS; SyncTypeChoices.VIRTUAL_MACHINES_SNAPSHOTS;
    SyncTypeChoices.TASK_HISTORY; SyncTypeChoices.SDN ].

Definition _optional_stage_can_skip (sync_type : string) (exc : exn) : bool :=
  (mem_str sync_type _SKIPPABLE_STAGES && negb (contains "Job deadline reached" (exn_msg exc)))%bool.

Definition _skipped_stage_result (sync_type : string) (endpoint_id : option string)
  (reason : string) : stage_record :=
  {| stage_sync_type := sync_type; stage_endpoint_id := endpoint_id; stage_endpoint_name := None;
     stage_stream_path := None; stage_runtime_seconds := 0;
     stage_result_summary :=
       [("ok", VBool true); ("skipped", VBool true); ("reason", VStr reason)] |}.

(** A failed endpoint scope without a name. *)
Definition failed_scope (endpoint_id : option string) (reason : string) : stage_record :=
  {| stage_sync_type := ENDPOINT_SCOPE; stage_endpoint_id := endpoint_id;
     stage_endpoint_name := None; stage_stream_path := None; stage_runtime_seconds := 0;
     stage_result_summary := [("ok", VBool false); ("error", VStr reason)] |}.

Definition _empty_endpoint_scope_result (proxmox_endpoint_ids : list pyval) : list stage_record :=
  [failed_scope None (_no_endpoint_scope_reason proxmox_endpoint_ids)].

Definition deadline_cause : string :=
  "Job deadline reached; no time remains before the persistence reserve.".

Section Runner.
Context {E : Type} `{!Env E}.

Fixpoint _record_deadline_endpoints (endpoint_scopes : list (list string))
  (stages_out : list stage_record) (run_started : Z) : M (world E) (list stage_record) :=
  match endpoint_scopes with
  | [] => mret stages_out
  | endpoint_scope :: rest =>
      let endpoint_id := List.hd_error endpoint_scope in
      nb ← rows;
      now ← monotonic;
      _record_deadline_endpoints rest
        (stages_out ++
         [{| stage_sync_type := ENDPOINT_SCOPE; stage_endpoint_id := endpoint_id;
             stage_endpoint_name := Some (_endpoint_display_name nb endpoint_id);
             stage_stream_path := None; stage_runtime_seconds := round3 (now - run_started);
             stage_result_summary := [("ok", VBool false); ("error", VStr deadline_cause)] |}])
        run_started
  end.

Definition unresolved_reason (endpoint_id : string) : string :=
  "Proxmox endpoint " +:+ endpoint_id +:+ " could not be resolved to a current " +:+
  "ProxBox backend endpoint (not registered, or the backend's stored copy " +:+
  "points at a different host or port); skipping to avoid syncing the wrong endpoint".

(** [{stage: _stage_skip_reason(stage) for stage in stages}] *)
Definition mode_skips (vars : mode_vars) (stages : list string) : list (string * option string) :=
  List.map (fun stage => (stage, _stage_skip_reason vars stage)) (dedup [] stages).

Definition _record_unresolved_endpoint (endpoint_id : string) (stages : list string)
  (stages_out : list stage_record) (wire_resolve_error : option string) :
  M (world E) (list stage_record) :=
  nb ← rows;
  modes ← lift (effective_sync_modes_for_endpoint nb (Some endpoint_id));
  _ ← modify (set_vars (_set_sync_mode_vars modes));
  vars ← gets sync_mode_vars;
  let skips := mode_skips vars stages in
  mret (stages_out ++
        if forallb (fun s => match snd s with Some _ => true | None => false end) skips then
          List.map
            (fun s => _skipped_stage_result (fst s) (Some endpoint_id)
                        match snd s with Some reason => reason | None => "" end) skips
        else
          [failed_scope (Some endpoint_id)
             match wire_resolve_error with
             | Some ((String _ _) as e) => e
             | _ => unresolved_reason endpoint_id
             end]).

(** [(wire_scope, unresolved)], with the records. *)
Definition _wire_scope_for_stage_endpoint (endpoint_scope : list string)
  (backend_id_by_pk : dict string) (stages : list string) (stages_out : list stage_record)
  (wire_resolve_error : option string) :
  M (world E) (option (list string) * bool * list stage_record) :=
  match endpoint_scope with
  | [] => mret (None, false, stages_out)
  | endpoint_id :: _ =>
      match dget endpoint_id backend_id_by_pk with
      | None =>
          stages_out ← _record_unresolved_endpoint endpoint_id stages stages_out wire_resolve_error;
          mret (None, true, stages_out)
      | Some backend_id => mret (Some [backend_id], false, stages_out)
      end
  end.

(** The arguments the loops of one endpoint share. *)
Record endpoint_run := {
  run_endpoint_id : option string;
  run_fastapi_endpoint_id : option Z;
  run_preflight_hint : option string;
  run_deadline : option SyncJobDeadline;
  run_run_started : Z
}.

Definition completed_stage (st : string) (endpoint_id : option string) (stream_path : string)
  (payload : dict pyval) (stage_runtime : Z) : result stage_record :=
  match py_or (get "response" payload) (VDict []) with
  | VDict response =>
      Ok {| stage_sync_type := st; stage_endpoint_id := endpoint_id; stage_endpoint_name := None;
            stage_stream_path := Some stream_path; stage_runtime_seconds := stage_runtime;
            stage_result_summary := [("path", get "path" payload); ("ok", get "ok" response)] |}
  | _ => Err (AttributeError "object has no attribute 'get'")
  end.

(** [for stream_path in stage_paths]: the records, and [endpoint_failed]. *)
Fixpoint run_paths (run : endpoint_run) (st : string) (query_params : dict string)
  (stage_paths : list string) (stages_out : list stage_record) :
  M (world E) (list stage_record * bool) :=
  match stage_paths with
  | [] => mret (stages_out, false)
  | stream_path :: rest =>
      outcome ←
        try_except
          (x ← _execute_stage_sync st stream_path query_params (run_fastapi_endpoint_id run)
                 (run_preflight_hint run) (run_deadline run);
           mret (inl x))
          (fun exc => if is_runtime_error exc then mret (inr exc) else raise exc);
      match outcome with
      | inr exc =>
          if _optional_stage_can_skip st exc
          then run_paths run st query_params rest stages_out
          else
            nb ← rows;
            now ← monotonic;
            mret (stages_out ++
                  [{| stage_sync_type := ENDPOINT_SCOPE; stage_endpoint_id := run_endpoint_id run;
                      stage_endpoint_name :=
                        Some (_endpoint_display_name nb (run_endpoint_id run));
                      stage_stream_path := Some stream_path;
                      stage_runtime_seconds := round3 (now - run_run_started run);
                      stage_result_summary :=
                        [ ("ok", VBool false); ("stage", VStr st);
                          ("error", VStr (exn_msg exc)) ] |}], true)
      | inl (payload, stage_runtime) =>
          record ← lift (completed_stage st (run_endpoint_id run) stream_path payload stage_runtime);
          run_paths run st query_params rest (stages_out ++ [record])
      end
  end.

(** [for st in stages], until a required stage fails. *)
Fixpoint run_stages (run : endpoint_run) (base_query : dict string) (target_vm_ids : list string)
  (net : bool * bool * bool * bool) (sync_run_id : option string) (stages : list string)
  (stages_out : list stage_record) : M (world E) (list stage_record) :=
  match stages with
  | [] => mret stages_out
  | st :: rest =>
      vars ← gets sync_mode_vars;
      match _stage_skip_reason vars st with
      | Some skip_reason =>
          run_stages run base_query target_vm_ids net sync_run_id rest
            (stages_out ++ [_skipped_stage_result st (run_endpoint_id run) skip_reason])
      | None =>
          let '(iface_disabled, ip_disabled, mac_disabled, disable_vm_network_on_vm_stage) := net in
          let query_params :=
            _build_stage_query_params base_query st target_vm_ids disable_vm_network_on_vm_stage
              ip_disabled mac_disabled sync_run_id in
          stage_paths ← lift (_sync_stream_paths_for_stage st target_vm_ids);
          outcome ← run_paths run st query_params stage_paths stages_out;
          let '(stages_out, endpoint_failed) := outcome in
          if (endpoint_failed : bool) then mret stages_out
          else run_stages run base_query target_vm_ids net sync_run_id rest stages_out
      end
  end.

(** The body of the loop over endpoint scopes. *)
Definition run_endpoint (params : sync_params) (stages : list string) (run_started : Z)
  (deadline : option SyncJobDeadline) (preflight_hint : option string)
  (backend_id_by_pk : dict string) (wire_resolve_error : option string)
  (endpoint_scope : list string) (stages_out : list stage_record) :
  M (world E) (list stage_record) :=
  scoped ← _wire_scope_for_stage_endpoint endpoint_scope backend_id_by_pk stages stages_out
             wire_resolve_error;
  let '(wire_scope, unresolved, stages_out) := scoped in
  if (unresolved : bool) then mret stages_out
  else
    nb ← rows;
    base ← lift (_build_base_query_params nb endpoint_scope (p_netbox_endpoint_ids params) wire_scope);
    let '(base_query, vars) := base in
    _ ← modify (set_vars vars);
    let base_query :=
      if truthy (p_netbox_branch_schema_id params)
      then dset "netbox_branch_schema_id" (str (p_netbox_branch_schema_id params)) base_query
      else base_query in
    vars ← gets sync_mode_vars;
    let target_vm_ids := List.filter nonempty (List.map str (p_netbox_vm_ids params)) in
    let run_id := strip (str (py_or (p_run_id params) (VStr ""))) in
    run_stages
      {| run_endpoint_id := List.hd_error endpoint_scope;
         run_fastapi_endpoint_id := p_fastapi_endpoint_id params;
         run_preflight_hint := preflight_hint; run_deadline := deadline;
         run_run_started := run_started |}
      base_query target_vm_ids (_network_stage_options vars stages)
      (if is_empty run_id then None else Some run_id) stages stages_out.

(** [for endpoint_scope in _iter_scopes_before_deadline(...)]: the generator
    looks at the clock before it yields each scope. *)
Fixpoint run_scopes (params : sync_params) (stages : list string) (run_started : Z)
  (deadline : option SyncJobDeadline) (preflight_hint : option string)
  (backend_id_by_pk : dict string) (wire_resolve_error : option string)
  (endpoint_scopes : list (list string)) (stages_out : list stage_record) :
  M (world E) (list stage_record) :=
  match endpoint_scopes with
  | [] => mret stages_out
  | endpoint_scope :: rest =>
      expired ←
        match deadline with
        | Some d => now ← monotonic; mret (remaining d now <=? 0)
        | None => mret false
        end;
      if (expired : bool) then _record_deadline_endpoints endpoint_scopes stages_out run_started
      else
        stages_out ← run_endpoint params stages run_started deadline preflight_hint
                       backend_id_by_pk wire_resolve_error endpoint_scope stages_out;
        run_scopes params stages run_started deadline preflight_hint backend_id_by_pk
          wire_resolve_error rest stages_out
  end.

Definition _run_all_stages_sync (stages : list string) (params : sync_params) (run_started : Z)
  (deadline : option SyncJobDeadline) (preflight_hint : option string) :
  M (world E) (list stage_record) :=
  nb ← rows;
  match _proxmox_endpoint_scopes nb (p_proxmox_endpoint_ids params) with
  | [] => mret (_empty_endpoint_scope_result (p_proxmox_endpoint_ids params))
  | endpoint_scopes =>
      resolution ← _resolve_wire_endpoint_ids endpoint_scopes (p_fastapi_endpoint_id params);
      let '(backend_id_by_pk, wire_resolve_error) := resolution in
      _ ← monotonic;
      _ ← monotonic;
      run_scopes params stages run_started deadline preflight_hint backend_id_by_pk
        wire_resolve_error endpoint_scopes []
  end.

End Runner.

(** ** Queries *)

Lemma dget_set_if_ne (c : bool) (k k' v : string) (d : dict string) :
  k <> k' -> dget k (set_if c k' v d) = dget k d.
Proof. intros. unfold set_if. destruct c; [by apply dget_dset_ne|done]. Qed.

(** The keys a stage adds to the endpoint's base query. *)
Definition stage_keys : list string :=
  [ "delete_nonexistent_backup"; "delete_nonexistent_snapshot"; "sync_task_history";
    "sync_vm_network"; "assign_vm_interface_ips"; "sync_vm_interface_macs"; "run_id";
    "netbox_vm_ids" ].

Lemma stage_query_agrees base st vms disable ip mac run_id k :
  k ∉ stage_keys ->
  dget k (_build_stage_query_params base st vms disable ip mac run_id) = dget k base.
Proof.
  unfold stage_keys. rewrite !not_elem_of_cons. intros Hk. destruct_and! Hk.
  unfold _build_stage_query_params.
  repeat first [case_match | rewrite dget_dset_ne by done | rewrite dget_set_if_ne by done]; done.
Qed.

Lemma dget_dupdate_notin {V} (k : string) (e d : dict V) :
  k ∉ dkeys e -> dget k (dupdate d e) = dget k d.
Proof.
  unfold dupdate. revert d. induction e as [|[k' v] e IH]; intros d; simpl; [done|].
  rewrite not_elem_of_cons. intros [Hne Hk]. rewrite IH by done. by apply dget_dset_ne.
Qed.

Lemma dget_dupdate_in {V} (k : string) (v : V) (e d : dict V) :
  NoDup (dkeys e) -> dget k e = Some v -> dget k (dupdate d e) = Some v.
Proof.
  unfold dupdate. revert d. induction e as [|[k' v'] e IH]; intros d; simpl; [done|].
  rewrite NoDup_cons. intros [Hnin Hnd]. destruct (String.eqb_spec k k') as [->|Hne].
  - intros [= ->]. change (dget k' (dupdate (dset k' v d) e) = Some v).
    rewrite dget_dupdate_notin by done. apply dget_dset_eq.
  - intros Hk. by apply IH.
Qed.

Lemma active_modes_keys vars : dkeys (_active_sync_modes vars) = SYNC_MODE_FIELDS.
Proof. done. Qed.

Lemma mode_fields_nodup : NoDup SYNC_MODE_FIELDS.
Proof. apply (bool_decide_eq_true_1 _). by vm_compute. Qed.

Lemma mode_field_resource (f : string) :
  f ∈ SYNC_MODE_FIELDS -> "sync_mode_" +:+ removeprefix "sync_mode_" f = f /\
    f <> "proxmox_endpoint_ids" /\ f <> "netbox_endpoint_ids" /\
    f <> "netbox_branch_schema_id" /\ f ∉ stage_keys.
Proof.
  unfold SYNC_MODE_FIELDS. rewrite !elem_of_cons, elem_of_nil. intros Hf.
  destruct_or! Hf; subst f; (split; [by vm_compute|]); (split; [done|]); (split; [done|]);
    (split; [done|]); apply (bool_decide_eq_true_1 _); by vm_compute.
Qed.

(** What a request for endpoint [k] must carry. *)
Definition query_for (nb : netbox) (k id : string) (q : dict string) : Prop :=
  dget "proxmox_endpoint_ids" q = Some id /\
  exists modes, effective_sync_modes_for_endpoint nb (Some k) = Ok modes /\
    forall f, f ∈ SYNC_MODE_FIELDS ->
      dget f q = Some (_sync_mode_for_resource (_set_sync_mode_vars modes)
                         (removeprefix "sync_mode_" f)).

Lemma base_query_for nb k nbids id q vars :
  _build_base_query_params nb [k] nbids (Some [id]) = Ok (q, vars) ->
  query_for nb k id q /\
  exists modes, effective_sync_modes_for_endpoint nb (Some k) = Ok modes /\
    vars = _set_sync_mode_vars modes.
Proof.
  unfold _build_base_query_params. destruct (effective_overwrites_for_endpoint nb _) as [ow|]; [|done].
  destruct (effective_sync_modes_for_endpoint nb (Some k)) as [modes|] eqn:Em; [|done].
  set (q0 := dupdate _ _). intros [= <- <-]. split; [|eauto]. split.
  - destruct nbids; [by rewrite dget_dset_eq|]. rewrite dget_dset_ne by done. by rewrite dget_dset_eq.
  - exists modes. split; [done|]. intros f Hf.
    destruct (mode_field_resource f Hf) as (Hname & H1 & H2 & _).
    assert (Hq : dget f q0 =
      Some (_sync_mode_for_resource (_set_sync_mode_vars modes) (removeprefix "sync_mode_" f))).
    { apply dget_dupdate_in; [apply mode_fields_nodup|].
      unfold _sync_mode_for_resource, dget_or. rewrite Hname. unfold _active_sync_modes.
      by rewrite effective_sync_modes_lookup. }
    destruct nbids; rewrite !dget_dset_ne by done; exact Hq.
Qed.

Lemma query_for_ext nb k id q q' :
  (forall key, key ∉ stage_keys -> key <> "netbox_branch_schema_id" -> dget key q' = dget key q) ->
  query_for nb k id q -> query_for nb k id q'.
Proof.
  intros Hext [Hid (modes & Hm & Hf)]. split.
  - rewrite Hext; [done| |done]. apply (bool_decide_eq_true_1 _). by vm_compute.
  - exists modes. split; [done|]. intros f Hin.
    destruct (mode_field_resource f Hin) as (_ & _ & _ & ? & ?). rewrite Hext by done. auto.
Qed.

(** ** Requests *)

Section RunnerFacts.
Context {E : Type} `{!Env E}.

(** [I] survives the environment's operations, given [P] of the requests. *)
Record closed_under (I : world E -> Prop) (P : stream_request -> Prop) : Prop := {
  closed_clock : keeps I monotonic;
  closed_sleep : forall d, keeps I (sleep d);
  closed_stream : forall r, P r -> keeps I (run_sync_stream r)
}.

Lemma execute_stage_keeps (I : world E -> Prop) (P : stream_request -> Prop)
  st path query fid hint deadline :
  closed_under I P ->
  (forall t, P {| req_path := path; req_query := query; req_endpoint_id := fid;
                  req_timeout := t; req_deadline := deadline |}) ->
  keeps I (_execute_stage_sync st path query fid hint deadline).
Proof.
  intros [Hc Hs Hr] HP. unfold _execute_stage_sync. apply keeps_bind; [done|]. intros started.
  set (req := fun t => _). generalize (S _STAGE_RETRY_MAX), 0%nat, (@nil _StageFailureAttempt).
  induction n as [|n IH]; intros index attempts; cbn [attempt_loop].
  { unfold stage_failure. repeat keeps_step. }
  apply keeps_bind.
  - unfold stage_attempt, stage_budget, attempt_with_budget.
    repeat first [exact Hc | (apply Hr, HP) | keeps_step].
  - unfold retry_pause, stage_failure.
    intros [out|a]; repeat first [exact Hc | apply Hs | apply IH | keeps_step].
Qed.

(** The calls made since the history [h0] all satisfy [P]. *)
Definition grown (P : stream_request -> Prop) (h0 : list event) (w : world E) : Prop :=
  exists new, history w = new ++ h0 /\ Forall (fun c => P c.1) (streams new).

Lemma grown_record P h0 ev e (w : world E) :
  (forall r o, ev = EvStream r o -> P r) -> grown P h0 w -> grown P h0 (record ev e w).
Proof.
  intros Hev (new & Hh & HF). exists (ev :: new). simpl. rewrite Hh. split; [done|].
  apply Forall_app. split; [done|]. destruct ev; simpl; try done. constructor; eauto.
Qed.

Lemma grown_refl P (w : world E) : grown P (history w) w.
Proof. by exists []. Qed.

Lemma grown_mono (P Q : stream_request -> Prop) h0 (w : world E) :
  (forall r, P r -> Q r) -> grown P h0 w -> grown Q h0 w.
Proof. intros HPQ (new & ? & HF). exists new. split; [done|]. eapply Forall_impl; [done|]. auto. Qed.

(** What holds of the rows whenever they are read; kept by the environment. *)
Variable Obs : netbox -> Prop.

Definition observes (w : world E) : Prop := Obs (env_netbox (env w)).

Hypothesis obs_closed : closed_under observes (fun _ => True).
Hypothesis obs_list : forall ctx, keeps observes (_list_backend_proxmox_endpoints ctx).

Definition run_inv (P : stream_request -> Prop) (h0 : list event) (w : world E) : Prop :=
  grown P h0 w /\ observes w.

Definition stage_inv (P : stream_request -> Prop) (h0 : list event) (vars : mode_vars)
  (w : world E) : Prop :=
  run_inv P h0 w /\ sync_mode_vars w = vars.

Lemma stage_inv_closed P h0 vars : closed_under (stage_inv P h0 vars) P.
Proof.
  destruct obs_closed as [Hc Hs Hr]. split.
  - intros w [[Hg Ho] Hv]. specialize (Hc w Ho). unfold monotonic in *.
    destruct (env_monotonic (env w)). repeat split; [by apply grown_record|done|done].
  - intros d w [[Hg Ho] Hv]. specialize (Hs d w Ho). repeat split; [by apply grown_record|done|done].
  - intros r HP w [[Hg Ho] Hv]. specialize (Hr r I w Ho). unfold run_sync_stream in *.
    destruct (env_stream r (env w)). repeat split; [apply grown_record; naive_solver|done|done].
Qed.

Lemma run_inv_clock P h0 : keeps (run_inv P h0) monotonic.
Proof.
  intros w Hw. by apply (closed_clock _ _ (stage_inv_closed P h0 (sync_mode_vars w)) w).
Qed.

(** The requests that endpoint [k], with backend id [id], may cause. *)
Definition request_for (params : sync_params) (stages : list string)
  (deadline : option SyncJobDeadline) (k id : string) (r : stream_request) : Prop :=
  req_endpoint_id r = p_fastapi_endpoint_id params /\ req_deadline r = deadline /\
  exists nb st modes paths, Obs nb /\ query_for nb k id (req_query r) /\
    effective_sync_modes_for_endpoint nb (Some k) = Ok modes /\
    st ∈ stages /\ _stage_skip_reason (_set_sync_mode_vars modes) st = None /\
    _sync_stream_paths_for_stage st
      (List.filter nonempty (List.map str (p_netbox_vm_ids params))) = Ok paths /\
    req_path r ∈ paths.

Lemma run_paths_keeps (I : world E -> Prop) (P : stream_request -> Prop) run st query paths out :
  closed_under I P ->
  (forall path t, path ∈ paths ->
     P {| req_path := path; req_query := query; req_endpoint_id := run_fastapi_endpoint_id run;
          req_timeout := t; req_deadline := run_deadline run |}) ->
  keeps I (run_paths run st query paths out).
Proof.
  intros HI. revert out. induction paths as [|path paths IH]; intros out HP; cbn [run_paths];
    [apply keeps_ret|].
  pose proof (closed_clock _ _ HI) as Hc.
  apply keeps_bind.
  - apply keeps_try; [|intros e; destruct (is_runtime_error e); auto with effects].
    apply keeps_bind; [|auto with effects]. eapply execute_stage_keeps; [done|].
    intros t. apply HP. left.
  - intros [[payload rt]|exc].
    + apply keeps_bind; [apply keeps_lift|]. intros. apply IH. intros. apply HP. by right.
    + destruct (_optional_stage_can_skip st exc); [apply IH; intros; apply HP; by right|].
      unfold rows. repeat first [exact Hc | keeps_step].
Qed.

Lemma run_stages_keeps (P : stream_request -> Prop) h0 vars run base vms net run_id stages out :
  (forall st paths path t q, st ∈ stages -> _stage_skip_reason vars st = None ->
     _sync_stream_paths_for_stage st vms = Ok paths -> path ∈ paths ->
     (forall key, key ∉ stage_keys -> dget key q = dget key base) ->
     P {| req_path := path; req_query := q; req_endpoint_id := run_fastapi_endpoint_id run;
          req_timeout := t; req_deadline := run_deadline run |}) ->
  keeps (stage_inv P h0 vars) (run_stages run base vms net run_id stages out).
Proof.
  revert out. induction stages as [|st stages IH]; intros out HP; cbn [run_stages];
    [apply keeps_ret|].
  assert (HP' : forall st' paths path t q, st' ∈ stages -> _stage_skip_reason vars st' = None ->
     _sync_stream_paths_for_stage st' vms = Ok paths -> path ∈ paths ->
     (forall key, key ∉ stage_keys -> dget key q = dget key base) ->
     P {| req_path := path; req_query := q; req_endpoint_id := run_fastapi_endpoint_id run;
          req_timeout := t; req_deadline := run_deadline run |}).
  { intros. eapply HP; [by right|done..]. }
  eapply keeps_gets_bind; [by intros w [_ Hv]|].
  destruct (_stage_skip_reason vars st) eqn:Eskip; [by apply IH|].
  destruct net as [[[iface ip] mac] disable].
  apply keeps_lift_bind. intros paths Epaths. apply keeps_bind.
  - eapply run_paths_keeps; [apply stage_inv_closed|]. intros path t Hpath.
    eapply HP; [left|done..|]. intros key Hkey. by apply stage_query_agrees.
  - intros [out' [|]]; [apply keeps_ret|by apply IH].
Qed.

Lemma record_unresolved_keeps P h0 k stages out err :
  keeps (run_inv P h0) (_record_unresolved_endpoint k stages out err).
Proof.
  unfold _record_unresolved_endpoint, rows. repeat keeps_step.
  by apply keeps_modify.
Qed.

Lemma wire_scope_spec P h0 k ids stages out err (w : world E) :
  run_inv P h0 w ->
  wp (_wire_scope_for_stage_endpoint [k] ids stages out err)
    (fun r w' => run_inv P h0 w' /\
       forall scope unresolved out', r = Ok (scope, unresolved, out') ->
         unresolved = false -> exists id, dget k ids = Some id /\ scope = Some [id]) w.
Proof.
  intros Hw. unfold _wire_scope_for_stage_endpoint. destruct (dget k ids) as [id|].
  - wp_steps. split; [done|]. intros ? ? ? [= <- <- <-] _. eauto.
  - wp_step. eapply wp_mono; [apply (wp_keeps (run_inv P h0)); [apply record_unresolved_keeps|done]|].
    intros [out'|e] w' Hw'; wp_steps; (split; [done|]); intros ??? Heq Hu; simplify_eq.
Qed.

(** One endpoint's share of the run: only its own requests. *)
Lemma run_endpoint_keeps P h0 params stages started deadline hint ids err k out :
  (forall id r, dget k ids = Some id -> request_for params stages deadline k id r -> P r) ->
  keeps (run_inv P h0)
    (run_endpoint params stages started deadline hint ids err [k] out).
Proof.
  intros HP w Hw. refine (wp_bind _ _ (fun _ => run_inv P h0) w _).
  eapply wp_mono; [by apply wire_scope_spec|].
  intros [[[scope [|]] out']|e] w1 [Hw1 Hscope]; [done| |done].
  destruct (Hscope _ _ _ eq_refl eq_refl) as (id & Hid & ->). clear Hscope w Hw. revert w1 Hw1.
  unfold rows. eapply (keeps_gets_such _ Obs); [by intros w [_ Ho]|]. intros nb Hnb.
  apply keeps_lift_bind. intros [base vars] Hbase.
  apply base_query_for in Hbase as [Hq (modes & Hm & ->)].
  set (vars := _set_sync_mode_vars modes). intros w Hw.
  assert (Hrest : forall w, stage_inv P h0 vars w -> forall (m : M (world E) (list stage_record)),
    keeps (stage_inv P h0 vars) m -> wp m (fun _ => run_inv P h0) w).
  { intros w0 Hw0 m Hm0. exact (proj1 (Hm0 w0 Hw0)). }
  refine (wp_bind _ _ (fun _ => run_inv P h0) w _). apply wp_modify. apply Hrest; [split; [exact Hw|done]|].
  eapply keeps_gets_bind; [by intros ? [_ Hv]|].
  apply run_stages_keeps. intros st paths path t q Hst Hskip Hpaths Hpath Hagree.
  apply (HP id); [done|]. do 2 (split; [done|]). exists nb, st, modes, paths.
  split; [done|]. split; [|auto]. eapply query_for_ext; [|exact Hq].
  intros key Hkey Hne. cbn. rewrite Hagree by done.
  destruct (truthy _); [by apply dget_dset_ne|done].
Qed.

Lemma record_deadline_keeps P h0 scopes out started :
  keeps (run_inv P h0) (_record_deadline_endpoints scopes out started).
Proof.
  revert out. induction scopes as [|s scopes IH]; intros out; cbn [_record_deadline_endpoints];
    [apply keeps_ret|].
  unfold rows. apply keeps_bind; [apply keeps_gets|]. intros nb.
  apply keeps_bind; [apply run_inv_clock|auto].
Qed.

Lemma run_scopes_keeps P h0 params stages started deadline hint ids err scopes out :
  Forall (fun scope => exists k, scope = [k]) scopes ->
  (forall k id r, [k] ∈ scopes -> dget k ids = Some id ->
     request_for params stages deadline k id r -> P r) ->
  keeps (run_inv P h0) (run_scopes params stages started deadline hint ids err scopes out).
Proof.
  intros Hall. revert out. induction Hall as [|scope scopes [k ->] Hall IH]; intros out HP;
    cbn [run_scopes]; [apply keeps_ret|].
  apply keeps_bind.
  { destruct deadline; [apply keeps_bind; [apply run_inv_clock|]|]; auto with effects. }
  intros [|]; [apply (record_deadline_keeps P h0 ([k] :: scopes))|].
  apply keeps_bind.
  - apply run_endpoint_keeps. intros id r. apply HP. left.
  - intros out'. apply IH. intros k' id r Hk'. apply HP. by right.
Qed.

Lemma resolve_wire_observes scopes fid P h0 :
  keeps (run_inv P h0) (_resolve_wire_endpoint_ids scopes fid).
Proof.
  assert (Hlist : forall ctx, keeps (run_inv P h0) (_list_backend_proxmox_endpoints ctx)).
  { intros ctx w [(new & Hh & HF) Ho]. specialize (obs_list ctx w Ho).
    unfold _list_backend_proxmox_endpoints in *. destruct (env_list_endpoints ctx (env w)).
    split; [by exists new|done]. }
  unfold _resolve_wire_endpoint_ids, resolve_backend_endpoint_ids, rows.
  repeat first [apply Hlist | (apply keeps_modify; done) | keeps_step].
Qed.

(** All the requests of a run. *)
Lemma run_all_requests stages params started deadline hint (w : world E) :
  observes w ->
  grown (fun r => exists k id,
           [k] ∈ _proxmox_endpoint_scopes (env_netbox (env w)) (p_proxmox_endpoint_ids params) /\
           wire_id_sound (p_fastapi_endpoint_id params) w k id /\
           request_for params stages deadline k id r)
    (history w) (snd (_run_all_stages_sync stages params started deadline hint w)).
Proof.
  set (P := fun r => _). intros Hobs.
  change (wp (_run_all_stages_sync stages params started deadline hint)
    (fun _ => grown P (history w)) w).
  unfold _run_all_stages_sync, rows. wp_steps.
  destruct (_proxmox_endpoint_scopes _ _) as [|s0 ss] eqn:Es; [apply wp_ret, grown_refl|].
  rewrite <- Es in *. wp_step.
  assert (Hinv : run_inv P (history w) w) by (split; [apply grown_refl|done]).
  pose proof (resolve_wire_observes (_proxmox_endpoint_scopes (env_netbox (env w))
    (p_proxmox_endpoint_ids params)) (p_fastapi_endpoint_id params) P (history w) w Hinv) as Hres.
  pose proof (resolve_wire_spec (_proxmox_endpoint_scopes (env_netbox (env w))
    (p_proxmox_endpoint_ids params)) (p_fastapi_endpoint_id params) w) as [_ Hsound].
  unfold wp. destruct (_resolve_wire_endpoint_ids _ _ w) as [[[ids err]|e] w1] eqn:Er; cbn [fst snd] in *;
    [|exact (proj1 Hres)].
  specialize (Hsound ids err eq_refl).
  cut (keeps (run_inv P (history w))
    (_ ← monotonic; _ ← monotonic;
     run_scopes params stages started deadline hint ids err
       (_proxmox_endpoint_scopes (env_netbox (env w)) (p_proxmox_endpoint_ids params)) []));
    [intros Hk; exact (proj1 (Hk w1 Hres))|].
  do 2 (apply keeps_bind; [apply run_inv_clock|]; intros _).
  apply run_scopes_keeps.
  - apply Forall_forall. intros scope (e & _ & _ & -> & _)%scopes_spec. eauto.
  - intros k id r Hk Hid Hreq. exists k, id. rewrite <- Es. auto using dget_in.
Qed.

End RunnerFacts.

(** ** Records *)

(** The records account for stage [st] of endpoint [k]: the stage itself left
    one, or the endpoint left a failure. *)
Definition failure_of (k : string) (rec : stage_record) : Prop :=
  stage_endpoint_id rec = Some k /\ stage_sync_type rec = ENDPOINT_SCOPE /\
  get "ok" (stage_result_summary rec) = VBool false.

Definition accounted (out : list stage_record) (k st : string) : Prop :=
  exists rec, rec ∈ out /\
    (failure_of k rec \/ stage_endpoint_id rec = Some k /\ stage_sync_type rec = st).

Lemma accounted_app (out out' : list stage_record) (k st : string) :
  accounted out k st -> accounted (out ++ out') k st.
Proof. intros (rec & Hin & Hr). exists rec. split; [set_solver|done]. Qed.

Lemma accounted_last (out : list stage_record) (rec : stage_record) (k st : string) :
  (failure_of k rec \/ stage_endpoint_id rec = Some k /\ stage_sync_type rec = st) ->
  accounted (out ++ [rec]) k st.
Proof. intros Hr. exists rec. split; [set_solver|done]. Qed.

(** The stages of [stages] that may not fail quietly. *)
Definition all_accounted (out : list stage_record) (k : string) (stages : list string) : Prop :=
  forall st, st ∈ stages -> st ∉ _SKIPPABLE_STAGES -> accounted out k st.

Lemma all_accounted_app out out' k stages :
  all_accounted out k stages -> all_accounted (out ++ out') k stages.
Proof. intros H st ??. by apply accounted_app, H. Qed.

Lemma stage_paths_nonempty st vms paths :
  Forall (fun v => nonempty v = true) vms ->
  _sync_stream_paths_for_stage st vms = Ok paths -> paths <> [].
Proof.
  intros Hv. unfold _sync_stream_paths_for_stage.
  assert (Hfil : forall f : string -> string, vms <> [] ->
    List.map f (List.filter nonempty vms) <> []).
  { intros f Hne. destruct Hv as [|v vms Hv _]; [done|]. cbn. by rewrite Hv. }
  repeat case_match; intros [= <-]; try done; by apply Hfil.
Qed.

Section RecordFacts.
Context {E : Type} `{!Env E}.

(** Records are only added. *)
Definition extends {A} (out : list stage_record) (records : A -> list stage_record)
  (Φ : A -> Prop) (a : A) : Prop :=
  (exists new, records a = out ++ new) /\ Φ a.

Lemma run_paths_records run k st query paths out :
  run_endpoint_id run = Some k ->
  returns (run_paths (E := E) run st query paths out)
    (extends (A := list stage_record * bool) out fst (fun r => if snd r then exists rec, rec ∈ fst r /\ failure_of k rec
       else paths <> [] -> st ∉ _SKIPPABLE_STAGES -> accounted (fst r) k st)).
Proof.
  intros Hk. revert out. induction paths as [|path paths IH]; intros out; cbn [run_paths].
  { apply returns_ret. split; [by exists []; rewrite app_nil_r|by intros ?]. }
  apply returns_bind_any. intros [[payload rt]|exc].
  - eapply returns_bind; [apply (returns_lift _ (fun rec => stage_endpoint_id rec = Some k /\
      stage_sync_type rec = st))|].
    { intros rec. unfold completed_stage. case_match; intros [= <-]; done. }
    intros rec Hrec. eapply returns_mono; [apply IH|]. intros [out' failed] [[new Hnew] Hout].
    simpl in *. subst out'. rewrite <- app_assoc in *. split; [by exists ([rec] ++ new)|].
    destruct failed; [done|]. intros _ _. rewrite app_assoc. apply accounted_app, accounted_last. auto.
  - destruct (_optional_stage_can_skip st exc) eqn:Eopt.
    + eapply returns_mono; [apply IH|]. intros [out' failed] [Hext Hout]. split; [done|].
      destruct failed; [done|]. intros _ Hst. simpl. unfold _optional_stage_can_skip in Eopt.
      apply andb_true_iff in Eopt as [Hin _]. by apply mem_str_spec in Hin.
    + do 2 (apply returns_bind_any; intros ?). apply returns_ret. split; [by eexists|].
      simpl. eexists. split; [apply elem_of_app; right; left|]. by repeat split.
Qed.

Lemma run_stages_records run k base vms net run_id stages out :
  run_endpoint_id run = Some k -> Forall (fun v => nonempty v = true) vms ->
  returns (run_stages (E := E) run base vms net run_id stages out)
    (extends out id (fun out' => all_accounted out' k stages)).
Proof.
  intros Hk Hv. revert out. induction stages as [|st stages IH]; intros out; cbn [run_stages].
  { apply returns_ret. split; [by exists []; rewrite app_nil_r|]. intros st Hst.
    by apply not_elem_of_nil in Hst. }
  apply returns_bind_any. intros vars. destruct (_stage_skip_reason vars st) as [reason|].
  - eapply returns_mono; [apply IH|]. intros out' [[new Hnew] Hout]. unfold id in *. subst out'.
    split; [exists ([_skipped_stage_result st (run_endpoint_id run) reason] ++ new); by rewrite app_assoc|].
    intros st' [->|Hst']%elem_of_cons Hreq; [|by apply Hout].
    apply accounted_app, accounted_last. auto.
  - destruct net as [[[iface ip] mac] disable].
    eapply returns_bind; [apply (returns_lift _ (fun paths => paths <> [])); intros ps; by apply stage_paths_nonempty|].
    intros paths Hpaths. eapply returns_bind; [by apply run_paths_records|].
    intros [out1 failed] [[new1 Hnew1] Hout1]. simpl in *. subst out1. destruct failed.
    + apply returns_ret. split; [by exists new1|]. intros st' _ _. destruct Hout1 as (rec & Hin & Hr).
      exists rec. auto.
    + eapply returns_mono; [apply IH|]. intros out' [[new Hnew] Hout]. unfold id in *. subst out'.
      split; [exists (new1 ++ new); by rewrite app_assoc|].
      intros st' [->|Hst']%elem_of_cons Hreq; [by apply accounted_app, Hout1|by apply Hout].
Qed.

Lemma record_unresolved_records k stages out err :
  returns (_record_unresolved_endpoint (E := E) k stages out err)
    (extends out id (fun out' => all_accounted out' k stages)).
Proof.
  unfold _record_unresolved_endpoint. do 4 (apply returns_bind_any; intros ?).
  apply returns_ret. split; [by eexists|]. intros st Hst _. unfold id.
  destruct (forallb _ _); eexists; (split; [apply elem_of_app; right|]); [| |left|left; by repeat split].
  - apply list_elem_of_In, in_map. apply in_map_iff. exists st. split; [done|].
    apply list_elem_of_In, dedup_elem. split; [done|]. apply not_elem_of_nil.
  - right. done.
Qed.

Lemma run_endpoint_records params stages started deadline hint ids err k out :
  returns (run_endpoint (E := E) params stages started deadline hint ids err [k] out)
    (extends out id (fun out' => all_accounted out' k stages)).
Proof.
  unfold run_endpoint, _wire_scope_for_stage_endpoint.
  eapply (returns_bind _ _ (fun r => let '(scope, unresolved, out') := r in
    if (unresolved : bool) then extends out id (fun out' => all_accounted out' k stages) out'
    else out' = out)).
  { destruct (dget k ids); [by apply returns_ret|].
    eapply returns_bind; [apply record_unresolved_records|]. intros out' Hout'. by apply returns_ret. }
  intros [[scope [|]] out'] Hout; [by apply returns_ret|]. subst out'.
  do 2 (apply returns_bind_any; intros ?). case_match. do 2 (apply returns_bind_any; intros ?).
  apply run_stages_records; [done|]. apply Forall_forall. intros v Hv%list_elem_of_In.
  by apply filter_In in Hv as [_ Hv].
Qed.

Lemma record_deadline_records scopes out started k stages :
  Forall (fun scope => exists k, scope = [k]) scopes ->
  returns (_record_deadline_endpoints (E := E) scopes out started)
    (extends out id (fun out' => [k] ∈ scopes -> all_accounted out' k stages)).
Proof.
  intros Hall. revert out. induction Hall as [|scope scopes [k' ->] Hall IH]; intros out;
    cbn [_record_deadline_endpoints].
  { apply returns_ret. split; [by exists []; rewrite app_nil_r|]. intros Hk.
    by apply not_elem_of_nil in Hk. }
  do 2 (apply returns_bind_any; intros ?). eapply returns_mono; [apply IH|].
  intros out' [[new Hnew] Hout]. unfold id in *. subst out'. rewrite <- app_assoc in *.
  split; [by eexists|]. intros [[= <-]|Hk]%elem_of_cons; [|by apply Hout].
  intros st _ _. rewrite app_assoc. apply accounted_app, accounted_last. left. by repeat split.
Qed.

Lemma run_scopes_records params stages started deadline hint ids err scopes out k :
  Forall (fun scope => exists k, scope = [k]) scopes ->
  returns (run_scopes (E := E) params stages started deadline hint ids err scopes out)
    (extends out id (fun out' => [k] ∈ scopes -> all_accounted out' k stages)).
Proof.
  intros Hall. revert out. induction Hall as [|scope scopes [k' ->] Hall IH]; intros out;
    cbn [run_scopes].
  { apply returns_ret. split; [by exists []; rewrite app_nil_r|]. intros Hk.
    by apply not_elem_of_nil in Hk. }
  apply returns_bind_any. intros [|].
  { apply (record_deadline_records ([k'] :: scopes)). constructor; eauto. }
  eapply returns_bind; [apply run_endpoint_records|].
  intros out1 [[new1 Hnew1] Hout1]. unfold id in Hnew1. subst out1.
  eapply returns_mono; [apply IH|]. intros out' [[new Hnew] Hout]. unfold id in *. subst out'.
  split; [exists (new1 ++ new); by rewrite app_assoc|].
  intros [[= <-]|Hk]%elem_of_cons; [by apply all_accounted_app|by apply Hout].
Qed.

Lemma run_all_unfold stages params started deadline hint (w : world E) :
  _run_all_stages_sync stages params started deadline hint w =
  match _proxmox_endpoint_scopes (env_netbox (env w)) (p_proxmox_endpoint_ids params) with
  | [] => (Ok (_empty_endpoint_scope_result (p_proxmox_endpoint_ids params)), w)
  | scopes =>
      (resolution ← _resolve_wire_endpoint_ids scopes (p_fastapi_endpoint_id params);
       let '(ids, err) := resolution in
       _ ← monotonic;
       _ ← monotonic;
       run_scopes params stages started deadline hint ids err scopes []) w
  end.
Proof.
  unfold _run_all_stages_sync, rows. cbv [mbind M_bind gets].
  by destruct (_proxmox_endpoint_scopes _ _).
Qed.

End RecordFacts.

(** Rows that stay as they are while the run is going on. *)
Class StableRows (E : Type) `{!Env E} := {
  stable_clock : forall e, env_netbox (snd (env_monotonic e)) = env_netbox e;
  stable_sleep : forall d e, env_netbox (env_sleep d e) = env_netbox e;
  stable_list : forall ctx e, env_netbox (snd (env_list_endpoints ctx e)) = env_netbox e;
  stable_stream : forall r e, env_netbox (snd (env_stream r e)) = env_netbox e
}.

Section Stable.
Context {E : Type} `{!Env E, !StableRows E}.

Lemma stable_closed (nb : netbox) :
  closed_under (observes (E := E) (eq nb)) (fun _ => True).
Proof.
  split; unfold observes.
  - intros w Hw. unfold monotonic. pose proof (stable_clock (env w)) as Hs.
    destruct (env_monotonic (env w)). simpl in *. congruence.
  - intros d w Hw. simpl. by rewrite stable_sleep.
  - intros r _ w Hw. unfold run_sync_stream. pose proof (stable_stream r (env w)) as Hs.
    destruct (env_stream r (env w)). simpl in *. congruence.
Qed.

Lemma stable_list_closed (nb : netbox) ctx :
  keeps (observes (E := E) (eq nb)) (_list_backend_proxmox_endpoints ctx).
Proof.
  intros w Hw. unfold observes, _list_backend_proxmox_endpoints in *.
  pose proof (stable_list ctx (env w)) as Hs.
  destruct (env_list_endpoints ctx (env w)). simpl in *. congruence.
Qed.
End Stable.

(** ** Properties *)

Section Properties.
Context {E : Type} `{!Env E}.

Lemma true_closed : closed_under (observes (E := E) (fun _ => True)) (fun _ => True).
Proof. by split. Qed.

(** C3: no unscoped request. Whatever the backend, the clock and the database
    do during a staged run, every stream request it makes carries exactly one
    backend endpoint id, that of an endpoint which was enabled in NetBox and
    selected when the run started, resolved through that endpoint's own backend
    row, and goes to the backend the run was given. *)
Theorem staged_requests_are_scoped stages params started deadline hint (w : world E) :
  exists new,
    history (snd (_run_all_stages_sync stages params started deadline hint w)) = new ++ history w /\
    Forall (fun c => exists k id,
        [k] ∈ _proxmox_endpoint_scopes (env_netbox (env w)) (p_proxmox_endpoint_ids params) /\
        wire_id_sound (p_fastapi_endpoint_id params) w k id /\
        dget "proxmox_endpoint_ids" (req_query c.1) = Some id /\
        req_endpoint_id c.1 = p_fastapi_endpoint_id params) (streams new).
Proof.
  assert (Hobs : observes (fun _ : netbox => True) w) by done.
  destruct (run_all_requests (fun _ => True) true_closed (fun _ _ _ => I)
    stages params started deadline hint w Hobs) as (new & Hh & HF).
  exists new. split; [done|]. eapply Forall_impl; [exact HF|].
  intros [r o] (k & id & Hk & Hs & Hfid & _ & nb & st & modes & paths & _ & [Hid _] & _).
  exists k, id. auto.
Qed.

(** modes do not leak from one endpoint to the next. While the settings
    stay as they are, every request made for an endpoint carries the sync
    modes of that endpoint (its own values over the global ones, with the
    cascade applied), and none is made for a stage which those modes block. *)
Theorem staged_requests_use_own_modes `{!StableRows E} stages params started deadline hint
  (w : world E) :
  exists new,
    history (snd (_run_all_stages_sync stages params started deadline hint w)) = new ++ history w /\
    Forall (fun c => exists k id modes st,
        [k] ∈ _proxmox_endpoint_scopes (env_netbox (env w)) (p_proxmox_endpoint_ids params) /\
        dget "proxmox_endpoint_ids" (req_query c.1) = Some id /\
        effective_sync_modes_for_endpoint (env_netbox (env w)) (Some k) = Ok modes /\
        (forall f, f ∈ SYNC_MODE_FIELDS ->
           dget f (req_query c.1) = Some (_sync_mode_for_resource (_set_sync_mode_vars modes)
                                            (removeprefix "sync_mode_" f))) /\
        st ∈ stages /\ ~ stage_blocked (_set_sync_mode_vars modes) st) (streams new).
Proof.
  set (nb := env_netbox (env w)).
  assert (Hobs : observes (eq nb) w) by done.
  destruct (run_all_requests (eq nb) (stable_closed nb) (stable_list_closed nb)
    stages params started deadline hint w Hobs) as (new & Hh & HF).
  exists new. split; [done|]. eapply Forall_impl; [exact HF|].
  intros [r o] (k & id & Hk & _ & _ & _ & nb' & st & modes & paths & <- & [Hid Hq] & Hm & Hst & Hskip & _).
  destruct Hq as (modes' & Hm' & Hf). rewrite Hm in Hm'. injection Hm' as <-.
  exists k, id, modes, st. do 4 (split; [done|]). split; [done|].
  rewrite <- stage_skipped_iff_blocked, Hskip. by intros [? [=]].
Qed.

Lemma run_all_accounts stages params started deadline hint (w : world E)
  (out : list stage_record) :
  fst (_run_all_stages_sync stages params started deadline hint w) = Ok out ->
  let scopes := _proxmox_endpoint_scopes (env_netbox (env w)) (p_proxmox_endpoint_ids params) in
  (scopes = [] -> out = _empty_endpoint_scope_result (p_proxmox_endpoint_ids params)) /\
  (forall k st, [k] ∈ scopes -> st ∈ stages -> st ∉ _SKIPPABLE_STAGES -> accounted out k st).
Proof.
  intros Hrun scopes.
  assert (Hall : Forall (fun scope => exists k, scope = [k]) scopes).
  { apply Forall_forall. intros scope (e & _ & _ & -> & _)%scopes_spec. eauto. }
  rewrite run_all_unfold in Hrun. fold scopes in Hrun. destruct scopes as [|s0 ss].
  { injection Hrun as <-. split; [done|]. intros k st Hk. by apply not_elem_of_nil in Hk. }
  split; [done|]. intros k st Hk Hst Hreq. revert Hrun.
  apply (returns_bind_any _ _ (fun out => accounted out k st)). intros [ids err].
  do 2 (apply returns_bind_any; intros ?).
  eapply returns_mono; [by apply (run_scopes_records _ _ _ _ _ _ _ _ _ k)|].
  intros out' [_ Hout]. by apply Hout.
Qed.

(** C15: a run never drops work silently. When no endpoint is in scope the run
    reports one failed endpoint scope; otherwise the records of a run that
    returns account, for every endpoint in scope, for every selected stage
    that is not optional: by the stage's own record (completed, or skipped by
    its sync mode) or by a failure recorded for the endpoint. *)
Theorem staged_run_accounts_for_every_stage stages params started deadline hint (w : world E)
  (out : list stage_record) :
  fst (_run_all_stages_sync stages params started deadline hint w) = Ok out ->
  let scopes := _proxmox_endpoint_scopes (env_netbox (env w)) (p_proxmox_endpoint_ids params) in
  (scopes = [] -> out = _empty_endpoint_scope_result (p_proxmox_endpoint_ids params)) /\
  (forall k st, [k] ∈ scopes -> st ∈ stages -> st ∉ _SKIPPABLE_STAGES -> accounted out k st).
Proof. apply run_all_accounts. Qed.

End Properties.

#[global] Instance script_stable : StableRows script.
Proof. split; try done. intros r e. simpl. by destruct (script_answers e). Qed.

(** The run of a two-endpoint estate: the second endpoint goes on after the
    first one's stage is rejected, each request with its own backend id. *)
Definition sample_params : sync_params :=
  {| p_proxmox_endpoint_ids := []; p_netbox_endpoint_ids := []; p_netbox_vm_ids := [];
     p_fastapi_endpoint_id := Some 2; p_netbox_branch_schema_id := VNone; p_run_id := VNone |}.

Example two_endpoint_run :
  let r := _run_all_stages_sync ["devices"; "vm-interfaces"] sample_params 0 None None
             (start (sample_script [Ok ([("detail", VStr "bad tag")], 422); completed])) in
  List.map (fun c => dget "proxmox_endpoint_ids" (req_query c.1)) (streams (history (snd r)))
    = [Some "41"; Some "43"] /\
  match fst r with
  | Ok out => List.map (fun rec => (stage_sync_type rec, stage_endpoint_id rec,
                                    get "ok" (stage_result_summary rec))) out
      = [ (ENDPOINT_SCOPE, Some "7", VBool false); ("devices", Some "9", VBool true);
          ("vm-interfaces", Some "9", VBool true) ]
  | Err _ => False
  end.
Proof. split; vm_compute; reflexivity. Qed.

Lemma staged_requests_use_own_modes_witness :
  exists new,
    history (snd (_run_all_stages_sync ["devices"] sample_params 0 None None
                    (start (sample_script [completed]))))
      = new ++ history (start (sample_script [completed])) /\
    Forall (fun c => exists k id modes st,
        [k] ∈ _proxmox_endpoint_scopes (env_netbox (env (start (sample_script [completed])))) [] /\
        dget "proxmox_endpoint_ids" (req_query c.1) = Some id /\
        effective_sync_modes_for_endpoint (env_netbox (env (start (sample_script [completed]))))
          (Some k) = Ok modes /\
        (forall f, f ∈ SYNC_MODE_FIELDS ->
           dget f (req_query c.1) = Some (_sync_mode_for_resource (_set_sync_mode_vars modes)
                                            (removeprefix "sync_mode_" f))) /\
        st ∈ ["devices"] /\ ~ stage_blocked (_set_sync_mode_vars modes) st) (streams new).
Proof.
  exact (staged_requests_use_own_modes ["devices"] sample_params 0 None None
           (start (sample_script [completed]))).
Defined.

Lemma staged_run_accounts_for_every_stage_witness :
  fst (_run_all_stages_sync ["devices"] sample_params 0 (Some sample_deadline) None
         (start (sample_script [])))
  = Ok (match fst (_run_all_stages_sync ["devices"] sample_params 0 (Some sample_deadline) None
                     (start (sample_script []))) with Ok out => out | Err _ => [] end) /\
  accounted (match fst (_run_all_stages_sync ["devices"] sample_params 0 (Some sample_deadline) None
                          (start (sample_script []))) with Ok out => out | Err _ => [] end)
    "9" "devices".
Proof.
  split; [vm_compute; reflexivity|].
  apply (staged_run_accounts_for_every_stage ["devices"] sample_params 0 (Some sample_deadline) None
           (start (sample_script []))); [vm_compute; reflexivity| | |];
    apply (bool_decide_eq_true_1 _); vm_compute; reflexivity.
Defined.

(** A run whose only stage is optional, against a backend that answers
    nothing but 503: the run returns no record at all. *)
Example optional_only_run_returns_empty :
  fst (_run_all_stages_sync ["vm-backups"] sample_params 0 None None (start (sample_script [])))
  = Ok [].
Proof. vm_compute. reflexivity. Qed.
