(* ===== verification/IndividualSync.v ===== *)
(** * Individual syncs and their dependencies (services/individual_sync.py)

    A selected object is synchronised by one call, whose answer may name
    dependencies that are synchronised in turn.  The recursion is guarded by
    the set of calls already made; how deep it goes is up to the backend, so
    the model recurses to the interpreter's recursion limit and raises
    [RecursionError] there, as Python does.  The theorems say that every call
    of the tree keeps the scope, the branch and the backend of the first one,
    and that no call is made twice, so that only an endless supply of new
    dependencies can reach the limit. *)
From Stdlib Require Import ZArith Lia String Ascii.
From stdpp Require Import base list sets strings pretty.
From S2P Require Import Prelude Effects.

(** ** The HTTP boundary *)

Record backend_context := {
  bc_http_url : string;
  bc_ip_address_url : string;
  bc_headers : dict string;
  bc_verify_ssl : bool
}.

(** How one GET ends: a response with a JSON body, one whose body cannot be
    decoded, a [RequestException] (with the status the error names and whether
    the backend answered at all), a [ValueError] or any other exception. *)
Inductive http_reply :=
| Json (status : Z) (payload : pyval)
| JsonError (text : string)
| RequestFailed (detail : string) (http_status : option Z) (answered : bool)
| NotJson
| OtherError (text : string).

Class HttpEnv (E : Type) := {
  (* utils.get_first_fastapi_context(endpoint_id) *)
  http_context : option Z -> E -> option backend_context;
  (* requests.get(url, params, headers, verify) *)
  http_get : string -> dict pyval -> backend_context -> E -> http_reply * E
}.

(** One entry of [sync_individual]: path, parameters sent, and backend. *)
Record ind_call := {
  call_path : string;
  call_params : dict pyval;
  call_fastapi : option Z
}.

(** [made] has the latest call first. *)
Record ind_world (E : Type) := { ienv : E; made : list ind_call }.
Arguments ienv {E} i.
Arguments made {E} i.

Definition _CONTEXT_KEYS : list string :=
  [ "cluster_name"; "node"; "type"; "vmid"; "storage_name"; "storage"; "volid";
    "snapshot_name"; "interface_name"; "ip_address"; "disk_name"; "replication_id" ].

(** ** Pure helpers *)

Definition opt_str (o : option string) : string := match o with Some s => s | None => "" end.

(** The parameters that are sent, with branch and scope merged in. *)
Definition merged_params (query_params : dict pyval) (schema scope : option string) : dict pyval :=
  let add key value d := if is_empty value then d else dset key (VStr value) d in
  add "proxmox_endpoint_ids" (opt_str scope)
    (add "netbox_branch_schema_id" (opt_str schema) query_params).

Fixpoint insert_item (kv : string * string) (l : list (string * string)) : list (string * string) :=
  match l with
  | [] => [kv]
  | kv' :: l' => if String.leb (fst kv) (fst kv') then kv :: l else kv' :: insert_item kv l'
  end.

(** [tuple(sorted((str(k), str(v)) for k, v in items))]; the keys of a dict are
    distinct, so the order is that of the keys. *)
Definition sorted_items (d : dict pyval) : list (string * string) :=
  foldr insert_item [] (List.map (fun kv => (fst kv, str (snd kv))) d).

(** The code renders the pair as text; the pair itself is kept here. *)
Definition cache_key : Type := string * list (string * string).

Definition _build_cache_key (path : string) (query_params : dict pyval) : cache_key :=
  (path, sorted_items query_params).

Definition _merge_context (base update : dict pyval) : dict pyval :=
  fold_left
    (fun merged key =>
       let value := get key update in
       if none_or_empty value then merged else dset key value merged)
    _CONTEXT_KEYS base.

(** [for key in _CONTEXT_KEYS: if key not in params and key in context: ...] *)
Definition fill_params (params context : dict pyval) : dict pyval :=
  fold_left
    (fun params key =>
       match dmem key params, dget key context with
       | false, Some v => dset key v params
       | _, _ => params
       end)
    _CONTEXT_KEYS params.

Definition _get_dependency_config (dep_type : string) : option (string * list string) :=
  dget dep_type
    [ ("cluster", ("sync/individual/cluster", ["cluster_name"]));
      ("node", ("sync/individual/node", ["cluster_name"; "node_name"]));
      ("vm", ("sync/individual/vm", ["cluster_name"; "node"; "type"; "vmid"]));
      ("storage", ("sync/individual/storage", ["cluster_name"; "storage_name"]));
      ("interface", ("sync/individual/interface",
                     ["cluster_name"; "node"; "type"; "vmid"; "interface_name"]));
      ("ip", ("sync/individual/ip", ["cluster_name"; "node"; "type"; "vmid"; "ip_address"]));
      ("disk", ("sync/individual/disk", ["cluster_name"; "node"; "type"; "vmid"; "disk_name"]));
      ("replication", ("sync/individual/replication", ["cluster_name"; "replication_id"]));
      ("backup", ("sync/individual/backup", ["cluster_name"; "node"; "storage"; "vmid"; "volid"]));
      ("snapshot", ("sync/individual/snapshot",
                    ["cluster_name"; "node"; "type"; "vmid"; "snapshot_name"]));
      ("task-history", ("sync/individual/task-history", ["node"; "type"; "vmid"])) ].

(** The parameter [key] of a dependency's call. *)
Definition dependency_param (dep_type : string) (dep context : dict pyval) (key : string) : pyval :=
  let dep_or k dflt := py_or (get k dep) dflt in
  let ctx k := dget_or k (VStr "") context in
  if String.eqb key "cluster_name" then
    dep_or "cluster_name"
      (py_or (ctx "cluster_name")
             (if String.eqb dep_type "cluster" then get "name" dep else VStr ""))
  else if String.eqb key "node_name" then dep_or "name" (dep_or "node_name" (VStr ""))
  else if String.eqb key "node" then dep_or "node" (ctx "node")
  else if String.eqb key "type" then dep_or "type" (dget_or "type" (VStr "qemu") context)
  else if String.eqb key "vmid" then dep_or "vmid" (get "vmid" context)
  else if String.eqb key "storage" then dep_or "storage" (ctx "storage")
  else if String.eqb key "volid" then dep_or "volid" (ctx "volid")
  else (* storage_name, snapshot_name, interface_name, ip_address, disk_name,
          replication_id *)
    dep_or key (dep_or "name" (ctx key)).

Definition dependency_params (dep_type : string) (param_keys : list string)
  (dep context : dict pyval) : dict pyval :=
  fold_left (fun params key => dset key (dependency_param dep_type dep context key) params)
    param_keys [].

(** The dependencies an answer lists, as the [for] loop meets them. *)
Definition dependencies_of (response : dict pyval) : result (list pyval) :=
  match dget_or "dependencies_synced" (VList []) response with
  | VList l => Ok l
  | VStr s => Ok (List.map (fun c => VStr (String c "")) (list_ascii_of_string s))
  | VDict d => Ok (List.map (fun kv => VStr (fst kv)) d)
  | _ => Err (TypeError "object is not iterable")
  end.

Section Individual.
Context {E : Type} `{!HttpEnv E}.

Definition log_call (c : ind_call) (w : ind_world E) : ind_world E :=
  {| ienv := ienv w; made := c :: made w |}.

Definition get_url (url : string) (params : dict pyval) (ctx : backend_context) :
  M (ind_world E) http_reply := fun w =>
  let '(r, e) := http_get url params ctx (ienv w) in (Ok r, {| ienv := e; made := made w |}).

(** The loop over the candidate URLs. *)
Fixpoint try_candidates (urls : list string) (params : dict pyval) (ctx : backend_context)
  (last_error : string) (last_status : Z) : M (ind_world E) (dict pyval * Z) :=
  let failed := mret ([("error", VStr (str_or last_error "Unable to reach the ProxBox backend."))],
                      last_status) in
  match urls with
  | [] => failed
  | url :: rest =>
      reply ← get_url url params ctx;
      match reply with
      | Json status (VDict payload) => mret (payload, status)
      | Json status payload => mret ([("response", payload)], status)
      | JsonError json_err => mret ([("error", VStr json_err)], 502)
      | RequestFailed detail http_status answered =>
          let status := match http_status with Some s => if s =? 0 then 503 else s | None => 503 end in
          if answered then
            mret ([("error", VStr (str_or detail "Unable to reach the ProxBox backend."))], status)
          else try_candidates rest params ctx detail status
      | NotJson =>
          try_candidates rest params ctx
            ("ProxBox backend returned a response that is not valid JSON. " +:+
             "Check that the FastAPI URL points to proxbox-api, not another service.") 502
      | OtherError text => try_candidates rest params ctx text 500
      end
  end.

Definition candidate_urls (ctx : backend_context) (path : string) : list string :=
  let url := bc_http_url ctx +:+ "/" +:+ path in
  let fallback := bc_ip_address_url ctx +:+ "/" +:+ path in
  url :: if (nonempty (bc_ip_address_url ctx) && negb (String.eqb fallback url))%bool
         then [fallback] else [].

Definition sync_individual (path : string) (query_params : dict pyval)
  (netbox_branch_schema_id : option string) (fastapi_endpoint_id : option Z)
  (proxmox_endpoint_ids : option string) : M (ind_world E) (dict pyval * Z) :=
  let query_params := merged_params query_params netbox_branch_schema_id proxmox_endpoint_ids in
  _ ← modify (log_call {| call_path := path; call_params := query_params;
                          call_fastapi := fastapi_endpoint_id |});
  context ← gets (fun w => http_context fastapi_endpoint_id (ienv w));
  match context with
  | Some ctx =>
      if nonempty (bc_http_url ctx)
      then try_candidates (candidate_urls ctx path) query_params ctx "" 503
      else mret ([("error", VStr match fastapi_endpoint_id with
                                 | Some id => "The FastAPI endpoint selected for this run (id "
                                              +:+ pretty id +:+ ") is not configured or not enabled."
                                 | None => "No FastAPI endpoint configured."
                                 end)], 503)
  | None => mret ([("error", VStr match fastapi_endpoint_id with
                                  | Some id => "The FastAPI endpoint selected for this run (id "
                                               +:+ pretty id +:+ ") is not configured or not enabled."
                                  | None => "No FastAPI endpoint configured."
                                  end)], 503)
  end.

(** What a call returns, with the calls recorded as visited: the set is shared
    by the whole tree. *)
Record synced := {
  s_response : dict pyval;
  s_status : Z;
  s_dependencies : list pyval;
  s_visited : list cache_key
}.

Definition nothing_synced (visited : list cache_key) : synced :=
  {| s_response := []; s_status := 200; s_dependencies := []; s_visited := visited |}.

(** [_sync_dependency]; [call] is the recursive call, which carries branch,
    backend and scope. *)
Definition _sync_dependency
  (call : string -> dict pyval -> list cache_key -> dict pyval -> M (ind_world E) synced)
  (dep : dict pyval) (visited : list cache_key) (parent_context : dict pyval) :
  M (ind_world E) synced :=
  match get "object_type" dep with
  | VStr dep_type =>
      match _get_dependency_config dep_type with
      | None => mret (nothing_synced visited)
      | Some (path, param_keys) =>
          let context := _merge_context parent_context dep in
          call path (dependency_params dep_type param_keys dep context) visited context
      end
  | VList (_ :: _) | VDict (_ :: _) => raise (TypeError "unhashable type")
  | _ => mret (nothing_synced visited)
  end.

(** The body of the loop over [dependencies_synced]: the visited keys and
    [all_synced]. *)
Definition dependency_step
  (call : string -> dict pyval -> list cache_key -> dict pyval -> M (ind_world E) synced)
  (context : dict pyval) (dep : pyval) (acc : list cache_key * list pyval) :
  M (ind_world E) (list cache_key * list pyval) :=
  match dep with
  | VDict dep =>
      if match get "action" dep with
         | VStr action => mem_str action ["created"; "updated"]
         | _ => false
         end
      then
        r ← _sync_dependency call dep (fst acc) context;
        mret (s_visited r,
              snd acc ++ s_dependencies r ++
                match s_response r with
                | [] => []
                | response =>
                    [VDict [ ("object_type", get "object_type" dep); ("response", VDict response);
                             ("status", VInt (s_status r)) ]]
                end)
      else mret acc
  | _ => raise (AttributeError "object has no attribute 'get'")
  end.

(** [limit] nested calls are left before the interpreter's recursion limit. *)
Fixpoint sync_with_dependencies (limit : nat) (schema : option string) (fastapi : option Z)
  (scope : option string) (path : string) (query_params : dict pyval) (visited : list cache_key)
  (context : dict pyval) : M (ind_world E) synced :=
  match limit with
  | O => raise RecursionError
  | S limit' =>
      let context := _merge_context context query_params in
      let params := fill_params query_params context in
      let key := _build_cache_key path params in
      if bool_decide (key ∈ visited) then mret (nothing_synced visited)
      else
        let visited := key :: visited in
        answer ← sync_individual path params schema fastapi scope;
        let '(response, status) := answer in
        if status =? 200 then
          deps ← lift (dependencies_of response);
          synced ← for_each deps (visited, [])
                     (dependency_step (sync_with_dependencies limit' schema fastapi scope) context);
          mret {| s_response := response; s_status := status; s_dependencies := snd synced;
                  s_visited := fst synced |}
        else
          mret {| s_response := response; s_status := status; s_dependencies := [];
                  s_visited := visited |}
  end.

(** CPython's default recursion limit bounds the depth; the frames that are
    already on the stack only make it smaller. *)
Definition recursion_limit : nat := 1000.

Definition sync_individual_with_dependencies (path : string) (query_params : dict pyval)
  (schema : option string) (fastapi : option Z) (scope : option string) : M (ind_world E) synced :=
  sync_with_dependencies recursion_limit schema fastapi scope path query_params [] [].

(** ** Scope of the calls *)

(** The call carries the scope and branch of the tree it belongs to. *)
Definition carries (schema : option string) (fastapi : option Z) (scope : option string)
  (c : ind_call) : Prop :=
  call_fastapi c = fastapi /\
  (forall s, scope = Some s -> s <> "" ->
     dget "proxmox_endpoint_ids" (call_params c) = Some (VStr s)) /\
  (forall s, schema = Some s -> s <> "" ->
     dget "netbox_branch_schema_id" (call_params c) = Some (VStr s)).

Lemma merged_params_carry path params schema fastapi scope :
  carries schema fastapi scope
    {| call_path := path; call_params := merged_params params schema scope;
       call_fastapi := fastapi |}.
Proof.
  split; [done|]. unfold merged_params, is_empty. simpl. split; intros s -> Hs; simpl;
    rewrite (proj2 (String.eqb_neq _ _) Hs).
  - by rewrite dget_dset_eq.
  - destruct (String.eqb (opt_str scope) "");
      [by rewrite dget_dset_eq|by rewrite dget_dset_ne, dget_dset_eq].
Qed.

(** The calls made since [c0] all satisfy [P]. *)
Definition made_since (P : ind_call -> Prop) (c0 : list ind_call) (w : ind_world E) : Prop :=
  exists new, made w = new ++ c0 /\ Forall P new.

Lemma try_candidates_made urls params ctx err status (w : ind_world E) :
  wp (try_candidates urls params ctx err status)
    (fun r w' => (exists a, r = Ok a) /\ made w' = made w) w.
Proof.
  revert err status w. induction urls as [|url urls IH]; intros err status w; cbn [try_candidates].
  { wp_steps. eauto. }
  wp_step. unfold wp at 1, get_url.
  destruct (http_get url params ctx (ienv w)) as [r e]; cbn [fst snd].
  destruct r as [st [| | | | | |d]|t|d hs [|]| |t]; try (wp_steps; by eauto);
    (eapply wp_mono; [apply IH|done]).
Qed.

(** [sync_individual] always answers, and makes one call. *)
Lemma sync_individual_made path params schema fastapi scope (w : ind_world E) :
  wp (sync_individual path params schema fastapi scope)
    (fun r w' => (exists a, r = Ok a) /\
       made w' = {| call_path := path; call_params := merged_params params schema scope;
                    call_fastapi := fastapi |} :: made w) w.
Proof.
  unfold sync_individual. wp_steps.
  destruct (http_context fastapi _) as [ctx|]; [|wp_steps; by eauto].
  destruct (nonempty _); [|wp_steps; by eauto].
  eapply wp_mono; [apply try_candidates_made|done].
Qed.

Lemma sync_individual_keeps path params schema fastapi scope c0 :
  keeps (made_since (carries schema fastapi scope) c0)
    (sync_individual path params schema fastapi scope).
Proof.
  intros w (new & Hm & HF). unfold made_since.
  destruct (sync_individual_made path params schema fastapi scope w) as [_ ->]. rewrite Hm.
  eexists (_ :: new). split; [done|]. constructor; [apply merged_params_carry|done].
Qed.

Lemma sync_with_dependencies_keeps limit schema fastapi scope path params visited context c0 :
  keeps (made_since (carries schema fastapi scope) c0)
    (sync_with_dependencies limit schema fastapi scope path params visited context).
Proof.
  revert path params visited context. induction limit as [|limit IH];
    intros path params visited context; cbn [sync_with_dependencies]; [apply keeps_raise|].
  unfold dependency_step, _sync_dependency.
  repeat first [apply IH | apply sync_individual_keeps | keeps_step].
Qed.

(** ** The guard of the recursion *)

(** [m] was started with the visited set [visited] in the world [w], and may
    make at least [limit] calls before the recursion limit. *)
Definition guarded (limit : nat) (visited : list cache_key) (w : ind_world E)
  (r : result synced) (w' : ind_world E) : Prop :=
  exists new, made w' = new ++ made w /\
    match r with
    | Ok s => exists keys, s_visited s = keys ++ visited /\ NoDup (keys ++ visited) /\
                length keys = length new
    | Err RecursionError => (limit <= length new)%nat
    | Err _ => True
    end.

(** The state of the loop over the dependencies. *)
Definition loop_inv (visited : list cache_key) (w : ind_world E)
  (acc : list cache_key * list pyval) (w' : ind_world E) : Prop :=
  exists new keys, made w' = new ++ made w /\ acc.1 = keys ++ visited /\
    NoDup (keys ++ visited) /\ length keys = length new.

Definition loop_exc (limit : nat) (w : ind_world E) (e : exn) (w' : ind_world E) : Prop :=
  exists new, made w' = new ++ made w /\
    match e with RecursionError => (limit <= length new)%nat | _ => True end.

Lemma dependency_step_guarded call limit context visited w dep acc w1 :
  (forall path params vis ctx w', NoDup vis ->
     wp (call path params vis ctx) (guarded limit vis w') w') ->
  loop_inv visited w acc w1 ->
  wp (dependency_step call context dep acc)
    (fun r w' => match r with Ok acc' => loop_inv visited w acc' w'
                            | Err e => loop_exc limit w e w' end) w1.
Proof.
  intros Hcall Hacc. pose proof Hacc as (new1 & keys1 & Hm1 & Ha & Hnd & Hl).
  assert (Hraise : forall e, e <> RecursionError -> loop_exc limit w e w1).
  { intros e He. exists new1. split; [done|]. by destruct e. }
  unfold dependency_step. destruct dep as [| | | | | |dep]; try (wp_steps; by apply Hraise).
  destruct (match get "action" dep with VStr a => _ | _ => _ end); [|done].
  wp_step. apply (wp_mono _ (guarded limit (fst acc) w1)).
  - unfold _sync_dependency.
    assert (Hno : guarded limit (fst acc) w1 (Ok (nothing_synced (fst acc))) w1).
    { exists []. split; [done|]. exists []. rewrite Ha. auto. }
    assert (Herr : guarded limit (fst acc) w1 (Err (TypeError "unhashable type")) w1) by (by exists []).
    destruct (get "object_type" dep) as [| | | |t|[]|[]]; try exact Hno; try exact Herr.
    destruct (_get_dependency_config t) as [[path keys]|]; [|exact Hno].
    apply Hcall. by rewrite Ha.
  - intros [s|e] w2 (new & Hm2 & Hr); wp_steps.
    + destruct Hr as (keys & Hv & Hnd2 & Hl2). exists (new ++ new1), (keys ++ keys1).
      rewrite Ha in *. cbn [fst]. rewrite Hm2, Hm1, Hv, <- !app_assoc, !length_app. auto with lia.
    + exists (new ++ new1). rewrite Hm2, Hm1, app_assoc. split; [done|].
      destruct e; try done. rewrite length_app. lia.
Qed.

Lemma sync_with_dependencies_guarded limit schema fastapi scope path params visited context
  (w : ind_world E) :
  NoDup visited ->
  wp (sync_with_dependencies limit schema fastapi scope path params visited context)
    (guarded limit visited w) w.
Proof.
  revert path params visited context w. induction limit as [|limit IH];
    intros path params visited context w Hnd; cbn [sync_with_dependencies].
  { wp_steps. exists []. simpl. auto with lia. }
  set (ctx := _merge_context context params). set (p := fill_params params ctx).
  case_bool_decide as Hin.
  { wp_steps. exists []. split; [done|]. by exists []. }
  set (key := _build_cache_key path p) in *.
  assert (Hnd' : NoDup (key :: visited)) by (by constructor).
  wp_step. eapply wp_mono; [apply sync_individual_made|].
  intros r w1 [[[response status] ->] Hmade]. set (c := {| call_path := path |}) in Hmade.
  destruct (status =? 200); cycle 1.
  { wp_steps. exists [c]. split; [done|]. by exists [key]. }
  wp_step. wp_step. destruct (dependencies_of response) as [deps|e] eqn:Edeps; cycle 1.
  { exists [c]. split; [done|]. unfold dependencies_of in Edeps.
    destruct (dget_or _ _ _); by simplify_eq. }
  wp_step. eapply wp_mono;
    [eapply (wp_for_each deps _ (loop_inv (key :: visited) w1) (loop_exc limit w1))|].
  - intros dep acc w2 _ Hacc. by apply dependency_step_guarded; [|exact Hacc].
  - exists [], []. auto.
  - intros [[vis all]|e] w2.
    + intros (new & keys & Hm & Hv & Hn & Hl). wp_steps. exists (new ++ [c]).
      rewrite Hm, Hmade, <- app_assoc. split; [done|]. exists (keys ++ [key]). simpl in *.
      rewrite <- app_assoc, !length_app. simpl. auto with lia.
    + intros (new & Hm & He). exists (new ++ [c]). rewrite Hm, Hmade, <- app_assoc.
      split; [done|]. destruct e; try done. rewrite length_app. simpl. lia.
Qed.

(** ** Properties *)

(** C39: dependencies stay in scope. Every call made on behalf of a selected
    object, however deep in the tree of dependencies and whatever the backend
    answers, goes to the backend of the first call, and carries its endpoint
    scope and its branch when it has them. *)
Theorem dependencies_stay_in_scope path params schema fastapi scope (w : ind_world E) :
  exists new,
    made (snd (sync_individual_with_dependencies path params schema fastapi scope w))
      = new ++ made w /\
    Forall (carries schema fastapi scope) new.
Proof.
  apply (sync_with_dependencies_keeps recursion_limit schema fastapi scope path params [] []).
  by exists [].
Qed.

(** the recursion is guarded. When the tree is completed, its calls were
    made for pairwise distinct keys, one key per call; and the recursion limit
    is only ever reached after as many calls, so a backend that names
    dependencies in a circle cannot exhaust it. *)
Theorem dependency_recursion_guarded limit schema fastapi scope path params (w : ind_world E) :
  exists new,
    made (snd (sync_with_dependencies limit schema fastapi scope path params [] [] w))
      = new ++ made w /\
    match fst (sync_with_dependencies limit schema fastapi scope path params [] [] w) with
    | Ok s => NoDup (s_visited s) /\ length (s_visited s) = length new
    | Err RecursionError => (limit <= length new)%nat
    | Err _ => True
    end.
Proof.
  destruct (sync_with_dependencies_guarded limit schema fastapi scope path params [] []
    w (NoDup_nil_2)) as (new & Hm & Hr).
  exists new. split; [done|]. destruct (fst _) as [s|e]; [|done].
  destruct Hr as (keys & -> & Hnd & Hl). by rewrite app_nil_r in *.
Qed.

End Individual.


(** ** A backend played from a table, by URL *)

Record answers := { by_url : list (string * pyval) }.

#[global] Instance answers_env : HttpEnv answers := {|
  http_context _ _ := Some {| bc_http_url := "https://proxbox"; bc_ip_address_url := "";
                              bc_headers := []; bc_verify_ssl := true |};
  http_get url _ _ e :=
    (match dget url (by_url e) with
     | Some payload => Json 200 payload
     | None => RequestFailed "Not Found" (Some 404) true
     end, e)
|}.

Definition updated (object_type : string) : pyval :=
  VDict [("object_type", VStr object_type); ("action", VStr "updated")].

(** A VM that depends on its storage, which names the VM in turn. *)
Definition circular : ind_world answers :=
  {| ienv := {| by_url :=
       [ ("https://proxbox/sync/individual/vm",
          VDict [("dependencies_synced", VList [updated "storage"])]);
         ("https://proxbox/sync/individual/storage",
          VDict [("dependencies_synced", VList [updated "vm"])]) ] |};
     made := [] |}.

Definition vm_params : dict pyval :=
  [ ("cluster_name", VStr "lab"); ("node", VStr "pve1"); ("type", VStr "qemu");
    ("vmid", VStr "100"); ("storage_name", VStr "local") ].

Example circular_dependencies_end :
  let r := sync_individual_with_dependencies "sync/individual/vm" vm_params None None (Some "41")
             circular in
  List.map call_path (rev (made (snd r))) = ["sync/individual/vm"; "sync/individual/storage"] /\
  match fst r with Ok s => s_status s = 200 | Err _ => False end.
Proof. split; vm_compute; reflexivity. Qed.

(** With the scope also among the parameters of the first call, as the
    selected-object run passes it, the key of the first call is not the one a
    dependency on the same object has, and the object is synchronised twice. *)
Example scoped_root_synced_twice :
  let r := sync_individual_with_dependencies "sync/individual/vm"
             (vm_params ++ [("proxmox_endpoint_ids", VStr "41")]) None None (Some "41") circular in
  List.map call_path (rev (made (snd r)))
  = ["sync/individual/vm"; "sync/individual/storage"; "sync/individual/vm"].
Proof. vm_compute. reflexivity. Qed.
