(* ===== verification/VmObjects.v ===== *)
(** * Selectable objects and their Proxmox identity (vm_identity.py, sync_params.py)

    The five kinds of NetBox rows an operator can select, as the fields the
    sync reads of them; the Proxmox identity of a virtual machine; and the
    request parameters of one selected object. *)
From Stdlib Require Import ZArith Lia String Ascii.
From stdpp Require Import base list sets strings pretty.
From S2P Require Import Prelude SyncTypes SyncModes.

(** A core cluster. *)
Record Cluster := {
  cluster_pk : Z;
  cluster_name : string;
  cluster_tenant : option string
}.

(** A row linked from the sync state: its name and the endpoint it belongs to. *)
Record linked_row := { linked_name : string; linked_endpoint_id : option Z }.

(** [ProxboxVMSyncState], the one-to-one sidecar of a virtual machine; the
    endpoint is given by its key and whether it is enabled. *)
Record VMSyncState := {
  ss_virtual_machine_id : option Z;
  ss_endpoint : option (Z * bool);
  ss_endpoint_id : option Z;
  ss_proxmox_cluster : option linked_row;
  ss_proxmox_cluster_name : string;
  ss_proxmox_node : option linked_row;
  ss_proxmox_node_name : string;
  ss_proxmox_vm_type : string;
  ss_proxmox_vm_id : option Z
}.

Record VirtualMachine := {
  vm_pk : Z;
  vm_name : string;
  vm_cluster : option Cluster;
  vm_device_name : option string;
  vm_type_slug : option string;
  vm_sync_state : option VMSyncState;
  vm_tenant : option string;
  vm_tags : list string
}.

Record ProxmoxStorage := {
  storage_pk : Z;
  storage_name : string;
  storage_cluster : option Cluster;
  storage_nodes : string
}.

Record VMBackup := {
  backup_pk : Z;
  backup_proxmox_storage : option ProxmoxStorage;
  backup_virtual_machine : option VirtualMachine;
  backup_storage : string;
  backup_volume_id : string;
  backup_vmid : option Z
}.

Record VMSnapshot := {
  snapshot_pk : Z;
  snapshot_proxmox_storage : option ProxmoxStorage;
  snapshot_virtual_machine : option VirtualMachine;
  snapshot_name : string;
  snapshot_node : string;
  snapshot_subtype : string;
  snapshot_vmid : option Z
}.

Record VMTaskHistory := {
  task_pk : Z;
  task_virtual_machine : option VirtualMachine;
  task_node : string;
  task_vm_type : string;
  task_upid : string
}.

(** [str(x or "")] of an optional integer: zero is falsy. *)
Definition int_text (z : option Z) : string :=
  match z with Some n => if n =? 0 then "" else pretty n | None => "" end.

Definition name_of (r : option linked_row) : string :=
  match r with Some r => linked_name r | None => "" end.

(** ** Identity of a virtual machine *)

Definition resolve_vm_cluster_name (nb : netbox) (vm : VirtualMachine) : string :=
  let typed_name :=
    match vm_sync_state vm with
    | Some ss => str_or (name_of (ss_proxmox_cluster ss)) (ss_proxmox_cluster_name ss)
    | None => ""
    end in
  if nonempty typed_name then typed_name
  else match vm_cluster vm with
       | None => ""
       | Some cluster =>
           match List.find (fun c => bool_decide (netbox_cluster_id c = Some (cluster_pk cluster)))
                   (nb_clusters nb) with
           | Some tracked => proxmox_cluster_name tracked
           | None => cluster_name cluster
           end
       end.

Definition resolve_vm_node (vm : VirtualMachine) : string :=
  let node_name :=
    match vm_sync_state vm with
    | Some ss => str_or (name_of (ss_proxmox_node ss)) (ss_proxmox_node_name ss)
    | None => ""
    end in
  if nonempty node_name then node_name
  else match vm_device_name vm with Some n => n | None => "" end.

Definition resolve_known_vm_type (vm : VirtualMachine) : string :=
  let typed_type :=
    lower (strip match vm_sync_state vm with Some ss => ss_proxmox_vm_type ss | None => "" end) in
  if mem_str typed_type ["qemu"; "lxc"] then typed_type
  else
    let slug := lower (strip match vm_type_slug vm with Some s => s | None => "" end) in
    if contains "lxc" slug then "lxc"
    else if contains "qemu" slug then "qemu"
    else "".

Definition resolve_vm_type (vm : VirtualMachine) : string :=
  str_or (resolve_known_vm_type vm) "qemu".

Definition resolve_vm_vmid (vm : VirtualMachine) : string :=
  match vm_sync_state vm with
  | Some ss => match ss_proxmox_vm_id ss with Some z => pretty z | None => "" end
  | None => ""
  end.

Definition _positive_int (z : option Z) : option Z :=
  match z with Some n => if 0 <? n then Some n else None | None => None end.

Definition _linked_endpoint_matches (linked : option linked_row) (endpoint_id : Z) : bool :=
  match linked with
  | None => true
  | Some r => bool_decide (_positive_int (linked_endpoint_id r) = Some endpoint_id)
  end.

Definition resolve_vm_endpoint_context (vm : VirtualMachine) : option (Z * Z * string) :=
  match vm_sync_state vm with
  | None => None
  | Some ss =>
      match _positive_int (Some (vm_pk vm)), ss_endpoint ss, _positive_int (ss_endpoint_id ss),
            _positive_int (ss_proxmox_vm_id ss) with
      | Some vm_id, Some (endpoint_pk, enabled), Some endpoint_id, Some vmid =>
          if (bool_decide (_positive_int (ss_virtual_machine_id ss) = Some vm_id)
              && bool_decide (_positive_int (Some endpoint_pk) = Some endpoint_id)
              && enabled
              && _linked_endpoint_matches (ss_proxmox_cluster ss) endpoint_id
              && _linked_endpoint_matches (ss_proxmox_node ss) endpoint_id)%bool
          then Some (endpoint_id, vmid, resolve_vm_type vm)
          else None
      | _, _, _, _ => None
      end
  end.

(** ** Request parameters of one object: path and query, or an error *)

Inductive batch_params :=
| BatchRequest (path : string) (query : dict pyval)
| BatchError (error : string) (status : Z).

Definition _normalize_batch_object_ids (object_ids : list pyval) : list string :=
  List.filter nonempty (List.map str object_ids).

Definition _resolve_storage_nodes (storage : ProxmoxStorage) : string :=
  strip (split_first "," (storage_nodes storage)).

Definition cluster_name_of (c : option Cluster) : string :=
  match c with Some c => cluster_name c | None => "" end.

(** [{"cluster_name": ..., ...}] of texts *)
Definition text_params (l : list (string * string)) : dict pyval :=
  List.map (fun kv => (fst kv, VStr (snd kv))) l.

Definition any_empty (l : list string) : bool := existsb is_empty l.

Definition _resolve_vm_batch_params (nb : netbox) (vm : VirtualMachine) : batch_params :=
  let cluster_name := resolve_vm_cluster_name nb vm in
  let node := resolve_vm_node vm in
  let vm_type := resolve_vm_type vm in
  let vmid := resolve_vm_vmid vm in
  if any_empty [cluster_name; node; vmid] then BatchError "Missing VM sync context." 422
  else BatchRequest "sync/individual/vm"
         (text_params [ ("cluster_name", cluster_name); ("node", node); ("type", vm_type);
                        ("vmid", vmid) ]).

Definition _resolve_vm_backup_batch_params (backup : VMBackup) : batch_params :=
  match backup_proxmox_storage backup, backup_virtual_machine backup with
  | Some storage_obj, Some vm_obj =>
      let cluster_name := cluster_name_of (storage_cluster storage_obj) in
      let node := str_or (_resolve_storage_nodes storage_obj) (resolve_vm_node vm_obj) in
      let vmid := str_or (int_text (backup_vmid backup)) (resolve_vm_vmid vm_obj) in
      let volume_id := backup_volume_id backup in
      let storage := str_or (backup_storage backup) (storage_name storage_obj) in
      if any_empty [cluster_name; node; vmid; storage; volume_id]
      then BatchError "Missing backup sync context." 422
      else BatchRequest "sync/individual/backup"
             (text_params [ ("cluster_name", cluster_name); ("node", node); ("storage", storage);
                            ("vmid", vmid); ("volid", volume_id) ])
  | _, _ => BatchError "Missing backup sync context." 422
  end.

Definition _resolve_vm_snapshot_batch_params (nb : netbox) (snapshot : VMSnapshot) : batch_params :=
  match snapshot_virtual_machine snapshot with
  | None => BatchError "Missing snapshot sync context." 422
  | Some vm_obj =>
      let cluster_name := resolve_vm_cluster_name nb vm_obj in
      let node := str_or (snapshot_node snapshot) (resolve_vm_node vm_obj) in
      let subtype := lower (strip (snapshot_subtype snapshot)) in
      let vm_type :=
        if mem_str subtype ["qemu"; "lxc"] then subtype else resolve_known_vm_type vm_obj in
      let vmid := str_or (int_text (snapshot_vmid snapshot)) (resolve_vm_vmid vm_obj) in
      let name := snapshot_name snapshot in
      if any_empty [cluster_name; node; vm_type; vmid; name]
      then BatchError "Missing snapshot sync context." 422
      else
        let query :=
          text_params [ ("cluster_name", cluster_name); ("node", node); ("type", vm_type);
                        ("vmid", vmid); ("snapshot_name", name) ] in
        BatchRequest "sync/individual/snapshot"
          match snapshot_proxmox_storage snapshot with
          | Some storage =>
              if nonempty (storage_name storage)
              then dset "storage_name" (VStr (storage_name storage)) query else query
          | None => query
          end
  end.

Definition _resolve_storage_batch_params (storage : ProxmoxStorage) : batch_params :=
  let cluster_name := cluster_name_of (storage_cluster storage) in
  if any_empty [cluster_name; storage_name storage]
  then BatchError "Missing storage sync context." 422
  else BatchRequest "sync/individual/storage"
         (text_params [("cluster_name", cluster_name); ("storage_name", storage_name storage)]).

Definition _resolve_task_history_batch_params (nb : netbox) (task : VMTaskHistory) : batch_params :=
  match task_virtual_machine task with
  | None => BatchError "Missing task-history sync context." 422
  | Some vm_obj =>
      let node := str_or (task_node task) (resolve_vm_node vm_obj) in
      let stored := lower (strip (task_vm_type task)) in
      let vm_type :=
        if mem_str stored ["qemu"; "lxc"] then stored else resolve_known_vm_type vm_obj in
      let vmid := resolve_vm_vmid vm_obj in
      let upid := task_upid task in
      let cluster_name := resolve_vm_cluster_name nb vm_obj in
      if is_empty vm_type then
        BatchError ("Task history '" +:+ str_or upid (pretty (task_pk task)) +:+
                    "' has unsupported stored VM type " +:+ repr_str (task_vm_type task) +:+
                    "; expected qemu or lxc, and no valid type could " +:+
                    "be derived from its linked virtual machine.") 422
      else if any_empty [node; vmid] then BatchError "Missing task-history sync context." 422
      else
        let query := text_params [("node", node); ("type", vm_type); ("vmid", vmid)] in
        let query := if nonempty upid then dset "upid" (VStr upid) query else query in
        BatchRequest "sync/individual/task-history"
          (if nonempty cluster_name then dset "cluster_name" (VStr cluster_name) query else query)
  end.

(** ** The endpoint context of a VM is consistent *)

Lemma positive_int_some (z : option Z) (n : Z) : _positive_int z = Some n -> z = Some n /\ 0 < n.
Proof.
  unfold _positive_int. destruct z as [m|]; [|done].
  destruct (Z.ltb_spec 0 m); [|done]. by intros [= <-].
Qed.

(** the endpoint a virtual machine's typed state resolves to is
    unambiguous: whenever it is returned, the state row belongs to this very
    VM, the endpoint row and its foreign key agree and the endpoint is
    enabled, the ids are positive, and every linked cluster or node row
    belongs to the same endpoint. *)
Theorem vm_endpoint_context_consistent (vm : VirtualMachine) (endpoint_id vmid : Z)
  (vm_type : string) :
  resolve_vm_endpoint_context vm = Some (endpoint_id, vmid, vm_type) ->
  0 < vmid /\ 0 < endpoint_id /\ vm_type = resolve_vm_type vm /\
  exists ss, vm_sync_state vm = Some ss /\
    ss_virtual_machine_id ss = Some (vm_pk vm) /\ ss_proxmox_vm_id ss = Some vmid /\
    ss_endpoint_id ss = Some endpoint_id /\ ss_endpoint ss = Some (endpoint_id, true) /\
    (forall r, ss_proxmox_cluster ss = Some r -> linked_endpoint_id r = Some endpoint_id) /\
    (forall r, ss_proxmox_node ss = Some r -> linked_endpoint_id r = Some endpoint_id).
Proof.
  unfold resolve_vm_endpoint_context. destruct (vm_sync_state vm) as [ss|]; [|done].
  destruct (_positive_int (Some (vm_pk vm))) as [vmi|] eqn:Evm; [|done].
  destruct (ss_endpoint ss) as [[epk enabled]|] eqn:Eep; [|done].
  destruct (_positive_int (ss_endpoint_id ss)) as [eid|] eqn:Eid; [|done].
  destruct (_positive_int (ss_proxmox_vm_id ss)) as [vid|] eqn:Evid; [|done].
  destruct (_ && _)%bool eqn:Hall; [|done]. intros [= -> -> <-].
  rewrite !andb_true_iff, !bool_decide_eq_true in Hall. destruct Hall as [[[[H1 H2] ->] H3] H4].
  apply positive_int_some in Evm as [[= <-] _]. apply positive_int_some in Eid as [Eid ?].
  apply positive_int_some in Evid as [Evid ?]. apply positive_int_some in H1 as [H1 _].
  apply positive_int_some in H2 as [[= ->] _].
  do 3 (split; [done|]). exists ss. do 5 (split; [done|]).
  split; intros r Hr; rewrite Hr in *; simpl in *.
  - apply bool_decide_eq_true in H3. by apply positive_int_some in H3 as [? _].
  - apply bool_decide_eq_true in H4. by apply positive_int_some in H4 as [? _].
Qed.

Definition sample_cluster : Cluster :=
  {| cluster_pk := 3; cluster_name := "lab"; cluster_tenant := Some "acme" |}.

Definition sample_vm : VirtualMachine :=
  {| vm_pk := 12; vm_name := "web01"; vm_cluster := Some sample_cluster;
     vm_device_name := Some "pve1.example.org"; vm_type_slug := None;
     vm_sync_state := Some
       {| ss_virtual_machine_id := Some 12; ss_endpoint := Some (7, true);
          ss_endpoint_id := Some 7;
          ss_proxmox_cluster := Some {| linked_name := "lab"; linked_endpoint_id := Some 7 |};
          ss_proxmox_cluster_name := ""; ss_proxmox_node := None; ss_proxmox_node_name := "pve1";
          ss_proxmox_vm_type := "QEMU "; ss_proxmox_vm_id := Some 100 |};
     vm_tenant := None; vm_tags := ["cloud-customer"; "tenant-acme"] |}.

Lemma vm_endpoint_context_consistent_witness :
  resolve_vm_endpoint_context sample_vm = Some (7, 100, "qemu") /\ 0 < 100.
Proof.
  split; [vm_compute; reflexivity|].
  apply (vm_endpoint_context_consistent sample_vm 7 100 "qemu"). vm_compute. reflexivity.
Defined.
