(* ===== verification/TenantAssignment.v ===== *)
(** * Tenant assignment after a VM sync (services/tenant_assignment.py)

    Three resolvers run in order after a selected VM was synchronised: the
    operator's name patterns, the tag pair, the tenant of the cluster.
    Regular-expression search is the standard library's; it is a parameter. *)
From Stdlib Require Import ZArith Lia String Ascii.
From stdpp Require Import base list sets strings pretty.
From S2P Require Import Prelude SyncTypes SyncModes VmObjects.

(** The tenancy tables. *)
Record Tenant := { tenant_slug : string; tenant_name : string; tenant_group : option string }.
Record tenancy := { tenants : list Tenant; tenant_groups : list string }.

Definition find_tenant (slug : string) (tn : tenancy) : option Tenant :=
  List.find (fun t => String.eqb (tenant_slug t) slug) (tenants tn).

(** The result of a resolver: whether it assigned, the VM and the tables. *)
Abbreviation assigned := (bool * VirtualMachine * tenancy)%type.

(** [vm.tenant = tenant; vm.save(update_fields=["tenant"])] *)
Definition set_tenant (vm : VirtualMachine) (slug : string) : VirtualMachine :=
  {| vm_pk := vm_pk vm; vm_name := vm_name vm; vm_cluster := vm_cluster vm;
     vm_device_name := vm_device_name vm; vm_type_slug := vm_type_slug vm;
     vm_sync_state := vm_sync_state vm; vm_tenant := Some slug; vm_tags := vm_tags vm |}.

Definition CLOUD_CUSTOMER_MARKER_SLUG := "cloud-customer".
Definition TENANT_TAG_PREFIX := "tenant-".
Definition CLOUD_CUSTOMERS_GROUP_SLUG := "cloud-customers".

Definition _endpoint_id_for_vm (nb : netbox) (vm : VirtualMachine) : option Z :=
  match vm_cluster vm with
  | None => None
  | Some cluster =>
      match List.find (fun c => bool_decide (netbox_cluster_id c = Some (cluster_pk cluster)))
              (nb_clusters nb) with
      | None => None
      | Some c => cluster_endpoint_id c
      end
  end.

(** The id as the settings resolution takes it. *)
Definition endpoint_id_text (nb : netbox) (vm : VirtualMachine) : option string :=
  option_map pretty (_endpoint_id_for_vm nb vm).

Section Tenants.
(** [re.search(pattern, name)]: whether it matches, [None] for [re.error]. *)
Variable re_search : string -> string -> option bool.

Fixpoint first_matching_rule (rules : list (dict pyval)) (vm : VirtualMachine) (tn : tenancy) :
  assigned :=
  match rules with
  | [] => (false, vm, tn)
  | rule :: rest =>
      match get "pattern" rule, get "tenant_slug" rule with
      | VStr pattern, VStr slug =>
          match re_search pattern (vm_name vm) with
          | Some true =>
              match find_tenant slug tn with
              | None => (false, vm, tn)
              | Some tenant => (true, set_tenant vm (tenant_slug tenant), tn)
              end
          | _ => first_matching_rule rest vm tn
          end
      | _, _ => first_matching_rule rest vm tn
      end
  end.

Definition maybe_assign_tenant_from_regex (nb : netbox) (vm : VirtualMachine) (tn : tenancy) :
  assigned :=
  let '(enabled, rules) := effective_tenant_regex_for_endpoint nb (endpoint_id_text nb vm) in
  if (negb enabled || match rules with [] => true | _ => false end)%bool then (false, vm, tn)
  else match vm_tenant vm with
       | Some _ => (false, vm, tn)
       | None => first_matching_rule rules vm tn
       end.

Definition _vm_tag_slugs (vm : VirtualMachine) : list string :=
  List.filter nonempty (List.map strip (vm_tags vm)).

(** [str.title()] on ASCII text. *)
Definition is_letter (c : ascii) : bool :=
  let n := nat_of_ascii (lower_char c) in (Nat.leb 97 n && Nat.leb n 122)%bool.

Definition upper_char (c : ascii) : ascii :=
  let n := nat_of_ascii c in
  if (Nat.leb 97 n && Nat.leb n 122)%bool then ascii_of_nat (n - 32)%nat else c.

Fixpoint title_from (word : bool) (s : string) : string :=
  match s with
  | EmptyString => EmptyString
  | String c s' =>
      String (if word then lower_char c else upper_char c) (title_from (is_letter c) s')
  end.

Definition title (s : string) : string := title_from false s.

(** [get_or_create] on both tables. *)
Definition ensure_tenant (slug : string) (tn : tenancy) : tenancy :=
  match find_tenant slug tn with
  | Some _ => tn
  | None =>
      {| tenants := tenants tn ++ [{| tenant_slug := slug; tenant_name := title slug;
                                      tenant_group := Some CLOUD_CUSTOMERS_GROUP_SLUG |}];
         tenant_groups :=
           if mem_str CLOUD_CUSTOMERS_GROUP_SLUG (tenant_groups tn) then tenant_groups tn
           else tenant_groups tn ++ [CLOUD_CUSTOMERS_GROUP_SLUG] |}
  end.

Definition maybe_assign_tenant_from_tags (nb : netbox) (vm : VirtualMachine) (tn : tenancy) :
  assigned :=
  if negb (effective_tenant_tag_assignment_for_endpoint nb (endpoint_id_text nb vm))
  then (false, vm, tn)
  else match vm_tenant vm with
       | Some _ => (false, vm, tn)
       | None =>
           let tag_slugs := _vm_tag_slugs vm in
           if negb (mem_str CLOUD_CUSTOMER_MARKER_SLUG tag_slugs) then (false, vm, tn)
           else match List.filter (startswith TENANT_TAG_PREFIX) tag_slugs with
                | [tag] =>
                    let slug := drop_str (String.length TENANT_TAG_PREFIX) tag in
                    if is_empty slug then (false, vm, tn)
                    else (true, set_tenant vm slug, ensure_tenant slug tn)
                | _ => (false, vm, tn)
                end
       end.

Definition maybe_assign_tenant_from_cluster (nb : netbox) (vm : VirtualMachine) (tn : tenancy) :
  assigned :=
  if negb (effective_tenant_from_cluster_for_endpoint nb (endpoint_id_text nb vm))
  then (false, vm, tn)
  else match vm_tenant vm with
       | Some _ => (false, vm, tn)
       | None =>
           match vm_cluster vm with
           | Some cluster =>
               match cluster_tenant cluster with
               | Some slug => (true, set_tenant vm slug, tn)
               | None => (false, vm, tn)
               end
           | None => (false, vm, tn)
           end
       end.

(** The three resolvers, as the selected-object run calls them. *)
Definition assign_tenant (nb : netbox) (vm : VirtualMachine) (tn : tenancy) :
  VirtualMachine * tenancy :=
  let '(_, vm, tn) := maybe_assign_tenant_from_regex nb vm tn in
  let '(_, vm, tn) := maybe_assign_tenant_from_tags nb vm tn in
  let '(_, vm, tn) := maybe_assign_tenant_from_cluster nb vm tn in
  (vm, tn).

(** ** Lemmas *)

(** What a resolver may do: leave everything, or fill an empty tenant with one
    that is in the table afterwards. *)
Definition fills (vm : VirtualMachine) (tn : tenancy) (r : assigned) : Prop :=
  let '(b, vm', tn') := r in
  (b = false /\ vm' = vm /\ tn' = tn) \/
  (b = true /\ vm_tenant vm = None /\
   exists slug, vm' = set_tenant vm slug /\ find_tenant slug tn' <> None /\
     (forall t, t ∈ tenants tn -> t ∈ tenants tn')).

Lemma find_tenant_slug (slug : string) (tn : tenancy) (t : Tenant) :
  find_tenant slug tn = Some t -> tenant_slug t = slug.
Proof. intros [_ H]%find_some. by apply String.eqb_eq. Qed.

Lemma first_matching_rule_fills rules vm tn :
  vm_tenant vm = None -> fills vm tn (first_matching_rule rules vm tn).
Proof.
  intros Hvm. induction rules as [|rule rules IH]; simpl; [by left|].
  repeat case_match; try exact IH; [right|by left].
  split; [done|]. split; [done|]. eexists. split; [done|]. split; [|done].
  match goal with H : find_tenant _ _ = Some _ |- _ =>
    pose proof (find_tenant_slug _ _ _ H) as Hs; rewrite Hs; congruence end.
Qed.

Lemma regex_fills nb vm tn : fills vm tn (maybe_assign_tenant_from_regex nb vm tn).
Proof.
  unfold maybe_assign_tenant_from_regex.
  destruct (effective_tenant_regex_for_endpoint _ _) as [enabled rules].
  destruct (_ || _)%bool; [by left|]. destruct (vm_tenant vm) eqn:Hvm; [by left|].
  by apply first_matching_rule_fills.
Qed.

Lemma ensure_tenant_spec (slug : string) (tn : tenancy) :
  find_tenant slug (ensure_tenant slug tn) <> None /\
  (forall t, t ∈ tenants tn -> t ∈ tenants (ensure_tenant slug tn)).
Proof.
  unfold ensure_tenant. destruct (find_tenant slug tn) as [t|] eqn:E; [split; [congruence|done]|].
  unfold find_tenant in *. cbn [tenants]. split; [|intros t Ht; apply elem_of_app; by left].
  revert E. induction (tenants tn) as [|t ts IH]; simpl; [by rewrite String.eqb_refl|].
  by destruct (String.eqb (tenant_slug t) slug).
Qed.

Lemma tags_fills nb vm tn : fills vm tn (maybe_assign_tenant_from_tags nb vm tn).
Proof.
  unfold maybe_assign_tenant_from_tags. destruct (negb _); [by left|].
  destruct (vm_tenant vm) eqn:Hvm; [by left|]. destruct (negb _); [by left|].
  destruct (List.filter _ _) as [|tag [|]]; [by left| |by left].
  destruct (is_empty _); [by left|]. right. do 2 (split; [done|]).
  eexists. split; [done|]. apply ensure_tenant_spec.
Qed.

(** ** Properties *)

(** an existing tenant is never overwritten. On a VM that has a tenant
    the whole chain changes nothing; on one that has none it changes at most
    the tenant of the VM, and the tables only grow. *)
Theorem tenant_never_overwritten (nb : netbox) (vm : VirtualMachine) (tn : tenancy) :
  (vm_tenant vm <> None -> assign_tenant nb vm tn = (vm, tn)) /\
  (fst (assign_tenant nb vm tn) = vm \/
   exists slug, fst (assign_tenant nb vm tn) = set_tenant vm slug) /\
  (forall t, t ∈ tenants tn -> t ∈ tenants (snd (assign_tenant nb vm tn))).
Proof.
  assert (Hkeep : forall v t, vm_tenant v <> None ->
    maybe_assign_tenant_from_tags nb v t = (false, v, t) /\
    maybe_assign_tenant_from_cluster nb v t = (false, v, t)).
  { intros v t Hv. unfold maybe_assign_tenant_from_tags, maybe_assign_tenant_from_cluster.
    destruct (vm_tenant v); [|done]. by split; destruct (negb _). }
  unfold assign_tenant. pose proof (regex_fills nb vm tn) as Hr.
  destruct (maybe_assign_tenant_from_regex nb vm tn) as [[b1 vm1] tn1].
  destruct Hr as [(_ & -> & ->)|(_ & Hn & slug & -> & _ & Ht)]; cycle 1.
  { destruct (Hkeep (set_tenant vm slug) tn1) as [-> ->]; [done|]. naive_solver. }
  pose proof (tags_fills nb vm tn) as Hg.
  destruct (maybe_assign_tenant_from_tags nb vm tn) as [[b2 vm2] tn2].
  destruct Hg as [(_ & -> & ->)|(_ & Hn & slug & -> & _ & Ht)]; cycle 1.
  { destruct (Hkeep (set_tenant vm slug) tn2) as [_ ->]; [done|]. naive_solver. }
  unfold maybe_assign_tenant_from_cluster.
  destruct (negb _), (vm_tenant vm), (vm_cluster vm) as [c|]; try (by auto);
    destruct (cluster_tenant c); naive_solver.
Qed.

End Tenants.
