(* ===== verification/BatchSync.v ===== *)
(** * Runs over selected objects (sync_stages.py, [_run_batch_selected_sync])

    Every selected object is synchronised by its own call tree, pinned to the
    backend id of the endpoint that owns the object's cluster.  Ownership has
    three outcomes: one claimant pins, two or more refuse, and none falls back
    to the scope of the whole run only while that scope names one endpoint.

    The code gathers the objects concurrently, under a semaphore; the model
    runs them one after the other, in the order of the results.  The theorem
    on one object holds in any world, so whatever other objects did before. *)
From Stdlib Require Import ZArith Lia String Ascii.
From stdpp Require Import base list sets strings pretty.
From S2P Require Import Prelude SyncTypes SyncModes Effects Deadline StageExec EndpointScope IndividualSync VmObjects TenantAssignment.

Inductive batch_object :=
| OVirtualMachine (vm : VirtualMachine)
| OBackup (backup : VMBackup)
| OSnapshot (snapshot : VMSnapshot)
| OStorage (storage : ProxmoxStorage)
| OTaskHistory (task : VMTaskHistory).

Definition object_pk (o : batch_object) : Z :=
  match o with
  | OVirtualMachine vm => vm_pk vm
  | OBackup b => backup_pk b
  | OSnapshot s => snapshot_pk s
  | OStorage s => storage_pk s
  | OTaskHistory t => task_pk t
  end.

(** The database and the clock-free services the run uses. *)
Class BatchEnv (E : Type) := {
  be_netbox : E -> netbox;
  be_virtual_machines : E -> list VirtualMachine;
  be_backups : E -> list VMBackup;
  be_snapshots : E -> list VMSnapshot;
  be_storages : E -> list ProxmoxStorage;
  be_task_histories : E -> list VMTaskHistory;
  be_tenancy : E -> tenancy;
  (* obj.refresh_from_db() *)
  be_refresh : VirtualMachine -> E -> VirtualMachine;
  (* saving the tenant fields *)
  be_save : VirtualMachine -> tenancy -> E -> E
}.

(** ** Ownership *)

(** [int(value) if value else None] *)
Definition cluster_id_of (c : option Cluster) : option Z :=
  match c with Some c => if cluster_pk c =? 0 then None else Some (cluster_pk c) | None => None end.

Definition or_else {A} (a b : option A) : option A := match a with Some _ => a | None => b end.

Definition vm_cluster_id (vm : option VirtualMachine) : option Z :=
  match vm with Some vm => cluster_id_of (vm_cluster vm) | None => None end.
Definition storage_cluster_id (s : option ProxmoxStorage) : option Z :=
  match s with Some s => cluster_id_of (storage_cluster s) | None => None end.

Definition _batch_object_core_cluster_id (o : batch_object) : option Z :=
  match o with
  | OVirtualMachine vm => cluster_id_of (vm_cluster vm)
  | OStorage s => cluster_id_of (storage_cluster s)
  | OBackup b =>
      or_else (storage_cluster_id (backup_proxmox_storage b))
              (vm_cluster_id (backup_virtual_machine b))
  | OSnapshot s =>
      or_else (vm_cluster_id (snapshot_virtual_machine s))
              (storage_cluster_id (snapshot_proxmox_storage s))
  | OTaskHistory t => vm_cluster_id (task_virtual_machine t)
  end.

(** The claimants of one core cluster, each once: the endpoints that a
    reflected cluster bound to it was reflected from. *)
Definition claimants (nb : netbox) (cluster_id : Z) : list string :=
  dedup []
    (flat_map
       (fun c => match cluster_endpoint_id c with
                 | Some e => if bool_decide (netbox_cluster_id c = Some cluster_id)
                             then [pretty e] else []
                 | None => []
                 end) (nb_clusters nb)).

(** The map from cluster to claimants; a cluster nobody claims has no entry. *)
Definition _owner_endpoint_pks_by_cluster_id (nb : netbox) (cluster_ids : list Z) :
  Z -> option (list string) :=
  fun cluster_id =>
    if bool_decide (cluster_id ∈ cluster_ids) then
      match claimants nb cluster_id with [] => None | pks => Some pks end
    else None.

Definition _batch_object_owner_endpoint_pks (nb : netbox) (o : batch_object) : list string :=
  match _batch_object_core_cluster_id o with
  | None => []
  | Some cid =>
      match _owner_endpoint_pks_by_cluster_id nb [cid] cid with Some pks => pks | None => [] end
  end.

(** [sorted(owner_pks)] *)
Fixpoint insert_text (x : string) (l : list string) : list string :=
  match l with
  | [] => [x]
  | y :: l' => if String.leb x y then x :: l else y :: insert_text x l'
  end.
Definition sorted_text (l : list string) : list string := foldr insert_text [] l.

(** ** One object *)

Record batch_item := {
  item_object_id : string;
  item_status : Z;
  item_error : pyval;
  item_response : option (dict pyval);
  item_dependencies : list pyval
}.

Definition refused (object_id : string) (status : Z) (error : string) : batch_item :=
  {| item_object_id := object_id; item_status := status; item_error := VStr error;
     item_response := None; item_dependencies := [] |}.

Definition ambiguous_owner (owner_pks : list string) : string :=
  "This object's Proxmox cluster is claimed by more than " +:+
  "one Proxmox endpoint (ids " +:+ join ", " (sorted_text owner_pks) +:+ "), so the " +:+
  "endpoint that owns it cannot be determined and it was " +:+
  "not synced. Syncing it against every claimant could " +:+
  "match another cluster/node/VMID with the same name. " +:+
  "Remove the duplicate reflected cluster, then retry.".

Definition owner_out_of_scope (owner_pk : string) : string :=
  "The Proxmox endpoint this object belongs to (id " +:+ owner_pk +:+
  ") is not in this run's endpoint scope, so it was not synced. Syncing it against " +:+
  "the remaining endpoints could match another cluster/node/VMID with the same name.".

Definition unknown_owner (n : nat) : string :=
  "The Proxmox endpoint this object belongs to could not " +:+
  "be determined — no reflected cluster names an owner — " +:+
  "and this run spans " +:+ pretty n +:+ " Proxmox " +:+
  "endpoints, so it was not synced. Syncing it against " +:+
  "all of them could match another cluster/node/VMID " +:+
  "with the same name. Run a staged sync first so the " +:+
  "cluster is reflected, or retry with a single endpoint selected.".

(** The ids of the run's scope. *)
Definition scope_wire_ids (proxmox_wire_endpoint_ids : option string) : list string :=
  List.filter nonempty (List.map strip (split "," (opt_str proxmox_wire_endpoint_ids))).

(** The scope an object is synchronised with, or the text of its refusal. *)
Definition object_scope (owner_pks : list string) (wire_ids : option string)
  (wire_by_pk : dict string) : option string + string :=
  match owner_pks with
  | _ :: _ :: _ => inr (ambiguous_owner owner_pks)
  | [owner_pk] =>
      match dget owner_pk wire_by_pk with
      | Some (String _ _ as pinned) => inl (Some pinned)
      | _ => inr (owner_out_of_scope owner_pk)
      end
  | [] =>
      let n := length (scope_wire_ids wire_ids) in
      if Nat.ltb 1 n then inr (unknown_owner n) else inl wire_ids
  end.

Definition object_params (nb : netbox) (o : batch_object) : batch_params :=
  match o with
  | OVirtualMachine vm => _resolve_vm_batch_params nb vm
  | OBackup b => _resolve_vm_backup_batch_params b
  | OSnapshot s => _resolve_vm_snapshot_batch_params nb s
  | OStorage s => _resolve_storage_batch_params s
  | OTaskHistory t => _resolve_task_history_batch_params nb t
  end.

Section Batch.
Context {E : Type} `{!HttpEnv E, !BatchEnv E}.
Variable re_search : string -> string -> option bool.

Definition nb_rows : M (ind_world E) netbox := gets (fun w => be_netbox (ienv w)).

(** [_post_sync_assign] *)
Definition _post_sync_assign (vm : VirtualMachine) : M (ind_world E) () := fun w =>
  let e := ienv w in
  let '(vm', tn') := assign_tenant re_search (be_netbox e) (be_refresh vm e) (be_tenancy e) in
  (Ok (), {| ienv := be_save vm' tn' e; made := made w |}).

Definition is_2xx (status : Z) : bool := ((200 <=? status) && (status <? 300))%bool.

Definition run_one (object_by_id : dict batch_object) (owner_of : string -> list string)
  (schema : option string) (fastapi : option Z) (wire_ids : option string)
  (wire_by_pk : dict string) (object_id : string) : M (ind_world E) batch_item :=
  match dget object_id object_by_id with
  | None => mret (refused object_id 404 "Selected object was not found.")
  | Some o =>
      match object_scope (owner_of object_id) wire_ids wire_by_pk with
      | inr error => mret (refused object_id 424 error)
      | inl scope =>
          nb ← nb_rows;
          match object_params nb o with
          | BatchError error status => mret (refused object_id status error)
          | BatchRequest path query =>
              let schema := if is_empty (opt_str schema) then None else schema in
              let query := match schema with
                           | Some s => dset "netbox_branch_schema_id" (VStr s) query
                           | None => query
                           end in
              let query := match scope with
                           | Some (String _ _ as s) => dset "proxmox_endpoint_ids" (VStr s) query
                           | _ => query
                           end in
              r ← sync_individual_with_dependencies path query schema fastapi scope;
              _ ← match o with
                  | OVirtualMachine vm =>
                      if is_2xx (s_status r) then _post_sync_assign vm else mret ()
                  | _ => mret ()
                  end;
              mret {| item_object_id := object_id; item_status := s_status r;
                      item_error := get "error" (s_response r);
                      item_response := Some (s_response r);
                      item_dependencies := s_dependencies r |}
          end
      end
  end.

(** ** The run *)

Record batch_result := {
  batch_object_type : string;
  batch_object_label : string;
  total : nat;
  succeeded : nat;
  failed : nat;
  results : list batch_item
}.

(** [model_map.get(batch_object_type)] *)
Definition queryset (object_type : string) (e : E) : option (list batch_object) :=
  if String.eqb object_type "virtual-machine"
  then Some (List.map OVirtualMachine (be_virtual_machines e))
  else if String.eqb object_type "vm-backup" then Some (List.map OBackup (be_backups e))
  else if String.eqb object_type "vm-snapshot" then Some (List.map OSnapshot (be_snapshots e))
  else if String.eqb object_type "proxmox-storage" then Some (List.map OStorage (be_storages e))
  else if String.eqb object_type "vm-task-history"
  then Some (List.map OTaskHistory (be_task_histories e))
  else None.

Definition objects_by_id (objects : list batch_object) (pks : list Z) : dict batch_object :=
  fold_left (fun d o => dset (pretty (object_pk o)) o d)
    (List.filter (fun o => bool_decide (object_pk o ∈ pks)) objects) [].

(** The claimants of every fetched object, from one query. *)
Definition owners_by_id (nb : netbox) (object_by_id : dict batch_object)
  (wire_by_pk : dict string) (object_id : string) : list string :=
  match wire_by_pk with
  | [] => []
  | _ =>
      let cluster_ids :=
        flat_map (fun kv => match _batch_object_core_cluster_id (snd kv) with
                            | Some c => [c] | None => [] end) object_by_id in
      match dget object_id object_by_id with
      | None => []
      | Some o =>
          match _batch_object_core_cluster_id o with
          | None => []
          | Some c =>
              match _owner_endpoint_pks_by_cluster_id nb cluster_ids c with
              | Some pks => pks
              | None => []
              end
          end
      end
  end.

Definition _run_batch_selected_sync (object_type : string) (object_ids : list pyval)
  (schema : option string) (fastapi : option Z) (wire_ids : option string)
  (wire_by_pk : dict string) : M (ind_world E) batch_result :=
  found ← gets (fun w => queryset object_type (ienv w));
  match found with
  | None => raise (ValueError ("Unsupported batch object type: " +:+ repr_str object_type))
  | Some objects =>
      let ids := _normalize_batch_object_ids object_ids in
      pks ← lift (ints_of ids);
      let object_by_id := objects_by_id objects pks in
      nb ← nb_rows;
      items ← for_each ids []
                (fun object_id acc =>
                   item ← run_one object_by_id (owners_by_id nb object_by_id wire_by_pk) schema
                            fastapi wire_ids wire_by_pk object_id;
                   mret (acc ++ [item]));
      let ok := length (List.filter (fun i => item_status i <? 400) items) in
      mret {| batch_object_type := object_type;
              batch_object_label := title (replace "-" " " object_type);
              total := length items; succeeded := ok; failed := (length items - ok)%nat;
              results := items |}
  end.

(** ** Lemmas *)

Lemma post_sync_assign_keeps P c0 vm : keeps (made_since P c0) (_post_sync_assign vm).
Proof.
  intros w Hw. unfold _post_sync_assign. destruct (assign_tenant _ _ _ _). exact Hw.
Qed.

Lemma run_one_calls by_id owner_of schema fastapi wire_ids by_pk id c0 scope :
  object_scope (owner_of id) wire_ids by_pk = inl scope ->
  keeps (made_since (carries (if is_empty (opt_str schema) then None else schema) fastapi scope) c0)
    (run_one by_id owner_of schema fastapi wire_ids by_pk id).
Proof.
  intros Hs. unfold run_one, nb_rows. rewrite Hs.
  destruct (dget id by_id) as [o|]; [|apply keeps_ret].
  apply keeps_bind; [apply keeps_gets|]. intros nb.
  destruct (object_params nb o) as [path query|]; [|apply keeps_ret].
  apply keeps_bind; [apply sync_with_dependencies_keeps|]. intros r.
  apply keeps_bind; [|intros; apply keeps_ret].
  destruct o; try apply keeps_ret. destruct (is_2xx _); [apply post_sync_assign_keeps|apply keeps_ret].
Qed.

Lemma run_one_refused by_id owner_of schema fastapi wire_ids by_pk id error (w : ind_world E) :
  object_scope (owner_of id) wire_ids by_pk = inr error ->
  made (snd (run_one by_id owner_of schema fastapi wire_ids by_pk id w)) = made w.
Proof. intros Hs. unfold run_one. rewrite Hs. by destruct (dget id by_id). Qed.

Lemma run_one_id by_id owner_of schema fastapi wire_ids by_pk id :
  returns (run_one by_id owner_of schema fastapi wire_ids by_pk id)
    (fun item => item_object_id item = id).
Proof.
  unfold run_one. destruct (dget id by_id); [|by apply returns_ret].
  destruct (object_scope _ _ _); [|by apply returns_ret].
  apply returns_bind_any. intros nb. destruct (object_params nb _); [|by apply returns_ret].
  do 2 (apply returns_bind_any; intros ?). by apply returns_ret.
Qed.

(** *** Who owns an object *)

(** The core cluster that an object hangs off: its own, that of its machine, or
    that of its storage; a backup goes by its storage first, a snapshot by its
    machine. *)
Definition in_cluster (c : option Cluster) (cid : Z) : Prop := exists cl, c = Some cl /\ cluster_pk cl = cid /\ cid <> 0.
Definition vm_in (vm : option VirtualMachine) (cid : Z) : Prop := exists v, vm = Some v /\ in_cluster (vm_cluster v) cid.
Definition storage_in (st : option ProxmoxStorage) (cid : Z) : Prop := exists s, st = Some s /\ in_cluster (storage_cluster s) cid.
Definition first_of (P Q : Z -> Prop) (cid : Z) : Prop := P cid \/ ((forall c, ~ P c) /\ Q cid).

Definition hangs_off (o : batch_object) (cid : Z) : Prop :=
  match o with
  | OVirtualMachine vm => in_cluster (vm_cluster vm) cid
  | OStorage s => in_cluster (storage_cluster s) cid
  | OBackup b => first_of (storage_in (backup_proxmox_storage b)) (vm_in (backup_virtual_machine b)) cid
  | OSnapshot s => first_of (vm_in (snapshot_virtual_machine s)) (storage_in (snapshot_proxmox_storage s)) cid
  | OTaskHistory t => vm_in (task_virtual_machine t) cid
  end.

(** Endpoint [e] claims an object when a cluster that was reflected from it is
    bound to the object's core cluster. *)
Definition claims (nb : netbox) (o : batch_object) (e : Z) : Prop :=
  exists c cid, c ∈ nb_clusters nb /\ cluster_endpoint_id c = Some e /\ netbox_cluster_id c = Some cid /\ hangs_off o cid.

Lemma cluster_id_spec (c : option Cluster) (cid : Z) : cluster_id_of c = Some cid <-> in_cluster c cid.
Proof.
  unfold cluster_id_of, in_cluster. split.
  - destruct c as [cl|]; [|done]. destruct (Z.eqb_spec (cluster_pk cl) 0); [done|]. intros [= <-]. eauto.
  - intros (cl & -> & <- & Hne). by rewrite (proj2 (Z.eqb_neq _ _) Hne).
Qed.

Lemma vm_cluster_spec (vm : option VirtualMachine) (cid : Z) : vm_cluster_id vm = Some cid <-> vm_in vm cid.
Proof.
  unfold vm_cluster_id, vm_in. destruct vm as [v|]; [rewrite cluster_id_spec|]; [|by split; [|intros (? & [=] & _)]].
  split; [eauto|]. by intros (v' & [= <-] & H).
Qed.

Lemma storage_cluster_spec (st : option ProxmoxStorage) (cid : Z) : storage_cluster_id st = Some cid <-> storage_in st cid.
Proof.
  unfold storage_cluster_id, storage_in. destruct st as [v|]; [rewrite cluster_id_spec|]; [|by split; [|intros (? & [=] & _)]].
  split; [eauto|]. by intros (v' & [= <-] & H).
Qed.

Lemma first_of_spec (a b : option Z) (P Q : Z -> Prop) (cid : Z) :
  (forall c, a = Some c <-> P c) -> (forall c, b = Some c <-> Q c) -> or_else a b = Some cid <-> first_of P Q cid.
Proof.
  intros HP HQ. unfold first_of. destruct a as [c|]; simpl.
  - split; [intros [= <-]; left; by apply HP|]. intros [H|[H _]]; [by apply HP|]. destruct (H c). by apply HP.
  - rewrite HQ. split; [intros H; right; split; [|done]; intros c Hc; by apply HP in Hc|]. intros [H|[_ H]]; [by apply HP in H|done].
Qed.

Lemma core_cluster_spec (o : batch_object) (cid : Z) : _batch_object_core_cluster_id o = Some cid <-> hangs_off o cid.
Proof.
  destruct o; simpl; [apply cluster_id_spec| | |apply cluster_id_spec|apply vm_cluster_spec]; apply first_of_spec;
    first [apply vm_cluster_spec|apply storage_cluster_spec].
Qed.

Lemma claimants_spec (nb : netbox) (cid : Z) (pk : string) :
  pk ∈ claimants nb cid <->
  exists c e, c ∈ nb_clusters nb /\ cluster_endpoint_id c = Some e /\ netbox_cluster_id c = Some cid /\ pk = pretty e.
Proof.
  unfold claimants. rewrite dedup_elem, list_elem_of_In, in_flat_map. split.
  - intros [(c & Hc & Hin) _]. destruct (cluster_endpoint_id c) as [e|] eqn:He; [|done].
    destruct (bool_decide_reflect (netbox_cluster_id c = Some cid)); [|done]. destruct Hin as [<-|[]]. exists c, e. by rewrite list_elem_of_In.
  - intros (c & e & Hc & He & Hn & ->). split; [|apply not_elem_of_nil]. exists c. rewrite <- list_elem_of_In. split; [done|].
    rewrite He, bool_decide_eq_true_2 by done. by left.
Qed.

(** The owners that the run computes for a fetched object are its claimants,
    each once. *)
Lemma owners_spec (nb : netbox) (by_id : dict batch_object) (by_pk : dict string) (id : string) (o : batch_object) :
  by_pk <> [] -> dget id by_id = Some o ->
  NoDup (owners_by_id nb by_id by_pk id) /\ forall pk, pk ∈ owners_by_id nb by_id by_pk id <-> exists e, claims nb o e /\ pk = pretty e.
Proof.
  intros Hpk Ho. unfold owners_by_id. destruct by_pk as [|kv0 by_pk]; [done|]. rewrite Ho.
  destruct (_batch_object_core_cluster_id o) as [cid|] eqn:Hc.
  - set (ids := flat_map _ by_id). assert (cid ∈ ids) as Hin.
    { apply list_elem_of_In, in_flat_map. exists (id, o). split; [by apply list_elem_of_In, dget_in|]. simpl. rewrite Hc. by left. }
    assert (match _owner_endpoint_pks_by_cluster_id nb ids cid with Some pks => pks | None => [] end = claimants nb cid) as ->.
    { unfold _owner_endpoint_pks_by_cluster_id. rewrite bool_decide_eq_true_2 by done. by destruct (claimants nb cid). }
    split; [apply dedup_nodup|]. intros pk. rewrite claimants_spec. split.
    + intros (c & e & Hcl & He & Hn & ->). exists e. split; [|done]. exists c, cid. by rewrite <- core_cluster_spec.
    + intros (e & (c & cid' & Hcl & He & Hn & Hh%core_cluster_spec) & ->). exists c, e. rewrite Hc in Hh. by injection Hh as ->.
  - split; [constructor|]. intros pk. split; [by intros ?%not_elem_of_nil|].
    intros (e & (c & cid & _ & _ & _ & Hh%core_cluster_spec) & _). congruence.
Qed.

(** Which backend id the calls for an object may carry: that of its one
    claimant, or the only one of the run for an object that nobody claims. *)
Definition pinned_scope (nb : netbox) (o : batch_object) (job : string) (by_pk : dict string) (s : string) : Prop :=
  (exists e, claims nb o e /\ (forall e', claims nb o e' -> e' = e) /\ dget (pretty e) by_pk = Some s) \/
  ((forall e, ~ claims nb o e) /\ s = job /\ (length (scope_wire_ids (Some job)) <= 1)%nat).

(** No endpoint of the run owns the object alone. *)
Definition not_syncable (nb : netbox) (o : batch_object) (by_pk : dict string) : Prop :=
  (exists e e', e <> e' /\ claims nb o e /\ claims nb o e') \/
  (exists e, claims nb o e /\ (dget (pretty e) by_pk = None \/ dget (pretty e) by_pk = Some "")).

Lemma object_scope_pinned (nb : netbox) (o : batch_object) (owners : list string) (job : string) (by_pk : dict string) :
  NoDup owners -> (forall pk, pk ∈ owners <-> exists e, claims nb o e /\ pk = pretty e) -> job <> "" ->
  match object_scope owners (Some job) by_pk with
  | inl scope => ~ not_syncable nb o by_pk /\ exists s, scope = Some s /\ s <> "" /\ pinned_scope nb o job by_pk s
  | inr _ => ~ exists s, s <> "" /\ pinned_scope nb o job by_pk s
  end.
Proof.
  intros Hnd Hown Hjob. unfold object_scope. destruct owners as [|pk [|pk' owners]].
  - assert (forall e, ~ claims nb o e) as Hno by (intros e He; apply (not_elem_of_nil (pretty e)), Hown; eauto).
    destruct (Nat.ltb_spec 1 (length (scope_wire_ids (Some job)))) as [Hn|Hn].
    + intros (s & _ & [(e & He & _)|(_ & _ & Hle)]); [by destruct (Hno e)|lia].
    + split; [intros [(e & e' & _ & He & _)|(e & He & _)]; by destruct (Hno e)|]. exists job. split; [done|]. split; [done|]. by right.
  - destruct (proj1 (Hown pk)) as (e & He & ->); [by left|].
    assert (forall e', claims nb o e' -> e' = e) as Huniq.
    { intros e' He'. assert (pretty e' ∈ [pretty e]) as Hin by (apply Hown; eauto). apply list_elem_of_singleton in Hin. by apply (inj pretty). }
    assert (dget (pretty e) by_pk = None \/ dget (pretty e) by_pk = Some "" -> ~ exists s, s <> "" /\ pinned_scope nb o job by_pk s) as Hout.
    { intros Hd (s & Hs & [(e' & He' & _ & Hd')|(Hno & _)]); [|by destruct (Hno e)]. rewrite (Huniq e' He') in Hd'. destruct Hd; congruence. }
    destruct (dget (pretty e) by_pk) as [[|a s]|] eqn:Hd; [by apply Hout; right| |by apply Hout; left].
    split; [|exists (String a s); split; [done|]; split; [done|]; left; eauto].
    intros [(e1 & e2 & Hne & H1 & H2)|(e1 & H1 & Hd1)]; [by rewrite (Huniq _ H1), (Huniq _ H2) in Hne|].
    rewrite (Huniq _ H1), Hd in Hd1. by destruct Hd1.
  - destruct (proj1 (Hown pk)) as (e & He & ->); [by left|]. destruct (proj1 (Hown pk')) as (e' & He' & ->); [by right; left|].
    intros (s & _ & [(e0 & _ & Hu & _)|(Hno & _)]); [|by destruct (Hno e)]. apply NoDup_cons in Hnd as [Hni _]. apply Hni.
    rewrite (Hu e He), <- (Hu e' He'). by left.
Qed.

(** ** Properties *)

(** C16: a selected object never asks an endpoint it does not belong to. In a
    run with a scope, with the objects and owners that the run computes from
    the database: an object is claimed by the endpoints from which a cluster
    bound to the object's core cluster was reflected. Every call made for it,
    its dependencies included, is scoped to the backend id of its one claimant
    or, when no endpoint claims it, to the run's scope, and then only if that
    scope names a single endpoint; an object with several claimants, or whose
    claimant has no backend id in the run, makes no call and is reported as
    failed. *)
Theorem selected_object_is_pinned (nb : netbox) objects pks schema fastapi job by_pk id (o : batch_object) (w : ind_world E) :
  let by_id := objects_by_id objects pks in
  job <> "" -> by_pk <> [] -> dget id by_id = Some o ->
  let run := run_one by_id (owners_by_id nb by_id by_pk) schema fastapi (Some job) by_pk id w in
  exists new, made (snd run) = new ++ made w /\
    Forall (fun c => call_fastapi c = fastapi /\ exists s,
              dget "proxmox_endpoint_ids" (call_params c) = Some (VStr s) /\ pinned_scope nb o job by_pk s) new /\
    (not_syncable nb o by_pk -> new = [] /\ exists error, fst run = Ok (refused id 424 error)).
Proof.
  intros by_id Hjob Hpk Ho run. destruct (owners_spec nb by_id by_pk id o Hpk Ho) as [Hnd Hown].
  pose proof (object_scope_pinned nb o _ job by_pk Hnd Hown Hjob) as Hscope.
  destruct (object_scope (owners_by_id nb by_id by_pk id) (Some job) by_pk) as [scope|error] eqn:Es.
  - destruct Hscope as (Hsync & s & -> & Hne & Hpin).
    destruct (run_one_calls by_id (owners_by_id nb by_id by_pk) schema fastapi (Some job) by_pk id (made w) _ Es w) as (new & Hm & HF); [by exists []|].
    exists new. split; [done|]. split; [|done]. eapply Forall_impl; [exact HF|].
    intros c (Hf & Hc & _). split; [done|]. exists s. auto.
  - exists []. split; [by eapply run_one_refused|]. split; [constructor|]. intros _. split; [done|]. exists error.
    unfold run, run_one. by rewrite Ho, Es.
Qed.

(** the summary of a selected-object run is exact. When the run returns,
    there is one result per selected object, in the order of the selection,
    and each is counted either as succeeded or as failed. *)
Theorem batch_summary_exact object_type object_ids schema fastapi wire_ids by_pk
  (w : ind_world E) (b : batch_result) :
  fst (_run_batch_selected_sync object_type object_ids schema fastapi wire_ids by_pk w) = Ok b ->
  List.map item_object_id (results b) = _normalize_batch_object_ids object_ids /\
  total b = length (results b) /\ (succeeded b + failed b = total b)%nat /\
  succeeded b = length (List.filter (fun i => item_status i <? 400) (results b)).
Proof.
  revert w b. change (returns (_run_batch_selected_sync object_type object_ids schema fastapi
    wire_ids by_pk) (fun b =>
    List.map item_object_id (results b) = _normalize_batch_object_ids object_ids /\
    total b = length (results b) /\ (succeeded b + failed b = total b)%nat /\
    succeeded b = length (List.filter (fun i => item_status i <? 400) (results b)))).
  unfold _run_batch_selected_sync. apply returns_bind_any. intros [objects|]; [|apply returns_raise].
  apply returns_bind_any. intros pks. apply returns_bind_any. intros nb.
  set (ids := _normalize_batch_object_ids object_ids).
  set (by_id := objects_by_id objects pks).
  apply (returns_bind _ _ (fun items => List.map item_object_id items = ids)).
  - assert (Hloop : forall l acc, returns (for_each l acc (fun object_id acc =>
      item ← run_one by_id (owners_by_id nb by_id by_pk) schema fastapi wire_ids by_pk object_id;
      mret (acc ++ [item])))
      (fun items => List.map item_object_id items = List.map item_object_id acc ++ l)).
    { induction l as [|x l IH]; intros acc; cbn [for_each];
        [apply returns_ret; by rewrite app_nil_r|].
      apply (returns_bind _ _ (fun acc' => List.map item_object_id acc' =
        List.map item_object_id acc ++ [x])).
      - eapply returns_bind; [apply run_one_id|]. intros item Hi. apply returns_ret.
        by rewrite map_app, <- Hi.
      - intros acc' Hacc'. eapply returns_mono; [apply IH|]. intros items ->.
        by rewrite Hacc', <- app_assoc. }
    apply (Hloop ids []).
  - intros items Hitems. apply returns_ret. cbn. do 2 (split; [done|]). split; [|done].
    pose proof (List.filter_length_le (fun i => item_status i <? 400) items). lia.
Qed.

End Batch.

(** ** A small estate *)

#[global] Instance answers_batch_env : BatchEnv answers := {|
  be_netbox _ := sample_netbox;
  be_virtual_machines _ := [sample_vm];
  be_backups _ := []; be_snapshots _ := []; be_storages _ := []; be_task_histories _ := [];
  be_tenancy _ := {| tenants := []; tenant_groups := [] |};
  be_refresh vm _ := vm;
  be_save _ _ e := e
|}.

Definition estate : ind_world answers :=
  {| ienv := {| by_url := [("https://proxbox/sync/individual/vm", VDict [("ok", VBool true)])] |};
     made := [] |}.

(** The VM's cluster is claimed by endpoint 7, so of the run's two endpoints
    only its backend id is asked; an unknown object is reported as such. *)
Example selected_vm_run :
  let r := _run_batch_selected_sync (fun _ _ => None) "virtual-machine" [VInt 12; VStr "99"] None
             (Some 2) (Some "41,43") [("7", "41"); ("9", "43")] estate in
  List.map (fun c => get "proxmox_endpoint_ids" (call_params c)) (made (snd r)) = [VStr "41"] /\
  match fst r with
  | Ok b => (total b, succeeded b, failed b) = (2, 1, 1)%nat /\ batch_object_label b = "Virtual Machine"
  | Err _ => False
  end.
Proof. split; [|split]; vm_compute; reflexivity. Qed.

Lemma selected_object_is_pinned_witness :
  exists new,
    made (snd (run_one (fun _ _ => None) [("12", OVirtualMachine sample_vm)]
                 (owners_by_id sample_netbox [("12", OVirtualMachine sample_vm)] [("7", "41")]) None
                 (Some 2) (Some "41,43") [("7", "41")] "12" estate)) = new ++ made estate /\
    Forall (fun c => call_fastapi c = Some 2 /\ exists s,
              dget "proxmox_endpoint_ids" (call_params c) = Some (VStr s) /\
              pinned_scope sample_netbox (OVirtualMachine sample_vm) "41,43" [("7", "41")] s) new.
Proof.
  destruct (selected_object_is_pinned (fun _ _ => None) sample_netbox [OVirtualMachine sample_vm] [12]
           None (Some 2) "41,43" [("7", "41")] "12" (OVirtualMachine sample_vm) estate) as (new & Hm & Hf & _);
    [discriminate|discriminate|reflexivity|]. exists new. exact (conj Hm Hf).
Defined.

Lemma batch_summary_exact_witness :
  List.map item_object_id [refused "99" 404 "Selected object was not found."]
  = _normalize_batch_object_ids [VStr "99"].
Proof.
  apply (batch_summary_exact (fun _ _ => None) "vm-backup" [VStr "99"] None None None [] estate
           {| batch_object_type := "vm-backup"; batch_object_label := "Vm Backup"; total := 1;
              succeeded := 0; failed := 1;
              results := [refused "99" 404 "Selected object was not found."] |}).
  vm_compute. reflexivity.
Defined.

