(* ===== verification/BranchLifecycle.v ===== *)
(** * Branch isolation (services/branch_lifecycle.py)

    The decision whether a sync runs on a branch, the provisioning of that
    branch, its activation and its merge.  The branching plugin is a
    third-party package; its operations are those of the class [BranchEnv],
    and any of them may raise. *)
From Stdlib Require Import ZArith Lia String.
From stdpp Require Import base list sets strings pretty.
From S2P Require Import Prelude SyncTypes SyncModes Effects Deadline StageExec.

(** ** Data *)

Inductive BranchingDecisionState := ENABLED | BRANCHING_DISABLED | CONFIGURED_BUT_UNAVAILABLE.

(** [{"prefix": ..., "on_conflict": ...}] *)
Record branch_settings := { prefix : string; on_conflict : string }.

Record BranchingDecision := {
  decision_state : BranchingDecisionState;
  decision_settings : option branch_settings;
  decision_reason : option string;
  decision_configured : option bool
}.

(** A row of the plugin's [Branch] model. *)
Record Branch := {
  branch_pk : Z;
  branch_name : string;
  branch_status : string;
  branch_schema_id : option string
}.

(** [BranchStatusChoices] *)
Definition READY := "ready".
Definition MERGED := "merged".
Definition FAILED := "failed".

(** The branching fields of the settings singleton. *)
Record branching_fields := {
  branching_enabled : bool;
  branch_name_prefix : string;
  branch_on_conflict : string
}.

Class BranchEnv (E : Type) := {
  (* ProxboxPluginSettings.get_solo() *)
  br_settings : E -> result branching_fields;
  (* why the plugin cannot be used, when it cannot *)
  br_unavailable_reason : E -> option string;
  (* Branch(name=...); save(); provision() *)
  br_provision : string -> E -> result Branch * E;
  (* refresh_from_db() *)
  br_refresh : Branch -> E -> result Branch * E;
  (* ChangeDiff rows with conflicts exist *)
  br_conflicts : Branch -> E -> result bool;
  (* branch.merge(user) *)
  br_merge : Branch -> E -> result () * E;
  (* branch.get_unmerged_changes().exists() *)
  br_unmerged : Branch -> E -> result bool;
  (* entering and leaving activate_branch(branch) *)
  br_activate : Branch -> E -> result () * E;
  br_deactivate : E -> E;
  (* contextvars.active_branch.get() *)
  br_active : E -> result (option Branch)
}.

(** [type(exc).__name__] *)
Definition exn_type (e : exn) : string :=
  match e with
  | RuntimeError _ => "RuntimeError"
  | ValueError _ => "ValueError"
  | TypeError _ => "TypeError"
  | AttributeError _ => "AttributeError"
  | SyncJobDeadlineReached _ => "SyncJobDeadlineReached"
  | BranchingUnavailableError _ => "BranchingUnavailableError"
  | ProxboxPreflightError _ => "ProxboxPreflightError"
  | ValidationError _ => "ValidationError"
  | RequestException _ => "RequestException"
  | DatabaseError _ => "DatabaseError"
  | OverflowError _ => "OverflowError"
  | IndexError _ => "IndexError"
  | KeyError _ => "KeyError"
  | HttpError _ => "HttpError"
  | PermissionDeniedError _ => "PermissionDenied"
  | ConnectionAuthorityError _ => "ConnectionAuthorityError"
  | CloudImageBindingReceiptError _ => "CloudImageBindingReceiptError"
  | AssertionError _ => "AssertionError"
  | RequestFailed _ _ => "RequestException"
  | PlanClientError _ => "PlanClientError"
  | FirewallPushError _ _ _ => "FirewallPushError"
  | OperationalTargetError _ _ _ => "OperationalTargetError"
  | EncryptionError cls _ | EncryptionRecoveryError cls _ => cls
  | BackendKeyAdoptionError _ _ _ _ => "BackendKeyAdoptionError"
  | MultipleObjectsReturned _ => "MultipleObjectsReturned"
  | ClusterBindingConflict => "ClusterBindingConflict"
  | RecursionError => "RecursionError"
  | DoesNotExist => "DoesNotExist"
  end.

Definition _exception_reason (prefix : string) (exc : exn) : string :=
  let detail := strip (exn_msg exc) in
  prefix +:+ " (" +:+ exn_type exc +:+ (if is_empty detail then "" else ": " +:+ detail) +:+ ")".

Definition _branching_failure_message (d : BranchingDecision) : string :=
  let detail :=
    match decision_reason d with
    | Some (String _ _ as r) => r
    | _ => "no usable netbox-branching runtime was detected"
    end in
  match decision_configured d with
  | Some true =>
      "Proxbox sync refused: branch isolation is configured with " +:+
      "branching_enabled=True, but netbox-branching is unavailable (" +:+ detail +:+ "). " +:+
      "Install and enable a netbox-branching release compatible with this NetBox " +:+
      "version, or set branching_enabled=False to explicitly allow sync on main."
  | _ =>
      "Proxbox sync refused: branching_enabled could not be read, so branch " +:+
      "isolation cannot be safely ruled out (" +:+ detail +:+ "). Restore access to " +:+
      "ProxboxPluginSettings, then install and enable a netbox-branching " +:+
      "release compatible with this NetBox version, or set " +:+
      "branching_enabled=False to explicitly allow sync on main."
  end.

Definition _left_open_message (branch : Branch) (detail : string) : string :=
  "Branch " +:+ branch_name branch +:+ " " +:+ detail +:+
  "; branch left open for operator inspection.".

Section Lifecycle.
Context {E : Type} `{!Env E, !BranchEnv E}.

(** ** Decision *)

Definition resolve_branching_decision (e : E) : BranchingDecision :=
  match br_settings e with
  | Err exc =>
      {| decision_state := CONFIGURED_BUT_UNAVAILABLE; decision_settings := None;
         decision_reason := Some (_exception_reason "Proxbox plugin settings could not be loaded" exc);
         decision_configured := None |}
  | Ok s =>
      if negb (branching_enabled s) then
        {| decision_state := BRANCHING_DISABLED; decision_settings := None;
           decision_reason := None; decision_configured := Some false |}
      else
        match br_unavailable_reason e with
        | Some reason =>
            {| decision_state := CONFIGURED_BUT_UNAVAILABLE; decision_settings := None;
               decision_reason := Some reason; decision_configured := Some true |}
        | None =>
            {| decision_state := ENABLED;
               decision_settings :=
                 Some {| prefix := str_or (branch_name_prefix s) "proxbox-sync";
                         on_conflict := str_or (branch_on_conflict s) "fail" |};
               decision_reason := None; decision_configured := Some true |}
        end
  end.

Definition require_branch_isolation_or_raise (e : E) : result BranchingDecision :=
  let decision := resolve_branching_decision e in
  match decision_state decision with
  | CONFIGURED_BUT_UNAVAILABLE =>
      Err (BranchingUnavailableError (_branching_failure_message decision))
  | _ => Ok decision
  end.

Definition branching_enabled_settings (e : E) : result (option branch_settings) :=
  match require_branch_isolation_or_raise e with
  | Err exc => Err exc
  | Ok d =>
      match decision_state d with
      | BRANCHING_DISABLED => Ok None
      | _ => Ok (decision_settings d)
      end
  end.

(** ** Lifecycle of one branch *)

Definition set_env (e : E) (w : world E) : world E :=
  {| env := e; history := history w; sync_mode_vars := sync_mode_vars w;
     wire_capture := wire_capture w |}.

(** An operation of the environment that is not part of the history. *)
Definition in_env {A} (op : E -> result A * E) : M (world E) A := fun w =>
  let '(r, e) := op (env w) in (r, set_env e w).

Definition refresh (branch : Branch) : M (world E) Branch := in_env (br_refresh branch).

Definition usable_schema (branch : Branch) : bool :=
  match branch_schema_id branch with Some s => nonempty (strip s) | None => false end.

Definition _require_branch_schema_id (branch : Branch) : result string :=
  match branch_schema_id branch with
  | Some s =>
      if nonempty (strip s) then Ok s
      else Err (BranchingUnavailableError
                  ("Branch " +:+ branch_name branch +:+ " reached READY without a usable schema_id; "
                   +:+ "branch isolation cannot be guaranteed, so the branch was left open "
                   +:+ "for operator inspection."))
  | None =>
      Err (BranchingUnavailableError
             ("Branch " +:+ branch_name branch +:+ " reached READY without a usable schema_id; "
              +:+ "branch isolation cannot be guaranteed, so the branch was left open "
              +:+ "for operator inspection."))
  end.

(** The refreshed row, whose status the callers read. *)
Definition _refreshed_branch_status (branch : Branch) (action : string) : M (world E) Branch :=
  try_except (refresh branch)
    (fun exc =>
       raise (BranchingUnavailableError
                (_left_open_message branch
                   (_exception_reason ("could not be refreshed before " +:+ action) exc)))).

Definition _require_branch_ready (branch : Branch) (action : string) : M (world E) Branch :=
  branch ← _refreshed_branch_status branch action;
  if negb (String.eqb (branch_status branch) READY) then
    raise (BranchingUnavailableError
             (_left_open_message branch
                ("is not READY before " +:+ action +:+ " (status=" +:+ branch_status branch +:+ ")")))
  else
    _ ← lift (_require_branch_schema_id branch);
    mret branch.

(** Entering [activate_sync_branch] on a branch: the refreshed row. *)
Definition activate_sync_branch (branch : Branch) : M (world E) Branch :=
  branch ← _require_branch_ready branch "activation";
  try_except (_ ← in_env (br_activate branch); mret branch)
    (fun exc =>
       raise (BranchingUnavailableError
                (_left_open_message branch (_exception_reason "activation failed" exc)))).

Definition deactivate_sync_branch : M (world E) () := fun w =>
  (Ok (), set_env (br_deactivate (env w)) w).

(** The schema of the branch the user is on; best effort, it never raises. *)
Definition get_active_branch_schema_id : M (world E) (option string) :=
  try_except
    (active ← gets (fun w => br_active (env w));
     active ← lift active;
     match active with
     | None => mret None
     | Some branch =>
         branch ← _refreshed_branch_status branch "request sync";
         if negb (String.eqb (branch_status branch) READY) then mret None
         else schema ← lift (_require_branch_schema_id branch); mret (Some schema)
     end)
    (fun _ => mret None).

Definition ACTIVE_BRANCH_REQUIRED_MESSAGE : string :=
  "Proxbox sync refused: branch isolation is enabled, but this request has no " +:+
  "active READY branch schema; activate a branch or disable branch isolation.".

Definition require_active_branch_schema_id (decision : BranchingDecision) :
  M (world E) (option string) :=
  match decision_state decision with
  | BRANCHING_DISABLED => mret None
  | _ =>
      schema ← get_active_branch_schema_id;
      match schema with
      | None => raise (RuntimeError ACTIVE_BRANCH_REQUIRED_MESSAGE)
      | Some s => mret (Some s)
      end
  end.

(** The polling loop of [create_and_provision_branch]; [None] when [fuel]
    rounds were not enough, see [provision_terminates]. *)
Fixpoint await_ready (fuel : nat) (branch : Branch) (timeout deadline : Z) :
  M (world E) (option Branch) :=
  match fuel with
  | O => mret None
  | S fuel' =>
      branch ← refresh branch;
      if String.eqb (branch_status branch) READY then
        _ ← lift (_require_branch_schema_id branch);
        mret (Some branch)
      else if String.eqb (branch_status branch) FAILED then
        raise (RuntimeError ("Branch " +:+ branch_name branch
                             +:+ " entered FAILED status during provisioning"))
      else
        now ← monotonic;
        if deadline <=? now then
          raise (RuntimeError ("Branch " +:+ branch_name branch +:+ " did not reach READY within "
                               +:+ pretty timeout +:+ "s (status=" +:+ branch_status branch +:+ ")"))
        else
          _ ← sleep (msec 500);
          await_ready fuel' branch timeout deadline
  end.

Definition provision_rounds : nat := 200.

Definition create_and_provision_branch (name : string) : M (world E) (option Branch) :=
  branch ← in_env (br_provision name);
  now ← monotonic;
  await_ready provision_rounds branch 60 (now + sec 60).

(** [(merged, message, disposition)] *)
Record merge_outcome := {
  merged : bool;
  merge_message : string;
  merge_disposition : option string
}.

Definition not_merged (message : string) : merge_outcome :=
  {| merged := false; merge_message := message; merge_disposition := None |}.

Definition _branch_has_unmerged_changes (branch : Branch) : M (world E) bool := fun w =>
  (br_unmerged branch (env w), w).

Definition branch_has_conflicts (branch : Branch) : M (world E) bool := fun w =>
  (br_conflicts branch (env w), w).

(** After [branch.merge()]. *)
Definition verify_merge (branch : Branch) : M (world E) merge_outcome :=
  try_except
    (branch ← _refreshed_branch_status branch "merge verification";
     if String.eqb (branch_status branch) MERGED then
       mret {| merged := true; merge_message := "Branch " +:+ branch_name branch +:+ " merged.";
               merge_disposition := None |}
     else if negb (String.eqb (branch_status branch) READY) then
       mret (not_merged (_left_open_message branch
               ("did not reach MERGED after merge (status=" +:+ branch_status branch +:+ ")")))
     else
       unmerged ← _branch_has_unmerged_changes branch;
       if (unmerged : bool) then
         mret (not_merged (_left_open_message branch "remained READY after merge with unmerged changes"))
       else
         mret {| merged := true;
                 merge_message :=
                   "Branch " +:+ branch_name branch +:+ " (id=" +:+ pretty (branch_pk branch) +:+
                   ") had no changes; branch left open. " +:+
                   "Archive it through the netbox-branching UI.";
                 merge_disposition := Some "no_changes_left_open" |})
    (fun exc =>
       mret (not_merged
               match exc with
               | BranchingUnavailableError m => m
               | _ => _left_open_message branch ("verification failed: " +:+ exn_msg exc)
               end)).

Definition merge_branch (branch : Branch) (on_conflict : string) : M (world E) merge_outcome :=
  conflicts ← branch_has_conflicts branch;
  if (conflicts && negb (String.eqb on_conflict "acknowledge"))%bool then
    mret (not_merged (_left_open_message branch
            "has unresolved conflicts and branch_on_conflict=fail"))
  else
    attempt ←
      try_except
        (branch ← _require_branch_ready branch "merge";
         _ ← in_env (br_merge branch);
         mret (inl branch))
        (fun exc =>
           mret (inr match exc with
                     | BranchingUnavailableError m => m
                     | _ => _left_open_message branch ("merge failed: " +:+ exn_msg exc)
                     end));
    match attempt with
    | inr message => mret (not_merged message)
    | inl branch => verify_merge branch
    end.

(** ** Lemmas *)

Lemma wp_in_env {A} (op : E -> result A * E) (Q : result A -> world E -> Prop) (w : world E) :
  Q (fst (op (env w))) (set_env (snd (op (env w))) w) -> wp (in_env op) Q w.
Proof. unfold wp, in_env. by destruct (op (env w)). Qed.

Lemma require_schema_ok (branch : Branch) (s : string) :
  _require_branch_schema_id branch = Ok s -> usable_schema branch = true.
Proof.
  unfold _require_branch_schema_id, usable_schema.
  destruct (branch_schema_id branch) as [t|]; [|done]. by destruct (nonempty (strip t)).
Qed.

Definition provisioned (branch : Branch) : Prop :=
  branch_status branch = READY /\ usable_schema branch = true.

Lemma await_ready_provisioned fuel branch timeout deadline :
  returns (await_ready fuel branch timeout deadline)
    (fun r => forall b, r = Some b -> provisioned b).
Proof.
  revert branch. induction fuel as [|fuel IH]; intros branch; cbn [await_ready];
    [by apply returns_ret|].
  apply returns_bind_any. intros b.
  destruct (String.eqb_spec (branch_status b) READY) as [Hr|_].
  - eapply returns_bind; [apply (returns_lift _ (fun _ => usable_schema b = true)); apply require_schema_ok|].
    intros ? Hu. apply returns_ret. by intros ? [= <-].
  - destruct (String.eqb _ FAILED); [apply returns_raise|]. apply returns_bind_any. intros now.
    destruct (deadline <=? now); [apply returns_raise|]. apply returns_bind_any. auto.
Qed.

(** What has to have happened for a merge to be reported. *)
Definition merge_verified (branch : Branch) (e0 : E) (o : merge_outcome) : Prop :=
  exists b1 e1 e2 b2 e3,
    br_refresh branch e0 = (Ok b1, e1) /\ provisioned b1 /\ br_merge b1 e1 = (Ok (), e2) /\
    br_refresh b1 e2 = (Ok b2, e3) /\
    (branch_status b2 = MERGED /\ merge_disposition o = None \/
     branch_status b2 = READY /\ br_unmerged b2 e3 = Ok false /\
     merge_disposition o = Some "no_changes_left_open").

Definition merge_reported (branch : Branch) (e0 : E) (r : result merge_outcome) : Prop :=
  exists o, r = Ok o /\ (merged o = true -> merge_verified branch e0 o).

Lemma reported_not_merged branch e0 m : merge_reported branch e0 (Ok (not_merged m)).
Proof. by eexists. Qed.

Lemma verify_merge_reported branch e0 b1 e1 (w : world E) :
  br_refresh branch e0 = (Ok b1, e1) -> provisioned b1 -> br_merge b1 e1 = (Ok (), env w) ->
  wp (verify_merge b1) (fun r _ => merge_reported branch e0 r) w.
Proof.
  intros H1 Hp Hm. unfold verify_merge, _refreshed_branch_status, refresh, _branch_has_unmerged_changes.
  wp_step. wp_step. wp_step. apply wp_in_env.
  destruct (br_refresh b1 (env w)) as [[b2|exc] e3] eqn:Er; cbn [fst snd];
    [|apply reported_not_merged].
  destruct (String.eqb_spec (branch_status b2) MERGED) as [Hs|_].
  { wp_steps. eexists. split; [done|]. intros _. exists b1, e1, (env w), b2, e3. auto 8. }
  destruct (String.eqb_spec (branch_status b2) READY) as [Hs|_]; [|apply reported_not_merged].
  cbn [negb]. wp_step. unfold wp at 1, set_env. cbn [fst snd env].
  destruct (br_unmerged b2 e3) as [[|]|exc] eqn:Eu; [apply reported_not_merged| |].
  - eexists. split; [done|]. intros _. exists b1, e1, (env w), b2, e3. auto 10.
  - apply reported_not_merged.
Qed.

Lemma merge_branch_reported branch policy (w : world E) :
  wp (merge_branch branch policy)
    (fun r _ => match br_conflicts branch (env w) with Err e => r = Err e | Ok _ => merge_reported branch (env w) r end) w.
Proof.
  unfold merge_branch, branch_has_conflicts. wp_step. unfold wp at 1. cbn [fst snd].
  destruct (br_conflicts branch (env w)) as [conflicts|e]; [|done].
  destruct (_ && _)%bool; [apply reported_not_merged|].
  wp_step. wp_step. unfold _require_branch_ready, _refreshed_branch_status, refresh.
  wp_step. wp_step. wp_step. apply wp_in_env.
  destruct (br_refresh branch (env w)) as [[b1|exc] e1] eqn:Er; cbn [fst snd]; wp_steps;
    [|apply reported_not_merged].
  destruct (String.eqb_spec (branch_status b1) READY) as [Hs|_]; cbn [negb];
    [|wp_steps; apply reported_not_merged].
  wp_steps. destruct (_require_branch_schema_id b1) as [s|exc] eqn:Esch; wp_steps;
    [|apply reported_not_merged].
  apply wp_in_env. unfold set_env. cbn [env].
  destruct (br_merge b1 e1) as [[[]|exc] e2] eqn:Em; cbn [fst snd]; wp_steps;
    [|apply reported_not_merged].
  eapply verify_merge_reported; [exact Er| |exact Em].
  split; [done|]. by eapply require_schema_ok.
Qed.

(** A clock that never goes back and that a pause moves forward. *)
Class MonotonicClock := {
  clock : E -> Z;
  clock_reading : forall e, clock e <= fst (env_monotonic e) <= clock (snd (env_monotonic e));
  clock_sleep : forall d e, clock e + d <= clock (env_sleep d e);
  clock_refresh : forall b e, clock e <= clock (snd (br_refresh b e))
}.

Context `{!MonotonicClock}.

(** Enough rounds for the time that is left: each round takes half a second. *)
Lemma await_ready_terminates fuel branch timeout deadline (w : world E) :
  deadline - clock (env w) <= (Z.of_nat fuel - 1) * msec 500 -> (0 < fuel)%nat ->
  fst (await_ready fuel branch timeout deadline w) <> Ok None.
Proof.
  revert branch w. induction fuel as [|fuel IH]; intros branch w Hfuel Hpos; [lia|].
  cbn [await_ready].
  change (wp (await_ready (S fuel) branch timeout deadline) (fun r _ => r <> Ok None) w).
  cbn [await_ready]. wp_step. apply wp_in_env. pose proof (clock_refresh branch (env w)) as Hc.
  destruct (br_refresh branch (env w)) as [[b|e] e1]; [|done]. cbn [fst snd] in *.
  destruct (String.eqb _ READY).
  { wp_step. apply wp_lift. by destruct (_require_branch_schema_id b). }
  destruct (String.eqb _ FAILED); [done|]. wp_step. unfold wp at 1, monotonic, set_env. cbn [env].
  pose proof (clock_reading e1) as Hr. destruct (env_monotonic e1) as [t e2]. cbn [fst snd] in *.
  destruct (Z.leb_spec deadline t) as [|Hlt]; [done|]. wp_step. unfold wp at 1, sleep. cbn [fst snd].
  pose proof (clock_sleep (msec 500) e2) as Hs. unfold msec in *.
  apply IH; unfold record; cbn [env]; lia.
Qed.

(** ** Properties *)

(** uncertainty is never permission to write to main. A sync goes ahead
    without a branch exactly when the settings could be read and say that
    branching is off; with a branch exactly when they could be read, say that
    it is on, and the branching plugin is usable; in every other case it is
    refused with an error. *)
Theorem branch_isolation_decision (e : E) :
  match branching_enabled_settings e with
  | Ok None => exists s, br_settings e = Ok s /\ branching_enabled s = false
  | Ok (Some cfg) =>
      exists s, br_settings e = Ok s /\ branching_enabled s = true /\
        br_unavailable_reason e = None /\ nonempty (prefix cfg) = true /\
        nonempty (on_conflict cfg) = true
  | Err exc =>
      (exists msg, exc = BranchingUnavailableError msg) /\
      ((exists x, br_settings e = Err x) \/ exists s, br_settings e = Ok s /\
         branching_enabled s = true /\ br_unavailable_reason e <> None)
  end.
Proof.
  assert (Hor : forall a b, b <> "" -> nonempty (str_or a b) = true).
  { intros a b Hb. unfold nonempty, str_or, is_empty. destruct (String.eqb a "") eqn:Ea;
      apply negb_true_iff; [by apply String.eqb_neq|done]. }
  unfold branching_enabled_settings, require_branch_isolation_or_raise, resolve_branching_decision.
  destruct (br_settings e) as [s|x] eqn:Es; cbn; [|eauto].
  destruct (branching_enabled s) eqn:Eb; cbn; [|eauto].
  destruct (br_unavailable_reason e) as [r|] eqn:Er; cbn.
  - split; [eauto|]. right. by exists s.
  - exists s. repeat split; try done; by apply Hor.
Qed.

(** provisioning ends, with a usable branch or an error. Whenever the
    clock does not run backwards and a pause takes its time, the polling loop
    returns within its rounds; and a branch it returns is READY with a
    non-blank schema id. *)
Theorem branch_provisioning_total (name : string) (w : world E) :
  match fst (create_and_provision_branch name w) with
  | Ok (Some b) => provisioned b
  | Ok None => False
  | Err _ => True
  end.
Proof.
  change (wp (create_and_provision_branch name) (fun r _ =>
    match r with Ok (Some b) => provisioned b | Ok None => False | Err _ => True end) w).
  unfold create_and_provision_branch. wp_step. apply wp_in_env.
  destruct (br_provision name (env w)) as [[b|e] e1]; [|done]. cbn [fst snd].
  wp_step. unfold wp at 1, monotonic, set_env. cbn [env].
  pose proof (clock_reading e1) as Hr. destruct (env_monotonic e1) as [t e2]. cbn [fst snd] in *.
  set (w2 := record _ e2 _). unfold wp.
  pose proof (await_ready_provisioned provision_rounds b 60 (t + sec 60) w2) as Hp.
  assert (Ht : fst (await_ready provision_rounds b 60 (t + sec 60) w2) <> Ok None).
  { apply await_ready_terminates; [|unfold provision_rounds; lia].
    unfold w2, provision_rounds, sec, msec. cbn [env record]. lia. }
  destruct (fst (await_ready provision_rounds b 60 (t + sec 60) w2)) as [[b'|]|e]; [by eapply Hp|done|done].
Qed.

(** C27: a merge is reported only when it is verified. Unless the query for
    conflicts itself fails, whose error is passed on before anything is done,
    the merge reports back instead of raising; it reports success only if, in
    this order, the freshly read branch was READY with a usable schema, the
    plugin's merge returned, and the branch read again is MERGED, or still
    READY with nothing left to merge (then marked as left open); and
    unresolved conflicts are merged only under the policy that acknowledges
    them. *)
Theorem branch_merge_verified (branch : Branch) (policy : string) (w : world E) :
  match br_conflicts branch (env w) with
  | Err e => merge_branch branch policy w = (Err e, w)
  | Ok conflicts =>
      exists o, fst (merge_branch branch policy w) = Ok o /\
        (merged o = true ->
           merge_verified branch (env w) o /\ (conflicts = true -> policy = "acknowledge"))
  end.
Proof.
  pose proof (merge_branch_reported branch policy w) as Hrep. unfold wp in Hrep.
  destruct (br_conflicts branch (env w)) as [conflicts|e] eqn:Ec.
  2: { unfold merge_branch, branch_has_conflicts, mbind, M_bind. by rewrite Ec. }
  destruct Hrep as (o & Ho & Hv). exists o. split; [done|].
  intros Hm. split; [by apply Hv|]. intros ->. destruct (String.eqb_spec policy "acknowledge"); [done|].
  exfalso. unfold merge_branch, branch_has_conflicts, mbind, M_bind in Ho. rewrite Ec in Ho.
  rewrite (proj2 (String.eqb_neq _ _)) in Ho by done. by injection Ho as <-.
Qed.

End Lifecycle.

(** ** A plugin that is ready at once *)

#[global] Instance script_branch_env : BranchEnv script := {|
  br_settings _ := Ok {| branching_enabled := true; branch_name_prefix := "";
                         branch_on_conflict := "fail" |};
  br_unavailable_reason _ := None;
  br_provision name e := (Ok {| branch_pk := 5; branch_name := name; branch_status := "provisioning";
                                branch_schema_id := None |}, e);
  br_refresh b e := (Ok {| branch_pk := branch_pk b; branch_name := branch_name b;
                           branch_status := READY; branch_schema_id := Some "abc123" |}, e);
  br_conflicts _ _ := Ok false;
  br_merge _ e := (Ok (), e);
  br_unmerged _ _ := Ok false;
  br_activate _ e := (Ok (), e);
  br_deactivate e := e;
  br_active _ := Ok None
|}.

#[global] Instance script_clock_monotonic : MonotonicClock (E := script).
Proof.
  refine {| clock := script_clock |}; simpl; unfold msec; intros; lia.
Defined.

Example provision_and_merge :
  fst ((b ← create_and_provision_branch "proxbox-sync-1-0";
        match b with Some b => merge_branch b "fail" | None => raise RecursionError end)
         (start (sample_script []))) = fst (merge_branch
        {| branch_pk := 5; branch_name := "proxbox-sync-1-0"; branch_status := READY;
           branch_schema_id := Some "abc123" |} "fail" (start (sample_script []))).
Proof. vm_compute. reflexivity. Qed.

Lemma branch_provisioning_total_witness :
  match fst (create_and_provision_branch "b" (start (sample_script []))) with
  | Ok (Some b) => provisioned b
  | Ok None => False
  | Err _ => True
  end.
Proof. apply (branch_provisioning_total "b" (start (sample_script []))). Defined.
