(* ===== verification/JobParams.v ===== *)
(** * The job row: ownership and parameters
    (sync_ownership.py, views/job_stream.py, jobs.py, sync_params.py,
    schemas/sync_result.py)

    What is kept in [Job.data]: who runs the sync, and the parameters a
    replayed job is rebuilt from.  [SyncJobData.model_validate] is the work of
    a third-party package; it is a parameter with the documented behaviour the
    code relies on as a hypothesis. *)
From Stdlib Require Import ZArith Lia String Ascii.
From stdpp Require Import base list sets strings pretty.
From S2P Require Import Prelude Json SyncTypes SyncModes Deadline EndpointScope VmObjects.

(** ** Ownership *)

Definition SYNC_OWNER_RQ := "rq_job".

Definition as_mapping (v : pyval) : dict pyval := match v with VDict d => d | _ => [] end.

Definition _normalized_job_data (data : pyval) : dict pyval :=
  match data with
  | VDict d => d
  | VStr s => if is_empty s then [] else
      match json_loads s with Some v => as_mapping v | None => [] end
  | _ => []
  end.

(** [_claim_sync_ownership] of the stream view and, for the owner [rq_job],
    [_claim_on_job_instance]: the saved data, or [None] when another owner
    holds the job. [now] is the time stamp written. *)
Definition claim_as (owner now : string) (data : pyval) : option pyval :=
  let data := _normalized_job_data data in
  let proxbox_sync := as_mapping (get "proxbox_sync" data) in
  let current_owner := get "sync_owner" proxbox_sync in
  if (truthy current_owner && negb match current_owner with VStr o => String.eqb o owner | _ => false end)%bool
  then None
  else
    let proxbox_sync := dset "sync_owner" (VStr owner) proxbox_sync in
    let proxbox_sync := dset "sync_owner_claimed_at" (VStr now) proxbox_sync in
    Some (VDict (dset "proxbox_sync" (VDict proxbox_sync) data)).

Definition _claim_on_job_instance (now : string) (data : pyval) : option pyval :=
  claim_as SYNC_OWNER_RQ now data.

Definition _claim_sync_ownership (owner now : string) (data : pyval) : option pyval :=
  claim_as owner now data.

(** [None] when nothing is saved. *)
Definition release_as (owner : string) (data : pyval) : option pyval :=
  let data := _normalized_job_data data in
  let proxbox_sync := as_mapping (get "proxbox_sync" data) in
  match get "sync_owner" proxbox_sync with
  | VStr o =>
      if String.eqb o owner then
        let proxbox_sync := ddel "sync_owner" proxbox_sync in
        let proxbox_sync :=
          if truthy (get "sync_owner_claimed_at" proxbox_sync)
          then ddel "sync_owner_claimed_at" proxbox_sync else proxbox_sync in
        Some (VDict (dset "proxbox_sync" (VDict proxbox_sync) data))
      else None
  | _ => None
  end.

Definition _release_rq_sync_ownership (data : pyval) : pyval :=
  match release_as SYNC_OWNER_RQ data with Some d => d | None => data end.

Definition _release_sync_ownership (owner : string) (data : pyval) : pyval :=
  match release_as owner data with Some d => d | None => data end.

Definition _get_sync_ownership (data : pyval) : option string :=
  match get "sync_owner" (as_mapping (get "proxbox_sync" (_normalized_job_data data))) with
  | VStr o => Some o
  | _ => None
  end.

Lemma get_dset_eq (k : string) (v : pyval) (d : dict pyval) : get k (dset k v d) = v.
Proof. unfold get, dget_or. by rewrite dget_dset_eq. Qed.

Lemma get_dset_ne (k k' : string) (v : pyval) (d : dict pyval) :
  k <> k' -> get k (dset k' v d) = get k d.
Proof. intros. unfold get, dget_or. by rewrite dget_dset_ne. Qed.

Lemma get_ddel_eq (k : string) (d : dict pyval) : get k (ddel k d) = VNone.
Proof. unfold get, dget_or. by rewrite dget_ddel_eq. Qed.

Lemma get_ddel_ne (k k' : string) (d : dict pyval) : k <> k' -> get k (ddel k' d) = get k d.
Proof. intros. unfold get, dget_or. by rewrite dget_ddel_ne. Qed.

Lemma claim_owner (owner now : string) (data data' : pyval) :
  claim_as owner now data = Some data' -> _get_sync_ownership data' = Some owner.
Proof.
  unfold claim_as. destruct (_ && _)%bool; [done|]. intros [= <-]. unfold _get_sync_ownership.
  cbn [_normalized_job_data]. rewrite get_dset_eq. cbn [as_mapping].
  rewrite get_dset_ne by done. by rewrite get_dset_eq.
Qed.

Lemma release_owner (owner : string) (data : pyval) :
  _get_sync_ownership (_release_sync_ownership owner data) <> Some owner.
Proof.
  unfold _release_sync_ownership, release_as.
  destruct (get "sync_owner" _) as [| | | |o| |] eqn:Eo.
  1-4,6,7: unfold _get_sync_ownership; by rewrite Eo.
  destruct (String.eqb_spec o owner) as [->|Hne]; [|unfold _get_sync_ownership; rewrite Eo; congruence].
  unfold _get_sync_ownership. cbn [_normalized_job_data]. rewrite get_dset_eq. cbn [as_mapping].
  destruct (truthy _); [rewrite get_ddel_ne by done|]; by rewrite get_ddel_eq.
Qed.

(** ownership of a job row is exclusive. Once an owner has claimed the
    row, no other owner's claim succeeds, the worker's included; the owner may
    claim it again; and after its release the row names it no more and any
    owner can claim it. *)
Theorem ownership_exclusive (owner other now now' : string) (data claimed : pyval) :
  owner <> "" -> _claim_sync_ownership owner now data = Some claimed ->
  (other <> owner -> _claim_sync_ownership other now' claimed = None) /\
  (owner <> SYNC_OWNER_RQ -> _claim_on_job_instance now' claimed = None) /\
  (exists again, _claim_sync_ownership owner now' claimed = Some again) /\
  _get_sync_ownership claimed = Some owner /\
  _get_sync_ownership (_release_sync_ownership owner claimed) = None /\
  (exists next, _claim_sync_ownership other now' (_release_sync_ownership owner claimed) = Some next).
Proof.
  unfold _claim_sync_ownership, _claim_on_job_instance.
  intros Hne Hclaim. pose proof (claim_owner _ _ _ _ Hclaim) as Hown.
  unfold claim_as in Hclaim. destruct (_ && _)%bool; [done|]. injection Hclaim as <-.
  set (ps := dset "sync_owner_claimed_at" _ _) in *.
  assert (Hps : get "sync_owner" ps = VStr owner)
    by (unfold ps; rewrite get_dset_ne by done; apply get_dset_eq).
  assert (Hclaimed : forall o, claim_as o now' (VDict (dset "proxbox_sync" (VDict ps) (_normalized_job_data data)))
    = if String.eqb owner o then Some (VDict (dset "proxbox_sync" (VDict
        (dset "sync_owner_claimed_at" (VStr now') (dset "sync_owner" (VStr o) ps)))
        (dset "proxbox_sync" (VDict ps) (_normalized_job_data data)))) else None).
  { intros o. unfold claim_as. cbn [_normalized_job_data]. rewrite get_dset_eq. cbn [as_mapping].
    rewrite Hps. cbn [truthy]. unfold nonempty, is_empty.
    rewrite (proj2 (String.eqb_neq _ _) Hne). cbn [negb andb]. by destruct (String.eqb owner o). }
  rewrite !Hclaimed, String.eqb_refl.
  split; [intros Ho; by rewrite (proj2 (String.eqb_neq owner other))|].
  split; [intros Ho; by rewrite (proj2 (String.eqb_neq owner _) Ho)|]. split; [eauto|].
  split; [done|].
  unfold _release_sync_ownership, release_as, _get_sync_ownership, claim_as.
  cbn [_normalized_job_data]. rewrite get_dset_eq. cbn [as_mapping]. rewrite Hps, String.eqb_refl.
  cbn [_normalized_job_data]. rewrite get_dset_eq. cbn [as_mapping].
  destruct (truthy (get "sync_owner_claimed_at" _)); rewrite ?get_ddel_ne, ?get_ddel_eq by done;
    split; [done|eauto|done|eauto].
Qed.

Lemma ownership_exclusive_witness :
  _claim_sync_ownership "sse" "t1"
    (VDict [("proxbox_sync", VDict [("sync_owner", VStr "rq_job");
                                    ("sync_owner_claimed_at", VStr "t0")])]) = None.
Proof.
  apply (ownership_exclusive "rq_job" "sse" "t0" "t1" VNone
           (VDict [("proxbox_sync", VDict [("sync_owner", VStr "rq_job");
                                           ("sync_owner_claimed_at", VStr "t0")])]));
    [discriminate|vm_compute; reflexivity|discriminate].
Defined.

(** ** Parameters *)

(** The values of a [ProxboxSyncJob.enqueue] call after normalisation, and of
    [SyncJobParams]. *)
Record SyncJobParams := {
  sp_sync_types : list string;
  sp_proxmox_endpoint_ids : list string;
  sp_netbox_endpoint_ids : list string;
  sp_netbox_vm_ids : list string;
  sp_batch_object_type : option string;
  sp_batch_object_ids : list string;
  sp_fastapi_endpoint_id : option Z
}.

Definition strs (l : list string) : pyval := VList (List.map VStr l).

Definition opt_val (o : option string) : pyval := match o with Some s => VStr s | None => VNone end.

Definition _serialize_sync_params (p : SyncJobParams) (run_id : option string) : dict pyval :=
  let sync_type :=
    match sp_sync_types p with
    | [t] => t
    | _ => match sp_netbox_vm_ids p with
           | _ :: _ => SyncTypeChoices.VIRTUAL_MACHINES
           | [] => SyncTypeChoices.ALL
           end
    end in
  let result :=
    [ ("sync_types", strs (sp_sync_types p)); ("sync_type", VStr sync_type);
      ("proxmox_endpoint_ids", strs (sp_proxmox_endpoint_ids p));
      ("netbox_endpoint_ids", strs (sp_netbox_endpoint_ids p));
      ("netbox_vm_ids", strs (sp_netbox_vm_ids p));
      ("batch_object_type", opt_val (sp_batch_object_type p));
      ("batch_object_ids", strs (sp_batch_object_ids p)) ] in
  let result :=
    match sp_fastapi_endpoint_id p with
    | Some id => dset "fastapi_endpoint_id" (VInt id) result
    | None => result
    end in
  match run_id with
  | Some (String _ _ as id) => dset "run_id" (VStr id) result
  | _ => result
  end.

Definition _coerce_fastapi_endpoint_id (value : pyval) : option Z :=
  match value with VNone | VBool _ => None | _ => py_int value end.

(** The keyword arguments of [enqueue] that concern the sync; [None] where the
    caller leaves one out. *)
Record enqueue_kwargs := {
  kw_sync_types : option (list pyval);
  kw_sync_type : option pyval;
  kw_proxmox_endpoint_ids : list pyval;
  kw_netbox_endpoint_ids : list pyval;
  kw_netbox_vm_ids : list pyval;
  kw_batch_object_type : option pyval;
  kw_batch_object_ids : list pyval;
  kw_fastapi_endpoint_id : option pyval
}.

Definition _pop_enqueued_sync_types (kw : enqueue_kwargs) : list string :=
  match kw_sync_types kw, kw_sync_type kw with
  | Some l, _ => normalize_sync_types (List.map str l)
  | None, Some t => normalize_sync_types [str t]
  | None, None => [SyncTypeChoices.ALL]
  end.

Definition _normalize_enqueued_backend_pin (kw : enqueue_kwargs) : option Z :=
  match kw_fastapi_endpoint_id kw with
  | None => None
  | Some v => _coerce_fastapi_endpoint_id v
  end.

Definition _stringified_values (values : list pyval) : list string :=
  List.filter nonempty (List.map str values).

Definition _enqueued_sync_params (kw : enqueue_kwargs) : SyncJobParams :=
  {| sp_sync_types := _pop_enqueued_sync_types kw;
     sp_proxmox_endpoint_ids := _stringified_values (kw_proxmox_endpoint_ids kw);
     sp_netbox_endpoint_ids := _stringified_values (kw_netbox_endpoint_ids kw);
     sp_netbox_vm_ids := _stringified_values (kw_netbox_vm_ids kw);
     sp_batch_object_type := option_map str (kw_batch_object_type kw);
     sp_batch_object_ids := _normalize_batch_object_ids (kw_batch_object_ids kw);
     sp_fastapi_endpoint_id := _normalize_enqueued_backend_pin kw |}.

(** What [enqueue] saves on the job row. *)
Definition _persist_enqueued_sync_params (p : SyncJobParams) : pyval :=
  VDict [("proxbox_sync", VDict [("params", VDict (_serialize_sync_params p None))])].

(** The digits of [Proxbox Sync: Virtual machine <id>]. *)
Definition targeted_vm_prefix : string := "Proxbox Sync: Virtual machine ".

Definition targeted_vm_id (name : string) : option string :=
  if startswith targeted_vm_prefix name then
    let digits := drop_str (String.length targeted_vm_prefix) name in
    if (nonempty digits && all_chars is_digit digits)%bool then Some digits else None
  else None.

Definition _infer_targeted_vm_job_params (name : string) : option SyncJobParams :=
  match targeted_vm_id (strip name) with
  | None => None
  | Some vm_id =>
      Some {| sp_sync_types := _TARGETED_VM_SYNC_TYPES; sp_proxmox_endpoint_ids := [];
              sp_netbox_endpoint_ids := []; sp_netbox_vm_ids := [vm_id];
              sp_batch_object_type := None; sp_batch_object_ids := [];
              sp_fastapi_endpoint_id := None |}
  end.

Definition LEGACY_PROXBOX_RQ_QUEUE := "netbox_proxbox.sync".
Definition PROXBOX_SYNC_QUEUE_NAME := "default".
Definition default_label := "Proxbox Sync".

Definition is_proxbox_sync_job (data : pyval) (queue_name name : string) : bool :=
  let name := strip name in
  (match data with VDict d => dmem "proxbox_sync" d | _ => false end
   || String.eqb queue_name LEGACY_PROXBOX_RQ_QUEUE
   || (String.eqb name default_label
       && mem_str queue_name [""; PROXBOX_SYNC_QUEUE_NAME; LEGACY_PROXBOX_RQ_QUEUE])
   || match targeted_vm_id name with Some _ => true | None => false end)%bool.

Definition SYNC_JOB_TIMEOUT_DEFAULT := 7200.
Definition SYNC_JOB_TIMEOUT_MIN := 3600.
Definition SYNC_JOB_TIMEOUT_MAX := 604800.

(** [stored] is the persisted setting, [None] where reading it raises. *)
Definition configured_sync_job_timeout (stored : option Z) : Z :=
  match stored with
  | None => SYNC_JOB_TIMEOUT_DEFAULT
  | Some timeout =>
      if ((SYNC_JOB_TIMEOUT_MIN <=? timeout) && (timeout <=? SYNC_JOB_TIMEOUT_MAX))%bool
      then timeout else SYNC_JOB_TIMEOUT_DEFAULT
  end.

(** The string fields as the schema returns them, stripped. *)
Definition strip_params (p : SyncJobParams) : SyncJobParams :=
  {| sp_sync_types := List.map strip (sp_sync_types p);
     sp_proxmox_endpoint_ids := List.map strip (sp_proxmox_endpoint_ids p);
     sp_netbox_endpoint_ids := List.map strip (sp_netbox_endpoint_ids p);
     sp_netbox_vm_ids := List.map strip (sp_netbox_vm_ids p);
     sp_batch_object_type := option_map strip (sp_batch_object_type p);
     sp_batch_object_ids := List.map strip (sp_batch_object_ids p);
     sp_fastapi_endpoint_id := sp_fastapi_endpoint_id p |}.

(** The dictionary holds exactly typed values for the fields of the schema. *)
Definition typed_params (d : dict pyval) (p : SyncJobParams) : Prop :=
  get "sync_types" d = strs (sp_sync_types p) /\
  get "proxmox_endpoint_ids" d = strs (sp_proxmox_endpoint_ids p) /\
  get "netbox_endpoint_ids" d = strs (sp_netbox_endpoint_ids p) /\
  get "netbox_vm_ids" d = strs (sp_netbox_vm_ids p) /\
  get "batch_object_type" d = opt_val (sp_batch_object_type p) /\
  get "batch_object_ids" d = strs (sp_batch_object_ids p) /\
  get "fastapi_endpoint_id" d =
    match sp_fastapi_endpoint_id p with Some z => VInt z | None => VNone end /\
  (get "run_id" d = VNone).

Section Replay.
(** [SyncJobParams.model_validate], through the field of [SyncJobData]. *)
Variable validate_params : pyval -> result SyncJobParams.

Definition block_of (data : pyval) : dict pyval :=
  as_mapping (get "proxbox_sync" (as_mapping data)).

Definition proxbox_sync_params_from_job (name : string) (data : pyval) : result SyncJobParams :=
  let block := block_of data in
  let raw_params := as_mapping (get "params" block) in
  match validate_params (dget_or "params" (VDict []) block) with
  | Err e => Err e
  | Ok params =>
      let sync_types :=
        match sp_sync_types params with
        | _ :: _ => normalize_sync_types (sp_sync_types params)
        | [] =>
            if truthy (get "sync_type" raw_params)
            then normalize_sync_types [str (get "sync_type" raw_params)]
            else [SyncTypeChoices.ALL]
        end in
      let rebuilt :=
        {| sp_sync_types := sync_types;
           sp_proxmox_endpoint_ids := sp_proxmox_endpoint_ids params;
           sp_netbox_endpoint_ids := sp_netbox_endpoint_ids params;
           sp_netbox_vm_ids := sp_netbox_vm_ids params;
           sp_batch_object_type := sp_batch_object_type params;
           sp_batch_object_ids := sp_batch_object_ids params;
           sp_fastapi_endpoint_id := sp_fastapi_endpoint_id params |} in
      match bool_decide (sync_types = [SyncTypeChoices.ALL]), sp_netbox_vm_ids params,
            _infer_targeted_vm_job_params name with
      | true, [], Some inferred =>
          Ok {| sp_sync_types := sp_sync_types inferred;
                sp_proxmox_endpoint_ids := sp_proxmox_endpoint_ids inferred;
                sp_netbox_endpoint_ids := sp_netbox_endpoint_ids inferred;
                sp_netbox_vm_ids := sp_netbox_vm_ids inferred;
                sp_batch_object_type := sp_batch_object_type inferred;
                sp_batch_object_ids := sp_batch_object_ids inferred;
                sp_fastapi_endpoint_id := sp_fastapi_endpoint_id params |}
      | _, _, _ => Ok rebuilt
      end
  end.

(** Documented behaviour of the schema: typed values are accepted as they are,
    with white space stripped from strings. *)
Definition accepts_typed : Prop :=
  forall d p, typed_params d p -> validate_params (VDict d) = Ok (strip_params p).

Lemma serialize_typed (p : SyncJobParams) : typed_params (_serialize_sync_params p None) p.
Proof.
  unfold typed_params, _serialize_sync_params.
  destruct (sp_fastapi_endpoint_id p); repeat split; try (by cbn); by rewrite ?get_dset_eq.
Qed.

Lemma enqueued_types (kw : enqueue_kwargs) :
  normalize_sync_types (_pop_enqueued_sync_types kw) = _pop_enqueued_sync_types kw /\
  List.map strip (_pop_enqueued_sync_types kw) = _pop_enqueued_sync_types kw /\
  _pop_enqueued_sync_types kw <> [].
Proof.
  assert (Hn : exists l, _pop_enqueued_sync_types kw = normalize_sync_types l).
  { unfold _pop_enqueued_sync_types. destruct (kw_sync_types kw), (kw_sync_type kw); eauto.
    exists [SyncTypeChoices.ALL]. by vm_compute. }
  destruct Hn as [l ->]. split; [apply normalize_idempotent|]. split.
  - rewrite <- (List.map_id (normalize_sync_types l)) at 2. apply List.map_ext_in.
    intros t Ht%list_elem_of_In%normalize_elem. apply allowed_strip.
    destruct Ht as [->|Ht]; [apply (bool_decide_eq_true_1 _); by vm_compute|].
    revert t Ht. apply Forall_forall.
    apply (bool_decide_unpack (Forall (fun t => t ∈ _ALLOWED_SYNC_SLUGS) _SYNC_STAGE_ORDER)).
    by vm_compute.
  - destruct (normalize_cases l) as [[_ ->]|(_ & [t Ht] & ->)]; [done|]. intros Hnil.
    rewrite <- normalize_loop_elem, <- (sort_by_elem _STAGE_ORDER_INDEX), Hnil in Ht.
    by apply not_elem_of_nil in Ht.
Qed.

(** a replayed job runs with the parameters it was enqueued with. The
    parameters rebuilt from the row that [enqueue] saved are the normalised
    arguments of the call, the backend pin included, except that a job whose
    name designates a virtual machine and whose selection is everything is
    rebuilt as the run of that machine, still with its backend pin. *)
Theorem enqueued_params_replayed (name : string) (kw : enqueue_kwargs) :
  accepts_typed ->
  let p := _enqueued_sync_params kw in
  exists q, proxbox_sync_params_from_job name (_persist_enqueued_sync_params p) = Ok q /\
    sp_fastapi_endpoint_id q = sp_fastapi_endpoint_id p /\
    (q = strip_params p \/
     sp_sync_types p = [SyncTypeChoices.ALL] /\ sp_netbox_vm_ids p = [] /\
     exists vm, targeted_vm_id (strip name) = Some vm /\ sp_netbox_vm_ids q = [vm] /\
       sp_sync_types q = _TARGETED_VM_SYNC_TYPES).
Proof.
  intros Hacc p. unfold proxbox_sync_params_from_job, _persist_enqueued_sync_params.
  change (dget_or "params" (VDict []) _) with (VDict (_serialize_sync_params p None)).
  rewrite (Hacc _ p (serialize_typed p)).
  destruct (enqueued_types kw) as (Hidem & Hstrip & Hne).
  assert (Hty : sp_sync_types (strip_params p) = sp_sync_types p) by exact Hstrip.
  rewrite Hty. change (sp_sync_types p) with (_pop_enqueued_sync_types kw) in *.
  destruct (_pop_enqueued_sync_types kw) as [|t ts] eqn:Et; [done|]. rewrite <- Et in *. clear Hne.
  rewrite Hidem.
  assert (Hback : forall q, q = {| sp_sync_types := _pop_enqueued_sync_types kw;
     sp_proxmox_endpoint_ids := sp_proxmox_endpoint_ids (strip_params p);
     sp_netbox_endpoint_ids := sp_netbox_endpoint_ids (strip_params p);
     sp_netbox_vm_ids := sp_netbox_vm_ids (strip_params p);
     sp_batch_object_type := sp_batch_object_type (strip_params p);
     sp_batch_object_ids := sp_batch_object_ids (strip_params p);
     sp_fastapi_endpoint_id := sp_fastapi_endpoint_id (strip_params p) |} ->
     sp_fastapi_endpoint_id q = sp_fastapi_endpoint_id p /\ q = strip_params p).
  { intros q ->. split; [done|]. unfold strip_params. simpl. by rewrite Hstrip. }
  case_bool_decide as Hall; [|destruct (Hback _ eq_refl); eauto].
  destruct (sp_netbox_vm_ids (strip_params p)) as [|v vs] eqn:Ev; [|destruct (Hback _ eq_refl); eauto].
  unfold _infer_targeted_vm_job_params.
  destruct (targeted_vm_id (strip name)) as [vm|] eqn:Evm; [|destruct (Hback _ eq_refl); eauto].
  eexists. split; [done|]. split; [done|]. right. split; [exact Hall|]. split; [|by exists vm].
  exact (map_eq_nil _ _ Ev).
Qed.

End Replay.

(** A schema that reads the fields and strips them. *)
Definition strs_of (v : pyval) : list string :=
  match v with VList l => List.map (fun x => strip (str x)) l | _ => [] end.

Definition sample_validate (v : pyval) : result SyncJobParams :=
  let d := as_mapping v in
  Ok {| sp_sync_types := strs_of (get "sync_types" d);
        sp_proxmox_endpoint_ids := strs_of (get "proxmox_endpoint_ids" d);
        sp_netbox_endpoint_ids := strs_of (get "netbox_endpoint_ids" d);
        sp_netbox_vm_ids := strs_of (get "netbox_vm_ids" d);
        sp_batch_object_type := option_map strip (as_str (get "batch_object_type" d));
        sp_batch_object_ids := strs_of (get "batch_object_ids" d);
        sp_fastapi_endpoint_id := py_int (get "fastapi_endpoint_id" d) |}.

Lemma sample_validate_accepts : accepts_typed sample_validate.
Proof.
  assert (Hs : forall l, strs_of (strs l) = List.map strip l).
  { intros l. unfold strs_of, strs. by rewrite List.map_map. }
  intros d p (H1 & H2 & H3 & H4 & H5 & H6 & H7 & _). unfold sample_validate, strip_params.
  cbn [as_mapping]. rewrite H1, H2, H3, H4, H5, H6, H7, !Hs.
  by destruct (sp_batch_object_type p), (sp_fastapi_endpoint_id p).
Qed.

Definition sample_kwargs : enqueue_kwargs :=
  {| kw_sync_types := Some [VStr "devices"]; kw_sync_type := None;
     kw_proxmox_endpoint_ids := [VInt 7]; kw_netbox_endpoint_ids := []; kw_netbox_vm_ids := [];
     kw_batch_object_type := None; kw_batch_object_ids := [];
     kw_fastapi_endpoint_id := Some (VStr "2") |}.

Lemma enqueued_params_replayed_witness :
  exists q, proxbox_sync_params_from_job sample_validate "Proxbox Sync"
              (_persist_enqueued_sync_params (_enqueued_sync_params sample_kwargs)) = Ok q /\
    sp_fastapi_endpoint_id q = Some 2.
Proof.
  destruct (enqueued_params_replayed sample_validate "Proxbox Sync" sample_kwargs
              sample_validate_accepts) as (q & Hq & Hf & _).
  exists q. split; [exact Hq|]. rewrite Hf. reflexivity.
Defined.

(** the job timeout that is enqueued is always within the supported range,
    and is the configured one whenever that is. *)
Theorem job_timeout_in_range (stored : option Z) :
  SYNC_JOB_TIMEOUT_MIN <= configured_sync_job_timeout stored <= SYNC_JOB_TIMEOUT_MAX /\
  forall t, SYNC_JOB_TIMEOUT_MIN <= t <= SYNC_JOB_TIMEOUT_MAX ->
    configured_sync_job_timeout (Some t) = t.
Proof.
  unfold configured_sync_job_timeout, SYNC_JOB_TIMEOUT_MIN, SYNC_JOB_TIMEOUT_MAX,
    SYNC_JOB_TIMEOUT_DEFAULT.
  split; [destruct stored as [t|]; [|lia]|intros t Ht];
    destruct (Z.leb_spec 3600 t), (Z.leb_spec t 604800); simpl; lia.
Qed.
