(* ===== verification/RuntimePhases.v ===== *)
(** * Runtime evidence of a job (jobs.py)

    The phases a job records for each endpoint, and the cards and totals they
    are grouped into before they are persisted.  Runtimes are exact integers,
    in nanoseconds, rounded to milliseconds where the code rounds; a stage
    result is a dictionary, as it is on the job row. *)
From Stdlib Require Import ZArith Lia String Ascii Permutation.
From stdpp Require Import base list sets strings pretty.
From S2P Require Import Prelude SyncTypes SyncModes Deadline EndpointScope.

(** ** Numbers *)

(** [repr] of a duration of whole milliseconds, as a float of seconds. *)
Definition float_repr (t : Z) : string :=
  let ms := t / msec 1 in
  let frac := ms mod 1000 in
  let pad s := if frac <? 10 then "00" +:+ s else if frac <? 100 then "0" +:+ s else s in
  pretty (ms / 1000) +:+ "." +:+ str_or (rstrip_char "0" (pad (pretty frac))) "0".

Definition seconds (t : Z) : pyval := VFloat (float_repr t).

Definition _normalize_endpoint_id (value : pyval) : option pyval :=
  if none_or_empty value then None
  else Some match int_of_string (str value) with
            | Some n => VInt n
            | None => VStr (str value)
            end.

(** Runtimes are measured by the job itself, so the non-finite floats that the
    code would let through do not occur. *)
Definition _coerce_runtime_seconds (value : pyval) : option Z :=
  if none_or_empty value then None
  else match value with
       | VBool b => Some (sec (if b then 1 else 0))
       | VInt z => Some (sec z)
       | VFloat r | VStr r =>
           match float_of_string r with Some (Finite ns) => Some (round3 ns) | _ => None end
       | _ => None
       end.

(** ** Phases *)

Record runtime_phase := {
  phase_kind : string;
  phase_label : string;
  phase_runtime_seconds : option Z;
  phase_status : string;
  phase_summary : string;
  phase_endpoint_id : option pyval;
  phase_endpoint_name : option string;
  phase_sync_type : option string;
  phase_stream_path : option string
}.

Definition opt_text (v : pyval) : option string := if truthy v then Some (str v) else None.

Definition _endpoint_runtime_phase (endpoint_id endpoint_name : pyval) (kind label : string)
  (runtime_seconds : pyval) (status summary : string) (sync_type stream_path : pyval) :
  runtime_phase :=
  {| phase_kind := kind; phase_label := label;
     phase_runtime_seconds := _coerce_runtime_seconds runtime_seconds;
     phase_status := status; phase_summary := summary;
     phase_endpoint_id := _normalize_endpoint_id endpoint_id;
     phase_endpoint_name := opt_text endpoint_name;
     phase_sync_type := opt_text sync_type;
     phase_stream_path := opt_text stream_path |}.

(** The dictionary of a phase. *)
Definition phase_dict (p : runtime_phase) : dict pyval :=
  let add key v d := match v with Some v => d ++ [(key, v)] | None => d end in
  add "stream_path" (option_map VStr (phase_stream_path p))
    (add "sync_type" (option_map VStr (phase_sync_type p))
       (add "endpoint_name" (option_map VStr (phase_endpoint_name p))
          (add "endpoint_id" (phase_endpoint_id p)
             [ ("kind", VStr (phase_kind p)); ("label", VStr (phase_label p));
               ("runtime_seconds",
                 match phase_runtime_seconds p with Some t => seconds t | None => VNone end);
               ("status", VStr (phase_status p)); ("summary", VStr (phase_summary p)) ]))).

(** What the services of the local phases report. *)
Record service_item := {
  si_success : pyval;
  si_error : option string;
  si_endpoint_id : pyval;
  si_endpoint_name : string;
  si_runtime_seconds : pyval
}.

Record service_result := {
  sr_success : bool;
  sr_error : option string;
  sr_endpoint_id : pyval;
  sr_endpoint_name : string;
  sr_runtime_seconds : pyval;
  (* the counters its summary lists *)
  sr_counts : list Z;
  sr_per_endpoint : list service_item
}.

Definition is_success (p : runtime_phase) : bool := String.eqb (phase_status p) "success".

Definition error_or (e : option string) (dflt : string) : string :=
  match e with Some (String _ _ as t) => t | _ => dflt end.

Definition item_phase (kind label : string) (item : service_item) : runtime_phase :=
  _endpoint_runtime_phase (si_endpoint_id item) (VStr (si_endpoint_name item)) kind label
    (si_runtime_seconds item)
    match si_success item with VBool true => "success" | _ => "warning" end
    (error_or (si_error item) (label +:+ " completed")) VNone VNone.

Definition _phases_from_service_result (result : service_result) (kind label : string) :
  list runtime_phase :=
  let phases := List.map (item_phase kind label) (sr_per_endpoint result) in
  let aggregate_failed := negb (sr_success result) in
  match phases with
  | _ :: _ =>
      if (aggregate_failed && forallb is_success phases)%bool
      then phases ++
        [_endpoint_runtime_phase (sr_endpoint_id result) (VStr (sr_endpoint_name result)) kind label
           (sr_runtime_seconds result) "warning"
           (error_or (sr_error result) (label +:+ " completed")) VNone VNone]
      else phases
  | [] =>
      [_endpoint_runtime_phase (sr_endpoint_id result) (VStr (sr_endpoint_name result)) kind label
         (sr_runtime_seconds result) (if aggregate_failed then "warning" else "success")
         (error_or (sr_error result) (label +:+ " completed")) VNone VNone]
  end.

Definition stage_phase (stage : dict pyval) : runtime_phase :=
  let result_summary := match get "result_summary" stage with VDict d => d | _ => [] end in
  let sync_type := py_or (get "sync_type" stage) (VStr "sync stage") in
  let stream_path := py_or (get "stream_path" stage) (get "path" result_summary) in
  _endpoint_runtime_phase (get "endpoint_id" stage) (dget_or "endpoint_name" (VStr "") stage)
    "sse_stage" (str sync_type) (get "runtime_seconds" stage)
    match get "ok" result_summary with VBool true => "success" | _ => "warning" end
    (str (py_or stream_path (VStr "Backend SSE stage completed"))) sync_type stream_path.

Definition _phases_from_stage_results (stages_out : list (dict pyval)) : list runtime_phase :=
  List.map stage_phase stages_out.

(** ** Cards *)

Record endpoint_runtime := {
  er_endpoint_id : pyval;
  er_endpoint_name : string;
  er_runtime_seconds : Z;
  er_phases : list runtime_phase
}.

(** [getattr(endpoint, "name", None) or str(endpoint)] *)
Definition endpoint_label (e : ProxmoxEndpoint) : string :=
  str_or (endpoint_name e)
    (str_or (endpoint_domain e)
       (str_or match endpoint_ip_address e with Some a => split_first slash a | None => "" end
          ("ProxmoxEndpoint(" +:+ pretty (endpoint_pk e) +:+ ")"))).

(** The entry of one of the requested ids in the map. *)
Definition _endpoint_name_map (nb : netbox) (endpoint_id : pyval) : string :=
  match int_of_string (str endpoint_id) with
  | Some n =>
      match find_endpoint nb n with
      | Some e => endpoint_label e
      | None => "Endpoint " +:+ str endpoint_id
      end
  | None => "Endpoint " +:+ str endpoint_id
  end.

Definition add_phase (endpoint_id : pyval) (phase : runtime_phase) (bucket : endpoint_runtime) :
  endpoint_runtime :=
  let name := strip match phase_endpoint_name phase with Some n => n | None => "" end in
  {| er_endpoint_id := er_endpoint_id bucket;
     er_endpoint_name := str_or name (er_endpoint_name bucket);
     er_runtime_seconds :=
       match phase_runtime_seconds phase with
       | Some t => round3 (er_runtime_seconds bucket + t)
       | None => er_runtime_seconds bucket
       end;
     er_phases := er_phases bucket ++ [phase] |}.

Definition new_bucket (endpoint_id : pyval) : endpoint_runtime :=
  {| er_endpoint_id := endpoint_id; er_endpoint_name := ""; er_runtime_seconds := 0;
     er_phases := [] |}.

(** The endpoint a phase is filed under. *)
Definition filed_under (phase : runtime_phase) : option pyval :=
  match phase_endpoint_id phase with Some v => _normalize_endpoint_id v | None => None end.

Definition bucket_step (buckets : dict endpoint_runtime) (phase : runtime_phase) :
  dict endpoint_runtime :=
  match filed_under phase with
  | None => buckets
  | Some endpoint_id =>
      let key := str endpoint_id in
      dset key (add_phase endpoint_id phase (dget_or key (new_bucket endpoint_id) buckets)) buckets
  end.

Definition name_card (nb : netbox) (card : endpoint_runtime) : endpoint_runtime :=
  {| er_endpoint_id := er_endpoint_id card;
     er_endpoint_name := str_or (er_endpoint_name card) (_endpoint_name_map nb (er_endpoint_id card));
     er_runtime_seconds := er_runtime_seconds card;
     er_phases := er_phases card |}.

(** [sort(key=endpoint_name)], stable. *)
Fixpoint insert_card (c : endpoint_runtime) (l : list endpoint_runtime) : list endpoint_runtime :=
  match l with
  | [] => [c]
  | c' :: l' =>
      if String.leb (er_endpoint_name c) (er_endpoint_name c') then c :: l
      else c' :: insert_card c l'
  end.
Definition sort_cards (l : list endpoint_runtime) : list endpoint_runtime := foldr insert_card [] l.

Definition _build_endpoint_runtimes (nb : netbox) (phases : list runtime_phase) :
  list endpoint_runtime :=
  sort_cards (List.map (fun kv => name_card nb (snd kv)) (fold_left bucket_step phases [])).

Record runtime_summary := {
  rs_runtime_seconds : Z;
  rs_endpoint_count : nat;
  rs_endpoint_runtime_seconds : Z;
  rs_other_runtime_seconds : Z
}.

Definition zsum (l : list Z) : Z := foldr Z.add 0 l.

Definition _runtime_summary (runtime_seconds : Z) (endpoint_runtimes : list endpoint_runtime) :
  runtime_summary :=
  let endpoint_runtime_seconds := round3 (zsum (List.map er_runtime_seconds endpoint_runtimes)) in
  {| rs_runtime_seconds := runtime_seconds;
     rs_endpoint_count := length endpoint_runtimes;
     rs_endpoint_runtime_seconds := endpoint_runtime_seconds;
     rs_other_runtime_seconds := round3 (Z.max (runtime_seconds - endpoint_runtime_seconds) 0) |}.

(** ** Lemmas *)

Lemma msec_pos : 0 < msec 1.
Proof. unfold msec. lia. Qed.

Lemma round3_rounded (t : Z) : round3 t mod msec 1 = 0.
Proof.
  pose proof msec_pos. unfold round3.
  repeat case_match; unfold msec; rewrite ?Z.mul_1_l; apply Z_mod_mult.
Qed.

Lemma round3_id (t : Z) : t mod msec 1 = 0 -> round3 t = t.
Proof.
  intros Ht. unfold round3. rewrite Ht. change (2 * 0 <? msec 1) with true. cbn [msec].
  pose proof (Z.div_mod t (msec 1)) as Hd. rewrite Ht in Hd. unfold msec in *. lia.
Qed.

Lemma rounded_add (a b : Z) : a mod msec 1 = 0 -> b mod msec 1 = 0 -> (a + b) mod msec 1 = 0.
Proof.
  pose proof msec_pos. rewrite !Z.mod_divide by lia. apply Z.divide_add_r.
Qed.

Lemma coerce_rounded (v : pyval) (t : Z) : _coerce_runtime_seconds v = Some t -> t mod msec 1 = 0.
Proof.
  unfold _coerce_runtime_seconds. destruct (none_or_empty v); [done|].
  assert (Hs : forall z, sec z mod msec 1 = 0)
    by (intros z; unfold sec, msec; rewrite Z.mul_1_l;
        replace (z * 1000000000) with (z * 1000 * 1000000) by lia; apply Z_mod_mult).
  destruct v; intros Hv; try discriminate; try (injection Hv as <-; apply Hs).
  all: destruct (float_of_string _) as [[ns|]|]; simplify_eq; apply round3_rounded.
Qed.

(** The runtimes a list of phases adds up to. *)
Definition runtime_of (p : runtime_phase) : Z :=
  match phase_runtime_seconds p with Some t => t | None => 0 end.
Definition runtimes (l : list runtime_phase) : Z := zsum (List.map runtime_of l).

Definition measured (p : runtime_phase) : Prop := runtime_of p mod msec 1 = 0.

Lemma endpoint_phase_measured id name kind label t status summary ty path :
  measured (_endpoint_runtime_phase id name kind label t status summary ty path).
Proof.
  unfold measured, runtime_of. cbn. destruct (_coerce_runtime_seconds t) eqn:E; [|done].
  by eapply coerce_rounded.
Qed.

Lemma zsum_app (l1 l2 : list Z) : zsum (l1 ++ l2) = zsum l1 + zsum l2.
Proof. unfold zsum. induction l1; simpl; lia. Qed.

Lemma zsum_perm (l1 l2 : list Z) : Permutation l1 l2 -> zsum l1 = zsum l2.
Proof. unfold zsum. induction 1; simpl in *; lia. Qed.

Lemma runtimes_rounded (l : list runtime_phase) : Forall measured l -> runtimes l mod msec 1 = 0.
Proof.
  unfold runtimes. induction 1 as [|p l Hp _ IH]; [done|]. by apply rounded_add.
Qed.

(** ** Cards account for phases *)

Definition phase_key (p : runtime_phase) : option string := option_map str (filed_under p).

Definition of_key (k : string) (l : list runtime_phase) : list runtime_phase :=
  List.filter (fun p => bool_decide (phase_key p = Some k)) l.

Definition card_ok (k : string) (seen : list runtime_phase) (c : endpoint_runtime) : Prop :=
  str (er_endpoint_id c) = k /\ er_phases c = of_key k seen /\
  er_runtime_seconds c = runtimes (er_phases c).

Definition total_runtime (b : dict endpoint_runtime) : Z :=
  zsum (List.map (fun kv => er_runtime_seconds (snd kv)) b).

Definition buckets_ok (seen : list runtime_phase) (b : dict endpoint_runtime) : Prop :=
  NoDup (dkeys b) /\ (forall k c, dget k b = Some c -> card_ok k seen c) /\
  (forall p k, p ∈ seen -> phase_key p = Some k -> k ∈ dkeys b) /\
  total_runtime b = runtimes (List.filter (fun p => bool_decide (phase_key p <> None)) seen).

Lemma of_key_snoc (k : string) (seen : list runtime_phase) (p : runtime_phase) :
  of_key k (seen ++ [p]) =
  of_key k seen ++ (if bool_decide (phase_key p = Some k) then [p] else []).
Proof. unfold of_key. rewrite List.filter_app. by cbn. Qed.

Lemma total_dset (k : string) (c : endpoint_runtime) (b : dict endpoint_runtime) :
  NoDup (dkeys b) ->
  total_runtime (dset k c b) =
  total_runtime b - match dget k b with Some c0 => er_runtime_seconds c0 | None => 0 end
  + er_runtime_seconds c.
Proof.
  unfold total_runtime. induction b as [|[k' c'] b IH]; simpl; [lia|].
  rewrite NoDup_cons. intros [Hk Hnd]. destruct (String.eqb_spec k k') as [->|Hne]; simpl; [lia|].
  rewrite IH by done. lia.
Qed.

Lemma add_phase_ok (k : string) (id : pyval) (seen : list runtime_phase) (p : runtime_phase)
  (c : endpoint_runtime) :
  Forall measured (seen ++ [p]) -> phase_key p = Some k -> card_ok k seen c ->
  card_ok k (seen ++ [p]) (add_phase id p c) /\
  er_runtime_seconds (add_phase id p c) = er_runtime_seconds c + runtime_of p.
Proof.
  intros [Hs [Hp _]%Forall_cons_1]%Forall_app Hk (Hid & Hph & Hrt).
  assert (Hc : runtimes (er_phases c) mod msec 1 = 0).
  { apply runtimes_rounded. rewrite Hph. unfold of_key. apply Forall_forall.
    intros q Hq%list_elem_of_In%filter_In. rewrite Forall_forall in Hs. apply Hs, list_elem_of_In, Hq. }
  assert (Hadd : er_runtime_seconds (add_phase id p c) = er_runtime_seconds c + runtime_of p).
  { cbn. unfold measured in Hp. unfold runtime_of in *. rewrite Hrt.
    destruct (phase_runtime_seconds p); [|lia]. apply round3_id, rounded_add; [exact Hc|exact Hp]. }
  split; [|done]. split; [done|]. split.
  - cbn. by rewrite of_key_snoc, Hph, bool_decide_eq_true_2.
  - rewrite Hadd, Hrt. cbn. unfold runtimes. rewrite List.map_app, zsum_app. cbn. lia.
Qed.

Lemma uncovered_key (seen : list runtime_phase) (k : string) (b : dict endpoint_runtime) :
  (forall p k, p ∈ seen -> phase_key p = Some k -> k ∈ dkeys b) -> k ∉ dkeys b ->
  of_key k seen = [].
Proof.
  intros Hcov Hk. destruct (of_key k seen) as [|q l] eqn:E; [done|]. exfalso. apply Hk.
  assert (Hq : q ∈ of_key k seen) by (rewrite E; left).
  unfold of_key in Hq. apply list_elem_of_In, filter_In in Hq as [Hq Hb%bool_decide_eq_true].
  eapply Hcov; [by apply list_elem_of_In|done].
Qed.

Lemma filter_snoc_runtimes (q : runtime_phase -> bool) (seen : list runtime_phase)
  (p : runtime_phase) :
  runtimes (List.filter q (seen ++ [p])) =
  runtimes (List.filter q seen) + if q p then runtime_of p else 0.
Proof.
  unfold runtimes. rewrite List.filter_app, List.map_app, zsum_app. cbn. destruct (q p); cbn; lia.
Qed.

Lemma bucket_step_ok (seen : list runtime_phase) (p : runtime_phase) (b : dict endpoint_runtime) :
  Forall measured (seen ++ [p]) -> buckets_ok seen b -> buckets_ok (seen ++ [p]) (bucket_step b p).
Proof.
  intros Hm (Hnd & Hc & Hcov & Htot).
  unfold buckets_ok, bucket_step. rewrite filter_snoc_runtimes, <- Htot.
  destruct (filed_under p) as [id|] eqn:Ep; cycle 1.
  { assert (Hk : phase_key p = None) by (unfold phase_key; by rewrite Ep).
    split; [done|]. split; [|split].
    - intros k c Hkc. destruct (Hc k c Hkc) as (? & Hph & ?). split; [done|]. split; [|done].
      by rewrite of_key_snoc, Hk, app_nil_r.
    - intros q k Hq. apply elem_of_app in Hq as [Hq|Hq%list_elem_of_singleton]; [by apply Hcov|congruence].
    - rewrite bool_decide_eq_false_2 by tauto. lia. }
  assert (Hk : phase_key p = Some (str id)) by (unfold phase_key; by rewrite Ep).
  set (k := str id) in *.
  assert (Hc0 : card_ok k seen (dget_or k (new_bucket id) b)).
  { unfold dget_or. destruct (dget k b) as [c|] eqn:Eb; [by apply Hc|].
    apply dget_none in Eb. split; [done|]. split; [|done]. symmetry. by eapply uncovered_key. }
  destruct (add_phase_ok k id seen p _ Hm Hk Hc0) as [Hnew Hrt].
  split; [by apply dkeys_dset_nodup|]. split; [|split].
  - intros k' c. destruct (decide (k' = k)) as [->|Hne].
    + rewrite dget_dset_eq. by intros [= <-].
    + rewrite dget_dset_ne by done. intros (? & Hph & ?)%Hc. split; [done|]. split; [|done].
      rewrite of_key_snoc, Hph, bool_decide_eq_false_2, app_nil_r; [done|congruence].
  - intros q k' Hq Hqk. apply dkeys_dset_elem.
    apply elem_of_app in Hq as [Hq|Hq%list_elem_of_singleton]; [right; by eapply Hcov|left; congruence].
  - rewrite bool_decide_eq_true_2 by (rewrite Hk; done). rewrite total_dset, Hrt by done.
    unfold dget_or. destruct (dget k b); cbn; lia.
Qed.

Lemma buckets_fold (phases : list runtime_phase) (seen : list runtime_phase)
  (b : dict endpoint_runtime) :
  Forall measured (seen ++ phases) -> buckets_ok seen b ->
  buckets_ok (seen ++ phases) (fold_left bucket_step phases b).
Proof.
  revert seen b. induction phases as [|p phases IH]; intros seen b Hm Hb; simpl.
  - by rewrite app_nil_r.
  - change (p :: phases) with ([p] ++ phases) in *. rewrite app_assoc in *. apply IH; [done|].
    apply bucket_step_ok; [|done]. by apply Forall_app in Hm as [? _].
Qed.

Lemma insert_card_perm (c : endpoint_runtime) (l : list endpoint_runtime) :
  Permutation (insert_card c l) (c :: l).
Proof.
  induction l as [|c' l IH]; simpl; [done|]. destruct (String.leb _ _); [done|].
  rewrite IH. by constructor.
Qed.

Lemma sort_cards_perm (l : list endpoint_runtime) : Permutation (sort_cards l) l.
Proof. induction l as [|c l IH]; simpl; [done|]. rewrite insert_card_perm. by constructor. Qed.

(** the runtime cards of a job account for its phases. Every phase that
    names an endpoint is on the card of that endpoint, in the order recorded;
    no two cards are of one endpoint and none is empty; each card's runtime is
    the sum of its phases' runtimes; and the totals of the summary are the sum
    over all those phases and what is left of the whole run. *)
Theorem endpoint_runtimes_conserve (nb : netbox) (phases : list runtime_phase) (whole : Z) :
  Forall measured phases ->
  let cards := _build_endpoint_runtimes nb phases in
  let filed := List.filter (fun p => bool_decide (phase_key p <> None)) phases in
  NoDup (List.map (fun c => str (er_endpoint_id c)) cards) /\
  (forall c, c ∈ cards -> er_phases c = of_key (str (er_endpoint_id c)) phases /\
     er_runtime_seconds c = runtimes (er_phases c)) /\
  (forall p k, p ∈ phases -> phase_key p = Some k ->
     exists c, c ∈ cards /\ str (er_endpoint_id c) = k /\ p ∈ er_phases c) /\
  rs_endpoint_runtime_seconds (_runtime_summary whole cards) = runtimes filed /\
  rs_other_runtime_seconds (_runtime_summary whole cards) = round3 (Z.max (whole - runtimes filed) 0).
Proof.
  intros Hm cards filed.
  assert (Hinit : buckets_ok [] []) by (split; [constructor|]; split; [done|]; split; [|done];
    by intros ? ? ?%not_elem_of_nil).
  destruct (buckets_fold phases [] [] Hm Hinit) as (Hnd & Hc & Hcov & Htot).
  set (b := fold_left bucket_step phases []) in *.
  assert (Hperm : Permutation cards (List.map (fun kv => name_card nb (snd kv)) b))
    by apply sort_cards_perm.
  assert (Hin : forall c, c ∈ cards <-> exists k c0, (k, c0) ∈ b /\ c = name_card nb c0).
  { intros c. rewrite Hperm, list_elem_of_In, in_map_iff. split.
    - intros ([k c0] & <- & Hb%list_elem_of_In). eauto.
    - intros (k & c0 & Hb%list_elem_of_In & ->). by exists (k, c0). }
  assert (Hcards : forall k c0, (k, c0) ∈ b -> card_ok k phases c0)
    by (intros k c0 Hb; apply Hc, dget_nodup; done).
  assert (Htotal : zsum (List.map er_runtime_seconds cards) = runtimes filed).
  { rewrite (zsum_perm _ _ (Permutation_map er_runtime_seconds Hperm)), List.map_map. exact Htot. }
  assert (Hround : round3 (runtimes filed) = runtimes filed).
  { apply round3_id, runtimes_rounded, Forall_forall. intros p Hp%list_elem_of_In%filter_In.
    rewrite Forall_forall in Hm. apply Hm, list_elem_of_In, Hp. }
  unfold _runtime_summary. cbn [rs_endpoint_runtime_seconds rs_other_runtime_seconds].
  rewrite Htotal, Hround. split; [|split; [|split; [|done]]].
  - rewrite (Permutation_map _ Hperm), List.map_map.
    replace (List.map _ b) with (dkeys b); [done|]. apply map_ext_in.
    intros [k c0] Hb%list_elem_of_In. symmetry. by apply (Hcards k c0 Hb).
  - intros c (k & c0 & Hb & ->)%Hin. destruct (Hcards k c0 Hb) as (Hid & Hph & Hrt). cbn.
    by rewrite Hid.
  - intros p k Hp Hk. pose proof (Hcov p k Hp Hk) as Hkey.
    destruct (dget k b) as [c0|] eqn:E; [|by apply dget_none in E].
    destruct (Hc k c0 E) as (Hid & Hph & _). exists (name_card nb c0).
    split; [apply Hin; eauto using dget_in|]. split; [done|]. cbn. rewrite Hph. unfold of_key.
    apply list_elem_of_In, filter_In. split; [by apply list_elem_of_In|by apply bool_decide_eq_true].
Qed.

(** Two phases of endpoint 7, one under its text form, and one of no endpoint. *)
Definition sample_phases : list runtime_phase :=
  [ _endpoint_runtime_phase (VInt 7) (VStr "") "cluster" "Cluster/node sync" (seconds (msec 1500))
      "success" "" VNone VNone;
    _endpoint_runtime_phase (VStr "7") (VStr " pve-7 ") "sse_stage" "devices" (seconds (msec 2250))
      "success" "" (VStr "devices") VNone;
    _endpoint_runtime_phase VNone (VStr "") "firewall" "Firewall sync" VNone "warning" "" VNone VNone ].

Example sample_cards :
  List.map (fun c => (er_endpoint_id c, er_endpoint_name c, er_runtime_seconds c))
    (_build_endpoint_runtimes sample_netbox sample_phases) = [(VInt 7, "pve-7", msec 3750)].
Proof. vm_compute. reflexivity. Qed.

Lemma endpoint_runtimes_conserve_witness :
  Forall measured sample_phases /\
  rs_endpoint_runtime_seconds
    (_runtime_summary (sec 10) (_build_endpoint_runtimes sample_netbox sample_phases)) =
  runtimes (List.filter (fun p => bool_decide (phase_key p <> None)) sample_phases).
Proof.
  assert (Hm : Forall measured sample_phases) by (repeat constructor; apply endpoint_phase_measured).
  split; [exact Hm|]. apply (endpoint_runtimes_conserve sample_netbox sample_phases (sec 10) Hm).
Defined.
