(* ===== verification/Preflight.v ===== *)
(** * Preflight of a job (jobs.py, views/backend_sync.py)

    Before a sync writes anything: the verification of the stored backend key
    with its bounded retries, the proof that the backend writes to this NetBox
    and to no other, and the bounded push of the selected Proxmox endpoints.
    The HTTP calls behind a push, the health check, the key check and the
    approval and fingerprint of stored credentials are operations of the class
    [PreflightEnv]; any of them may raise. *)
From Stdlib Require Import ZArith Lia String.
From stdpp Require Import base list sets strings pretty.
From S2P Require Import Prelude SyncTypes SyncModes Effects Deadline StageExec EndpointScope RuntimePhases.

(** ** Data *)

Record NetBoxEndpoint := {
  nbe_pk : Z;
  nbe_name : string;
  nbe_enabled : bool;
  nbe_domain : string;
  nbe_ip_address : option string;
  nbe_port : Z;
  nbe_verify_ssl : bool;
  nbe_effective_token_version : string;
  nbe_pushed_credential_fingerprint : string
}.

Record PreflightResult := {
  pf_phases : list runtime_phase;
  blocking_error : option string;
  hint : option string
}.

(** The outcomes of pushing the NetBox endpoints. *)
Record _NetBoxEndpointPush := {
  np_endpoints : list NetBoxEndpoint;
  np_failures : list string;
  np_succeeded : bool
}.

Class PreflightEnv (E : Type) := {
  pf_netbox_endpoints : E -> list NetBoxEndpoint;
  (* wait_for_backend_ready(): readiness and its message *)
  pf_wait_ready : option Z -> E -> result (bool * string) * E;
  (* ensure_backend_key_registered(): outcome, message, failure details *)
  pf_key : option Z -> option Z -> E -> result (bool * string * dict pyval) * E;
  (* sync_netbox_endpoint_to_backend() and sync_proxmox_endpoint_to_backend():
     accepted, or the error *)
  pf_push_netbox : NetBoxEndpoint -> Z -> E -> result (() + string) * E;
  pf_push_proxmox : ProxmoxEndpoint -> Z -> E -> result (() + string) * E;
  (* list_backend_netbox_endpoints() *)
  pf_list_netbox : BackendRequestContext -> Z -> E -> (list (dict pyval) + string) * E;
  (* approved_connection_allows_secrets() *)
  pf_netbox_approved : NetBoxEndpoint -> E -> bool;
  pf_proxmox_approved : ProxmoxEndpoint -> E -> bool;
  (* the fingerprint of the credentials a push would send *)
  pf_fingerprint : NetBoxEndpoint -> E -> result string;
  (* _proxmox_row_is_current() *)
  pf_row_current : ProxmoxEndpoint -> dict pyval -> E -> bool;
  (* proxmox_endpoint_credentials_rotated_since_last_push() *)
  pf_rotated : ProxmoxEndpoint -> E -> result bool;
  (* refresh_endpoint_timezone() *)
  pf_timezone : ProxmoxEndpoint -> Z -> E -> result bool * E
}.

Definition _preflight_hint (notes : list string) : option string :=
  match notes with
  | [] => None
  | _ => Some ("Preflight reported: " +:+ join "; " notes +:+ ".")
  end.

Definition _blocking_preflight (notes : list string) (message : string) : PreflightResult :=
  {| pf_phases := []; blocking_error := Some message; hint := _preflight_hint notes |}.

Definition _missing_backend_preflight (fastapi_endpoint_id : option Z) : PreflightResult :=
  let selected :=
    match fastapi_endpoint_id with
    | Some id => " (selected endpoint id " +:+ pretty id +:+ ")"
    | None => ""
    end in
  {| pf_phases := [];
     blocking_error :=
       Some ("Proxbox preflight failed: no usable proxbox-api backend is " +:+
             "configured in NetBox" +:+ selected +:+ ". Every sync stage runs through that " +:+
             "backend, so none of them can run. Add an enabled FastAPI endpoint " +:+
             "under Proxbox → Endpoints → FastAPI, then run the sync again.");
     hint := _preflight_hint ["no enabled FastAPI endpoint is configured in NetBox"] |}.

(** ** Whose row does the backend hold? *)

Definition _netbox_connection_target (domain ip_address : string) : string :=
  str_or domain ip_address.

Definition _netbox_identity_host (row : dict pyval) : string * string :=
  (normal_domain (row_text "domain" row), normal_address (row_text "ip_address" row)).

Definition _netbox_endpoint_identity (e : NetBoxEndpoint) : string * string :=
  (normal_domain (nbe_domain e),
   match nbe_ip_address e with Some a => normal_address a | None => "" end).

Definition _netbox_row_is_current (e : NetBoxEndpoint) (row : dict pyval) : bool :=
  let want_token_version := strip (str_or (nbe_effective_token_version e) "v1") in
  (dmem "verify_ssl" row && dmem "token_version" row &&
   Bool.eqb (truthy (get "verify_ssl" row)) (nbe_verify_ssl e) &&
   String.eqb (strip (row_text "token_version" row)) want_token_version)%bool.

Definition want_port (e : NetBoxEndpoint) : Z := if nbe_port e =? 0 then 443 else nbe_port e.

(** The stored row dials this endpoint's host and port, under the trust
    settings of this endpoint. *)
Definition row_points_at (e : NetBoxEndpoint) (row : dict pyval) : bool :=
  let want := let '(d, ip) := _netbox_endpoint_identity e in _netbox_connection_target d ip in
  let got := let '(d, ip) := _netbox_identity_host row in _netbox_connection_target d ip in
  (nonempty want && nonempty got && String.eqb got want &&
   match dget "port" row with
   | Some v => bool_decide (py_int v = Some (want_port e))
   | None => false
   end && _netbox_row_is_current e row)%bool.

Definition backend_holds_netbox_endpoint (approved : bool) (e : NetBoxEndpoint)
  (existing_endpoints : list (dict pyval)) : bool :=
  match existing_endpoints with
  | [item] => (approved && row_points_at e item)%bool
  | _ => false
  end.

Section Preflight.
Context {E : Type} `{!Env E, !PreflightEnv E}.

(** An operation of the environment, recorded in the history. *)
Definition in_history {A} (op : E -> A * E) (ev : A -> option event) : M (world E) A := fun w =>
  let '(a, e) := op (env w) in
  (Ok a, {| env := e;
            history := match ev a with Some ev => ev :: history w | None => history w end;
            sync_mode_vars := sync_mode_vars w; wire_capture := wire_capture w |}).

Definition reraise {A} (m : M (world E) (result A)) : M (world E) A := r ← m; lift r.

(** [deadline.timeout(seconds, time.monotonic()) if deadline else seconds] *)
Definition request_timeout (deadline : option SyncJobDeadline) (seconds : Z) : M (world E) Z :=
  match deadline with
  | Some d => now ← monotonic; lift (timeout d seconds now)
  | None => mret seconds
  end.

(** ** The backend key *)

Definition BACKEND_KEY_RETRY_INITIAL_DELAY : Z := sec 2.
Definition BACKEND_KEY_RETRY_MAX_DELAY : Z := sec 60.
Definition BACKEND_KEY_RETRY_TOTAL_BUDGET : Z := sec 180.
Definition BACKEND_KEY_RETRY_MAX_ATTEMPTS : nat := 10.
Definition _BACKEND_KEY_RETRY_CODES : list string :=
  ["backend_throttled"; "backend_timeout"; "backend_unreachable"; "backend_request_failed"].

Definition _backend_key_retryable (details : dict pyval) : bool :=
  (match get "status_code" details with VInt z => (z =? 429) || (z =? 503) | _ => false end
   || match get "code" details with VStr c => mem_str c _BACKEND_KEY_RETRY_CODES | _ => false end)%bool.

Definition key_check (endpoint_id : option Z) (timeout : option Z) :
  M (world E) (bool * string * dict pyval) :=
  reraise (in_history (pf_key endpoint_id timeout)
             (fun r => Some (EvKeyCheck match r with Ok (ok, _, _) => ok | Err _ => false end))).

Definition key_preflight_failed : exn :=
  RuntimeError "Backend API-key preflight failed; no sync stage was started.".

(** [retry_after if retry_after is not None else min(delay, ...)] *)
Definition retry_wait (now_utc : Z) (details : dict pyval) (delay : Z) : Z :=
  match parse_retry_after env_http_date now_utc (get "retry_after" details)
          BACKEND_KEY_RETRY_MAX_DELAY with
  | Some retry_after => retry_after
  | None => Z.min delay BACKEND_KEY_RETRY_MAX_DELAY
  end.

(** How long to wait before the next attempt. *)
Definition key_wait (deadline : option SyncJobDeadline) (details : dict pyval) (delay : Z) :
  M (world E) Z :=
  now_utc ← gets (fun w => env_utcnow (env w));
  let wait := retry_wait now_utc details delay in
  match deadline with
  | Some d => now ← monotonic; mret (cap d wait now)
  | None => mret wait
  end.

(** [while True]: [attempt] is the number of the attempt about to be made;
    [None] when the fuel does not suffice, see [key_loop_returns]. *)
Fixpoint key_loop (fuel : nat) (endpoint_id : option Z) (deadline : option SyncJobDeadline)
  (attempt : nat) (elapsed_wait delay : Z) : M (world E) (option ()) :=
  match fuel with
  | O => mret None
  | S fuel' =>
      timeout ← match deadline with
                | Some d => now ← monotonic; t ← lift (timeout d (sec 15) now); mret (Some t)
                | None => mret None
                end;
      checked ← key_check endpoint_id timeout;
      let '(key_ok, _, details) := checked in
      if (key_ok : bool) then mret (Some ())
      else
        wait ← key_wait deadline details delay;
        if (negb (_backend_key_retryable details)
            || Nat.leb BACKEND_KEY_RETRY_MAX_ATTEMPTS attempt
            || (BACKEND_KEY_RETRY_TOTAL_BUDGET <? elapsed_wait + wait)
            || (wait <=? 0))%bool
        then
          match deadline with
          | Some d =>
              now ← monotonic;
              raise (if remaining d now <=? 0 then SyncJobDeadlineReached "Job deadline reached."
                     else key_preflight_failed)
          | None => raise key_preflight_failed
          end
        else
          _ ← sleep wait;
          key_loop fuel' endpoint_id deadline (S attempt) (elapsed_wait + wait)
            (Z.min (delay * 2) BACKEND_KEY_RETRY_MAX_DELAY)
  end.

Definition _require_backend_key (endpoint_id : option Z) (deadline : option SyncJobDeadline) :
  M (world E) (option ()) :=
  key_loop BACKEND_KEY_RETRY_MAX_ATTEMPTS endpoint_id deadline 1 0 BACKEND_KEY_RETRY_INITIAL_DELAY.

(** ** Reachability *)

(** The notes of the two checks; neither check stops the run. *)
Definition _record_backend_reachability (ready : bool) (message : string) : list string :=
  if ready then [] else ["the proxbox-api backend failed its health check (" +:+ message +:+ ")"].

Definition _record_backend_key_check (key_ok : bool) (message : string) : list string :=
  if key_ok then [] else ["the proxbox-api API key was not registered (" +:+ message +:+ ")"].

Definition _probe_backend_preflight (fastapi_endpoint_id : option Z)
  (deadline : option SyncJobDeadline) : M (world E) (list string) :=
  time_budget ← match deadline with
                | Some d => now ← monotonic; mret (Some (remaining d now))
                | None => mret None
                end;
  ready ← reraise (in_history (pf_wait_ready time_budget) (fun _ => None));
  let '(ready, ready_msg) := ready in
  timeout ← match deadline with
            | Some d => now ← monotonic; t ← lift (timeout d (sec 15) now); mret (Some t)
            | None => mret None
            end;
  checked ← key_check fastapi_endpoint_id timeout;
  let '(key_ok, key_msg, _) := checked in
  mret (_record_backend_reachability ready ready_msg ++ _record_backend_key_check key_ok key_msg).

(** ** The NetBox endpoints *)

Definition push_netbox (e : NetBoxEndpoint) (timeout : Z) : M (world E) (() + string) :=
  reraise (in_history (pf_push_netbox e timeout)
             (fun r => Some (EvPush (NetBoxRow (nbe_pk e))
                               match r with Ok (inl _) => true | _ => false end))).

Definition _push_one_netbox_endpoint (deadline : option SyncJobDeadline)
  (endpoint : NetBoxEndpoint) (push : _NetBoxEndpointPush) : M (world E) _NetBoxEndpointPush :=
  let endpoints := np_endpoints push ++ [endpoint] in
  timeout ← request_timeout deadline (sec 30);
  outcome ← push_netbox endpoint timeout;
  mret match outcome with
       | inl _ => {| np_endpoints := endpoints; np_failures := np_failures push; np_succeeded := true |}
       | inr error =>
           {| np_endpoints := endpoints;
              np_failures := np_failures push ++ ["'" +:+ nbe_name endpoint +:+ "': " +:+ error];
              np_succeeded := np_succeeded push |}
       end.

Definition _push_enabled_netbox_endpoints (deadline : option SyncJobDeadline) :
  M (world E) _NetBoxEndpointPush :=
  endpoints ← gets (fun w => List.filter nbe_enabled (pf_netbox_endpoints (env w)));
  for_each endpoints {| np_endpoints := []; np_failures := []; np_succeeded := false |}
    (_push_one_netbox_endpoint deadline).

Definition _no_enabled_netbox_endpoint (notes : list string) : PreflightResult :=
  _blocking_preflight (notes ++ ["no enabled NetBox endpoint exists in this NetBox instance"])
    ("Proxbox preflight failed: this NetBox has no enabled NetBox endpoint, " +:+
     "so proxbox-api is not authorized to write to it. A disabled or missing " +:+
     "NetBox endpoint is a hard stop, not a warning — any credentials the " +:+
     "backend still holds are stale or belong to another NetBox instance, and " +:+
     "syncing with them would write outside this instance's control. Enable " +:+
     "(or create) the NetBox endpoint under Proxbox → Endpoints, then run the " +:+
     "sync again.").

Definition _unverifiable_netbox_endpoint (base_url : string) (notes : list string)
  (failure_text list_error : string) : PreflightResult :=
  _blocking_preflight notes
    ("Proxbox preflight failed: this run could not push its NetBox " +:+
     "endpoint (" +:+ failure_text +:+ "), and could not read back which NetBox " +:+
     "endpoint proxbox-api holds either (" +:+ list_error +:+ "). Without one of " +:+
     "those two the backend's credentials cannot be shown to belong to " +:+
     "this NetBox, and syncing with somebody else's would write this " +:+
     "estate's Proxmox inventory into their instance. Check that " +:+
     "proxbox-api is running and reachable at " +:+ base_url +:+ " and that the " +:+
     "FastAPI endpoint token in NetBox matches the one it expects, then " +:+
     "run the sync again.").

Definition _empty_backend_netbox_endpoints (base_url : string) (notes : list string)
  (failure_text : string) : PreflightResult :=
  _blocking_preflight notes
    ("Proxbox preflight failed: proxbox-api holds no NetBox endpoint and " +:+
     "this run could not push one (" +:+ failure_text +:+ "). Without it the " +:+
     "backend has no credentials to write to NetBox, so every sync stage " +:+
     "would fail with an unrelated-looking error. Check that proxbox-api " +:+
     "is running and reachable at " +:+ base_url +:+ ", that the FastAPI endpoint " +:+
     "token in NetBox matches the one it expects, then run the sync again.").

Definition _rotated_backend_netbox_endpoint (base_url : string) (notes : list string)
  (failure_text : string) : PreflightResult :=
  _blocking_preflight notes
    ("Proxbox preflight failed: this run could not push its NetBox " +:+
     "endpoint (" +:+ failure_text +:+ "), and the NetBox endpoint record " +:+
     "proxbox-api holds was written with different credentials than " +:+
     "this NetBox endpoint now carries (its API token was rotated, " +:+
     "or has never been pushed successfully). Continuing would let " +:+
     "the backend keep writing with a credential this NetBox has " +:+
     "replaced. Check that proxbox-api is running and reachable at " +:+
     base_url +:+ " and that the FastAPI endpoint token in NetBox " +:+
     "matches the one it expects, then run the sync again so the " +:+
     "current token is pushed.").

Definition _foreign_backend_netbox_endpoint (base_url : string) (notes : list string)
  (failure_text : string) (backend_rows : list (dict pyval)) : PreflightResult :=
  _blocking_preflight notes
    ("Proxbox preflight failed: this run could not push its NetBox " +:+
     "endpoint (" +:+ failure_text +:+ "), and the " +:+
     pretty (length backend_rows) +:+ " NetBox endpoint record(s) proxbox-api " +:+
     "already holds do not point at this NetBox. Continuing would " +:+
     "let the backend write to whichever NetBox those stored " +:+
     "credentials belong to instead of this one. Check that " +:+
     "proxbox-api is reachable at " +:+ base_url +:+ " and that its NetBox " +:+
     "endpoint matches this instance's domain/IP and port, then run " +:+
     "the sync again.").

Definition holds (rows : list (dict pyval)) (e : E) (endpoint : NetBoxEndpoint) : bool :=
  backend_holds_netbox_endpoint (pf_netbox_approved endpoint e) endpoint rows.

Definition netbox_push_credentials_unchanged (endpoint : NetBoxEndpoint) : M (world E) bool :=
  let stored := strip (nbe_pushed_credential_fingerprint endpoint) in
  if is_empty stored then mret false
  else
    now ← gets (fun w => pf_fingerprint endpoint (env w));
    now ← lift now;
    mret (String.eqb stored now).

(** [[e for e in held if netbox_push_credentials_unchanged(e)]] *)
Definition vouched_among (held : list NetBoxEndpoint) : M (world E) (list NetBoxEndpoint) :=
  for_each held [] (fun endpoint acc =>
    ok ← netbox_push_credentials_unchanged endpoint;
    mret (if (ok : bool) then acc ++ [endpoint] else acc)).

(** [None] lets the run continue. *)
Definition _verify_stored_netbox_endpoints (base_url : string) (notes : list string)
  (push : _NetBoxEndpointPush) (failure_text : string) (backend_rows : list (dict pyval)) :
  M (world E) (option PreflightResult) :=
  held ← gets (fun w => List.filter (holds backend_rows (env w)) (np_endpoints push));
  vouched ← vouched_among held;
  mret match vouched, held with
       | _ :: _, _ => None
       | [], _ :: _ => Some (_rotated_backend_netbox_endpoint base_url notes failure_text)
       | [], [] =>
           Some (_foreign_backend_netbox_endpoint base_url notes failure_text backend_rows)
       end.

Definition list_backend_netbox_endpoints (ctx : BackendRequestContext) (timeout : Z) :
  M (world E) (list (dict pyval) + string) := in_history (pf_list_netbox ctx timeout) (fun _ => None).

Definition base_url (ctx : BackendRequestContext) : string :=
  rstrip_char slash match ctx_http_url ctx with Some u => u | None => "" end.

(** The blocking result, if any, with the notes. *)
Definition _classify_failed_netbox_push (ctx : BackendRequestContext) (notes : list string)
  (push : _NetBoxEndpointPush) (deadline : option SyncJobDeadline) :
  M (world E) (option PreflightResult * list string) :=
  let failure_text := join "; " (np_failures push) in
  let notes := notes ++
    ["the NetBox endpoint was not pushed to proxbox-api (" +:+ failure_text +:+ ")"] in
  timeout ← request_timeout deadline (sec 30);
  listed ← list_backend_netbox_endpoints ctx timeout;
  match listed with
  | inr list_error =>
      mret (if np_succeeded push then None
            else Some (_unverifiable_netbox_endpoint (base_url ctx) notes failure_text list_error),
            notes)
  | inl [] => mret (Some (_empty_backend_netbox_endpoints (base_url ctx) notes failure_text), notes)
  | inl rows =>
      r ← _verify_stored_netbox_endpoints (base_url ctx) notes push failure_text rows;
      mret (r, notes)
  end.

Definition _verify_netbox_endpoint_push (ctx : BackendRequestContext) (notes : list string)
  (push : _NetBoxEndpointPush) (deadline : option SyncJobDeadline) :
  M (world E) (option PreflightResult * list string) :=
  match np_endpoints push with
  | [] => mret (Some (_no_enabled_netbox_endpoint notes), notes)
  | _ =>
      match np_failures push with
      | _ :: _ => _classify_failed_netbox_push ctx notes push deadline
      | [] => mret (None, notes)
      end
  end.

(** ** The Proxmox endpoints *)

Definition PREFLIGHT_ENDPOINT_PUSH_BUDGET : Z := sec 600.
Definition PREFLIGHT_ENDPOINT_PUSH_HARD_CEILING : Z := sec 1800.
Definition PREFLIGHT_ENDPOINT_TIMEZONE_BUDGET : Z := sec 30.

(** The ids that are integers, in order. *)
Definition _coerce_endpoint_ids (raw_ids : list pyval) : list Z :=
  flat_map (fun raw => let value := strip (str raw) in
                       if is_empty value then []
                       else match int_of_string value with Some n => [n] | None => [] end) raw_ids.

Definition _enabled_endpoint_ids (nb : netbox) (raw_ids : list pyval) : list Z :=
  List.map endpoint_pk
    match raw_ids with
    | [] => List.filter endpoint_enabled (nb_endpoints nb)
    | _ =>
        let requested := _coerce_endpoint_ids raw_ids in
        List.filter (fun e => (bool_decide (endpoint_pk e ∈ requested) && endpoint_enabled e)%bool)
          (nb_endpoints nb)
    end.

Definition _selected_proxmox_endpoints (nb : netbox) (proxmox_endpoint_ids : list pyval) :
  list ProxmoxEndpoint :=
  match proxmox_endpoint_ids with
  | [] => List.filter endpoint_enabled (nb_endpoints nb)
  | _ =>
      let ids := _coerce_endpoint_ids proxmox_endpoint_ids in
      List.filter (fun e => (bool_decide (endpoint_pk e ∈ ids) && endpoint_enabled e)%bool)
        (nb_endpoints nb)
  end.

Definition _proxmox_skip_summary (elapsed : Z) (already_registered : bool)
  (budget hard_ceiling : Z) : option string :=
  if hard_ceiling <=? elapsed then
    Some ("Skipped: the preflight endpoint-push hard ceiling of " +:+
          pretty (hard_ceiling / sec 1) +:+ "s was reached")
  else if ((budget <=? elapsed) && already_registered)%bool then
    Some ("Skipped: the preflight endpoint-push budget of " +:+
          pretty (budget / sec 1) +:+ "s was exhausted and proxbox-api already holds this endpoint")
  else None.

Definition preflight_phase (endpoint : ProxmoxEndpoint) (runtime : Z) (status summary : string) :
  runtime_phase :=
  _endpoint_runtime_phase (VInt (endpoint_pk endpoint)) (VStr (endpoint_label endpoint)) "preflight"
    "Backend endpoint push" (seconds runtime) status summary VNone VNone.

Definition _skipped_proxmox_phase (endpoint : ProxmoxEndpoint) (summary : string) : runtime_phase :=
  preflight_phase endpoint 0 "warning" summary.

Definition _runtime_seconds_since (started : Z) : M (world E) Z :=
  now ← monotonic; mret (round3 (Z.max (now - started) 0)).

Definition _proxmox_push_phase (endpoint : ProxmoxEndpoint) (started : Z) (outcome : () + string) :
  M (world E) runtime_phase :=
  runtime ← _runtime_seconds_since started;
  mret match outcome with
       | inl _ => preflight_phase endpoint runtime "success" "Proxmox endpoint pushed to proxbox-api"
       | inr error =>
           preflight_phase endpoint runtime "warning" ("Proxmox endpoint push failed: " +:+ error)
       end.

(** The note on a rotated credential; it never raises. *)
Definition _proxmox_rotation_note (endpoint : ProxmoxEndpoint) : M (world E) (list string) :=
  rotated ← gets (fun w => pf_rotated endpoint (env w));
  mret match rotated with
       | Ok true =>
           ["Proxmox endpoint '" +:+ endpoint_name endpoint +:+ "' push failed after an in-place " +:+
            "credential change; proxbox-api may still hold the previous secret."]
       | _ => []
       end.

Definition push_proxmox (e : ProxmoxEndpoint) (timeout : Z) : M (world E) (() + string) :=
  reraise (in_history (pf_push_proxmox e timeout)
             (fun r => Some (EvPush (ProxmoxRow (endpoint_pk e))
                               match r with Ok (inl _) => true | _ => false end))).

Definition _push_one_proxmox_endpoint (deadline : option SyncJobDeadline)
  (endpoint : ProxmoxEndpoint) : M (world E) (runtime_phase * list string) :=
  started ← monotonic;
  timeout ← request_timeout deadline (sec 30);
  outcome ← push_proxmox endpoint timeout;
  notes ← match outcome with
          | inl _ => mret []
          | inr _ => _proxmox_rotation_note endpoint
          end;
  phase ← _proxmox_push_phase endpoint started outcome;
  mret (phase, notes).

(** Best effort: no exception leaves it. *)
Definition _refresh_proxmox_endpoint_timezone (endpoint : ProxmoxEndpoint) (timeout : Z) :
  M (world E) () :=
  try_except (_ ← reraise (in_history (pf_timezone endpoint timeout) (fun _ => None)); mret ())
    (fun _ => mret ()).

Definition _refresh_timezone_within_budget (deadline : option SyncJobDeadline)
  (endpoint : ProxmoxEndpoint) (elapsed : Z) : M (world E) Z :=
  let remaining := PREFLIGHT_ENDPOINT_TIMEZONE_BUDGET - elapsed in
  if remaining <=? 0 then mret elapsed
  else
    started ← monotonic;
    timeout ← request_timeout deadline (Z.min (sec 10) remaining);
    _ ← _refresh_proxmox_endpoint_timezone endpoint timeout;
    now ← monotonic;
    mret (elapsed + (now - started)).

Definition backend_holds_proxmox_endpoint (e : E) (endpoint : ProxmoxEndpoint)
  (existing : list (dict pyval) + string) : bool :=
  match existing with
  | inl ((_ :: _) as rows) =>
      (pf_proxmox_approved endpoint e &&
       match _backend_row_for_endpoint rows endpoint with
       | Some row => pf_row_current endpoint row e
       | None => false
       end)%bool
  | _ => false
  end.

(** The state of the loop over endpoints. *)
Record push_state := {
  ps_phases : list runtime_phase;
  ps_skipped : list string;
  ps_notes : list string;
  ps_timezone_elapsed : Z
}.

Definition push_step (deadline : option SyncJobDeadline) (existing : list (dict pyval) + string)
  (started : Z) (endpoint : ProxmoxEndpoint) (s : push_state) : M (world E) push_state :=
  now ← monotonic;
  let elapsed := now - started in
  registered ← gets (fun w => backend_holds_proxmox_endpoint (env w) endpoint existing);
  match _proxmox_skip_summary elapsed registered PREFLIGHT_ENDPOINT_PUSH_BUDGET
          PREFLIGHT_ENDPOINT_PUSH_HARD_CEILING with
  | Some summary =>
      tz ← (if (registered && (elapsed <? PREFLIGHT_ENDPOINT_PUSH_HARD_CEILING))%bool
            then _refresh_timezone_within_budget deadline endpoint (ps_timezone_elapsed s)
            else mret (ps_timezone_elapsed s));
      mret {| ps_phases := ps_phases s ++ [_skipped_proxmox_phase endpoint summary];
              ps_skipped := ps_skipped s ++ [endpoint_name endpoint];
              ps_notes := ps_notes s; ps_timezone_elapsed := tz |}
  | None =>
      pushed ← _push_one_proxmox_endpoint deadline endpoint;
      let '(phase, notes) := pushed in
      tz ← (if is_success phase
            then _refresh_timezone_within_budget deadline endpoint (ps_timezone_elapsed s)
            else mret (ps_timezone_elapsed s));
      mret {| ps_phases := ps_phases s ++ [phase]; ps_skipped := ps_skipped s;
              ps_notes := ps_notes s ++ notes; ps_timezone_elapsed := tz |}
  end.

Definition _record_skipped_proxmox_pushes (skipped : list string) : list string :=
  match skipped with
  | [] => []
  | _ => [pretty (length skipped) +:+ " Proxmox endpoint(s) were not pushed to proxbox-api " +:+
          "because the preflight push budget was exhausted (" +:+ join ", " skipped +:+ ")"]
  end.

Definition _push_proxmox_endpoints (ctx : BackendRequestContext) (notes : list string)
  (proxmox_endpoint_ids : list pyval) (deadline : option SyncJobDeadline) :
  M (world E) PreflightResult :=
  nb ← rows;
  let endpoints := _selected_proxmox_endpoints nb proxmox_endpoint_ids in
  _ ← request_timeout deadline (sec 30);
  existing ← _list_backend_proxmox_endpoints ctx;
  started ← monotonic;
  s ← for_each endpoints
        {| ps_phases := []; ps_skipped := []; ps_notes := notes; ps_timezone_elapsed := 0 |}
        (push_step deadline existing started);
  mret {| pf_phases := ps_phases s; blocking_error := None;
          hint := _preflight_hint (ps_notes s ++ _record_skipped_proxmox_pushes (ps_skipped s)) |}.

(** ** The preflight *)

Definition _JOB_DEADLINE_CAUSE : string :=
  "Job deadline reached; no time remains before the persistence reserve.".

Definition bootstrap_phase (id : Z) : runtime_phase :=
  _endpoint_runtime_phase (VInt id) (VStr "") "preflight" "Backend endpoint bootstrap" (seconds 0)
    "warning" _JOB_DEADLINE_CAUSE VNone VNone.

Definition preflight_body (proxmox_endpoint_ids : list pyval) (fastapi_endpoint_id : option Z)
  (deadline : option SyncJobDeadline) : M (world E) PreflightResult :=
  ctx ← gets (fun w => env_context fastapi_endpoint_id (env w));
  match ctx with
  | Some ctx =>
      match ctx_http_url ctx with
      | Some (String _ _) =>
          notes ← _probe_backend_preflight fastapi_endpoint_id deadline;
          netbox_push ← _push_enabled_netbox_endpoints deadline;
          verified ← _verify_netbox_endpoint_push ctx notes netbox_push deadline;
          let '(blocking, notes) := verified in
          match blocking with
          | Some r => mret r
          | None => _push_proxmox_endpoints ctx notes proxmox_endpoint_ids deadline
          end
      | _ => mret (_missing_backend_preflight fastapi_endpoint_id)
      end
  | None => mret (_missing_backend_preflight fastapi_endpoint_id)
  end.

Definition _ensure_backend_endpoints (proxmox_endpoint_ids : list pyval)
  (fastapi_endpoint_id : option Z) (deadline : option SyncJobDeadline) :
  M (world E) PreflightResult :=
  try_except (preflight_body proxmox_endpoint_ids fastapi_endpoint_id deadline)
    (fun exc =>
       match exc with
       | SyncJobDeadlineReached _ =>
           mret {| pf_phases := List.map bootstrap_phase (_coerce_endpoint_ids proxmox_endpoint_ids);
                   blocking_error := None; hint := Some _JOB_DEADLINE_CAUSE |}
       | _ => raise exc
       end).

(** ** Lemmas: the NetBox side *)

(** The backend accepted the row of [e] in this segment of the history. *)
Definition accepted (h : list event) (e : NetBoxEndpoint) : Prop :=
  EvPush (NetBoxRow (nbe_pk e)) true ∈ h.

Lemma wp_in_history {A} (op : E -> A * E) ev (Q : result A -> world E -> Prop) (w : world E) :
  (forall a e, op (env w) = (a, e) ->
     Q (Ok a) {| env := e; history := match ev a with Some ev => ev :: history w | None => history w end;
                 sync_mode_vars := sync_mode_vars w; wire_capture := wire_capture w |}) ->
  wp (in_history op ev) Q w.
Proof. intros H. unfold wp, in_history. destruct (op (env w)) as [a e] eqn:Eop. by apply H. Qed.

Lemma traces_reraise {A} (op : E -> result A * E) (ev : result A -> option event) :
  traces (reraise (in_history op ev))
    (fun l r => l = match ev r with Some ev => [ev] | None => [] end).
Proof.
  intros w. apply wp_bind, wp_in_history. intros r e _. apply wp_lift.
  exists (match ev r with Some ev => [ev] | None => [] end). by destruct (ev r).
Qed.

Definition clocks_only (l : list event) : Prop := forall ev, ev ∈ l -> exists t, ev = EvClock t.

Lemma traces_request_timeout deadline t : traces (request_timeout deadline t) (fun l _ => clocks_only l).
Proof.
  unfold request_timeout. destruct deadline as [d|].
  - eapply traces_bind; [apply traces_monotonic|intros; apply traces_lift|naive_solver|].
    intros l1 l2 a r (t' & -> & _) [-> _] ev Hev. apply list_elem_of_singleton in Hev as ->. eauto.
  - eapply traces_mono; [apply traces_ret|]. intros l r [-> _] ev Hev. by apply not_elem_of_nil in Hev.
Qed.

Lemma accepted_app (l1 l2 : list event) (e : NetBoxEndpoint) :
  accepted (l2 ++ l1) e <-> accepted l2 e \/ accepted l1 e.
Proof. unfold accepted. by rewrite elem_of_app. Qed.

(** What the pushes recorded so far are worth. *)
Definition pushed_ok (push : _NetBoxEndpointPush) (l : list NetBoxEndpoint) (new : list event)
  (p : _NetBoxEndpointPush) : Prop :=
  np_endpoints p = np_endpoints push ++ l /\
  (np_failures p = [] -> np_failures push = [] /\ Forall (accepted new) l) /\
  (np_succeeded p = true -> np_succeeded push = true \/ Exists (accepted new) l).

Lemma push_one_traces deadline endpoint push :
  traces (_push_one_netbox_endpoint deadline endpoint push)
    (fun new r => forall p, r = Ok p -> pushed_ok push [endpoint] new p).
Proof.
  unfold _push_one_netbox_endpoint.
  eapply traces_bind with (S := fun _ new r => forall p, r = Ok p -> pushed_ok push [endpoint] new p);
    [apply traces_request_timeout| |naive_solver|].
  - intros t. cbn. eapply traces_bind; [apply traces_reraise|intros; apply traces_ret|naive_solver|].
    intros l1 l2 outcome r -> [-> ->] p [= <-]. unfold pushed_ok, accepted.
    destruct outcome as [[]|error]; cbn.
    + split; [done|]. split; [intros Hf; split; [done|]; apply Forall_singleton; left|].
      right. apply Exists_cons. left. left.
    + split; [done|]. split; [intros Hf; by destruct (np_failures push)|by left].
  - intros l1 l2 t r _ HS p Hp. destruct (HS p Hp) as (He & Hf & Hs). split; [done|]. split.
    + intros Hn. destruct (Hf Hn) as [? [? _]%Forall_cons_1]. split; [done|]. apply Forall_singleton.
      apply accepted_app. by left.
    + intros [?|[?|[]%Exists_nil]%Exists_cons]%Hs; [by left|right]. apply Exists_cons. left.
      apply accepted_app. by left.
Qed.

Lemma push_loop_traces deadline l push :
  traces (for_each l push (_push_one_netbox_endpoint deadline))
    (fun new r => forall p, r = Ok p -> pushed_ok push l new p).
Proof.
  revert push. induction l as [|e l IH]; intros push; cbn [for_each].
  - eapply traces_mono; [apply traces_ret|]. intros new r [-> ->] p [= <-].
    unfold pushed_ok. rewrite app_nil_r. split; [done|]. split; [|by left].
    intros ?. split; [done|constructor].
  - eapply traces_bind; [apply push_one_traces|intros p1; apply IH|naive_solver|].
    intros l1 l2 p1 r H1 H2 p Hp. destruct (H1 p1 eq_refl) as (He1 & Hf1 & Hs1).
    destruct (H2 p Hp) as (He & Hf & Hs). split; [by rewrite He, He1, <- app_assoc|]. split.
    + intros [Hp1 Hl]%Hf. destruct (Hf1 Hp1) as [? [He0 _]%Forall_cons_1]. split; [done|].
      constructor; [apply accepted_app; by right|].
      eapply Forall_impl; [exact Hl|]. intros x ?. apply accepted_app. by left.
    + intros [Hs'|Hs']%Hs.
      * apply Hs1 in Hs' as [?|[?|[]%Exists_nil]%Exists_cons]; [by left|right].
        apply Exists_cons. left. apply accepted_app. by right.
      * right. apply Exists_cons. right. eapply Exists_impl; [exact Hs'|].
        intros x ?. apply accepted_app. by left.
Qed.

Definition credentials_unchanged (e : E) (endpoint : NetBoxEndpoint) : Prop :=
  let stored := strip (nbe_pushed_credential_fingerprint endpoint) in
  stored <> "" /\ pf_fingerprint endpoint e = Ok stored.

Lemma credentials_unchanged_spec (endpoint : NetBoxEndpoint) (w : world E) :
  wp (netbox_push_credentials_unchanged endpoint)
    (fun r w' => w' = w /\ (r = Ok true -> credentials_unchanged (env w) endpoint)) w.
Proof.
  unfold netbox_push_credentials_unchanged, credentials_unchanged, is_empty.
  destruct (String.eqb_spec (strip (nbe_pushed_credential_fingerprint endpoint)) "") as [_|Hne];
    [by wp_steps|].
  do 2 (wp_step; cbv beta iota). do 2 wp_step.
  destruct (pf_fingerprint endpoint (env w)) as [f|]; [|by split].
  wp_steps. split; [done|]. intros [= Hf%String.eqb_eq]. by subst f.
Qed.

Lemma vouched_spec (held : list NetBoxEndpoint) (w : world E) :
  wp (vouched_among held)
    (fun r w' => match r with
                 | Ok vouched => w' = w /\
                     Forall (fun e => e ∈ held /\ credentials_unchanged (env w) e) vouched
                 | Err _ => True end) w.
Proof.
  apply (wp_for_each held _
    (fun acc w' => w' = w /\ Forall (fun e => e ∈ held /\ credentials_unchanged (env w) e) acc)
    (fun _ _ => True)); [|by split].
  intros e acc w' He [-> Hacc]. wp_step. eapply wp_mono; [apply credentials_unchanged_spec|].
  intros [ok|] w' [-> Hok]; [|done]. wp_steps. split; [done|]. destruct ok; [|done].
  apply Forall_app. split; [done|]. apply Forall_singleton. auto.
Qed.

(** The evidence that the backend writes to this NetBox. *)
Definition identity_proven (ctx : BackendRequestContext) (push : _NetBoxEndpointPush)
  (deadline : option SyncJobDeadline) (w : world E) : Prop :=
  np_endpoints push <> [] /\
  (np_failures push = [] \/
   exists t w1 listed e2,
     request_timeout deadline (sec 30) w = (Ok t, w1) /\
     pf_list_netbox ctx t (env w1) = (listed, e2) /\
     match listed with
     | inr _ => np_succeeded push = true
     | inl rows =>
         exists row e, rows = [row] /\ e ∈ np_endpoints push /\ pf_netbox_approved e e2 = true /\
           row_points_at e row = true /\ credentials_unchanged e2 e
     end).

Lemma holds_spec (rows : list (dict pyval)) (e : E) (endpoint : NetBoxEndpoint) :
  holds rows e endpoint = true ->
  exists row, rows = [row] /\ pf_netbox_approved endpoint e = true /\ row_points_at endpoint row = true.
Proof.
  unfold holds, backend_holds_netbox_endpoint. destruct rows as [|row [|]]; [done| |done].
  rewrite andb_true_iff. eauto.
Qed.

Lemma verify_stored_spec url notes push text rows (w : world E) :
  wp (_verify_stored_netbox_endpoints url notes push text rows)
    (fun r _ => r = Ok None ->
       exists row e, rows = [row] /\ e ∈ np_endpoints push /\ pf_netbox_approved e (env w) = true /\
         row_points_at e row = true /\ credentials_unchanged (env w) e) w.
Proof.
  unfold _verify_stored_netbox_endpoints. do 2 wp_step. cbv beta iota. wp_step.
  eapply wp_mono; [apply vouched_spec|]. intros [[|e vouched]|] w' Hv; [| |done].
  - wp_steps. by destruct (List.filter _ _).
  - destruct Hv as [-> [[He Hc] _]%Forall_cons_1]. wp_steps. intros _.
    apply list_elem_of_In, filter_In in He as [He (row & -> & Ha & Hr)%holds_spec].
    exists row, e. apply list_elem_of_In in He. auto.
Qed.

Lemma verify_push_proven ctx notes push deadline (w : world E) :
  wp (_verify_netbox_endpoint_push ctx notes push deadline)
    (fun r _ => forall notes', r = Ok (None, notes') -> identity_proven ctx push deadline w) w.
Proof.
  unfold _verify_netbox_endpoint_push, identity_proven.
  destruct (np_endpoints push) as [|e0 eps] eqn:Eeps; [by wp_steps|].
  destruct (np_failures push) as [|f fs]; [wp_steps; intros ? _; split; [done|by left]|].
  unfold _classify_failed_netbox_push. wp_step. unfold wp at 1.
  destruct (request_timeout deadline (sec 30) w) as [[t|exc] w1] eqn:Et; cbn [fst snd]; [|done].
  wp_step. apply wp_in_history. intros listed e2 El. destruct listed as [[|row rows]|error].
  - by wp_steps.
  - wp_step. eapply wp_mono; [apply verify_stored_spec|].
    intros [r|] w' Hr; [|done]. wp_steps. intros notes' [= -> _]. split; [done|]. right.
    exists t, w1, (inl (row :: rows)), e2. rewrite <- Eeps. auto.
  - wp_steps. destruct (np_succeeded push) eqn:Es; [|done]. intros ? _. split; [done|]. right.
    exists t, w1, (inr error), e2. auto.
Qed.

(** ** Lemmas: the key loop *)

(** The outcomes of the key checks and the pauses of a segment, latest first. *)
Definition checks (l : list event) : list bool :=
  flat_map (fun ev => match ev with EvKeyCheck ok => [ok] | _ => [] end) l.
Definition sleeps (l : list event) : list Z :=
  flat_map (fun ev => match ev with EvSleep d => [d] | _ => [] end) l.

Lemma checks_app l1 l2 : checks (l1 ++ l2) = checks l1 ++ checks l2.
Proof. apply flat_map_app. Qed.

Lemma sleeps_app l1 l2 : sleeps (l1 ++ l2) = sleeps l1 ++ sleeps l2.
Proof. apply flat_map_app. Qed.

Lemma clocks_quiet (l : list event) : clocks_only l -> checks l = [] /\ sleeps l = [].
Proof.
  induction l as [|ev l IH]; intros Hl; [done|].
  destruct (Hl ev ltac:(left)) as [t ->]. apply IH. intros ev Hev. apply Hl. by right.
Qed.

(** What a run of the loop may do with [n] attempts left and [elapsed] spent. *)
Definition key_run (n : nat) (elapsed : Z) (l : list event) (r : result (option ())) : Prop :=
  (length (checks l) <= n)%nat /\ elapsed + zsum (sleeps l) <= BACKEND_KEY_RETRY_TOTAL_BUDGET /\
  Forall (fun d => 0 < d <= BACKEND_KEY_RETRY_MAX_DELAY) (sleeps l) /\
  match r with
  | Ok (Some _) => exists failed, checks l = true :: failed /\ Forall (eq false) failed
  | Ok None => False
  | Err _ => Forall (eq false) (checks l)
  end.

Lemma key_run_quiet (n : nat) (elapsed : Z) (l1 l2 : list event) (r : result (option ())) :
  clocks_only l1 -> key_run n elapsed l2 r -> key_run n elapsed (l2 ++ l1) r.
Proof.
  intros [Hc Hs]%clocks_quiet. unfold key_run. by rewrite checks_app, sleeps_app, Hc, Hs, !app_nil_r.
Qed.

Lemma key_run_raise (n : nat) (elapsed : Z) (l : list event) (e : exn) :
  elapsed <= BACKEND_KEY_RETRY_TOTAL_BUDGET -> clocks_only l -> key_run n elapsed l (Err e).
Proof.
  intros He [Hc Hs]%clocks_quiet. unfold key_run. rewrite Hc, Hs. cbn. split; [lia|].
  split; [lia|]. split; constructor.
Qed.

Lemma clocks_nil : clocks_only [].
Proof. by intros ev ?%not_elem_of_nil. Qed.

Lemma clocks_one (t : Z) : clocks_only [EvClock t].
Proof. intros ev ->%list_elem_of_singleton. eauto. Qed.

Lemma clocks_app l1 l2 : clocks_only l1 -> clocks_only l2 -> clocks_only (l1 ++ l2).
Proof. intros H1 H2 ev [?|?]%elem_of_app; auto. Qed.

Lemma key_wait_traces deadline details delay :
  0 <= delay ->
  traces (key_wait deadline details delay)
    (fun l r => clocks_only l /\ exists wait, r = Ok wait /\ wait <= BACKEND_KEY_RETRY_MAX_DELAY).
Proof.
  intros Hd. unfold key_wait. eapply traces_bind with (S := fun _ l r => clocks_only l /\
    exists wait, r = Ok wait /\ wait <= BACKEND_KEY_RETRY_MAX_DELAY); [apply traces_gets| |naive_solver|].
  - intros now. cbv zeta.
    assert (Hw : retry_wait now details delay <= BACKEND_KEY_RETRY_MAX_DELAY).
    { unfold retry_wait. destruct (parse_retry_after _ _ _ _) eqn:Ep; [|lia].
      apply parse_retry_after_bounds in Ep; [lia|]. unfold BACKEND_KEY_RETRY_MAX_DELAY, sec. lia. }
    destruct deadline as [d|].
    + eapply traces_bind; [apply traces_monotonic|intros; apply traces_ret|naive_solver|].
      intros l1 l2 t r (t' & -> & _) [-> ->]. split; [apply clocks_one|]. eexists. split; [done|].
      assert (0 <= BACKEND_KEY_RETRY_MAX_DELAY) by (unfold BACKEND_KEY_RETRY_MAX_DELAY, sec; lia).
      unfold cap. lia.
    + eapply traces_mono; [apply traces_ret|]. intros l r [-> ->]. split; [apply clocks_nil|eauto].
  - intros l1 l2 now r [-> _] [Hc Hr]. by rewrite app_nil_r.
Qed.

Lemma key_check_traces endpoint_id timeout :
  traces (key_check endpoint_id timeout)
    (fun l r => l = [EvKeyCheck match r with Ok (ok, _, _) => ok | Err _ => false end]).
Proof. apply traces_reraise. Qed.

Lemma key_timeout_traces (deadline : option SyncJobDeadline) :
  traces (match deadline with
          | Some d => now ← monotonic; t ← lift (timeout d (sec 15) now); mret (Some t)
          | None => mret None
          end) (fun l _ => clocks_only l).
Proof.
  destruct deadline as [d|].
  - eapply traces_bind with (S := fun _ l _ => l = []); [apply traces_monotonic| |naive_solver|].
    + intros now. eapply traces_bind; [apply traces_lift|intros; apply traces_ret|naive_solver|naive_solver].
    + intros l1 l2 a r (t & -> & _) ->. apply clocks_one.
  - eapply traces_mono; [apply traces_ret|]. intros l r [-> _]. apply clocks_nil.
Qed.

Lemma key_give_up_traces (deadline : option SyncJobDeadline) :
  traces (A := option ())
    match deadline with
    | Some d =>
        now ← monotonic;
        raise (if remaining d now <=? 0 then SyncJobDeadlineReached "Job deadline reached."
               else key_preflight_failed)
    | None => raise key_preflight_failed
    end (fun l r => clocks_only l /\ exists e, r = Err e).
Proof.
  destruct deadline as [d|].
  - eapply traces_bind; [apply traces_monotonic|intros; apply traces_raise|naive_solver|].
    intros l1 l2 a r (t & -> & _) [-> ->]. split; [apply clocks_one|eauto].
  - eapply traces_mono; [apply traces_raise|]. intros l r [-> ->]. split; [apply clocks_nil|eauto].
Qed.

(** A failed check in front of what follows it. *)
Lemma key_run_gave_up (fuel : nat) (elapsed : Z) (l : list event) (e : exn) :
  elapsed <= BACKEND_KEY_RETRY_TOTAL_BUDGET -> clocks_only l ->
  key_run (S fuel) elapsed (l ++ [EvKeyCheck false]) (Err e).
Proof.
  intros He [Hc Hs]%clocks_quiet. unfold key_run. rewrite checks_app, sleeps_app, Hc, Hs. cbn.
  split; [lia|]. split; [lia|]. repeat constructor.
Qed.

Lemma key_run_retried (fuel : nat) (elapsed wait : Z) (l l1 : list event) (r : result (option ())) :
  0 < wait <= BACKEND_KEY_RETRY_MAX_DELAY -> clocks_only l1 -> key_run fuel (elapsed + wait) l r ->
  key_run (S fuel) elapsed ((l ++ [EvSleep wait]) ++ l1 ++ [EvKeyCheck false]) r.
Proof.
  intros Hw [Hc Hs]%clocks_quiet (Hlen & Hsum & HF & Hr). unfold key_run.
  rewrite !checks_app, !sleeps_app, Hc, Hs. cbn. rewrite !app_nil_r, !length_app, !zsum_app. cbn.
  split; [lia|]. split; [lia|]. split; [apply Forall_app; split; [done|by apply Forall_singleton]|].
  destruct r as [[[]|]|e]; [|done|].
  - destruct Hr as (failed & -> & Hf). exists (failed ++ [false]). split; [done|].
    apply Forall_app. split; [done|by repeat constructor].
  - apply Forall_app. split; [done|by repeat constructor].
Qed.

Lemma key_loop_run (fuel : nat) endpoint_id deadline (attempt : nat) (elapsed delay : Z) :
  (attempt + fuel = S BACKEND_KEY_RETRY_MAX_ATTEMPTS)%nat -> (0 < fuel)%nat ->
  elapsed <= BACKEND_KEY_RETRY_TOTAL_BUDGET -> 0 <= delay ->
  traces (key_loop fuel endpoint_id deadline attempt elapsed delay) (key_run fuel elapsed).
Proof.
  revert attempt elapsed delay. induction fuel as [|fuel IH]; intros attempt elapsed delay Hn Hf He Hd;
    [lia|]. cbn [key_loop].
  eapply traces_bind with (S := fun _ => key_run (S fuel) elapsed);
    [apply key_timeout_traces| |intros; by apply key_run_raise|intros; by apply key_run_quiet].
  intros t. eapply traces_bind with (S := fun x l r =>
      forall l1, l1 = [EvKeyCheck x.1.1] -> key_run (S fuel) elapsed (l ++ l1) r);
    [apply key_check_traces| |intros l e ->; by apply (key_run_gave_up fuel elapsed []), clocks_nil
    |intros l1 l2 [[??]?] r -> HS; by apply HS].
  intros [[key_ok msg] details]. destruct key_ok.
  { eapply traces_mono; [apply traces_ret|]. intros l r [-> ->] l1 ->. unfold key_run. cbn.
    split; [lia|]. split; [lia|]. split; [constructor|]. exists []. split; [done|constructor]. }
  eapply traces_bind with (S := fun wait l r => forall l1, wait <= BACKEND_KEY_RETRY_MAX_DELAY ->
      clocks_only l1 -> key_run (S fuel) elapsed (l ++ l1 ++ [EvKeyCheck false]) r);
    [by apply key_wait_traces| |naive_solver|].
  2: { intros l1 l2 wait r (Hc & w & [= ->] & Hw) HS l' ->. rewrite <- app_assoc. by apply HS. }
  intros wait. destruct (_ || _)%bool eqn:Ecase.
  { eapply traces_mono; [apply key_give_up_traces|]. intros l r [Hc [e ->]] l1 Hw Hc1.
    rewrite app_assoc. apply key_run_gave_up; [done|by apply clocks_app]. }
  rewrite !orb_false_iff, Nat.leb_gt, Z.ltb_ge, Z.leb_gt in Ecase.
  destruct Ecase as [[[_ Hat] Hbud] Hpos].
  eapply traces_bind with (S := fun _ => key_run fuel (elapsed + wait));
    [apply traces_sleep|intros u; apply IH; unfold BACKEND_KEY_RETRY_MAX_DELAY, sec; lia|naive_solver|].
  intros l1 l2 [] r [-> _] Hrun l' Hw Hc. by apply key_run_retried.
Qed.

(** A result that is returned early blocks the run. *)
Lemma verify_push_blocks ctx notes push deadline :
  returns (_verify_netbox_endpoint_push ctx notes push deadline)
    (fun x => forall b, x.1 = Some b -> blocking_error b <> None).
Proof.
  unfold _verify_netbox_endpoint_push, _classify_failed_netbox_push.
  destruct (np_endpoints push); [apply returns_ret; by intros b [= <-]|].
  destruct (np_failures push); [by apply returns_ret|].
  apply returns_bind_any. intros t. apply returns_bind_any. intros [[|row rows]|error].
  - apply returns_ret. by intros b [= <-].
  - apply returns_bind with (Ψ := fun x => forall b, x = Some b -> blocking_error b <> None);
      [|intros x Hx; by apply returns_ret].
    unfold _verify_stored_netbox_endpoints. apply returns_bind_any. intros held.
    apply returns_bind_any. intros vouched. apply returns_ret.
    destruct vouched, held; by intros b [= <-].
  - apply returns_ret. destruct (np_succeeded push); by intros b [= <-].
Qed.

(** ** Properties *)

(** C14: a sync goes ahead only with proof that the backend writes to this
    NetBox. When the preflight does not block the run, either the job deadline
    ended it (and its hint says so), or at least one NetBox endpoint is enabled
    here and one of three things holds: the backend accepted every enabled
    endpoint in this run; it accepted one of them and could not list what it
    holds; or the single row it lists dials an enabled and approved endpoint's
    host and port, under its trust settings, with credentials that are
    unchanged since the last accepted push. *)
Theorem preflight_proves_write_identity ids fid deadline (w w' : world E) (r : PreflightResult) :
  _ensure_backend_endpoints ids fid deadline w = (Ok r, w') -> blocking_error r = None ->
  hint r = Some _JOB_DEADLINE_CAUSE \/
  exists ctx notes w1 push w2 new,
    env_context fid (env w) = Some ctx /\
    _probe_backend_preflight fid deadline w = (Ok notes, w1) /\
    _push_enabled_netbox_endpoints deadline w1 = (Ok push, w2) /\ history w2 = new ++ history w1 /\
    np_endpoints push = List.filter nbe_enabled (pf_netbox_endpoints (env w1)) /\
    (np_failures push = [] -> Forall (accepted new) (np_endpoints push)) /\
    (np_succeeded push = true -> Exists (accepted new) (np_endpoints push)) /\
    identity_proven ctx push deadline w2.
Proof.
  intros Hrun Hnone. unfold _ensure_backend_endpoints, try_except in Hrun.
  destruct (preflight_body ids fid deadline w) as [[r0|exc] w0] eqn:Eb.
  2: { destruct exc; try discriminate. injection Hrun as <- _. by left. }
  injection Hrun as -> ->. right. revert Eb. unfold preflight_body, mbind, M_bind, gets.
  destruct (env_context fid (env w)) as [ctx|]; [|by intros [= <- _]].
  destruct (ctx_http_url ctx) as [[|c u]|]; [by intros [= <- _]| |by intros [= <- _]].
  destruct (_probe_backend_preflight fid deadline w) as [[notes|] w1]; [|done].
  destruct (_push_enabled_netbox_endpoints deadline w1) as [[push|] w2] eqn:Ep; [|done].
  pose proof (verify_push_proven ctx notes push deadline w2) as Hv. unfold wp in Hv.
  pose proof (verify_push_blocks ctx notes push deadline w2) as Hb.
  destruct (_verify_netbox_endpoint_push ctx notes push deadline w2) as [[[blocking notes']|] w3]; [|done].
  destruct blocking as [b|]; [intros [= -> _]; by destruct (Hb (Some r, notes') eq_refl r eq_refl)|].
  intros _.
  unfold _push_enabled_netbox_endpoints, mbind, M_bind, gets in Ep.
  set (eps := List.filter nbe_enabled (pf_netbox_endpoints (env w1))) in *.
  destruct (wp_intro _ _ _ _ _ (push_loop_traces deadline eps _ w1) Ep) as (new & Hh & Hok).
  destruct (Hok push eq_refl) as (He & Hf & Hs). cbn in He.
  exists ctx, notes, w1, push, w2, new. rewrite He. repeat (split; [done|]).
  split; [intros Hn; by apply Hf|]. split; [|by eapply Hv]. intros [?|?]%Hs; done.
Qed.

(** the verification of the backend key always ends, and within its
    bounds. It makes at most ten checks, pauses for at most three minutes in
    all and never more than one minute at a time; it succeeds exactly when its
    last check succeeded and every check before it failed, and otherwise it
    raises, after failed checks only. *)
Theorem backend_key_verification_bounded endpoint_id deadline (w : world E) :
  exists new,
    history (snd (_require_backend_key endpoint_id deadline w)) = new ++ history w /\
    (length (checks new) <= BACKEND_KEY_RETRY_MAX_ATTEMPTS)%nat /\
    zsum (sleeps new) <= BACKEND_KEY_RETRY_TOTAL_BUDGET /\
    Forall (fun d => 0 < d <= BACKEND_KEY_RETRY_MAX_DELAY) (sleeps new) /\
    match fst (_require_backend_key endpoint_id deadline w) with
    | Ok (Some _) => exists failed, checks new = true :: failed /\ Forall (eq false) failed
    | Ok None => False
    | Err _ => Forall (eq false) (checks new)
    end.
Proof.
  assert (Hrun : traces (_require_backend_key endpoint_id deadline) (key_run BACKEND_KEY_RETRY_MAX_ATTEMPTS 0)).
  { apply key_loop_run; unfold BACKEND_KEY_RETRY_MAX_ATTEMPTS, BACKEND_KEY_RETRY_TOTAL_BUDGET,
      BACKEND_KEY_RETRY_INITIAL_DELAY, sec; lia. }
  exact (Hrun w).
Qed.

End Preflight.

(** ** A backend that refuses the push but still holds our row *)

Definition sample_netbox_endpoint : NetBoxEndpoint :=
  {| nbe_pk := 1; nbe_name := "netbox"; nbe_enabled := true; nbe_domain := "NetBox.example.org.";
     nbe_ip_address := Some "192.0.2.1/24"; nbe_port := 0; nbe_verify_ssl := true;
     nbe_effective_token_version := "v2"; nbe_pushed_credential_fingerprint := "f00d" |}.

Definition sample_netbox_row : dict pyval :=
  [ ("id", VInt 1); ("domain", VStr "netbox.example.org"); ("ip_address", VStr "192.0.2.9");
    ("port", VInt 443); ("verify_ssl", VBool true); ("token_version", VStr "v2") ].

#[global] Instance script_preflight_env : PreflightEnv script := {|
  pf_netbox_endpoints _ := [sample_netbox_endpoint];
  pf_wait_ready _ s := (Ok (true, "Backend is reachable"), s);
  pf_key _ _ s := (Ok (true, "Key authenticated successfully", []), s);
  pf_push_netbox _ _ s := (Ok (inr "read timed out"), s);
  pf_push_proxmox _ _ s := (Ok (inl ()), s);
  pf_list_netbox _ _ s := (inl [sample_netbox_row], s);
  pf_netbox_approved _ _ := true;
  pf_proxmox_approved _ _ := true;
  pf_fingerprint _ _ := Ok "f00d";
  pf_row_current _ _ _ := true;
  pf_rotated _ _ := Ok false;
  pf_timezone _ _ s := (Ok true, s)
|}.

Lemma preflight_proves_write_identity_witness :
  exists r w', _ensure_backend_endpoints [] None (Some sample_deadline) (start (sample_script [])) = (Ok r, w')
    /\ blocking_error r = None /\
    (hint r = Some _JOB_DEADLINE_CAUSE \/
     exists ctx notes w1 push w2 new,
       env_context None (env (start (sample_script []))) = Some ctx /\
       _probe_backend_preflight None (Some sample_deadline) (start (sample_script [])) = (Ok notes, w1) /\
       _push_enabled_netbox_endpoints (Some sample_deadline) w1 = (Ok push, w2) /\
       history w2 = new ++ history w1 /\
       np_endpoints push = List.filter nbe_enabled (pf_netbox_endpoints (env w1)) /\
       (np_failures push = [] -> Forall (accepted new) (np_endpoints push)) /\
       (np_succeeded push = true -> Exists (accepted new) (np_endpoints push)) /\
       identity_proven ctx push (Some sample_deadline) w2).
Proof.
  eexists _, _. split; [vm_compute; reflexivity|]. split; [reflexivity|].
  eapply (preflight_proves_write_identity [] None (Some sample_deadline) (start (sample_script [])));
    [vm_compute; reflexivity|reflexivity].
Defined.
