(* ===== verification/JobRun.v ===== *)
(** * A sync job from claim to merge (jobs.py, [ProxboxSyncJob.run])

    The run claims the job row, resolves branch isolation once, creates its
    branch, verifies the backend key, and then either synchronises the selected
    objects or reconciles the endpoints locally and runs the stages; evidence is
    persisted before any failure is raised, and only a run without failures
    merges its branch.  The claim is released however the run ends.

    The world of a job adds to the world of its stages the job row, the run's
    branch and a log of what the run persisted, merged and started; only the
    theorems read the log.  The reconciliation services and the rest of the
    process environment are operations of the class [JobEnv]. *)
From Stdlib Require Import ZArith Lia String.
From stdpp Require Import base list sets strings pretty.
From S2P Require Import Prelude Json SyncTypes SyncModes Effects Deadline StageExec EndpointScope StageRunner IndividualSync VmObjects BatchSync BranchLifecycle JobParams RuntimePhases Preflight.

Class JobEnv (E : Type) := {
  (* the locked row's data, when the row can be locked *)
  je_lock : E -> option pyval;
  (* job.refresh_from_db(fields=["data"]), given what was saved last *)
  je_reload : pyval -> E -> pyval;
  (* datetime.now(timezone.utc).isoformat() and str(uuid.uuid4()) *)
  je_now : E -> string;
  je_uuid : E -> string;
  (* the timeout of the current RQ job *)
  je_rq_timeout : E -> option Z;
  (* a local service, by kind, for one endpoint until a deadline *)
  je_service : string -> Z -> option Z -> Z -> E -> result service_result * E;
  (* backfill_sync_state_endpoints(): its summary *)
  je_backfill : dict string -> E -> result (dict pyval) * E
}.

(** What a run did to the job, latest first. *)
Inductive job_event (E : Type) :=
| JSave (data : pyval)
| JService (kind : string) (endpoint_id : Z)
| JStages (w : world E)
| JExpired (now : Z) (w : world E)  (* the deadline had passed before the stages *)
| JMerge (branch_pk : Z).
Arguments JSave {E} data.
Arguments JService {E} kind endpoint_id.
Arguments JStages {E} w.
Arguments JExpired {E} now w.
Arguments JMerge {E} branch_pk.

Record job_world (E : Type) := {
  jw : world E;
  jmade : list ind_call;
  job_data : pyval;
  jbranch : option Branch;
  jbackfill : option (dict pyval);
  jlog : list (job_event E)
}.
Arguments jw {E} j.
Arguments jmade {E} j.
Arguments job_data {E} j.
Arguments jbranch {E} j.
Arguments jbackfill {E} j.
Arguments jlog {E} j.

(** The arguments of [run], after the worker passed them on. *)
Record run_args := {
  a_job_pk : Z;
  a_sync_types : list pyval;
  a_sync_type : pyval;
  a_proxmox_endpoint_ids : list pyval;
  a_netbox_endpoint_ids : list pyval;
  a_netbox_vm_ids : list pyval;
  a_batch_object_type : pyval;
  a_batch_object_ids : list pyval;
  a_fastapi_endpoint_id : pyval
}.

(** The normalised inputs of a run; what the code keeps there and changes
    later, the branch and the backfill summary, is in the world. *)
Record _SyncRunContext := {
  c_args : run_args;
  c_branch_config : option branch_settings;
  c_types : list string;
  c_batch_object_type : option string;
  c_batch_object_ids : list string;
  c_fastapi_endpoint_id : option Z;
  c_run_started : Z;
  c_deadline : SyncJobDeadline;
  c_stages : list string;
  c_run_id : string
}.

(** ** Dictionaries of the job row *)

Definition opt_vstr (o : option string) : pyval := match o with Some s => VStr s | None => VNone end.

Definition opt_vint (o : option Z) : pyval := match o with Some z => VInt z | None => VNone end.

(** One entry of [stages_out] as the runner builds it. *)
Definition stage_dict (s : stage_record) : dict pyval :=
  [ ("sync_type", VStr (stage_sync_type s)); ("endpoint_id", opt_vstr (stage_endpoint_id s)) ] ++
  match stage_endpoint_name s with Some n => [("endpoint_name", VStr n)] | None => [] end ++
  [ ("stream_path", opt_vstr (stage_stream_path s));
    ("runtime_seconds", seconds (stage_runtime_seconds s));
    ("result_summary", VDict (stage_result_summary s)) ].

Definition card_dict (c : endpoint_runtime) : dict pyval :=
  [ ("endpoint_id", er_endpoint_id c); ("endpoint_name", VStr (er_endpoint_name c));
    ("runtime_seconds", seconds (er_runtime_seconds c));
    ("phases", VList (List.map (fun p => VDict (phase_dict p)) (er_phases c))) ].

Definition summary_dict (s : runtime_summary) : dict pyval :=
  [ ("runtime_seconds", seconds (rs_runtime_seconds s));
    ("endpoint_count", VInt (Z.of_nat (rs_endpoint_count s)));
    ("endpoint_runtime_seconds", seconds (rs_endpoint_runtime_seconds s));
    ("other_runtime_seconds", seconds (rs_other_runtime_seconds s)) ].

(** A refused object has neither a response nor dependencies. *)
Definition item_dict (object_type : string) (i : batch_item) : dict pyval :=
  [ ("batch_object_type", VStr object_type); ("object_id", VStr (item_object_id i));
    ("status", VInt (item_status i)) ] ++
  match item_response i with
  | Some d => [("response", VDict d); ("dependencies", VList (item_dependencies i))]
  | None => []
  end ++ [("error", item_error i)].

Definition batch_dict (b : batch_result) : dict pyval :=
  [ ("batch_object_type", VStr (batch_object_type b));
    ("batch_object_label", VStr (batch_object_label b));
    ("total", VInt (Z.of_nat (total b))); ("succeeded", VInt (Z.of_nat (succeeded b)));
    ("failed", VInt (Z.of_nat (failed b)));
    ("results", VList (List.map (fun i => VDict (item_dict (batch_object_type b) i)) (results b))) ].

Definition _branch_identity (branch : option Branch) : option (dict pyval) :=
  match branch with
  | None => None
  | Some b =>
      Some [ ("id", VInt (branch_pk b)); ("name", VStr (branch_name b));
             ("schema_id", VStr match branch_schema_id b with Some s => s | None => "None" end) ]
  end.

Definition _branching_failure_stage (message : string) : dict pyval :=
  [ ("sync_type", VStr "branch-isolation"); ("endpoint_id", VNone); ("stream_path", VNone);
    ("runtime_seconds", seconds 0);
    ("result_summary", VDict [("ok", VBool false); ("error", VStr message)]) ].

Definition is_isolation_stage (stage : pyval) : bool :=
  match stage with
  | VDict d => match get "sync_type" d with VStr s => String.eqb s "branch-isolation" | _ => false end
  | _ => false
  end.

Definition dset_default (k : string) (v : pyval) (d : dict pyval) : dict pyval :=
  if dmem k d then d else dset k v d.

Definition _branching_failure_response (sync_data : dict pyval) (message : string) : dict pyval :=
  let response := as_mapping (get "response" sync_data) in
  let stages := match get "stages" response with VList l => l | _ => [] end in
  let stages := List.filter (fun s => negb (is_isolation_stage s)) stages in
  let response := dset "stages" (VList (stages ++ [VDict (_branching_failure_stage message)])) response in
  let response := dset_default "endpoint_runtimes" (VList []) response in
  dset_default "runtime_summary" (VDict (summary_dict (_runtime_summary 0 []))) response.

(** The data with the isolation failure added. *)
Definition branching_failure_data (data : pyval) (message : string) : pyval :=
  let data := as_mapping data in
  let sync_data := as_mapping (get "proxbox_sync" data) in
  let sync_data := dset_default "runtime_seconds" (seconds 0) sync_data in
  let sync_data := dset "response" (VDict (_branching_failure_response sync_data message)) sync_data in
  VDict (dset "proxbox_sync" (VDict sync_data) data).

(** ** Classification of the evidence *)

Definition summary_of (stage : dict pyval) : dict pyval := as_mapping (get "result_summary" stage).

Definition is_scope_stage (stage : dict pyval) : bool :=
  match get "sync_type" stage with VStr s => String.eqb s ENDPOINT_SCOPE | _ => false end.

Definition is_failed_scope (stage : dict pyval) : bool :=
  (is_scope_stage stage && negb (truthy (dget_or "ok" (VBool true) (summary_of stage))))%bool.

Definition _failed_endpoint_scopes (stages : list (dict pyval)) : list (dict pyval) :=
  List.filter is_failed_scope stages.

Definition _failed_scope_detail (stages : list (dict pyval)) : string :=
  join "; "
    (List.map (fun stage =>
       let error := str (py_or (get "error" (summary_of stage)) (VStr "unknown error")) in
       match get "endpoint_id" stage with
       | VNone => error
       | id => "endpoint " +:+ str id +:+ ": " +:+ error
       end) stages).

Definition _any_sync_stage_ran (stages : list (dict pyval)) : bool :=
  existsb (fun stage => (negb (is_scope_stage stage)
                         && negb (truthy (get "skipped" (summary_of stage))))%bool) stages.

Definition _LOCAL_PHASE_KINDS : list string := ["cluster"; "firewall"; "datacenter"; "vm_template"].

Definition _local_phases (phases : list runtime_phase) : list runtime_phase :=
  List.filter (fun p => mem_str (phase_kind p) _LOCAL_PHASE_KINDS) phases.

Definition _failed_local_phases (phases : list runtime_phase) : list runtime_phase :=
  List.filter (fun p => negb (is_success p)) (_local_phases phases).

Definition _local_failure_detail (phases : list runtime_phase) : string :=
  join "; "
    (List.map (fun p =>
       str_or (str_or (phase_label p) (phase_kind p)) "Local sync" +:+
       match phase_endpoint_id p with Some id => " for endpoint " +:+ str id | None => "" end +:+
       ": " +:+ str_or (phase_summary p) "unknown error") phases).

Definition left_open (branch : Branch) (reason : string) : dict pyval :=
  [ ("status", VStr "left_open"); ("branch_name", VStr (branch_name branch)); ("reason", VStr reason) ].

Definition _local_failure_disposition (branch : option Branch) (phases : list runtime_phase) :
  option (dict pyval) :=
  match branch, _failed_local_phases phases with
  | Some b, _ :: _ => Some (left_open b "local_reconciliation_failed")
  | _, _ => None
  end.

Definition _sse_failure_disposition (branch : option Branch) (phases : list runtime_phase) :
  option (dict pyval) :=
  match _local_failure_disposition branch phases, branch with
  | Some d, _ => Some d
  | None, Some b => Some (left_open b "sse_failed")
  | None, None => None
  end.

Definition BATCH_FAILURE_DETAIL_LIMIT : nat := 10.

Definition failure_text (i : batch_item) : string :=
  let error := strip (str (py_or (item_error i) (VStr ""))) in
  str_or (item_object_id i) "?" +:+ " (" +:+ pretty (item_status i) +:+
  (if is_empty error then "" else ": " +:+ error) +:+ ")".

Definition _failed_batch_object_detail (b : batch_result) : string :=
  match List.map failure_text (List.filter (fun i => negb (item_status i <? 400)) (results b)) with
  | [] => "no per-object detail was recorded; see the job data for the raw result"
  | failures =>
      let shown := firstn BATCH_FAILURE_DETAIL_LIMIT failures in
      let remaining := (length failures - length shown)%nat in
      "failed object(s): " +:+ join "; " shown +:+
      (if Nat.ltb 0 remaining then "; and " +:+ pretty remaining +:+ " more" else "")
  end.

Definition _batch_result_summary (b : batch_result) : string :=
  batch_object_label b +:+ " (" +:+ pretty (total b) +:+ " total, " +:+ pretty (succeeded b) +:+
  " succeeded, " +:+ pretty (failed b) +:+ " failed)".

Section Job.
Context {E : Type} `{!Env E, !BranchEnv E, !HttpEnv E, !BatchEnv E, !PreflightEnv E, !JobEnv E}.
Variable re_search : string -> string -> option bool.

Abbreviation J := (M (job_world E)).

(** ** Plumbing *)

Definition set_world (w : world E) (j : job_world E) : job_world E :=
  {| jw := w; jmade := jmade j; job_data := job_data j; jbranch := jbranch j;
     jbackfill := jbackfill j; jlog := jlog j |}.

Definition on_world {A} (m : M (world E) A) : J A := fun j =>
  let '(r, w) := m (jw j) in (r, set_world w j).

(** The calls of a selected-object run, on the same environment. *)
Definition on_calls {A} (m : M (ind_world E) A) : J A := fun j =>
  let '(r, i) := m {| ienv := env (jw j); made := jmade j |} in
  (r, {| jw := set_env (ienv i) (jw j); jmade := made i; job_data := job_data j;
         jbranch := jbranch j; jbackfill := jbackfill j; jlog := jlog j |}).

Definition set_branch (b : option Branch) : J () := modify (fun j =>
  {| jw := jw j; jmade := jmade j; job_data := job_data j; jbranch := b;
     jbackfill := jbackfill j; jlog := jlog j |}).

Definition set_backfill (d : dict pyval) : J () := modify (fun j =>
  {| jw := jw j; jmade := jmade j; job_data := job_data j; jbranch := jbranch j;
     jbackfill := Some d; jlog := jlog j |}).

Definition log (ev : job_event E) : J () := modify (fun j =>
  {| jw := jw j; jmade := jmade j; job_data := job_data j; jbranch := jbranch j;
     jbackfill := jbackfill j; jlog := ev :: jlog j |}).

(** [job.data = data; job.save(update_fields=["data"])] *)
Definition save (data : pyval) : J () := modify (fun j =>
  {| jw := jw j; jmade := jmade j; job_data := data; jbranch := jbranch j;
     jbackfill := jbackfill j; jlog := JSave data :: jlog j |}).

Definition clock_now : J Z := on_world monotonic.
Definition job_rows : J netbox := on_world rows.
Definition env_gets {A} (f : E -> A) : J A := gets (fun j => f (env (jw j))).

(** [with activate_sync_branch(context.branch): body] *)
Definition with_branch {A} (body : J A) : J A :=
  branch ← gets jbranch;
  match branch with
  | None => body
  | Some b =>
      b ← on_world (activate_sync_branch b);
      _ ← set_branch (Some b);
      try_finally body (on_world deactivate_sync_branch)
  end.

Definition runtime_since (started : Z) : J Z := on_world (_runtime_seconds_since started).

(** ** The context *)

Definition _normalize_run_types (sync_types : list pyval) (sync_type : pyval) : list string :=
  match sync_types, sync_type with
  | _ :: _, _ => normalize_sync_types (List.map str sync_types)
  | [], VNone => [SyncTypeChoices.ALL]
  | [], t => normalize_sync_types [str t]
  end.

Definition _effective_sync_job_timeout (rq_timeout : option Z) : Z :=
  match rq_timeout with
  | Some t => if 0 <? t then t else sec SYNC_JOB_TIMEOUT_DEFAULT
  | None => sec SYNC_JOB_TIMEOUT_DEFAULT
  end.

Definition _prepare_sync_run (args : run_args) (fastapi : option Z)
  (branch_config : option branch_settings) : J _SyncRunContext :=
  run_started ← clock_now;
  rq_timeout ← env_gets je_rq_timeout;
  run_id ← env_gets je_uuid;
  let types := _normalize_run_types (a_sync_types args) (a_sync_type args) in
  mret {| c_args := args; c_branch_config := branch_config; c_types := types;
          c_batch_object_type :=
            if truthy (a_batch_object_type args) then Some (strip (str (a_batch_object_type args)))
            else None;
          c_batch_object_ids := _normalize_batch_object_ids (a_batch_object_ids args);
          c_fastapi_endpoint_id := fastapi; c_run_started := run_started;
          c_deadline := {| expires_at := run_started + _effective_sync_job_timeout rq_timeout;
                           reserve_seconds := sec 120 |};
          c_stages := expanded_sync_stages types; c_run_id := run_id |}.

(** The lists of the parameters that are passed on. *)
Definition _build_sync_run_params (c : _SyncRunContext) : SyncJobParams :=
  {| sp_sync_types := c_types c;
     sp_proxmox_endpoint_ids := _stringified_values (a_proxmox_endpoint_ids (c_args c));
     sp_netbox_endpoint_ids := _stringified_values (a_netbox_endpoint_ids (c_args c));
     sp_netbox_vm_ids := _stringified_values (a_netbox_vm_ids (c_args c));
     sp_batch_object_type := c_batch_object_type c;
     sp_batch_object_ids := c_batch_object_ids c;
     sp_fastapi_endpoint_id := c_fastapi_endpoint_id c |}.

(** [context.params] as persisted, once the branch schema is in it. *)
Definition params_dict (c : _SyncRunContext) (schema : option string) : dict pyval :=
  let p := _build_sync_run_params c in
  [ ("sync_types", strs (sp_sync_types p));
    ("proxmox_endpoint_ids", strs (sp_proxmox_endpoint_ids p));
    ("netbox_endpoint_ids", strs (sp_netbox_endpoint_ids p));
    ("netbox_vm_ids", strs (sp_netbox_vm_ids p));
    ("batch_object_type", opt_vstr (sp_batch_object_type p));
    ("batch_object_ids", strs (sp_batch_object_ids p));
    ("fastapi_endpoint_id", opt_vint (sp_fastapi_endpoint_id p));
    ("run_id", VStr (c_run_id c)); ("netbox_branch_schema_id", opt_vstr schema) ].

Definition branch_schema (branch : option Branch) : option string :=
  match branch with Some b => branch_schema_id b | None => None end.

(** The parameters the staged run reads. *)
Definition stage_params (c : _SyncRunContext) (branch : option Branch) : sync_params :=
  let p := _build_sync_run_params c in
  {| p_proxmox_endpoint_ids := List.map VStr (sp_proxmox_endpoint_ids p);
     p_netbox_endpoint_ids := sp_netbox_endpoint_ids p;
     p_netbox_vm_ids := List.map VStr (sp_netbox_vm_ids p);
     p_fastapi_endpoint_id := c_fastapi_endpoint_id c;
     p_netbox_branch_schema_id := opt_vstr (branch_schema branch);
     p_run_id := VStr (c_run_id c) |}.

(** ** Persistence *)

Definition _sync_data_with_branch (c : _SyncRunContext) (branch : option Branch)
  (backfill : option (dict pyval)) : dict pyval :=
  let sync_data := [("params", VDict (params_dict c (branch_schema branch)))] in
  let sync_data :=
    match _branch_identity branch with
    | Some identity => dset "branch" (VDict identity) sync_data
    | None => sync_data
    end in
  match backfill with
  | Some d => dset "sync_state_endpoint_backfill" (VDict d) sync_data
  | None => sync_data
  end.

Definition _persist_initial_sync_data (c : _SyncRunContext) : J () :=
  branch ← gets jbranch;
  backfill ← gets jbackfill;
  let sync_data := _sync_data_with_branch c branch backfill in
  let params := _serialize_sync_params (_build_sync_run_params c) (Some (c_run_id c)) in
  save (VDict [("proxbox_sync", VDict (dset "params" (VDict params) sync_data))]).

Definition _record_branching_failure (message : string) : J () :=
  data ← gets job_data;
  save (branching_failure_data data message).

Definition disposition_data (data : pyval) (branch : option Branch) (status : string) : pyval :=
  let data := as_mapping data in
  let sync_data := as_mapping (get "proxbox_sync" data) in
  let response := as_mapping (get "response" sync_data) in
  let identity := match _branch_identity branch with Some d => d | None => [] end in
  let response :=
    dset "branch_disposition"
      (VDict [ ("status", VStr status); ("branch_id", get "id" identity);
               ("branch_name", get "name" identity) ]) response in
  VDict (dset "proxbox_sync" (VDict (dset "response" (VDict response) sync_data)) data).

Definition _persist_branch_disposition (status : string) : J () :=
  data ← gets job_data;
  branch ← gets jbranch;
  save (disposition_data data branch status).

Definition staged_data (c : _SyncRunContext) (branch : option Branch)
  (backfill : option (dict pyval)) (nb : netbox) (runtime_seconds : Z)
  (stages : list (dict pyval)) (phases : list runtime_phase)
  (branch_disposition : option (dict pyval)) : pyval :=
  let endpoint_runtimes := _build_endpoint_runtimes nb phases in
  let response :=
    [ ("stages", VList (List.map VDict stages));
      ("local_phases", VList (List.map (fun p => VDict (phase_dict p)) (_local_phases phases)));
      ("endpoint_runtimes", VList (List.map (fun r => VDict (card_dict r)) endpoint_runtimes));
      ("runtime_summary", VDict (summary_dict (_runtime_summary runtime_seconds endpoint_runtimes))) ] in
  let disposition :=
    match branch_disposition with
    | Some d => Some d
    | None => _local_failure_disposition branch phases
    end in
  let response :=
    match disposition with
    | Some d => dset "branch_disposition" (VDict d) response
    | None => response
    end in
  let sync_data := _sync_data_with_branch c branch backfill in
  VDict [("proxbox_sync",
           VDict (dset "response" (VDict response)
                    (dset "runtime_seconds" (seconds runtime_seconds) sync_data)))].

Definition _persist_staged_result (c : _SyncRunContext) (stages : list (dict pyval))
  (phases : list runtime_phase) (branch_disposition : option (dict pyval)) : J Z :=
  runtime_seconds ← runtime_since (c_run_started c);
  nb ← job_rows;
  branch ← gets jbranch;
  backfill ← gets jbackfill;
  _ ← save (staged_data c branch backfill nb runtime_seconds stages phases branch_disposition);
  mret runtime_seconds.

Definition batch_data (c : _SyncRunContext) (branch : option Branch)
  (backfill : option (dict pyval)) (nb : netbox) (runtime_seconds : Z) (b : batch_result)
  (phases : list runtime_phase) : pyval :=
  let response :=
    [ ("batch", VDict (batch_dict b));
      ("endpoint_runtimes",
        VList (List.map (fun r => VDict (card_dict r)) (_build_endpoint_runtimes nb phases))) ] in
  VDict [("proxbox_sync",
           VDict (dset "response" (VDict response)
                    (dset "runtime_seconds" (seconds runtime_seconds)
                       (_sync_data_with_branch c branch backfill))))].

Definition _persist_batch_result (c : _SyncRunContext) (b : batch_result)
  (preflight : PreflightResult) : J () :=
  runtime_seconds ← runtime_since (c_run_started c);
  nb ← job_rows;
  branch ← gets jbranch;
  backfill ← gets jbackfill;
  save (batch_data c branch backfill nb runtime_seconds b (pf_phases preflight)).

(** ** Branch *)

Definition _create_sync_branch (c : _SyncRunContext) : J (option Branch) :=
  match c_branch_config c with
  | None => mret None
  | Some config =>
      let branch_name :=
        prefix config +:+ "-" +:+ pretty (a_job_pk (c_args c)) +:+ "-" +:+
        pretty (c_run_started c / sec 1) in
      try_except
        (b ← on_world (create_and_provision_branch branch_name);
         match b with
         | Some b => mret (Some b)
         | None => raise RecursionError
         end)
        (fun exc =>
           match exc with
           | BranchingUnavailableError _ => raise exc
           | _ =>
               _ ← _record_branching_failure
                     ("Proxbox sync refused: failed to create/provision NetBox branch " +:+
                      branch_name +:+ ": " +:+ exn_msg exc);
               raise exc
           end)
  end.

Definition _merge_sync_branch (c : _SyncRunContext) : J () :=
  branch ← gets jbranch;
  match branch, c_branch_config c with
  | Some b, Some config =>
      _ ← log (JMerge (branch_pk b));
      outcome ← on_world (merge_branch b (on_conflict config));
      if merged outcome then
        match merge_disposition outcome with
        | Some disposition => _persist_branch_disposition disposition
        | None => mret ()
        end
      else
        _ ← _record_branching_failure (merge_message outcome);
        raise (RuntimeError (merge_message outcome))
  | _, _ => mret ()
  end.

(** ** Local phases *)

Definition _staged_endpoint_ids (c : _SyncRunContext) : J (list Z) :=
  nb ← job_rows;
  mret (_enabled_endpoint_ids nb (a_proxmox_endpoint_ids (c_args c))).

Definition local_phase (id : pyval) (name kind label : string) (runtime : Z) (status summary : string) :
  runtime_phase :=
  _endpoint_runtime_phase id (VStr name) kind label (seconds runtime) status summary VNone VNone.

Definition _record_local_deadline_phases (endpoint_ids : list Z) (kind label : string) :
  list runtime_phase :=
  List.map (fun id => local_phase (VInt id) "" kind label 0 "warning" _JOB_DEADLINE_CAUSE) endpoint_ids.

(** The loop the four services share: the clock is read before each endpoint,
    and a deadline, before or during a service, accounts for the endpoints left. *)
Fixpoint local_loop (d : SyncJobDeadline) (kind label : string)
  (step : Z -> J (list runtime_phase)) (endpoint_ids : list Z) (phases : list runtime_phase) :
  J (list runtime_phase) :=
  match endpoint_ids with
  | [] => mret phases
  | endpoint_id :: rest =>
      now ← clock_now;
      if remaining d now <=? 0
      then mret (phases ++ _record_local_deadline_phases endpoint_ids kind label)
      else
        outcome ← try_except (p ← step endpoint_id; mret (Some p))
                    (fun exc => match exc with
                                | SyncJobDeadlineReached _ => mret None
                                | _ => raise exc
                                end);
        match outcome with
        | Some p => local_loop d kind label step rest (phases ++ p)
        | None => mret (phases ++ _record_local_deadline_phases endpoint_ids kind label)
        end
  end.

Definition service (c : _SyncRunContext) (kind : string) (endpoint_id : Z) : J service_result :=
  _ ← log (JService kind endpoint_id);
  on_world (in_env (je_service kind endpoint_id (c_fastapi_endpoint_id c)
                      (executable_expires_at (c_deadline c)))).

Definition count (r : service_result) (i : nat) : string := pretty (nth i (sr_counts r) 0).

Definition _cluster_result_summary (r : service_result) : string :=
  if sr_success r then
    count r 0 +:+ " cluster(s) created, " +:+ count r 1 +:+ " updated, " +:+
    count r 2 +:+ " node(s) created, " +:+ count r 3 +:+ " updated"
  else error_or (sr_error r) "cluster/node sync failed".

Definition _vm_template_result_summary (r : service_result) : string :=
  if sr_success r then
    count r 0 +:+ " template(s) created, " +:+ count r 1 +:+ " updated, " +:+
    count r 2 +:+ " skipped, " +:+ count r 3 +:+ " deleted"
  else error_or (sr_error r) "VM template sync failed".

(** One service call that reports one phase. *)
Definition single_phase (c : _SyncRunContext) (kind label : string)
  (summary : service_result -> string) (endpoint_id : Z) : J (list runtime_phase) :=
  started ← clock_now;
  r ← service c kind endpoint_id;
  runtime ← runtime_since started;
  mret [local_phase (py_or (sr_endpoint_id r) (VInt endpoint_id)) (sr_endpoint_name r) kind label
          runtime (if sr_success r then "success" else "warning") (summary r)].

Definition _sync_cluster_endpoints (c : _SyncRunContext) (endpoint_ids : list Z) :
  J (list runtime_phase) :=
  local_loop (c_deadline c) "cluster" "Cluster/node sync"
    (single_phase c "cluster" "Cluster/node sync" _cluster_result_summary) endpoint_ids [].

Definition _sync_cluster_phase (c : _SyncRunContext) (endpoint_ids : list Z) :
  J (list runtime_phase) := with_branch (_sync_cluster_endpoints c endpoint_ids).

(** The phases of the requested endpoint, with its id filled in. *)
Definition _phases_for_service_endpoint (r : service_result) (endpoint_id : Z) (kind label : string) :
  list runtime_phase :=
  flat_map (fun p =>
    match phase_endpoint_id p with
    | None =>
        [{| phase_kind := phase_kind p; phase_label := phase_label p;
            phase_runtime_seconds := phase_runtime_seconds p; phase_status := phase_status p;
            phase_summary := phase_summary p; phase_endpoint_id := Some (VInt endpoint_id);
            phase_endpoint_name := phase_endpoint_name p; phase_sync_type := phase_sync_type p;
            phase_stream_path := phase_stream_path p |}]
    | Some (VInt id) => if id =? endpoint_id then [p] else []
    | Some (VStr id) => if String.eqb id (pretty endpoint_id) then [p] else []
    | Some _ => []
    end) (_phases_from_service_result r kind label).

(** One service call whose failure is a phase of its own. *)
Definition isolated_phases (c : _SyncRunContext) (kind label : string) (endpoint_id : Z) :
  J (list runtime_phase) :=
  started ← clock_now;
  outcome ← try_except (r ← service c kind endpoint_id; mret (inl r))
              (fun exc => match exc with
                          | SyncJobDeadlineReached _ => raise exc
                          | _ => mret (inr exc)
                          end);
  match outcome with
  | inl r => mret (_phases_for_service_endpoint r endpoint_id kind label)
  | inr exc =>
      runtime ← runtime_since started;
      mret [local_phase (VInt endpoint_id) "" kind label runtime "warning" (exn_msg exc)]
  end.

Definition sync_firewall (c : _SyncRunContext) (endpoint_ids : list Z) : J (list runtime_phase) :=
  with_branch (local_loop (c_deadline c) "firewall" "Firewall sync"
                 (isolated_phases c "firewall" "Firewall sync") endpoint_ids []).

Definition sync_datacenter (c : _SyncRunContext) (endpoint_ids : list Z) : J (list runtime_phase) :=
  with_branch (local_loop (c_deadline c) "datacenter" "Datacenter sync"
                 (isolated_phases c "datacenter" "Datacenter sync") endpoint_ids []).

Definition _vm_template_sync_disabled : J bool :=
  nb ← job_rows;
  modes ← lift (effective_sync_modes_for_endpoint nb None);
  mret (String.eqb (dget_or "sync_mode_vm_template" ALWAYS modes) DISABLED).

Definition sync_vm_templates (c : _SyncRunContext) (endpoint_ids : list Z) : J (list runtime_phase) :=
  disabled ← _vm_template_sync_disabled;
  if (disabled : bool) then mret []
  else with_branch
         (local_loop (c_deadline c) "vm_template" "VM template sync"
            (single_phase c "vm_template" "VM template sync" _vm_template_result_summary)
            endpoint_ids []).

(** ** Phases of the run *)

Definition _bootstrap_backend_endpoints (c : _SyncRunContext) : J PreflightResult :=
  preflight ← on_world (_ensure_backend_endpoints (a_proxmox_endpoint_ids (c_args c))
                          (c_fastapi_endpoint_id c) (Some (c_deadline c)));
  match blocking_error preflight with
  | Some ((String _ _) as error) => raise (ProxboxPreflightError error)
  | _ => mret preflight
  end.

Definition no_endpoint_map : dict pyval :=
  [("skipped", VBool true);
   ("reason", VStr "the run resolved no usable plugin-to-backend endpoint map")].

Definition _backfill_sync_state_endpoints (backend_id_by_plugin_pk : dict string) : J () :=
  match backend_id_by_plugin_pk with
  | [] => set_backfill no_endpoint_map
  | _ =>
      summary ← with_branch (on_world (in_env (je_backfill backend_id_by_plugin_pk)));
      set_backfill summary
  end.

Definition _begin_sync_run (c : _SyncRunContext) : J () :=
  branch ← _create_sync_branch c;
  _ ← set_branch branch;
  _ ← _persist_initial_sync_data c;
  try_except
    (verified ← on_world (_require_backend_key (c_fastapi_endpoint_id c) (Some (c_deadline c)));
     match verified with Some _ => mret () | None => raise RecursionError end)
    (fun exc =>
       match exc with
       | SyncJobDeadlineReached _ =>
           endpoint_ids ← _staged_endpoint_ids c;
           _ ← _persist_staged_result c []
                 (_record_local_deadline_phases endpoint_ids "preflight" "Backend key verification")
                 None;
           raise (RuntimeError _JOB_DEADLINE_CAUSE)
       | _ => raise exc
       end).

Definition _resolve_batch_endpoint_scope (c : _SyncRunContext) : J batch_scope :=
  scope ← on_world (_batch_wire_endpoint_scope
                      (List.map VStr (sp_proxmox_endpoint_ids (_build_sync_run_params c)))
                      (c_fastapi_endpoint_id c));
  match scope_error scope with
  | Some ((String _ _) as error) =>
      raise (ProxboxPreflightError ("Selected-object sync did not run: " +:+ error))
  | _ => mret scope
  end.

Definition _execute_batch_sync (c : _SyncRunContext) (object_type : string) (scope : batch_scope) :
  J batch_result :=
  branch ← gets jbranch;
  on_calls (_run_batch_selected_sync re_search object_type
              (List.map VStr (c_batch_object_ids c)) (branch_schema branch)
              (c_fastapi_endpoint_id c) (Some (scope_ids scope)) (wire_by_pk scope)).

Definition _raise_for_batch_failures (b : batch_result) : J () :=
  if Nat.leb (failed b) 0 then mret ()
  else raise (RuntimeError ("Batch sync failed for " +:+ _batch_result_summary b +:+ " — " +:+
                            _failed_batch_object_detail b)).

(** Whether the selected-object run applied. *)
Definition _run_batch_phase (c : _SyncRunContext) : J bool :=
  match c_batch_object_type c, c_batch_object_ids c with
  | Some ((String _ _) as object_type), _ :: _ =>
      preflight ← _bootstrap_backend_endpoints c;
      scope ← _resolve_batch_endpoint_scope c;
      b ← _execute_batch_sync c object_type scope;
      _ ← _backfill_sync_state_endpoints (wire_by_pk scope);
      _ ← _persist_batch_result c b preflight;
      _ ← _raise_for_batch_failures b;
      _ ← _merge_sync_branch c;
      mret true
  | _, _ => mret false
  end.

(** The endpoints, the phases so far and the hint of the preflight. *)
Record _StagedSyncState := {
  st_endpoint_ids : list Z;
  st_phases : list runtime_phase;
  st_hint : option string
}.

Definition _extend_and_checkpoint_local_phases (c : _SyncRunContext) (s : _StagedSyncState)
  (phases : list runtime_phase) : J _StagedSyncState :=
  let s := {| st_endpoint_ids := st_endpoint_ids s; st_phases := st_phases s ++ phases;
              st_hint := st_hint s |} in
  _ ← _persist_staged_result c [] (st_phases s) None;
  mret s.

Definition _start_staged_sync (c : _SyncRunContext) : J _StagedSyncState :=
  preflight ← _bootstrap_backend_endpoints c;
  endpoint_ids ← _staged_endpoint_ids c;
  phases ← _sync_cluster_phase c endpoint_ids;
  _extend_and_checkpoint_local_phases c
    {| st_endpoint_ids := endpoint_ids; st_phases := pf_phases preflight; st_hint := hint preflight |}
    phases.

Definition _run_local_sync_phases (c : _SyncRunContext) (s : _StagedSyncState) : J _StagedSyncState :=
  for_each [sync_firewall; sync_datacenter; sync_vm_templates] s
    (fun sync_phase s =>
       phases ← sync_phase c (st_endpoint_ids s);
       _extend_and_checkpoint_local_phases c s phases).

(** The stage records and the captured map of endpoint ids. *)
Definition _run_sse_stages (c : _SyncRunContext) (s : _StagedSyncState) :
  J (list (dict pyval) * dict string) :=
  branch ← gets jbranch;
  w ← gets jw;
  _ ← log (JStages w);
  out ← try_except
          (on_world (capture_wire_endpoint_ids
             (_run_all_stages_sync (c_stages c) (stage_params c branch) (c_run_started c)
                (Some (c_deadline c)) (st_hint s))))
          (fun exc =>
             _ ← _persist_staged_result c [] (st_phases s)
                   (_sse_failure_disposition branch (st_phases s));
             raise exc);
  let '(stages, captured) := out in
  mret (List.map stage_dict stages, captured).

Definition deadline_stage (endpoint_id : Z) (runtime : Z) : dict pyval :=
  [ ("sync_type", VStr ENDPOINT_SCOPE); ("endpoint_id", VInt endpoint_id);
    (* the name map is keyed by text, so the integer is not found *)
    ("endpoint_name", VStr ""); ("stream_path", VNone); ("runtime_seconds", seconds runtime);
    ("result_summary", VDict [("ok", VBool false); ("error", VStr _JOB_DEADLINE_CAUSE)]) ].

Definition _deadline_sse_stages (c : _SyncRunContext) : J (list (dict pyval)) :=
  endpoint_ids ← _staged_endpoint_ids c;
  for_each endpoint_ids [] (fun id acc =>
    runtime ← runtime_since (c_run_started c);
    mret (acc ++ [deadline_stage id runtime])).

(** [refresh_from_db]: only log lines depend on what is read. *)
Definition _stored_stages : J () := fun j =>
  (Ok (), {| jw := jw j; jmade := jmade j; job_data := je_reload (job_data j) (env (jw j));
             jbranch := jbranch j; jbackfill := jbackfill j; jlog := jlog j |}).

Definition _raise_for_failed_endpoint_scopes (stages : list (dict pyval)) : J () :=
  match _failed_endpoint_scopes stages with
  | [] => mret ()
  | failed =>
      let detail := _failed_scope_detail failed in
      raise (RuntimeError
        (if _any_sync_stage_ran stages then
           pretty (length failed) +:+ " Proxmox endpoint(s) were skipped and did not sync — " +:+ detail
         else "No sync stage ran: every selected Proxmox endpoint was skipped — " +:+ detail))
  end.

Definition _raise_for_failed_local_phases (phases : list runtime_phase) : J () :=
  match _failed_local_phases phases with
  | [] => mret ()
  | failed =>
      branch ← gets jbranch;
      raise (RuntimeError
        ("Local reconciliation failed: " +:+ _local_failure_detail failed +:+
         match branch with
         | Some b => ". Branch " +:+ branch_name b +:+ " was left open for operator inspection."
         | None => ""
         end))
  end.

(** The stages of the run, or the records of a deadline that is past. *)
Definition collect_stages (c : _SyncRunContext) (s : _StagedSyncState) : J (list (dict pyval)) :=
  now ← clock_now;
  if remaining (c_deadline c) now <=? 0 then
    w ← gets jw;
    _ ← log (JExpired now w);
    _deadline_sse_stages c
  else
    out ← _run_sse_stages c s;
    let '(stages, captured) := out in
    _ ← _backfill_sync_state_endpoints captured;
    mret stages.

Definition _finish_staged_sync (c : _SyncRunContext) (s : _StagedSyncState) : J () :=
  stages ← collect_stages c s;
  let phases := st_phases s ++ _phases_from_stage_results stages in
  branch ← gets jbranch;
  _ ← _persist_staged_result c stages phases
        match _failed_endpoint_scopes stages with
        | [] => None
        | _ => _sse_failure_disposition branch phases
        end;
  _ ← _stored_stages;
  _ ← _raise_for_failed_endpoint_scopes stages;
  _ ← _raise_for_failed_local_phases phases;
  _merge_sync_branch c.

(** ** The run *)

Definition _resolve_branching_config : J (option branch_settings) :=
  decision ← env_gets branching_enabled_settings;
  lift decision.

Definition owned_run (args : run_args) (fastapi : option Z) : J () :=
  branch_config ← _resolve_branching_config;
  c ← _prepare_sync_run args fastapi branch_config;
  _ ← _begin_sync_run c;
  applied ← _run_batch_phase c;
  if (applied : bool) then mret ()
  else
    state ← _start_staged_sync c;
    state ← match a_netbox_vm_ids args with
            | _ :: _ => mret state
            | [] => _run_local_sync_phases c state
            end;
    _finish_staged_sync c state.

(** Whether the row could be claimed; the claim is saved. *)
Definition _claim_rq_sync_ownership : J bool :=
  locked ← env_gets je_lock;
  data ← gets job_data;
  now ← env_gets je_now;
  match _claim_on_job_instance now match locked with Some row => row | None => data end with
  | None => mret false
  | Some claimed => _ ← save claimed; mret true
  end.

Definition release_claim : J () :=
  data ← gets job_data;
  match release_as SYNC_OWNER_RQ data with
  | None => mret ()
  | Some released => save released
  end.

(** [ProxboxSyncJob.run]; whether it owned the job. *)
Definition run (args : run_args) : J bool :=
  let fastapi := _coerce_fastapi_endpoint_id (a_fastapi_endpoint_id args) in
  claimed ← _claim_rq_sync_ownership;
  if negb (claimed : bool) then mret false
  else
    _ ← try_finally
          (try_except (owned_run args fastapi)
             (fun exc =>
                match exc with
                | BranchingUnavailableError message =>
                    _ ← _record_branching_failure message; raise exc
                | _ => raise exc
                end))
          release_claim;
    mret true.

End Job.

(** ** Lemmas: what the run logs *)

Section LogFacts.
Context {E : Type} `{!Env E, !BranchEnv E, !HttpEnv E, !BatchEnv E, !PreflightEnv E, !JobEnv E}.
Variable re_search : string -> string -> option bool.
Variable P : list (job_event E) -> Prop.
Hypothesis HP : closed P.
(** [P] holds of a save, of the start of a service or of the stages, and of an
    expired deadline. *)
Hypothesis Hsave : forall data, P [JSave data].
Hypothesis Hservice : forall kind id, P [JService kind id].
Hypothesis Hstages : forall w, P [JStages w].
Hypothesis Hexpired : forall now w, P [JExpired now w].

Lemma logs_on_world {A} (m : M (world E) A) : logs jlog P (on_world m).
Proof. apply logs_quiet; [done|]. intros j. unfold on_world. by destruct (m (jw j)). Qed.

Lemma logs_on_calls {A} (m : M (ind_world E) A) : logs jlog P (on_calls m).
Proof. apply logs_quiet; [done|]. intros j. unfold on_calls. by destruct (m _). Qed.

Lemma logs_one {A} (ev : job_event E) (m : M (job_world E) A) :
  (forall j, jlog (snd (m j)) = ev :: jlog j) -> P [ev] -> logs jlog P m.
Proof. intros Hm Hev j. exists [ev]. by rewrite Hm. Qed.

Lemma logs_save data : logs jlog P (save data).
Proof. by eapply logs_one. Qed.

Ltac logs_step :=
  lazymatch goal with
  | |- logs jlog P (mbind _ _) => apply logs_bind; [exact HP| |intros ?]
  | |- logs jlog P (try_except _ _) => apply logs_try; [exact HP| |intros ?]
  | |- logs jlog P (try_finally _ _) => apply logs_finally; [exact HP| |]
  | |- logs jlog P (for_each _ _ _) => apply logs_for_each; [exact HP|intros]
  | |- logs jlog P (on_world _) => apply logs_on_world
  | |- logs jlog P (on_calls _) => apply logs_on_calls
  | |- logs jlog P (save _) => apply logs_save
  | |- logs jlog P (log (JService _ _)) => eapply logs_one; [done|apply Hservice]
  | |- logs jlog P (log (JStages _)) => eapply logs_one; [done|apply Hstages]
  | |- logs jlog P (log (JExpired _ _)) => eapply logs_one; [done|apply Hexpired]
  | |- logs jlog P (match ?x with _ => _ end) => destruct x
  | |- logs jlog P (let '_ := ?x in _) => destruct x
  | |- logs jlog P _ => first [by apply logs_quiet | progress cbv beta zeta]
  end.
Ltac logs_solve := repeat logs_step.

Lemma logs_with_branch {A} (m : M (job_world E) A) : logs jlog P m -> logs jlog P (with_branch m).
Proof. intros Hm. unfold with_branch. logs_solve; done. Qed.

Lemma logs_persist c stages phases d : logs jlog P (_persist_staged_result c stages phases d).
Proof. unfold _persist_staged_result, runtime_since, job_rows. logs_solve. Qed.

Lemma logs_local_loop d kind label step ids phases :
  (forall id, logs jlog P (step id)) -> logs jlog P (local_loop d kind label step ids phases).
Proof.
  intros Hstep. revert phases. induction ids as [|id ids IH]; intros phases; cbn [local_loop];
    unfold clock_now; logs_solve; auto.
Qed.

Lemma logs_service c kind id : logs jlog P (service c kind id).
Proof. unfold service. logs_solve. Qed.

Lemma logs_single c kind label summary id : logs jlog P (single_phase c kind label summary id).
Proof.
  unfold single_phase, clock_now, runtime_since. logs_solve; apply logs_service.
Qed.

Lemma logs_isolated c kind label id : logs jlog P (isolated_phases c kind label id).
Proof. unfold isolated_phases, clock_now, runtime_since. logs_solve; apply logs_service. Qed.

Lemma logs_local_phases c ids :
  logs jlog P (_sync_cluster_phase c ids) /\ logs jlog P (sync_firewall c ids) /\
  logs jlog P (sync_datacenter c ids) /\ logs jlog P (sync_vm_templates c ids).
Proof.
  split; [|split; [|split]].
  - apply logs_with_branch, logs_local_loop, logs_single.
  - apply logs_with_branch, logs_local_loop, logs_isolated.
  - apply logs_with_branch, logs_local_loop, logs_isolated.
  - unfold sync_vm_templates, _vm_template_sync_disabled, job_rows. logs_solve.
    apply logs_with_branch, logs_local_loop, logs_single.
Qed.

Lemma logs_begin c : logs jlog P (_begin_sync_run c).
Proof.
  unfold _begin_sync_run, _create_sync_branch, _persist_initial_sync_data, _record_branching_failure,
    _staged_endpoint_ids, job_rows. logs_solve; apply logs_persist.
Qed.

Lemma logs_bootstrap c : logs jlog P (_bootstrap_backend_endpoints c).
Proof. unfold _bootstrap_backend_endpoints. logs_solve. Qed.

Lemma logs_backfill ids : logs jlog P (_backfill_sync_state_endpoints ids).
Proof. unfold _backfill_sync_state_endpoints. logs_solve. apply logs_with_branch, logs_on_world. Qed.

Lemma logs_checkpoint c s phases : logs jlog P (_extend_and_checkpoint_local_phases c s phases).
Proof. unfold _extend_and_checkpoint_local_phases. logs_solve. apply logs_persist. Qed.

Lemma logs_start c : logs jlog P (_start_staged_sync c).
Proof.
  unfold _start_staged_sync, _staged_endpoint_ids, job_rows.
  logs_solve; [apply logs_bootstrap|apply logs_local_phases|apply logs_checkpoint].
Qed.

Lemma logs_locals c s : logs jlog P (_run_local_sync_phases c s).
Proof.
  unfold _run_local_sync_phases. apply logs_for_each; [exact HP|]. intros f s' Hf.
  apply logs_bind; [exact HP| |intros; apply logs_checkpoint].
  rewrite !elem_of_cons in Hf. destruct Hf as [->|[->|[->|Hf]]]; [apply logs_local_phases..|].
  by apply not_elem_of_nil in Hf.
Qed.

Lemma logs_collect c s : logs jlog P (collect_stages c s).
Proof.
  unfold collect_stages, clock_now, _deadline_sse_stages, _staged_endpoint_ids, job_rows,
    runtime_since, _run_sse_stages. logs_solve; [apply logs_persist|apply logs_backfill].
Qed.

End LogFacts.

(** ** Evidence *)

Definition response_of (data : pyval) : dict pyval :=
  as_mapping (get "response" (as_mapping (get "proxbox_sync" (as_mapping data)))).

(** The persisted evidence names no failure. *)
Definition clean_evidence (data : pyval) : bool :=
  let response := response_of data in
  match get "batch" response with
  | VDict b => match get "failed" b with VInt n => n =? 0 | _ => false end
  | _ =>
      match get "stages" response, get "local_phases" response with
      | VList stages, VList phases =>
          (forallb (fun s => negb (is_failed_scope (as_mapping s))) stages &&
           forallb (fun p => match get "status" (as_mapping p) with
                             | VStr s => String.eqb s "success" | _ => false end) phases)%bool
      | _, _ => false
      end
  end.

Lemma get_status (p : runtime_phase) : get "status" (phase_dict p) = VStr (phase_status p).
Proof.
  unfold phase_dict. destruct (phase_stream_path p), (phase_sync_type p), (phase_endpoint_name p),
    (phase_endpoint_id p); reflexivity.
Qed.

Lemma filter_nil_forallb {A} (f : A -> bool) (l : list A) :
  List.filter f l = [] -> forallb (fun x => negb (f x)) l = true.
Proof. induction l as [|x l IH]; cbn; [done|]. destruct (f x); [done|]. apply IH. Qed.

Lemma forallb_map {A B} (f : B -> bool) (g : A -> B) (l : list A) :
  forallb f (List.map g l) = forallb (fun x => f (g x)) l.
Proof. induction l as [|x l IH]; cbn; [done|]. by rewrite IH. Qed.

Lemma forallb_ext {A} (f g : A -> bool) (l : list A) :
  (forall x, f x = g x) -> forallb f l = forallb g l.
Proof. intros Hfg. induction l as [|x l IH]; cbn; [done|]. by rewrite Hfg, IH. Qed.

Lemma staged_response c branch backfill nb t stages phases d k :
  k <> "branch_disposition" ->
  get k (response_of (staged_data c branch backfill nb t stages phases d)) =
  get k [ ("stages", VList (List.map VDict stages));
          ("local_phases", VList (List.map (fun p => VDict (phase_dict p)) (_local_phases phases)));
          ("endpoint_runtimes",
            VList (List.map (fun r => VDict (card_dict r)) (_build_endpoint_runtimes nb phases)));
          ("runtime_summary",
            VDict (summary_dict (_runtime_summary t (_build_endpoint_runtimes nb phases)))) ].
Proof.
  intros Hk. unfold response_of, staged_data. cbn [as_mapping].
  cbn [as_mapping get dget_or dget String.eqb Ascii.eqb Bool.eqb].
  rewrite get_dset_eq. cbn [as_mapping].
  destruct d as [d|]; [by rewrite get_dset_ne|].
  destruct (_local_failure_disposition branch phases); [by rewrite get_dset_ne|done].
Qed.

Lemma staged_evidence_clean c branch backfill nb t stages phases d :
  _failed_endpoint_scopes stages = [] -> _failed_local_phases phases = [] ->
  clean_evidence (staged_data c branch backfill nb t stages phases d) = true.
Proof.
  intros Hs Hp. unfold clean_evidence. rewrite !staged_response by done. cbn [get dget_or dget String.eqb Ascii.eqb Bool.eqb].
  rewrite !forallb_map. apply andb_true_intro. split.
  - cbn [as_mapping]. by apply filter_nil_forallb.
  - cbn [as_mapping]. apply filter_nil_forallb in Hp. etransitivity; [|exact Hp].
    apply forallb_ext. intros p. pose proof (get_status p) as Hst. unfold get, dget_or in *.
    rewrite Hst. unfold is_success. by destruct (String.eqb _ _).
Qed.

Lemma batch_evidence_clean c branch backfill nb t b phases :
  failed b = 0%nat -> clean_evidence (batch_data c branch backfill nb t b phases) = true.
Proof.
  intros Hf. unfold clean_evidence, response_of, batch_data. cbn [as_mapping get dget_or dget String.eqb Ascii.eqb Bool.eqb].
  rewrite get_dset_eq. unfold batch_dict. rewrite Hf. reflexivity.
Qed.

Section Properties.
Context {E : Type} `{!Env E, !BranchEnv E, !HttpEnv E, !BatchEnv E, !PreflightEnv E, !JobEnv E}.
Variable re_search : string -> string -> option bool.

(** Every merge of the segment comes right after clean evidence was saved. *)
Definition merges_clean (l : list (job_event E)) : Prop :=
  forall post pk pre, l = post ++ JMerge pk :: pre ->
    exists data pre', pre = JSave data :: pre' /\ clean_evidence data = true.

Definition no_merge (l : list (job_event E)) : Prop := forall pk, JMerge pk ∉ l.

Lemma no_merge_clean (l : list (job_event E)) : no_merge l -> merges_clean l.
Proof. intros Hn post pk pre ->. destruct (Hn pk). set_solver. Qed.

Lemma no_merge_closed : closed no_merge.
Proof.
  split; [by intros pk ?%not_elem_of_nil|]. intros l1 l2 H1 H2 pk [?|?]%elem_of_app; [by eapply H2|by eapply H1].
Qed.

Lemma merges_clean_app (l1 l2 : list (job_event E)) :
  merges_clean l1 -> merges_clean l2 -> merges_clean (l2 ++ l1).
Proof.
  intros H1 H2 post pk pre Heq. apply app_eq_app in Heq as (l & [[-> Hl]|[-> Hl]]).
  - destruct l as [|ev l]; cbn in Hl; [by apply (H1 [] pk pre)|]. injection Hl as <- ->.
    destruct (H2 post pk l eq_refl) as (data & pre' & -> & Hc). eauto.
  - by eapply H1.
Qed.

Lemma merges_clean_closed : closed merges_clean.
Proof. split; [by apply no_merge_clean, no_merge_closed|]. intros. by apply merges_clean_app. Qed.

(** Only saves. *)
Definition only_saves (l : list (job_event E)) : Prop := Forall (fun ev => exists data, ev = JSave data) l.

Lemma only_saves_closed : closed only_saves.
Proof. split; [constructor|]. intros l1 l2 H1 H2. by apply Forall_app. Qed.

Lemma only_saves_no_merge (l : list (job_event E)) : only_saves l -> no_merge l.
Proof. intros Hl pk Hin. unfold only_saves in Hl. rewrite Forall_forall in Hl. by destruct (Hl _ Hin) as [data [=]]. Qed.

Lemma merge_segment c :
  adds jlog (_merge_sync_branch c)
    (fun l _ => l = [] \/ exists pk rest, l = rest ++ [JMerge pk] /\ only_saves rest).
Proof.
  unfold _merge_sync_branch, adds. intros j. wp_steps. destruct (jbranch j) as [b|]; [|by exists []; auto].
  destruct (c_branch_config c) as [config|]; [|by exists []; auto].
  wp_step. apply wp_modify. cbv beta iota.
  assert (Hrest : logs jlog only_saves
    (outcome ← on_world (merge_branch b (on_conflict config));
     if merged outcome then
       match merge_disposition outcome with
       | Some disposition => _persist_branch_disposition disposition
       | None => mret ()
       end
     else _ ← _record_branching_failure (merge_message outcome);
          raise (RuntimeError (merge_message outcome)))).
  { assert (Hs : forall data, only_saves [JSave data]) by (intros data; constructor; eauto).
    pose proof only_saves_closed as HP.
    apply logs_bind; [done|by apply logs_on_world|]. intros o. destruct (merged o).
    - destruct (merge_disposition o); [|by apply logs_quiet].
      unfold _persist_branch_disposition. do 2 (apply logs_bind; [done|by apply logs_quiet|intros ?]).
      by apply logs_save.
    - unfold _record_branching_failure. apply logs_bind; [done| |intros ?; by apply logs_quiet].
      apply logs_bind; [done|by apply logs_quiet|intros ?]. by apply logs_save. }
  eapply wp_mono; [apply Hrest|]. intros r j' (new & Hnew & Hn). exists (new ++ [JMerge (branch_pk b)]).
  rewrite Hnew, <- app_assoc. split; [done|]. eauto.
Qed.

(** A clean save, checks that log nothing, and then at most a merge. *)
Lemma saved_then_merged (data : pyval) (l : list (job_event E)) :
  clean_evidence data = true ->
  (l = [] \/ exists pk rest, l = rest ++ [JMerge pk] /\ only_saves rest) ->
  merges_clean (l ++ [JSave data]).
Proof.
  intros Hc [->|(pk & rest & -> & Hn%only_saves_no_merge)].
  - apply no_merge_clean. by intros pk ?%list_elem_of_singleton.
  - intros post pk' pre Heq. rewrite <- app_assoc in Heq. cbn in Heq.
    apply app_eq_app in Heq as (l & [[-> Hl]|[-> Hl]]).
    + destruct l as [|ev l]; cbn in Hl; [injection Hl as _ ->; eauto|].
      injection Hl as <- Hl. destruct (Hn pk'). set_solver.
    + destruct l as [|ev l]; cbn in Hl; [injection Hl as _ <-; eauto|].
      injection Hl as <- Hl. destruct l as [|ev [|]]; discriminate Hl.
Qed.

Lemma persist_staged_adds c stages phases d :
  adds jlog (_persist_staged_result c stages phases d)
    (fun l r => exists branch backfill nb t,
       l = [JSave (staged_data c branch backfill nb t stages phases d)] /\ r = Ok t).
Proof.
  intros j. unfold _persist_staged_result, runtime_since, job_rows, on_world, _runtime_seconds_since, rows.
  unfold wp, mbind, M_bind, monotonic, gets, mret, M_ret, save, modify.
  destruct (env_monotonic (env (jw j))) as [t e]. cbn. eexists [_]. eauto 10.
Qed.

Lemma raise_scopes_adds stages :
  adds jlog (_raise_for_failed_endpoint_scopes (E := E) stages)
    (fun l r => l = [] /\ (r = Ok () -> _failed_endpoint_scopes stages = [])).
Proof.
  unfold _raise_for_failed_endpoint_scopes. destruct (_failed_endpoint_scopes stages).
  - eapply adds_mono; [apply adds_ret|]. naive_solver.
  - eapply adds_mono; [apply adds_raise|]. intros l' r [-> ->]. done.
Qed.

Lemma raise_local_adds phases :
  adds jlog (_raise_for_failed_local_phases (E := E) phases)
    (fun l r => l = [] /\ (r = Ok () -> _failed_local_phases phases = [])).
Proof.
  unfold _raise_for_failed_local_phases. destruct (_failed_local_phases phases) as [|p ps] eqn:Ef.
  - eapply adds_mono; [apply adds_ret|]. naive_solver.
  - eapply adds_bind; [apply adds_gets|intros; apply adds_raise|naive_solver|].
    intros l1 l2 a r [-> _] [-> ->]. done.
Qed.

Lemma clean_events :
  (forall data, merges_clean [JSave data]) /\ (forall kind id, merges_clean [JService kind id]) /\
  (forall w, merges_clean [JStages w]) /\ (forall now w, merges_clean [JExpired now w]).
Proof.
  split; [|split; [|split]]; intros; apply no_merge_clean; by intros pk ?%list_elem_of_singleton.
Qed.

(** The tail of a staged run, after its stages are known. *)
Definition settle (c : _SyncRunContext) (stages : list (dict pyval)) (phases : list runtime_phase)
  (d : option (dict pyval)) : M (job_world E) () :=
  _ ← _persist_staged_result c stages phases d;
  _ ← _stored_stages;
  _ ← _raise_for_failed_endpoint_scopes stages;
  _ ← _raise_for_failed_local_phases phases;
  _merge_sync_branch c.

(** What may follow the last evidence of a run: saves, and at most one merge. *)
Definition wrapped_up (l : list (job_event E)) : Prop :=
  Forall (fun ev => match ev with JSave _ | JMerge _ => True | _ => False end) l.

(** The segment starts with the save of clean evidence about these stages. *)
Definition evidence_saved (stages : list (dict pyval)) (l : list (job_event E)) : Prop :=
  exists post data, l = post ++ [JSave data] /\ wrapped_up post /\ clean_evidence data = true /\
    get "stages" (response_of data) = VList (List.map VDict stages).

Lemma merged_wrapped (l : list (job_event E)) :
  (l = [] \/ exists pk rest, l = rest ++ [JMerge pk] /\ only_saves rest) -> wrapped_up l.
Proof.
  intros [->|(pk & rest & -> & Hr)]; [constructor|]. apply Forall_app. split; [|by repeat constructor].
  eapply Forall_impl; [exact Hr|]. by intros ev [data ->].
Qed.

Lemma settle_adds c stages phases d :
  adds jlog (settle c stages phases d)
    (fun l r => merges_clean l /\
       (r = Ok () -> _failed_endpoint_scopes stages = [] /\ evidence_saved stages l)).
Proof.
  unfold settle. eapply adds_bind with (S := fun _ l r =>
    (r = Ok () -> _failed_endpoint_scopes stages = [] /\ _failed_local_phases phases = [] /\ wrapped_up l) /\
    (l = [] \/ (_failed_endpoint_scopes stages = [] /\ _failed_local_phases phases = [] /\
       exists pk rest, l = rest ++ [JMerge pk] /\ only_saves rest)));
    [apply persist_staged_adds| |naive_solver|].
  - intros t. eapply adds_bind with (R := fun l r => l = [] /\ r = Ok ());
      [intros j; by exists []| |naive_solver|intros l1 l2 a r [-> _] HS; rewrite app_nil_r; exact HS].
    intros u. eapply adds_bind; [apply raise_scopes_adds|intros u'|intros l e [-> He]; split; [done|by left]|].
    + eapply adds_bind with (T := fun l r => (r = Ok () -> _failed_local_phases phases = [] /\ wrapped_up l) /\
        (l = [] \/ _failed_local_phases phases = [] /\ exists pk rest, l = rest ++ [JMerge pk] /\ only_saves rest));
        [apply raise_local_adds|intros u''; apply merge_segment|intros l e [-> _]; split; [done|by left]|].
      intros l1 l2 [] r [-> Hl] Hm. rewrite app_nil_r. split; [intros _; split; [by apply Hl|by apply merged_wrapped]|].
      destruct Hm; [by left|right; auto].
    + intros l1 l2 [] r [-> Hs] [Hw Hm]. rewrite app_nil_r. split; [intros Hr; split; [auto|by apply Hw]|].
      destruct Hm as [|[? ?]]; auto.
  - intros l1 l2 t r (branch & backfill & nb & t' & -> & _) [Hs Hm]. split.
    + destruct Hm as [->|(Hf & Hl & Hm)]; [apply clean_events|].
      apply saved_then_merged; [by apply staged_evidence_clean|by right].
    + intros Hr. destruct (Hs Hr) as (Hf & Hl & Hw). split; [done|]. exists l2. eexists. split; [done|]. split; [done|].
      split; [by apply staged_evidence_clean|]. by rewrite staged_response.
Qed.

Lemma finish_settles c s :
  _finish_staged_sync c s =
  (stages ← collect_stages c s;
   branch ← gets jbranch;
   settle c stages (st_phases s ++ _phases_from_stage_results stages)
     match _failed_endpoint_scopes stages with
     | [] => None
     | _ => _sse_failure_disposition branch (st_phases s ++ _phases_from_stage_results stages)
     end).
Proof. done. Qed.

Lemma finish_clean c s : logs jlog merges_clean (_finish_staged_sync c s).
Proof.
  destruct clean_events as (H1 & H2 & H3 & H4). pose proof merges_clean_closed as HP.
  rewrite finish_settles. apply logs_bind; [done|by apply logs_collect|]. intros stages.
  apply logs_bind; [done|by apply logs_quiet|]. intros branch.
  eapply adds_mono; [apply settle_adds|]. by intros l r [? _].
Qed.

Lemma batch_phase_clean c : logs jlog merges_clean (_run_batch_phase re_search c).
Proof.
  destruct clean_events as (H1 & H2 & H3 & H4). pose proof merges_clean_closed as HP.
  unfold _run_batch_phase. destruct (c_batch_object_type c) as [[|ch ty]|]; [by apply logs_quiet| |by apply logs_quiet].
  destruct (c_batch_object_ids c); [by apply logs_quiet|].
  apply logs_bind; [done|by apply logs_bootstrap|]. intros pf.
  apply logs_bind; [done| |]. { unfold _resolve_batch_endpoint_scope.
    apply logs_bind; [done|by apply logs_on_world|]. intros b. destruct (scope_error b) as [[]|]; by apply logs_quiet. }
  intros scope. apply logs_bind; [done| |].
  { apply logs_bind; [done|by apply logs_quiet|]. intros b. by apply logs_on_calls. }
  intros b. apply logs_bind; [done|by apply logs_backfill|]. intros _.
  eapply adds_bind with
    (R := fun l _ => exists branch backfill nb t, l = [JSave (batch_data c branch backfill nb t b (pf_phases pf))])
    (S := fun _ l r => l = [] \/ (failed b = 0%nat /\ exists pk rest, l = rest ++ [JMerge pk] /\ only_saves rest)).
  - intros j. unfold _persist_batch_result, runtime_since, job_rows, on_world, _runtime_seconds_since, rows.
    unfold wp, mbind, M_bind, monotonic, gets, mret, M_ret, save, modify.
    destruct (env_monotonic (env (jw j))) as [t e]. cbn. eexists [_]. eauto 10.
  - intros u. unfold _raise_for_batch_failures. destruct (Nat.leb_spec (failed b) 0) as [Hf|Hf].
    + apply adds_ret_bind. eapply adds_bind; [apply merge_segment|intros u'; apply adds_ret| |].
      * intros l0 e [->|Hm]; [by left|right]. split; [lia|done].
      * intros l1 l2 a r Hm [-> _]. destruct Hm as [->|Hm]; [by left|right]. split; [lia|done].
    + eapply adds_mono; [apply adds_raise_bind|]. intros l0 r [-> _]. by left.
  - intros l0 e (? & ? & ? & ? & ->). apply H1.
  - intros l1 l2 [] r (br & bf & nb & t & ->) [->|[Hf Hm]]; [apply H1|].
    apply saved_then_merged; [by apply batch_evidence_clean|by right].
Qed.

Lemma owned_run_clean args fastapi : logs jlog merges_clean (owned_run re_search args fastapi).
Proof.
  destruct clean_events as (H1 & H2 & H3 & H4). pose proof merges_clean_closed as HP.
  unfold owned_run, _resolve_branching_config, _prepare_sync_run, clock_now, env_gets.
  apply logs_bind; [done|apply logs_bind; [done|by apply logs_quiet|intros; by apply logs_quiet]|].
  intros config. apply logs_bind; [done| |].
  { repeat (apply logs_bind; [done|first [by apply logs_on_world|by apply logs_quiet]|intros ?]).
    by apply logs_quiet. }
  intros c. apply logs_bind; [done|by apply logs_begin|]. intros _.
  apply logs_bind; [done|apply batch_phase_clean|]. intros [|]; [by apply logs_quiet|].
  apply logs_bind; [done|by apply logs_start|]. intros st.
  apply logs_bind; [done|destruct (a_netbox_vm_ids args); [by apply logs_locals|by apply logs_quiet]|].
  intros st'. apply finish_clean.
Qed.

Lemma run_clean args : logs jlog merges_clean (run re_search args).
Proof.
  destruct clean_events as (H1 & H2 & H3 & H4). pose proof merges_clean_closed as HP.
  unfold run, _claim_rq_sync_ownership, env_gets.
  apply logs_bind; [done| |].
  { do 3 (apply logs_bind; [done|by apply logs_quiet|intros ?]).
    destruct (_claim_on_job_instance _ _); [|by apply logs_quiet].
    apply logs_bind; [done|by apply logs_save|intros ?; by apply logs_quiet]. }
  intros [|]; [|by apply logs_quiet]. apply logs_bind; [done| |intros ?; by apply logs_quiet].
  apply logs_finally; [done| |].
  - apply logs_try; [done|apply owned_run_clean|]. intros exc. destruct exc; try by apply logs_quiet.
    apply logs_bind; [done| |intros ?; by apply logs_quiet]. unfold _record_branching_failure.
    apply logs_bind; [done|by apply logs_quiet|intros ?; by apply logs_save].
  - unfold release_claim. apply logs_bind; [done|by apply logs_quiet|]. intros data.
    destruct (release_as _ _); [by apply logs_save|by apply logs_quiet].
Qed.

(** ** What a green run did *)

Lemma wp_on_world {A} (m : M (world E) A) (Q : result A -> job_world E -> Prop) (j : job_world E) :
  (forall r w, m (jw j) = (r, w) -> Q r (set_world w j)) -> wp (on_world m) Q j.
Proof. intros H. unfold wp, on_world. destruct (m (jw j)) as [r w] eqn:Em. by apply H. Qed.

(** The stages of the run were started in world [w1] and returned [out]. *)
Definition stages_ran (c : _SyncRunContext) (l : list (job_event E)) (out : list stage_record)
  (w1 : world E) : Prop :=
  JStages w1 ∈ l /\ exists branch hint captured,
    fst (capture_wire_endpoint_ids
           (_run_all_stages_sync (c_stages c) (stage_params c branch) (c_run_started c)
              (Some (c_deadline c)) hint) w1) = Ok (out, captured).

Lemma run_sse_adds c s :
  adds jlog (_run_sse_stages c s)
    (fun l r => forall stages captured, r = Ok (stages, captured) ->
       exists out w1, stages = List.map stage_dict out /\ stages_ran c l out w1).
Proof.
  intros j. unfold _run_sse_stages. do 2 (wp_step; wp_step; cbv beta iota).
  wp_step. apply wp_modify. cbv beta iota. wp_step. wp_step.
  apply wp_on_world. intros r w Hr. cbn [jw] in Hr. destruct r as [[out captured]|exc].
  - wp_steps. exists [JStages (jw j)]. split; [done|]. intros stages cap [= <- <-].
    exists out, (jw j). split; [done|]. split; [left|]. eexists _, _, captured. by rewrite Hr.
  - apply wp_bind. eapply wp_mono; [apply persist_staged_adds|].
    intros [t|e] j' (l & Hl & br & bf & nb & t' & -> & Ht); [|done]. wp_steps.
    exists (JSave (staged_data c br bf nb t' [] (st_phases s)
                     (_sse_failure_disposition (jbranch j) (st_phases s))) :: [JStages (jw j)]).
    split; [by rewrite Hl|]. done.
Qed.

(** The deadline of the run had passed when its stages were to start, in world
    [w1], and no endpoint was enabled then. *)
Definition nothing_left (c : _SyncRunContext) (l : list (job_event E)) : Prop :=
  exists now w1, JExpired now w1 ∈ l /\ remaining (c_deadline c) now <= 0 /\
    _enabled_endpoint_ids (env_netbox (env w1)) (a_proxmox_endpoint_ids (c_args c)) = [].

(** Each enabled endpoint has a failed record. *)
Lemma deadline_stages_failed c (j : job_world E) stages :
  fst (_deadline_sse_stages c j) = Ok stages ->
  _failed_endpoint_scopes stages = stages /\
  length stages = length (_enabled_endpoint_ids (env_netbox (env (jw j))) (a_proxmox_endpoint_ids (c_args c))).
Proof.
  unfold _deadline_sse_stages, _staged_endpoint_ids, job_rows. unfold mbind at 1, M_bind at 1. unfold mbind at 1, M_bind at 1.
  unfold on_world at 1, rows, gets, mret, M_ret. cbn [fst snd set_world jw]. set (ids := _enabled_endpoint_ids _ _). set (j0 := set_world _ _). intros Hr.
  assert (Hgen : forall ids acc j1 out, _failed_endpoint_scopes acc = acc ->
    fst (for_each ids acc (fun id acc => runtime ← runtime_since (c_run_started c); mret (acc ++ [deadline_stage id runtime])) j1) = Ok out ->
    _failed_endpoint_scopes out = out /\ length out = (length acc + length ids)%nat).
  { clear. intros ids. induction ids as [|id ids IH]; intros acc j1 out Ha; cbn [for_each].
    - intros [= <-]. split; [done|]. cbn. lia.
    - unfold mbind at 1, M_bind at 1. unfold mbind at 1, M_bind at 1. destruct (runtime_since (c_run_started c) j1) as [[t|e] j2]; [|done].
      intros Hr. apply IH in Hr as [Hf Hlen].
      + split; [done|]. rewrite Hlen, length_app. cbn. lia.
      + unfold _failed_endpoint_scopes in *. by rewrite List.filter_app, Ha. }
  by apply (Hgen ids [] j0) in Hr.
Qed.

(** The stages that a run collects: those that ran, or one failed record for each
    endpoint that the deadline left out. *)
Definition collected (c : _SyncRunContext) (l : list (job_event E)) (stages : list (dict pyval)) : Prop :=
  (exists out w1, stages = List.map stage_dict out /\ stages_ran c l out w1) \/
  (_failed_endpoint_scopes stages = stages /\ (stages = [] -> nothing_left c l)).

Lemma expired_adds c (now : Z) :
  remaining (c_deadline c) now <= 0 ->
  adds jlog (w ← gets jw; _ ← log (JExpired now w); _deadline_sse_stages c)
    (fun l r => forall stages, r = Ok stages -> collected c l stages).
Proof.
  intros Hd j. unfold wp, mbind, M_bind, gets, log, modify. cbn [fst snd jw jlog].
  set (j1 := {| jw := jw j; jlog := _ |}). destruct (_deadline_sse_stages c j1) as [r j2] eqn:Ed.
  assert (Hq : logs jlog (fun l => l = []) (_deadline_sse_stages (E := E) c)).
  { assert (HP : closed (fun l : list (job_event E) => l = [])) by (split; [done|by intros ? ? -> ->]).
    unfold _deadline_sse_stages, _staged_endpoint_ids, job_rows. apply logs_bind; [done| |].
    - apply logs_bind; [done|by apply logs_on_world|intros; by apply logs_quiet].
    - intros ids. apply logs_for_each; [done|]. intros.
      apply logs_bind; [done|by apply logs_on_world|intros; by apply logs_quiet]. }
  pose proof (Hq j1) as Hw. unfold wp in Hw. rewrite Ed in Hw. destruct Hw as (l & Hl & ->).
  exists [JExpired now (jw j)]. split; [exact Hl|]. intros stages Hr. right. cbn [fst] in Hr. subst r.
  destruct (deadline_stages_failed c j1 stages) as [Hf Hlen]; [by rewrite Ed|]. split; [done|]. intros ->.
  exists now, (jw j). split; [left|]. split; [done|]. by destruct (_enabled_endpoint_ids _ _).
Qed.

Lemma collect_adds c s :
  adds jlog (collect_stages c s) (fun l r => forall stages, r = Ok stages -> collected c l stages).
Proof.
  unfold collect_stages. eapply adds_bind with (R := fun l _ => l = [])
    (S := fun _ l r => forall stages, r = Ok stages -> collected c l stages).
  - apply logs_on_world. split; [done|]. by intros ? ? -> ->.
  - intros now. destruct (Z.leb_spec (remaining (c_deadline c) now) 0) as [Hd|Hd]; [by apply expired_adds|].
    eapply adds_bind with (S := fun x l r => forall s, r = Ok s -> s = x.1); [apply run_sse_adds| |naive_solver|].
    + intros [stages captured]. eapply adds_bind with (R := fun _ _ => True) (S := fun _ l r => r = Ok stages);
        [by apply (logs_backfill (fun _ => True))| |done|intros l1 l2 u r _ ->; by intros s' [= <-]].
      intros u. eapply adds_mono; [apply adds_ret|]. by intros l r [_ ->].
    + intros l1 l2 [stages captured] r Hrun Hs stages' ->. left.
      pose proof (Hs stages' eq_refl) as ->. destruct (Hrun stages captured eq_refl) as (out & w1 & -> & Hin & Hx).
      exists out, w1. split; [done|]. split; [|done]. apply elem_of_app. by right.
  - naive_solver.
  - intros l1 l2 now r -> HS stages Hr. rewrite app_nil_r. by apply HS.
Qed.

Lemma capture_runs {A} (m : M (world E) A) (w : world E) a captured :
  fst (capture_wire_endpoint_ids m w) = Ok (a, captured) ->
  exists w', env w' = env w /\ fst (m w') = Ok a.
Proof.
  unfold capture_wire_endpoint_ids. cbv zeta.
  set (w' := {| env := env w; history := _; sync_mode_vars := _; wire_capture := _ |}).
  destruct (m w') as [[b|e] w1] eqn:Em; cbn; [|done]. intros [= -> _]. exists w'. by rewrite Em.
Qed.

Lemma failure_is_failed_scope (k : string) (rec : stage_record) :
  failure_of k rec -> is_failed_scope (stage_dict rec) = true.
Proof.
  intros (_ & Hty & Hok). unfold is_failed_scope, is_scope_stage, summary_of, stage_dict.
  assert (Hs : get "result_summary" (stage_dict rec) = VDict (stage_result_summary rec))
    by (unfold stage_dict; by destruct (stage_endpoint_name rec)).
  unfold stage_dict in Hs. rewrite Hs. cbn [as_mapping].
  assert (Ht : get "sync_type" (stage_dict rec) = VStr ENDPOINT_SCOPE)
    by (unfold stage_dict; rewrite Hty; by destruct (stage_endpoint_name rec)).
  unfold stage_dict in Ht. rewrite Ht. unfold get, dget_or in *.
  destruct (dget "ok" (stage_result_summary rec)); [by rewrite Hok|done].
Qed.

(** Every endpoint in scope has a record of every selected stage that is not
    optional. *)
Definition all_synced (c : _SyncRunContext) (out : list stage_record) (w1 : world E) : Prop :=
  let scopes := _proxmox_endpoint_scopes (env_netbox (env w1))
                  (p_proxmox_endpoint_ids (stage_params c None)) in
  scopes <> [] /\
  forall k st, [k] ∈ scopes -> st ∈ c_stages c -> st ∉ _SKIPPABLE_STAGES ->
    exists rec, rec ∈ out /\ stage_endpoint_id rec = Some k /\ stage_sync_type rec = st.

Lemma ran_clean_synced c l out w1 :
  stages_ran c l out w1 -> _failed_endpoint_scopes (List.map stage_dict out) = [] ->
  all_synced c out w1.
Proof.
  intros (_ & branch & hint & captured & Hcap) Hnone.
  apply capture_runs in Hcap as (w' & Henv & Hrun).
  apply run_all_accounts in Hrun as [Hempty Hacc]. rewrite Henv in Hempty, Hacc.
  change (p_proxmox_endpoint_ids (stage_params c branch)) with
    (p_proxmox_endpoint_ids (stage_params c None)) in Hempty, Hacc.
  split; [intros Hs; rewrite (Hempty Hs) in Hnone; discriminate Hnone|].
  intros k st Hk Hst Hreq. destruct (Hacc k st Hk Hst Hreq) as (rec & Hin & [Hf|Hown]); [|eauto].
  exfalso. apply failure_is_failed_scope in Hf.
  assert (Hmem : stage_dict rec ∈ _failed_endpoint_scopes (List.map stage_dict out)).
  { unfold _failed_endpoint_scopes. apply list_elem_of_In, filter_In. split; [|done].
    apply in_map. by apply list_elem_of_In. }
  rewrite Hnone in Hmem. by apply not_elem_of_nil in Hmem.
Qed.

(** What the log of a green staged run shows: the last evidence it saved, which
    is about the stages that ran before. *)
Definition green (c : _SyncRunContext) (l : list (job_event E)) : Prop :=
  exists post data pre stages,
    l = post ++ JSave data :: pre /\ wrapped_up post /\ clean_evidence data = true /\
    get "stages" (response_of data) = VList (List.map VDict stages) /\
    ((stages = [] /\ nothing_left c pre) \/
     exists out w1, stages = List.map stage_dict out /\ stages_ran c pre out w1 /\ all_synced c out w1).

(** Earlier events, and saves afterwards, keep that. *)
Lemma green_app c (l1 l l2 : list (job_event E)) : only_saves l2 -> green c l -> green c (l2 ++ l ++ l1).
Proof.
  intros Hs (post & data & pre & stages & -> & Hp & Hcl & Hst & Hor). exists (l2 ++ post), data, (pre ++ l1), stages.
  split; [by rewrite <- !app_assoc|]. split; [apply Forall_app; split; [|done]; eapply Forall_impl; [exact Hs|]; by intros ev [d ->]|].
  split; [done|]. split; [done|]. destruct Hor as [(-> & now & w1 & Hin & H)|(out & w1 & Ho & [Hj Hr] & Hall)].
  - left. split; [done|]. exists now, w1. split; [apply elem_of_app; by left|done].
  - right. exists out, w1. split; [done|]. split; [|done]. split; [apply elem_of_app; by left|done].
Qed.

Lemma finish_green c s :
  adds jlog (_finish_staged_sync c s) (fun l r => r = Ok () -> green c l).
Proof.
  rewrite finish_settles. eapply adds_bind with (S := fun stages l r => r = Ok () ->
      _failed_endpoint_scopes stages = [] /\ evidence_saved stages l); [apply collect_adds| |done|].
  - intros stages. eapply adds_bind; [apply adds_gets|intros branch; apply settle_adds|done|].
    intros l1 l2 branch r [-> _] [_ Hr]. by rewrite app_nil_r.
  - intros l1 l2 stages r Hcol Hset Hr. destruct (Hset Hr) as (Hnone & post & data & -> & Hp & Hcl & Hst).
    exists post, data, l1, stages. split; [by rewrite <- app_assoc|]. do 3 (split; [done|]).
    destruct (Hcol stages eq_refl) as [(out & w1 & -> & Hran)|[Hall Hleft]].
    + right. exists out, w1. split; [done|]. split; [done|]. by eapply ran_clean_synced.
    + left. assert (stages = []) as -> by congruence. auto.
Qed.

Lemma prepare_context args fastapi config :
  returns (_prepare_sync_run (E := E) args fastapi config)
    (fun c => c_args c = args /\ c_batch_object_ids c = _normalize_batch_object_ids (a_batch_object_ids args) /\
       c_stages c = expanded_sync_stages (_normalize_run_types (a_sync_types args) (a_sync_type args))).
Proof.
  unfold _prepare_sync_run. do 3 (apply returns_bind_any; intros ?). by apply returns_ret.
Qed.

Lemma any_closed : closed (fun _ : list (job_event E) => True).
Proof. done. Qed.

(** The outcome of a staged run for its caller. *)
Definition green_run (args : run_args) (l : list (job_event E)) : Prop :=
  exists c, c_args c = args /\
    c_stages c = expanded_sync_stages (_normalize_run_types (a_sync_types args) (a_sync_type args)) /\
    green c l.

Lemma green_run_app (args : run_args) (l1 l l2 : list (job_event E)) :
  only_saves l2 -> green_run args l -> green_run args (l2 ++ l ++ l1).
Proof. intros Hs (c & ? & ? & ?). exists c. auto using green_app. Qed.

Lemma owned_run_green args fastapi :
  a_batch_object_ids args = [] ->
  adds jlog (owned_run re_search args fastapi) (fun l r => r = Ok () -> green_run args l).
Proof.
  intros Hb. unfold owned_run.
  assert (Hpre : forall (l1 l2 : list (job_event E)), green_run args l2 -> green_run args (l2 ++ l1))
    by (intros l1 l2 Hg; exact (green_run_app args l1 l2 [] (Forall_nil_2 _) Hg)).
  eapply adds_bind with (R := fun _ _ => True) (S := fun _ l r => r = Ok () -> green_run args l);
    [|intros config|done|intros; auto].
  { unfold _resolve_branching_config. apply (logs_bind jlog (fun _ => True)); [done| |intros]; by apply logs_quiet. }
  eapply adds_bind with (S := fun c l r => r = Ok () -> c_args c = args ->
      c_batch_object_ids c = [] -> green c l);
    [apply adds_returns; [|apply prepare_context]| |done|].
  { unfold _prepare_sync_run, clock_now, env_gets. apply (logs_bind jlog (fun _ => True)); [done|by apply logs_on_world|].
    intros. apply logs_bind; [done|by apply logs_quiet|]. intros. apply logs_bind; [done|by apply logs_quiet|].
    intros. by apply logs_quiet. }
  2: { intros l1 l2 c r [_ Hc] HS Hr. destruct (Hc c eq_refl) as (Ha & Hids & Hst).
       apply Hpre. exists c. split; [done|]. split; [done|]. apply HS; [done..|]. by rewrite Hids, Hb. }
  intros c. eapply adds_bind with (R := fun _ _ => True) (S := fun _ l r => r = Ok () ->
      c_batch_object_ids c = [] -> green c l); [by apply (logs_begin (fun _ => True))| |done|].
  2: { intros l1 l2 u r _ HS Hr _ Hids. apply (green_app c l1 l2 []); [constructor|]. auto. }
  intros u. eapply adds_bind with (R := fun _ r => forall a, r = Ok a -> c_batch_object_ids c = [] -> a = false)
    (S := fun applied l r => r = Ok () -> applied = false -> green c l); [| |done|].
  { intros j. unfold wp. destruct (batch_phase_clean c j) as (new & Hn & _). exists new. split; [exact Hn|].
    intros a Ha Hids. unfold _run_batch_phase in Ha. rewrite Hids in Ha.
    destruct (c_batch_object_type c) as [[|ch ty]|]; by injection Ha as <-. }
  2: { intros l1 l2 a r Ha HS Hr Hids. apply (green_app c l1 l2 []); [constructor|]. auto. }
  intros [|]; [eapply adds_mono; [apply adds_ret|done]|].
  eapply adds_bind with (R := fun _ _ => True) (S := fun _ l r => r = Ok () -> green c l);
    [by apply (logs_start (fun _ => True))| |done|intros l1 l2 st r _ HS Hr _; apply (green_app c l1 l2 []); [constructor|auto]].
  intros st. eapply adds_bind with (R := fun _ _ => True) (S := fun _ l r => r = Ok () -> green c l);
    [|intros; apply finish_green|done|intros l1 l2 st' r _ HS Hr; apply (green_app c l1 l2 []); [constructor|auto]].
  destruct (a_netbox_vm_ids args); [by apply (logs_locals (fun _ => True))|by apply logs_quiet].
Qed.

Lemma claim_step (j : job_world E) :
  _claim_rq_sync_ownership j =
  match _claim_on_job_instance (je_now (env (jw j)))
          match je_lock (env (jw j)) with Some row => row | None => job_data j end with
  | None => (Ok false, j)
  | Some claimed => (Ok true, snd (save claimed j))
  end.
Proof.
  unfold _claim_rq_sync_ownership, env_gets. unfold mbind, M_bind, gets.
  by destruct (_claim_on_job_instance _ _).
Qed.

Lemma claim_logs : adds jlog (_claim_rq_sync_ownership (E := E)) (fun _ _ => True).
Proof.
  intros j. unfold wp. rewrite claim_step. destruct (_claim_on_job_instance _ _) as [claimed|].
  - by exists [JSave claimed].
  - by exists [].
Qed.

(** The guarded part of [run]: the handler re-raises and the release keeps the result. *)
Lemma owned_run_guarded args fastapi :
  a_batch_object_ids args = [] ->
  adds jlog
    (try_finally
       (try_except (owned_run re_search args fastapi)
          (fun exc => match exc with
                      | BranchingUnavailableError message => _ ← _record_branching_failure message; raise exc
                      | _ => raise exc
                      end)) release_claim)
    (fun l r => r = Ok () -> green_run args l).
Proof.
  intros Hb. eapply adds_finally with (S := fun l _ => only_saves l).
  - eapply adds_try with (S := fun _ _ r => r <> Ok ()); [by apply owned_run_green| |done|].
    2: { intros l1 l2 e r _ Hne Hr. by destruct Hne. }
    intros exc. destruct exc; try (eapply adds_mono; [apply adds_raise|]; by intros l r [_ ->]).
    eapply adds_bind with (R := fun _ _ => True) (S := fun _ _ r => r <> Ok ()); [| |done|auto].
    + unfold _record_branching_failure. apply (logs_bind jlog (fun _ => True)); [done|by apply logs_quiet|].
      intros. by apply logs_save.
    + intros. eapply adds_mono; [apply adds_raise|]. by intros l r [_ ->].
  - assert (Hs : forall data, only_saves [JSave data]) by (intros data; constructor; eauto).
    unfold release_claim. apply (logs_bind jlog only_saves); [apply only_saves_closed|by apply logs_quiet; [apply only_saves_closed|]|]. intros data.
    destruct (release_as _ _); [by apply logs_save|by apply logs_quiet; [apply only_saves_closed|]].
  - intros l1 l2 r Hg Hs Hr. specialize (Hg Hr). apply (green_run_app args [] l1 l2) in Hg; [|done]. by rewrite app_nil_r in Hg.
  - done.
Qed.

(** ** Properties *)

(** C1: only a run without failures merges its branch. Whatever happens
    during a run, a merge is asked for only right after the run persisted its
    evidence, and that evidence names no failure: no selected object failed,
    no endpoint was skipped or failed, and every local reconciliation phase
    succeeded. *)
Theorem merge_follows_clean_evidence args (j : job_world E) :
  exists new, jlog (snd (run re_search args j)) = new ++ jlog j /\
    forall post pk pre, new = post ++ JMerge pk :: pre ->
      exists data pre', pre = JSave data :: pre' /\ clean_evidence data = true.
Proof. exact (run_clean args j). Qed.

Lemma release_releases (j : job_world E) :
  exists j', release_claim j = (Ok (), j') /\ _get_sync_ownership (job_data j') <> Some SYNC_OWNER_RQ.
Proof.
  unfold release_claim, mbind, M_bind, gets.
  pose proof (release_owner SYNC_OWNER_RQ (job_data j)) as Hrel. unfold _release_sync_ownership in Hrel.
  destruct (release_as SYNC_OWNER_RQ (job_data j)); (eexists; split; [done|exact Hrel]).
Qed.

(** a run never works on a job it does not own, and never keeps the claim.
    A run whose claim is refused changes nothing and starts nothing; any other
    run, however it ends, leaves a job row that does not name it as owner. *)
Theorem run_claims_and_releases args (j : job_world E) :
  match fst (run re_search args j) with
  | Ok false =>
      snd (run re_search args j) = j /\
      _claim_on_job_instance (je_now (env (jw j)))
        match je_lock (env (jw j)) with Some row => row | None => job_data j end = None
  | _ => _get_sync_ownership (job_data (snd (run re_search args j))) <> Some SYNC_OWNER_RQ
  end.
Proof.
  destruct (run re_search args j) as [r0 j0] eqn:Hr. revert Hr. unfold run.
  unfold mbind at 1, M_bind at 1. rewrite claim_step.
  destruct (_claim_on_job_instance _ _) as [claimed|]; cbn [negb]; [|by intros [= <- <-]].
  unfold mbind, M_bind, try_finally. destruct (try_except _ _ (snd (save claimed j))) as [r j2].
  destruct (release_releases j2) as (j3 & -> & Hrel). by destruct r; intros [= <- <-].
Qed.

(** C2: a green run synchronised everything it was asked to. When a run that
    selects no single objects owns its job and returns without an exception,
    the last evidence it saved, after which it only merges its branch and saves
    the disposition of the branch and the release of its claim, names no failed
    endpoint and no failed local phase and holds the records of the stages that
    it ran before: for every Proxmox endpoint in scope and every selected stage
    that is not optional a record of that stage and endpoint (and at least one
    endpoint is in scope). The only other green run is one whose deadline had
    passed before the stages, at a time when no selected endpoint was enabled. *)
Theorem green_run_synced_everything args (j : job_world E) :
  a_batch_object_ids args = [] -> fst (run re_search args j) = Ok true ->
  exists post data pre c, jlog (snd (run re_search args j)) = post ++ JSave data :: pre ++ jlog j /\
    wrapped_up post /\ clean_evidence data = true /\ c_args c = args /\
    c_stages c = expanded_sync_stages (_normalize_run_types (a_sync_types args) (a_sync_type args)) /\
    exists stages, get "stages" (response_of data) = VList (List.map VDict stages) /\
      ((stages = [] /\ nothing_left c pre) \/
       exists out w1, stages = List.map stage_dict out /\ stages_ran c pre out w1 /\ all_synced c out w1).
Proof.
  intros Hb Hrun.
  assert (Hg : adds jlog (run re_search args) (fun l r => r = Ok true -> green_run args l)).
  { unfold run. eapply adds_bind with (R := fun _ _ => True)
      (S := fun claimed l r => r = Ok true -> green_run args l); [apply claim_logs|intros claimed|done|].
    2: { intros l1 l2 a r _ HS Hr. apply (green_run_app args l1 l2 []); [constructor|]. auto. }
    destruct claimed; [|eapply adds_mono; [apply adds_ret|naive_solver]].
    eapply adds_bind with (S := fun _ l r => l = [] /\ r = Ok true);
      [exact (owned_run_guarded args _ Hb)|intros; apply adds_ret|done|].
    intros l1 l2 [] r Hg [-> ->] _. by apply Hg. }
  destruct (Hg j) as (new & Hn & Hgr).
  destruct (Hgr Hrun) as (c & Hc & Hst & post & data & pre & stages & -> & Hp & Hcl & Hs & Hor).
  exists post, data, pre, c. split; [by rewrite Hn, <- app_assoc|]. do 4 (split; [done|]). by exists stages.
Qed.

End Properties.

(** ** Concrete runs *)

#[global] Instance script_http_env : HttpEnv script := {|
  http_context _ _ := Some {| bc_http_url := "https://proxbox"; bc_ip_address_url := "";
                              bc_headers := []; bc_verify_ssl := true |};
  http_get _ _ _ e := (Json 200 (VDict [("ok", VBool true)]), e)
|}.

#[global] Instance script_batch_env : BatchEnv script := {|
  be_netbox := script_rows;
  be_virtual_machines _ := [sample_vm];
  be_backups _ := []; be_snapshots _ := []; be_storages _ := []; be_task_histories _ := [];
  be_tenancy _ := {| TenantAssignment.tenants := []; TenantAssignment.tenant_groups := [] |};
  be_refresh vm _ := vm;
  be_save _ _ e := e
|}.

Definition sample_service (id : Z) : service_result :=
  {| sr_success := true; sr_error := None; sr_endpoint_id := VInt id; sr_endpoint_name := "";
     sr_runtime_seconds := VNone; sr_counts := [1; 0; 2; 0]; sr_per_endpoint := [] |}.

(** A worker whose job has the given time limit. *)
Definition script_job_env (rq_timeout : option Z) : JobEnv script := {|
  je_lock _ := None;
  je_reload data _ := data;
  je_now _ := "2026-01-01T00:00:00+00:00";
  je_uuid _ := "5f0c";
  je_rq_timeout _ := rq_timeout;
  je_service _ id _ _ e := (Ok (sample_service id), e);
  je_backfill _ e := (Ok [("updated", VInt 0)], e)
|}.

Definition sample_args : run_args :=
  {| a_job_pk := 31; a_sync_types := [VStr "devices"]; a_sync_type := VNone;
     a_proxmox_endpoint_ids := []; a_netbox_endpoint_ids := []; a_netbox_vm_ids := [];
     a_batch_object_type := VNone; a_batch_object_ids := []; a_fastapi_endpoint_id := VNone |}.

Definition job_start (s : script) : job_world script :=
  {| jw := start s; jmade := []; job_data := VNone; jbranch := None; jbackfill := None; jlog := [] |}.

(** The kinds of events of a run, first one first. *)
Definition outline (l : list (job_event script)) : list string :=
  List.map (fun ev => match ev with
                      | JSave _ => "save" | JService kind _ => kind
                      | JStages _ => "stages" | JExpired _ _ => "expired" | JMerge _ => "merge" end) (rev l).

Definition sample_run (rq_timeout : option Z) (args : run_args) (s : script) :=
  run (JobEnv0 := script_job_env rq_timeout) (fun _ _ => None) args (job_start s).

Example sample_run_outline :
  let r := sample_run None sample_args (sample_script [completed; completed]) in
  fst r = Ok true /\ outline (jlog (snd r)) =
    [ "save"; "save"; "cluster"; "cluster"; "save"; "firewall"; "firewall"; "save"; "datacenter";
      "datacenter"; "save"; "vm_template"; "vm_template"; "save"; "stages"; "save"; "merge"; "save" ].
Proof. split; vm_compute; reflexivity. Qed.

(** A stage that fails at the second endpoint: the run raises, its evidence is
    saved, and the branch is not merged. *)
Example failed_run_does_not_merge :
  let r := sample_run None sample_args (sample_script [completed]) in
  (exists e, fst r = Err e) /\ mem_str "merge" (outline (jlog (snd r))) = false.
Proof. split; [eexists|]; vm_compute; reflexivity. Qed.

Lemma green_run_synced_everything_witness :
  exists post data pre c,
    jlog (snd (run (JobEnv0 := script_job_env None) (fun _ _ => None) sample_args (job_start (sample_script [completed; completed])))) =
      post ++ JSave data :: pre ++ jlog (job_start (sample_script [completed; completed])) /\
    wrapped_up post /\ clean_evidence data = true /\ c_args c = sample_args /\
    c_stages c = expanded_sync_stages (_normalize_run_types (a_sync_types sample_args) (a_sync_type sample_args)) /\
    exists stages, get "stages" (response_of data) = VList (List.map VDict stages) /\
      ((stages = [] /\ nothing_left c pre) \/
       exists out w1, stages = List.map stage_dict out /\ stages_ran c pre out w1 /\ all_synced c out w1).
Proof.
  apply (green_run_synced_everything (JobEnv0 := script_job_env None) (fun _ _ => None) sample_args
           (job_start (sample_script [completed; completed]))); [reflexivity|].
  vm_compute. reflexivity.
Defined.

(** ** Behaviours worth knowing *)

(** Persisting the parameters drops the claim: right after it any other owner
    can claim the job that is still running. *)
Lemma claim_lost_after_first_save {E} `{!Env E, !BranchEnv E, !HttpEnv E, !BatchEnv E, !PreflightEnv E, !JobEnv E}
  (c : _SyncRunContext) (j : job_world E) (other now : string) :
  exists claimed, claim_as other now (job_data (snd (_persist_initial_sync_data c j))) = Some claimed.
Proof.
  unfold _persist_initial_sync_data, mbind, M_bind, gets, save, modify, claim_as. cbn [snd job_data].
  cbn [_normalized_job_data]. unfold _sync_data_with_branch.
  destruct (_branch_identity (jbranch j)), (jbackfill j); cbn; eauto.
Qed.

Definition batch_args : run_args :=
  {| a_job_pk := 31; a_sync_types := []; a_sync_type := VNone;
     a_proxmox_endpoint_ids := []; a_netbox_endpoint_ids := []; a_netbox_vm_ids := [];
     a_batch_object_type := VStr "virtual-machine"; a_batch_object_ids := [VInt 12];
     a_fastapi_endpoint_id := VNone |}.

(** A deadline that passes during the preflight does not stop a run over
    selected objects: the object is synchronised and the branch merged although
    no NetBox endpoint was pushed. *)
Example expired_preflight_still_syncs_objects :
  let r := sample_run (Some (sec 120 + msec 5)) batch_args (sample_script []) in
  fst r = Ok true /\ length (jmade (snd r)) = 1%nat /\
  outline (jlog (snd r)) = ["save"; "save"; "save"; "merge"; "save"] /\
  existsb (fun ev => match ev with EvPush _ _ => true | _ => false end) (history (jw (snd r))) = false.
Proof. repeat split; vm_compute; reflexivity. Qed.

(** With no endpoint enabled, a run whose deadline has passed records no stage
    at all, ends without an exception and merges its branch. *)
Example expired_run_without_endpoints_is_green :
  let no_endpoints :=
    {| script_clock := 0; script_answers := [];
       script_rows := {| nb_settings := Some sample_settings; nb_endpoints := []; nb_clusters := [] |};
       script_context := script_context (sample_script []);
       script_backend := inl [] |} in
  let r := sample_run (Some (sec 120 + msec 5)) sample_args no_endpoints in
  fst r = Ok true /\ mem_str "stages" (outline (jlog (snd r))) = false /\
  mem_str "merge" (outline (jlog (snd r))) = true.
Proof. repeat split; vm_compute; reflexivity. Qed.
