(* ===== verification/Concurrent.v ===== *)
(** * Concurrent

    Handlers that run at the same time and share a database: a program is a
    tree of commands (one database statement or one remote call each) with a
    continuation per reply, so that the same definition runs alone
    ([run_prog]) and interleaved with others command by command ([sys_step]).
    The logic is rely-guarantee: a thread may use facts that every other
    thread keeps ([le] is a preorder of worlds that only grows), and must keep
    the shared invariant at each of its commands. *)
From Stdlib Require Import String Lia.
From stdpp Require Import base list relations.
From S2P Require Import Prelude.

Section Programs.
Context {C : Type} {R : C -> Type}.

Inductive prog (A : Type) : Type :=
| Done (r : result A)
| Do (c : C) (k : R c -> prog A).
#[global] Arguments Done {A} r.
#[global] Arguments Do {A} c k.

#[global] Instance prog_ret : MRet prog := fun A a => Done (Ok a).

#[global] Instance prog_bind : MBind prog := fun A B f =>
  fix bind (p : prog A) : prog B :=
    match p with
    | Done (Ok a) => f a
    | Done (Err e) => Done (Err e)
    | Do c k => Do c (fun r => bind (k r))
    end.

(** One command. *)
Definition call (c : C) : prog (R c) := Do c (fun r => Done (Ok r)).

(** [raise e] *)
Definition throw {A} (e : exn) : prog A := Done (Err e).

(** A command whose reply may be an exception. *)
Definition attempt {A} (p : prog (result A)) : prog A := p ≫= Done.

(** [try: p / except Exception as exc: h(exc)] *)
Fixpoint catch {A} (p : prog A) (h : exn -> prog A) : prog A :=
  match p with
  | Done (Ok a) => Done (Ok a)
  | Done (Err e) => h e
  | Do c k => Do c (fun r => catch (k r) h)
  end.

(** [for x in l: body], threading an accumulator. *)
Fixpoint loop {A S} (l : list A) (s : S) (body : A -> S -> prog S) : prog S :=
  match l with
  | [] => mret s
  | x :: l' => s' ← body x s; loop l' s' body
  end.

(** ** A program alone *)

Context {W : Type} (exec : forall c, W -> R c * W).

Fixpoint run_prog {A} (p : prog A) (w : W) : result A * W :=
  match p with
  | Done r => (r, w)
  | Do c k => let '(r, w') := exec c w in run_prog (k r) w'
  end.

Lemma run_bind {A B} (p : prog A) (f : A -> prog B) (w : W) :
  run_prog (p ≫= f) w =
  match run_prog p w with
  | (Ok a, w') => run_prog (f a) w'
  | (Err e, w') => (Err e, w')
  end.
Proof.
  revert w. induction p as [[a|e]|c k IH]; intros w; [done|done|].
  simpl. destruct (exec c w) as [r w']. apply IH.
Qed.

Lemma run_catch {A} (p : prog A) (h : exn -> prog A) (w : W) :
  run_prog (catch p h) w =
  match run_prog p w with
  | (Ok a, w') => (Ok a, w')
  | (Err e, w') => run_prog (h e) w'
  end.
Proof.
  revert w. induction p as [[a|e]|c k IH]; intros w; [done|done|].
  simpl. destruct (exec c w) as [r w']. apply IH.
Qed.

(** ** Rely-guarantee *)

Context (le : W -> W -> Prop) `{!PreOrder le} (Inv : W -> Prop).

(** [rg p Q w]: started at [w], whatever the other threads do between two
    commands of [p] (the world only grows and [Inv] holds), every command of
    [p] keeps [Inv], and [Q] holds when [p] ends. *)
Fixpoint rg {A} (p : prog A) (Q : result A -> W -> Prop) (w : W) : Prop :=
  match p with
  | Done r => Q r w
  | Do c k => forall w', le w w' -> Inv w' ->
      let '(r, w'') := exec c w' in Inv w'' /\ le w' w'' /\ rg (k r) Q w''
  end.

(** A condition that other threads cannot break. *)
Definition stable {A} (Q : A -> W -> Prop) : Prop :=
  forall a w w', Q a w -> le w w' -> Q a w'.

Lemma rg_weaken {A} (p : prog A) (Q Q' : result A -> W -> Prop) (w : W) :
  rg p Q w -> (forall r w', le w w' -> Q r w' -> Q' r w') -> rg p Q' w.
Proof.
  revert w. induction p as [r|c k IH]; intros w; simpl.
  - intros HQ HQQ. by apply HQQ.
  - intros Hrg HQQ w' Hw HI. specialize (Hrg w' Hw HI). destruct (exec c w') as [r w''].
    destruct Hrg as (HI' & Hle & Hk). split; [done|]. split; [done|].
    apply IH; [done|]. intros r' w3 Hw3. apply HQQ. etrans; [exact Hw|]. by etrans.
Qed.

Lemma rg_bind {A B} (p : prog A) (f : A -> prog B) (Q : result B -> W -> Prop) (w : W) :
  rg p (fun r w' => match r with Ok a => rg (f a) Q w' | Err e => Q (Err e) w' end) w ->
  rg (p ≫= f) Q w.
Proof.
  revert w. induction p as [[a|e]|c k IH]; intros w; simpl; [done|done|].
  intros Hrg w' Hw HI. specialize (Hrg w' Hw HI). destruct (exec c w') as [r w''].
  destruct Hrg as (HI' & Hle & Hk). split; [done|]. split; [done|]. by apply IH.
Qed.

Lemma rg_catch {A} (p : prog A) (h : exn -> prog A) (Q : result A -> W -> Prop) (w : W) :
  rg p (fun r w' => match r with Ok a => Q (Ok a) w' | Err e => rg (h e) Q w' end) w ->
  rg (catch p h) Q w.
Proof.
  revert w. induction p as [[a|e]|c k IH]; intros w; simpl; [done|done|].
  intros Hrg w' Hw HI. specialize (Hrg w' Hw HI). destruct (exec c w') as [r w''].
  destruct Hrg as (HI' & Hle & Hk). split; [done|]. split; [done|]. by apply IH.
Qed.

(** A command alone: what it must keep, and what it leaves. *)
Lemma rg_call (c : C) (Q : result (R c) -> W -> Prop) (w : W) :
  (forall w', le w w' -> Inv w' ->
    let '(r, w'') := exec c w' in Inv w'' /\ le w' w'' /\ Q (Ok r) w'') ->
  rg (call c) Q w.
Proof. done. Qed.

(** A thread that only needs the invariant runs forever safely in a loop. *)
Lemma rg_loop {A S} (l : list A) (body : A -> S -> prog S) :
  (forall x s w, x ∈ l -> rg (body x s) (fun _ _ => True) w) ->
  forall s w, rg (loop l s body) (fun _ _ => True) w.
Proof.
  induction l as [|x l IH]; intros Hbody s w; [done|]. simpl. apply rg_bind.
  eapply rg_weaken; [apply Hbody; left|]. intros [s'|e] w' _ _; [|done].
  apply IH. intros. apply Hbody. by right.
Qed.

Lemma rg_le {A} (p : prog A) (Q : result A -> W -> Prop) (w w' : W) :
  stable Q -> rg p Q w -> le w w' -> rg p Q w'.
Proof.
  intros HQ. destruct p as [r|c k]; simpl.
  - intros Hr Hle. by eapply HQ.
  - intros Hrg Hle w2 Hw2. apply Hrg. by etrans.
Qed.

Lemma rg_safe_le {A} (p : prog A) (w w' : W) :
  le w w' -> rg p (fun _ _ => True) w -> rg p (fun _ _ => True) w'.
Proof. intros Hle Hp. eapply rg_le; [by intros ?|exact Hp|exact Hle]. Qed.

(** A thread that runs alone keeps the invariant, and ends as promised. *)
Lemma rg_run {A} (p : prog A) (Q : result A -> W -> Prop) (w : W) :
  rg p Q w -> Inv w -> Inv (snd (run_prog p w)) /\ Q (fst (run_prog p w)) (snd (run_prog p w)).
Proof.
  revert w. induction p as [r|c k IH]; intros w; simpl; [by split|].
  intros Hrg HI. specialize (Hrg w (reflexivity w) HI). destruct (exec c w) as [r w'].
  destruct Hrg as (HI' & _ & Hk). by apply IH.
Qed.

(** ** Many programs at once *)

(** [env] are the moves of the surroundings, [spawn w p w'] the arrival of a
    new thread [p]. *)
Context (env : W -> W -> Prop) (spawn : W -> prog () -> W -> Prop).

Inductive sys_step : W * list (prog ()) -> W * list (prog ()) -> Prop :=
| step_thread w w' pre post c k r :
    exec c w = (r, w') -> sys_step (w, pre ++ Do c k :: post) (w', pre ++ k r :: post)
| step_env w w' ts : env w w' -> sys_step (w, ts) (w', ts)
| step_spawn w w' p ts : spawn w p w' -> sys_step (w, ts) (w', p :: ts).

Definition reachable (w0 w : W) : Prop := exists ts, rtc sys_step (w0, []) (w, ts).

Definition sys_steps : W * list (prog ()) -> W * list (prog ()) -> Prop := rtc sys_step.

(** A schedule: which thread moves next. *)
Definition step_nth (i : nat) (s : W * list (prog ())) : W * list (prog ()) :=
  match snd s !! i with
  | Some (Do c k) => let '(r, w') := exec c (fst s) in (w', <[i := k r]> (snd s))
  | _ => s
  end.

Definition schedule (l : list nat) (s : W * list (prog ())) : W * list (prog ()) :=
  fold_left (fun s i => step_nth i s) l s.

Lemma step_nth_steps (i : nat) (s : W * list (prog ())) : sys_steps s (step_nth i s).
Proof.
  destruct s as [w ts]. unfold step_nth. simpl. destruct (ts !! i) as [[r|c k]|] eqn:E; [done| |done].
  destruct (exec c w) as [r w'] eqn:Ex. apply rtc_once.
  rewrite <- (take_drop_middle ts i (Do c k)) by done.
  assert (Hi : (i < length ts)%nat) by (by eapply lookup_lt_Some).
  rewrite insert_app_r_alt by (rewrite length_take; lia).
  rewrite length_take, Nat.min_l, Nat.sub_diag by lia. simpl. by constructor.
Qed.

Lemma schedule_steps (l : list nat) (s : W * list (prog ())) : sys_steps s (schedule l s).
Proof.
  revert s. induction l as [|i l IH]; intros s; [done|]. simpl.
  etrans; [apply step_nth_steps|apply IH].
Qed.

(** A thread runs to its end while the others wait. *)
Lemma run_steps (p : prog ()) (ts : list (prog ())) (w : W) :
  sys_steps (w, p :: ts) (snd (run_prog p w), Done (fst (run_prog p w)) :: ts).
Proof.
  revert w. induction p as [r|c k IH]; intros w; [done|]. simpl.
  destruct (exec c w) as [r w'] eqn:Ex. etrans; [|apply IH].
  apply rtc_once. by apply (step_thread w w' [] ts).
Qed.

Definition threads_ok (s : W * list (prog ())) : Prop :=
  Inv (fst s) /\ Forall (fun p => rg p (fun _ _ => True) (fst s)) (snd s).

Lemma sys_step_ok :
  (forall w w', env w w' -> Inv w -> Inv w' /\ le w w') ->
  (forall w p w', spawn w p w' -> Inv w ->
     Inv w' /\ le w w' /\ rg p (fun _ _ => True) w') ->
  forall s s', sys_step s s' -> threads_ok s -> threads_ok s'.
Proof.
  intros Henv Hspawn s s' Hst. destruct Hst as [w w' pre post c k r Hx|w w' ts He|w w' p ts Hs];
    intros [HI Hts]; simpl in *.
  - apply Forall_app in Hts as [Hpre [Hc Hpost]%Forall_cons_1].
    specialize (Hc w (reflexivity w) HI). rewrite Hx in Hc. destruct Hc as (HI' & Hle & Hk).
    split; [done|]. simpl. apply Forall_app. split.
    + eapply Forall_impl; [exact Hpre|]. intros p. by apply rg_safe_le.
    + apply Forall_cons. split; [done|].
      eapply Forall_impl; [exact Hpost|]. intros p. by apply rg_safe_le.
  - destruct (Henv w w' He HI) as [HI' Hle]. split; [done|]. simpl.
    eapply Forall_impl; [exact Hts|]. intros p. by apply rg_safe_le.
  - destruct (Hspawn w p w' Hs HI) as (HI' & Hle & Hp). split; [done|]. simpl.
    apply Forall_cons. split; [done|].
    eapply Forall_impl; [exact Hts|]. intros q. by apply rg_safe_le.
Qed.

(** The invariant holds of every reachable world when the surroundings keep
    it and every thread that arrives is safe. *)
Theorem reachable_inv (w0 w : W) :
  (forall w w', env w w' -> Inv w -> Inv w' /\ le w w') ->
  (forall w p w', spawn w p w' -> Inv w ->
     Inv w' /\ le w w' /\ rg p (fun _ _ => True) w') ->
  Inv w0 -> reachable w0 w -> Inv w.
Proof.
  intros Henv Hspawn H0 [ts Hr].
  assert (Hok : threads_ok (w0, [])) by (split; [done|constructor]).
  enough (threads_ok (w, ts)) as [? _] by done.
  revert Hok. induction Hr as [|s s' s'' Hst _ IH]; intros Hs; [done|].
  apply IH. eapply sys_step_ok; eauto.
Qed.

End Programs.
Arguments prog : clear implicits.
