(* ===== verification/DeletionRequests.v ===== *)
(** * Deletion requests
    (models/deletion_request.py, views/deletion_requests.py,
    forms/deletion_request_approve.py, intent/deletion_executor.py,
    intent/deletion_ttl_cron.py, intent/proxmox_tags.py, the creation of a
    request in intent/apply_job.py)

    A deletion of a virtual machine waits in a row of the database until a
    second user approves it and a worker executes it.  The handlers load a
    row, decide on the loaded copy and save some of its fields, without a
    lock; each is written once as a program of commands, and runs here alone
    or interleaved with any number of others. *)
From Stdlib Require Import ZArith Lia String Ascii.
From stdpp Require Import base list gmap sets strings pretty relations.
From S2P Require Import Prelude Json Concurrent.

(** ** The row *)

Inductive State := PENDING | APPROVED | REJECTED | EXECUTING | SUCCEEDED | FAILED.

#[global] Instance State_eq_dec : EqDecision State.
Proof. solve_decision. Defined.

Record DeletionRequest := mkRequest {
  pk : Z;
  branch_id : option Z;
  branch_name : string;
  requested_by_id : option Z;
  authorizer_id : option Z;
  state : State;
  vmid : option Z;
  node : string;
  kind : string;
  metadata_snapshot : pyval;
  reject_reason : string;
  executor_run_uuid : option Z;
  requested_at : option Z;
  approved_at : option Z;
  executed_at : option Z;
  name : string
}.

Definition set_requested_by_id (v : option Z) (d : DeletionRequest) : DeletionRequest :=
  mkRequest (pk d) (branch_id d) (branch_name d) v (authorizer_id d) (state d) (vmid d)
    (node d) (kind d) (metadata_snapshot d) (reject_reason d) (executor_run_uuid d) (requested_at d) (approved_at d) (executed_at d) (name d).

Definition set_authorizer_id (v : option Z) (d : DeletionRequest) : DeletionRequest :=
  mkRequest (pk d) (branch_id d) (branch_name d) (requested_by_id d) v (state d) (vmid d)
    (node d) (kind d) (metadata_snapshot d) (reject_reason d) (executor_run_uuid d) (requested_at d) (approved_at d) (executed_at d) (name d).

Definition set_state (v : State) (d : DeletionRequest) : DeletionRequest :=
  mkRequest (pk d) (branch_id d) (branch_name d) (requested_by_id d) (authorizer_id d) v (vmid d)
    (node d) (kind d) (metadata_snapshot d) (reject_reason d) (executor_run_uuid d) (requested_at d) (approved_at d) (executed_at d) (name d).

Definition set_reject_reason (v : string) (d : DeletionRequest) : DeletionRequest :=
  mkRequest (pk d) (branch_id d) (branch_name d) (requested_by_id d) (authorizer_id d) (state d) (vmid d)
    (node d) (kind d) (metadata_snapshot d) v (executor_run_uuid d) (requested_at d) (approved_at d) (executed_at d) (name d).

Definition set_executor_run_uuid (v : option Z) (d : DeletionRequest) : DeletionRequest :=
  mkRequest (pk d) (branch_id d) (branch_name d) (requested_by_id d) (authorizer_id d) (state d) (vmid d)
    (node d) (kind d) (metadata_snapshot d) (reject_reason d) v (requested_at d) (approved_at d) (executed_at d) (name d).

Definition set_approved_at (v : option Z) (d : DeletionRequest) : DeletionRequest :=
  mkRequest (pk d) (branch_id d) (branch_name d) (requested_by_id d) (authorizer_id d) (state d) (vmid d)
    (node d) (kind d) (metadata_snapshot d) (reject_reason d) (executor_run_uuid d) (requested_at d) v (executed_at d) (name d).

Definition set_executed_at (v : option Z) (d : DeletionRequest) : DeletionRequest :=
  mkRequest (pk d) (branch_id d) (branch_name d) (requested_by_id d) (authorizer_id d) (state d) (vmid d)
    (node d) (kind d) (metadata_snapshot d) (reject_reason d) (executor_run_uuid d) (requested_at d) (approved_at d) v (name d).

(** The names [save(update_fields=...)] is called with. *)
Inductive field := FAuthorizer | FState | FApprovedAt | FRejectReason | FExecutedAt | FExecutorRunUuid.

(** Writes one field of the loaded copy [d] into the stored row [r]. *)
Definition set_field (f : field) (d r : DeletionRequest) : DeletionRequest :=
  match f with
  | FAuthorizer => set_authorizer_id (authorizer_id d) r
  | FState => set_state (state d) r
  | FApprovedAt => set_approved_at (approved_at d) r
  | FRejectReason => set_reject_reason (reject_reason d) r
  | FExecutedAt => set_executed_at (executed_at d) r
  | FExecutorRunUuid => set_executor_run_uuid (executor_run_uuid d) r
  end.

Definition update_row (fields : list field) (d r : DeletionRequest) : DeletionRequest :=
  foldr (fun f => set_field f d) r fields.

(** ** Commands and the world they act on *)

(** What the code takes from a backend context. *)
Record BackendRequestContext := {
  http_url : option string;
  verify_ssl : bool;
  headers : dict string
}.

Record Response := { status_code : Z; json_body : option pyval }.

(** The POST of the executor: its URL is [request_base], the path and the
    number of the request. *)
Record ExecuteRequest := {
  request_base : string;
  request_pk : Z;
  request_json : dict pyval;
  request_headers : dict string;
  request_verify : bool
}.

Definition execute_url (r : ExecuteRequest) : string :=
  request_base r +:+ "/intent/deletion-requests/" +:+ pretty (request_pk r) +:+ "/execute".

(** A form submitted by a user. *)
Inductive HttpRequest :=
| ApprovePost (user pk : Z) (vmid : string)
| RejectPost (user pk : Z) (reason : string).

Inductive HttpResponse :=
| PermissionDenied
| NotFound
| Forbidden (msg : string)
| RenderForm
| Redirect (pk : Z).

Inductive cmd :=
| HasPerm (user : Z)
| GetVisible (user pk : Z)
| Get (pk : Z)
| ExpiredPending (cutoff : Z)
| SelfApprovalSetting
| TtlSetting
| Now
| FieldsValid (d : DeletionRequest)
| Save (fields : list field) (d : DeletionRequest)
| EnqueueJob (job_name : string) (pk user : Z)
| FastApiContext
| Username (user : Z)
| Post (r : ExecuteRequest)
| Put (url : string) (json : dict pyval) (hdrs : dict string) (verify : bool).

Definition reply (c : cmd) : Type :=
  match c with
  | HasPerm _ | SelfApprovalSetting | FieldsValid _ => bool
  | GetVisible _ _ | Get _ => option DeletionRequest
  | ExpiredPending _ => list DeletionRequest
  | TtlSetting | Now => Z
  | Save _ _ => result ()
  | EnqueueJob _ _ _ => ()
  | FastApiContext => result (option BackendRequestContext)
  | Username _ => option string
  | Post _ | Put _ _ _ _ => result Response
  end.

(** What happened, newest first. *)
Inductive event :=
| EvRequested (pk user : Z) (vmid : option Z) (node kind : string)
| EvHttp (r : HttpRequest)
| EvPermission (user : Z) (granted : bool)
| EvSelfApproval (allowed : bool)
| EvSaved (fields : list field) (d : DeletionRequest)
| EvUsername (user : Z) (username : string)
| EvPost (r : ExecuteRequest).

Record World := mkWorld {
  rows : gmap Z DeletionRequest;
  users : gmap Z string;
  retired : gset Z;
  events : list event;
  queue : list (string * Z * Z);
  may_authorize : Z -> bool;
  may_view : Z -> Z -> bool;
  self_approve_allowed : bool;
  ttl_days : Z;
  clock : Z;
  fields_valid : DeletionRequest -> bool;
  context : result (option BackendRequestContext);
  http_post : ExecuteRequest -> result Response;
  http_put : string -> dict pyval -> result Response;
  (* the database or a signal handler refuses a save, whatever the row *)
  save_fault : list event -> list field -> DeletionRequest -> option exn
}.

Definition emit (e : event) (w : World) : World :=
  mkWorld (rows w) (users w) (retired w) (e :: events w) (queue w) (may_authorize w) (may_view w)
    (self_approve_allowed w) (ttl_days w) (clock w) (fields_valid w) (context w) (http_post w)
    (http_put w) (save_fault w).

Definition set_rows (m : gmap Z DeletionRequest) (w : World) : World :=
  mkWorld m (users w) (retired w) (events w) (queue w) (may_authorize w) (may_view w)
    (self_approve_allowed w) (ttl_days w) (clock w) (fields_valid w) (context w) (http_post w)
    (http_put w) (save_fault w).

Definition push_job (j : string * Z * Z) (w : World) : World :=
  mkWorld (rows w) (users w) (retired w) (events w) (queue w ++ [j]) (may_authorize w)
    (may_view w) (self_approve_allowed w) (ttl_days w) (clock w) (fields_valid w) (context w)
    (http_post w) (http_put w) (save_fault w).

Definition is_pending (d : DeletionRequest) : bool := bool_decide (state d = PENDING).

(** [filter(state="pending", requested_at__lt=cutoff)]: a row without a time
    stamp does not match. *)
Definition is_expired (cutoff : Z) (d : DeletionRequest) : bool :=
  (is_pending d && match requested_at d with Some t => t <? cutoff | None => false end)%bool.

(** [ordering = ("-pk",)] *)
Definition expired_rows (cutoff : Z) (m : gmap Z DeletionRequest) : list DeletionRequest :=
  sort_by (fun d => - pk d) (List.filter (is_expired cutoff) (snd <$> map_to_list m)).

(** The row must be there, the saved authorizer must be an account that still
    exists (the foreign key), and nothing else may go wrong. *)
Definition save_error (fields : list field) (d : DeletionRequest) (w : World) : option exn :=
  match rows w !! pk d with
  | None => Some (DatabaseError "Save with update_fields did not affect any rows.")
  | Some _ =>
      match authorizer_id d with
      | Some u =>
          if (existsb (fun f => match f with FAuthorizer => true | _ => false end) fields
              && match users w !! u with None => true | Some _ => false end)%bool
          then Some (DatabaseError "foreign key constraint") else save_fault w (events w) fields d
      | None => save_fault w (events w) fields d
      end
  end.

Definition exec_save (fields : list field) (d : DeletionRequest) (w : World) : result () * World :=
  match save_error fields d w with
  | Some e => (Err e, w)
  | None => (Ok (), emit (EvSaved fields d) (set_rows (alter (update_row fields d) (pk d) (rows w)) w))
  end.

Definition exec (c : cmd) : World -> reply c * World :=
  match c with
  | HasPerm u => fun w => (may_authorize w u, emit (EvPermission u (may_authorize w u)) w)
  | GetVisible u pk => fun w => (if may_view w u pk then rows w !! pk else None, w)
  | Get pk => fun w => (rows w !! pk, w)
  | ExpiredPending cutoff => fun w => (expired_rows cutoff (rows w), w)
  | SelfApprovalSetting => fun w =>
      (self_approve_allowed w, emit (EvSelfApproval (self_approve_allowed w)) w)
  | TtlSetting => fun w => (ttl_days w, w)
  | Now => fun w => (clock w, w)
  | FieldsValid d => fun w => (fields_valid w d, w)
  | Save fields d => exec_save fields d
  | EnqueueJob job_name pk u => fun w => ((), push_job (job_name, pk, u) w)
  | FastApiContext => fun w => (context w, w)
  | Username u => fun w =>
      match users w !! u with
      | Some n => (Some n, emit (EvUsername u n) w)
      | None => (None, w)
      end
  | Post r => fun w => (http_post w r, emit (EvPost r) w)
  | Put url json _ _ => fun w => (http_put w url json, w)
  end.

Abbreviation P := (prog cmd reply).
Abbreviation run_alone := (run_prog exec).

Definition perform (c : cmd) : P (reply c) := call c.

(** Django's form fields: the cleaned value of a submitted text, or none when
    the form does not validate. *)
Class FormFields := {
  IntegerField_clean : string -> option Z;
  CharField_clean : string -> option string
}.

(** ** The model's own validation *)

Definition _self_approval_allowed : P bool := perform SelfApprovalSetting.

Definition SELF_APPROVAL_BLOCKED_MESSAGE : string :=
  "Self-approval blocked: a different authorized user must approve this request.".
Definition NON_PENDING_STATE_MESSAGE : string :=
  "Deletion request is not pending; approve and reject are only valid in the pending state.".

(** [DeletionRequest.clean] *)
Definition clean (d : DeletionRequest) : P () :=
  match authorizer_id d with
  | None => mret ()
  | Some a =>
      if negb (bool_decide (Some a = requested_by_id d)) then mret ()
      else
        allowed ← _self_approval_allowed;
        if (allowed : bool) then mret ()
        else throw (ValidationError SELF_APPROVAL_BLOCKED_MESSAGE)
  end.

(** [full_clean]: the field validators of Django and [clean]; either failure
    raises a [ValidationError]. *)
Definition full_clean (d : DeletionRequest) : P () :=
  valid ← perform (FieldsValid d);
  _ ← clean d;
  if (valid : bool) then mret () else throw (ValidationError "invalid fields").

(** ** The views *)

Section Views.
Context `{FormFields}.

(** [DeletionRequestApproveForm.clean_vmid], after the field's own cleaning. *)
Definition clean_vmid (text : string) (instance : DeletionRequest) : option Z :=
  match IntegerField_clean text with
  | Some v => if bool_decide (Some v = vmid instance) then Some v else None
  | None => None
  end.

(** [requested_by is not None and user.pk == requested_by and not
    _self_approval_allowed()] *)
Definition self_approval_blocked (user : Z) (d : DeletionRequest) : P bool :=
  match requested_by_id d with
  | Some r =>
      if user =? r then allowed ← _self_approval_allowed; mret (negb allowed) else mret false
  | None => mret false
  end.

Definition display_name (d : DeletionRequest) : string :=
  str_or (name d) ("DeletionRequest #" +:+ pretty (pk d)).

(** [DeletionExecutorJob.enqueue] *)
Definition executor_enqueue (deletion_request_id user : Z) : P () :=
  m ← perform (Get deletion_request_id);
  match m with
  | None => throw DoesNotExist
  | Some d => perform (EnqueueJob ("Execute " +:+ display_name d) deletion_request_id user)
  end.

Definition approved_by (user now : Z) (d : DeletionRequest) : DeletionRequest :=
  set_approved_at (Some now) (set_state APPROVED (set_authorizer_id (Some user) d)).

(** The end of the view: the approval is validated and saved and the executor
    is queued. *)
Definition record_approval (user : Z) (d : DeletionRequest) : P HttpResponse :=
  now ← perform Now;
  let d := approved_by user now d in
  _ ← full_clean d;
  _ ← attempt (perform (Save [FAuthorizer; FState; FApprovedAt] d));
  _ ← executor_enqueue (pk d) user;
  mret (Redirect (pk d)).

(** [DeletionRequestApproveView.post], behind the permission check of its
    mixins. *)
Definition approve_post (user request_id : Z) (text : string) : P HttpResponse :=
  granted ← perform (HasPerm user);
  if negb (granted : bool) then mret PermissionDenied
  else
    m ← perform (GetVisible user request_id);
    match m with
    | None => mret NotFound
    | Some d =>
        if negb (is_pending d) then mret (Forbidden NON_PENDING_STATE_MESSAGE)
        else
          blocked ← self_approval_blocked user d;
          if (blocked : bool) then mret (Forbidden SELF_APPROVAL_BLOCKED_MESSAGE)
          else
            match clean_vmid text d with
            | None => mret RenderForm
            | Some _ => record_approval user d
            end
    end.

Definition rejected_by (user : Z) (reason : string) (d : DeletionRequest) : DeletionRequest :=
  set_reject_reason reason (set_state REJECTED (set_authorizer_id (Some user) d)).

(** [DeletionRequestRejectView.post] *)
Definition reject_post (user request_id : Z) (text : string) : P HttpResponse :=
  granted ← perform (HasPerm user);
  if negb (granted : bool) then mret PermissionDenied
  else
    m ← perform (GetVisible user request_id);
    match m with
    | None => mret NotFound
    | Some d =>
        if negb (is_pending d) then mret (Forbidden NON_PENDING_STATE_MESSAGE)
        else
          match CharField_clean text with
          | None => mret RenderForm
          | Some reason =>
              let d := rejected_by user reason d in
              _ ← attempt (perform (Save [FAuthorizer; FState; FRejectReason] d));
              mret (Redirect (pk d))
          end
    end.

End Views.

(** ** The executor *)

Definition _trim_reason (reason : pyval) : string :=
  let text := strip (if truthy reason then str reason else "") in
  if nonempty text then take_str 255 text else "Deletion executor failed.".

Definition _response_body (r : Response) : dict pyval :=
  match json_body r with Some (VDict d) => d | _ => [] end.

(** [s.strip("{}")] *)
Definition is_brace (c : ascii) : bool := (Ascii.eqb c "{" || Ascii.eqb c "}")%bool.

Fixpoint lstrip_braces (s : string) : string :=
  match s with
  | String c s' => if is_brace c then lstrip_braces s' else s
  | EmptyString => EmptyString
  end.

Fixpoint rstrip_braces (s : string) : string :=
  match s with
  | EmptyString => EmptyString
  | String c s' =>
      match rstrip_braces s' with
      | EmptyString => if is_brace c then EmptyString else String c EmptyString
      | r => String c r
      end
  end.

Fixpoint hex_digits (acc : Z) (prev : bool) (s : string) : option Z :=
  match s with
  | EmptyString => if prev then Some acc else None
  | String c s' =>
      match hex_val c with
      | Some d => hex_digits (acc * 16 + d) true s'
      | None => if (Ascii.eqb c "_" && prev)%bool then hex_digits acc false s' else None
      end
  end.

(** After a sign: an optional [0x], which an underscore may follow. *)
Definition hex_magnitude (s : string) : option Z :=
  match s with
  | String "0" (String "x" s') | String "0" (String "X" s') =>
      match s' with
      | String "_" s'' => hex_digits 0 false s''
      | _ => hex_digits 0 false s'
      end
  | _ => hex_digits 0 false s
  end.

(** [int(s, 16)] *)
Definition int16 (s : string) : option Z :=
  match strip s with
  | String "-" s' => option_map Z.opp (hex_magnitude s')
  | String "+" s' => hex_magnitude s'
  | s' => hex_magnitude s'
  end.

(** [uuid.UUID(s)] *)
Definition uuid_of_string (s : string) : option Z :=
  let hex := replace "uuid:" "" (replace "urn:" "" s) in
  let hex := replace "-" "" (lstrip_braces (rstrip_braces hex)) in
  if negb (Nat.eqb (String.length hex) 32) then None
  else
    match int16 hex with
    | Some i => if (0 <=? i) && (i <? 2 ^ 128) then Some i else None
    | None => None
    end%bool.

Definition _stamp_executor_run_uuid (d : DeletionRequest) (body : dict pyval)
  : bool * DeletionRequest :=
  let value := py_or (get "executor_run_uuid" body) (get "run_uuid" body) in
  if negb (truthy value) then (false, d)
  else
    match uuid_of_string (str value) with
    | Some u => (true, set_executor_run_uuid (Some u) d)
    | None => (false, d)
    end.

(** [dict(headers).setdefault("Content-Type", ...)], with the acting user. *)
Definition executor_headers (hdrs : dict string) (actor : string) : dict string :=
  dset "X-Proxbox-Actor" actor
    (if dmem "Content-Type" hdrs then hdrs else dset "Content-Type" "application/json" hdrs).

Definition opt_vint (v : option Z) : pyval := match v with Some z => VInt z | None => VNone end.

Definition execute_request (c : BackendRequestContext) (base actor : string) (d : DeletionRequest)
  : ExecuteRequest :=
  {| request_base := rstrip_char slash base;
     request_pk := pk d;
     request_json := [("vmid", opt_vint (vmid d)); ("node", VStr (node d)); ("kind", VStr (kind d))];
     request_headers := executor_headers (headers c) actor;
     request_verify := verify_ssl c |}.

Definition success_status (code : Z) : bool := ((200 <=? code) && (code <? 300))%bool.

(** The detail of a failed reply. *)
Definition failure_detail (body : dict pyval) (code : Z) : pyval :=
  py_or (get "detail" body)
    (py_or (get "message" body) (VStr ("proxbox-api returned HTTP " +:+ pretty code))).

(** The row after the reply, with the fields to save. *)
Definition after_reply (d : DeletionRequest) (r : Response) : list field * DeletionRequest :=
  let body := _response_body r in
  let '(uuid_changed, d) := _stamp_executor_run_uuid d body in
  let update_fields := FState :: (if uuid_changed then [FExecutorRunUuid] else []) in
  if success_status (status_code r) then (update_fields, set_state SUCCEEDED d)
  else
    (update_fields ++ [FRejectReason],
     set_reject_reason (_trim_reason (failure_detail body (status_code r))) (set_state FAILED d)).

(** [dr.authorizer]: loaded from the foreign key of the copy. *)
Definition actor_username (d : DeletionRequest) : P string :=
  match authorizer_id d with
  | None => mret ""
  | Some u =>
      m ← perform (Username u);
      match m with Some n => mret n | None => throw DoesNotExist end
  end.

(** [authorizer is not None and authorizer == requested_by and not
    _self_approval_allowed()] *)
Definition executor_blocked (d : DeletionRequest) : P bool :=
  match authorizer_id d with
  | Some a =>
      if bool_decide (Some a = requested_by_id d)
      then allowed ← _self_approval_allowed; mret (negb allowed) else mret false
  | None => mret false
  end.

(** The POST to the backend and what its reply leaves in the row. *)
Definition send_deletion (c : BackendRequestContext) (base : string) (d : DeletionRequest) : P () :=
  actor ← actor_username d;
  response ← attempt (perform (Post (execute_request c base actor d)));
  let '(update_fields, d) := after_reply d response in
  attempt (perform (Save update_fields d)).

(** From the state [EXECUTING] to the reply. *)
Definition start_execution (d : DeletionRequest) : P () :=
  now ← perform Now;
  let d := set_executed_at (Some now) (set_state EXECUTING d) in
  _ ← attempt (perform (Save [FState; FExecutedAt] d));
  context ← attempt (perform FastApiContext);
  match context with
  | None =>
      throw (RuntimeError "No FastAPIEndpoint is configured; cannot execute deletion request.")
  | Some c =>
      match http_url c with
      | None | Some EmptyString => throw (RuntimeError "FastAPIEndpoint has no resolvable http_url.")
      | Some base => send_deletion c base d
      end
  end.

(** The [try] body of [DeletionExecutorJob.run] once the row is loaded. *)
Definition execute (d : DeletionRequest) : P () :=
  if negb (bool_decide (state d = APPROVED)) then mret ()
  else
    blocked ← executor_blocked d;
    if (blocked : bool) then
      attempt (perform (Save [FState; FRejectReason]
                 (set_reject_reason "self-approval blocked" (set_state FAILED d))))
    else start_execution d.

(** [DeletionExecutorJob.run] *)
Definition executor_run (deletion_request_id : Z) : P () :=
  m ← perform (Get deletion_request_id);
  match m with
  | None => mret ()
  | Some d =>
      catch (execute d) (fun exc =>
        attempt (perform (Save [FState; FRejectReason]
          (set_reject_reason (_trim_reason (VStr (exn_msg exc))) (set_state FAILED d)))))
  end.

(** ** Expiry of pending requests *)

Definition PENDING_DELETION_TAG : string := "proxbox-pending-deletion".

Definition _ttl_days : P Z := days ← perform TtlSetting; mret (if (days : Z) =? 0 then 7 else days).

Definition microseconds_per_day : Z := 86400 * 1000000.
(** [datetime.min], in microseconds from the epoch. *)
Definition datetime_min : Z := - 62135596800 * 1000000.

(** [now - timedelta(days=d)] *)
Definition minus_days (now d : Z) : result Z :=
  if 999999999 <? Z.abs d then Err (OverflowError "days magnitude must be <= 999999999")
  else
    let t := now - d * microseconds_per_day in
    if t <? datetime_min then Err (OverflowError "date value out of range") else Ok t.

(** [untag_pending_deletion]: every failure is swallowed. *)
Definition untag_pending_deletion (c : BackendRequestContext) (d : DeletionRequest) : P bool :=
  catch
    match http_url c with
    | None | Some EmptyString => mret false
    | Some base =>
        response ← attempt (perform (Put (rstrip_char slash base +:+ "/intent/untag-pending-deletion")
          [("vmid", opt_vint (vmid d)); ("node", VStr (node d)); ("kind", VStr (kind d));
           ("tag", VStr PENDING_DELETION_TAG)] (headers c) (verify_ssl c)));
        if (400 <=? status_code response) && (status_code response <? 600)
        then throw (RequestException "HTTP error")
        else
          match json_body response with
          | None => throw (ValueError "not JSON")
          | Some (VDict body) => mret (match get "ok" body with VBool false => false | _ => true end)
          | Some _ => mret true
          end
    end%bool
    (fun _ => mret false).

Definition auto_reject_expired_deletion_requests : P Z :=
  days ← _ttl_days;
  now ← perform Now;
  cutoff ← Done (minus_days now days);
  endpoint ← attempt (perform FastApiContext);
  expired ← perform (ExpiredPending cutoff);
  loop expired 0 (fun d rejected =>
    _ ← attempt (perform (Save [FState; FRejectReason]
          (set_reject_reason "TTL" (set_state REJECTED d))));
    _ ← (match endpoint with
         | None => mret ()
         | Some c =>
             catch (_ ← untag_pending_deletion c d; mret ()) (fun _ => mret ())
         end : P ());
    mret (rejected + 1)).

(** ** The surroundings *)

(** The row [apply_job.py] creates for a deletion in a merged branch. *)
Definition new_request (id actor : Z) (branch_pk : option Z) (branch : string) (snapshot_vmid : Z)
  (snapshot_node vm_kind : string) (snapshot : pyval) (now : Z) (snapshot_name : string)
  : DeletionRequest :=
  mkRequest id branch_pk branch (Some actor) None PENDING (Some snapshot_vmid) snapshot_node vm_kind snapshot
    "" None (Some now) None None snapshot_name.

Definition create_request (d : DeletionRequest) (actor : Z) (w : World) : World :=
  emit (EvRequested (pk d) actor (vmid d) (node d) (kind d)) (set_rows (<[pk d := d]> (rows w)) w).

Definition set_users (m : gmap Z string) (gone : gset Z) (w : World) : World :=
  mkWorld (rows w) m gone (events w) (queue w) (may_authorize w) (may_view w)
    (self_approve_allowed w) (ttl_days w) (clock w) (fields_valid w) (context w) (http_post w)
    (http_put w) (save_fault w).

(** [on_delete=SET_NULL] *)
Definition unlink (u : Z) (o : option Z) : option Z :=
  if bool_decide (o = Some u) then None else o.

Definition forget_user (u : Z) (d : DeletionRequest) : DeletionRequest :=
  set_requested_by_id (unlink u (requested_by_id d)) (set_authorizer_id (unlink u (authorizer_id d)) d).

Definition delete_user (u : Z) (w : World) : World :=
  set_rows (forget_user u <$> rows w) (set_users (delete u (users w)) ({[u]} ∪ retired w) w).

(** What changes outside the handlers: settings, permissions, time and the
    answers of the backend in any way; accounts are created, renamed and
    deleted, and the number of a deleted account is not given again; requests
    are created by merged branches. *)
Inductive env_step : World -> World -> Prop :=
| env_outside w w' :
    rows w' = rows w -> users w' = users w -> retired w' = retired w -> events w' = events w ->
    env_step w w'
| env_user w u n : u ∉ retired w -> env_step w (set_users (<[u := n]> (users w)) (retired w) w)
| env_delete_user w u : env_step w (delete_user u w)
| env_request w id actor bid bname v nd kd snap now nm :
    rows w !! id = None -> is_Some (users w !! actor) ->
    env_step w (create_request (new_request id actor bid bname v nd kd snap now nm) actor w).

Section System.
Context `{FormFields}.

(** Requests of users arrive at any time; so do the expiry sweep and workers
    that run the executor, once or more often, for any request. *)
Inductive arrival : World -> P () -> World -> Prop :=
| arrive_approve w u id text :
    is_Some (users w !! u) ->
    arrival w (_ ← approve_post u id text; mret ()) (emit (EvHttp (ApprovePost u id text)) w)
| arrive_reject w u id text :
    is_Some (users w !! u) ->
    arrival w (_ ← reject_post u id text; mret ()) (emit (EvHttp (RejectPost u id text)) w)
| arrive_sweep w : arrival w (_ ← auto_reject_expired_deletion_requests; mret ()) w
| arrive_executor w id : arrival w (executor_run id) w.

(** No request yet, and no account that was deleted. *)
Definition initial (w : World) : Prop :=
  rows w = ∅ /\ events w = [] /\ forall u, is_Some (users w !! u) -> u ∉ retired w.

(** ** Four eyes *)

(** The evidence of an approval of request [id] by [u] in the history [l]: a
    request for the machine [v] exists; [u] sent the form and typed [v]; the
    permission of [u] was checked; the approval was saved under the name of
    [u]; and [u] did not make the request, or self-approval was allowed. *)
Definition approval (l : list event) (id u : Z) (v : option Z) (nd kd : string) : Prop :=
  exists text n requester,
    v = Some n /\ EvRequested id requester v nd kd ∈ l /\
    EvHttp (ApprovePost u id text) ∈ l /\ IntegerField_clean text = Some n /\
    EvPermission u true ∈ l /\
    (exists d, EvSaved [FAuthorizer; FState; FApprovedAt] d ∈ l /\
               pk d = id /\ authorizer_id d = Some u /\ state d = APPROVED) /\
    (requester <> u \/ EvSelfApproval true ∈ l).

(** The executor's POST [r] after the history [l]. *)
Definition authorised (l : list event) (r : ExecuteRequest) : Prop :=
  exists u v nd kd,
    approval l (request_pk r) u v nd kd /\
    request_json r = [("vmid", opt_vint v); ("node", VStr nd); ("kind", VStr kd)] /\
    (dget "X-Proxbox-Actor" (request_headers r) = Some "" \/
     exists n, dget "X-Proxbox-Actor" (request_headers r) = Some n /\ EvUsername u n ∈ l).

Definition posts_authorised (l : list event) : Prop :=
  forall l2 r l1, l = l2 ++ EvPost r :: l1 -> authorised l1 r.

Definition requested_pk (e : event) : option Z :=
  match e with EvRequested id _ _ _ _ => Some id | _ => None end.

(** Where a row comes from: the request in the history, whose author is the
    row's unless the account was deleted. *)
Definition origin (w : World) (d : DeletionRequest) : Prop :=
  exists requester,
    EvRequested (pk d) requester (vmid d) (node d) (kind d) ∈ events w /\
    (requested_by_id d = Some requester \/ (requested_by_id d = None /\ requester ∈ retired w)).

Definition row_ok (w : World) (d : DeletionRequest) : Prop :=
  origin w d /\
  (state d = APPROVED -> exists u, approval (events w) (pk d) u (vmid d) (node d) (kind d) /\
                                   (authorizer_id d = Some u \/ authorizer_id d = None)).

Record Inv (w : World) : Prop := {
  inv_rows : forall id d, rows w !! id = Some d -> pk d = id /\ row_ok w d;
  inv_posts : posts_authorised (events w);
  inv_requested : NoDup (omap requested_pk (events w));
  inv_requested_rows : forall id, id ∈ omap requested_pk (events w) -> is_Some (rows w !! id);
  inv_users : forall u, is_Some (users w !! u) -> u ∉ retired w
}.

(** What other threads never take back. *)
Definition grows (w w' : World) : Prop :=
  (forall e, e ∈ events w -> e ∈ events w') /\ retired w ⊆ retired w'.

#[local] Instance grows_preorder : PreOrder grows.
Proof.
  split.
  - intros w. by split.
  - intros w1 w2 w3 [He Hr] [He' Hr']. split; [auto|]. by etrans.
Qed.

Lemma approval_mono (l l' : list event) id u v nd kd :
  (forall e, e ∈ l -> e ∈ l') -> approval l id u v nd kd -> approval l' id u v nd kd.
Proof.
  intros Hl (text & n & q & -> & Hq & Hh & Ht & Hp & (d & Hd & ?) & Hor).
  exists text, n, q. do 5 (split; [auto|]). split; [by exists d; auto|].
  destruct Hor; auto.
Qed.

Lemma origin_grows (w w' : World) (d : DeletionRequest) : grows w w' -> origin w d -> origin w' d.
Proof.
  intros [He Hr] (q & Hq & Hor). exists q. split; [auto|].
  destruct Hor as [?|[??]]; [by left|right]. split; [done|]. by apply Hr.
Qed.

Lemma row_ok_grows (w w' : World) (d : DeletionRequest) : grows w w' -> row_ok w d -> row_ok w' d.
Proof.
  intros Hg [Ho Ha]. split; [by eapply origin_grows|]. intros Hs.
  destruct (Ha Hs) as (u & Hu & ?). exists u. split; [|done].
  eapply approval_mono; [|exact Hu]. apply Hg.
Qed.

Lemma grows_emit (e : event) (w : World) : grows w (emit e w).
Proof. split; [|done]. intros e' He'. by right. Qed.

Lemma posts_cons (e : event) (l : list event) :
  posts_authorised l -> (forall r, e = EvPost r -> authorised l r) -> posts_authorised (e :: l).
Proof.
  intros Hl He l2 r l1 Heq. destruct l2 as [|e2 l2]; simplify_eq/=; [by apply He|].
  by eapply Hl.
Qed.

(** An event that neither creates a request nor is a POST. *)
Lemma inv_emit (e : event) (w : World) :
  Inv w -> requested_pk e = None -> (forall r, e = EvPost r -> authorised (events w) r) ->
  Inv (emit e w).
Proof.
  intros [Hr Hp Hn Hnr Hu] He Hpost. split; simpl.
  - intros id d Hd. destruct (Hr id d Hd). split; [done|].
    eapply row_ok_grows; [apply grows_emit|done].
  - by apply posts_cons.
  - by rewrite He.
  - by rewrite He.
  - done.
Qed.

(** ** Saves *)

Lemma update_row_kept (fields : list field) (d r : DeletionRequest) :
  pk (update_row fields d r) = pk r /\ vmid (update_row fields d r) = vmid r /\
  node (update_row fields d r) = node r /\ kind (update_row fields d r) = kind r /\
  requested_by_id (update_row fields d r) = requested_by_id r.
Proof. induction fields as [|[] fields IH]; simpl; intuition. Qed.

Lemma update_row_state (fields : list field) (d r : DeletionRequest) :
  FState ∈ fields -> state (update_row fields d r) = state d.
Proof.
  induction fields as [|f fields IH]; [by intros ?%not_elem_of_nil|].
  intros [<-|Hf]%elem_of_cons; [done|]. destruct f; simpl; auto.
Qed.

Lemma origin_update (w : World) (fields : list field) (d r : DeletionRequest) :
  origin w r -> origin w (update_row fields d r).
Proof.
  destruct (update_row_kept fields d r) as (Hp & Hv & Hn & Hk & Hq).
  unfold origin. by rewrite Hp, Hv, Hn, Hk, Hq.
Qed.

(** A save that leaves the row it wrote in order keeps the invariant. *)
Lemma inv_save (fields : list field) (d : DeletionRequest) (w : World) :
  Inv w ->
  (forall r, save_error fields d w = None -> rows w !! pk d = Some r ->
     row_ok (emit (EvSaved fields d) w) (update_row fields d r)) ->
  Inv (snd (exec_save fields d w)) /\ grows w (snd (exec_save fields d w)).
Proof.
  intros HI Hrow. unfold exec_save. destruct (save_error fields d w) as [e|] eqn:E; simpl; [by split|].
  pose proof (inv_emit (EvSaved fields d) w HI eq_refl ltac:(done)) as [Hr Hp Hn Hnr Hu].
  split; [|split; [by right|done]].
  split; simpl; [|exact Hp|exact Hn| |exact Hu].
  - intros id d'. destruct (decide (id = pk d)) as [->|Hne].
    + rewrite lookup_alter_eq. destruct (rows w !! pk d) as [r|] eqn:Er; [|done]. intros [= <-].
      split; [|by apply Hrow].
      destruct (update_row_kept fields d r) as (-> & _). by apply (Hr (pk d) r).
    + rewrite lookup_alter_ne by done. apply Hr.
  - intros id Hid. destruct (Hnr id Hid) as [r Hrid]. simpl in Hrid.
    destruct (decide (id = pk d)) as [->|Hne].
    + rewrite lookup_alter_eq, Hrid. eauto.
    + rewrite lookup_alter_ne by done. eauto.
Qed.

(** A save that sets any other state than approved. *)
Lemma inv_save_other (fields : list field) (d : DeletionRequest) (w : World) :
  Inv w -> FState ∈ fields -> state d <> APPROVED ->
  Inv (snd (exec_save fields d w)) /\ grows w (snd (exec_save fields d w)).
Proof.
  intros HI Hf Hs. apply inv_save; [done|]. intros r _ Hr. split.
  - apply origin_update. eapply origin_grows; [apply grows_emit|].
    by destruct (inv_rows w HI _ _ Hr) as [_ [? _]].
  - intros Ha. by rewrite update_row_state in Ha.
Qed.

(** The loaded copy and the stored row come from the same request. *)
Lemma requested_unique (w : World) id q v nd kd q' v' nd' kd' :
  Inv w -> EvRequested id q v nd kd ∈ events w -> EvRequested id q' v' nd' kd' ∈ events w ->
  q = q' /\ v = v' /\ nd = nd' /\ kd = kd'.
Proof.
  intros HI. pose proof (inv_requested w HI) as Hn. clear HI. revert Hn.
  assert (Hin : forall (l : list event) a b c e, EvRequested id a b c e ∈ l -> id ∈ omap requested_pk l).
  { intros l a b c e Hl. apply list_elem_of_omap. eauto. }
  induction (events w) as [|e l IH]; [by intros _ ?%not_elem_of_nil|].
  intros Hn H1 H2. rewrite !elem_of_cons in *. destruct H1 as [<-|H1], H2 as [[=]|H2]; subst.
  - done.
  - simpl in Hn. apply NoDup_cons in Hn as [Hid _]. exfalso. eauto.
  - simpl in Hn. apply NoDup_cons in Hn as [Hid _]. exfalso. eauto.
  - apply IH; [|done|done]. simpl in Hn. destruct (requested_pk e); [|done].
    by apply NoDup_cons in Hn as [_ ?].
Qed.

(** The save of an approval. *)
Lemma inv_save_approval (u now : Z) (text : string) (d : DeletionRequest) (w : World) :
  Inv w -> origin w d ->
  EvHttp (ApprovePost u (pk d) text) ∈ events w -> is_Some (clean_vmid text d) ->
  EvPermission u true ∈ events w ->
  (requested_by_id d = Some u -> EvSelfApproval true ∈ events w) ->
  let d' := approved_by u now d in
  Inv (snd (exec_save [FAuthorizer; FState; FApprovedAt] d' w)) /\
  grows w (snd (exec_save [FAuthorizer; FState; FApprovedAt] d' w)).
Proof.
  intros HI (q & Hq & Hqor) Hh Ht Hp Hself d'. apply inv_save; [done|].
  intros r Hsave Hr. destruct (inv_rows w HI _ _ Hr) as [Hpk [Hor _]].
  split; [apply origin_update; eapply origin_grows; [apply grows_emit|done]|].
  intros _. exists u. split; [|by left]. change (pk d') with (pk d) in *.
  destruct Hor as (q' & Hq' & _). rewrite Hpk in Hq'.
  destruct (requested_unique w _ _ _ _ _ _ _ _ _ HI Hq Hq') as (_ & Hv & Hn & Hk).
  unfold update_row; simpl. rewrite <- Hv, <- Hn, <- Hk, Hpk.
  unfold clean_vmid in Ht. destruct (IntegerField_clean text) as [n|] eqn:En; [|by destruct Ht].
  case_bool_decide as Hn'; [|by destruct Ht].
  exists text, n, q. rewrite !elem_of_cons, <- Hn'. split; [done|].
  split; [right; by rewrite Hn'|]. do 3 (split; [by try right|]).
  split; [by exists d'; split; [left|]|].
  destruct Hqor as [Hsame|[_ Hret]].
  - destruct (decide (q = u)) as [->|]; [right; right; auto|by left].
  - left. intros ->. unfold save_error in Hsave. change (pk d') with (pk d) in Hsave.
    rewrite Hr in Hsave. simpl in Hsave.
    destruct (users w !! u) as [nm|] eqn:Eu; [|done].
    by eapply (inv_users w HI u); [rewrite Eu; eauto|].
Qed.

(** ** Each handler keeps the invariant, whatever runs beside it *)

Abbreviation safe := (rg exec grows Inv).

Lemma safe_step {A} (c : cmd) (f : reply c -> P A) (Q : result A -> World -> Prop) (w : World) :
  (forall w', grows w w' -> Inv w' ->
     (Inv (snd (exec c w')) /\ grows w' (snd (exec c w'))) /\
     safe (f (fst (exec c w'))) Q (snd (exec c w'))) ->
  safe (perform c ≫= f) Q w.
Proof.
  intros Hf w' Hg HI. destruct (Hf w' Hg HI) as [[HI' Hg'] Hs]. by destruct (exec c w').
Qed.

Lemma safe_last (c : cmd) (Q : result (reply c) -> World -> Prop) (w : World) :
  (forall w', grows w w' -> Inv w' ->
     (Inv (snd (exec c w')) /\ grows w' (snd (exec c w'))) /\
     Q (Ok (fst (exec c w'))) (snd (exec c w'))) ->
  safe (perform c) Q w.
Proof.
  intros Hf w' Hg HI. destruct (Hf w' Hg HI) as [[HI' Hg'] Hs]. by destruct (exec c w').
Qed.

(** Commands that only read, or only note what they read. *)
Definition reads (c : cmd) : bool :=
  match c with Save _ _ | Post _ => false | _ => true end.

Lemma reads_keep (c : cmd) (w : World) :
  reads c = true -> Inv w -> Inv (snd (exec c w)) /\ grows w (snd (exec c w)).
Proof.
  intros Hc HI. destruct c; try done; simpl;
    try (split; [by apply inv_emit|apply grows_emit]).
  - by destruct HI.
  - destruct (users w !! user); [split; [by apply inv_emit|apply grows_emit]|done].
Qed.

Abbreviation unharmed p w := (safe p (fun _ _ => True) w).

Lemma safe_read {A} (c : cmd) (f : reply c -> P A) (Q : result A -> World -> Prop) (w : World) :
  reads c = true ->
  (forall w', grows w w' -> Inv w' -> safe (f (fst (exec c w'))) Q (snd (exec c w'))) ->
  safe (perform c ≫= f) Q w.
Proof. intros Hc Hf. apply safe_step. intros w' Hg HI. split; [by apply reads_keep|auto]. Qed.

(** A call that may raise, then the rest. *)
Lemma safe_attempt {A B} (p : P (result A)) (f : A -> P B) (Q : result B -> World -> Prop) (w : World) :
  safe p (fun r w' => match r with
                      | Ok (Ok a) => safe (f a) Q w'
                      | Ok (Err e) | Err e => Q (Err e) w'
                      end) w ->
  safe (attempt p ≫= f) Q w.
Proof.
  intros Hp. apply rg_bind. unfold attempt. apply rg_bind.
  eapply rg_weaken; [apply grows_preorder|exact Hp|]. by intros [[a|e]|e] w'.
Qed.

(** Saving any other state than approved is always safe. *)
Lemma safe_save_other {A} (fields : list field) (d : DeletionRequest) (f : () -> P A) (w : World) :
  FState ∈ fields -> state d <> APPROVED ->
  (forall w', grows w w' -> Inv w' -> unharmed (f ()) w') ->
  unharmed (attempt (perform (Save fields d)) ≫= f) w.
Proof.
  intros Hf Hs Hrest. apply safe_attempt, safe_last. intros w' Hg HI.
  destruct (inv_save_other fields d w' HI Hf Hs) as [HI' Hg']. split; [done|].
  simpl. destruct (exec_save fields d w') as [[[]|e] w'']; [|done].
  apply Hrest; [by etrans|done].
Qed.

Lemma unharmed_save (fields : list field) (d : DeletionRequest) (w : World) :
  FState ∈ fields -> state d <> APPROVED -> unharmed (attempt (perform (Save fields d))) w.
Proof.
  intros Hf Hs. unfold attempt. apply safe_step. intros w' Hg HI.
  split; [by apply inv_save_other|done].
Qed.

Lemma enqueue_unharmed (id u : Z) {A} (a : A) (w : World) :
  unharmed (_ ← executor_enqueue id u; mret a) w.
Proof.
  apply rg_bind, safe_read; [done|]. intros w' Hg HI. simpl.
  destruct (rows w' !! id); [|done]. apply safe_last. intros w2 Hg2 HI2. split; [by apply reads_keep|done].
Qed.

(** [clean] and [full_clean] only read. *)
Lemma clean_unharmed (d : DeletionRequest) (Q : result () -> World -> Prop) (w : World) :
  (forall r w', grows w w' -> Inv w' -> Q r w') -> Inv w -> safe (clean d) Q w.
Proof.
  intros HQ HI. unfold clean. destruct (authorizer_id d) as [a|]; [|by apply HQ].
  case_bool_decide; [|by apply HQ]. apply safe_read; [done|]. intros w1 Hg1 HI1. simpl.
  assert (Hr : forall r, Q r (emit (EvSelfApproval (self_approve_allowed w1)) w1)).
  { intros r. apply HQ; [etrans; [exact Hg1|apply grows_emit]|by apply inv_emit]. }
  destruct (self_approve_allowed w1); apply Hr.
Qed.

Lemma full_clean_unharmed {A} (d : DeletionRequest) (k : P A) (w : World) :
  (forall w', grows w w' -> Inv w' -> unharmed k w') -> unharmed (_ ← full_clean d; k) w.
Proof.
  intros Hk. apply rg_bind, safe_read; [done|]. intros w1 Hg1 HI1.
  apply rg_bind, clean_unharmed; [|done]. intros [[]|e] w2 Hg2 HI2; [|done].
  simpl. destruct (fields_valid w1 d); [|done]. apply Hk; [by etrans|done].
Qed.

(** Recording an approval that was checked. *)
Lemma record_approval_unharmed (u : Z) (text : string) (d : DeletionRequest) (w : World) :
  origin w d -> EvHttp (ApprovePost u (pk d) text) ∈ events w -> is_Some (clean_vmid text d) ->
  EvPermission u true ∈ events w ->
  (requested_by_id d = Some u -> EvSelfApproval true ∈ events w) ->
  unharmed (record_approval u d) w.
Proof.
  intros Ho Hh Ht Hp Hself. apply safe_read; [done|]. intros w1 Hg1 HI1. cbv beta zeta.
  apply full_clean_unharmed. intros w2 Hg2 HI2.
  apply safe_attempt, safe_last. intros w3 Hg3 HI3.
  assert (Hg : grows w w3) by (etrans; [exact Hg1|by etrans]).
  split.
  - apply (inv_save_approval u (clock w1) text); [done|by eapply origin_grows|by apply Hg|done|by apply Hg|].
    intros Hu. by apply Hg, Hself.
  - simpl. destruct (exec_save _ _ w3) as [[[]|e] w4]; [apply enqueue_unharmed|done].
Qed.

(** The form of an approval. *)
Lemma approve_unharmed (u id : Z) (text : string) (w : World) :
  EvHttp (ApprovePost u id text) ∈ events w -> unharmed (approve_post u id text) w.
Proof.
  intros Hh. apply safe_read; [done|]. intros w1 Hg1 HI1. simpl.
  destruct (may_authorize w1 u); [|done]. set (w1' := emit _ w1).
  assert (Hp1 : EvPermission u true ∈ events w1') by left.
  assert (Hh1 : EvHttp (ApprovePost u id text) ∈ events w1') by (right; by apply Hg1).
  apply safe_read; [done|]. intros w2 Hg2 HI2. simpl. destruct (may_view w2 u id); [|done].
  destruct (rows w2 !! id) as [d|] eqn:Hd; [|done].
  destruct (is_pending d); [|done]. destruct (inv_rows w2 HI2 id d Hd) as [<- [Ho _]].
  assert (Hgo : forall w3, grows w2 w3 ->
    (requested_by_id d = Some u -> EvSelfApproval true ∈ events w3) ->
    unharmed (match clean_vmid text d with
              | None => mret RenderForm | Some _ => record_approval u d end) w3).
  { intros w3 Hg3 Hself. destruct (clean_vmid text d) as [v|] eqn:Ev; [|done].
    apply (record_approval_unharmed u text); [by eapply origin_grows| |rewrite Ev; eauto| |done];
      by apply Hg3, Hg2. }
  unfold self_approval_blocked. destruct (requested_by_id d) as [q|]; [|by apply Hgo].
  destruct (Z.eqb_spec u q) as [->|Hne]; [|apply Hgo; [done|by intros [= ->]]].
  apply rg_bind, rg_bind, safe_last. intros w3 Hg3 HI3.
  split; [by apply reads_keep|]. simpl.
  destruct (self_approve_allowed w3); [|done]. apply Hgo.
  - etrans; [exact Hg3|apply grows_emit].
  - intros _. left.
Qed.

Lemma reject_unharmed (u id : Z) (text : string) (w : World) : unharmed (reject_post u id text) w.
Proof.
  apply safe_read; [done|]. intros w1 Hg1 HI1. simpl. destruct (may_authorize w1 u); [|done].
  apply safe_read; [done|]. intros w2 Hg2 HI2. simpl. destruct (may_view w2 u id); [|done].
  destruct (rows w2 !! id) as [d|]; [|done]. destruct (is_pending d); [|done].
  destruct (CharField_clean text) as [reason|]; [|done].
  apply safe_save_other; [set_solver|done|done].
Qed.

Lemma untag_unharmed (c : BackendRequestContext) (d : DeletionRequest) (w : World) :
  unharmed (untag_pending_deletion c d) w.
Proof.
  apply rg_catch. destruct (http_url c) as [[|a base]|]; [done| |done].
  apply safe_attempt, safe_last. intros w1 Hg1 HI1. split; [by apply reads_keep|].
  simpl. destruct (http_put w1 _ _) as [r|e]; [|done].
  destruct (_ && _)%bool; [done|]. by destruct (json_body r) as [[]|].
Qed.

Lemma sweep_unharmed (w : World) : unharmed auto_reject_expired_deletion_requests w.
Proof.
  apply rg_bind, safe_read; [done|]. intros w1 Hg1 HI1.
  apply safe_read; [done|]. intros w2 Hg2 HI2. apply rg_bind. cbn [rg].
  destruct (minus_days _ _) as [cutoff|e]; [|done].
  apply safe_attempt, safe_last. intros w3 Hg3 HI3. split; [by apply reads_keep|]. cbn [exec fst snd].
  destruct (context w3) as [endpoint|e]; [|done].
  apply safe_read; [done|]. intros w4 Hg4 HI4. apply rg_loop; [apply grows_preorder|].
  intros d n w5 Hd. apply safe_save_other; [set_solver|done|]. intros w6 Hg6 HI6.
  apply rg_bind. destruct endpoint as [c|]; [|done]. apply rg_catch, rg_bind.
  eapply rg_weaken; [apply grows_preorder|apply untag_unharmed|]. by intros [b|e] w7.
Qed.

(** What the executor knows of the approver it names. *)
Definition named (u : Z) (actor : string) (w : World) : Prop :=
  actor = "" \/ EvUsername u actor ∈ events w.

Lemma actor_username_unharmed {A} (d : DeletionRequest) (u : Z) (f : string -> P A) (w : World) :
  authorizer_id d = Some u \/ authorizer_id d = None -> Inv w ->
  (forall n w', grows w w' -> Inv w' -> named u n w' -> unharmed (f n) w') ->
  unharmed (actor_username d ≫= f) w.
Proof.
  intros Hu HI Hf. unfold actor_username.
  destruct Hu as [-> | ->]; [|by apply Hf; [| |left]].
  apply rg_bind, safe_read; [done|]. intros w1 Hg1 HI1. cbn [exec].
  destruct (users w1 !! u) as [n|] eqn:En; [|done]. apply Hf.
  - etrans; [exact Hg1|apply grows_emit].
  - by apply inv_emit.
  - right. left.
Qed.

Lemma executor_headers_actor (hdrs : dict string) (actor : string) :
  dget "X-Proxbox-Actor" (executor_headers hdrs actor) = Some actor.
Proof. unfold executor_headers. apply dget_dset_eq. Qed.

(** The POST of an approved row. *)
Lemma post_unharmed {A} (c : BackendRequestContext) (base actor : string) (d : DeletionRequest)
  (u : Z) (f : Response -> P A) (w : World) :
  approval (events w) (pk d) u (vmid d) (node d) (kind d) -> named u actor w ->
  (forall r w', unharmed (f r) w') ->
  unharmed (attempt (perform (Post (execute_request c base actor d))) ≫= f) w.
Proof.
  intros Ha Hn Hf. apply safe_attempt, safe_last. intros w1 Hg1 HI1.
  set (r := execute_request c base actor d). split.
  - simpl. split; [|apply grows_emit]. apply inv_emit; [done|done|]. intros r' [= <-].
    exists u, (vmid d), (node d), (kind d).
    split; [eapply approval_mono; [|exact Ha]; apply Hg1|]. split; [done|].
    simpl. rewrite executor_headers_actor. destruct Hn as [->|Hn]; [by left|right].
    exists actor. split; [done|]. by apply Hg1.
  - simpl. destruct (http_post w1 r); [apply Hf|done].
Qed.

Lemma after_reply_saved (d : DeletionRequest) (r : Response) :
  let '(fields, d') := after_reply d r in
  FState ∈ fields /\ (state d' = SUCCEEDED \/ state d' = FAILED).
Proof.
  unfold after_reply, _stamp_executor_run_uuid.
  destruct (negb _); [|destruct (uuid_of_string _)]; destruct (success_status _); simpl;
    (split; [left|auto]).
Qed.

Lemma send_unharmed (c : BackendRequestContext) (base : string) (d : DeletionRequest) (u : Z) (w : World) :
  approval (events w) (pk d) u (vmid d) (node d) (kind d) ->
  authorizer_id d = Some u \/ authorizer_id d = None -> Inv w ->
  unharmed (send_deletion c base d) w.
Proof.
  intros Ha Hau HI. apply (actor_username_unharmed d u); [done|done|].
  intros n w1 Hg1 HI1 Hnm. apply (post_unharmed c base n d u); [|done|].
  - eapply approval_mono; [|exact Ha]. apply Hg1.
  - intros r w2. pose proof (after_reply_saved d r) as Hr.
    destruct (after_reply d r) as [fields d']. destruct Hr as [Hf Hst].
    apply unharmed_save; [done|]. destruct Hst as [-> | ->]; done.
Qed.

Lemma start_unharmed (d : DeletionRequest) (u : Z) (w : World) :
  approval (events w) (pk d) u (vmid d) (node d) (kind d) ->
  authorizer_id d = Some u \/ authorizer_id d = None ->
  unharmed (start_execution d) w.
Proof.
  intros Ha Hau. apply safe_read; [done|]. intros w1 Hg1 HI1. cbv beta zeta.
  apply safe_save_other; [set_solver|done|]. intros w2 Hg2 HI2.
  apply safe_attempt, safe_last. intros w3 Hg3 HI3. split; [by apply reads_keep|].
  cbn [exec fst snd]. destruct (context w3) as [[c|]|e]; [|done|done].
  destruct (http_url c) as [[|a base]|]; [done| |done].
  apply (send_unharmed _ _ _ u); [|done|done].
  eapply approval_mono; [|exact Ha]. intros e He. by apply Hg3, Hg2, Hg1.
Qed.

Lemma execute_unharmed (d : DeletionRequest) (w : World) : row_ok w d -> unharmed (execute d) w.
Proof.
  intros [_ Ha]. unfold execute. case_bool_decide as Hs; [|done].
  destruct (Ha Hs) as (u & Hu & Hau). apply rg_bind. unfold executor_blocked.
  assert (Hgo : forall w1 : World, grows w w1 -> unharmed (start_execution d) w1).
  { intros w1 Hg1. apply (start_unharmed d u); [|done].
    eapply approval_mono; [|exact Hu]. apply Hg1. }
  destruct (authorizer_id d); [|by apply Hgo]. case_bool_decide; [|by apply Hgo].
  apply rg_bind, safe_last. intros w1 Hg1 HI1. split; [by apply reads_keep|].
  cbn [exec fst snd]. destruct (self_approve_allowed w1).
  - apply Hgo. etrans; [exact Hg1|apply grows_emit].
  - apply unharmed_save; [set_solver|done].
Qed.

Lemma executor_unharmed (id : Z) (w : World) : unharmed (executor_run id) w.
Proof.
  apply safe_read; [done|]. intros w1 Hg1 HI1. cbn [exec fst snd].
  destruct (rows w1 !! id) as [d|] eqn:Hd; [|done]. apply rg_catch.
  eapply rg_weaken; [apply grows_preorder|apply execute_unharmed; by eapply inv_rows|].
  intros [[]|e] w2 _ _; [done|]. apply unharmed_save; [set_solver|done].
Qed.

(** ** The surroundings keep the invariant *)

Lemma unlink_none (u : Z) : unlink u None = None.
Proof. done. Qed.

Lemma forget_user_ok (w : World) (u : Z) (d : DeletionRequest) :
  row_ok w d -> row_ok (delete_user u w) (forget_user u d).
Proof.
  intros [(q & Hq & Hor) Ha]. split.
  - exists q. split; [done|]. simpl. unfold unlink.
    destruct Hor as [-> | [-> Hret]].
    + case_bool_decide as E; [|by left]. injection E as ->. right. set_solver.
    + right. split; [done|]. set_solver.
  - intros Hs. destruct (Ha Hs) as (a & Hap & Hau). exists a. split; [done|].
    simpl. unfold unlink. case_bool_decide; [by right|done].
Qed.

Lemma env_keeps (w w' : World) : env_step w w' -> Inv w -> Inv w' /\ grows w w'.
Proof.
  intros [w1 w2 Hr Hu Ht He|w1 u n Hu|w1 u|w1 id actor bid bname v nd kd snap now nm Hid Hact] HI.
  - destruct HI as [I1 I2 I3 I4 I5]. assert (Hg : grows w1 w2) by (split; [by rewrite He|by rewrite Ht]).
    split; [|done]. split; rewrite ?He, ?Hr, ?Hu, ?Ht; try done.
    intros id d Hd. destruct (I1 id d Hd). split; [done|]. by eapply row_ok_grows.
  - split; [|by split]. destruct HI as [I1 I2 I3 I4 I5]. split; simpl; try done.
    intros u'. rewrite lookup_insert_is_Some. intros [->|[_ Hu']]; [done|auto].
  - destruct HI as [I1 I2 I3 I4 I5]. split; [|split; [done|simpl; set_solver]].
    split; simpl; try done.
    + intros id d. rewrite lookup_fmap, fmap_Some. intros (d0 & Hd0 & ->).
      destruct (I1 id d0 Hd0). split; [done|by apply forget_user_ok].
    + intros id Hid. rewrite lookup_fmap, fmap_is_Some. auto.
    + intros u' [n Hn]. apply lookup_delete_Some in Hn as [Hne Hn].
      rewrite elem_of_union, elem_of_singleton. intros [->|Hr]; [done|]. by eapply (I5 u'); [eauto|].
  - split; [|split; [by right|done]]. destruct HI as [I1 I2 I3 I4 I5].
    split; simpl; [|by apply posts_cons| | |done].
    + intros id' d. rewrite lookup_insert_Some. intros [[<- <-]|[Hne Hd]].
      * split; [done|]. split; [|done]. exists actor. split; [left|by left].
      * destruct (I1 id' d Hd). split; [done|]. eapply row_ok_grows; [|done]. split; [by right|done].
    + apply NoDup_cons. split; [|done]. intros Hin. destruct (I4 id Hin). congruence.
    + intros id' [->|Hin]%elem_of_cons; apply lookup_insert_is_Some'; auto.
Qed.

Lemma bind_unharmed {A B} (p : P A) (b : B) (w : World) : unharmed p w -> unharmed (_ ← p; mret b) w.
Proof.
  intros Hp. apply rg_bind. eapply rg_weaken; [apply grows_preorder|exact Hp|]. by intros [a|e] w'.
Qed.

Lemma arrival_keeps (w w' : World) (p : P ()) :
  arrival w p w' -> Inv w -> Inv w' /\ grows w w' /\ unharmed p w'.
Proof.
  intros [w1 u id text _|w1 u id text _|w1|w1 id] HI.
  - split; [by apply inv_emit|]. split; [apply grows_emit|]. apply bind_unharmed, approve_unharmed. left.
  - split; [by apply inv_emit|]. split; [apply grows_emit|]. apply bind_unharmed, reject_unharmed.
  - split; [done|]. split; [done|]. apply bind_unharmed, sweep_unharmed.
  - split; [done|]. split; [done|]. apply executor_unharmed.
Qed.

Lemma initial_inv (w : World) : initial w -> Inv w.
Proof.
  intros (Hr & He & Hu). split; rewrite ?Hr, ?He; try done.
  - intros l2 r l1 Heq. by destruct l2.
  - constructor.
  - by intros id ?%not_elem_of_nil.
Qed.

(** C4: Four eyes, under every interleaving.  Any number of approvals,
    rejections, expiry sweeps and executors run at the same time, command by
    command, while accounts, permissions, settings and requests change around
    them; the handlers take no lock.  Still, whenever the executor sends the
    deletion of a request to the backend, the history before it holds the
    approval of a user who typed the very VMID that is sent, whose permission
    was checked, and who did not make the request unless self-approval was
    allowed; the machine named is the one of the request; and the actor named
    to the backend is that user or nobody (which the code names when the
    account was deleted). *)
Theorem deletion_needs_four_eyes (w0 w : World) (r : ExecuteRequest) (later earlier : list event) :
  initial w0 -> reachable exec env_step arrival w0 w ->
  events w = later ++ EvPost r :: earlier ->
  authorised earlier r.
Proof.
  intros H0 Hw He. assert (HI : Inv w).
  { eapply (reachable_inv exec grows Inv env_step arrival); [..|exact Hw].
    - intros w1 w2. apply env_keeps.
    - intros w1 p w2. apply arrival_keeps.
    - by apply initial_inv. }
  by eapply (inv_posts w HI).
Qed.

End System.

(** ** Handlers run alone *)

Lemma run_perform {A} (c : cmd) (f : reply c -> P A) (w : World) :
  run_alone (perform c ≫= f) w = run_alone (f (fst (exec c w))) (snd (exec c w)).
Proof. simpl. by destruct (exec c w). Qed.

Lemma run_attempt {A B} (p : P (result A)) (f : A -> P B) (w : World) :
  run_alone (attempt p ≫= f) w =
  match run_alone p w with
  | (Ok (Ok a), w') => run_alone (f a) w'
  | (Ok (Err e), w') | (Err e, w') => (Err e, w')
  end.
Proof. rewrite run_bind. unfold attempt. rewrite run_bind. by destruct (run_alone p w) as [[[a|e]|e] w']. Qed.

(** The world after a save of an existing row. *)
Definition saved (fields : list field) (d r : DeletionRequest) (w : World) : World :=
  emit (EvSaved fields d) (set_rows (<[pk d := update_row fields d r]> (rows w)) w).

Lemma alter_insert {A} (f : A -> A) (k : Z) (x : A) (m : gmap Z A) :
  m !! k = Some x -> alter f k m = <[k := f x]> m.
Proof.
  intros Hx. apply map_eq. intros i. destruct (decide (i = k)) as [->|Hne].
  - by rewrite lookup_alter_eq, lookup_insert_eq, Hx.
  - by rewrite lookup_alter_ne, lookup_insert_ne.
Qed.

Lemma run_save (fields : list field) (d r : DeletionRequest) (w : World) :
  rows w !! pk d = Some r -> FAuthorizer ∉ fields ->
  run_alone (attempt (perform (Save fields d))) w =
  match save_fault w (events w) fields d with
  | Some e => (Err e, w)
  | None => (Ok (), saved fields d r w)
  end.
Proof.
  intros Hr Hf.
  assert (Hs : exec_save fields d w = match save_fault w (events w) fields d with
    Some e => (Err e, w) | None => (Ok (), saved fields d r w) end).
  { unfold exec_save, save_error, saved. rewrite Hr.
    assert (existsb (fun f => match f with FAuthorizer => true | _ => false end) fields = false) as ->.
    { apply not_true_iff_false. rewrite existsb_exists. intros ([] & Hin & ?); try done.
      by apply Hf, list_elem_of_In. }
    rewrite (alter_insert _ _ r) by done. by destruct (authorizer_id d), (save_fault w (events w) fields d). }
  simpl. rewrite Hs. by destruct (save_fault w (events w) fields d).
Qed.

(** How many times the deletion of request [id] was sent. *)
Fixpoint posts (id : Z) (l : list event) : nat :=
  match l with
  | [] => 0%nat
  | EvPost r :: l' => ((if Z.eqb (request_pk r) id then 1 else 0) + posts id l')%nat
  | _ :: l' => posts id l'
  end.

(** The reply to the POST of an executor, if it sent one. *)
Definition succeeded (answer : option (result Response)) : bool :=
  match answer with Some (Ok r) => success_status (status_code r) | _ => false end.

(** [w'] is [w] with row [id] changed to [d'], after the answer to the POST for it. *)
Definition answered (id : Z) (w w' : World) (d' : DeletionRequest)
  (answer : option (result Response)) : Prop :=
  rows w' = <[id := d']> (rows w) /\
  (forall i, posts i (events w') =
     (posts i (events w) + if answer then (if Z.eqb id i then 1 else 0) else 0)%nat) /\
  (forall a, answer = Some a -> exists r, request_pk r = id /\ a = http_post w r).

(** The row an executor leaves: the verdict of the backend, with a reason for
    a failure. *)
Definition settled (d d' : DeletionRequest) (ok : bool) : Prop :=
  pk d' = pk d /\ vmid d' = vmid d /\ authorizer_id d' = authorizer_id d /\
  if ok then state d' = SUCCEEDED
  else state d' = FAILED /\ (0 < String.length (reject_reason d') <= 255)%nat.

Lemma take_str_length (n : nat) (s : string) : String.length (take_str n s) = Nat.min n (String.length s).
Proof. revert s. induction n as [|n IH]; intros [|c s]; simpl; [done|done|done|]. by rewrite IH. Qed.

Lemma trim_reason_bounds (v : pyval) : (0 < String.length (_trim_reason v) <= 255)%nat.
Proof.
  unfold _trim_reason. set (t := strip _). clearbody t. destruct t as [|c t]; [by split; apply Nat.leb_le|].
  change (nonempty (String c t)) with true. cbv iota. rewrite take_str_length. cbn [String.length]. lia.
Qed.

Lemma after_reply_settles (d r0 : DeletionRequest) (r : Response) :
  let '(fields, d') := after_reply d r in
  pk d' = pk d /\ FAuthorizer ∉ fields /\
  settled r0 (update_row fields d' r0) (success_status (status_code r)).
Proof.
  unfold after_reply, _stamp_executor_run_uuid, settled.
  destruct (negb _); [|destruct (uuid_of_string _)]; destruct (success_status _); simpl;
    (split; [done|]; split; [set_solver|]); try done; repeat split; apply trim_reason_bounds.
Qed.

Lemma after_reply_state (d : DeletionRequest) (r : Response) :
  succeeded (Some (Ok r)) = true -> state (snd (after_reply d r)) = SUCCEEDED.
Proof.
  cbn [succeeded]. unfold after_reply, _stamp_executor_run_uuid. intros ->.
  destruct (negb _); [|destruct (uuid_of_string _)]; done.
Qed.

(** The row keeps its identity on the way. *)
Definition same_request (d d' : DeletionRequest) : Prop :=
  pk d' = pk d /\ vmid d' = vmid d /\ authorizer_id d' = authorizer_id d.

(** Saving the success of request [id] is refused. *)
Definition success_unsaved (id : Z) (w : World) : Prop :=
  exists l fields d e, pk d = id /\ state d = SUCCEEDED /\ save_fault w l fields d = Some e.

(** How a part of the executor ends: the row has the verdict, or an exception
    leaves without one.  Then nothing was sent yet, or the row is
    [EXECUTING]. *)
Definition part_done (id : Z) (r0 : DeletionRequest) (w : World) (out : result () * World) : Prop :=
  save_fault (snd out) = save_fault w /\
  exists d' answer, answered id w (snd out) d' answer /\
    match fst out with
    | Ok _ => settled r0 d' (succeeded answer)
    | Err _ => same_request r0 d' /\ (succeeded answer = true -> success_unsaved id w) /\
               (state d' = EXECUTING \/ state d' = state r0 /\ answer = None)
    end.

Lemma answered_none (w w' : World) (id : Z) (d : DeletionRequest) :
  rows w' = <[id := d]> (rows w) -> (forall i, posts i (events w') = posts i (events w)) ->
  answered id w w' d None.
Proof. intros Hr Hp. split; [done|]. split; [|done]. intros i. rewrite Hp. lia. Qed.

(** The same from an earlier world that differs in the row itself. *)
Lemma answered_before (w0 w w' : World) (id : Z) (d0 d : DeletionRequest) answer :
  rows w = <[id := d0]> (rows w0) -> (forall i, posts i (events w) = posts i (events w0)) ->
  http_post w = http_post w0 -> answered id w w' d answer -> answered id w0 w' d answer.
Proof.
  intros Hr Hp Hh (Hr' & Hp' & Ha). split; [by rewrite Hr', Hr, insert_insert_eq|].
  split; [intros i; by rewrite Hp', Hp|]. rewrite <- Hh. done.
Qed.

Lemma run_send (c : BackendRequestContext) (base : string) (d r0 : DeletionRequest) (w : World) :
  rows w !! pk d = Some r0 -> state r0 = EXECUTING -> part_done (pk d) r0 w (run_alone (send_deletion c base d) w).
Proof.
  intros Hr Hx. unfold send_deletion, actor_username.
  assert (Hpost : forall actor w1, rows w1 = rows w -> http_post w1 = http_post w -> save_fault w1 = save_fault w ->
    (forall i, posts i (events w1) = posts i (events w)) ->
    part_done (pk d) r0 w (run_alone
      (response ← attempt (perform (Post (execute_request c base actor d)));
       let '(update_fields, d) := after_reply d response in
       attempt (perform (Save update_fields d))) w1)).
  { intros actor w1 Hw1 Hh1 Hf1 Hp1. rewrite run_attempt. cbn [run_prog perform call exec].
    set (q := execute_request c base actor d). rewrite Hh1.
    destruct (http_post w q) as [rep|e] eqn:Eq.
    - pose proof (after_reply_settles d r0 rep) as Hs. pose proof (after_reply_state d rep) as Hst.
      destruct (after_reply d rep) as [fields d']. destruct Hs as (Hpk & Hf & Hset).
      rewrite (run_save _ _ r0) by (simpl; congruence).
      destruct (save_fault (emit (EvPost q) w1) _ fields d') as [e|] eqn:Ef; (split; [done|]).
      + exists r0, (Some (Ok rep)). split; [split; [simpl; by rewrite Hw1, insert_id|]; split;
          [intros i; simpl; rewrite Hp1; lia|]; intros a [= <-]; by exists q|].
        split; [done|]. split; [|by left]. intros Hok. eexists _, fields, d', e. split; [done|]. split; [by apply Hst|].
        cbn [emit save_fault] in Ef. rewrite <- Hf1. exact Ef.
      + eexists _, (Some (Ok rep)). split; [|exact Hset]. split; [simpl; by rewrite Hw1, Hpk|].
        split; [intros i; simpl; rewrite Hp1; lia|]. intros a [= <-]. by exists q.
    - split; [done|]. exists r0, (Some (Err e)). split; [|by repeat split; [|left]]. split; [simpl; by rewrite Hw1, insert_id|].
      split; [intros i; simpl; rewrite Hp1; lia|]. intros a [= <-]. by exists q. }
  destruct (authorizer_id d) as [u|]; [|by apply Hpost].
  rewrite run_bind, (run_perform (Username u)). cbn [exec]. destruct (users w !! u) as [n|]; [by apply Hpost|].
  split; [done|]. exists r0, None. split; [|by repeat split; [|left]]. apply answered_none; [simpl; by rewrite insert_id|done].
Qed.

Lemma run_start (d r0 : DeletionRequest) (w : World) :
  rows w !! pk d = Some r0 -> part_done (pk d) r0 w (run_alone (start_execution d) w).
Proof.
  intros Hr. unfold start_execution. rewrite (run_perform Now). cbn [exec fst snd].
  set (d1 := set_executed_at (Some (clock w)) (set_state EXECUTING d)). cbv zeta.
  rewrite run_bind, (run_save _ d1 r0) by (done || set_solver).
  destruct (save_fault w (events w) _ d1) as [e|].
  { split; [done|]. exists r0, None. split; [apply answered_none; [by rewrite insert_id|done]|]. by repeat split; [|right]. }
  set (w1 := saved _ d1 r0 w). set (r1 := update_row [FState; FExecutedAt] d1 r0).
  assert (Hr1 : rows w1 !! pk d1 = Some r1) by apply lookup_insert_eq.
  assert (Hw1 : rows w1 = <[pk d := r1]> (rows w)) by done.
  assert (Hstop : forall e, part_done (pk d) r0 w (Err e, w1)).
  { intros e. split; [done|]. exists r1, None. split; [by apply answered_none|by repeat split; [|left]]. }
  rewrite run_attempt. cbn [run_prog perform call exec].
  destruct (context w1) as [[c|]|e]; [|apply Hstop|apply Hstop].
  destruct (http_url c) as [[|a base]|]; [apply Hstop| |apply Hstop].
  destruct (run_send c (String a base) d1 r1 w1 Hr1 eq_refl) as (Hf & d' & answer & Ha & Hend).
  split; [exact Hf|]. exists d', answer. split; [by eapply answered_before|].
  destruct (fst _); [exact Hend|]. destruct Hend as (H1 & H2 & H3). split; [exact H1|]. split; [exact H2|].
  destruct H3 as [H3|[H3 _]]; by left.
Qed.

Lemma run_execute (d r0 : DeletionRequest) (w : World) :
  rows w !! pk d = Some r0 -> state d = APPROVED ->
  part_done (pk d) r0 w (run_alone (execute d) w).
Proof.
  intros Hr Hs. unfold execute. rewrite bool_decide_eq_true_2 by done. cbn [negb].
  rewrite run_bind. unfold executor_blocked.
  destruct (authorizer_id d) as [a|]; [|by apply run_start].
  case_bool_decide; [|by apply run_start]. unfold _self_approval_allowed. rewrite (run_perform SelfApprovalSetting).
  cbn [exec fst snd run_prog mret prog_ret]. set (w1 := emit _ w).
  destruct (self_approve_allowed w); cbn [negb].
  - destruct (run_start d r0 w1 Hr) as (Hf & d' & answer & Ha & Hend). split; [exact Hf|]. exists d', answer.
    split; [|exact Hend]. destruct Ha as (H1 & H2 & H3). split; [done|]. split; [done|exact H3].
  - rewrite (run_save _ _ r0) by (done || set_solver). destruct (save_fault w1 _ _ _) as [e|]; (split; [done|]).
    + exists r0, None. split; [apply answered_none; [simpl; by rewrite insert_id|done]|]. by repeat split; [|right].
    + eexists _, None. split; [by apply answered_none|]. repeat split; simpl; lia.
Qed.

(** What a run of the executor leaves of the approved request [d]: its row is
    [d'] after the answer to its one POST, if any.

    When the run ends without an exception there is a verdict.  The run raises
    only when the failure itself could not be saved; then the row is what it
    was before anything was sent, or [EXECUTING]. *)
Definition executed_row (w : World) (d d' : DeletionRequest) (answer : option (result Response)) (res : result ()) : Prop :=
  pk d' = pk d /\ vmid d' = vmid d /\ authorizer_id d' = authorizer_id d /\
  match res with
  | Ok _ =>
      state d' = SUCCEEDED /\ succeeded answer = true \/
      state d' = FAILED /\ (0 < String.length (reject_reason d') <= 255)%nat /\
        (succeeded answer = true -> success_unsaved (pk d) w)
  | Err e =>
      (exists l d1, pk d1 = pk d /\ state d1 = FAILED /\ save_fault w l [FState; FRejectReason] d1 = Some e) /\
      (state d' = EXECUTING \/ state d' = APPROVED /\ answer = None)
  end.

Lemma executor_settles (id : Z) (w : World) :
  (forall d, rows w !! id = Some d -> pk d = id) ->
  match rows w !! id with
  | Some d =>
      if bool_decide (state d = APPROVED) then
        exists res w' d' answer,
          run_alone (executor_run id) w = (res, w') /\
          answered id w w' d' answer /\ executed_row w d d' answer res
      else run_alone (executor_run id) w = (Ok (), w)
  | None => run_alone (executor_run id) w = (Ok (), w)
  end.
Proof.
  intros Hid. unfold executor_run. rewrite (run_perform (Get id)). cbn [exec fst snd].
  destruct (rows w !! id) as [d|] eqn:Hd; [|done]. pose proof (Hid d eq_refl) as <-.
  rewrite run_catch. case_bool_decide as Hs.
  - destruct (run_execute d d w Hd Hs) as (Hf & d' & answer & (Hr & Hp & Ha) & Hend).
    destruct (run_alone (execute d) w) as [[[]|e] w1]; cbn [fst snd] in *.
    + exists (Ok ()), w1, d', answer. split; [done|]. split; [done|]. destruct Hend as (H1 & H2 & H3 & H4).
      repeat split; [done..|]. destruct (succeeded answer); [by left|right]. by destruct H4.
    + destruct Hend as ((Hk & Hv & Hau) & Hun & Hst).
      rewrite (run_save _ _ d') by (simpl; rewrite ?Hr; apply lookup_insert_eq || set_solver).
      destruct (save_fault w1 _ _ _) as [e'|] eqn:Ef.
      * exists (Err e'), w1, d', answer. split; [done|]. split; [done|]. repeat split; [done..| |].
        -- eexists _, _. split; [|split; [|rewrite <- Hf; exact Ef]]; done.
        -- rewrite Hs in Hst. exact Hst.
      * eexists (Ok ()), _, _, answer. split; [done|]. split.
        -- split; [simpl; by rewrite Hr, insert_insert_eq|]. by split.
        -- repeat split; simpl; try done. right. split; [done|]. split; [apply trim_reason_bounds|exact Hun].
  - unfold execute. by rewrite bool_decide_eq_false_2.
Qed.

(** C24: What a run of the executor leaves.  A request that is not there or not
    approved is left alone, and nothing is sent.  For an approved one the run
    changes no other row and sends at most one POST, for this request.  A run
    that ends without an exception leaves a verdict: [SUCCEEDED] only when the
    backend answered with a status in 200..299, else [FAILED] with a reason of
    1 to 255 characters (self-approval, no backend, a transport error, an
    error reply, a deleted approver), which is also what an executed deletion
    gets when its success cannot be saved.  The run raises only when saving
    the failure fails too; the row is then [EXECUTING], or still approved with
    nothing sent. *)
Theorem executor_settles_request (id : Z) (w : World) :
  (forall d, rows w !! id = Some d -> pk d = id) ->
  match rows w !! id with
  | Some d =>
      if bool_decide (state d = APPROVED) then
        exists res w' d' answer,
          run_alone (executor_run id) w = (res, w') /\
          answered id w w' d' answer /\ executed_row w d d' answer res
      else run_alone (executor_run id) w = (Ok (), w)
  | None => run_alone (executor_run id) w = (Ok (), w)
  end.
Proof. apply executor_settles. Qed.

(** ** One handler after the other *)

(** The states a request may pass through. *)
Inductive transition : State -> State -> Prop :=
| stays s : transition s s
| approved : transition PENDING APPROVED
| rejected : transition PENDING REJECTED
| executed : transition APPROVED SUCCEEDED
| not_executed : transition APPROVED FAILED.

Section Serial.
Context `{FormFields}.

(** A change of the surroundings, a form or a sweep with any outcome, or an
    executor that runs to its end. *)
Inductive serial : World -> World -> Prop :=
| serial_env w w' : env_step w w' -> serial w w'
| serial_form w p w1 :
    arrival w p w1 -> (forall id, p <> executor_run id) -> serial w (snd (run_alone p w1))
| serial_executor w id w' : run_alone (executor_run id) w = (Ok (), w') -> serial w w'.

(** What a form or a sweep may do to the rows of [w0]: decide on a pending
    one. *)
Definition decided (d0 d : DeletionRequest) : Prop :=
  pk d = pk d0 /\ vmid d = vmid d0 /\
  (state d = state d0 \/ (state d0 = PENDING /\ (state d = APPROVED \/ state d = REJECTED))).

Record decides (w0 w : World) : Prop := {
  decides_rows : forall id d, rows w !! id = Some d -> exists d0, rows w0 !! id = Some d0 /\ decided d0 d;
  decides_kept : forall id, is_Some (rows w0 !! id) -> is_Some (rows w !! id);
  decides_posts : forall i, posts i (events w) = posts i (events w0)
}.

Definition keyed (w : World) : Prop := forall id d, rows w !! id = Some d -> pk d = id.

(** The copy [d] is of a row that was pending at [w0]. *)
Definition was_pending (w0 : World) (d : DeletionRequest) : Prop :=
  exists d0, rows w0 !! pk d = Some d0 /\ state d0 = PENDING.

Lemma decides_refl (w : World) : decides w w.
Proof. split; [|done|done]. intros id d Hd. exists d. split; [done|]. by repeat split; left. Qed.

(** A world with the same rows, after events that are not POSTs. *)
Lemma decides_quiet (w0 w w' : World) :
  decides w0 w -> rows w' = rows w -> (forall i, posts i (events w') = posts i (events w)) ->
  decides w0 w'.
Proof.
  intros [Hr Hk Hp] Hrows Hposts. split; rewrite ?Hrows; [done|done|].
  intros i. by rewrite Hposts.
Qed.

Lemma reads_decide (c : cmd) (w0 w : World) :
  reads c = true -> decides w0 w -> decides w0 (snd (exec c w)).
Proof.
  intros Hc Hd. eapply decides_quiet; [exact Hd|..]; destruct c; try done; simpl;
    by destruct (users w !! user).
Qed.

Lemma loaded_pending (w0 w : World) (id : Z) (d : DeletionRequest) :
  keyed w0 -> decides w0 w -> rows w !! id = Some d -> is_pending d = true -> was_pending w0 d.
Proof.
  intros Hkey Hd Hid Hp. apply bool_decide_eq_true in Hp.
  destruct (decides_rows _ _ Hd id d Hid) as (d0 & Hd0 & Hpk & _ & Hst).
  exists d0. rewrite Hpk, (Hkey id d0 Hd0). split; [done|]. destruct Hst as [<-|[? _]]; congruence.
Qed.

(** Saving a decision on a request that was pending. *)
Lemma save_decides (w0 w : World) (fields : list field) (d : DeletionRequest) :
  decides w0 w -> was_pending w0 d -> FState ∈ fields ->
  state d = APPROVED \/ state d = REJECTED ->
  decides w0 (snd (exec_save fields d w)).
Proof.
  intros Hd (d0 & Hd0 & Hs0) Hf Hs. unfold exec_save.
  destruct (save_error fields d w); [done|]. destruct Hd as [Hr Hk Hp]. simpl. split; simpl; [| |done].
  - intros id r. destruct (decide (id = pk d)) as [->|Hne]; [|rewrite lookup_alter_ne by done; apply Hr].
    rewrite lookup_alter_eq, fmap_Some. intros (r0 & Hr0 & ->).
    destruct (Hr _ _ Hr0) as (d1 & Hd1 & Hpk & Hv & _).
    destruct (update_row_kept fields d r0) as (Hp' & Hv' & _).
    exists d1. split; [done|]. split; [congruence|]. split; [congruence|]. right.
    rewrite update_row_state by done. split; [congruence|done].
  - intros id Hid. destruct (Hk id Hid) as [r Hrid].
    destruct (decide (id = pk d)) as [->|]; [rewrite lookup_alter_eq, Hrid|rewrite lookup_alter_ne by done]; eauto.
Qed.

(** The same logic as before, for one thread and the invariant [decides w0]. *)
Definition anything (w w' : World) : Prop := True.
#[local] Instance anything_preorder : PreOrder anything.
Proof. by split. Qed.

Abbreviation deciding w0 p w := (rg exec anything (decides w0) p (fun _ _ => True) w).

Lemma deciding_read {A} (w0 : World) (c : cmd) (f : reply c -> P A) Q (w : World) :
  reads c = true ->
  (forall w', decides w0 w' -> rg exec anything (decides w0) (f (fst (exec c w'))) Q (snd (exec c w'))) ->
  rg exec anything (decides w0) (perform c ≫= f) Q w.
Proof.
  intros Hc Hf w' _ Hd. specialize (Hf w' Hd). pose proof (reads_decide c w0 w' Hc Hd).
  by destruct (exec c w').
Qed.

Lemma deciding_attempt {A B} (w0 : World) (p : P (result A)) (f : A -> P B) (w : World) :
  rg exec anything (decides w0) p (fun r w' => match r with Ok (Ok a) => deciding w0 (f a) w' | _ => True end) w ->
  deciding w0 (attempt p ≫= f) w.
Proof.
  intros Hp. apply rg_bind. unfold attempt. apply rg_bind.
  eapply rg_weaken; [apply anything_preorder|exact Hp|]. by intros [[a|e]|e] w'.
Qed.

Lemma deciding_last (w0 : World) (c : cmd) Q (w : World) :
  reads c = true -> (forall w', decides w0 w' -> Q (Ok (fst (exec c w'))) (snd (exec c w'))) ->
  rg exec anything (decides w0) (perform c) Q w.
Proof.
  intros Hc HQ w' _ Hd. specialize (HQ w' Hd). pose proof (reads_decide c w0 w' Hc Hd).
  by destruct (exec c w').
Qed.

Lemma deciding_save {A} (w0 : World) (fields : list field) (d : DeletionRequest) (f : () -> P A) (w : World) :
  was_pending w0 d -> FState ∈ fields -> state d = APPROVED \/ state d = REJECTED ->
  (forall w', deciding w0 (f ()) w') ->
  deciding w0 (attempt (perform (Save fields d)) ≫= f) w.
Proof.
  intros Hp Hf Hs Hrest. apply deciding_attempt. intros w' _ Hd.
  pose proof (save_decides w0 w' fields d Hd Hp Hf Hs). cbn [exec].
  destruct (exec_save fields d w') as [[[]|e] w'']; split; try done. split; [done|apply Hrest].
Qed.

Lemma full_clean_deciding {A} (w0 : World) (d : DeletionRequest) (k : P A) (w : World) :
  (forall w', deciding w0 k w') -> deciding w0 (_ ← full_clean d; k) w.
Proof.
  intros Hk. apply rg_bind, deciding_read; [done|]. intros w1 H1. apply rg_bind.
  assert (Hend : forall w', rg exec anything (decides w0)
    (if fst (exec (FieldsValid d) w1) then mret () else throw (ValidationError "invalid fields"))
    (fun r w2 => match r with Ok _ => deciding w0 k w2 | Err _ => True end) w').
  { intros w'. destruct (fst _); simpl; [apply Hk|done]. }
  unfold clean. destruct (authorizer_id d); [|apply Hend]. case_bool_decide; [|apply Hend].
  apply deciding_read; [done|]. intros w2 H2. simpl. destruct (self_approve_allowed w2); [apply Hend|done].
Qed.

Lemma approve_deciding (w0 : World) (u id : Z) (text : string) (w : World) :
  keyed w0 -> deciding w0 (approve_post u id text) w.
Proof.
  intros Hkey. apply deciding_read; [done|]. intros w1 H1. cbn [exec fst snd].
  destruct (may_authorize w1 u); [|done].
  apply deciding_read; [done|]. intros w2 H2. cbn [exec fst snd]. destruct (may_view w2 u id); [|done].
  destruct (rows w2 !! id) as [d|] eqn:Hd; [|done].
  destruct (is_pending d) eqn:Hp; [|done].
  pose proof (loaded_pending w0 w2 id d Hkey H2 Hd Hp) as Hwas.
  assert (Hgo : forall w3, deciding w0 (match clean_vmid text d with
    | None => mret RenderForm | Some _ => record_approval u d end) w3).
  { intros w3. destruct (clean_vmid text d); [|done]. apply deciding_read; [done|].
    intros w4 H4. cbv beta zeta. apply full_clean_deciding. intros w5.
    apply deciding_save; [done|set_solver|by left|]. intros w6.
    apply rg_bind, deciding_read; [done|]. intros w7 H7. cbn [exec fst snd].
    destruct (rows w7 !! _); [|done]. by apply deciding_last. }
  apply rg_bind. unfold self_approval_blocked. destruct (requested_by_id d) as [q|]; [|apply Hgo].
  destruct (u =? q); [|apply Hgo]. apply deciding_read; [done|]. intros w3 H3. simpl.
  destruct (self_approve_allowed w3); [apply Hgo|done].
Qed.

Lemma reject_deciding (w0 : World) (u id : Z) (text : string) (w : World) :
  keyed w0 -> deciding w0 (reject_post u id text) w.
Proof.
  intros Hkey. apply deciding_read; [done|]. intros w1 H1. cbn [exec fst snd].
  destruct (may_authorize w1 u); [|done].
  apply deciding_read; [done|]. intros w2 H2. cbn [exec fst snd]. destruct (may_view w2 u id); [|done].
  destruct (rows w2 !! id) as [d|] eqn:Hd; [|done]. destruct (is_pending d) eqn:Hp; [|done].
  pose proof (loaded_pending w0 w2 id d Hkey H2 Hd Hp) as Hwas.
  destruct (CharField_clean text); [|done]. apply deciding_save; [done|set_solver|by right|done].
Qed.

Lemma expired_rows_spec (cutoff : Z) (m : gmap Z DeletionRequest) (d : DeletionRequest) :
  d ∈ expired_rows cutoff m -> exists id, m !! id = Some d /\ is_expired cutoff d = true.
Proof.
  unfold expired_rows. rewrite sort_by_elem, list_elem_of_In, filter_In, <- list_elem_of_In.
  intros [Hin He]. apply list_elem_of_fmap in Hin as ([id d'] & -> & Hm).
  exists id. split; [by apply elem_of_map_to_list|done].
Qed.

Lemma untag_deciding (w0 : World) (c : BackendRequestContext) (d : DeletionRequest) (w : World) :
  deciding w0 (untag_pending_deletion c d) w.
Proof.
  apply rg_catch. destruct (http_url c) as [[|a base]|]; [done| |done].
  apply rg_bind, rg_bind, deciding_last; [done|]. intros w1 H1. simpl.
  destruct (http_put w1 _ _) as [r|e]; [|done].
  destruct (_ && _)%bool; [done|]. by destruct (json_body r) as [[]|].
Qed.

Lemma sweep_deciding (w0 w : World) : keyed w0 -> deciding w0 auto_reject_expired_deletion_requests w.
Proof.
  intros Hkey. apply rg_bind, deciding_read; [done|]. intros w1 H1.
  apply deciding_read; [done|]. intros w2 H2. apply rg_bind. cbn [rg].
  destruct (minus_days _ _) as [cutoff|e]; [|done].
  apply deciding_attempt, deciding_last; [done|]. intros w3 H3. cbn [exec fst snd].
  destruct (context w3) as [endpoint|e]; [|done].
  apply deciding_read; [done|]. intros w4 H4. apply rg_loop; [apply anything_preorder|].
  intros d n w5 (id & Hid & [Hp _]%andb_true_iff)%expired_rows_spec.
  apply deciding_save; [exact (loaded_pending w0 w4 id d Hkey H4 Hid Hp)|set_solver|by right|]. intros w6.
  apply rg_bind. destruct endpoint as [c|]; [|done]. apply rg_catch, rg_bind.
  eapply rg_weaken; [apply anything_preorder|apply untag_deciding|]. by intros [b|e] w7.
Qed.

(** ** The state machine *)

Definition lawful (w w' : World) : Prop :=
  forall id d, rows w !! id = Some d ->
  exists d', rows w' !! id = Some d' /\ vmid d' = vmid d /\ transition (state d) (state d').

(** At rest: a request was sent at most once, and only if it has its verdict. *)
Record tidy (w : World) : Prop := {
  tidy_keyed : keyed w;
  tidy_row : forall id d, rows w !! id = Some d -> state d <> EXECUTING;
  tidy_posts : forall id, posts id (events w) = 0%nat \/
     (posts id (events w) = 1%nat /\
      exists d, rows w !! id = Some d /\ (state d = SUCCEEDED \/ state d = FAILED))
}.

Lemma decides_tidy (w w' : World) : tidy w -> decides w w' -> tidy w' /\ lawful w w'.
Proof.
  intros [Hkey Hrow Hposts] [Hr Hk Hp]. split; [split|].
  - intros id d Hd. destruct (Hr id d Hd) as (d0 & Hd0 & -> & _). by apply Hkey.
  - intros id d Hd. destruct (Hr id d Hd) as (d0 & Hd0 & _ & _ & [->|[_ [-> | ->]]]); try done.
    by eapply Hrow.
  - intros id. rewrite Hp. destruct (Hposts id) as [?|[? (d0 & Hd0 & Hs)]]; [by left|right].
    split; [done|]. destruct (Hk id) as [d Hd]; [eauto|]. exists d. split; [done|].
    destruct (Hr id d Hd) as (d0' & Hd0' & _ & _ & [->|[? _]]); [congruence|].
    destruct Hs; congruence.
  - intros id d0 Hd0. destruct (Hk id) as [d Hd]; [eauto|]. exists d. split; [done|].
    destruct (Hr id d Hd) as (d0' & Hd0' & _ & Hv & Hs). assert (d0' = d0) as -> by congruence.
    split; [done|]. destruct Hs as [->|[-> [-> | ->]]]; constructor.
Qed.

Lemma executor_tidy (id : Z) (w w1 : World) :
  run_alone (executor_run id) w = (Ok (), w1) -> tidy w -> tidy w1 /\ lawful w w1.
Proof.
  intros Hrun Ht. pose proof (executor_settles id w (tidy_keyed w Ht id)) as Hx.
  assert (Hsame : tidy w /\ lawful w w).
  { split; [done|]. intros i d Hd. exists d. repeat split; [done|constructor]. }
  destruct (rows w !! id) as [d|] eqn:Hd; [|by rewrite Hx in Hrun; injection Hrun as <-].
  case_bool_decide as Hs; [|by rewrite Hx in Hrun; injection Hrun as <-].
  destruct Hx as (res & w' & d' & answer & Hx & (Hr & Hp & _) & (Hpk & Hv & _ & Hst)).
  rewrite Hrun in Hx. injection Hx as <- <-.
  destruct Ht as [Hkey Hrow Hposts].
  assert (Hst' : state d' = SUCCEEDED \/ state d' = FAILED) by (destruct Hst as [[? _]|[? _]]; [by left|by right]).
  split; [split|].
  - intros i e. rewrite Hr, lookup_insert_Some. intros [[<- <-]|[_ He]]; [|by apply Hkey].
    rewrite Hpk. by apply Hkey.
  - intros i e. rewrite Hr, lookup_insert_Some. intros [[<- <-]|[_ He]]; [|by eapply Hrow].
    destruct Hst' as [-> | ->]; done.
  - intros i. rewrite Hp, Hr. destruct (Z.eqb_spec id i) as [<-|Hne].
    + rewrite lookup_insert_eq. destruct (Hposts id) as [->|[_ (d0 & Hd0 & Hs0)]].
      * destruct answer; [right; split; [done|by exists d']|by left].
      * assert (d0 = d) as -> by congruence. destruct Hs0; congruence.
    + rewrite lookup_insert_ne by done. destruct answer; rewrite Nat.add_0_r; apply Hposts.
  - intros i e He. rewrite Hr. destruct (decide (i = id)) as [->|Hne].
    + assert (e = d) as -> by congruence. exists d'. rewrite lookup_insert_eq. split; [done|].
      split; [done|]. rewrite Hs. destruct Hst' as [-> | ->]; constructor.
    + exists e. rewrite lookup_insert_ne by done. repeat split; [done|constructor].
Qed.

Lemma env_tidy (w w' : World) : env_step w w' -> tidy w -> tidy w' /\ lawful w w'.
Proof.
  intros [w1 w2 Hr Hu Ht He|w1 u n Hu|w1 u|w1 id actor bid bname v nd kd snap now nm Hid Hact] Htidy.
  - apply decides_tidy; [done|]. eapply decides_quiet; [apply decides_refl|done|by rewrite He].
  - apply decides_tidy; [done|]. by eapply decides_quiet; [apply decides_refl|..].
  - apply decides_tidy; [done|]. split; simpl; [| |done].
    + intros id d. rewrite lookup_fmap, fmap_Some. intros (d0 & Hd0 & ->). exists d0.
      split; [done|]. by repeat split; left.
    + intros id. by rewrite lookup_fmap, fmap_is_Some.
  - destruct Htidy as [Hkey Hrow Hposts]. split; [split|]; simpl.
    + intros i d. simpl. rewrite lookup_insert_Some. intros [[<- <-]|[_ Hd]]; [done|by apply Hkey].
    + intros i d. rewrite lookup_insert_Some. intros [[<- <-]|[_ Hd]]; [done|by eapply Hrow].
    + intros i. destruct (Hposts i) as [?|[? (d & Hd & Hs)]]; [by left|right]. split; [done|].
      exists d. split; [|done]. rewrite lookup_insert_ne; [done|congruence].
    + intros i d Hd. exists d. simpl. rewrite lookup_insert_ne by congruence. repeat split; [done|constructor].
Qed.

Lemma handler_tidy {A} (w w1 : World) (p : P A) :
  tidy w -> decides w w1 -> (forall w0 : World, keyed w0 -> deciding w0 p w1) ->
  tidy (snd (run_alone p w1)) /\ lawful w (snd (run_alone p w1)).
Proof.
  intros Ht Hd Hp. apply decides_tidy; [done|].
  apply (rg_run exec anything (decides w) p (fun _ _ => True)); [|done].
  apply Hp. apply Ht.
Qed.

Lemma deciding_void {A} (w0 : World) (p : P A) (w : World) :
  deciding w0 p w -> deciding w0 (_ ← p; mret ()) w.
Proof.
  intros Hp. apply rg_bind. eapply rg_weaken; [apply anything_preorder|exact Hp|]. by intros [a|e] w'.
Qed.

Lemma serial_tidy (w w' : World) : serial w w' -> tidy w -> tidy w' /\ lawful w w'.
Proof.
  intros [w1 w2 He|w1 p w2 Ha Hp|w1 id w2 Hrun] Ht; [by apply env_tidy| |by eapply executor_tidy].
  destruct Ha as [w1 u id text _|w1 u id text _|w1|w1 id].
  - apply handler_tidy; [done| |].
    + by eapply decides_quiet; [apply decides_refl|..].
    + intros w0 Hk. by apply deciding_void, approve_deciding.
  - apply handler_tidy; [done| |].
    + by eapply decides_quiet; [apply decides_refl|..].
    + intros w0 Hk. by apply deciding_void, reject_deciding.
  - apply handler_tidy; [done|apply decides_refl|].
    intros w0 Hk. by apply deciding_void, sweep_deciding.
  - by destruct (Hp id).
Qed.

Lemma serial_tidy_star (w0 w : World) : initial w0 -> rtc serial w0 w -> tidy w.
Proof.
  intros (Hr & He & _) Hs.
  assert (Ht : tidy w0).
  { split; [intros id d; by rewrite Hr|intros id d; by rewrite Hr|]. intros id. rewrite He. by left. }
  clear Hr He. induction Hs as [|w1 w2 w3 H12 _ IH]; [done|]. apply IH. by eapply serial_tidy.
Qed.

(** C23: The life of a request, one handler after the other.  However the
    forms, the expiry sweep, the executor and the surroundings follow each
    other, as long as each handler finishes before the next starts and no
    executor dies of a failure that it cannot save: every
    request only moves from pending to approved or rejected and from approved
    to succeeded or failed, keeps its VMID, and is never lost; no request
    rests in [EXECUTING]; and its deletion is sent to the backend at most
    once, after which the request is succeeded or failed. *)
Theorem serial_requests_execute_once (w0 w : World) :
  initial w0 -> rtc serial w0 w ->
  (forall w', serial w w' -> lawful w w') /\
  (forall id d, rows w !! id = Some d -> state d <> EXECUTING) /\
  (forall id, (posts id (events w) <= 1)%nat) /\
  (forall id d, rows w !! id = Some d -> posts id (events w) = 1%nat ->
     state d = SUCCEEDED \/ state d = FAILED).
Proof.
  intros H0 Hs. pose proof (serial_tidy_star w0 w H0 Hs) as Ht. split; [|split; [|split]].
  - intros w' Hw'. by apply serial_tidy.
  - apply Ht.
  - intros id. destruct (tidy_posts w Ht id) as [|[? _]]; lia.
  - intros id d Hd H1. destruct (tidy_posts w Ht id) as [|[_ (d' & Hd' & Hs')]]; [lia|congruence].
Qed.

End Serial.

(** ** A request, approved and executed *)

Definition sample_fields : FormFields :=
  {| IntegerField_clean := int_of_string;
     CharField_clean := fun s => if nonempty (strip s) then Some (strip s) else None |}.

Definition sample_context : BackendRequestContext :=
  {| http_url := Some "https://proxbox:8800/"; verify_ssl := true; headers := [("X-Proxbox-API-Key", "k")] |}.

(** Users 1 and 2 may authorize, request 7 does not exist yet. *)
Definition sample_world : World :=
  mkWorld ∅ (<[1 := "alice"]> (<[2 := "bob"]> (<[3 := "carol"]> ∅))) ∅ [] []
    (fun _ => true) (fun _ _ => true) false 7 1_000_000_000_000_000 (fun _ => true)
    (Ok (Some sample_context))
    (fun _ => Ok {| status_code := 200; json_body := Some (VDict []) |})
    (fun _ _ => Err (RequestException "unreachable")) (fun _ _ _ => None).

Definition sample_request : DeletionRequest :=
  new_request 7 1 None "" 105 "pve1" "qemu" (VDict []) 1_000 "db1".

Definition requested_world : World := create_request sample_request 1 sample_world.

(** The world when user [u] has sent the form. *)
Definition after_form (u : Z) (w : World) : World := emit (EvHttp (ApprovePost u 7 "105")) w.

Definition approve_thread (u : Z) : P () :=
  _ ← @approve_post sample_fields u 7 "105"; mret ().

Definition approved_world : World :=
  snd (run_alone (approve_thread 2) (after_form 2 requested_world)).

Definition executed_world : World := snd (run_alone (executor_run 7) approved_world).

Definition sample_post : ExecuteRequest := execute_request sample_context "https://proxbox:8800/" "bob" sample_request.

Abbreviation config := (World * list (P ()))%type.

(** Configurations reached from [sample_world]. *)
Definition reached (c : config) : Prop :=
  sys_steps exec env_step (@arrival sample_fields) (sample_world, []) c.

Lemma reached_reachable (c : config) :
  reached c -> reachable exec env_step (@arrival sample_fields) sample_world (fst c).
Proof. intros Hc. exists (snd c). by rewrite <- surjective_pairing. Qed.

Lemma reached_pair (c : config) : reached c -> reached (fst c, snd c).
Proof. by destruct c. Qed.

Lemma reached_schedule (l : list nat) (c : config) : reached c -> reached (schedule exec l c).
Proof. intros Hc. unfold reached, sys_steps in *. etrans; [exact Hc|apply schedule_steps]. Qed.

Lemma reached_run (p : P ()) (w : World) (ts : list (P ())) :
  reached (w, p :: ts) -> reached (snd (run_alone p w), Done (fst (run_alone p w)) :: ts).
Proof. intros Hc. unfold reached, sys_steps in *. etrans; [exact Hc|apply run_steps]. Qed.

Lemma reached_arrival (p : P ()) (w w' : World) (ts : list (P ())) :
  @arrival sample_fields w p w' -> reached (w, ts) -> reached (w', p :: ts).
Proof. intros Ha Hc. unfold reached, sys_steps in *. etrans; [exact Hc|]. apply rtc_once. by constructor. Qed.

Lemma reached_form (u : Z) (w : World) (ts : list (P ())) :
  is_Some (users w !! u) -> reached (w, ts) -> reached (after_form u w, approve_thread u :: ts).
Proof. intros Hu. by apply reached_arrival, (arrive_approve (H := sample_fields) w u 7 "105"). Qed.

Lemma reached_executor (w : World) (ts : list (P ())) : reached (w, ts) -> reached (w, executor_run 7 :: ts).
Proof. apply reached_arrival, arrive_executor. Qed.

Lemma sample_initial : initial sample_world.
Proof. split; [done|]. split; [done|]. intros u _. apply not_elem_of_empty. Qed.

Lemma reached_request : reached (requested_world, []).
Proof. apply rtc_once, step_env, (env_request sample_world 7 1); [done|by vm_compute; eauto]. Qed.

Lemma sample_reachable : reachable exec env_step (@arrival sample_fields) sample_world executed_world.
Proof.
  assert (Hbob : is_Some (users requested_world !! 2)) by (vm_compute; eauto).
  pose proof (reached_run _ _ _ (reached_form 2 requested_world [] Hbob reached_request)) as Ha.
  exact (reached_reachable _ (reached_run _ _ _ (reached_executor _ _ Ha))).
Qed.

(** [deletion_needs_four_eyes] on a request of user 1 approved by user 2. *)
Lemma deletion_needs_four_eyes_witness :
  @authorised sample_fields (drop 2 (events executed_world)) sample_post.
Proof.
  apply (@deletion_needs_four_eyes sample_fields sample_world executed_world sample_post
           (take 1 (events executed_world))).
  - apply sample_initial.
  - apply sample_reachable.
  - by vm_compute.
Defined.

(** [executor_settles_request] on the approved request. *)
Lemma executor_settles_request_witness :
  match rows approved_world !! 7 with
  | Some d =>
      if bool_decide (state d = APPROVED) then
        exists res w' d' answer,
          run_alone (executor_run 7) approved_world = (res, w') /\
          answered 7 approved_world w' d' answer /\ executed_row approved_world d d' answer res
      else run_alone (executor_run 7) approved_world = (Ok (), approved_world)
  | None => run_alone (executor_run 7) approved_world = (Ok (), approved_world)
  end.
Proof.
  apply (executor_settles_request 7 approved_world). intros d.
  change (rows approved_world !! 7) with (Some (approved_by 2 1_000_000_000_000_000 sample_request)).
  by intros [= <-].
Defined.

(** [serial_requests_execute_once] after the approval and the execution. *)
Lemma serial_requests_execute_once_witness :
  rtc (@serial sample_fields) sample_world executed_world /\
  (posts 7 (events executed_world) <= 1)%nat.
Proof.
  assert (Hs : rtc (@serial sample_fields) sample_world executed_world).
  { eapply rtc_l; [apply serial_env, (env_request sample_world 7 1); [done|by vm_compute; eauto]|].
    eapply rtc_l; [eapply serial_form; [apply (arrive_approve (H := sample_fields) requested_world 2 7 "105"); by vm_compute; eauto|done]|].
    apply rtc_once, (serial_executor approved_world 7). vm_compute. reflexivity. }
  split; [exact Hs|].
  exact (proj1 (proj2 (proj2 (@serial_requests_execute_once sample_fields sample_world executed_world sample_initial Hs))) 7).
Defined.

(** The database refuses to save a success: the guest is gone, and the request
    counts as failed. *)
Definition refusing (w : World) : World :=
  mkWorld (rows w) (users w) (retired w) (events w) (queue w) (may_authorize w) (may_view w)
    (self_approve_allowed w) (ttl_days w) (clock w) (fields_valid w) (context w) (http_post w) (http_put w)
    (fun _ _ d => if bool_decide (state d = SUCCEEDED) then Some (DatabaseError "connection lost") else None).

Example executed_but_failed :
  let w := snd (run_alone (executor_run 7) (refusing approved_world)) in
  posts 7 (events w) = 1%nat /\ (fun d => (state d, reject_reason d)) <$> (rows w !! 7) = Some (FAILED, "connection lost").
Proof. vm_compute. split; reflexivity. Qed.

(** ** What the missing row lock allows *)

(** Users 2 and 3 both open the form while the request is pending; the second
    save comes after the first approval was executed. *)
Definition both_loaded : config :=
  schedule exec [1; 1; 0; 0; 1; 1; 1; 1; 1]%nat
    (after_form 3 (after_form 2 requested_world), [approve_thread 3; approve_thread 2]).

Definition executed_once : config :=
  schedule exec (replicate 7 0%nat) (fst both_loaded, executor_run 7 :: snd both_loaded).

Definition approved_again : config := schedule exec (replicate 5 1%nat) executed_once.

Definition executed_twice : config :=
  schedule exec (replicate 7 0%nat) (fst approved_again, executor_run 7 :: snd approved_again).

(** The deletion of one request can be sent twice. *)
Example interleaved_approvals_execute_twice :
  reachable exec env_step (@arrival sample_fields) sample_world (fst executed_twice) /\
  posts 7 (events (fst executed_twice)) = 2%nat.
Proof.
  split; [|by vm_compute]. apply reached_reachable.
  apply reached_schedule, reached_executor, reached_pair, reached_schedule, reached_schedule.
  apply reached_executor, reached_pair, reached_schedule.
  do 2 (apply reached_form; [by vm_compute; eauto|]). apply reached_request.
Qed.

(** The sweep lists the pending request, which is then approved and executed. *)
Definition sweep_thread : P () := _ ← auto_reject_expired_deletion_requests; mret ().

Definition swept_late : config :=
  schedule exec
    [0; 0; 0; 0]%nat (requested_world, [sweep_thread]).

Definition approved_before_sweep : config :=
  (after_form 2 (fst swept_late), approve_thread 2 :: snd swept_late).

Definition executed_before_sweep : config :=
  schedule exec (replicate 7 0%nat)
    (fst (schedule exec (replicate 7 0%nat) approved_before_sweep),
     executor_run 7 :: snd (schedule exec (replicate 7 0%nat) approved_before_sweep)).

Definition sweep_finished : config := schedule exec [2]%nat executed_before_sweep.

(** An executed deletion can end as rejected. *)
Example late_sweep_rejects_executed_request :
  reachable exec env_step (@arrival sample_fields) sample_world (fst sweep_finished) /\
  posts 7 (events (fst sweep_finished)) = 1%nat /\
  state <$> (rows (fst executed_before_sweep) !! 7) = Some SUCCEEDED /\
  state <$> (rows (fst sweep_finished) !! 7) = Some REJECTED.
Proof.
  split; [|by vm_compute]. apply reached_reachable.
  apply reached_schedule, reached_schedule, reached_executor, reached_pair, reached_schedule.
  apply reached_form; [by vm_compute; eauto|].
  apply reached_pair, reached_schedule, (reached_arrival _ requested_world); [apply arrive_sweep|].
  apply reached_request.
Qed.
