(* ===== verification/Dates.v ===== *)
(** * Dates

    [datetime.date] as the calendar code uses it: the proleptic Gregorian
    calendar of Python between the years 1 and 9999, day numbers
    ([date.toordinal]), weekdays and the weeks of a month
    ([calendar.Calendar.monthdatescalendar]). *)
From Stdlib Require Import ZArith Lia String.
From stdpp Require Import base list.
From S2P Require Import Prelude.

Record date := mkDate { year : Z; month : Z; day : Z }.

#[global] Instance date_eq_dec : EqDecision date.
Proof. solve_decision. Defined.

Definition is_leap (y : Z) : bool :=
  ((y mod 4 =? 0) && (negb (y mod 100 =? 0) || (y mod 400 =? 0)))%bool.

(** [calendar.monthrange(year, month)[1]] *)
Definition days_in_month (y m : Z) : Z :=
  if m =? 2 then if is_leap y then 29 else 28
  else if ((m =? 4) || (m =? 6) || (m =? 9) || (m =? 11))%bool then 30 else 31.

(** Days of the year before the first of month [m]. *)
Definition days_before_month (y m : Z) : Z :=
  match m with
  | 1 => 0 | 2 => 31
  | _ =>
      (match m with
       | 3 => 59 | 4 => 90 | 5 => 120 | 6 => 151 | 7 => 181 | 8 => 212
       | 9 => 243 | 10 => 273 | 11 => 304 | _ => 334
       end) + (if is_leap y then 1 else 0)
  end.

Definition days_before_year (y : Z) : Z :=
  let y := y - 1 in y * 365 + y / 4 - y / 100 + y / 400.

Definition toordinal (d : date) : Z :=
  days_before_year (year d) + days_before_month (year d) (month d) + day d.

(** A date the constructor [date(y, m, d)] accepts. *)
Definition valid_date (d : date) : bool :=
  ((1 <=? year d) && (year d <=? 9999) && (1 <=? month d) && (month d <=? 12)
   && (1 <=? day d) && (day d <=? days_in_month (year d) (month d)))%bool.

(** [date(y, m, d)] *)
Definition make_date (y m d : Z) : result date :=
  if valid_date (mkDate y m d) then Ok (mkDate y m d) else Err (ValueError "date out of range").

(** [d.weekday()]: Monday is 0. *)
Definition weekday (d : date) : Z := (toordinal d + 6) mod 7.

(** The month of the day [n] of year [y] (from 0), and the days of the year
    before it. *)
Fixpoint find_month (fuel : nat) (y m n : Z) : Z * Z :=
  match fuel with
  | O => (m, n)
  | S fuel' => let k := days_in_month y m in
      if n <? k then (m, n) else find_month fuel' y (m + 1) (n - k)
  end.

(** [date.fromordinal(n)], by the 400, 100, 4 and 1 year cycles. *)
Definition fromordinal (n : Z) : date :=
  let n := n - 1 in
  let n400 := n / 146097 in
  let n := n mod 146097 in
  let n100 := n / 36524 in
  let n := n mod 36524 in
  let n4 := n / 1461 in
  let n := n mod 1461 in
  let n1 := n / 365 in
  let n := n mod 365 in
  let y := n400 * 400 + n100 * 100 + n4 * 4 + n1 + 1 in
  if ((n1 =? 4) || (n100 =? 4))%bool then mkDate (y - 1) 12 31
  else let '(m, n) := find_month 11 y 1 n in mkDate y m (n + 1).

Definition max_ordinal : Z := 3652059.

(** [d + timedelta(days=n)] *)
Definition add_days (d : date) (n : Z) : result date :=
  let o := toordinal d + n in
  if ((1 <=? o) && (o <=? max_ordinal))%bool then Ok (fromordinal o)
  else Err (OverflowError "date value out of range").

(** ** The two numberings agree *)

Definition calendar_ok (d : date) : Prop :=
  1 <= month d <= 12 /\ 1 <= day d <= days_in_month (year d) (month d).

Ltac twelve m :=
  let Hin := fresh "Hin" in
  assert (m ∈ [1;2;3;4;5;6;7;8;9;10;11;12]) as Hin by (rewrite !elem_of_cons, elem_of_nil; lia);
  rewrite !elem_of_cons, elem_of_nil in Hin; destruct_or! Hin; subst m.

Lemma days_in_month_bound (y m : Z) : 28 <= days_in_month y m <= 31.
Proof.
  unfold days_in_month. destruct (m =? 2); [destruct (is_leap y); lia|]. destruct (_ || _)%bool; lia.
Qed.

(** Months follow each other. *)
Lemma days_before_next_month (y m : Z) :
  1 <= m < 12 -> days_before_month y (m + 1) = days_before_month y m + days_in_month y m.
Proof.
  intros Hm. twelve m; unfold days_before_month, days_in_month; simpl; destruct (is_leap y); lia.
Qed.

Lemma days_before_month_le (y m m' : Z) :
  1 <= m -> m < m' <= 12 -> days_before_month y m + days_in_month y m <= days_before_month y m'.
Proof.
  intros Hm Hm'. rewrite <- days_before_next_month by lia.
  assert (forall k : nat, m + 1 + Z.of_nat k <= 12 ->
    days_before_month y (m + 1) <= days_before_month y (m + 1 + Z.of_nat k)) as Hk.
  { induction k as [|k IH]; intros Hle; [by rewrite Z.add_0_r|].
    replace (m + 1 + Z.of_nat (S k)) with (m + 1 + Z.of_nat k + 1) by lia.
    rewrite (days_before_next_month y (m + 1 + Z.of_nat k)) by lia.
    pose proof (days_in_month_bound y (m + 1 + Z.of_nat k)).
    etrans; [apply IH; lia|lia]. }
  replace m' with (m + 1 + Z.of_nat (Z.to_nat (m' - m - 1))) by lia. apply Hk. lia.
Qed.

Definition leap_day (y : Z) : Z := if is_leap y then 1 else 0.

Lemma days_before_december (y : Z) : days_before_month y 12 + days_in_month y 12 = 365 + leap_day y.
Proof. unfold days_before_month, days_in_month, leap_day. simpl. destruct (is_leap y); lia. Qed.

(** Years follow each other. *)
Lemma days_before_next_year (y : Z) :
  days_before_year (y + 1) = days_before_year y + 365 + leap_day y.
Proof.
  unfold days_before_year, leap_day, is_leap.
  replace (y + 1 - 1) with y by lia.
  destruct (Z.eqb_spec (y mod 4) 0), (Z.eqb_spec (y mod 100) 0), (Z.eqb_spec (y mod 400) 0);
    cbn [andb orb negb]; Z.to_euclidean_division_equations; lia.
Qed.

Lemma days_before_year_le (y y' : Z) :
  y < y' -> days_before_year y + 365 + leap_day y <= days_before_year y'.
Proof.
  intros Hy. rewrite <- days_before_next_year.
  assert (forall k : nat, days_before_year (y + 1) <= days_before_year (y + 1 + Z.of_nat k)) as Hk.
  { induction k as [|k IH]; [by rewrite Z.add_0_r|].
    replace (y + 1 + Z.of_nat (S k)) with (y + 1 + Z.of_nat k + 1) by lia.
    rewrite (days_before_next_year (y + 1 + Z.of_nat k)).
    assert (0 <= leap_day (y + 1 + Z.of_nat k)) by (unfold leap_day; destruct (is_leap _); lia). lia. }
  replace y' with (y + 1 + Z.of_nat (Z.to_nat (y' - y - 1))) by lia. apply Hk.
Qed.

(** The day of its year a date is, from 1. *)
Definition yearday (d : date) : Z := days_before_month (year d) (month d) + day d.

Lemma yearday_bound (d : date) : calendar_ok d -> 1 <= yearday d <= 365 + leap_day (year d).
Proof.
  intros [Hm Hd]. unfold yearday. rewrite <- days_before_december.
  assert (0 <= days_before_month (year d) (month d)).
  { generalize (month d) Hm. intros m Hm'. twelve m; unfold days_before_month; destruct (is_leap (year d)); lia. }
  destruct (Z.eq_dec (month d) 12) as [E|E]; [rewrite E in *; lia|].
  pose proof (days_before_month_le (year d) (month d) 12 ltac:(lia) ltac:(lia)).
  pose proof (days_in_month_bound (year d) 12). lia.
Qed.

(** A day number has one date. *)
Lemma toordinal_inj (d d' : date) :
  calendar_ok d -> calendar_ok d' -> toordinal d = toordinal d' -> d = d'.
Proof.
  intros Hd Hd' Heq. pose proof (yearday_bound d Hd). pose proof (yearday_bound d' Hd').
  assert (Hy : year d = year d').
  { unfold toordinal in Heq. unfold yearday in *.
    destruct (Z.lt_trichotomy (year d) (year d')) as [Hlt|[?|Hlt]]; [|done|];
      pose proof (days_before_year_le _ _ Hlt); lia. }
  destruct d as [y m n], d' as [y' m' n']. simpl in *. subst y'.
  destruct Hd as [Hm Hn], Hd' as [Hm' Hn']. unfold toordinal in Heq. simpl in *.
  destruct (Z.lt_trichotomy m m') as [Hlt|[->|Hlt]].
  - pose proof (days_before_month_le y m m' ltac:(lia) ltac:(lia)). lia.
  - f_equal. lia.
  - pose proof (days_before_month_le y m' m ltac:(lia) ltac:(lia)). lia.
Qed.

Lemma find_month_spec (fuel : nat) (y m n m' n' : Z) :
  find_month fuel y m n = (m', n') -> 0 <= n -> 1 <= m -> m + Z.of_nat fuel = 12 ->
  days_before_month y m + n < 365 + leap_day y ->
  1 <= m' <= 12 /\ days_before_month y m' + n' = days_before_month y m + n /\
  0 <= n' < days_in_month y m'.
Proof.
  revert m n. induction fuel as [|fuel IH]; intros m n Hf Hn Hm Hfuel Hu; simpl in Hf.
  - injection Hf as <- <-. assert (m = 12) as -> by lia.
    pose proof (days_before_december y). lia.
  - destruct (Z.ltb_spec n (days_in_month y m)) as [Hlt|Hge].
    + injection Hf as <- <-. lia.
    + pose proof (days_before_next_month y m ltac:(lia)).
      apply IH in Hf; lia.
Qed.

Lemma leap_day_400 (y : Z) : y mod 400 = 0 -> leap_day y = 1.
Proof.
  intros Hy. unfold leap_day, is_leap.
  assert (y mod 4 = 0) as -> by (Z.to_euclidean_division_equations; lia). by rewrite Hy, orb_true_r.
Qed.

Lemma leap_day_4 (y : Z) : y mod 4 = 0 -> y mod 100 <> 0 -> leap_day y = 1.
Proof.
  intros H4 H100. unfold leap_day, is_leap. rewrite H4. by destruct (Z.eqb_spec (y mod 100) 0).
Qed.

(** The last day of a leap year. *)
Lemma december_31 (y n : Z) :
  leap_day y = 1 -> days_before_year y + 366 = n ->
  toordinal (mkDate y 12 31) = n /\ calendar_ok (mkDate y 12 31).
Proof.
  intros Hl Hn. unfold toordinal, calendar_ok. cbn [year month day].
  pose proof (days_before_december y) as H. change (days_in_month y 12) with 31 in *. lia.
Qed.

Lemma fromordinal_spec (n : Z) :
  toordinal (fromordinal n) = n /\ calendar_ok (fromordinal n).
Proof.
  unfold fromordinal.
  set (a := (n - 1) / 146097). set (r := (n - 1) mod 146097).
  set (b := r / 36524). set (s := r mod 36524). set (c := s / 1461). set (t := s mod 1461).
  set (e := t / 365). set (u := t mod 365).
  assert (Hn : n - 1 = 146097 * a + r /\ 0 <= r < 146097) by (unfold a, r; Z.to_euclidean_division_equations; lia).
  assert (Hr : r = 36524 * b + s /\ 0 <= s < 36524) by (unfold b, s; Z.to_euclidean_division_equations; lia).
  assert (Hs : s = 1461 * c + t /\ 0 <= t < 1461) by (unfold c, t; Z.to_euclidean_division_equations; lia).
  assert (Ht : t = 365 * e + u /\ 0 <= u < 365) by (unfold e, u; Z.to_euclidean_division_equations; lia).
  clearbody a r b s c t e u.
  assert (Hy : forall b c e, 0 <= b < 4 -> 0 <= c < 25 -> 0 <= e < 4 ->
    days_before_year (a * 400 + b * 100 + c * 4 + e + 1) = 146097 * a + 36524 * b + 1461 * c + 365 * e).
  { clear. intros b c e Hb Hc He. unfold days_before_year.
    replace (a * 400 + b * 100 + c * 4 + e + 1 - 1) with (a * 400 + b * 100 + c * 4 + e) by lia.
    Z.to_euclidean_division_equations. lia. }
  destruct (Z.eqb_spec e 4) as [->|He]; cbn [orb].
  { apply december_31.
    - apply leap_day_4; Z.to_euclidean_division_equations; lia.
    - replace (a * 400 + b * 100 + c * 4 + 4 + 1 - 1) with (a * 400 + b * 100 + c * 4 + 3 + 1) by lia.
      destruct (Z.eq_dec b 4) as [->|Hb]; [lia|]. rewrite Hy by lia. lia. }
  destruct (Z.eqb_spec b 4) as [->|Hb].
  { apply december_31.
    - apply leap_day_400. Z.to_euclidean_division_equations. lia.
    - replace (a * 400 + 4 * 100 + c * 4 + e + 1 - 1) with (a * 400 + 3 * 100 + 24 * 4 + 3 + 1) by lia.
      rewrite Hy by lia. lia. }
  set (y := a * 400 + b * 100 + c * 4 + e + 1).
  destruct (find_month 11 y 1 u) as [m v] eqn:Em.
  assert (0 <= leap_day y) by (unfold leap_day; destruct (is_leap _); lia).
  apply find_month_spec in Em; [|lia|lia|lia|change (days_before_month y 1) with 0; lia].
  change (days_before_month y 1) with 0 in Em. unfold toordinal, calendar_ok.
  cbn [year month day].
  specialize (Hy b c e ltac:(lia) ltac:(lia) ltac:(lia)). fold y in Hy. lia.
Qed.

Lemma toordinal_fromordinal (n : Z) : toordinal (fromordinal n) = n.
Proof. apply fromordinal_spec. Qed.

Lemma fromordinal_toordinal (d : date) : calendar_ok d -> fromordinal (toordinal d) = d.
Proof.
  intros Hd. apply toordinal_inj; [apply fromordinal_spec|done|apply toordinal_fromordinal].
Qed.
