(* ===== verification/Text.v ===== *)
(** * Text

    [str.split()] and [str.split("..")] beside the Prelude's [str.split(c)],
    the laws of splitting and joining, texts in lower case, and words. *)
From Stdlib Require Import ZArith Lia Ascii String Permutation Sorted.
From stdpp Require Import base list strings.
From S2P Require Import Prelude.

(** ** The language's splits *)

(** [s.split()]: the words of a text, [cur] is the word being read. *)
Fixpoint split_ws_from (cur s : string) : list string :=
  match s with
  | EmptyString => if is_empty cur then [] else [cur]
  | String c s' =>
      if is_space c
      then if is_empty cur then split_ws_from "" s' else cur :: split_ws_from "" s'
      else split_ws_from (cur +:+ String c "") s'
  end.

Definition split_ws (s : string) : list string := split_ws_from "" s.

(** [c + s.split(..)[0]], the pieces behind it kept. *)
Definition push_char (c : ascii) (l : list string) : list string :=
  match l with [] => [String c ""] | x :: l' => String c x :: l' end.

(** [s.split("..")] *)
Fixpoint split_dots (s : string) : list string :=
  match s with
  | EmptyString => [""]
  | String c s' =>
      match s' with
      | String c' s2 =>
          if (Ascii.eqb c "." && Ascii.eqb c' ".")%bool then "" :: split_dots s2
          else push_char c (split_dots s')
      | EmptyString => [String c ""]
      end
  end.

(** ** Splitting and joining *)

Definition no_char (c0 c : ascii) : bool := negb (Ascii.eqb c c0).

Lemma split_nonempty (c : ascii) (s : string) : split c s <> [].
Proof. destruct s as [|a s]; simpl; [done|]. destruct (Ascii.eqb a c); [done|]. by destruct (split c s). Qed.

Lemma join_push (sep : string) (a : ascii) (x : string) (l : list string) :
  join sep (String a x :: l) = String a (join sep (x :: l)).
Proof. by destruct l. Qed.

Lemma join_split (c : ascii) (s : string) : join (String c "") (split c s) = s.
Proof.
  induction s as [|a s IH]; simpl; [done|].
  destruct (Ascii.eqb_spec a c) as [->|_].
  - destruct (split c s) as [|x l] eqn:E; [by apply split_nonempty in E|].
    change (String c (join (String c "") (x :: l)) = String c s). by rewrite IH.
  - destruct (split c s) as [|x l] eqn:E; [by apply split_nonempty in E|].
    by rewrite join_push, IH.
Qed.

Lemma split_none (c : ascii) (s : string) : all_chars (no_char c) s = true -> split c s = [s].
Proof.
  induction s as [|a s IH]; simpl; [done|]. unfold no_char at 1. intros [Ha Hs]%andb_true_iff.
  apply negb_true_iff in Ha. by rewrite Ha, (IH Hs).
Qed.

Lemma split_app (c : ascii) (s t : string) :
  all_chars (no_char c) s = true -> split c (s +:+ String c t) = s :: split c t.
Proof.
  induction s as [|a s IH]; simpl; [by rewrite Ascii.eqb_refl|].
  unfold no_char at 1. intros [Ha Hs]%andb_true_iff. apply negb_true_iff in Ha.
  by rewrite Ha, (IH Hs).
Qed.

Lemma split_join (c : ascii) (l : list string) :
  l <> [] -> Forall (fun s => all_chars (no_char c) s = true) l ->
  split c (join (String c "") l) = l.
Proof.
  intros Hl Hf. induction Hf as [|x l Hx Hf IH]; [done|].
  destruct l as [|y l]; [by apply split_none|].
  change (join (String c "") (x :: y :: l)) with (x +:+ String c (join (String c "") (y :: l))).
  by rewrite split_app, IH.
Qed.

Lemma split_chars (c : ascii) (s : string) : Forall (fun x => all_chars (no_char c) x = true) (split c s).
Proof.
  induction s as [|a s IH]; simpl; [by repeat constructor|].
  destruct (Ascii.eqb a c) eqn:E; [by constructor|].
  destruct (split c s) as [|x l]; [constructor; [|constructor]|inversion IH; subst; constructor; [|done]];
    simpl; unfold no_char at 1; by rewrite E.
Qed.

Lemma split_dots_nonempty (s : string) : split_dots s <> [].
Proof.
  destruct s as [|a [|b s]]; simpl; [done..|]. destruct (_ && _)%bool; [done|].
  unfold push_char. by destruct (match s with "" => _ | _ => _ end).
Qed.

Lemma split_dots_cons (a : ascii) (s : string) :
  a <> "."%char -> split_dots (String a s) = push_char a (split_dots s).
Proof.
  intros Ha. destruct s as [|b s]; [done|]. cbn [split_dots].
  by rewrite (proj2 (Ascii.eqb_neq _ _) Ha).
Qed.

(** Induction over a text two characters at a time. *)
Lemma string_ind2 (P : string -> Prop) :
  P "" -> (forall a, P (String a "")) ->
  (forall a b s, P s -> P (String b s) -> P (String a (String b s))) -> forall s, P s.
Proof.
  intros H0 H1 H2. assert (forall s, P s /\ forall a, P (String a s)) as H; [|intros s; apply H].
  induction s as [|b s [IH IHb]]; [done|]. split; [done|]. intros a. apply H2; [done|apply IHb].
Qed.

Lemma split_dots_step (a b : ascii) (s : string) :
  split_dots (String a (String b s)) =
  if (Ascii.eqb a "." && Ascii.eqb b ".")%bool then "" :: split_dots s
  else push_char a (split_dots (String b s)).
Proof. done. Qed.

Lemma join_split_dots (s : string) : join ".." (split_dots s) = s.
Proof.
  induction s as [|a|a b s IH IHb] using string_ind2; [done..|].
  rewrite split_dots_step.
  destruct (Ascii.eqb_spec a "."), (Ascii.eqb_spec b "."); cbn [andb]; subst.
  1: { destruct (split_dots s) as [|x l] eqn:E; [by apply split_dots_nonempty in E|].
       change (String "." (String "." (join ".." (x :: l))) = String "." (String "." s)). by rewrite IH. }
  all: destruct (split_dots (String _ s)) as [|x l] eqn:E;
    [by apply split_dots_nonempty in E|]; unfold push_char; by rewrite join_push, IHb.
Qed.

Abbreviation dotless := (all_chars (no_char ".")).

Lemma split_dots_none (s : string) : dotless s = true -> split_dots s = [s].
Proof.
  induction s as [|a s IH]; [done|]. cbn [all_chars]. unfold no_char at 1.
  intros [Ha%negb_true_iff%Ascii.eqb_neq Hs]%andb_true_iff.
  by rewrite split_dots_cons, IH.
Qed.

Lemma split_dots_app (s t : string) :
  dotless s = true -> split_dots (s +:+ ".." +:+ t) = s :: split_dots t.
Proof.
  induction s as [|a s IH]; [done|]. cbn [all_chars]. unfold no_char at 1.
  intros [Ha%negb_true_iff%Ascii.eqb_neq Hs]%andb_true_iff.
  change (String a s +:+ ".." +:+ t) with (String a (s +:+ ".." +:+ t)).
  by rewrite split_dots_cons, IH.
Qed.

Lemma contains_dots (s t : string) : contains ".." (s +:+ ".." +:+ t) = true.
Proof.
  induction s as [|a s IH]; [done|].
  change ((startswith ".." (String a (s +:+ ".." +:+ t)) || contains ".." (s +:+ ".." +:+ t))%bool = true).
  by rewrite IH, orb_true_r.
Qed.

Lemma contains_dots_none (s : string) : dotless s = true -> contains ".." s = false.
Proof.
  induction s as [|a s IH]; [done|]. cbn [all_chars]. unfold no_char at 1.
  intros [Ha%negb_true_iff%Ascii.eqb_neq Hs]%andb_true_iff.
  change ((startswith ".." (String a s) || contains ".." s)%bool = false).
  rewrite (IH Hs), orb_false_r. cbn [startswith].
  by destruct (Ascii.eqb_spec "." a) as [<-|].
Qed.

(** ** Case *)

Lemma lower_char_eq (c a : ascii) :
  c ∈ ["."; ","; "-"]%char -> Ascii.eqb (lower_char a) c = Ascii.eqb a c.
Proof.
  rewrite !elem_of_cons, elem_of_nil. intros [->|[->|[->|[]]]];
    destruct a as [[] [] [] [] [] [] [] []]; reflexivity.
Qed.

Lemma lower_app (s t : string) : lower (s +:+ t) = lower s +:+ lower t.
Proof.
  induction s as [|a s IH]; [done|].
  change (String (lower_char a) (lower (s +:+ t)) = String (lower_char a) (lower s +:+ lower t)).
  by rewrite IH.
Qed.

Lemma split_lower (c : ascii) (s : string) :
  c ∈ ["."; ","; "-"]%char -> split c (lower s) = List.map lower (split c s).
Proof.
  intros Hc. induction s as [|a s IH]; [done|]. simpl. rewrite lower_char_eq by done.
  destruct (Ascii.eqb a c); simpl; [by rewrite IH|]. rewrite IH. by destruct (split c s).
Qed.

Lemma push_char_lower (a : ascii) (l : list string) :
  push_char (lower_char a) (List.map lower l) = List.map lower (push_char a l).
Proof. by destruct l. Qed.

Lemma split_dots_lower (s : string) : split_dots (lower s) = List.map lower (split_dots s).
Proof.
  induction s as [|a|a b s IH IHb] using string_ind2; [done..|].
  change (lower (String a (String b s))) with (String (lower_char a) (String (lower_char b) (lower s))).
  rewrite !split_dots_step, !lower_char_eq by (rewrite !elem_of_cons; tauto).
  destruct (_ && _)%bool; [cbn [List.map]; by rewrite IH|].
  change (String (lower_char b) (lower s)) with (lower (String b s)).
  by rewrite IHb, push_char_lower.
Qed.

Lemma contains_dots_lower (s : string) : contains ".." (lower s) = contains ".." s.
Proof.
  induction s as [|a s IH]; [done|].
  change ((startswith ".." (lower (String a s)) || contains ".." (lower s))%bool =
          (startswith ".." (String a s) || contains ".." s)%bool).
  rewrite IH. f_equal. destruct s as [|b s]; cbn [lower startswith];
    rewrite !(Ascii.eqb_sym "."), !lower_char_eq by (rewrite !elem_of_cons; tauto); done.
Qed.

Lemma all_chars_lower (P : ascii -> bool) (s : string) :
  all_chars P (lower s) = all_chars (fun c => P (lower_char c)) s.
Proof. induction s as [|a s IH]; [done|]. cbn [lower all_chars]. by rewrite IH. Qed.

(** A text whose characters avoid a separator keeps doing so in lower case. *)
Lemma no_char_lower (c : ascii) (s : string) :
  c ∈ ["."; ","; "-"]%char -> all_chars (no_char c) (lower s) = all_chars (no_char c) s.
Proof.
  intros Hc. rewrite all_chars_lower. unfold no_char.
  induction s as [|a s IH]; [done|]. cbn [all_chars]. by rewrite IH, lower_char_eq.
Qed.

Ltac all_ascii := let c := fresh in intros c; destruct c as [[] [] [] [] [] [] [] []]; done.

Lemma all_chars_join (P : ascii -> bool) (sep : string) (l : list string) :
  all_chars P sep = true -> Forall (fun s => all_chars P s = true) l -> all_chars P (join sep l) = true.
Proof.
  intros Hsep Hl. induction Hl as [|x l Hx Hl IH]; [done|]. destruct l as [|y l]; [done|].
  change (join sep (x :: y :: l)) with (x +:+ sep +:+ join sep (y :: l)).
  by rewrite !all_chars_app, Hx, Hsep, IH.
Qed.

(** ** Words *)

Definition spaceless (s : string) : bool := all_chars (fun c => negb (is_space c)) s.
Definition word (s : string) : bool := (nonempty s && spaceless s)%bool.

Lemma app_cons_string (a : ascii) (s t : string) : String a s +:+ t = String a (s +:+ t).
Proof. done. Qed.

Lemma app_assoc_string (s t u : string) : (s +:+ t) +:+ u = s +:+ t +:+ u.
Proof. induction s as [|a s IH]; [done|]. by rewrite !app_cons_string, IH. Qed.

Lemma split_ws_word (w cur s : string) :
  spaceless w = true -> split_ws_from cur (w +:+ s) = split_ws_from (cur +:+ w) s.
Proof.
  revert cur. induction w as [|a w IH]; intros cur; [by rewrite app_empty_r|].
  unfold spaceless. cbn [all_chars]. intros [Ha%negb_true_iff Hw]%andb_true_iff.
  rewrite app_cons_string. cbn [split_ws_from]. rewrite Ha, IH, app_assoc_string by done. done.
Qed.

Lemma split_ws_join (ws : list string) :
  Forall (fun w => word w = true) ws -> split_ws (join " " ws) = ws.
Proof.
  unfold split_ws. induction 1 as [|w ws Hw Hws IH]; [done|].
  unfold word in Hw. apply andb_true_iff in Hw as [Hn Hs]. unfold nonempty in Hn. apply negb_true_iff in Hn.
  destruct ws as [|v ws].
  - cbn [join]. rewrite <- (app_empty_r w) at 1. rewrite split_ws_word by done. cbn [split_ws_from].
    change ("" +:+ w) with w. by rewrite Hn.
  - change (join " " (w :: v :: ws)) with (w +:+ String " " (join " " (v :: ws))).
    rewrite split_ws_word by done. cbn [split_ws_from]. change (is_space " ") with true.
    change ("" +:+ w) with w. rewrite Hn. by f_equal.
Qed.

Lemma rstrip_app (s t : string) : rstrip t = t -> nonempty t = true -> rstrip (s +:+ t) = s +:+ t.
Proof.
  intros Ht Hn. induction s as [|a s IH]; [done|]. rewrite app_cons_string. cbn [rstrip]. rewrite IH.
  destruct (s +:+ t) eqn:E; [|done]. by destruct s, t.
Qed.

Lemma strip_join (ws : list string) :
  ws <> [] -> Forall (fun w => word w = true) ws -> strip (join " " ws) = join " " ws.
Proof.
  intros Hne Hws. assert (Hl : lstrip (join " " ws) = join " " ws).
  { destruct Hws as [|w ws Hw Hws]; [done|]. unfold word, spaceless in Hw.
    apply andb_true_iff in Hw as [Hn Hs]. destruct w as [|a w]; [done|]. rewrite join_push.
    cbn [all_chars] in Hs. apply andb_true_iff in Hs as [Ha%negb_true_iff _]. cbn [lstrip]. by rewrite Ha. }
  unfold strip. rewrite <- Hl at 2. f_equal. clear Hl.
  induction Hws as [|w ws Hw Hws IH]; [done|]. unfold word in Hw. apply andb_true_iff in Hw as [Hn Hs].
  destruct ws as [|v ws]; [by apply rstrip_id|].
  change (join " " (w :: v :: ws)) with (w +:+ " " +:+ join " " (v :: ws)).
  rewrite <- app_assoc_string. apply rstrip_app; [by apply IH|].
  inversion Hws as [|? ? Hv _]; subst. unfold word in Hv. apply andb_true_iff in Hv as [Hv _].
  destruct v; [done|]. by rewrite join_push.
Qed.

(** ** Keys *)

Lemma dget_some_key {V} (k : string) (v : V) (d : dict V) : dget k d = Some v -> k ∈ dkeys d.
Proof.
  intros H. destruct (decide (k ∈ dkeys d)) as [|Hn]; [done|]. apply dget_none in Hn. congruence.
Qed.

Lemma dmem_key {V} (k : string) (d : dict V) : dmem k d = true <-> k ∈ dkeys d.
Proof.
  unfold dmem. destruct (dget k d) eqn:E; [split; [by intros; eapply dget_some_key|done]|].
  apply dget_none in E. naive_solver.
Qed.

Lemma dmem_some {V} (k : string) (v : V) (d : dict V) : dget k d = Some v -> dmem k d = true.
Proof. unfold dmem. by intros ->. Qed.

Lemma lower_key_spaceless {V} (d : dict V) (t : string) (v : V) :
  Forall (fun k => spaceless k = true) (dkeys d) -> dget (lower t) d = Some v -> spaceless t = true.
Proof.
  intros Hall H%dget_some_key. rewrite Forall_forall in Hall. specialize (Hall _ H). unfold spaceless in *.
  rewrite all_chars_lower in Hall. revert Hall. apply all_chars_impl. all_ascii.
Qed.

(** ** [sorted(l, key=...)] with texts as keys *)

Section SortText.
Context {A : Type} (key : A -> string).

Fixpoint insert_text_by (x : A) (l : list A) : list A :=
  match l with
  | [] => [x]
  | y :: l' => if String.leb (key x) (key y) then x :: l else y :: insert_text_by x l'
  end.

Definition sort_text_by (l : list A) : list A := foldr insert_text_by [] l.

Definition text_le (x y : A) : Prop := String.le (key x) (key y).

Lemma insert_text_by_perm (x : A) (l : list A) : Permutation (insert_text_by x l) (x :: l).
Proof.
  induction l as [|y l IH]; simpl; [done|]. destruct (String.leb _ _); [done|].
  rewrite IH. by constructor.
Qed.

Lemma sort_text_by_perm (l : list A) : Permutation (sort_text_by l) l.
Proof. induction l as [|x l IH]; simpl; [done|]. rewrite insert_text_by_perm. by constructor. Qed.

Lemma insert_text_by_sorted (x : A) (l : list A) :
  StronglySorted text_le l -> StronglySorted text_le (insert_text_by x l).
Proof.
  induction 1 as [|y l Hs IH Hall]; simpl; [by repeat constructor|].
  destruct (String.leb (key x) (key y)) eqn:E.
  - constructor; [by constructor|]. assert (text_le x y) by (unfold text_le, String.le; by rewrite E).
    constructor; [done|]. eapply Forall_impl; [exact Hall|]. intros z Hz. unfold text_le in *. by etrans.
  - constructor; [done|]. rewrite insert_text_by_perm. constructor; [|done].
    unfold text_le, String.le. destruct (String.leb_total (key x) (key y)) as [Hxy| ->]; [congruence|done].
Qed.

Lemma sort_text_by_sorted (l : list A) : StronglySorted text_le (sort_text_by l).
Proof. induction l; simpl; [constructor|by apply insert_text_by_sorted]. Qed.

End SortText.

(** The first result of a loop that returns from its body. *)
Fixpoint list_find_map {A B} (f : A -> option B) (l : list A) : option B :=
  match l with
  | [] => None
  | x :: l' => match f x with Some b => Some b | None => list_find_map f l' end
  end.
