(* ===== verification/PveCalendar.v ===== *)
(** * The calendar events of Proxmox schedules

    services/pve_calendar_event.py: a defensive parser for the schedules of
    backup and replication jobs.  A text the parser does not know becomes an
    approximate schedule, which matches every day; the others select days by
    weekday, year, month and day of the month.  The grammar of the accepted
    texts is stated below as relations on text, and the parser is proved to
    accept exactly that grammar. *)
From Stdlib Require Import ZArith Lia Ascii String.
From stdpp Require Import base list gmap strings.
From S2P Require Import Prelude Dates Text.

(** ** Data *)

Definition MAX_SCHEDULE_LENGTH : nat := 1024.

Definition WEEKDAYS : dict Z :=
  [("mon", 0); ("monday", 0); ("tue", 1); ("tuesday", 1); ("wed", 2); ("wednesday", 2);
   ("thu", 3); ("thursday", 3); ("fri", 4); ("friday", 4); ("sat", 5); ("saturday", 5);
   ("sun", 6); ("sunday", 6)].

(** [tuple[int, int] | frozenset[int]]; [None] is an [option] around it. *)
Inductive date_part :=
| Between (lo hi : Z)
| Among (l : gset Z).

Abbreviation DatePart := (option date_part).

Definition ALIASES : dict (option (gset Z) * DatePart * DatePart * DatePart) :=
  [("minutely", (None, None, None, None));
   ("hourly", (None, None, None, None));
   ("daily", (None, None, None, None));
   ("weekly", (Some {[0]}, None, None, None));
   ("monthly", (None, None, None, Some (Between 1 1)));
   ("yearly", (None, None, Some (Between 1 1), Some (Between 1 1)));
   ("annually", (None, None, Some (Between 1 1), Some (Between 1 1)));
   ("quarterly", (None, None, Some (Among {[1; 4; 7; 10]}), Some (Between 1 1)));
   ("semiannually", (None, None, Some (Among {[1; 7]}), Some (Between 1 1)))].

Record ParsedSchedule := mkParsed {
  weekdays : option (gset Z);
  years : DatePart;
  months : DatePart;
  days : DatePart;
  time_text : string;
  approximate : bool;
  raw : string
}.

Definition part_matches (part : DatePart) (value : Z) : bool :=
  match part with
  | None => true
  | Some (Among l) => bool_decide (value ∈ l)
  | Some (Between lo hi) => ((lo <=? value) && (value <=? hi))%bool
  end.

(** [ParsedSchedule.matches] *)
Definition matches (p : ParsedSchedule) (candidate : date) : bool :=
  if approximate p then true
  else ((match weekdays p with
         | None => true
         | Some l => bool_decide (weekday candidate ∈ l)
         end)
        && part_matches (years p) (year candidate)
        && part_matches (months p) (month candidate)
        && part_matches (days p) (day candidate))%bool.

Definition unparsed (r : string) : ParsedSchedule := mkParsed None None None None r true r.

(** ** Parsing *)

(** [set(range(start, stop))] *)
Definition zrange (start stop : Z) : gset Z := list_to_set (seqZ start (stop - start)).

Definition weekday_range (start stop : Z) : gset Z :=
  if start <=? stop then zrange start (stop + 1) else zrange start 7 ∪ zrange 0 (stop + 1).

(** One item of a weekday list. *)
Definition weekday_item (item : string) : option (gset Z) :=
  if negb (contains ".." item) then
    match dget item WEEKDAYS with None => None | Some d => Some {[d]} end
  else
    match split_dots item with
    | [a; b] =>
        match dget a WEEKDAYS, dget b WEEKDAYS with
        | Some x, Some y => Some (weekday_range x y)
        | _, _ => None
        end
    | _ => None
    end.

Fixpoint parse_weekday_items (selected : gset Z) (items : list string) : option (gset Z) :=
  match items with
  | [] => if decide (selected = ∅) then None else Some selected
  | item :: items' =>
      match weekday_item item with
      | None => None
      | Some l => parse_weekday_items (selected ∪ l) items'
      end
  end.

Definition parse_weekdays (value : string) : option (gset Z) :=
  parse_weekday_items ∅ (split "," (lower value)).

(** [_INTEGER.fullmatch(value)] *)
Definition is_integer (value : string) : bool := (nonempty value && all_chars is_digit value)%bool.

(** [int(value)] of a text of digits *)
Definition int_value (value : string) : Z := default 0 (int_of_string value).

Definition bounded_integer (value : string) (minimum maximum : Z) : option Z :=
  if is_integer value then
    let parsed := int_value value in
    if ((minimum <=? parsed) && (parsed <=? maximum))%bool then Some parsed else None
  else None.

(** [False] is the outer [None]. *)
Definition parse_date_part (value : string) (minimum maximum : Z) : option DatePart :=
  if String.eqb value "*" then Some None
  else if contains ".." value then
    match split_dots value with
    | [a; b] =>
        match bounded_integer a minimum maximum, bounded_integer b minimum maximum with
        | Some x, Some y => if y <? x then None else Some (Some (Between x y))
        | _, _ => None
        end
    | _ => None
    end
  else match bounded_integer value minimum maximum with
       | Some x => Some (Some (Between x x))
       | None => None
       end.

(** [\s] of an ASCII pattern *)
Definition regex_space (c : ascii) : bool :=
  let n := nat_of_ascii c in (Nat.eqb n 32 || (Nat.leb 9 n && Nat.leb n 13))%bool.

(** A group [([^\s-]+)] of [_DATE] between the dashes. *)
Definition date_group (s : string) : bool :=
  (nonempty s && all_chars (fun c => negb (regex_space c)) s)%bool.

Definition parse_date (value : string) : option (DatePart * DatePart * DatePart) :=
  match split "-" value with
  | [y; m; d] =>
      if (date_group y && date_group m && date_group d)%bool then
        match parse_date_part y 1 9999, parse_date_part m 1 12, parse_date_part d 1 31 with
        | Some py, Some pm, Some pd => Some (py, pm, pd)
        | _, _, _ => None
        end
      else None
  | _ => None
  end.

Definition valid_clock_atom (value : string) (maximum : Z) : bool :=
  if String.eqb value "*" then true
  else match split_dots value with
       | [a] => match bounded_integer a 0 maximum with Some _ => true | None => false end
       | [a; b] =>
           match bounded_integer a 0 maximum, bounded_integer b 0 maximum with
           | Some x, Some y => x <=? y
           | _, _ => false
           end
       | _ => false
       end.

Definition valid_repetition (parts : list string) : bool :=
  match parts with
  | [_; n] => (is_integer n && (0 <? int_value n))%bool
  | _ => true
  end.

Definition valid_clock_component (value : string) (maximum : Z) : bool :=
  match split "/" value with
  | [] => false
  | base :: rest =>
      if (Nat.ltb 2 (List.length (base :: rest)) || negb (valid_repetition (base :: rest)))%bool
      then false
      else forallb (fun item => valid_clock_atom item maximum) (split "," base)
  end.

Definition valid_time (value : string) : bool :=
  match split ":" value with
  | [_] => valid_clock_component value (if startswith "*/" value then 59 else 23)
  | [h; m] => (valid_clock_component h 23 && valid_clock_component m 59)%bool
  | [h; m; s] =>
      (valid_clock_component h 23 && (valid_clock_component m 59 && valid_clock_component s 59))%bool
  | _ => false
  end.

Definition from_alias (alias time r : string) : option ParsedSchedule :=
  match dget alias ALIASES with
  | Some (w, y, m, d) => Some (mkParsed w y m d time false r)
  | None => None
  end.

Definition parse_single_token (token r : string) : option ParsedSchedule :=
  match parse_weekdays token with
  | Some w => Some (mkParsed (Some w) None None None "00:00" false r)
  | None =>
      match parse_date token with
      | Some (y, m, d) => Some (mkParsed None y m d "00:00" false r)
      | None => None
      end
  end.

Definition parse_explicit_tokens (tokens : list string) (r : string) : option ParsedSchedule :=
  match tokens with
  | [t] => parse_single_token t r
  | [t; time] =>
      if negb (valid_time time) then None
      else match parse_weekdays t with
           | Some w => Some (mkParsed (Some w) None None None time false r)
           | None =>
               match parse_date t with
               | Some (y, m, d) => Some (mkParsed None y m d time false r)
               | None => None
               end
           end
  | [w; t; time] =>
      match parse_weekdays w with
      | None => None
      | Some ws =>
          if negb (valid_time time) then None
          else match parse_date t with
               | Some (y, m, d) => Some (mkParsed (Some ws) y m d time false r)
               | None => None
               end
      end
  | _ => None
  end.

Definition parse_tokens (tokens : list string) (r : string) : option ParsedSchedule :=
  match tokens with
  | [] => None
  | token :: rest =>
      let first := lower token in
      match rest with
      | [] =>
          if dmem first ALIASES then from_alias first first r
          else if valid_time token then Some (mkParsed None None None None token false r)
          else parse_explicit_tokens tokens r
      | [time] =>
          if dmem first ALIASES then
            if valid_time time then from_alias first time r else None
          else parse_explicit_tokens tokens r
      | _ => parse_explicit_tokens tokens r
      end
  end.

(** [parse]: a text; other values have no text and are [unparsed ""]. *)
Definition parse (schedule : string) : ParsedSchedule :=
  let r := strip schedule in
  if (is_empty r || Nat.ltb MAX_SCHEDULE_LENGTH (String.length r))%bool then unparsed r
  else match parse_tokens (split_ws r) r with
       | Some p => p
       | None => unparsed r
       end.

(** ** The grammar of schedules

    Relations between text and meaning, with no reference to the parser. *)

Section Grammar.

Definition day_name (t : string) (d : Z) : Prop := dget (lower t) WEEKDAYS = Some d.

(** [mon] or [mon..fri] *)
Inductive day_item : string -> gset Z -> Prop :=
| DayOne t d : day_name t d -> day_item t {[d]}
| DaySpan a b x y : day_name a x -> day_name b y -> day_item (a +:+ ".." +:+ b) (weekday_range x y).

(** Items separated by commas select the days any of them selects. *)
Inductive day_list : string -> gset Z -> Prop :=
| DayList items sets :
    items <> [] -> Forall2 day_item items sets -> day_list (join "," items) (⋃ sets).

Definition number (lo hi : Z) (t : string) (n : Z) : Prop :=
  is_integer t = true /\ int_value t = n /\ lo <= n <= hi.

(** [*], a number or a range of numbers *)
Inductive part_text (lo hi : Z) : string -> DatePart -> Prop :=
| PartAny : part_text lo hi "*" None
| PartOne t n : number lo hi t n -> part_text lo hi t (Some (Between n n))
| PartSpan a b x y : number lo hi a x -> number lo hi b y -> x <= y ->
    part_text lo hi (a +:+ ".." +:+ b) (Some (Between x y)).

(** Year, month and day *)
Inductive date_text : string -> DatePart * DatePart * DatePart -> Prop :=
| DateText y m d py pm pd :
    part_text 1 9999 y py -> part_text 1 12 m pm -> part_text 1 31 d pd ->
    date_text (join "-" [y; m; d]) (py, pm, pd).

Inductive atom_text (hi : Z) : string -> Prop :=
| AtomAny : atom_text hi "*"
| AtomOne t n : number 0 hi t n -> atom_text hi t
| AtomSpan a b x y : number 0 hi a x -> number 0 hi b y -> x <= y -> atom_text hi (a +:+ ".." +:+ b).

(** Atoms separated by commas, and a step *)
Inductive clock_text (hi : Z) : string -> Prop :=
| Clock items : items <> [] -> Forall (atom_text hi) items -> clock_text hi (join "," items)
| ClockStep items n :
    items <> [] -> Forall (atom_text hi) items -> is_integer n = true -> 0 < int_value n ->
    clock_text hi (join "/" [join "," items; n]).

(** Hours, with minutes, with seconds *)
Inductive time_of_day : string -> Prop :=
| TimeH h : clock_text 23 h -> time_of_day h
| TimeHM h m : clock_text 23 h -> clock_text 59 m -> time_of_day (join ":" [h; m])
| TimeHMS h m s : clock_text 23 h -> clock_text 59 m -> clock_text 59 s ->
    time_of_day (join ":" [h; m; s]).

(** The words of a schedule and what they select. *)
Inductive schedule :
  list string -> option (gset Z) * DatePart * DatePart * DatePart -> string -> Prop :=
| SAlias a sel : dget (lower a) ALIASES = Some sel -> schedule [a] sel (lower a)
| SAliasAt a t sel : dget (lower a) ALIASES = Some sel -> time_of_day t -> schedule [a; t] sel t
| STime t : time_of_day t -> schedule [t] (None, None, None, None) t
| SDays w ds : day_list w ds -> schedule [w] (Some ds, None, None, None) "00:00"
| SDaysAt w ds t : day_list w ds -> time_of_day t -> schedule [w; t] (Some ds, None, None, None) t
| SDate d y m n : date_text d (y, m, n) -> schedule [d] (None, y, m, n) "00:00"
| SDateAt d y m n t : date_text d (y, m, n) -> time_of_day t -> schedule [d; t] (None, y, m, n) t
| SDaysDateAt w ds d y m n t : day_list w ds -> date_text d (y, m, n) -> time_of_day t ->
    schedule [w; d; t] (Some ds, y, m, n) t.

End Grammar.

(** ** The character classes of the words *)

Definition time_char (c : ascii) : bool :=
  (is_digit c || mem_str (String c "") ["*"; "."; ","; "/"; ":"])%bool.

Lemma is_integer_chars (t : string) : is_integer t = true -> all_chars is_digit t = true.
Proof. unfold is_integer. by intros [_ ?]%andb_true_iff. Qed.

Lemma number_chars (lo hi : Z) (t : string) (n : Z) : number lo hi t n -> all_chars is_digit t = true.
Proof. intros [H _]. by apply is_integer_chars. Qed.

(** Digits avoid every separator. *)
Lemma digits_no_char (c : ascii) (t : string) :
  is_digit c = false -> all_chars is_digit t = true -> all_chars (no_char c) t = true.
Proof.
  intros Hc. apply all_chars_impl. intros a Ha. unfold no_char.
  destruct (Ascii.eqb_spec a c) as [->|]; [congruence|done].
Qed.

Lemma digit_time_char (t : string) : all_chars is_digit t = true -> all_chars time_char t = true.
Proof. apply all_chars_impl. intros c Hc. unfold time_char. by rewrite Hc. Qed.

Create HintDb chars.
#[export] Hint Resolve number_chars is_integer_chars digit_time_char : chars.

(** The characters of a number, of [*] and of a range. *)
Definition part_char (c : ascii) : bool := (is_digit c || mem_str (String c "") ["*"; "."])%bool.

Lemma part_char_digits (u : string) : all_chars is_digit u = true -> all_chars part_char u = true.
Proof. apply all_chars_impl. unfold part_char. by intros c ->. Qed.
#[local] Hint Resolve part_char_digits : chars.

Lemma span_chars (a b : string) :
  all_chars is_digit a = true -> all_chars is_digit b = true -> all_chars part_char (a +:+ ".." +:+ b) = true.
Proof. intros Ha Hb. by rewrite !all_chars_app, (part_char_digits a), (part_char_digits b). Qed.

Lemma atom_chars (hi : Z) (t : string) :
  atom_text hi t -> all_chars part_char t = true.
Proof. intros [|u n Hu|a b x y Ha Hb _]; [done|eauto with chars|]. apply span_chars; eauto with chars. Qed.

(** A comma list of atoms avoids the slash and the colon. *)
Lemma atoms_no_char (hi : Z) (c : ascii) (items : list string) :
  c ∈ ["/"; ":"]%char -> Forall (atom_text hi) items -> all_chars (no_char c) (join "," items) = true.
Proof.
  intros Hc Hi. apply all_chars_join.
  { rewrite !elem_of_cons, elem_of_nil in Hc. by destruct Hc as [->|[->|[]]]. }
  eapply Forall_impl; [exact Hi|]. intros t Ht%atom_chars. revert Ht. apply all_chars_impl.
  rewrite !elem_of_cons, elem_of_nil in Hc. destruct Hc as [->|[->|[]]]; all_ascii.
Qed.

Lemma clock_no_colon (hi : Z) (t : string) : clock_text hi t -> all_chars (no_char ":") t = true.
Proof.
  intros [items Hn Hi|items n Hn Hi Hint _].
  - eapply atoms_no_char; [|exact Hi]. rewrite !elem_of_cons. tauto.
  - apply all_chars_join; [done|]. repeat constructor.
    + eapply atoms_no_char; [|exact Hi]. rewrite !elem_of_cons. tauto.
    + apply digits_no_char; [done|]. eauto with chars.
Qed.

Lemma clock_chars (hi : Z) (t : string) : clock_text hi t -> all_chars time_char t = true.
Proof.
  assert (Ha : forall items, Forall (atom_text hi) items -> all_chars time_char (join "," items) = true).
  { intros items Hi. apply all_chars_join; [done|]. eapply Forall_impl; [exact Hi|].
    intros u Hu%atom_chars. revert Hu. apply all_chars_impl. all_ascii. }
  intros [items Hn Hi|items n Hn Hi Hint _]; [by apply Ha|].
  apply all_chars_join; [done|]. repeat constructor; eauto with chars.
Qed.

Lemma time_chars (t : string) : time_of_day t -> all_chars time_char t = true.
Proof.
  intros Ht. destruct Ht; try (apply all_chars_join; [done|]; repeat constructor);
    by eapply clock_chars.
Qed.

(** ** The parser accepts exactly the grammar *)

Lemma bounded_integer_iff (t : string) (lo hi n : Z) :
  bounded_integer t lo hi = Some n <-> number lo hi t n.
Proof.
  unfold bounded_integer, number. destruct (is_integer t); [|naive_solver].
  destruct (Z.leb_spec lo (int_value t)), (Z.leb_spec (int_value t) hi); simpl;
    (split; [intros [=]; naive_solver lia|intros (_ & <- & ?); try lia; done]).
Qed.

Lemma day_name_dotless (t : string) (d : Z) : day_name t d -> dotless t = true.
Proof.
  unfold day_name. intros H%dget_in. rewrite <- no_char_lower by (rewrite !elem_of_cons; tauto).
  revert H. generalize (lower t). intros u Hu.
  assert (Forall (fun kv => dotless (fst kv) = true) WEEKDAYS) as Hall by (by repeat constructor).
  rewrite Forall_forall in Hall. exact (Hall _ Hu).
Qed.

Lemma number_dotless (lo hi : Z) (t : string) (n : Z) : number lo hi t n -> dotless t = true.
Proof. intros H. apply digits_no_char; eauto with chars. Qed.
#[local] Hint Resolve day_name_dotless number_dotless : chars.

Lemma split_dots_pair (a b : string) :
  dotless a = true -> dotless b = true -> split_dots (a +:+ ".." +:+ b) = [a; b].
Proof. intros Ha Hb. by rewrite split_dots_app, split_dots_none. Qed.

(** A text whose pieces are [a] and [b] is a range. *)
Lemma split_dots_two (s a b : string) : split_dots s = [a; b] -> s = a +:+ ".." +:+ b.
Proof. intros H. rewrite <- (join_split_dots s), H. done. Qed.

Lemma weekday_item_iff (t : string) (ds : gset Z) : weekday_item (lower t) = Some ds <-> day_item t ds.
Proof.
  unfold weekday_item. rewrite contains_dots_lower, split_dots_lower. split.
  - destruct (contains ".." t); cbn [negb].
    + destruct (split_dots t) as [|a [|b [|]]] eqn:E; cbn [List.map]; try done.
      apply split_dots_two in E as ->.
      destruct (dget (lower a) WEEKDAYS) eqn:Ea; [|done].
      destruct (dget (lower b) WEEKDAYS) eqn:Eb; [|done].
      intros [= <-]. by constructor.
    + destruct (dget (lower t) WEEKDAYS) eqn:Et; [|done]. intros [= <-]. by constructor.
  - intros [u d Hu|a b x y Ha Hb].
    + rewrite contains_dots_none by eauto with chars. cbn [negb]. by rewrite Hu.
    + rewrite contains_dots. cbn [negb].
      rewrite split_dots_pair by eauto with chars. cbn [List.map]. by rewrite Ha, Hb.
Qed.

Lemma day_name_bound (t : string) (d : Z) : day_name t d -> 0 <= d < 7.
Proof.
  unfold day_name. intros H%dget_in.
  assert (Forall (fun kv => 0 <= snd kv < 7) WEEKDAYS) as Hall by (repeat constructor; simpl; lia).
  rewrite Forall_forall in Hall. exact (Hall _ H).
Qed.

Lemma elem_of_zrange (x a b : Z) : x ∈ zrange a b <-> a <= x < b.
Proof. unfold zrange. rewrite elem_of_list_to_set, elem_of_seqZ. lia. Qed.

Lemma elem_of_weekday_range (x a b : Z) :
  0 <= a < 7 -> 0 <= b < 7 ->
  x ∈ weekday_range a b <-> 0 <= x < 7 /\ (if a <=? b then a <= x <= b else a <= x \/ x <= b).
Proof.
  intros Ha Hb. unfold weekday_range. destruct (Z.leb_spec a b).
  - rewrite elem_of_zrange. lia.
  - rewrite elem_of_union, !elem_of_zrange. lia.
Qed.

(** An item selects days of the week, and at least one. *)
Lemma day_item_days (t : string) (ds : gset Z) :
  day_item t ds -> (exists x, x ∈ ds) /\ (forall x, x ∈ ds -> 0 <= x < 7).
Proof.
  intros [u d Hu%day_name_bound|a b x y Ha%day_name_bound Hb%day_name_bound].
  - split; [exists d; by apply elem_of_singleton|]. by intros x ->%elem_of_singleton.
  - split; [exists x; apply elem_of_weekday_range; [done..|]; case_match; lia|].
    intros z Hz%elem_of_weekday_range; tauto.
Qed.

Lemma parse_weekday_items_iff (sel ds : gset Z) (items : list string) :
  parse_weekday_items sel (List.map lower items) = Some ds <->
  exists sets, Forall2 day_item items sets /\ ds = sel ∪ ⋃ sets /\ ds <> ∅.
Proof.
  revert sel. induction items as [|t items IH]; intros sel; simpl.
  - split.
    + case_decide; intros [= <-]. exists []. split; [constructor|].
      split; [|done]. simpl. by rewrite union_empty_r_L.
    + intros (sets & Hs & -> & Hne). inversion Hs; subst. simpl in *.
      rewrite union_empty_r_L in *. by rewrite decide_False.
  - split.
    + destruct (weekday_item (lower t)) as [l|] eqn:E; [|done].
      intros (sets & Hs & -> & Hne)%IH. exists (l :: sets). split; [constructor; [by apply weekday_item_iff|done]|].
      simpl. by rewrite union_assoc_L in *.
    + intros (sets & Hs & -> & Hne). inversion Hs as [|? l ? sets' Ht Hs']; subst.
      apply weekday_item_iff in Ht as ->. apply IH. exists sets'. split; [done|].
      simpl in *. by rewrite union_assoc_L in *.
Qed.

(** The names of weekdays are letters: they avoid every separator. *)
Lemma day_name_no_char (c : ascii) (t : string) (d : Z) :
  c ∈ ["."; ","; "-"]%char -> day_name t d -> all_chars (no_char c) t = true.
Proof.
  intros Hc H%dget_in. rewrite <- no_char_lower by done.
  revert H. generalize (lower t). intros u Hu.
  assert (Forall (fun kv => all_chars (no_char c) (fst kv) = true) WEEKDAYS) as Hall.
  { rewrite !elem_of_cons, elem_of_nil in Hc. destruct Hc as [->|[->|[->|[]]]]; by repeat constructor. }
  rewrite Forall_forall in Hall. exact (Hall _ Hu).
Qed.

Lemma day_item_no_char (c : ascii) (t : string) (ds : gset Z) :
  c ∈ [","; "-"]%char -> day_item t ds -> all_chars (no_char c) t = true.
Proof.
  intros Hc. assert (c ∈ ["."; ","; "-"]%char) by (by right).
  assert (no_char c "." = true) by (rewrite !elem_of_cons, elem_of_nil in Hc; by destruct Hc as [->|[->|[]]]).
  intros [u d Hu|a b x y Ha Hb]; [by eapply day_name_no_char|].
  rewrite !all_chars_app, (day_name_no_char c a x), (day_name_no_char c b y) by done.
  cbn [all_chars]. by rewrite H0.
Qed.

Lemma parse_weekdays_iff (t : string) (ds : gset Z) : parse_weekdays t = Some ds <-> day_list t ds.
Proof.
  unfold parse_weekdays. rewrite split_lower by (rewrite !elem_of_cons; tauto).
  rewrite parse_weekday_items_iff. setoid_rewrite union_empty_l_L. split.
  - intros (sets & Hs & -> & _). rewrite <- (join_split "," t) at 1.
    constructor; [apply split_nonempty|done].
  - intros [items sets Hne Hs]. rewrite split_join; [|done|].
    + exists sets. split; [done|]. split; [done|]. destruct Hs as [|i l items sets Hi Hs]; [done|].
      apply day_item_days in Hi as [[x Hx] _]. simpl. intros He. apply (not_elem_of_empty (C:=gset Z) x).
      rewrite <- He. apply elem_of_union. by left.
    + clear Hne. induction Hs as [|i l items sets Hi Hs IH]; constructor; [|done].
      eapply day_item_no_char; [|exact Hi]. left.
Qed.

Lemma star_or_span (lo hi : Z) (t : string) (n : Z) : number lo hi t n -> String.eqb t "*" = false.
Proof. intros H%number_chars. apply String.eqb_neq. by intros ->. Qed.

Lemma span_not_star (a b : string) : String.eqb (a +:+ ".." +:+ b) "*" = false.
Proof. apply String.eqb_neq. destruct a as [|x [|y a]]; done. Qed.

Lemma parse_date_part_iff (t : string) (lo hi : Z) (p : DatePart) :
  parse_date_part t lo hi = Some p <-> part_text lo hi t p.
Proof.
  unfold parse_date_part. split.
  - destruct (String.eqb_spec t "*") as [->|_]; [intros [= <-]; constructor|].
    destruct (contains ".." t).
    + destruct (split_dots t) as [|a [|b [|]]] eqn:E; try done. apply split_dots_two in E as ->.
      destruct (bounded_integer a lo hi) as [x|] eqn:Ea; [|done].
      destruct (bounded_integer b lo hi) as [y|] eqn:Eb; [|done].
      destruct (Z.ltb_spec y x); [done|]. intros [= <-].
      constructor; [by apply bounded_integer_iff..|lia].
    + destruct (bounded_integer t lo hi) as [x|] eqn:E; [|done]. intros [= <-].
      constructor. by apply bounded_integer_iff.
  - intros [|u n Hu|a b x y Ha Hb Hle]; [done| |].
    + rewrite (star_or_span lo hi u n), contains_dots_none by eauto with chars.
      by rewrite (proj2 (bounded_integer_iff _ _ _ _) Hu).
    + rewrite span_not_star, contains_dots, split_dots_pair by eauto with chars.
      rewrite (proj2 (bounded_integer_iff _ _ _ _) Ha), (proj2 (bounded_integer_iff _ _ _ _) Hb).
      by rewrite (proj2 (Z.ltb_ge _ _) Hle).
Qed.

Lemma part_chars (lo hi : Z) (t : string) (p : DatePart) :
  part_text lo hi t p -> all_chars part_char t = true /\ nonempty t = true.
Proof.
  intros [|u n Hu|a b x y Ha Hb _]; [done| |].
  - split; [eauto with chars|]. destruct Hu as [Hu _]. unfold is_integer in Hu.
    by apply andb_true_iff in Hu as [? _].
  - split; [apply span_chars; eauto with chars|by destruct a].
Qed.

Lemma part_date_group (lo hi : Z) (t : string) (p : DatePart) : part_text lo hi t p -> date_group t = true.
Proof.
  intros [Hc Hn]%part_chars. unfold date_group. rewrite Hn. simpl. revert Hc. apply all_chars_impl. all_ascii.
Qed.

Lemma part_no_dash (lo hi : Z) (t : string) (p : DatePart) :
  part_text lo hi t p -> all_chars (no_char "-") t = true.
Proof. intros [Hc _]%part_chars. revert Hc. apply all_chars_impl. all_ascii. Qed.

Lemma parse_date_iff (t : string) (p : DatePart * DatePart * DatePart) :
  parse_date t = Some p <-> date_text t p.
Proof.
  unfold parse_date. split.
  - destruct (split "-" t) as [|y [|m [|d [|]]]] eqn:E; try done.
    destruct (_ && _)%bool; [|done].
    destruct (parse_date_part y _ _) eqn:Ey; [|done]. destruct (parse_date_part m _ _) eqn:Em; [|done].
    destruct (parse_date_part d _ _) eqn:Ed; [|done]. intros [= <-].
    rewrite <- (join_split "-" t), E. constructor; by apply parse_date_part_iff.
  - intros [y m d py pm pd Hy Hm Hd].
    rewrite split_join; [|done|repeat constructor; by eapply part_no_dash].
    rewrite (part_date_group _ _ _ _ Hy), (part_date_group _ _ _ _ Hm), (part_date_group _ _ _ _ Hd).
    apply parse_date_part_iff in Hy, Hm, Hd. simpl. by rewrite Hy, Hm, Hd.
Qed.

Lemma valid_clock_atom_iff (t : string) (hi : Z) : valid_clock_atom t hi = true <-> atom_text hi t.
Proof.
  unfold valid_clock_atom. split.
  - destruct (String.eqb_spec t "*") as [->|_]; [constructor|].
    pose proof (join_split_dots t) as Hj.
    destruct (split_dots t) as [|a [|b [|]]] eqn:E; try done.
    + simpl in Hj. subst a. destruct (bounded_integer t 0 hi) eqn:Ea; [|done].
      intros _. econstructor. by apply bounded_integer_iff.
    + rewrite <- Hj. destruct (bounded_integer a 0 hi) eqn:Ea; [|done].
      destruct (bounded_integer b 0 hi) eqn:Eb; [|done]. intros Hle%Z.leb_le.
      eapply AtomSpan; [by apply bounded_integer_iff..|done].
  - intros [|u n Hu|a b x y Ha Hb Hle]; [done| |].
    + rewrite (star_or_span 0 hi u n), split_dots_none by eauto with chars.
      by rewrite (proj2 (bounded_integer_iff _ _ _ _) Hu).
    + rewrite span_not_star, split_dots_pair by eauto with chars.
      rewrite (proj2 (bounded_integer_iff _ _ _ _) Ha), (proj2 (bounded_integer_iff _ _ _ _) Hb).
      by apply Z.leb_le.
Qed.

Lemma atoms_iff (t : string) (hi : Z) :
  forallb (fun item => valid_clock_atom item hi) (split "," t) = true <->
  exists items, items <> [] /\ Forall (atom_text hi) items /\ t = join "," items.
Proof.
  split.
  - intros H. exists (split "," t). split; [apply split_nonempty|]. split; [|by rewrite join_split].
    rewrite Forall_forall. rewrite forallb_forall in H. intros x Hx%list_elem_of_In.
    by apply valid_clock_atom_iff, H.
  - intros (items & Hne & Hi & ->). rewrite split_join; [|done|].
    + rewrite forallb_forall. intros x Hx%list_elem_of_In. rewrite Forall_forall in Hi.
      by apply valid_clock_atom_iff, Hi.
    + eapply Forall_impl; [exact Hi|]. intros x Hx%atom_chars. revert Hx. apply all_chars_impl. all_ascii.
Qed.

Lemma valid_clock_component_iff (t : string) (hi : Z) :
  valid_clock_component t hi = true <-> clock_text hi t.
Proof.
  unfold valid_clock_component. split.
  - pose proof (join_split "/" t) as Hj.
    destruct (split "/" t) as [|base [|n [|]]]; simpl in Hj |- *; try done.
    + rewrite <- Hj. intros (items & Hne & Hi & ->)%atoms_iff. by constructor.
    + destruct (is_integer n) eqn:Hn; simpl; [|done]. destruct (Z.ltb_spec 0 (int_value n)); [|done].
      intros (items & Hne & Hi & ->)%atoms_iff. rewrite <- Hj.
      change (clock_text hi (join "/" [join "," items; n])). by constructor.
  - intros [items Hne Hi|items n Hne Hi Hn Hpos].
    + rewrite split_none by (eapply atoms_no_char; [left|exact Hi]). simpl. apply atoms_iff. eauto.
    + rewrite split_join; [|done|repeat constructor].
      * simpl. rewrite Hn, (proj2 (Z.ltb_lt _ _) Hpos). simpl. apply atoms_iff. eauto.
      * eapply atoms_no_char; [left|exact Hi].
      * apply digits_no_char; eauto with chars.
Qed.

(** The limit of 59 for a step over all hours, ["*/n"], is never used. *)
Lemma clock_step_limit (t : string) (hi hi' : Z) :
  startswith "*/" t = true -> clock_text hi t -> clock_text hi' t.
Proof.
  intros Ht H. apply valid_clock_component_iff. apply valid_clock_component_iff in H. revert H.
  destruct t as [|a [|b t]]; try done.
  { cbn [startswith] in Ht. by rewrite andb_false_r in Ht. }
  cbn [startswith] in Ht. apply andb_true_iff in Ht as [<-%Ascii.eqb_eq Hb]. rewrite andb_true_r in Hb.
  apply Ascii.eqb_eq in Hb as <-. unfold valid_clock_component.
  change (split "/" (String "*" (String "/" t))) with ("*" :: split "/" t). done.
Qed.

Lemma valid_time_iff (t : string) : valid_time t = true <-> time_of_day t.
Proof.
  unfold valid_time. split.
  - pose proof (join_split ":" t) as Hj.
    destruct (split ":" t) as [|h [|m [|s [|]]]]; try done.
    + intros H%valid_clock_component_iff. constructor.
      destruct (startswith "*/" t) eqn:E; [by eapply clock_step_limit|done].
    + rewrite andb_true_iff, !valid_clock_component_iff, <- Hj. intros [? ?]. by constructor.
    + rewrite !andb_true_iff, !valid_clock_component_iff, <- Hj. intros (? & ? & ?). by constructor.
  - intros [h Hh|h m Hh Hm|h m s Hh Hm Hs].
    + rewrite split_none by (by eapply clock_no_colon). apply valid_clock_component_iff.
      destruct (startswith "*/" h) eqn:E; [by eapply clock_step_limit|done].
    + rewrite split_join; [|done|repeat constructor; by eapply clock_no_colon].
      by rewrite !(proj2 (valid_clock_component_iff _ _)).
    + rewrite split_join; [|done|repeat constructor; by eapply clock_no_colon].
      by rewrite !(proj2 (valid_clock_component_iff _ _)).
Qed.

(** ** The kinds of words are disjoint *)

Definition letter (c : ascii) : bool :=
  let n := nat_of_ascii c in (Nat.leb 97 n && Nat.leb n 122)%bool.

(** No name of a weekday or an alias is a text of the characters of times. *)
Lemma letters_not_time (t : string) :
  lower t ∈ dkeys WEEKDAYS \/ lower t ∈ dkeys ALIASES -> all_chars time_char t = false.
Proof.
  intros H. apply not_true_iff_false. intros Ht.
  assert (all_chars (fun c => negb (letter c)) (lower t) = true) as Hl.
  { rewrite all_chars_lower. revert Ht. apply all_chars_impl. all_ascii. }
  revert H Hl. generalize (lower t). clear. intros u H Hl.
  assert (Forall (fun k => all_chars (fun c => negb (letter c)) k = false)
    (dkeys WEEKDAYS ++ dkeys ALIASES)) as Hall by (by repeat constructor).
  rewrite <- elem_of_app in H. rewrite Forall_forall in Hall. rewrite (Hall _ H) in Hl. done.
Qed.

Lemma time_not_alias (t : string) : time_of_day t -> dmem (lower t) ALIASES = false.
Proof.
  intros Ht%time_chars. apply not_true_iff_false. intros H%dmem_key.
  rewrite letters_not_time in Ht by (by right). done.
Qed.

Lemma days_not_alias (t : string) (ds : gset Z) : day_list t ds -> dmem (lower t) ALIASES = false.
Proof.
  rewrite <- parse_weekdays_iff. unfold parse_weekdays. intros H.
  apply not_true_iff_false. rewrite dmem_key. revert H. generalize (lower t). intros u H Hu.
  assert (Forall (fun k => parse_weekday_items ∅ (split "," k) = None) (dkeys ALIASES)) as Hall
    by (by repeat constructor).
  rewrite Forall_forall in Hall. rewrite (Hall _ Hu) in H. done.
Qed.

Lemma days_not_time (t : string) (ds : gset Z) : day_list t ds -> valid_time t = false.
Proof.
  intros Hd. apply not_true_iff_false. intros Ht%valid_time_iff%time_chars. revert Ht.
  destruct Hd as [items sets Hne Hs]. destruct Hs as [|i l items sets Hi Hs]; [done|].
  intros Ht. assert (all_chars time_char i = true) as Hc.
  { destruct items; [done|]. change (join "," (i :: s :: items)) with (i +:+ "," +:+ join "," (s :: items)) in Ht.
    rewrite all_chars_app in Ht. by apply andb_true_iff in Ht as [? _]. }
  destruct Hi as [u d Hu|a b x y Ha Hb].
  - rewrite letters_not_time in Hc by (left; by eapply dget_some_key). done.
  - rewrite all_chars_app, letters_not_time in Hc by (left; by eapply dget_some_key). done.
Qed.

(** A date has dashes; the other words have none. *)
Lemma date_has_dash (t : string) (p : DatePart * DatePart * DatePart) :
  date_text t p -> all_chars (no_char "-") t = false.
Proof.
  intros [y m d ? ? ? _ _ _].
  change (join "-" [y; m; d]) with (y +:+ String "-" (m +:+ "-" +:+ d)).
  rewrite all_chars_app. cbn. apply andb_false_r.
Qed.

Lemma date_not_alias (t : string) (p : DatePart * DatePart * DatePart) :
  date_text t p -> dmem (lower t) ALIASES = false.
Proof.
  intros H%date_has_dash. apply not_true_iff_false. rewrite dmem_key.
  rewrite <- no_char_lower in H by (rewrite !elem_of_cons; tauto). revert H. generalize (lower t).
  intros u H Hu.
  assert (Forall (fun k => all_chars (no_char "-") k = true) (dkeys ALIASES)) as Hall by (by repeat constructor).
  rewrite Forall_forall in Hall. rewrite (Hall _ Hu) in H. done.
Qed.

Lemma date_not_time (t : string) (p : DatePart * DatePart * DatePart) : date_text t p -> valid_time t = false.
Proof.
  intros H%date_has_dash. apply not_true_iff_false. intros Ht%valid_time_iff%time_chars.
  apply (all_chars_impl _ (no_char "-")) in Ht; [congruence|all_ascii].
Qed.

Lemma days_no_dash (t : string) (ds : gset Z) : day_list t ds -> all_chars (no_char "-") t = true.
Proof.
  intros [items sets Hne Hs]. apply all_chars_join; [done|]. clear Hne.
  induction Hs as [|i l items sets Hi Hs IH]; constructor; [|done].
  eapply day_item_no_char; [|exact Hi]. right; left.
Qed.

Lemma date_not_days (t : string) (p : DatePart * DatePart * DatePart) : date_text t p -> parse_weekdays t = None.
Proof.
  intros H%date_has_dash. destruct (parse_weekdays t) as [ds|] eqn:E; [|done].
  apply parse_weekdays_iff, days_no_dash in E. congruence.
Qed.

Lemma from_alias_iff (a t r : string) (p : ParsedSchedule) :
  from_alias a t r = Some p <->
  exists w y m d, dget a ALIASES = Some (w, y, m, d) /\ p = mkParsed w y m d t false r.
Proof.
  unfold from_alias. destruct (dget a ALIASES) as [[[[w y] m] d]|]; [|naive_solver].
  split; [intros [= <-]; eauto 10|]. by intros (w' & y' & m' & d' & [= -> -> -> ->] & ->).
Qed.

(** What the parser makes of words of the grammar. *)
Lemma parse_tokens_complete (toks : list string) (w : option (gset Z)) (y m d : DatePart) (t r : string) :
  schedule toks (w, y, m, d) t -> parse_tokens toks r = Some (mkParsed w y m d t false r).
Proof.
  intros H. inversion H as [a sel Ha|a u sel Ha Hu|u Hu|u ds Hu|u ds u' Hd Hu|u y' m' n' Hu|
    u y' m' n' u' Hd Hu|u ds u' y' m' n' u'' Hu Hd Hu']; subst; cbn [parse_tokens parse_explicit_tokens].
  - rewrite (dmem_some _ _ _ Ha). unfold from_alias. by rewrite Ha.
  - rewrite (dmem_some _ _ _ Ha), (proj2 (valid_time_iff _) Hu). unfold from_alias. by rewrite Ha.
  - by rewrite time_not_alias, (proj2 (valid_time_iff _) Hu).
  - rewrite (days_not_alias _ _ Hu), (days_not_time _ _ Hu). unfold parse_single_token.
    by rewrite (proj2 (parse_weekdays_iff _ _) Hu).
  - rewrite (days_not_alias _ _ Hd), (proj2 (valid_time_iff _) Hu). simpl.
    by rewrite (proj2 (parse_weekdays_iff _ _) Hd).
  - rewrite (date_not_alias _ _ Hu), (date_not_time _ _ Hu). unfold parse_single_token.
    by rewrite (date_not_days _ _ Hu), (proj2 (parse_date_iff _ _) Hu).
  - rewrite (date_not_alias _ _ Hd), (proj2 (valid_time_iff _) Hu). simpl.
    by rewrite (date_not_days _ _ Hd), (proj2 (parse_date_iff _ _) Hd).
  - rewrite (proj2 (parse_weekdays_iff _ _) Hu), (proj2 (valid_time_iff _) Hu'). simpl.
    by rewrite (proj2 (parse_date_iff _ _) Hd).
Qed.

(** [p] is what the words [toks] of the text [r] say. *)
Definition says (toks : list string) (r : string) (p : ParsedSchedule) : Prop :=
  approximate p = false /\ raw p = r /\
  schedule toks (weekdays p, years p, months p, days p) (time_text p).

Ltac parsed_words :=
  repeat match goal with
  | H : Some _ = Some _ |- _ => injection H as <-
  | H : parse_weekdays _ = Some _ |- _ => apply parse_weekdays_iff in H
  | H : parse_date _ = Some (_, _, _) |- _ => apply parse_date_iff in H
  | H : valid_time _ = true |- _ => apply valid_time_iff in H
  | H : negb (valid_time _) = false |- _ => apply negb_false_iff in H
  | H : from_alias _ _ _ = Some _ |- _ => apply from_alias_iff in H as (? & ? & ? & ? & ? & ->)
  end.

Ltac schedule_words := subst; repeat split; cbn; eauto using schedule.

Lemma parse_explicit_sound (toks : list string) (r : string) (p : ParsedSchedule) :
  parse_explicit_tokens toks r = Some p -> says toks r p.
Proof.
  unfold parse_explicit_tokens, parse_single_token, says. intros H.
  repeat case_match; try discriminate H; parsed_words; schedule_words.
Qed.

Lemma parse_tokens_sound (toks : list string) (r : string) (p : ParsedSchedule) :
  parse_tokens toks r = Some p -> says toks r p.
Proof.
  destruct toks as [|token [|time [|]]]; cbn [parse_tokens]; try done; [| |apply parse_explicit_sound].
  - destruct (dmem (lower token) ALIASES); intros H.
    + parsed_words. schedule_words.
    + destruct (valid_time token) eqn:Ht; [parsed_words; schedule_words|].
      by apply parse_explicit_sound.
  - destruct (dmem (lower token) ALIASES); [|apply parse_explicit_sound]. intros H.
    destruct (valid_time time) eqn:Ht; [|done]. parsed_words. schedule_words.
Qed.

(** ** What the parser returns *)

(** A selector stands for a non-empty part of its range. *)
Definition part_ok (lo hi : Z) (p : DatePart) : Prop :=
  match p with
  | None => True
  | Some (Between a b) => lo <= a <= b /\ b <= hi
  | Some (Among l) => l <> ∅ /\ forall x, x ∈ l -> lo <= x <= hi
  end.

(** A selector of weekdays is not empty and names days of the week. *)
Definition week_ok (w : option (gset Z)) : Prop :=
  match w with
  | None => True
  | Some l => l <> ∅ /\ forall x, x ∈ l -> 0 <= x < 7
  end.

Definition schedule_ok (p : ParsedSchedule) : Prop :=
  week_ok (weekdays p) /\ part_ok 1 9999 (years p) /\ part_ok 1 12 (months p) /\ part_ok 1 31 (days p) /\
  (approximate p = true ->
   weekdays p = None /\ years p = None /\ months p = None /\ days p = None /\ time_text p = raw p).

(** The conditions on sets, decided. *)
Lemma set_within_spec (P : Z -> Prop) `{!forall x, Decision (P x)} (l : gset Z) :
  bool_decide (l <> ∅ /\ set_Forall P l) = true -> l <> ∅ /\ forall x, x ∈ l -> P x.
Proof. by intros [? ?]%bool_decide_eq_true. Qed.

Lemma part_text_ok (lo hi : Z) (t : string) (p : DatePart) : part_text lo hi t p -> part_ok lo hi p.
Proof.
  intros [|u n (_ & _ & ?)|a b x y (_ & _ & ?) (_ & _ & ?) ?]; unfold part_ok; [done|lia..].
Qed.

Lemma day_list_ok (t : string) (ds : gset Z) : day_list t ds -> week_ok (Some ds).
Proof.
  intros [items sets Hne Hs]. split.
  - destruct Hs as [|i l items sets Hi Hs]; [done|]. apply day_item_days in Hi as [[x Hx] _].
    intros He. apply (not_elem_of_empty (C:=gset Z) x). rewrite <- He. simpl. apply elem_of_union. by left.
  - clear Hne. induction Hs as [|i l items sets Hi Hs IH]; simpl; [by intros x ?%not_elem_of_empty|].
    intros x [Hx|Hx]%elem_of_union; [by eapply day_item_days|by apply IH].
Qed.

Lemma date_text_ok (t : string) (y m d : DatePart) :
  date_text t (y, m, d) -> part_ok 1 9999 y /\ part_ok 1 12 m /\ part_ok 1 31 d.
Proof. intros H. inversion H; subst. split_and!; by eapply part_text_ok. Qed.

Definition selectors_ok (sel : option (gset Z) * DatePart * DatePart * DatePart) : Prop :=
  let '(w, y, m, d) := sel in week_ok w /\ part_ok 1 9999 y /\ part_ok 1 12 m /\ part_ok 1 31 d.

Lemma aliases_ok (a : string) (sel : option (gset Z) * DatePart * DatePart * DatePart) :
  dget a ALIASES = Some sel -> selectors_ok sel.
Proof.
  intros H%dget_in. unfold ALIASES in H. rewrite !elem_of_cons, elem_of_nil in H.
  destruct_or! H; injection H as -> ->; refine (conj _ (conj _ (conj _ _))); cbn;
    try exact I; try lia;
    first [apply (set_within_spec (fun x => 1 <= x <= 12))|apply (set_within_spec (fun x => 0 <= x < 7))];
    by vm_compute.
Qed.

Lemma schedule_selectors_ok (toks : list string) sel (t : string) : schedule toks sel t -> selectors_ok sel.
Proof.
  intros H. destruct H as [a sel Ha|a u sel Ha Hu|u Hu|u ds Hu|u ds u' Hd Hu|u y' m' n' Hu|
    u y' m' n' u' Hd Hu|u ds u' y' m' n' u'' Hu Hd Hu']; simpl;
    try (by eapply aliases_ok); repeat split; try done;
    first [by eapply day_list_ok|by eapply date_text_ok].
Qed.

(** ** Words *)

Lemma day_item_spaceless (t : string) (ds : gset Z) : day_item t ds -> spaceless t = true.
Proof.
  assert (Hn : forall u d, day_name u d -> spaceless u = true).
  { intros u d Hu. eapply (lower_key_spaceless WEEKDAYS); [by repeat constructor|exact Hu]. }
  intros [u d Hu|a b x y Ha Hb]; [by eapply Hn|]. unfold spaceless in *. rewrite !all_chars_app.
  by rewrite (Hn _ _ Ha), (Hn _ _ Hb).
Qed.

Lemma day_list_word (t : string) (ds : gset Z) : day_list t ds -> word t = true.
Proof.
  intros H. unfold word. apply andb_true_iff. split.
  { destruct t; [|done]. by apply parse_weekdays_iff in H. }
  destruct H as [items sets _ Hs]. apply all_chars_join; [done|].
  induction Hs; constructor; [by eapply day_item_spaceless|done].
Qed.

Lemma date_text_word (t : string) (p : DatePart * DatePart * DatePart) : date_text t p -> word t = true.
Proof.
  intros H. unfold word. apply andb_true_iff. split.
  { destruct t; [|done]. by apply parse_date_iff in H. }
  assert (Hp : forall lo hi u q, part_text lo hi u q -> spaceless u = true).
  { intros lo hi u q [Hc _]%part_chars. revert Hc. apply all_chars_impl. all_ascii. }
  destruct H. apply all_chars_join; [done|]. repeat constructor; by eapply Hp.
Qed.

Lemma time_word (t : string) : time_of_day t -> word t = true.
Proof.
  intros H. unfold word. apply andb_true_iff. split.
  { destruct t; [|done]. by apply valid_time_iff in H. }
  apply time_chars in H. revert H. apply all_chars_impl. all_ascii.
Qed.

Lemma alias_word (a : string) sel : dget (lower a) ALIASES = Some sel -> word a = true.
Proof.
  intros H. unfold word. apply andb_true_iff. split; [by destruct a|].
  eapply (lower_key_spaceless ALIASES); [by repeat constructor|exact H].
Qed.

Lemma schedule_word (toks : list string) sel (t : string) :
  schedule toks sel t -> toks <> [] /\ Forall (fun w => word w = true) toks.
Proof.
  intros []; (split; [done|]); repeat constructor;
    first [by eapply alias_word|by apply time_word|by eapply day_list_word|by eapply date_text_word].
Qed.

(** ** The claims *)

Lemma parse_says (s : string) (p : ParsedSchedule) :
  approximate p = false ->
  parse s = p <-> (String.length (strip s) <= MAX_SCHEDULE_LENGTH)%nat /\ says (split_ws (strip s)) (strip s) p.
Proof.
  intros Hp. unfold parse. split.
  - destruct (is_empty (strip s)); [by intros <-|]. cbn [orb].
    destruct (Nat.ltb_spec MAX_SCHEDULE_LENGTH (String.length (strip s))); [by intros <-|].
    destruct (parse_tokens _ _) as [q|] eqn:E; [|by intros <-]. intros <-. split; [done|].
    by apply parse_tokens_sound.
  - intros (Hl & _ & Hr & Hs). pose proof (parse_tokens_complete _ _ _ _ _ _ (strip s) Hs) as Hc.
    destruct (strip s) as [|a s'] eqn:E; [done|]. simpl is_empty.
    destruct (Nat.ltb_spec MAX_SCHEDULE_LENGTH (String.length (String a s'))); [lia|].
    cbn [orb]. rewrite Hc. destruct p; simpl in *. by subst.
Qed.

Lemma parse_approximate (s : string) : approximate (parse s) = true -> parse s = unparsed (strip s).
Proof.
  unfold parse. destruct (_ || _)%bool; [done|].
  destruct (parse_tokens _ _) as [q|] eqn:E; [|done].
  apply parse_tokens_sound in E as [E _]. congruence.
Qed.

(** C29: The parser accepts exactly the schedules of the grammar, of at most 1024
    characters, with their meaning; every other text becomes the approximate
    schedule of that text, which matches every day. *)
Theorem parse_grammar (s : string) :
  (forall p, approximate p = false ->
     parse s = p <-> (String.length (strip s) <= MAX_SCHEDULE_LENGTH)%nat /\
                     says (split_ws (strip s)) (strip s) p) /\
  (approximate (parse s) = true -> parse s = unparsed (strip s) /\ forall d, matches (parse s) d = true).
Proof.
  split; [apply parse_says|]. intros Ha.
  split; [by apply parse_approximate|by intros d; unfold matches; rewrite Ha].
Qed.

(** The words of a schedule, written with spaces between them, are read back
    with their meaning. *)
Theorem parse_print (ws : list string) w y m d (t : string) :
  schedule ws (w, y, m, d) t -> (String.length (join " " ws) <= MAX_SCHEDULE_LENGTH)%nat ->
  parse (join " " ws) = mkParsed w y m d t false (join " " ws).
Proof.
  intros Hs Hl. destruct (schedule_word _ _ _ Hs) as [Hne Hw].
  apply parse_says; [done|]. rewrite strip_join, split_ws_join by done. done.
Qed.

(** Whatever the text, the selectors stay in their ranges: days of the week,
    years 1 to 9999, months 1 to 12 and days 1 to 31, none of them empty, and
    an approximate schedule selects nothing and shows its text. *)
Theorem parse_schedule_ok (s : string) : schedule_ok (parse s).
Proof.
  destruct (approximate (parse s)) eqn:Ha.
  - rewrite (parse_approximate s Ha). by repeat split.
  - destruct (proj1 (parse_says s (parse s) Ha) eq_refl) as (_ & _ & _ & Hs).
    apply schedule_selectors_ok in Hs. simpl in Hs. unfold schedule_ok. rewrite Ha. naive_solver.
Qed.
