(* ===== verification/CalendarGrid.v ===== *)
(** * The data-protection calendar

    services/data_protection_calendar.py and the projection of schedules in
    views/data_protection.py: the days a month or week view shows, the events
    in their cells, and the events a schedule stands for in the window of the
    view, under a budget. *)
From Stdlib Require Import ZArith Lia Ascii String Permutation Sorted.
From stdpp Require Import base list gmap strings pretty.
From S2P Require Import Prelude Dates Text PveCalendar.

(** ** The days of a view *)

(** [calendar._prevmonth], [calendar._nextmonth] *)
Definition prevmonth (y m : Z) : Z * Z := if m =? 1 then (y - 1, 12) else (y, m - 1).
Definition nextmonth (y m : Z) : Z * Z := if m =? 12 then (y + 1, 1) else (y, m + 1).

(** [Calendar(MONDAY).itermonthdays3(y, m)]: whole weeks around the month. *)
Definition itermonthdays3 (y m : Z) : list (Z * Z * Z) :=
  let day1 := weekday (mkDate y m 1) in
  let ndays := days_in_month y m in
  let days_before := day1 mod 7 in
  let days_after := (0 - day1 - ndays) mod 7 in
  let '(py, pm) := prevmonth y m in
  let '(ny, nm) := nextmonth y m in
  List.map (fun d => (py, pm, d)) (seqZ (days_in_month py pm + 1 - days_before) days_before) ++
  List.map (fun d => (y, m, d)) (seqZ 1 ndays) ++
  List.map (fun d => (ny, nm, d)) (seqZ 1 days_after).

(** [[l[i:i+7] for i in range(0, len(l), 7)]] *)
Definition weeks {A} (l : list A) : list (list A) :=
  List.map (fun i => take 7 (drop (7 * i) l)) (seq 0 ((List.length l + 6) / 7)).

(** [_month_grid_dates]: [monthdatescalendar] *)
Definition month_grid_dates (anchor : date) : result (list (list date)) :=
  dates ← mapM (fun '(y, m, d) => make_date y m d) (itermonthdays3 (year anchor) (month anchor));
  mret (weeks dates).

(** [rows[0][0]], [rows[-1][-1]] *)
Definition first_last {A} (rows : list (list A)) : result (A * A) :=
  match concat rows with
  | [] => Err (IndexError "list index out of range")
  | x :: l => Ok (x, List.last l x)
  end.

Definition visible_range (anchor : date) (view : string) : result (date * date) :=
  if String.eqb view "week" then
    start ← add_days anchor (- weekday anchor);
    stop ← add_days start 7;
    mret (start, stop)
  else
    rows ← month_grid_dates anchor;
    '(a, b) ← first_last rows;
    stop ← add_days b 1;
    mret (a, stop).

Definition shift_month (anchor : date) (delta : Z) : result date :=
  let month_index := year anchor * 12 + month anchor - 1 + delta in
  let y := month_index / 12 in
  let m := month_index mod 12 + 1 in
  make_date y m (Z.min (day anchor) (days_in_month y m)).

Definition shift_anchor (anchor : date) (view : string) (delta : Z) : result date :=
  if String.eqb view "week" then add_days anchor (7 * delta) else shift_month anchor delta.

(** ** Events in cells *)

Definition CALENDAR_EVENT_LIMIT : Z := 4.
Definition CALENDAR_OVERFLOW_LIMIT : Z := 40.
Definition CALENDAR_SOURCE_LIMIT : Z := 1000.

Record CalendarEvent := mkEvent {
  ev_day : date;
  ev_kind : string;
  ev_label : string;
  ev_url : string;
  ev_time_text : string;
  ev_muted : bool;
  ev_approximate : bool;
  ev_sort_key : string
}.

Record CalendarDayCell := mkCell {
  cd_date : date;
  cd_in_month : bool;
  cd_is_today : bool;
  cd_events : list CalendarEvent;
  cd_overflow : list CalendarEvent;
  cd_hidden_count : Z
}.

Definition additional_count (c : CalendarDayCell) : Z :=
  Z.of_nat (List.length (cd_overflow c)) + cd_hidden_count c.

Definition cap_day_events (events : list CalendarEvent) (limit overflow_limit : Z) :
    list CalendarEvent * list CalendarEvent * Z :=
  let ordered := sort_text_by ev_sort_key events in
  let cap := Z.max 0 limit in
  let overflow_cap := Z.max 0 overflow_limit in
  let overflow_end := cap + overflow_cap in
  (take (Z.to_nat cap) ordered,
   take (Z.to_nat overflow_end - Z.to_nat cap) (drop (Z.to_nat cap) ordered),
   Z.max 0 (Z.of_nat (List.length ordered) - overflow_end)).

(** [grouped[event.day].append(event)] *)
Fixpoint group_add (e : CalendarEvent) (g : list (date * list CalendarEvent)) :
    list (date * list CalendarEvent) :=
  match g with
  | [] => [(ev_day e, [e])]
  | (d, l) :: g' => if decide (ev_day e = d) then (d, l ++ [e]) :: g' else (d, l) :: group_add e g'
  end.

Definition events_by_day (events : list CalendarEvent) : list (date * list CalendarEvent) :=
  fold_left (fun g e => group_add e g) events [].

(** [grouped.get(day, ())] *)
Fixpoint group_get (d : date) (g : list (date * list CalendarEvent)) : list CalendarEvent :=
  match g with
  | [] => []
  | (d', l) :: g' => if decide (d = d') then l else group_get d g'
  end.

Definition day_cell (d anchor : date) (grouped : list (date * list CalendarEvent)) (today : date) :
    CalendarDayCell :=
  let '(visible, overflow, hidden) :=
    cap_day_events (group_get d grouped) CALENDAR_EVENT_LIMIT CALENDAR_OVERFLOW_LIMIT in
  mkCell d (month d =? month anchor) (bool_decide (d = today)) visible overflow hidden.

Definition build_month_grid (anchor : date) (events : list CalendarEvent) (today : date) :
    result (list (list CalendarDayCell)) :=
  let grouped := events_by_day events in
  rows ← month_grid_dates anchor;
  mret (List.map (List.map (fun d => day_cell d anchor grouped today)) rows).

Definition build_week_grid (anchor : date) (events : list CalendarEvent) (today : date) :
    result (list (list CalendarDayCell)) :=
  '(start, _) ← visible_range anchor "week";
  let grouped := events_by_day events in
  row ← mapM (fun offset => d ← add_days start offset; mret (day_cell d anchor grouped today)) (seqZ 0 7);
  mret [row].

(** [_safe_anchor] *)
Definition safe_anchor (today anchor : date) : date :=
  if ((year anchor =? 1) || (year anchor =? 9999))%bool then today else anchor.

(** ** Proof: the days of a view *)

Lemma toordinal_day (y m d : Z) : toordinal (mkDate y m d) = toordinal (mkDate y m 1) + (d - 1).
Proof. unfold toordinal. cbn [year month day]. lia. Qed.

Lemma toordinal_nextmonth (y m : Z) :
  1 <= m <= 12 ->
  toordinal (mkDate (fst (nextmonth y m)) (snd (nextmonth y m)) 1) =
  toordinal (mkDate y m 1) + days_in_month y m.
Proof.
  intros Hm. unfold nextmonth. destruct (Z.eqb_spec m 12) as [->|Hne]; unfold toordinal; cbn [fst snd year month day].
  - rewrite days_before_next_year. pose proof (days_before_december y).
    change (days_before_month (y + 1) 1) with 0. lia.
  - rewrite days_before_next_month by lia. lia.
Qed.

Lemma toordinal_prevmonth (y m : Z) :
  1 <= m <= 12 ->
  toordinal (mkDate y m 1) =
  toordinal (mkDate (fst (prevmonth y m)) (snd (prevmonth y m)) 1) +
  days_in_month (fst (prevmonth y m)) (snd (prevmonth y m)).
Proof.
  intros Hm. rewrite <- toordinal_nextmonth.
  - unfold prevmonth, nextmonth. destruct (Z.eqb_spec m 1) as [->|Hne]; cbn [fst snd].
    + change (12 =? 12) with true. cbn [fst snd]. do 2 f_equal. lia.
    + destruct (Z.eqb_spec (m - 1) 12); [lia|]. cbn [fst snd]. do 2 f_equal. lia.
  - unfold prevmonth. destruct (Z.eqb_spec m 1); cbn [snd]; lia.
Qed.

Definition triple (d : date) : Z * Z * Z := (year d, month d, day d).

(** Some days of one month are consecutive day numbers. *)
Lemma month_days (y m a n : Z) :
  1 <= m <= 12 -> 1 <= a -> a + n <= days_in_month y m + 1 ->
  List.map (fun d => (y, m, d)) (seqZ a n) =
  List.map (fun o => triple (fromordinal o)) (seqZ (toordinal (mkDate y m 1) - 1 + a) n).
Proof.
  intros Hm Ha Hn. rewrite <- (fmap_add_seqZ (toordinal (mkDate y m 1) - 1) a n), List.map_map.
  apply map_ext_in. intros d Hd%list_elem_of_In%elem_of_seqZ.
  replace (toordinal (mkDate y m 1) - 1 + d) with (toordinal (mkDate y m d)) by (rewrite (toordinal_day y m d); lia).
  rewrite fromordinal_toordinal; [done|]. split; cbn; lia.
Qed.

(** The day number a month's grid starts with, and its number of days. *)
Definition grid_start (y m : Z) : Z := toordinal (mkDate y m 1) - weekday (mkDate y m 1).
Definition grid_days (y m : Z) : Z :=
  let day1 := weekday (mkDate y m 1) in
  day1 + days_in_month y m + (0 - day1 - days_in_month y m) mod 7.

Lemma weekday_bound (d : date) : 0 <= weekday d < 7.
Proof. unfold weekday. apply Z.mod_pos_bound. lia. Qed.

Lemma itermonthdays3_days (y m : Z) :
  1 <= m <= 12 ->
  itermonthdays3 y m =
  List.map (fun o => triple (fromordinal o)) (seqZ (grid_start y m) (grid_days y m)).
Proof.
  intros Hm. unfold itermonthdays3, grid_start, grid_days.
  pose proof (weekday_bound (mkDate y m 1)) as Hw. set (w := weekday (mkDate y m 1)) in *.
  set (n := days_in_month y m). set (r := (0 - w - n) mod 7).
  assert (0 <= r < 7) by (apply Z.mod_pos_bound; lia). rewrite (Z.mod_small w 7) by lia.
  pose proof (days_in_month_bound y m) as Hn. fold n in Hn.
  pose proof (toordinal_nextmonth y m Hm) as Hnx. fold n in Hnx. pose proof (toordinal_prevmonth y m Hm) as Hpv.
  assert (Hnm : 1 <= snd (nextmonth y m) <= 12) by (unfold nextmonth; destruct (Z.eqb_spec m 12); cbn; lia).
  assert (Hpm : 1 <= snd (prevmonth y m) <= 12) by (unfold prevmonth; destruct (Z.eqb_spec m 1); cbn; lia).
  destruct (nextmonth y m) as [ny nm], (prevmonth y m) as [py pm]. cbn [fst snd] in *.
  pose proof (days_in_month_bound py pm). pose proof (days_in_month_bound ny nm).
  rewrite !month_days by lia. rewrite !seqZ_app, !List.map_app by lia. rewrite <- app_assoc.
  f_equal; [|f_equal]; do 2 f_equal; lia.
Qed.

Lemma grid_days_weeks (y m : Z) :
  grid_days y m mod 7 = 0 /\ weekday (mkDate y m 1) + days_in_month y m <= grid_days y m < weekday (mkDate y m 1) + days_in_month y m + 7.
Proof.
  unfold grid_days. set (w := weekday _). set (n := days_in_month y m).
  pose proof (Z.mod_pos_bound (0 - w - n) 7). split; [|lia].
  rewrite Z.add_mod_idemp_r by lia. replace (w + n + (0 - w - n)) with 0 by lia. done.
Qed.

Lemma make_date_ok (d : date) :
  calendar_ok d -> 1 <= year d <= 9999 -> make_date (year d) (month d) (day d) = Ok d.
Proof.
  intros [Hm Hd] Hy. unfold make_date, valid_date. destruct d as [y m n]. cbn [year month day] in *.
  repeat match goal with |- context [?a <=? ?b] => rewrite (proj2 (Z.leb_le a b)) by lia end. done.
Qed.

(** Day numbers grow with the years. *)
Lemma year_of_ordinal (d : date) (y : Z) :
  calendar_ok d -> (days_before_year y < toordinal d -> y <= year d) /\
  (toordinal d <= days_before_year (y + 1) -> year d <= y).
Proof.
  intros Hd%yearday_bound. unfold yearday, toordinal in *. split; intros H.
  - destruct (Z.le_gt_cases y (year d)) as [|Hlt]; [done|].
    pose proof (days_before_year_le (year d) y ltac:(lia)). lia.
  - destruct (Z.le_gt_cases (year d) y) as [|Hlt]; [done|].
    destruct (Z.eq_dec (y + 1) (year d)) as [Heq|Hne]; [rewrite Heq in H; lia|].
    pose proof (days_before_year_le (y + 1) (year d) ltac:(lia)).
    assert (0 <= leap_day (y + 1)) by (unfold leap_day; destruct (is_leap _); lia). lia.
Qed.

Lemma valid_ordinal (o : Z) : 1 <= o <= max_ordinal -> 1 <= year (fromordinal o) <= 9999.
Proof.
  intros Ho. destruct (fromordinal_spec o) as [Hto Hok].
  unfold max_ordinal in Ho.
  split; apply year_of_ordinal; try done; rewrite Hto;
    [change (days_before_year 1) with 0|change (days_before_year (9999 + 1)) with 3652059]; lia.
Qed.

(** An anchor whose views stay between the years 1 and 9999. *)
Definition inner_date (d : date) : Prop := calendar_ok d /\ 2 <= year d <= 9998.

Lemma inner_ordinal (d : date) : inner_date d -> 366 <= toordinal d <= max_ordinal - 365.
Proof.
  intros [Hok Hy]. pose proof (yearday_bound d Hok) as Hb. unfold yearday in Hb.
  assert (days_before_year 2 <= days_before_year (year d)) as Hlo.
  { destruct (Z.eq_dec 2 (year d)) as [<-|]; [done|].
    pose proof (days_before_year_le 2 (year d) ltac:(lia)) as H. change (leap_day 2) with 0 in H. lia. }
  pose proof (days_before_year_le (year d) 9999 ltac:(lia)) as Hhi.
  change (days_before_year 2) with 365 in Hlo. change (days_before_year 9999) with 3651694 in Hhi.
  unfold toordinal, max_ordinal. lia.
Qed.

Lemma add_days_ok (d : date) (n : Z) :
  1 <= toordinal d + n <= max_ordinal -> add_days d n = Ok (fromordinal (toordinal d + n)).
Proof.
  intros [H1 H2]. unfold add_days. by rewrite (proj2 (Z.leb_le _ _) H1), (proj2 (Z.leb_le _ _) H2).
Qed.

Lemma month_first (d : date) : calendar_ok d -> calendar_ok (mkDate (year d) (month d) 1).
Proof. intros [Hm Hd]. split; cbn [year month day]; [done|lia]. Qed.

Lemma weeks_seqZ {A} (f : Z -> A) (s : Z) (k : nat) :
  weeks (List.map f (seqZ s (7 * Z.of_nat k))) =
  List.map (fun i => List.map f (seqZ (s + 7 * Z.of_nat i) 7)) (seq 0 k).
Proof.
  unfold weeks. rewrite List.length_map, length_seqZ.
  replace ((Z.to_nat (7 * Z.of_nat k) + 6) / 7)%nat with k.
  2: { replace (Z.to_nat (7 * Z.of_nat k)) with (k * 7)%nat by lia.
       rewrite Nat.div_add_l by lia. simpl. lia. }
  apply map_ext_in. intros i Hi%in_seq.
  replace (7 * Z.of_nat k) with (7 * Z.of_nat i + (7 + 7 * (Z.of_nat k - Z.of_nat i - 1))) by lia.
  rewrite !seqZ_app, !List.map_app by lia.
  rewrite drop_app_length' by (rewrite List.length_map, length_seqZ; lia).
  by rewrite take_app_length' by (rewrite List.length_map, length_seqZ; lia).
Qed.

Lemma month_grid_dates_eq (anchor : date) :
  inner_date anchor ->
  month_grid_dates anchor =
  Ok (weeks (List.map fromordinal
               (seqZ (grid_start (year anchor) (month anchor)) (grid_days (year anchor) (month anchor))))).
Proof.
  intros [Hok Hy]. unfold month_grid_dates. destruct Hok as [Hm Hd].
  rewrite itermonthdays3_days by done.
  pose proof (month_first anchor (conj Hm Hd)) as Hf.
  pose proof (inner_ordinal (mkDate (year anchor) (month anchor) 1) (conj Hf Hy)) as Hb.
  pose proof (grid_days_weeks (year anchor) (month anchor)) as [_ Hg].
  pose proof (weekday_bound (mkDate (year anchor) (month anchor) 1)) as Hw.
  pose proof (days_in_month_bound (year anchor) (month anchor)).
  rewrite (mapM_Ok _ (fun t => mkDate t.1.1 t.1.2 t.2)).
  - cbv [mbind result_bind mret result_ret]. rewrite List.map_map. do 2 f_equal. apply map_ext. intros o. by destruct (fromordinal o).
  - intros [[y m] d] (o & [= -> -> ->] & Ho)%list_elem_of_fmap. cbn [fst snd].
    apply elem_of_seqZ in Ho. unfold grid_start in Ho.
    replace (mkDate _ _ _) with (fromordinal o) by (by destruct (fromordinal o)).
    apply make_date_ok; [apply fromordinal_spec|apply valid_ordinal; lia].
Qed.

Lemma concat_weeks {A} (l : list A) (k : nat) : List.length l = (7 * k)%nat -> concat (weeks l) = l.
Proof.
  unfold weeks. intros Hl. rewrite Hl. replace ((7 * k + 6) / 7)%nat with k.
  2: { rewrite Nat.mul_comm, Nat.div_add_l by lia. simpl. lia. }
  revert l Hl. induction k as [|k IH]; intros l Hl; [by destruct l|].
  cbn [seq List.map concat]. rewrite <- seq_shift, List.map_map.
  transitivity (take 7 l ++ drop 7 l); [|apply take_drop]. f_equal.
  transitivity (concat (List.map (fun i => take 7 (drop (7 * i) (drop 7 l))) (seq 0 k)));
    [|apply IH; rewrite length_drop; lia].
  f_equal. apply map_ext. intros i. rewrite drop_drop. do 2 f_equal. lia.
Qed.

(** A day of the month is a day number of the month's grid. *)
Lemma grid_month_day (y m o : Z) :
  1 <= m <= 12 -> toordinal (mkDate y m 1) <= o < toordinal (mkDate y m 1) + days_in_month y m ->
  year (fromordinal o) = y /\ month (fromordinal o) = m.
Proof.
  intros Hm Ho. replace o with (toordinal (mkDate y m (o - toordinal (mkDate y m 1) + 1))).
  - rewrite fromordinal_toordinal; [done|]. split; cbn [year month day]; lia.
  - rewrite toordinal_day. lia.
Qed.

(** The month view: whole weeks from Monday to Sunday, of consecutive days,
    that show every day of the month, and no week without one. *)
Theorem month_grid_weeks (anchor : date) :
  inner_date anchor ->
  exists rows, month_grid_dates anchor = Ok rows /\
    (exists start n, concat rows = List.map fromordinal (seqZ start n)) /\
    (forall week, week ∈ rows -> exists o, week = List.map fromordinal (seqZ o 7) /\
       weekday (fromordinal o) = 0 /\
       exists d, d ∈ week /\ year d = year anchor /\ month d = month anchor) /\
    (forall d, calendar_ok d -> year d = year anchor -> month d = month anchor -> d ∈ concat rows).
Proof.
  intros Hin. pose proof Hin as [[Hm _] Hy]. rewrite month_grid_dates_eq by done.
  set (y := year anchor) in *. set (m := month anchor) in *.
  pose proof (grid_days_weeks y m) as [H7 Hg]. pose proof (weekday_bound (mkDate y m 1)) as Hw.
  pose proof (days_in_month_bound y m) as Hn.
  assert (exists k : nat, grid_days y m = 7 * Z.of_nat k) as [k Hk].
  { exists (Z.to_nat (grid_days y m / 7)). rewrite Z2Nat.id by (apply Z.div_pos; lia).
    pose proof (Z.div_mod (grid_days y m) 7). lia. }
  eexists. split; [reflexivity|].
  rewrite (concat_weeks _ k) by (rewrite List.length_map, length_seqZ; lia).
  split; [by eauto|]. split.
  - rewrite Hk, weeks_seqZ. intros week (i & -> & Hi%elem_of_seq)%list_elem_of_fmap.
    exists (grid_start y m + 7 * Z.of_nat i). split; [done|]. split.
    + unfold weekday. rewrite toordinal_fromordinal. unfold grid_start, weekday.
      Z.to_euclidean_division_equations. lia.
    + set (o := Z.max (toordinal (mkDate y m 1)) (grid_start y m + 7 * Z.of_nat i)).
      exists (fromordinal o). unfold grid_start in *. split; [|apply grid_month_day; lia].
      apply list_elem_of_fmap_2, elem_of_seqZ. lia.
  - intros d Hd Ey Em. rewrite <- (fromordinal_toordinal d) by done.
    apply list_elem_of_fmap_2, elem_of_seqZ. destruct d as [y' m' n]. cbn [year month] in *. subst y' m'.
    destruct Hd as [_ Hd]. cbn [year month day] in Hd. rewrite toordinal_day. unfold grid_start. lia.
Qed.

(** The first day number of a view and its number of days. *)
Definition window (anchor : date) (view : string) : Z * Z :=
  if String.eqb view "week" then (toordinal anchor - weekday anchor, 7)
  else (grid_start (year anchor) (month anchor), grid_days (year anchor) (month anchor)).

Lemma window_bound (anchor : date) (view : string) :
  inner_date anchor ->
  let '(s, n) := window anchor view in
  300 <= s /\ 7 <= n /\ s + n + 300 <= max_ordinal /\ s <= toordinal anchor < s + n /\ (s + 6) mod 7 = 0 /\ n mod 7 = 0.
Proof.
  intros Hin. pose proof (inner_ordinal anchor Hin) as Ho. pose proof (weekday_bound anchor) as Hw.
  unfold window. destruct (String.eqb view "week").
  { unfold weekday in *. Z.to_euclidean_division_equations. lia. }
  destruct Hin as [Hok Hy]. pose proof (month_first anchor Hok) as Hf.
  pose proof (inner_ordinal _ (conj Hf Hy)) as Hb.
  pose proof (grid_days_weeks (year anchor) (month anchor)) as [H7 Hg].
  pose proof (weekday_bound (mkDate (year anchor) (month anchor) 1)) as Hw1.
  pose proof (days_in_month_bound (year anchor) (month anchor)) as Hn.
  pose proof (toordinal_day (year anchor) (month anchor) (day anchor)) as Ha.
  replace (mkDate (year anchor) (month anchor) (day anchor)) with anchor in Ha by (by destruct anchor).
  destruct Hok as [_ Hd]. unfold grid_start. split_and!; try lia.
  unfold weekday in *. Z.to_euclidean_division_equations. lia.
Qed.

Lemma first_last_seqZ {A} (f : Z -> A) (rows : list (list A)) (s n : Z) :
  concat rows = List.map f (seqZ s n) -> 2 <= n -> first_last rows = Ok (f s, f (s + n - 1)).
Proof.
  intros Hc Hn. unfold first_last. rewrite Hc.
  replace n with (1 + ((n - 2) + 1)) at 1 by lia. rewrite !seqZ_app, !List.map_app by lia.
  change (seqZ s 1) with [s]. change (seqZ (s + 1 + (n - 2)) 1) with [s + 1 + (n - 2)].
  cbn [List.map app]. rewrite List.last_last. do 3 f_equal; lia.
Qed.

Lemma visible_range_eq (anchor : date) (view : string) :
  inner_date anchor ->
  visible_range anchor view =
  Ok (fromordinal (fst (window anchor view)),
      fromordinal (fst (window anchor view) + snd (window anchor view))).
Proof.
  intros Hin. pose proof (window_bound anchor view Hin) as Hb. unfold visible_range, window in *.
  destruct (String.eqb view "week"); cbn [fst snd].
  - rewrite add_days_ok by lia. cbv [mbind result_bind].
    rewrite add_days_ok by (rewrite toordinal_fromordinal; lia).
    cbv [mret result_ret]. by rewrite toordinal_fromordinal.
  - rewrite month_grid_dates_eq by done. cbv [mbind result_bind].
    pose proof (grid_days_weeks (year anchor) (month anchor)) as [H7 _].
    rewrite (first_last_seqZ fromordinal _ (grid_start (year anchor) (month anchor))
               (grid_days (year anchor) (month anchor))); [|eapply concat_weeks|lia].
    + rewrite add_days_ok by (rewrite toordinal_fromordinal; lia).
      cbv [mret result_ret]. rewrite toordinal_fromordinal. do 3 f_equal. lia.
    + rewrite List.length_map, length_seqZ.
      instantiate (1 := Z.to_nat (grid_days (year anchor) (month anchor) / 7)).
      pose proof (Z.div_mod (grid_days (year anchor) (month anchor)) 7). lia.
Qed.

Lemma shift_anchor_ok (anchor : date) (view : string) (delta : Z) :
  inner_date anchor -> -1 <= delta <= 1 ->
  exists d, shift_anchor anchor view delta = Ok d /\ calendar_ok d /\ 1 <= year d <= 9999.
Proof.
  intros Hin Hd. pose proof (inner_ordinal anchor Hin) as Ho. unfold shift_anchor.
  destruct (String.eqb view "week").
  - rewrite add_days_ok by lia. eexists. split; [done|].
    split; [apply fromordinal_spec|apply valid_ordinal; lia].
  - destruct Hin as [[Hm Hday] Hy]. unfold shift_month.
    set (i := year anchor * 12 + month anchor - 1 + delta).
    pose proof (days_in_month_bound (i / 12) (i mod 12 + 1)) as Hn.
    set (d := mkDate (i / 12) (i mod 12 + 1) (Z.min (day anchor) (days_in_month (i / 12) (i mod 12 + 1)))).
    exists d. assert (calendar_ok d /\ 1 <= year d <= 9999) as [Hok Hyd]; [|split; [|done]].
    + unfold calendar_ok, d. cbn [year month day]. unfold i in *. Z.to_euclidean_division_equations. lia.
    + exact (make_date_ok d Hok Hyd).
Qed.

(** Whatever date is asked for, the views of the anchor that is used stay
    within the dates of the language: the range, both grids and the links to
    the neighbouring views are computed without an error. *)
Theorem calendar_never_raises (anchor today : date) (view : string) (events : list CalendarEvent) :
  calendar_ok anchor -> 1 <= year anchor <= 9999 -> inner_date today ->
  let a := safe_anchor today anchor in
  (exists start stop, visible_range a view = Ok (start, stop) /\
     toordinal start <= toordinal a < toordinal stop) /\
  (exists rows, build_month_grid a events today = Ok rows) /\
  (exists rows, build_week_grid a events today = Ok rows) /\
  (exists d, shift_anchor a view (-1) = Ok d) /\ (exists d, shift_anchor a view 1 = Ok d).
Proof.
  intros Hok Hy Ht a. assert (Ha : inner_date a).
  { unfold a, safe_anchor. destruct (Z.eqb_spec (year anchor) 1), (Z.eqb_spec (year anchor) 9999);
      cbn [orb]; try done. split; [done|lia]. }
  pose proof (window_bound a view Ha) as Hb. rewrite visible_range_eq by done.
  destruct (window a view) as [s n] eqn:Ew. cbn [fst snd]. split_and!.
  - do 2 eexists. split; [done|]. rewrite !toordinal_fromordinal. lia.
  - unfold build_month_grid. rewrite month_grid_dates_eq by done. by eexists.
  - unfold build_week_grid. rewrite visible_range_eq by done. cbv [mbind result_bind].
    pose proof (window_bound a "week" Ha) as Hwk. cbn in Hwk.
    erewrite mapM_Ok; [by eexists|]. intros o Ho%elem_of_seqZ. simpl in Ho.
    rewrite add_days_ok; [done|]. unfold window. cbn [String.eqb]. cbn. rewrite toordinal_fromordinal. lia.
  - destruct (shift_anchor_ok a view (-1) Ha ltac:(lia)) as (d & -> & _). eauto.
  - destruct (shift_anchor_ok a view 1 Ha ltac:(lia)) as (d & -> & _). eauto.
Qed.

(** ** Proof: the events of a view *)

Definition on_day (d : date) (e : CalendarEvent) : bool := bool_decide (ev_day e = d).

Lemma group_get_add (d : date) (e : CalendarEvent) (g : list (date * list CalendarEvent)) :
  group_get d (group_add e g) = group_get d g ++ (if on_day d e then [e] else []).
Proof.
  unfold on_day. rewrite (bool_decide_ext (ev_day e = d) (d = ev_day e)) by (split; congruence).
  induction g as [|[d' l] g IH]; cbn [group_add group_get].
  - by destruct (decide (d = ev_day e)); [rewrite bool_decide_eq_true_2 by done|rewrite bool_decide_eq_false_2 by done].
  - destruct (decide (ev_day e = d')) as [<-|Hne]; cbn [group_get].
    + destruct (decide (d = ev_day e)); [rewrite bool_decide_eq_true_2 by done|rewrite bool_decide_eq_false_2 by done];
        by rewrite ?app_nil_r.
    + destruct (decide (d = d')) as [->|Hd]; [|apply IH].
      rewrite bool_decide_eq_false_2 by congruence. by rewrite app_nil_r.
Qed.

Lemma events_by_day_get (d : date) (events : list CalendarEvent) :
  group_get d (events_by_day events) = List.filter (on_day d) events.
Proof.
  assert (H : forall g, group_get d (fold_left (fun g e => group_add e g) events g) =
    group_get d g ++ List.filter (on_day d) events).
  { induction events as [|e l IH]; intros g; simpl; [by rewrite app_nil_r|].
    rewrite IH, group_get_add. destruct (on_day d e); simpl; by rewrite <- app_assoc, ?app_nil_l. }
  unfold events_by_day. by rewrite H.
Qed.

(** Events of the day of a cell that the cell stands for. *)
Definition shown (c : CalendarDayCell) : Z := Z.of_nat (List.length (cd_events c)) + additional_count c.

(** One cell: the first four events of its day in the order of their keys,
    up to forty more behind the expander, and the number of the others. *)
Lemma day_cell_events (d anchor today : date) (events : list CalendarEvent) :
  let c := day_cell d anchor (events_by_day events) today in
  let mine := sort_text_by ev_sort_key (List.filter (on_day d) events) in
  cd_date c = d /\ cd_events c = take 4 mine /\ cd_events c ++ cd_overflow c = take 44 mine /\
  shown c = Z.of_nat (List.length (List.filter (on_day d) events)).
Proof.
  intros c mine. unfold c, day_cell. rewrite events_by_day_get. unfold cap_day_events. fold mine.
  cbn [cd_date cd_events cd_overflow]. unfold shown, additional_count. cbn [cd_events cd_overflow cd_hidden_count].
  change (Z.to_nat (Z.max 0 CALENDAR_EVENT_LIMIT)) with 4%nat.
  change (Z.to_nat (Z.max 0 CALENDAR_EVENT_LIMIT + Z.max 0 CALENDAR_OVERFLOW_LIMIT) - 4)%nat with 40%nat.
  change (Z.max 0 CALENDAR_EVENT_LIMIT + Z.max 0 CALENDAR_OVERFLOW_LIMIT) with 44.
  split_and!; [done..| |].
  - change 44%nat with (4 + 40)%nat. by rewrite take_take_drop.
  - rewrite !length_take, length_drop.
    assert (List.length mine = List.length (List.filter (on_day d) events)) as <-.
    { unfold mine. by rewrite (Permutation_length (sort_text_by_perm ev_sort_key _)). }
    lia.
Qed.

Lemma count_by_day (ds : list date) (events : list CalendarEvent) :
  NoDup ds ->
  foldr Z.add 0 (List.map (fun d => Z.of_nat (List.length (List.filter (on_day d) events))) ds) =
  Z.of_nat (List.length (List.filter (fun e => bool_decide (ev_day e ∈ ds)) events)).
Proof.
  intros Hnd. induction events as [|e l IH]; simpl.
  - clear Hnd. by induction ds.
  - assert (Hs : foldr Z.add 0 (List.map (fun d => Z.of_nat (List.length (if on_day d e then e :: List.filter (on_day d) l
        else List.filter (on_day d) l))) ds) =
      foldr Z.add 0 (List.map (fun d => Z.of_nat (List.length (List.filter (on_day d) l))) ds) +
      if bool_decide (ev_day e ∈ ds) then 1 else 0).
    { clear IH. induction Hnd as [|d ds Hd Hnd IH]; simpl; [done|]. rewrite IH. unfold on_day at 1.
      destruct (decide (ev_day e = d)) as [<-|He].
      - rewrite (bool_decide_eq_true_2 (ev_day e = ev_day e)) by done.
        rewrite (bool_decide_eq_false_2 _ Hd), bool_decide_eq_true_2 by left. simpl. lia.
      - rewrite (bool_decide_eq_false_2 (ev_day e = d)) by done.
        rewrite (bool_decide_ext (ev_day e ∈ d :: ds) (ev_day e ∈ ds)) by (rewrite elem_of_cons; naive_solver). lia. }
    rewrite Hs, IH. case_bool_decide; simpl; lia.
Qed.

(** C35: The month view shows every event that falls on one of its days, once: in
    each cell the first ones by their keys, and in the counts all of them (for
    an anchor in the years 2 to 9998). *)
Theorem month_grid_events (anchor today : date) (events : list CalendarEvent) (rows : list (list CalendarDayCell)) :
  inner_date anchor -> build_month_grid anchor events today = Ok rows ->
  (forall c, c ∈ concat rows ->
     let mine := sort_text_by ev_sort_key (List.filter (on_day (cd_date c)) events) in
     cd_events c = take 4 mine /\ cd_events c ++ cd_overflow c = take 44 mine /\
     shown c = Z.of_nat (List.length mine)) /\
  foldr Z.add 0 (List.map shown (concat rows)) =
  Z.of_nat (List.length (List.filter (fun e => bool_decide (ev_day e ∈ List.map cd_date (concat rows))) events)).
Proof.
  intros Hin. unfold build_month_grid. rewrite month_grid_dates_eq by done. cbv [mbind result_bind mret result_ret].
  set (ds := weeks _). intros <-%(inj Ok). rewrite <- concat_map.
  split.
  - intros c (d & -> & _)%list_elem_of_fmap. cbv zeta.
    destruct (day_cell_events d anchor today events) as (Hd & He & Ho & Hs). rewrite Hd.
    split; [done|]. split; [done|]. rewrite Hs. by rewrite (Permutation_length (sort_text_by_perm ev_sort_key _)).
  - rewrite !List.map_map.
    rewrite (map_ext _ (fun d => d)), List.map_id by (intros d; apply (day_cell_events d anchor today events)).
    erewrite map_ext by (intros d; apply (day_cell_events d anchor today events)).
    apply count_by_day.
    assert (Hc : concat ds = List.map fromordinal (seqZ (grid_start (year anchor) (month anchor)) (grid_days (year anchor) (month anchor)))).
    { apply (concat_weeks _ (Z.to_nat (grid_days (year anchor) (month anchor) / 7))).
      rewrite List.length_map, length_seqZ. pose proof (window_bound anchor "month" Hin) as Hb. cbn in Hb.
      pose proof (Z.div_mod (grid_days (year anchor) (month anchor)) 7). lia. }
    rewrite Hc. apply NoDup_fmap_2; [|apply NoDup_seqZ].
    intros a b Hab. rewrite <- (toordinal_fromordinal a), Hab. apply toordinal_fromordinal.
Qed.

(** ** A month with one event *)

Definition sample_event : CalendarEvent :=
  mkEvent (mkDate 2024 2 29) "backup" "nightly" "/backup/1/" "02:00" false false "backup-1".

Lemma month_grid_events_witness :
  exists rows, build_month_grid (mkDate 2024 2 10) [sample_event] (mkDate 2024 2 11) = Ok rows /\
    foldr Z.add 0 (List.map shown (concat rows)) = 1.
Proof.
  eexists. split; [vm_compute; reflexivity|].
  match goal with |- context [concat ?r] =>
    pose proof (proj2 (month_grid_events (mkDate 2024 2 10) (mkDate 2024 2 11) [sample_event] r
                         ltac:(vm_compute; repeat split; discriminate) ltac:(vm_compute; reflexivity))) as H end.
  etransitivity; [exact H|vm_compute; reflexivity].
Defined.
