(* ===== verification/CalendarProjection.v ===== *)
(** * Schedules projected onto the window of a calendar

    views/data_protection.py: the days of a window on which a schedule runs,
    moved from the time zone of its endpoint to the zone of the viewer, and
    the budget of events of a source.  A moment is a number of seconds: those
    of the day number and of the time of the day. *)
From Stdlib Require Import ZArith Lia Ascii String.
From stdpp Require Import base list strings pretty.
From S2P Require Import Prelude Dates Text PveCalendar CalendarGrid.

Definition seconds_per_day : Z := 86400.

(** A [tzinfo]: the offset of a wall clock reading, for both readings of an
    ambiguous one ([fold]), and the wall clock of a moment of UTC. *)
Record zone := mkZone {
  zn_utcoffset : Z -> bool -> Z;
  zn_fromutc : Z -> Z
}.

(** [_fixed_schedule_time]: seconds from midnight.  [time(h, m, s)] raises
    outside of the clock, and the code answers [None]. *)
Definition clock_time (h m s : Z) : option Z :=
  if ((h <=? 23) && (m <=? 59) && (s <=? 59))%bool then Some (h * 3600 + m * 60 + s) else None.

Definition fixed_schedule_time (schedule : ParsedSchedule) : option Z :=
  let alias := lower (strip (raw schedule)) in
  if (String.eqb (time_text schedule) alias
      && mem_str alias ["daily"; "weekly"; "monthly"; "yearly"; "annually"; "quarterly"; "semiannually"])%bool
  then Some 0
  else
    let parts := split ":" (time_text schedule) in
    if forallb is_integer parts then
      match List.map int_value parts with
      | [h] => clock_time h 0 0
      | [h; m] => clock_time h m 0
      | [h; m; s] => clock_time h m s
      | _ => None
      end
    else None.

(** [_converted_occurrence]: the wall clock of the viewer, unless the time of
    the schedule is not fixed, or is ambiguous or skipped in its zone. *)
Definition converted_occurrence (local : zone) (d : date) (schedule : ParsedSchedule) (z : zone) : option Z :=
  match fixed_schedule_time schedule with
  | None => None
  | Some wall_time =>
      let naive := toordinal d * seconds_per_day + wall_time in
      let first := zn_utcoffset z naive false in
      let second := zn_utcoffset z naive true in
      if negb (first =? second) then None
      else if negb (zn_fromutc z (naive - first) =? naive) then None
      else Some (zn_fromutc local (naive - first))
  end.

(** [_date_sequence] *)
Definition date_sequence (start stop : date) : result (list date) :=
  mapM (add_days start) (seqZ 0 (Z.max 0 (toordinal stop - toordinal start))).

(** [_projected_days] *)
Definition projected_days (start stop : date) (has_zone : bool) : result (list date) :=
  let padding := if has_zone then 2 else 0 in
  a ← add_days start (- padding);
  b ← add_days stop padding;
  date_sequence a b.

Definition two_digits (n : Z) : string :=
  (if n <? 10 then "0" else "") +:+ pretty n.

(** [_formatted_occurrence_time] *)
Definition formatted_occurrence_time (occurrence : Z) (schedule : ParsedSchedule) : string :=
  let t := occurrence mod seconds_per_day in
  let has_seconds :=
    (Nat.eqb (List.length (split ":" (time_text schedule))) 3 || negb (t mod 60 =? 0))%bool in
  two_digits (t / 3600) +:+ ":" +:+ two_digits (t / 60 mod 60) +:+
  (if has_seconds then ":" +:+ two_digits (t mod 60) else "").

Record EventRecord := mkRecord {
  er_event : CalendarEvent;
  er_virtual_machine : string;
  er_node : string
}.

Section Projection.

(** A row of the query, and the functions the source of events brings. *)
Context (local : zone) (zoneinfo : string -> option zone) (reverse : string -> pyval -> string).
Context (kind schedule_field url_name : string).
Context (label_builder : dict pyval -> string) (muted_builder : dict pyval -> bool)
  (detail_builder : dict pyval -> string * string).

(** [_endpoint_zone] *)
Definition endpoint_zone (row : dict pyval) : option zone :=
  let value := strip (str (py_or (get "endpoint__iana_timezone" row) (VStr ""))) in
  if is_empty value then None else zoneinfo value.

Definition parse_value (v : pyval) : ParsedSchedule :=
  match v with VStr s => parse s | _ => unparsed "" end.

Definition occurrence_of (row : dict pyval) (d : date) : option Z :=
  match endpoint_zone row with
  | Some z => converted_occurrence local d (parse_value (get schedule_field row)) z
  | None => None
  end.

(** [occurrence.date() if occurrence else source_day] *)
Definition event_day (row : dict pyval) (d : date) : date :=
  match occurrence_of row d with
  | Some o => fromordinal (o / seconds_per_day)
  | None => d
  end.

Definition date_le (a b : date) : bool := toordinal a <=? toordinal b.
Definition in_window (start stop d : date) : bool := (date_le start d && negb (date_le stop d))%bool.

(** The body of the loop of [_project_schedule_row]. *)
Definition project_day (row : dict pyval) (start stop source_day : date) : list EventRecord :=
  let schedule := parse_value (get schedule_field row) in
  if negb (matches schedule source_day) then []
  else
    let occurrence := occurrence_of row source_day in
    let day := event_day row source_day in
    if negb (in_window start stop day) then []
    else
      let text := match occurrence with
                  | Some o => formatted_occurrence_time o schedule
                  | None => time_text schedule
                  end in
      [mkRecord
         (mkEvent day kind (label_builder row) (reverse url_name (get "pk" row)) text (muted_builder row)
            (approximate schedule || match occurrence with None => true | Some _ => false end)%bool
            (text +:+ "|" +:+ kind +:+ "|" +:+ str (get "pk" row)))
         (fst (detail_builder row)) (snd (detail_builder row))].

Definition project_schedule_row (start stop : date) (row : dict pyval) : result (list EventRecord) :=
  days ← projected_days start stop (match endpoint_zone row with Some _ => true | None => false end);
  mret (flat_map (project_day row start stop) days).

(** [materialize_source_rows] *)
Definition materialize_source_rows {A} (rows : list A) (limit : Z) : list A * bool :=
  let cap := Z.to_nat (Z.max 0 limit) in
  let materialized := take (cap + 1) rows in
  (take cap materialized, Nat.ltb cap (List.length materialized)).

Record SourceTruncation := mkTruncation {
  omitted_events : Z;
  unprojected_objects : Z;
  more_rows : bool
}.

(** [SourceTruncation.merge] *)
Definition merge (a b : SourceTruncation) : SourceTruncation :=
  mkTruncation (omitted_events a + omitted_events b) (unprojected_objects a + unprojected_objects b)
    (more_rows a || more_rows b)%bool.

(** The loop of [_schedule_records], with its records, omitted events and, when
    the budget is spent, the objects left. *)
Fixpoint schedule_loop (start stop : date) (rows : list (dict pyval)) (records : list EventRecord) (omitted : Z) :
    result (list EventRecord * Z * Z) :=
  match rows with
  | [] => Ok (records, omitted, 0)
  | row :: rest =>
      let available := CALENDAR_SOURCE_LIMIT - Z.of_nat (List.length records) in
      if available <=? 0 then Ok (records, omitted, Z.of_nat (List.length rows))
      else
        projected ← project_schedule_row start stop row;
        schedule_loop start stop rest (records ++ take (Z.to_nat available) projected)
          (omitted + Z.max 0 (Z.of_nat (List.length projected) - available))
  end.

Definition schedule_records (start stop : date) (queryset : list (dict pyval)) :
    result (list EventRecord * Z * SourceTruncation) :=
  let '(rows, more) := materialize_source_rows queryset CALENDAR_SOURCE_LIMIT in
  '(records, omitted, unprojected) ← schedule_loop start stop rows [] 0;
  mret (records, 0, mkTruncation omitted unprojected more).

(** ** Proof *)

(** The documented range of [utcoffset]: less than a day either way. *)
Definition zone_ok (z : zone) : Prop :=
  (forall t fold, - seconds_per_day < zn_utcoffset z t fold < seconds_per_day) /\
  (forall u, u - seconds_per_day < zn_fromutc z u < u + seconds_per_day).

Lemma clock_time_bound (h m s t : Z) :
  0 <= h -> 0 <= m -> 0 <= s -> clock_time h m s = Some t -> 0 <= t < seconds_per_day.
Proof.
  unfold clock_time, seconds_per_day. intros ? ? ?.
  destruct (Z.leb_spec h 23), (Z.leb_spec m 59), (Z.leb_spec s 59); cbn [andb]; intros [= <-]; lia.
Qed.

Lemma int_digits_nonneg (s : string) (acc : Z) (p : bool) (n : Z) :
  0 <= acc -> int_digits acc p s = Some n -> 0 <= n.
Proof.
  revert acc p. induction s as [|c s IH]; intros acc p Hacc; simpl; [destruct p; [by intros [= <-]|done]|].
  destruct (digit_val c) as [d|] eqn:E.
  - apply IH. unfold digit_val in E. destruct (_ && _)%bool eqn:Eb; [|done]. injection E as <-.
    apply andb_true_iff in Eb as [H%Nat.leb_le _]. lia.
  - destruct (_ && _)%bool; [by apply IH|done].
Qed.

Lemma int_value_nonneg (s : string) : is_integer s = true -> 0 <= int_value s.
Proof.
  unfold is_integer. intros [Hn Hd]%andb_true_iff. unfold int_value, int_of_string.
  rewrite strip_id by (revert Hd; apply all_chars_impl; all_ascii).
  destruct s as [|c s]; [done|]. cbn [all_chars] in Hd. apply andb_true_iff in Hd as [Hc Hd].
  destruct (int_digits 0 false (String c s)) as [n|] eqn:E.
  - destruct c as [[] [] [] [] [] [] [] []]; try discriminate Hc;
      cbv beta iota; rewrite E; simpl; by eapply int_digits_nonneg.
  - destruct c as [[] [] [] [] [] [] [] []]; try discriminate Hc; cbv beta iota; by rewrite E.
Qed.

Lemma fixed_schedule_time_bound (p : ParsedSchedule) (t : Z) :
  fixed_schedule_time p = Some t -> 0 <= t < seconds_per_day.
Proof.
  unfold fixed_schedule_time. destruct (_ && _)%bool; [intros [= <-]; done|].
  destruct (forallb is_integer _) eqn:Hall; [|done]. rewrite forallb_forall in Hall.
  assert (Hv : forall x, x ∈ split ":" (time_text p) -> 0 <= int_value x).
  { intros x Hx. apply int_value_nonneg, Hall. by apply list_elem_of_In. }
  destruct (split ":" (time_text p)) as [|h [|m [|s [|]]]]; simpl; try done;
    apply clock_time_bound; try done; apply Hv; rewrite !elem_of_cons; tauto.
Qed.

(** A conversion moves a schedule by two days at most. *)
Lemma event_day_close (row : dict pyval) (d : date) :
  zone_ok local -> (forall n z, zoneinfo n = Some z -> zone_ok z) ->
  toordinal d - 2 <= toordinal (event_day row d) <= toordinal d + 2.
Proof.
  intros [_ Hl] Hz. unfold event_day, occurrence_of.
  destruct (endpoint_zone row) as [z|] eqn:Ez; [|lia].
  unfold endpoint_zone in Ez. destruct (is_empty _); [done|]. apply Hz in Ez as [Hoff _].
  unfold converted_occurrence. destruct (fixed_schedule_time _) as [t|] eqn:Et; [|lia].
  apply fixed_schedule_time_bound in Et. set (naive := toordinal d * seconds_per_day + t).
  destruct (negb (_ =? _)); [lia|]. destruct (negb (_ =? _)); [lia|].
  rewrite toordinal_fromordinal. specialize (Hoff naive false).
  specialize (Hl (naive - zn_utcoffset z naive false)).
  unfold naive, seconds_per_day in *. Z.to_euclidean_division_equations. lia.
Qed.

Lemma date_sequence_eq (a b : date) :
  1 <= toordinal a -> toordinal b <= max_ordinal + 1 ->
  date_sequence a b = Ok (List.map fromordinal (seqZ (toordinal a) (toordinal b - toordinal a))).
Proof.
  intros Ha Hb. unfold date_sequence. rewrite (mapM_Ok _ (fun n => fromordinal (toordinal a + n))).
  - f_equal. rewrite <- (List.map_map (Z.add (toordinal a)) fromordinal). f_equal.
    rewrite fmap_add_seqZ, Z.add_0_r. unfold seqZ. do 2 f_equal. lia.
  - intros n Hn%elem_of_seqZ. apply add_days_ok. lia.
Qed.

Lemma projected_days_eq (start stop : date) (hz : bool) :
  3 <= toordinal start <= max_ordinal - 2 -> 3 <= toordinal stop <= max_ordinal - 2 ->
  let p := if hz then 2 else 0 in
  projected_days start stop hz =
  Ok (List.map fromordinal (seqZ (toordinal start - p) (toordinal stop + p - (toordinal start - p)))).
Proof.
  intros Hs He p. unfold projected_days. fold p. assert (0 <= p <= 2) by (destruct hz; cbn; lia).
  rewrite !add_days_ok by lia. cbv [mbind result_bind].
  rewrite date_sequence_eq; rewrite !toordinal_fromordinal; [|lia..]. do 3 f_equal; lia.
Qed.

Lemma project_day_iff (row : dict pyval) (start stop d day : date) :
  (exists r, r ∈ project_day row start stop d /\ ev_day (er_event r) = day) <->
  matches (parse_value (get schedule_field row)) d = true /\ event_day row d = day /\ in_window start stop day = true.
Proof.
  unfold project_day. destruct (matches _ d); cbn [negb].
  2: { split; [intros (r & Hr & _); by apply not_elem_of_nil in Hr|by intros (? & _)]. }
  destruct (in_window start stop (event_day row d)) eqn:Ew; cbn [negb].
  - split.
    + intros (r & Hr%list_elem_of_singleton & Hd). subst r. cbn in Hd. by subst day.
    + intros (_ & <- & _). eexists. split; [by apply list_elem_of_singleton|done].
  - split; [intros (r & Hr & _); by apply not_elem_of_nil in Hr|]. intros (_ & <- & H). congruence.
Qed.

(** *** The day of the viewer

    [zn_fromutc z u] is what the clocks of a zone show at the moment [u].  The
    two offsets of a clock reading agree, and lead to the moment, where the
    clocks showed it once, and differ where they showed it twice. *)
Definition zone_law (z : zone) : Prop :=
  (forall u, (forall u', zn_fromutc z u' = zn_fromutc z u -> u' = u) ->
     forall fold, zn_utcoffset z (zn_fromutc z u) fold = zn_fromutc z u - u) /\
  (forall u u', u <> u' -> zn_fromutc z u = zn_fromutc z u' ->
     zn_utcoffset z (zn_fromutc z u) false <> zn_utcoffset z (zn_fromutc z u) true).

(** [u] is the only moment at which the clocks of [z] show time [t] of day [d]. *)
Definition only_moment (z : zone) (d : date) (t u : Z) : Prop :=
  forall u', zn_fromutc z u' = toordinal d * 86400 + t <-> u' = u.

(** The day on which an occurrence of the source day [d] is shown, and whether
    that day is exact: the day of the viewer's clocks at the one moment of it,
    or the source day itself where there is no such moment. *)
Inductive shown (row : dict pyval) (d : date) : date -> bool -> Prop :=
| shown_moment z t u :
    endpoint_zone row = Some z -> fixed_schedule_time (parse_value (get schedule_field row)) = Some t ->
    only_moment z d t u -> shown row d (fromordinal (zn_fromutc local u / 86400)) true
| shown_source :
    (forall z t u, endpoint_zone row = Some z -> fixed_schedule_time (parse_value (get schedule_field row)) = Some t ->
       ~ only_moment z d t u) ->
    shown row d d false.

Lemma converted_moment (z : zone) (d : date) (schedule : ParsedSchedule) (t o : Z) :
  zone_law z -> fixed_schedule_time schedule = Some t ->
  converted_occurrence local d schedule z = Some o <-> exists u, only_moment z d t u /\ o = zn_fromutc local u.
Proof.
  intros [H1 H2] Ht. unfold converted_occurrence, only_moment. rewrite Ht. unfold seconds_per_day.
  set (naive := toordinal d * 86400 + t).
  destruct (Z.eqb_spec (zn_utcoffset z naive false) (zn_utcoffset z naive true)) as [Hsame|Hdiff]; cbn [negb].
  - destruct (Z.eqb_spec (zn_fromutc z (naive - zn_utcoffset z naive false)) naive) as [Hback|Hgap]; cbn [negb].
    + set (u := naive - zn_utcoffset z naive false) in *.
      assert (Huniq : forall u', zn_fromutc z u' = naive <-> u' = u).
      { intros u'. split; [|by intros ->]. intros Hu'. destruct (decide (u' = u)) as [|Hne]; [done|].
        exfalso. apply (H2 u' u Hne); [congruence|]. by rewrite Hu'. }
      split; [intros [= <-]; by exists u|]. intros (u' & Hu' & ->). do 2 f_equal. by apply Hu'.
    + split; [done|]. intros (u & Hu & _). exfalso. apply Hgap. assert (Hn : zn_fromutc z u = naive) by (by apply Hu).
      assert (Hoff : zn_utcoffset z (zn_fromutc z u) false = zn_fromutc z u - u).
      { apply H1. intros u' Hu'. apply Hu. congruence. }
      rewrite Hn in Hoff. rewrite Hoff. replace (naive - (naive - u)) with u by lia. done.
  - split; [done|]. intros (u & Hu & _). exfalso. apply Hdiff. assert (Hn : zn_fromutc z u = naive) by (by apply Hu).
    rewrite <- Hn. rewrite !H1; [done|intros u' Hu'; apply Hu; congruence..].
Qed.

Lemma shown_spec (row : dict pyval) (d day : date) (exact : bool) :
  (forall n z, zoneinfo n = Some z -> zone_law z) ->
  shown row d day exact <->
  event_day row d = day /\ exact = match occurrence_of row d with Some _ => true | None => false end.
Proof.
  intros Hz. unfold event_day, occurrence_of.
  assert (Hlaw : forall z, endpoint_zone row = Some z -> zone_law z).
  { intros z Ez. unfold endpoint_zone in Ez. destruct (is_empty _); [done|]. by eapply Hz. }
  set (schedule := parse_value (get schedule_field row)). split.
  - destruct 1 as [z t u Ez Et Hu|Hno].
    + rewrite Ez. assert (converted_occurrence local d schedule z = Some (zn_fromutc local u)) as ->; [|done].
      eapply converted_moment; [by apply Hlaw|exact Et|]. by exists u.
    + destruct (endpoint_zone row) as [z|] eqn:Ez; [|done].
      destruct (converted_occurrence local d schedule z) as [o|] eqn:Eo; [|done]. exfalso.
      destruct (fixed_schedule_time schedule) as [t|] eqn:Et; [|unfold converted_occurrence in Eo; by rewrite Et in Eo].
      destruct (proj1 (converted_moment z d schedule t o (Hlaw z eq_refl) Et) Eo) as (u & Hu & _). by eapply Hno.
  - intros [<- ->]. destruct (endpoint_zone row) as [z|] eqn:Ez.
    2: { apply shown_source. congruence. }
    destruct (converted_occurrence local d schedule z) as [o|] eqn:Eo.
    + destruct (fixed_schedule_time schedule) as [t|] eqn:Et; [|unfold converted_occurrence in Eo; by rewrite Et in Eo].
      destruct (proj1 (converted_moment z d schedule t o (Hlaw z eq_refl) Et) Eo) as (u & Hu & ->). by eapply shown_moment.
    + apply shown_source. intros z' t u Ez' Et Hu. rewrite Ez in Ez'. injection Ez' as <-.
      assert (converted_occurrence local d schedule z = Some (zn_fromutc local u)); [|congruence].
      apply (converted_moment z d schedule t _ (Hlaw z eq_refl) Et). by exists u.
Qed.

Lemma projected_iff (start stop : date) (row : dict pyval) :
  zone_ok local -> (forall n z, zoneinfo n = Some z -> zone_ok z) ->
  3 <= toordinal start <= max_ordinal - 2 -> 3 <= toordinal stop <= max_ordinal - 2 ->
  exists records, project_schedule_row start stop row = Ok records /\
  forall r, r ∈ records <-> exists d, calendar_ok d /\ r ∈ project_day row start stop d.
Proof.
  intros Hl Hz Hs He. unfold project_schedule_row. rewrite projected_days_eq by done.
  eexists. split; [reflexivity|]. set (hz := match endpoint_zone row with Some _ => true | None => false end).
  set (p := if hz then 2 else 0). intros r. split.
  - intros Hr. apply list_elem_of_In, in_flat_map in Hr as (d & Hin & Hr).
    apply list_elem_of_In in Hr, Hin. apply list_elem_of_fmap in Hin as (o & -> & _).
    exists (fromordinal o). split; [apply fromordinal_spec|done].
  - intros (d & Hok & Hr).
    destruct (proj1 (project_day_iff row start stop d (ev_day (er_event r)))) as (_ & Hd & Hw); [by exists r|].
    apply list_elem_of_In, in_flat_map. exists d. split; [|by apply list_elem_of_In]. apply list_elem_of_In.
    rewrite <- (fromordinal_toordinal d) by done. apply list_elem_of_fmap_2, elem_of_seqZ.
    unfold in_window, date_le in Hw. apply andb_true_iff in Hw as [H1%Z.leb_le H2%negb_true_iff%Z.leb_gt].
    assert (toordinal (ev_day (er_event r)) - p <= toordinal d <= toordinal (ev_day (er_event r)) + p); [|lia].
    rewrite <- Hd. unfold p, hz. destruct (endpoint_zone row) eqn:Ez.
    + pose proof (event_day_close row d Hl Hz). lia.
    + unfold event_day, occurrence_of. rewrite Ez. lia.
Qed.

(** C36: The events of one schedule in a window.  There is an event on a day of
    the window exactly when the schedule matches some day [d] of its own zone
    and its time on [d] is shown on that day: where the clocks of the
    endpoint's zone show that time once, on the day the viewer's clocks show
    at that moment; elsewhere (no zone, no fixed time, a time that the change
    to or from summer time skips or repeats) on [d] itself, and then the event
    is marked as approximate.  The two days of padding are enough for all time
    zones. *)
Theorem project_schedule_row_days (start stop : date) (row : dict pyval) :
  zone_ok local -> (forall n z, zoneinfo n = Some z -> zone_ok z /\ zone_law z) ->
  3 <= toordinal start <= max_ordinal - 2 -> 3 <= toordinal stop <= max_ordinal - 2 ->
  let schedule := parse_value (get schedule_field row) in
  exists records, project_schedule_row start stop row = Ok records /\
  forall day approx,
    (exists r, r ∈ records /\ ev_day (er_event r) = day /\ ev_approximate (er_event r) = approx) <->
    toordinal start <= toordinal day < toordinal stop /\
    exists d exact, calendar_ok d /\ matches schedule d = true /\ shown row d day exact /\
      approx = (approximate schedule || negb exact)%bool.
Proof.
  intros Hl Hz Hs He. cbv zeta.
  destruct (projected_iff start stop row) as (records & Hr & Hin); [done|intros n z Hn; by apply (Hz n z)|done|done|].
  exists records. split; [done|]. intros day approx.
  assert (Hlaw : forall n z, zoneinfo n = Some z -> zone_law z) by (intros n z Hn; by apply (Hz n z)).
  setoid_rewrite (shown_spec row _ _ _ Hlaw).
  assert (Hwin : in_window start stop day = true <-> toordinal start <= toordinal day < toordinal stop).
  { unfold in_window, date_le. rewrite andb_true_iff, negb_true_iff, Z.leb_le, Z.leb_gt. done. }
  rewrite <- Hwin. split.
  - intros (r & Hrin & <- & <-). apply Hin in Hrin as (d & Hok & Hd). unfold project_day in Hd.
    destruct (matches _ d) eqn:Em; cbn [negb] in Hd; [|by apply not_elem_of_nil in Hd].
    destruct (in_window start stop (event_day row d)) eqn:Ew; cbn [negb] in Hd; [|by apply not_elem_of_nil in Hd].
    apply list_elem_of_singleton in Hd as ->. cbn [er_event ev_day ev_approximate]. split; [done|].
    exists d, (match occurrence_of row d with Some _ => true | None => false end).
    split; [done|]. split; [done|]. split; [done|]. by destruct (occurrence_of row d).
  - intros [Ew (d & exact & Hok & Hm & [Hd ->] & ->)].
    destruct (proj2 (project_day_iff row start stop d day) (conj Hm (conj Hd Ew))) as (r & Hrd & Hday).
    exists r. split; [apply Hin; by exists d|]. split; [done|]. unfold project_day in Hrd. rewrite Hm, Hd, Ew in Hrd.
    cbn [negb] in Hrd. apply list_elem_of_singleton in Hrd as ->. cbn. by destruct (occurrence_of row d).
Qed.

(** The events of the first [n] schedules, all of them. *)
Definition projected (start stop : date) (rows : list (dict pyval)) : list EventRecord :=
  flat_map (fun row => match project_schedule_row start stop row with Ok l => l | Err _ => [] end) rows.

Lemma projected_cons (start stop : date) (row : dict pyval) (rows : list (dict pyval)) (l : list EventRecord) :
  project_schedule_row start stop row = Ok l ->
  projected start stop (row :: rows) = l ++ projected start stop rows.
Proof. intros H. unfold projected. cbn [flat_map]. by rewrite H. Qed.

Lemma schedule_loop_budget (start stop : date) (rows : list (dict pyval)) (records : list EventRecord) (omitted : Z)
    (records' : list EventRecord) (omitted' left : Z) :
  Z.of_nat (List.length records) <= CALENDAR_SOURCE_LIMIT ->
  schedule_loop start stop rows records omitted = Ok (records', omitted', left) ->
  exists done rest, rows = done ++ rest /\ left = Z.of_nat (List.length rest) /\
    records' = records ++ take (Z.to_nat (CALENDAR_SOURCE_LIMIT - Z.of_nat (List.length records))) (projected start stop done) /\
    Z.of_nat (List.length records') + omitted' =
    Z.of_nat (List.length records) + omitted + Z.of_nat (List.length (projected start stop done)) /\
    (rest <> [] -> Z.of_nat (List.length records') = CALENDAR_SOURCE_LIMIT).
Proof.
  revert records omitted. induction rows as [|row rows IH]; intros records omitted Hlen; cbn [schedule_loop].
  { intros [= <- <- <-]. exists [], []. cbn. rewrite take_nil, app_nil_r. split_and!; try done. lia. }
  destruct (Z.leb_spec (CALENDAR_SOURCE_LIMIT - Z.of_nat (List.length records)) 0) as [Hfull|Hroom].
  { intros [= <- <- <-]. exists [], (row :: rows). cbn. rewrite take_nil, app_nil_r. split_and!; try done; lia. }
  destruct (project_schedule_row start stop row) as [l|] eqn:El; cbn; [|done].
  set (avail := CALENDAR_SOURCE_LIMIT - Z.of_nat (List.length records)) in *.
  intros H. assert (Hln : List.length (records ++ take (Z.to_nat avail) l) =
    (List.length records + Nat.min (Z.to_nat avail) (List.length l))%nat) by (by rewrite length_app, length_take).
  apply IH in H as (dn & rest & -> & -> & -> & Hsum & Hrest); [|rewrite Hln; unfold avail in *; lia].
  exists (row :: dn), rest. rewrite (projected_cons _ _ _ _ _ El). split_and!; [done|done| | |done].
  - rewrite <- app_assoc. f_equal. rewrite take_app. f_equal. f_equal. rewrite Hln. unfold avail. lia.
  - rewrite Hsum, Hln, length_app. unfold avail in *. lia.
Qed.

(** A source of schedules shows at most a thousand events, a prefix of all
    those of the rows it reads, and reports what it leaves out: omitted events
    of the rows it projected, the rows it did not project, and whether the
    query had more rows than it read. *)
Theorem schedule_records_budget (start stop : date) (queryset : list (dict pyval))
    (records : list EventRecord) (undated : Z) (t : SourceTruncation) :
  schedule_records start stop queryset = Ok (records, undated, t) ->
  exists done rest more, queryset = done ++ rest ++ more /\
    (List.length (done ++ rest) <= 1000)%nat /\ (List.length records <= 1000)%nat /\
    records `prefix_of` projected start stop done /\
    Z.of_nat (List.length records) + omitted_events t = Z.of_nat (List.length (projected start stop done)) /\
    unprojected_objects t = Z.of_nat (List.length rest) /\ more_rows t = negb (bool_decide (more = [])).
Proof.
  unfold schedule_records, materialize_source_rows.
  change (Z.to_nat (Z.max 0 CALENDAR_SOURCE_LIMIT)) with 1000%nat.
  destruct (schedule_loop _ _ _ _ _) as [[[rec om] un]|] eqn:E; cbv [mbind result_bind mret result_ret]; [|done]. intros [= <- <- <-].
  apply schedule_loop_budget in E as (dn & rest & Hrows & -> & -> & Hsum & Hrest); [|done].
  rewrite take_take in Hrows. change (1000 `min` (1000 + 1))%nat with 1000%nat in Hrows.
  exists dn, rest, (drop 1000 queryset). rewrite app_assoc, <- Hrows, take_drop. split; [done|].
  split; [rewrite length_take; lia|]. cbn [app List.length] in *. change (CALENDAR_SOURCE_LIMIT - Z.of_nat 0) with 1000 in *.
  split; [rewrite length_take; lia|]. split; [apply prefix_take|]. cbn [omitted_events unprojected_objects more_rows].
  split; [lia|]. split; [done|]. rewrite length_take.
  destruct (drop 1000 queryset) as [|x l] eqn:Ed.
  - assert (List.length queryset <= 1000)%nat.
    { pose proof (f_equal List.length Ed) as Hd. rewrite length_drop in Hd. cbn [List.length] in Hd. lia. }
    rewrite bool_decide_eq_true_2 by done. apply Nat.ltb_ge. lia.
  - assert (1000 < List.length queryset)%nat.
    { pose proof (f_equal List.length Ed) as Hd. rewrite length_drop in Hd. cbn [List.length] in Hd. lia. }
    rewrite bool_decide_eq_false_2 by done. apply Nat.ltb_lt. lia.
Qed.

End Projection.

(** ** A source with one schedule *)

(** Two zones without transitions: UTC, and one two hours ahead of it. *)
Definition fixed_zone (offset : Z) : zone := mkZone (fun _ _ => offset) (fun u => u + offset).

Definition sample_zones (name : string) : option zone :=
  if String.eqb name "Europe/Kyiv" then Some (fixed_zone 7200) else None.

Definition schedule_row : dict pyval :=
  [("pk", VInt 1); ("schedule", VStr "sat 01:00"); ("endpoint__iana_timezone", VStr "Europe/Kyiv")].

Definition records_of (rows : list (dict pyval)) : result (list EventRecord * Z * SourceTruncation) :=
  schedule_records (fixed_zone 0) sample_zones (fun _ _ => "/url/") "backup" "schedule" "backup"
    (fun _ => "nightly") (fun _ => false) (fun _ => ("", "")) (mkDate 2024 3 1) (mkDate 2024 4 1) rows.

Lemma schedule_records_budget_witness :
  exists records undated t, records_of [schedule_row] = Ok (records, undated, t) /\ (List.length records <= 1000)%nat.
Proof.
  destruct (records_of [schedule_row]) as [[[records undated] t]|exc] eqn:E; [|vm_compute in E; discriminate E].
  exists records, undated, t. split; [reflexivity|].
  destruct (schedule_records_budget (fixed_zone 0) sample_zones (fun _ _ => "/url/") "backup" "schedule" "backup"
    (fun _ => "nightly") (fun _ => false) (fun _ => ("", "")) (mkDate 2024 3 1) (mkDate 2024 4 1) [schedule_row]
    records undated t E) as (? & ? & ? & _ & _ & H & _). exact H.
Defined.

(** A Saturday at one o'clock there is a Friday at eleven in the evening here. *)
Lemma project_schedule_row_days_witness :
  exists records, project_schedule_row (fixed_zone 0) sample_zones (fun _ _ => "/url/") "backup" "schedule" "backup"
    (fun _ => "nightly") (fun _ => false) (fun _ => ("", "")) (mkDate 2024 3 1) (mkDate 2024 4 1) schedule_row = Ok records /\
    exists r, r ∈ records /\ ev_day (er_event r) = mkDate 2024 3 8 /\ ev_approximate (er_event r) = false.
Proof.
  assert (Hz : forall o, 0 <= o <= 7200 -> zone_ok (fixed_zone o) /\ zone_law (fixed_zone o))
    by (intros o Ho; unfold zone_ok, zone_law, fixed_zone, seconds_per_day; simpl; repeat split; intros; lia).
  destruct (project_schedule_row_days (fixed_zone 0) sample_zones (fun _ _ => "/url/") "backup" "schedule" "backup"
    (fun _ => "nightly") (fun _ => false) (fun _ => ("", "")) (mkDate 2024 3 1) (mkDate 2024 4 1) schedule_row)
    as (records & Hr & Hdays).
  - apply Hz. lia.
  - intros n z. unfold sample_zones. destruct (String.eqb n "Europe/Kyiv"); [|discriminate].
    intros [= <-]. apply Hz. lia.
  - vm_compute. split; discriminate.
  - vm_compute. split; discriminate.
  - exists records. split; [exact Hr|]. apply Hdays. split; [vm_compute; split; [discriminate|reflexivity]|].
    exists (mkDate 2024 3 9), true.
    split; [vm_compute; repeat split; discriminate|]. split; [vm_compute; reflexivity|]. split; [|vm_compute; reflexivity].
    change (mkDate 2024 3 8) with (fromordinal (zn_fromutc (fixed_zone 0) (toordinal (mkDate 2024 3 9) * 86400 + 3600 - 7200) / 86400)).
    apply (shown_moment _ _ _ _ _ (fixed_zone 7200) 3600); [vm_compute; reflexivity|vm_compute; reflexivity|].
    intros u'. cbn [zn_fromutc fixed_zone]. lia.
Defined.
