(* ===== verification/ScheduleParser.v ===== *)
(** * The next run of a backup schedule

    schemas/schedule_parser.py, [parse_systemd_calendar_to_datetime]: from the
    text of a schedule to the next moment it runs, in UTC, after a base time.
    The base time of the callers is [datetime.now(timezone.utc)]. *)
From Stdlib Require Import ZArith Lia Ascii String.
From stdpp Require Import base list strings.
From S2P Require Import Prelude Dates Text CalendarGrid.

Record datetime := mkDatetime {
  dt_date : date; dt_hour : Z; dt_minute : Z; dt_second : Z; dt_microsecond : Z
}.

(** [now.replace(hour=h, minute=m, second=s, microsecond=0)] *)
Definition at_time (d : date) (h m s : Z) : result datetime :=
  if ((0 <=? h) && (h <=? 23) && (0 <=? m) && (m <=? 59) && (0 <=? s) && (s <=? 59))%bool
  then Ok (mkDatetime d h m s 0)
  else Err (ValueError "hour must be in 0..23, minute and second in 0..59").

(** [dt + timedelta(days=n)] *)
Definition plus_days (t : datetime) (n : Z) : result datetime :=
  d ← add_days (dt_date t) n;
  mret (mkDatetime d (dt_hour t) (dt_minute t) (dt_second t) (dt_microsecond t)).

(** [now.replace(minute=0, second=0, microsecond=0) + timedelta(hours=1)] *)
Definition next_hour (t : datetime) : result datetime :=
  if dt_hour t <? 23 then Ok (mkDatetime (dt_date t) (dt_hour t + 1) 0 0 0)
  else d ← add_days (dt_date t) 1; mret (mkDatetime d 0 0 0 0).

(** ** The patterns *)

Definition two_digit_value (a b : ascii) : option Z :=
  match digit_val a, digit_val b with Some x, Some y => Some (x * 10 + y) | _, _ => None end.

(** [:(\d{2})] *)
Definition colon_two_digits (s : string) : option (Z * string) :=
  match s with
  | String c (String a (String b s')) =>
      if Ascii.eqb c ":" then
        match two_digit_value a b with Some n => Some (n, s') | None => None end
      else None
  | _ => None
  end.

(** [(\d{1,2}):(\d{2})(?::(\d{2}))?] at the start of [s]; a missing third
    group is read as ["0"]. *)
Definition time_at (s : string) : option (Z * Z * Z) :=
  let finish (h : Z) (rest : string) :=
    match colon_two_digits rest with
    | None => None
    | Some (m, rest') =>
        Some (h, m, match colon_two_digits rest' with Some (sec, _) => sec | None => 0 end)
    end in
  match s with
  | String a s' =>
      match digit_val a with
      | None => None
      | Some x =>
          match s' with
          | String b s2 =>
              match digit_val b with
              | Some y => finish (x * 10 + y) s2
              | None => finish x s'
              end
          | EmptyString => None
          end
      end
  | EmptyString => None
  end.

(** [re.search]: the leftmost match *)
Fixpoint search_time (s : string) : option (Z * Z * Z) :=
  match time_at s with
  | Some t => Some t
  | None => match s with EmptyString => None | String _ s' => search_time s' end
  end.

Definition lower_letter (c : ascii) : bool :=
  let n := nat_of_ascii c in (Nat.leb 97 n && Nat.leb n 122)%bool.

Definition three_letters (s : string) : option (string * string) :=
  match s with
  | String a (String b (String c s')) =>
      if (lower_letter a && lower_letter b && lower_letter c)%bool
      then Some (String a (String b (String c "")), s') else None
  | _ => None
  end.

(** [(?:,[a-z]{3})*], each group consumes four characters. *)
Fixpoint more_letters (fuel : nat) (s : string) : list string :=
  match fuel, s with
  | S fuel', String c s' =>
      if Ascii.eqb c "," then
        match three_letters s' with
        | Some (w, rest) => w :: more_letters fuel' rest
        | None => []
        end
      else []
  | _, _ => []
  end.

(** [dow_pattern.group(1).split(",")] of [re.match] *)
Definition dow_words (s : string) : list string :=
  match three_letters s with
  | Some (w, rest) => w :: more_letters (String.length rest) rest
  | None => []
  end.

Definition dow_map : dict Z :=
  [("mon", 0); ("tue", 1); ("wed", 2); ("thu", 3); ("fri", 4); ("sat", 5); ("sun", 6)].

Definition target_dows (words : list string) : list Z := omap (fun w => dget (strip w) dow_map) words.

Definition after_time (now : datetime) (h m : Z) : bool :=
  ((h <? dt_hour now) || ((dt_hour now =? h) && (m <? dt_minute now)))%bool.

(** ** The parser.  [None] is no result; the branch for ["*"] in [str(hour)] is
    never taken, because [hour] is an integer by then. *)

Definition next_daily (now : datetime) : result datetime :=
  let offset := if ((dt_hour now <? 4) || ((dt_hour now =? 4) && (dt_minute now <? 0)))%bool then 0 else 1 in
  t ← at_time (dt_date now) 4 0 0; plus_days t offset.

Definition next_weekly (now : datetime) : result datetime :=
  let until := (7 - weekday (dt_date now)) mod 7 in
  let until := if ((until =? 0) && after_time now 4 0)%bool then 7 else until in
  t ← at_time (dt_date now) 4 0 0; plus_days t until.

Definition next_monthly (now : datetime) : result datetime :=
  let d := dt_date now in
  if ((day d =? 1) && (dt_hour now <? 4))%bool then
    first ← make_date (year d) (month d) 1; at_time first 4 0 0
  else if month d =? 12 then
    first ← make_date (year d + 1) 1 1; at_time first 4 0 0
  else
    first ← make_date (year d) (month d + 1) 1; at_time first 4 0 0.

Definition next_on_day (now : datetime) (target h m s : Z) : result datetime :=
  let ahead := (target - weekday (dt_date now)) mod 7 in
  let ahead := if ((ahead =? 0) && after_time now h m)%bool then 7 else ahead in
  t ← at_time (dt_date now) h m s; plus_days t ahead.

Definition next_at_time (now : datetime) (h m s : Z) : result datetime :=
  t ← at_time (dt_date now) h m s; plus_days t (if after_time now h m then 1 else 0).

Definition some_result {A} (r : result A) : result (option A) := x ← r; mret (Some x).

Definition parse_systemd_calendar_to_datetime (schedule : string) (now : datetime) : result (option datetime) :=
  if (is_empty schedule || is_empty (strip schedule))%bool then Ok None
  else
    let schedule := strip schedule in
    let schedule_lower := lower schedule in
    if String.eqb schedule_lower "daily" then some_result (next_daily now)
    else if String.eqb schedule_lower "weekly" then some_result (next_weekly now)
    else if String.eqb schedule_lower "monthly" then some_result (next_monthly now)
    else if String.eqb schedule_lower "hourly" then some_result (next_hour now)
    else
      match search_time schedule with
      | None => Ok None
      | Some (h, m, s) =>
          match target_dows (dow_words schedule_lower) with
          | target :: _ => some_result (next_on_day now target h m s)
          | [] =>
              if (contains ":" schedule && negb (contains "-" schedule || contains "/" schedule))%bool
              then some_result (next_at_time now h m s)
              else Ok None
          end
      end.

(** ** Proof *)

(** Microseconds since the day before the first day. *)
Definition moment (t : datetime) : Z :=
  (((toordinal (dt_date t) * 24 + dt_hour t) * 60 + dt_minute t) * 60 + dt_second t) * 1000000 + dt_microsecond t.

Definition datetime_ok (t : datetime) : Prop :=
  inner_date (dt_date t) /\ 0 <= dt_hour t < 24 /\ 0 <= dt_minute t < 60 /\ 0 <= dt_second t < 60 /\
  0 <= dt_microsecond t < 1000000.

Definition minute : Z := 60 * 1000000.
Definition a_day : Z := 86400 * 1000000.

(** [t] runs at most [days] days after [now], and not a minute before it. *)
Definition upcoming (now t : datetime) (days : Z) : Prop :=
  moment now - minute < moment t <= moment now + days * a_day.

Lemma at_time_inv (d : date) (h m s : Z) (t : datetime) :
  at_time d h m s = Ok t -> t = mkDatetime d h m s 0 /\ 0 <= h <= 23 /\ 0 <= m <= 59 /\ 0 <= s <= 59.
Proof.
  unfold at_time. destruct (_ && _)%bool eqn:E; [|done]. intros [= <-].
  rewrite !andb_true_iff, !Z.leb_le in E. split; [done|lia].
Qed.

Lemma plus_days_inv (t t' : datetime) (n : Z) :
  plus_days t n = Ok t' -> moment t' = moment t + n * a_day.
Proof.
  unfold plus_days, add_days. destruct (_ && _)%bool; cbn; [|done]. intros [= <-].
  unfold moment, a_day. cbn [dt_date dt_hour dt_minute dt_second dt_microsecond]. rewrite toordinal_fromordinal. lia.
Qed.

Lemma at_time_ok (d : date) (h m s : Z) :
  0 <= h <= 23 -> 0 <= m <= 59 -> 0 <= s <= 59 -> at_time d h m s = Ok (mkDatetime d h m s 0).
Proof.
  intros Hh Hm Hs. unfold at_time.
  repeat match goal with |- context [?a <=? ?b] => rewrite (proj2 (Z.leb_le a b)) by lia end. done.
Qed.

Lemma plus_days_ok (d : date) (h m s n : Z) :
  inner_date d -> 0 <= n <= 7 -> exists t, plus_days (mkDatetime d h m s 0) n = Ok t.
Proof.
  intros Hd%inner_ordinal Hn. unfold plus_days. cbn [dt_date]. rewrite add_days_ok by lia. by eexists.
Qed.

Lemma after_time_spec (now : datetime) (h m : Z) :
  if after_time now h m then h * 60 + m < dt_hour now * 60 + dt_minute now \/ h < dt_hour now
  else dt_hour now < h \/ dt_hour now = h /\ dt_minute now <= m.
Proof.
  unfold after_time. destruct (Z.ltb_spec h (dt_hour now)), (Z.eqb_spec (dt_hour now) h), (Z.ltb_spec m (dt_minute now));
    simpl; lia.
Qed.

(** A time of today, or of a day up to a week ahead, that skips today when its
    minute is over. *)
Lemma ahead_upcoming (now t : datetime) (h m s n : Z) :
  datetime_ok now -> 0 <= h <= 23 -> 0 <= m <= 59 -> 0 <= s <= 59 -> 0 <= n <= 7 ->
  (n = 0 -> after_time now h m = false) -> (n = 7 -> after_time now h m = true) ->
  plus_days (mkDatetime (dt_date now) h m s 0) n = Ok t -> upcoming now t 7.
Proof.
  intros (_ & Hh & Hm & Hs & Hu) Hh' Hm' Hs' Hn H0 H7 Ht%plus_days_inv.
  pose proof (after_time_spec now h m) as Ha. unfold upcoming. rewrite Ht. unfold moment, minute, a_day.
  cbn [dt_date dt_hour dt_minute dt_second dt_microsecond].
  destruct (Z.eq_dec n 0) as [->|]; [rewrite H0 in Ha by done; lia|].
  destruct (Z.eq_dec n 7) as [->|]; [rewrite H7 in Ha by done; lia|]. lia.
Qed.

Lemma upcoming_weaken (now t : datetime) (d d' : Z) : d <= d' -> upcoming now t d -> upcoming now t d'.
Proof. unfold upcoming, a_day. lia. Qed.

(** What the result of a schedule has to be: a moment that is coming up. *)
Definition good (now : datetime) (r : result datetime) : Prop := exists t, r = Ok t /\ upcoming now t 32.

Lemma ahead_good (now : datetime) (h m s n : Z) :
  datetime_ok now -> 0 <= h <= 23 -> 0 <= m <= 59 -> 0 <= s <= 59 -> 0 <= n <= 7 ->
  (n = 0 -> after_time now h m = false) -> (n = 7 -> after_time now h m = true) ->
  good now (t ← at_time (dt_date now) h m s; plus_days t n).
Proof.
  intros Hok Hh Hm Hs Hn H0 H7. rewrite at_time_ok by done. cbv [mbind result_bind].
  destruct (plus_days_ok (dt_date now) h m s n) as [t Ht]; [apply Hok|done|]. exists t. split; [done|].
  apply (upcoming_weaken _ _ 7); [lia|]. exact (ahead_upcoming now t h m s n Hok Hh Hm Hs Hn H0 H7 Ht).
Qed.

Lemma next_daily_good (now : datetime) : datetime_ok now -> good now (next_daily now).
Proof.
  intros Hok. unfold next_daily. apply ahead_good; try done; try lia; case_match eqn:E; try lia.
  intros _. unfold after_time. destruct Hok as (_ & Hh & Hm & _).
  destruct (Z.ltb_spec (dt_hour now) 4), (Z.eqb_spec (dt_hour now) 4), (Z.ltb_spec (dt_minute now) 0);
    simpl in E; try done; lia.
Qed.

(** The days to a weekday, a week when it is today and over. *)
Lemma week_ahead_good (now : datetime) (k h m s : Z) :
  datetime_ok now -> 0 <= h <= 23 -> 0 <= m <= 59 -> 0 <= s <= 59 -> 0 <= k < 7 ->
  good now (t ← at_time (dt_date now) h m s;
            plus_days t (if ((k =? 0) && after_time now h m)%bool then 7 else k)).
Proof.
  intros Hok Hh Hm Hs Hk.
  destruct (Z.eqb_spec k 0) as [->|Hne]; [destruct (after_time now h m) eqn:E|]; cbn [andb];
    apply ahead_good; try done; lia.
Qed.

Lemma next_weekly_good (now : datetime) : datetime_ok now -> good now (next_weekly now).
Proof.
  intros Hok. unfold next_weekly. apply week_ahead_good; try done; try lia. apply Z.mod_pos_bound. lia.
Qed.

Lemma next_on_day_good (now : datetime) (target h m s : Z) :
  datetime_ok now -> 0 <= h <= 23 -> 0 <= m <= 59 -> 0 <= s <= 59 -> good now (next_on_day now target h m s).
Proof.
  intros Hok Hh Hm Hs. unfold next_on_day. apply week_ahead_good; try done. apply Z.mod_pos_bound. lia.
Qed.

Lemma next_at_time_good (now : datetime) (h m s : Z) :
  datetime_ok now -> 0 <= h <= 23 -> 0 <= m <= 59 -> 0 <= s <= 59 -> good now (next_at_time now h m s).
Proof.
  intros Hok Hh Hm Hs. unfold next_at_time. destruct (after_time now h m) eqn:E; apply ahead_good; try done; lia.
Qed.

Lemma next_hour_good (now : datetime) : datetime_ok now -> good now (next_hour now).
Proof.
  intros (Hd & Hh & Hm & Hs & Hu). unfold next_hour, good, upcoming, moment, minute, a_day.
  destruct (Z.ltb_spec (dt_hour now) 23).
  - eexists. split; [done|]. cbn. lia.
  - apply inner_ordinal in Hd. rewrite add_days_ok by lia. eexists. split; [done|]. cbn.
    rewrite toordinal_fromordinal. lia.
Qed.

Lemma next_monthly_good (now : datetime) : datetime_ok now -> good now (next_monthly now).
Proof.
  intros ([[Hmo Hday] Hy] & Hh & Hm & Hs & Hu). unfold next_monthly, good.
  pose proof (days_in_month_bound (year (dt_date now)) (month (dt_date now))) as Hn.
  pose proof (toordinal_day (year (dt_date now)) (month (dt_date now)) (day (dt_date now))) as Ho.
  replace (mkDate (year (dt_date now)) (month (dt_date now)) (day (dt_date now))) with (dt_date now) in Ho
    by (by destruct (dt_date now)).
  pose proof (toordinal_nextmonth (year (dt_date now)) (month (dt_date now)) Hmo) as Hnx.
  assert (Hfirst : forall y m, 1 <= m <= 12 -> 1 <= y <= 9999 -> make_date y m 1 = Ok (mkDate y m 1)).
  { intros y m Hm1 Hy1. apply (make_date_ok (mkDate y m 1)); [|done]. split; cbn; [done|].
    pose proof (days_in_month_bound y m). lia. }
  unfold upcoming, moment, minute, a_day, nextmonth in *.
  destruct (Z.eqb_spec (day (dt_date now)) 1) as [E1|E1], (Z.ltb_spec (dt_hour now) 4) as [E4|E4]; cbn [andb];
    try (rewrite Hfirst by lia; eexists; split; [done|]; cbn; lia);
    destruct (Z.eqb_spec (month (dt_date now)) 12); rewrite Hfirst by lia; eexists; (split; [done|]); cbn in *; lia.
Qed.

Lemma some_result_good (now : datetime) (r : result datetime) :
  good now r -> exists t, some_result r = Ok (Some t) /\ upcoming now t 32.
Proof. intros (t & -> & Ht). by exists t. Qed.

(** The next run of a schedule is less than a minute before the base time and
    at most 32 days after it; the parser raises only for a clock time that
    does not exist. *)
Theorem next_run_upcoming (schedule : string) (now : datetime) :
  datetime_ok now ->
  match parse_systemd_calendar_to_datetime schedule now with
  | Ok (Some t) => upcoming now t 32
  | Ok None => True
  | Err _ => exists h m s, search_time (strip schedule) = Some (h, m, s) /\ ~ (0 <= h <= 23 /\ 0 <= m <= 59 /\ 0 <= s <= 59)
  end.
Proof.
  intros Hok. assert (Hres : forall r, good now r ->
    match some_result r with Ok (Some t) => upcoming now t 32 | Ok None => True
    | Err _ => exists h m s, search_time (strip schedule) = Some (h, m, s) /\ ~ (0 <= h <= 23 /\ 0 <= m <= 59 /\ 0 <= s <= 59) end).
  { by intros r (t & -> & Ht)%some_result_good. }
  unfold parse_systemd_calendar_to_datetime. destruct (_ || _)%bool; [done|].
  destruct (String.eqb _ "daily"); [apply Hres, next_daily_good, Hok|].
  destruct (String.eqb _ "weekly"); [apply Hres, next_weekly_good, Hok|].
  destruct (String.eqb _ "monthly"); [apply Hres, next_monthly_good, Hok|].
  destruct (String.eqb _ "hourly"); [apply Hres, next_hour_good, Hok|].
  destruct (search_time (strip schedule)) as [[[h m] s]|] eqn:Et; [|done].
  assert (Hclock : 0 <= h <= 23 /\ 0 <= m <= 59 /\ 0 <= s <= 59 \/ ~ (0 <= h <= 23 /\ 0 <= m <= 59 /\ 0 <= s <= 59)) by lia.
  destruct Hclock as [(Hh & Hm & Hs)|Hbad].
  - destruct (target_dows _); [|apply Hres, next_on_day_good; done].
    destruct (_ && _)%bool; [|done]. apply Hres, next_at_time_good; done.
  - assert (exists e, at_time (dt_date now) h m s = Err e) as [e He].
    { destruct (at_time (dt_date now) h m s) as [t|e] eqn:E; [|by eexists].
      apply at_time_inv in E as (_ & ?). lia. }
    destruct (target_dows _); [destruct (_ && _)%bool; [|done]|];
      unfold next_at_time, next_on_day, some_result; rewrite He; cbn; eauto.
Qed.

(** ** Examples *)

(** Tuesday, 2 January 2024, noon. *)
Definition tuesday_noon : datetime := mkDatetime (mkDate 2024 1 2) 12 0 0 0.

(** With two weekdays only the first one counts: from Tuesday, ["mon,wed"] is
    next Monday and not Wednesday. *)
Example mon_wed_next_monday :
  parse_systemd_calendar_to_datetime "mon,wed 04:00" tuesday_noon =
  Ok (Some (mkDatetime (mkDate 2024 1 8) 4 0 0 0)).
Proof. vm_compute. reflexivity. Qed.

(** Three of the formats the documentation of the function lists have no
    result. *)
Example documented_formats_without_result :
  List.map (fun s => parse_systemd_calendar_to_datetime s tuesday_noon)
    ["*-*-* 04:00:00"; "2024-01-01 04:00"; "*/4"] = [Ok None; Ok None; Ok None].
Proof. vm_compute. reflexivity. Qed.

(** An hour that does not exist raises. *)
Example hour_out_of_range_raises :
  exists e, parse_systemd_calendar_to_datetime "24:00" tuesday_noon = Err e.
Proof. eexists. vm_compute. reflexivity. Qed.

(** A run in the current minute has already passed. *)
Example run_of_this_minute_is_past :
  let now := mkDatetime (mkDate 2024 1 2) 4 0 30 0 in
  exists t, parse_systemd_calendar_to_datetime "04:00" now = Ok (Some t) /\ moment t < moment now.
Proof. exists (mkDatetime (mkDate 2024 1 2) 4 0 0 0). split; vm_compute; reflexivity. Qed.

Lemma next_run_upcoming_witness :
  datetime_ok tuesday_noon /\ upcoming tuesday_noon (mkDatetime (mkDate 2024 1 8) 4 0 0 0) 32.
Proof.
  assert (Hok : datetime_ok tuesday_noon) by (vm_compute; repeat split; discriminate || reflexivity).
  split; [exact Hok|]. exact (next_run_upcoming "mon,wed 04:00" tuesday_noon Hok).
Defined.
