(* ===== verification/PyFloat.v ===== *)
(** * Numbers from loosely typed values

    [int(round(float(value)))], the conversion of intent/payload.py and
    intent/snapshot.py: the double nearest to a number or a decimal text, and
    the integer nearest to that, halves to even.  Doubles are pairs of a
    significand and an exponent of two. *)
From Stdlib Require Import ZArith Lia Ascii String.
From stdpp Require Import base list strings pretty.
From S2P Require Import Prelude Text.

(** The integer nearest to [n / d], a half to the even one. *)
Definition round_half_even (n d : Z) : Z :=
  let q := n / d in
  let r := n mod d in
  if 2 * r <? d then q
  else if d <? 2 * r then q + 1
  else if Z.even q then q else q + 1.

(** [floor(log2(n / d))] for positive [n] and [d]. *)
Definition log2_ratio (n d : Z) : Z :=
  let k := Z.log2 n - Z.log2 d in
  if (if 0 <=? k then d * 2 ^ k <=? n else d <=? n * 2 ^ (- k)) then k else k - 1.

(** The double nearest to [n / d] ([d] positive), as [m * 2 ^ x]; [None] when
    it is infinite. *)
Definition to_double (n d : Z) : option (Z * Z) :=
  if n =? 0 then Some (0, 0)
  else
    let e := log2_ratio (Z.abs n) d in
    let x := Z.max (e - 52) (-1074) in
    let m := if x <? 0 then round_half_even (n * 2 ^ (- x)) d else round_half_even n (d * 2 ^ x) in
    if (if 0 <=? x then 2 ^ 1024 <=? Z.abs m * 2 ^ x else 2 ^ 1024 * 2 ^ (- x) <=? Z.abs m)
    then None else Some (m, x).

(** [round(v)] of a finite double *)
Definition round_double (m x : Z) : Z :=
  if 0 <=? x then m * 2 ^ x else round_half_even m (2 ^ (- x)).

(** ** [float(text)] *)

Inductive number :=
| Finite (n d : Z)
| Infinite
| NaN.

(** Digits with single underscores between them, from the left: the value, the
    number of digits and the rest; [prev] tells whether a digit came before. *)
Fixpoint digits_prefix (acc : Z) (count : Z) (prev : bool) (s : string) : option (Z * Z * string) :=
  match s with
  | EmptyString => if (prev || (count =? 0))%bool then Some (acc, count, "") else None
  | String c s' =>
      match digit_val c with
      | Some d => digits_prefix (acc * 10 + d) (count + 1) true s'
      | None =>
          if (Ascii.eqb c "_" && prev)%bool then digits_prefix acc count false s'
          else if (prev || (count =? 0))%bool then Some (acc, count, s) else None
      end
  end.

Definition with_sign (s : string) : Z * string :=
  match s with
  | String "-" s' => (-1, s')
  | String "+" s' => (1, s')
  | _ => (1, s)
  end.

(** [e<integer>] up to the end of the text *)
Definition exponent (s : string) : option Z :=
  match s with
  | EmptyString => Some 0
  | String c s' =>
      if (Ascii.eqb c "e" || Ascii.eqb c "E")%bool then
        let '(sg, s2) := with_sign s' in
        match digits_prefix 0 0 false s2 with
        | Some (n, count, EmptyString) => if 0 <? count then Some (sg * n) else None
        | _ => None
        end
      else None
  end.

Definition scaled (sign m e : Z) : number :=
  if 0 <=? e then Finite (sign * m * 10 ^ e) 1 else Finite (sign * m) (10 ^ (- e)).

(** A decimal number without its sign. *)
Definition unsigned_decimal (sign : Z) (s : string) : option number :=
  match digits_prefix 0 0 false s with
  | None => None
  | Some (n, count, rest) =>
      match rest with
      | String "." rest' =>
          match digits_prefix n 0 false rest' with
          | None => None
          | Some (m, frac, rest'') =>
              if (count + frac =? 0) then None
              else match exponent rest'' with
                   | Some e => Some (scaled sign m (e - frac))
                   | None => None
                   end
          end
      | _ =>
          if count =? 0 then None
          else match exponent rest with
               | Some e => Some (scaled sign n e)
               | None => None
               end
      end
  end.

(** [float(s)]; [None] is a [ValueError]. *)
Definition float_of_string (s : string) : option number :=
  let '(sign, s') := with_sign (strip s) in
  let word := lower s' in
  if mem_str word ["inf"; "infinity"] then Some Infinite
  else if String.eqb word "nan" then Some NaN
  else unsigned_decimal sign s'.

(** [int(round(x))] of the double nearest to a number: infinities raise
    [OverflowError], a NaN [ValueError]. *)
Definition round_number (x : number) : result Z :=
  match x with
  | Finite n d =>
      match to_double n d with
      | Some (m, e) => Ok (round_double m e)
      | None => Err (OverflowError "cannot convert float infinity to integer")
      end
  | Infinite => Err (OverflowError "cannot convert float infinity to integer")
  | NaN => Err (ValueError "cannot convert float NaN to integer")
  end.

(** [int(round(float(value)))] *)
Definition int_round_float (v : pyval) : result Z :=
  match v with
  | VInt z =>
      match to_double z 1 with
      | Some (m, e) => Ok (round_double m e)
      | None => Err (OverflowError "int too large to convert to float")
      end
  | VBool b => Ok (if b then 1 else 0)
  | VStr s | VFloat s =>
      match float_of_string s with
      | Some x => round_number x
      | None => Err (ValueError "could not convert string to float")
      end
  | VNone | VList _ | VDict _ => Err (TypeError "float() argument must be a string or a real number")
  end.

(** [_int_or_none]: it catches [TypeError] and [ValueError] only. *)
Definition _int_or_none (v : pyval) : result (option Z) :=
  if none_or_empty v then Ok None
  else match int_round_float v with
       | Ok z => Ok (Some z)
       | Err (TypeError _) | Err (ValueError _) => Ok None
       | Err e => Err e
       end.

Definition _str_or_none (v : pyval) : option string := if none_or_empty v then None else Some (str v).

(** ** Integers of up to 53 bits are kept *)

Lemma round_half_even_exact (n d : Z) : 0 < d -> round_half_even (n * d) d = n.
Proof.
  intros Hd. unfold round_half_even. rewrite Z.div_mul, Z_mod_mult by lia.
  by destruct (Z.ltb_spec (2 * 0) d); [|lia].
Qed.

Lemma log2_ratio_1 (n : Z) : 0 < n -> log2_ratio n 1 = Z.log2 n.
Proof.
  intros Hn. unfold log2_ratio. change (Z.log2 1) with 0. rewrite Z.sub_0_r.
  pose proof (Z.log2_nonneg n). rewrite (proj2 (Z.leb_le 0 _)) by done.
  pose proof (Z.log2_spec n Hn) as [Hl _]. by rewrite (proj2 (Z.leb_le (1 * 2 ^ Z.log2 n) n)) by lia.
Qed.

Lemma to_double_exact (z : Z) :
  Z.abs z < 2 ^ 53 -> exists m x, to_double z 1 = Some (m, x) /\ round_double m x = z.
Proof.
  intros Hz. unfold to_double. destruct (Z.eqb_spec z 0) as [->|Hne]; [by exists 0, 0|].
  rewrite log2_ratio_1 by lia. set (e := Z.log2 (Z.abs z)).
  assert (0 <= e <= 52) as He.
  { split; [apply Z.log2_nonneg|]. enough (e < 53) by lia. apply Z.log2_lt_pow2; lia. }
  rewrite Z.max_l by lia. destruct (Z.ltb_spec (e - 52) 0) as [Hx|Hx].
  - rewrite (proj2 (Z.leb_gt 0 (e - 52))) by lia.
    rewrite <- (Z.mul_1_r (z * 2 ^ _)), round_half_even_exact by lia.
    assert (0 < 2 ^ (- (e - 52))) by (apply Z.pow_pos_nonneg; lia).
    rewrite (proj2 (Z.leb_gt _ _)).
    + do 2 eexists. split; [done|]. unfold round_double. rewrite (proj2 (Z.leb_gt 0 (e - 52))) by lia.
      by apply round_half_even_exact.
    + rewrite Z.abs_mul, (Z.abs_eq (2 ^ _)) by lia. apply Z.mul_lt_mono_pos_r; [done|].
      eapply Z.lt_trans; [exact Hz|]. by apply Z.pow_lt_mono_r.
  - assert (e - 52 = 0) as -> by lia. change (0 <=? 0) with true. cbv iota.
    pose proof (round_half_even_exact z 1 ltac:(lia)) as E. rewrite Z.mul_1_r in E.
    rewrite Z.pow_0_r, !Z.mul_1_r, E. rewrite (proj2 (Z.leb_gt _ _)).
    + do 2 eexists. split; [done|]. unfold round_double. cbn. lia.
    + eapply Z.lt_trans; [exact Hz|]. by apply Z.pow_lt_mono_r.
Qed.

Lemma digits_prefix_all (s : string) (acc count n : Z) (p : bool) :
  all_chars is_digit s = true -> int_digits acc p s = Some n ->
  digits_prefix acc count p s = Some (n, count + Z.of_nat (String.length s), "").
Proof.
  revert acc count p. induction s as [|c s IH]; intros acc count p Hd; cbn [int_digits digits_prefix String.length].
  - destruct p; [|done]. intros [= <-]. cbn. by rewrite Z.add_0_r.
  - cbn [all_chars] in Hd. apply andb_true_iff in Hd as [Hc Hd]. unfold is_digit in Hc.
    destruct (digit_val c) as [d|]; [|done]. intros Hn. rewrite (IH _ (count + 1) true Hd Hn). do 2 f_equal. f_equal. lia.
Qed.

Lemma unsigned_decimal_pretty (sign : Z) (n : N) :
  unsigned_decimal sign (pretty n) = Some (Finite (sign * Z.of_N n) 1).
Proof.
  unfold unsigned_decimal.
  rewrite (digits_prefix_all _ 0 0 _ false (pretty_N_chars n) (int_digits_pretty n)).
  assert (0 < Z.of_nat (String.length (pretty n))) as Hlen.
  { pose proof (int_digits_pretty n). destruct (pretty n); [done|]. cbn [String.length]. lia. }
  rewrite Z.add_0_l. destruct (Z.eqb_spec (Z.of_nat (String.length (pretty n))) 0); [lia|]. cbn.
  unfold scaled. cbn. by rewrite Z.mul_1_r.
Qed.

Lemma float_of_string_pretty (z : Z) : float_of_string (pretty z) = Some (Finite z 1).
Proof.
  unfold float_of_string. rewrite strip_pretty.
  assert (Hw : forall (sign : Z) (n : N), with_sign (pretty n) = (1, pretty n) /\
    (if mem_str (lower (pretty n)) ["inf"; "infinity"] then Some Infinite
     else if String.eqb (lower (pretty n)) "nan" then Some NaN else unsigned_decimal sign (pretty n)) =
    Some (Finite (sign * Z.of_N n) 1)).
  { intros sign n. pose proof (pretty_N_chars n) as Hc. pose proof (unsigned_decimal_pretty sign n) as Hu.
    pose proof (int_digits_pretty n) as Hi. destruct (pretty n) as [|c s]; [done|].
    cbn [all_chars] in Hc. apply andb_true_iff in Hc as [Hc _].
    split; [destruct c as [[] [] [] [] [] [] [] []]; try discriminate Hc; done|].
    rewrite Hu. destruct c as [[] [] [] [] [] [] [] []]; try discriminate Hc; done. }
  destruct z as [|p|p]; [done| |].
  - change (pretty (Zpos p)) with (pretty (Npos p)). destruct (Hw 1 (Npos p)) as [-> Hf].
    rewrite Hf. f_equal.
  - change (pretty (Zneg p)) with (String "-" (pretty (Npos p))). cbn [with_sign].
    destruct (Hw (-1) (Npos p)) as [_ Hf]. rewrite Hf. f_equal.
Qed.

Lemma int_or_none_int (z : Z) : Z.abs z < 2 ^ 53 -> _int_or_none (VInt z) = Ok (Some z).
Proof.
  intros (m & x & Hd & Hr)%to_double_exact. unfold _int_or_none. cbn [none_or_empty int_round_float].
  by rewrite Hd, Hr.
Qed.

(** The text of an integer of up to 53 bits is read as that integer. *)
Lemma int_or_none_pretty (z : Z) : Z.abs z < 2 ^ 53 -> _int_or_none (VStr (pretty z)) = Ok (Some z).
Proof.
  intros (m & x & Hd & Hr)%to_double_exact. unfold _int_or_none. cbn [none_or_empty int_round_float].
  rewrite float_of_string_pretty. cbn [round_number]. rewrite Hd, Hr.
  destruct (is_empty (pretty z)) eqn:E; [|done]. unfold is_empty in E. apply String.eqb_eq in E.
  pose proof (int_of_string_pretty z) as Hz. by rewrite E in Hz.
Qed.

Example round_examples :
  List.map _int_or_none [VFloat "2.50"; VFloat "3.50"; VStr " 1e3 "; VStr "12x"; VInt (2 ^ 53 + 1); VStr "inf"] =
  [Ok (Some 2); Ok (Some 4); Ok (Some 1000); Ok None; Ok (Some (2 ^ 53));
   Err (OverflowError "cannot convert float infinity to integer")].
Proof. vm_compute. reflexivity. Qed.
