(* ===== verification/IntentDiffs.v ===== *)
(** * The changes of an intent branch

    intent/diff_union.py, intent/diff_classify.py, services/branch_intent.py:
    a branch records changes of virtual machines and of their intents as
    ChangeDiff rows; they are resolved to one operation per virtual machine,
    with its kind, and to the two safety gates of the branch. *)
From Stdlib Require Import ZArith Lia Ascii String.
From stdpp Require Import base list sets strings pretty.
From S2P Require Import Prelude Text VmObjects.

(** ** Rows *)

(** A virtual machine as the intent code reads it: the core row, the slug and
    name of its role, the name of its type, loosely typed columns
    ([iv_attrs]), the sizes of its disks, its interfaces and addresses, the
    keys of its relations, and its [proxbox_intent] row, if there is one. *)
Record IntentVM := mkIntentVM {
  iv_core : VirtualMachine;
  iv_type_name : option string;
  iv_role : option (string * string);
  iv_attrs : dict pyval;
  iv_disks : list pyval;
  iv_interfaces : list (dict pyval);
  iv_ip4 : option string;
  iv_ip6 : option string;
  iv_custom_field_data : pyval;
  iv_relations : dict Z;
  iv_intent : option (dict pyval)
}.

(** The object a ChangeDiff points to. *)
Inductive changed :=
| ChangedVM (vm : IntentVM)
| ChangedIntent (virtual_machine_id : pyval) (virtual_machine : result (option IntentVM)).

Record ChangeDiff := mkDiff {
  cdf_pk : pyval;
  cdf_model : string;
  cdf_action : pyval;
  cdf_object_id : option Z;
  cdf_object_repr : pyval;
  cdf_object : result (option changed);
  cdf_original : pyval;
  cdf_modified : pyval;
  cdf_current : pyval
}.

(** A branch: its key and name, and its ChangeDiffs when the branching plugin
    gives it any. *)
Record Branch := mkBranch {
  br_pk : option Z;
  br_name : string;
  br_schema_id : pyval;
  br_changediffs : option (list ChangeDiff)
}.

(** The database of the branch: what [objects.get(pk=...)] gives for a virtual
    machine and for an intent ([Ok None]: [DoesNotExist]; every other error is
    [Err]), and the error that reading the ChangeDiffs of a model ends in. *)
Record intent_db := mkIntentDb {
  db_vm : Z -> result (option IntentVM);
  db_intent : Z -> result (option pyval);
  db_rows_error : string -> option exn
}.

(** ** diff_union.py *)

Definition ACTIONS : list string := ["create"; "update"; "delete"].
Definition VM_MODEL : string := "virtualmachine".
Definition INTENT_MODEL : string := "proxmoxvmintent".

Definition _changed_object (row : ChangeDiff) : option changed :=
  match cdf_object row with Ok o => o | Err _ => None end.

Definition _action (row : ChangeDiff) : option string :=
  let value := lower (str (py_or (cdf_action row) (VStr ""))) in
  if mem_str value ACTIONS then Some value else None.

(** [type(value) is int] *)
Definition exact_int (v : pyval) : option Z := match v with VInt z => Some z | _ => None end.

Definition _json_vm_id (row : ChangeDiff) : option Z :=
  list_find_map (fun data =>
    match data with VDict d => exact_int (get "virtual_machine" d) | _ => None end)
    [cdf_original row; cdf_modified row; cdf_current row].

Definition intent_diff_virtual_machine_id (db : intent_db) (row : ChangeDiff) : result (option Z) :=
  let direct :=
    match _changed_object row with Some (ChangedIntent v _) => exact_int v | _ => None end in
  match direct with
  | Some z => Ok (Some z)
  | None =>
      match _json_vm_id row with
      | Some z => Ok (Some z)
      | None =>
          match cdf_object_id row with
          | None => Ok None
          | Some pk => intent ← db_intent db pk; mret (intent ≫= exact_int)
          end
      end
  end.

Definition _vm_for_vm_diff (db : intent_db) (row : ChangeDiff) : result (option IntentVM) :=
  match _changed_object row with
  | Some (ChangedVM vm) => Ok (Some vm)
  | Some (ChangedIntent _ _) | None =>
      match cdf_object_id row with None => Ok None | Some pk => db_vm db pk end
  end.

Definition virtual_machine_diff_id (vm : option IntentVM) (row : ChangeDiff) : option Z :=
  match vm with Some vm => Some (vm_pk (iv_core vm)) | None => cdf_object_id row end.

Definition virtual_machine_diff_name (vm : option IntentVM) (row : ChangeDiff) : string :=
  let name := match vm with Some vm => vm_name (iv_core vm) | None => "" end in
  if nonempty name then name
  else
    let recorded := list_find_map (fun data =>
      match data with
      | VDict d => let v := get "name" d in if none_or_empty v then None else Some (str v)
      | _ => None
      end) [cdf_original row; cdf_current row] in
    match recorded with
    | Some s => s
    | None => if none_or_empty (cdf_object_repr row) then "" else str (cdf_object_repr row)
    end.

Definition _vm_for_intent_diff (db : intent_db) (row : ChangeDiff) (virtual_machine_id : Z) :
    result (option IntentVM) :=
  match _changed_object row with
  | Some (ChangedIntent _ vm) =>
      found ← vm;
      match found with Some vm => Ok (Some vm) | None => db_vm db virtual_machine_id end
  | _ => db_vm db virtual_machine_id
  end.

Definition _rows (db : intent_db) (branch : Branch) (model : string) : result (list ChangeDiff) :=
  match br_changediffs branch with
  | None => Ok []
  | Some l =>
      match db_rows_error db model with
      | Some exc => Err exc
      | None => Ok (List.filter (fun row => String.eqb (cdf_model row) model) l)
      end
  end.

(** [tuple[str, int]]: [("vm", id)] and [("deleted-diff", index)] *)
Inductive diff_key :=
| KVm (id : Z)
| KDeleted (index : nat).

#[global] Instance diff_key_eq_dec : EqDecision diff_key.
Proof. solve_decision. Defined.

Definition entry : Type := option IntentVM * string * ChangeDiff.

Definition has_key (k : diff_key) (resolved : list (diff_key * entry)) : bool :=
  existsb (fun ke => bool_decide (fst ke = k)) resolved.

(** [if key not in resolved: resolved[key] = e] *)
Definition add_new (resolved : list (diff_key * entry)) (item : option (diff_key * entry)) : list (diff_key * entry) :=
  match item with
  | Some (key, e) => if has_key key resolved then resolved else resolved ++ [(key, e)]
  | None => resolved
  end.

(** The loop body for a core row: the key it claims and its entry. *)
Definition core_item (db : intent_db) (index : nat) (row : ChangeDiff) : result (option (diff_key * entry)) :=
  match _action row with
  | None => Ok None
  | Some op =>
      vm ← _vm_for_vm_diff db row;
      mret match virtual_machine_diff_id vm row with
           | Some id => Some (KVm id, (vm, op, row))
           | None => if String.eqb op "delete" then Some (KDeleted index, (vm, op, row)) else None
           end
  end.

Fixpoint union_core (db : intent_db) (index : nat) (rows : list ChangeDiff)
    (resolved : list (diff_key * entry)) : result (list (diff_key * entry)) :=
  match rows with
  | [] => Ok resolved
  | row :: rest =>
      item ← core_item db index row;
      union_core db (S index) rest (add_new resolved item)
  end.

(** The loop body for the row of an intent.  A virtual machine that is resolved
    already is not read. *)
Definition intent_item (db : intent_db) (row : ChangeDiff) (resolved : list (diff_key * entry)) :
    result (option (diff_key * entry)) :=
  match _action row with
  | None => Ok None
  | Some _ =>
      vm_id ← intent_diff_virtual_machine_id db row;
      match vm_id with
      | None => Ok None
      | Some id =>
          if has_key (KVm id) resolved then Ok None
          else
            vm ← _vm_for_intent_diff db row id;
            mret match vm with
                 | Some vm => Some (KVm id, (Some vm, "update", row))
                 | None => None
                 end
      end
  end.

Fixpoint union_intents (db : intent_db) (rows : list ChangeDiff) (resolved : list (diff_key * entry)) :
    result (list (diff_key * entry)) :=
  match rows with
  | [] => Ok resolved
  | row :: rest =>
      item ← intent_item db row resolved;
      union_intents db rest (add_new resolved item)
  end.

(** The dictionary [resolved] of [virtual_machine_diff_union]. *)
Definition resolved_diffs (db : intent_db) (branch : Branch) : result (list (diff_key * entry)) :=
  core ← _rows db branch VM_MODEL;
  resolved ← union_core db 0 core [];
  intents ← _rows db branch INTENT_MODEL;
  union_intents db intents resolved.

Definition virtual_machine_diff_union (db : intent_db) (branch : Branch) : result (list entry) :=
  l ← resolved_diffs db branch; mret (List.map snd l).

(** ** diff_classify.py *)

Definition _contains_lxc_marker (value : pyval) : bool :=
  let text := lower (str (py_or value (VStr ""))) in
  (contains "lxc" text || contains "container" text)%bool.

Definition opt_str (s : option string) : pyval := match s with Some s => VStr s | None => VNone end.

Definition _role_markers (vm : option IntentVM) : list pyval :=
  match vm with
  | None => []
  | Some vm =>
      (match vm_type_slug (iv_core vm) with
       | Some slug => [VStr slug; opt_str (iv_type_name vm)]
       | None => []
       end) ++
      (match iv_role vm with Some (slug, name) => [VStr slug; VStr name] | None => [] end)
  end.

Definition _snapshot_dict (data : pyval) : dict pyval := match data with VDict d => d | _ => [] end.

Definition _snapshot_kind (data : dict pyval) : string :=
  let recorded :=
    match get "proxbox_sync_state" data with
    | VDict ss =>
        let value := get "proxmox_vm_type" ss in
        if none_or_empty value then None
        else Some (if _contains_lxc_marker value then "lxc" else "qemu")
    | _ => None
    end in
  match recorded with
  | Some kind => kind
  | None =>
      let nested := flat_map (fun key =>
        match get key data with
        | VDict v => [get "slug" v; get "name" v]
        | v => [v]
        end) ["virtual_machine_type"; "role"] in
      let flat := List.map (fun key => get key data) ["virtual_machine_type_slug"; "role_slug"; "role_name"] in
      if existsb _contains_lxc_marker (nested ++ flat) then "lxc" else ""
  end.

Definition known_type (vm : option IntentVM) : string :=
  match vm with Some vm => resolve_known_vm_type (iv_core vm) | None => "" end.

Definition _classify_kind (vm : option IntentVM) (change_diff : ChangeDiff) : string :=
  let kind := known_type vm in
  if nonempty kind then kind
  else if existsb _contains_lxc_marker (_role_markers vm) then "lxc"
  else
    let k1 := _snapshot_kind (_snapshot_dict (cdf_original change_diff)) in
    if nonempty k1 then k1
    else
      let k2 := _snapshot_kind (_snapshot_dict (cdf_current change_diff)) in
      if nonempty k2 then k2 else "qemu".

Definition classify_diff (vm : option IntentVM) (op : string) (change_diff : ChangeDiff) : string * string :=
  let normalized := lower op in
  let normalized := if mem_str normalized ACTIONS then normalized else "update" in
  (normalized, _classify_kind vm change_diff).

(** ** branch_intent.py *)

Record BranchIntentFlags := mkFlags {
  apply_to_proxmox : bool;
  apply_destroy_confirmed : bool
}.

Definition FALSE_BRANCH_INTENT : BranchIntentFlags := mkFlags false false.

(** The plugins behind the gates: is branching there, does a branch with this
    key and schema exist, and the columns of the intent row stored for it.
    Any of them may raise. *)
Record gate_env := mkGateEnv {
  ge_branching_available : result bool;
  ge_branch_exists : Z -> string -> result bool;
  ge_branch_intent : Z -> string -> result (option (pyval * pyval))
}.

Definition resolve_branch_reference (g : gate_env) (branch_id : option Z) (branch_schema_id : pyval) : bool :=
  match (available ← ge_branching_available g;
         if negb available then mret false
         else match branch_id with
              | None => mret false
              | Some id =>
                  if negb (truthy branch_schema_id) then mret false
                  else ge_branch_exists g id (str branch_schema_id)
              end) with
  | Ok b => b
  | Err _ => false
  end.

Definition is_true (v : pyval) : bool := match v with VBool true => true | _ => false end.

Definition resolve_branch_intent_flags (g : gate_env) (branch : Branch) : BranchIntentFlags :=
  if negb (resolve_branch_reference g (br_pk branch) (br_schema_id branch)) then FALSE_BRANCH_INTENT
  else match br_pk branch with
       | None => FALSE_BRANCH_INTENT
       | Some id =>
           match ge_branch_intent g id (str (br_schema_id branch)) with
           | Ok (Some (a, d)) => mkFlags (is_true a) (is_true d)
           | Ok None | Err _ => FALSE_BRANCH_INTENT
           end
       end.

(** ** What the union of the two streams promises

    The specification speaks about the rows alone: which operation a row asks
    for, which virtual machine it is about, and which rows have been there
    before it. *)

(** The action of the row, in any case, is one of the three operations. *)
Definition asks (row : ChangeDiff) (op : string) : Prop :=
  lower (str (cdf_action row)) = op /\ (op = "create" \/ op = "update" \/ op = "delete").

(** The virtual machine of a core row: the live object, else the stored row
    with the recorded key, else none. *)
Definition machine_of (db : intent_db) (row : ChangeDiff) (vm : option IntentVM) : Prop :=
  match cdf_object row with
  | Ok (Some (ChangedVM live)) => vm = Some live
  | _ => match cdf_object_id row with Some pk => db_vm db pk = Ok vm | None => vm = None end
  end.

(** The core row at position [i] asks for an operation under a key: the one of
    its machine, else the recorded one; a deletion without either stands for
    itself. *)
Inductive core_claim (db : intent_db) (i : nat) (row : ChangeDiff) : diff_key -> entry -> Prop :=
| claim_machine op vm : asks row op -> machine_of db row (Some vm) ->
    core_claim db i row (KVm (vm_pk (iv_core vm))) (Some vm, op, row)
| claim_recorded op pk : asks row op -> machine_of db row None -> cdf_object_id row = Some pk ->
    core_claim db i row (KVm pk) (None, op, row)
| claim_unknown : asks row "delete" -> machine_of db row None -> cdf_object_id row = None ->
    core_claim db i row (KDeleted i) (None, "delete", row).

(** The recorded data of a row names a virtual machine. *)
Definition names_vm (data : pyval) (id : Z) : Prop := exists d, data = VDict d /\ get "virtual_machine" d = VInt id.

(** The first of them that names one names [id]. *)
Inductive first_named (id : Z) : list pyval -> Prop :=
| named_here data rest : names_vm data id -> first_named id (data :: rest)
| named_later data rest : (forall id', ~ names_vm data id') -> first_named id rest -> first_named id (data :: rest).

(** The virtual machine an intent row is about: that of the live intent, else
    the one recorded in the row, else that of the stored intent. *)
Inductive concerns (db : intent_db) (row : ChangeDiff) (id : Z) : Prop :=
| concerns_live vm : cdf_object row = Ok (Some (ChangedIntent (VInt id) vm)) -> concerns db row id
| concerns_recorded :
    (forall id' vm, cdf_object row <> Ok (Some (ChangedIntent (VInt id') vm))) ->
    first_named id [cdf_original row; cdf_modified row; cdf_current row] -> concerns db row id
| concerns_stored pk :
    (forall id' vm, cdf_object row <> Ok (Some (ChangedIntent (VInt id') vm))) ->
    (forall id', ~ first_named id' [cdf_original row; cdf_modified row; cdf_current row]) ->
    cdf_object_id row = Some pk -> db_intent db pk = Ok (Some (VInt id)) -> concerns db row id.

(** The virtual machine an intent row updates, which must exist: that of the
    live intent, else the stored one. *)
Definition existing_vm (db : intent_db) (row : ChangeDiff) (id : Z) (vm : IntentVM) : Prop :=
  match cdf_object row with
  | Ok (Some (ChangedIntent _ (Ok (Some live)))) => vm = live
  | Ok (Some (ChangedIntent _ (Err _))) => False
  | _ => db_vm db id = Ok (Some vm)
  end.

Inductive intent_claim (db : intent_db) (row : ChangeDiff) : diff_key -> entry -> Prop :=
| claim_intent op id vm : asks row op -> concerns db row id -> existing_vm db row id vm ->
    intent_claim db row (KVm id) (Some vm, "update", row).

(** What a branch asks for: of the core rows the first one per key; of the
    intent rows the first one per key that no core row has. *)
Inductive asked (db : intent_db) (core intents : list ChangeDiff) (k : diff_key) (e : entry) : Prop :=
| asked_core i row : core !! i = Some row -> core_claim db i row k e ->
    (forall j row' e', (j < i)%nat -> core !! j = Some row' -> ~ core_claim db j row' k e') -> asked db core intents k e
| asked_intent i row : intents !! i = Some row -> intent_claim db row k e ->
    (forall j row' e', core !! j = Some row' -> ~ core_claim db j row' k e') ->
    (forall j row' e', (j < i)%nat -> intents !! j = Some row' -> ~ intent_claim db row' k e') ->
    asked db core intents k e.

(** The rows of a model on a branch. *)
Definition rows_of (branch : Branch) (model : string) : list ChangeDiff :=
  filter (fun row => cdf_model row = model) (default [] (br_changediffs branch)).

(** A read of the database that ends in an error. *)
Definition read_error (db : intent_db) (branch : Branch) (exc : exn) : Prop :=
  (exists model, db_rows_error db model = Some exc) \/ (exists pk, db_vm db pk = Err exc) \/
  (exists pk, db_intent db pk = Err exc) \/
  exists row v, row ∈ rows_of branch "proxmoxvmintent" /\ cdf_object row = Ok (Some (ChangedIntent v (Err exc))).

(** *** The functions against the relations *)

Lemma asks_action (row : ChangeDiff) (op : string) : _action row = Some op <-> asks row op.
Proof.
  unfold _action, asks, py_or. destruct (truthy (cdf_action row)) eqn:E.
  - destruct (mem_str _ ACTIONS) eqn:Em.
    + apply mem_str_spec in Em. split; [intros [= <-]|intros [-> _]; done]. split; [done|]. unfold ACTIONS in Em. set_solver.
    + apply mem_str_false in Em. split; [done|]. intros [<- H]. destruct Em. unfold ACTIONS. set_solver.
  - split; [done|]. intros [<- H]. exfalso. destruct (cdf_action row) as [|b|z|t|t|l|d]; cbn in E.
    + naive_solver.
    + destruct b; naive_solver.
    + assert (z = 0) as -> by (destruct (Z.eqb_spec z 0); [done|by destruct z]). naive_solver.
    + apply negb_false_iff, mem_str_spec in E. rewrite !elem_of_cons in E.
      destruct E as [->|[->|E]]; [vm_compute in H; naive_solver..|by apply elem_of_nil in E].
    + destruct t; [vm_compute in H; naive_solver|done].
    + destruct l; [vm_compute in H; naive_solver|done].
    + destruct d; [vm_compute in H; naive_solver|done].
Qed.

Lemma machine_of_spec (db : intent_db) (row : ChangeDiff) (vm : option IntentVM) :
  _vm_for_vm_diff db row = Ok vm <-> machine_of db row vm.
Proof.
  unfold _vm_for_vm_diff, machine_of, _changed_object.
  destruct (cdf_object row) as [[[]|]|]; destruct (cdf_object_id row); naive_solver.
Qed.

Lemma core_item_spec (db : intent_db) (i : nat) (row : ChangeDiff) (k : diff_key) (e : entry) :
  core_item db i row = Ok (Some (k, e)) <-> core_claim db i row k e.
Proof.
  unfold core_item. split.
  - destruct (_action row) as [op|] eqn:Ea; [|done]. apply asks_action in Ea.
    destruct (_vm_for_vm_diff db row) as [vm|] eqn:Ev; [|done]. apply machine_of_spec in Ev. cbn.
    destruct vm as [vm|]; cbn; [intros [= <- <-]; by constructor|].
    destruct (cdf_object_id row) eqn:Eo; [intros [= <- <-]; by constructor|].
    destruct (String.eqb_spec op "delete") as [->|]; [|done]. intros [= <- <-]. by constructor.
  - destruct 1 as [op vm Ha Hm|op pk Ha Hm Ho|Ha Hm Ho]; apply asks_action in Ha as ->; apply machine_of_spec in Hm as ->; cbn.
    + done.
    + by rewrite Ho.
    + by rewrite Ho.
Qed.

Lemma first_named_spec (l : list pyval) (id : Z) :
  list_find_map (fun data => match data with VDict d => exact_int (get "virtual_machine" d) | _ => None end) l = Some id
  <-> first_named id l.
Proof.
  assert (Hn : forall data, match data with VDict d => exact_int (get "virtual_machine" d) | _ => None end = Some id <-> names_vm data id).
  { intros data. unfold names_vm. destruct data; try naive_solver.
    split; [|intros (? & [= <-] & ->); done]. destruct (get _ d) eqn:E; try done. intros [= ->]. eauto. }
  assert (Hnone : forall data, match data with VDict d => exact_int (get "virtual_machine" d) | _ => None end = None <->
    forall id', ~ names_vm data id').
  { intros data. unfold names_vm. destruct data as [| | | | | |d]; try naive_solver. split.
    - intros H id' (d' & [= <-] & E). by rewrite E in H.
    - intros H. destruct (get "virtual_machine" d) as [| |z| | | |] eqn:E; try done. destruct (H z). eauto. }
  induction l as [|data l IH]; cbn; [split; [done|inversion 1]|].
  destruct (match data with VDict d => _ | _ => _ end) as [id'|] eqn:E.
  - split; [intros [= ->]; constructor; by apply Hn|].
    inversion 1 as [? ? Hh|? ? Hh]; subst; [apply Hn in Hh; congruence|]. apply Hnone in Hh. congruence.
  - rewrite IH. split; [intros H; constructor 2; [by apply Hnone|done]|].
    inversion 1 as [? ? Hh|]; subst; [|done]. apply Hn in Hh. congruence.
Qed.

Lemma live_intent (row : ChangeDiff) :
  match match _changed_object row with Some (ChangedIntent v _) => exact_int v | _ => None end with
  | Some id => exists vm, cdf_object row = Ok (Some (ChangedIntent (VInt id) vm))
  | None => forall id vm, cdf_object row <> Ok (Some (ChangedIntent (VInt id) vm))
  end.
Proof. unfold _changed_object. destruct (cdf_object row) as [[[vm|v vm]|]|]; [done| |done..]. destruct v; cbn; naive_solver. Qed.

Lemma concerns_spec (db : intent_db) (row : ChangeDiff) (id : Z) :
  intent_diff_virtual_machine_id db row = Ok (Some id) <-> concerns db row id.
Proof.
  unfold intent_diff_virtual_machine_id. pose proof (live_intent row) as Hl.
  destruct (match _changed_object row with Some (ChangedIntent v _) => _ | _ => _ end) as [z|].
  { destruct Hl as [vm Hl]. split; [intros [= ->]; by econstructor|]. destruct 1 as [? H|H|? H]; [congruence|by destruct (H z vm)..]. }
  unfold _json_vm_id. destruct (list_find_map _ _) as [z|] eqn:E.
  { apply first_named_spec in E as E'. split; [intros [= ->]; by constructor 2|].
    destruct 1 as [? H|_ H|? _ H]; [by destruct (Hl _ _ H)| |by destruct (H z)]. apply first_named_spec in H. congruence. }
  assert (Hn : forall id', ~ first_named id' [cdf_original row; cdf_modified row; cdf_current row]).
  { intros id' H. apply first_named_spec in H. congruence. }
  split.
  - destruct (cdf_object_id row) as [pk|] eqn:Eo; [|done]. destruct (db_intent db pk) as [[v|]|] eqn:Ei; try done. cbn.
    destruct v; try done. intros [= ->]. by econstructor 3.
  - destruct 1 as [? H|_ H|pk _ _ -> H]; [by destruct (Hl _ _ H)|by destruct (Hn _ H)|]. by rewrite H.
Qed.

Lemma existing_vm_spec (db : intent_db) (row : ChangeDiff) (id : Z) (vm : IntentVM) :
  _vm_for_intent_diff db row id = Ok (Some vm) <-> existing_vm db row id vm.
Proof.
  unfold _vm_for_intent_diff, existing_vm, _changed_object.
  destruct (cdf_object row) as [[[v|v [[found|]|exc]]|]|]; cbn; naive_solver.
Qed.

(** *** One pass over rows *)

Definition keys (l : list (diff_key * entry)) : list diff_key := List.map fst l.

Lemma has_key_spec (k : diff_key) (l : list (diff_key * entry)) : has_key k l = true <-> k ∈ keys l.
Proof.
  unfold has_key, keys. rewrite existsb_exists, list_elem_of_In, in_map_iff. setoid_rewrite bool_decide_eq_true. naive_solver.
Qed.

Lemma has_key_false (k : diff_key) (l : list (diff_key * entry)) : has_key k l = false <-> k ∉ keys l.
Proof. rewrite <- has_key_spec. by destruct (has_key k l). Qed.

Lemma elem_of_keys (k : diff_key) (e : entry) (l : list (diff_key * entry)) : (k, e) ∈ l -> k ∈ keys l.
Proof. intros H. unfold keys. apply list_elem_of_In, in_map_iff. exists (k, e). by rewrite <- list_elem_of_In. Qed.

Section Pass.
Context (claim : nat -> ChangeDiff -> diff_key -> entry -> Prop).
Context (claim_row : forall i row k e, claim i row k e -> e.2 = row).

(** The item found for a row is the claim of the row, unless its key is taken. *)
Definition item_of (i : nat) (row : ChangeDiff) (resolved : list (diff_key * entry)) (item : option (diff_key * entry)) :
    Prop :=
  (forall k e, item = Some (k, e) -> claim i row k e) /\
  (forall k e, claim i row k e -> item = Some (k, e) \/ k ∈ keys resolved).

Inductive pass : nat -> list ChangeDiff -> list (diff_key * entry) -> list (diff_key * entry) -> Prop :=
| pass_end i resolved : pass i [] resolved resolved
| pass_row i row rows resolved item l :
    item_of i row resolved item -> pass (S i) rows (add_new resolved item) l -> pass i (row :: rows) resolved l.

(** The first claim of a key. *)
Definition first_claim (i : nat) (rows : list ChangeDiff) (k : diff_key) (e : entry) : Prop :=
  exists n row, rows !! n = Some row /\ claim (i + n) row k e /\
    forall m row' e', (m < n)%nat -> rows !! m = Some row' -> ~ claim (i + m) row' k e'.

Lemma first_claim_cons (i : nat) (row : ChangeDiff) (rows : list ChangeDiff) (k : diff_key) (e : entry) :
  first_claim i (row :: rows) k e <->
  claim i row k e \/ (forall e', ~ claim i row k e') /\ first_claim (S i) rows k e.
Proof.
  unfold first_claim. split.
  - intros ([|n] & row' & Hr & Hc & Hn).
    + left. injection Hr as ->. by rewrite Nat.add_0_r in Hc.
    + right. split.
      * intros e' H. apply (Hn O row e'); [lia|done|by rewrite Nat.add_0_r].
      * exists n, row'. split; [done|]. rewrite Nat.add_succ_r in Hc. split; [done|].
        intros m r e' Hm Hr'. specialize (Hn (S m) r e'). rewrite Nat.add_succ_r in Hn. apply Hn; [lia|done].
  - intros [Hc|[Hno (n & row' & Hr & Hc & Hn)]].
    + exists O, row. rewrite Nat.add_0_r. split; [done|]. split; [done|]. lia.
    + exists (S n), row'. rewrite Nat.add_succ_r. split; [done|]. split; [done|].
      intros [|m] r e' Hm Hr'; [injection Hr' as <-; rewrite Nat.add_0_r; apply Hno|].
      rewrite Nat.add_succ_r. apply Hn; [lia|done].
Qed.

Lemma keys_snoc (l : list (diff_key * entry)) (k : diff_key) (e : entry) : keys (l ++ [(k, e)]) = keys l ++ [k].
Proof. unfold keys. by rewrite List.map_app. Qed.

(** A pass keeps what is there and adds the first claims of the other keys, in
    the order of the rows. *)
Lemma pass_spec (i : nat) (rows : list ChangeDiff) (res l : list (diff_key * entry)) :
  pass i rows res l -> NoDup (keys res) ->
  NoDup (keys l) /\
  (forall k e, (k, e) ∈ l <-> (k, e) ∈ res \/ k ∉ keys res /\ first_claim i rows k e) /\
  exists new, l = res ++ new /\ sublist (List.map (fun ke => ke.2.2) new) rows.
Proof.
  induction 1 as [i res|i row rows res item l [Hi Hc] _ IH]; intros Hnd.
  { split; [done|]. split; [|exists []; by rewrite app_nil_r].
    intros k e. split; [by left|]. intros [H|(_ & n & row & H & _)]; [done|by rewrite lookup_nil in H]. }
  setoid_rewrite first_claim_cons. destruct item as [[k0 e0]|]; cbn [add_new] in IH.
  - specialize (Hi _ _ eq_refl). destruct (has_key k0 res) eqn:Ek.
    + apply has_key_spec in Ek. destruct (IH Hnd) as (H1 & H2 & new & -> & Hs). split; [done|]. split.
      * intros k e. rewrite H2. split; (intros [?|[Hk ?]]; [by left|right; split; [done|]]).
        -- right. split; [|done]. intros e' Hcl. destruct (Hc _ _ Hcl) as [[= -> ->]|]; done.
        -- destruct H as [Hcl|[_ ?]]; [|done]. destruct (Hc _ _ Hcl) as [[= -> ->]|]; done.
      * exists new. split; [done|]. by constructor.
    + apply has_key_false in Ek. destruct IH as (H1 & H2 & new & -> & Hs).
      { rewrite keys_snoc. apply NoDup_app. split; [done|]. split; [set_solver|apply NoDup_singleton]. }
      split; [done|]. split.
      * intros k e. rewrite H2, keys_snoc, elem_of_app, list_elem_of_singleton, not_elem_of_app, list_elem_of_singleton.
        split.
        -- intros [[?|[= -> ->]]|[[Hk Hne] Hf]]; [by left|right; split; [done|by left]|].
           right. split; [done|]. right. split; [|done]. intros e' Hcl. destruct (Hc _ _ Hcl) as [[= -> ->]|]; done.
        -- intros [?|[Hk [Hcl|[Hno Hf]]]]; [by left; left| |].
           ++ destruct (Hc _ _ Hcl) as [[= -> ->]|]; [by left; right|done].
           ++ right. split; [|done]. split; [done|]. intros ->. by destruct (Hno e0).
      * exists ((k0, e0) :: new). rewrite <- app_assoc. split; [done|]. cbn. rewrite (claim_row _ _ _ _ Hi). by constructor.
  - destruct (IH Hnd) as (H1 & H2 & new & -> & Hs). split; [done|]. split.
    + intros k e. rewrite H2. split; (intros [?|[Hk ?]]; [by left|right; split; [done|]]).
      * right. split; [|done]. intros e' Hcl. by destruct (Hc _ _ Hcl).
      * destruct H as [Hcl|[_ ?]]; [|done]. by destruct (Hc _ _ Hcl).
    + exists new. split; [done|]. by constructor.
Qed.

Lemma keys_add_new (res : list (diff_key * entry)) (item : option (diff_key * entry)) : keys res ⊆ keys (add_new res item).
Proof. destruct item as [[k e]|]; cbn; [|done]. destruct (has_key k res); [done|]. rewrite keys_snoc. set_solver. Qed.

(** Every claimed key is there in the end. *)
Lemma pass_keys (i : nat) (rows : list ChangeDiff) (res l : list (diff_key * entry)) :
  pass i rows res l ->
  keys res ⊆ keys l /\
  forall n row k e, rows !! n = Some row -> claim (i + n) row k e -> k ∈ keys l.
Proof.
  induction 1 as [i res|i row rows res item l [Hi Hc] _ [IH1 IH2]]; [split; [done|]; intros n row k e; by rewrite lookup_nil|].
  pose proof (keys_add_new res item) as Ha. split; [set_solver|]. intros [|n] row' k e Hr Hcl.
  - injection Hr as <-. rewrite Nat.add_0_r in Hcl. apply IH1. destruct (Hc _ _ Hcl) as [->|]; [|set_solver].
    cbn. destruct (has_key k res) eqn:Ek; [by apply has_key_spec|]. rewrite keys_snoc. set_solver.
  - rewrite Nat.add_succ_r in Hcl. by eapply IH2.
Qed.

End Pass.

Lemma core_claim_row (db : intent_db) (i : nat) (row : ChangeDiff) (k : diff_key) (e : entry) :
  core_claim db i row k e -> e.2 = row.
Proof. by destruct 1. Qed.

Lemma intent_claim_row (db : intent_db) (row : ChangeDiff) (k : diff_key) (e : entry) : intent_claim db row k e -> e.2 = row.
Proof. by destruct 1. Qed.

Lemma union_core_pass (db : intent_db) (rows : list ChangeDiff) (i : nat) (res l : list (diff_key * entry)) :
  union_core db i rows res = Ok l -> pass (core_claim db) i rows res l.
Proof.
  revert i res. induction rows as [|row rows IH]; intros i res; cbn [union_core]; [intros [= <-]; constructor|].
  destruct (core_item db i row) as [item|] eqn:E; [|done]. cbn. intros H%IH. econstructor; [|done]. split.
  - intros k e ->. by apply core_item_spec.
  - intros k e Hc%core_item_spec. left. congruence.
Qed.

Lemma intent_item_of (db : intent_db) (i : nat) (row : ChangeDiff) (res : list (diff_key * entry)) (item : option (diff_key * entry)) :
  intent_item db row res = Ok item -> item_of (fun _ => intent_claim db) i row res item.
Proof.
  unfold intent_item. destruct (_action row) as [op|] eqn:Ea.
  2: { intros [= <-]. split; [done|]. intros k e [op ? ? Ha%asks_action]. congruence. }
  destruct (intent_diff_virtual_machine_id db row) as [[id|]|] eqn:Ei; [| |done]; cbn.
  2: { intros [= <-]. split; [done|]. intros k e [? ? ? _ Hi%concerns_spec]. congruence. }
  assert (Hid : forall k e, intent_claim db row k e -> k = KVm id).
  { intros k e [? ? ? _ Hi%concerns_spec]. congruence. }
  destruct (has_key (KVm id) res) eqn:Ek.
  { intros [= <-]. split; [done|]. intros k e ->%Hid. right. by apply has_key_spec. }
  destruct (_vm_for_intent_diff db row id) as [vm|] eqn:Ev; [|done]. cbn. intros [= <-]. split.
  - intros k e. destruct vm as [vm|]; [|done]. intros [= <- <-].
    econstructor; [by apply asks_action|by apply concerns_spec|by apply existing_vm_spec].
  - intros k e [? id' ? _ Hi%concerns_spec He%existing_vm_spec]. left.
    assert (id' = id) as -> by congruence. rewrite Ev in He. by injection He as ->.
Qed.

Lemma union_intents_pass (db : intent_db) (rows : list ChangeDiff) (i : nat) (res l : list (diff_key * entry)) :
  union_intents db rows res = Ok l -> pass (fun _ => intent_claim db) i rows res l.
Proof.
  revert i res. induction rows as [|row rows IH]; intros i res; cbn [union_intents]; [intros [= <-]; constructor|].
  destruct (intent_item db row res) as [item|] eqn:E; [|done]. cbn. intros H. econstructor; [by apply intent_item_of|by apply IH].
Qed.

(** *** Errors *)

Lemma rows_filter (model : string) (l : list ChangeDiff) :
  List.filter (fun row => String.eqb (cdf_model row) model) l = filter (fun row => cdf_model row = model) l.
Proof.
  induction l as [|row l IH]; [done|]. cbn [List.filter]. rewrite filter_cons.
  destruct (String.eqb_spec (cdf_model row) model); [rewrite decide_True by done; by f_equal|by rewrite decide_False by done].
Qed.

Lemma rows_read (db : intent_db) (branch : Branch) (model : string) :
  match _rows db branch model with
  | Ok rows => rows = rows_of branch model
  | Err exc => db_rows_error db model = Some exc
  end.
Proof.
  unfold _rows, rows_of. destruct (br_changediffs branch) as [l|]; [|done]. cbn [default].
  destruct (db_rows_error db model); [done|]. apply rows_filter.
Qed.

Lemma union_core_error (db : intent_db) (rows : list ChangeDiff) (i : nat) (res : list (diff_key * entry)) (exc : exn) :
  union_core db i rows res = Err exc -> exists pk, db_vm db pk = Err exc.
Proof.
  revert i res. induction rows as [|row rows IH]; intros i res; cbn [union_core]; [done|].
  destruct (core_item db i row) as [item|exc'] eqn:E; [by apply IH|]. intros [= ->]. unfold core_item in E.
  destruct (_action row); [|done]. destruct (_vm_for_vm_diff db row) as [vm|] eqn:Ev; [done|]. injection E as ->.
  unfold _vm_for_vm_diff in Ev. destruct (_changed_object row) as [[]|], (cdf_object_id row); try done; eauto.
Qed.

Lemma intent_item_error (db : intent_db) (row : ChangeDiff) (res : list (diff_key * entry)) (exc : exn) :
  intent_item db row res = Err exc ->
  (exists pk, db_vm db pk = Err exc) \/ (exists pk, db_intent db pk = Err exc) \/
  exists v, cdf_object row = Ok (Some (ChangedIntent v (Err exc))).
Proof.
  unfold intent_item. destruct (_action row); [|done].
  destruct (intent_diff_virtual_machine_id db row) as [[id|]|exc'] eqn:Ei; cbn; [|done|].
  - destruct (has_key _ _); [done|]. destruct (_vm_for_intent_diff db row id) as [vm|exc'] eqn:Ev; [done|]. intros [= ->].
    unfold _vm_for_intent_diff, _changed_object in Ev.
    destruct (cdf_object row) as [[[vm|v [[vm|]|exc']]|]|]; cbn in Ev; try done; [left; eauto..| |left; eauto|left; eauto].
    injection Ev as ->. right. right. eauto.
  - intros [= ->]. right. left. unfold intent_diff_virtual_machine_id in Ei.
    destruct (match _changed_object row with Some _ => _ | None => _ end); [done|]. destruct (_json_vm_id row); [done|].
    destruct (cdf_object_id row) as [pk|]; [|done]. exists pk. by destruct (db_intent db pk); [|injection Ei as ->].
Qed.

Lemma union_intents_error (db : intent_db) (branch : Branch) (rows : list ChangeDiff) (res : list (diff_key * entry)) (exc : exn) :
  rows ⊆ rows_of branch "proxmoxvmintent" -> union_intents db rows res = Err exc -> read_error db branch exc.
Proof.
  revert res. induction rows as [|row rows IH]; intros res Hr; cbn [union_intents]; [done|].
  destruct (intent_item db row res) as [item|exc'] eqn:E; [apply IH; set_solver|]. intros [= ->].
  apply intent_item_error in E as [H|[H|[v H]]]; [by right; left|by right; right; left|].
  right. right. right. exists row, v. split; [set_solver|done].
Qed.

Lemma passes_asked (db : intent_db) (core intents : list ChangeDiff) (res l : list (diff_key * entry)) :
  union_core db 0 core [] = Ok res -> union_intents db intents res = Ok l ->
  exists l', List.map snd l = List.map snd l' /\ NoDup (List.map fst l') /\
    (forall k e, (k, e) ∈ l' <-> asked db core intents k e) /\
    sublist (List.map snd (List.map snd l)) (core ++ intents).
Proof.
  intros Ec%union_core_pass Ei%(union_intents_pass _ _ 0).
  pose proof (pass_keys _ (core_claim_row db) _ _ _ _ Ec) as [_ Hk1].
  apply pass_spec in Ec as (Hn1 & He1 & new1 & -> & Hs1); [|apply core_claim_row|constructor].
  apply pass_spec in Ei as (Hn2 & He2 & new2 & -> & Hs2); [|by intros ? ?; apply intent_claim_row|done].
  eexists. split; [done|]. split; [done|]. split; [|rewrite List.map_map, List.map_app; by apply sublist_app].
  intros k e. rewrite He2, He1. split.
  - intros [[H|[_ (n & row & Hr & Hcl & Hn)]]|[Hk (n & row & Hr & Hcl & Hn)]]; [by apply elem_of_nil in H|by eapply asked_core|].
    eapply asked_intent; [done..| |done]. intros j row' e' Hr' Hcl'. by eapply Hk, Hk1.
  - destruct 1 as [n row Hr Hcl Hn|n row Hr Hcl Hc Hn].
    + left. right. split; [apply not_elem_of_nil|]. by exists n, row.
    + right. split; [|by exists n, row]. intros Hk. apply list_elem_of_In, in_map_iff in Hk as ([k' e'] & Hf & Hin). cbn in Hf. subst k'.
      apply list_elem_of_In, He1 in Hin as [H|[_ (j & row' & Hr' & Hcl' & _)]]; [by apply elem_of_nil in H|]. by eapply Hc.
Qed.

(** The entries of a branch, by key. *)
Lemma union_asked (db : intent_db) (branch : Branch) (entries : list entry) :
  virtual_machine_diff_union db branch = Ok entries ->
  exists l, entries = List.map snd l /\ NoDup (List.map fst l) /\
    (forall k e, (k, e) ∈ l <-> asked db (rows_of branch "virtualmachine") (rows_of branch "proxmoxvmintent") k e) /\
    sublist (List.map snd entries) (rows_of branch "virtualmachine" ++ rows_of branch "proxmoxvmintent").
Proof.
  unfold virtual_machine_diff_union, resolved_diffs.
  pose proof (rows_read db branch VM_MODEL) as Hc. destruct (_rows db branch VM_MODEL) as [core|exc]; [|done].
  destruct (union_core db 0 core []) as [res|exc] eqn:Ec; cbn [mbind result_bind]; [|by rewrite Ec].
  rewrite Ec. cbn [mbind result_bind].
  pose proof (rows_read db branch INTENT_MODEL) as Hi. destruct (_rows db branch INTENT_MODEL) as [intents|exc]; [|done].
  cbn [mbind result_bind]. destruct (union_intents db intents res) as [l|exc] eqn:Ei; [|done].
  intros [= <-]. fold VM_MODEL INTENT_MODEL. rewrite <- Hc, <- Hi. by eapply passes_asked.
Qed.

Lemma union_error (db : intent_db) (branch : Branch) (exc : exn) :
  virtual_machine_diff_union db branch = Err exc -> read_error db branch exc.
Proof.
  unfold virtual_machine_diff_union, resolved_diffs.
  pose proof (rows_read db branch VM_MODEL) as Hc.
  destruct (_rows db branch VM_MODEL) as [core|exc']; cbn [mbind result_bind]; [|intros [= ->]; left; eauto].
  destruct (union_core db 0 core []) as [res|exc'] eqn:Ec; cbn [mbind result_bind].
  2: { intros [= ->]. right. left. by eapply union_core_error. }
  pose proof (rows_read db branch INTENT_MODEL) as Hi.
  destruct (_rows db branch INTENT_MODEL) as [intents|exc']; cbn [mbind result_bind]; [|intros [= ->]; left; eauto].
  destruct (union_intents db intents res) as [l|exc'] eqn:Ei; [done|]. cbn. intros [= ->].
  eapply union_intents_error; [|done]. by subst.
Qed.

(** The operation of an entry is one of the three. *)
Lemma union_op (db : intent_db) (branch : Branch) (entries : list entry) (e : entry) :
  virtual_machine_diff_union db branch = Ok entries -> e ∈ entries -> e.1.2 ∈ ["create"; "update"; "delete"].
Proof.
  intros (l & -> & _ & Hl & _)%union_asked He. apply list_elem_of_In, in_map_iff in He as ([k e'] & <- & Hin).
  apply list_elem_of_In, Hl in Hin. cbn [snd].
  destruct Hin as [i row _ Hc _|i row _ Hc _ _]; destruct Hc; cbn; [unfold asks in *; set_solver..|set_solver].
Qed.

(** C28: The rows of a branch become one entry per virtual machine: under each
    key exactly what the branch asks for, of the core rows (create, update or
    delete, in any case, of the machine the row points to or names) the first,
    else an update for the first intent row whose virtual machine exists; a
    deletion that names no machine keeps an entry of its own.  The entries
    stand in the order of the rows, core rows first.  It fails only with the
    error of a database read: of the rows, of a virtual machine, of an intent,
    or of the machine behind a changed intent. *)
Theorem diff_union_refines (db : intent_db) (branch : Branch) :
  let core := rows_of branch "virtualmachine" in
  let intents := rows_of branch "proxmoxvmintent" in
  match virtual_machine_diff_union db branch with
  | Ok entries =>
      exists l, entries = List.map snd l /\ NoDup (List.map fst l) /\
        (forall k e, (k, e) ∈ l <-> asked db core intents k e) /\
        sublist (List.map snd entries) (core ++ intents)
  | Err exc => read_error db branch exc
  end.
Proof.
  cbv zeta. destruct (virtual_machine_diff_union db branch) as [entries|exc] eqn:E; [by apply union_asked|by apply union_error].
Qed.
