(* ===== verification/DescriptionMetadata.v ===== *)
(** * The metadata block in a Proxmox description

    intent/description_metadata.py: a fenced block of JSON with the NetBox keys
    of a virtual machine, put at the end of its description, and taken out of
    it again.  The pattern [_FENCE_RE] is written out as a matcher: every
    repetition of blanks in it is followed by something that is not a blank,
    so that only the lazy body has a choice, and takes the first closing
    fence. *)
From Stdlib Require Import ZArith Lia Ascii String.
From stdpp Require Import base list sets strings pretty.
From S2P Require Import Prelude Json Text VmObjects IntentDiffs.

Definition lf : ascii := ascii_of_nat 10.
Definition cr : ascii := ascii_of_nat 13.
Definition tab : ascii := ascii_of_nat 9.

Definition blank (c : ascii) : bool := (Ascii.eqb c " " || Ascii.eqb c tab)%bool.

(** [[ \t]*] *)
Fixpoint skip_blanks (s : string) : string :=
  match s with String c s' => if blank c then skip_blanks s' else s | EmptyString => "" end.

(** A literal, with [re.IGNORECASE]; [p] is in lower case. *)
Fixpoint skip_text (p s : string) : option string :=
  match p, s with
  | EmptyString, _ => Some s
  | String a p', String b s' => if Ascii.eqb a (lower_char b) then skip_text p' s' else None
  | String _ _, EmptyString => None
  end.

(** [\r?\n] *)
Definition skip_newline (s : string) : option string :=
  match s with
  | String a s' =>
      if Ascii.eqb a lf then Some s'
      else if Ascii.eqb a cr then
        match s' with String b s2 => if Ascii.eqb b lf then Some s2 else None | EmptyString => None end
      else None
  | EmptyString => None
  end.

(** [$] with [re.MULTILINE] *)
Definition at_line_end (s : string) : bool :=
  match s with EmptyString => true | String c _ => Ascii.eqb c lf end.

Definition fence : string := "```".

(** The opening line, up to and with its newline. *)
Definition opener (s : string) : option string :=
  match skip_text fence (skip_blanks s) with
  | Some s1 =>
      match skip_text "netbox-metadata" (skip_blanks s1) with
      | Some s2 => skip_newline (skip_blanks s2)
      | None => None
      end
  | None => None
  end.

(** [\r?\n[ \t]*```[ \t]*$] *)
Definition closer (s : string) : option string :=
  match skip_newline s with
  | Some s1 =>
      match skip_text fence (skip_blanks s1) with
      | Some s2 => let rest := skip_blanks s2 in if at_line_end rest then Some rest else None
      | None => None
      end
  | None => None
  end.

(** The lazy body and the closing fence: what follows the match. *)
Fixpoint find_close (s : string) : option string :=
  match closer s with
  | Some rest => Some rest
  | None => match s with EmptyString => None | String _ s' => find_close s' end
  end.

(** A match of [_FENCE_RE] at the start of a line. *)
Definition block_at (s : string) : option string :=
  match opener s with Some s' => find_close s' | None => None end.

(** [_FENCE_RE.sub("", s)]; [bol] tells whether [s] starts a line.  Every call
    consumes a character at least. *)
Fixpoint sub_blocks (fuel : nat) (bol : bool) (s : string) : string :=
  match fuel with
  | O => s
  | S fuel' =>
      match (if bol then block_at s else None) with
      | Some rest => sub_blocks fuel' false rest
      | None =>
          match s with
          | EmptyString => ""
          | String c s' => String c (sub_blocks fuel' (Ascii.eqb c lf) s')
          end
      end
  end.

Definition fence_sub (s : string) : string := sub_blocks (S (String.length s)) true s.

(** ** Building and embedding *)

(** [collect_netbox_metadata]: the keys of the relations that are set and
    positive, in the order of [_PK_FIELDS]. *)
Definition PK_FIELDS : list string := ["role"; "tenant"; "site"; "platform"; "cluster"; "device"].

Definition collect_netbox_metadata (vm : IntentVM) : dict Z :=
  flat_map (fun key =>
    match dget key (iv_relations vm) with
    | Some id => if id <=? 0 then [] else [(key, id)]
    | None => []
    end) PK_FIELDS.

(** [json.dumps(metadata, sort_keys=True, indent=2)] of a dictionary of
    integers that is not empty *)
Definition dumps_metadata (metadata : dict Z) : string :=
  "{" +:+ newline +:+
  join ("," +:+ newline)
    (List.map (fun kv => "  " +:+ String double_quote "" +:+ fst kv +:+ String double_quote "" +:+ ": " +:+ pretty (snd kv))
       (sort_text_by fst metadata)) +:+
  newline +:+ "}".

Definition render_netbox_metadata_block (metadata : dict Z) : option string :=
  match metadata with
  | [] => None
  | _ => Some ("```netbox-metadata" +:+ newline +:+ dumps_metadata metadata +:+ newline +:+ "```")
  end.

Definition strip_netbox_metadata (text : option string) : option string :=
  match text with
  | None => None
  | Some t =>
      if is_empty t then None
      else let cleaned := rstrip (fence_sub t) in if is_empty cleaned then None else Some cleaned
  end.

Definition embed_netbox_metadata (description block : option string) : option string :=
  match block with
  | None => strip_netbox_metadata description
  | Some b =>
      match strip_netbox_metadata description with
      | None => Some b
      | Some base => Some (base +:+ newline +:+ newline +:+ b)
      end
  end.

Definition build_description_with_metadata (vm : IntentVM) (description : option string) : option string :=
  embed_netbox_metadata description (render_netbox_metadata_block (collect_netbox_metadata vm)).

(** ** Proof *)

(** Does a line of [s] open a block?  [bol] tells whether [s] starts a line. *)
Fixpoint has_opener (bol : bool) (s : string) : bool :=
  ((bol && match opener s with Some _ => true | None => false end) ||
   match s with EmptyString => false | String c s' => has_opener (Ascii.eqb c lf) s' end)%bool.

Lemma skip_blanks_line (t r : string) : skip_blanks (t +:+ String lf r) = skip_blanks t +:+ String lf r.
Proof.
  induction t as [|c t IH]; [done|]. rewrite app_cons_string. cbn [skip_blanks].
  by destruct (blank c).
Qed.

Lemma skip_text_line (p t r : string) :
  all_chars (no_char lf) p = true ->
  skip_text p (t +:+ String lf r) = option_map (fun u => u +:+ String lf r) (skip_text p t).
Proof.
  revert t. induction p as [|a p IH]; intros t Hp; [done|]. cbn [all_chars] in Hp.
  apply andb_true_iff in Hp as [Ha Hp]. destruct t as [|b t].
  - unfold no_char in Ha. apply negb_true_iff in Ha.
    change ((if Ascii.eqb a lf then skip_text p r else None) = None). by rewrite Ha.
  - rewrite app_cons_string. cbn [skip_text]. destruct (Ascii.eqb a (lower_char b)); [by apply IH|done].
Qed.

(** Whether a line is an opening line does not depend on what follows it. *)
Lemma skip_newline_line (t r r' : string) :
  match skip_newline (t +:+ String lf r) with Some _ => true | None => false end =
  match skip_newline (t +:+ String lf r') with Some _ => true | None => false end.
Proof.
  destruct t as [|a [|b t]]; [done|..]; cbn [String.app]; rewrite ?app_cons_string; cbn [skip_newline];
    destruct (Ascii.eqb a lf); try done; destruct (Ascii.eqb a cr); try done.
  cbn [skip_newline]. by destruct (Ascii.eqb b lf).
Qed.

Lemma opener_line (t r r' : string) :
  match opener (t +:+ String lf r) with Some _ => true | None => false end =
  match opener (t +:+ String lf r') with Some _ => true | None => false end.
Proof.
  unfold opener. rewrite !skip_blanks_line, !skip_text_line by done.
  destruct (skip_text fence (skip_blanks t)) as [t1|]; [|done]. cbn [option_map].
  rewrite !skip_blanks_line, !skip_text_line by done.
  destruct (skip_text "netbox-metadata" (skip_blanks t1)) as [t2|]; [|done]. cbn [option_map].
  rewrite !skip_blanks_line. apply skip_newline_line.
Qed.

(** Text whose lines open no block is kept. *)
Lemma sub_blocks_text (s r : string) (fuel : nat) (bol : bool) :
  has_opener bol (s +:+ newline) = false -> (String.length s <= fuel)%nat ->
  exists bol', sub_blocks fuel bol (s +:+ String lf r) =
               s +:+ sub_blocks (fuel - String.length s) bol' (String lf r).
Proof.
  revert fuel bol. induction s as [|c s IH]; intros fuel bol Ho Hf.
  { exists bol. cbn. by rewrite Nat.sub_0_r. }
  cbn [String.length] in Hf. destruct fuel as [|fuel]; [lia|]. rewrite app_cons_string in Ho |- *.
  cbn [has_opener] in Ho. apply orb_false_iff in Ho as [Hbol Ho].
  cbn [sub_blocks String.length]. assert (Hb : (if bol then block_at (String c (s +:+ String lf r)) else None) = None).
  { destruct bol; [|done]. cbn [andb] in Hbol. unfold block_at.
    pose proof (opener_line (String c s) r "") as Hl. rewrite !app_cons_string in Hl.
    change (String lf "") with newline in Hl. rewrite Hbol in Hl.
    by destruct (opener (String c (s +:+ String lf r))). }
  rewrite Hb. destruct (IH fuel (Ascii.eqb c lf) Ho ltac:(lia)) as [bol' ->].
  exists bol'. by rewrite app_cons_string.
Qed.

(** The closing fence after a body without back quotes. *)
Lemma skip_fence_none (t r : string) :
  all_chars (no_char "`") t = true -> skip_text fence (skip_blanks (t +:+ String lf r)) = None.
Proof.
  intros Ht. rewrite skip_blanks_line. assert (all_chars (no_char "`") (skip_blanks t) = true) as Hs.
  { induction t as [|c t IH]; [done|]. cbn [skip_blanks]. destruct (blank c); [|done].
    cbn [all_chars] in Ht. apply andb_true_iff in Ht as [_ Ht]. by apply IH. }
  destruct (skip_blanks t) as [|c u]; [done|]. cbn [all_chars] in Hs. apply andb_true_iff in Hs as [Hc _].
  rewrite app_cons_string. cbn [fence skip_text]. revert Hc.
  destruct c as [[] [] [] [] [] [] [] []]; cbn; done.
Qed.

Lemma find_close_body (body : string) :
  all_chars (no_char "`") body = true -> find_close (body +:+ String lf fence) = Some "".
Proof.
  induction body as [|c body IH]; intros Hb; [done|].
  pose proof Hb as Hb0. cbn [all_chars] in Hb. apply andb_true_iff in Hb as [Hc Hb].
  rewrite app_cons_string. cbn [find_close].
  assert (Hcl : closer (String c (body +:+ String lf fence)) = None \/
                closer (String c (body +:+ String lf fence)) = Some "").
  { unfold closer. cbn [skip_newline]. destruct (Ascii.eqb c lf).
    - left. by rewrite skip_fence_none.
    - destruct (Ascii.eqb c cr); [|by left]. destruct body as [|b body]; [by right|].
      rewrite app_cons_string. destruct (Ascii.eqb b lf); [|by left]. left.
      cbn [all_chars] in Hb. apply andb_true_iff in Hb as [_ Hb]. by rewrite skip_fence_none. }
  destruct Hcl as [-> | ->]; [by apply IH|done].
Qed.

Definition block_text (body : string) : string := "```netbox-metadata" +:+ newline +:+ body +:+ newline +:+ "```".

Lemma block_at_block (body : string) : all_chars (no_char "`") body = true -> block_at (block_text body) = Some "".
Proof. intros Hb. unfold block_at, block_text. cbn. by apply find_close_body. Qed.

Lemma rstrip_space_r (s : string) (c : ascii) : is_space c = true -> rstrip (s +:+ String c "") = rstrip s.
Proof.
  intros Hc. induction s as [|a s IH].
  { change (rstrip (String c "") = ""). cbn [rstrip]. by rewrite Hc. }
  rewrite app_cons_string. cbn [rstrip]. by rewrite IH.
Qed.

Lemma rstrip_idem (s : string) : rstrip (rstrip s) = rstrip s.
Proof.
  induction s as [|a s IH]; [done|]. cbn [rstrip]. destruct (rstrip s) as [|b t] eqn:E.
  - destruct (is_space a) eqn:Ea; [done|]. cbn [rstrip]. by rewrite Ea.
  - cbn [rstrip] in IH |- *. by rewrite IH.
Qed.

Lemma fence_sub_embed (base body : string) :
  has_opener true (base +:+ newline) = false -> all_chars (no_char "`") body = true ->
  fence_sub (base +:+ newline +:+ newline +:+ block_text body) = base +:+ newline +:+ newline.
Proof.
  intros Ho Hb. unfold fence_sub.
  assert (Hlen : forall s t, String.length (s +:+ t) = (String.length s + String.length t)%nat).
  { intros s t. induction s as [|a s IH]; [done|]. rewrite app_cons_string. cbn [String.length]. by rewrite IH. }
  rewrite !Hlen. change (String.length newline) with 1%nat. set (n := String.length (block_text body)).
  destruct (sub_blocks_text base (newline +:+ block_text body) (S (String.length base + (1 + (1 + n)))) true Ho ltac:(lia))
    as [bol' Hs].
  change (newline +:+ newline +:+ block_text body) with (String lf (newline +:+ block_text body)).
  rewrite Hs. f_equal. replace (S (String.length base + (1 + (1 + n))) - String.length base)%nat with (S (S (S n))) by lia.
  assert (Hnl : forall f bol s, sub_blocks (S f) bol (String lf s) = String lf (sub_blocks f true s)).
  { intros f bol s. cbn [sub_blocks]. by destruct bol. }
  rewrite Hnl. change (newline +:+ block_text body) with (String lf (block_text body)). rewrite Hnl.
  cbn [sub_blocks]. rewrite block_at_block by done. by destruct n.
Qed.

Lemma strip_some (t base : string) :
  strip_netbox_metadata (Some t) = Some base -> nonempty base = true /\ rstrip base = base.
Proof.
  unfold strip_netbox_metadata. destruct (is_empty t); [done|].
  destruct (is_empty (rstrip (fence_sub t))) eqn:E; [done|]. intros [= <-].
  split; [unfold nonempty; by rewrite E|apply rstrip_idem].
Qed.

(** The base text a description keeps opens no block of its own. *)
Definition base_closed (description : option string) : Prop :=
  match strip_netbox_metadata description with
  | None => True
  | Some base => has_opener true (base +:+ newline) = false
  end.

Lemma strip_embed_block (description : option string) (body : string) :
  base_closed description -> all_chars (no_char "`") body = true ->
  strip_netbox_metadata (embed_netbox_metadata description (Some (block_text body))) =
  strip_netbox_metadata description.
Proof.
  unfold base_closed, embed_netbox_metadata.
  destruct (strip_netbox_metadata description) as [base|] eqn:E; intros Ho Hb.
  - assert (nonempty base = true /\ rstrip base = base) as [Hn Hr].
    { destruct description as [t|]; [by eapply strip_some|done]. }
    unfold strip_netbox_metadata. rewrite fence_sub_embed by done.
    assert (rstrip (base +:+ newline +:+ newline) = base) as ->.
    { rewrite <- app_assoc_string. unfold newline. by rewrite !rstrip_space_r. }
    unfold nonempty in Hn. apply negb_true_iff in Hn. rewrite Hn.
    destruct base as [|c base]; [done|]. by rewrite app_cons_string.
  - unfold strip_netbox_metadata. cbn [block_text]. change (is_empty (block_text body)) with false. cbv iota.
    unfold fence_sub. cbn [sub_blocks]. rewrite block_at_block by done.
    by destruct (String.length (block_text body)).
Qed.

Lemma metadata_chars (vm : IntentVM) :
  all_chars (no_char "`") (dumps_metadata (collect_netbox_metadata vm)) = true.
Proof.
  unfold dumps_metadata. rewrite !all_chars_app. rewrite all_chars_join; [done|done|].
  apply Forall_forall. intros s ([k n] & -> & Hin)%list_elem_of_fmap.
  rewrite (sort_text_by_perm fst) in Hin. cbn [fst snd].
  assert (k ∈ PK_FIELDS) as Hk.
  { unfold collect_netbox_metadata in Hin. apply list_elem_of_In, in_flat_map in Hin as (k' & Hk' & Hin).
    apply list_elem_of_In in Hk'. destruct (dget k' (iv_relations vm)); [|done].
    destruct (z <=? 0); [done|]. destruct Hin as [[= <- <-]|[]]. done. }
  rewrite !all_chars_app. assert (all_chars (no_char "`") k = true) as ->.
  { assert (Forall (fun k => all_chars (no_char "`") k = true) PK_FIELDS) as Hall by (by repeat constructor).
    rewrite Forall_forall in Hall. by apply Hall. }
  assert (all_chars (no_char "`") (pretty n) = true) as ->; [|done].
  eapply all_chars_impl; [|apply pretty_Z_chars]. all_ascii.
Qed.

Lemma opener_ended (t : string) :
  match opener (t +:+ newline) with Some _ => true | None => false end = false -> opener t = None.
Proof.
  unfold opener, newline. rewrite skip_blanks_line, skip_text_line by done.
  destruct (skip_text fence (skip_blanks t)) as [t1|]; [|done]. cbn [option_map].
  rewrite skip_blanks_line, skip_text_line by done.
  destruct (skip_text "netbox-metadata" (skip_blanks t1)) as [t2|]; [|done]. cbn [option_map].
  rewrite skip_blanks_line. destruct (skip_blanks t2) as [|a [|b u]]; [done|..];
    rewrite ?app_cons_string; cbn [skip_newline];
    destruct (Ascii.eqb a lf); try done; destruct (Ascii.eqb a cr); try done.
  by destruct (Ascii.eqb b lf).
Qed.

Lemma sub_blocks_all_text (s : string) (fuel : nat) (bol : bool) :
  has_opener bol (s +:+ newline) = false -> sub_blocks fuel bol s = s.
Proof.
  revert fuel bol. induction s as [|c s IH]; intros fuel bol Ho; destruct fuel as [|fuel]; try done.
  { by destruct bol. }
  rewrite app_cons_string in Ho. cbn [has_opener] in Ho. apply orb_false_iff in Ho as [Hbol Ho].
  cbn [sub_blocks]. rewrite IH by done. destruct bol; [|done]. cbn [andb] in Hbol.
  unfold block_at. rewrite (opener_ended (String c s)) by (by rewrite app_cons_string). done.
Qed.

Lemma strip_closed (description : option string) :
  base_closed description ->
  strip_netbox_metadata (strip_netbox_metadata description) = strip_netbox_metadata description.
Proof.
  unfold base_closed. destruct (strip_netbox_metadata description) as [base|] eqn:E; [|done]. intros Ho.
  assert (nonempty base = true /\ rstrip base = base) as [Hn Hr].
  { destruct description as [t|]; [by eapply strip_some|done]. }
  unfold strip_netbox_metadata, fence_sub. rewrite sub_blocks_all_text, Hr by done.
  unfold nonempty in Hn. apply negb_true_iff in Hn. by rewrite Hn.
Qed.

(** ** Reading the block back

    The body of the block is JSON; [json_loads] reads the keys out of it. *)

Lemma pretty_N_go_head (x : N) (s : string) :
  (0 < x)%N -> exists c s', pretty_N_go x s = String c s' /\ Prelude.is_digit c = true /\ c <> "0"%char.
Proof.
  revert s. induction (N.lt_wf_0 x) as [x _ IH]; intros s Hx. rewrite pretty_N_go_step by done.
  destruct (N.eq_0_gt_0_cases (x / 10)) as [Hz|Hz]; [|by apply IH; [apply N.div_lt|]].
  rewrite Hz, pretty_N_go_0. exists (pretty_N_char (x `mod` 10)), s. split; [done|].
  apply N.div_small_iff in Hz; [|done]. rewrite N.mod_small by done.
  assert (x ∈ [1; 2; 3; 4; 5; 6; 7; 8; 9]%N) as Hin by (rewrite !elem_of_cons, elem_of_nil; lia).
  rewrite !elem_of_cons, elem_of_nil in Hin. by destruct_or! Hin; subst x.
Qed.

(** The text of a positive number: digits, the first not zero. *)
Lemma pretty_positive (z : Z) :
  0 < z -> exists c s, pretty z = String c s /\ Prelude.is_digit c = true /\ c <> "0"%char /\ all_chars Prelude.is_digit s = true.
Proof.
  destruct z as [|p|p]; try lia. intros _. change (pretty (Zpos p)) with (pretty (Npos p)).
  pose proof (pretty_N_chars (Npos p)) as Hc. unfold pretty, pretty_N in *. rewrite decide_False in * by done.
  destruct (pretty_N_go_head (Npos p) "") as (c & s & Hs & Hd & Hz); [lia|]. exists c, s. rewrite Hs in Hc. cbn in Hc.
  apply andb_prop in Hc as [_ Hc]. done.
Qed.

Lemma span_digits_all (s r : string) (c : ascii) :
  all_chars Prelude.is_digit s = true -> Prelude.is_digit c = false -> span_digits (s +:+ String c r) = (s, String c r).
Proof.
  intros Hs Hc. induction s as [|a s IH].
  { change ("" +:+ String c r) with (String c r). cbn [span_digits]. change (Json.is_digit c) with (Prelude.is_digit c). by rewrite Hc. }
  cbn in Hs. apply andb_prop in Hs as [Ha Hs]. rewrite app_cons_string. cbn [span_digits].
  change (Json.is_digit a) with (Prelude.is_digit a). by rewrite Ha, IH.
Qed.

(** What stands behind a value of the block. *)
Definition after_value (c : ascii) : Prop := c = ","%char \/ c = lf.

Lemma parse_number_pretty (z : Z) (c : ascii) (r : string) :
  0 < z -> after_value c -> parse_number (pretty z +:+ String c r) = Some (VInt z, String c r).
Proof.
  intros Hz Hc. destruct (pretty_positive z Hz) as (a & s & Hp & Ha & Ha0 & Hs).
  assert (Hspan : span_digits (pretty z +:+ String c r) = (pretty z, String c r)).
  { apply span_digits_all; [rewrite Hp; cbn [all_chars]; by rewrite Ha, Hs|by destruct Hc as [-> | ->]]. }
  assert (Hn : parse_number (pretty z +:+ String c r) =
    option_map (fun z => (VInt z, String c r)) (int_of_string (pretty z))).
  { rewrite Hp, app_cons_string in *. unfold parse_number.
    replace (match String a (s +:+ String c r) with String "-" r0 => ("-", r0) | _ => ("", String a (s +:+ String c r)) end)
      with ("", String a (s +:+ String c r)) by (destruct a as [[] [] [] [] [] [] [] []]; done).
    rewrite Hspan.
    replace (match String a s with String "0" _ => ("0", drop_str 1 (String a (s +:+ String c r))) | _ => (String a s, String c r) end)
      with (String a s, String c r) by (destruct a as [[] [] [] [] [] [] [] []]; done).
    by destruct Hc as [-> | ->]. }
  rewrite Hn, int_of_string_pretty. done.
Qed.

Lemma parse_value_pretty (fuel : nat) (z : Z) (c : ascii) (r : string) :
  0 < z -> after_value c -> parse_value (S fuel) (" " +:+ pretty z +:+ String c r) = Some (VInt z, String c r).
Proof.
  intros Hz Hc. pose proof (parse_number_pretty z c r Hz Hc) as Hn.
  destruct (pretty_positive z Hz) as (a & s & Hp & Ha & _ & _). rewrite Hp, app_cons_string in *.
  change (" " +:+ String a (s +:+ String c r)) with (String " " (String a (s +:+ String c r))).
  destruct a as [[] [] [] [] [] [] [] []]; try done; exact Hn.
Qed.

(** Text that a JSON literal holds as it is. *)
Definition plain_char (c : ascii) : bool :=
  (Nat.leb 32 (nat_of_ascii c) && negb (Nat.eqb (nat_of_ascii c) 34) && negb (Nat.eqb (nat_of_ascii c) 92))%bool.

Lemma parse_string_plain (k r : string) (fuel : nat) :
  all_chars plain_char k = true -> (String.length k < fuel)%nat ->
  parse_string fuel (k +:+ String double_quote r) = Some (k, r).
Proof.
  revert fuel. induction k as [|c k IH]; intros [|fuel] Hk Hf; cbn in Hf; try lia; [done|].
  cbn in Hk. apply andb_prop in Hk as [Hc Hk]. unfold plain_char in Hc. apply andb_prop in Hc as [Hc H3].
  apply andb_prop in Hc as [H1 H2]. apply negb_true_iff in H2, H3. rewrite app_cons_string. cbn [parse_string].
  rewrite H2, H3. assert (Nat.ltb (nat_of_ascii c) 32 = false) as ->.
  { apply Nat.ltb_ge. by apply Nat.leb_le. }
  by rewrite IH by (done || lia).
Qed.

(** One line of the body. *)
Definition member (kv : string * Z) : string :=
  "  " +:+ String double_quote "" +:+ fst kv +:+ String double_quote "" +:+ ": " +:+ pretty (snd kv).

Lemma parse_member (fuel : nat) (acc : dict pyval) (k : string) (z : Z) (c : ascii) (r : string) :
  all_chars plain_char k = true -> 0 < z -> after_value c ->
  parse_members (S (S fuel)) acc (member (k, z) +:+ String c r) =
  match skip_ws (String c r) with
  | String "}" r4 => Some (dset k (VInt z) acc, r4)
  | String "," r4 => parse_members (S fuel) (dset k (VInt z) acc) r4
  | _ => None
  end.
Proof.
  intros Hk Hz Hc. unfold member. cbn [fst snd]. rewrite !app_assoc_string.
  set (rest := " " +:+ pretty z +:+ String c r).
  change ("  " +:+ String double_quote "" +:+ k +:+ String double_quote "" +:+ ": " +:+ pretty z +:+ String c r)
    with (String " " (String " " (String double_quote (k +:+ String double_quote (String ":" rest))))).
  cbn [parse_members skip_ws]. change (json_space " ") with true. cbv iota.
  change (json_space double_quote) with false. cbv iota. change (negb (nat_of_ascii double_quote =? 34)%nat) with false. cbv iota.
  rewrite parse_string_plain by (done || (rewrite append_length; cbn; lia)).
  cbn [skip_ws]. change (json_space ":") with false. cbv iota. unfold rest. by rewrite parse_value_pretty.
Qed.

Lemma parse_body (items : dict Z) (kv : string * Z) (acc : dict pyval) (fuel : nat) :
  Forall (fun kv => all_chars plain_char (fst kv) = true /\ 0 < snd kv) (kv :: items) -> (List.length items + 1 < fuel)%nat ->
  parse_members fuel acc (join ("," +:+ newline) (List.map member (kv :: items)) +:+ newline +:+ "}") =
  Some (foldl (fun d kv => dset (fst kv) (VInt (snd kv)) d) acc (kv :: items), "").
Proof.
  revert kv acc fuel. induction items as [|kv' items IH]; intros [k z] acc fuel Hall Hf; destruct fuel as [|[|fuel]]; cbn in Hf; try lia.
  - inversion Hall as [|? ? [Hk Hz] _]; subst. cbn [List.map join foldl fst snd].
    change (newline +:+ "}") with (String lf "}"). rewrite parse_member by (done || by right). done.
  - inversion Hall as [|? ? [Hk Hz] Hrest]; subst. cbn [foldl fst snd].
    change (join ("," +:+ newline) (List.map member ((k, z) :: kv' :: items))) with
      (member (k, z) +:+ ("," +:+ newline) +:+ join ("," +:+ newline) (List.map member (kv' :: items))).
    rewrite !app_assoc_string. change ("," +:+ newline +:+ ?x) with (String "," (String lf x)).
    rewrite parse_member by (done || by left). cbn [skip_ws]. change (json_space ",") with false. cbv iota.
    etransitivity; [|apply (IH kv' (dset k (VInt z) acc) (S fuel)); [done|lia]]. reflexivity.
Qed.

Lemma skip_ws_idem (s : string) : skip_ws (skip_ws s) = skip_ws s.
Proof. induction s as [|c s IH]; [done|]. cbn [skip_ws]. destruct (json_space c) eqn:E; [done|]. cbn [skip_ws]. by rewrite E. Qed.

Lemma parse_members_ws (fuel : nat) (acc : dict pyval) (s : string) :
  parse_members fuel acc (skip_ws s) = parse_members fuel acc s.
Proof. destruct fuel; [done|]. cbn [parse_members]. by rewrite skip_ws_idem. Qed.

Lemma dget_foldl (items : dict Z) (acc : dict pyval) (k : string) :
  NoDup (dkeys items) ->
  dget k (foldl (fun d kv => dset (fst kv) (VInt (snd kv)) d) acc items) =
  match dget k items with Some z => Some (VInt z) | None => dget k acc end.
Proof.
  revert acc. induction items as [|[k' z] items IH]; intros acc Hnd; [done|]. cbn [foldl fst snd].
  apply NoDup_cons in Hnd as [Hk Hnd]. rewrite IH by done. cbn [dget fst snd].
  destruct (String.eqb_spec k k') as [->|Hne].
  - rewrite (proj2 (dget_none k' items)) by done. by rewrite dget_dset_eq.
  - by rewrite dget_dset_ne by done.
Qed.

Lemma dget_perm (k : string) (d d' : dict Z) : NoDup (dkeys d) -> Permutation d' d -> dget k d' = dget k d.
Proof.
  intros Hnd Hp. assert (Hnd' : NoDup (dkeys d')).
  { unfold dkeys in *. by rewrite Hp. }
  destruct (dget k d) as [v|] eqn:E.
  - apply dget_nodup; [done|]. rewrite Hp. by apply dget_in.
  - apply dget_none in E. apply dget_none. unfold dkeys in *. by rewrite Hp.
Qed.

Lemma join_length (l : list string) :
  (List.length l <= S (String.length (join ("," +:+ newline) l)))%nat.
Proof.
  induction l as [|s [|s' l] IH]; [cbn; lia|cbn; lia|].
  change (join ("," +:+ newline) (s :: s' :: l)) with (s +:+ ("," +:+ newline) +:+ join ("," +:+ newline) (s' :: l)).
  rewrite !append_length. cbn [List.length String.length] in *. lia.
Qed.

Lemma body_reads (md : dict Z) :
  md <> [] -> NoDup (dkeys md) -> Forall (fun kv => all_chars plain_char (fst kv) = true /\ 0 < snd kv) md ->
  exists d, json_loads (dumps_metadata md) = Some (VDict d) /\ forall k, dget k d = VInt <$> dget k md.
Proof.
  intros Hne Hnd Hall. pose proof (sort_text_by_perm fst md) as Hp.
  destruct (sort_text_by fst md) as [|kv items] eqn:Es; [by apply Permutation_nil_l in Hp; subst|].
  exists (foldl (fun d kv => dset (fst kv) (VInt (snd kv)) d) [] (kv :: items)). split.
  - unfold json_loads. set (text := dumps_metadata md).
    assert (Ht : text = String "{" (newline +:+ join ("," +:+ newline) (List.map member (kv :: items)) +:+ newline +:+ "}")).
    { unfold text, dumps_metadata. by rewrite Es. }
    assert (Hlen : (List.length items + 1 <= String.length text)%nat).
    { rewrite Ht. cbn [String.length]. rewrite !append_length. pose proof (join_length (List.map member (kv :: items))) as Hj.
      rewrite List.length_map in Hj. cbn [List.length] in Hj. lia. }
    change (2 + 2 * String.length text)%nat with (S (S (2 * String.length text))).
    rewrite Ht at 2. set (body := join _ _ +:+ newline +:+ "}") in *. cbn [parse_value skip_ws].
    change (json_space "{") with false. cbv iota.
    assert (Hq : exists r, skip_ws (newline +:+ body) = String double_quote r).
    { unfold body. destruct kv as [k z], items as [|kv' items]; eexists; reflexivity. }
    destruct Hq as [r Hq]. rewrite Hq.
    transitivity (match option_map (fun p : dict pyval * string => (VDict (fst p), snd p))
        (parse_members (S (2 * String.length text)) [] (String double_quote r)) with
      | Some (v, r) => if is_empty (skip_ws r) then Some v else None | None => None end); [reflexivity|].
    rewrite <- Hq, parse_members_ws.
    change (newline +:+ body) with (String lf body).
    assert (Hb : parse_members (S (2 * String.length text)) [] (String lf body) = parse_members (S (2 * String.length text)) [] body) by done.
    rewrite Hb. unfold body. rewrite parse_body; [done| |lia]. by rewrite Hp.
  - intros k. rewrite dget_foldl, (dget_perm k md) by (done || (unfold dkeys in *; by rewrite Hp)). by destruct (dget k md).
Qed.

(** The key of a relation as the block has it. *)
Definition recorded (vm : IntentVM) (key : string) : option Z :=
  if decide (key ∈ ["role"; "tenant"; "site"; "platform"; "cluster"; "device"]) then
    match dget key (iv_relations vm) with Some id => if decide (0 < id) then Some id else None | None => None end
  else None.

Lemma collected_fields (vm : IntentVM) (fields : list string) (k : string) :
  NoDup fields ->
  let l := flat_map (fun key => match dget key (iv_relations vm) with
                                | Some id => if id <=? 0 then [] else [(key, id)] | None => [] end) fields in
  NoDup (dkeys l) /\ (forall kv, kv ∈ l -> fst kv ∈ fields /\ 0 < snd kv) /\
  dget k l = if decide (k ∈ fields) then
               match dget k (iv_relations vm) with Some id => if decide (0 < id) then Some id else None | None => None end
             else None.
Proof.
  induction 1 as [|key fields Hk _ IH]; cbn [flat_map]; [split; [constructor|]; split; [intros kv; by rewrite elem_of_nil|done]|].
  destruct IH as (H1 & H2 & H3). set (l := flat_map _ fields) in *.
  assert (Hkl : key ∉ dkeys l).
  { unfold dkeys. intros (kv & -> & Hin)%list_elem_of_fmap. by apply H2 in Hin as [? _]. }
  assert (Hget : (if decide (k ∈ key :: fields) then
      match dget k (iv_relations vm) with Some id => if decide (0 < id) then Some id else None | None => None end else None) =
    if String.eqb k key then match dget k (iv_relations vm) with Some id => if decide (0 < id) then Some id else None | None => None end
    else dget k l).
  { rewrite H3. destruct (String.eqb_spec k key) as [->|Hne]; [by rewrite decide_True by left|].
    destruct (decide (k ∈ fields)); [by rewrite decide_True by (by right)|by rewrite decide_False by set_solver]. }
  rewrite Hget. destruct (dget key (iv_relations vm)) as [id|] eqn:Er; cbn [app].
  - destruct (Z.leb_spec id 0) as [Hz|Hz]; cbn [app].
    + split; [done|]. split; [set_solver|]. destruct (String.eqb_spec k key) as [->|]; [|done].
      rewrite Er, decide_False by lia. by apply dget_none.
    + split; [by constructor|]. split; [intros kv; rewrite elem_of_cons; intros [->|Hin]; [split; [left|done]|]; apply H2 in Hin; set_solver|].
      cbn [dget fst snd]. destruct (String.eqb_spec k key) as [->|]; [|done]. by rewrite Er, decide_True by lia.
  - split; [done|]. split; [set_solver|]. destruct (String.eqb_spec k key) as [->|]; [|done]. rewrite Er. by apply dget_none.
Qed.

(** The block is written: behind the base text, which keeps no block of its
    own, stand the fences and a JSON object with exactly the recorded keys;
    without any there is no block. *)
Definition block_written (vm : IntentVM) (base written : option string) : Prop :=
  (forall key, recorded vm key = None) /\ written = base \/
  (exists key id, recorded vm key = Some id) /\
  exists body d,
    written = Some (match base with Some b => b +:+ newline +:+ newline | None => "" end +:+
                    "```netbox-metadata" +:+ newline +:+ body +:+ newline +:+ "```") /\
    json_loads body = Some (VDict d) /\ forall key, dget key d = VInt <$> recorded vm key.

Lemma block_is_written (vm : IntentVM) (description : option string) :
  block_written vm (strip_netbox_metadata description) (build_description_with_metadata vm description).
Proof.
  assert (Hpk : NoDup PK_FIELDS) by (repeat constructor; rewrite ?elem_of_cons, elem_of_nil; naive_solver).
  assert (Hget : forall k, dget k (collect_netbox_metadata vm) = recorded vm k) by (intros k; apply (collected_fields vm PK_FIELDS k Hpk)).
  destruct (collected_fields vm PK_FIELDS "" Hpk) as (Hnd & Hall & _). fold (collect_netbox_metadata vm) in Hnd, Hall.
  unfold block_written, build_description_with_metadata, render_netbox_metadata_block.
  destruct (collect_netbox_metadata vm) as [|[k0 z0] md] eqn:E; [left; by split; [intros k; rewrite <- Hget|]|].
  right. split; [exists k0, z0; rewrite <- Hget; cbn; by rewrite String.eqb_refl|].
  destruct (body_reads ((k0, z0) :: md)) as (d & Hd & Hk); [done|done| |].
  - apply Forall_forall. intros kv [Hf Hz]%Hall. split; [|done].
    assert (Forall (fun k => all_chars plain_char k = true) PK_FIELDS) as Hplain by (by repeat constructor).
    rewrite Forall_forall in Hplain. by apply Hplain.
  - exists (dumps_metadata ((k0, z0) :: md)), d. split; [|split; [done|]; intros key; by rewrite Hk, Hget].
    unfold embed_netbox_metadata. destruct (strip_netbox_metadata description); [|done].
    by rewrite !app_assoc_string.
Qed.

(** C30: Embedding and stripping are inverse for a description whose text, once
    its blocks are taken out, has no opening line of a block left: the block
    of a virtual machine is written behind that text, as a JSON object from
    which exactly the positive keys of its relations are read back; stripping
    it leaves the text as it was; and writing it again, with other keys,
    replaces it. *)
Theorem metadata_round_trip (vm vm' : IntentVM) (description : option string) :
  base_closed description ->
  block_written vm (strip_netbox_metadata description) (build_description_with_metadata vm description) /\
  strip_netbox_metadata (build_description_with_metadata vm description) = strip_netbox_metadata description /\
  build_description_with_metadata vm' (build_description_with_metadata vm description) =
  build_description_with_metadata vm' description.
Proof.
  intros Ho. assert (Hs : strip_netbox_metadata (build_description_with_metadata vm description) =
    strip_netbox_metadata description).
  { unfold build_description_with_metadata, render_netbox_metadata_block.
    pose proof (metadata_chars vm) as Hc.
    destruct (collect_netbox_metadata vm) as [|kv md]; [by apply strip_closed|by apply strip_embed_block]. }
  split; [apply block_is_written|]. split; [done|]. set (d := build_description_with_metadata vm description) in *.
  unfold build_description_with_metadata, embed_netbox_metadata. by rewrite Hs.
Qed.

Definition sample_relations : dict Z := [("role", 1); ("cluster", 13); ("site", 0)].

(** A virtual machine with a role and a cluster. *)
Definition described_vm : IntentVM :=
  mkIntentVM sample_vm None None [] [] [] None None VNone sample_relations None.

(** ** Witness and examples *)

Lemma metadata_round_trip_witness :
  base_closed (Some "web server") /\
  strip_netbox_metadata (build_description_with_metadata described_vm (Some "web server")) = Some "web server".
Proof.
  split; [vm_compute; reflexivity|].
  rewrite (proj1 (proj2 (metadata_round_trip described_vm described_vm (Some "web server") ltac:(vm_compute; reflexivity)))).
  vm_compute. reflexivity.
Defined.

Definition crlf : string := String cr newline.

(** A description with an opening line and no closing fence loses the text
    behind it when the block is written a second time. *)
Example unclosed_opener_loses_text :
  let d := Some ("notes" +:+ newline +:+ "```netbox-metadata" +:+ newline +:+ "keep this") in
  let once := build_description_with_metadata described_vm d in
  strip_netbox_metadata d = d /\ strip_netbox_metadata once = Some "notes".
Proof. vm_compute. split; reflexivity. Qed.

(** With CRLF line ends the closing fence is not recognised before a further
    line, and blocks pile up. *)
Example crlf_block_is_kept :
  let block := "```netbox-metadata" +:+ crlf +:+ "{}" +:+ crlf +:+ "```" in
  strip_netbox_metadata (Some (block +:+ crlf +:+ "more")) = Some (block +:+ crlf +:+ "more").
Proof. vm_compute. reflexivity. Qed.
