(* ===== verification/IntentPayload.v ===== *)
(** * Payloads and snapshots of intent

    intent/payload.py: what is sent to the backend to create or update a
    virtual machine or a container; intent/snapshot.py: what a deletion request
    remembers of a virtual machine. *)
From Stdlib Require Import ZArith Lia Ascii String.
From stdpp Require Import base list sets strings pretty.
From S2P Require Import Prelude Json Text PyFloat VmObjects IntentDiffs DescriptionMetadata.

Definition opt_int (z : option Z) : pyval := match z with Some z => VInt z | None => VNone end.

(** ** payload.py *)

(** [_embed_description_metadata_setting]: the setting may fail to load. *)
Definition embed_setting (setting : result bool) : bool := match setting with Ok b => b | Err _ => false end.

Definition attr (vm : IntentVM) (name : string) : pyval := get name (iv_attrs vm).

Definition _resolve_description (setting : result bool) (vm : IntentVM) : option string :=
  let description := _str_or_none (attr vm "description") in
  if negb (embed_setting setting) then description else build_description_with_metadata vm description.

(** [_intent_value(intent, *attributes)] *)
Definition _intent_value (intent : option (dict pyval)) (attributes : list string) : pyval :=
  match intent with
  | None => VNone
  | Some i =>
      default VNone (list_find_map (fun a => let v := get a i in if none_or_empty v then None else Some v) attributes)
  end.

Definition _cloud_init_text (value : pyval) : option pyval :=
  if none_or_empty value then None
  else match value with
       | VStr s => if is_empty (strip s) then None else Some value
       | _ => Some value
       end.

Definition line_break (c : ascii) : bool :=
  let n := nat_of_ascii c in ((Nat.leb 10 n && Nat.leb n 13) || (Nat.leb 28 n && Nat.leb n 30))%bool.

(** [s.splitlines()]; [cur] is the line being read, [after_cr] that the last
    break was a carriage return. *)
Fixpoint splitlines_from (cur : string) (after_cr : bool) (s : string) : list string :=
  match s with
  | EmptyString => if is_empty cur then [] else [cur]
  | String c s' =>
      if line_break c then
        if (after_cr && is_empty cur && Ascii.eqb c lf)%bool then splitlines_from "" false s'
        else cur :: splitlines_from "" (Ascii.eqb c cr) s'
      else splitlines_from (cur +:+ String c "") false s'
  end.

Definition splitlines (s : string) : list string := splitlines_from "" false s.

Definition _cloud_init_ssh_keys (value : pyval) : option (list string) :=
  match _cloud_init_text value with
  | None => None
  | Some text =>
      match List.map strip (List.filter (fun line => nonempty (strip line)) (splitlines (str text))) with
      | [] => None
      | keys => Some keys
      end
  end.

Definition nonempty_dict (v : pyval) : option (dict pyval) :=
  match v with VDict [] => None | VDict d => Some d | _ => None end.

Definition _cloud_init_network (value : pyval) : option (dict pyval) :=
  match value with
  | VDict d => nonempty_dict value
  | _ =>
      match _cloud_init_text value with
      | None => None
      | Some text => match json_loads (str text) with Some v => nonempty_dict v | None => None end
      end
  end.

Definition optional_item {A} (k : string) (f : A -> pyval) (v : option A) : dict pyval :=
  match v with Some a => [(k, f a)] | None => [] end.

Definition _cloud_init_payload (intent : option (dict pyval)) : option (dict pyval) :=
  match optional_item "user" VStr (_str_or_none (_intent_value intent ["cloud_init_user"])) ++
        optional_item "ssh_keys" (fun l => VList (List.map VStr l))
          (_cloud_init_ssh_keys (_intent_value intent ["cloud_init_ssh_keys"])) ++
        optional_item "user_data" id (_cloud_init_text (_intent_value intent ["cloud_init_user_data"])) ++
        optional_item "network" VDict (_cloud_init_network (_intent_value intent ["cloud_init_network"])) with
  | [] => None
  | d => Some d
  end.

(** The sum of the disk sizes that are numbers. *)
Fixpoint disk_sum (sizes : list pyval) (total : Z) (found : bool) : result (option Z) :=
  match sizes with
  | [] => Ok (if found then Some total else None)
  | size :: rest =>
      n ← _int_or_none size;
      match n with
      | None => disk_sum rest total found
      | Some n => disk_sum rest (total + n) true
      end
  end.

Definition _disk_gb (vm : IntentVM) : result (option Z) := disk_sum (iv_disks vm) 0 false.

Definition _tag_names (vm : IntentVM) : list string := List.filter nonempty (vm_tags (iv_core vm)).

Definition text_or_none (v : pyval) : pyval := opt_str (_str_or_none v).

Definition with_cloud_init (vm : IntentVM) (payload : dict pyval) : dict pyval :=
  match _cloud_init_payload (iv_intent vm) with
  | Some c => payload ++ [("cloud_init", VDict c)]
  | None => payload
  end.

Definition build_vm_payload (setting : result bool) (vm : IntentVM) : result (dict pyval) :=
  let intent := iv_intent vm in
  vmid ← _int_or_none (VStr (resolve_vm_vmid (iv_core vm)));
  cores ← _int_or_none (attr vm "vcpus");
  memory ← _int_or_none (attr vm "memory");
  disk ← _disk_gb vm;
  template ← _int_or_none (_intent_value intent ["template_vmid"]);
  mret (with_cloud_init vm
    [("vmid", opt_int vmid); ("name", VStr (vm_name (iv_core vm)));
     ("node", text_or_none (_intent_value intent ["target_node"]));
     ("cores", opt_int cores); ("memory", opt_int memory); ("disk_gb", opt_int disk);
     ("storage", text_or_none (_intent_value intent ["target_storage"]));
     ("iso", text_or_none (_intent_value intent ["iso"]));
     ("template_vmid", opt_int template);
     ("tags", VList (List.map VStr (_tag_names vm)));
     ("description", opt_str (_resolve_description setting vm))]).

Definition build_lxc_payload (setting : result bool) (vm : IntentVM) : result (dict pyval) :=
  let intent := iv_intent vm in
  vmid ← _int_or_none (VStr (resolve_vm_vmid (iv_core vm)));
  cores ← _int_or_none (attr vm "vcpus");
  memory ← _int_or_none (attr vm "memory");
  swap ← _int_or_none (_intent_value intent ["swap"]);
  mret (with_cloud_init vm
    [("vmid", opt_int vmid); ("name", VStr (vm_name (iv_core vm)));
     ("node", text_or_none (_intent_value intent ["target_node"]));
     ("cores", opt_int cores); ("memory", opt_int memory); ("swap", opt_int swap);
     ("rootfs", text_or_none (_intent_value intent ["rootfs"]));
     ("storage", text_or_none (_intent_value intent ["target_storage"]));
     ("ostemplate", text_or_none (_intent_value intent ["ostemplate"; "iso"]));
     ("tags", VList (List.map VStr (_tag_names vm)));
     ("description", opt_str (_resolve_description setting vm))]).

(** [a == b]: booleans are the integers 0 and 1, a float equals the integer of
    its value, dictionaries are compared without their order. *)
Definition as_number (v : pyval) : option (Z * Z) :=
  match v with
  | VBool b => Some (if b then 1 else 0, 0)
  | VInt z => Some (z, 0)
  | VFloat r => match float_of_string r with Some (Finite n d) => to_double n d | _ => None end
  | _ => None
  end.

Definition number_eqb (a b : Z * Z) : bool :=
  let x := Z.min (snd a) (snd b) in fst a * 2 ^ (snd a - x) =? fst b * 2 ^ (snd b - x).

Definition same_infinity (x y : pyval) : bool :=
  match x, y with VFloat a, VFloat b => (String.eqb a b && negb (String.eqb a "nan"))%bool | _, _ => false end.

Fixpoint py_eqb (x y : pyval) {struct x} : bool :=
  match x, y with
  | VNone, VNone => true
  | VStr a, VStr b => String.eqb a b
  | VList l, VList m =>
      (fix go (l m : list pyval) {struct l} : bool :=
         match l, m with
         | [], [] => true
         | a :: l', b :: m' => (py_eqb a b && go l' m')%bool
         | _, _ => false
         end) l m
  | VDict d, VDict e =>
      (Nat.eqb (List.length d) (List.length e) &&
       (fix go (d : dict pyval) : bool :=
          match d with
          | [] => true
          | (k, a) :: d' =>
              (match dget k e with Some b => py_eqb a b | None => false end && go d')%bool
          end) d)%bool
  | _, _ =>
      match as_number x, as_number y with
      | Some a, Some b => number_eqb a b
      | _, _ => same_infinity x y
      end
  end.

Definition build_update_delta (setting : result bool) (vm : IntentVM) (prev : dict pyval) : result (dict pyval) :=
  let kind_hint := lower (str (py_or (get "kind" prev) (VStr ""))) in
  current ← (if String.eqb kind_hint "lxc" then build_lxc_payload setting vm else build_vm_payload setting vm);
  let delta := List.filter (fun kv =>
    (negb (mem_str (fst kv) ["vmid"; "node"]) && negb (py_eqb (get (fst kv) prev) (snd kv)))%bool) current in
  mret (match delta with
        | [] => []
        | _ => dset "node" (get "node" current) (dset "vmid" (get "vmid" current) delta)
        end).

(** ** snapshot.py *)

Definition INTENT_FIELDS : list string :=
  ["target_node"; "target_storage"; "iso"; "template_vmid"; "swap"; "rootfs"; "ostemplate";
   "cloud_init_user"; "cloud_init_ssh_keys"; "cloud_init_user_data"; "cloud_init_network";
   "intent_state"; "last_apply_run_id"].

Definition _custom_fields (vm : IntentVM) : dict pyval := _snapshot_dict (iv_custom_field_data vm).

Definition _intent_snapshot (vm : IntentVM) : dict pyval :=
  match iv_intent vm with
  | None => []
  | Some i => List.map (fun f => (f, get f i)) INTENT_FIELDS
  end.

(** [_disk_gb] of the snapshot *)
Definition snapshot_disk_gb (vm : IntentVM) : result (option Z) :=
  n ← _int_or_none (attr vm "disk_gb");
  match n with Some n => mret (Some n) | None => _disk_gb vm end.

Definition _interface_snapshot (interface : dict pyval) : result pyval :=
  mtu ← _int_or_none (get "mtu" interface);
  mret (VDict [("name", text_or_none (get "name" interface));
               ("mac_address", text_or_none (get "mac_address" interface));
               ("enabled", get "enabled" interface); ("mtu", opt_int mtu);
               ("description", text_or_none (get "description" interface))]).

Definition build_metadata_snapshot (vm : IntentVM) : result (dict pyval) :=
  vmid ← _int_or_none (py_or (attr vm "vmid") (VStr (resolve_vm_vmid (iv_core vm))));
  cores ← _int_or_none (if dmem "cores" (iv_attrs vm) then attr vm "cores" else attr vm "vcpus");
  memory ← _int_or_none (attr vm "memory");
  disk ← snapshot_disk_gb vm;
  interfaces ← mapM _interface_snapshot (iv_interfaces vm);
  mret [("vmid", opt_int vmid); ("node", text_or_none (VStr (resolve_vm_node (iv_core vm))));
        ("name", VStr (vm_name (iv_core vm)));
        ("tags", VList (List.map VStr (_tag_names vm)));
        ("cores", opt_int cores); ("memory", opt_int memory); ("disk_gb", opt_int disk);
        ("interfaces", VList interfaces);
        ("ipv4", opt_str (iv_ip4 vm)); ("ipv6", opt_str (iv_ip6 vm));
        ("custom_field_data", VDict (_custom_fields vm));
        ("intent", VDict (_intent_snapshot vm))].

(** [_recorded_value(snapshots, key)] *)
Definition _recorded_value (snapshots : list (dict pyval)) (key : string) : pyval :=
  default VNone (list_find_map (fun data => let v := get key data in if none_or_empty v then None else Some v) snapshots).

Definition _recorded_custom_fields (snapshots : list (dict pyval)) : dict pyval :=
  default [] (list_find_map (fun data =>
    match py_or (get "custom_field_data" data) (get "custom_fields" data) with VDict d => Some d | _ => None end)
    snapshots).

Definition _recorded_name (value : pyval) : option string :=
  _str_or_none (match value with VDict d => get "name" d | v => v end).

Definition recorded_list (v : pyval) : list pyval := match v with VList l => l | _ => [] end.

(** [source.get(a, source.get(b))] *)
Definition get_first (source : dict pyval) (a b : string) : pyval :=
  if dmem a source then get a source else get b source.

Definition opt_id (z : option Z) : pyval := opt_int z.

Definition build_deleted_metadata_snapshot (row : ChangeDiff) : result (dict pyval) :=
  let original := _snapshot_dict (cdf_original row) in
  let current := _snapshot_dict (cdf_current row) in
  let snapshots := [original; current] in
  let raw_vmid := _recorded_value snapshots "vmid" in
  vmid ← match raw_vmid with VBool _ => Ok None | v => _int_or_none v end;
  vmid ← match vmid with
         | Some z => if z <=? 0 then Err (ValueError "Deleted VM ChangeDiff does not contain a Proxmox VMID.") else Ok z
         | None => Err (ValueError "Deleted VM ChangeDiff does not contain a Proxmox VMID.")
         end;
  node ← match _recorded_name (_recorded_value snapshots "node") with
         | Some n => Ok n
         | None => Err (ValueError "Deleted VM ChangeDiff does not contain a Proxmox node.")
         end;
  let raw_name := _recorded_value snapshots "name" in
  name ← match _str_or_none (if none_or_empty raw_name then cdf_object_repr row else raw_name) with
         | Some n => Ok n
         | None => Err (ValueError "Deleted VM ChangeDiff does not contain a VM name.")
         end;
  let source := match original with [] => current | _ => original end in
  cores ← _int_or_none (get_first source "cores" "vcpus");
  memory ← _int_or_none (get "memory" source);
  disk ← _int_or_none (get "disk_gb" source);
  mret [("vmid", VInt vmid); ("node", VStr node); ("name", VStr name);
        ("tags", VList (recorded_list (get "tags" source)));
        ("cores", opt_int cores); ("memory", opt_int memory); ("disk_gb", opt_int disk);
        ("interfaces", VList (recorded_list (get "interfaces" source)));
        ("ipv4", text_or_none (get_first source "primary_ip4" "ipv4"));
        ("ipv6", text_or_none (get_first source "primary_ip6" "ipv6"));
        ("custom_field_data", VDict (_recorded_custom_fields snapshots));
        ("intent", match get "intent" source with VDict i => VDict i | _ => VDict [] end);
        ("change_diff", VDict
          [("object_id", opt_id (cdf_object_id row)); ("object_repr", cdf_object_repr row);
           ("original", VDict original);
           ("current", match current with [] => VNone | _ => VDict current end)])].

(** [_deletion_identity] of apply_job.py *)
Definition _deletion_identity (snapshot : dict pyval) : result (Z * string * string) :=
  match get "vmid" snapshot with
  | VInt vmid =>
      if vmid <=? 0 then Err (ValueError "Deletion metadata does not contain a valid Proxmox VMID.")
      else
        let node := get "node" snapshot in
        let name := get "name" snapshot in
        if none_or_empty node then Err (ValueError "Deletion metadata does not contain a Proxmox node.")
        else if none_or_empty name then Err (ValueError "Deletion metadata does not contain a VM name.")
        else Ok (vmid, str node, str name)
  | _ => Err (ValueError "Deletion metadata does not contain a valid Proxmox VMID.")
  end.

(** ** The type of a payload *)

Definition is_text (v : pyval) : bool := match v with VStr s => nonempty s | _ => false end.
Definition int_or_null (v : pyval) : bool := match v with VNone | VInt _ => true | _ => false end.
Definition text_or_null (v : pyval) : bool := match v with VNone | VStr _ => true | _ => false end.
Definition list_of (P : pyval -> bool) (v : pyval) : bool := match v with VList l => forallb P l | _ => false end.
Definition not_blank (v : pyval) : bool :=
  match v with VNone => false | VStr s => nonempty (strip s) | _ => true end.

Definition cloud_init_field (kv : string * pyval) : bool :=
  let '(k, v) := kv in
  if String.eqb k "user" then text_or_null v
  else if String.eqb k "ssh_keys" then (list_of is_text v && negb (py_eqb v (VList [])))%bool
  else if String.eqb k "user_data" then not_blank v
  else if String.eqb k "network" then match nonempty_dict v with Some _ => true | None => false end
  else false.

Definition payload_field (kv : string * pyval) : bool :=
  let '(k, v) := kv in
  if mem_str k ["vmid"; "cores"; "memory"; "disk_gb"; "template_vmid"; "swap"] then int_or_null v
  else if mem_str k ["node"; "storage"; "iso"; "rootfs"; "ostemplate"; "description"] then text_or_null v
  else if String.eqb k "name" then match v with VStr _ => true | _ => false end
  else if String.eqb k "tags" then list_of is_text v
  else if String.eqb k "cloud_init" then
    match nonempty_dict v with Some d => forallb cloud_init_field d | None => false end
  else false.

Lemma opt_int_type (z : option Z) : int_or_null (opt_int z) = true.
Proof. by destruct z. Qed.

Lemma opt_str_type (s : option string) : text_or_null (opt_str s) = true.
Proof. by destruct s. Qed.

Lemma tags_type (vm : IntentVM) : list_of is_text (VList (List.map VStr (_tag_names vm))) = true.
Proof.
  cbn. apply forallb_forall. intros v (s & <- & Hs%List.filter_In)%in_map_iff. apply Hs.
Qed.

Lemma cloud_text_type (v v' : pyval) : _cloud_init_text v = Some v' -> not_blank v' = true.
Proof.
  unfold _cloud_init_text. destruct v; cbn [none_or_empty]; try (by intros [= <-]).
  destruct (is_empty s); [done|]. destruct (is_empty (strip s)) eqn:E; [done|]. intros [= <-].
  cbn. unfold nonempty. by rewrite E.
Qed.

Lemma ssh_keys_type (v : pyval) (keys : list string) :
  _cloud_init_ssh_keys v = Some keys -> cloud_init_field ("ssh_keys", VList (List.map VStr keys)) = true.
Proof.
  unfold _cloud_init_ssh_keys. destruct (_cloud_init_text v) as [text|]; [|done].
  set (lines := List.filter _ _). assert (Hl : Forall (fun l => nonempty (strip l) = true) lines).
  { apply Forall_forall. intros l Hl%list_elem_of_In%List.filter_In. apply Hl. }
  assert (Hk : forallb is_text (List.map VStr (List.map strip lines)) = true).
  { clearbody lines. induction Hl as [|l lines Hx Hl IH]; [done|]. cbn. by rewrite Hx. }
  destruct (List.map strip lines) as [|x l]; [done|]. intros [= <-].
  unfold cloud_init_field. cbn [String.eqb]. change (String.eqb "ssh_keys" "user") with false.
  change (String.eqb "ssh_keys" "ssh_keys") with true. cbv iota. cbn [list_of]. by rewrite Hk.
Qed.

Lemma network_type (v : pyval) (d : dict pyval) :
  _cloud_init_network v = Some d -> cloud_init_field ("network", VDict d) = true.
Proof.
  intros H. assert (d <> []) as Hd; [|destruct d; [done|reflexivity]].
  assert (Hn : forall w, nonempty_dict w = Some d -> d <> []).
  { intros w. destruct w; try done. destruct d0; [done|]. by intros [= <-]. }
  unfold _cloud_init_network in H.
  destruct v as [| | | | | |e]; [..|exact (Hn (VDict e) H)]; destruct (_cloud_init_text _); try done;
    destruct (json_loads _) as [w|]; try done; exact (Hn w H).
Qed.

Lemma cloud_init_type (intent : option (dict pyval)) (c : dict pyval) :
  _cloud_init_payload intent = Some c -> c <> [] /\ forallb cloud_init_field c = true.
Proof.
  unfold _cloud_init_payload. set (d := _ ++ _ ++ _ ++ _). intros H.
  assert (Hc : forallb cloud_init_field d = true).
  { unfold d. rewrite !forallb_app, !andb_true_iff. split_and!.
    - destruct (_str_or_none _); reflexivity.
    - destruct (_cloud_init_ssh_keys _) eqn:E; [|done]. cbn [optional_item forallb].
      by rewrite (ssh_keys_type _ _ E).
    - destruct (_cloud_init_text _) eqn:E; [|done]. cbn [optional_item forallb].
      unfold cloud_init_field. change (String.eqb "user_data" "user") with false.
      change (String.eqb "user_data" "ssh_keys") with false. change (String.eqb "user_data" "user_data") with true.
      cbv iota. unfold id. by rewrite (cloud_text_type _ _ E).
    - destruct (_cloud_init_network _) eqn:E; [|done]. cbn [optional_item forallb].
      by rewrite (network_type _ _ E). }
  destruct d as [|x l]; [done|]. injection H as <-. by split.
Qed.

Lemma with_cloud_init_type (vm : IntentVM) (p : dict pyval) :
  Forall (fun kv => payload_field kv = true) p -> NoDup (dkeys p) -> "cloud_init" ∉ dkeys p ->
  Forall (fun kv => payload_field kv = true) (with_cloud_init vm p) /\ NoDup (dkeys (with_cloud_init vm p)).
Proof.
  intros Hp Hnd Hc. unfold with_cloud_init. destruct (_cloud_init_payload (iv_intent vm)) as [c|] eqn:E; [|done].
  apply cloud_init_type in E as [Hne Hf]. split.
  - apply Forall_app. split; [done|]. constructor; [|done]. unfold payload_field.
    change (mem_str "cloud_init" ["vmid"; "cores"; "memory"; "disk_gb"; "template_vmid"; "swap"]) with false.
    change (mem_str "cloud_init" ["node"; "storage"; "iso"; "rootfs"; "ostemplate"; "description"]) with false.
    change (String.eqb "cloud_init" "name") with false. change (String.eqb "cloud_init" "tags") with false.
    change (String.eqb "cloud_init" "cloud_init") with true. cbv iota. destruct c; [done|]. exact Hf.
  - unfold dkeys in *. rewrite List.map_app. apply NoDup_app. split; [done|]. split; [|apply NoDup_singleton].
    intros x Hx ->%list_elem_of_singleton. done.
Qed.

Lemma payload_shape (setting : result bool) (vm : IntentVM) (p : dict pyval) :
  build_vm_payload setting vm = Ok p \/ build_lxc_payload setting vm = Ok p ->
  Forall (fun kv => payload_field kv = true) p /\ NoDup (dkeys p) /\
  (forall k, k ∈ ["vmid"; "name"; "node"; "cores"; "memory"; "storage"; "tags"; "description"] -> k ∈ dkeys p).
Proof.
  assert (Hkeys : forall q r : dict pyval, dkeys (q ++ r) = dkeys q ++ dkeys r) by (intros; unfold dkeys; apply List.map_app).
  assert (Hw : forall base k, k ∈ dkeys base -> k ∈ dkeys (with_cloud_init vm base)).
  { intros base k Hk. unfold with_cloud_init. destruct (_cloud_init_payload _); [|done].
    rewrite Hkeys. apply elem_of_app. by left. }
  intros [H|H]; unfold build_vm_payload, build_lxc_payload in H;
    repeat match type of H with
    | mbind _ ?m = Ok _ => let E := fresh "E" in destruct m as [?|] eqn:E; cbn in H; [|done]
    end;
    apply (inj Ok) in H; subst p;
    match goal with |- context [with_cloud_init vm ?base] =>
      destruct (with_cloud_init_type vm base) as [H1 H2];
        [repeat (constructor; [first [apply opt_int_type|apply opt_str_type|apply tags_type|done]|]); constructor
        |apply (bool_decide_unpack (NoDup _)); by vm_compute
        |apply (bool_decide_unpack (_ ∉ _)); by vm_compute|]
    end; (split; [done|]); (split; [done|]); intros k Hk; apply Hw; revert k Hk; unfold dkeys; cbn [List.map fst];
    rewrite <- Forall_forall; apply (bool_decide_unpack (Forall _ _)); by vm_compute.
Qed.

(** Reads off the parts of a payload that was built. *)
Ltac built H :=
  repeat match type of H with
  | mbind _ ?m = Ok _ => let E := fresh "E" in destruct m as [?|] eqn:E; cbn in H; [|done]
  end; apply (inj Ok) in H.

(** The payload names the guest by the VMID of the sync state. *)
Lemma payload_vmid (setting : result bool) (vm : IntentVM) (ss : VMSyncState) (z : Z) (p : dict pyval) :
  vm_sync_state (iv_core vm) = Some ss -> ss_proxmox_vm_id ss = Some z -> Z.abs z < 2 ^ 53 ->
  build_vm_payload setting vm = Ok p \/ build_lxc_payload setting vm = Ok p ->
  get "vmid" p = VInt z.
Proof.
  intros Hs Hz Hb H. assert (Hv : _int_or_none (VStr (resolve_vm_vmid (iv_core vm))) = Ok (Some z)).
  { unfold resolve_vm_vmid. rewrite Hs, Hz. by apply int_or_none_pretty. }
  unfold build_vm_payload, build_lxc_payload in H. rewrite Hv in H. cbn in H.
  destruct H as [H|H]; built H; subst p; unfold with_cloud_init; by destruct (_cloud_init_payload _).
Qed.

Lemma dget_filter {V} (P : string * V -> bool) (k : string) (d : dict V) :
  NoDup (dkeys d) ->
  dget k (List.filter P d) = match dget k d with Some v => if P (k, v) then Some v else None | None => None end.
Proof.
  induction d as [|[k' v] d IH]; [done|]. unfold dkeys. cbn [List.map fst]. intros [Hk Hnd]%NoDup_cons.
  cbn [List.filter dget]. destruct (String.eqb_spec k k') as [->|Hne].
  - destruct (P (k', v)) eqn:E; cbn [dget]; [by rewrite String.eqb_refl|].
    rewrite IH by done. by rewrite (proj2 (dget_none k' d)).
  - destruct (P (k', v)); cbn [dget]; [by rewrite (proj2 (String.eqb_neq _ _) Hne), IH|by apply IH].
Qed.

(** An update is compared with nothing: it is never empty, and sends every
    field of the virtual machine's payload, also for a container. *)
Theorem update_sends_everything (setting : result bool) (vm : IntentVM) (d : dict pyval) :
  build_update_delta setting vm [] = Ok d ->
  d <> [] /\ exists p, build_vm_payload setting vm = Ok p /\ forall k, get k d = get k p.
Proof.
  unfold build_update_delta. change (String.eqb (lower (str (py_or (get "kind" []) (VStr "")))) "lxc") with false.
  cbv iota. destruct (build_vm_payload setting vm) as [p|] eqn:E; cbn [mbind result_bind]; [|done].
  destruct (payload_shape setting vm p (or_introl E)) as (Hf & Hnd & Hreq). intros <-%(inj Ok).
  set (P := fun kv : string * pyval => _). set (delta := List.filter P p).
  assert (Hname : exists v, dget "name" delta = Some v).
  { unfold delta. rewrite dget_filter by done. destruct (dget "name" p) as [v|] eqn:En.
    - rewrite Forall_forall in Hf. specialize (Hf _ (dget_in _ _ _ En)).
      unfold payload_field in Hf. cbv [mem_str existsb String.eqb Ascii.eqb Bool.eqb] in Hf.
      destruct v; try discriminate Hf. by eexists.
    - apply dget_none in En. exfalso. apply En, Hreq. right; left. }
  destruct delta as [|kv l] eqn:Ed; [by destruct Hname|]. rewrite <- Ed. clear Hname. split.
  { intros Hnil. assert (dget "node" (dset "node" (get "node" p) (dset "vmid" (get "vmid" p) delta)) = None)
      by (by rewrite Hnil). by rewrite dget_dset_eq in H. }
  exists p. split; [done|]. intros k. unfold get, dget_or at 1.
  destruct (String.eqb_spec k "node") as [->|Hn]; [by rewrite dget_dset_eq|].
  rewrite dget_dset_ne by done. destruct (String.eqb_spec k "vmid") as [->|Hv]; [by rewrite dget_dset_eq|].
  rewrite dget_dset_ne by done. unfold delta. rewrite dget_filter by done.
  unfold dget_or. destruct (dget k p) as [v|]; [|done].
  assert (HP : P (k, v) = negb (py_eqb VNone v)).
  { unfold P. cbn [fst snd]. rewrite (proj2 (mem_str_false k ["vmid"; "node"])); [done|].
    rewrite !not_elem_of_cons. split; [done|]. split; [done|apply not_elem_of_nil]. }
  rewrite HP. destruct v; done.
Qed.


(** ** What a payload says

    For a virtual machine whose columns have the types of their fields: integers
    of up to 53 bits (they pass through a float) or nothing, texts or nothing. *)

Inductive int_column : pyval -> option Z -> Prop :=
| int_unset : int_column VNone None
| int_set z : Z.abs z < 2 ^ 53 -> int_column (VInt z) (Some z).

Inductive text_column : pyval -> option string -> Prop :=
| text_unset : text_column VNone None
| text_blank : text_column (VStr "") None
| text_set s : s <> "" -> text_column (VStr s) (Some s).

(** A column of the intent row; nothing without one. *)
Definition intent_column (vm : IntentVM) (name : string) : pyval :=
  match iv_intent vm with Some i => get name i | None => VNone end.

(** The VMID of the guest the row is synced with. *)
Definition guest_vmid (vm : IntentVM) (vmid : option Z) : Prop :=
  match vm_sync_state (iv_core vm) with Some ss => ss_proxmox_vm_id ss = vmid | None => vmid = None end /\
  match vmid with Some z => Z.abs z < 2 ^ 53 | None => True end.

Record typed_vm (vm : IntentVM) (vmid vcpus memory : option Z) (disks : list Z) : Prop := {
  tv_vmid : guest_vmid vm vmid;
  tv_vcpus : int_column (attr vm "vcpus") vcpus;
  tv_memory : int_column (attr vm "memory") memory;
  tv_disks : iv_disks vm = List.map VInt disks;
  tv_sizes : Forall (fun z => Z.abs z < 2 ^ 53) disks
}.

Lemma int_column_value (v : pyval) (z : option Z) : int_column v z -> _int_or_none v = Ok z.
Proof. destruct 1; [done|by apply int_or_none_int]. Qed.

Lemma text_column_value (v : pyval) (s : option string) : text_column v s -> text_or_none v = opt_str s.
Proof.
  destruct 1 as [| |s Hs]; [done..|]. unfold text_or_none, _str_or_none. cbn [none_or_empty].
  unfold is_empty. by rewrite (proj2 (String.eqb_neq _ _) Hs).
Qed.

Lemma guest_vmid_value (vm : IntentVM) (vmid : option Z) :
  guest_vmid vm vmid -> _int_or_none (VStr (resolve_vm_vmid (iv_core vm))) = Ok vmid.
Proof.
  unfold guest_vmid, resolve_vm_vmid. destruct (vm_sync_state (iv_core vm)) as [ss|]; intros [Hv Hz]; [|by subst].
  rewrite Hv. destruct vmid as [z|]; [by apply int_or_none_pretty|done].
Qed.

(** A value and its blank reading are the same to the payload. *)
Lemma intent_value_one (vm : IntentVM) (name : string) :
  _intent_value (iv_intent vm) [name] = intent_column vm name \/
  (_intent_value (iv_intent vm) [name] = VNone /\ intent_column vm name = VStr "").
Proof.
  unfold _intent_value, intent_column. destruct (iv_intent vm) as [i|]; [|by left]. cbn [list_find_map].
  destruct (none_or_empty (get name i)) eqn:E; [|by left]. cbn. destruct (get name i); try done; [by left|].
  cbn in E. unfold is_empty in E. apply String.eqb_eq in E as ->. by right.
Qed.

Lemma intent_text (vm : IntentVM) (name : string) (s : option string) :
  text_column (intent_column vm name) s -> text_or_none (_intent_value (iv_intent vm) [name]) = opt_str s.
Proof.
  intros H%text_column_value. destruct (intent_value_one vm name) as [->|[-> E]]; [done|]. by rewrite E in H.
Qed.

Lemma intent_int (vm : IntentVM) (name : string) (z : option Z) :
  int_column (intent_column vm name) z -> _int_or_none (_intent_value (iv_intent vm) [name]) = Ok z.
Proof.
  intros H. destruct (intent_value_one vm name) as [->|[-> E]]; [by apply int_column_value|].
  rewrite E in H. by inversion H.
Qed.

(** The first of two columns that is set. *)
Lemma intent_text_or (vm : IntentVM) (a b : string) (s t : option string) :
  text_column (intent_column vm a) s -> text_column (intent_column vm b) t ->
  text_or_none (_intent_value (iv_intent vm) [a; b]) = opt_str (match s with Some _ => s | None => t end).
Proof.
  intros Ha Hb. pose proof (intent_text vm b t Hb) as Hb'. unfold intent_column, _intent_value in *.
  destruct (iv_intent vm) as [i|]; [|by inversion Ha; inversion Hb]. cbn [list_find_map] in *.
  destruct Ha as [| |x Hx]; cbn [none_or_empty].
  - exact Hb'.
  - change (is_empty "") with true. cbv iota. exact Hb'.
  - unfold is_empty. rewrite (proj2 (String.eqb_neq _ _) Hx). cbv iota. cbn [default].
    apply text_column_value. by constructor.
Qed.

Lemma foldr_add (a b : Z) (l : list Z) : foldr Z.add (a + b) l = a + foldr Z.add b l.
Proof. induction l as [|z l IH]; cbn; lia. Qed.

Lemma disk_sum_total (disks : list Z) (total : Z) (found : bool) :
  Forall (fun z => Z.abs z < 2 ^ 53) disks ->
  disk_sum (List.map VInt disks) total found =
  Ok (match disks with [] => if found then Some total else None | _ => Some (foldr Z.add total disks) end).
Proof.
  intros Hd. revert total found. induction Hd as [|z disks Hz Hd IH]; intros total found; [done|]. cbn [List.map disk_sum].
  rewrite int_or_none_int by done. cbn [mbind result_bind]. rewrite IH. destruct disks as [|z' disks]; cbn [foldr]; [do 2 f_equal; lia|].
  do 2 f_equal. rewrite (Z.add_comm total z), foldr_add. lia.
Qed.


Definition plain_vm : IntentVM :=
  mkIntentVM
    {| vm_pk := 5; vm_name := "web"; vm_cluster := None; vm_device_name := None; vm_type_slug := None;
       vm_sync_state := None; vm_tenant := None; vm_tags := ["a"; ""] |}
    None None [("vcpus", VFloat "2.00"); ("memory", VInt 2048)] [] [] None None VNone []
    (Some [("target_node", VStr "pve1"); ("cloud_init_user", VStr "root")]).

Definition plain_payload : dict pyval :=
  match build_vm_payload (Ok false) plain_vm with Ok p => p | Err _ => [] end.

(** [payload_carries_columns] on a synced machine with two disks. *)
Definition synced_vm : IntentVM :=
  mkIntentVM
    {| vm_pk := 5; vm_name := "web"; vm_cluster := None; vm_device_name := None; vm_type_slug := None;
       vm_sync_state := Some {| ss_virtual_machine_id := Some 5; ss_endpoint := None; ss_endpoint_id := None;
         ss_proxmox_cluster := None; ss_proxmox_cluster_name := ""; ss_proxmox_node := None; ss_proxmox_node_name := "pve1";
         ss_proxmox_vm_type := "qemu"; ss_proxmox_vm_id := Some 105 |};
       vm_tenant := None; vm_tags := ["a"; ""] |}
    None None [("vcpus", VInt 2); ("memory", VInt 2048)] [VInt 8; VInt 32] [] None None VNone []
    (Some [("target_node", VStr "pve1")]).

