(* ===== verification/BackendPath.v ===== *)
(** * Values in the paths of backend requests

    services/backend_path.py: what may become a segment of a path; with the
    parts of the language it and the firewall code use: [urllib.parse.quote]
    and the syntax [ipaddress.ip_network] accepts. *)
From Stdlib Require Import ZArith Lia Ascii String.
From stdpp Require Import base list strings pretty.
From S2P Require Import Prelude Text.

(** ** [quote(text, safe="")] *)

Definition is_alnum (c : ascii) : bool :=
  let n := nat_of_ascii c in
  ((Nat.leb 48 n && Nat.leb n 57) || (Nat.leb 65 n && Nat.leb n 90) || (Nat.leb 97 n && Nat.leb n 122))%bool.

Definition unreserved (c : ascii) : bool := (is_alnum c || mem_str (String c "") ["_"; "."; "-"; "~"])%bool.

Definition upper_hex (n : nat) : ascii := ascii_of_nat (if Nat.ltb n 10 then 48 + n else 55 + n)%nat.

Definition percent (c : ascii) : string :=
  let n := nat_of_ascii c in
  String "%" (String (upper_hex (n / 16)) (String (upper_hex (n mod 16)) "")).

Fixpoint quote (s : string) : string :=
  match s with
  | EmptyString => ""
  | String c s' => (if unreserved c then String c "" else percent c) +:+ quote s'
  end.

(** ** backend_path.py *)

Definition MAX_SEGMENT_LENGTH : nat := 253.
Definition MAX_VMID : Z := 999999999.

(** [_SEGMENT_RE.fullmatch(text)] *)
Definition segment_char (c : ascii) : bool := (is_alnum c || mem_str (String c "") ["."; "_"; "-"])%bool.
Definition segment_match (s : string) : bool :=
  match s with String c s' => (is_alnum c && all_chars segment_char s')%bool | EmptyString => false end.

(** [UnsafeBackendPathSegment] is a [ValueError]. *)
Definition safe_path_segment (value : pyval) : result string :=
  let text := strip (str (match value with VNone => VStr "" | v => v end)) in
  if (is_empty text || Nat.ltb MAX_SEGMENT_LENGTH (String.length text))%bool
  then Err (ValueError "path segment is empty or too long")
  else if negb (segment_match text) then Err (ValueError "path segment contains forbidden characters")
  else if contains ".." text then Err (ValueError "path segment contains a dot-dot sequence")
  else Ok (quote text).

Definition safe_vm_type (value : pyval) : result string :=
  let text := lower (strip (str (match value with VNone => VStr "" | v => v end))) in
  if mem_str text ["qemu"; "lxc"] then Ok text else Err (ValueError "guest type must be qemu or lxc").

Definition safe_vmid (value : pyval) : result string :=
  match value with
  | VBool _ => Err (ValueError "VMID must be a positive integer")
  | _ =>
      let text := strip (str (match value with VNone => VStr "" | v => v end)) in
      if negb (nonempty text && all_chars is_digit text)%bool then Err (ValueError "VMID must be a positive integer")
      else match int_of_string text with
           | Some vmid =>
               if ((1 <=? vmid) && (vmid <=? MAX_VMID))%bool then Ok (pretty vmid)
               else Err (ValueError "VMID is out of range")
           | None => Err (ValueError "VMID must be a positive integer")
           end
  end.

(** ** [ipaddress.ip_network(text, strict=False)]: is the text a network? *)

(** A decimal octet: one to three digits, no leading zero, up to 255. *)
Definition parse_octet (s : string) : option Z :=
  if (is_empty s || negb (all_chars is_digit s) || Nat.ltb 3 (String.length s))%bool then None
  else if (negb (String.eqb s "0") && startswith "0" s)%bool then None
  else match int_of_string s with Some n => if n <=? 255 then Some n else None | None => None end.

Definition ipv4_int (s : string) : option Z :=
  match List.map parse_octet (split "." s) with
  | [Some a; Some b; Some c; Some d] => Some (((a * 256 + b) * 256 + c) * 256 + d)
  | _ => None
  end.

(** A prefix length in digits, up to [limit]. *)
Definition prefix_length (limit : Z) (s : string) : bool :=
  (nonempty s && all_chars is_digit s &&
   match int_of_string s with Some n => n <=? limit | None => false end)%bool.

(** Ones followed by zeroes: the distance to [2 ^ 32] is a power of two. *)
Definition contiguous (n : Z) : bool := Z.eqb (Z.land (2 ^ 32 - n) (2 ^ 32 - n - 1)) 0.

Definition ipv4_mask (s : string) : bool :=
  (prefix_length 32 s ||
   match ipv4_int s with Some n => (contiguous n || contiguous (2 ^ 32 - 1 - n))%bool | None => false end)%bool.

Definition is_ipv4_network (text : string) : bool :=
  match split "/" text with
  | [addr] => match ipv4_int addr with Some _ => true | None => false end
  | [addr; mask] => (match ipv4_int addr with Some _ => true | None => false end && ipv4_mask mask)%bool
  | _ => false
  end.

Definition hex_digit_char (c : ascii) : bool :=
  let n := nat_of_ascii c in
  ((Nat.leb 48 n && Nat.leb n 57) || (Nat.leb 65 n && Nat.leb n 70) || (Nat.leb 97 n && Nat.leb n 102))%bool.

Definition is_hextet (s : string) : bool :=
  (nonempty s && all_chars hex_digit_char s && Nat.leb (String.length s) 4)%bool.

(** The pieces between colons, a dotted last one counting for two. *)
Definition ipv6_parts (s : string) : option (list string) :=
  let parts := split ":" s in
  if Nat.ltb (List.length parts) 3 then None
  else match List.rev parts with
       | l :: front =>
           if contains "." l
           then match ipv4_int l with Some _ => Some (List.rev front ++ ["0"; "0"]) | None => None end
           else Some parts
       | [] => None
       end.

Definition empty_inside (parts : list string) : list nat :=
  List.filter (fun i => is_empty (default "x" (parts !! i))) (seq 1 (List.length parts - 2)).

Definition is_ipv6_address (s : string) : bool :=
  match ipv6_parts s with
  | None => false
  | Some parts =>
      let n := List.length parts in
      let first := default "" (parts !! 0%nat) in
      let final := default "" (parts !! (n - 1)%nat) in
      if Nat.ltb 9 n then false
      else match empty_inside parts with
           | [] => (Nat.eqb n 8 && forallb is_hextet parts)%bool
           | [i] =>
               let hi := take i parts in
               let lo := drop (S i) parts in
               let hi := if is_empty first then drop 1 hi else hi in
               let lo := if is_empty final then removelast lo else lo in
               (negb (is_empty first && negb (Nat.eqb (List.length hi) 0)) &&
                negb (is_empty final && negb (Nat.eqb (List.length lo) 0)) &&
                Nat.leb (List.length hi + List.length lo) 7 &&
                forallb is_hextet (hi ++ lo))%bool
           | _ => false
           end
  end.

(** [addr%scope]: a scope is not empty and has no further percent sign. *)
Definition ipv6_with_scope (s : string) : bool :=
  match split "%" s with
  | [addr] => is_ipv6_address addr
  | [addr; scope] => (nonempty scope && is_ipv6_address addr)%bool
  | _ => false
  end.

Definition is_ipv6_network (text : string) : bool :=
  match split "/" text with
  | [addr] => ipv6_with_scope addr
  | [addr; mask] => (ipv6_with_scope addr && prefix_length 128 mask)%bool
  | _ => false
  end.

Definition is_ip_network (text : string) : bool := (is_ipv4_network text || is_ipv6_network text)%bool.

Example networks :
  List.map is_ip_network
    ["10.0.0.0/8"; "10.0.0.1"; "192.168.0.0/255.255.0.0"; "10.0.0.0/0.0.0.255"; "fd00::/8"; "::1"; "fe80::1%eth0";
     "::ffff:10.0.0.1"; "1:2:3:4:5:6:7:8/128"] = repeat true 9 /\
  List.map is_ip_network
    [""; "."; ".."; "10.0.0"; "10.0.0.256"; "010.0.0.1"; "10.0.0.0/33"; "10.0.0.0/255.0.255.0"; ":::"; "1::2::3";
     "12345::"; "management"; "a/b/c"] = repeat false 13.
Proof. vm_compute. split; reflexivity. Qed.

(** ** Segments *)

Definition path_char (c : ascii) : bool := (unreserved c || Ascii.eqb c "%")%bool.

(** A segment of a path that names one level and nothing else: no separator,
    no query, no fragment, and neither the current nor the parent level. *)
Definition plain (s : string) : bool :=
  (nonempty s && all_chars path_char s && negb (mem_str s ["."; ".."]))%bool.

Lemma quote_chars (s : string) : all_chars path_char (quote s) = true.
Proof.
  induction s as [|c s IH]; [done|]. cbn [quote]. rewrite all_chars_app, IH, andb_true_r.
  destruct (unreserved c) eqn:E; [cbn [all_chars]; unfold path_char; by rewrite E|].
  clear IH s. unfold percent. destruct c as [[] [] [] [] [] [] [] []]; reflexivity.
Qed.

Lemma quote_id (s : string) : all_chars unreserved s = true -> quote s = s.
Proof.
  induction s as [|c s IH]; [done|]. cbn [all_chars quote]. intros [Hc Hs]%andb_true_iff.
  by rewrite Hc, IH.
Qed.

Lemma quote_dots (s : string) : mem_str (quote s) ["."; ".."] = true -> mem_str s ["."; ".."] = true.
Proof.
  assert (Hone : forall c s t, quote (String c s) = String "." t -> c = "."%char /\ quote s = t).
  { intros c u t. cbn [quote]. destruct (unreserved c) eqn:E; [by intros [= -> <-]|].
    unfold percent. rewrite app_cons_string. by intros [=]. }
  rewrite !mem_str_spec, !elem_of_cons, elem_of_nil. intros [H|[H|[]]].
  - destruct s as [|c s]; [done|]. apply Hone in H as [-> H]. destruct s as [|b s]; [by left|].
    cbn [quote] in H. by destruct (unreserved b).
  - destruct s as [|c s]; [done|]. apply Hone in H as [-> H]. destruct s as [|b s]; [done|].
    apply Hone in H as [-> H]. destruct s as [|a s]; [by right; left|].
    cbn [quote] in H. by destruct (unreserved a).
Qed.

Lemma quote_plain (s : string) :
  nonempty s = true -> mem_str s ["."; ".."] = false -> plain (quote s) = true.
Proof.
  intros Hn Hd. unfold plain. rewrite quote_chars.
  assert (nonempty (quote s) = true) as ->.
  { destruct s as [|c s]; [done|]. cbn [quote]. by destruct (unreserved c). }
  destruct (mem_str (quote s) ["."; ".."]) eqn:E; [|done]. apply quote_dots in E. congruence.
Qed.

(** A validated segment is the text itself: a letter or digit, then letters,
    digits, dots, underscores and hyphens, never two dots in a row. *)
Theorem safe_segment_confined (value : pyval) (t : string) :
  safe_path_segment value = Ok t ->
  plain t = true /\ segment_match t = true /\ contains ".." t = false /\ (String.length t <= MAX_SEGMENT_LENGTH)%nat.
Proof.
  unfold safe_path_segment. set (text := strip _).
  destruct (is_empty text) eqn:He; [done|]. cbn [orb].
  destruct (Nat.ltb_spec MAX_SEGMENT_LENGTH (String.length text)) as [|Hl]; [done|].
  destruct (segment_match text) eqn:Hm; [|done]. destruct (contains ".." text) eqn:Hd; [done|]. cbn [negb].
  assert (Hq : quote text = text).
  { apply quote_id. destruct text as [|c s]; [done|]. cbn [segment_match] in Hm. cbn [all_chars].
    apply andb_true_iff in Hm as [Hc Hs]. apply andb_true_iff. split; [unfold unreserved; by rewrite Hc|].
    revert Hs. apply all_chars_impl. all_ascii. }
  intros [= <-]. rewrite Hq. split; [|done].
  rewrite <- Hq. apply quote_plain; [unfold nonempty; by rewrite He|].
  apply mem_str_false. rewrite !not_elem_of_cons. split_and!; [by intros E; rewrite E in Hm|by intros E; rewrite E in Hm|].
  apply not_elem_of_nil.
Qed.

(** An address or network, quoted, is one segment too. *)
Lemma network_segment (text : string) : is_ip_network text = true -> plain (quote text) = true.
Proof.
  intros H. apply quote_plain.
  - destruct text; [by vm_compute in H|reflexivity].
  - apply mem_str_false. rewrite !not_elem_of_cons.
    split_and!; [by intros ->; vm_compute in H..|apply not_elem_of_nil].
Qed.

Lemma safe_vmid_range (value : pyval) (t : string) :
  safe_vmid value = Ok t -> exists vmid, t = pretty vmid /\ 1 <= vmid <= MAX_VMID.
Proof.
  unfold safe_vmid. intros H. assert (Hgen : forall text,
    (if negb (nonempty text && all_chars is_digit text)%bool then Err (ValueError "VMID must be a positive integer")
     else match int_of_string text with
          | Some vmid => if ((1 <=? vmid) && (vmid <=? MAX_VMID))%bool then Ok (pretty vmid)
                         else Err (ValueError "VMID is out of range")
          | None => Err (ValueError "VMID must be a positive integer")
          end) = Ok t -> exists vmid, t = pretty vmid /\ 1 <= vmid <= MAX_VMID).
  { intros text. destruct (nonempty text && all_chars is_digit text)%bool; cbn [negb]; [|by intros [=]]. destruct (int_of_string text) as [vmid|]; [|done].
    destruct (Z.leb_spec 1 vmid), (Z.leb_spec vmid MAX_VMID); cbn [andb]; intros [= <-]. eauto. }
  destruct value; try discriminate H; exact (Hgen _ H).
Qed.
