(* ===== verification/Fernet.v ===== *)
(** * Encryption of credentials at rest (utils/encryption.py)

    Fernet keys in the spellings the plugin accepts, and the two helpers that
    encrypt and decrypt a credential.  Base 64 is written out as the standard
    library has it, with what its decoder tolerates; the cipher itself is a
    parameter, [FernetLib]. *)
From Stdlib Require Import ZArith Lia Ascii String.
From stdpp Require Import base list strings.
From S2P Require Import Prelude Text BackendPath.

(** ** Stripping twice *)

Lemma lstrip_lstrip (s : string) : lstrip (lstrip s) = lstrip s.
Proof. induction s as [|c s IH]; [done|]. simpl. destruct (is_space c) eqn:E; [done|]. simpl. by rewrite E. Qed.

Lemma rstrip_tail (c : ascii) (s : string) : rstrip (String c s) = String c s -> rstrip s = s.
Proof. simpl. destruct (rstrip s) as [|d t]; [destruct (is_space c); congruence|congruence]. Qed.

Lemma rstrip_rstrip (s : string) : rstrip (rstrip s) = rstrip s.
Proof.
  induction s as [|c s IH]; [done|]. simpl. destruct (rstrip s) as [|d t] eqn:E.
  - destruct (is_space c) eqn:Ec; [done|]. simpl. by rewrite Ec.
  - cbn [rstrip] in *. by rewrite IH.
Qed.

Lemma rstrip_lstrip (s : string) : rstrip s = s -> rstrip (lstrip s) = lstrip s.
Proof. induction s as [|c s IH]; [done|]. intros H. cbn [lstrip]. destruct (is_space c); [|done]. by apply IH, (rstrip_tail c). Qed.

Lemma strip_strip (s : string) : strip (strip s) = strip s.
Proof. unfold strip. rewrite rstrip_lstrip by apply rstrip_rstrip. apply lstrip_lstrip. Qed.

(** ** Base 64 *)

(** The digit for a value below 64, in the url-safe alphabet. *)
Definition b64_char (n : Z) : ascii :=
  if n <? 26 then ascii_of_N (Z.to_N (65 + n))
  else if n <? 52 then ascii_of_N (Z.to_N (97 + (n - 26)))
  else if n <? 62 then ascii_of_N (Z.to_N (48 + (n - 52)))
  else if n =? 62 then "-"%char else "_"%char.

Definition byte_of (c : ascii) : Z := Z.of_N (N_of_ascii c).
Definition char_of (n : Z) : ascii := ascii_of_N (Z.to_N n).

(** The value of a digit: [urlsafe_b64decode] turns [-] and [_] into [+] and
    [/], which are accepted as well. *)
Definition b64_value (c : ascii) : option Z :=
  let n := byte_of c in
  if ((65 <=? n) && (n <=? 90))%bool then Some (n - 65)
  else if ((97 <=? n) && (n <=? 122))%bool then Some (n - 97 + 26)
  else if ((48 <=? n) && (n <=? 57))%bool then Some (n - 48 + 52)
  else if ((n =? 45) || (n =? 43))%bool then Some 62
  else if ((n =? 95) || (n =? 47))%bool then Some 63
  else None.

(** [base64.urlsafe_b64encode] *)
Fixpoint urlsafe_b64encode (s : string) : string :=
  match s with
  | EmptyString => ""
  | String a EmptyString =>
      let a := byte_of a in
      String (b64_char (a / 4)) (String (b64_char (a mod 4 * 16)) "==")
  | String a (String b EmptyString) =>
      let a := byte_of a in let b := byte_of b in
      String (b64_char (a / 4)) (String (b64_char (a mod 4 * 16 + b / 16)) (String (b64_char (b mod 16 * 4)) "="))
  | String a (String b (String c s')) =>
      let a := byte_of a in let b := byte_of b in let c := byte_of c in
      String (b64_char (a / 4)) (String (b64_char (a mod 4 * 16 + b / 16))
        (String (b64_char (b mod 16 * 4 + c / 64)) (String (b64_char (c mod 64)) (urlsafe_b64encode s'))))
  end.

(** [binascii.a2b_base64] in its lenient mode: what is not a digit is skipped,
    a padding that closes a quantum ends the input, and the digits left over
    are an error.  [quad] digits of the quantum were read, [left] are their
    bits that no byte has yet. *)
Fixpoint a2b_base64 (quad left pads : Z) (s : string) : option string :=
  match s with
  | EmptyString => if quad =? 0 then Some "" else None
  | String c s' =>
      if Ascii.eqb c "=" then
        if ((2 <=? quad) && (4 <=? quad + (pads + 1)))%bool then Some ""
        else a2b_base64 quad left (if 2 <=? quad then pads + 1 else pads) s'
      else
        match b64_value c with
        | None => a2b_base64 quad left pads s'
        | Some v =>
            if quad =? 0 then a2b_base64 1 v 0 s'
            else if quad =? 1 then String (char_of (left * 4 + v / 16)) <$> a2b_base64 2 (v mod 16) 0 s'
            else if quad =? 2 then String (char_of (left * 16 + v / 4)) <$> a2b_base64 3 (v mod 4) 0 s'
            else String (char_of (left * 64 + v)) <$> a2b_base64 0 0 0 s'
        end
  end.

Definition urlsafe_b64decode (s : string) : option string := a2b_base64 0 0 0 s.

(** ** Keys *)

Definition key_missing : exn :=
  EncryptionError "EncryptionKeyMissing" "ProxboxPluginSettings.encryption_key is empty; refusing to encrypt or decrypt credentials.".

Definition key_invalid : exn :=
  EncryptionError "EncryptionKeyInvalid"
    ("ProxboxPluginSettings.encryption_key is not a valid Fernet key "
     +:+ "(must be a 32-byte secret or a 44-byte url-safe base64 string).").

(** [Fernet(encoded)] accepts what decodes to 32 bytes. *)
Definition fernet_accepts (encoded : string) : bool :=
  match urlsafe_b64decode encoded with Some d => Nat.eqb (String.length d) 32 | None => false end.

Definition _coerce_fernet_key (raw : string) : result string :=
  if is_empty raw then Err key_missing
  else
    let encoded := strip raw in
    if fernet_accepts encoded then Ok encoded
    else if Nat.eqb (String.length encoded) 32 then Ok (urlsafe_b64encode encoded)
    else Err key_invalid.

(** The 32 bytes that a key stands for. *)
Definition key_material (raw : string) : result string :=
  encoded ← _coerce_fernet_key raw;
  match urlsafe_b64decode encoded with Some d => Ok d | None => Err key_invalid end.

Definition keys_match (l r : string) : result bool :=
  a ← key_material l; b ← key_material r; Ok (String.eqb a b).

Definition is_canonical_fernet_key (raw : string) : bool :=
  let encoded := strip raw in
  (Nat.eqb (String.length encoded) 44 &&
   match urlsafe_b64decode encoded with
   | Some d => Nat.eqb (String.length d) 32 && String.eqb (urlsafe_b64encode d) encoded
   | None => false
   end)%bool.

Definition NON_CANONICAL_KEY_MESSAGE : string :=
  "The encryption key must be a Fernet key: 44 url-safe base64 characters "
  +:+ "that decode to 32 random bytes (for example the output of "
  +:+ "cryptography.fernet.Fernet.generate_key()). Raw 32-character secrets are "
  +:+ "no longer accepted for new keys because they are used without key "
  +:+ "derivation; a low-entropy value would become the encryption key.".

Definition require_canonical_fernet_key (raw : string) : result () :=
  if is_canonical_fernet_key raw then Ok ()
  else Err (EncryptionError "EncryptionKeyInvalid" NON_CANONICAL_KEY_MESSAGE).

(** ** The cipher *)

(** [cryptography.fernet.Fernet] for 32 bytes of key.  A token also depends on
    the time and on random bytes, here one number; decryption gives [None] for
    an invalid token and for bytes that are not text. *)
Class FernetLib := {
  fernet_encrypt : string -> Z -> string -> string;
  fernet_decrypt : string -> string -> option string
}.

(** What its documentation promises: a token of a key decrypts under that key
    to the text it was made from, and is never empty. *)
Class FernetLaws `{!FernetLib} : Prop := {
  fernet_round_trip : forall k n p, fernet_decrypt k (fernet_encrypt k n p) = Some p;
  fernet_token : forall k n p, fernet_encrypt k n p <> ""
}.

Section Cipher.
Context `{!FernetLib}.

Definition decryption_failed : exn :=
  EncryptionError "DecryptionFailed"
    ("Stored credential could not be decrypted with the current "
     +:+ "ProxboxPluginSettings.encryption_key. The key may have been rotated since this row was saved.").

Definition encrypt (plaintext key : string) (entropy : Z) : result string :=
  if is_empty plaintext then Ok ""
  else material ← key_material key; Ok (fernet_encrypt material entropy plaintext).

Definition decrypt (ciphertext key : string) : result string :=
  if is_empty ciphertext then Ok ""
  else
    material ← key_material key;
    match fernet_decrypt material ciphertext with Some p => Ok p | None => Err decryption_failed end.

End Cipher.

(** ** Facts about base 64 *)

Lemma byte_range (c : ascii) : 0 <= byte_of c < 256.
Proof. unfold byte_of. pose proof (N_ascii_bounded c). lia. Qed.

Lemma char_of_byte (c : ascii) : char_of (byte_of c) = c.
Proof. unfold char_of, byte_of. rewrite N2Z.id. apply ascii_N_embedding. Qed.

Lemma b64_digit (n : Z) : 0 <= n < 64 -> b64_value (b64_char n) = Some n /\ Ascii.eqb (b64_char n) "=" = false.
Proof.
  intros Hn.
  assert (Hall : forallb (fun n => match b64_value (b64_char n) with Some m => m =? n | None => false end && negb (Ascii.eqb (b64_char n) "="))%bool
                   (seqZ 0 64) = true) by (vm_compute; reflexivity).
  rewrite forallb_forall in Hall. specialize (Hall n). rewrite <- list_elem_of_In, elem_of_seqZ in Hall.
  specialize (Hall ltac:(lia)). apply andb_prop in Hall as [Hv He%negb_true_iff]. split; [|done].
  destruct (b64_value (b64_char n)) as [m|]; [|done]. by apply Z.eqb_eq in Hv as ->.
Qed.

(** One digit of each position. *)
Lemma a2b_digit (quad left pads n : Z) (s : string) :
  0 <= n < 64 ->
  a2b_base64 quad left pads (String (b64_char n) s) =
    if quad =? 0 then a2b_base64 1 n 0 s
    else if quad =? 1 then String (char_of (left * 4 + n / 16)) <$> a2b_base64 2 (n mod 16) 0 s
    else if quad =? 2 then String (char_of (left * 16 + n / 4)) <$> a2b_base64 3 (n mod 4) 0 s
    else String (char_of (left * 64 + n)) <$> a2b_base64 0 0 0 s.
Proof. intros Hn. destruct (b64_digit n Hn) as [Hv He]. cbn [a2b_base64]. by rewrite He, Hv. Qed.

Ltac byte_arith := Z.div_mod_to_equations; lia.

(** The character put together from its two halves. *)
Lemma char_halves (c : ascii) (d n : Z) : 0 <= n -> byte_of c = d -> n = d -> char_of n = c.
Proof. intros _ <- ->. apply char_of_byte. Qed.

(** Induction by quanta of three bytes. *)
Lemma string_ind3 (P : string -> Prop) :
  P "" -> (forall a, P (String a "")) -> (forall a b, P (String a (String b ""))) ->
  (forall a b c s, P s -> P (String a (String b (String c s)))) -> forall s, P s.
Proof.
  intros H0 H1 H2 H3 s. assert (H : forall n s, (String.length s <= n)%nat -> P s); [|by apply (H (String.length s))].
  intros n. induction n as [|n IH]; intros [|a [|b [|c t]]] Hl; simpl in Hl; auto; try lia. apply H3, IH. lia.
Qed.

Lemma a2b_pad2 (left : Z) : a2b_base64 2 left 0 "==" = Some "".
Proof. reflexivity. Qed.

Lemma a2b_pad1 (left : Z) : a2b_base64 3 left 0 "=" = Some "".
Proof. reflexivity. Qed.

(** What is encoded decodes to itself. *)
Lemma b64_round_trip (s : string) : urlsafe_b64decode (urlsafe_b64encode s) = Some s.
Proof.
  unfold urlsafe_b64decode. induction s as [|a|a b|a b c s IH] using string_ind3; [done|..]; cbn [urlsafe_b64encode].
  - pose proof (byte_range a). do 2 (rewrite a2b_digit by byte_arith; cbn [Z.eqb Pos.eqb]).
    rewrite a2b_pad2. simpl. do 2 f_equal. by apply (char_halves a (byte_of a)); byte_arith.
  - pose proof (byte_range a). pose proof (byte_range b).
    do 3 (rewrite a2b_digit by byte_arith; cbn [Z.eqb Pos.eqb]). rewrite a2b_pad1. simpl. do 2 f_equal.
    + by apply (char_halves a (byte_of a)); byte_arith.
    + f_equal. by apply (char_halves b (byte_of b)); byte_arith.
  - pose proof (byte_range a). pose proof (byte_range b). pose proof (byte_range c).
    do 4 (rewrite a2b_digit by byte_arith; cbn [Z.eqb Pos.eqb]). rewrite IH. simpl. do 2 f_equal.
    + by apply (char_halves a (byte_of a)); byte_arith.
    + f_equal; [by apply (char_halves b (byte_of b)); byte_arith|]. f_equal.
      by apply (char_halves c (byte_of c)); byte_arith.
Qed.

Lemma b64_encode_length (s : string) : String.length (urlsafe_b64encode s) = (4 * ((String.length s + 2) / 3))%nat.
Proof.
  induction s as [|a|a b|a b c s IH] using string_ind3; [done..|]. cbn [urlsafe_b64encode String.length]. rewrite IH.
  replace (S (S (S (String.length s))) + 2)%nat with (1 * 3 + (String.length s + 2))%nat by lia. rewrite Nat.div_add_l by done. lia.
Qed.

(** Three bytes at most for four digits: [quad] digits of the quantum gave
    [quad - 1] bytes already. *)
Lemma a2b_length (s : string) : forall quad left pads d,
  0 <= quad < 4 -> a2b_base64 quad left pads s = Some d ->
  4 * Z.of_nat (String.length d) + 4 * Z.max 0 (quad - 1) <= 3 * (Z.of_nat (String.length s) + quad).
Proof.
  induction s as [|c s IH]; intros quad left pads d Hq; cbn [a2b_base64].
  { destruct (Z.eqb_spec quad 0) as [->|]; [|done]. intros [= <-]. simpl. lia. }
  destruct (Ascii.eqb c "=").
  { destruct (_ && _)%bool; [intros [= <-]; simpl; lia|]. intros H%IH; [simpl; lia|done]. }
  destruct (b64_value c) as [v|]; [|intros H%IH; [simpl; lia|done]].
  destruct (Z.eqb_spec quad 0) as [->|]; [intros H%IH; simpl; lia|].
  destruct (Z.eqb_spec quad 1) as [->|]; [|destruct (Z.eqb_spec quad 2) as [->|]];
    intros (d' & H & ->)%fmap_Some; apply IH in H; simpl in *; lia.
Qed.

Lemma b64_decode_length (s d : string) :
  urlsafe_b64decode s = Some d -> 4 * Z.of_nat (String.length d) <= 3 * Z.of_nat (String.length s).
Proof. intros H%a2b_length; simpl in *; lia. Qed.

(** ** Facts about keys *)

Lemma coerce_accepted (raw key : string) : _coerce_fernet_key raw = Ok key -> fernet_accepts key = true.
Proof.
  unfold _coerce_fernet_key. destruct (is_empty raw); [done|]. destruct (fernet_accepts (strip raw)) eqn:Ea; [by intros [= <-]|].
  destruct (Nat.eqb _ 32) eqn:El; [|done]. intros [= <-]. unfold fernet_accepts. by rewrite b64_round_trip.
Qed.

(** A key that is accepted at all stands for 32 bytes. *)
Lemma key_material_length (raw d : string) : key_material raw = Ok d -> String.length d = 32%nat.
Proof.
  unfold key_material. destruct (_coerce_fernet_key raw) as [key|e] eqn:Ec; simpl; [|done]. apply coerce_accepted in Ec.
  unfold fernet_accepts in Ec. destruct (urlsafe_b64decode key) as [m|]; [|done]. intros [= <-]. by apply Nat.eqb_eq.
Qed.

(** A secret of 32 bytes is not base 64 of a key, and stands for itself. *)
Lemma raw_secret_material (raw : string) :
  raw <> "" -> String.length (strip raw) = 32%nat -> key_material raw = Ok (strip raw).
Proof.
  intros Hne Hl. unfold key_material, _coerce_fernet_key. destruct raw as [|c raw]; [done|]. cbn [is_empty].
  set (k := strip (String c raw)) in *. destruct (fernet_accepts k) eqn:Ea.
  - unfold fernet_accepts in Ea. destruct (urlsafe_b64decode k) as [d|] eqn:Ed; [|done]. apply b64_decode_length in Ed.
    apply Nat.eqb_eq in Ea. lia.
  - rewrite Hl. simpl. by rewrite b64_round_trip.
Qed.

Lemma canonical_material (raw : string) :
  is_canonical_fernet_key raw = true -> exists d, key_material raw = Ok d /\ urlsafe_b64encode d = strip raw.
Proof.
  unfold is_canonical_fernet_key, key_material, _coerce_fernet_key. destruct raw as [|c raw]; [done|]. cbn [is_empty].
  set (k := strip (String c raw)). unfold fernet_accepts. destruct (urlsafe_b64decode k) as [d|] eqn:Ed; [|by rewrite andb_false_r].
  intros [_ [H32 He%String.eqb_eq]%andb_prop]%andb_prop. rewrite H32. exists d. simpl. by rewrite Ed.
Qed.

(** Keys in the canonical form are the same key only when they are spelled the
    same: a rotation between two of them changes the key. *)
Theorem canonical_keys_match (l r : string) :
  is_canonical_fernet_key l = true -> is_canonical_fernet_key r = true ->
  keys_match l r = Ok (String.eqb (strip l) (strip r)).
Proof.
  intros (a & Ha & Hl)%canonical_material (b & Hb & Hr)%canonical_material. unfold keys_match. rewrite Ha, Hb. simpl. f_equal.
  rewrite <- Hl, <- Hr. destruct (String.eqb_spec a b) as [->|Hn]; [by rewrite String.eqb_refl|]. symmetry. apply String.eqb_neq.
  intros H. apply Hn. pose proof (b64_round_trip a) as H1. rewrite H, b64_round_trip in H1. by injection H1.
Qed.

Lemma keys_match_eq (l r : string) (b : bool) :
  keys_match l r = Ok b -> exists m m', key_material l = Ok m /\ key_material r = Ok m' /\ b = String.eqb m m'.
Proof.
  unfold keys_match. destruct (key_material l) as [m|] eqn:E1; simpl; [|done]. destruct (key_material r) as [m'|] eqn:E2; simpl; [|done].
  intros [= <-]. eauto.
Qed.

Section CipherFacts.
Context `{!FernetLib} `{!FernetLaws}.

Lemma encrypt_decrypts (p k c : string) (n : Z) : encrypt p k n = Ok c -> decrypt c k = Ok p /\ (c = "" -> p = "").
Proof.
  unfold encrypt. destruct p as [|x p]; cbn [is_empty]; [by intros [= <-]|]. destruct (key_material k) as [m|] eqn:Em; simpl; [|done].
  intros [= <-]. pose proof (fernet_token m n (String x p)) as Ht. unfold decrypt. destruct (fernet_encrypt m n (String x p)) as [|y t] eqn:Et; [done|].
  cbn [is_empty]. rewrite Em. simpl. rewrite <- Et, fernet_round_trip. split; [done|by rewrite Et].
Qed.

Lemma encrypt_total (p k m : string) (n : Z) : key_material k = Ok m -> exists c, encrypt p k n = Ok c.
Proof. intros Hm. unfold encrypt. destruct (is_empty p); [eauto|]. rewrite Hm. simpl. eauto. Qed.

(** Space around a key does not count. *)
Lemma material_strip (k m : string) : key_material k = Ok m <-> key_material (strip k) = Ok m.
Proof.
  unfold key_material, _coerce_fernet_key. destruct k as [|x k]; [done|]. cbn [is_empty]. rewrite strip_strip.
  destruct (strip (String x k)) as [|y t]; [done|]. cbn [is_empty]. done.
Qed.

Lemma decrypt_strip (c k p : string) : decrypt c k = Ok p <-> decrypt c (strip k) = Ok p.
Proof.
  unfold decrypt. destruct (is_empty c); [done|]. pose proof (material_strip k) as Hm.
  destruct (key_material k) as [m|e]; destruct (key_material (strip k)) as [m'|e']; simpl; try done.
  - destruct (Hm m) as [Hk _]. specialize (Hk eq_refl). by injection Hk as ->.
  - destruct (Hm m) as [Hk _]. by specialize (Hk eq_refl).
  - destruct (Hm m') as [_ Hk]. by specialize (Hk eq_refl).
Qed.

End CipherFacts.

(** ** A cipher for examples *)

(** The key in front of the text: it has the laws of the cipher and none of
    its strength. *)
#[local] Instance toy_fernet : FernetLib := {|
  fernet_encrypt k _ p := "t" +:+ k +:+ p;
  fernet_decrypt k c := if startswith ("t" +:+ k) c then Some (drop_str (S (String.length k)) c) else None
|}.

Lemma startswith_self (a b : string) : startswith a (a +:+ b) = true /\ drop_str (String.length a) (a +:+ b) = b.
Proof. induction a as [|c a [IH1 IH2]]; [by destruct b|]. rewrite app_cons_string. simpl. by rewrite Ascii.eqb_refl. Qed.

#[local] Instance toy_laws : FernetLaws.
Proof.
  split; [|done]. intros k n p. cbn [fernet_encrypt fernet_decrypt toy_fernet].
  rewrite <- app_assoc_string. destruct (startswith_self ("t" +:+ k) p) as [-> Hd].
  change (S (String.length k)) with (String.length ("t" +:+ k)). by rewrite Hd.
Qed.

Definition sample_key : string := "MDEyMzQ1Njc4OTAxMjM0NTY3ODkwMTIzNDU2Nzg5MDE=".
Definition other_key : string := "YWFhYWFhYWFhYWFhYWFhYWFhYWFhYWFhYWFhYWFhYWE=".

(** A key, the 32 bytes it stands for given raw, and an alias of it with other
    padding bits, which is the same key and not canonical. *)
Example key_spellings :
  key_material sample_key = Ok "01234567890123456789012345678901" /\
  keys_match sample_key " 01234567890123456789012345678901 " = Ok true /\
  keys_match sample_key "MDEyMzQ1Njc4OTAxMjM0NTY3ODkwMTIzNDU2Nzg5MDF=" = Ok true /\
  is_canonical_fernet_key sample_key = true /\
  is_canonical_fernet_key "MDEyMzQ1Njc4OTAxMjM0NTY3ODkwMTIzNDU2Nzg5MDF=" = false /\
  keys_match sample_key "short" = Err key_invalid.
Proof. repeat split; vm_compute; reflexivity. Qed.

Lemma canonical_keys_match_witness :
  is_canonical_fernet_key sample_key = true /\ keys_match sample_key other_key = Ok false.
Proof.
  split; [vm_compute; reflexivity|].
  rewrite (canonical_keys_match sample_key other_key); vm_compute; reflexivity.
Defined.
