(* ===== verification/Redaction.v ===== *)
(** * Redaction

    Credentials in what the backend answers (redaction.py,
    views/error_utils.py): which field names stand for a credential, the sweep
    of free text for assignments to such names and for authentication schemes,
    and the walk through a structured body.  The regular expressions are
    written as the functions that match them; their repetitions are possessive
    or end where the next part cannot start, so that no choice remains.  Case
    is ignored for ASCII letters. *)
From Stdlib Require Import ZArith Lia Ascii String.
From stdpp Require Import base list sets strings pretty.
From S2P Require Import Prelude Json Text BackendPath.

(** ** Names of credentials *)

Definition _MARKER_WORDS : list (list string) :=
  [["authorization"]; ["credential"]; ["passphrase"]; ["password"]; ["passwd"]; ["session"]; ["sshkeys"]; ["secret"];
   ["cookie"]; ["ticket"]; ["token"]; ["auth"]; ["pwd"]; ["api"; "key"]; ["private"; "key"]; ["public"; "key"];
   ["encryption"; "key"]; ["secret"; "key"]; ["signing"; "key"]; ["host"; "key"]; ["ssh"; "key"]].

Definition SENSITIVE_KEY_MARKERS : list string := List.map (join "") _MARKER_WORDS.

Definition AUTH_SCHEMES : list string := ["bearer"; "basic"; "token"; "digest"; "negotiate"; "apikey"].

(** The first words of the markers of two words, each once. *)
Definition _COMPOUND_HEADS : list string :=
  dedup [] (omap (fun words => match words with h :: _ :: _ => Some h | _ => None end) _MARKER_WORDS).

Definition separator_char (c : ascii) : bool := (Ascii.eqb c "-" || Ascii.eqb c "_" || is_space c)%bool.

Fixpoint drop_chars (P : ascii -> bool) (s : string) : string :=
  match s with
  | EmptyString => EmptyString
  | String c s' => if P c then drop_chars P s' else String c (drop_chars P s')
  end.

Definition normalize_key (key : string) : string := drop_chars separator_char (lower key).

Definition is_sensitive_key (key : string) : bool :=
  let normalized := normalize_key key in existsb (fun marker => contains marker normalized) SENSITIVE_KEY_MARKERS.

Definition VALUE_ECHO_KEYS : list string := ["input"; "inputvalue"].

Definition is_sensitive_or_echo_key (key : string) : bool :=
  (is_sensitive_key key || mem_str (normalize_key key) VALUE_ECHO_KEYS)%bool.

(** ** Assignments in a text *)

Fixpoint span_chars (P : ascii -> bool) (s : string) : string * string :=
  match s with
  | EmptyString => (EmptyString, EmptyString)
  | String c s' => if P c then let '(a, b) := span_chars P s' in (String c a, b) else (EmptyString, s)
  end.

(** At least one character of the class. *)
Definition span_some (P : ascii -> bool) (s : string) : option (string * string) :=
  let '(a, b) := span_chars P s in if is_empty a then None else Some (a, b).

Definition ident_char (c : ascii) : bool := (is_alnum c || Ascii.eqb c "_" || Ascii.eqb c "-")%bool.
Definition joint_char (c : ascii) : bool := (Ascii.eqb c " " || Ascii.eqb c "_" || Ascii.eqb c "-")%bool.
Definition quote_char (c : ascii) : bool := (Ascii.eqb c single_quote || Ascii.eqb c double_quote)%bool.
Definition sign_char (c : ascii) : bool := (Ascii.eqb c ":" || Ascii.eqb c "=")%bool.
Definition bare_char (c : ascii) : bool := negb (is_space c || mem_str (String c "") [","; ";"; ")"; "}"; "]"])%bool.
Definition line_char (c : ascii) : bool := negb (Nat.eqb (nat_of_ascii c) 10 || Nat.eqb (nat_of_ascii c) 13)%bool.

(** The word of [words] the text starts with, in lower case, and the rest. *)
Fixpoint match_word (words : list string) (s : string) : option (string * string) :=
  match words with
  | [] => None
  | w :: words' =>
      if startswith w (lower s) then Some (take_str (String.length w) s, drop_str (String.length w) s)
      else match_word words' s
  end.

(** One optional character. *)
Definition span_opt (P : ascii -> bool) (s : string) : string * string :=
  match s with String c s' => if P c then (String c "", s') else ("", s) | EmptyString => ("", s) end.

(** The groups [quote_end] (an optional backslash and an optional quote) and
    [sep] (a colon or equals sign in optional white space). *)
Definition match_sep (s : string) : option (string * string) :=
  let '(b, s1) := span_opt (Ascii.eqb "\") s in
  let '(q, s2) := span_opt quote_char s1 in
  let '(w, s3) := span_chars is_space s2 in
  match s3 with
  | String c s4 => if sign_char c then let '(w', s5) := span_chars is_space s4 in Some (b +:+ q +:+ w +:+ String c w', s5)
                   else None
  | EmptyString => None
  end.

(** A marker of two words, spelled with a space, and what the name goes on with. *)
Definition match_compound (s : string) : option (string * string) :=
  '(h, s1) ← match_word _COMPOUND_HEADS s;
  '(j, s2) ← span_some joint_char s1;
  '(k, s3) ← match_word ["key"] s2;
  let '(t, s4) := span_chars ident_char s3 in
  Some (h +:+ j +:+ k +:+ t, s4).

Definition with_sep (m : option (string * string)) : option (string * string * string) :=
  '(key, s1) ← m; '(sep, s2) ← match_sep s1; Some (key, sep, s2).

(** A match of [ASSIGNMENT_KEY_RE] at the start of [s]: the key, what
    separates it from its value, and the rest.  [inside] says that the
    character before [s] belongs to a name. *)
Definition match_key (inside : bool) (s : string) : option (string * string * string) :=
  match with_sep (match_compound s) with
  | Some m => Some m
  | None => if inside then None else with_sep (span_some ident_char s)
  end.

(** [ASSIGNMENT_KEY_RE.search]: the leftmost match, with the text before it. *)
Fixpoint search_key (inside : bool) (s : string) : option (string * string * string * string) :=
  match match_key inside s with
  | Some (key, sep, rest) => Some ("", key, sep, rest)
  | None =>
      match s with
      | EmptyString => None
      | String c s' =>
          '(before, key, sep, rest) ← search_key (ident_char c) s'; Some (String c before, key, sep, rest)
      end
  end.

(** [Bearer <token>] and its like. *)
Definition match_scheme (P : ascii -> bool) (s : string) : option (string * string * string * string) :=
  '(scheme, s1) ← match_word AUTH_SCHEMES s;
  '(w, s2) ← span_some is_space s1;
  '(v, s3) ← span_some P s2;
  Some (scheme, w, v, s3).

(** A value in quotes that are closed. *)
Definition match_quoted (q : ascii) (s : string) : option (string * string) :=
  match s with
  | String c s' =>
      if Ascii.eqb c q then
        let '(v, s2) := span_chars (no_char q) s' in
        match s2 with String c' s3 => Some (String c v +:+ String c' "", s3) | EmptyString => None end
      else None
  | EmptyString => None
  end.

(** [_ASSIGNMENT_VALUE_RE.match] *)
Definition match_value (s : string) : option (string * string) :=
  match match_scheme bare_char s with
  | Some (scheme, w, v, rest) => Some (scheme +:+ w +:+ v, rest)
  | None =>
      or_else (match_quoted single_quote s)
        (or_else (match_quoted double_quote s)
           match s with
           | String c s' => if quote_char c then let '(v, rest) := span_chars line_char s' in Some (String c v, rest)
                            else span_some bare_char s
           | EmptyString => None
           end)
  end.

Definition _REDACTED : string := "[redacted]".

Definition _render_redacted_value (value : string) : string :=
  match value with
  | String c _ => if quote_char c then String c _REDACTED +:+ String c "" else _REDACTED
  | EmptyString => _REDACTED
  end.

Fixpoint last_char (s : string) : option ascii :=
  match s with
  | EmptyString => None
  | String c s' => match last_char s' with Some c' => Some c' | None => Some c end
  end.

Definition ends_inside (s : string) : bool := match last_char s with Some c => ident_char c | None => false end.

Definition opens_structure (value : string) : bool :=
  match value with String c _ => (Ascii.eqb c "{" || Ascii.eqb c "[")%bool | EmptyString => false end.

(** The loop of [redact_assignments], with as many rounds as the text has
    characters: each round consumes at least its separator. *)
Fixpoint redact_loop (predicate : string -> bool) (fuel : nat) (inside : bool) (s : string) : string :=
  match fuel with
  | O => s
  | S fuel' =>
      match search_key inside s with
      | None => s
      | Some (before, key, sep, rest) =>
          let skip := before +:+ key +:+ sep +:+ redact_loop predicate fuel' (ends_inside sep) rest in
          if negb (predicate key) then skip
          else match match_value rest with
               | None => skip
               | Some (value, rest') =>
                   if (negb (is_sensitive_key key) && opens_structure value)%bool then skip
                   else before +:+ key +:+ sep +:+ _render_redacted_value value
                        +:+ redact_loop predicate fuel' (ends_inside value) rest'
               end
      end
  end.

Definition redact_assignments (predicate : string -> bool) (text : string) : string :=
  redact_loop predicate (S (String.length text)) false text.

Definition word_char (c : ascii) : bool := (is_alnum c || Ascii.eqb c "_")%bool.
Definition token_char (c : ascii) : bool := (is_alnum c || mem_str (String c "") ["."; "_"; "-"; "+"; "/"; "="])%bool.

Definition ends_word (s : string) : bool := match last_char s with Some c => word_char c | None => false end.

(** [_BEARER_RE.sub]; a match starts at a word boundary and has at least eight
    characters behind the scheme. *)
Fixpoint sub_bearer (fuel : nat) (inside : bool) (s : string) : string :=
  match fuel with
  | O => s
  | S fuel' =>
      match (if inside then None else match_scheme token_char s) with
      | Some (scheme, _, v, rest) =>
          if Nat.leb 8 (String.length v)
          then scheme +:+ " " +:+ _REDACTED +:+ sub_bearer fuel' (ends_word v) rest
          else match s with String c s' => String c (sub_bearer fuel' (word_char c) s') | EmptyString => "" end
      | None => match s with String c s' => String c (sub_bearer fuel' (word_char c) s') | EmptyString => "" end
      end
  end.

Definition redact_sensitive_text (value : string) : string :=
  let redacted := redact_assignments is_sensitive_or_echo_key value in
  sub_bearer (S (String.length redacted)) false redacted.

(** ** Structured bodies *)

Definition _REDACTION_DEPTH_LIMIT : nat := 6.
Definition _REDACTED_DEEP : string := "[redacted: nesting depth limit]".
Definition _LOC_ECHO_KEYS : list string := ["input"; "input_value"].

Definition _loc_names_sensitive_field (loc : pyval) : bool :=
  match loc with
  | VList parts => existsb (fun part => match part with VStr s => is_sensitive_key s | _ => false end) parts
  | _ => false
  end.

(** Whether the value under [key] is replaced without being looked at. *)
Definition hidden_key (echo : bool) (key : string) : bool :=
  (is_sensitive_key key || (echo && mem_str key _LOC_ECHO_KEYS))%bool.

(** [redact_sensitive]; [levels] is how many levels may still be entered. *)
Fixpoint redact_levels (levels : nat) (value : pyval) : pyval :=
  match levels with
  | O => VStr _REDACTED_DEEP
  | S levels' =>
      match value with
      | VDict d =>
          let echo := _loc_names_sensitive_field (get "loc" d) in
          VDict (List.map (fun kv => (fst kv, if hidden_key echo (fst kv) then VStr _REDACTED
                                              else redact_levels levels' (snd kv))) d)
      | VList l => VList (List.map (redact_levels levels') l)
      | VStr s => VStr (redact_sensitive_text s)
      | v => v
      end
  end.

Definition redact_sensitive (value : pyval) : pyval := redact_levels (S _REDACTION_DEPTH_LIMIT) value.

(** ** What the sweep of a text finds *)

Definition stops (P : ascii -> bool) (s : string) : bool := match s with String c _ => negb (P c) | EmptyString => true end.

Lemma span_chars_app (P : ascii -> bool) (a b : string) :
  all_chars P a = true -> stops P b = true -> span_chars P (a +:+ b) = (a, b).
Proof.
  induction a as [|c a IH]; intros Ha Hb.
  - destruct b as [|c b]; [done|]. simpl in *. by destruct (P c).
  - simpl in *. apply andb_prop in Ha as [-> Ha]. by rewrite IH.
Qed.

Lemma span_chars_split (P : ascii -> bool) (s a b : string) :
  span_chars P s = (a, b) -> s = a +:+ b /\ all_chars P a = true /\ stops P b = true.
Proof.
  revert a b. induction s as [|c s IH]; intros a b; simpl; [by intros [= <- <-]|].
  destruct (P c) eqn:Hc; [|intros [= <- <-]; simpl; by rewrite Hc].
  destruct (span_chars P s) as [a' b']. intros [= <- <-]. destruct (IH a' b' eq_refl) as (-> & Ha & Hb).
  simpl. by rewrite Hc.
Qed.

(** A text that is not empty and ends outside a name. *)
Definition ends_outside (s : string) : bool := match last_char s with Some c => negb (ident_char c) | None => false end.

Lemma closed_cons (c : ascii) (s : string) :
  ends_outside (String c s) = if is_empty s then negb (ident_char c) else ends_outside s.
Proof. unfold ends_outside. destruct s as [|d s]; [done|]. simpl. by destruct (last_char s). Qed.

Lemma closed_app (a b : string) : ends_outside (a +:+ b) = true -> all_chars ident_char a = true -> ends_outside b = true.
Proof.
  induction a as [|c a IH]; [done|]. rewrite app_cons_string, closed_cons. cbn [all_chars]. intros H [Hc Ha]%andb_prop.
  destruct (is_empty (a +:+ b)) eqn:He; [by rewrite Hc in H|auto].
Qed.

Lemma ident_lower (c : ascii) : ident_char (lower_char c) = ident_char c.
Proof. by destruct c as [[] [] [] [] [] [] [] []]. Qed.

(** A word made of name characters ends before a text outside a name does. *)
Lemma startswith_closed (w p t : string) :
  all_chars ident_char w = true -> ends_outside p = true ->
  startswith w (lower (p +:+ t)) = startswith w (lower p).
Proof.
  revert p. induction w as [|a w IH]; intros p Hw Hp; [by destruct p|]. simpl in Hw. apply andb_prop in Hw as [Ha Hw].
  destruct p as [|c p]; [done|]. rewrite app_cons_string. cbn [lower startswith]. rewrite closed_cons in Hp.
  destruct (Ascii.eqb_spec a (lower_char c)) as [->|]; [|done]. simpl. rewrite ident_lower in Ha.
  destruct p as [|d p]; [by rewrite Ha in Hp|]. by apply IH.
Qed.

Lemma startswith_split (w s : string) :
  startswith w (lower s) = true ->
  s = take_str (String.length w) s +:+ drop_str (String.length w) s /\ lower (take_str (String.length w) s) = w.
Proof.
  revert s. induction w as [|a w IH]; intros s; [by destruct s|]. destruct s as [|c s]; [done|].
  cbn [lower startswith String.length take_str drop_str]. rewrite app_cons_string.
  intros [->%Ascii.eqb_eq [Hs Hl]%IH]%andb_prop. cbn [lower]. by rewrite <- Hs, Hl.
Qed.

Lemma take_drop_app (w p t : string) :
  startswith w (lower p) = true ->
  take_str (String.length w) (p +:+ t) = take_str (String.length w) p /\
  drop_str (String.length w) (p +:+ t) = drop_str (String.length w) p +:+ t.
Proof.
  revert p. induction w as [|a w IH]; intros p; [by destruct p|]. destruct p as [|c p]; [done|].
  rewrite app_cons_string. cbn [lower startswith String.length take_str drop_str]. intros [_ [-> ->]%IH]%andb_prop. done.
Qed.

Definition names (words : list string) : bool := forallb (all_chars ident_char) words.

Lemma match_word_closed (words : list string) (p t : string) :
  names words = true -> ends_outside p = true ->
  match_word words (p +:+ t) = match match_word words p with Some (h, r) => Some (h, r +:+ t) | None => None end.
Proof.
  intros Hws Hp. induction words as [|w words IH]; [done|]. simpl in *. apply andb_prop in Hws as [Hw Hws].
  rewrite startswith_closed by done. destruct (startswith w (lower p)) eqn:Hs; [|auto].
  by destruct (take_drop_app w p t Hs) as [-> ->].
Qed.

Lemma match_word_split (words : list string) (s h r : string) :
  names words = true -> match_word words s = Some (h, r) -> s = h +:+ r /\ lower h ∈ words /\ all_chars ident_char h = true.
Proof.
  intros Hws. induction words as [|w words IH]; [done|]. simpl in *. apply andb_prop in Hws as [Hw Hws].
  destruct (startswith w (lower s)) eqn:Hs; [|intros H; destruct (IH Hws H) as (?&?&?); split_and!; [done|by right|done]].
  intros [= <- <-]. apply startswith_split in Hs as [Hs Hl]. split_and!; [done|rewrite Hl; left|].
  rewrite <- Hl in Hw. clear -Hw. induction (take_str _ s) as [|c u IH]; [done|]. simpl in *.
  rewrite ident_lower in Hw. apply andb_prop in Hw as [-> Hw]. by apply IH.
Qed.

Definition signless (s : string) : bool := all_chars (fun c => negb (sign_char c)) s.
Definition starts_name (s : string) : bool := match s with String c _ => is_alnum c | EmptyString => false end.

Lemma alnum_kinds (c : ascii) :
  is_alnum c = true ->
  ident_char c = true /\ is_space c = false /\ quote_char c = false /\ sign_char c = false /\ joint_char c = false /\
  Ascii.eqb "\" c = false.
Proof. by destruct c as [[] [] [] [] [] [] [] []]. Qed.

(** No separator in a text without signs that is followed by a name. *)
Lemma span_opt_split (P : ascii -> bool) (s a b : string) : span_opt P s = (a, b) -> s = a +:+ b /\ all_chars P a = true.
Proof.
  destruct s as [|c s]; simpl; [by intros [= <- <-]|]. destruct (P c) eqn:Hc; intros [= <- <-]; [|done].
  simpl. by rewrite Hc.
Qed.

(** What a part of the separator pattern takes from a text that a name follows. *)
Lemma span_opt_name (P : ascii -> bool) (b t : string) :
  starts_name t = true -> (forall c, is_alnum c = true -> P c = false) ->
  exists a b', span_opt P (b +:+ t) = (a, b' +:+ t) /\ b = a +:+ b'.
Proof.
  intros Ht HP. destruct b as [|c b].
  - exists "", "". destruct t as [|d t]; [done|]. simpl in *. by rewrite HP.
  - simpl. destruct (P c); [by exists (String c ""), b|by exists "", (String c b)].
Qed.

Lemma span_chars_name (P : ascii -> bool) (b t : string) :
  starts_name t = true -> (forall c, is_alnum c = true -> P c = false) ->
  exists a b', span_chars P (b +:+ t) = (a, b' +:+ t) /\ b = a +:+ b' /\ all_chars P a = true /\ stops P b' = true.
Proof.
  intros Ht HP. destruct (span_chars P b) as [a b'] eqn:E. apply span_chars_split in E as (-> & Ha & Hb).
  exists a, b'. split; [|done]. rewrite app_assoc_string. apply span_chars_app; [done|].
  destruct b' as [|c b']; [|exact Hb]. destruct t as [|d t]; [done|]. simpl in *. by rewrite HP.
Qed.

Lemma match_sep_none (b t : string) : signless b = true -> starts_name t = true -> match_sep (b +:+ t) = None.
Proof.
  intros Hb Ht. unfold match_sep.
  destruct (span_opt_name (Ascii.eqb "\") b t Ht) as (b1 & r1 & -> & ->); [by intros c (?&?&?&?&?&?)%alnum_kinds|].
  destruct (span_opt_name quote_char r1 t Ht) as (b2 & r2 & -> & ->); [by intros c (?&?&?&?&?&?)%alnum_kinds|].
  destruct (span_chars_name is_space r2 t Ht) as (b3 & r3 & -> & -> & _); [by intros c (?&?&?&?&?&?)%alnum_kinds|].
  destruct r3 as [|c r3].
  - destruct t as [|d t]; [done|]. simpl. simpl in Ht. apply alnum_kinds in Ht as (_&_&_&->&_). done.
  - unfold signless in Hb. rewrite !all_chars_app in Hb. cbn [all_chars] in Hb.
    rewrite app_cons_string. destruct (sign_char c); [|done]. by rewrite !andb_false_r in Hb.
Qed.

(** A head of a two-word marker that reaches the end of the text. *)
Definition head_run (s : string) : bool :=
  match match_word _COMPOUND_HEADS s with
  | Some (_, r) => (nonempty r && all_chars joint_char r)%bool
  | None => false
  end.

Fixpoint ends_head (s : string) : bool :=
  (head_run s || match s with String _ s' => ends_head s' | EmptyString => false end)%bool.

Lemma nonempty_closed (s : string) : ends_outside s = true -> is_empty s = false.
Proof. by destruct s. Qed.

Lemma closed_suffix (a b : string) : ends_outside (a +:+ b) = true -> is_empty b = false -> ends_outside b = true.
Proof.
  induction a as [|c a IH]; [done|]. rewrite app_cons_string, closed_cons. intros H Hb. apply IH; [|done].
  destruct (is_empty (a +:+ b)) eqn:E; [|done]. by destruct a, b.
Qed.

Lemma span_some_name (P : ascii -> bool) (b t : string) :
  starts_name t = true -> (forall c, is_alnum c = true -> P c = false) ->
  span_some P (b +:+ t) = None \/
  exists a b', span_some P (b +:+ t) = Some (a, b' +:+ t) /\ b = a +:+ b' /\ all_chars P a = true.
Proof.
  intros Ht HP. unfold span_some. destruct (span_chars_name P b t Ht HP) as (a & b' & -> & -> & Ha & _).
  destruct (is_empty a); [by left|]. right. by exists a, b'.
Qed.

(** Inside the text before a name nothing matches. *)
Lemma no_compound (p t : string) :
  ends_outside p = true -> signless p = true -> head_run p = false -> starts_name t = true ->
  with_sep (match_compound (p +:+ t)) = None.
Proof.
  intros Hp Hs Hh Ht. unfold match_compound, with_sep. rewrite match_word_closed by done.
  unfold head_run in Hh. destruct (match_word _COMPOUND_HEADS p) as [[h r]|] eqn:Ew; [|done].
  apply match_word_split in Ew as (-> & _ & Hi); [|done]. pose proof (closed_app h r Hp Hi) as Hr.
  cbn [mbind option_bind].
  destruct (span_some_name joint_char r t Ht) as [->|(j & r2 & -> & -> & Hj)]; [by intros c (?&?&?&?&?&?)%alnum_kinds|done|].
  cbn [mbind option_bind]. destruct (is_empty r2) eqn:E2.
  { apply String.eqb_eq in E2 as ->. rewrite Prelude.app_empty_r in *. unfold nonempty in Hh.
    rewrite (nonempty_closed j) in Hh by done. by rewrite Hj in Hh. }
  assert (Hr2 : ends_outside r2 = true) by (by apply (closed_suffix j)).
  rewrite (match_word_closed ["key"] r2) by done. destruct (match_word ["key"] r2) as [[k r3]|] eqn:Ek; [|done].
  apply match_word_split in Ek as (Er2 & _ & Hk); [|done]. cbn [mbind option_bind].
  destruct (span_chars ident_char (r3 +:+ t)) as [i r4] eqn:Ei.
  assert (Hr3 : ends_outside r3 = true) by (apply (closed_app k); [by rewrite <- Er2|done]).
  destruct (span_chars ident_char r3) as [i3 b3] eqn:E3. apply span_chars_split in E3 as (-> & Hi3 & Hb3).
  pose proof (closed_app _ _ Hr3 Hi3) as Hb. destruct b3 as [|d b3]; [done|].
  rewrite app_assoc_string, span_chars_app in Ei by done. injection Ei as <- <-. cbn [mbind option_bind].
  rewrite match_sep_none; [done| |done]. unfold signless in *. rewrite Er2, !all_chars_app in Hs.
  by apply andb_prop in Hs as [_ [_ [_ [_ Hs]%andb_prop]%andb_prop]%andb_prop].
Qed.

Lemma no_name (p t : string) :
  ends_outside p = true -> signless p = true -> starts_name t = true -> with_sep (span_some ident_char (p +:+ t)) = None.
Proof.
  intros Hp Hs Ht. unfold with_sep, span_some. destruct (span_chars ident_char p) as [i b] eqn:E.
  apply span_chars_split in E as (-> & Hi & Hb). pose proof (closed_app _ _ Hp Hi) as Hc. destruct b as [|d b]; [done|].
  rewrite app_assoc_string, span_chars_app by done. destruct (is_empty i); [done|]. cbn [mbind option_bind].
  rewrite match_sep_none; [done| |done]. unfold signless in *. rewrite all_chars_app in Hs. by apply andb_prop in Hs as [_ Hs].
Qed.

(** A name that starts a candidate of [search_key]. *)
Definition good_name (key : string) : bool := (starts_name key && all_chars ident_char key)%bool.

(** The text before a name: no sign, and nothing that would join the name. *)
Definition good_pre (pre : string) : bool :=
  (signless pre && (is_empty pre || ends_outside pre) && negb (ends_head pre))%bool.

Lemma starts_name_app (key t : string) : starts_name key = true -> starts_name (key +:+ t) = true.
Proof. by destruct key. Qed.

(** The parts of a separator. *)
Record sep_parts := mkSep { sp_escaped : bool; sp_quote : option ascii; sp_before : string; sp_sign : ascii; sp_after : string }.

Definition opt_char (c : option ascii) : string := match c with Some c => String c "" | None => "" end.

Definition sep_text (p : sep_parts) : string :=
  (if sp_escaped p then "\" else "") +:+ opt_char (sp_quote p) +:+ sp_before p +:+ String (sp_sign p) (sp_after p).

Definition good_sep (p : sep_parts) : bool :=
  (match sp_quote p with Some q => quote_char q | None => true end && all_chars is_space (sp_before p) &&
   sign_char (sp_sign p) && all_chars is_space (sp_after p))%bool.

Lemma span_opt_eq (P : ascii -> bool) (c : option ascii) (t : string) :
  match c with Some c => P c = true | None => True end -> (c = None -> stops P t = true) ->
  span_opt P (opt_char c +:+ t) = (opt_char c, t).
Proof.
  destruct c as [c|]; simpl; intros Hc Ht; [by rewrite Hc|]. specialize (Ht eq_refl).
  destruct t as [|d t]; [done|]. simpl in *. by destruct (P d).
Qed.

Lemma space_kinds (c : ascii) :
  is_space c = true ->
  quote_char c = false /\ sign_char c = false /\ Ascii.eqb "\" c = false /\ is_alnum c = false /\ ident_char c = false.
Proof. by destruct c as [[] [] [] [] [] [] [] []]. Qed.

Lemma sign_kinds (c : ascii) :
  sign_char c = true ->
  quote_char c = false /\ is_space c = false /\ Ascii.eqb "\" c = false /\ is_alnum c = false /\ ident_char c = false /\
  joint_char c = false.
Proof. by destruct c as [[] [] [] [] [] [] [] []]. Qed.

Lemma quote_kinds (c : ascii) :
  quote_char c = true -> Ascii.eqb "\" c = false /\ is_alnum c = false /\ ident_char c = false /\ is_space c = false.
Proof. by destruct c as [[] [] [] [] [] [] [] []]. Qed.

Lemma stops_sign (P : ascii -> bool) (w : string) (c : ascii) (t : string) :
  (forall d, is_space d = true -> P d = false) -> P c = false -> all_chars is_space w = true ->
  stops P (w +:+ String c t) = true.
Proof. intros HP Hc Hw. destruct w as [|d w]; simpl in *; [by rewrite Hc|]. apply andb_prop in Hw as [Hd _]. by rewrite HP. Qed.

Lemma match_sep_text (p : sep_parts) (t : string) :
  good_sep p = true -> stops is_space t = true -> match_sep (sep_text p +:+ t) = Some (sep_text p, t).
Proof.
  destruct p as [esc q w c w']. unfold good_sep, sep_text, match_sep. cbn [sp_escaped sp_quote sp_before sp_sign sp_after].
  intros [[[Hq Hw]%andb_prop Hc]%andb_prop Hw']%andb_prop Ht. rewrite !app_assoc_string, app_cons_string.
  destruct (sign_kinds c Hc) as (Hcq & Hcs & Hcb & _).
  set (E := if esc then "\" else ""). assert (Hspan : span_opt (Ascii.eqb "\") (E +:+ opt_char q +:+ w +:+ String c (w' +:+ t))
    = (E, opt_char q +:+ w +:+ String c (w' +:+ t))).
  { unfold E. destruct esc; [done|]. apply (span_opt_eq (Ascii.eqb "\") None); [done|]. intros _.
    destruct q as [q|]; [cbn [opt_char]; rewrite app_cons_string; cbn [stops]; by destruct (quote_kinds q Hq) as (-> & _)|].
    apply stops_sign; [|done..]. by intros d (_ & _ & H & _)%space_kinds. }
  rewrite Hspan, (span_opt_eq quote_char q).
  2: by destruct q. 2: intros ->; apply stops_sign; [|done..]; by intros d (H & _)%space_kinds.
  rewrite span_chars_app; [|done|simpl; by rewrite Hcs]. rewrite Hc, span_chars_app by done. done.
Qed.

(** No name starts before the sign of a separator. *)
Fixpoint blocked (s : string) : bool :=
  match s with
  | EmptyString => false
  | String c s' => (sign_char c || (negb (is_alnum c) && blocked s'))%bool
  end.

Lemma blocked_cons (c : ascii) (s : string) : is_alnum c = false -> blocked s = true -> blocked (String c s) = true.
Proof. simpl. intros -> ->. apply orb_true_r. Qed.

Lemma blocked_space (w : string) (s : string) : all_chars is_space w = true -> blocked s = true -> blocked (w +:+ s) = true.
Proof.
  induction w as [|c w IH]; [done|]. simpl. intros [Hc Hw]%andb_prop Hs. destruct (space_kinds c Hc) as (_&_&_&->&_).
  rewrite IH by done. by rewrite orb_true_r.
Qed.

Lemma sep_blocked (p : sep_parts) (t : string) :
  good_sep p = true -> blocked (sep_text p +:+ t) = true /\ stops ident_char (sep_text p +:+ t) = true.
Proof.
  destruct p as [esc q w c w']. unfold good_sep, sep_text. cbn [sp_escaped sp_quote sp_before sp_sign sp_after].
  intros [[[Hq Hw]%andb_prop Hc]%andb_prop _]%andb_prop. rewrite !app_assoc_string, app_cons_string.
  assert (Hb : blocked (w +:+ String c (w' +:+ t)) = true) by (apply blocked_space; [done|]; simpl; by rewrite Hc).
  assert (Hi : stops ident_char (w +:+ String c (w' +:+ t)) = true).
  { apply stops_sign; [by intros d (_&_&_&_&H)%space_kinds|by apply sign_kinds|done]. }
  assert (Hb' : blocked (opt_char q +:+ w +:+ String c (w' +:+ t)) = true).
  { destruct q as [q|]; [|done]. cbn [opt_char]. rewrite app_cons_string. by apply blocked_cons; [apply quote_kinds|]. }
  split; [destruct esc; [by apply blocked_cons|done]|].
  destruct esc; [done|]. destruct q as [q|]; [|done]. apply quote_kinds in Hq as (_ & _ & Hq & _). simpl. by rewrite Hq.
Qed.

Lemma blocked_name (s : string) : blocked s = true -> starts_name s = false.
Proof.
  destruct s as [|c s]; [done|]. simpl. intros [Hc|[Hc _]%andb_prop]%orb_prop; [by apply sign_kinds in Hc as (_&_&_&->&_)|].
  by apply negb_true_iff in Hc.
Qed.

Lemma blocked_joint (u j s : string) : span_chars joint_char u = (j, s) -> blocked u = true -> blocked s = true.
Proof.
  revert j. induction u as [|c u IH]; intros j; simpl; [by intros [= <- <-]|]. destruct (joint_char c) eqn:Hj; [|by intros [= <- <-]].
  destruct (span_chars joint_char u) as [j' s']. intros [= _ <-]. intros [Hc|[_ Hu]%andb_prop]%orb_prop; [|by apply (IH j')].
  apply sign_kinds in Hc as (_&_&_&_&_&E). by rewrite E in Hj.
Qed.

(** A part of a run of characters that something else follows. *)
Lemma run_prefix (P : ascii -> bool) (h s key u : string) :
  h +:+ s = key +:+ u -> all_chars P h = true -> stops P u = true -> exists k, key = h +:+ k /\ s = k +:+ u.
Proof.
  revert key. induction h as [|c h IH]; intros key; [by exists key|]. cbn [all_chars]. intros He [Hc Hh]%andb_prop Hu.
  destruct key as [|d key].
  { change ("" +:+ u) with u in He. rewrite <- He in Hu. simpl in Hu. by rewrite Hc in Hu. }
  rewrite !app_cons_string in He. injection He as <- He. destruct (IH key He Hh Hu) as (k & -> & ->). by exists k.
Qed.

Lemma match_key_word (s k r : string) : match_word ["key"] s = Some (k, r) -> starts_name s = true.
Proof.
  unfold match_word. destruct (startswith "key" (lower s)) eqn:E; [|done]. intros _. destruct s as [|c s]; [done|].
  cbn [lower startswith] in E. apply andb_prop in E as [E%Ascii.eqb_eq _]. simpl. revert E.
  by destruct c as [[] [] [] [] [] [] [] []].
Qed.

Lemma compound_at_key (key u : string) :
  good_name key = true -> blocked u = true -> stops ident_char u = true ->
  match_compound (key +:+ u) = None \/ match_compound (key +:+ u) = Some (key, u).
Proof.
  intros [Hs Hk]%andb_prop Hb Hu. unfold match_compound.
  destruct (match_word _COMPOUND_HEADS (key +:+ u)) as [[h s1]|] eqn:Eh; [|by left].
  apply match_word_split in Eh as (Eh & _ & Hh); [|done]. symmetry in Eh.
  destruct (run_prefix ident_char h s1 key u Eh Hh Hu) as (k1 & -> & ->). cbn [mbind option_bind]. clear Eh.
  rewrite all_chars_app in Hk. apply andb_prop in Hk as [_ Hk].
  destruct (span_chars joint_char k1) as [j k2] eqn:Ej. apply span_chars_split in Ej as (-> & Hj & Hk2).
  rewrite app_assoc_string. unfold span_some. destruct k2 as [|c k2].
  - change ("" +:+ u) with u. destruct (span_chars joint_char (j +:+ u)) as [j' s2] eqn:Ej'.
    assert (Hb2 : blocked s2 = true).
    { apply (blocked_joint (j +:+ u) j'); [done|]. clear -Hj Hb. induction j as [|c j IH]; [done|]. simpl in Hj.
      apply andb_prop in Hj as [Hc Hj]. rewrite app_cons_string. simpl.
      assert (Ha : is_alnum c = false) by (destruct c as [[] [] [] [] [] [] [] []]; done). rewrite Ha, IH by done. apply orb_true_r. }
    destruct (is_empty j'); [by left|]. cbn [mbind option_bind].
    destruct (match_word ["key"] s2) as [[k s3]|] eqn:Ek; [|by left].
    apply match_key_word in Ek. by rewrite blocked_name in Ek.
  - rewrite span_chars_app; [|done|by rewrite app_cons_string]. destruct (is_empty j); [by left|]. cbn [mbind option_bind].
    destruct (match_word ["key"] (String c k2 +:+ u)) as [[k s3]|] eqn:Ek; [|by left].
    apply match_word_split in Ek as (Ek & _ & Hkk); [|done]. symmetry in Ek.
    destruct (run_prefix ident_char k s3 _ u Ek Hkk Hu) as (k3 & Ek2 & ->). cbn [mbind option_bind].
    rewrite Ek2 in Hk |- *. rewrite !all_chars_app in Hk. apply andb_prop in Hk as [_ [_ Hk]%andb_prop].
    rewrite span_chars_app by done. by right.
Qed.

(** The search finds the first name with a separator, and exactly it. *)
Lemma match_key_at (inside : bool) (key : string) (p : sep_parts) (t : string) :
  good_name key = true -> good_sep p = true -> stops is_space t = true -> inside = false ->
  match_key inside (key +:+ sep_text p +:+ t) = Some (key, sep_text p, t).
Proof.
  intros Hk Hp Ht ->. unfold match_key. destruct (sep_blocked p t Hp) as [Hb Hi].
  assert (Hsep : with_sep (Some (key, sep_text p +:+ t)) = Some (key, sep_text p, t)).
  { unfold with_sep. cbn [mbind option_bind]. by rewrite match_sep_text. }
  destruct (compound_at_key key (sep_text p +:+ t) Hk Hb Hi) as [->| ->]; [|by rewrite Hsep].
  change (with_sep None) with (@None (string * string * string)). cbn iota.
  apply andb_prop in Hk as [Hs Hk]. unfold span_some. rewrite span_chars_app by done. by destruct key.
Qed.

Lemma search_key_at (inside : bool) (pre key : string) (p : sep_parts) (t : string) :
  good_pre pre = true -> good_name key = true -> good_sep p = true -> stops is_space t = true ->
  (pre = "" -> inside = false) ->
  search_key inside (pre +:+ key +:+ sep_text p +:+ t) = Some (pre, key, sep_text p, t).
Proof.
  intros Hpre Hk Hp Ht. revert inside. induction pre as [|c pre IH]; intros inside Hin.
  - change ("" +:+ key +:+ sep_text p +:+ t) with (key +:+ sep_text p +:+ t).
    pose proof (match_key_at inside key p t Hk Hp Ht (Hin eq_refl)) as Hm.
    destruct (key +:+ sep_text p +:+ t) eqn:E; cbn [search_key]; by rewrite Hm.
  - unfold good_pre in Hpre. apply andb_prop in Hpre as [[Hs Hc]%andb_prop Hh]. cbn [is_empty String.eqb orb] in Hc.
    cbn [ends_head] in Hh. rewrite negb_orb in Hh. apply andb_prop in Hh as [Hr%negb_true_iff Hh'].
    assert (Hn : starts_name (key +:+ sep_text p +:+ t) = true) by (apply starts_name_app; by apply andb_prop in Hk as [? _]).
    assert (Hm : match_key inside (String c pre +:+ key +:+ sep_text p +:+ t) = None).
    { unfold match_key. rewrite no_compound by done. destruct inside; [done|]. by apply no_name. }
    rewrite app_cons_string in *. cbn [search_key]. rewrite Hm.
    assert (Hi : pre = "" -> ident_char c = false).
    { intros ->. rewrite closed_cons in Hc. by apply negb_true_iff in Hc. }
    rewrite IH; [done| |exact Hi]. unfold good_pre. rewrite Hh', andb_true_r. unfold signless in *. cbn [all_chars] in Hs.
    apply andb_prop in Hs as [_ ->]. rewrite closed_cons in Hc. simpl. destruct (is_empty pre); done.
Qed.

(** ** Messages that assign credentials *)

Inductive value_text := Quoted (q : ascii) (v : string) | Bare (v : string) | Scheme (scheme w v : string).

Definition value_str (v : value_text) : string :=
  match v with
  | Quoted q v => String q v +:+ String q ""
  | Bare v => v
  | Scheme scheme w v => scheme +:+ w +:+ v
  end.

Definition good_value (v : value_text) : bool :=
  match v with
  | Quoted q v => (quote_char q && all_chars (no_char q) v)%bool
  | Bare v => (nonempty v && all_chars bare_char v && stops quote_char v && negb (mem_str (lower v) AUTH_SCHEMES))%bool
  | Scheme scheme w v =>
      (mem_str (lower scheme) AUTH_SCHEMES && nonempty w && all_chars is_space w && nonempty v && all_chars bare_char v)%bool
  end.

(** What follows a value: anything after a closing quote, the end or a
    delimiter otherwise. *)
Definition delimited (v : value_text) (next : string) : bool :=
  match v with Quoted _ _ => true | _ => stops bare_char next end.

Lemma bare_kinds (c : ascii) : (bare_char c = true -> is_space c = false) /\ (ident_char c = true -> bare_char c = true).
Proof. by destruct c as [[] [] [] [] [] [] [] []]. Qed.

Lemma lower_length (s : string) : String.length (lower s) = String.length s.
Proof. induction s as [|c s IH]; simpl; by rewrite ?IH. Qed.

Lemma take_drop_length (s t : string) :
  take_str (String.length s) (s +:+ t) = s /\ drop_str (String.length s) (s +:+ t) = t.
Proof.
  induction s as [|c s [IH1 IH2]]; [by destruct t|]. rewrite app_cons_string. cbn [String.length take_str drop_str].
  by rewrite IH1, IH2.
Qed.

Lemma match_scheme_word (scheme t : string) :
  mem_str (lower scheme) AUTH_SCHEMES = true -> match_word AUTH_SCHEMES (scheme +:+ t) = Some (scheme, t).
Proof.
  intros Hs. destruct (take_drop_length scheme t) as [Ht Hd]. rewrite <- (lower_length scheme) in Ht, Hd.
  assert (Hl : lower (scheme +:+ t) = lower scheme +:+ lower t) by apply lower_app.
  apply mem_str_spec in Hs. remember (lower scheme) as l eqn:El. clear El.
  unfold AUTH_SCHEMES in *. cbn [match_word].
  repeat (apply elem_of_cons in Hs as [->|Hs]; [rewrite Hl, !app_cons_string; cbn [startswith Ascii.eqb Bool.eqb andb]; by rewrite Ht, Hd|]). by apply elem_of_nil in Hs.
Qed.

Lemma match_value_str (v : value_text) (t : string) :
  good_value v = true -> delimited v t = true -> match_value (value_str v +:+ t) = Some (value_str v, t).
Proof.
  unfold match_value. destruct v as [q v|v|scheme w v]; cbn [good_value value_str delimited].
  - intros [Hq Hv]%andb_prop _. rewrite app_assoc_string. rewrite !app_cons_string.
    assert (Hm : match_word AUTH_SCHEMES (String q (v +:+ String q ("" +:+ t))) = None)
      by (destruct q as [[] [] [] [] [] [] [] []]; first [discriminate Hq|reflexivity]).
    unfold match_scheme. rewrite Hm. cbn [mbind option_bind]. change ("" +:+ t) with t.
    assert (Hspan : span_chars (no_char q) (v +:+ String q t) = (v, String q t))
      by (apply span_chars_app; [done|simpl; unfold no_char; by rewrite Ascii.eqb_refl]).
    unfold match_quoted. apply orb_prop in Hq as [->%Ascii.eqb_eq| ->%Ascii.eqb_eq].
    + rewrite Ascii.eqb_refl, Hspan. by rewrite app_cons_string.
    + change (Ascii.eqb double_quote single_quote) with false. cbn [or_else].
      rewrite Ascii.eqb_refl, Hspan. by rewrite app_cons_string.
  - intros [[[Hne Hb]%andb_prop Hq]%andb_prop Hns]%andb_prop Ht.
    assert (Hm : match_scheme bare_char (v +:+ t) = None).
    { unfold match_scheme. destruct (match_word AUTH_SCHEMES (v +:+ t)) as [[h r]|] eqn:Eh; [|done].
      apply match_word_split in Eh as (Eh & Hin & Hi); [|done]. symmetry in Eh.
      destruct (run_prefix bare_char h r v t Eh) as (k & -> & ->); [|done|].
      { eapply all_chars_impl; [|exact Hi]. intros c. apply bare_kinds. }
      destruct k as [|c k]; [apply mem_str_spec in Hin; by rewrite Prelude.app_empty_r, Hin in Hns|].
      rewrite all_chars_app in Hb. apply andb_prop in Hb as [_ Hb]. simpl in Hb. apply andb_prop in Hb as [Hc _].
      cbn [mbind option_bind]. rewrite app_cons_string. unfold span_some. cbn [span_chars].
      apply bare_kinds in Hc. by rewrite Hc. }
    rewrite Hm. destruct v as [|c v]; [done|]. simpl in Hq. apply negb_true_iff in Hq.
    pose proof Hq as [Hq1 Hq2]%orb_false_iff. rewrite app_cons_string. unfold match_quoted. rewrite Hq1, Hq2, Hq.
    cbn [or_else]. unfold span_some. rewrite <- app_cons_string, span_chars_app by done. done.
  - intros [[[[Hs Hnw]%andb_prop Hw]%andb_prop Hnv]%andb_prop Hv]%andb_prop Ht.
    rewrite !app_assoc_string. unfold match_scheme. rewrite match_scheme_word by done. cbn [mbind option_bind].
    unfold span_some. rewrite span_chars_app; [|done|].
    2: { destruct v as [|c v]; [done|]. simpl in *. apply andb_prop in Hv as [Hc _]. apply bare_kinds in Hc. by rewrite Hc. }
    unfold nonempty in *. destruct (is_empty w); [done|]. cbn [mbind option_bind]. rewrite span_chars_app by done.
    destruct (is_empty v); [done|]. done.
Qed.

(** One assignment of a message: the text before the name, the name, the
    separator, and the value when the name stands for a credential; the value
    of another name belongs to the text before the next one. *)
Record item := mkItem { it_pre : string; it_key : string; it_sep : sep_parts; it_value : option value_text }.

Definition item_head (it : item) : string := it_pre it +:+ it_key it +:+ sep_text (it_sep it).

Fixpoint message (items : list item) (tail : string) : string :=
  match items with
  | [] => tail
  | it :: rest =>
      it_pre it +:+ it_key it +:+ sep_text (it_sep it) +:+
      match it_value it with Some v => value_str v +:+ message rest tail | None => message rest tail end
  end.

(** The same message with every value hidden. *)
Fixpoint hidden_message (items : list item) (tail : string) : string :=
  match items with
  | [] => tail
  | it :: rest =>
      it_pre it +:+ it_key it +:+ sep_text (it_sep it) +:+
      match it_value it with
      | Some v => _render_redacted_value (value_str v) +:+ hidden_message rest tail
      | None => hidden_message rest tail
      end
  end.

Fixpoint good_message (predicate : string -> bool) (items : list item) (tail : string) : bool :=
  match items with
  | [] => signless tail
  | it :: rest =>
      (good_pre (it_pre it) && good_name (it_key it) && good_sep (it_sep it) &&
       match it_value it with
       | None => negb (predicate (it_key it)) && stops is_space (message rest tail)
       | Some v =>
           predicate (it_key it) && (is_sensitive_key (it_key it) || negb (opens_structure (value_str v))) &&
           good_value v && delimited v (message rest tail)
       end && good_message predicate rest tail)%bool
  end.

Lemma match_sep_signless (s : string) : signless s = true -> match_sep s = None.
Proof.
  unfold match_sep, signless. intros Hs. destruct (span_opt (Ascii.eqb "\") s) as [b s1] eqn:E1.
  apply span_opt_split in E1 as [-> _]. destruct (span_opt quote_char s1) as [q s2] eqn:E2.
  apply span_opt_split in E2 as [-> _]. destruct (span_chars is_space s2) as [w s3] eqn:E3.
  apply span_chars_split in E3 as [-> _]. destruct s3 as [|c s3]; [done|].
  rewrite !all_chars_app in Hs. cbn [all_chars] in Hs.
  destruct (sign_char c); [|done]. by rewrite !andb_false_r in Hs.
Qed.

Lemma signless_suffix (a b : string) : signless (a +:+ b) = true -> signless b = true.
Proof. unfold signless. rewrite all_chars_app. by intros [_ ?]%andb_prop. Qed.

Lemma match_key_signless (inside : bool) (s : string) : signless s = true -> match_key inside s = None.
Proof.
  intros Hs. unfold match_key.
  assert (Hc : forall k r, match_compound s = Some (k, r) -> exists a, s = a +:+ r).
  { intros k r. unfold match_compound. destruct (match_word _COMPOUND_HEADS s) as [[h s1]|] eqn:Eh; [|done].
    apply match_word_split in Eh as (-> & _); [|done]. cbn [mbind option_bind]. unfold span_some.
    destruct (span_chars joint_char s1) as [j s2] eqn:Ej. apply span_chars_split in Ej as (-> & _).
    destruct (is_empty j); [done|]. cbn [mbind option_bind].
    destruct (match_word ["key"] s2) as [[k' s3]|] eqn:Ek; [|done]. apply match_word_split in Ek as (-> & _); [|done].
    cbn [mbind option_bind]. destruct (span_chars ident_char s3) as [i s4] eqn:Ei.
    apply span_chars_split in Ei as (-> & _). intros [= _ <-]. exists (h +:+ j +:+ k' +:+ i). by rewrite !app_assoc_string. }
  assert (Hn : with_sep (span_some ident_char s) = None).
  { unfold with_sep, span_some. destruct (span_chars ident_char s) as [i b] eqn:E. apply span_chars_split in E as (-> & _).
    destruct (is_empty i); [done|]. cbn [mbind option_bind]. by rewrite match_sep_signless by (by apply (signless_suffix i)). }
  rewrite Hn. unfold with_sep. destruct (match_compound s) as [[k r]|]; cbn [mbind option_bind]; [|by destruct inside].
  destruct (Hc k r eq_refl) as [a ->].
  rewrite match_sep_signless by (by apply (signless_suffix a)). by destruct inside.
Qed.

Lemma search_key_signless (inside : bool) (s : string) : signless s = true -> search_key inside s = None.
Proof.
  revert inside. induction s as [|c s IH]; intros inside Hs; cbn [search_key]; rewrite match_key_signless by done; [done|].
  rewrite IH; [done|]. unfold signless in *. cbn [all_chars] in Hs. by apply andb_prop in Hs as [_ ?].
Qed.

Lemma last_char_app (a b : string) : last_char (a +:+ b) = match last_char b with Some c => Some c | None => last_char a end.
Proof.
  induction a as [|c a IH]; [change ("" +:+ b) with b; by destruct (last_char b)|]. rewrite app_cons_string. cbn [last_char]. rewrite IH.
  by destruct (last_char b).
Qed.

Lemma last_char_in (P : ascii -> bool) (s : string) (c : ascii) :
  all_chars P s = true -> last_char s = Some c -> P c = true.
Proof.
  induction s as [|d s IH]; [done|]. cbn [all_chars last_char]. intros [Hd Hs]%andb_prop.
  destruct (last_char s); [by intros [= <-]; apply IH|by intros [= <-]].
Qed.

Lemma sep_outside (p : sep_parts) : good_sep p = true -> ends_inside (sep_text p) = false.
Proof.
  destruct p as [esc q w c w']. unfold good_sep, sep_text, ends_inside. cbn [sp_escaped sp_quote sp_before sp_sign sp_after].
  intros [[_ Hc]%andb_prop Hw]%andb_prop. rewrite !last_char_app. cbn [last_char].
  destruct (last_char w') as [d|] eqn:Ed; [|by apply sign_kinds].
  apply (last_char_in _ _ _ Hw) in Ed. by apply space_kinds in Ed as (_&_&_&_&?).
Qed.

Lemma quoted_outside (q : ascii) (v : string) : quote_char q = true -> ends_inside (value_str (Quoted q v)) = false.
Proof. intros Hq. unfold ends_inside. cbn [value_str]. rewrite last_char_app. cbn [last_char]. by apply quote_kinds. Qed.

(** A value that is delimited by what follows is not followed by a name. *)
Lemma delimited_pre (v : value_text) (it : item) (rest : list item) (tail : string) :
  good_name (it_key it) = true -> delimited v (message (it :: rest) tail) = true ->
  it_pre it = "" -> good_value v = true -> ends_inside (value_str v) = false.
Proof.
  intros [Hk _]%andb_prop Hd Hp Hv. cbn [message] in Hd. rewrite Hp in Hd.
  assert (Hn : forall t, stops bare_char ("" +:+ it_key it +:+ t) = false).
  { intros t. change ("" +:+ it_key it +:+ t) with (it_key it +:+ t). destruct (it_key it) as [|c k]; [done|].
    rewrite app_cons_string. simpl in *. apply alnum_kinds in Hk as (Hk & _). apply bare_kinds in Hk. by rewrite Hk. }
  destruct v; cbn [delimited] in Hd; [|by rewrite Hn in Hd..].
  cbn [good_value] in Hv. apply andb_prop in Hv as [Hq _]. by apply quoted_outside.
Qed.

Lemma value_spaceless (v : value_text) (t : string) : good_value v = true -> stops is_space (value_str v +:+ t) = true.
Proof.
  destruct v as [q v|v|scheme w v]; cbn [good_value value_str].
  - intros [Hq _]%andb_prop. apply quote_kinds in Hq as (_&_&_&Hq). rewrite app_assoc_string, app_cons_string. simpl. by rewrite Hq.
  - intros [[[Hne Hb]%andb_prop _]%andb_prop _]%andb_prop. destruct v as [|c v]; [done|]. simpl in Hb.
    apply andb_prop in Hb as [Hc _]. apply bare_kinds in Hc. rewrite app_cons_string. simpl. by rewrite Hc.
  - intros [[[[Hs _]%andb_prop _]%andb_prop _]%andb_prop _]%andb_prop. destruct scheme as [|c scheme]; [done|].
    rewrite app_assoc_string, app_cons_string. apply mem_str_spec in Hs. cbn [lower] in Hs. simpl.
    destruct (is_space c) eqn:Hc; [|done]. exfalso. clear -Hs Hc.
    assert (Hl : lower_char c = c) by (destruct c as [[] [] [] [] [] [] [] []]; done). rewrite Hl in Hs. unfold AUTH_SCHEMES in Hs.
    repeat (apply elem_of_cons in Hs as [[= -> _]|Hs]; [done|]). by apply elem_of_nil in Hs.
Qed.

(** The sweep hides every value of a message and keeps the rest. *)
Lemma redact_message (predicate : string -> bool) (items : list item) (tail : string) (fuel : nat) (inside : bool) :
  good_message predicate items tail = true -> (List.length items < fuel)%nat ->
  match items with it :: _ => it_pre it = "" -> inside = false | [] => True end ->
  redact_loop predicate fuel inside (message items tail) = hidden_message items tail.
Proof.
  revert fuel inside. induction items as [|it items IH]; intros fuel inside Hg Hf Hin; (destruct fuel as [|fuel]; [simpl in Hf; lia|]).
  - cbn [message good_message redact_loop] in *. by rewrite search_key_signless.
  - cbn [good_message] in Hg. apply andb_prop in Hg as [[[[Hp Hk]%andb_prop Hs]%andb_prop Hv]%andb_prop Hg].
    assert (Hnext : match items with it' :: _ => good_name (it_key it') = true | [] => True end).
    { destruct items as [|it' items]; [done|]. cbn [good_message] in Hg.
      by apply andb_prop in Hg as [[[[_ ?]%andb_prop _]%andb_prop _]%andb_prop _]. }
    cbn [message hidden_message redact_loop]. destruct (it_value it) as [v|].
    + apply andb_prop in Hv as [[[HP Hd]%andb_prop Hv]%andb_prop Ht].
      rewrite search_key_at, HP, match_value_str by (done || by apply value_spaceless). cbn [negb].
      assert (Hskip : (negb (is_sensitive_key (it_key it)) && opens_structure (value_str v))%bool = false).
      { apply orb_prop in Hd as [->|Hd%negb_true_iff]; [done|]. by rewrite Hd, andb_false_r. }
      rewrite Hskip. do 4 f_equal. apply IH; [done|simpl in Hf; lia|].
      destruct items as [|it' items]; [done|]. intros Hpre. by apply (delimited_pre v it' items tail).
    + apply andb_prop in Hv as [HP%negb_true_iff Ht]. rewrite search_key_at, HP by done. cbn [negb].
      do 3 f_equal. apply IH; [done|simpl in Hf; lia|]. destruct items as [|it' items]; [done|]. intros _. by apply sep_outside.
Qed.

(** Values that are hidden behind the same text. *)
Definition alike_value (v v' : option value_text) : Prop :=
  match v, v' with
  | Some (Quoted q _), Some (Quoted q' _) => q = q'
  | Some (Quoted _ _), _ | _, Some (Quoted _ _) => False
  | Some _, Some _ | None, None => True
  | _, _ => False
  end.

Definition alike_item (i i' : item) : Prop :=
  it_pre i = it_pre i' /\ it_key i = it_key i' /\ it_sep i = it_sep i' /\ alike_value (it_value i) (it_value i').

Lemma render_open (v : value_text) :
  good_value v = true -> match v with Quoted _ _ => True | _ => _render_redacted_value (value_str v) = _REDACTED end.
Proof.
  destruct v as [q v|v|scheme w v]; [done|..]; cbn [good_value value_str].
  - intros [[[Hne _]%andb_prop Hq]%andb_prop _]%andb_prop. destruct v as [|c v]; [done|]. simpl in *.
    by apply negb_true_iff in Hq as ->.
  - intros [[[[Hs _]%andb_prop _]%andb_prop _]%andb_prop _]%andb_prop.
    destruct scheme as [|c scheme]; [done|]. apply mem_str_spec in Hs. rewrite app_cons_string. cbn [_render_redacted_value].
    destruct (quote_char c) eqn:Hc; [exfalso|done]. cbn [lower] in Hs.
    assert (Hl : lower_char c = c) by (destruct c as [[] [] [] [] [] [] [] []]; done). rewrite Hl in Hs. unfold AUTH_SCHEMES in Hs.
    repeat (apply elem_of_cons in Hs as [[= -> _]|Hs]; [done|]). by apply elem_of_nil in Hs.
Qed.

Lemma alike_render (v v' : value_text) :
  good_value v = true -> good_value v' = true -> alike_value (Some v) (Some v') ->
  _render_redacted_value (value_str v) = _render_redacted_value (value_str v').
Proof.
  intros Hv Hv' Ha. pose proof (render_open v Hv) as R. pose proof (render_open v' Hv') as R'.
  destruct v as [q v|v|sc w v], v' as [q' v'|v'|sc' w' v']; simpl in Ha; try done; try by rewrite R, R'.
  subst q'. cbn [good_value value_str] in *. apply andb_prop in Hv as [Hq _]. rewrite !app_cons_string.
  cbn [_render_redacted_value]. by rewrite Hq.
Qed.

Lemma alike_hidden (predicate : string -> bool) (items items' : list item) (tail : string) :
  Forall2 alike_item items items' -> good_message predicate items tail = true ->
  good_message predicate items' tail = true -> hidden_message items tail = hidden_message items' tail.
Proof.
  intros Ha. induction Ha as [|i i' items items' (Hp & Hk & Hs & Hv) _ IH]; [done|]. cbn [good_message hidden_message].
  intros [[_ Gv]%andb_prop G]%andb_prop [[_ Gv']%andb_prop G']%andb_prop. rewrite <- Hp, <- Hk, <- Hs, IH by done.
  destruct (it_value i) as [v|], (it_value i') as [v'|]; [|by destruct v|by destruct v'|done].
  apply andb_prop in Gv as [[_ Gv]%andb_prop _], Gv' as [[_ Gv']%andb_prop _]. by rewrite (alike_render v v').
Qed.

Lemma message_length (predicate : string -> bool) (items : list item) (tail : string) :
  good_message predicate items tail = true -> (List.length items <= String.length (message items tail))%nat.
Proof.
  induction items as [|it items IH]; simpl; [lia|]. intros [[[[_ Hk]%andb_prop _]%andb_prop _]%andb_prop G]%andb_prop.
  specialize (IH G). rewrite !append_length.
  destruct (it_key it); [done|]. simpl. destruct (it_value it); rewrite ?append_length; lia.
Qed.

Lemma redact_text_eq (items items' : list item) (tail : string) :
  good_message is_sensitive_or_echo_key items tail = true -> good_message is_sensitive_or_echo_key items' tail = true ->
  Forall2 alike_item items items' -> redact_sensitive_text (message items tail) = redact_sensitive_text (message items' tail).
Proof.
  intros G G' Ha. unfold redact_sensitive_text, redact_assignments.
  rewrite !redact_message; try done; try (apply Nat.lt_succ_r; by eapply message_length); try (by destruct items); try (by destruct items').
  by rewrite (alike_hidden is_sensitive_or_echo_key items items' tail).
Qed.

(** ** What may not be shown

    Written without the redactor: the words for a credential, the fields that
    echo an input, the shape of an assigned value, and seven levels. *)

Definition credential_words : list string :=
  ["authorization"; "credential"; "passphrase"; "password"; "passwd"; "session"; "sshkeys"; "secret"; "cookie"; "ticket";
   "token"; "auth"; "pwd"; "apikey"; "privatekey"; "publickey"; "encryptionkey"; "secretkey"; "signingkey"; "hostkey"; "sshkey"].

(** A name in lower case, without dashes, underscores and white space. *)
Definition bare_name (key : string) : string :=
  string_of_list_ascii
    (List.filter (fun c => negb (Ascii.eqb c "-" || Ascii.eqb c "_" || is_space c)%bool) (list_ascii_of_string (lower key))).

(** The name has such a word in it. *)
Definition credential_name (key : string) : Prop :=
  exists word a b, word ∈ credential_words /\ bare_name key = a +:+ word +:+ b.

(** The name of an echoed input, in a text. *)
Definition echo_name (key : string) : Prop := bare_name key = "input" \/ bare_name key = "inputvalue".

(** A value in quotes of one kind that holds no such quote; a word without
    white space and without a delimiter, that neither starts with a quote nor
    is the name of an authentication scheme; or a scheme and such a word. *)
Definition delimiter (c : ascii) : Prop := is_space c = true \/ c ∈ [","; ";"; ")"; "}"; "]"]%char.
Definition a_quote (c : ascii) : Prop := c = single_quote \/ c = double_quote.
Definition scheme_names : list string := ["bearer"; "basic"; "token"; "digest"; "negotiate"; "apikey"].

Definition each_char (P : ascii -> Prop) (s : string) : Prop := Forall P (list_ascii_of_string s).

Definition secret_value (v : value_text) : Prop :=
  match v with
  | Quoted q v => a_quote q /\ each_char (fun c => c <> q) v
  | Bare v => v <> "" /\ each_char (fun c => ~ delimiter c) v /\ lower v ∉ scheme_names /\
              forall c, String.get 0 v = Some c -> ~ a_quote c
  | Scheme scheme w v => lower scheme ∈ scheme_names /\ w <> "" /\ each_char (fun c => is_space c = true) w /\
                         v <> "" /\ each_char (fun c => ~ delimiter c) v
  end.

(** A message that assigns to names: the value of a credential is a value as
    above, followed by the end or a delimiter unless it is quoted; an echoed
    input does not open a structure; other names have what follows. *)
Inductive told : list item -> string -> Prop :=
| told_end tail : signless tail = true -> told [] tail
| told_other it rest tail :
    good_pre (it_pre it) = true -> good_name (it_key it) = true -> good_sep (it_sep it) = true ->
    it_value it = None -> ~ credential_name (it_key it) -> ~ echo_name (it_key it) ->
    stops is_space (message rest tail) = true -> told rest tail -> told (it :: rest) tail
| told_secret it v rest tail :
    good_pre (it_pre it) = true -> good_name (it_key it) = true -> good_sep (it_sep it) = true ->
    it_value it = Some v ->
    credential_name (it_key it) \/ echo_name (it_key it) /\ (forall c, String.get 0 (value_str v) = Some c -> c <> "{"%char /\ c <> "["%char) ->
    secret_value v ->
    match v with Quoted _ _ => True | _ => forall c, String.get 0 (message rest tail) = Some c -> delimiter c end ->
    told rest tail -> told (it :: rest) tail.

(** Two texts that differ in the values of credentials only. *)
Definition alike_text (s s' : string) : Prop :=
  exists items items' tail, s = message items tail /\ s' = message items' tail /\
    told items tail /\ told items' tail /\ Forall2 alike_item items items'.

(** The location of an error names a credential. *)
Definition loc_names (d : dict pyval) : Prop :=
  exists parts part, get "loc" d = VList parts /\ VStr part ∈ parts /\ credential_name part.

(** Two bodies that differ in what may not be shown only; [n] counts the
    levels that are shown. *)
Inductive alike : nat -> pyval -> pyval -> Prop :=
| alike_deep (v v' : pyval) : alike O v v'
| alike_same (n : nat) (v : pyval) : alike n v v
| alike_str (n : nat) (s s' : string) : alike_text s s' -> alike n (VStr s) (VStr s')
| alike_list (n : nat) (l l' : list pyval) : Forall2 (alike n) l l' -> alike (S n) (VList l) (VList l')
| alike_dict (n : nat) (d d' : dict pyval) :
    (loc_names d <-> loc_names d') ->
    Forall2 (fun kv kv' => fst kv = fst kv' /\
               (credential_name (fst kv) \/ loc_names d /\ (fst kv = "input" \/ fst kv = "input_value") \/
                alike n (snd kv) (snd kv'))) d d' ->
    alike (S n) (VDict d) (VDict d').

(** *** The redactor hides that *)

Lemma startswith_iff (w s : string) : startswith w s = true <-> exists b, s = w +:+ b.
Proof.
  revert s. induction w as [|a w IH]; intros s; cbn [startswith]; [split; [intros _; by exists s|by destruct s]|].
  destruct s as [|c s]; [split; [done|by intros [b [=]]]|]. rewrite andb_true_iff, Ascii.eqb_eq, IH.
  split; [intros [-> [b ->]]; by exists b|]. intros [b Hb]. rewrite app_cons_string in Hb. injection Hb as -> ->. eauto.
Qed.

Lemma contains_iff (w s : string) : contains w s = true <-> exists a b, s = a +:+ w +:+ b.
Proof.
  split.
  - induction s as [|c s IH]; intros H.
    + exists "", "". destruct w; [done|by vm_compute in H].
    + cbn [contains] in H. apply orb_prop in H as [H|H].
      * apply startswith_iff in H as [b Hb]. exists "", b. exact Hb.
      * destruct (IH H) as (a & b & ->). by exists (String c a), b.
  - intros (a & b & ->). induction a as [|c a IH].
    + destruct (w +:+ b) as [|c t] eqn:E; [by destruct w|]. cbn [contains]. apply orb_true_intro. left. apply startswith_iff. by exists b.
    + change (contains w (String c (a +:+ w +:+ b)) = true). apply orb_true_intro. right. exact IH.
Qed.

Lemma bare_name_spec (key : string) : normalize_key key = bare_name key.
Proof.
  unfold normalize_key, bare_name. generalize (lower key) as t. intros t. induction t as [|c t IH]; [done|].
  cbn [drop_chars list_ascii_of_string List.filter]. change (separator_char c) with (Ascii.eqb c "-" || Ascii.eqb c "_" || is_space c)%bool.
  destruct (Ascii.eqb c "-" || Ascii.eqb c "_" || is_space c)%bool; cbn [negb]; [done|]. cbn [string_of_list_ascii]. by rewrite IH.
Qed.

Lemma credential_name_spec (key : string) : is_sensitive_key key = true <-> credential_name key.
Proof.
  unfold is_sensitive_key, credential_name. rewrite bare_name_spec, existsb_exists.
  change SENSITIVE_KEY_MARKERS with credential_words. setoid_rewrite <- list_elem_of_In. setoid_rewrite contains_iff. naive_solver.
Qed.

Lemma echo_name_spec (key : string) : mem_str (normalize_key key) VALUE_ECHO_KEYS = true <-> echo_name key.
Proof. unfold echo_name. rewrite bare_name_spec, mem_str_spec. unfold VALUE_ECHO_KEYS. rewrite !elem_of_cons, elem_of_nil. naive_solver. Qed.

Lemma assigned_name_spec (key : string) : is_sensitive_or_echo_key key = true <-> credential_name key \/ echo_name key.
Proof. unfold is_sensitive_or_echo_key. by rewrite orb_true_iff, credential_name_spec, echo_name_spec. Qed.

Lemma each_char_spec (P : ascii -> Prop) (Q : ascii -> bool) (s : string) :
  (forall c, P c -> Q c = true) -> each_char P s -> all_chars Q s = true.
Proof.
  intros HPQ. unfold each_char. induction s as [|c s IH]; [done|]. cbn [list_ascii_of_string all_chars].
  intros [Hc Hs]%Forall_cons. by rewrite HPQ, IH.
Qed.

Lemma delimiter_text (c : ascii) :
  mem_str (String c "") [","; ";"; ")"; "}"; "]"] = true <-> c ∈ [","; ";"; ")"; "}"; "]"]%char.
Proof.
  rewrite mem_str_spec, !elem_of_cons, !elem_of_nil. split.
  - intros [H|[H|[H|[H|[H|[]]]]]]; injection H as ->; tauto.
  - intros [-> |[-> |[-> |[-> |[-> |[]]]]]]; tauto.
Qed.

Lemma not_delimiter (c : ascii) : ~ delimiter c -> bare_char c = true.
Proof.
  unfold delimiter, bare_char. intros H. apply negb_true_iff, orb_false_iff. split.
  - destruct (is_space c) eqn:E; [|done]. destruct H. by left.
  - apply not_true_is_false. intros E%delimiter_text. destruct H. by right.
Qed.

Lemma delimiter_stops (s : string) : (forall c, String.get 0 s = Some c -> delimiter c) -> stops bare_char s = true.
Proof.
  destruct s as [|c s]; [done|]. intros H. specialize (H c eq_refl). cbn. unfold bare_char. rewrite negb_involutive.
  destruct H as [->|H]; [done|]. apply orb_true_intro. right. by apply delimiter_text.
Qed.

Lemma quote_spec (c : ascii) : quote_char c = true <-> a_quote c.
Proof. unfold quote_char, a_quote. by rewrite orb_true_iff, !Ascii.eqb_eq. Qed.

Lemma nonempty_spec (s : string) : s <> "" -> nonempty s = true.
Proof. by destruct s. Qed.

Lemma secret_value_good (v : value_text) : secret_value v -> good_value v = true.
Proof.
  destruct v as [q v|v|scheme w v]; cbn [secret_value good_value].
  - intros [Hq Hv]. apply andb_true_intro. split; [by apply quote_spec|]. eapply each_char_spec; [|exact Hv].
    intros c Hc. unfold no_char. apply negb_true_iff. by apply Ascii.eqb_neq.
  - intros (Hne & Hv & Hs & Hq). rewrite nonempty_spec, (each_char_spec _ _ _ not_delimiter Hv) by done. cbn [andb].
    apply andb_true_intro. split; [|by apply negb_true_iff, mem_str_false].
    destruct v as [|c v]; [done|]. cbn. apply negb_true_iff. destruct (quote_char c) eqn:E; [|done].
    apply quote_spec in E. by destruct (Hq c eq_refl).
  - intros (Hs & Hw & Hws & Hne & Hv). rewrite !nonempty_spec, (each_char_spec _ _ _ not_delimiter Hv) by done.
    rewrite (proj2 (mem_str_spec (lower scheme) AUTH_SCHEMES)) by exact Hs. cbn [andb].
    rewrite (each_char_spec _ is_space _ (fun c H => H) Hws). done.
Qed.

Lemma told_good (items : list item) (tail : string) :
  told items tail -> good_message is_sensitive_or_echo_key items tail = true.
Proof.
  induction 1 as [tail Ht|it rest tail Hp Hk Hs Hv Hc He Hn _ IH|it v rest tail Hp Hk Hs Hv Hc Hsv Hd _ IH]; [done|..];
    cbn [good_message]; rewrite Hp, Hk, Hs, Hv, IH; cbn [andb]; rewrite andb_true_r.
  - rewrite Hn, andb_true_r. apply negb_true_iff. destruct (is_sensitive_or_echo_key (it_key it)) eqn:E; [|done].
    apply assigned_name_spec in E as []; done.
  - rewrite (proj2 (assigned_name_spec _)) by (destruct Hc as [?|[? _]]; auto). cbn [andb].
    rewrite (secret_value_good v Hsv), andb_true_r. apply andb_true_intro. split.
    + destruct Hc as [Hc|[_ Hc]]; [by rewrite (proj2 (credential_name_spec _) Hc)|]. apply orb_true_intro. right.
      destruct (value_str v) as [|c t]; [done|]. cbn. destruct (Hc c eq_refl) as [H1 H2].
      by rewrite (proj2 (Ascii.eqb_neq _ _) H1), (proj2 (Ascii.eqb_neq _ _) H2).
    + destruct v; [done|by apply delimiter_stops..].
Qed.

Lemma redact_text_alike (s s' : string) : alike_text s s' -> redact_sensitive_text s = redact_sensitive_text s'.
Proof.
  intros (items & items' & tail & -> & -> & G%told_good & G'%told_good & Ha). by apply redact_text_eq.
Qed.

Lemma loc_names_spec (d : dict pyval) : _loc_names_sensitive_field (get "loc" d) = true <-> loc_names d.
Proof.
  unfold loc_names, _loc_names_sensitive_field. destruct (get "loc" d) as [| | | | |parts|]; try naive_solver.
  rewrite existsb_exists. split.
  - intros (x & Hx & H). apply list_elem_of_In in Hx. destruct x as [| | | |part| |]; try done. apply credential_name_spec in H. eauto.
  - intros (parts' & part & [= <-] & Hin & H). exists (VStr part). split; [by apply list_elem_of_In|]. by apply credential_name_spec.
Qed.

Lemma redact_levels_alike (n : nat) (v v' : pyval) : alike n v v' -> redact_levels n v = redact_levels n v'.
Proof.
  revert v v'. induction n as [|n IH]; intros v v' Ha; [done|].
  inversion Ha as [|? ?|? s s' Hs|? l l' Hl|? d d' He Hd]; subst; try done.
  - simpl. by rewrite (redact_text_alike s s').
  - cbn [redact_levels]. f_equal. clear Ha. induction Hl as [|x x' l l' Hx _ IHl]; [done|]. cbn [List.map].
    by rewrite (IH x x'), IHl.
  - cbn [redact_levels]. rewrite <- !loc_names_spec in He.
    assert (Heq : _loc_names_sensitive_field (get "loc" d') = _loc_names_sensitive_field (get "loc" d)).
    { destruct (_loc_names_sensitive_field (get "loc" d)), (_loc_names_sensitive_field (get "loc" d')); naive_solver. }
    rewrite Heq. f_equal. pose proof (loc_names_spec d) as Hl. set (echo := _loc_names_sensitive_field (get "loc" d)) in *.
    clearbody echo. generalize dependent (loc_names d). clear Ha He Heq. intros L Hd Hl.
    induction Hd as [|[k x] [k' x'] d d' [Hk Hx] _ IHd]; [done|]. cbn [List.map fst snd] in *. subst k'. rewrite IHd.
    unfold hidden_key. destruct Hx as [Hx|[[HL Hx]|Hx]].
    + by rewrite (proj2 (credential_name_spec k) Hx).
    + apply Hl in HL as ->. assert (mem_str k _LOC_ECHO_KEYS = true) as ->.
      { apply mem_str_spec. unfold _LOC_ECHO_KEYS. rewrite !elem_of_cons. naive_solver. }
      by rewrite orb_true_r.
    + by rewrite (IH x x').
Qed.

(** What a redacted body keeps of a body: the shape, the names in their order,
    numbers and the like, and a text that neither assigns nor has the name of
    an authentication scheme in front of white space. *)
Definition plain_text (s : string) : Prop :=
  each_char (fun c => c <> ":"%char /\ c <> "="%char) s /\
  ~ exists a scheme w b, s = a +:+ scheme +:+ String w b /\ lower scheme ∈ scheme_names /\ is_space w = true.

Fixpoint kept (n : nat) (v r : pyval) : Prop :=
  match n with
  | O => True
  | S n' =>
      match v with
      | VDict d => exists e, r = VDict e /\
          Forall2 (fun kv kr => fst kr = fst kv /\
                     (credential_name (fst kv) \/ loc_names d /\ (fst kv = "input" \/ fst kv = "input_value") \/
                      kept n' (snd kv) (snd kr))) d e
      | VList l => exists m, r = VList m /\ Forall2 (kept n') l m
      | VStr s => exists t, r = VStr t /\ (plain_text s -> t = s)
      | v => r = v
      end
  end.

Lemma match_scheme_shape (P : ascii -> bool) (s : string) :
  is_Some (match_scheme P s) -> exists scheme w b, s = scheme +:+ String w b /\ lower scheme ∈ scheme_names /\ is_space w = true.
Proof.
  unfold match_scheme. destruct (match_word AUTH_SCHEMES s) as [[h r]|] eqn:Ew; [|by intros []].
  apply match_word_split in Ew as (-> & Hh & _); [|done]. cbn [mbind option_bind].
  destruct (span_some is_space r) as [[w s2]|] eqn:E; [|by intros []]. intros _. unfold span_some in E.
  destruct (span_chars is_space r) as [w' s2'] eqn:Es. apply span_chars_split in Es as (-> & Hw & _).
  destruct w' as [|c w']; [done|]. cbn [all_chars] in Hw. apply andb_prop in Hw as [Hc _]. by exists h, c, (w' +:+ s2').
Qed.

Lemma sub_bearer_plain (fuel : nat) (inside : bool) (s : string) :
  (~ exists a scheme w b, s = a +:+ scheme +:+ String w b /\ lower scheme ∈ scheme_names /\ is_space w = true) ->
  sub_bearer fuel inside s = s.
Proof.
  revert inside s. induction fuel as [|fuel IH]; intros inside s Hs; [done|]. cbn [sub_bearer].
  assert (match_scheme token_char s = None) as ->.
  { destruct (match_scheme token_char s) eqn:E; [|done]. destruct Hs. exists "".
    apply (match_scheme_shape token_char s). by rewrite E. }
  replace (if inside then None else None) with (None (A := string * string * string * string)) by (by destruct inside).
  destruct s as [|c s]; [done|]. f_equal. apply IH. intros (a & h & w & b & -> & H). destruct Hs. by exists (String c a), h, w, b.
Qed.

Lemma redact_text_plain (s : string) : plain_text s -> redact_sensitive_text s = s.
Proof.
  intros [Hs Hb]. unfold redact_sensitive_text, redact_assignments.
  assert (Hl : signless s = true).
  { eapply each_char_spec; [|exact Hs]. intros c [H1 H2]. unfold sign_char.
    by rewrite (proj2 (Ascii.eqb_neq _ _) H1), (proj2 (Ascii.eqb_neq _ _) H2). }
  assert (redact_loop is_sensitive_or_echo_key (S (String.length s)) false s = s) as ->.
  { apply (redact_message is_sensitive_or_echo_key [] s); [done|simpl; lia|done]. }
  by apply sub_bearer_plain.
Qed.

Lemma redact_levels_kept (n : nat) (v : pyval) : kept n v (redact_levels n v).
Proof.
  revert v. induction n as [|n IH]; intros v; [done|]. destruct v as [|b|z|r|s|l|d]; cbn [kept redact_levels]; try done.
  - eexists. split; [done|]. apply redact_text_plain.
  - eexists. split; [done|]. induction l; constructor; auto.
  - eexists. split; [done|]. pose proof (loc_names_spec d) as Hl. generalize dependent (loc_names d). intros L Hl.
    generalize dependent (_loc_names_sensitive_field (get "loc" d)). intros echo Hl.
    induction d as [|[k x] d IHd]; constructor; [|done]. cbn [fst snd]. split; [done|].
    unfold hidden_key. destruct (is_sensitive_key k) eqn:Ek; [left; by apply credential_name_spec|].
    destruct echo; [|by right; right; apply IH]. destruct (mem_str k _LOC_ECHO_KEYS) eqn:Em; [|by right; right; apply IH].
    right. left. split; [by apply Hl|]. apply mem_str_spec in Em. unfold _LOC_ECHO_KEYS in Em.
    rewrite !elem_of_cons, elem_of_nil in Em. naive_solver.
Qed.


(** In a redacted body every name of a credential has the same value, and no
    more levels are left than are shown. *)
Fixpoint scrubbed (n : nat) (v : pyval) : Prop :=
  match n with
  | O => v = VStr _REDACTED_DEEP
  | S n' =>
      match v with
      | VDict d => Forall (fun kv => if is_sensitive_key (fst kv) then snd kv = VStr _REDACTED
                                     else snd kv = VStr _REDACTED \/ scrubbed n' (snd kv)) d
      | VList l => Forall (scrubbed n') l
      | _ => True
      end
  end.

Theorem redacted_body_scrubbed (v : pyval) : scrubbed (S _REDACTION_DEPTH_LIMIT) (redact_sensitive v).
Proof.
  unfold redact_sensitive. generalize (S _REDACTION_DEPTH_LIMIT) as n. intros n. revert v.
  induction n as [|n IH]; intros v; [done|]. destruct v as [|b|z|r|s|l|d]; try done; cbn [redact_levels scrubbed].
  - apply Forall_map. apply Forall_true. intros x. apply IH.
  - apply Forall_map. apply Forall_true. intros [k x]. cbn [fst snd]. unfold hidden_key.
    destruct (is_sensitive_key k); [done|]. cbn [orb]. destruct (_ && _)%bool; [by left|]. right. apply IH.
Qed.

(** ** Examples *)

Definition plain_sep (c : ascii) : sep_parts := mkSep false None "" c "".

(** A message with a header and a quoted password. *)
Definition sample_items (token password : string) : list item :=
  [mkItem "sent " "Authorization" (mkSep false None "" ":" " ") (Some (Scheme "Bearer" " " token));
   mkItem ", " "user" (plain_sep "=") None;
   mkItem "root@pam, " "password" (plain_sep "=") (Some (Quoted single_quote password))].

Definition sample_text (token password : string) : string := message (sample_items token password) " was refused".

Definition sample_body (token password : string) : pyval :=
  VDict [("detail", VList [VDict [("loc", VList [VStr "body"; VStr "token_value"]); ("input", VStr token);
                                  ("msg", VStr (sample_text token password)); ("ctx", VDict [("passwd", VStr password)])]])].

Example sample_redacted :
  redact_sensitive (sample_body "nbt_1.2" "hunter two") =
  VDict [("detail", VList [VDict [("loc", VList [VStr "body"; VStr "token_value"]); ("input", VStr "[redacted]");
     ("msg", VStr "sent Authorization: [redacted], user=root@pam, password='[redacted]' was refused");
     ("ctx", VDict [("passwd", VStr "[redacted]")])]])].
Proof. vm_compute. reflexivity. Qed.

Ltac credential w a b := exists w, a, b; split; [apply mem_str_spec; vm_compute; reflexivity|vm_compute; reflexivity].

Lemma sample_told (token password : string) :
  secret_value (Scheme "Bearer" " " token) -> secret_value (Quoted single_quote password) ->
  told (sample_items token password) " was refused".
Proof.
  intros Ht Hp. unfold sample_items. eapply told_secret; [done..|left; credential "authorization" "" ""|done| |].
  { intros c [= <-]. right. left. }
  apply told_other; [done..| | |done|].
  { intros H%credential_name_spec. by vm_compute in H. }
  { intros [H|H]; by vm_compute in H. }
  eapply told_secret; [done..|left; credential "password" "" ""|done|done|]. by apply told_end.
Qed.

Lemma sample_values (token password : string) :
  forallb (fun c => bare_char c) (list_ascii_of_string token) = true -> token <> "" ->
  forallb (fun c => no_char single_quote c) (list_ascii_of_string password) = true ->
  secret_value (Scheme "Bearer" " " token) /\ secret_value (Quoted single_quote password).
Proof.
  intros Ht Hne Hp. split.
  - split; [apply mem_str_spec; done|]. split; [done|]. split; [by repeat constructor|]. split; [done|].
    unfold each_char. apply Forall_forall. intros c Hc Hd. rewrite forallb_forall in Ht.
    specialize (Ht c (proj1 (list_elem_of_In _ _) Hc)).
    pose proof (delimiter_stops (String c "")) as Hs. cbn in Hs. rewrite Ht in Hs. discriminate Hs. by intros c' [= <-].
  - split; [by left|]. unfold each_char. apply Forall_forall. intros c Hc ->. rewrite forallb_forall in Hp.
    specialize (Hp single_quote (proj1 (list_elem_of_In _ _) Hc)). by vm_compute in Hp.
Qed.


(** What the sweep of a text leaves of two further shapes of a value. *)
Example values_that_show :
  redact_sensitive_text ("password='it\'s SECRET'") = "password='[redacted]'s SECRET'" /\
  redact_sensitive_text ("token={'a': 'SECRET'}") = "token=[redacted] 'SECRET'}".
Proof. vm_compute. split; reflexivity. Qed.

(** A second sweep of the same text takes the opening of the replacement for
    the value and leaves its last bracket behind. *)
Example redacted_twice :
  redact_sensitive_text (redact_sensitive_text "password=hunter2") = "password=[redacted]]".
Proof. vm_compute. reflexivity. Qed.

(** The sweep descends into a structure that an echo shows, and hides the name
    that a space splits. *)
Example echoed_inputs :
  redact_sensitive_text "input_value={'token': 'nbt_1', 'name': 'pve'} private key: abc" =
    "input_value={'token': '[redacted]', 'name': 'pve'} private key: [redacted]" /\
  redact_sensitive_text "input_value='nbt_1'" = "input_value='[redacted]'" /\
  redact_sensitive_text "token_version mismatch: expected 2 got 1" = "token_version mismatch: expected 2 got 1".
Proof. by vm_compute. Qed.
