(* ===== verification/ErrorDetail.v ===== *)
(** * Error details

    What an operator gets to read of a failed exchange with the backend
    (views/error_utils.py, backend_errors.py): the redacted text of an error
    body, the message for an exception of the HTTP library, and the texts that
    describe both.  [json.dumps] writes the structured details; floats of
    infinite value have the names the encoder gives them. *)
From Stdlib Require Import ZArith Lia Ascii String.
From stdpp Require Import base list sets strings pretty.
From S2P Require Import Prelude Json StageFailure Text Redaction.

(** ** [json.dumps] *)

(** The code point that a text starts with, and the rest. *)
Definition utf8_next (c : ascii) (s : string) : Z * string :=
  let n := Z.of_nat (nat_of_ascii c) in
  let low (d : ascii) := Z.of_nat (nat_of_ascii d) mod 64 in
  if n <? 128 then (n, s)
  else if n <? 224 then match s with String a s' => ((n mod 32) * 64 + low a, s') | _ => (n, s) end
  else if n <? 240 then
    match s with String a (String b s') => ((n mod 16) * 4096 + low a * 64 + low b, s') | _ => (n, s) end
  else
    match s with
    | String a (String b (String c' s')) => ((n mod 8) * 262144 + low a * 4096 + low b * 64 + low c', s')
    | _ => (n, s)
    end.

Definition hex_escape (n : Z) : string :=
  let d k := String (hex_digit (Z.to_nat ((n / k) mod 16))) "" in
  "\u" +:+ d 4096 +:+ d 256 +:+ d 16 +:+ d 1.

(** One code point of a string, as the encoder writes it for ASCII output. *)
Definition json_char (n : Z) : string :=
  if n =? 34 then String "\" (String double_quote "")
  else if n =? 92 then "\\"
  else if n =? 10 then "\n"
  else if n =? 13 then "\r"
  else if n =? 9 then "\t"
  else if n =? 8 then "\b"
  else if n =? 12 then "\f"
  else if ((32 <=? n) && (n <=? 126))%bool then String (byte n) ""
  else if n <? 65536 then hex_escape n
  else hex_escape (55296 + (n - 65536) / 1024) +:+ hex_escape (56320 + (n - 65536) mod 1024).

Fixpoint json_chars (fuel : nat) (s : string) : string :=
  match fuel, s with
  | S fuel', String c s' => let '(n, s'') := utf8_next c s' in json_char n +:+ json_chars fuel' s''
  | _, _ => ""
  end.

Definition json_string (s : string) : string :=
  String double_quote (json_chars (String.length s) s +:+ String double_quote "").

Definition json_float (r : string) : string :=
  if String.eqb r "nan" then "NaN" else if String.eqb r "inf" then "Infinity"
  else if String.eqb r "-inf" then "-Infinity" else r.

Fixpoint json_dumps (sort_keys : bool) (v : pyval) : string :=
  match v with
  | VNone => "null"
  | VBool b => if b then "true" else "false"
  | VInt z => pretty z
  | VFloat r => json_float r
  | VStr s => json_string s
  | VList l => "[" +:+ join ", " (List.map (json_dumps sort_keys) l) +:+ "]"
  | VDict d =>
      let entries := List.map (fun kv => (fst kv, json_string (fst kv) +:+ ": " +:+ json_dumps sort_keys (snd kv))) d in
      let entries := if sort_keys then sort_text_by fst entries else entries in
      "{" +:+ join ", " (List.map snd entries) +:+ "}"
  end.

(** ** Details of error bodies *)

Definition _detail_to_text (value : pyval) : string := match value with VStr s => s | v => json_dumps false v end.

Definition redact_backend_detail (value : pyval) : string := _detail_to_text (redact_sensitive value).

(** [_detail_text] with [render_structured]. *)
Definition structured_detail_text (value : pyval) : string :=
  match value with
  | VStr s => strip s
  | VDict (_ :: _) | VList (_ :: _) => json_dumps true value
  | _ => ""
  end.

(** [combine_backend_message_and_detail] with [render_structured]. *)
Definition combine_structured (payload : dict pyval) : option string :=
  let message := match get "message" payload with VStr s => strip s | _ => "" end in
  let detail := structured_detail_text (get "detail" payload) in
  if is_empty detail then (if is_empty message then None else Some message)
  else if (is_empty message || String.eqb message detail || contains message detail)%bool then Some detail
  else if (startswith "{" detail || startswith "[" detail)%bool then Some detail
  else Some (message +:+ ": " +:+ detail).

(** ** Exceptions of the HTTP library *)

(** The response an exception carries; [er_json] is [None] when its body is
    not JSON. *)
Record error_response := mkErrorResponse {
  er_status : Z; er_json : option pyval; er_text : string; er_content_type : string; er_url : string }.

(** An exception of the library: its class by name and by the classes the code
    asks for, its text and its response. *)
Record request_error := mkRequestError {
  rx_name : string; rx_ssl : bool; rx_timeout : bool; rx_connection : bool; rx_text : string;
  rx_response : option error_response }.

(** [re.search(r"host='([^']+)'", s)] and [re.search(r"port=(\d+)", s)]. *)
Definition host_at (s : string) : option string :=
  if startswith "host='" s then
    let '(h, r) := span_chars (no_char single_quote) (drop_str 6 s) in
    if (nonempty h && nonempty r)%bool then Some h else None
  else None.

Definition port_at (s : string) : option string :=
  if startswith "port=" s then let '(p, _) := span_digits (drop_str 5 s) in if nonempty p then Some p else None else None.

Fixpoint search_at (f : string -> option string) (s : string) : option string :=
  match f s with
  | Some r => Some r
  | None => match s with String _ s' => search_at f s' | EmptyString => None end
  end.

Definition _extract_host_port_from_request_error (message : string) : option string * option string :=
  (search_at host_at message, search_at port_at message).

Definition configured_target : string := "configured FastAPI endpoint".

Definition error_target (fall_back_to_host : bool) (text : string) : string :=
  match _extract_host_port_from_request_error text with
  | (Some h, Some p) => h +:+ ":" +:+ p
  | (Some h, None) => if fall_back_to_host then h else configured_target
  | (None, _) => configured_target
  end.

(** [type(exc).__name__] and the swept text. *)
Definition _safe_exception_text (name text : string) : string := name +:+ ": " +:+ redact_sensitive_text text.

(** The message for an exception without a response. *)
Definition transport_error_detail (exc : request_error) : string :=
  let text := rx_text exc in
  let lowered := lower text in
  if rx_ssl exc then
    "TLS error connecting to ProxBox backend at " +:+ error_target true text
    +:+ ". Verify the certificate (or the endpoint's Verify SSL setting) matches how proxbox-api is served."
  else if (rx_timeout exc || contains "timed out" lowered)%bool then
    "Timed out while connecting to ProxBox backend at " +:+ error_target false text
    +:+ ". Verify network reachability and that proxbox-api is healthy."
  else if (rx_connection exc || contains "connection refused" lowered
           || contains "failed to establish a new connection" lowered || contains "max retries exceeded" lowered)%bool then
    "Unable to reach ProxBox backend at " +:+ error_target true text +:+ ". Connection was refused. "
    +:+ "Verify proxbox-api is running and listening on the configured host/port, "
    +:+ "then confirm the plugin FastAPI endpoint settings."
  else _safe_exception_text (rx_name exc) text.

Definition generic_detail : list string := ["internal server error"; "server error"].

(** The detail of a redacted error body, if it has one. *)
Definition body_error_detail (payload : pyval) : option string :=
  match payload with
  | VDict d =>
      let payload_detail := get "detail" d in
      let payload_message := get "message" d in
      let detail :=
        if (match payload_detail with VStr s => mem_str (lower (strip s)) generic_detail | _ => false end
            && truthy payload_message)%bool then Some (_detail_to_text payload_message)
        else if truthy payload_detail then Some (_detail_to_text payload_detail)
        else if truthy payload_message then Some (_detail_to_text payload_message)
        else None in
      let python_exception := get "python_exception" d in
      if truthy python_exception then
        Some match detail with
             | Some (String _ _ as t) => t +:+ " (" +:+ _detail_to_text python_exception +:+ ")"
             | _ => _detail_to_text python_exception
             end
      else detail
  | _ => None
  end.

Definition response_error_detail (exc : request_error) (r : error_response) : string :=
  match (match er_json r with Some v => body_error_detail (redact_sensitive v) | None => None end) with
  | Some (String _ _ as detail) => detail
  | _ =>
      let body := strip (er_text r) in
      if ((contains "text/html" (lower (er_content_type r)) || contains "<html" (lower body))
          && existsb (Z.eqb (er_status r)) [400; 401; 403; 404])%bool then
        "Backend returned HTML instead of ProxBox API JSON (HTTP " +:+ pretty (er_status r) +:+ ")."
        +:+ (if nonempty (er_url r) then " URL: " +:+ er_url r +:+ "." else "")
        +:+ " Check FastAPI endpoint host/port; it may be pointing to NetBox UI instead of proxbox-api."
      else if negb (er_status r =? 0) then
        "Backend returned HTTP " +:+ pretty (er_status r) +:+ " without a JSON error detail."
      else redact_sensitive_text (rx_text exc)
  end.

Definition extract_backend_error_detail (exc : request_error) : string * option Z :=
  match rx_response exc with
  | None => (transport_error_detail exc, None)
  | Some r => (response_error_detail exc r, Some (er_status r))
  end.

Definition extract_proxmox_backend_error_detail (exc : request_error) (proxmox_host : string) (proxmox_port : option Z)
    (backend_url : string) : string * option Z :=
  match rx_response exc with
  | Some _ => extract_backend_error_detail exc
  | None =>
      let target := match proxmox_port with
                    | Some p => if p =? 0 then proxmox_host else proxmox_host +:+ ":" +:+ pretty p
                    | None => proxmox_host
                    end in
      ("ProxBox backend could not connect to the configured Proxmox endpoint (" +:+ target +:+ "). Backend route: "
       +:+ backend_url +:+ ". Upstream error: " +:+ rx_name exc, None)
  end.

(** Two exceptions that differ in what may not be shown only: in a body with
    the same public part. *)
Definition alike_response (r r' : error_response) : Prop :=
  er_status r = er_status r' /\ er_text r = er_text r' /\ er_content_type r = er_content_type r' /\ er_url r = er_url r' /\
  match er_json r, er_json r' with
  | Some v, Some v' => alike (S _REDACTION_DEPTH_LIMIT) v v'
  | None, None => True
  | _, _ => False
  end.

(** The detail of an error response shows no credential of its body. *)
Lemma error_detail_hides_credentials (exc exc' : request_error) (r r' : error_response) :
  rx_response exc = Some r -> rx_response exc' = Some r' -> rx_text exc = rx_text exc' -> alike_response r r' ->
  extract_backend_error_detail exc = extract_backend_error_detail exc'.
Proof.
  intros Hr Hr' Ht (Hs & Hx & Hc & Hu & Hj). unfold extract_backend_error_detail, response_error_detail.
  rewrite Hr, Hr', Hs, Hx, Hc, Hu, Ht. destruct (er_json r) as [v|], (er_json r') as [v'|]; try done.
  unfold redact_sensitive. by rewrite (redact_levels_alike _ v v' Hj).
Qed.

Example certificate_error :
  fst (extract_backend_error_detail (mkRequestError "SSLError" true false true
         "HTTPSConnectionPool(host='pbx.example', port=8800): Max retries exceeded" None)) =
  "TLS error connecting to ProxBox backend at pbx.example:8800. Verify the certificate (or the endpoint's Verify SSL setting) matches how proxbox-api is served.".
Proof. vm_compute. reflexivity. Qed.

Example structured_detail :
  redact_backend_detail (VList [VDict [("loc", VList [VStr "body"; VStr "token"]); ("input", VStr "nbt_1"); ("n", VInt 3)]]) =
  "[{" +:+ json_string "loc" +:+ ": [" +:+ json_string "body" +:+ ", " +:+ json_string "token" +:+ "], "
  +:+ json_string "input" +:+ ": " +:+ json_string "[redacted]" +:+ ", " +:+ json_string "n" +:+ ": 3}]".
Proof. vm_compute. reflexivity. Qed.
