(* ===== verification/BackendStream.v ===== *)
(** * The event stream of a stage

    The client side of the backend's sync streams (services/backend_proxy.py,
    services/backend_context.py, services/backend_auth.py): reading server-sent
    events, the verdict of a stream, the candidates of a request, the readiness
    check before it, and the one renewal of the credentials a request may
    trigger.  The clock, the configured endpoints, the backend and the check
    of a stored key are the operations of the class [StreamEnv]; so is
    pydantic's validation of a [complete] event. *)
From Stdlib Require Import ZArith Lia Ascii String.
From stdpp Require Import base list sets strings pretty.
From S2P Require Import Prelude Json Effects StageFailure SyncTypes SyncModes Deadline StageExec.
From S2P Require Import Text BackendPath Redaction ErrorDetail.

(** ** Server-sent events *)

Record SseFrame := mkFrame { fr_event : string; fr_data : dict pyval }.

(** What is kept of the lines of the frame being read. *)
Record sse_state := mkSse { ss_event : string; ss_data : list string }.

Definition sse_start : sse_state := mkSse "" [].

(** [SseFrame(event=..., data=...)]: the model strips the strings it declares,
    among them the keys of [data]. *)
Definition strip_keys (d : dict pyval) : dict pyval := fold_left (fun acc kv => dset (strip (fst kv)) (snd kv) acc) d [].

(** [flush]: the frame that the kept lines make, if there are any. *)
Definition flush (st : sse_state) : list SseFrame :=
  match ss_data st with
  | [] => []
  | lines =>
      let payload_str := join newline lines in
      let data := match json_loads payload_str with
                  | Some (VDict d) => d
                  | Some v => [("raw", v)]
                  | None => [("raw", VStr payload_str)]
                  end in
      [mkFrame (str_or (ss_event st) "message") (strip_keys data)]
  end.

(** One line: the frame it ends, if any, and what is kept. *)
Definition sse_line (st : sse_state) (line : string) : list SseFrame * sse_state :=
  if is_empty line then (flush st, sse_start)
  else if startswith ":" line then ([], st)
  else if startswith "event:" line then (flush st, mkSse (strip (drop_str 6 line)) [])
  else if startswith "data:" line then ([], mkSse (ss_event st) (ss_data st ++ [lstrip (drop_str 5 line)]))
  else ([], mkSse (ss_event st) (ss_data st ++ [line])).

(** The frames of a body, [None] being a line to skip; a body that broke off
    does not end its last frame. *)
Fixpoint frames_from (st : sse_state) (broken : bool) (lines : list (option string)) : list SseFrame :=
  match lines with
  | [] => if broken then [] else flush st
  | None :: lines' => frames_from st broken lines'
  | Some line :: lines' => let '(frames, st') := sse_line st line in frames ++ frames_from st' broken lines'
  end.

Definition _iter_sse_frames (broken : bool) (lines : list (option string)) : list SseFrame :=
  frames_from sse_start broken lines.

(** A [complete] event after validation, with the fields it had beside the
    declared ones. *)
Record SseCompletePayload := mkComplete {
  cp_ok : bool; cp_message : option string; cp_result : pyval; cp_errors : list (dict pyval); cp_extra : dict pyval }.

(** [model_dump()] *)
Definition model_dump (c : SseCompletePayload) : pyval :=
  VDict ([("ok", VBool (cp_ok c)); ("message", match cp_message c with Some m => VStr m | None => VNone end);
          ("result", cp_result c); ("errors", VList (List.map VDict (cp_errors c)))] ++ cp_extra c).

Definition STAGE_FAILURE_TRANSPORT : string := "transport".
Definition STAGE_FAILURE_APPLICATION : string := "application".
Definition _REDIRECT_TRANSPORT_DETAIL : string := "ProxBox backend redirects are not permitted.".
Definition _REDIRECT_TRANSPORT_STATUS : Z := 502.
Definition _SYNC_STREAM_CONNECT_TIMEOUT : Z := sec 5.

Definition _redacted_mapping (payload : dict pyval) : dict pyval :=
  match redact_sensitive (VDict payload) with VDict d => d | redacted => [("detail", redacted)] end.

Definition stream_failure (detail kind : string) : dict pyval :=
  [("stream", VBool true); ("detail", VStr detail); ("failure_kind", VStr kind)].

Definition _completed_stream_result (last_complete : option SseCompletePayload) : dict pyval * Z :=
  match last_complete with
  | None => (stream_failure "ProxBox backend stream ended without a complete event." STAGE_FAILURE_TRANSPORT, 502)
  | Some c =>
      if negb (cp_ok c) then
        let msg := redact_backend_detail (VStr (str_or (default "" (cp_message c)) "Sync failed.")) in
        let msg := match cp_errors c with
                   | first :: _ => let d := get "detail" first in if truthy d then redact_backend_detail d else msg
                   | [] => msg
                   end in
        ([("stream", VBool true); ("detail", VStr msg); ("response", model_dump c);
          ("failure_kind", VStr STAGE_FAILURE_APPLICATION)], 503)
      else ([("stream", VBool true); ("response", model_dump c)], 200)
  end.

(** ** The environment *)

(** The request context, with every field that a retry must preserve. *)
Record request_context := mkContext {
  rc_endpoint_id : option Z; rc_target_fingerprint : string; rc_http_url : option string;
  rc_ip_address_url : option string; rc_verify_ssl : bool; rc_headers : dict string }.

(** A GET of the stream; [hc_timeout] is the read timeout. *)
Record http_call := mkCall {
  hc_url : string; hc_query : dict string; hc_headers : dict string; hc_verify : bool; hc_timeout : Z }.

(** An opened response, before its body is read: the lines of the body, and
    the exception that ended them early. *)
Record stream_response := mkResponse {
  sr_status : Z; sr_retry_after : option string; sr_json : option pyval;
  sr_lines : list (option string); sr_broken : option request_error }.

Inductive http_reply := Opened (r : stream_response) | RequestRaised (exc : request_error) | OsErrorRaised (name text : string).

(** A response that is read whole; [jr_empty] says that its text is empty. *)
Record json_response := mkJsonResponse { jr_status : Z; jr_json : option pyval; jr_empty : bool }.

Inductive json_reply := JsonOpened (r : json_response) | JsonRaised (exc : request_error) | JsonOsError (name text : string).

Class StreamEnv (E : Type) := {
  (* time.monotonic() and time.sleep(), in nanoseconds *)
  sv_monotonic : E -> Z * E;
  sv_sleep : Z -> E -> E;
  (* get_fastapi_request_context() *)
  sv_context : option Z -> E -> option request_context * E;
  (* GET <base>/health: a status, or None for an exception of the library *)
  sv_health : http_call -> E -> option Z * E;
  (* GET of the stream *)
  sv_get : http_call -> E -> http_reply * E;
  (* GET or POST of a JSON resource *)
  sv_json : string -> http_call -> E -> json_reply * E;
  (* adopt_backend_key_at_url(): None, or the code it fails with *)
  sv_adopt : string -> bool -> string -> E -> option string * E;
  (* SseCompletePayload.model_validate(): the payload, or the first message *)
  sv_validate : dict pyval -> SseCompletePayload + string
}.

Inductive stream_event :=
| SvHealth (call : http_call)
| SvGet (ctx : request_context) (call : http_call) (reply : http_reply)
| SvJson (ctx : request_context) (method : string) (call : http_call) (reply : json_reply)
| SvAdopt (ctx : request_context) (ok : bool)
| SvFrame (frame : SseFrame).

(** [sw_log] has the latest event first; [sw_retry_after] is the context
    variable [_STREAM_RETRY_AFTER]. *)
Record stream_world (E : Type) := mkSw { sw_env : E; sw_log : list stream_event; sw_retry_after : option string }.
Arguments mkSw {E}.
Arguments sw_env {E}.
Arguments sw_log {E}.
Arguments sw_retry_after {E}.

Section Stream.
Context {E : Type} `{!StreamEnv E}.
Notation W := (stream_world E).

Definition sw_op {A} (op : E -> A * E) : M W A := fun w =>
  let '(a, e) := op (sw_env w) in (Ok a, mkSw e (sw_log w) (sw_retry_after w)).

Definition log_sv (ev : stream_event) : M W () := modify (fun w => mkSw (sw_env w) (ev :: sw_log w) (sw_retry_after w)).

Definition set_retry_after (v : option string) : M W () := modify (fun w => mkSw (sw_env w) (sw_log w) v).

Definition now : M W Z := sw_op sv_monotonic.

(** ** Reading the body *)

Definition deadline_while_consuming : dict pyval * Z :=
  (stream_failure "Job deadline reached while consuming the backend stream." STAGE_FAILURE_TRANSPORT, 504).

Definition invalid_complete (msg : string) : dict pyval * Z :=
  (stream_failure ("ProxBox backend stream sent an invalid complete event: " +:+ msg) STAGE_FAILURE_APPLICATION, 502).

(** Each frame is shown redacted; [inr] is the verdict of a body that is not
    read further. *)
Fixpoint consume_frames (deadline : option SyncJobDeadline) (last : option SseCompletePayload) (frames : list SseFrame) :
    M W (option SseCompletePayload + (dict pyval * Z)) :=
  match frames with
  | [] => mret (inl last)
  | frame :: frames' =>
      late ← match deadline with Some d => t ← now; mret (remaining d t <=? 0) | None => mret false end;
      if late : bool then mret (inr deadline_while_consuming)
      else
        _ ← log_sv (SvFrame (mkFrame (fr_event frame) (_redacted_mapping (fr_data frame))));
        if String.eqb (fr_event frame) "complete" then
          match sv_validate (fr_data frame) with
          | inl c => consume_frames deadline (Some c) frames'
          | inr msg => mret (inr (invalid_complete msg))
          end
        else consume_frames deadline last frames'
  end.

Definition _consume_sse_until_complete (response : stream_response) (deadline : option SyncJobDeadline) :
    M W (dict pyval * Z) :=
  let broken := match sr_broken response with Some _ => true | None => false end in
  verdict ← consume_frames deadline None (_iter_sse_frames broken (sr_lines response));
  mret match verdict with
       | inr out => out
       | inl last =>
           match sr_broken response with
           | Some exc => (stream_failure (fst (extract_backend_error_detail exc)) STAGE_FAILURE_TRANSPORT, 502)
           | None => _completed_stream_result last
           end
       end.

Definition urls_value (urls : list string) : pyval := VList (List.map VStr urls).

Definition _consume_stream_response (response : stream_response) (path : string) (requested_urls : list string)
    (deadline : option SyncJobDeadline) : M W (dict pyval * Z) :=
  '(payload, status) ← _consume_sse_until_complete response deadline;
  let payload := dset "requested_urls" (urls_value requested_urls) (dset "path" (VStr path) payload) in
  mret (if 400 <=? status then _redacted_mapping payload else payload, status).

(** ** Candidates, readiness and credentials *)

Definition _build_request_candidates (http_url : string) (ip_address_url : option string) (path : string)
    (verify_ssl : bool) : list (string * bool) :=
  let main_url := http_url +:+ "/" +:+ path in
  (main_url, verify_ssl) ::
  match ip_address_url with
  | Some (String _ _ as ip) =>
      let fallback_path := ip +:+ "/" +:+ path in
      if String.eqb fallback_path main_url then [] else [(fallback_path, verify_ssl)]
  | _ => []
  end.

(** The keys differ, so that they alone decide the order of the pairs. *)
Definition sorted_headers (h : dict string) : list (string * string) := sort_text_by fst h.

(** Every authority and credential field that a retry must preserve. *)
Definition _request_context_binding (c : request_context) :=
  (rc_endpoint_id c, rc_target_fingerprint c, rstrip_char "/" (default "" (rc_http_url c)),
   rstrip_char "/" (default "" (rc_ip_address_url c)), rc_verify_ssl c, sorted_headers (rc_headers c)).

Definition _remaining_budget (time_budget : option Z) (started : Z) : M W (option Z) :=
  match time_budget with
  | None => mret None
  | Some b => t ← now; mret (Some (Z.max (b - (t - started)) 0))
  end.

Definition _health_response_result (status : Z) : option (bool * string) :=
  if ((300 <=? status) && (status <? 400))%bool then Some (false, "Backend redirects are not permitted.")
  else if negb (status =? 200) then None
  else Some (true, "Backend is reachable").

Definition pause (seconds : Z) : M W () := fun w => (Ok (), mkSw (sv_sleep seconds (sw_env w)) (sw_log w) (sw_retry_after w)).

(** The attempts of [wait_for_backend_ready]; [left] remain. *)
Fixpoint ready_loop (left : nat) (max_retries : nat) (health : http_call) (time_budget : option Z) (started delay max_delay : Z) :
    M W (bool * string) :=
  match left with
  | O => mret (false, "Backend not reachable after " +:+ pretty (Z.of_nat max_retries) +:+ " attempts")
  | S left' =>
      budget ← _remaining_budget time_budget started;
      if match budget with Some r => r <=? 0 | None => false end
      then mret (false, "Job deadline reached while checking backend readiness.")
      else
        let call := mkCall (hc_url health) (hc_query health) (hc_headers health) (hc_verify health)
                      (match budget with Some r => Z.min (sec 5) r | None => sec 5 end) in
        _ ← log_sv (SvHealth call);
        status ← sw_op (sv_health call);
        match status ≫= _health_response_result with
        | Some result => mret result
        | None =>
            match left' with
            | O => ready_loop left' max_retries health time_budget started delay max_delay
            | S _ =>
                budget ← _remaining_budget time_budget started;
                _ ← pause (match budget with Some r => Z.min delay r | None => delay end);
                ready_loop left' max_retries health time_budget started (Z.min (delay * 3 / 2) max_delay) max_delay
            end
        end
  end.

Definition wait_for_backend_ready (context : request_context) (max_retries : nat) (initial_delay max_delay : Z)
    (time_budget : option Z) : M W (bool * string) :=
  match rc_http_url context with
  | Some (String _ _ as url) =>
      started ← now;
      ready_loop max_retries max_retries
        (mkCall (rstrip_char "/" url +:+ "/health") [] (rc_headers context) (rc_verify_ssl context) 0)
        time_budget started initial_delay max_delay
  | _ => mret (false, "No FastAPI URL configured")
  end.

Definition _try_register_key (context : request_context) (token : string) : M W (bool * string) :=
  match rc_http_url context with
  | Some (String _ _ as url) =>
      failed ← sw_op (sv_adopt (rstrip_char "/" url) (rc_verify_ssl context) token);
      _ ← log_sv (SvAdopt context (match failed with None => true | Some _ => false end));
      mret match failed with
           | Some code => (false, "Backend key check failed (" +:+ code +:+ ")")
           | None => (true, "Key authenticated successfully")
           end
  | _ => mret (false, "No FastAPI URL configured")
  end.

Definition authenticate_backend_request_context (context : request_context) : M W (bool * string) :=
  let token := strip (dget_or "X-Proxbox-API-Key" "" (rc_headers context)) in
  if is_empty token then mret (false, "No API token configured on FastAPI endpoint")
  else _try_register_key context token.

Definition has_url (c : request_context) : bool := match rc_http_url c with Some u => nonempty u | None => false end.

Definition _handle_auth_registration_and_retry (context : request_context) (endpoint_id : option Z) :
    M W (option request_context) :=
  let bound :=
    match endpoint_id with
    | Some id => match rc_endpoint_id context with
                 | Some id' => if id' =? id then Some id else None
                 | None => Some id
                 end
    | None => rc_endpoint_id context
    end in
  match bound with
  | None => mret None
  | Some id =>
      fresh ← sw_op (sv_context (Some id));
      match fresh with
      | Some fresh =>
          if negb (has_url fresh && match rc_headers fresh with [] => false | _ => true end)%bool then mret None
          else
            '(reg_ok, _) ← authenticate_backend_request_context fresh;
            if (reg_ok : bool) then
              confirmed ← sw_op (sv_context (Some id));
              mret match (confirmed : option request_context) with
                   | Some c => if decide (_request_context_binding c = _request_context_binding fresh) then Some c else None
                   | None => None
                   end
            else mret None
      | None => mret None
      end
  end.

(** ** One request for the stream *)

(** Detail, HTTP status and kind of a failed candidate. *)
Definition stream_fail : Type := string * option Z * string.

Definition _json_error_detail (payload : pyval) : option string :=
  match payload with
  | VDict d => combine_structured d
  | VList (VDict first :: _) =>
      let value := py_or (py_or (get "detail" first) (get "msg" first)) (get "message" first) in
      Some (if truthy value then str value else str (VDict first))
  | VList (first :: _) => Some (str first)
  | VNone => None
  | VStr s => if is_empty s then None else Some s
  | v => Some (str v)
  end.

(** A JSON body is an answer of the backend itself; what is not JSON is a
    gateway's page from 500 on, and an answer about the request below. *)
Definition _stream_http_error (response : stream_response) (context : request_context) (endpoint_id : option Z)
    (auth_register_attempted : bool) : M W (stream_fail * option request_context) :=
  let status := sr_status response in
  _ ← match sr_retry_after response with Some v => set_retry_after (Some v) | None => mret () end;
  let fallback := "HTTP " +:+ pretty status in
  match sr_json response with
  | None => mret ((fallback, Some status, if status <? 500 then STAGE_FAILURE_APPLICATION else STAGE_FAILURE_TRANSPORT), None)
  | Some payload =>
      let d := _json_error_detail payload in
      let last_detail := match d with Some (String _ _ as t) => redact_backend_detail (VStr t) | _ => fallback end in
      let names_key := match d with Some t => contains "API key" t | None => false end in
      if (match payload with VDict _ => true | _ => false end && negb auth_register_attempted && (status =? 401) && names_key)%bool
      then fresh ← _handle_auth_registration_and_retry context endpoint_id;
           mret ((last_detail, Some 401, STAGE_FAILURE_APPLICATION), fresh)
      else mret ((last_detail, Some status, STAGE_FAILURE_APPLICATION), None)
  end.

Definition is_redirect (status : Z) : bool := ((300 <=? status) && (status <? 400))%bool.

(** An open response, or the failure and the context to start again with. *)
Definition _try_sync_stream_url (url : string) (verify : bool) (query_params : dict string) (context : request_context)
    (endpoint_id : option Z) (auth_register_attempted : bool) (timeout : Z) :
    M W (stream_response + (stream_fail * option request_context)) :=
  let call := mkCall url query_params (rc_headers context) verify timeout in
  reply ← sw_op (sv_get call);
  _ ← log_sv (SvGet context call reply);
  match reply with
  | Opened response =>
      if is_redirect (sr_status response) then
        mret (inr ((_REDIRECT_TRANSPORT_DETAIL, Some _REDIRECT_TRANSPORT_STATUS, STAGE_FAILURE_TRANSPORT), None))
      else if 400 <=? sr_status response then
        failed ← _stream_http_error response context endpoint_id auth_register_attempted; mret (inr failed)
      else mret (inl response)
  | RequestRaised exc =>
      let '(detail, status) := extract_backend_error_detail exc in
      mret (inr ((detail, status, STAGE_FAILURE_TRANSPORT), None))
  | OsErrorRaised name text => mret (inr ((_safe_exception_text name text, None, STAGE_FAILURE_TRANSPORT), None))
  end.

(** [_stream_candidate_context]: the readiness probe asks the candidate. *)
Definition _stream_candidate_context (context : request_context) (url path : string) (verify_ssl : bool) : request_context :=
  let suffix := "/" +:+ path in
  let base := if endswith suffix url then take_str (String.length url - String.length suffix) url else url in
  mkContext (rc_endpoint_id context) (rc_target_fingerprint context) (Some base) None verify_ssl (rc_headers context).

(** ** One pass over the candidates *)

(** What a pass ends with: a verdict, a renewed context, or the failures of
    the candidates. *)
Inductive pass_result :=
| PassDone (payload : dict pyval) (status : Z)
| PassFresh (context : request_context)
| PassFailed (failures : list stream_fail).

Definition READY_MAX_RETRIES : nat := 30.

Fixpoint candidate_loop (candidates : list (string * bool)) (context : request_context) (path : string)
    (query_params : dict string) (endpoint_id : option Z) (auth_register_attempted : bool) (timeout started : Z)
    (deadline : option SyncJobDeadline) (requested_urls : list string) (failures : list stream_fail) :
    M W (pass_result * list string) :=
  match candidates with
  | [] => mret (PassFailed failures, requested_urls)
  | (url, verify) :: candidates' =>
      let requested_urls := requested_urls ++ [url] in
      '(ready, ready_msg) ← wait_for_backend_ready (_stream_candidate_context context url path verify)
                              READY_MAX_RETRIES (sec 1) (sec 30) (Some timeout);
      if negb ready then
        let failures := failures ++ [("Backend not ready: " +:+ ready_msg, Some 503, STAGE_FAILURE_TRANSPORT)] in
        if String.eqb ready_msg "Backend redirects are not permitted." then mret (PassFailed failures, requested_urls)
        else candidate_loop candidates' context path query_params endpoint_id auth_register_attempted timeout started
               deadline requested_urls failures
      else
        t ← now;
        result ← _try_sync_stream_url url verify query_params context endpoint_id auth_register_attempted
                   (Z.max (timeout - (t - started)) (msec 1));
        match result with
        | inl response =>
            '(payload, status) ← _consume_stream_response response path requested_urls deadline;
            mret (PassDone payload status, requested_urls)
        | inr (failure, Some fresh) => mret (PassFresh fresh, requested_urls)
        | inr (failure, None) => mret (PassFailed (failures ++ [failure]), requested_urls)
        end
  end.

Definition _run_stream_candidate_pass (context : request_context) (path : string) (query_params : dict string)
    (endpoint_id : option Z) (auth_register_attempted : bool) (requested_urls : list string) (timeout : Z)
    (deadline : option SyncJobDeadline) : M W (pass_result * list string) :=
  started ← now;
  match rc_http_url context with
  | Some (String _ _ as http_url) =>
      candidate_loop (_build_request_candidates http_url (rc_ip_address_url context) path (rc_verify_ssl context))
        context path query_params endpoint_id auth_register_attempted timeout started deadline requested_urls []
  | _ => mret (PassFailed [("No FastAPI URL found after authentication retry.", None, STAGE_FAILURE_APPLICATION)], requested_urls)
  end.

Fixpoint first_application (failures : list stream_fail) : option stream_fail :=
  match failures with
  | [] => None
  | f :: failures' => if String.eqb (snd f) STAGE_FAILURE_APPLICATION then Some f else first_application failures'
  end.

Definition _select_stream_failure (failures : list stream_fail) : option string * option Z * string :=
  match first_application failures, last failures with
  | Some (d, s, k), _ | None, Some (d, s, k) => (Some d, s, k)
  | None, None => (None, None, STAGE_FAILURE_TRANSPORT)
  end.

Definition stream_failed (path : string) (requested_urls : list string) (failures : list stream_fail) : M W (dict pyval * Z) :=
  let '(detail, http_status, failure_kind) := _select_stream_failure failures in
  retry_after ← gets sw_retry_after;
  let payload := [("stream", VBool true); ("path", VStr path); ("requested_urls", urls_value requested_urls);
                  ("detail", VStr (str_or (default "" detail) "Unable to reach the ProxBox backend stream."));
                  ("failure_kind", VStr failure_kind)] ++
                 match retry_after with Some v => [("retry_after", VStr v)] | None => [] end in
  mret (payload, match http_status with Some s => if s =? 0 then 503 else s | None => 503 end).

Definition out_of_passes : exn := AssertionError "more than one renewal of the context".

(** The [while] loop of [run_sync_stream]; [passes] are left. *)
Fixpoint stream_loop (passes : nat) (context : request_context) (path : string) (query_params : dict string)
    (endpoint_id : option Z) (auth_register_attempted : bool) (timeout started : Z) (deadline : option SyncJobDeadline)
    (requested_urls : list string) : M W (dict pyval * Z) :=
  match passes with
  | O => raise out_of_passes
  | S passes' =>
      t ← now;
      left ← match deadline with
             | Some d => t' ← now; mret (Z.min (timeout - (t - started)) (remaining d t'))
             | None => mret (timeout - (t - started))
             end;
      if left <=? 0 then
        stream_failed path requested_urls
          [("Job deadline reached during backend stream setup.", Some 504, STAGE_FAILURE_TRANSPORT)]
      else
        '(result, urls) ← _run_stream_candidate_pass context path query_params endpoint_id auth_register_attempted
                            requested_urls left deadline;
        match result with
        | PassDone payload status => mret (payload, status)
        | PassFresh fresh => stream_loop passes' fresh path query_params endpoint_id true timeout started deadline urls
        | PassFailed failures => stream_failed path urls failures
        end
  end.

Definition run_sync_stream (path : string) (query_params : dict string) (endpoint_id : option Z) (timeout : Z)
    (deadline : option SyncJobDeadline) : M W (dict pyval * Z) :=
  _ ← set_retry_after None;
  started ← now;
  context ← sw_op (sv_context endpoint_id);
  match context with
  | Some context =>
      if has_url context then
        stream_loop 2 context path query_params endpoint_id false timeout started deadline []
      else mret ([("stream", VBool false); ("detail", VStr "No FastAPI URL found.");
                  ("failure_kind", VStr STAGE_FAILURE_APPLICATION)], 404)
  | None => mret ([("stream", VBool false); ("detail", VStr "No FastAPI URL found.");
                   ("failure_kind", VStr STAGE_FAILURE_APPLICATION)], 404)
  end.

End Stream.

(** ** What a run of the stream may do *)

(** A request for the stream: the context it was made in, the call and the
    reply. *)
Definition exchange : Type := request_context * http_call * http_reply.

(** The requests of a log, the latest first. *)
Definition exchanges : list stream_event -> list exchange :=
  omap (fun ev => match ev with SvGet c call r => Some (c, call, r) | _ => None end).

Lemma exchanges_app (l1 l2 : list stream_event) : exchanges (l1 ++ l2) = exchanges l1 ++ exchanges l2.
Proof. apply omap_app. Qed.

(** The last [complete] event of a body, when all of them are valid. *)
Fixpoint complete_of (validate : dict pyval -> SseCompletePayload + string) (last : option SseCompletePayload)
    (frames : list SseFrame) : option (option SseCompletePayload) :=
  match frames with
  | [] => Some last
  | frame :: frames' =>
      if String.eqb (fr_event frame) "complete" then
        match validate (fr_data frame) with inl c => complete_of validate (Some c) frames' | inr _ => None end
      else complete_of validate last frames'
  end.

(** A body that was read to its end and whose last [complete] event is [c]. *)
Definition completed (validate : dict pyval -> SseCompletePayload + string) (r : stream_response) (c : SseCompletePayload) : Prop :=
  sr_broken r = None /\ complete_of validate None (_iter_sse_frames false (sr_lines r)) = Some (Some c).

(** A request goes to a candidate of its context, with its credentials. *)
Definition addressed (path : string) (query : dict string) (x : exchange) : Prop :=
  let '(c, call, _) := x in
  exists http_url, rc_http_url c = Some http_url /\ nonempty http_url = true /\
    (hc_url call, hc_verify call) ∈ _build_request_candidates http_url (rc_ip_address_url c) path (rc_verify_ssl c) /\
    hc_headers call = rc_headers c /\ hc_query call = query.

(** A request that the backend refused for its key. *)
Definition refused_key (x : exchange) : Prop :=
  let '(_, _, reply) := x in
  exists r d t, reply = Opened r /\ sr_status r = 401 /\ sr_json r = Some (VDict d) /\
    _json_error_detail (VDict d) = Some t /\ contains "API key" t = true.

Section StreamFacts.
Context {E : Type} `{!StreamEnv E}.
Notation W := (stream_world E).

Abbreviation sw_adds := (adds (W := W) sw_log).

(** A computation that sends no request for the stream and does not raise. *)
Definition quiet {A} (m : M W A) : Prop := sw_adds m (fun l r => exchanges l = [] /\ exists a, r = Ok a).

Lemma quiet_ret {A} (a : A) : quiet (mret a).
Proof. eapply adds_mono; [apply adds_ret|]. intros l r [-> ->]. eauto. Qed.

Lemma quiet_bind {A B} (m : M W A) (k : A -> M W B) : quiet m -> (forall a, quiet (k a)) -> quiet (m ≫= k).
Proof.
  intros Hm Hk. eapply adds_bind; [exact Hm|exact Hk|by intros l e [_ [a [=]]]|].
  intros l1 l2 a r [H1 _] [H2 Hr]. by rewrite exchanges_app, H1, H2.
Qed.

(** What follows a quiet computation decides. *)
Lemma adds_after_quiet {A B} (m : M W A) (k : A -> M W B) (T : list stream_event -> result B -> Prop) :
  (forall l1 l2 r, exchanges l1 = [] -> T l2 r -> T (l2 ++ l1) r) ->
  quiet m -> (forall a, sw_adds (k a) T) -> sw_adds (m ≫= k) T.
Proof.
  intros HT Hm Hk. eapply adds_bind; [exact Hm|exact Hk|by intros l e [_ [a [=]]]|].
  intros l1 l2 a r [H1 _] H2. by apply HT.
Qed.

Lemma adds_quiet_bind {A B} (m : M W A) (k : A -> M W B) (T : list exchange -> result B -> Prop) :
  quiet m -> (forall a, sw_adds (k a) (fun l r => T (exchanges l) r)) -> sw_adds (m ≫= k) (fun l r => T (exchanges l) r).
Proof. apply (adds_after_quiet m k (fun l r => T (exchanges l) r)). intros l1 l2 r H1 H2. by rewrite exchanges_app, H1, app_nil_r. Qed.

Lemma quiet_op {A} (op : E -> A * E) : quiet (sw_op op).
Proof. intros w. unfold wp, sw_op. destruct (op (sw_env w)) as [a e]. exists []. eauto. Qed.

Lemma quiet_log (ev : stream_event) : (forall c call r, ev <> SvGet c call r) -> quiet (log_sv ev).
Proof.
  intros Hev w. exists [ev]. split; [done|]. split; [|eauto]. destruct ev; try done. by destruct (Hev ctx call reply).
Qed.

Lemma quiet_modify (f : W -> W) : (forall w, sw_log (f w) = sw_log w) -> quiet (modify f).
Proof. intros Hf w. exists []. unfold modify. simpl. rewrite Hf. eauto. Qed.

Lemma quiet_pause (t : Z) : quiet (pause t).
Proof. intros w. exists []. simpl. eauto. Qed.

Lemma ready_quiet (context : request_context) (max_retries : nat) (d md : Z) (budget : option Z) :
  quiet (wait_for_backend_ready context max_retries d md budget).
Proof.
  assert (Hb : forall started, quiet (_remaining_budget budget started)).
  { intros started. unfold _remaining_budget. destruct budget; [|apply quiet_ret].
    apply quiet_bind; [apply quiet_op|intros; apply quiet_ret]. }
  unfold wait_for_backend_ready. destruct (rc_http_url context) as [[|c url]|]; try apply quiet_ret.
  apply quiet_bind; [apply quiet_op|]. intros started. revert d.
  generalize max_retries at 1. intros n. induction n as [|n IH]; intros d; [apply quiet_ret|]. cbn [ready_loop].
  apply quiet_bind; [apply Hb|]. intros b. destruct (match b with Some r => _ | None => _ end); [apply quiet_ret|].
  apply quiet_bind; [by apply quiet_log|]. intros _. apply quiet_bind; [apply quiet_op|]. intros status.
  destruct (status ≫= _health_response_result); [apply quiet_ret|]. destruct n as [|n]; [apply IH|].
  apply quiet_bind; [apply Hb|]. intros b'. apply quiet_bind; [apply quiet_pause|]. intros _. apply IH.
Qed.

(** Reading the frames of a body. *)
Definition frames_read (last : option SseCompletePayload) (frames : list SseFrame) (xs : list exchange)
    (r : result (option SseCompletePayload + (dict pyval * Z))) : Prop :=
  xs = [] /\ exists v, r = Ok v /\
    match v with inl x => complete_of sv_validate last frames = Some x | inr (_, status) => 400 <= status end.

Lemma frames_read_stop (last : option SseCompletePayload) (frames : list SseFrame) (p : dict pyval) (s : Z) :
  400 <= s -> sw_adds (mret (inr (p, s))) (fun l r => frames_read last frames (exchanges l) r).
Proof. intros Hs. eapply adds_mono; [apply adds_ret|]. intros l r [-> ->]. split; [done|]. by exists (inr (p, s)). Qed.

Lemma consume_adds (deadline : option SyncJobDeadline) (last : option SseCompletePayload) (frames : list SseFrame) :
  sw_adds (consume_frames deadline last frames) (fun l r => frames_read last frames (exchanges l) r).
Proof.
  revert last. induction frames as [|frame frames IH]; intros last; cbn [consume_frames].
  { eapply adds_mono; [apply adds_ret|]. intros l r [-> ->]. split; [done|]. by exists (inl last). }
  apply adds_quiet_bind.
  { destruct deadline; [|apply quiet_ret]. apply quiet_bind; [apply quiet_op|intros; apply quiet_ret]. }
  intros [|]; [by apply frames_read_stop|]. apply adds_quiet_bind; [by apply quiet_log|]. intros _.
  assert (Hstep : forall last', (if String.eqb (fr_event frame) "complete"
      then match sv_validate (fr_data frame) with inl c => last' = Some c | inr _ => False end else last' = last) ->
      sw_adds (consume_frames deadline last' frames) (fun l r => frames_read last (frame :: frames) (exchanges l) r)).
  { intros last' Hl. eapply adds_mono; [apply IH|]. intros l r [H1 (v & -> & Hv)]. split; [done|]. exists v. split; [done|].
    destruct v as [x|]; [|done]. cbn [complete_of]. destruct (String.eqb _ _); [|by rewrite <- Hl].
    destruct (sv_validate (fr_data frame)); [by rewrite <- Hl|done]. }
  destruct (String.eqb (fr_event frame) "complete"); [|by apply Hstep].
  destruct (sv_validate (fr_data frame)); [by apply Hstep|by apply frames_read_stop].
Qed.

(** The verdict on a response that was opened. *)
Definition verdict_ok (r : stream_response) (l : list stream_event) (res : result (dict pyval * Z)) : Prop :=
  exchanges l = [] /\ exists payload status, res = Ok (payload, status) /\
    (status < 400 -> exists c, completed sv_validate r c /\ cp_ok c = true /\ status = 200 /\ get "response" payload = model_dump c).

Lemma consume_sse_adds (r : stream_response) (deadline : option SyncJobDeadline) :
  sw_adds (_consume_sse_until_complete r deadline) (verdict_ok r).
Proof.
  unfold _consume_sse_until_complete.
  eapply adds_bind; [apply consume_adds|intros v; apply adds_ret|by intros l e [_ (v & [=] & _)]|].
  intros l1 l2 v res [H1 (v' & [= <-] & Hv)] [-> ->]. split; [by rewrite app_nil_l|].
  destruct v as [x|[payload status]]; [|eexists _, _; split; [done|lia]].
  destruct (sr_broken r) as [exc|] eqn:Eb; [eexists _, _; split; [done|lia]|].
  unfold _completed_stream_result. destruct x as [c|]; [|eexists _, _; split; [done|lia]].
  destruct (cp_ok c) eqn:Ec; cbn [negb]; eexists _, _; (split; [done|]); [|lia].
  intros _. by exists c.
Qed.

Lemma consume_response_adds (r : stream_response) (path : string) (urls : list string) (deadline : option SyncJobDeadline) :
  sw_adds (_consume_stream_response r path urls deadline) (verdict_ok r).
Proof.
  unfold _consume_stream_response. intros w. apply wp_bind. eapply wp_mono; [apply consume_sse_adds|].
  intros [[payload status]|e] w1 (new & Hn & H1 & p & s & He & Hv); [|done]. injection He as <- <-. apply wp_ret.
  exists new. split; [done|]. split; [done|]. eexists _, _. split; [done|]. intros Hs.
  destruct (Hv Hs) as (c & Hc & Hok & -> & Hr). exists c. cbn [Z.leb Z.compare Pos.compare Pos.compare_cont].
  unfold get, dget_or. by rewrite !dget_dset_ne.
Qed.

(** A renewed context: its key was checked, and nothing changed since. *)
Definition renewal (l : list stream_event) (fresh : option request_context) : Prop :=
  match fresh with
  | Some c => exists checked, SvAdopt checked true ∈ l /\ _request_context_binding c = _request_context_binding checked
  | None => True
  end.

(** A quiet computation that ends with a renewal. *)
Definition renews (l : list stream_event) (r : result (option request_context)) : Prop :=
  exchanges l = [] /\ exists fresh, r = Ok fresh /\ renewal l fresh.

Lemma renews_before (l1 l2 : list stream_event) (r : result (option request_context)) :
  exchanges l1 = [] -> renews l2 r -> renews (l2 ++ l1) r.
Proof.
  intros H1 (H2 & fresh & -> & Hf). split; [by rewrite exchanges_app, H1, H2|]. exists fresh. split; [done|].
  destruct fresh as [c|]; [|done]. destruct Hf as (k & Hk & Hb). exists k. split; [|done]. apply elem_of_app. by left.
Qed.

Lemma no_renewal : sw_adds (mret None) renews.
Proof. eapply adds_mono; [apply adds_ret|]. intros l r [-> ->]. split; [done|]. by exists None. Qed.

(** The check of a key leaves its outcome in the log. *)
Lemma authenticate_adds (c : request_context) :
  sw_adds (authenticate_backend_request_context c)
    (fun l r => exchanges l = [] /\ exists ok msg, r = Ok (ok, msg) /\ (ok = true -> SvAdopt c true ∈ l)).
Proof.
  intros w. unfold authenticate_backend_request_context, _try_register_key.
  destruct (is_empty _); [exists []; split; [done|]; split; [done|]; by eexists _, _|].
  destruct (rc_http_url c) as [[|u us]|]; try (exists []; split; [done|]; split; [done|]; by eexists _, _).
  unfold wp, sw_op, mbind, M_bind. destruct (sv_adopt _ _ _ (sw_env w)) as [[code|] e']; simpl.
  - exists [SvAdopt c false]. split; [done|]. split; [done|]. by eexists _, _.
  - exists [SvAdopt c true]. split; [done|]. split; [done|]. eexists _, _. split; [done|]. intros _. left.
Qed.

Lemma renew_adds (context : request_context) (endpoint_id : option Z) :
  sw_adds (_handle_auth_registration_and_retry context endpoint_id) renews.
Proof.
  unfold _handle_auth_registration_and_retry.
  destruct (match endpoint_id with Some _ => _ | None => _ end) as [id|]; [|apply no_renewal].
  apply adds_after_quiet; [apply renews_before|apply quiet_op|]. intros [fresh|]; [|apply no_renewal].
  destruct (negb _); [apply no_renewal|]. intros w. apply wp_bind. eapply wp_mono; [apply authenticate_adds|].
  intros [[ok msg]|e] w1 (new & Hn & Hx & ok' & msg' & He & Hok); [|done]. injection He as <- <-.
  destruct ok; [|apply wp_ret; exists new; split; [done|]; split; [done|]; by exists None].
  apply wp_bind. eapply wp_mono; [apply (quiet_op (sv_context (Some id)))|].
  intros [c|e] w2 (new' & Hn' & Hx' & a & Ha); [|done]. apply wp_ret. exists (new' ++ new). rewrite Hn', Hn, app_assoc.
  split; [done|]. split; [by rewrite exchanges_app, Hx, Hx'|]. eexists. split; [done|]. destruct c as [c|]; [|done].
  destruct (decide _) as [Hb|]; [|done]. exists fresh. split; [|done]. apply elem_of_app. right. by apply Hok.
Qed.

(** An exception of the library carries an error response, if any. *)
Definition library_errors : Prop := forall call (e e' : E) exc,
  sv_get call e = (RequestRaised exc, e') -> match rx_response exc with Some r => 400 <= er_status r | None => True end.

(** What one request for the stream comes to. *)
Definition url_outcome (context : request_context) (call : http_call) (attempted : bool) (l : list stream_event)
    (r : result (stream_response + (stream_fail * option request_context))) : Prop :=
  exists reply out, exchanges l = [(context, call, reply)] /\ r = Ok out /\
    match out with
    | inl response => reply = Opened response /\ sr_status response < 300
    | inr (_, Some fresh) => attempted = false /\ refused_key (context, call, reply) /\ renewal l (Some fresh)
    | inr ((_, status, _), None) => match status with Some s => 400 <= s | None => True end
    end.

(** What an error response comes to. *)
Definition error_outcome (r : stream_response) (context : request_context) (call : http_call) (attempted : bool)
    (l : list stream_event) (res : result (stream_fail * option request_context)) : Prop :=
  exchanges l = [] /\ exists d s k fresh, res = Ok ((d, Some s, k), fresh) /\ 400 <= s /\
    match fresh with
    | Some c => attempted = false /\ refused_key (context, call, Opened r) /\ renewal l fresh
    | None => True
    end.

Lemma renewal_before (l1 l2 : list stream_event) (fresh : option request_context) : renewal l2 fresh -> renewal (l2 ++ l1) fresh.
Proof.
  destruct fresh as [c|]; [|done]. intros (k & Hk & Hb). exists k. split; [|done]. apply elem_of_app. by left.
Qed.

Lemma error_final (r : stream_response) (context : request_context) (call : http_call) (attempted : bool) (d k : string) :
  400 <= sr_status r -> sw_adds (mret ((d, Some (sr_status r), k), None)) (error_outcome r context call attempted).
Proof. intros Hs. eapply adds_mono; [apply adds_ret|]. intros l res [-> ->]. split; [done|]. by eexists _, _, _, None. Qed.

Lemma http_error_adds (r : stream_response) (context : request_context) (call : http_call) (endpoint_id : option Z) (attempted : bool) :
  400 <= sr_status r ->
  sw_adds (_stream_http_error r context endpoint_id attempted) (error_outcome r context call attempted).
Proof.
  intros Hs. unfold _stream_http_error. apply adds_after_quiet.
  { intros l1 l2 res H1 (H2 & d & s & k & fresh & -> & Hs' & Hf). split; [by rewrite exchanges_app, H1, H2|].
    exists d, s, k, fresh. split; [done|]. split; [done|]. destruct fresh as [c|]; [|done].
    destruct Hf as (Ha & Hr & Hf). split; [done|]. split; [done|]. by apply renewal_before. }
  { destruct (sr_retry_after r); [by apply quiet_modify|apply quiet_ret]. }
  intros []. destruct (sr_json r) as [payload|] eqn:Ej; [|by apply error_final].
  destruct (_ && _ && _ && _)%bool eqn:Ek; [|by apply error_final].
  apply andb_prop in Ek as [[[Hd Ha%negb_true_iff]%andb_prop H401%Z.eqb_eq]%andb_prop Hn].
  intros w. apply wp_bind. eapply wp_mono; [apply renew_adds|].
  intros [fresh|e] w1 (new & Hw & Hx & fresh' & He & Hf); [|done]. injection He as <-. apply wp_ret. exists new.
  split; [done|]. split; [done|]. eexists _, _, _, fresh. split; [done|]. split; [lia|]. destruct fresh as [c|]; [|done].
  split; [done|]. split; [|done]. destruct payload as [| | | | | |d]; try done.
  destruct (_json_error_detail (VDict d)) as [t|] eqn:Et; [|done]. by exists r, d, t.
Qed.

Lemma try_url_adds (url : string) (verify : bool) (query : dict string) (context : request_context) (endpoint_id : option Z)
    (attempted : bool) (timeout : Z) :
  library_errors ->
  sw_adds (_try_sync_stream_url url verify query context endpoint_id attempted timeout)
    (url_outcome context (mkCall url query (rc_headers context) verify timeout) attempted).
Proof.
  intros Hlib w. unfold _try_sync_stream_url. set (call := mkCall _ _ _ _ _). apply wp_bind. unfold wp at 1, sw_op.
  destruct (sv_get call (sw_env w)) as [reply e] eqn:Eg. cbn [fst snd]. apply wp_bind. unfold log_sv. apply wp_modify.
  cbn [sw_log sw_env sw_retry_after]. set (w1 := mkSw e (SvGet context call reply :: sw_log w) (sw_retry_after w)).
  assert (Hend : forall out, match out with
      | inl response => reply = Opened response /\ sr_status response < 300
      | inr (_, Some fresh) => False
      | inr ((_, status, _), None) => match status with Some s => 400 <= s | None => True end
      end -> wp (mret out) (fun r w' => exists new, sw_log w' = new ++ sw_log w /\ url_outcome context call attempted new r) w1).
  { intros out Hout. apply wp_ret. exists [SvGet context call reply]. split; [done|]. exists reply, out. split; [done|].
    split; [done|]. destruct out as [|[[[d s] k] [c|]]]; try done. }
  destruct reply as [r|exc|name text].
  - unfold is_redirect. destruct (Z.leb_spec 300 (sr_status r)), (Z.ltb_spec (sr_status r) 400); cbn [andb].
    + apply Hend. unfold _REDIRECT_TRANSPORT_STATUS. lia.
    + rewrite (proj2 (Z.leb_le 400 (sr_status r))) by lia. apply wp_bind.
      eapply wp_mono; [by apply (http_error_adds r context call)|].
      intros [out|exc] w2 (new & Hn & Hx & d & s & k & fresh & He & Hs & Hf); [|done]. injection He as ->. apply wp_ret.
      exists (new ++ [SvGet context call (Opened r)]). rewrite Hn, <- app_assoc. split; [done|].
      exists (Opened r), (inr ((d, Some s, k), fresh)). split; [by rewrite exchanges_app, Hx|]. split; [done|].
      destruct fresh as [c|]; [|done]. destruct Hf as (Ha & Hr & Hf). split; [done|]. split; [done|]. by apply renewal_before.
    + rewrite (proj2 (Z.leb_gt 400 (sr_status r))) by lia. by apply Hend.
    + lia.
  - destruct (extract_backend_error_detail exc) as [detail status] eqn:Ed. apply Hend.
    pose proof (Hlib _ _ _ _ Eg) as Hr. unfold extract_backend_error_detail in Ed.
    destruct (rx_response exc); by injection Ed as <- <-.
  - by apply Hend.
Qed.

(** Failures are never taken for a success. *)
Definition bad_failures (fs : list stream_fail) : Prop :=
  Forall (fun f : stream_fail => match snd (fst f) with Some s => 400 <= s | None => True end) fs.

(** A success is the backend's own verdict at the end of a body. *)
Definition success_of (x : exchange) (payload : dict pyval) (status : Z) : Prop :=
  exists r c, snd x = Opened r /\ sr_status r < 300 /\ completed sv_validate r c /\ cp_ok c = true /\ status = 200 /\
    get "response" payload = model_dump c.

(** What a pass over the candidates of [context] comes to. *)
Definition pass_outcome (context : request_context) (path : string) (query : dict string) (attempted : bool)
    (l : list stream_event) (res : result (pass_result * list string)) : Prop :=
  exists out urls, res = Ok (out, urls) /\
    ((exchanges l = [] /\ exists fs, out = PassFailed fs /\ bad_failures fs) \/
     exists x, exchanges l = [x] /\ fst (fst x) = context /\ addressed path query x /\
       match out with
       | PassDone payload status => status < 400 -> success_of x payload status
       | PassFresh fresh => attempted = false /\ refused_key x /\ renewal l (Some fresh)
       | PassFailed fs => bad_failures fs
       end).

Lemma pass_before (context : request_context) (path : string) (query : dict string) (attempted : bool)
    (l1 l2 : list stream_event) (r : result (pass_result * list string)) :
  exchanges l1 = [] -> pass_outcome context path query attempted l2 r -> pass_outcome context path query attempted (l2 ++ l1) r.
Proof.
  intros H1 (out & urls & -> & H). exists out, urls. split; [done|]. rewrite exchanges_app, H1, app_nil_r.
  destruct H as [H|(x & Hx & Hc & Ha & Ho)]; [by left|right]. exists x. do 3 (split; [done|]).
  destruct out as [| |]; try done. destruct Ho as (Ho & Hr & Hf). split; [done|]. split; [done|]. by apply renewal_before.
Qed.

Lemma pass_failed (context : request_context) (path : string) (query : dict string) (attempted : bool)
    (fs : list stream_fail) (urls : list string) :
  bad_failures fs -> sw_adds (mret (PassFailed fs, urls)) (pass_outcome context path query attempted).
Proof.
  intros Hf. eapply adds_mono; [apply adds_ret|]. intros l r [-> ->]. eexists _, _. split; [done|]. left. eauto.
Qed.

Lemma candidate_loop_adds (context : request_context) (path : string) (query : dict string) (endpoint_id : option Z)
    (attempted : bool) (timeout started : Z) (deadline : option SyncJobDeadline) (http_url : string)
    (candidates : list (string * bool)) (urls : list string) (fs : list stream_fail) :
  library_errors -> rc_http_url context = Some http_url -> nonempty http_url = true ->
  candidates ⊆ _build_request_candidates http_url (rc_ip_address_url context) path (rc_verify_ssl context) -> bad_failures fs ->
  sw_adds (candidate_loop candidates context path query endpoint_id attempted timeout started deadline urls fs)
    (pass_outcome context path query attempted).
Proof.
  intros Hlib Hu Hne. revert urls fs. induction candidates as [|[url verify] candidates IH]; intros urls fs Hsub Hfs;
    cbn [candidate_loop]; [by apply pass_failed|].
  apply adds_after_quiet; [apply pass_before|apply ready_quiet|]. intros [ready msg]. destruct ready; cbn [negb].
  2: { assert (Hfs' : bad_failures (fs ++ [("Backend not ready: " +:+ msg, Some 503, STAGE_FAILURE_TRANSPORT)])).
       { apply Forall_app. split; [done|]. constructor; [simpl; lia|constructor]. }
       destruct (String.eqb _ _); [by apply pass_failed|]. apply IH; [|done]. intros c Hc. apply Hsub. by right. }
  apply adds_after_quiet; [apply pass_before|apply quiet_op|]. intros t w. apply wp_bind.
  eapply wp_mono; [by apply try_url_adds|]. intros [out|e] w1 (new & Hn & reply & out' & Hx & He & Ho); [|done].
  injection He as <-. set (call := mkCall _ _ _ _ _) in *.
  assert (Hadd : addressed path query (context, call, reply)).
  { exists http_url. split; [done|]. split; [done|]. split; [apply Hsub; left|done]. }
  destruct out as [response|[[[d s] k] [fresh|]]].
  - destruct Ho as [-> Hs]. apply wp_bind. eapply wp_mono; [apply consume_response_adds|].
    intros [[payload status]|e] w2 (new' & Hn' & Hx' & p & s & He & Hv); [|done]. injection He as <- <-. apply wp_ret.
    exists (new' ++ new). rewrite Hn', Hn, app_assoc. split; [done|]. eexists _, _. split; [done|]. right.
    exists (context, call, Opened response). rewrite exchanges_app, Hx, Hx'. do 3 (split; [done|]). intros Hst.
    destruct (Hv Hst) as (c & Hc & Hok & -> & Hr). by exists response, c.
  - apply wp_ret. exists new. split; [done|]. eexists _, _. split; [done|]. right. by exists (context, call, reply).
  - apply wp_ret. exists new. split; [done|]. eexists _, _. split; [done|]. right. exists (context, call, reply).
    do 3 (split; [done|]). apply Forall_app. split; [done|]. by constructor; [|constructor].
Qed.

Lemma pass_adds (context : request_context) (path : string) (query : dict string) (endpoint_id : option Z)
    (attempted : bool) (urls : list string) (timeout : Z) (deadline : option SyncJobDeadline) :
  library_errors ->
  sw_adds (_run_stream_candidate_pass context path query endpoint_id attempted urls timeout deadline)
    (pass_outcome context path query attempted).
Proof.
  intros Hlib. unfold _run_stream_candidate_pass. apply adds_after_quiet; [apply pass_before|apply quiet_op|]. intros started.
  assert (Hno : bad_failures [("No FastAPI URL found after authentication retry.", None, STAGE_FAILURE_APPLICATION)])
    by (constructor; [done|constructor]).
  destruct (rc_http_url context) as [[|c url]|] eqn:Eu; [by apply pass_failed| |by apply pass_failed].
  by apply (candidate_loop_adds context path query endpoint_id attempted timeout started deadline (String c url));
    [..|constructor].
Qed.

Lemma stream_failed_adds (path : string) (urls : list string) (fs : list stream_fail) :
  bad_failures fs ->
  sw_adds (stream_failed path urls fs) (fun l r => exchanges l = [] /\ exists payload status, r = Ok (payload, status) /\ 400 <= status).
Proof.
  intros Hfs w. unfold stream_failed. destruct (_select_stream_failure fs) as [[d s] k] eqn:Es. exists []. split; [done|].
  split; [done|]. eexists _, _. split; [done|].
  assert (Hs : match s with Some s => 400 <= s | None => True end).
  { revert Es. unfold _select_stream_failure.
    assert (Hfa : forall f, first_application fs = Some f -> f ∈ fs).
    { clear. induction fs as [|f fs IH]; [done|]. cbn [first_application]. intros g.
      destruct (String.eqb _ _); [intros [= <-]; left|intros Hg; right; auto]. }
    unfold bad_failures in Hfs. rewrite Forall_forall in Hfs.
    destruct (first_application fs) as [[[d1 s1] k1]|] eqn:E1; [intros [= _ <- _]; by apply (Hfs _ (Hfa _ eq_refl))|].
    destruct (last fs) as [[[d2 s2] k2]|] eqn:E2; [|by intros [= _ <- _]].
    intros [= _ <- _]. apply (Hfs (d2, s2, k2)). apply last_Some_elem_of in E2. done. }
  destruct s as [s|]; [|lia]. destruct (Z.eqb_spec s 0); lia.
Qed.

(** What the requests of a whole run come to, the latest first. *)
Definition run_outcome (path : string) (query : dict string) (l : list stream_event) (res : result (dict pyval * Z)) : Prop :=
  exists payload status, res = Ok (payload, status) /\ Forall (addressed path query) (exchanges l) /\
    (status < 400 -> exists x rest, exchanges l = x :: rest /\ success_of x payload status) /\
    match exchanges l with
    | [] | [_] => True
    | [x2; x1] => refused_key x1 /\ renewal l (Some (fst (fst x2)))
    | _ => False
    end.

Lemma run_before (path : string) (query : dict string) (l1 l2 : list stream_event) (r : result (dict pyval * Z)) :
  exchanges l1 = [] -> run_outcome path query l2 r -> run_outcome path query (l2 ++ l1) r.
Proof.
  intros H1 (p & s & -> & Hf & Hs & Hx). exists p, s. rewrite exchanges_app, H1, app_nil_r. do 3 (split; [done|]).
  destruct (exchanges l2) as [|x2 [|x1 [|]]]; try done. destruct Hx. split; [done|]. by apply renewal_before.
Qed.

(** At most one request in the last pass. *)
Definition last_pass (context : request_context) (path : string) (query : dict string) (l : list stream_event)
    (res : result (dict pyval * Z)) : Prop :=
  exists payload status, res = Ok (payload, status) /\
    ((exchanges l = [] /\ 400 <= status) \/
     exists x, exchanges l = [x] /\ fst (fst x) = context /\ addressed path query x /\ (status < 400 -> success_of x payload status)).

Lemma last_pass_failed (context : request_context) (path : string) (query : dict string) (urls : list string) (fs : list stream_fail) :
  bad_failures fs -> sw_adds (stream_failed path urls fs) (last_pass context path query).
Proof.
  intros Hf. eapply adds_mono; [by apply stream_failed_adds|]. intros l r (Hx & p & s & -> & Hs). exists p, s. split; [done|]. by left.
Qed.

Lemma budget_quiet (deadline : option SyncJobDeadline) (f : Z) :
  quiet (match deadline with Some d => t' ← now; mret (Z.min f (remaining d t')) | None => mret f end).
Proof. destruct deadline; [|apply quiet_ret]. apply quiet_bind; [apply quiet_op|intros; apply quiet_ret]. Qed.

Lemma setup_failure : bad_failures [("Job deadline reached during backend stream setup.", Some 504, STAGE_FAILURE_TRANSPORT)].
Proof. constructor; [simpl; lia|constructor]. Qed.

(** A segment of a pass that failed, with what is reported about it. *)
Lemma failed_after (context : request_context) (path : string) (query : dict string) (l1 l2 : list stream_event) (payload : dict pyval)
    (status : Z) (x : exchange) :
  exchanges l1 = [x] -> exchanges l2 = [] -> fst (fst x) = context -> addressed path query x -> 400 <= status ->
  last_pass context path query (l2 ++ l1) (Ok (payload, status)).
Proof.
  intros H1 H2 Hc Ha Hs. exists payload, status. split; [done|]. right. exists x. rewrite exchanges_app, H1, H2.
  do 3 (split; [done|]). lia.
Qed.

(** The loop: one pass when the key may not be renewed any more, and at most
    two otherwise; the fuel is never used up. *)
Lemma stream_loop_last (n : nat) (context : request_context) (path : string) (query : dict string) (endpoint_id : option Z)
    (timeout started : Z) (deadline : option SyncJobDeadline) (urls : list string) :
  library_errors ->
  sw_adds (stream_loop (S n) context path query endpoint_id true timeout started deadline urls) (last_pass context path query).
Proof.
  intros Hlib. cbn [stream_loop].
  assert (Hb : forall l1 l2 r, exchanges l1 = [] -> last_pass context path query l2 r -> last_pass context path query (l2 ++ l1) r).
  { intros l1 l2 r H1 (p & s & -> & H). exists p, s. by rewrite exchanges_app, H1, app_nil_r. }
  apply adds_after_quiet; [exact Hb|apply quiet_op|]. intros t. apply adds_after_quiet; [exact Hb|apply budget_quiet|]. intros left.
  destruct (left <=? 0); [apply last_pass_failed, setup_failure|]. intros w. apply wp_bind.
  eapply wp_mono; [by apply pass_adds|]. intros [[out urls']|e] w1 (new & Hn & out' & u & He & Ho); [|by destruct out'].
  injection He as <- <-. destruct Ho as [(Hx & fs & -> & Hfs)|(x & Hx & Hc & Ha & Ho)].
  - eapply wp_mono; [by apply last_pass_failed|]. intros r w2 (new2 & Hn2 & Hr). exists (new2 ++ new). rewrite Hn2, Hn, app_assoc.
    split; [done|]. by apply Hb.
  - destruct out as [payload status|fresh|fs]; [|by destruct Ho|].
    + apply wp_ret. exists new. split; [done|]. exists payload, status. split; [done|]. right. by exists x.
    + eapply wp_mono; [by apply stream_failed_adds|]. intros r w2 (new2 & Hn2 & Hx2 & p & s & -> & Hs). exists (new2 ++ new).
      rewrite Hn2, Hn, app_assoc. split; [done|]. by apply (failed_after context path query new new2 p s x).
Qed.

Lemma last_pass_run (context : request_context) (path : string) (query : dict string) (l : list stream_event) (r : result (dict pyval * Z)) :
  last_pass context path query l r -> run_outcome path query l r.
Proof.
  intros (p & s & -> & H). exists p, s. split; [done|]. destruct H as [[-> Hs]|(x & -> & _ & Ha & Hs)].
  - split; [constructor|]. split; [lia|done].
  - split; [by constructor; [|constructor]|]. split; [|done]. intros Hst. exists x, []. auto.
Qed.

Lemma stream_loop_first (context : request_context) (path : string) (query : dict string) (endpoint_id : option Z)
    (timeout started : Z) (deadline : option SyncJobDeadline) (urls : list string) :
  library_errors ->
  sw_adds (stream_loop 2 context path query endpoint_id false timeout started deadline urls) (run_outcome path query).
Proof.
  intros Hlib. cbn [stream_loop].
  pose proof (run_before path query) as Hb.
  apply adds_after_quiet; [exact Hb|apply quiet_op|]. intros t. apply adds_after_quiet; [exact Hb|apply budget_quiet|]. intros left.
  destruct (left <=? 0); [eapply adds_mono; [apply (last_pass_failed context path query), setup_failure|apply last_pass_run]|].
  intros w. apply wp_bind. eapply wp_mono; [by apply pass_adds|].
  intros [[out urls']|e] w1 (new & Hn & out' & u & He & Ho); [|by destruct out']. injection He as <- <-.
  destruct Ho as [(Hx & fs & -> & Hfs)|(x & Hx & Hc & Ha & Ho)].
  { eapply wp_mono; [by apply (last_pass_failed context path query)|]. intros r w2 (new2 & Hn2 & Hr). exists (new2 ++ new).
    rewrite Hn2, Hn, app_assoc. split; [done|]. apply Hb; [done|]. by eapply last_pass_run. }
  destruct out as [payload status|fresh|fs].
  - apply wp_ret. exists new. split; [done|]. eapply last_pass_run. exists payload, status. split; [done|]. right. by exists x.
  - destruct Ho as (_ & Hr & Hf). eapply wp_mono; [by apply (stream_loop_last 0)|].
    intros r w2 (new2 & Hn2 & p & s & -> & H2). exists (new2 ++ new). rewrite Hn2, Hn, app_assoc. split; [done|].
    exists p, s. split; [done|]. rewrite exchanges_app, Hx. destruct H2 as [[-> Hs]|(x2 & -> & Hc2 & Ha2 & Hs)].
    + split; [by constructor; [|constructor]|]. split; [lia|done].
    + split; [by repeat (constructor; [done|]); constructor|]. split; [intros Hst; exists x2, [x]; auto|]. cbn [app]. split; [done|].
      rewrite Hc2. destruct Hf as (k & Hk & Hb'). exists k. split; [|done]. apply elem_of_app. by right.
  - eapply wp_mono; [by apply stream_failed_adds|]. intros r w2 (new2 & Hn2 & Hx2 & p & s & -> & Hs). exists (new2 ++ new).
    rewrite Hn2, Hn, app_assoc. split; [done|]. eapply last_pass_run. by apply (failed_after context path query new new2 p s x).
Qed.

Lemma run_sync_stream_adds (path : string) (query : dict string) (endpoint_id : option Z) (timeout : Z)
    (deadline : option SyncJobDeadline) :
  library_errors -> sw_adds (run_sync_stream path query endpoint_id timeout deadline) (run_outcome path query).
Proof.
  intros Hlib. unfold run_sync_stream.
  assert (Hno : forall p, sw_adds (mret (p, 404)) (run_outcome path query)).
  { intros p. eapply adds_mono; [apply adds_ret|]. intros l r [-> ->]. exists p, 404. split; [done|].
    split; [constructor|]. split; [lia|done]. }
  pose proof (run_before path query) as Hb.
  apply adds_after_quiet; [exact Hb|by apply quiet_modify|]. intros _. apply adds_after_quiet; [exact Hb|apply quiet_op|].
  intros started. apply adds_after_quiet; [exact Hb|apply quiet_op|]. intros [context|]; [|apply Hno].
  destruct (has_url context); [by apply stream_loop_first|apply Hno].
Qed.

End StreamFacts.

(** C13: A run of a sync stream always ends with a verdict, and never replays a
    sync: it sends one request, to the configured backend or to its address
    fallback and with that endpoint's own credentials; a second one only after
    the backend refused the key of the first, and then in a context whose key
    was checked again and that did not change since.  The verdict is a success
    only when the last request was answered with a body that was read to its
    end and whose last [complete] event says so.  The read of the request
    context from the database is taken not to raise. *)
Theorem sync_stream_contract {E : Type} `{!StreamEnv E} (path : string) (query : dict string) (endpoint_id : option Z)
    (timeout : Z) (deadline : option SyncJobDeadline) (env : E) :
  library_errors ->
  let run := run_sync_stream path query endpoint_id timeout deadline (mkSw env [] None) in
  run_outcome path query (sw_log (snd run)) (fst run).
Proof.
  intros Hlib. destruct (run_sync_stream_adds path query endpoint_id timeout deadline Hlib (mkSw env [] None)) as (new & Hn & H).
  cbv zeta. rewrite Hn. cbn [sw_log]. by rewrite app_nil_r.
Qed.

(** ** Frames that are shown *)

Section Shown.
Context {E : Type} `{!StreamEnv E}.

(** Frames appear in the log redacted. *)
Definition frames_scrubbed (l : list stream_event) : Prop :=
  Forall (fun ev => match ev with SvFrame f => scrubbed (S _REDACTION_DEPTH_LIMIT) (VDict (fr_data f)) | _ => True end) l.

Lemma redacted_mapping_scrubbed (d : dict pyval) : scrubbed (S _REDACTION_DEPTH_LIMIT) (VDict (_redacted_mapping d)).
Proof. pose proof (redacted_body_scrubbed (VDict d)) as H. unfold _redacted_mapping. done. Qed.

Definition shows (w : stream_world E) : Prop := frames_scrubbed (sw_log w).

Lemma op_shows {A} (op : E -> A * E) : keeps shows (sw_op op).
Proof. intros w Hw. unfold sw_op. by destruct (op (sw_env w)). Qed.

Lemma log_shows (ev : stream_event) : (forall f, ev <> SvFrame f) -> keeps shows (log_sv ev).
Proof. intros Hev w Hw. constructor; [|done]. destruct ev; try done. by destruct (Hev frame). Qed.

Lemma modify_shows (f : stream_world E -> stream_world E) : (forall w, sw_log (f w) = sw_log w) -> keeps shows (modify f).
Proof. intros Hf w Hw. unfold shows, modify. cbn [snd]. by rewrite Hf. Qed.

Lemma frame_shows (name : string) (d : dict pyval) : keeps shows (log_sv (SvFrame (mkFrame name (_redacted_mapping d)))).
Proof. intros w Hw. constructor; [apply redacted_mapping_scrubbed|done]. Qed.

Hint Resolve op_shows frame_shows : effects.

Ltac shows_steps :=
  repeat first [progress keeps_step | apply modify_shows; done | apply log_shows; done].

Lemma consume_shows (deadline : option SyncJobDeadline) (last : option SseCompletePayload) (frames : list SseFrame) :
  keeps shows (consume_frames deadline last frames).
Proof.
  revert last. induction frames as [|frame frames IH]; intros last; cbn [consume_frames]; [apply keeps_ret|].
  shows_steps; apply IH.
Qed.

Lemma response_shows (r : stream_response) (path : string) (urls : list string) (deadline : option SyncJobDeadline) :
  keeps shows (_consume_stream_response r path urls deadline).
Proof.
  unfold _consume_stream_response, _consume_sse_until_complete.
  apply keeps_bind; [apply keeps_bind; [apply consume_shows|]|]; intros; shows_steps.
Qed.

Lemma ready_shows (context : request_context) (n : nat) (d md : Z) (budget : option Z) :
  keeps shows (wait_for_backend_ready context n d md budget).
Proof.
  assert (Hb : forall started, keeps shows (_remaining_budget budget started)) by (intros; unfold _remaining_budget, now; shows_steps).
  unfold wait_for_backend_ready, now. shows_steps. generalize n at 1. intros k. revert d.
  induction k as [|k IH]; intros d'; cbn [ready_loop]; [apply keeps_ret|].
  apply keeps_bind; [apply Hb|]. intros b. destruct (match b with Some r => _ | None => _ end); [apply keeps_ret|].
  apply keeps_bind; [by apply log_shows|]. intros _. apply keeps_bind; [apply op_shows|]. intros status.
  destruct (status ≫= _health_response_result); [apply keeps_ret|]. destruct k; [apply IH|].
  apply keeps_bind; [apply Hb|]. intros b'. apply keeps_bind; [by intros w Hw|]. intros _. apply IH.
Qed.

Lemma renew_shows (context : request_context) (endpoint_id : option Z) :
  keeps shows (_handle_auth_registration_and_retry context endpoint_id).
Proof.
  unfold _handle_auth_registration_and_retry, authenticate_backend_request_context, _try_register_key. shows_steps.
Qed.

Lemma try_url_shows (url : string) (verify : bool) (query : dict string) (context : request_context) (endpoint_id : option Z)
    (attempted : bool) (timeout : Z) :
  keeps shows (_try_sync_stream_url url verify query context endpoint_id attempted timeout).
Proof.
  unfold _try_sync_stream_url, _stream_http_error. pose proof renew_shows. shows_steps.
Qed.

Lemma stream_failed_shows (path : string) (urls : list string) (fs : list stream_fail) : keeps shows (stream_failed path urls fs).
Proof. unfold stream_failed. destruct (_select_stream_failure fs) as [[d s] k]. shows_steps. Qed.

Lemma pass_shows (context : request_context) (path : string) (query : dict string) (endpoint_id : option Z)
    (attempted : bool) (urls : list string) (timeout : Z) (deadline : option SyncJobDeadline) :
  keeps shows (_run_stream_candidate_pass context path query endpoint_id attempted urls timeout deadline).
Proof.
  unfold _run_stream_candidate_pass, now. apply keeps_bind; [apply op_shows|]. intros started.
  destruct (rc_http_url context) as [[|c url]|]; try apply keeps_ret.
  generalize (_build_request_candidates (String c url) (rc_ip_address_url context) path (rc_verify_ssl context)).
  intros cs. generalize (@nil stream_fail). revert urls. induction cs as [|[u v] cs IH]; intros urls fs; cbn [candidate_loop].
  { apply keeps_ret. }
  apply keeps_bind; [apply ready_shows|]. intros [ready msg]. destruct ready; cbn [negb].
  - unfold now. apply keeps_bind; [apply op_shows|]. intros t. apply keeps_bind; [apply try_url_shows|].
    intros [r|[f [fresh|]]]; [|apply keeps_ret..]. apply keeps_bind; [apply response_shows|]. intros []. apply keeps_ret.
  - destruct (String.eqb _ _); [apply keeps_ret|apply IH].
Qed.

Lemma run_shows (path : string) (query : dict string) (endpoint_id : option Z) (timeout : Z) (deadline : option SyncJobDeadline) :
  keeps shows (run_sync_stream path query endpoint_id timeout deadline).
Proof.
  assert (Hl : forall n context attempted urls started,
    keeps shows (stream_loop n context path query endpoint_id attempted timeout started deadline urls)).
  { induction n as [|n IH]; intros context attempted urls started; cbn [stream_loop]; [apply keeps_raise|]. unfold now.
    apply keeps_bind; [apply op_shows|]. intros t. apply keeps_bind; [shows_steps|]. intros left.
    destruct (left <=? 0); [apply stream_failed_shows|]. apply keeps_bind; [apply pass_shows|].
    intros [[p s|fresh|fs] urls']; [apply keeps_ret|apply IH|apply stream_failed_shows]. }
  unfold run_sync_stream, now, set_retry_after. shows_steps.
Qed.

End Shown.

(** Every frame that a run hands to the job log is redacted. *)
Theorem stream_frames_scrubbed {E : Type} `{!StreamEnv E} (path : string) (query : dict string) (endpoint_id : option Z)
    (timeout : Z) (deadline : option SyncJobDeadline) (env : E) :
  frames_scrubbed (sw_log (snd (run_sync_stream path query endpoint_id timeout deadline (mkSw env [] None)))).
Proof. apply (run_shows path query endpoint_id timeout deadline (mkSw env [] None)). constructor. Qed.

(** ** A scripted backend *)

(** The replies are played in order; a clock reading takes a millisecond. *)
Record backend_script := mkScript {
  bs_clock : Z; bs_context : option request_context; bs_health : option Z; bs_replies : list stream_response;
  bs_json : list json_response }.

Definition sample_context : request_context :=
  mkContext (Some 3) "fp" (Some "https://proxbox:8800") (Some "https://10.0.0.5:8800") true [("X-Proxbox-API-Key", "k1")].

(** [SseCompletePayload.model_validate] on the bodies of the examples: [ok]
    must be a bool. *)
Definition validate_sample (d : dict pyval) : SseCompletePayload + string :=
  match get "ok" d with
  | VBool b => inl (mkComplete b (match get "message" d with VStr s => Some s | _ => None end) (get "result" d) [] [])
  | _ => inr "Field required"
  end.

#[global] Instance script_stream : StreamEnv backend_script := {|
  sv_monotonic s := (bs_clock s, mkScript (bs_clock s + msec 1) (bs_context s) (bs_health s) (bs_replies s) (bs_json s));
  sv_sleep d s := mkScript (bs_clock s + d) (bs_context s) (bs_health s) (bs_replies s) (bs_json s);
  sv_context _ s := (bs_context s, s);
  sv_health _ s := (bs_health s, s);
  sv_get _ s := match bs_replies s with
                | [] => (OsErrorRaised "ConnectionError" "connection refused", s)
                | r :: rs => (Opened r, mkScript (bs_clock s) (bs_context s) (bs_health s) rs (bs_json s))
                end;
  sv_json _ _ s := match bs_json s with
                   | [] => (JsonOsError "ConnectionError" "connection refused", s)
                   | r :: rs => (JsonOpened r, mkScript (bs_clock s) (bs_context s) (bs_health s) (bs_replies s) rs)
                   end;
  sv_adopt _ _ _ s := (None, s);
  sv_validate := validate_sample
|}.

Definition dq : string := String (ascii_of_nat 34) "".

(** A body with one heartbeat and the verdict [ok]. *)
Definition sample_body (ok : string) : list (option string) :=
  [Some ": heartbeat"; Some "event: progress"; Some ("data: {" +:+ dq +:+ "token" +:+ dq +:+ ": " +:+ dq +:+ "s3cret" +:+ dq +:+ "}"); Some "";
   Some "event: complete"; Some ("data: {" +:+ dq +:+ "ok" +:+ dq +:+ ": " +:+ ok +:+ "}"); Some ""].

Definition opened (lines : list (option string)) : stream_response := mkResponse 200 None None lines None.

Definition sample_script_of (replies : list stream_response) : stream_world backend_script :=
  mkSw (mkScript 0 (Some sample_context) (Some 200) replies []) [] None.

Definition sample_run (replies : list stream_response) : result (dict pyval * Z) * stream_world backend_script :=
  run_sync_stream "dcim/devices/create/stream" [] None (sec 60) None (sample_script_of replies).

(** The verdict of a run and the addresses it asked. *)
Definition seen (r : result (dict pyval * Z) * stream_world backend_script) : option (Z * pyval) * list string :=
  (match fst r with Ok (p, s) => Some (s, get "detail" p) | Err _ => None end,
   List.map (fun x => hc_url (snd (fst x))) (exchanges (sw_log (snd r)))).

Definition key_refused : stream_response :=
  mkResponse 401 None (Some (VDict [("detail", VStr "Invalid API key")])) [] None.

(** A green stream; a body without a verdict; a failed sync, which is not
    replayed at the address fallback; a key that was refused once. *)
Example stream_runs :
  seen (sample_run [opened (sample_body "true")]) = (Some (200, VNone), ["https://proxbox:8800/dcim/devices/create/stream"]) /\
  seen (sample_run [opened []]) =
    (Some (502, VStr "ProxBox backend stream ended without a complete event."), ["https://proxbox:8800/dcim/devices/create/stream"]) /\
  seen (sample_run [opened (sample_body "false"); opened (sample_body "true")]) =
    (Some (503, VStr "Sync failed."), ["https://proxbox:8800/dcim/devices/create/stream"]) /\
  seen (sample_run [key_refused; opened (sample_body "true")]) =
    (Some (200, VNone), ["https://proxbox:8800/dcim/devices/create/stream"; "https://proxbox:8800/dcim/devices/create/stream"]) /\
  seen (sample_run [key_refused; key_refused; opened (sample_body "true")]) =
    (Some (401, VStr "Invalid API key"), ["https://proxbox:8800/dcim/devices/create/stream"; "https://proxbox:8800/dcim/devices/create/stream"]).
Proof. repeat split; vm_compute; reflexivity. Qed.

Lemma sync_stream_contract_witness :
  library_errors (E := backend_script) /\
  run_outcome "dcim/devices/create/stream" [] (sw_log (snd (sample_run [key_refused; opened (sample_body "true")])))
    (fst (sample_run [key_refused; opened (sample_body "true")])).
Proof.
  assert (Hlib : library_errors (E := backend_script)).
  { intros call s s' exc. simpl. by destruct (bs_replies s). }
  split; [exact Hlib|].
  exact (sync_stream_contract "dcim/devices/create/stream" [] None (sec 60) None
           (mkScript 0 (Some sample_context) (Some 200) [key_refused; opened (sample_body "true")] []) Hlib).
Defined.
