(* ===== verification/BackendJson.v ===== *)
(** * JSON requests to the backend

    The requests of services/backend_proxy.py that are answered by one JSON
    body: [request_backend_resource] and [request_backend_json], with their
    candidates and the one renewal of the credentials, and the callers that
    choose the context. *)
From Stdlib Require Import ZArith Lia Ascii String.
From stdpp Require Import base list sets strings pretty.
From S2P Require Import Prelude Effects StageFailure Deadline StageExec.
From S2P Require Import Text BackendPath Redaction ErrorDetail BackendStream.

Definition not_json : string :=
  "ProxBox backend returned a response that is not valid JSON. "
  +:+ "Check that the FastAPI URL points to proxbox-api, not another service.".

(** [parse_requests_response_json] *)
Definition parse_requests_response_json (r : json_response) : pyval + string :=
  match jr_json r with Some v => inl v | None => inr not_json end.

Definition _parse_json_or_empty (r : json_response) : pyval + string :=
  if (jr_status r =? 204) then inl (VDict [])
  else if jr_empty r then inl (VDict []) else parse_requests_response_json r.

Definition LONG_READ_TIMEOUT : Z := sec 3600.

Definition http_timeout_for_sync_path (path : string) : Z :=
  if contains "virtualization/virtual-machines" path then LONG_READ_TIMEOUT
  else if contains "full-update" path then LONG_READ_TIMEOUT else sec 5.

(** What is known of the requests made so far. *)
Record json_state := mkJs { js_urls : list string; js_detail : option string; js_status : option Z; js_attempted : bool }.

(** What one candidate leads to. *)
Inductive json_step :=
| JDone (payload : dict pyval) (status : Z)
| JFresh (context : request_context)
| JStop
| JNext.

(** The detail of an error body, and whether it asks for another key. *)
Definition error_body (status : Z) (payload : pyval) : string * bool :=
  match payload with
  | VDict d =>
      let detail := py_or (get "detail" d) (get "message" d) in
      (if truthy detail then redact_backend_detail detail else "HTTP " +:+ pretty status,
       ((status =? 401) && contains "API key" (str detail))%bool)
  | _ => ("HTTP " +:+ pretty status, false)
  end.

Section Json.
Context {E : Type} `{!StreamEnv E}.
Notation W := (stream_world E).

Definition send_json (context : request_context) (method : string) (call : http_call) : M W json_reply :=
  reply ← sw_op (sv_json method call);
  _ ← log_sv (SvJson context method call reply);
  mret reply.

(** [_send_backend_json_request] *)
Definition _send_backend_json_request (context : request_context) (method : string) (call : http_call) : M W json_reply :=
  if mem_str method ["GET"; "POST"] then send_json context method call
  else raise (ValueError ("Unsupported backend JSON method: " +:+ method)).

(** One candidate of [request_backend_resource]. *)
Definition resource_step (context : request_context) (path url : string) (verify : bool) (query : dict string) (timeout : Z)
    (js : json_state) : M W (json_step * json_state) :=
  let urls := js_urls js ++ [url] in
  reply ← send_json context "GET" (mkCall url query (rc_headers context) verify timeout);
  match reply with
  | JsonRaised exc =>
      let js := mkJs urls (Some (fst (extract_backend_error_detail exc))) (js_status js) (js_attempted js) in
      mret (match rx_response exc with Some _ => JStop | None => JNext end, js)
  | JsonOsError name text => mret (JNext, mkJs urls (Some (_safe_exception_text name text)) (js_status js) (js_attempted js))
  | JsonOpened r =>
      let status := jr_status r in
      if is_redirect status then
        mret (JStop, mkJs urls (Some _REDIRECT_TRANSPORT_DETAIL) (Some _REDIRECT_TRANSPORT_STATUS) (js_attempted js))
      else if 400 <=? status then
        let step := if status <? 500 then JStop else JNext in
        match jr_json r with
        | None => mret (step, mkJs urls (Some ("HTTP " +:+ pretty status)) (js_status js) (js_attempted js))
        | Some payload =>
            let '(detail, names_key) := error_body status payload in
            if (negb (js_attempted js) && names_key)%bool then
              fresh ← _handle_auth_registration_and_retry context (rc_endpoint_id context);
              mret (match fresh with Some c => JFresh c | None => step end, mkJs urls (Some detail) (js_status js) true)
            else mret (step, mkJs urls (Some detail) (js_status js) (js_attempted js))
        end
      else
        match parse_requests_response_json r with
        | inr err => mret (JNext, mkJs urls (Some err) (js_status js) (js_attempted js))
        | inl payload =>
            mret (JDone [("queued", VBool true); ("path", VStr path); ("requested_urls", urls_value urls); ("response", payload)] 202,
                  mkJs urls (js_detail js) (js_status js) (js_attempted js))
        end
  end.

Definition json_failure (path : string) (urls : list string) (status : option Z) (detail : string) : dict pyval :=
  [("ok", VBool false); ("path", VStr path); ("requested_urls", urls_value urls)] ++
  match status with Some s => [("status_code", VInt s)] | None => [] end ++ [("detail", VStr detail)].

(** One candidate of [request_backend_json]. *)
Definition json_step_of (context : request_context) (method path url : string) (verify : bool) (query : dict string) (timeout : Z)
    (endpoint_id : option Z) (js : json_state) : M W (json_step * json_state) :=
  let urls := js_urls js ++ [url] in
  reply ← _send_backend_json_request context method (mkCall url query (rc_headers context) verify timeout);
  match reply with
  | JsonRaised exc =>
      let '(detail, status) := extract_backend_error_detail exc in
      let js := mkJs urls (Some detail) status (js_attempted js) in
      match rx_response exc with
      | Some _ => mret (JDone (json_failure path urls None detail) (match status with Some s => if s =? 0 then 503 else s | None => 503 end), js)
      | None => mret (JStop, js)
      end
  | JsonOsError name text => mret (JNext, mkJs urls (Some (_safe_exception_text name text)) (js_status js) (js_attempted js))
  | JsonOpened r =>
      let status := jr_status r in
      if is_redirect status then
        mret (JDone (json_failure path urls (Some _REDIRECT_TRANSPORT_STATUS) _REDIRECT_TRANSPORT_DETAIL) _REDIRECT_TRANSPORT_STATUS,
              mkJs urls (Some _REDIRECT_TRANSPORT_DETAIL) (Some _REDIRECT_TRANSPORT_STATUS) (js_attempted js))
      else if 400 <=? status then
        let finish detail js' :=
          if status <? 500 then (JDone (json_failure path urls (Some status) detail) status, js') else (JNext, js') in
        match jr_json r with
        | None => mret (finish not_json (mkJs urls (Some not_json) (Some status) (js_attempted js)))
        | Some payload =>
            let '(detail, names_key) := error_body status payload in
            if (negb (js_attempted js) && names_key)%bool then
              fresh ← _handle_auth_registration_and_retry context endpoint_id;
              mret match fresh with
                   | Some c => (JFresh c, mkJs urls (Some detail) (Some status) true)
                   | None => finish detail (mkJs urls (Some detail) (Some status) true)
                   end
            else mret (finish detail (mkJs urls (Some detail) (Some status) (js_attempted js)))
        end
      else
        match _parse_json_or_empty r with
        | inr err => mret (JNext, mkJs urls (Some err) (Some status) (js_attempted js))
        | inl payload =>
            mret (JDone [("ok", VBool true); ("path", VStr path); ("requested_urls", urls_value urls); ("status_code", VInt status);
                         ("response", match payload with VNone => VDict [] | v => v end)] status,
                  mkJs urls (js_detail js) (Some status) (js_attempted js))
        end
  end.

(** [for url, verify in request_candidates]; [None] is a loop that ended. *)
Fixpoint json_candidates (step : string -> bool -> json_state -> M W (json_step * json_state)) (candidates : list (string * bool))
    (js : json_state) : M W (json_step * json_state) :=
  match candidates with
  | [] => mret (JStop, js)
  | (url, verify) :: candidates' =>
      '(s, js) ← step url verify js;
      match s with JNext => json_candidates step candidates' js | _ => mret (s, js) end
  end.

(** The [while] loop both functions share: [None] when no candidate settled
    the request. *)
Fixpoint json_loop (passes : nat) (step : request_context -> string -> bool -> json_state -> M W (json_step * json_state))
    (path : string) (context : request_context) (js : json_state) : M W (option (dict pyval * Z) * json_state) :=
  match passes with
  | O => raise out_of_passes
  | S passes' =>
      match rc_http_url context with
      | Some (String _ _ as http_url) =>
          '(s, js) ← json_candidates (step context)
                       (_build_request_candidates http_url (rc_ip_address_url context) path (rc_verify_ssl context)) js;
          match s with
          | JDone payload status => mret (Some (payload, status), js)
          | JFresh fresh => json_loop passes' step path fresh js
          | JStop | JNext => mret (None, js)
          end
      | _ => mret (None, mkJs (js_urls js) (Some "No FastAPI URL found after authentication retry.") (js_status js) (js_attempted js))
      end
  end.

Definition json_start : json_state := mkJs [] None None false.

Definition or_status (s : option Z) : Z := match s with Some s => if s =? 0 then 503 else s | None => 503 end.

Definition request_backend_resource (context : request_context) (path : string) (query : dict string) (timeout : Z) :
    M W (dict pyval * Z) :=
  if negb (has_url context) then
    mret ([("queued", VBool false); ("path", VStr path); ("requested_urls", VList []); ("detail", VStr "No FastAPI URL found.")], 503)
  else
    '(out, js) ← json_loop 2 (fun c url verify => resource_step c path url verify query timeout) path context json_start;
    mret match out with
         | Some out => out
         | None => ([("queued", VBool false); ("path", VStr path); ("requested_urls", urls_value (js_urls js));
                     ("detail", VStr (str_or (default "" (js_detail js)) "Unable to reach the ProxBox backend."))], or_status (js_status js))
         end.

Definition request_backend_json (context : request_context) (path method : string) (query : dict string) (timeout : Z)
    (endpoint_id : option Z) : M W (dict pyval * Z) :=
  if negb (has_url context) then
    mret ([("ok", VBool false); ("path", VStr path); ("requested_urls", VList []); ("detail", VStr "No FastAPI URL found.")], 503)
  else
    '(out, js) ← json_loop 2 (fun c url verify => json_step_of c method path url verify query timeout endpoint_id) path context json_start;
    mret match out with
         | Some out => out
         | None => ([("ok", VBool false); ("path", VStr path); ("requested_urls", urls_value (js_urls js));
                     ("status_code", match js_status js with Some s => VInt s | None => VNone end);
                     ("detail", VStr (str_or (default "" (js_detail js)) "Unable to reach the ProxBox backend."))], or_status (js_status js))
         end.

(** The callers, each with the context of the endpoint it is for. *)
Definition with_context (endpoint_id : option Z) (missing : dict pyval) (k : request_context -> M W (dict pyval * Z)) :
    M W (dict pyval * Z) :=
  context ← sw_op (sv_context endpoint_id);
  match context with
  | Some context => if has_url context then k context else mret (missing, 404)
  | None => mret (missing, 404)
  end.

Definition get_backend_bootstrap_status (endpoint_id : option Z) : M W (dict pyval * Z) :=
  with_context endpoint_id [("ok", VBool false); ("detail", VStr "No FastAPI URL found.")]
    (fun c => request_backend_json c "extras/bootstrap-status" "GET" [] (sec 5) endpoint_id).

Definition reconcile_backend_custom_fields (endpoint_id : option Z) : M W (dict pyval * Z) :=
  with_context endpoint_id [("ok", VBool false); ("detail", VStr "No FastAPI URL found.")]
    (fun c => request_backend_json c "extras/custom-fields/reconcile" "POST" [] (sec 30) endpoint_id).

Definition sync_resource (path : string) (query : dict string) : M W (dict pyval * Z) :=
  with_context None [("queued", VBool false); ("detail", VStr "No FastAPI URL found.")]
    (fun c => request_backend_resource c path query (http_timeout_for_sync_path path)).

Definition sync_full_update_resource (query : dict string) : M W (dict pyval * Z) :=
  with_context None [("queued", VBool false); ("detail", VStr "No FastAPI URL found.")]
    (fun c => request_backend_resource c "full-update" query (http_timeout_for_sync_path "full-update")).

End Json.

(** ** What the requests may do *)

Definition json_exchange : Type := request_context * string * http_call * json_reply.

(** The JSON requests of a log, the latest first. *)
Definition json_exchanges : list stream_event -> list json_exchange :=
  omap (fun ev => match ev with SvJson c m call r => Some (c, m, call, r) | _ => None end).

Lemma json_exchanges_app (l1 l2 : list stream_event) : json_exchanges (l1 ++ l2) = json_exchanges l1 ++ json_exchanges l2.
Proof. apply omap_app. Qed.

(** A request goes to a candidate of its context, with its credentials. *)
Definition json_addressed (method path : string) (query : dict string) (x : json_exchange) : Prop :=
  let '(c, m, call, _) := x in
  m = method /\ hc_headers call = rc_headers c /\ hc_query call = query /\
  exists http_url, rc_http_url c = Some http_url /\ nonempty http_url = true /\
    (hc_url call, hc_verify call) ∈ _build_request_candidates http_url (rc_ip_address_url c) path (rc_verify_ssl c).

(** The answer that a success reports. *)
Definition json_answered (x : json_exchange) (payload : dict pyval) : Prop :=
  exists r, snd x = JsonOpened r /\ jr_status r < 300 /\
    (jr_json r = Some (get "response" payload) \/ get "response" payload = VDict []).

Section JsonFacts.
Context {E : Type} `{!StreamEnv E}.
Notation W := (stream_world E).

(** A payload that reports a success. *)
Definition reports_success (payload : dict pyval) : Prop := get "ok" payload = VBool true \/ get "queued" payload = VBool true.

(** A computation that sends no JSON request and does not raise. *)
Definition json_quiet {A} (m : M W A) : Prop := adds sw_log m (fun l r => json_exchanges l = [] /\ exists a, r = Ok a).

Lemma renew_json_quiet (context : request_context) (endpoint_id : option Z) :
  json_quiet (_handle_auth_registration_and_retry context endpoint_id).
Proof.
  assert (Hret : forall A (a : A), json_quiet (mret a)).
  { intros A a. eapply adds_mono; [apply adds_ret|]. intros l r [-> ->]. eauto. }
  assert (Hop : forall A (op : E -> A * E), json_quiet (sw_op op)).
  { intros A op w. unfold wp, sw_op. destruct (op (sw_env w)) as [a e]. exists []. eauto. }
  assert (Hbind : forall A B (m : M W A) (k : A -> M W B), json_quiet m -> (forall a, json_quiet (k a)) -> json_quiet (m ≫= k)).
  { intros A B m k Hm Hk. eapply adds_bind; [exact Hm|exact Hk|by intros l e [_ [a [=]]]|].
    intros l1 l2 a r [H1 _] [H2 Hr]. by rewrite json_exchanges_app, H1, H2. }
  assert (Hlog : forall c ok, json_quiet (log_sv (SvAdopt c ok))) by (intros c ok w; exists [SvAdopt c ok]; eauto).
  unfold _handle_auth_registration_and_retry, authenticate_backend_request_context, _try_register_key.
  repeat first [apply Hret | apply Hop | apply Hlog | apply Hbind; [|intros ?]
               | match goal with |- json_quiet (match ?x with _ => _ end) => destruct x
                               | |- json_quiet (if ?x then _ else _) => destruct x end].
Qed.

(** What one candidate comes to. *)
Definition step_outcome (context : request_context) (method : string) (call : http_call) (js : json_state) (l : list stream_event)
    (res : result (json_step * json_state)) : Prop :=
  exists s js' reply, res = Ok (s, js') /\ json_exchanges l = [(context, method, call, reply)] /\
    (js_attempted js = true -> js_attempted js' = true) /\
    match s with
    | JDone payload status => reports_success payload -> json_answered (context, method, call, reply) payload
    | JFresh fresh => js_attempted js = false /\ js_attempted js' = true
    | JStop | JNext => True
    end.

Lemma step_ret (context : request_context) (method : string) (call : http_call) (js js' : json_state) (s : json_step) (reply : json_reply)
    (w w1 : W) :
  sw_log w1 = [SvJson context method call reply] ++ sw_log w -> (js_attempted js = true -> js_attempted js' = true) ->
  match s with
  | JDone payload status => reports_success payload -> json_answered (context, method, call, reply) payload
  | JFresh fresh => js_attempted js = false /\ js_attempted js' = true
  | JStop | JNext => True
  end ->
  wp (mret (s, js')) (fun r w' => exists new, sw_log w' = new ++ sw_log w /\ step_outcome context method call js new r) w1.
Proof. intros Hw Ha Hs. apply wp_ret. exists [SvJson context method call reply]. split; [done|]. by exists s, js', reply. Qed.

Lemma wp_send_json (context : request_context) (method : string) (call : http_call) (Q : result json_reply -> W -> Prop) (w : W) :
  (forall reply e, Q (Ok reply) (mkSw e (SvJson context method call reply :: sw_log w) (sw_retry_after w))) ->
  wp (send_json context method call) Q w.
Proof. intros HQ. unfold wp, send_json, mbind, M_bind, sw_op. destruct (sv_json method call (sw_env w)). apply HQ. Qed.

(** The renewal inside a step: [f] makes the step of what it returns. *)
Lemma step_renew (context : request_context) (method : string) (call : http_call) (js : json_state) (endpoint_id : option Z)
    (f : option request_context -> json_step * json_state) (reply : json_reply) (w w1 : W) :
  sw_log w1 = [SvJson context method call reply] ++ sw_log w -> js_attempted js = false ->
  (forall fresh, js_attempted (snd (f fresh)) = true /\
     match fst (f fresh) with JDone payload _ => ~ reports_success payload | _ => True end) ->
  wp (fresh ← _handle_auth_registration_and_retry context endpoint_id; mret (f fresh))
     (fun r w' => exists new, sw_log w' = new ++ sw_log w /\ step_outcome context method call js new r) w1.
Proof.
  intros Hw Ha Hf. apply wp_bind. eapply wp_mono; [apply renew_json_quiet|].
  intros [fresh|e] w2 (new & Hn & Hx & a & Hr); [|done]. apply wp_ret. destruct (Hf fresh) as [H1 H2].
  exists (new ++ [SvJson context method call reply]). rewrite Hn, Hw, <- app_assoc. split; [done|].
  destruct (f fresh) as [s js']. exists s, js', reply. split; [done|]. split; [by rewrite json_exchanges_app, Hx|].
  split; [by rewrite Ha|]. by destruct s.
Qed.

Lemma answered_ok (context : request_context) (method : string) (call : http_call) (r : json_response) (v : pyval) (fields : dict pyval) :
  is_redirect (jr_status r) = false -> jr_status r < 400 -> jr_json r = Some v \/ v = VDict [] -> get "response" fields = v ->
  json_answered (context, method, call, JsonOpened r) fields.
Proof.
  intros Hr Hs Hv Hf. exists r. split; [done|]. split; [|by rewrite Hf].
  unfold is_redirect in Hr. rewrite (proj2 (Z.ltb_lt _ _) Hs), andb_true_r in Hr. by apply Z.leb_gt in Hr.
Qed.

Lemma resource_step_adds (context : request_context) (path url : string) (verify : bool) (query : dict string) (timeout : Z)
    (js : json_state) :
  adds sw_log (resource_step context path url verify query timeout js)
    (step_outcome context "GET" (mkCall url query (rc_headers context) verify timeout) js).
Proof.
  intros w. unfold resource_step. set (call := mkCall _ _ _ _ _). apply wp_bind, wp_send_json. intros reply e.
  destruct reply as [r|exc|name text].
  - destruct (is_redirect (jr_status r)) eqn:Er; [by eapply step_ret|].
    destruct (400 <=? jr_status r) eqn:E4.
    + assert (Hstep : forall js', js_attempted js' = js_attempted js ->
        wp (mret (if jr_status r <? 500 then JStop else JNext, js'))
          (fun r0 w' => exists new, sw_log w' = new ++ sw_log w /\ step_outcome context "GET" call js new r0)
          (mkSw e (SvJson context "GET" call (JsonOpened r) :: sw_log w) (sw_retry_after w))).
      { intros js' Hj. eapply step_ret; [done|by rewrite Hj|]. by destruct (jr_status r <? 500). }
      destruct (jr_json r) as [payload|]; [|by apply Hstep].
      destruct (error_body (jr_status r) payload) as [detail names]. destruct (_ && _)%bool eqn:Ea; [|by apply Hstep].
      apply andb_prop in Ea as [Ha%negb_true_iff _].
      apply (step_renew context "GET" call js _ (fun fresh => (match fresh with Some c => JFresh c | None => _ end, _)) (JsonOpened r));
        [done|done|]. intros [c|]; (split; [done|]); [done|]. by destruct (jr_status r <? 500).
    + apply Z.leb_gt in E4. unfold parse_requests_response_json. destruct (jr_json r) as [v|] eqn:Ej; [|by eapply step_ret].
      eapply step_ret; [done|done|]. intros _. eapply answered_ok; [done|done|by left|done].
  - eapply step_ret; [done|done|]. by destruct (rx_response exc).
  - by eapply step_ret.
Qed.

Lemma failure_no_success (path : string) (urls : list string) (status : option Z) (detail : string) :
  ~ reports_success (json_failure path urls status detail).
Proof. intros [H|H]; by destruct status. Qed.

Lemma json_step_adds (context : request_context) (method path url : string) (verify : bool) (query : dict string) (timeout : Z)
    (endpoint_id : option Z) (js : json_state) :
  mem_str method ["GET"; "POST"] = true ->
  adds sw_log (json_step_of context method path url verify query timeout endpoint_id js)
    (step_outcome context method (mkCall url query (rc_headers context) verify timeout) js).
Proof.
  intros Hm w. unfold json_step_of, _send_backend_json_request. rewrite Hm. set (call := mkCall _ _ _ _ _).
  apply wp_bind, wp_send_json. intros reply e. destruct reply as [r|exc|name text].
  - destruct (is_redirect (jr_status r)) eqn:Er.
    { eapply step_ret; [done|done|]. intros H. by apply failure_no_success in H. }
    destruct (400 <=? jr_status r) eqn:E4.
    + destruct (jr_json r) as [payload|].
      2: { destruct (jr_status r <? 500); (eapply step_ret; [done|done|]); [|done]. intros H. by apply failure_no_success in H. }
      destruct (error_body (jr_status r) payload) as [detail names]. destruct (_ && _)%bool eqn:Ea.
      * apply andb_prop in Ea as [Ha%negb_true_iff _]. eapply (step_renew context method call js _ _ (JsonOpened r)); [done|done|].
        intros [c|]; [done|]. destruct (jr_status r <? 500); (split; [done|]); [apply failure_no_success|done].
      * destruct (jr_status r <? 500); (eapply step_ret; [done|done|]); [|done]. intros H. by apply failure_no_success in H.
    + apply Z.leb_gt in E4. destruct (_parse_json_or_empty r) as [v|err] eqn:Ep; [|by eapply step_ret].
      eapply step_ret; [done|done|]. intros _. unfold _parse_json_or_empty, parse_requests_response_json in Ep.
      destruct (jr_status r =? 204); [injection Ep as <-; eapply answered_ok; [done|done|by right|done]|].
      destruct (jr_empty r); [injection Ep as <-; eapply answered_ok; [done|done|by right|done]|].
      destruct (jr_json r) as [v'|] eqn:Ej; [|done]. injection Ep as <-.
      destruct v'; (eapply answered_ok; [done|done| |done]); first [by left|by right].
  - destruct (extract_backend_error_detail exc) as [detail status]. destruct (rx_response exc); [|by eapply step_ret].
    eapply step_ret; [done|done|]. intros H. by apply failure_no_success in H.
  - by eapply step_ret.
Qed.

(** What the requests of a whole call come to; [n] bounds their number. *)
Definition json_outcome (method path : string) (query : dict string) (n : nat) (l : list stream_event)
    (res : result (option (dict pyval * Z) * json_state)) : Prop :=
  exists out js, res = Ok (out, js) /\ Forall (json_addressed method path query) (json_exchanges l) /\
    (List.length (json_exchanges l) <= n)%nat /\
    match out with
    | Some (payload, _) => reports_success payload -> exists x rest, json_exchanges l = x :: rest /\ json_answered x payload
    | None => True
    end.

Definition good_step (method : string) (query : dict string)
    (step : request_context -> string -> bool -> json_state -> M W (json_step * json_state)) : Prop :=
  forall c url verify js, exists timeout,
    adds sw_log (step c url verify js) (step_outcome c method (mkCall url query (rc_headers c) verify timeout) js).

(** One pass over the candidates of a context. *)
Lemma candidates_adds (method path : string) (query : dict string)
    (step : request_context -> string -> bool -> json_state -> M W (json_step * json_state)) (context : request_context)
    (http_url : string) (cs : list (string * bool)) (js : json_state) :
  good_step method query step -> rc_http_url context = Some http_url -> nonempty http_url = true ->
  cs ⊆ _build_request_candidates http_url (rc_ip_address_url context) path (rc_verify_ssl context) ->
  adds sw_log (json_candidates (step context) cs js)
    (fun l res => exists s js', res = Ok (s, js') /\ Forall (json_addressed method path query) (json_exchanges l) /\
       (List.length (json_exchanges l) <= List.length cs)%nat /\
       match s with
       | JDone payload _ => reports_success payload -> exists x rest, json_exchanges l = x :: rest /\ json_answered x payload
       | JFresh _ => js_attempted js = false /\ js_attempted js' = true
       | _ => True
       end).
Proof.
  intros Hstep Hu Hne. revert js. induction cs as [|[url verify] cs IH]; intros js Hsub; cbn [json_candidates].
  { eapply adds_mono; [apply adds_ret|]. intros l r [-> ->]. eexists _, _. split; [done|]. split; [constructor|]. split; [done|done]. }
  destruct (Hstep context url verify js) as [timeout Hs]. intros w. apply wp_bind. eapply wp_mono; [apply Hs|].
  intros [[s js']|e] w1 (new & Hn & s' & js'' & reply & He & Hx & Ha & Hsn); [|done]. injection He as <- <-.
  set (x := (context, method, mkCall _ _ _ _ _, reply)) in *.
  assert (Hadd : json_addressed method path query x).
  { do 3 (split; [done|]). exists http_url. split; [done|]. split; [done|]. apply Hsub. left. }
  assert (Hend : s <> JNext -> wp (mret (s, js')) (fun r w' => exists new, sw_log w' = new ++ sw_log w /\
      exists s js', r = Ok (s, js') /\ Forall (json_addressed method path query) (json_exchanges new) /\
       (List.length (json_exchanges new) <= List.length ((url, verify) :: cs))%nat /\
       match s with
       | JDone payload _ => reports_success payload -> exists x rest, json_exchanges new = x :: rest /\ json_answered x payload
       | JFresh _ => js_attempted js = false /\ js_attempted js' = true
       | _ => True
       end) w1).
  { intros _. apply wp_ret. exists new. split; [done|]. exists s, js'. split; [done|]. rewrite Hx. split; [by constructor|].
    split; [simpl; lia|]. destruct s; try done. intros Hr. exists x, []. auto. }
  destruct s; try (by apply Hend). clear Hend. eapply wp_mono; [apply IH; intros c Hc; apply Hsub; by right|].
  intros r w2 (new2 & Hn2 & s & js2 & -> & Hf & Hl & Hc). exists (new2 ++ new). rewrite Hn2, Hn, app_assoc. split; [done|].
  exists s, js2. rewrite json_exchanges_app, Hx, length_app. split; [done|]. split; [apply Forall_app; split; [done|by constructor]|].
  split; [simpl; lia|]. destruct s as [payload st|fresh| |]; try done.
  - intros Hr. destruct (Hc Hr) as (y & rest & -> & Hy). exists y, (rest ++ [x]). auto.
  - destruct Hc as [H1 H2]. split; [|done]. destruct (js_attempted js); [|done]. by rewrite (Ha eq_refl) in H1.
Qed.

Lemma candidates_length (http_url : string) (ip : option string) (path : string) (verify : bool) :
  (List.length (_build_request_candidates http_url ip path verify) <= 2)%nat.
Proof. unfold _build_request_candidates. destruct ip as [[|c ip]|]; cbn; try lia. case_match; cbn; lia. Qed.

Lemma json_loop_adds (method path : string) (query : dict string)
    (step : request_context -> string -> bool -> json_state -> M W (json_step * json_state)) (n : nat) (context : request_context)
    (js : json_state) :
  good_step method query step -> (if js_attempted js then 1 <= n else 2 <= n)%nat ->
  adds sw_log (json_loop n step path context js) (json_outcome method path query (2 * n)).
Proof.
  intros Hstep. revert context js. induction n as [|n IH]; intros context js Hn; [destruct (js_attempted js); lia|].
  cbn [json_loop]. destruct (rc_http_url context) as [[|c u]|] eqn:Eu;
    try (eapply adds_mono; [apply adds_ret|]; intros l r [-> ->]; eexists _, _; split; [done|]; split; [constructor|]; split; [simpl; lia|done]).
  intros w. apply wp_bind. eapply wp_mono; [by apply (candidates_adds method path query step context (String c u))|].
  intros [[s js']|e] w1 (new & Hn1 & s' & js'' & He & Hf & Hl & Hs); [|done]. injection He as <- <-.
  pose proof (candidates_length (String c u) (rc_ip_address_url context) path (rc_verify_ssl context)) as Hc.
  assert (Hend : forall out, match out with
       | Some (payload, _) => reports_success payload -> exists x rest, json_exchanges new = x :: rest /\ json_answered x payload
       | None => True end -> wp (mret (out, js')) (fun r w' => exists new, sw_log w' = new ++ sw_log w /\
         json_outcome method path query (2 * S n) new r) w1).
  { intros out Ho. apply wp_ret. exists new. split; [done|]. exists out, js'. split; [done|]. split; [done|]. split; [lia|done]. }
  destruct s as [payload st|fresh| |]; try (by apply Hend). destruct Hs as [H1 H2]. rewrite H1 in Hn.
  eapply wp_mono; [apply IH; rewrite H2; lia|]. intros r w2 (new2 & Hn2 & out & js2 & -> & Hf2 & Hl2 & Ho). exists (new2 ++ new).
  rewrite Hn2, Hn1, app_assoc. split; [done|]. exists out, js2. rewrite json_exchanges_app, length_app. split; [done|].
  split; [by apply Forall_app|]. split; [lia|]. destruct out as [[payload st]|]; [|done].
  intros Hr. destruct (Ho Hr) as (x & rest & -> & Hx). exists x, (rest ++ json_exchanges new). auto.
Qed.

End JsonFacts.

(** ** The two functions *)

(** What the requests of a call come to: it always returns, each request goes
    to a candidate of its context with that context's credentials, there are
    at most four, and a reported success is the latest answer. *)
Definition call_outcome (method path : string) (query : dict string) (l : list stream_event) (res : result (dict pyval * Z)) : Prop :=
  exists payload status, res = Ok (payload, status) /\ Forall (json_addressed method path query) (json_exchanges l) /\
    (List.length (json_exchanges l) <= 4)%nat /\
    (reports_success payload -> exists x rest, json_exchanges l = x :: rest /\ json_answered x payload).

Section JsonCalls.
Context {E : Type} `{!StreamEnv E}.
Notation W := (stream_world E).

(** A call that makes no request. *)
Lemma idle_call (method path : string) (query : dict string) (payload : dict pyval) (status : Z) :
  ~ reports_success payload -> adds (W := W) sw_log (mret (payload, status)) (call_outcome method path query).
Proof.
  intros Hp. eapply adds_mono; [apply adds_ret|]. intros l r [-> ->]. exists payload, status.
  split; [done|]. split; [constructor|]. split; [simpl; lia|done].
Qed.

(** What is made of the outcome of the loop. *)
Lemma loop_call (method path : string) (query : dict string)
    (step : request_context -> string -> bool -> json_state -> M W (json_step * json_state)) (context : request_context)
    (f : json_state -> dict pyval * Z) :
  good_step method query step -> (forall js, ~ reports_success (fst (f js))) ->
  adds sw_log ('(out, js) ← json_loop 2 step path context json_start; mret (match out with Some out => out | None => f js end))
    (call_outcome method path query).
Proof.
  intros Hstep Hf w. apply wp_bind. eapply wp_mono; [apply (json_loop_adds method path query step 2 context json_start Hstep); simpl; lia|].
  intros r w1 (new & Hn & out & js & -> & Ha & Hl & Ho). apply wp_ret. exists new. split; [done|].
  destruct out as [[payload status]|].
  - exists payload, status. split; [done|]. split; [done|]. split; [lia|done].
  - specialize (Hf js). destruct (f js) as [payload status]. exists payload, status.
    split; [done|]. split; [done|]. split; [lia|]. intros Hr. by destruct Hf.
Qed.

Lemma request_backend_resource_adds (context : request_context) (path : string) (query : dict string) (timeout : Z) :
  adds sw_log (request_backend_resource context path query timeout) (call_outcome "GET" path query).
Proof.
  unfold request_backend_resource. destruct (has_url context); cbn [negb]; [|apply idle_call; by intros [|]].
  apply (loop_call "GET" path query (fun c url verify => resource_step c path url verify query timeout) context
           (fun js => ([("queued", VBool false); ("path", VStr path); ("requested_urls", urls_value (js_urls js));
             ("detail", VStr (str_or (default "" (js_detail js)) "Unable to reach the ProxBox backend."))], or_status (js_status js)))).
  - intros c url verify js. exists timeout. apply resource_step_adds.
  - by intros js [|].
Qed.

Lemma request_backend_json_adds (context : request_context) (path method : string) (query : dict string) (timeout : Z)
    (endpoint_id : option Z) :
  mem_str method ["GET"; "POST"] = true ->
  adds sw_log (request_backend_json context path method query timeout endpoint_id) (call_outcome method path query).
Proof.
  intros Hm. unfold request_backend_json. destruct (has_url context); cbn [negb]; [|apply idle_call; by intros [|]].
  apply (loop_call method path query (fun c url verify => json_step_of c method path url verify query timeout endpoint_id) context
           (fun js => ([("ok", VBool false); ("path", VStr path); ("requested_urls", urls_value (js_urls js));
             ("status_code", match js_status js with Some s => VInt s | None => VNone end);
             ("detail", VStr (str_or (default "" (js_detail js)) "Unable to reach the ProxBox backend."))], or_status (js_status js)))).
  - intros c url verify js. exists timeout. by apply json_step_adds.
  - by intros js [|].
Qed.

Lemma with_context_adds (endpoint_id : option Z) (missing : dict pyval) (k : request_context -> M W (dict pyval * Z))
    (method path : string) (query : dict string) :
  ~ reports_success missing -> (forall c, adds sw_log (k c) (call_outcome method path query)) ->
  adds sw_log (with_context endpoint_id missing k) (call_outcome method path query).
Proof.
  intros Hm Hk w. unfold with_context. apply wp_bind. unfold wp, sw_op. destruct (sv_context endpoint_id (sw_env w)) as [c e].
  cbn [fst snd]. destruct c as [c|]; [destruct (has_url c)|].
  - apply (Hk c (mkSw e (sw_log w) (sw_retry_after w))).
  - by apply (idle_call method path query missing 404 Hm (mkSw e (sw_log w) (sw_retry_after w))).
  - by apply (idle_call method path query missing 404 Hm (mkSw e (sw_log w) (sw_retry_after w))).
Qed.

End JsonCalls.

(** A call of one of the backend's JSON resources always returns, whatever the
    backend does: it sends at most four requests, each to the configured
    address or its fallback with the endpoint's own credentials, and reports
    a success only for the body that the last of them was answered with. *)
Theorem json_calls_bounded {E : Type} `{!StreamEnv E} (endpoint_id : option Z) (path : string) (query : dict string) (env : E) :
  let outcome {A} (m : M (stream_world E) A) P := P (sw_log (snd (m (mkSw env [] None)))) (fst (m (mkSw env [] None))) : Prop in
  outcome (sync_resource path query) (call_outcome "GET" path query) /\
  outcome (sync_full_update_resource query) (call_outcome "GET" "full-update" query) /\
  outcome (get_backend_bootstrap_status endpoint_id) (call_outcome "GET" "extras/bootstrap-status" []) /\
  outcome (reconcile_backend_custom_fields endpoint_id) (call_outcome "POST" "extras/custom-fields/reconcile" []).
Proof.
  assert (H0 : forall (m : M (stream_world E) (dict pyval * Z)) method p q, adds sw_log m (call_outcome method p q) ->
    call_outcome method p q (sw_log (snd (m (mkSw env [] None)))) (fst (m (mkSw env [] None)))).
  { intros m method p q Hm. destruct (Hm (mkSw env [] None)) as (new & Hn & H). rewrite Hn. cbn [sw_log]. by rewrite app_nil_r. }
  cbv zeta. repeat split; apply H0; apply with_context_adds; try (by intros [|]); intros c;
    first [apply request_backend_resource_adds | by apply request_backend_json_adds].
Qed.

(** ** Concrete calls *)

Definition sample_call (replies : list json_response) : result (dict pyval * Z) * stream_world backend_script :=
  get_backend_bootstrap_status (Some 3) (mkSw (mkScript 0 (Some sample_context) (Some 200) [] replies) [] None).

(** Whether the payload says [ok], the status beside it, and the number of
    requests. *)
Definition call_seen (r : result (dict pyval * Z) * stream_world backend_script) : option (pyval * Z) * nat :=
  (match fst r with Ok (p, s) => Some (get "ok" p, s) | Err _ => None end, List.length (json_exchanges (sw_log (snd r)))).

Definition no_content : json_response := mkJsonResponse 204 None true.
Definition key_unknown : json_response := mkJsonResponse 401 (Some (VDict [("detail", VStr "Invalid API key")])) false.
Definition web_page (status : Z) : json_response := mkJsonResponse status None false.

(** An empty success; a key that was refused once; an error page at the first
    address; a page that is not JSON at both addresses, which is reported as
    failed under the status 200. *)
Example json_calls_sample :
  call_seen (sample_call [no_content]) = (Some (VBool true, 204), 1%nat) /\
  call_seen (sample_call [key_unknown; no_content]) = (Some (VBool true, 204), 2%nat) /\
  call_seen (sample_call [web_page 500; no_content]) = (Some (VBool true, 204), 2%nat) /\
  call_seen (sample_call [web_page 200; web_page 200]) = (Some (VBool false, 200), 2%nat).
Proof. repeat split; vm_compute; reflexivity. Qed.
