(* ===== verification/StageStream.v ===== *)
(** * Stages over the stream client

    [_execute_stage_sync] (sync_stages.py) asks services/backend_proxy.py for
    each of its attempts.  The environment of the stage model is here the
    stream client itself, over an environment that answers its requests, so
    that what a stage reports is traced back to what the backend sent. *)
From Stdlib Require Import ZArith Lia String.
From stdpp Require Import base list sets strings.
From S2P Require Import Prelude Json StageFailure SyncModes Effects Deadline StageExec.
From S2P Require Import Redaction ErrorDetail BackendStream.

Section Composed.
Context {E : Type} `{!Env E} `{!StreamEnv E}.

(** The clock and the stream are those of the client; the rows and the other
    requests stay with the underlying environment. *)
#[global] Instance stream_backed : Env (stream_world E) := {|
  env_monotonic w := let '(t, e) := sv_monotonic (sw_env w) in (t, mkSw e (sw_log w) (sw_retry_after w));
  env_sleep d w := mkSw (sv_sleep d (sw_env w)) (sw_log w) (sw_retry_after w);
  env_utcnow w := env_utcnow (sw_env w);
  env_http_date := env_http_date;
  env_netbox w := env_netbox (sw_env w);
  env_context id w := env_context id (sw_env w);
  env_list_endpoints c w := let '(r, e) := env_list_endpoints c (sw_env w) in (r, mkSw e (sw_log w) (sw_retry_after w));
  env_stream r w := BackendStream.run_sync_stream (req_path r) (req_query r) (req_endpoint_id r) (req_timeout r) (req_deadline r) w
|}.

Notation W := (world (stream_world E)).

Definition client_log (w : W) : list stream_event := sw_log (env w).

(** What a stage with [n] attempts left comes to. *)
Definition stage_traced (path : string) (query : dict string) (n : nat) (l : list stream_event) (res : result (dict pyval * Z)) : Prop :=
  Forall (addressed path query) (exchanges l) /\ (List.length (exchanges l) <= 2 * n)%nat /\
  match res with
  | Ok (payload, _) => exists x rest, exchanges l = x :: rest /\ success_of x payload 200
  | Err e => exists msg, e = RuntimeError msg
  end.

(** Steps that leave the client alone. *)
Definition idle {A} (m : M W A) (P : result A -> Prop) : Prop := adds client_log m (fun l r => l = [] /\ P r).

Lemma idle_monotonic : idle monotonic (fun r => exists t, r = Ok t).
Proof.
  intros w. unfold wp, monotonic. simpl. destruct (sv_monotonic _) as [t e]. exists []. eauto.
Qed.

Lemma idle_sleep (d : Z) : idle (sleep d) (fun r => r = Ok ()).
Proof. intros w. by exists []. Qed.

(** An idle step in front of a stage. *)
Lemma idle_bind {A B} (m : M W A) (k : A -> M W B) (P : result A -> Prop) (T : list stream_event -> result B -> Prop) :
  idle m P -> (forall a, P (Ok a) -> adds client_log (k a) T) -> (forall e, P (Err e) -> T [] (Err e)) ->
  adds client_log (m ≫= k) T.
Proof.
  intros Hm Hk He w. apply wp_bind. eapply wp_mono; [apply Hm|]. intros [a|e] w1 (new & Hn & -> & HP); [|exists []; eauto].
  eapply wp_mono; [by apply Hk|]. intros r w2 (new2 & Hn2 & HT). exists new2. by rewrite Hn2, Hn.
Qed.

Lemma idle_ret {A} (a : A) (P : result A -> Prop) : P (Ok a) -> idle (mret a) P.
Proof. intros HP. eapply adds_mono; [apply adds_ret|]. by intros l r [-> ->]. Qed.

Lemma idle_raise {A} (e : exn) (P : result A -> Prop) : P (Err e) -> idle (raise e) P.
Proof. intros HP. eapply adds_mono; [apply adds_raise|]. by intros l r [-> ->]. Qed.

Ltac tick := eapply idle_bind; [apply idle_monotonic|intros ? _|by intros ? [? [=]]].

Lemma idle_budget (deadline : option SyncJobDeadline) : idle (stage_budget deadline) (fun r => exists b, r = Ok b).
Proof. unfold stage_budget. destruct deadline; [tick|]; apply idle_ret; eauto. Qed.

Lemma idle_pause (deadline : option SyncJobDeadline) (payload : dict pyval) (index : nat) :
  idle (retry_pause deadline payload index) (fun r => r = Err no_time_to_retry \/ exists d, r = Ok d).
Proof.
  unfold retry_pause. eapply idle_bind; [apply adds_gets| |by intros e [? [=]]]. intros u _.
  destruct deadline as [d|]; [tick; destruct (_ <=? 0)|]; [apply idle_raise|apply idle_ret..]; eauto.
Qed.

Lemma idle_failure (sync_type : string) (hint : option string) (attempts : list _StageFailureAttempt) :
  attempts <> [] -> idle (stage_failure sync_type hint attempts) (fun r => exists msg, r = Err (RuntimeError msg)).
Proof.
  intros Hne. unfold stage_failure.
  assert (exists msg, _compose_stage_failure_message sync_type attempts = Ok msg) as [msg ->].
  { unfold _compose_stage_failure_message. destruct (primary_total attempts Hne) as [a ->]. destruct (forallb _ _); eauto. }
  eapply idle_bind; [apply adds_lift|intros a _|done]. apply idle_raise. eauto.
Qed.

(** One attempt: a failed one carries the requests it made. *)
Definition attempt_traced (path : string) (query : dict string) (l : list stream_event)
    (res : result ((dict pyval * Z) + _StageFailureAttempt)) : Prop :=
  Forall (addressed path query) (exchanges l) /\ (List.length (exchanges l) <= 2)%nat /\
  match res with
  | Ok (inl (payload, _)) => exists x rest, exchanges l = x :: rest /\ success_of x payload 200
  | Ok (inr _) => True
  | Err e => e = no_time_left
  end.

Lemma run_outcome_length (path : string) (query : dict string) (l : list stream_event) (res : result (dict pyval * Z)) :
  run_outcome path query l res -> (List.length (exchanges l) <= 2)%nat.
Proof. intros (p & s & _ & _ & _ & H). destruct (exchanges l) as [|x2 [|x1 [|]]]; simpl; try lia. Qed.

Lemma attempt_adds (index : nat) (path : string) (query : dict string) (endpoint_id : option Z) (deadline : option SyncJobDeadline)
    (stage_started : Z) :
  library_errors (E := E) ->
  adds client_log
    (stage_attempt index (fun t => {| req_path := path; req_query := query; req_endpoint_id := endpoint_id;
                                      req_timeout := t; req_deadline := deadline |}) deadline stage_started)
    (attempt_traced path query).
Proof.
  intros Hlib. unfold stage_attempt. eapply idle_bind; [apply idle_budget|intros b _|by intros e [? [=]]].
  assert (Hnone : forall r, match r with Ok (inl _) => False | Ok (inr _) => True | Err e => e = no_time_left end ->
    attempt_traced path query [] r).
  { intros r Hr. split; [constructor|]. split; [simpl; lia|]. destruct r as [[[p t]|f]|e]; done. }
  unfold attempt_with_budget. destruct (b <=? 0).
  { eapply adds_mono; [apply adds_raise|]. intros l r [-> ->]. by apply Hnone. }
  tick. intros w. apply wp_bind.
  pose proof (run_sync_stream_adds path query endpoint_id (Z.min (sec 3600) b) deadline Hlib (env w)) as (new & Hn & Hr).
  unfold wp, StageExec.run_sync_stream. cbn [env_stream stream_backed req_path req_query req_endpoint_id req_timeout req_deadline].
  destruct (BackendStream.run_sync_stream _ _ _ _ _ _) as [res sw]. cbn [fst snd] in *.
  pose proof (run_outcome_length _ _ _ _ Hr) as Hl. destruct Hr as (payload & status & -> & Ha & Hs & _). cbv iota beta.
  assert (Hend : forall A (m : M W A) (k : A -> M W ((dict pyval * Z) + _StageFailureAttempt)) v w1,
    (forall a, attempt_traced path query new (Ok (v a))) -> idle m (fun r => exists a, r = Ok a) -> sw_log (env w1) = new ++ client_log w ->
    k = (fun a => mret (v a)) ->
    wp (m ≫= k) (fun r w' => exists new, client_log w' = new ++ client_log w /\ attempt_traced path query new r) w1).
  { intros A m k v w1 Hv Hm Hw ->. apply wp_bind. eapply wp_mono; [apply Hm|]. intros r w2 (n2 & Hn2 & -> & v0 & ->). apply wp_ret.
    exists new. split; [|apply Hv]. etrans; [exact Hn2|exact Hw]. }
  destruct (status <? 400) eqn:E4.
  - apply Z.ltb_lt in E4. destruct (Hs E4) as (x & rest & Hx & Hok).
    assert (Hst : status = 200) by (by destruct Hok as (? & ? & ? & ? & ? & ? & ? & ?)). subst status.
    apply wp_bind. eapply wp_mono; [apply idle_monotonic|]. intros r1 w1 (n1 & Hn1 & -> & t & ->).
    eapply Hend; [|apply idle_monotonic|etrans; [exact Hn1|exact Hn]|done]. intros t'. split; [done|]. split; [done|]. by exists x, rest.
  - apply wp_bind. eapply wp_mono; [apply idle_monotonic|]. intros r1 w1 (n1 & Hn1 & -> & t & ->).
    eapply Hend; [|apply idle_monotonic|etrans; [exact Hn1|exact Hn]|done]. intros t'. split; [done|]. by split.
Qed.

Lemma attempt_loop_adds (left index : nat) (sync_type path : string) (query : dict string) (endpoint_id : option Z)
    (deadline : option SyncJobDeadline) (hint : option string) (stage_started : Z) (attempts : list _StageFailureAttempt) :
  library_errors (E := E) -> (left = 0%nat -> attempts <> []) ->
  adds client_log
    (attempt_loop left index sync_type
       (fun t => {| req_path := path; req_query := query; req_endpoint_id := endpoint_id; req_timeout := t; req_deadline := deadline |})
       deadline hint stage_started attempts)
    (stage_traced path query left).
Proof.
  intros Hlib. revert index attempts. induction left as [|left IH]; intros index attempts Hne; cbn [attempt_loop].
  { eapply adds_mono; [by apply idle_failure, Hne|]. intros l r (-> & msg & ->). split; [constructor|]. split; [simpl; lia|eauto]. }
  eapply (adds_bind client_log _ _ _ (fun outcome l r => match outcome with inl done => l = [] /\ r = Ok done
    | inr _ => stage_traced path query left l r end)); [by apply attempt_adds|..].
  - intros [done|failure]; [apply adds_ret|].
    assert (Hfail : adds client_log (stage_failure sync_type hint (attempts ++ [failure])) (stage_traced path query left)).
    { eapply adds_mono; [apply idle_failure; by destruct attempts|]. intros l r (-> & msg & ->). split; [constructor|]. split; [simpl; lia|eauto]. }
    destruct (_ && _)%bool; [|exact Hfail].
    eapply idle_bind; [apply idle_pause|intros d _|].
    + eapply idle_bind; [apply idle_sleep|intros _ _|by intros e [=]]. apply IH. intros _. by destruct attempts.
    + intros e [[= ->]|[d [=]]]. split; [constructor|]. split; [simpl; lia|]. by eexists.
  - intros l e (Ha & Hl & ->). split; [done|]. split; [lia|]. by eexists.
  - intros l1 l2 [[payload t]|failure] r (Ha & Hl & Ho).
    + intros [-> ->]. split; [done|]. split; [cbn; lia|done].
    + intros (Ha2 & Hl2 & Hr). split; [rewrite exchanges_app; by apply Forall_app|]. rewrite exchanges_app, length_app. split; [lia|].
      destruct r as [[payload t]|e]; [|done]. destruct Hr as (x & rest & -> & Hx). by exists x, (rest ++ exchanges l1).
Qed.

Lemma execute_stage_adds (sync_type path : string) (query : dict string) (endpoint_id : option Z) (hint : option string)
    (deadline : option SyncJobDeadline) :
  library_errors (E := E) ->
  adds client_log (_execute_stage_sync sync_type path query endpoint_id hint deadline) (stage_traced path query 3).
Proof. intros Hlib. unfold _execute_stage_sync. tick. by apply attempt_loop_adds. Qed.

End Composed.

(** C12: A stage that the job reports as synced was reported as synced by the
    backend: the last request of its last attempt was answered with a body
    that was read to its end and whose last [complete] event is valid and says
    [ok], and the payload the stage returns is that event.  A stage makes at
    most six requests, all to the configured backend with its credentials, and
    otherwise ends with a [RuntimeError].  Reading the request context and
    saving the log entries of the job are taken not to raise. *)
Theorem stage_success_from_backend {E : Type} `{!Env E} `{!StreamEnv E} (sync_type path : string) (query : dict string)
    (endpoint_id : option Z) (hint : option string) (deadline : option SyncJobDeadline) (env : E) (vars : mode_vars) :
  library_errors (E := E) ->
  let run := _execute_stage_sync sync_type path query endpoint_id hint deadline
               {| StageExec.env := mkSw env [] None; history := []; sync_mode_vars := vars; wire_capture := None |} in
  stage_traced path query 3 (client_log (snd run)) (fst run).
Proof.
  intros Hlib. cbv zeta.
  destruct (execute_stage_adds sync_type path query endpoint_id hint deadline Hlib
              {| StageExec.env := mkSw env [] None; history := []; sync_mode_vars := vars; wire_capture := None |}) as (new & Hn & H).
  rewrite Hn. unfold client_log at 1. cbn [StageExec.env sw_log]. by rewrite app_nil_r.
Qed.

(** The scripted backend with no rows of NetBox beside it. *)
#[global] Instance script_rows_env : Env backend_script := {|
  env_monotonic := sv_monotonic; env_sleep := sv_sleep; env_utcnow _ := 0; env_http_date _ := None;
  env_netbox _ := sample_netbox; env_context _ _ := None; env_list_endpoints _ s := (inr "unused", s);
  env_stream _ s := (Err (RuntimeError "unused"), s)
|}.

Definition sample_stage (replies : list stream_response) : result (dict pyval * Z) * world (stream_world backend_script) :=
  _execute_stage_sync "devices" "dcim/devices/create/stream" [] None None None
    {| env := sample_script_of replies; history := []; sync_mode_vars := []; wire_capture := None |}.

(** A gateway's page, without a word of the backend. *)
Definition bad_gateway : stream_response := mkResponse 502 None None [] None.

(** The verdict of a later attempt counts; a failed sync has status 503 and is
    attempted again like a gateway's page; a rejection is final. *)
Example stages_traced :
  (match fst (sample_stage [bad_gateway; opened (sample_body "true")]) with Ok (p, _) => get "response" p | Err _ => VNone end)
    = VDict [("ok", VBool true); ("message", VNone); ("result", VNone); ("errors", VList [])] /\
  List.length (exchanges (client_log (snd (sample_stage [bad_gateway; opened (sample_body "true")])))) = 2%nat /\
  List.length (exchanges (client_log (snd (sample_stage [opened (sample_body "false"); opened (sample_body "true")])))) = 2%nat /\
  fst (sample_stage [mkResponse 422 None (Some (VDict [("detail", VStr "bad tag")])) [] None; opened (sample_body "true")])
    = Err (RuntimeError "Stage 'devices' failed (HTTP 422): bad tag").
Proof. repeat split; vm_compute; reflexivity. Qed.

Lemma stage_success_from_backend_witness :
  library_errors (E := backend_script) /\
  stage_traced "dcim/devices/create/stream" [] 3 (client_log (snd (sample_stage [bad_gateway; opened (sample_body "true")])))
    (fst (sample_stage [bad_gateway; opened (sample_body "true")])).
Proof.
  assert (Hlib : library_errors (E := backend_script)) by (intros call s s' exc; simpl; by destruct (bs_replies s)).
  split; [exact Hlib|].
  exact (stage_success_from_backend "devices" "dcim/devices/create/stream" [] None None None
           (mkScript 0 (Some sample_context) (Some 200) [bad_gateway; opened (sample_body "true")] []) [] Hlib).
Defined.

(** A rejected request whose error echoes what was submitted: with the name
    [read timeout] in it the stage is tried again, with another name it is
    not. *)
Definition rejection (name : string) : stream_response :=
  mkResponse 400 None (Some (VDict [("detail", VList [VDict
    [("msg", VStr "invalid"); ("input", VDict [("name", VStr name)])]])])) [] None.

Example echoed_input_is_retried :
  List.map (fun name => List.length (exchanges (client_log (snd (sample_stage [rejection name; opened (sample_body "true")])))))
    ["pve1"; "read timeout"] = [1; 2]%nat.
Proof. vm_compute. reflexivity. Qed.
