(* ===== verification/ConnectionAuthority.v ===== *)
(** * Approval of connection targets

    services/connection_authority.py, sensitive_data.py and the host
    normalisation of cloud_image_ssh.py: stored credentials of an endpoint are
    sent only to a target that somebody with the right permissions reviewed.
    The approval is the fingerprint of the target, kept in a field of the
    endpoint's row that no ordinary save can write.

    [NetBoxEndpoint] and [ProxmoxEndpoint] rows are modelled; the FastAPI
    endpoints, whose target is fingerprinted by services/backend_key_adoption.py,
    are not.  A row holds the ids of the rows it is linked to; an instance in
    memory also holds the linked values it has loaded, which may be stale. *)
From Stdlib Require Import ZArith Lia Ascii String.
From stdpp Require Import base list sets strings pretty gmap.
From S2P Require Import Prelude Text Json BackendPath EndpointScope.

(** ** [str(ipaddress.ip_interface(text).ip)] *)

Definition hex_number (s : string) : Z :=
  (fix go (acc : Z) (s : string) : Z :=
     match s with
     | EmptyString => acc
     | String c s' => go (acc * 16 + default 0 (hex_val c)) s'
     end) 0 s.

(** The pieces between colons, and the words of a dotted last piece. *)
Definition ipv6_pieces (s : string) : list string * list Z :=
  let parts := split ":" s in
  match List.rev parts with
  | l :: front =>
      if contains "." l
      then match ipv4_int l with
           | Some n => (List.rev front, [n / 65536; n mod 65536])
           | None => (parts, [])
           end
      else (parts, [])
  | [] => (parts, [])
  end.

(** The eight words of an address that [is_ipv6_address] accepts. *)
Definition ipv6_words (s : string) : list Z :=
  let '(pieces, tail) := ipv6_pieces s in
  let words l := List.map hex_number (List.filter nonempty l) in
  match List.filter (fun i => is_empty (default "x" (pieces !! i))) (seq 1 (List.length pieces)) with
  | i :: _ =>
      let hi := words (take i pieces) in
      let lo := words (drop (S i) pieces) ++ tail in
      hi ++ repeat 0 (8 - List.length hi - List.length lo) ++ lo
  | [] => words pieces ++ tail
  end.

Fixpoint drop_zeros (l : list Z) : list Z :=
  match l with 0 :: l' => drop_zeros l' | _ => l end.

(** [format(n, "x")] of a 16-bit word *)
Definition hex_text (n : Z) : string :=
  String.concat ""
    (List.map (fun d => String (hex_digit (Z.to_nat d)) "")
       (drop_zeros [(n / 4096) mod 16; (n / 256) mod 16; (n / 16) mod 16] ++ [n mod 16])).

(** The length of the run of zeroes in front. *)
Fixpoint zeros (l : list Z) : nat := match l with 0 :: l' => S (zeros l') | _ => 0 end.

(** The first longest run of zeroes: where it starts and its length. *)
Fixpoint best_run (i : nat) (l : list Z) (best : nat * nat) : nat * nat :=
  match l with
  | [] => best
  | _ :: l' => best_run (S i) l' (if Nat.ltb (snd best) (zeros l) then (i, zeros l) else best)
  end.

Definition ipv6_text (words : list Z) : string :=
  let '(i, n) := best_run 0 words (0%nat, 0%nat) in
  if Nat.ltb 1 n
  then join ":" (List.map hex_text (take i words)) +:+ "::" +:+ join ":" (List.map hex_text (drop (i + n) words))
  else join ":" (List.map hex_text words).

Definition ip_interface_ip (text : string) : option string :=
  if is_ipv4_network text then Some (split_first slash text)
  else if is_ipv6_network text then Some (ipv6_text (ipv6_words (split_first "%" (split_first slash text))))
  else None.

(** [normalize_host] of cloud_image_ssh.py *)
Definition normalize_host (value : string) : string :=
  let text := rstrip_char "." (strip value) in
  match ip_interface_ip text with Some ip => ip | None => lower text end.

Example hosts_normalised :
  List.map normalize_host
    [" 1.2.3.4/24 "; "PVE.Example.com."; "2001:DB8::0:1/64"; "fe80::1%eth0/64"; "::ffff:1.2.3.4"; "1:0:0:2:0:0:0:3";
     "1:0:2:3:4:5:6:7"; "0:0:0:0:0:0:0:0"; "01.2.3.4"; "1::"] =
    ["1.2.3.4"; "pve.example.com"; "2001:db8::1"; "fe80::1"; "::ffff:102:304"; "1:0:0:2::3";
     "1:0:2:3:4:5:6:7"; "::"; "01.2.3.4"; "1::"].
Proof. reflexivity. Qed.

(** ** Rows and instances *)

Record netbox_auth := mkNetboxAuth { na_token_version : string; na_token_key : string; na_token_id : option Z }.

Record proxmox_auth := mkProxmoxAuth {
  pa_username : string; pa_token_name : string; pa_ssh_source : string; pa_ssh_username : string;
  pa_ssh_service_id : option Z; pa_ssh_port : Z; pa_ssh_known_host_fingerprint : string;
  pa_ci_target_node : string; pa_ci_identity_file : string; pa_cluster_id : option Z
}.

Inductive conn_auth := NetBoxAuth (a : netbox_auth) | ProxmoxAuth (a : proxmox_auth).

(** A row of [NetBoxEndpoint] or [ProxmoxEndpoint]: the fields that decide
    where and as whom it connects, and the approval. *)
Record conn_row := mkConnRow {
  cr_enabled : bool; cr_domain : string; cr_ip_id : option Z; cr_port : Z; cr_verify_ssl : bool;
  cr_auth : conn_auth; cr_approved : string
}.

(** A NetBox API token, without its secret. *)
Record nb_token := mkToken { tok_version : Z; tok_key : string }.

(** An instance: [ce_oid] is its identity as an object. *)
Record conn_endpoint := mkConn {
  ce_oid : Z; ce_pk : option Z; ce_row : conn_row;
  ce_ip : option string;              (* ip_address.address *)
  ce_token : option nb_token;         (* token *)
  ce_service_username : option string (* ssh_service.ssh_credential.username *)
}.

Definition set_row (e : conn_endpoint) (r : conn_row) : conn_endpoint :=
  mkConn (ce_oid e) (ce_pk e) r (ce_ip e) (ce_token e) (ce_service_username e).

Definition set_approved (r : conn_row) (v : string) : conn_row :=
  mkConnRow (cr_enabled r) (cr_domain r) (cr_ip_id r) (cr_port r) (cr_verify_ssl r) (cr_auth r) v.

Definition auth_model_name (a : conn_auth) : string :=
  match a with NetBoxAuth _ => "netboxendpoint" | ProxmoxAuth _ => "proxmoxendpoint" end.

Definition _model_name (e : conn_endpoint) : string := auth_model_name (cr_auth (ce_row e)).

(** The tables; rows are keyed by model and primary key. *)
Record conn_db := mkConnDb {
  db_rows : gmap (string * Z) conn_row;
  db_ips : gmap Z string;
  db_tokens : gmap Z nb_token;
  db_services : gmap Z string;
  db_next : Z
}.

Definition set_rows (db : conn_db) (m : gmap (string * Z) conn_row) : conn_db :=
  mkConnDb m (db_ips db) (db_tokens db) (db_services db) (db_next db).

(** A row read from the database, its links followed there. *)
Definition instance_of (oid : Z) (db : conn_db) (pk : Z) (r : conn_row) : conn_endpoint :=
  mkConn oid (Some pk) r (cr_ip_id r ≫= fun i => db_ips db !! i)
    (match cr_auth r with NetBoxAuth a => na_token_id a ≫= fun i => db_tokens db !! i | _ => None end)
    (match cr_auth r with ProxmoxAuth a => pa_ssh_service_id a ≫= fun i => db_services db !! i | _ => None end).

(** [type(endpoint).objects.filter(pk=...).first()] *)
Definition load (oid : Z) (db : conn_db) (model : string) (pk : option Z) : option conn_endpoint :=
  k ← pk; r ← db_rows db !! (model, k); Some (instance_of oid db k r).

(** ** What an approval covers *)

Definition _ip_value (e : conn_endpoint) : string := lower (strip (split_first slash (default "" (ce_ip e)))).

(** [ProxmoxEndpoint.ip], [.ssh_host] and [.effective_ssh_username] *)
Definition endpoint_ip (e : conn_endpoint) : string :=
  match ce_ip e with Some a => default "" (ip_interface_ip a) | None => "" end.

Definition ssh_host (e : conn_endpoint) (a : proxmox_auth) : string :=
  if (String.eqb (pa_ssh_source a) "service" && nonempty (endpoint_ip e))%bool then strip (endpoint_ip e)
  else strip (str_or (cr_domain (ce_row e)) (endpoint_ip e)).

Definition effective_ssh_username (e : conn_endpoint) (a : proxmox_auth) : string :=
  if String.eqb (pa_ssh_source a) "reuse_endpoint" then strip (split_first "@" (pa_username a))
  else if String.eqb (pa_ssh_source a) "service" then strip (default "" (ce_service_username e))
  else strip (pa_ssh_username a).

(** [NetBoxEndpoint.effective_token_version] *)
Definition effective_token_version (e : conn_endpoint) (a : netbox_auth) : string :=
  match ce_token e with
  | Some t => if tok_version t =? 2 then "v2" else "v1"
  | None => na_token_version a
  end.

Definition _effective_netbox_token_version (e : conn_endpoint) (a : netbox_auth) : string :=
  lower (strip (effective_token_version e a)).

Definition effective_netbox_token_key (e : conn_endpoint) (a : netbox_auth) : string :=
  let explicit_key := strip (na_token_key a) in
  if nonempty explicit_key then explicit_key
  else strip (match ce_token e with Some t => tok_key t | None => "" end).

Definition _netbox_token_identity (e : conn_endpoint) (a : netbox_auth) (token_version : string) : string :=
  if String.eqb token_version "v2" then effective_netbox_token_key e a
  else match na_token_id a with Some i => if i =? 0 then "" else pretty i | None => "" end.

Definition _cloud_image_ssh_authority (e : conn_endpoint) (a : proxmox_auth) : dict pyval :=
  [("cloud_image_ssh_target_node", VStr (strip (pa_ci_target_node a)));
   ("cloud_image_ssh_identity_file", VStr (strip (pa_ci_identity_file a)));
   ("ssh_username", VStr (strip (effective_ssh_username e a)));
   ("ssh_host", VStr (normalize_host (ssh_host e a)));
   ("ssh_port", VInt (pa_ssh_port a));
   ("ssh_known_host_fingerprint", VStr (strip (pa_ssh_known_host_fingerprint a)))].

Definition ci_configured (a : proxmox_auth) : bool :=
  (nonempty (strip (pa_ci_target_node a)) || nonempty (strip (pa_ci_identity_file a)))%bool.

Definition connection_target_data (e : conn_endpoint) : dict pyval :=
  let r := ce_row e in
  let common username token_name token_version :=
    [("kind", VStr (_model_name e));
     ("domain", VStr (lower (rstrip_char "." (strip (cr_domain r)))));
     ("ip_address", VStr (_ip_value e));
     ("port", VInt (cr_port r));
     ("verify_ssl", VBool (cr_verify_ssl r));
     ("username", VStr username);
     ("token_name", VStr token_name);
     ("token_version", VStr token_version)] in
  match cr_auth r with
  | NetBoxAuth a =>
      let token_version := _effective_netbox_token_version e a in
      common "" "" token_version ++ [("token_identity", VStr (_netbox_token_identity e a token_version))]
  | ProxmoxAuth a =>
      common (strip (pa_username a)) (strip (pa_token_name a)) "" ++
      (if ci_configured a then _cloud_image_ssh_authority e a else [])
  end.

(** [hmac.compare_digest] of two texts *)
Definition ascii_char (c : ascii) : bool := Nat.ltb (nat_of_ascii c) 128.
Definition is_ascii (s : string) : bool := all_chars ascii_char s.

Definition compare_digest (a b : string) : result bool :=
  if (is_ascii a && is_ascii b)%bool then Ok (String.eqb a b)
  else Err (TypeError "comparing strings with non-ASCII characters is not supported").

Definition BINDING_FIELD : string := "approved_connection_target_fingerprint".
Definition _UNAPPROVED : string :=
  "Connection target approval is missing or stale. Review and approve the current target before sending credentials.".

(** ** Users *)

Record nb_user := mkUser {
  u_authenticated : bool; u_active : bool; u_superuser : bool;
  u_sensitive_grant : bool;                 (* a ProxboxSensitiveDataAccess row grants it *)
  u_perm : string -> bool;                  (* has_perm *)
  u_restrict : string -> Z -> string -> bool (* model, pk, action: inside the object permissions *)
}.

Definition is_active_superuser (u : nb_user) : bool := (u_authenticated u && u_active u && u_superuser u)%bool.

Definition can_access_sensitive_data (u : nb_user) : bool :=
  if (negb (u_authenticated u) || negb (u_active u))%bool then false
  else if is_active_superuser u then true
  else u_sensitive_grant u.

Definition require_sensitive_data_access (u : nb_user) : result () :=
  if can_access_sensitive_data u then Ok () else Err (PermissionDeniedError "Sensitive data access is not authorized.").

(** ** Saving one endpoint *)

Definition set_auth (r : conn_row) (a : conn_auth) : conn_row :=
  mkConnRow (cr_enabled r) (cr_domain r) (cr_ip_id r) (cr_port r) (cr_verify_ssl r) a (cr_approved r).

Definition row_cluster (r : conn_row) : option Z :=
  match cr_auth r with ProxmoxAuth a => pa_cluster_id a | NetBoxAuth _ => None end.

Definition set_cluster (r : conn_row) (c : option Z) : conn_row :=
  match cr_auth r with
  | ProxmoxAuth a =>
      set_auth r (ProxmoxAuth (mkProxmoxAuth (pa_username a) (pa_token_name a) (pa_ssh_source a) (pa_ssh_username a)
        (pa_ssh_service_id a) (pa_ssh_port a) (pa_ssh_known_host_fingerprint a) (pa_ci_target_node a)
        (pa_ci_identity_file a) c))
  | NetBoxAuth _ => r
  end.

(** One column of an [UPDATE], by the name Django gives the field. *)
Definition proxmox_field (f : string) (new old : proxmox_auth) : proxmox_auth :=
  let pick {A} (names : list string) (g : proxmox_auth -> A) := if mem_str f names then g new else g old in
  mkProxmoxAuth (pick ["username"] pa_username) (pick ["token_name"] pa_token_name)
    (pick ["ssh_credential_source"] pa_ssh_source) (pick ["ssh_username"] pa_ssh_username)
    (pick ["ssh_service"; "ssh_service_id"] pa_ssh_service_id) (pick ["ssh_port"] pa_ssh_port)
    (pick ["ssh_known_host_fingerprint"] pa_ssh_known_host_fingerprint)
    (pick ["cloud_image_ssh_target_node"] pa_ci_target_node)
    (pick ["cloud_image_ssh_identity_file"] pa_ci_identity_file)
    (pick ["netbox_cluster"; "netbox_cluster_id"] pa_cluster_id).

Definition netbox_field (f : string) (new old : netbox_auth) : netbox_auth :=
  let pick {A} (names : list string) (g : netbox_auth -> A) := if mem_str f names then g new else g old in
  mkNetboxAuth (pick ["token_version"] na_token_version) (pick ["token_key"] na_token_key)
    (pick ["token"; "token_id"] na_token_id).

Definition auth_field (f : string) (new old : conn_auth) : conn_auth :=
  match new, old with
  | NetBoxAuth n, NetBoxAuth o => NetBoxAuth (netbox_field f n o)
  | ProxmoxAuth n, ProxmoxAuth o => ProxmoxAuth (proxmox_field f n o)
  | _, _ => old
  end.

Definition row_field (new : conn_row) (old : conn_row) (f : string) : conn_row :=
  let pick {A} (names : list string) (g : conn_row -> A) := if mem_str f names then g new else g old in
  mkConnRow (pick ["enabled"] cr_enabled) (pick ["domain"] cr_domain)
    (pick ["ip_address"; "ip_address_id"] cr_ip_id) (pick ["port"] cr_port) (pick ["verify_ssl"] cr_verify_ssl)
    (auth_field f (cr_auth new) (cr_auth old)) (pick [BINDING_FIELD] cr_approved).

(** [Model.save(update_fields=...)]: an insert or a full update, or an update
    of the named columns only. *)
Definition persist (e : conn_endpoint) (update_fields : option (list string)) (db : conn_db) : result conn_db :=
  match update_fields, ce_pk e with
  | None, None =>
      let pk := db_next db in
      Ok (mkConnDb (<[(_model_name e, pk) := ce_row e]> (db_rows db)) (db_ips db) (db_tokens db) (db_services db)
            (pk + 1))
  | None, Some pk => Ok (set_rows db (<[(_model_name e, pk) := ce_row e]> (db_rows db)))
  | Some [], _ => Ok db
  | Some _, None => Err (ValueError "Cannot force an update in save() with no primary key.")
  | Some fields, Some pk =>
      match db_rows db !! (_model_name e, pk) with
      | None => Err (DatabaseError "Save with update_fields did not affect any rows.")
      | Some old => Ok (set_rows db (<[(_model_name e, pk) := foldl (row_field (ce_row e)) old fields]> (db_rows db)))
      end
  end.

Section Authority.
(** [hashlib.sha256(json.dumps(data, sort_keys=True, separators=(",", ":")).encode()).hexdigest()] *)
Variable sha256_json : dict pyval -> string.

Definition valid_target (e : conn_endpoint) : bool :=
  ((nonempty (lower (rstrip_char "." (strip (cr_domain (ce_row e))))) || nonempty (_ip_value e)) &&
   (1 <=? cr_port (ce_row e)) && (cr_port (ce_row e) <=? 65535))%bool.

Definition connection_target_fingerprint (e : conn_endpoint) : result string :=
  if valid_target e then Ok (sha256_json (connection_target_data e))
  else Err (ConnectionAuthorityError "Configure a valid connection target before approval.").

Definition _live_ip_matches (db : conn_db) (e : conn_endpoint) : bool :=
  match cr_ip_id (ce_row e) with
  | None => true
  | Some i => match db_ips db !! i with
              | Some v => String.eqb (lower (split_first slash v)) (_ip_value e)
              | None => false
              end
  end.

(** The checks inside the [try]; a raised [TypeError] or [ValueError] is a no. *)
Definition approval_checks (db : conn_db) (e : conn_endpoint) : result bool :=
  current ← connection_target_fingerprint e;
  same ← compare_digest (cr_approved (ce_row e)) current;
  if (negb same || negb (_live_ip_matches db e))%bool then mret false
  else match load 0 db (_model_name e) (ce_pk e) with
       | None => mret false
       | Some persisted =>
           if negb (cr_enabled (ce_row persisted)) then mret false
           else stamped ← compare_digest (cr_approved (ce_row persisted)) current;
                if negb stamped then mret false
                else fp ← connection_target_fingerprint persisted; compare_digest fp current
       end.

Definition approved_connection_allows_secrets (db : conn_db) (e : conn_endpoint) : bool :=
  if (is_empty (cr_approved (ce_row e)) || negb (cr_enabled (ce_row e)))%bool then false
  else match approval_checks db e with Ok b => b | Err _ => false end.

Definition require_approved_connection (db : conn_db) (e : conn_endpoint) : result () :=
  if approved_connection_allows_secrets db e then Ok () else Err (ConnectionAuthorityError _UNAPPROVED).

(** The permit an approval holds while it writes: which object, which value. *)
Definition _approval_write_is_exact (permit : option (Z * string)) (e : conn_endpoint) : result bool :=
  match permit with
  | None => mret false
  | Some (oid, expected) =>
      if negb (oid =? ce_oid e) then mret false
      else same ← compare_digest expected (cr_approved (ce_row e));
           if negb same then mret false
           else fp ← connection_target_fingerprint e; compare_digest expected fp
  end.

Definition _preserve_cluster_binding (e : conn_endpoint) (current : option conn_endpoint)
    (update_fields : option (list string)) : result conn_endpoint :=
  match cr_auth (ce_row e), update_fields with
  | NetBoxAuth _, _ => mret e
  | ProxmoxAuth _, Some fields =>
      if (mem_str "netbox_cluster" fields || mem_str "netbox_cluster_id" fields)%bool
      then Err (ValidationError "Native cluster ownership requires the protected synchronization action.")
      else mret e
  | ProxmoxAuth _, None =>
      match current, row_cluster (ce_row e) with
      | None, Some _ =>
          Err (ValidationError "A new endpoint cannot claim native cluster ownership through an ordinary save.")
      | _, _ => mret (set_row e (set_cluster (ce_row e) (current ≫= fun c => row_cluster (ce_row c))))
      end
  end.

(** [set(update_fields or ()) == {BINDING_FIELD}] *)
Definition only_binding (update_fields : option (list string)) : bool :=
  match update_fields with
  | Some (f :: fields) => forallb (String.eqb BINDING_FIELD) (f :: fields)
  | _ => false
  end.

(** The instance as it is after the guards, and the database after the save. *)
Definition save_bound_endpoint (permit : option (Z * string)) (e : conn_endpoint)
    (update_fields : option (list string)) (db : conn_db) : result (conn_endpoint * conn_db) :=
  let current := load 0 db (_model_name e) (ce_pk e) in
  e ← _preserve_cluster_binding e current update_fields;
  exact ← _approval_write_is_exact permit e;
  e ← (if (exact : bool) then
         if negb (only_binding update_fields)
         then Err (ValidationError "An approval write may update only the approval field.")
         else
           let changed := Err (ValidationError "The reviewed connection target changed before approval was saved.") in
           match current with
           | None => changed
           | Some c =>
               now ← connection_target_fingerprint c;
               mine ← connection_target_fingerprint e;
               if String.eqb now mine then mret e else changed
           end
       else
         if match update_fields with Some fields => mem_str BINDING_FIELD fields | None => false end
         then Err (ValidationError "Connection approval requires the protected approval action.")
         else mret (set_row e (set_approved (ce_row e)
                      (match current with Some c => cr_approved (ce_row c) | None => "" end))));
  db' ← persist e update_fields db;
  mret (e, db').

(** [approve_connection_target]; [oid] is the identity of the row object it
    loads.  The instance handed in only says which row is meant. *)
Definition approve_connection_target (e : conn_endpoint) (user : nb_user) (fingerprint : pyval) (oid : Z)
    (db : conn_db) : result conn_db :=
  let model := _model_name e in
  _ ← require_sensitive_data_access user;
  if negb (u_perm user ("netbox_proxbox.change_" +:+ model))
  then Err (PermissionDeniedError "Endpoint change permission is required for connection approval.")
  else
    let visible pk := (u_restrict user model pk "view" && u_restrict user model pk "change")%bool in
    match load oid db model (ce_pk e), ce_pk e with
    | Some current, Some pk =>
        if negb (visible pk)
        then Err (PermissionDeniedError "Connection approval is not authorized for this endpoint.")
        else
          expected ← connection_target_fingerprint current;
          reviewed ← (match fingerprint with
                      | VStr s => if is_ascii s then compare_digest s expected else mret false
                      | _ => mret false
                      end);
          if negb reviewed
          then Err (ValidationError
                 "The reviewed connection target changed. Read its current fingerprint and review it again.")
          else
            let current := set_row current (set_approved (ce_row current) expected) in
            '(_, db') ← save_bound_endpoint (Some (oid, expected)) current (Some [BINDING_FIELD]) db;
            mret db'
    | _, _ => Err (PermissionDeniedError "Connection approval is not authorized for this endpoint.")
    end.

End Authority.

(** ** Ordinary saves never stamp *)

Lemma row_field_approved (new old : conn_row) (f : string) :
  f <> BINDING_FIELD -> cr_approved (row_field new old f) = cr_approved old.
Proof.
  intros Hf. unfold row_field. cbn [cr_approved]. destruct (mem_str f [BINDING_FIELD]) eqn:Hm; [|done].
  apply mem_str_spec in Hm. by apply list_elem_of_singleton in Hm.
Qed.

Lemma fields_approved (new : conn_row) (fields : list string) (old : conn_row) :
  mem_str BINDING_FIELD fields = false -> cr_approved (foldl (row_field new) old fields) = cr_approved old.
Proof.
  revert old. induction fields as [|f fields IH]; intros old; [done|]. rewrite mem_str_false.
  intros [Hf Hfs]%not_elem_of_cons. cbn [foldl]. rewrite IH by (by apply mem_str_false).
  by apply row_field_approved.
Qed.

Lemma fields_model (new : conn_row) (fields : list string) (old : conn_row) :
  auth_model_name (cr_auth (foldl (row_field new) old fields)) = auth_model_name (cr_auth old).
Proof.
  revert old. induction fields as [|f fields IH]; intros old; [done|]. cbn [foldl]. rewrite IH.
  unfold row_field. cbn [cr_auth]. by destruct (cr_auth new), (cr_auth old).
Qed.

(** Every row lies in the table of its model. *)
Definition rows_ok (db : conn_db) : Prop :=
  forall m k r, db_rows db !! (m, k) = Some r -> auth_model_name (cr_auth r) = m.

(** Every stamp of [db'] is blank or already in [db]. *)
Definition stamps_from (db db' : conn_db) : Prop :=
  forall key r, db_rows db' !! key = Some r ->
    cr_approved r = "" \/ exists r0, db_rows db !! key = Some r0 /\ cr_approved r = cr_approved r0.

Lemma load_row (oid : Z) (db : conn_db) (model : string) (pk : option Z) (e : conn_endpoint) :
  load oid db model pk = Some e ->
  exists k r, pk = Some k /\ db_rows db !! (model, k) = Some r /\ e = instance_of oid db k r.
Proof.
  unfold load. destruct pk as [k|]; [|done]. simpl. destruct (db_rows db !! (model, k)) as [r|] eqn:Er; [|done].
  intros [= <-]. eauto.
Qed.

(** A save whose instance carries the stamp of its own row, or none. *)
Lemma persist_stamps (e : conn_endpoint) (fields : option (list string)) (db db' : conn_db) :
  persist e fields db = Ok db' ->
  (match fields with
   | None => cr_approved (ce_row e) = "" \/
             exists k r, ce_pk e = Some k /\ db_rows db !! (_model_name e, k) = Some r /\
                         cr_approved (ce_row e) = cr_approved r
   | Some fs => mem_str BINDING_FIELD fs = false
   end) -> stamps_from db db'.
Proof.
  assert (Hrefl : stamps_from db db) by (intros key r Hr; eauto).
  unfold persist. destruct fields as [[|f fs]|], (ce_pk e) as [pk|] eqn:Epk; intros H Hs; try done.
  - injection H as <-. exact Hrefl.
  - injection H as <-. exact Hrefl.
  - destruct (db_rows db !! (_model_name e, pk)) as [old|] eqn:Eo; [|done]. injection H as <-.
    intros key r. cbn [set_rows db_rows]. destruct (decide (key = (_model_name e, pk))) as [->|Hk].
    + rewrite lookup_insert_eq. intros [= <-]. right. exists old. split; [done|].
      by apply (fields_approved (ce_row e) (f :: fs)).
    + rewrite lookup_insert_ne by done. eauto.
  - injection H as <-. intros key r. cbn [set_rows db_rows].
    destruct (decide (key = (_model_name e, pk))) as [->|Hk].
    + rewrite lookup_insert_eq. intros [= <-].
      destruct Hs as [?|(k & r0 & [= <-] & Hr & ?)]; [by left|right; eauto].
    + rewrite lookup_insert_ne by done. eauto.
  - injection H as <-. intros key r. cbn [db_rows].
    destruct (decide (key = (_model_name e, db_next db))) as [->|Hk].
    + rewrite lookup_insert_eq. intros [= <-]. destruct Hs as [?|(k & r0 & [=] & _)]. by left.
    + rewrite lookup_insert_ne by done. eauto.
Qed.

Lemma persist_rows_ok (e : conn_endpoint) (fields : option (list string)) (db db' : conn_db) :
  persist e fields db = Ok db' -> rows_ok db -> rows_ok db'.
Proof.
  unfold persist, _model_name. intros H Hok.
  destruct fields as [[|f fs]|], (ce_pk e) as [pk|]; try done; try (injection H as <-; done).
  - destruct (db_rows db !! _) as [old|] eqn:Eo; [|done]. injection H as <-.
    intros m k r. cbn [set_rows db_rows]. rewrite lookup_insert_Some.
    intros [[[= <- <-] <-]|[_ Hr]]; [|eauto].
    etransitivity; [apply (fields_model (ce_row e) (f :: fs))|eauto].
  - injection H as <-. intros m k r. cbn [set_rows db_rows]. rewrite lookup_insert_Some.
    intros [[[= <- <-] <-]|[_ Hr]]; eauto.
  - injection H as <-. intros m k r. cbn [db_rows]. rewrite lookup_insert_Some.
    intros [[[= <- <-] <-]|[_ Hr]]; eauto.
Qed.

Section Facts.
Context (sha256_json : dict pyval -> string).

Lemma preserve_cluster_same (e e' : conn_endpoint) (c : option conn_endpoint) (fields : option (list string)) :
  _preserve_cluster_binding e c fields = Ok e' ->
  ce_pk e' = ce_pk e /\ _model_name e' = _model_name e /\ cr_approved (ce_row e') = cr_approved (ce_row e).
Proof.
  unfold _preserve_cluster_binding, _model_name, set_cluster.
  destruct (cr_auth (ce_row e)) as [a|a] eqn:Ea, fields as [fs|]; split_ifs; intros H;
    try done; try (injection H as <-; simpl; by rewrite ?Ea).
Qed.

(** An ordinary save writes the stamp of the row it overwrites. *)
Lemma save_stamps (e e' : conn_endpoint) (fields : option (list string)) (db db' : conn_db) :
  save_bound_endpoint sha256_json None e fields db = Ok (e', db') -> stamps_from db db'.
Proof.
  unfold save_bound_endpoint. destruct (_preserve_cluster_binding _ _ _) as [e1|] eqn:E1; [|done].
  apply preserve_cluster_same in E1 as (Hpk & Hmodel & _). cbn [mbind result_bind _approval_write_is_exact mret result_ret].
  destruct (match fields with Some _ => _ | None => _ end) eqn:Ef; [done|].
  cbn [mbind result_bind mret result_ret]. destruct (persist _ fields db) as [db1|] eqn:Ep; [|done]. simpl. intros [= _ <-].
  eapply persist_stamps; [exact Ep|]. destruct fields as [fs|]; [done|].
  change (_model_name (set_row e1 _)) with (_model_name e1). cbn [set_row ce_row set_approved cr_approved ce_pk].
  destruct (load 0 db (_model_name e) (ce_pk e)) as [c|] eqn:El; [|by left].
  apply load_row in El as (k & r & Hk & Hr & ->). right. exists k, r. rewrite Hpk, Hmodel. eauto.
Qed.

Lemma save_rows_ok (permit : option (Z * string)) (e e' : conn_endpoint) (fields : option (list string)) (db db' : conn_db) :
  save_bound_endpoint sha256_json permit e fields db = Ok (e', db') -> rows_ok db -> rows_ok db'.
Proof.
  unfold save_bound_endpoint. destruct (_preserve_cluster_binding _ _ _) as [e1|]; [|done]. simpl.
  destruct (_approval_write_is_exact _ _ _) as [x|]; [|done]. simpl.
  match goal with |- context [(if x then ?a else ?b) ≫= ?k] => destruct (if x then a else b) as [e2|]; [|done] end.
  simpl. destruct (persist e2 fields db) as [db1|] eqn:Ep; [|done]. simpl. intros [= _ <-].
  by eapply persist_rows_ok.
Qed.

(** The write of an approval: it happens only under an exact permit. *)
Lemma approval_write (oid pk : Z) (expected : string) (r : conn_row) (e' : conn_endpoint) (db db' : conn_db) (m : string) :
  rows_ok db -> db_rows db !! (m, pk) = Some r ->
  let c := instance_of oid db pk r in
  save_bound_endpoint sha256_json (Some (oid, expected)) (set_row c (set_approved (ce_row c) expected))
    (Some [BINDING_FIELD]) db = Ok (e', db') ->
  db' = set_rows db (<[(m, pk) := set_approved r expected]> (db_rows db)).
Proof.
  intros Hok Hr c. assert (Hm : _model_name c = m) by (apply (Hok _ _ _ Hr)).
  unfold save_bound_endpoint. set (e1 := set_row c _).
  assert (Hpres : forall cur, _preserve_cluster_binding e1 cur (Some [BINDING_FIELD]) = Ok e1)
    by (intros cur; unfold _preserve_cluster_binding; by destruct (cr_auth (ce_row e1))).
  rewrite Hpres. cbn [mbind result_bind].
  destruct (_approval_write_is_exact _ _ e1) as [[]|]; [|done|done]. cbn [mbind result_bind].
  change (negb (only_binding (Some [BINDING_FIELD]))) with false. cbv iota.
  destruct (load 0 db (_model_name e1) (ce_pk e1)) as [cur|]; [|done].
  destruct (connection_target_fingerprint sha256_json cur) as [now|]; [|done]. cbn [mbind result_bind].
  destruct (connection_target_fingerprint sha256_json e1) as [mine|]; [|done]. cbn [mbind result_bind].
  destruct (String.eqb now mine); [|done]. cbn [mbind result_bind mret result_ret].
  unfold persist. change (_model_name e1) with (_model_name c). change (ce_pk e1) with (Some pk). rewrite Hm, Hr.
  cbn [mbind result_bind foldl]. intros [= _ <-]. f_equal. f_equal.
  unfold row_field, set_approved, e1. cbn. by destruct r as [? ? ? ? ? [[]|[]] ?].
Qed.

(** What a successful approval was: an authorised user, the reviewed
    fingerprint, and one stamp written. *)
Lemma approve_effect (e : conn_endpoint) (u : nb_user) (fp : pyval) (oid : Z) (db db' : conn_db) :
  rows_ok db -> approve_connection_target sha256_json e u fp oid db = Ok db' ->
  exists pk r, let model := _model_name e in let target := instance_of oid db pk r in
    ce_pk e = Some pk /\ db_rows db !! (model, pk) = Some r /\ valid_target target = true /\
    fp = VStr (sha256_json (connection_target_data target)) /\
    can_access_sensitive_data u = true /\ u_perm u ("netbox_proxbox.change_" +:+ model) = true /\
    u_restrict u model pk "view" = true /\ u_restrict u model pk "change" = true /\
    db' = set_rows db (<[(model, pk) := set_approved r (sha256_json (connection_target_data target))]> (db_rows db)).
Proof.
  intros Hok. unfold approve_connection_target, require_sensitive_data_access.
  destruct (can_access_sensitive_data u) eqn:Eu; [|done]. cbn [mbind result_bind].
  destruct (u_perm u _) eqn:Eperm; [|done]. cbn [negb].
  destruct (load oid db (_model_name e) (ce_pk e)) as [c|] eqn:El; [|done].
  apply load_row in El as (pk & r & Hpk & Hr & ->). rewrite Hpk.
  destruct (u_restrict u (_model_name e) pk "view" && _)%bool eqn:Erest; [|done].
  apply andb_prop in Erest as [Hview Hchange]. cbn [negb].
  unfold connection_target_fingerprint at 1. destruct (valid_target (instance_of oid db pk r)) eqn:Ev; [|done].
  cbn [mbind result_bind]. destruct fp as [| | | |s| |]; try done.
  destruct (is_ascii s) eqn:Es; [|done]. unfold compare_digest at 1. rewrite Es. cbn [andb].
  destruct (is_ascii (sha256_json _)) eqn:Ea; [|done]. cbn [mbind result_bind].
  destruct (String.eqb s _) eqn:Eeq; [|done]. apply String.eqb_eq in Eeq as ->. cbn [negb].
  destruct (save_bound_endpoint _ _ _ _ db) as [[e' db1]|] eqn:Esave; [|done]. cbn [mbind result_bind].
  intros <-%(inj Ok). exists pk, r. repeat split; try done. eapply approval_write; eauto.
Qed.

End Facts.

(** ** Every way a row can change *)

(** One approval, as it was given. *)
Record approval := mkApproval {
  ap_model : string; ap_pk : Z; ap_user : nb_user; ap_target : conn_endpoint
}.

Definition authorised (a : approval) : Prop :=
  can_access_sensitive_data (ap_user a) = true /\
  u_perm (ap_user a) ("netbox_proxbox.change_" +:+ ap_model a) = true /\
  u_restrict (ap_user a) (ap_model a) (ap_pk a) "view" = true /\
  u_restrict (ap_user a) (ap_model a) (ap_pk a) "change" = true /\
  valid_target (ap_target a) = true.

Section Steps.
Variable sha256_json : dict pyval -> string.

(** The database and the approvals given so far. *)
Definition auth_state : Type := conn_db * list approval.

(** Saves of any instance, forged or stale; approvals by anybody; updates of
    single columns other than the stamp through a query set; changes of the
    linked addresses, tokens and services; deletions. *)
Inductive auth_step : auth_state -> auth_state -> Prop :=
| step_save e e' fields db db' log :
    save_bound_endpoint sha256_json None e fields db = Ok (e', db') -> auth_step (db, log) (db', log)
| step_approve e u fp oid db db' pk r log :
    ce_pk e = Some pk -> db_rows db !! (_model_name e, pk) = Some r ->
    approve_connection_target sha256_json e u fp oid db = Ok db' ->
    auth_step (db, log) (db', mkApproval (_model_name e) pk u (instance_of oid db pk r) :: log)
| step_update key r r' db log :
    db_rows db !! key = Some r -> auth_model_name (cr_auth r') = auth_model_name (cr_auth r) ->
    cr_approved r' = cr_approved r \/ cr_approved r' = "" ->
    auth_step (db, log) (set_rows db (<[key := r']> (db_rows db)), log)
| step_linked ips tokens services next db log :
    auth_step (db, log) (mkConnDb (db_rows db) ips tokens services next, log)
| step_delete key db log : auth_step (db, log) (set_rows db (delete key (db_rows db)), log).

Definition reachable (s : auth_state) : Prop := rtc auth_step (mkConnDb ∅ ∅ ∅ ∅ 1, []) s.

(** Every stamp is the fingerprint of a target somebody authorised approved
    for that very row. *)
Definition stamps_earned (s : auth_state) : Prop :=
  rows_ok (fst s) /\
  forall m k r, db_rows (fst s) !! (m, k) = Some r -> cr_approved r <> "" ->
    exists a, a ∈ snd s /\ ap_model a = m /\ ap_pk a = k /\ authorised a /\
              cr_approved r = sha256_json (connection_target_data (ap_target a)).

Lemma stamps_earned_from (db db' : conn_db) (log : list approval) :
  stamps_from db db' -> rows_ok db' -> stamps_earned (db, log) -> stamps_earned (db', log).
Proof.
  intros Hfrom Hok' [Hok Hst]. split; [done|]. intros m k r Hr Hne.
  destruct (Hfrom _ _ Hr) as [?|(r0 & Hr0 & Heq)]; [done|]. rewrite Heq in *. eauto.
Qed.

Lemma step_stamps (s s' : auth_state) : auth_step s s' -> stamps_earned s -> stamps_earned s'.
Proof.
  intros Hstep Hinv. pose proof Hinv as [Hok Hst].
  destruct Hstep as [e e' fields db db' log Hs|e u fp oid db db' pk r log Hpk Hr Ha
                    |key r r' db log Hr Hm Ha|ips tokens services next db log|key db log]; cbn [fst snd] in *.
  - eapply stamps_earned_from; [eapply save_stamps, Hs|eapply save_rows_ok; eauto|done].
  - apply approve_effect in Ha as (pk' & r' & Hpk' & Hr' & Hv & -> & Hu1 & Hu2 & Hu3 & Hu4 & ->); [|done].
    rewrite Hpk in Hpk'. injection Hpk' as <-. rewrite Hr in Hr'. injection Hr' as <-. split; cbn [fst snd].
    + intros m k r0. cbn [set_rows db_rows]. rewrite lookup_insert_Some. intros [[[= <- <-] <-]|[_ ?]]; [|eauto].
      apply (Hok _ _ _ Hr).
    + intros m k r0. cbn [set_rows db_rows]. rewrite lookup_insert_Some. intros [[[= <- <-] <-]|[_ Hr0]] Hne.
      * eexists. split; [left|]. by repeat split.
      * destruct (Hst _ _ _ Hr0 Hne) as (a & Hin & ?). exists a. split; [by right|done].
  - eapply stamps_earned_from; [| |exact Hinv].
    + intros key' r0. cbn [set_rows db_rows]. rewrite lookup_insert_Some.
      intros [[<- <-]|[_ ?]]; [|by eauto]. destruct Ha as [Ha|Ha]; rewrite Ha; eauto.
    + intros m k r0. cbn [set_rows db_rows]. rewrite lookup_insert_Some.
      intros [[-> <-]|[_ ?]]; [|by eauto]. rewrite Hm. eauto.
  - split; [exact Hok|exact Hst].
  - eapply stamps_earned_from; [| |exact Hinv].
    + intros key' r0. cbn [set_rows db_rows]. rewrite lookup_delete_Some. intros [_ ?]. eauto.
    + intros m k r0. cbn [set_rows db_rows]. rewrite lookup_delete_Some. intros [_ ?]. eauto.
Qed.

Lemma reachable_stamps (s : auth_state) : reachable s -> stamps_earned s.
Proof.
  intros H. apply (rtc_ind_r (fun s => stamps_earned s) (mkConnDb ∅ ∅ ∅ ∅ 1, [])) in H; [done| |].
  - split; [intros m k r|intros m k r Hr]; cbn [fst db_rows] in *; by rewrite ?lookup_empty in *.
  - intros s1 s2 _ Hstep. by apply step_stamps.
Qed.

Lemma compare_digest_true (a b : string) : compare_digest a b = Ok true -> a = b.
Proof. unfold compare_digest. split_ifs; [|done]. intros [= H]. by apply String.eqb_eq. Qed.

(** What the checks establish. *)
Lemma allows_secrets_spec (db : conn_db) (e : conn_endpoint) :
  approved_connection_allows_secrets sha256_json db e = true ->
  exists pk r, let fp := sha256_json (connection_target_data e) in
    ce_pk e = Some pk /\ db_rows db !! (_model_name e, pk) = Some r /\ cr_approved r = fp /\ fp <> "" /\
    cr_enabled (ce_row e) = true /\ cr_enabled r = true /\ _live_ip_matches db e = true /\
    sha256_json (connection_target_data (instance_of 0 db pk r)) = fp.
Proof.
  unfold approved_connection_allows_secrets, approval_checks, connection_target_fingerprint.
  destruct (is_empty _) eqn:Ene; [done|]. destruct (cr_enabled (ce_row e)) eqn:Een; [|done]. cbn [orb negb].
  destruct (valid_target e); [|done]. cbn [mbind result_bind].
  destruct (compare_digest (cr_approved (ce_row e)) _) as [[]|] eqn:E1; [|done|done]. cbn [mbind result_bind negb orb].
  apply compare_digest_true in E1.
  destruct (_live_ip_matches db e) eqn:Elive; [|done]. cbn [negb].
  destruct (load 0 db _ _) as [p|] eqn:El; [|done]. apply load_row in El as (pk & r & Hpk & Hr & ->).
  cbn [instance_of ce_row]. destruct (cr_enabled r) eqn:Er; [|done]. cbn [negb].
  destruct (compare_digest (cr_approved r) _) as [[]|] eqn:E2; [|done|done]. cbn [mbind result_bind negb].
  apply compare_digest_true in E2. destruct (valid_target _); [|done]. cbn [mbind result_bind].
  destruct (compare_digest _ _) as [[]|] eqn:E3; [|done|done]. apply compare_digest_true in E3. intros _.
  exists pk, r. repeat split; try done. rewrite <- E1. intros Hz. unfold is_empty in Ene. by rewrite Hz in Ene.
Qed.

End Steps.

(** C6: Credentials of an endpoint go out only to an approved target: whatever
    sequence of saves (of forged or stale instances too), approvals, column
    updates, changes of linked rows and deletions led here, if the check lets
    an instance's credentials out, then somebody with access to sensitive data
    and with view and change permission on that very row approved a valid
    target with the same fingerprint, and the row as it is stored now is
    enabled and has that fingerprint too. *)
Theorem secrets_need_approval (sha256_json : dict pyval -> string) (db : conn_db) (log : list approval) (e : conn_endpoint) :
  reachable sha256_json (db, log) -> approved_connection_allows_secrets sha256_json db e = true ->
  exists pk r a, ce_pk e = Some pk /\ db_rows db !! (_model_name e, pk) = Some r /\ cr_enabled r = true /\
    a ∈ log /\ ap_model a = _model_name e /\ ap_pk a = pk /\ authorised a /\
    sha256_json (connection_target_data (ap_target a)) = sha256_json (connection_target_data e) /\
    sha256_json (connection_target_data (instance_of 0 db pk r)) = sha256_json (connection_target_data e).
Proof.
  intros [Hok Hst]%reachable_stamps (pk & r & Hpk & Hr & Hfp & Hne & _ & Hen & _ & Hnow)%allows_secrets_spec.
  destruct (Hst _ _ _ Hr) as (a & Hin & Hm & Hk & Ha & Heq); [by rewrite Hfp|].
  exists pk, r, a. rewrite Hfp in Heq. by repeat (split; [done|]).
Qed.

(** Approving a target is enough: with a hash that gives ASCII text, once an
    authorised user approves the fingerprint of an enabled row, an instance
    freshly read from it may use its credentials, provided its address is
    stored without blanks. *)
Theorem approval_allows_secrets (sha256_json : dict pyval -> string) (db db' : conn_db) (e : conn_endpoint)
    (u : nb_user) (fp : pyval) (oid oid' pk : Z) (r' : conn_row) :
  (forall d, is_ascii (sha256_json d) = true /\ sha256_json d <> "") ->
  rows_ok db -> approve_connection_target sha256_json e u fp oid db = Ok db' ->
  ce_pk e = Some pk -> db_rows db' !! (_model_name e, pk) = Some r' -> cr_enabled r' = true ->
  _live_ip_matches db' (instance_of oid' db' pk r') = true ->
  approved_connection_allows_secrets sha256_json db' (instance_of oid' db' pk r') = true.
Proof.
  intros Hsha Hok Ha Hpk Hr' Hen Hlive.
  apply approve_effect in Ha as (pk0 & r & Hpk0 & Hr & Hv & _ & _ & _ & _ & _ & ->); [|done].
  rewrite Hpk in Hpk0. injection Hpk0 as <-. cbn [set_rows db_rows] in Hr'. rewrite lookup_insert_eq in Hr'.
  injection Hr' as <-. set (db' := set_rows _ _) in *. set (fp' := sha256_json _) in *.
  set (i := instance_of oid' db' pk _) in *.
  assert (Hdata : forall o, connection_target_data (instance_of o db' pk (set_approved r fp')) =
                            connection_target_data (instance_of oid db pk r)) by reflexivity.
  assert (Hfp : forall o, connection_target_fingerprint sha256_json (instance_of o db' pk (set_approved r fp')) = Ok fp').
  { intros o. unfold connection_target_fingerprint. rewrite Hdata.
    change (valid_target (instance_of o db' pk (set_approved r fp'))) with (valid_target (instance_of oid db pk r)).
    by rewrite Hv. }
  assert (Hsame : compare_digest fp' fp' = Ok true).
  { unfold compare_digest. destruct (Hsha (connection_target_data (instance_of oid db pk r))) as [Has _].
    fold fp' in Has. rewrite Has. simpl. by rewrite String.eqb_refl. }
  pose proof (Hfp oid') as Hi. fold i in Hi. change (cr_enabled (ce_row i) = true) in Hen.
  unfold approved_connection_allows_secrets. rewrite Hen.
  change (cr_approved (ce_row i)) with fp'.
  assert (is_empty fp' = false) as -> by (apply String.eqb_neq, Hsha).
  cbn [negb orb]. unfold approval_checks. rewrite Hi. cbn [mbind result_bind].
  change (cr_approved (ce_row i)) with fp'. rewrite Hsame, Hlive. cbn [mbind result_bind negb orb].
  assert (_model_name i = _model_name e) as -> by (apply (Hok _ _ _ Hr)).
  change (ce_pk i) with (Some pk).
  assert (load 0 db' (_model_name e) (Some pk) = Some (instance_of 0 db' pk (set_approved r fp'))) as ->.
  { unfold load. simpl. by rewrite lookup_insert_eq. }
  change (cr_enabled (ce_row (instance_of 0 db' pk (set_approved r fp')))) with (cr_enabled (ce_row i)).
  change (cr_approved (ce_row (instance_of 0 db' pk (set_approved r fp')))) with fp'.
  rewrite Hen. cbn [negb]. rewrite Hsame. cbn [mbind result_bind negb].
  rewrite (Hfp 0). cbn [mbind result_bind]. by rewrite Hsame.
Qed.

(** ** A concrete run *)

(** A stand-in for the hash: a short ASCII text. *)
Definition sample_hash (d : dict pyval) : string := "h" +:+ pretty (Z.of_nat (String.length (repr (VDict d)))).

Lemma sample_hash_ascii (d : dict pyval) : is_ascii (sample_hash d) = true /\ sample_hash d <> "".
Proof.
  split; [|done]. unfold sample_hash, is_ascii. rewrite all_chars_app. apply andb_true_intro. split; [done|].
  eapply all_chars_impl; [|apply pretty_Z_chars]. intros c. destruct c as [[] [] [] [] [] [] [] []]; done.
Qed.

Definition sample_row : conn_row :=
  mkConnRow true "pve.example.com" None 8006 true
    (ProxmoxAuth (mkProxmoxAuth "root@pam" "sync" "dedicated" "" None 22 "" "" "" None)) "".

(** A new endpoint that claims to be approved already. *)
Definition sample_new : conn_endpoint := mkConn 7 None (set_approved sample_row "h223") None None None.

Definition sample_admin : nb_user := mkUser true true true false (fun _ => true) (fun _ _ _ => true).

Definition empty_db : conn_db := mkConnDb ∅ ∅ ∅ ∅ 1.
Definition saved_db : conn_db := mkConnDb {[("proxmoxendpoint", 1) := sample_row]} ∅ ∅ ∅ 2.
Definition sample_instance : conn_endpoint := instance_of 8 saved_db 1 sample_row.
Definition sample_print : string := sample_hash (connection_target_data sample_instance).
Definition approved_db : conn_db := set_rows saved_db {[("proxmoxendpoint", 1) := set_approved sample_row sample_print]}.

Lemma sample_authority_reachable :
  reachable sample_hash (approved_db, [mkApproval "proxmoxendpoint" 1 sample_admin sample_instance]).
Proof.
  eapply rtc_l; [|eapply rtc_l; [|apply rtc_refl]].
  - apply (step_save _ sample_new (set_row sample_new sample_row) None empty_db saved_db). reflexivity.
  - apply (step_approve _ sample_instance sample_admin (VStr sample_print) 8 saved_db approved_db 1 sample_row);
      reflexivity.
Qed.

Lemma secrets_need_approval_witness :
  exists pk r a, ce_pk (instance_of 0 approved_db 1 (set_approved sample_row sample_print)) = Some pk /\
    db_rows approved_db !! ("proxmoxendpoint", pk) = Some r /\ ap_pk a = pk.
Proof.
  destruct (secrets_need_approval sample_hash approved_db _ (instance_of 0 approved_db 1 (set_approved sample_row sample_print))
              sample_authority_reachable eq_refl) as (pk & r & a & Hpk & Hr & _ & _ & _ & Ha & _).
  exists pk, r, a. auto.
Defined.

Lemma approval_allows_secrets_witness :
  approved_connection_allows_secrets sample_hash approved_db
    (instance_of 9 approved_db 1 (set_approved sample_row sample_print)) = true.
Proof.
  apply (approval_allows_secrets sample_hash saved_db approved_db sample_instance sample_admin (VStr sample_print) 8 9 1);
    [exact sample_hash_ascii| |reflexivity|reflexivity|reflexivity|reflexivity|reflexivity].
  intros m k r. cbn [saved_db db_rows]. rewrite lookup_singleton_Some. by intros [[= <- <-] <-].
Defined.

(** A stale instance, an instance of the other target and a disabled one. *)
Example stale_instances_refused :
  List.map (approved_connection_allows_secrets sample_hash approved_db)
    [sample_instance; mkConn 1 (Some 1) (mkConnRow true "evil.example.com" None 8006 true (cr_auth sample_row) sample_print) None None None;
     mkConn 1 None (set_approved sample_row sample_print) None None None] = [false; false; false].
Proof. reflexivity. Qed.
