(* ===== verification/BackendKey.v ===== *)
(** * Adoption of a backend key (services/backend_key_adoption.py)

    The canonical target of a ProxBox backend, the fingerprints that bind a
    stored key to it, and the requests by which a key is authenticated or,
    once and on an empty backend, registered.  [hashlib.sha256] is a
    parameter; a request is answered by the next reply of the world. *)
From Stdlib Require Import ZArith Lia Ascii String.
From stdpp Require Import base list sets strings pretty.
From S2P Require Import Prelude Json Text Effects StageFailure Deadline BackendPath ConnectionAuthority.

(** ** [urllib.parse.urlsplit] *)

(** [s.partition(c)]: the second value is what follows [c], if [s] has it. *)
Fixpoint partition_char (c0 : ascii) (s : string) : string * option string :=
  match s with
  | EmptyString => ("", None)
  | String c s' =>
      if Ascii.eqb c c0 then ("", Some s')
      else let '(a, b) := partition_char c0 s' in (String c a, b)
  end.

(** [s.rpartition(c)]: [None] for a text without [c]. *)
Fixpoint rpartition_char (c0 : ascii) (s : string) : option (string * string) :=
  match s with
  | EmptyString => None
  | String c s' =>
      match rpartition_char c0 s' with
      | Some (a, b) => Some (String c a, b)
      | None => if Ascii.eqb c c0 then Some ("", s') else None
      end
  end.

(** The text up to the first character of [stop], and the rest. *)
Fixpoint until (stop : ascii -> bool) (s : string) : string * string :=
  match s with
  | EmptyString => ("", "")
  | String c s' => if stop c then ("", s) else let '(a, b) := until stop s' in (String c a, b)
  end.

Definition control_or_space (c : ascii) : bool := Nat.leb (nat_of_ascii c) 32.
Fixpoint lstrip_control (s : string) : string :=
  match s with String c s' => if control_or_space c then lstrip_control s' else s | EmptyString => "" end.

Fixpoint drop_breaks (s : string) : string :=
  match s with
  | EmptyString => ""
  | String c s' => if existsb (Nat.eqb (nat_of_ascii c)) [9; 13; 10]%nat then drop_breaks s' else String c (drop_breaks s')
  end.

Definition is_alpha (c : ascii) : bool := (is_alnum c && negb (is_digit c))%bool.
Definition scheme_char (c : ascii) : bool := (is_alnum c || Ascii.eqb c "+" || Ascii.eqb c "-" || Ascii.eqb c ".")%bool.

Record split_url := mkUrl { su_scheme : string; su_netloc : string; su_path : string; su_query : string; su_fragment : string }.

(** [ipaddress.ip_address(text)]: whether it is IPv6, and its text. *)
Definition ip_address (text : string) : option (bool * string) :=
  match ipv4_int text with
  | Some _ => Some (false, text)
  | None =>
      if ipv6_with_scope text then
        match partition_char "%" text with
        | (addr, Some scope) => Some (true, ipv6_text (ipv6_words addr) +:+ "%" +:+ scope)
        | (addr, None) => Some (true, ipv6_text (ipv6_words addr))
        end
      else None
  end.

(** The host and the port text behind the user part. *)
Definition hostinfo (netloc : string) : string * option string :=
  let rest := match rpartition_char "@" netloc with Some (_, r) => r | None => netloc end in
  match partition_char "[" rest with
  | (_, Some bracketed) =>
      match partition_char "]" bracketed with
      | (host, Some after) => (host, snd (partition_char ":" after))
      | (host, None) => (host, None)
      end
  | (_, None) => partition_char ":" rest
  end.

(** [_check_bracketed_host] *)
Definition bracketed_host_ok (host : string) : bool :=
  if startswith "v" host then
    match partition_char "." (drop_str 1 host) with
    | (version, Some rest) => (nonempty version && all_chars hex_digit_char version && nonempty rest)%bool
    | _ => false
    end
  else match ip_address host with Some (v6, _) => v6 | None => false end.

Definition bracketed_netloc_ok (netloc : string) : bool :=
  let rest := match rpartition_char "@" netloc with Some (_, r) => r | None => netloc end in
  match partition_char "[" rest with
  | (before, Some bracketed) =>
      let '(host, after) := partition_char "]" bracketed in
      (is_empty before && (match after with Some (String _ _ as a) => startswith ":" a | _ => true end) && bracketed_host_ok host)%bool
  | (_, None) => bracketed_host_ok (fst (partition_char ":" rest))
  end.

Definition split_scheme (url : string) : string * string :=
  match partition_char ":" url with
  | (String c _ as s, Some rest) => if (is_alpha c && all_chars scheme_char s)%bool then (lower s, rest) else ("", url)
  | _ => ("", url)
  end.

(** [_splitnetloc] *)
Definition split_netloc (url : string) : string * string :=
  if startswith "//" url then until (fun c => mem_str (String c "") ["/"; "?"; "#"]) (drop_str 2 url) else ("", url).

(** [None] is a [ValueError].  Texts with characters beyond ASCII pass through
    a further check of their normal form, which can only refuse them; the
    bytes of such characters are never part of a host that is accepted. *)
Definition urlsplit (url : string) : option split_url :=
  let url := drop_breaks (lstrip_control url) in
  let '(scheme, url) := split_scheme url in
  let '(netloc, url) := split_netloc url in
  let opening := contains "[" netloc in
  let closing := contains "]" netloc in
  if (xorb opening closing || (opening && closing && negb (bracketed_netloc_ok netloc)))%bool then None
  else
    let '(url, fragment) := let '(a, b) := partition_char "#" url in (a, default "" b) in
    let '(path, query) := let '(a, b) := partition_char "?" url in (a, default "" b) in
    Some (mkUrl scheme netloc path query fragment).

(** [parsed.hostname]: the zone of an address keeps its case. *)
Definition su_hostname (u : split_url) : string :=
  match partition_char "%" (fst (hostinfo (su_netloc u))) with
  | (host, Some zone) => lower host +:+ "%" +:+ zone
  | (host, None) => lower host
  end.

(** [parsed.port]; [None] is a [ValueError]. *)
Definition su_port (u : split_url) : option (option Z) :=
  match snd (hostinfo (su_netloc u)) with
  | Some (String _ _ as p) =>
      if all_chars is_digit p then
        match int_of_string p with Some n => if n <=? 65535 then Some (Some n) else None | None => None end
      else None
  | _ => Some None
  end.

Definition su_username (u : split_url) : option string :=
  match rpartition_char "@" (su_netloc u) with Some (user, _) => Some (fst (partition_char ":" user)) | None => None end.

(** ** Canonical targets *)

(** What the service needs of an endpoint; [ke_ip] is the address row as it is
    stored now, [ke_stored] the fingerprint of the adopted target. *)
Record key_endpoint := mkKeyEndpoint {
  ke_pk : option Z; ke_enabled : bool; ke_domain : string; ke_ip : option string; ke_port : Z; ke_use_https : bool;
  ke_verify_ssl : bool; ke_use_websocket : bool; ke_server_side_websocket : bool; ke_websocket_domain : option string;
  ke_websocket_port : option Z; ke_stored : string }.

Definition adoption_error (code msg : string) : exn := BackendKeyAdoptionError code msg None None.
Definition _invalid_target : string -> string -> exn := adoption_error.

(** A DNS label: [[a-zA-Z0-9](?:[a-zA-Z0-9-]{0,61}[a-zA-Z0-9])?] *)
Definition label_char (c : ascii) : bool := (is_alnum c || Ascii.eqb c "-")%bool.
Definition last_alnum (s : string) : bool :=
  match String.get (String.length s - 1) s with Some c => is_alnum c | None => false end.
Definition is_label (s : string) : bool :=
  match s with
  | EmptyString => false
  | String c _ => (is_alnum c && last_alnum s && all_chars label_char s && Nat.leb (String.length s) 63)%bool
  end.

(** [_SIMPLE_HOST_RE] and [_FQDN_RE] *)
Definition simple_host (s : string) : bool := is_label s.
Definition fqdn (s : string) : bool :=
  match List.rev (split "." s) with
  | last :: (_ :: _ as labels) => (forallb is_label labels && all_chars is_alnum last && Nat.leb 2 (String.length last))%bool
  | _ => false
  end.

Definition _canonical_domain (value : string) : result string :=
  let domain := lower (strip value) in
  if (is_empty domain || Nat.ltb 253 (String.length domain)
      || (negb (String.eqb domain "localhost") && negb (fqdn domain) && negb (simple_host domain)))%bool
  then Err (_invalid_target "endpoint_domain_invalid" "Configure a valid backend domain name before adopting an API key.")
  else Ok domain.

Definition bracketed (v6 : bool) (text : string) : string := if v6 then "[" +:+ text +:+ "]" else text.

Definition _canonical_ip_authority (value : option string) : result string :=
  match value with
  | None => Ok ""
  | Some address =>
      match ip_address (strip (split_first slash address)) with
      | Some (v6, canonical) => Ok (bracketed v6 canonical)
      | None => Err (_invalid_target "endpoint_ip_invalid" "Configure a valid backend IP address before adopting an API key.")
      end
  end.

Definition canonical_backend_authority (value : option string) : result string :=
  match value with
  | None => Ok ""
  | Some value =>
      let raw := strip (split_first slash value) in
      if is_empty raw then Ok ""
      else match _canonical_ip_authority (Some raw) with
           | Ok a => Ok a
           | Err _ => _canonical_domain raw
           end
  end.

Definition url_invalid : exn :=
  _invalid_target "endpoint_url_invalid" "Configure a backend URL containing only an HTTP(S) scheme, host, and port.".

Definition _normalize_backend_base_url (base_url : string) : result string :=
  let raw_url := strip base_url in
  if is_empty raw_url then
    Err (_invalid_target "endpoint_address_missing" "Configure a backend domain or IP address before adopting an API key.")
  else
    match urlsplit raw_url with
    | None => Err (_invalid_target "endpoint_url_invalid" "Configure a valid backend URL before adopting an API key.")
    | Some parsed =>
        match su_port parsed with
        | None => Err (_invalid_target "endpoint_url_invalid" "Configure a valid backend URL before adopting an API key.")
        | Some port =>
            let scheme := lower (su_scheme parsed) in
            if (negb (mem_str scheme ["http"; "https"]) || is_empty (su_hostname parsed)
                || match su_username parsed with Some _ => true | None => false end
                || negb (mem_str (su_path parsed) [""; "/"]) || nonempty (su_query parsed) || nonempty (su_fragment parsed)
                || endswith ":" (su_netloc parsed))%bool
            then Err url_invalid
            else
              authority ← match ip_address (su_hostname parsed) with
                          | Some (v6, canonical) => Ok (bracketed v6 canonical)
                          | None => _canonical_domain (su_hostname parsed)
                          end;
              match port with
              | Some n =>
                  if ((n <? 1) || (65535 <? n))%bool
                  then Err (_invalid_target "endpoint_port_invalid" "Configure a valid backend port before adopting an API key.")
                  else Ok (scheme +:+ "://" +:+ authority +:+ ":" +:+ pretty n)
              | None => Ok (scheme +:+ "://" +:+ authority)
              end
        end
    end.

Definition scheme_of (e : key_endpoint) : string := if ke_use_https e then "https" else "http".

Definition backend_key_target (e : key_endpoint) : result (string * bool) :=
  let domain := strip (ke_domain e) in
  host ← (if nonempty domain then _canonical_domain domain else _canonical_ip_authority (ke_ip e));
  if is_empty host then
    Err (adoption_error "endpoint_address_missing" "Configure a backend domain or IP address before adopting an API key.")
  else if ((ke_port e <? 1) || (65535 <? ke_port e))%bool then
    Err (adoption_error "endpoint_port_invalid" "Configure a valid backend port before adopting an API key.")
  else
    base_url ← _normalize_backend_base_url (scheme_of e +:+ "://" +:+ host +:+ ":" +:+ pretty (ke_port e));
    Ok (base_url, ke_verify_ssl e).

Definition int_of_bool (b : bool) : string := if b then "1" else "0".
Definition nul : string := String "000" "".

(** [x or y] of texts that may be missing *)
Definition or_text (x y : option string) : option string := match x with Some (String _ _) => x | _ => y end.

(** Where the WebSocket client connects, when there is one. *)
Definition websocket_target (e : key_endpoint) : result string :=
  if ke_use_websocket e then
    host ← canonical_backend_authority (or_text (or_text (ke_websocket_domain e) (ke_ip e)) (Some (ke_domain e)));
    if is_empty host then
      Err (_invalid_target "endpoint_websocket_address_missing" "Configure a valid WebSocket host before adopting an API key.")
    else
      let port := default (ke_port e) (ke_websocket_port e) in
      if ((port <? 1) || (65535 <? port))%bool
      then Err (_invalid_target "endpoint_websocket_port_invalid" "Configure a valid WebSocket port before adopting an API key.")
      else Ok (host +:+ ":" +:+ pretty port)
  else Ok "".

(** The parts of a target that its fingerprint covers. *)
Record key_target := mkKeyTarget {
  kt_base_url : string; kt_fallback : string; kt_verify_ssl : bool; kt_use_websocket : bool; kt_server_side : bool; kt_websocket : string }.

Definition target_of (e : key_endpoint) : result key_target :=
  '(base_url, verify_ssl) ← backend_key_target e;
  if (ke_server_side_websocket e && negb (ke_use_websocket e))%bool then
    Err (_invalid_target "endpoint_websocket_policy_invalid" "Enable WebSocket before enabling the server-side WebSocket client.")
  else
    fallback_ip ← _canonical_ip_authority (ke_ip e);
    let fallback := if nonempty fallback_ip then scheme_of e +:+ "://" +:+ fallback_ip +:+ ":" +:+ pretty (ke_port e) else "" in
    websocket ← websocket_target e;
    Ok (mkKeyTarget base_url fallback verify_ssl (ke_use_websocket e) (ke_server_side_websocket e) websocket).

Definition target_payload (t : key_target) : string :=
  join nul [kt_base_url t; kt_fallback t; int_of_bool (kt_verify_ssl t); int_of_bool (kt_use_websocket t);
            int_of_bool (kt_server_side t); kt_websocket t].

(** ** Fingerprints and proofs *)

Inductive adoption_action := adopted | bootstrapped.

Record BackendKeyAdoptionProof := mkProof { pf_fingerprint : string; pf_action : adoption_action; pf_target_fingerprint : string }.

Inductive inspection_state := accepted | needs_bootstrap.

Record BackendKeyInspection := mkInspection { in_state : inspection_state; in_fingerprint : string }.

Inductive BackendKeyTransitionAction := no_remote_check | preflight | reject_disabled_change.

Definition plan_backend_key_transition (exists_ current_enabled previous_enabled token_changed connection_changed : bool) :
    BackendKeyTransitionAction :=
  if negb current_enabled then
    if (exists_ && token_changed)%bool then reject_disabled_change else no_remote_check
  else if (negb exists_ || negb previous_enabled || token_changed || connection_changed)%bool then preflight
  else no_remote_check.

(** ** Requests *)

Inductive key_request :=
| GetBootstrapStatus (base_url : string) (verify : bool) (timeout : Z)
| GetKeys (base_url : string) (candidate : string) (verify : bool) (timeout : Z)
| PostRegisterKey (base_url : string) (candidate label : string) (verify : bool).

(** An exception of the HTTP client, by its class, or a response. *)
Inductive key_reply :=
| HttpTimeoutError | HttpSslError | HttpConnectionError | OtherHttpError
| KeyResponse (status : Z) (retry_after : option string) (body : option pyval).

(** The replies to come, and the exchanges so far, the latest first. *)
Record key_world := mkKeyWorld { kw_replies : list key_reply; kw_log : list (key_request * key_reply) }.

Definition _transport_error (r : key_reply) : exn :=
  match r with
  | HttpTimeoutError => adoption_error "backend_timeout" "The backend timed out; the previous API key was kept unchanged."
  | HttpSslError => adoption_error "backend_tls_error" "TLS verification failed; the previous API key was kept unchanged."
  | HttpConnectionError => adoption_error "backend_unreachable" "The backend could not be reached; the previous API key was kept unchanged."
  | _ => adoption_error "backend_request_failed" "The backend request failed; the previous API key was kept unchanged."
  end.

Definition _http_rejection (status : Z) (phase : string) (retry_after : option string) : exn :=
  if (String.eqb phase "bootstrap" && (status =? 409))%bool then
    adoption_error "bootstrap_conflict" "The backend became initialized before registration completed; no key was persisted."
  else if ((status =? 401) || (status =? 403))%bool then
    BackendKeyAdoptionError "candidate_rejected" "The candidate API key was rejected; the previous key was kept unchanged." (Some status) None
  else if status =? 409 then
    adoption_error "candidate_conflict" "The backend rejected the key state transition; the previous key was kept unchanged."
  else if status =? 429 then
    BackendKeyAdoptionError "backend_throttled"
      "The backend throttled validation; wait before trying again. The previous key was kept unchanged." (Some status) retry_after
  else
    BackendKeyAdoptionError (phase +:+ "_http_" +:+ pretty status)
      ("The backend rejected API-key " +:+ phase +:+ " with HTTP " +:+ pretty status +:+ "; the previous key was kept unchanged.")
      (Some status) retry_after.

Definition key_call (r : key_request) : M key_world key_reply := fun w =>
  match kw_replies w with
  | [] => (Ok HttpConnectionError, mkKeyWorld [] ((r, HttpConnectionError) :: kw_log w))
  | reply :: rest => (Ok reply, mkKeyWorld rest ((r, reply) :: kw_log w))
  end.

(** The body of a response with the expected status, [None] being a body that
    is not JSON. *)
Definition expect (expected : Z) (phase : string) (with_retry : bool) (reply : key_reply) : M key_world (option pyval) :=
  match reply with
  | KeyResponse status retry_after body =>
      if status =? expected then mret body else raise (_http_rejection status phase (if with_retry then retry_after else None))
  | _ => raise (_transport_error reply)
  end.

Definition BOOTSTRAP_STATUS_TIMEOUT : Z := sec 15.
Definition AUTHENTICATED_KEY_LIST_TIMEOUT : Z := sec 15.

(** [min(limit, timeout) if timeout else limit] *)
Definition within (limit : Z) (timeout : option Z) : Z :=
  match timeout with Some t => if t =? 0 then limit else Z.min limit t | None => limit end.

Definition _valid_key_record (v : pyval) : bool :=
  match v with
  | VDict d =>
      (match get "id" d with VInt n => 0 <? n | _ => false end && match get "label" d with VStr _ => true | _ => false end
       && match get "is_active" d with VBool _ => true | _ => false end
       && match get "created_at" d with VInt _ | VFloat _ => true | _ => false end)%bool
  | _ => false
  end.

Definition status_invalid (how : string) : exn :=
  adoption_error "bootstrap_status_invalid" ("The backend returned an " +:+ how +:+ " bootstrap status; no key was persisted.").

Definition key_list_invalid : exn :=
  adoption_error "key_list_invalid" "The backend returned an invalid authenticated key list; the previous API key was kept unchanged.".

Definition bootstrap_response_invalid : exn :=
  adoption_error "bootstrap_response_invalid" "The backend returned an invalid bootstrap response; verify the key before enabling the endpoint.".

(** What the bootstrap status says: [Some true] for an empty backend. *)
Definition read_status (body : option pyval) : result bool :=
  match body with
  | Some (VDict d) =>
      match get "needs_bootstrap" d, get "has_db_keys" d with
      | VBool needs, VBool has => if Bool.eqb needs has then Err (status_invalid "inconsistent") else Ok needs
      | _, _ => Err (status_invalid "inconsistent")
      end
  | _ => Err (status_invalid "invalid")
  end.

Definition key_list_valid (body : option pyval) : bool :=
  match body with
  | Some (VDict d) => match get "keys" d with VList (_ :: _ as keys) => forallb _valid_key_record keys | _ => false end
  | _ => false
  end.

Definition registered (body : option pyval) : bool :=
  match body with Some (VDict d) => match get "detail" d with VStr _ => true | _ => false end | _ => false end.

Section Adoption.
(** [sha256(payload).hexdigest()] *)
Variable sha256 : string -> string.

Definition backend_key_target_fingerprint (e : key_endpoint) : result string :=
  t ← target_of e; Ok (sha256 (target_payload t)).

Definition backend_key_runtime_is_trusted (e : key_endpoint) : result bool :=
  if negb (ke_enabled e) then Ok false
  else
    let stored := lower (strip (ke_stored e)) in
    if negb (Nat.eqb (String.length stored) 64) then Ok false
    else match backend_key_target_fingerprint e with
         | Ok current => compare_digest stored current
         | Err _ => Ok false
         end.

Definition _proof_fingerprint (base_url : string) (verify_ssl : bool) (candidate : string) : string :=
  sha256 (join nul [base_url; int_of_bool verify_ssl; candidate]).

Definition backend_key_proof_matches (proof : option BackendKeyAdoptionProof) (e : key_endpoint) (candidate : string) : result bool :=
  match proof with
  | None => Ok false
  | Some proof =>
      match backend_key_target e with
      | Err _ => Ok false
      | Ok (base_url, verify_ssl) =>
          same ← compare_digest (pf_fingerprint proof) (_proof_fingerprint base_url verify_ssl (strip candidate));
          if (same : bool) then
            current ← backend_key_target_fingerprint e;
            compare_digest (pf_target_fingerprint proof) current
          else Ok false
      end
  end.

Definition candidate_missing : exn := adoption_error "candidate_missing" "Provide a non-empty backend API key.".

Definition inspect_backend_key_at_url (base_url : string) (verify_ssl : bool) (candidate : string) (timeout : option Z) :
    M key_world BackendKeyInspection :=
  let candidate := strip candidate in
  if is_empty candidate then raise candidate_missing
  else
    base_url ← lift (_normalize_backend_base_url base_url);
    let fingerprint := _proof_fingerprint base_url verify_ssl candidate in
    reply ← key_call (GetBootstrapStatus base_url verify_ssl (within BOOTSTRAP_STATUS_TIMEOUT timeout));
    body ← expect 200 "bootstrap_status" true reply;
    needs ← lift (read_status body);
    if (needs : bool) then mret (mkInspection needs_bootstrap fingerprint)
    else
      reply ← key_call (GetKeys base_url candidate verify_ssl (within AUTHENTICATED_KEY_LIST_TIMEOUT timeout));
      body ← expect 200 "validation" true reply;
      if key_list_valid body then mret (mkInspection accepted fingerprint) else raise key_list_invalid.

Definition _register_backend_key_at_url (base_url : string) (verify_ssl : bool) (candidate label : string)
    (inspection : BackendKeyInspection) : M key_world BackendKeyAdoptionProof :=
  base_url ← lift (_normalize_backend_base_url base_url);
  reply ← key_call (PostRegisterKey base_url (strip candidate) label verify_ssl);
  body ← expect 201 "bootstrap" false reply;
  if registered body then mret (mkProof (in_fingerprint inspection) bootstrapped "") else raise bootstrap_response_invalid.

Definition adopt_backend_key_at_url (base_url : string) (verify_ssl : bool) (candidate label : string) (bootstrap_if_needed : bool)
    (timeout : option Z) : M key_world BackendKeyAdoptionProof :=
  inspection ← inspect_backend_key_at_url base_url verify_ssl candidate timeout;
  match in_state inspection with
  | accepted => mret (mkProof (in_fingerprint inspection) adopted "")
  | needs_bootstrap =>
      if negb bootstrap_if_needed then
        raise (adoption_error "bootstrap_required"
                 "The backend has no API keys. Provide an explicitly retained candidate for the one-time bootstrap operation.")
      else _register_backend_key_at_url base_url verify_ssl candidate label inspection
  end.

Definition bootstrap_backend_key_at_url (base_url : string) (verify_ssl : bool) (candidate label : string) :
    M key_world BackendKeyAdoptionProof :=
  adopt_backend_key_at_url base_url verify_ssl candidate label true None.

Definition inspect_backend_key (e : key_endpoint) (candidate : string) : M key_world BackendKeyInspection :=
  if negb (ke_enabled e) then raise (adoption_error "endpoint_disabled" "Enable the backend endpoint before checking its API key.")
  else
    '(base_url, verify_ssl) ← lift (backend_key_target e);
    inspect_backend_key_at_url base_url verify_ssl candidate None.

Definition adopt_rotated_backend_key (e : key_endpoint) (candidate : string) (bootstrap_if_needed : bool) :
    M key_world BackendKeyAdoptionProof :=
  if negb (ke_enabled e) then
    raise (adoption_error "endpoint_disabled" "Enable the backend endpoint before adopting a replacement API key.")
  else
    let candidate := strip candidate in
    if is_empty candidate then raise candidate_missing
    else
      '(base_url, verify_ssl) ← lift (backend_key_target e);
      proof ← adopt_backend_key_at_url base_url verify_ssl candidate
                ("netbox-fastapi-" +:+ match ke_pk e with Some pk => pretty pk | None => "pending" end) bootstrap_if_needed None;
      target ← lift (backend_key_target_fingerprint e);
      mret (mkProof (pf_fingerprint proof) (pf_action proof) target).

End Adoption.

(** ** The protocol of an adoption *)

Definition key_exchange : Type := key_request * key_reply.

(** The answer to the first request. *)
Definition status_says (r : key_reply) (needs : bool) : Prop :=
  exists retry_after body, r = KeyResponse 200 retry_after body /\ read_status body = Ok needs.

(** The texts a refused adoption may give.  The last one names the phase and
    the status of the answer; no other part of an answer, no address and no key
    is in any of them. *)
Definition kept : string := "; the previous key was kept unchanged.".
Definition kept_api : string := "; the previous API key was kept unchanged.".

Definition fixed_texts : list string :=
  ["Provide a non-empty backend API key.";
   "Configure a backend domain or IP address before adopting an API key.";
   "Configure a valid backend URL before adopting an API key.";
   "Configure a backend URL containing only an HTTP(S) scheme, host, and port.";
   "Configure a valid backend domain name before adopting an API key.";
   "Configure a valid backend port before adopting an API key.";
   "The backend timed out" +:+ kept_api; "TLS verification failed" +:+ kept_api;
   "The backend could not be reached" +:+ kept_api; "The backend request failed" +:+ kept_api;
   "The backend became initialized before registration completed; no key was persisted.";
   "The candidate API key was rejected" +:+ kept; "The backend rejected the key state transition" +:+ kept;
   "The backend throttled validation; wait before trying again. The previous key was kept unchanged.";
   "The backend returned an invalid bootstrap status; no key was persisted.";
   "The backend returned an inconsistent bootstrap status; no key was persisted.";
   "The backend returned an invalid authenticated key list" +:+ kept_api;
   "The backend returned an invalid bootstrap response; verify the key before enabling the endpoint.";
   "The backend has no API keys. Provide an explicitly retained candidate for the one-time bootstrap operation."].

Definition phases : list string := ["bootstrap_status"; "validation"; "bootstrap"].

Definition fixed_text (msg : string) : Prop :=
  msg ∈ fixed_texts \/
  exists phase status, phase ∈ phases /\
    msg = "The backend rejected API-key " +:+ phase +:+ " with HTTP " +:+ pretty (status : Z) +:+ kept.

(** An error of the service with one of those texts. *)
Definition adoption_refused {A} (res : result A) : Prop :=
  exists code msg status retry_after, res = Err (BackendKeyAdoptionError code msg status retry_after) /\ fixed_text msg.

Section Protocol.
Variable sha256 : string -> string.
Variables (base : string) (verify : bool) (candidate : string).

(** What an inspection may do, the latest exchange first. *)
Inductive inspection_run : list key_exchange -> result BackendKeyInspection -> Prop :=
| ir_refused res : adoption_refused res -> inspection_run [] res
| ir_no_status url t r res :
    _normalize_backend_base_url base = Ok url -> adoption_refused res ->
    inspection_run [(GetBootstrapStatus url verify t, r)] res
| ir_empty url t r :
    _normalize_backend_base_url base = Ok url -> strip candidate <> "" -> status_says r true ->
    inspection_run [(GetBootstrapStatus url verify t, r)]
      (Ok (mkInspection needs_bootstrap (_proof_fingerprint sha256 url verify (strip candidate))))
| ir_key_refused url t r t' r' res :
    _normalize_backend_base_url base = Ok url -> status_says r false -> adoption_refused res ->
    inspection_run [(GetKeys url (strip candidate) verify t', r'); (GetBootstrapStatus url verify t, r)] res
| ir_accepted url t r t' retry_after body :
    _normalize_backend_base_url base = Ok url -> strip candidate <> "" -> status_says r false -> key_list_valid body = true ->
    inspection_run [(GetKeys url (strip candidate) verify t', KeyResponse 200 retry_after body); (GetBootstrapStatus url verify t, r)]
      (Ok (mkInspection accepted (_proof_fingerprint sha256 url verify (strip candidate)))).

(** What an adoption may do. *)
Inductive adoption_run (label : string) (bootstrap : bool) : list key_exchange -> result BackendKeyAdoptionProof -> Prop :=
| ar_inspected l i res :
    inspection_run l i -> (forall a, i = Ok a -> in_state a = needs_bootstrap /\ bootstrap = false) -> adoption_refused res ->
    adoption_run label bootstrap l res
| ar_adopted l a :
    inspection_run l (Ok a) -> in_state a = accepted -> adoption_run label bootstrap l (Ok (mkProof (in_fingerprint a) adopted ""))
| ar_register_refused l a url r res :
    inspection_run l (Ok a) -> in_state a = needs_bootstrap -> bootstrap = true -> _normalize_backend_base_url base = Ok url ->
    adoption_refused res -> adoption_run label bootstrap ((PostRegisterKey url (strip candidate) label verify, r) :: l) res
| ar_bootstrapped l a url retry_after body :
    inspection_run l (Ok a) -> in_state a = needs_bootstrap -> bootstrap = true -> _normalize_backend_base_url base = Ok url ->
    registered body = true ->
    adoption_run label bootstrap ((PostRegisterKey url (strip candidate) label verify, KeyResponse 201 retry_after body) :: l)
      (Ok (mkProof (in_fingerprint a) bootstrapped "")).

(** An error whose text is one of the list. *)
Lemma listed_refused {A} (code msg : string) (status : option Z) (ra : option string) :
  mem_str msg fixed_texts = true -> adoption_refused (Err (A := A) (BackendKeyAdoptionError code msg status ra)).
Proof. intros H%mem_str_spec. exists code, msg, status, ra. split; [done|by left]. Qed.

Ltac listed := apply listed_refused; vm_compute; reflexivity.

Lemma transport_refused {A} (r : key_reply) : adoption_refused (Err (A := A) (_transport_error r)).
Proof. destruct r; listed. Qed.

Lemma rejection_refused {A} (s : Z) (phase : string) (ra : option string) :
  phase ∈ phases -> adoption_refused (Err (A := A) (_http_rejection s phase ra)).
Proof.
  intros Hp. unfold _http_rejection. repeat (case_match; [listed|]). eexists _, _, _, _. split; [done|]. right.
  by exists phase, s.
Qed.

Lemma canonical_domain_refused {A} (d : string) (e : exn) : _canonical_domain d = Err e -> adoption_refused (Err (A := A) e).
Proof. unfold _canonical_domain. case_match; [|done]. intros [= <-]. listed. Qed.

Lemma normalize_refused {A} (u : string) (e : exn) : _normalize_backend_base_url u = Err e -> adoption_refused (Err (A := A) e).
Proof.
  unfold _normalize_backend_base_url. destruct (is_empty _); [intros [= <-]; listed|].
  destruct (urlsplit _) as [p|]; [|intros [= <-]; listed]. destruct (su_port p) as [port|]; [|intros [= <-]; listed].
  destruct (_ || _)%bool; [intros [= <-]; listed|]. destruct (ip_address _) as [[v6 t]|]; simpl.
  - destruct port as [n|]; [|done]. destruct ((n <? 1) || (65535 <? n))%bool; [|done]. intros [= <-]. listed.
  - destruct (_canonical_domain _) as [a|e'] eqn:Ed; simpl; [|intros [= ->]; by eapply canonical_domain_refused].
    destruct port as [n|]; [|done]. destruct ((n <? 1) || (65535 <? n))%bool; [|done]. intros [= <-]. listed.
Qed.

Lemma status_refused {A} (body : option pyval) (e : exn) : read_status body = Err e -> adoption_refused (Err (A := A) e).
Proof.
  assert (H1 : adoption_refused (Err (A := A) (status_invalid "invalid"))) by listed.
  assert (H2 : adoption_refused (Err (A := A) (status_invalid "inconsistent"))) by listed.
  unfold read_status. destruct body as [[| | | | | |d]|]; try (intros [= <-]; assumption).
  destruct (get "needs_bootstrap" d), (get "has_db_keys" d); try (intros [= <-]; assumption).
  destruct (Bool.eqb _ _); [intros [= <-]; assumption|done].
Qed.

(** One request, then the rest. *)
Lemma key_call_adds {A} (r : key_request) (k : key_reply -> M key_world A) (T : list key_exchange -> result A -> Prop) :
  (forall reply, adds kw_log (k reply) (fun l res => T (l ++ [(r, reply)]) res)) ->
  adds kw_log (key_call r ≫= k) T.
Proof.
  intros Hk w. apply wp_bind. unfold wp at 1, key_call. destruct (kw_replies w) as [|reply rest]; cbn [fst snd].
  - eapply wp_mono; [apply Hk|]. intros res w' (new & Hn & HT). exists (new ++ [(r, HttpConnectionError)]). by rewrite Hn, <- app_assoc.
  - eapply wp_mono; [apply Hk|]. intros res w' (new & Hn & HT). exists (new ++ [(r, reply)]). by rewrite Hn, <- app_assoc.
Qed.

Lemma expect_adds {A} (n : Z) (phase : string) (b : bool) (reply : key_reply) (k : option pyval -> M key_world A)
    (T : list key_exchange -> result A -> Prop) :
  phase ∈ phases -> (forall res, adoption_refused res -> T [] res) ->
  (forall retry_after body, reply = KeyResponse n retry_after body -> adds kw_log (k body) T) ->
  adds kw_log (expect n phase b reply ≫= k) T.
Proof.
  intros Hphase Hbad Hgood.
  assert (Hr : forall e, adoption_refused (Err (A := A) e) -> adds kw_log (raise e ≫= k) T).
  { intros e He. eapply adds_mono; [apply adds_raise_bind|]. intros l r [-> ->]. by apply Hbad. }
  unfold expect. destruct reply as [| | | |status ra body]; try apply Hr, transport_refused.
  destruct (Z.eqb_spec status n) as [->|]; [|by apply Hr, rejection_refused]. apply adds_ret_bind. by eapply Hgood.
Qed.

Lemma lift_adds {A B} (v : result A) (k : A -> M key_world B) (T : list key_exchange -> result B -> Prop) :
  (forall e, v = Err e -> T [] (Err e)) -> (forall a, v = Ok a -> adds kw_log (k a) T) -> adds kw_log (lift v ≫= k) T.
Proof.
  intros He Hk. destruct v as [a|e]; [by apply (Hk a)|]. intros w. exists []. split; [done|]. by apply He.
Qed.

Lemma raise_adds {A} (e : exn) (T : list key_exchange -> result A -> Prop) : T [] (Err e) -> adds kw_log (raise e) T.
Proof. intros H. eapply adds_mono; [apply adds_raise|]. by intros l r [-> ->]. Qed.

Lemma ret_adds {A} (a : A) (T : list key_exchange -> result A -> Prop) : T [] (Ok a) -> adds kw_log (mret a) T.
Proof. intros H. eapply adds_mono; [apply adds_ret|]. by intros l r [-> ->]. Qed.

Lemma inspect_adds (timeout : option Z) : adds kw_log (inspect_backend_key_at_url sha256 base verify candidate timeout) inspection_run.
Proof.
  unfold inspect_backend_key_at_url. destruct (is_empty (strip candidate)) eqn:Ec.
  { apply raise_adds, ir_refused. listed. }
  assert (Hc : strip candidate <> "") by (by destruct (strip candidate)).
  apply lift_adds; [intros e He; apply ir_refused; by eapply normalize_refused|]. intros url Hu.
  apply key_call_adds. intros reply. apply expect_adds; [unfold phases; set_solver|intros res Hres; by eapply ir_no_status|]. intros ra body ->.
  apply lift_adds; [intros e He; eapply ir_no_status; [done|by eapply status_refused]|]. intros [|] Hs.
  - apply ret_adds. eapply ir_empty; [done|done|]. by exists ra, body.
  - apply key_call_adds. intros reply. assert (Hst : status_says (KeyResponse 200 ra body) false) by (by exists ra, body).
    apply expect_adds; [unfold phases; set_solver|intros res Hres; by eapply ir_key_refused|]. intros ra' body' ->.
    destruct (key_list_valid body') eqn:Ek; [apply ret_adds; by eapply ir_accepted|].
    apply raise_adds. eapply ir_key_refused; [done|done|]. listed.
Qed.

Lemma refused_cast {A B} (e : exn) : adoption_refused (Err (A := A) e) -> adoption_refused (Err (A := B) e).
Proof. intros (? & ? & ? & ? & [= ->] & H). by eexists _, _, _, _. Qed.

Lemma inspection_error {B} (l : list key_exchange) (e : exn) : inspection_run l (Err e) -> adoption_refused (Err (A := B) e).
Proof. inversion 1; subst; by eapply refused_cast. Qed.

(** The registration that follows the inspection [a]. *)
Lemma register_adds (label : string) (l : list key_exchange) (a : BackendKeyInspection) (url : string) :
  inspection_run l (Ok a) -> in_state a = needs_bootstrap -> _normalize_backend_base_url base = Ok url ->
  adds kw_log (_register_backend_key_at_url base verify candidate label a) (fun new res => adoption_run label true (new ++ l) res).
Proof.
  intros Hi Hs Hu. unfold _register_backend_key_at_url. apply lift_adds; [by rewrite Hu|]. intros url' Hu'. rewrite Hu in Hu'.
  injection Hu' as <-. apply key_call_adds. intros reply.
  apply expect_adds; [unfold phases; set_solver|intros res Hres; by eapply ar_register_refused|]. intros ra body ->.
  destruct (registered body) eqn:Er; [apply ret_adds; by eapply ar_bootstrapped|].
  apply raise_adds. eapply ar_register_refused; [done..|]. listed.
Qed.

Lemma adopt_adds (label : string) (bootstrap : bool) (timeout : option Z) :
  adds kw_log (adopt_backend_key_at_url sha256 base verify candidate label bootstrap timeout) (adoption_run label bootstrap).
Proof.
  unfold adopt_backend_key_at_url. intros w. apply wp_bind. eapply wp_mono; [apply inspect_adds|].
  intros [i|e] w1 (new & Hn & Hi).
  2: { exists new. split; [done|]. eapply ar_inspected; [exact Hi|done|]. by eapply inspection_error. }
  destruct (in_state i) eqn:Es; [apply wp_ret; exists new; split; [done|]; by apply ar_adopted|].
  destruct bootstrap; cbn [negb].
  - assert (Hu : exists url, _normalize_backend_base_url base = Ok url).
    { inversion Hi; subst; eauto; by destruct H as (? & ? & ? & ? & [=] & _). }
    destruct Hu as [url Hu]. eapply wp_mono; [by apply (register_adds label new i url)|].
    intros res w2 (new2 & Hn2 & Hr). exists (new2 ++ new). by rewrite Hn2, Hn, <- app_assoc.
  - apply wp_raise. exists new. split; [done|]. eapply ar_inspected; [exact Hi| |listed]. intros a [= <-]. done.
Qed.

End Protocol.

(** C21: Every check of a candidate key follows the protocol, whatever the backend
    answers: the bootstrap status is asked first; the key is shown to the
    backend only when that one has keys, and registered only when it has none
    and the caller allowed it, in one request; it is accepted only by a list
    of valid keys or by the answer 201.  All requests go to the canonical
    address of the given one, a proof is for that address and key, and every
    failure is an error of the service with one of its fixed texts, which hold
    neither the key nor, but for its status, anything of an answer. *)
Theorem key_adoption_follows_protocol (sha256 : string -> string) (base : string) (verify : bool) (candidate label : string)
    (bootstrap : bool) (timeout : option Z) (replies : list key_reply) :
  let run := adopt_backend_key_at_url sha256 base verify candidate label bootstrap timeout (mkKeyWorld replies []) in
  adoption_run sha256 base verify candidate label bootstrap (kw_log (snd run)) (fst run) /\
  (List.length (kw_log (snd run)) <= 2)%nat.
Proof.
  cbv zeta. destruct (adopt_adds sha256 base verify candidate label bootstrap timeout (mkKeyWorld replies [])) as (new & Hn & Hr).
  rewrite Hn. cbn [kw_log]. rewrite app_nil_r. split; [done|].
  assert (Hi : forall l i, inspection_run sha256 base verify candidate l i -> (List.length l <= 2)%nat /\
    (forall a, i = Ok a -> in_state a = needs_bootstrap -> (List.length l <= 1)%nat)).
  { intros l i H. inversion H; subst; simpl; (split; [lia|]); intros a Ha Hs; try lia;
      try (by match goal with Hx : adoption_refused _ |- _ => destruct Hx as (? & ? & ? & ? & Hx & _); rewrite Hx in Ha end).
    by injection Ha as <-. }
  inversion Hr; subst; match goal with H : inspection_run _ _ _ _ _ _ |- _ => apply Hi in H as [Hl Hl1] end;
    first [exact Hl | apply le_n_S; by eapply Hl1].
Qed.

(** ** Texts without the separator of the fingerprints *)

(** No NUL: what every text of the database is. *)
Definition nul_free (s : string) : bool := all_chars (no_char "000") s.

Lemma nul_free_app (s t : string) : nul_free (s +:+ t) = (nul_free s && nul_free t)%bool.
Proof. apply all_chars_app. Qed.

Lemma nul_free_cons (c : ascii) (s : string) : nul_free (String c s) = (no_char "000" c && nul_free s)%bool.
Proof. done. Qed.

(** The part of a text a function keeps. *)
Definition keeps_nul_free (f : string -> string) : Prop := forall s, nul_free s = true -> nul_free (f s) = true.

Lemma lower_nul_free : keeps_nul_free lower.
Proof.
  assert (Hc : forall c, no_char "000" c = true -> no_char "000" (lower_char c) = true) by (by intros [[] [] [] [] [] [] [] []]).
  intros s. induction s as [|c s IH]; [done|]. cbn [lower]. rewrite !nul_free_cons. intros [H1 H2]%andb_prop. by rewrite Hc, IH.
Qed.

Lemma lstrip_nul_free : keeps_nul_free lstrip.
Proof.
  intros s. induction s as [|c s IH]; [done|]. cbn [lstrip]. intros H. destruct (is_space c); [|done].
  rewrite nul_free_cons in H. by apply andb_prop in H as [_ H%IH].
Qed.

Lemma rstrip_nul_free : keeps_nul_free rstrip.
Proof.
  intros s. induction s as [|c s IH]; [done|]. cbn [rstrip]. rewrite nul_free_cons. intros [H1 H2%IH]%andb_prop.
  destruct (rstrip s); [destruct (is_space c); [done|]; by rewrite nul_free_cons, H1|by rewrite nul_free_cons, H1].
Qed.

Lemma strip_nul_free : keeps_nul_free strip.
Proof. intros s H. by apply lstrip_nul_free, rstrip_nul_free. Qed.

Lemma split_first_nul_free (c0 : ascii) : keeps_nul_free (split_first c0).
Proof.
  intros s. induction s as [|c s IH]; [done|]. cbn [split_first]. rewrite nul_free_cons. intros [H1 H2%IH]%andb_prop.
  destruct (Ascii.eqb c c0); [done|]. by rewrite nul_free_cons, H1.
Qed.

Lemma control_nul_free : keeps_nul_free lstrip_control.
Proof.
  intros s. induction s as [|c s IH]; [done|]. cbn [lstrip_control]. intros H. destruct (control_or_space c); [|done].
  rewrite nul_free_cons in H. by apply andb_prop in H as [_ H%IH].
Qed.

Lemma breaks_nul_free : keeps_nul_free drop_breaks.
Proof.
  intros s. induction s as [|c s IH]; [done|]. cbn [drop_breaks]. rewrite nul_free_cons. intros [H1 H2%IH]%andb_prop.
  destruct (existsb _ _); [done|]. by rewrite nul_free_cons, H1.
Qed.

Lemma drop_str_nul_free (n : nat) : keeps_nul_free (drop_str n).
Proof.
  induction n as [|n IH]; intros [|c s]; try done. rewrite nul_free_cons. intros [_ H]%andb_prop. by apply IH.
Qed.

Lemma partition_nul_free (c0 : ascii) (s : string) :
  nul_free s = true ->
  nul_free (fst (partition_char c0 s)) = true /\ match snd (partition_char c0 s) with Some t => nul_free t = true | None => True end.
Proof.
  induction s as [|c s IH]; [done|]. cbn [partition_char]. rewrite nul_free_cons. intros [H1 H2]%andb_prop.
  destruct (Ascii.eqb c c0); [done|]. specialize (IH H2). destruct (partition_char c0 s) as [a b]. cbn [fst snd] in *.
  by rewrite nul_free_cons, H1.
Qed.

Lemma rpartition_nul_free (c0 : ascii) (s a b : string) :
  nul_free s = true -> rpartition_char c0 s = Some (a, b) -> nul_free a = true /\ nul_free b = true.
Proof.
  revert a b. induction s as [|c s IH]; intros a b; [done|]. cbn [rpartition_char]. rewrite nul_free_cons. intros [H1 H2]%andb_prop.
  destruct (rpartition_char c0 s) as [[a' b']|] eqn:E.
  - intros [= <- <-]. destruct (IH a' b' H2 eq_refl) as [Ha Hb]. by rewrite nul_free_cons, H1.
  - destruct (Ascii.eqb c c0); [|done]. by intros [= <- <-].
Qed.

Lemma until_nul_free (stop : ascii -> bool) (s : string) :
  nul_free s = true -> nul_free (fst (until stop s)) = true /\ nul_free (snd (until stop s)) = true.
Proof.
  induction s as [|c s IH]; [done|]. cbn [until]. intros H. destruct (stop c); [done|].
  rewrite nul_free_cons in H. apply andb_prop in H as [H1 H2]. specialize (IH H2). destruct (until stop s) as [a b]. cbn [fst snd] in *.
  by rewrite nul_free_cons, H1.
Qed.

Lemma hex_text_nul_free (n : Z) : nul_free (hex_text n) = true.
Proof.
  assert (Hd : forall m, nul_free (String (hex_digit (Z.to_nat (m mod 16))) "") = true).
  { intros m. assert (Hm : 0 <= m mod 16 < 16) by (apply Z.mod_pos_bound; lia). generalize dependent (m mod 16). intros k Hk.
    assert (Hall : forallb (fun k => nul_free (String (hex_digit (Z.to_nat k)) "")) (seqZ 0 16) = true) by (vm_compute; reflexivity).
    rewrite forallb_forall in Hall. apply Hall. rewrite <- list_elem_of_In, elem_of_seqZ. lia. }
  unfold hex_text.
  assert (Hc : forall l, Forall (fun d => nul_free (String (hex_digit (Z.to_nat d)) "") = true) l ->
    nul_free (String.concat "" (List.map (fun d => String (hex_digit (Z.to_nat d)) "") l)) = true).
  { intros l Hl. induction Hl as [|d l Hd' Hl IH]; [done|]. destruct l as [|d' l]; [done|].
    change (nul_free (String (hex_digit (Z.to_nat d)) "" +:+ ("" +:+ String.concat "" (List.map (fun d => String (hex_digit (Z.to_nat d)) "") (d' :: l)))) = true).
    rewrite !nul_free_app, Hd', IH. done. }
  apply Hc, Forall_app. split; [|by constructor; [apply Hd|constructor]].
  set (a := (n / 4096) mod 16). set (b := (n / 256) mod 16). set (c := (n / 16) mod 16).
  assert (Hl : Forall (fun d => nul_free (String (hex_digit (Z.to_nat d)) "") = true) [a; b; c]) by (repeat constructor; apply Hd).
  clearbody a b c. revert Hl. generalize [a; b; c]. intros l Hl. induction Hl as [|d l Hd' Hl IH]; [done|].
  destruct d; cbn [drop_zeros]; [done|by constructor..].
Qed.

Lemma ipv6_text_nul_free (words : list Z) : nul_free (ipv6_text words) = true.
Proof.
  assert (Hj : forall l, nul_free (join ":" (List.map hex_text l)) = true).
  { intros l. apply all_chars_join; [done|]. apply Forall_map. apply Forall_forall. intros n _. apply hex_text_nul_free. }
  unfold ipv6_text. destruct (best_run _ _ _) as [i n]. destruct (Nat.ltb 1 n); [|apply Hj]. by rewrite !nul_free_app, !Hj.
Qed.

Lemma ip_address_nul_free (s t : string) (v6 : bool) : nul_free s = true -> ip_address s = Some (v6, t) -> nul_free t = true.
Proof.
  intros Hs. unfold ip_address. destruct (ipv4_int s); [by intros [= _ <-]|]. destruct (ipv6_with_scope s); [|done].
  destruct (partition_nul_free "%" s Hs) as [_ H2]. destruct (partition_char "%" s) as [addr [scope|]]; intros [= _ <-].
  - rewrite !nul_free_app, ipv6_text_nul_free. by rewrite H2.
  - apply ipv6_text_nul_free.
Qed.

Lemma bracketed_nul_free (v6 : bool) (t : string) : nul_free t = true -> nul_free (bracketed v6 t) = true.
Proof. intros H. destruct v6; [|done]. unfold bracketed. by rewrite !nul_free_app, H. Qed.

Lemma canonical_domain_nul_free (s d : string) : nul_free s = true -> _canonical_domain s = Ok d -> nul_free d = true.
Proof.
  intros Hs. unfold _canonical_domain. destruct (_ || _)%bool; [done|]. intros [= <-]. by apply lower_nul_free, strip_nul_free.
Qed.

Lemma canonical_ip_nul_free (v : option string) (a : string) :
  match v with Some s => nul_free s = true | None => True end -> _canonical_ip_authority v = Ok a -> nul_free a = true.
Proof.
  destruct v as [s|]; [|by intros _ [= <-]]. intros Hs. unfold _canonical_ip_authority.
  destruct (ip_address _) as [[v6 t]|] eqn:Ei; [|done]. intros [= <-]. apply bracketed_nul_free.
  eapply ip_address_nul_free; [|exact Ei]. by apply strip_nul_free, split_first_nul_free.
Qed.

Lemma hostname_nul_free (u : split_url) : nul_free (su_netloc u) = true -> nul_free (su_hostname u) = true.
Proof.
  intros Hn. assert (Hh : nul_free (fst (hostinfo (su_netloc u))) = true).
  { unfold hostinfo. set (rest := match rpartition_char _ _ with Some _ => _ | None => _ end).
    assert (Hr : nul_free rest = true).
    { unfold rest. destruct (rpartition_char "@" _) as [[a b]|] eqn:E; [|done]. by apply rpartition_nul_free in E as [_ E]. }
    destruct (partition_nul_free "[" rest Hr) as [H1 H2]. destruct (partition_nul_free ":" rest Hr) as [H3 _].
    destruct (partition_char "[" rest) as [a [b|]]; cbn [fst snd] in *; [|done].
    destruct (partition_nul_free "]" b H2) as [H4 _]. destruct (partition_char "]" b) as [h [after|]]; exact H4. }
  unfold su_hostname. destruct (partition_nul_free "%" _ Hh) as [H1 H2].
  destruct (partition_char "%" _) as [host [zone|]]; cbn [fst snd] in *; [|by apply lower_nul_free].
  rewrite !nul_free_app, H2, andb_true_r. by apply lower_nul_free.
Qed.

Lemma urlsplit_nul_free (s : string) (u : split_url) : nul_free s = true -> urlsplit s = Some u -> nul_free (su_netloc u) = true.
Proof.
  intros Hs. unfold urlsplit. set (url := drop_breaks (lstrip_control s)).
  assert (Hu : nul_free url = true) by (by apply breaks_nul_free, control_nul_free).
  assert (Hp : nul_free (snd (split_scheme url)) = true).
  { unfold split_scheme. destruct (partition_nul_free ":" url Hu) as [_ H2]. destruct (partition_char ":" url) as [[|c a] [b|]]; try done.
    by destruct (is_alpha c && _)%bool. }
  destruct (split_scheme url) as [scheme url']. cbn [snd] in Hp.
  assert (Hq : nul_free (fst (split_netloc url')) = true).
  { unfold split_netloc. destruct (startswith "//" url'); [|done]. by apply until_nul_free, drop_str_nul_free. }
  destruct (split_netloc url') as [netloc url'']. cbn [fst] in Hq. destruct (_ || _)%bool; [done|].
  destruct (partition_char "#" url'') as [a b]. destruct (partition_char "?" a) as [a' b']. by intros [= <-].
Qed.

Lemma pretty_nul_free (n : Z) : nul_free (pretty n) = true.
Proof. eapply all_chars_impl; [|apply pretty_Z_chars]. by intros [[] [] [] [] [] [] [] []]. Qed.

Lemma normalize_nul_free (s b : string) : nul_free s = true -> _normalize_backend_base_url s = Ok b -> nul_free b = true.
Proof.
  intros Hs. unfold _normalize_backend_base_url. destruct (is_empty (strip s)); [done|].
  destruct (urlsplit (strip s)) as [u|] eqn:Eu; [|done]. destruct (su_port u) as [port|]; [|done].
  destruct (mem_str (lower (su_scheme u)) ["http"; "https"]) eqn:Em; [|done]. cbn [negb orb]. destruct (_ || _)%bool; [done|].
  assert (Hh : nul_free (su_hostname u) = true) by (by eapply hostname_nul_free, urlsplit_nul_free, Eu; apply strip_nul_free).
  assert (Hsch : nul_free (lower (su_scheme u)) = true).
  { cbn [mem_str] in Em. apply orb_prop in Em as [->%String.eqb_eq|Em]; [done|]. rewrite orb_false_r in Em. by apply String.eqb_eq in Em as ->. }
  assert (Hend : forall a, nul_free a = true -> match port with
    | Some n => if ((n <? 1) || (65535 <? n))%bool
                then Err (_invalid_target "endpoint_port_invalid" "Configure a valid backend port before adopting an API key.")
                else Ok (lower (su_scheme u) +:+ "://" +:+ a +:+ ":" +:+ pretty n)
    | None => Ok (lower (su_scheme u) +:+ "://" +:+ a) end = Ok b -> nul_free b = true).
  { intros a Ha. destruct port as [n|]; [destruct (_ || _)%bool; [done|]|]; intros [= <-]; rewrite !nul_free_app, Hsch, Ha; [|done].
    by rewrite pretty_nul_free. }
  destruct (ip_address _) as [[v6 t]|] eqn:Ei; simpl.
  - apply Hend, bracketed_nul_free. exact (ip_address_nul_free _ _ _ Hh Ei).
  - destruct (_canonical_domain _) as [d|] eqn:Ed; simpl; [|done]. apply Hend. exact (canonical_domain_nul_free _ _ Hh Ed).
Qed.

(** What the database holds of an endpoint. *)
Definition plain_endpoint (e : key_endpoint) : bool :=
  (nul_free (ke_domain e) && match ke_ip e with Some a => nul_free a | None => true end)%bool.

Lemma target_nul_free (e : key_endpoint) (b : string) (v : bool) :
  plain_endpoint e = true -> backend_key_target e = Ok (b, v) -> nul_free b = true.
Proof.
  intros [Hd Hi]%andb_prop. unfold backend_key_target.
  set (h := if nonempty (strip (ke_domain e)) then _ else _).
  assert (Hh : forall host, h = Ok host -> nul_free host = true).
  { intros host. unfold h. destruct (nonempty _).
    - apply canonical_domain_nul_free. by apply strip_nul_free.
    - apply canonical_ip_nul_free. by destruct (ke_ip e). }
  destruct h as [host|]; simpl; [|done]. specialize (Hh host eq_refl). destruct (is_empty host); [done|]. destruct (_ || _)%bool; [done|].
  destruct (_normalize_backend_base_url _) as [base|] eqn:Eb; simpl; [|done]. intros [= <- _].
  eapply normalize_nul_free; [|exact Eb]. rewrite !nul_free_app, Hh, pretty_nul_free. by destruct e as [? ? ? ? ? []].
Qed.

(** ** Fingerprints determine the target *)

Lemma empty_app (s : string) : "" +:+ s = s.
Proof. done. Qed.

(** A text up to the first separator. *)
Lemma nul_split (a b s t : string) :
  nul_free a = true -> nul_free b = true -> a +:+ nul +:+ s = b +:+ nul +:+ t -> a = b /\ s = t.
Proof.
  revert b. induction a as [|c a IH]; intros [|d b]; rewrite ?nul_free_cons; unfold nul; rewrite ?app_cons_string, ?empty_app.
  - by intros _ _ [= ->].
  - intros _ [Hd _]%andb_prop [= <- _]. by vm_compute in Hd.
  - intros [Hc _]%andb_prop _ [= -> _]. by vm_compute in Hc.
  - intros [_ Ha]%andb_prop [_ Hb]%andb_prop [= -> H]. by destruct (IH b Ha Hb H) as [-> ->].
Qed.

Lemma int_of_bool_nul_free (b : bool) : nul_free (int_of_bool b) = true.
Proof. by destruct b. Qed.

Lemma int_of_bool_inj (a b : bool) : int_of_bool a = int_of_bool b -> a = b.
Proof. by destruct a, b. Qed.

Lemma target_payload_inj (t u : key_target) :
  nul_free (kt_base_url t) = true -> nul_free (kt_fallback t) = true -> nul_free (kt_base_url u) = true -> nul_free (kt_fallback u) = true ->
  target_payload t = target_payload u -> t = u.
Proof.
  destruct t as [b f v w s x], u as [b' f' v' w' s' x']. cbn [kt_base_url kt_fallback]. intros H1 H2 H3 H4. unfold target_payload.
  cbn [kt_base_url kt_fallback kt_verify_ssl kt_use_websocket kt_server_side kt_websocket join].
  intros [-> E]%nul_split; [|done..]. apply nul_split in E as [-> E]; [|done..].
  apply nul_split in E as [->%int_of_bool_inj E]; [|apply int_of_bool_nul_free..].
  apply nul_split in E as [->%int_of_bool_inj E]; [|apply int_of_bool_nul_free..].
  apply nul_split in E as [->%int_of_bool_inj ->]; [done|apply int_of_bool_nul_free..].
Qed.

Lemma target_of_nul_free (e : key_endpoint) (t : key_target) :
  plain_endpoint e = true -> target_of e = Ok t -> nul_free (kt_base_url t) = true /\ nul_free (kt_fallback t) = true.
Proof.
  intros Hp. unfold target_of. destruct (backend_key_target e) as [[base verify]|] eqn:Eb; simpl; [|done].
  apply target_nul_free in Eb; [|done]. destruct (_ && _)%bool; [done|].
  destruct (_canonical_ip_authority (ke_ip e)) as [ip|] eqn:Ei; simpl; [|done].
  destruct (websocket_target e) as [ws|]; simpl; [|done]. intros [= <-]. cbn [kt_base_url kt_fallback]. split; [done|].
  apply canonical_ip_nul_free in Ei; [|unfold plain_endpoint in Hp; apply andb_prop in Hp as [_ Hp]; by destruct (ke_ip e)].
  destruct (nonempty ip); [|done]. rewrite !nul_free_app, Ei, pretty_nul_free. by destruct e as [? ? ? ? ? []].
Qed.

(** The text that is hashed for an endpoint. *)
Definition payload_of (e : key_endpoint) : result string := t ← target_of e; Ok (target_payload t).

(** The hash tells the targets of two endpoints apart. *)
Definition no_collision (sha256 : string -> string) (e e' : key_endpoint) : Prop :=
  forall s t, payload_of e = Ok s -> payload_of e' = Ok t -> sha256 s = sha256 t -> s = t.

Lemma fingerprint_determines (sha256 : string -> string) (e e' : key_endpoint) (fp : string) :
  no_collision sha256 e e' -> plain_endpoint e = true -> plain_endpoint e' = true ->
  backend_key_target_fingerprint sha256 e = Ok fp -> backend_key_target_fingerprint sha256 e' = Ok fp ->
  exists t, target_of e = Ok t /\ target_of e' = Ok t.
Proof.
  unfold no_collision, payload_of, backend_key_target_fingerprint. intros Hsha Hp Hp'.
  destruct (target_of e) as [t|] eqn:Et; simpl in *; [|done]. destruct (target_of e') as [t'|] eqn:Et'; simpl in *; [|done].
  intros [= <-] [= E]. symmetry in E. apply Hsha in E; [|done..]. exists t. split; [done|]. f_equal.
  destruct (target_of_nul_free e t Hp Et), (target_of_nul_free e' t' Hp' Et'). symmetry. by apply target_payload_inj.
Qed.

Lemma trusted_inv (sha256 : string -> string) (e : key_endpoint) :
  backend_key_runtime_is_trusted sha256 e = Ok true ->
  ke_enabled e = true /\ backend_key_target_fingerprint sha256 e = Ok (lower (strip (ke_stored e))).
Proof.
  unfold backend_key_runtime_is_trusted. destruct (ke_enabled e); [|done]. cbn [negb]. destruct (negb _); [done|].
  destruct (backend_key_target_fingerprint sha256 e) as [fp|]; [|done]. unfold compare_digest. destruct (_ && _)%bool; [|done].
  by intros [= ->%String.eqb_eq].
Qed.

(** The stored fingerprint pins a backend key to one target: of all states of
    an endpoint that carry the same fingerprint, runtime traffic is allowed
    only in those that are enabled and have the very target the key was
    adopted for, down to the address fallback, certificate verification and
    the WebSocket address. *)
Theorem trusted_key_stays_at_target (sha256 : string -> string) (e e' : key_endpoint) :
  no_collision sha256 e e' -> plain_endpoint e = true -> plain_endpoint e' = true -> ke_stored e' = ke_stored e ->
  backend_key_runtime_is_trusted sha256 e = Ok true -> backend_key_runtime_is_trusted sha256 e' = Ok true ->
  ke_enabled e' = true /\ exists t, target_of e = Ok t /\ target_of e' = Ok t.
Proof.
  intros Hsha Hp Hp' Hs [_ H]%trusted_inv [He H']%trusted_inv. rewrite Hs in H'. split; [done|].
  by apply (fingerprint_determines sha256 e e' (lower (strip (ke_stored e)))).
Qed.

(** ** Concrete adoptions *)

Definition sample_endpoint (domain stored : string) : key_endpoint :=
  mkKeyEndpoint (Some 3) true domain (Some "10.0.0.5/24") 8800 true true true false None None stored.

(** A hash for examples: 64 characters, from the length of the text. *)
Definition sample_sha (s : string) : string :=
  let n := pretty (Z.of_nat (String.length s)) in
  take_str 64 (n +:+ "0000000000000000000000000000000000000000000000000000000000000000").

Definition sample_stored : string := default "" (match payload_of (sample_endpoint "proxbox.example.com" "") with Ok p => Some (sample_sha p) | Err _ => None end).

Lemma trusted_key_stays_at_target_witness :
  no_collision sample_sha (sample_endpoint "proxbox.example.com" sample_stored) (sample_endpoint " Proxbox.Example.COM" sample_stored) /\
  exists t, target_of (sample_endpoint " Proxbox.Example.COM" sample_stored) = Ok t.
Proof.
  assert (Hc : no_collision sample_sha (sample_endpoint "proxbox.example.com" sample_stored)
                 (sample_endpoint " Proxbox.Example.COM" sample_stored)).
  { intros s t Hs Ht _. vm_compute in Hs, Ht. congruence. }
  split; [exact Hc|].
  destruct (trusted_key_stays_at_target sample_sha (sample_endpoint "proxbox.example.com" sample_stored)
              (sample_endpoint " Proxbox.Example.COM" sample_stored) Hc) as (_ & t & _ & Ht); try (vm_compute; reflexivity).
  exists t. exact Ht.
Defined.

Definition ok_status (needs : bool) : key_reply :=
  KeyResponse 200 None (Some (VDict [("needs_bootstrap", VBool needs); ("has_db_keys", VBool (negb needs))])).
Definition ok_keys : key_reply :=
  KeyResponse 200 None (Some (VDict [("keys", VList [VDict [("id", VInt 1); ("label", VStr "a"); ("is_active", VBool true); ("created_at", VInt 5)]])])).

Definition sample_adoption (bootstrap : bool) (replies : list key_reply) : option adoption_action * list key_request :=
  let r := adopt_backend_key_at_url sample_sha "HTTPS://Proxbox.Example.com:8800/" true " key1 " "netbox" bootstrap None (mkKeyWorld replies []) in
  (match fst r with Ok p => Some (pf_action p) | Err _ => None end, List.map fst (kw_log (snd r))).

(** A known key; an empty backend without and with leave to register; a status
    that contradicts itself; a redirect. *)
Example adoptions :
  sample_adoption false [ok_status false; ok_keys] =
    (Some adopted, [GetKeys "https://proxbox.example.com:8800" "key1" true (sec 15); GetBootstrapStatus "https://proxbox.example.com:8800" true (sec 15)]) /\
  sample_adoption false [ok_status true] = (None, [GetBootstrapStatus "https://proxbox.example.com:8800" true (sec 15)]) /\
  sample_adoption true [ok_status true; KeyResponse 201 None (Some (VDict [("detail", VStr "ok")]))] =
    (Some bootstrapped, [PostRegisterKey "https://proxbox.example.com:8800" "key1" "netbox" true;
                         GetBootstrapStatus "https://proxbox.example.com:8800" true (sec 15)]) /\
  fst (sample_adoption true [KeyResponse 200 None (Some (VDict [("needs_bootstrap", VBool true); ("has_db_keys", VBool true)]))]) = None /\
  fst (sample_adoption true [KeyResponse 302 None None]) = None.
Proof. repeat split; vm_compute; reflexivity. Qed.
