(* ===== verification/FastapiEndpoint.v ===== *)
(** * The stored backend key (models/fastapi_endpoint.py)

    Saving a ProxBox backend endpoint: which key and which fingerprint of an
    adopted target a row may end up with.  The encryption of the token column
    is the interface [SecretStore], that of utils/encryption.py in
    models/primary_secrets.py; storage in OpenBao, where the column stays
    empty, is not modelled, and neither is the configuration of a pending
    endpoint that follows the commit. *)
From Stdlib Require Import ZArith Lia Ascii String.
From stdpp Require Import base list sets strings pretty gmap.
From S2P Require Import Prelude Json Text Effects StageFailure Deadline BackendPath ConnectionAuthority Fernet BackendKey.

(** ** The secret store *)

(** [encrypt_primary_secret] and [decrypt_primary_secret] for a state [S]. *)
Class SecretStore (S : Type) := {
  ss_encrypt : string -> S -> result string * S;
  ss_decrypt : string -> S -> result string
}.

(** What is encrypted can be decrypted, and encrypting does not cost what was
    stored before. *)
Class SecretStoreLaws (S : Type) `{!SecretStore S} : Prop := {
  ss_round_trip : forall p s c s', ss_encrypt p s = (Ok c, s') -> ss_decrypt c s' = Ok p;
  ss_token : forall p s s', ss_encrypt p s = (Ok "", s') -> p = "";
  ss_stable : forall p s r s' c q, ss_encrypt p s = (r, s') -> ss_decrypt c s = Ok q -> ss_decrypt c s' = Ok q;
  ss_errors : forall c s e, ss_decrypt c s = Err e -> exists cls msg, e = EncryptionError cls msg
}.

(** ** Rows and instances *)

Record fe_row := mkFeRow {
  fe_enabled : bool; fe_domain : string; fe_ip_id : option Z; fe_port : Z; fe_use_https : bool; fe_verify_ssl : bool;
  fe_use_websocket : bool; fe_websocket_domain : string; fe_websocket_port : option Z; fe_server_side_websocket : bool;
  fe_token_enc : string; fe_fingerprint : string; fe_other : dict pyval }.

Definition set_secret (r : fe_row) (token_enc fingerprint : string) : fe_row :=
  mkFeRow (fe_enabled r) (fe_domain r) (fe_ip_id r) (fe_port r) (fe_use_https r) (fe_verify_ssl r) (fe_use_websocket r)
    (fe_websocket_domain r) (fe_websocket_port r) (fe_server_side_websocket r) token_enc fingerprint (fe_other r).

(** [_backend_connection_identity] *)
Definition _backend_connection_identity (r : fe_row) :=
  (lower (strip (fe_domain r)), fe_ip_id r, fe_port r, fe_use_https r, fe_verify_ssl r, fe_use_websocket r,
   lower (strip (fe_websocket_domain r)), fe_websocket_port r, fe_server_side_websocket r).

Definition _backend_key_persisted_signature (r : fe_row) :=
  (fe_enabled r, _backend_connection_identity r, fe_fingerprint r, fe_token_enc r).

Definition signature : Type :=
  bool * (string * option Z * Z * bool * bool * bool * string * option Z * bool) * string * string.

(** An instance in memory: its values, the signature it was loaded with,
    whether a token was assigned to it, and a proof held in memory. *)
Record fe_instance := mkInst {
  fi_pk : option Z; fi_row : fe_row; fi_loaded : option signature; fi_assigned : bool; fi_proof : option BackendKeyAdoptionProof }.

Definition with_secret (i : fe_instance) (token_enc fingerprint : string) : fe_instance :=
  mkInst (fi_pk i) (set_secret (fi_row i) token_enc fingerprint) (fi_loaded i) (fi_assigned i) (fi_proof i).
Definition with_assigned (i : fe_instance) (b : bool) : fe_instance := mkInst (fi_pk i) (fi_row i) (fi_loaded i) b (fi_proof i).
Definition with_proof (i : fe_instance) (p : option BackendKeyAdoptionProof) : fe_instance :=
  mkInst (fi_pk i) (fi_row i) (fi_loaded i) (fi_assigned i) p.
Definition with_loaded (i : fe_instance) (s : option signature) : fe_instance := mkInst (fi_pk i) (fi_row i) s (fi_assigned i) (fi_proof i).

(** The fields of [new] among [fields], over [old]: a partial save. *)
Definition select (fields : list string) (new old : fe_row) : fe_row :=
  let pick {A} (f : string) (get : fe_row -> A) : A := if mem_str f fields then get new else get old in
  mkFeRow (pick "enabled" fe_enabled) (pick "domain" fe_domain)
    (if (mem_str "ip_address" fields || mem_str "ip_address_id" fields)%bool then fe_ip_id new else fe_ip_id old)
    (pick "port" fe_port) (pick "use_https" fe_use_https) (pick "verify_ssl" fe_verify_ssl) (pick "use_websocket" fe_use_websocket)
    (pick "websocket_domain" fe_websocket_domain) (pick "websocket_port" fe_websocket_port)
    (pick "server_side_websocket" fe_server_side_websocket) (pick "token_enc" fe_token_enc)
    (pick "backend_key_target_fingerprint" fe_fingerprint)
    (fold_left (fun d f => match dget f (fe_other new) with Some v => dset f v d | None => d end) fields (fe_other old)).

Definition _BACKEND_KEY_PERSISTED_FIELDS : list string :=
  ["enabled"; "domain"; "ip_address_id"; "port"; "use_https"; "verify_ssl"; "use_websocket"; "websocket_domain"; "websocket_port";
   "server_side_websocket"; "token_enc"; "openbao_token_credential_uuid"; "backend_key_target_fingerprint"].

Definition _updates_backend_key_state (update_fields : list string) : bool :=
  existsb (fun f => mem_str f ("ip_address" :: _BACKEND_KEY_PERSISTED_FIELDS)) update_fields.

(** The next state of the endpoint, as the service sees it. *)
Definition effective_endpoint (pk : option Z) (r : fe_row) (ip : option string) : key_endpoint :=
  mkKeyEndpoint pk (fe_enabled r) (fe_domain r) ip (fe_port r) (fe_use_https r) (fe_verify_ssl r) (fe_use_websocket r)
    (fe_server_side_websocket r) (if nonempty (fe_websocket_domain r) then Some (fe_websocket_domain r) else None)
    (fe_websocket_port r) (fe_fingerprint r).

(** ** The world *)

Record fe_world (S : Type) := mkFw {
  fw_rows : gmap Z fe_row; fw_ips : gmap Z string; fw_secrets : S; fw_http : key_world; fw_next : Z; fw_entropy : list string }.
Arguments mkFw {S}.
Arguments fw_rows {S}.
Arguments fw_ips {S}.
Arguments fw_secrets {S}.
Arguments fw_http {S}.
Arguments fw_next {S}.
Arguments fw_entropy {S}.

Section Endpoint.
Context {S : Type} `{!SecretStore S}.
Variable sha256 : string -> string.
Notation W := (fe_world S).

Definition set_rows (m : gmap Z fe_row) (w : W) : W := mkFw m (fw_ips w) (fw_secrets w) (fw_http w) (fw_next w) (fw_entropy w).

Definition encrypt_primary_secret (p : string) : M W string := fun w =>
  if is_empty p then (Ok "", w)
  else let '(r, s) := ss_encrypt p (fw_secrets w) in (r, mkFw (fw_rows w) (fw_ips w) s (fw_http w) (fw_next w) (fw_entropy w)).

Definition decrypt_primary_secret (c : string) : M W string := fun w =>
  if is_empty c then (Ok "", w) else (ss_decrypt c (fw_secrets w), w).

(** [secrets.token_urlsafe(48)] *)
Definition token_urlsafe : M W string := fun w =>
  match fw_entropy w with
  | [] => (Ok "generated", w)
  | t :: rest => (Ok t, mkFw (fw_rows w) (fw_ips w) (fw_secrets w) (fw_http w) (fw_next w) rest)
  end.

Definition http {A} (m : M key_world A) : M W A := fun w =>
  let '(r, h) := m (fw_http w) in (r, mkFw (fw_rows w) (fw_ips w) (fw_secrets w) h (fw_next w) (fw_entropy w)).

Definition token_error (field msg : string) : exn := ValidationError (field +:+ ": " +:+ msg).

(** The token setter. *)
Definition assign_token (i : fe_instance) (value : string) : M W fe_instance :=
  c ← encrypt_primary_secret value;
  mret (with_assigned (with_secret i c (fe_fingerprint (fi_row i))) true).

Definition _persisted_backend_key_state (i : fe_instance) : M W (option fe_row) :=
  gets (fun w => match fi_pk i with Some pk => fw_rows w !! pk | None => None end).

(** [_locked_backend_key_ip_address] *)
Definition _locked_backend_key_ip_address (id : option Z) : M W (option string) :=
  match id with
  | None => mret None
  | Some id =>
      a ← gets (fun w => fw_ips w !! id);
      match (a : option string) with
      | Some a => mret (Some a)
      | None => raise (token_error "ip_address" "The selected backend IP address no longer exists.")
      end
  end.

(** The values of the next state: a partial save keeps the others. *)
Definition effective_row (i : fe_instance) (previous : option fe_row) (update_fields : option (list string)) : fe_row :=
  match previous, update_fields with
  | Some p, Some fields => select fields (fi_row i) p
  | _, _ => fi_row i
  end.

Definition unreadable_key : exn :=
  token_error "token" ("The stored backend key cannot be decrypted. Submit an explicit replacement key for this exact enabled target, "
                       +:+ "or use destructive recovery.").

(** [previous.token], which a submitted replacement may make up for. *)
Definition previous_token_of (previous : option fe_row) (replaced : bool) : M W string :=
  match previous with
  | None => mret ""
  | Some p =>
      try_except (t ← decrypt_primary_secret (fe_token_enc p); mret (strip t))
        (fun e => match e with
                  | EncryptionError _ _ => if replaced then mret "" else raise unreadable_key
                  | _ => raise e
                  end)
  end.

(** The checks of the next state's WebSocket policy. *)
Definition check_websocket (r : fe_row) : M W () :=
  if (fe_server_side_websocket r && negb (fe_use_websocket r))%bool then
    raise (token_error "server_side_websocket" "Enable WebSocket before enabling the server-side WebSocket client.")
  else
    _ ← (if nonempty (fe_websocket_domain r) then
           match canonical_backend_authority (Some (fe_websocket_domain r)) with
           | Ok _ => mret ()
           | Err e => raise (token_error "websocket_domain" (exn_msg e))
           end
         else mret ());
    match fe_websocket_port r with
    | Some p => if ((p <? 1) || (65535 <? p))%bool then raise (token_error "websocket_port" "Configure a valid WebSocket port.") else mret ()
    | None => mret ()
    end.

(** The part after the checks: [supplied] is the candidate an operator gave,
    [None] if there was none. *)
Definition settle_key (i : fe_instance) (previous : option fe_row) (e : key_endpoint) (supplied : option string)
    (current_candidate previous_token : string) (token_field_selected : bool) : M W fe_instance :=
  match supplied with
  | Some (String _ _) =>
      known ← lift (backend_key_proof_matches sha256 (fi_proof i) e current_candidate);
      i ← (if (known : bool) then mret i
           else try_except (proof ← http (adopt_rotated_backend_key sha256 e current_candidate true); mret (with_proof i (Some proof)))
                  (fun exc => match exc with
                              | BackendKeyAdoptionError _ msg _ _ => raise (token_error "token" msg)
                              | _ => raise exc
                              end));
      let target := match fi_proof i with Some p => pf_target_fingerprint p | None => "" end in
      match previous with
      | Some p =>
          if String.eqb current_candidate previous_token then mret (with_secret i (fe_token_enc p) target)
          else if token_field_selected then c ← encrypt_primary_secret current_candidate; mret (with_secret i c target)
          else mret (with_secret i (fe_token_enc (fi_row i)) target)
      | None =>
          if token_field_selected then c ← encrypt_primary_secret current_candidate; mret (with_secret i c target)
          else mret (with_secret i (fe_token_enc (fi_row i)) target)
      end
  | _ =>
      match previous with
      | Some p =>
          if nonempty previous_token then mret (with_secret i (fe_token_enc p) "")
          else t ← token_urlsafe; c ← encrypt_primary_secret t; mret (with_secret i c "")
      | None => t ← token_urlsafe; c ← encrypt_primary_secret t; mret (with_secret i c "")
      end
  end.

Definition stale : exn :=
  token_error "token" "This backend endpoint changed concurrently. Reload it before adopting a key or changing its connection.".
Definition unloaded : exn :=
  token_error "token" "Reload the complete backend endpoint before saving it; concurrency state is unavailable.".
Definition direct_change : exn :=
  token_error "token" "Assign backend keys through the token property; direct encrypted-field changes are not accepted.".

(** [loaded_signature[-1]] *)
Definition loaded_token (s : option signature) : string := match s with Some (_, _, _, t) => t | None => "" end.

Definition check_loaded (i : fe_instance) (previous : option fe_row) : M W () :=
  match previous with
  | None => mret ()
  | Some p =>
      match fi_loaded i with
      | None => raise unloaded
      | Some s => if decide (_backend_key_persisted_signature p = s) then mret () else raise stale
      end
  end.

Definition prepare_backend_key_transition (i : fe_instance) (candidate : option string) (update_fields : option (list string)) :
    M W fe_instance :=
  previous ← _persisted_backend_key_state i;
  _ ← check_loaded i previous;
  supplied ← match candidate with
             | Some c => mret (Some (strip c))
             | None => if fi_assigned i then t ← decrypt_primary_secret (fe_token_enc (fi_row i)); mret (Some (strip t)) else mret None
             end;
  let explicit_candidate := default "" supplied in
  let exists_ := match (previous : option fe_row) with Some _ => true | None => false end in
  previous_token ← previous_token_of previous (nonempty explicit_candidate);
  if (exists_ && match supplied with None => true | Some _ => false end
      && negb (String.eqb (fe_token_enc (fi_row i)) (loaded_token (fi_loaded i))))%bool
  then raise direct_change
  else
    let token_field_selected :=
      (negb exists_ || match update_fields with None => true | Some fields => mem_str "token_enc" fields end)%bool in
    if (exists_ && match supplied with Some _ => true | None => false end && negb (String.eqb explicit_candidate previous_token)
        && negb token_field_selected)%bool
    then raise (token_error "update_fields" "A replacement backend key cannot be supplied when token_enc is excluded from update_fields.")
    else
      let current_candidate := match (supplied : option string) with Some c => c | None => previous_token end in
      let token_changed := negb (String.eqb current_candidate previous_token) in
      let r := effective_row i previous update_fields in
      ip ← _locked_backend_key_ip_address (fe_ip_id r);
      let e := effective_endpoint (fi_pk i) r ip in
      _ ← check_websocket r;
      let connection_changed :=
        match (previous : option fe_row) with
        | None => false
        | Some p =>
            let current := match backend_key_target_fingerprint sha256 e with Ok fp => fp | Err _ => "" end in
            (negb (bool_decide (_backend_connection_identity r = _backend_connection_identity p))
             || is_empty (fe_fingerprint p) || negb (String.eqb (fe_fingerprint p) current))%bool
        end in
      if (negb exists_ && negb (fe_enabled r) && match supplied with Some (String _ _) => true | _ => false end)%bool then
        raise (token_error "token" "Do not stage a backend key on a disabled new endpoint; resubmit it explicitly when enabling the endpoint.")
      else
        match plan_backend_key_transition exists_ (fe_enabled r)
                (match (previous : option fe_row) with Some p => fe_enabled p | None => false end) token_changed connection_changed with
        | reject_disabled_change =>
            raise (token_error "token" "Enable the backend endpoint and validate the replacement key before changing its stored value.")
        | no_remote_check =>
            mret match (previous : option fe_row) with
                 | None => with_assigned (with_secret i "" "") false
                 | Some p => with_secret i (fe_token_enc p) (fe_fingerprint p)
                 end
        | preflight => settle_key i previous e supplied current_candidate previous_token token_field_selected
        end.
(** [transaction.atomic()]: an exception takes the rows back.  What was sent
    and what was encrypted stays. *)
Definition atomic {A} (m : M W A) : M W A := fun w =>
  match m w with
  | (Ok a, w') => (Ok a, w')
  | (Err e, w') => (Err e, set_rows (fw_rows w) w')
  end.

(** Django's save: an insert, or an update of the named fields. *)
Definition write_row (i : fe_instance) (update_fields : option (list string)) : M W fe_instance := fun w =>
  match fi_pk i, update_fields with
  | None, Some _ => (Err (ValueError "Cannot force an update in save() with no primary key."), w)
  | None, None =>
      let pk := fw_next w in
      (Ok (mkInst (Some pk) (fi_row i) (fi_loaded i) (fi_assigned i) (fi_proof i)),
       mkFw (<[pk := fi_row i]> (fw_rows w)) (fw_ips w) (fw_secrets w) (fw_http w) (pk + 1) (fw_entropy w))
  | Some pk, None => (Ok i, set_rows (<[pk := fi_row i]> (fw_rows w)) w)
  | Some pk, Some fields =>
      match fw_rows w !! pk with
      | Some old => (Ok i, set_rows (<[pk := select fields (fi_row i) old]> (fw_rows w)) w)
      | None => (Err (DatabaseError "Save with update_fields did not affect any rows."), w)
      end
  end.

Definition _normalize_update_fields (value : option (list string)) : M W (option (list string)) :=
  match value with
  | Some fields =>
      if mem_str "token" fields then raise (token_error "update_fields" "Use token_enc, not the virtual token property, in update_fields.")
      else mret (Some fields)
  | None => mret None
  end.

Definition _save_nonsecurity_only (i : fe_instance) (update_fields : option (list string)) : M W fe_instance :=
  i ← match fi_loaded i with
      | Some s =>
          let loaded := loaded_token (Some s) in
          if fi_assigned i then
            previous_token ← try_except (t ← decrypt_primary_secret loaded; mret (strip t))
              (fun e => match e with
                        | EncryptionError _ _ =>
                            raise (token_error "update_fields"
                                     ("The stored backend key cannot be decrypted. Include token_enc in update_fields and submit an explicit "
                                      +:+ "replacement key, or use destructive recovery."))
                        | _ => raise e
                        end);
            candidate ← (t ← decrypt_primary_secret (fe_token_enc (fi_row i)); mret (strip t));
            if String.eqb candidate previous_token then mret (with_secret i loaded (fe_fingerprint (fi_row i)))
            else raise (token_error "update_fields" "A replacement backend key cannot be supplied when token_enc is excluded from update_fields.")
          else if String.eqb (fe_token_enc (fi_row i)) loaded then mret i else raise direct_change
      | None =>
          if fi_assigned i then raise (token_error "token" "Reload the complete backend endpoint before assigning a key.") else mret i
      end;
  i ← write_row i update_fields;
  mret (with_assigned i false).

(** [require_backend_target_edit_authority]; [authorised] is what the actor of
    the request may do with this row. *)
Definition require_backend_target_edit_authority (authorised : bool) (i : fe_instance) : M W () :=
  match fi_pk i with
  | None => mret ()
  | Some pk =>
      if negb (fe_enabled (fi_row i)) then mret ()
      else
        previous ← gets (fun w => fw_rows w !! pk);
        match (previous : option fe_row) with
        | None => mret ()
        | Some p =>
            ips ← gets fw_ips;
            let ip (r : fe_row) : option string := match fe_ip_id r with Some id => (ips : gmap Z string) !! id | None => None end in
            target ← lift (backend_key_target_fingerprint sha256 (effective_endpoint (Some pk) (fi_row i) (ip (fi_row i))));
            before ← lift (backend_key_target_fingerprint sha256 (effective_endpoint (Some pk) p (ip p)));
            same ← (if String.eqb before target then lift (compare_digest (fe_fingerprint p) target) else mret false);
            if (same : bool) then mret ()
            else if authorised then mret ()
            else raise (PermissionDeniedError "Sensitive data access is not authorized.")
        end
  end.

Definition save (authorised : bool) (i : fe_instance) (update_fields : option (list string)) : M W fe_instance :=
  update_fields ← _normalize_update_fields update_fields;
  if match fi_pk i, update_fields with Some _, Some fields => negb (_updates_backend_key_state fields) | _, _ => false end
  then _save_nonsecurity_only i update_fields
  else
    _ ← require_backend_target_edit_authority authorised i;
    i ← atomic
          (i ← prepare_backend_key_transition i None update_fields;
           i ← write_row i (match update_fields with Some fields => Some ("backend_key_target_fingerprint" :: fields) | None => None end);
           persisted ← _persisted_backend_key_state i;
           match (persisted : option fe_row) with
           | None => raise (token_error "token" "The saved backend endpoint could not be reloaded.")
           | Some p => mret (with_loaded i (Some (_backend_key_persisted_signature p)))
           end);
    mret (with_proof (with_assigned i false) None).
End Endpoint.

(** ** What a stored key has been through *)

(** A request of an adoption at [url] for the key [cand]. *)
Definition request_for (url cand : string) (x : key_exchange) : Prop :=
  match fst x with
  | GetBootstrapStatus u _ _ => u = url
  | GetKeys u c _ _ | PostRegisterKey u c _ _ => u = url /\ c = cand
  end.

(** The backend at [base] accepted or registered the key [cand]. *)
Definition key_adopted (log : list key_exchange) (base : string) (verify : bool) (cand : string) : Prop :=
  exists url, _normalize_backend_base_url base = Ok url /\ cand <> "" /\
    ((exists t ra body, (GetKeys url cand verify t, KeyResponse 200 ra body) ∈ log /\ key_list_valid body = true) \/
     (exists label ra body, (PostRegisterKey url cand label verify, KeyResponse 201 ra body) ∈ log /\ registered body = true)).

Lemma key_adopted_mono (l l' : list key_exchange) (base : string) (verify : bool) (cand : string) :
  l ⊆ l' -> key_adopted l base verify cand -> key_adopted l' base verify cand.
Proof.
  intros Hl (url & Hu & Hc & H). exists url. split; [done|]. split; [done|].
  destruct H as [(t & ra & body & Hin & Hv)|(label & ra & body & Hin & Hv)]; [left; exists t, ra, body|right; exists label, ra, body]; auto.
Qed.

Lemma adoption_success (sha256 : string -> string) (base : string) (verify : bool) (cand label : string) (b : bool) (l : list key_exchange)
    (res : result BackendKeyAdoptionProof) :
  adoption_run sha256 base verify cand label b l res ->
  (forall url, _normalize_backend_base_url base = Ok url -> Forall (request_for url (strip cand)) l) /\
  match res with
  | Ok proof => key_adopted l base verify (strip cand)
  | Err e => exists code msg status ra, e = BackendKeyAdoptionError code msg status ra
  end.
Proof.
  assert (Hins : forall l i, inspection_run sha256 base verify cand l i ->
    (forall url, _normalize_backend_base_url base = Ok url -> Forall (request_for url (strip cand)) l) /\
    match i with
    | Ok a => strip cand <> "" /\ (in_state a = accepted -> key_adopted l base verify (strip cand))
    | Err e => True
    end).
  { intros l' i H. inversion H as [res' Hr|url t r res' Hu Hr|url t r Hu Hc Hs|url t r t' r' res' Hu Hs Hr|url t r t' ra body Hu Hc Hs Hk]; subst.
    - split; [by constructor|]. by destruct Hr as (? & ? & ? & ? & -> & _).
    - split; [|by destruct Hr as (? & ? & ? & ? & -> & _)]. intros u Hu'. rewrite Hu in Hu'. injection Hu' as <-. by repeat constructor.
    - split; [|done]. intros u Hu'. rewrite Hu in Hu'. injection Hu' as <-. by repeat constructor.
    - split; [|by destruct Hr as (? & ? & ? & ? & -> & _)]. intros u Hu'. rewrite Hu in Hu'. injection Hu' as <-. by repeat constructor.
    - split; [intros u Hu'; rewrite Hu in Hu'; injection Hu' as <-; by repeat constructor|]. split; [done|]. intros _. exists url.
      split; [done|]. split; [done|]. left. exists t', ra, body. split; [left|done]. }
  intros H. inversion H as [l' i res' Hi Hn Hr|l' a Hi Ha|l' a url r res' Hi Ha Hb Hu Hr|l' a url ra body Hi Ha Hb Hu Hg]; subst;
    apply Hins in Hi as [Hf Hi].
  - split; [done|]. destruct Hr as (? & ? & ? & ? & -> & _). by repeat eexists.
  - split; [done|]. by apply Hi.
  - split; [|destruct Hr as (? & ? & ? & ? & -> & _); by repeat eexists]. intros u Hu'. constructor; [|by apply Hf].
    rewrite Hu in Hu'. by injection Hu' as <-.
  - split; [intros u Hu'; constructor; [|by apply Hf]; rewrite Hu in Hu'; by injection Hu' as <-|]. exists url.
    split; [done|]. split; [by apply Hi|]. right. exists label, ra, body. split; [left|done].
Qed.

(** What an adoption for an endpoint comes to. *)
Definition rotated_outcome (sha256 : string -> string) (e : key_endpoint) (cand : string) (l : list key_exchange)
    (res : result BackendKeyAdoptionProof) : Prop :=
  match res with
  | Ok proof => exists t, target_of e = Ok t /\ pf_target_fingerprint proof = sha256 (target_payload t) /\
      key_adopted l (kt_base_url t) (kt_verify_ssl t) (strip cand)
  | Err _ => True
  end.

Lemma target_base (e : key_endpoint) (t : key_target) :
  target_of e = Ok t -> backend_key_target e = Ok (kt_base_url t, kt_verify_ssl t).
Proof.
  unfold target_of. destruct (backend_key_target e) as [[b v]|]; simpl; [|done]. destruct (_ && _)%bool; [done|].
  destruct (_canonical_ip_authority _); simpl; [|done]. destruct (websocket_target e); simpl; [|done]. by intros [= <-].
Qed.

Lemma adopt_rotated_adds (sha256 : string -> string) (e : key_endpoint) (cand : string) (b : bool) :
  adds kw_log (adopt_rotated_backend_key sha256 e cand b) (rotated_outcome sha256 e cand).
Proof.
  unfold adopt_rotated_backend_key. destruct (negb (ke_enabled e)); [by apply raise_adds|].
  destruct (is_empty (strip cand)); [by apply raise_adds|]. apply lift_adds; [done|]. intros [base verify] Hb.
  intros w. apply wp_bind. eapply wp_mono; [apply adopt_adds|]. intros [proof|exc] w1 (new & Hn & Hr); [|by exists new].
  apply adoption_success in Hr as [_ Hr]. unfold backend_key_target_fingerprint. apply wp_bind. unfold wp at 1, lift.
  destruct (target_of e) as [t|] eqn:Et; [|by exists new]. apply wp_ret. exists new. split; [done|]. exists t. split; [done|]. split; [done|].
  apply target_base in Et. rewrite Hb in Et. injection Et as -> ->. by rewrite strip_strip in Hr.
Qed.

Section Facts.
Context {S : Type} `{!SecretStore S} `{!SecretStoreLaws S}.
Variable sha256 : string -> string.
Notation W := (fe_world S).

Definition token_text (w : W) (c : string) : result string := if is_empty c then Ok "" else ss_decrypt c (fw_secrets w).

(** Encryptions and requests add to what a world has. *)
Definition evolves (w w' : W) : Prop :=
  (forall c q, token_text w c = Ok q -> token_text w' c = Ok q) /\ kw_log (fw_http w) ⊆ kw_log (fw_http w').

#[local] Instance evolves_preorder : PreOrder evolves.
Proof. split; [by intros w|]. intros w1 w2 w3 [H1 H2] [H3 H4]. split; [auto|set_solver]. Qed.

(** The rows stay. *)
Definition reads {A} (m : M W A) (P : W -> result A -> W -> Prop) : Prop :=
  forall w, wp m (fun r w' => fw_rows w' = fw_rows w /\ evolves w w' /\ P w r w') w.

Lemma reads_mono {A} (m : M W A) (P Q : W -> result A -> W -> Prop) :
  reads m P -> (forall w r w', P w r w' -> Q w r w') -> reads m Q.
Proof. intros Hm HPQ w. eapply wp_mono; [apply Hm|]. naive_solver. Qed.

Lemma reads_bind {A B} (m : M W A) (k : A -> M W B) (P : W -> result A -> W -> Prop) (Q : W -> result B -> W -> Prop) :
  reads m P ->
  (forall w w1 a, fw_rows w1 = fw_rows w -> evolves w w1 -> P w (Ok a) w1 ->
     wp (k a) (fun r w' => fw_rows w' = fw_rows w1 /\ evolves w1 w' /\ Q w r w') w1) ->
  (forall w w1 e, P w (Err e) w1 -> Q w (Err e) w1) -> reads (m ≫= k) Q.
Proof.
  intros Hm Hk He w. apply wp_bind. eapply wp_mono; [apply Hm|]. intros [a|e] w1 (Hr & Hv & HP); [|eauto].
  eapply wp_mono; [by apply (Hk w)|]. intros r w2 (Hr2 & Hv2 & HQ). split; [congruence|]. split; [by etrans|done].
Qed.

(** ** The pieces of a save that read *)

Lemma wp_reads {A} (m : M W A) (P : W -> result A -> W -> Prop) (Q : result A -> W -> Prop) (w : W) :
  reads m P -> (forall r w', fw_rows w' = fw_rows w -> evolves w w' -> P w r w' -> Q r w') -> wp m Q w.
Proof. intros Hm HQ. eapply wp_mono; [apply Hm|]. intros r w' (H1 & H2 & H3). auto. Qed.

Lemma encrypt_reads (p : string) :
  reads (encrypt_primary_secret p) (fun _ r w' => forall c, r = Ok c -> token_text w' c = Ok p).
Proof.
  intros w. unfold wp, encrypt_primary_secret. destruct p as [|x p].
  { split; [done|]. split; [done|]. by intros c [= <-]. }
  destruct (ss_encrypt (String x p) (fw_secrets w)) as [r s] eqn:E. cbn [is_empty fst snd fw_rows].
  split; [done|]. split.
  - split; [|done]. intros c q. unfold token_text. destruct (is_empty c); [done|]. cbn [fw_secrets]. by eapply ss_stable.
  - intros c Hr. simpl in Hr. subst r. unfold token_text. destruct c as [|y c]; cbn [is_empty fw_secrets].
    + by apply ss_token in E.
    + by eapply ss_round_trip.
Qed.

Lemma decrypt_reads (c : string) : reads (decrypt_primary_secret c) (fun w r w' => w' = w /\ r = token_text w c).
Proof. intros w. unfold wp, token_text, decrypt_primary_secret. by destruct (is_empty c). Qed.

Lemma token_urlsafe_reads : reads token_urlsafe (fun _ _ _ => True).
Proof.
  intros w. unfold wp, token_urlsafe. destruct (fw_entropy w); (split; [done|]); (split; [|done]); [done|].
  split; [|done]. intros c q Hc. exact Hc.
Qed.

Lemma http_reads {A} (m : M key_world A) (R : list key_exchange -> result A -> Prop) :
  adds kw_log m R -> reads (http m) (fun w r w' => exists l, kw_log (fw_http w') = l ++ kw_log (fw_http w) /\ R l r).
Proof.
  intros Hm w. destruct (Hm (fw_http w)) as (new & Hn & HR). unfold wp, http. destruct (m (fw_http w)) as [r h]. cbn [fst snd] in *.
  split; [done|]. split; [|by exists new]. split; [done|]. cbn [fw_http]. rewrite Hn. set_solver.
Qed.

Lemma ret_reads {A} (a : A) (P : W -> result A -> W -> Prop) : (forall w, P w (Ok a) w) -> reads (mret a) P.
Proof. intros H w. by apply wp_ret. Qed.

Lemma raise_reads {A} (e : exn) (P : W -> result A -> W -> Prop) : (forall w, P w (Err e) w) -> reads (raise e) P.
Proof. intros H w. by apply wp_raise. Qed.

(** A computation of which only the frame matters. *)
Definition harmless {A} (m : M W A) : Prop := reads m (fun _ _ _ => True).

Lemma harmless_ret {A} (a : A) : harmless (mret a).
Proof. by apply ret_reads. Qed.

Lemma harmless_raise {A} (e : exn) : harmless (raise (A := A) e).
Proof. by apply raise_reads. Qed.

Lemma harmless_lift {A} (r : result A) : harmless (lift r).
Proof. by intros w. Qed.

Lemma harmless_gets {A} (f : W -> A) : harmless (gets f).
Proof. by intros w. Qed.

Lemma harmless_bind {A B} (m : M W A) (k : A -> M W B) : harmless m -> (forall a, harmless (k a)) -> harmless (m ≫= k).
Proof. intros Hm Hk. eapply reads_bind; [exact Hm| |done]. intros w w1 a _ _ _. apply Hk. Qed.

(** ** Adopted secrets *)

(** A fingerprint that is set is that of a target at which the backend took
    the key that is stored with it. *)
Definition adopted_secret (w : W) (fingerprint token_enc : string) : Prop :=
  fingerprint <> "" ->
  exists e t cand plain, target_of e = Ok t /\ fingerprint = sha256 (target_payload t) /\
    key_adopted (kw_log (fw_http w)) (kt_base_url t) (kt_verify_ssl t) cand /\
    token_text w token_enc = Ok plain /\ strip plain = cand.

Definition adopted_row (w : W) (r : fe_row) : Prop := adopted_secret w (fe_fingerprint r) (fe_token_enc r).

Definition all_adopted (w : W) : Prop := forall pk r, fw_rows w !! pk = Some r -> adopted_row w r.

Lemma adopted_evolves (w w' : W) (fp c : string) : evolves w w' -> adopted_secret w fp c -> adopted_secret w' fp c.
Proof.
  intros [Ht Hl] Ha Hne. destruct (Ha Hne) as (e & t & cand & plain & He & Hfp & Hk & Hp & Hs). exists e, t, cand, plain.
  split; [done|]. split; [done|]. split; [by eapply key_adopted_mono|]. split; [by apply Ht|done].
Qed.

Lemma all_adopted_evolves (w w' : W) : fw_rows w' = fw_rows w -> evolves w w' -> all_adopted w -> all_adopted w'.
Proof. intros Hr Hv Ha pk r. rewrite Hr. intros H. eapply adopted_evolves; [exact Hv|]. by eapply Ha. Qed.

(** The key and fingerprint an instance is given for the save. *)
Definition settled (previous : option fe_row) (selected : bool) (w : W) (i : fe_instance) : Prop :=
  adopted_row w (fi_row i) /\
  (selected = false -> fe_fingerprint (fi_row i) = "" \/ exists p, previous = Some p /\ fe_token_enc (fi_row i) = fe_token_enc p).

Lemma settled_pending (previous : option fe_row) (selected : bool) (w : W) (i : fe_instance) (c : string) :
  settled previous selected w (with_secret i c "").
Proof. split; [|by left]. by intros H. Qed.

(** A fresh proof for the candidate. *)
Lemma adopt_step_reads (i : fe_instance) (e : key_endpoint) (cand : string) :
  reads (try_except (proof ← http (adopt_rotated_backend_key sha256 e cand true); mret (with_proof i (Some proof)))
           (fun exc => match exc with BackendKeyAdoptionError _ msg _ _ => raise (token_error "token" msg) | _ => raise exc end))
    (fun _ r w' => forall i', r = Ok i' -> exists proof t, i' = with_proof i (Some proof) /\ target_of e = Ok t /\
       pf_target_fingerprint proof = sha256 (target_payload t) /\
       key_adopted (kw_log (fw_http w')) (kt_base_url t) (kt_verify_ssl t) (strip cand)).
Proof.
  intros w. apply wp_try, wp_bind. apply (wp_reads _ _ _ _ (http_reads _ _ (adopt_rotated_adds sha256 e cand true))).
  intros [proof|exc] w1 Hr Hv (l & Hl & Ho).
  - apply wp_ret. split; [done|]. split; [done|]. intros i' [= <-]. destruct Ho as (t & He & Hfp & Hk). exists proof, t.
    split; [done|]. split; [done|]. split; [done|]. eapply key_adopted_mono; [|exact Hk]. rewrite Hl. set_solver.
  - destruct exc; apply wp_raise; (split; [done|]); (split; [done|]); by intros i' [=].
Qed.

Lemma settle_pending_reads (i : fe_instance) (previous : option fe_row) (selected : bool) (previous_token : string) :
  reads (match previous with
         | Some p => if nonempty previous_token then mret (with_secret i (fe_token_enc p) "")
                     else t ← token_urlsafe; c ← encrypt_primary_secret t; mret (with_secret i c "")
         | None => t ← token_urlsafe; c ← encrypt_primary_secret t; mret (with_secret i c "")
         end) (fun _ r w' => forall i', r = Ok i' -> fi_pk i' = fi_pk i /\ settled previous selected w' i').
Proof.
  assert (Hret : forall c, reads (mret (with_secret i c "")) (fun _ r w' => forall i', r = Ok i' -> fi_pk i' = fi_pk i /\ settled previous selected w' i')).
  { intros c. apply ret_reads. intros w i' [= <-]. split; [done|]. apply settled_pending. }
  assert (Hgen : reads (t ← token_urlsafe; c ← encrypt_primary_secret t; mret (with_secret i c ""))
    (fun _ r w' => forall i', r = Ok i' -> fi_pk i' = fi_pk i /\ settled previous selected w' i')).
  { eapply reads_bind; [apply token_urlsafe_reads| |done]. intros w w1 t _ _ _. apply wp_bind.
    apply (wp_reads _ _ _ _ (encrypt_reads t)). intros [c|e] w2 Hr Hv _; [|by split; [done|split; [done|]]].
    apply wp_ret. split; [done|]. split; [done|]. intros i' [= <-]. split; [done|]. apply settled_pending. }
  destruct previous; [|done]. destruct (nonempty previous_token); [apply Hret|done].
Qed.

(** The stored token of [p] reads as [t]. *)
Definition reads_as (w : W) (p : fe_row) (t : string) : Prop := exists plain, token_text w (fe_token_enc p) = Ok plain /\ strip plain = t.

Lemma reads_as_evolves (w w' : W) (p : fe_row) (t : string) : evolves w w' -> reads_as w p t -> reads_as w' p t.
Proof. intros [H _] (plain & Hp & Hs). exists plain. auto. Qed.

(** The key that goes with a fresh proof for [cand]. *)
Lemma settle_proof (i : fe_instance) (previous : option fe_row) (cand previous_token : string) (selected : bool)
    (proof : BackendKeyAdoptionProof) (e : key_endpoint) (t : key_target) (w : W) :
  strip cand = cand -> target_of e = Ok t -> pf_target_fingerprint proof = sha256 (target_payload t) ->
  key_adopted (kw_log (fw_http w)) (kt_base_url t) (kt_verify_ssl t) cand ->
  (forall p, previous = Some p -> cand = previous_token -> reads_as w p cand) ->
  (selected = false -> exists p, previous = Some p /\ cand = previous_token) ->
  wp (match previous with
      | Some p =>
          if String.eqb cand previous_token then mret (with_secret i (fe_token_enc p) (pf_target_fingerprint proof))
          else if selected then c ← encrypt_primary_secret cand; mret (with_secret i c (pf_target_fingerprint proof))
          else mret (with_secret i (fe_token_enc (fi_row i)) (pf_target_fingerprint proof))
      | None =>
          if selected then c ← encrypt_primary_secret cand; mret (with_secret i c (pf_target_fingerprint proof))
          else mret (with_secret i (fe_token_enc (fi_row i)) (pf_target_fingerprint proof))
      end) (fun r w' => fw_rows w' = fw_rows w /\ evolves w w' /\ forall i', r = Ok i' -> fi_pk i' = fi_pk i /\ settled previous selected w' i') w.
Proof.
  intros Hc He0 Hfp Hk Hprev Hsel.
  assert (Hok : forall c w', evolves w w' -> (exists plain, token_text w' c = Ok plain /\ strip plain = cand) ->
    adopted_row w' (fi_row (with_secret i c (pf_target_fingerprint proof)))).
  { intros c w' [_ Hl] (plain & Hp & Hs) _. exists e, t, cand, plain. split; [done|]. split; [done|]. split; [by eapply key_adopted_mono|done]. }
  assert (Henc : selected = true -> wp (c ← encrypt_primary_secret cand; mret (with_secret i c (pf_target_fingerprint proof)))
    (fun r w' => fw_rows w' = fw_rows w /\ evolves w w' /\ forall i', r = Ok i' -> fi_pk i' = fi_pk i /\ settled previous selected w' i') w).
  { intros ->. apply wp_bind. apply (wp_reads _ _ _ _ (encrypt_reads cand)). intros [c|exc] w1 Hr Hv Ht; [|by split; [done|split; [done|]]].
    apply wp_ret. split; [done|]. split; [done|]. intros i' [= <-]. split; [done|]. split; [|done]. apply Hok; [done|]. exists cand. auto. }
  destruct previous as [p|].
  - destruct (String.eqb_spec cand previous_token) as [He|Hne].
    + apply wp_ret. split; [done|]. split; [done|]. intros i' [= <-]. split; [done|].
      split; [apply Hok; [done|]; by apply (Hprev p)|]. intros _. right. by exists p.
    + destruct selected; [by apply Henc|]. by destruct (Hsel eq_refl) as (q & _ & H).
  - destruct selected; [by apply Henc|]. by destruct (Hsel eq_refl) as (q & [=] & _).
Qed.

Lemma settle_key_reads (i : fe_instance) (previous : option fe_row) (e : key_endpoint) (supplied : option string)
    (cand previous_token : string) (selected : bool) (w : W) :
  fi_proof i = None -> (forall c, supplied = Some c -> c = cand /\ strip c = c) ->
  (forall p, previous = Some p -> cand = previous_token -> reads_as w p cand \/ cand = "") ->
  (selected = false -> exists p, previous = Some p /\ (supplied <> None -> cand = previous_token)) ->
  wp (settle_key sha256 i previous e supplied cand previous_token selected)
    (fun r w' => fw_rows w' = fw_rows w /\ evolves w w' /\ forall i', r = Ok i' -> fi_pk i' = fi_pk i /\ settled previous selected w' i') w.
Proof.
  intros Hi Hs Hprev Hsel. unfold settle_key.
  destruct supplied as [[|x c]|]; [apply settle_pending_reads| |apply settle_pending_reads].
  destruct (Hs _ eq_refl) as [Hc Hst]. rewrite Hi. cbn [backend_key_proof_matches]. apply wp_bind. cbv beta iota.
  apply wp_bind. apply (wp_reads _ _ _ _ (adopt_step_reads i e cand)). intros [i'|exc] w1 Hr Hv Ho; [|by split; [done|split; [done|]]].
  destruct (Ho i' eq_refl) as (proof & t & -> & He0 & Hfp & Hk). rewrite <- Hc in Hk at 1. rewrite Hst, Hc in Hk.
  eapply wp_mono; [apply (settle_proof (with_proof i (Some proof)) previous cand previous_token selected proof e t w1); try done|].
  - by rewrite <- Hc.
  - intros p Hp He. destruct (Hprev p Hp He) as [H|H]; [by eapply reads_as_evolves|]. by rewrite H in Hc.
  - intros Hf. destruct (Hsel Hf) as (p & Hp & He). exists p. split; [done|]. by apply He.
  - intros r w2 (Hr2 & Hv2 & Ho2). split; [etrans; [exact Hr2|exact Hr]|]. split; [etrans; [exact Hv|exact Hv2]|exact Ho2].
Qed.

Lemma check_loaded_harmless (i : fe_instance) (previous : option fe_row) : harmless (check_loaded i previous).
Proof.
  unfold check_loaded. destruct previous as [p|]; [|apply harmless_ret]. destruct (fi_loaded i) as [sig|]; [|apply harmless_raise].
  destruct (decide _); [apply harmless_ret|apply harmless_raise].
Qed.

Lemma ip_harmless (id : option Z) : harmless (_locked_backend_key_ip_address id).
Proof.
  unfold _locked_backend_key_ip_address. destruct id; [|apply harmless_ret]. apply harmless_bind; [apply harmless_gets|].
  intros [a|]; [apply harmless_ret|apply harmless_raise].
Qed.

Lemma websocket_harmless (r : fe_row) : harmless (check_websocket r).
Proof.
  unfold check_websocket. destruct (_ && _)%bool; [apply harmless_raise|]. apply harmless_bind.
  - destruct (nonempty _); [|apply harmless_ret]. destruct (canonical_backend_authority _); [apply harmless_ret|apply harmless_raise].
  - intros _. destruct (fe_websocket_port r); [|apply harmless_ret]. destruct (_ || _)%bool; [apply harmless_raise|apply harmless_ret].
Qed.

Lemma previous_token_reads (previous : option fe_row) (replaced : bool) :
  reads (previous_token_of previous replaced)
    (fun _ r w' => forall t p, r = Ok t -> previous = Some p -> reads_as w' p t \/ (t = "" /\ replaced = true)).
Proof.
  unfold previous_token_of. destruct previous as [p|]; [|by apply ret_reads]. intros w. apply wp_try, wp_bind.
  apply (wp_reads _ _ _ _ (decrypt_reads (fe_token_enc p))). intros [t|e] w1 _ _ [-> Ht].
  - apply wp_ret. split; [done|]. split; [done|]. intros t' q [= <-] [= <-]. left. by exists t.
  - destruct e; try (apply wp_raise; split; [done|]; split; [done|]; by intros ? ? [=]).
    destruct replaced; [apply wp_ret|apply wp_raise]; (split; [done|]); (split; [done|]); [|by intros ? ? [=]].
    intros t q [= <-] _. by right.
Qed.

Lemma supplied_reads (i : fe_instance) :
  reads (if fi_assigned i then t ← decrypt_primary_secret (fe_token_enc (fi_row i)); mret (Some (strip t)) else mret None)
    (fun _ r w' => forall c, r = Ok (Some c) -> strip c = c).
Proof.
  destruct (fi_assigned i); [|by apply ret_reads]. intros w. apply wp_bind.
  apply (wp_reads _ _ _ _ (decrypt_reads (fe_token_enc (fi_row i)))). intros [t|e] w1 Hr Hv _; [|by split; [done|split; [done|]]].
  apply wp_ret. split; [done|]. split; [done|]. intros c [= <-]. apply strip_strip.
Qed.

(** The row a save starts from, and whether it writes the token. *)
Definition previous_of (w : W) (i : fe_instance) : option fe_row := match fi_pk i with Some pk => fw_rows w !! pk | None => None end.

Definition writes_token (previous : option fe_row) (update_fields : option (list string)) : bool :=
  (negb (match previous with Some _ => true | None => false end)
   || match update_fields with None => true | Some fields => mem_str "token_enc" fields end)%bool.

Definition prepared (i : fe_instance) (update_fields : option (list string)) (w : W) (r : result fe_instance) (w' : W) : Prop :=
  forall i', r = Ok i' -> fi_pk i' = fi_pk i /\ settled (previous_of w i) (writes_token (previous_of w i) update_fields) w' i'.

Lemma settled_evolves (previous : option fe_row) (selected : bool) (w w' : W) (i : fe_instance) :
  evolves w w' -> settled previous selected w i -> settled previous selected w' i.
Proof. intros Hv [Ha Hs]. split; [by eapply adopted_evolves|done]. Qed.

Lemma supplied_candidate (i : fe_instance) (candidate : option string) :
  reads (match candidate with
         | Some c => mret (Some (strip c))
         | None => if fi_assigned i then t ← decrypt_primary_secret (fe_token_enc (fi_row i)); mret (Some (strip t)) else mret None
         end) (fun _ r w' => forall c, r = Ok (Some c) -> strip c = c).
Proof. destruct candidate as [c|]; [|apply supplied_reads]. apply ret_reads. intros w c' [= <-]. apply strip_strip. Qed.

(** Nothing changes when no check of the backend is due. *)
Lemma unchanged_settled (i : fe_instance) (previous : option fe_row) (selected : bool) (w : W) :
  (forall p, previous = Some p -> adopted_row w p) ->
  let i' := match previous with None => with_assigned (with_secret i "" "") false | Some p => with_secret i (fe_token_enc p) (fe_fingerprint p) end in
  fi_pk i' = fi_pk i /\ settled previous selected w i'.
Proof.
  intros Hp. destruct previous as [p|]; (split; [done|]).
  - split; [by apply (Hp p)|]. intros _. right. by exists p.
  - split; [by intros H|by left].
Qed.

(** The frame of a save in progress, from the world it started in. *)
Definition framed (w w' : W) : Prop := fw_rows w' = fw_rows w /\ evolves w w'.

Lemma framed_reads {A} (w : W) (m : M W A) (P : W -> result A -> W -> Prop) (Q : result A -> W -> Prop) (w1 : W) :
  framed w w1 -> reads m P -> (forall r w2, framed w w2 -> P w1 r w2 -> evolves w1 w2 -> Q r w2) -> wp m Q w1.
Proof.
  intros [Hr Hv] Hm HQ. apply (wp_reads _ _ _ _ Hm). intros r w2 Hr2 Hv2 HP. apply HQ; [|done..].
  split; [by rewrite Hr2|by etrans].
Qed.

(** After the checks: the plan and what it does. *)
Lemma plan_settles (i : fe_instance) (previous : option fe_row) (e : key_endpoint) (supplied : option string)
    (cand previous_token : string) (selected : bool) (plan : BackendKeyTransitionAction) (w w1 : W) :
  framed w w1 -> fi_proof i = None -> (forall p, previous = Some p -> adopted_row w p) ->
  (forall c, supplied = Some c -> c = cand /\ strip c = c) ->
  (forall p, previous = Some p -> cand = previous_token -> reads_as w1 p cand \/ cand = "") ->
  (selected = false -> exists p, previous = Some p /\ (supplied <> None -> cand = previous_token)) ->
  wp (match plan with
      | reject_disabled_change =>
          raise (token_error "token" "Enable the backend endpoint and validate the replacement key before changing its stored value.")
      | no_remote_check =>
          mret match previous with
               | None => with_assigned (with_secret i "" "") false
               | Some p => with_secret i (fe_token_enc p) (fe_fingerprint p)
               end
      | preflight => settle_key sha256 i previous e supplied cand previous_token selected
      end) (fun r w' => framed w w' /\ forall i', r = Ok i' -> fi_pk i' = fi_pk i /\ settled previous selected w' i') w1.
Proof.
  intros [Hr Hv] Hi Ha Hs Hp Hsel. destruct plan.
  - apply wp_ret. split; [done|]. intros i' [= <-]. apply unchanged_settled. intros p He. eapply adopted_evolves; [exact Hv|]. by apply Ha.
  - eapply wp_mono; [by apply settle_key_reads|]. intros r w2 (Hr2 & Hv2 & Ho). split; [|done].
    split; [by rewrite Hr2|by etrans].
  - apply wp_raise. by split.
Qed.

(** A guard that raises. *)
Ltac refused :=
  match goal with
  | |- wp (if ?b then raise _ else _) _ _ => let H := fresh "Hguard" in destruct b eqn:H; [apply wp_raise; auto|]
  end.

(** What the preparation of a save settles on. *)
Lemma prepare_reads (i : fe_instance) (candidate : option string) (update_fields : option (list string)) (w : W) :
  fi_proof i = None -> all_adopted w ->
  wp (prepare_backend_key_transition sha256 i candidate update_fields)
    (fun r w' => framed w w' /\ prepared i update_fields w r w') w.
Proof.
  intros Hi Ha. assert (Hp : forall p, previous_of w i = Some p -> adopted_row w p).
  { unfold previous_of. intros p. destruct (fi_pk i) as [pk|]; [apply Ha|done]. }
  unfold prepare_backend_key_transition. apply wp_bind, wp_gets. fold (previous_of w i). unfold prepared.
  generalize dependent (previous_of w i). intros previous Hp.
  assert (Hend : forall e w', framed w w' -> framed w w' /\ forall i', Err e = Ok i' ->
    fi_pk i' = fi_pk i /\ settled previous (writes_token previous update_fields) w' i') by (intros; split; [done|by intros ? [=]]).
  apply wp_bind, (framed_reads w _ _ _ _ ltac:(done) (check_loaded_harmless i previous)). intros [?|e] w1 F1 _ _; [|by apply Hend].
  apply wp_bind, (framed_reads w _ _ _ _ F1 (supplied_candidate i candidate)). intros [supplied|e] w2 F2 Hs _; [|by apply Hend].
  apply wp_bind, (framed_reads w _ _ _ _ F2 (previous_token_reads previous _)). intros [t|e] w3 F3 Ht _; [|by apply Hend].
  refused. fold (writes_token previous update_fields). refused.
  apply wp_bind, (framed_reads w _ _ _ _ F3 (ip_harmless _)). intros [ip|e] w4 F4 _ V4; [|by apply Hend].
  apply wp_bind, (framed_reads w _ _ _ _ F4 (websocket_harmless _)). intros [?|e] w5 F5 _ V5; [|by apply Hend].
  refused. apply plan_settles; try done.
  - intros c ->. split; [done|]. by apply Hs.
  - intros p Hpp Hc. destruct (Ht t p eq_refl Hpp) as [H|[-> H]].
    + left. rewrite Hc. do 2 (eapply reads_as_evolves; [eassumption|]). done.
    + right. done.
  - intros Hf. rewrite Hf in Hguard0. destruct previous as [p|]; [|done]. exists p. split; [done|]. intros Hn.
    destruct supplied as [c|]; [|done]. simpl in Hguard0. by destruct (String.eqb_spec c t).
Qed.

(** ** The writes of a save *)

Lemma mem_str_cons (s x : string) (l : list string) : mem_str s (x :: l) = (String.eqb s x || mem_str s l)%bool.
Proof. done. Qed.

(** A row that is written, in the world of a save. *)
Lemma written_adopted (w w' : W) (pk : Z) (r : fe_row) :
  all_adopted w -> adopted_row w r -> fw_rows w' = <[pk := r]> (fw_rows w) -> fw_secrets w' = fw_secrets w -> fw_http w' = fw_http w ->
  all_adopted w'.
Proof.
  intros Ha Hr Hrows Hs Hh pk' r' Hl. assert (Hv : evolves w w').
  { split; [|by rewrite Hh]. intros c q. unfold token_text. by rewrite Hs. }
  rewrite Hrows in Hl. apply lookup_insert_Some in Hl as [[_ <-]|[_ Hl]]; (eapply adopted_evolves; [exact Hv|]); [done|by eapply Ha].
Qed.

Lemma write_keeps (i : fe_instance) (update_fields : option (list string)) (w : W) :
  all_adopted w -> settled (previous_of w i) (writes_token (previous_of w i) update_fields) w i ->
  wp (write_row i (match update_fields with Some fields => Some ("backend_key_target_fingerprint" :: fields) | None => None end))
    (fun _ w' => all_adopted w') w.
Proof.
  intros Ha [Hi Hsel]. unfold write_row, wp, previous_of in *. destruct (fi_pk i) as [pk|].
  - destruct update_fields as [fields|]; [|by eapply written_adopted].
    destruct (fw_rows w !! pk) as [old|] eqn:El; [|done]. eapply written_adopted; [done| |done..].
    unfold adopted_row, select. cbn [fe_fingerprint fe_token_enc].
    rewrite (mem_str_cons "token_enc"), (mem_str_cons "backend_key_target_fingerprint"). cbn [String.eqb Ascii.eqb Bool.eqb orb].
    destruct (mem_str "token_enc" fields) eqn:Em; [done|].
    cbn [writes_token negb orb] in Hsel. rewrite Em in Hsel. destruct (Hsel eq_refl) as [->|(p & [= <-] & <-)]; [by intros H|done].
  - destruct update_fields; [done|by eapply written_adopted].
Qed.

(** A partial save without a field of the trust boundary keeps the secret. *)
Lemma select_nonsecurity (fields : list string) (new old : fe_row) :
  _updates_backend_key_state fields = false ->
  fe_token_enc (select fields new old) = fe_token_enc old /\ fe_fingerprint (select fields new old) = fe_fingerprint old.
Proof.
  intros Hu. assert (Hn : forall f, mem_str f ("ip_address" :: _BACKEND_KEY_PERSISTED_FIELDS) = true -> mem_str f fields = false).
  { intros f Hf. destruct (mem_str f fields) eqn:Em; [|done]. apply mem_str_spec in Em. unfold _updates_backend_key_state in Hu.
    rewrite <- Hu. symmetry. apply existsb_exists. exists f. split; [by apply list_elem_of_In|done]. }
  unfold select. cbn [fe_token_enc fe_fingerprint]. by rewrite !Hn by (vm_compute; reflexivity).
Qed.

Lemma edit_authority_harmless (authorised : bool) (i : fe_instance) : harmless (require_backend_target_edit_authority sha256 authorised i).
Proof.
  unfold require_backend_target_edit_authority. destruct (fi_pk i) as [pk|]; [|apply harmless_ret].
  destruct (negb _); [apply harmless_ret|]. apply harmless_bind; [apply harmless_gets|]. intros [p|]; [|apply harmless_ret].
  apply harmless_bind; [apply harmless_gets|]. intros ips. apply harmless_bind; [apply harmless_lift|]. intros target.
  apply harmless_bind; [apply harmless_lift|]. intros before. apply harmless_bind.
  - destruct (String.eqb before target); [apply harmless_lift|apply harmless_ret].
  - intros []; [apply harmless_ret|]. destruct authorised; [apply harmless_ret|apply harmless_raise].
Qed.

(** The save inside the transaction. *)
Lemma transaction_keeps (i : fe_instance) (update_fields : option (list string)) (w : W) :
  fi_proof i = None -> all_adopted w ->
  wp (atomic (i ← prepare_backend_key_transition sha256 i None update_fields;
              i ← write_row i (match update_fields with Some fields => Some ("backend_key_target_fingerprint" :: fields) | None => None end);
              persisted ← _persisted_backend_key_state i;
              match (persisted : option fe_row) with
              | None => raise (token_error "token" "The saved backend endpoint could not be reloaded.")
              | Some p => mret (with_loaded i (Some (_backend_key_persisted_signature p)))
              end)) (fun _ w' => all_adopted w') w.
Proof.
  intros Hi Ha. set (m := prepare_backend_key_transition sha256 i None update_fields ≫= _).
  enough (Hm : wp m (fun r w' => evolves w w' /\ (forall i', r = Ok i' -> all_adopted w')) w).
  { unfold wp, atomic in *. destruct (m w) as [[i'|e] w']; cbn [fst snd] in *; destruct Hm as [Hv Hr]; [by eapply Hr|].
    apply (all_adopted_evolves w); [done| |done]. destruct Hv as [H1 H2]. by split. }
  unfold m. apply wp_bind. eapply wp_mono; [by apply prepare_reads|]. intros [i'|e] w1 [[Hr Hv] Hp]; [|by split].
  destruct (Hp i' eq_refl) as [Hpk Hs]. assert (Hprev : previous_of w1 i' = previous_of w i) by (unfold previous_of; by rewrite Hpk, Hr).
  rewrite <- Hprev in Hs. pose proof (write_keeps i' update_fields w1 (all_adopted_evolves w w1 Hr Hv Ha) Hs) as Hw.
  apply wp_bind. unfold wp in *. destruct (write_row i' _ w1) as [r w2] eqn:Ew. cbn [fst snd] in *.
  assert (Hv2 : evolves w1 w2).
  { unfold write_row in Ew. destruct (fi_pk i') as [pk|], update_fields as [fields|]; try (by injection Ew as _ <-). destruct (fw_rows w1 !! pk); by injection Ew as _ <-. }
  destruct r as [i2|e]; [|split; [by etrans|done]]. unfold _persisted_backend_key_state.
  unfold gets, mbind, M_bind. simpl.
  destruct (match fi_pk i2 with Some pk => fw_rows w2 !! pk | None => None end); simpl; (split; [by etrans|]); [done|by intros ? [=]].
Qed.

Lemma nonsecurity_keeps (i : fe_instance) (fields : list string) (w : W) :
  _updates_backend_key_state fields = false -> is_Some (fi_pk i) -> all_adopted w ->
  wp (_save_nonsecurity_only i (Some fields)) (fun _ w' => all_adopted w') w.
Proof.
  intros Hu [pk Hpk] Ha.
  assert (Hwrite : forall i' w', fi_pk i' = Some pk -> all_adopted w' ->
    wp (write_row i' (Some fields) ≫= fun i => mret (with_assigned i false)) (fun _ w2 => all_adopted w2) w').
  { intros i' w' Hi' Ha'. apply wp_bind. unfold wp, write_row. rewrite Hi'. destruct (fw_rows w' !! pk) as [old|] eqn:El; [|done].
    simpl. eapply written_adopted; [done| |done..]. destruct (select_nonsecurity fields (fi_row i') old Hu) as [Ht Hf].
    unfold adopted_row. rewrite Ht, Hf. by apply (Ha' pk). }
  unfold _save_nonsecurity_only. apply wp_bind. destruct (fi_loaded i) as [sig|].
  - destruct (fi_assigned i).
    + apply wp_bind, wp_try, wp_bind. apply (wp_reads _ _ _ _ (decrypt_reads _)). intros [t|e] w1 _ _ [-> _].
      * apply wp_ret, wp_bind, wp_bind. apply (wp_reads _ _ _ _ (decrypt_reads _)). intros [t2|e] w1 _ _ [-> _]; [|done].
        apply wp_ret. destruct (String.eqb _ _); [apply wp_ret; by apply Hwrite|by apply wp_raise].
      * destruct e; by apply wp_raise.
    + destruct (String.eqb _ _); [apply wp_ret; by apply Hwrite|by apply wp_raise].
  - destruct (fi_assigned i); [by apply wp_raise|]. apply wp_ret. by apply Hwrite.
Qed.

(** A save keeps every row's key adopted at the target its fingerprint names. *)
Lemma save_keeps (authorised : bool) (i : fe_instance) (update_fields : option (list string)) (w : W) :
  fi_proof i = None -> all_adopted w -> wp (save sha256 authorised i update_fields) (fun _ w' => all_adopted w') w.
Proof.
  intros Hi Ha. unfold save. apply wp_bind.
  assert (Hrest : wp (_ ← require_backend_target_edit_authority sha256 authorised i;
    i ← atomic (i ← prepare_backend_key_transition sha256 i None update_fields;
           i ← write_row i (match update_fields with Some fields => Some ("backend_key_target_fingerprint" :: fields) | None => None end);
           persisted ← _persisted_backend_key_state i;
           match (persisted : option fe_row) with
           | None => raise (token_error "token" "The saved backend endpoint could not be reloaded.")
           | Some p => mret (with_loaded i (Some (_backend_key_persisted_signature p)))
           end);
    mret (with_proof (with_assigned i false) None)) (fun _ w' => all_adopted w') w).
  { apply wp_bind, (wp_reads _ _ _ _ (edit_authority_harmless authorised i)). intros [?|e] w1 Hr Hv _; [|by eapply all_adopted_evolves].
    apply wp_bind. eapply wp_mono; [apply transaction_keeps; [done|by eapply all_adopted_evolves]|]. by intros [i'|e] w2. }
  destruct update_fields as [fields|]; cbn [_normalize_update_fields].
  - destruct (mem_str "token" fields); [by apply wp_raise|]. apply wp_ret. destruct (fi_pk i) as [pk|] eqn:Epk; [|exact Hrest].
    destruct (_updates_backend_key_state fields) eqn:Eu; cbn [negb]; [exact Hrest|]. by apply nonsecurity_keeps.
  - apply wp_ret. by destruct (fi_pk i).
Qed.

(** ** Reachable worlds *)

(** What happens to the rows: saves of any instance in memory that holds no
    proof, tokens assigned to instances, rows deleted, addresses edited in
    IPAM, and backends that answer as they will. *)
Inductive fe_step (w : W) : W -> Prop :=
| StepSave authorised i update_fields : fi_proof i = None -> fe_step w (snd (save sha256 authorised i update_fields w))
| StepAssign i value : fe_step w (snd (assign_token i value w))
| StepDelete pk : fe_step w (set_rows (delete pk (fw_rows w)) w)
| StepAddress ips : fe_step w (mkFw (fw_rows w) ips (fw_secrets w) (fw_http w) (fw_next w) (fw_entropy w))
| StepAnswers replies entropy :
    fe_step w (mkFw (fw_rows w) (fw_ips w) (fw_secrets w) (mkKeyWorld replies (kw_log (fw_http w))) (fw_next w) entropy).

Definition fresh_world (w : W) : Prop := fw_rows w = ∅.

Inductive reachable : W -> Prop :=
| ReachFresh w : fresh_world w -> reachable w
| ReachStep w w' : reachable w -> fe_step w w' -> reachable w'.

Lemma assign_reads (i : fe_instance) (value : string) : harmless (assign_token i value).
Proof.
  apply harmless_bind; [|intros; apply harmless_ret]. eapply reads_mono; [apply encrypt_reads|done].
Qed.

Lemma reachable_adopted (w : W) : reachable w -> all_adopted w.
Proof.
  induction 1 as [w Hf|w w' _ IH Hstep]; [intros pk r; by rewrite Hf, lookup_empty|].
  destruct Hstep as [authorised i uf Hi|i value|pk|ips|replies entropy].
  - by apply save_keeps.
  - destruct (assign_reads i value w) as (Hr & Hv & _). by eapply all_adopted_evolves.
  - intros pk' r Hl. cbn [fw_rows set_rows] in Hl. apply lookup_delete_Some in Hl as [_ Hl]. by apply (IH pk').
  - exact IH.
  - exact IH.
Qed.

(** The digests are lower-case hexadecimal. *)
Definition hex_digest : Prop := forall s, lower (strip (sha256 s)) = sha256 s.

Lemma trusted_nonempty (pk : Z) (r : fe_row) (ip : option string) :
  backend_key_runtime_is_trusted sha256 (effective_endpoint (Some pk) r ip) = Ok true -> fe_fingerprint r <> "".
Proof.
  unfold backend_key_runtime_is_trusted. intros H He. cbn [ke_stored ke_enabled effective_endpoint] in H. rewrite He in H.
  by destruct (fe_enabled r).
Qed.

(** C9: Whatever edits, key changes and backend answers there have been: a stored
    endpoint that runtime traffic trusts has a key that can be decrypted, and
    some backend target took exactly that key, by listing its keys for it or by
    registering it.  Unless the digest of that target collides with the one
    the endpoint has now, they are the same target: address, scheme,
    certificate verification, fallback address and WebSocket address. *)
Theorem trusted_key_was_adopted (w : W) (pk : Z) (r : fe_row) (ip : option string) :
  hex_digest -> reachable w -> fw_rows w !! pk = Some r ->
  backend_key_runtime_is_trusted sha256 (effective_endpoint (Some pk) r ip) = Ok true ->
  fe_enabled r = true /\
  exists e t plain, target_of e = Ok t /\ token_text w (fe_token_enc r) = Ok plain /\
    key_adopted (kw_log (fw_http w)) (kt_base_url t) (kt_verify_ssl t) (strip plain) /\
    (no_collision sha256 e (effective_endpoint (Some pk) r ip) -> plain_endpoint e = true ->
     plain_endpoint (effective_endpoint (Some pk) r ip) = true -> target_of (effective_endpoint (Some pk) r ip) = Ok t).
Proof.
  intros Hx Hw Hl Htr. destruct (reachable_adopted w Hw pk r Hl) as (e & t & cand & plain & Ht & Hf & Hk & Hp & Hs).
  { by eapply trusted_nonempty. }
  apply trusted_inv in Htr as [He Hfp]. split; [exact He|]. cbn [ke_stored effective_endpoint] in Hfp.
  exists e, t, plain. split; [done|]. split; [done|]. split; [by rewrite Hs|]. intros Hc Hpl Hpl'.
  destruct (fingerprint_determines sha256 e (effective_endpoint (Some pk) r ip) (fe_fingerprint r) Hc Hpl Hpl') as (t' & Ht' & Ht2).
  - unfold backend_key_target_fingerprint. rewrite Ht. simpl. by rewrite Hf.
  - rewrite Hfp, Hf. f_equal. apply Hx.
  - rewrite Ht in Ht'. by injection Ht' as ->.
Qed.

End Facts.

(** ** The primary secrets of the plugin (models/primary_secrets.py) *)

(** The key in the settings, whether any ciphertext is stored (which blocks a
    change of the key), and what the random source gives next. *)
Record primary_store := mkPrimary { ps_key : string; ps_payloads : bool; ps_random : string; ps_nonce : Z }.

Section Primary.
Context `{!FernetLib}.

Definition key_blocked : exn :=
  ValidationError ("encryption_key: The plugin encryption key cannot be cleared or replaced while encrypted "
                   +:+ "values exist. Use the verified rotation workflow, or the separately "
                   +:+ "permissioned destructive reset workflow if the old key is unavailable.").

(** A key is generated, and saved, when there is none. *)
Definition _get_or_create_primary_secret_key (s : primary_store) : result string * primary_store :=
  let key := strip (ps_key s) in
  if nonempty key then (Ok key, s)
  else if ps_payloads s then (Err key_blocked, s)
  else let key := urlsafe_b64encode (ps_random s) in (Ok key, mkPrimary key (ps_payloads s) (ps_random s) (ps_nonce s)).

Definition primary_encrypt (plaintext : string) (s : primary_store) : result string * primary_store :=
  if is_empty plaintext then (Ok "", s)
  else match _get_or_create_primary_secret_key s with
       | (Ok key, s') => (encrypt plaintext key (ps_nonce s'), mkPrimary (ps_key s') (ps_payloads s') (ps_random s') (ps_nonce s' + 1))
       | (Err e, s') => (Err e, s')
       end.

Definition primary_decrypt (ciphertext : string) (s : primary_store) : result string :=
  if is_empty ciphertext then Ok "" else decrypt ciphertext (strip (ps_key s)).

#[export] Instance primary_secrets : SecretStore primary_store := {| ss_encrypt := primary_encrypt; ss_decrypt := primary_decrypt |}.

Lemma material_errors (k : string) (e : exn) : key_material k = Err e -> exists cls msg, e = EncryptionError cls msg.
Proof.
  unfold key_material, _coerce_fernet_key, key_invalid. repeat (case_match; simpl); intros [= <-]; eauto.
Qed.

(** An empty key decrypts nothing. *)
Lemma empty_key (c p : string) : is_empty c = false -> decrypt c "" = Ok p -> False.
Proof. unfold decrypt. by intros ->. Qed.

Lemma decrypt_errors (c k : string) (e : exn) : decrypt c k = Err e -> exists cls msg, e = EncryptionError cls msg.
Proof.
  unfold decrypt. destruct (is_empty c); [done|]. destruct (key_material k) as [m|e'] eqn:Em; simpl.
  - destruct (fernet_decrypt m c); intros [= <-]. unfold decryption_failed. eauto.
  - intros [= <-]. by eapply material_errors.
Qed.

(** The key in use after an encryption, and what it does to the old one. *)
Lemma get_or_create_key (s s' : primary_store) (r : result string) :
  _get_or_create_primary_secret_key s = (r, s') ->
  (forall key, r = Ok key -> strip (ps_key s') = strip key) /\
  (strip (ps_key s') = strip (ps_key s) \/ strip (ps_key s) = "").
Proof.
  unfold _get_or_create_primary_secret_key. destruct (strip (ps_key s)) as [|x k] eqn:Ek; cbn [nonempty is_empty negb].
  - destruct (ps_payloads s); intros [= <- <-]; (split; [|by right]); [by intros ? [=]|by intros ? [= <-]].
  - intros [= <- <-]. split; [|by left]. intros key [= <-]. rewrite <- Ek. by rewrite strip_strip.
Qed.

#[export] Instance primary_secrets_laws `{!FernetLaws} : SecretStoreLaws primary_store.
Proof.
  split; cbn [ss_encrypt ss_decrypt primary_secrets]; unfold primary_encrypt, primary_decrypt.
  - intros p s c s'. destruct (is_empty p) eqn:Ep; [intros [= <- <-]; by destruct p|].
    destruct (_get_or_create_primary_secret_key s) as [[key|e] s1] eqn:Eg; [|by intros [=]].
    intros [= He <-]. cbn [ps_key]. apply encrypt_decrypts in He as [Hd Hc].
    destruct (get_or_create_key _ _ _ Eg) as [Hk _]. rewrite (Hk key eq_refl). apply decrypt_strip in Hd. rewrite Hd.
    destruct c; [by rewrite Hc|done].
  - intros p s s'. destruct (is_empty p) eqn:Ep; [by destruct p|].
    destruct (_get_or_create_primary_secret_key s) as [[key|e] s1]; [|by intros [=]]. intros [= He _].
    apply encrypt_decrypts in He as [_ Hc]. by apply Hc.
  - intros p s r s' c q. destruct (is_empty p); [by intros [= <- <-]|].
    destruct (_get_or_create_primary_secret_key s) as [rk s1] eqn:Eg. intros Hs. destruct (is_empty c) eqn:Ec; [done|].
    assert (Hk : ps_key s' = ps_key s1) by (destruct rk; by injection Hs as _ <-). rewrite Hk.
    destruct (get_or_create_key _ _ _ Eg) as [_ [->| ->]]; [done|]. intros Hd. by apply empty_key in Hd.
  - intros c s e. destruct (is_empty c); [done|]. apply decrypt_errors.
Qed.
End Primary.

(** ** A life of an endpoint *)

Lemma int_char_plain (c : ascii) : int_char c = true -> lower_char c = c /\ negb (is_space c) = true.
Proof. destruct c as [[] [] [] [] [] [] [] []]; by vm_compute. Qed.

Lemma int_text_fixed (s : string) : all_chars int_char s = true -> lower (strip s) = s.
Proof.
  intros Hs. rewrite strip_id.
  - induction s as [|c s IH]; [done|]. apply andb_prop in Hs as [Hc Hs]. simpl. rewrite IH by done. f_equal. by apply int_char_plain.
  - eapply all_chars_impl; [|exact Hs]. intros c Hc. by apply int_char_plain.
Qed.

Lemma take_chars (P : ascii -> bool) (n : nat) (s : string) : all_chars P s = true -> all_chars P (take_str n s) = true.
Proof. revert s. induction n as [|n IH]; intros [|c s]; try done. intros [Hc Hs]%andb_prop. simpl. by rewrite Hc, IH. Qed.

Lemma sample_hex : hex_digest sample_sha.
Proof. intros s. apply int_text_fixed, take_chars. by rewrite all_chars_app, pretty_Z_chars. Qed.

Definition sample_row (domain : string) : fe_row := mkFeRow true domain None 8800 true true true "" None false "" "" [].

Definition sample_fe_world : fe_world primary_store :=
  mkFw ∅ ∅ (mkPrimary sample_key false "" 0) (mkKeyWorld [ok_status false; ok_keys] []) 1 [].

Section Samples.
#[local] Existing Instance toy_fernet.

(** A new endpoint with a token: assigned, then saved. *)
Definition sample_assigned : result fe_instance * fe_world primary_store :=
  assign_token (mkInst None (sample_row "proxbox.example.com") None false None) "key1" sample_fe_world.

Definition sample_created : result fe_instance * fe_world primary_store :=
  match sample_assigned with
  | (Ok i, w) => save sample_sha true i None w
  | (Err e, w) => (Err e, w)
  end.

(** The endpoint as it is read again, with another domain. *)
Definition sample_edit (w : fe_world primary_store) (domain : string) : fe_instance :=
  match fw_rows w !! 1 with
  | Some r => mkInst (Some 1) (mkFeRow (fe_enabled r) domain (fe_ip_id r) (fe_port r) (fe_use_https r) (fe_verify_ssl r) (fe_use_websocket r)
                (fe_websocket_domain r) (fe_websocket_port r) (fe_server_side_websocket r) (fe_token_enc r) (fe_fingerprint r) (fe_other r))
                (Some (_backend_key_persisted_signature r)) false None
  | None => mkInst None (sample_row domain) None false None
  end.

Definition stored (w : fe_world primary_store) : option (string * bool) :=
  (fun r => (fe_domain r, nonempty (fe_fingerprint r))) <$> fw_rows w !! 1.

(** The address of the edited endpoint, whether it is adopted, and the error. *)
Definition edited (authorised : bool) (w : fe_world primary_store) (domain : string) : option (string * bool) * option exn :=
  let r := save sample_sha authorised (sample_edit w domain) None w in
  (stored (snd r), match fst r with Ok _ => None | Err e => Some e end).

(** A key that the backend lists is adopted with the endpoint; saving the
    endpoint again asks nothing; a new address needs an authorised actor and
    loses the adoption. *)
Example endpoint_life :
  let w := snd sample_created in
  stored w = Some ("proxbox.example.com", true) /\
  edited false w "proxbox.example.com" = (Some ("proxbox.example.com", true), None) /\
  edited true w "other.example.com" = (Some ("other.example.com", false), None) /\
  edited false w "other.example.com" =
    (Some ("proxbox.example.com", true), Some (PermissionDeniedError "Sensitive data access is not authorized.")).
Proof. repeat split; vm_compute; reflexivity. Qed.

(** An enabled endpoint can be created, without a key, with an address that is
    no target.  An edit that repairs the address is then stopped by an error
    that is not a validation error: the fingerprint of the stored address is
    computed without a handler. *)
Example broken_target_stays :
  let w := snd (save sample_sha true (mkInst None (sample_row "bad host") None false None) None
                  (mkFw ∅ ∅ (mkPrimary sample_key false "" 0) (mkKeyWorld [] []) 1 ["generated"])) in
  stored w = Some ("bad host", false) /\
  match edited true w "proxbox.example.com" with
  | (Some ("bad host", false), Some (BackendKeyAdoptionError _ _ _ _)) => True
  | _ => False
  end.
Proof. split; vm_compute; exact I || reflexivity. Qed.

Lemma sample_created_reachable : reachable sample_sha (snd sample_created).
Proof.
  unfold sample_created. pose proof (StepAssign sample_sha sample_fe_world (mkInst None (sample_row "proxbox.example.com") None false None) "key1") as Ha.
  fold sample_assigned in Ha. destruct sample_assigned as [[i|e] w] eqn:E; cbn [snd] in *.
  - apply (ReachStep _ w); [by eapply ReachStep; [apply ReachFresh|exact Ha]|]. apply StepSave.
    assert (Hi : match fst sample_assigned with Ok i => fi_proof i = None | Err _ => True end) by (vm_compute; reflexivity).
    by rewrite E in Hi.
  - by eapply ReachStep; [apply ReachFresh|exact Ha].
Qed.

Lemma trusted_key_was_adopted_witness :
  exists r plain, fw_rows (snd sample_created) !! 1 = Some r /\ token_text (snd sample_created) (fe_token_enc r) = Ok plain /\
    strip plain = "key1".
Proof.
  destruct (fw_rows (snd sample_created) !! 1) as [r|] eqn:Er; [|by vm_compute in Er]. exists r.
  destruct (trusted_key_was_adopted (SecretStoreLaws0 := @primary_secrets_laws toy_fernet toy_laws) sample_sha (snd sample_created) 1 r None sample_hex
              sample_created_reachable Er) as (_ & e & t & plain & _ & Hp & _ & _).
  - vm_compute in Er. injection Er as <-. vm_compute. reflexivity.
  - exists plain. split; [reflexivity|]. split; [exact Hp|]. vm_compute in Er. injection Er as <-. vm_compute in Hp. injection Hp as <-.
    vm_compute. reflexivity.
Defined.

End Samples.
