(* ===== verification/EncryptionGuards.v ===== *)
(** * Encrypted columns and the guards of their writers (services/encryption_recovery.py)

    The registry of the columns that hold ciphertext of the plugin's key, the
    guarded ways to write them (model saves, queryset updates, bulk writes, the
    private locked update) and the save of the key itself
    (models/plugin_settings.py).  The database is one PostgreSQL database whose
    statements may fail; a transaction that fails takes the tables, the settings
    and the changelog back. *)
From Stdlib Require Import ZArith Lia Ascii String.
From stdpp Require Import base list sets strings pretty gmap sorting.
From S2P Require Import Prelude Text Effects BackendPath Fernet.

(** ** Columns, rows and the database *)

Inductive column := CNull | CText (s : string) | CBool (b : bool) | CInt (z : Z).

#[export] Instance column_eq_dec : EqDecision column.
Proof. solve_decision. Defined.

Notation row := (gmap string column).

(** [str(value or "")] of a text column. *)
Definition text_of (v : option column) : string := match v with Some (CText s) => s | _ => "" end.

(** One entry of NetBox's changelog. *)
Record recovery_event := mkEvent {
  ev_operation : string; ev_outcome : string; ev_families : list string; ev_rows : Z; ev_ciphertexts : Z }.

(** The key of the settings row if there is one, the rows of every model by
    label and primary key, and the changelog. *)
Record er_db := mkDb { db_key : option string; db_rows : gmap (string * Z) row; db_log : list recovery_event }.

(** ** The registry *)

Record EncryptedFieldFamily := mkFamily {
  fam_key : string; fam_label : string; fam_model : string; fam_encrypted : list string; fam_trust : list string;
  fam_reset : list (string * column); fam_optional : option string; fam_dormant : option string }.

Definition ENCRYPTED_FIELD_FAMILIES : list EncryptedFieldFamily := [
  mkFamily "proxmox_api" "Proxmox API credentials" "netbox_proxbox.ProxmoxEndpoint" ["password_enc"; "token_value_enc"]
    ["pushed_credential_fingerprint"] [("enabled", CBool false)] None None;
  mkFamily "proxmox_ssh" "Proxmox endpoint SSH credentials" "netbox_proxbox.ProxmoxEndpoint" ["ssh_password_enc"; "ssh_private_key_enc"]
    ["ssh_known_host_fingerprint"] [("enabled", CBool false)] None None;
  mkFamily "fastapi_backend_key" "ProxBox API authentication key" "netbox_proxbox.FastAPIEndpoint" ["token_enc"]
    ["backend_key_target_fingerprint"] [("enabled", CBool false)] None None;
  mkFamily "pbs_api" "Proxmox Backup Server API credentials" "netbox_proxbox.PBSEndpoint" ["token_secret_enc"]
    ["fingerprint"] [("enabled", CBool false)] None None;
  mkFamily "pbs_fallback_api" "netbox-pbs fallback ProxBox API key" "netbox_pbs.PBSPluginSettings" ["proxbox_api_key_enc"]
    [] [] (Some "netbox_pbs") (Some "netbox_pbs_pbspluginsettings");
  mkFamily "pdm_api" "Proxmox Datacenter Manager API credentials" "netbox_proxbox.PDMEndpoint" ["token_secret_enc"]
    ["fingerprint"] [("enabled", CBool false)] None None;
  mkFamily "node_ssh" "Per-node SSH credentials" "netbox_proxbox.NodeSSHCredential" ["password_enc"; "private_key_enc"]
    ["known_host_fingerprint"] [] None None;
  mkFamily "service_ssh" "Application-service SSH credentials" "netbox_proxbox.ServiceSSHCredential" ["password_enc"; "private_key_enc"]
    [] [] None None;
  mkFamily "cloud_init_ssh_keys" "Cloud-init SSH public-key bundles" "netbox_proxbox.ProxmoxVMCloudInit" ["sshkeys_enc"] [] [] None None;
  mkFamily "firecracker_agent" "Firecracker host-agent tokens" "netbox_proxbox.FirecrackerHost" ["agent_token_enc"]
    [] [("status", CText "offline")] None None;
  mkFamily "influxdb_metrics" "Proxmox InfluxDB metrics tokens" "netbox_proxbox.ProxmoxMetricsInfluxDB" ["query_token_enc"]
    [] [("enabled", CBool false)] None None ].

Definition SETTINGS_MODEL : string := "netbox_proxbox.ProxboxPluginSettings".

(** The fields a recovery of the family writes. *)
Definition family_fields (f : EncryptedFieldFamily) : list string :=
  fam_encrypted f ++ fam_trust f ++ List.map fst (fam_reset f).

(** What [install_encrypted_writer_guards] keeps per model. *)
Record guard := mkGuard { g_encrypted : list string; g_recovery : list string }.

(** [_PROTECTED_RECOVERY_FIELDS_BY_MODEL] *)
Definition g_protected (g : guard) : list string := List.filter (fun f => negb (mem_str f (g_encrypted g))) (g_recovery g).

(** ** The world *)

(** The installed apps, the models that resolve with their fields and whether
    a field may be null, the tables of apps that are not loaded with their
    columns and rows, and the database vendor. *)
Record installation := mkInstallation {
  in_apps : list string; in_models : list (string * list (string * bool));
  in_tables : list (string * (list string * list row)); in_postgres : bool }.

(** The exact queryset update that is permitted. *)
Record permits := mkPermits {
  pm_encrypted : option (string * gmap string string); pm_key : option string; pm_upsert : option (string * list string) }.

Definition no_permits : permits := mkPermits None None None.

(** An answer to the attestation of a backend. *)
Inductive attest_reply := AttestFailed | AttestResponse (status : Z) (body : option pyval).

Record er_world := mkEr {
  ew_db : er_db; ew_install : installation; ew_guards : list (string * guard); ew_permits : permits; ew_skip : bool;
  ew_faults : list bool; ew_ips : gmap Z string; ew_replies : list attest_reply; ew_sent : list (string * string * bool);
  ew_nonce : Z; ew_next : Z }.

Definition set_db (d : er_db) (w : er_world) : er_world :=
  mkEr d (ew_install w) (ew_guards w) (ew_permits w) (ew_skip w) (ew_faults w) (ew_ips w) (ew_replies w) (ew_sent w) (ew_nonce w) (ew_next w).
Definition set_permits (p : permits) (w : er_world) : er_world :=
  mkEr (ew_db w) (ew_install w) (ew_guards w) p (ew_skip w) (ew_faults w) (ew_ips w) (ew_replies w) (ew_sent w) (ew_nonce w) (ew_next w).
Definition set_faults (l : list bool) (w : er_world) : er_world :=
  mkEr (ew_db w) (ew_install w) (ew_guards w) (ew_permits w) (ew_skip w) l (ew_ips w) (ew_replies w) (ew_sent w) (ew_nonce w) (ew_next w).
Definition set_guards (g : list (string * guard)) (w : er_world) : er_world :=
  mkEr (ew_db w) (ew_install w) g (ew_permits w) (ew_skip w) (ew_faults w) (ew_ips w) (ew_replies w) (ew_sent w) (ew_nonce w) (ew_next w).

Definition set_rows (m : gmap (string * Z) row) (w : er_world) : er_world := set_db (mkDb (db_key (ew_db w)) m (db_log (ew_db w))) w.
Definition set_key (k : option string) (w : er_world) : er_world := set_db (mkDb k (db_rows (ew_db w)) (db_log (ew_db w))) w.

#[local] Notation W := er_world.

(** ** Statements and transactions *)

(** A statement reaches the database or fails. *)
Definition statement : M W () := fun w =>
  match ew_faults w with
  | true :: rest => (Err (DatabaseError "database error"), set_faults rest w)
  | false :: rest => (Ok (), set_faults rest w)
  | [] => (Ok (), w)
  end.

Definition query {A} (f : er_db -> A) : M W A := _ ← statement; gets (fun w => f (ew_db w)).

Definition execute (f : er_db -> er_db) : M W () := _ ← statement; modify (fun w => set_db (f (ew_db w)) w).

(** [transaction.atomic()], and a savepoint inside one. *)
Definition atomic {A} (m : M W A) : M W A := fun w =>
  match m w with
  | (Ok a, w') => (Ok a, w')
  | (Err e, w') => (Err e, set_db (ew_db w) w')
  end.

(** [except DatabaseError: raise e'] *)
Definition database_errors {A} (e' : exn) (m : M W A) : M W A :=
  try_except m (fun e => match e with DatabaseError _ => raise e' | _ => raise e end).

(** A context variable set for the time of [m]. *)
Definition with_permits {A} (p : permits) (m : M W A) : M W A :=
  old ← gets ew_permits;
  _ ← modify (set_permits p);
  try_finally m (modify (set_permits old)).

Definition recovery_error : string -> string -> exn := EncryptionRecoveryError.
Definition configuration_error : string -> exn := recovery_error "EncryptionRecoveryConfigurationError".

(** ** Resolving the registry *)

(** [_model_for]: [None] only for an optional app that is not installed. *)
Definition _model_for (i : installation) (f : EncryptedFieldFamily) : result (option string) :=
  if match fam_optional f with Some app => negb (mem_str app (in_apps i)) | None => false end then Ok None
  else
    match dget (fam_model f) (in_models i) with
    | None => Err (configuration_error ("Encrypted-secret recovery is unavailable because the installed owner of "
                                        +:+ fam_label f +:+ " could not resolve its registered model."))
    | Some fields =>
        if forallb (fun x => dmem x fields) (family_fields f) then Ok (Some (fam_model f))
        else Err (configuration_error ("Encrypted-secret recovery is unavailable because the installed owner of "
                                       +:+ fam_label f +:+ " does not provide the registered schema."))
    end.

(** [_available_family_models] for a list of families. *)
Fixpoint resolve_families (i : installation) (l : list EncryptedFieldFamily) : result (list EncryptedFieldFamily) :=
  match l with
  | [] => Ok []
  | f :: l' =>
      m ← _model_for i f;
      rest ← resolve_families i l';
      Ok (match (m : option string) with Some _ => f :: rest | None => rest end)
  end.

Definition _available_family_models : M W (list EncryptedFieldFamily) :=
  i ← gets ew_install; lift (resolve_families i ENCRYPTED_FIELD_FAMILIES).

Definition available_encrypted_field_families : M W (list EncryptedFieldFamily) := _available_family_models.

(** ** Tables of apps that are not loaded *)

Fixpoint dormant_of (i : installation) (l : list EncryptedFieldFamily) : result (list (EncryptedFieldFamily * string)) :=
  match l with
  | [] => Ok []
  | f :: l' =>
      match fam_optional f, fam_dormant f with
      | Some app, Some table =>
          if mem_str app (in_apps i) then dormant_of i l'
          else match dget table (in_tables i) with
               | None => dormant_of i l'
               | Some (columns, _) =>
                   if forallb (fun x => mem_str x columns) (fam_encrypted f) then rest ← dormant_of i l'; Ok ((f, table) :: rest)
                   else Err (configuration_error ("Encryption-key mutation is unavailable because a dormant " +:+ fam_label f
                              +:+ " table has an incompatible schema. Re-enable and migrate its owning companion before recovery."))
               end
      | _, _ => dormant_of i l'
      end
  end.

Definition _dormant_optional_tables : M W (list (EncryptedFieldFamily * string)) :=
  database_errors (configuration_error ("Encryption-key mutation could not inspect dormant optional-companion tables. "
                                        +:+ "Key mutation remains blocked until the database is repaired."))
    (_ ← statement; i ← gets ew_install; lift (dormant_of i ENCRYPTED_FIELD_FAMILIES)).

(** [COALESCE(field, '') <> ''] *)
Definition holds_ciphertext (fields : list string) (r : row) : bool := existsb (fun f => nonempty (text_of (r !! f))) fields.

Fixpoint dormant_ciphertext (tables : list (EncryptedFieldFamily * string)) : M W bool :=
  match tables with
  | [] => mret false
  | (f, table) :: rest =>
      _ ← statement;
      i ← gets ew_install;
      let rows := match dget table (in_tables i) with Some (_, rows) => rows | None => [] end in
      if existsb (holds_ciphertext (fam_encrypted f)) rows then mret true else dormant_ciphertext rest
  end.

Definition _dormant_optional_ciphertext_exists (tables : list (EncryptedFieldFamily * string)) : M W bool :=
  database_errors (configuration_error ("Encryption-key mutation could not verify dormant optional-companion ciphertext. "
                                        +:+ "Key mutation remains blocked until the database is repaired."))
    (dormant_ciphertext tables).

(** ** Rows of a model *)

Definition by_pk (a b : Z * row) : Prop := a.1 <= b.1.

#[export] Instance by_pk_dec : RelDecision by_pk.
Proof. intros a b. unfold by_pk. apply _. Defined.

(** The rows of a model by primary key, those that satisfy [p]. *)
Definition rows_of (label : string) (p : row -> bool) (d : er_db) : list (Z * row) :=
  merge_sort by_pk
    (omap (fun kr => if (String.eqb (fst (fst kr)) label && p (snd kr))%bool then Some (snd (fst kr), snd kr) else None)
       (map_to_list (db_rows d))).

(** [_ciphertext_query]: some encrypted column is not the empty text. *)
Definition _ciphertext_query (f : EncryptedFieldFamily) (r : row) : bool :=
  existsb (fun x => negb (bool_decide (r !! x = Some (CText "")))) (fam_encrypted f).

Definition encrypted_payloads_exist : M W bool :=
  database_errors (configuration_error ("Encrypted-secret recovery could not verify the registered database tables. "
                                        +:+ "Key mutation remains blocked until the installation is repaired."))
    (families ← _available_family_models;
     active ← for_each families false (fun f found =>
                if (found : bool) then mret true
                else rows ← query (rows_of (fam_model f) (_ciphertext_query f)); mret (negb (bool_decide (rows = []))));
     if (active : bool) then mret true
     else tables ← _dormant_optional_tables; _dormant_optional_ciphertext_exists tables).

Definition lock_encrypted_field_tables : M W (list EncryptedFieldFamily) :=
  i ← gets ew_install;
  if negb (in_postgres i) then
    raise (configuration_error "Encryption-key mutation requires PostgreSQL table locking and was blocked on this unsupported database backend.")
  else
    families ← _available_family_models;
    tables ← _dormant_optional_tables;
    _ ← database_errors (configuration_error "Encryption-key mutation could not lock every registered database table.") statement;
    dormant ← _dormant_optional_ciphertext_exists tables;
    if (dormant : bool) then
      raise (configuration_error ("Encryption-key mutation was blocked because an unloaded optional companion still owns shared-key ciphertext. "
                                  +:+ "Re-enable and migrate the companion, then rotate or reset its registered family."))
    else mret families.

(** ** The guards *)

Definition sorted_set (l : list string) : list string := merge_sort String.le (remove_dups l).

(** The families whose model resolves, at the start of the application; an
    optional companion with an old schema stays without guards. *)
Fixpoint guarded_families (i : installation) (l : list EncryptedFieldFamily) : result (list EncryptedFieldFamily) :=
  match l with
  | [] => Ok []
  | f :: l' =>
      match _model_for i f with
      | Err e => match fam_optional f with None => Err e | Some _ => guarded_families i l' end
      | Ok None => guarded_families i l'
      | Ok (Some _) => rest ← guarded_families i l'; Ok (f :: rest)
      end
  end.

Definition guard_for (families : list EncryptedFieldFamily) (label : string) : guard :=
  let own := List.filter (fun f => String.eqb (fam_model f) label) families in
  mkGuard (sorted_set (flat_map fam_encrypted own)) (sorted_set (flat_map family_fields own)).

Definition install_encrypted_writer_guards : M W () :=
  i ← gets ew_install;
  families ← lift (guarded_families i ENCRYPTED_FIELD_FAMILIES);
  modify (set_guards (List.map (fun l => (l, guard_for families l)) (remove_dups (List.map fam_model families)))).

Definition guard_of (label : string) (w : W) : guard := default (mkGuard [] []) (dget label (ew_guards w)).

(** ** Querysets *)

(** [QuerySet.update(..)] itself: the columns of [ups] in every row of the
    model that [flt] selects. *)
Definition updated (label : string) (flt : Z -> row -> bool) (ups : row) (m : gmap (string * Z) row) : gmap (string * Z) row :=
  map_imap (fun k r => Some (if (String.eqb k.1 label && flt k.2 r)%bool then ups ∪ r else r)) m.

Definition original_update (label : string) (flt : Z -> row -> bool) (ups : row) : M W Z :=
  rows ← query (rows_of label (fun _ => true));
  _ ← modify (fun w => set_rows (updated label flt ups (db_rows (ew_db w))) w);
  mret (Z.of_nat (length (List.filter (fun kr => flt (kr : Z * row).1 kr.2) rows))).

Definition key_write_refused : exn :=
  ValidationError ("The plugin encryption key cannot be written with QuerySet.update(), bulk_update(), or bulk_create(). Use "
                   +:+ "the verified rotation workflow or an ordinary model save when no ciphertext exists.").

Definition ciphertext_write_refused : exn :=
  ValidationError ("Encrypted fields cannot be written with QuerySet.update(), bulk_update(), or bulk_create(). Use the registered secret "
                   +:+ "setter and model save path.").

(** [str(value)] *)
Definition str_of_column (v : column) : string :=
  match v with CNull => "None" | CText s => s | CBool true => "True" | CBool false => "False" | CInt z => pretty z end.

(** The encrypted columns among some values, as texts. *)
Definition encrypted_part (g : guard) (ups : row) : gmap string string :=
  map_imap (fun f v => if mem_str f (g_encrypted g) then Some (str_of_column v) else None) ups.

(** [_encrypted_queryset_write_permit_matches] *)
Definition _encrypted_queryset_write_permit_matches (label : string) (ups : row) : M W bool :=
  g ← gets (guard_of label);
  p ← gets ew_permits;
  let encrypted_updates := encrypted_part g ups in
  mret (negb (bool_decide (encrypted_updates = ∅)) && bool_decide (pm_encrypted p = Some (label, encrypted_updates)))%bool.

Definition mentions (fields : list string) (ups : row) : bool := existsb (fun f => bool_decide (is_Some (ups !! f))) fields.

(** The recovery columns of the rows a queryset selects. *)
Definition snapshot_of (fields : list string) (r : row) : list (string * option column) := List.map (fun f => (f, r !! f)) fields.

Definition matches_snapshot (s : list (string * option column)) (r : row) : bool := forallb (fun fv => bool_decide (r !! fv.1 = fv.2)) s.

(** The update of protected columns after the settings row is locked: only
    where the recovery columns are still those of the snapshot. *)
Definition conditional_updates (label : string) (flt : Z -> row -> bool) (ups : row) (snapshots : list (Z * list (string * option column))) : M W Z :=
  atomic
    (_ ← statement;
     for_each snapshots 0 (fun s n =>
       c ← original_update label (fun pk r => Z.eqb pk s.1 && matches_snapshot s.2 r && flt pk r)%bool ups;
       mret (n + c))).

Definition guarded_update (label : string) (flt : Z -> row -> bool) (ups : row) : M W Z :=
  p ← gets ew_permits;
  if String.eqb label SETTINGS_MODEL then
    match ups !! "encryption_key" with
    | Some v =>
        let proposed := text_of (Some v) in
        if bool_decide (pm_key p = Some proposed) then
          _ ← execute (fun d => mkDb (match db_key d with Some _ => Some proposed | None => None end) (db_rows d) (db_log d)); mret 1
        else raise key_write_refused
    | None => _ ← statement; mret 1
    end
  else
    g ← gets (guard_of label);
    let encrypted_updates := encrypted_part g ups in
    if negb (bool_decide (encrypted_updates = ∅)) then
      if bool_decide (pm_encrypted p = Some (label, encrypted_updates)) then original_update label flt ups
      else raise ciphertext_write_refused
    else if negb (mentions (g_protected g) ups) then original_update label flt ups
    else
      rows ← query (rows_of label (fun _ => true));
      let selected := List.filter (fun kr => flt (kr : Z * row).1 kr.2) rows in
      let snapshots := List.map (fun kr => ((kr : Z * row).1, snapshot_of (g_recovery g) kr.2)) selected in
      if bool_decide (snapshots = []) then mret 0 else conditional_updates label flt ups snapshots.

(** Rows to be written in bulk, each with the primary key of its row; for
    [bulk_create] a key that is not in the table is that of a new row, one that
    is there that of a row with the same unique columns. *)
Definition bulk_set (label : string) (fields : list string) (m : gmap (string * Z) row) (kr : Z * row) : gmap (string * Z) row :=
  match m !! (label, kr.1) with
  | Some r => <[(label, kr.1) := filter (fun fv => mem_str fv.1 fields = true) kr.2 ∪ r]> m
  | None => m
  end.

Definition guarded_bulk_update (label : string) (objs : list (Z * row)) (fields : list string) : M W Z :=
  g ← gets (guard_of label);
  if (String.eqb label SETTINGS_MODEL && mem_str "encryption_key" fields)%bool then raise key_write_refused
  else if existsb (fun f => mem_str f (g_encrypted g)) fields then raise ciphertext_write_refused
  else
    _ ← execute (fun d => mkDb (db_key d) (foldl (bulk_set label fields) (db_rows d) objs) (db_log d));
    mret (Z.of_nat (length objs)).

Definition upsert (label : string) (update_fields : list string) (m : gmap (string * Z) row) (kr : Z * row) : gmap (string * Z) row :=
  match m !! (label, kr.1) with
  | Some r => <[(label, kr.1) := filter (fun fv => mem_str fv.1 update_fields = true) kr.2 ∪ r]> m
  | None => <[(label, kr.1) := kr.2]> m
  end.

Definition guarded_bulk_create (label : string) (objs : list (Z * row)) (update_conflicts : bool) (update_fields : list string) : M W () :=
  g ← gets (guard_of label);
  p ← gets ew_permits;
  if (String.eqb label SETTINGS_MODEL
      && (existsb (fun kr : Z * row => nonempty (text_of (kr.2 !! "encryption_key"))) objs || mem_str "encryption_key" update_fields))%bool
  then raise key_write_refused
  else if (existsb (fun kr : Z * row => holds_ciphertext (g_encrypted g) kr.2) objs
           || existsb (fun f => mem_str f update_fields) (g_encrypted g))%bool
  then raise ciphertext_write_refused
  else
    let conflicts := List.filter (fun f => mem_str f update_fields) (g_protected g) in
    if (negb (bool_decide (conflicts = [])) && negb (bool_decide (pm_upsert p = Some (label, conflicts))))%bool then
      raise (ValidationError ("Conflict upserts cannot update encryption-recovery-protected fields: " +:+ join ", " conflicts
                              +:+ ". Use the settings-locked internal recovery path."))
    else
      rows ← query db_rows;
      if (negb update_conflicts && existsb (fun kr : Z * row => bool_decide (is_Some (rows !! (label, kr.1)))) objs)%bool then
        raise (DatabaseError "duplicate key value violates unique constraint")
      else modify (set_rows (foldl (upsert label update_fields) rows objs)).

(** [get(singleton_key="default")] *)
Definition locked_settings_key : M W string :=
  k ← query db_key;
  match (k : option string) with Some k => mret k | None => raise DoesNotExist end.

Definition _locked_recovery_conflict_bulk_create (label : string) (objs : list (Z * row)) (update_conflicts : bool) (update_fields : list string) : M W () :=
  g ← gets (guard_of label);
  let conflicts := List.filter (fun f => mem_str f update_fields) (g_protected g) in
  if (negb update_conflicts || bool_decide (conflicts = []))%bool then
    raise (configuration_error "The internal conflict-upsert helper requires protected recovery fields.")
  else
    atomic
      (_ ← locked_settings_key;
       p ← gets ew_permits;
       with_permits (mkPermits (pm_encrypted p) (pm_key p) (Some (label, conflicts))) (guarded_bulk_create label objs update_conflicts update_fields)).

(** ** Saves *)

(** An instance in memory: its columns, the columns a companion's setter
    produced, and the stored values that explicit assignments replace. *)
Record er_instance := mkEi {
  ei_label : string; ei_pk : option Z; ei_fields : row; ei_setter : list string; ei_expected : gmap string string }.

(** [mark_encrypted_fields_for_write] *)
Definition mark_encrypted_fields_for_write (i : er_instance) (fields : list string) : er_instance :=
  mkEi (ei_label i) (ei_pk i) (ei_fields i) (ei_setter i)
    (foldl (fun m f => match m !! f with Some _ => m | None => <[f := text_of (ei_fields i !! f)]> m end) (ei_expected i) fields).

(** The setter of a companion's key: it marks the field, and tags the
    ciphertext it leaves. *)
Definition guarded_secret_setter (original_setter : er_instance -> M W er_instance) (i : er_instance) : M W er_instance :=
  i ← original_setter (mark_encrypted_fields_for_write i ["proxbox_api_key_enc"]);
  mret (if nonempty (text_of (ei_fields i !! "proxbox_api_key_enc"))
        then mkEi (ei_label i) (ei_pk i) (ei_fields i) ("proxbox_api_key_enc" :: ei_setter i) (ei_expected i) else i).

Definition no_forced_update : exn := ValueError "Cannot force an update in save() with no primary key.".

(** Django's [Model.save]. *)
Definition original_save (i : er_instance) (update_fields : option (list string)) : M W er_instance :=
  _ ← statement;
  d ← gets ew_db;
  match ei_pk i, update_fields with
  | _, Some [] => mret i
  | None, Some _ => raise no_forced_update
  | None, None =>
      pk ← gets ew_next;
      _ ← modify (fun w => mkEr (mkDb (db_key d) (<[(ei_label i, pk) := ei_fields i]> (db_rows d)) (db_log d)) (ew_install w) (ew_guards w)
                             (ew_permits w) (ew_skip w) (ew_faults w) (ew_ips w) (ew_replies w) (ew_sent w) (ew_nonce w) (pk + 1));
      mret (mkEi (ei_label i) (Some pk) (ei_fields i) (ei_setter i) (ei_expected i))
  | Some pk, None => _ ← modify (set_rows (<[(ei_label i, pk) := ei_fields i]> (db_rows d))); mret i
  | Some pk, Some fields =>
      match db_rows d !! (ei_label i, pk) with
      | Some r => _ ← modify (set_rows (<[(ei_label i, pk) := filter (fun fv => mem_str fv.1 fields = true) (ei_fields i) ∪ r]> (db_rows d))); mret i
      | None => raise (DatabaseError "Save with update_fields did not affect any rows.")
      end
  end.

(** [_locked_writer_state] *)
Definition _locked_writer_state (i : er_instance) (fields : list string) : M W (string * option row) :=
  k ← query db_key;
  let current_key := strip (default "" (k : option string)) in
  match ei_pk i with
  | None => mret (current_key, None)
  | Some pk => r ← query (fun d => db_rows d !! (ei_label i, pk)); mret (current_key, r)
  end.

Definition changed_during_recovery : exn :=
  ValidationError "This object changed during encryption-key recovery. Reload it before saving credentials.".

Definition _validate_encrypted_field_replacements (i : er_instance) (fields : list string) (persisted : option row) : result () :=
  match persisted with
  | None => Ok ()
  | Some p =>
      if forallb (fun f =>
           let candidate := text_of (ei_fields i !! f) in
           let current := text_of (p !! f) in
           String.eqb candidate current || mem_str f (ei_setter i)
           || match ei_expected i !! f with Some expected => String.eqb expected current | None => false end)%bool fields
      then Ok () else Err changed_during_recovery
  end.

Section Ciphers.
Context {FL : FernetLib}.

(** [decrypt] does not raise. *)
Definition decryptable (key ciphertext : string) : bool := match decrypt ciphertext key with Ok _ => true | Err _ => false end.

Definition stale_ciphertext : exn :=
  ValidationError ("Encrypted values were prepared with a stale or unavailable plugin key. Reload the object and submit an explicit "
                   +:+ "replacement credential.").

Definition _validate_ciphertexts_use_current_key (ciphertexts : list string) (current_key : string) : M W () :=
  skipped ← gets ew_skip;
  if (skipped : bool) then mret ()
  else if forallb (fun c => is_empty c || decryptable current_key c)%bool ciphertexts then mret () else raise stale_ciphertext.

(** [_clear_encrypted_write_provenance] *)
Definition _clear_encrypted_write_provenance (i : er_instance) (fields : list string) : er_instance :=
  mkEi (ei_label i) (ei_pk i) (ei_fields i) (List.filter (fun f => negb (mem_str f fields)) (ei_setter i)) ∅.

Definition guarded_save (i : er_instance) (update_fields : option (list string)) : M W er_instance :=
  g ← gets (guard_of (ei_label i));
  if match update_fields with Some fields => negb (existsb (fun f => mem_str f fields) (g_recovery g)) | None => false end
  then original_save i update_fields
  else
    let ciphertexts := List.map (fun f => text_of (ei_fields i !! f)) (g_encrypted g) in
    atomic
      ('(current_key, persisted) ← _locked_writer_state i (g_encrypted g);
       _ ← lift (_validate_encrypted_field_replacements i (g_encrypted g) persisted);
       _ ← _validate_ciphertexts_use_current_key ciphertexts current_key;
       i ← original_save i update_fields;
       mret (_clear_encrypted_write_provenance i (g_encrypted g))).

(** The private update of ciphertext under the locked settings row. *)
Definition _locked_encrypted_queryset_update (label : string) (flt : Z -> row -> bool) (ups : row) : M W Z :=
  g ← gets (guard_of label);
  let encrypted_updates := encrypted_part g ups in
  if bool_decide (encrypted_updates = ∅) then
    raise (configuration_error "The internal encrypted-field update was called without a registered encrypted field.")
  else if existsb (fun f => match ups !! f with None | Some (CText _) => false | _ => true end) (g_encrypted g) then
    raise (configuration_error "Internal encrypted-field updates require concrete ciphertext values.")
  else
    atomic
      (k ← locked_settings_key;
       if forallb (fun fv => is_empty fv.2 || decryptable (strip k) fv.2)%bool (map_to_list encrypted_updates) then
         p ← gets ew_permits;
         with_permits (mkPermits (Some (label, encrypted_updates)) (pm_key p) (pm_upsert p)) (guarded_update label flt ups)
       else
         raise (configuration_error ("The internal encrypted-field update was blocked because its ciphertext does not match the locked "
                                     +:+ "settings key."))).

(** ** The key in the settings (models/plugin_settings.py) *)

Definition key_mutation_blocked : exn :=
  recovery_error "EncryptionKeyMutationBlocked"
    ("The plugin encryption key cannot be cleared or replaced while encrypted values exist. Use the verified rotation workflow, or "
     +:+ "the separately permissioned destructive reset workflow if the old key is unavailable.").

Definition assert_ordinary_key_mutation_allowed (current_key proposed_key : string) : M W () :=
  if String.eqb (strip current_key) (strip proposed_key) then mret ()
  else found ← encrypted_payloads_exist; if (found : bool) then raise key_mutation_blocked else mret ().

Definition _require_canonical_new_key (previous_key new_key : string) : result () :=
  let candidate := strip new_key in
  if (is_empty candidate || String.eqb candidate (strip previous_key))%bool then Ok ()
  else match require_canonical_fernet_key candidate with
       | Err (EncryptionError _ msg) => Err (ValidationError msg)
       | r => r
       end.

(** The row of the singleton is inserted or its key updated. *)
Definition write_settings (saved : bool) (key : string) (update_fields : option (list string)) : M W () :=
  k ← query db_key;
  match saved, (k : option string), update_fields with
  | _, _, Some [] => mret ()
  | false, _, Some _ => raise no_forced_update
  | false, Some _, None => raise (DatabaseError "duplicate key value violates unique constraint")
  | true, None, Some _ => raise (DatabaseError "Save with update_fields did not affect any rows.")
  | _, _, Some fields => if mem_str "encryption_key" fields then modify (set_key (Some key)) else mret ()
  | _, _, None => modify (set_key (Some key))
  end.

(** [ProxboxPluginSettings.save] of an instance with (or without) a primary
    key. *)
Definition settings_save (saved : bool) (key : string) (update_fields : option (list string)) : M W () :=
  let checks := match update_fields with None => true | Some fields => mem_str "encryption_key" fields end in
  if (negb saved || negb checks)%bool then
    _ ← (if (negb saved && checks)%bool then lift (_require_canonical_new_key "" key) else mret ());
    write_settings saved key update_fields
  else
    try_except
      (atomic
         (previous ← query db_key;
          _ ← match (previous : option string) with
              | None => lift (_require_canonical_new_key "" key)
              | Some p =>
                  if String.eqb p key then mret ()
                  else
                    _ ← lock_encrypted_field_tables;
                    _ ← assert_ordinary_key_mutation_allowed p key;
                    lift (_require_canonical_new_key p key)
              end;
          write_settings saved key update_fields))
      (fun e => match e with EncryptionRecoveryError _ msg => raise (ValidationError msg) | _ => raise e end).

End Ciphers.

(** ** Computations that only look *)

(** The parts of a world that guarded writes do not touch. *)
Definition same_env (w w' : W) : Prop :=
  ew_install w' = ew_install w /\ ew_guards w' = ew_guards w /\ ew_permits w' = ew_permits w /\ ew_skip w' = ew_skip w.

#[export] Instance same_env_preorder : PreOrder same_env.
Proof. split; [by intros w|]. intros w1 w2 w3 (? & ? & ? & ?) (? & ? & ? & ?). repeat split; congruence. Qed.

Definition unchanged (w w' : W) : Prop := same_env w w' /\ ew_db w' = ew_db w.

#[export] Instance unchanged_preorder : PreOrder unchanged.
Proof. split; [by intros w|]. intros w1 w2 w3 [H1 H2] [H3 H4]. split; [by etrans|congruence]. Qed.

#[export] Instance unchanged_symmetric : Symmetric unchanged.
Proof. intros w w' [(H1 & H2 & H3 & H4) H5]. by repeat split. Qed.

(** [m] changes nothing, and its outcome satisfies [P]. *)
Definition inspects {A} (m : M W A) (P : W -> result A -> Prop) : Prop := forall w, wp m (fun r w' => unchanged w w' /\ P w r) w.

(** [P] is about the environment and the database only. *)
Definition about_db {A} (P : W -> A -> Prop) : Prop := forall w w' a, unchanged w w' -> P w a -> P w' a.

Lemma inspects_ret {A} (a : A) (P : W -> result A -> Prop) : (forall w, P w (Ok a)) -> inspects (mret a) P.
Proof. intros H w. by apply wp_ret. Qed.

Lemma inspects_raise {A} (e : exn) (P : W -> result A -> Prop) : (forall w, P w (Err e)) -> inspects (raise e) P.
Proof. intros H w. by apply wp_raise. Qed.

Lemma inspects_lift {A} (r : result A) (P : W -> result A -> Prop) : (forall w, P w r) -> inspects (lift r) P.
Proof. intros H w. by apply wp_lift. Qed.

Lemma inspects_gets {A} (f : W -> A) (P : W -> result A -> Prop) : (forall w, P w (Ok (f w))) -> inspects (gets f) P.
Proof. intros H w. by apply wp_gets. Qed.

Lemma inspects_mono {A} (m : M W A) (P Q : W -> result A -> Prop) : inspects m P -> (forall w r, P w r -> Q w r) -> inspects m Q.
Proof. intros Hm HPQ w. eapply wp_mono; [apply Hm|]. naive_solver. Qed.

(** What is shown of the continuation holds in the world it started from. *)
Lemma inspects_bind {A B} (m : M W A) (k : A -> M W B) (P : W -> result A -> Prop) (Q : W -> result B -> Prop) :
  inspects m P ->
  (forall w w1 a, unchanged w w1 -> P w (Ok a) -> wp (k a) (fun r w2 => unchanged w1 w2 /\ Q w r) w1) ->
  (forall w e, P w (Err e) -> Q w (Err e)) -> inspects (m ≫= k) Q.
Proof.
  intros Hm Hk He w. apply wp_bind. eapply wp_mono; [apply Hm|]. intros [a|e] w1 [Hu HP]; [|by split; [|apply He]].
  eapply wp_mono; [by apply (Hk w w1 a)|]. intros r w2 [Hu2 HQ]. split; [by etrans|done].
Qed.

Lemma inspects_statement : inspects statement (fun _ r => match r with Ok _ => True | Err e => exists msg, e = DatabaseError msg end).
Proof. intros w. unfold wp, statement. destruct (ew_faults w) as [|[] rest]; (split; [done|]); simpl; eauto. Qed.

Lemma inspects_query {A} (f : er_db -> A) : inspects (query f) (fun w r => forall a, r = Ok a -> a = f (ew_db w)).
Proof.
  eapply inspects_bind; [apply inspects_statement| |by intros]. intros w w1 a [_ Hd] _. apply wp_gets. split; [done|].
  intros b [= <-]. by rewrite Hd.
Qed.

Lemma inspects_try {A} (m : M W A) (h : exn -> M W A) (P Q : W -> result A -> Prop) :
  inspects m P -> (forall w a, P w (Ok a) -> Q w (Ok a)) ->
  (forall w w1 e, unchanged w w1 -> P w (Err e) -> wp (h e) (fun r w2 => unchanged w1 w2 /\ Q w r) w1) -> inspects (try_except m h) Q.
Proof.
  intros Hm Ha He w. apply wp_try. eapply wp_mono; [apply Hm|]. intros [a|e] w1 [Hu HP]; [by split; [|apply Ha]|].
  eapply wp_mono; [by apply (He w w1 e)|]. intros r w2 [Hu2 HQ]. split; [by etrans|done].
Qed.

(** Only the value matters. *)
Definition looks {A} (m : M W A) (P : W -> A -> Prop) : Prop := inspects m (fun w r => forall a, r = Ok a -> P w a).

Lemma looks_database_errors {A} (e' : exn) (m : M W A) (P : W -> A -> Prop) : looks m P -> looks (database_errors e' m) P.
Proof.
  intros Hm. eapply inspects_try; [exact Hm|done|]. intros w w1 e _ _. destruct e; apply wp_raise; (split; [done|]); by intros a [=].
Qed.

Lemma looks_try {A} (m : M W A) (h : exn -> M W A) (P : W -> A -> Prop) :
  looks m P -> (forall e, looks (h e) (fun _ _ => False)) -> looks (try_except m h) P.
Proof.
  intros Hm Hh. eapply inspects_try; [exact Hm|done|]. intros w w1 e _ _. eapply wp_mono; [apply Hh|].
  intros r w2 [Hu H]. split; [done|]. by intros a Ha%H.
Qed.

Lemma looks_bind {A B} (m : M W A) (k : A -> M W B) (P : W -> A -> Prop) (Q : W -> B -> Prop) :
  looks m P -> (forall a, looks (k a) (fun w b => P w a -> Q w b)) -> about_db P ->
  (forall w w' b, unchanged w w' -> Q w' b -> Q w b) -> looks (m ≫= k) Q.
Proof.
  intros Hm Hk HP HQ. eapply inspects_bind; [exact Hm| |by intros w e _ b [=]]. intros w w1 a Hu Ha.
  eapply wp_mono; [apply Hk|]. intros r w2 [Hu2 H]. split; [done|]. intros b ->. eapply HQ; [exact Hu|]. apply (H b eq_refl).
  eapply HP; [exact Hu|]. by apply Ha.
Qed.

Lemma looks_ret {A} (a : A) (P : W -> A -> Prop) : (forall w, P w a) -> looks (mret a) P.
Proof. intros H. apply inspects_ret. by intros w b [= <-]. Qed.

Lemma looks_raise {A} (e : exn) (P : W -> A -> Prop) : looks (raise e) P.
Proof. apply inspects_raise. by intros w a [=]. Qed.

Lemma looks_lift {A} (r : result A) (P : W -> A -> Prop) : (forall w a, r = Ok a -> P w a) -> looks (lift r) P.
Proof. intros H. apply inspects_lift. intros w a Ha. by apply H. Qed.

Lemma looks_gets {A} (f : W -> A) (P : W -> A -> Prop) : (forall w, P w (f w)) -> looks (gets f) P.
Proof. intros H. apply inspects_gets. by intros w a [= <-]. Qed.

Lemma looks_statement (P : W -> () -> Prop) : (forall w, P w ()) -> looks statement P.
Proof. intros H. eapply inspects_mono; [apply inspects_statement|]. by intros w r _ [] _. Qed.

Lemma looks_query {A} (f : er_db -> A) (P : W -> A -> Prop) : (forall w, P w (f (ew_db w))) -> looks (query f) P.
Proof. intros H. eapply inspects_mono; [apply inspects_query|]. intros w r Hr a ->. by rewrite (Hr a eq_refl). Qed.

Lemma looks_mono {A} (m : M W A) (P Q : W -> A -> Prop) : looks m P -> (forall w a, P w a -> Q w a) -> looks m Q.
Proof. intros Hm H. eapply inspects_mono; [exact Hm|]. intros w r Hr a Ha. by apply H, Hr. Qed.

(** A loop that looks, with what it found so far. *)
Lemma looks_for_each {A S} (body : A -> S -> M W S) (Inv : W -> list A -> S -> Prop) :
  (forall before x s, looks (body x s) (fun w s' => Inv w before s -> Inv w (before ++ [x]) s')) ->
  (forall w w' l s, unchanged w w' -> Inv w l s <-> Inv w' l s) ->
  forall l before s, looks (for_each l s body) (fun w s' => Inv w before s -> Inv w (before ++ l) s').
Proof.
  intros Hb HI l. induction l as [|x l IH]; intros before s; simpl.
  - apply looks_ret. intros w H. by rewrite app_nil_r.
  - eapply looks_bind; [apply (Hb before)| | |].
    + intros s'. eapply looks_mono; [apply (IH (before ++ [x]))|]. intros w s2 H H1 H2. rewrite <- app_assoc in H. by apply H, H1.
    + intros w w' s' Hu H Hi. apply (HI w w' _ _ Hu). apply H. by apply (HI w w' _ _ Hu).
    + intros w w' s' Hu H Hi. apply (HI w w' _ _ Hu). apply H. by apply (HI w w' _ _ Hu).
Qed.

(** ** Rows and families *)

Lemma elem_of_rows (label : string) (p : row -> bool) (d : er_db) (pk : Z) (r : row) :
  (pk, r) ∈ rows_of label p d <-> db_rows d !! (label, pk) = Some r /\ p r = true.
Proof.
  unfold rows_of. rewrite merge_sort_Permutation, list_elem_of_omap. split.
  - intros ([[l k] r'] & Hin%elem_of_map_to_list & H). simpl in H.
    destruct (String.eqb_spec l label) as [->|]; [|done]. destruct (p r') eqn:Ep; [|done]. simpl in H. by injection H as <- <-.
  - intros [Hl Hp]. exists ((label, pk), r). split; [by apply elem_of_map_to_list|]. simpl. by rewrite String.eqb_refl, Hp.
Qed.

(** A family is blank in the database. *)
Definition blank (d : er_db) (f : EncryptedFieldFamily) : Prop :=
  forall pk r x, db_rows d !! (fam_model f, pk) = Some r -> x ∈ fam_encrypted f -> r !! x = Some (CText "").

(** A row that the query does not find has no ciphertext. *)
Lemma query_misses (f : EncryptedFieldFamily) (r : row) (x : string) :
  _ciphertext_query f r = false -> x ∈ fam_encrypted f -> r !! x = Some (CText "").
Proof.
  unfold _ciphertext_query. intros Eq Hx. destruct (decide (r !! x = Some (CText ""))) as [|Hn]; [done|]. exfalso.
  rewrite <- not_true_iff_false, existsb_exists in Eq. apply Eq. exists x. split; [by apply list_elem_of_In|].
  apply negb_true_iff. by apply bool_decide_eq_false.
Qed.

Lemma no_rows_blank (d : er_db) (f : EncryptedFieldFamily) : rows_of (fam_model f) (_ciphertext_query f) d = [] -> blank d f.
Proof.
  intros H pk r x Hl Hx. destruct (_ciphertext_query f r) eqn:Eq.
  - assert (Hin : (pk, r) ∈ rows_of (fam_model f) (_ciphertext_query f) d) by by apply elem_of_rows.
    rewrite H in Hin. by apply not_elem_of_nil in Hin.
  - by eapply query_misses.
Qed.

Definition families_of (w : W) : result (list EncryptedFieldFamily) := resolve_families (ew_install w) ENCRYPTED_FIELD_FAMILIES.

Lemma looks_families : looks _available_family_models (fun w fs => families_of w = Ok fs).
Proof.
  intros w. unfold _available_family_models. apply wp_bind, wp_gets, wp_lift. split; [done|]. by intros fs H.
Qed.

Lemma unchanged_families (w w' : W) : unchanged w w' -> families_of w' = families_of w.
Proof. intros [(Hi & _) _]. unfold families_of. by rewrite Hi. Qed.

Lemma looks_dormant : looks _dormant_optional_tables (fun _ _ => True).
Proof.
  apply looks_database_errors. eapply looks_bind; [by apply (looks_statement (fun _ _ => True))| |done|done]. intros [].
  eapply looks_bind; [by apply (looks_gets ew_install (fun _ _ => True))| |done|done]. intros i. by apply looks_lift.
Qed.

Lemma looks_dormant_ciphertext (tables : list (EncryptedFieldFamily * string)) :
  looks (_dormant_optional_ciphertext_exists tables) (fun _ _ => True).
Proof.
  apply looks_database_errors. induction tables as [|[f t] tables IH]; simpl; [by apply looks_ret|].
  eapply looks_bind; [by apply (looks_statement (fun _ _ => True))| |done|done]. intros [].
  eapply looks_bind; [by apply (looks_gets ew_install (fun _ _ => True))| |done|done]. intros i.
  destruct (existsb _ _); [by apply looks_ret|]. eapply looks_mono; [exact IH|done].
Qed.

(** Nothing found: every family is blank. *)
Lemma looks_payloads :
  looks encrypted_payloads_exist (fun w found => found = false -> exists fs, families_of w = Ok fs /\ Forall (blank (ew_db w)) fs).
Proof.
  apply looks_database_errors. eapply looks_bind; [apply looks_families| | |].
  - intros families.
    eapply looks_bind;
      [apply (looks_for_each _ (fun w l found => found = false -> Forall (blank (ew_db w)) l)) with (before := []) | | |].
    + intros before f found. destruct found; [by apply looks_ret|].
      eapply looks_bind; [apply (looks_query _ (fun w rows => rows = rows_of (fam_model f) (_ciphertext_query f) (ew_db w))); done| | |].
      * intros rows. apply looks_ret. intros w Hr Hd. case_bool_decide as Hb; [|done]. intros _. apply Forall_app. split; [by apply Hd|].
        constructor; [|done]. apply no_rows_blank. congruence.
      * intros w w' rows [_ Hd]. by rewrite Hd.
      * intros w w' b [_ Hd] H. by rewrite <- Hd.
    + intros w w' l s [_ Hd]. by rewrite Hd.
    + intros [].
      * by apply looks_ret.
      * eapply looks_bind; [apply looks_dormant| |done|].
        -- intros tables. eapply looks_mono; [apply looks_dormant_ciphertext|]. intros w b _ _ Hf Hfs _. exists families. split; [done|]. by apply Hf.
        -- intros w w' b [[Hi _] Hd] H. unfold families_of in *. by rewrite <- Hd, <- Hi.
    + intros w w' l [_ Hd]. by rewrite Hd.
    + intros w w' b [[Hi _] Hd] H. unfold families_of in *. by rewrite <- Hd, <- Hi.
  - intros w w' fs Hu. by rewrite (unchanged_families w w').
  - intros w w' b Hu H Hb. destruct (H Hb) as (fs & Hf & Hbl). exists fs. rewrite <- (unchanged_families w w' Hu). split; [done|]. by destruct Hu as [_ <-].
Qed.

Lemma looks_lock : looks lock_encrypted_field_tables (fun w fs => families_of w = Ok fs).
Proof.
  unfold lock_encrypted_field_tables. eapply looks_bind; [by apply (looks_gets ew_install (fun _ _ => True))| |done|].
  2: { intros w w' fs Hu. by rewrite (unchanged_families w w'). }
  intros i. destruct (negb _); [apply looks_raise|]. eapply looks_bind; [apply looks_families| | |].
  - intros families. eapply looks_bind; [apply looks_dormant| |done|by intros w w' fs Hu; rewrite (unchanged_families w w')].
    intros tables. eapply looks_bind; [by apply looks_database_errors, (looks_statement (fun _ _ => True))| |done|by intros w w' fs Hu; rewrite (unchanged_families w w')].
    intros []. eapply looks_bind; [apply looks_dormant_ciphertext| |done|by intros w w' fs Hu; rewrite (unchanged_families w w')].
    intros []; [apply looks_raise|]. apply looks_ret. by intros w _ _ _ H _.
  - intros w w' fs Hu. by rewrite (unchanged_families w w').
  - intros w w' fs Hu. by rewrite (unchanged_families w w').
Qed.

(** ** Installed guards *)

Definition installed (w : W) : Prop :=
  exists fs, guarded_families (ew_install w) ENCRYPTED_FIELD_FAMILIES = Ok fs /\
    ew_guards w = List.map (fun l => (l, guard_for fs l)) (remove_dups (List.map fam_model fs)).

Lemma resolve_guarded (i : installation) (l fs : list EncryptedFieldFamily) : resolve_families i l = Ok fs -> guarded_families i l = Ok fs.
Proof.
  revert fs. induction l as [|f l IH]; intros fs; simpl; [done|]. destruct (_model_for i f) as [[m|]|]; simpl; [| |done].
  - destruct (resolve_families i l) as [rest|]; simpl; [|done]. intros [= <-]. by rewrite (IH rest).
  - destruct (resolve_families i l) as [rest|]; simpl; [|done]. intros [= <-]. by apply IH.
Qed.

Lemma guard_lookup {A} (g : string -> A) (l : list string) (x : string) : dget x (List.map (fun y => (y, g y)) l) = if mem_str x l then Some (g x) else None.
Proof.
  induction l as [|y l IH]; [done|]. cbn [List.map dget]. unfold mem_str in *. cbn [existsb]. rewrite IH.
  by destruct (String.eqb_spec x y) as [->|Hn].
Qed.

Lemma elem_of_sorted_set (x : string) (l : list string) : x ∈ sorted_set l <-> x ∈ l.
Proof. unfold sorted_set. rewrite merge_sort_Permutation. apply elem_of_remove_dups. Qed.

Lemma elem_of_own (fs : list EncryptedFieldFamily) (label x : string) (part : EncryptedFieldFamily -> list string) :
  x ∈ flat_map part (List.filter (fun f => String.eqb (fam_model f) label) fs) <-> exists f, f ∈ fs /\ fam_model f = label /\ x ∈ part f.
Proof.
  rewrite list_elem_of_In, in_flat_map. setoid_rewrite filter_In. setoid_rewrite String.eqb_eq. setoid_rewrite <- list_elem_of_In. naive_solver.
Qed.

Lemma installed_guard (w : W) (fs : list EncryptedFieldFamily) (label : string) :
  installed w -> families_of w = Ok fs -> guard_of label w = guard_for fs label.
Proof.
  intros (fs' & Hg & Hw) Hf%resolve_guarded. rewrite Hg in Hf. injection Hf as ->. unfold guard_of. rewrite Hw, guard_lookup.
  destruct (mem_str label _) eqn:Em; [done|]. apply mem_str_false in Em. rewrite elem_of_remove_dups in Em. unfold guard_for.
  assert (Hnone : List.filter (fun f => String.eqb (fam_model f) label) fs = []); [|by rewrite Hnone].
  destruct (List.filter _ fs) as [|f own] eqn:Eo; [done|]. exfalso. apply Em. assert (Hin : In f (List.filter (fun f => String.eqb (fam_model f) label) fs)).
  { rewrite Eo. by left. }
  apply filter_In in Hin as [Hin <-%String.eqb_eq]. apply list_elem_of_In. by apply in_map.
Qed.

Lemma guard_encrypted (w : W) (fs : list EncryptedFieldFamily) (label x : string) :
  installed w -> families_of w = Ok fs -> x ∈ g_encrypted (guard_of label w) <-> exists f, f ∈ fs /\ fam_model f = label /\ x ∈ fam_encrypted f.
Proof. intros Hi Hf. rewrite (installed_guard w fs) by done. unfold guard_for. cbn [g_encrypted]. by rewrite elem_of_sorted_set, elem_of_own. Qed.

(** The encrypted columns are among the recovery columns. *)
Lemma guard_covers (w : W) (label x : string) : installed w -> x ∈ g_encrypted (guard_of label w) -> x ∈ g_recovery (guard_of label w).
Proof.
  intros (fs & _ & Hw). unfold guard_of. rewrite Hw, guard_lookup. destruct (mem_str _ _); [|done]. simpl.
  rewrite !elem_of_sorted_set, !elem_of_own. intros (f & Hf & Hl & Hx). exists f. split; [done|]. split; [done|].
  unfold family_fields. set_solver.
Qed.

Lemma same_env_installed (w w' : W) : same_env w w' -> installed w -> installed w'.
Proof. intros (Hi & Hg & _) H. unfold installed in *. by rewrite Hi, Hg. Qed.

Lemma same_env_guard (w w' : W) (label : string) : same_env w w' -> guard_of label w' = guard_of label w.
Proof. intros (_ & Hg & _). unfold guard_of. by rewrite Hg. Qed.

(** ** Guarded writes keep every ciphertext readable *)

Section Safety.
Context {FL : FernetLib}.

(** The key in force. *)
Definition key_of (d : er_db) : string := strip (default "" (db_key d)).

Definition ok_text (key c : string) : bool := (is_empty c || decryptable key c)%bool.

Definition readable (key : string) (g : guard) (r : row) : Prop := forall x, x ∈ g_encrypted g -> ok_text key (text_of (r !! x)) = true.

(** Every ciphertext of a guarded model can be decrypted with the stored key. *)
Definition all_readable (w : W) : Prop :=
  forall label pk r, db_rows (ew_db w) !! (label, pk) = Some r -> readable (key_of (ew_db w)) (guard_of label w) r.

Definition safe (w : W) : Prop :=
  installed w /\ ew_skip w = false /\ pm_encrypted (ew_permits w) = None /\ pm_key (ew_permits w) = None /\ all_readable w.

Lemma readable_frame (w w' : W) : same_env w w' -> ew_db w' = ew_db w -> all_readable w -> all_readable w'.
Proof. intros He Hd Ha label pk r. rewrite Hd, (same_env_guard w w') by done. apply Ha. Qed.

Lemma safe_frame (w w' : W) : same_env w w' -> all_readable w' -> safe w -> safe w'.
Proof.
  intros He Ha (Hi & Hs & Hp & Hk & _). split; [by eapply same_env_installed|]. destruct He as (_ & _ & Hpe & Hse). by rewrite Hpe, Hse.
Qed.

(** [m] may be run at any time. *)
Definition sound {A} (m : M W A) : Prop := forall w, safe w -> wp m (fun _ w' => same_env w w' /\ all_readable w') w.

Lemma sound_looks {A} (m : M W A) (P : W -> A -> Prop) : looks m P -> sound m.
Proof.
  intros Hm w (_ & _ & _ & _ & Ha). eapply wp_mono; [apply Hm|]. intros r w' [[He Hd] _]. split; [done|]. by eapply readable_frame.
Qed.

Lemma sound_bind {A B} (m : M W A) (k : A -> M W B) : sound m -> (forall a, sound (k a)) -> sound (m ≫= k).
Proof.
  intros Hm Hk w Hw. apply wp_bind. eapply wp_mono; [by apply Hm|]. intros [a|e] w1 [He Ha]; [|done].
  eapply wp_mono; [apply Hk; by eapply safe_frame|]. intros r w2 [He2 Ha2]. split; [by etrans|done].
Qed.

Lemma sound_atomic {A} (m : M W A) : sound m -> sound (atomic m).
Proof.
  intros Hm w Hw. specialize (Hm w Hw). unfold wp, atomic in *. destruct (m w) as [[a|e] w1]; [done|]. cbn [fst snd] in *.
  destruct Hm as [He _]. split; [exact He|]. destruct Hw as (_ & _ & _ & _ & Ha). by apply (readable_frame w).
Qed.

Lemma sound_try {A} (m : M W A) (h : exn -> M W A) : sound m -> (forall e, sound (h e)) -> sound (try_except m h).
Proof.
  intros Hm Hh w Hw. apply wp_try. eapply wp_mono; [by apply Hm|]. intros [a|e] w1 [He Ha]; [done|].
  eapply wp_mono; [apply Hh; by eapply safe_frame|]. intros r w2 [He2 Ha2]. split; [by etrans|done].
Qed.

Lemma sound_for_each {A S} (l : list A) (s : S) (body : A -> S -> M W S) : (forall x s, sound (body x s)) -> sound (for_each l s body).
Proof.
  intros Hb. revert s. induction l as [|x l IH]; intros s; simpl; [by apply (sound_looks _ (fun _ _ => True)), looks_ret|].
  apply sound_bind; [apply Hb|]. intros s'. apply IH.
Qed.

(** ** Rows that are written *)

Lemma readable_over (key : string) (g : guard) (ups r : row) :
  readable key g r -> (forall x v, x ∈ g_encrypted g -> ups !! x = Some v -> ok_text key (text_of (Some v)) = true) -> readable key g (ups ∪ r).
Proof.
  intros Hr Hu x Hx. rewrite lookup_union. destruct (ups !! x) as [v|] eqn:Ev; [|by rewrite (left_id_L None _); apply Hr].
  rewrite union_Some_l. by apply (Hu x).
Qed.

(** The writes of an update are readable under [key]. *)
Definition writes_readable (key : string) (g : guard) (ups : row) : Prop :=
  forall x v, x ∈ g_encrypted g -> ups !! x = Some v -> ok_text key (text_of (Some v)) = true.

Lemma updated_readable (w w' : W) (label : string) (flt : Z -> row -> bool) (ups : row) :
  all_readable w -> writes_readable (key_of (ew_db w)) (guard_of label w) ups -> same_env w w' ->
  db_key (ew_db w') = db_key (ew_db w) -> db_rows (ew_db w') = updated label flt ups (db_rows (ew_db w)) -> all_readable w'.
Proof.
  intros Ha Hu He Hk Hr l pk r. rewrite Hr. unfold updated. rewrite map_lookup_imap. destruct (db_rows (ew_db w) !! (l, pk)) as [r0|] eqn:El; [|done].
  simpl. intros [= <-]. rewrite (same_env_guard w w') by done. unfold key_of. rewrite Hk. fold (key_of (ew_db w)).
  destruct (String.eqb_spec l label) as [->|]; simpl; [|by apply (Ha l pk)]. destruct (flt pk r0); [|by apply (Ha label pk)].
  apply readable_over; [by apply (Ha label pk)|done].
Qed.

Lemma insert_readable (w w' : W) (label : string) (pk : Z) (r : row) :
  all_readable w -> readable (key_of (ew_db w)) (guard_of label w) r -> same_env w w' ->
  db_key (ew_db w') = db_key (ew_db w) -> db_rows (ew_db w') = <[(label, pk) := r]> (db_rows (ew_db w)) -> all_readable w'.
Proof.
  intros Ha Hr He Hk Hd l k r'. rewrite Hd, (same_env_guard w w') by done. unfold key_of. rewrite Hk. fold (key_of (ew_db w)).
  intros [[[= -> ->] <-]|[_ Hl]]%lookup_insert_Some; [done|by apply (Ha l k)].
Qed.

Lemma update_keeps (label : string) (flt : Z -> row -> bool) (ups : row) (w : W) :
  all_readable w -> writes_readable (key_of (ew_db w)) (guard_of label w) ups ->
  wp (original_update label flt ups) (fun _ w' => same_env w w' /\ all_readable w') w.
Proof.
  intros Ha Hu. unfold original_update. apply wp_bind. eapply wp_mono; [apply inspects_query|]. intros [rows|e] w1 [[He Hd] _].
  - apply wp_bind, wp_modify, wp_ret. split; [done|].
    eapply (updated_readable w); [done|exact Hu|exact He|..]; cbn [set_rows set_db ew_db db_key db_rows]; by rewrite Hd.
  - split; [done|]. by eapply readable_frame.
Qed.

Lemma encrypted_part_spec (g : guard) (ups : row) (x : string) :
  encrypted_part g ups !! x = if mem_str x (g_encrypted g) then str_of_column <$> ups !! x else None.
Proof. unfold encrypted_part. rewrite map_lookup_imap. destruct (ups !! x); simpl; by destruct (mem_str x _). Qed.

Lemma no_encrypted_part (key : string) (g : guard) (ups : row) : encrypted_part g ups = ∅ -> writes_readable key g ups.
Proof.
  intros H x v Hx Hv. pose proof (encrypted_part_spec g ups x) as Hp. rewrite H, lookup_empty, Hv in Hp.
  apply mem_str_spec in Hx. by rewrite Hx in Hp.
Qed.

Lemma wp_atomic {A} (m : M W A) (w : W) :
  all_readable w -> wp m (fun _ w' => same_env w w' /\ all_readable w') w -> wp (atomic m) (fun _ w' => same_env w w' /\ all_readable w') w.
Proof.
  intros Ha Hm. unfold wp, atomic in *. destruct (m w) as [[a|e] w1]; [done|]. cbn [fst snd] in *. destruct Hm as [He _].
  split; [exact He|]. by apply (readable_frame w).
Qed.

Lemma statement_keeps (w : W) : all_readable w -> wp statement (fun _ w' => same_env w w' /\ all_readable w') w.
Proof. intros Ha. eapply wp_mono; [apply inspects_statement|]. intros r w1 [[He Hd] _]. split; [done|by eapply readable_frame]. Qed.

Lemma conditional_keeps (label : string) (flt : Z -> row -> bool) (ups : row) (snapshots : list (Z * list (string * option column))) (w : W) :
  all_readable w -> encrypted_part (guard_of label w) ups = ∅ ->
  wp (conditional_updates label flt ups snapshots) (fun _ w' => same_env w w' /\ all_readable w') w.
Proof.
  intros Ha Hu. unfold conditional_updates. apply wp_atomic; [done|]. apply wp_bind. eapply wp_mono; [by apply statement_keeps|].
  intros [[]|e] w1 [He1 Ha1]; [|done].
  eapply wp_mono; [apply (wp_for_each _ _ (fun _ w2 => same_env w w2 /\ all_readable w2) (fun _ w2 => same_env w w2 /\ all_readable w2))|].
  - intros s n w2 _ [He2 Ha2]. apply wp_bind. eapply wp_mono; [apply update_keeps; [done|]|].
    + apply no_encrypted_part. by rewrite (same_env_guard w w2).
    + intros [c|e] w3 [He3 Ha3]; [apply wp_ret|]; (split; [by etrans|done]).
  - done.
  - by intros [c|e] w2.
Qed.

(** Unless an update of ciphertext is permitted, it must leave it alone. *)
Lemma guarded_update_keeps (label : string) (flt : Z -> row -> bool) (ups : row) (w : W) :
  all_readable w -> pm_key (ew_permits w) = None ->
  (pm_encrypted (ew_permits w) = None \/ writes_readable (key_of (ew_db w)) (guard_of label w) ups) ->
  wp (guarded_update label flt ups) (fun _ w' => same_env w w' /\ all_readable w') w.
Proof.
  intros Ha Hk Hp. unfold guarded_update. apply wp_bind, wp_gets. destruct (String.eqb label SETTINGS_MODEL).
  { destruct (ups !! "encryption_key") as [v|].
    - rewrite Hk. rewrite bool_decide_eq_false_2 by done. by apply wp_raise.
    - apply wp_bind. eapply wp_mono; [by apply statement_keeps|]. by intros [[]|e] w1. }
  apply wp_bind, wp_gets. case_bool_decide as Hn; cbn [negb].
  - destruct (mentions _ _); cbn [negb]; [|apply update_keeps; [done|by apply no_encrypted_part]].
    apply wp_bind. eapply wp_mono; [apply inspects_query|]. intros [rows|e] w1 [[He Hd] _]; [|split; [done|by eapply readable_frame]].
    assert (Ha1 : all_readable w1) by by eapply readable_frame.
    case_bool_decide; [by apply wp_ret|]. eapply wp_mono; [apply conditional_keeps; [done|by rewrite (same_env_guard w w1)]|].
    intros r w2 [He2 Ha2]. split; [by etrans|done].
  - case_bool_decide as Hq; [|by apply wp_raise]. destruct Hp as [Hp|Hp]; [by rewrite Hp in Hq|]. by apply update_keeps.
Qed.

Lemma guarded_update_sound (label : string) (flt : Z -> row -> bool) (ups : row) : sound (guarded_update label flt ups).
Proof. intros w (_ & _ & Hp & Hk & Ha). apply guarded_update_keeps; [done|done|by left]. Qed.

(** ** Bulk writes *)

Definition map_readable (key : string) (g : string -> guard) (m : gmap (string * Z) row) : Prop :=
  forall label pk r, m !! (label, pk) = Some r -> readable key (g label) r.

Lemma map_readable_insert (key : string) (g : string -> guard) (m : gmap (string * Z) row) (label : string) (pk : Z) (r : row) :
  map_readable key g m -> readable key (g label) r -> map_readable key g (<[(label, pk) := r]> m).
Proof. intros Hm Hr l k r' [[[= -> ->] <-]|[_ Hl]]%lookup_insert_Some; [done|by apply (Hm l k)]. Qed.

Lemma fold_readable (key : string) (g : string -> guard) (step : gmap (string * Z) row -> Z * row -> gmap (string * Z) row)
    (objs : list (Z * row)) (m : gmap (string * Z) row) :
  (forall m kr, kr ∈ objs -> map_readable key g m -> map_readable key g (step m kr)) -> map_readable key g m ->
  map_readable key g (foldl step m objs).
Proof.
  revert m. induction objs as [|kr objs IH]; intros m Hs Hm; [done|]. simpl. apply IH; [|apply Hs; [left|done]].
  intros m' kr' Hin. apply Hs. by right.
Qed.

(** Columns outside [fields] do not touch the ciphertext. *)
Lemma readable_columns (key : string) (g : guard) (fields : list string) (new r : row) :
  (forall x, x ∈ g_encrypted g -> mem_str x fields = false) -> readable key g r ->
  readable key g (filter (fun fv => mem_str fv.1 fields = true) new ∪ r).
Proof.
  intros Hf Hr. apply readable_over; [done|]. intros x v Hx [_ Hm]%map_lookup_filter_Some. simpl in Hm. by rewrite (Hf x Hx) in Hm.
Qed.

Lemma existsb_absent (l fields : list string) (x : string) : existsb (fun f => mem_str f l) fields = false -> x ∈ l -> mem_str x fields = false.
Proof.
  intros He Hx. apply mem_str_false. intros Hin. rewrite <- not_true_iff_false, existsb_exists in He. apply He. exists x.
  split; [by apply list_elem_of_In|by apply mem_str_spec].
Qed.

Lemma existsb_absent_l (l fields : list string) (x : string) : existsb (fun f => mem_str f fields) l = false -> x ∈ l -> mem_str x fields = false.
Proof.
  intros He Hx. destruct (mem_str x fields) eqn:Em; [|done]. rewrite <- not_true_iff_false, existsb_exists in He. exfalso. apply He.
  exists x. split; [by apply list_elem_of_In|done].
Qed.

Lemma write_rows_keeps (f : gmap (string * Z) row -> gmap (string * Z) row) (w w' : W) :
  (map_readable (key_of (ew_db w)) (fun l => guard_of l w) (db_rows (ew_db w)) ->
   map_readable (key_of (ew_db w)) (fun l => guard_of l w) (f (db_rows (ew_db w)))) ->
  all_readable w -> same_env w w' -> db_key (ew_db w') = db_key (ew_db w) -> db_rows (ew_db w') = f (db_rows (ew_db w)) -> all_readable w'.
Proof.
  intros Hf Ha He Hk Hr l pk r. rewrite Hr, (same_env_guard w w') by done. unfold key_of. rewrite Hk. by apply Hf.
Qed.

Lemma bulk_update_sound (label : string) (objs : list (Z * row)) (fields : list string) : sound (guarded_bulk_update label objs fields).
Proof.
  intros w (_ & _ & _ & _ & Ha). unfold guarded_bulk_update. apply wp_bind, wp_gets. destruct (_ && _)%bool; [by apply wp_raise|].
  destruct (existsb _ fields) eqn:Ef; [by apply wp_raise|]. apply wp_bind, wp_bind. eapply wp_mono; [apply inspects_statement|].
  intros [[]|e] w1 [[He Hd] _]; [|split; [done|by eapply readable_frame]]. apply wp_modify, wp_ret. split; [exact He|].
  apply (write_rows_keeps (fun m => foldl (bulk_set label fields) m objs) w); [|done|done|..]; cbn [set_db ew_db db_key db_rows]; try (by rewrite ?Hd).
  intros Hm. apply fold_readable; [|done]. intros m kr _ Hmr. unfold bulk_set. destruct (m !! (label, kr.1)) as [r|] eqn:El; [|done].
  apply map_readable_insert; [done|]. apply readable_columns; [|by apply (Hmr label kr.1)]. intros x Hx. by eapply existsb_absent.
Qed.

Lemma no_ciphertext_readable (key : string) (g : guard) (r : row) : holds_ciphertext (g_encrypted g) r = false -> readable key g r.
Proof.
  intros H x Hx. unfold holds_ciphertext in H. rewrite <- not_true_iff_false, existsb_exists in H. unfold ok_text.
  destruct (text_of (r !! x)) eqn:Et; [done|]. exfalso. apply H. exists x. split; [by apply list_elem_of_In|]. by rewrite Et.
Qed.

Lemma bulk_create_sound (label : string) (objs : list (Z * row)) (conflicts : bool) (fields : list string) :
  sound (guarded_bulk_create label objs conflicts fields).
Proof.
  intros w (_ & _ & _ & _ & Ha). unfold guarded_bulk_create. apply wp_bind, wp_gets, wp_bind, wp_gets.
  destruct (_ && _)%bool; [by apply wp_raise|]. destruct (_ || _)%bool eqn:Ec; [by apply wp_raise|].
  apply orb_false_iff in Ec as [Ec Ef]. destruct (_ && _)%bool; [by apply wp_raise|].
  apply wp_bind. eapply wp_mono; [apply inspects_query|]. intros [rows|e] w1 [[He Hd] Hq]; [|split; [done|by eapply readable_frame]].
  rewrite (Hq rows eq_refl). destruct (_ && _)%bool; [apply wp_raise; split; [done|by eapply readable_frame]|].
  apply wp_modify. split; [exact He|].
  apply (write_rows_keeps (fun m => foldl (upsert label fields) m objs) w); [|done|done|..]; cbn [set_rows set_db ew_db db_key db_rows]; try (by rewrite ?Hd).
  intros Hm. apply fold_readable; [|done]. intros m kr Hin Hmr. unfold upsert. destruct (m !! (label, kr.1)) as [r|] eqn:El; apply map_readable_insert; try done.
  - apply readable_columns; [|by apply (Hmr label kr.1)]. intros x Hx. by eapply existsb_absent_l.
  - apply no_ciphertext_readable. rewrite <- not_true_iff_false, existsb_exists in Ec. destruct (holds_ciphertext _ kr.2) eqn:Eh; [|done].
    exfalso. apply Ec. exists kr. split; [by apply list_elem_of_In|done].
Qed.

(** ** Saves of models *)

(** The row a save writes over [old]. *)
Definition saved_row (i : er_instance) (update_fields : option (list string)) (old : row) : row :=
  match update_fields with
  | None => ei_fields i
  | Some fields => filter (fun fv => mem_str fv.1 fields = true) (ei_fields i) ∪ old
  end.

Lemma original_save_keeps (i : er_instance) (update_fields : option (list string)) (w : W) :
  all_readable w ->
  (forall old, readable (key_of (ew_db w)) (guard_of (ei_label i) w) old ->
     readable (key_of (ew_db w)) (guard_of (ei_label i) w) (saved_row i update_fields old)) ->
  wp (original_save i update_fields) (fun _ w' => same_env w w' /\ all_readable w') w.
Proof.
  intros Ha Hs. unfold original_save. apply wp_bind. eapply wp_mono; [apply inspects_statement|].
  intros [[]|e] w1 [[He Hd] _]; [|split; [done|by eapply readable_frame]]. apply wp_bind, wp_gets.
  assert (Ha1 : all_readable w1) by by eapply readable_frame. rewrite Hd.
  destruct update_fields as [fields|].
  - assert (Hpart : forall pk, wp (match db_rows (ew_db w) !! (ei_label i, pk) with
      | Some r => _ ← modify (set_rows (<[(ei_label i, pk) := filter (fun fv => mem_str fv.1 fields = true) (ei_fields i) ∪ r]> (db_rows (ew_db w)))); mret i
      | None => raise (DatabaseError "Save with update_fields did not affect any rows.")
      end) (fun _ w' => same_env w w' /\ all_readable w') w1).
    { intros pk. destruct (db_rows (ew_db w) !! (ei_label i, pk)) as [r|] eqn:El; [|by apply wp_raise].
      apply wp_bind, wp_modify, wp_ret. split; [exact He|].
      eapply (insert_readable w _ (ei_label i) pk); [done| |exact He|..]; cbn [set_rows set_db ew_db db_key db_rows]; rewrite ?Hd; [|done..].
      apply (Hs r). by apply (Ha _ pk). }
    destruct fields; [by destruct (ei_pk i); apply wp_ret|]. destruct (ei_pk i) as [pk|]; [apply Hpart|by apply wp_raise].
  - destruct (ei_pk i) as [pk|].
    + apply wp_bind, wp_modify, wp_ret. split; [exact He|].
      eapply (insert_readable w _ (ei_label i) pk (ei_fields i)); [done| |exact He|..]; cbn [set_rows set_db ew_db db_key db_rows]; rewrite ?Hd; [|done..].
      apply (Hs ∅). intros x _. by rewrite lookup_empty.
    + apply wp_bind, wp_gets, wp_bind, wp_modify, wp_ret. split; [exact He|].
      eapply (insert_readable w _ (ei_label i) (ew_next w1) (ei_fields i)); [done| |exact He|done|done]. apply (Hs ∅). intros x _. by rewrite lookup_empty.
Qed.

Lemma guarded_save_sound (i : er_instance) (update_fields : option (list string)) : sound (guarded_save i update_fields).
Proof.
  intros w (Hi & Hskip & _ & _ & Ha). unfold guarded_save. apply wp_bind, wp_gets. destruct (match update_fields with Some _ => _ | None => _ end) eqn:Eu.
  { apply original_save_keeps; [done|]. intros old Hold. destruct update_fields as [fields|]; [|done]. apply negb_true_iff in Eu.
    apply readable_columns; [|done]. intros x Hx. eapply existsb_absent_l; [exact Eu|]. by apply guard_covers. }
  apply wp_atomic; [done|]. apply wp_bind.
  assert (Hstate : looks (_locked_writer_state i (g_encrypted (guard_of (ei_label i) w))) (fun w p => p.1 = key_of (ew_db w))).
  { unfold _locked_writer_state. eapply looks_bind; [by apply (looks_query db_key (fun w k => k = db_key (ew_db w)))| | |].
    - intros k. destruct (ei_pk i) as [pk|].
      + eapply looks_bind; [by apply (looks_query _ (fun _ _ => True))| |done|].
        * intros r. apply looks_ret. intros w' _ ->. done.
        * intros w1 w2 p [_ Hd]. by rewrite Hd.
      + apply looks_ret. by intros w' ->.
    - intros w1 w2 k [_ Hd]. by rewrite Hd.
    - intros w1 w2 p [_ Hd]. by rewrite Hd. }
  eapply wp_mono; [apply Hstate|]. intros [[key persisted]|e] w1 [[He Hd] Hk]; [|split; [done|by eapply readable_frame]].
  specialize (Hk _ eq_refl). simpl in Hk. subst key. assert (Ha1 : all_readable w1) by by eapply readable_frame.
  apply wp_bind, wp_lift. destruct (_validate_encrypted_field_replacements _ _ _); [|done].
  apply wp_bind. unfold _validate_ciphertexts_use_current_key. apply wp_bind, wp_gets.
  replace (ew_skip w1) with false by (destruct He as (_ & _ & _ & ->); congruence).
  destruct (forallb _ _) eqn:Ef; [|by apply wp_raise]. apply wp_ret, wp_bind.
  eapply wp_mono; [apply original_save_keeps; [done|]|].
  - rewrite (same_env_guard w w1), Hd by done. intros old Hold.
    assert (Hnew : readable (key_of (ew_db w)) (guard_of (ei_label i) w) (ei_fields i)).
    { intros x Hx. rewrite forallb_forall in Ef. apply (Ef (text_of (ei_fields i !! x))). apply in_map_iff. exists x. split; [done|by apply list_elem_of_In]. }
    destruct update_fields as [fields|]; [|done]. apply readable_over; [done|]. intros x v Hx [Hv _]%map_lookup_filter_Some.
    rewrite <- Hv. by apply Hnew.
  - intros [i'|e] w2 [He2 Ha2]; [apply wp_ret|]; (split; [by etrans|done]).
Qed.

(** ** The locked update *)

Lemma with_permits_keeps {A} (p : permits) (m : M W A) (w : W) :
  wp m (fun _ w' => same_env (set_permits p w) w' /\ all_readable w') (set_permits p w) ->
  wp (with_permits p m) (fun _ w' => same_env w w' /\ all_readable w') w.
Proof.
  intros Hm. unfold with_permits. apply wp_bind, wp_gets, wp_bind, wp_modify, wp_finally. eapply wp_mono; [exact Hm|].
  intros r w1 [(H1 & H2 & H3 & H4) Ha]. apply wp_modify. destruct r; (split; [by repeat split|exact Ha]).
Qed.

(** The part that is checked is what is written. *)
Lemma checked_writes (key : string) (g : guard) (ups : row) :
  existsb (fun f => match ups !! f with None | Some (CText _) => false | _ => true end) (g_encrypted g) = false ->
  forallb (fun fv => is_empty fv.2 || decryptable key fv.2)%bool (map_to_list (encrypted_part g ups)) = true -> writes_readable key g ups.
Proof.
  intros Ht Hc x v Hx Hv. rewrite <- not_true_iff_false, existsb_exists in Ht.
  destruct v as [|s|b|z]; try (exfalso; apply Ht; exists x; split; [by apply list_elem_of_In|]; by rewrite Hv).
  rewrite forallb_forall in Hc. apply (Hc (x, s)), list_elem_of_In, elem_of_map_to_list. rewrite encrypted_part_spec, Hv.
  apply mem_str_spec in Hx. by rewrite Hx.
Qed.

Lemma locked_key_looks : looks locked_settings_key (fun w k => db_key (ew_db w) = Some k).
Proof.
  eapply looks_bind; [by apply (looks_query db_key (fun w k => db_key (ew_db w) = k))| | |].
  - intros [k|]; [|apply looks_raise]. by apply looks_ret.
  - intros w1 w2 k [_ Hd]. by rewrite Hd.
  - intros w1 w2 k [_ Hd]. by rewrite Hd.
Qed.

Lemma locked_update_sound (label : string) (flt : Z -> row -> bool) (ups : row) : sound (_locked_encrypted_queryset_update label flt ups).
Proof.
  intros w (Hi & Hskip & Hp & Hpk & Ha). unfold _locked_encrypted_queryset_update. apply wp_bind, wp_gets.
  case_bool_decide; [by apply wp_raise|]. destruct (existsb _ _) eqn:Et; [by apply wp_raise|]. apply wp_atomic; [done|]. apply wp_bind.
  eapply wp_mono; [apply locked_key_looks|]. intros [k|e] w1 [[He Hd] Hk]; [|split; [done|by eapply readable_frame]].
  specialize (Hk k eq_refl). assert (Hkey : key_of (ew_db w) = strip k) by (unfold key_of; by rewrite Hk).
  destruct (forallb _ _) eqn:Ef; [|apply wp_raise; split; [done|by eapply readable_frame]]. apply wp_bind, wp_gets.
  assert (Ha1 : all_readable w1) by by eapply readable_frame.
  eapply wp_mono; [apply with_permits_keeps, guarded_update_keeps|].
  - exact Ha1.
  - cbn [set_permits ew_permits pm_key]. destruct He as (_ & _ & -> & _). done.
  - right. cbn [set_permits ew_db]. rewrite Hd. change (guard_of label (set_permits _ w1)) with (guard_of label w1).
    rewrite (same_env_guard w w1), Hkey by done. by apply checked_writes.
  - intros r w2 [He2 Ha2]. split; [by etrans|done].
Qed.

Lemma conflict_create_sound (label : string) (objs : list (Z * row)) (conflicts : bool) (fields : list string) :
  sound (_locked_recovery_conflict_bulk_create label objs conflicts fields).
Proof.
  intros w Hw. pose proof Hw as (Hi & Hskip & Hp & Hpk & Ha). unfold _locked_recovery_conflict_bulk_create. apply wp_bind, wp_gets.
  destruct (_ || _)%bool; [by apply wp_raise|]. apply wp_atomic; [done|]. apply wp_bind. eapply wp_mono; [apply locked_key_looks|].
  intros [k|e] w1 [[He Hd] _]; [|split; [done|by eapply readable_frame]]. apply wp_bind, wp_gets.
  assert (Hw1 : safe w1) by (eapply safe_frame; [exact He| |done]; by eapply readable_frame).
  eapply wp_mono; [apply with_permits_keeps, bulk_create_sound; exact Hw1|]. intros r w2 [He2 Ha2]. split; [by etrans|done].
Qed.

(** ** The key *)

Lemma decryptable_strip (key c : string) : decryptable (strip key) c = decryptable key c.
Proof.
  unfold decryptable. pose proof (decrypt_strip c key) as H.
  destruct (decrypt c key) as [p|] eqn:E1, (decrypt c (strip key)) as [q|] eqn:E2; try done.
  - destruct (H p) as [H1 _]. by specialize (H1 eq_refl).
  - destruct (H q) as [_ H1]. by specialize (H1 eq_refl).
Qed.

(** Nothing decrypts without a key. *)
Lemma empty_key_readable (g : guard) (r : row) (key : string) : readable "" g r -> readable key g r.
Proof.
  intros H x Hx. specialize (H x Hx). unfold ok_text, decryptable, decrypt in *. by destruct (is_empty (text_of (r !! x))).
Qed.

Lemma blank_readable (w : W) (fs : list EncryptedFieldFamily) (key label : string) (pk : Z) (r : row) :
  installed w -> families_of w = Ok fs -> Forall (blank (ew_db w)) fs -> db_rows (ew_db w) !! (label, pk) = Some r ->
  readable key (guard_of label w) r.
Proof.
  intros Hi Hf Hb Hl x Hx. apply (guard_encrypted w fs label x Hi Hf) in Hx as (f & Hin & <- & Hx).
  rewrite Forall_forall in Hb. by rewrite (Hb f Hin pk r x).
Qed.

(** The save mentions the key. *)
Definition saves_key (update_fields : option (list string)) : bool :=
  match update_fields with None => true | Some fields => mem_str "encryption_key" fields end.

(** [key] reads everything there is. *)
Definition key_fits (key : string) (w : W) : Prop :=
  forall label pk r, db_rows (ew_db w) !! (label, pk) = Some r -> readable (strip key) (guard_of label w) r.

Lemma key_fits_frame (key : string) (w w' : W) : unchanged w w' -> key_fits key w -> key_fits key w'.
Proof. intros [He Hd] H label pk r. rewrite Hd, (same_env_guard w w') by done. apply H. Qed.

Lemma key_fits_empty (key : string) (w : W) : all_readable w -> db_key (ew_db w) = None -> key_fits key w.
Proof. intros Ha Hn label pk r Hl. apply empty_key_readable. specialize (Ha label pk r Hl). unfold key_of in Ha. by rewrite Hn in Ha. Qed.

Lemma key_fits_same (key k : string) (w : W) : all_readable w -> db_key (ew_db w) = Some k -> strip k = strip key -> key_fits key w.
Proof. intros Ha Hk He label pk r Hl. specialize (Ha label pk r Hl). unfold key_of in Ha. rewrite Hk in Ha. simpl in Ha. by rewrite He in Ha. Qed.

Lemma write_settings_keeps (saved : bool) (key : string) (update_fields : option (list string)) (w : W) :
  all_readable w -> (saves_key update_fields = true -> saved = true \/ db_key (ew_db w) = None -> key_fits key w) ->
  wp (write_settings saved key update_fields) (fun _ w' => same_env w w' /\ all_readable w') w.
Proof.
  intros Ha Hk. unfold write_settings. apply wp_bind. eapply wp_mono; [apply inspects_query|].
  intros [k|e] w1 [[He Hd] Hq]; [|split; [done|by eapply readable_frame]]. assert (Ha1 : all_readable w1) by by eapply readable_frame.
  specialize (Hq k eq_refl).
  assert (Hset : key_fits key w -> wp (modify (set_key (Some key))) (fun _ w' => same_env w w' /\ all_readable w') w1).
  { intros Hf. apply wp_modify. split; [exact He|]. intros label pk r. cbn [set_key set_db ew_db db_rows key_of db_key default]. rewrite Hd.
    change (guard_of label (set_key (Some key) w1)) with (guard_of label w1). rewrite (same_env_guard w w1) by done. apply Hf. }
  destruct saved, k as [k|], update_fields as [[|f fields]|]; try (by apply wp_raise || by apply wp_ret);
    cbn [saves_key] in Hk; try (destruct (mem_str _ _); [|by apply wp_ret]); apply Hset, Hk; auto.
Qed.

Lemma allowed_looks (p key : string) :
  looks (assert_ordinary_key_mutation_allowed p key)
    (fun w _ => strip p = strip key \/ exists fs, families_of w = Ok fs /\ Forall (blank (ew_db w)) fs).
Proof.
  unfold assert_ordinary_key_mutation_allowed. destruct (String.eqb_spec (strip p) (strip key)) as [He|Hn]; [apply looks_ret; by left|].
  eapply looks_bind; [apply looks_payloads| | |].
  - intros []; [apply looks_raise|]. apply looks_ret. intros w H. right. by apply H.
  - intros w w' b [[Hi _] Hd] H. unfold families_of in *. by rewrite Hi, Hd.
  - intros w w' b [[Hi _] Hd] H. unfold families_of in *. by rewrite <- Hi, <- Hd.
Qed.

Lemma safe_unchanged (w w' : W) : unchanged w w' -> safe w -> safe w'.
Proof. intros [He Hd] Hw. eapply safe_frame; [exact He| |exact Hw]. destruct Hw as (_ & _ & _ & _ & Ha). by eapply readable_frame. Qed.

Lemma fits_back (p key : string) (w w' : W) :
  unchanged w w' -> (safe w' -> db_key (ew_db w') = Some p -> key_fits key w') -> safe w -> db_key (ew_db w) = Some p -> key_fits key w.
Proof.
  intros Hu H Hw Hk. eapply key_fits_frame; [symmetry; exact Hu|]. apply H; [by eapply safe_unchanged|]. by destruct Hu as [_ ->].
Qed.

(** A key that the checks let pass fits. *)
Lemma check_key_looks (p key : string) :
  looks (_ ← lock_encrypted_field_tables; _ ← assert_ordinary_key_mutation_allowed p key; lift (_require_canonical_new_key p key))
    (fun w _ => safe w -> db_key (ew_db w) = Some p -> key_fits key w).
Proof.
  eapply looks_bind; [apply looks_lock| | |by intros w w' _; apply fits_back].
  - intros fs. eapply looks_bind; [apply allowed_looks| | |].
    + intros a. apply looks_lift. intros w b _ [He|(fs' & Hf & Hb)] _ Hw Hk.
      * destruct Hw as (_ & _ & _ & _ & Ha). by eapply key_fits_same.
      * intros label pk r Hl. destruct Hw as (Hi & _). by eapply blank_readable.
    + intros w w' b [[Hi _] Hd] H. unfold families_of in *. by rewrite Hi, Hd.
    + intros w w' b Hu H Hf. apply (fits_back p key w w' Hu). apply H. by rewrite (unchanged_families w w').
  - intros w w' b Hu. by rewrite (unchanged_families w w').
Qed.

Lemma settings_save_sound (saved : bool) (key : string) (update_fields : option (list string)) : sound (settings_save saved key update_fields).
Proof.
  intros w Hw. pose proof Hw as (_ & _ & _ & _ & Ha). unfold settings_save. fold (saves_key update_fields).
  destruct (negb saved || negb (saves_key update_fields))%bool eqn:Eb.
  - apply wp_bind. eapply wp_mono; [apply (sound_looks (A := ()) _ (fun _ _ => True)); [|exact Hw]|].
    + destruct (_ && _)%bool; [by apply looks_lift|by apply looks_ret].
    + intros [[]|e] w1 [He Ha1]; [|done]. eapply wp_mono; [apply write_settings_keeps; [done|]|by intros r w2 [He2 Ha2]; split; [etrans|]].
      intros Hs [->|Hn]; [by rewrite Hs in Eb|by apply key_fits_empty].
  - apply sound_try; [|intros []; eapply (sound_looks (A := ()) _ (fun _ _ => True)); apply looks_raise|exact Hw].
    apply sound_atomic. clear w Hw Ha. intros w Hw. pose proof Hw as (_ & _ & _ & _ & Ha). apply wp_bind. eapply wp_mono; [apply inspects_query|].
    intros [k|e] w1 [Hu Hq]; [|split; [by destruct Hu|by eapply readable_frame; destruct Hu]]. specialize (Hq k eq_refl).
    assert (Hw1 : safe w1) by by eapply safe_unchanged. apply wp_bind.
    assert (Hfits : wp (match k with
      | None => lift (_require_canonical_new_key "" key)
      | Some p => if String.eqb p key then mret ()
                  else _ ← lock_encrypted_field_tables; _ ← assert_ordinary_key_mutation_allowed p key; lift (_require_canonical_new_key p key)
      end) (fun r w2 => unchanged w1 w2 /\ forall a, r = Ok a -> key_fits key w2) w1).
    { destruct Hu as [_ Hd]. destruct k as [p|].
      - destruct (String.eqb_spec p key) as [->|Hn].
        + apply wp_ret. split; [done|]. intros _ _. destruct Hw1 as (_ & _ & _ & _ & Ha1). eapply key_fits_same; [done|by rewrite Hd|done].
        + eapply wp_mono; [apply check_key_looks|]. intros r w2 [Hu2 H]. split; [done|]. intros a ->. eapply key_fits_frame; [exact Hu2|].
          apply (H a eq_refl); [done|by rewrite Hd].
      - apply wp_lift. split; [done|]. intros a _. destruct Hw1 as (_ & _ & _ & _ & Ha1). apply key_fits_empty; [done|by rewrite Hd]. }
    eapply wp_mono; [exact Hfits|]. intros [a|e] w2 [Hu2 Hf].
    + assert (Hw2 : safe w2) by by eapply safe_unchanged. destruct Hw2 as (_ & _ & _ & _ & Ha2).
      eapply wp_mono; [apply write_settings_keeps; [done|intros _ _; by apply (Hf a)]|].
      intros r w3 [He3 Ha3]. split; [|done]. etrans; [apply Hu|]. etrans; [apply Hu2|done].
    + split; [etrans; [apply Hu|apply Hu2]|]. eapply (readable_frame w); [|by destruct Hu2 as [_ ->], Hu as [_ ->]|done].
      etrans; [apply Hu|apply Hu2].
Qed.
End Safety.

(** ** A write that waited *)

(** No snapshot of the row [k] is that of [r]. *)
Definition outdated (label : string) (snapshots : list (Z * list (string * option column))) (k : string * Z) (r : row) : Prop :=
  k.1 = label -> forall s, (k.2, s) ∈ snapshots -> matches_snapshot s r = false.

Definition keeps_row (k : string * Z) (r : row) (w : W) : Prop := db_rows (ew_db w) !! k = Some r.

Lemma update_keeps_row (label : string) (flt : Z -> row -> bool) (ups : row) (k : string * Z) (r : row) (w : W) :
  (k.1 = label -> flt k.2 r = false) -> keeps_row k r w -> wp (original_update label flt ups) (fun _ w' => keeps_row k r w') w.
Proof.
  intros Hf Hk. unfold original_update. apply wp_bind. eapply wp_mono; [apply inspects_query|].
  intros [rows|e] w1 [[_ Hd] _]; [|unfold keeps_row; by rewrite Hd]. apply wp_bind, wp_modify, wp_ret. unfold keeps_row.
  cbn [set_rows set_db ew_db db_rows]. unfold updated. rewrite map_lookup_imap, Hd, Hk. simpl.
  destruct (String.eqb_spec k.1 label) as [He|]; [|done]. by rewrite Hf.
Qed.

(** C20: A queryset update of operational or trust columns reads the recovery
    columns of its rows and then waits for the lock of the settings row.  What
    happens to the rows meanwhile (a reset that clears a credential, a new
    trust receipt, a deletion) counts: in whatever state [w] it goes on, a row
    whose recovery columns are no longer those it read, a row it did not read
    and a row of another model keep all their columns, also when the update
    fails halfway. *)
Theorem delayed_update_yields (label : string) (flt : Z -> row -> bool) (ups : row) (snapshots : list (Z * list (string * option column)))
    (w : W) (k : string * Z) (r : row) :
  db_rows (ew_db w) !! k = Some r -> outdated label snapshots k r ->
  db_rows (ew_db (snd (conditional_updates label flt ups snapshots w))) !! k = Some r.
Proof.
  intros Hk Ho. change (wp (conditional_updates label flt ups snapshots) (fun _ w' => keeps_row k r w') w).
  unfold conditional_updates. set (m := _ ≫= _). enough (Hm : wp m (fun _ w' => keeps_row k r w') w).
  { unfold wp, atomic in *. by destruct (m w) as [[a|e] w1]. }
  unfold m. apply wp_bind. eapply wp_mono; [apply inspects_statement|]. intros [[]|e] w1 [[_ Hd] _]; [|unfold keeps_row; by rewrite Hd].
  eapply wp_mono; [apply (wp_for_each _ _ (fun _ => keeps_row k r) (fun _ => keeps_row k r))|by intros []].
  - intros [pk s] n w2 Hin Hk2. apply wp_bind. eapply wp_mono; [apply update_keeps_row; [|exact Hk2]|].
    + intros He. simpl. destruct (Z.eqb_spec k.2 pk) as [Hp|]; [|done]. rewrite (Ho He s); [done|by rewrite Hp].
    + intros [c|e] w3 Hk3; [by apply wp_ret|done].
  - unfold keeps_row. by rewrite Hd.
Qed.

(** ** Guards on a concrete database *)

Section Samples.
#[local] Existing Instance toy_fernet.

(** Every model of the registry with its fields; netbox-pbs is not installed. *)
Definition sample_installation : installation :=
  mkInstallation ["netbox_proxbox"]
    (List.map (fun f => (fam_model f, List.map (fun x => (x, false)) (flat_map (fun g => if String.eqb (fam_model g) (fam_model f) then family_fields g else [])
       ENCRYPTED_FIELD_FAMILIES))) ENCRYPTED_FIELD_FAMILIES) [] true.

Definition token_of (key plain : string) : string := match encrypt plain key 0 with Ok c => c | Err _ => "" end.

Definition sample_pbs (cipher : string) : row :=
  list_to_map [("token_secret_enc", CText cipher); ("fingerprint", CText "AA:BB"); ("enabled", CBool true); ("name", CText "pbs1")].

Definition sample_er (cipher : string) : W :=
  snd (install_encrypted_writer_guards
         (mkEr (mkDb (Some sample_key) {[ ("netbox_proxbox.PBSEndpoint", 4) := sample_pbs cipher ]} []) sample_installation [] no_permits false
               [] ∅ [] [] 0 10)).

Definition sample_cell (w : W) (f : string) : option column := db_rows (ew_db w) !! ("netbox_proxbox.PBSEndpoint", 4) ≫= (.!! f).

Definition outcome {A} (m : M W A) (w : W) : option exn * W := let r := m w in (match fst r with Ok _ => None | Err e => Some e end, snd r).

(** A queryset may disable an endpoint and may not touch its ciphertext; the
    stored key cannot be replaced by a save while there is ciphertext. *)
Example guards_at_work :
  let w := sample_er (token_of sample_key "s3cret") in
  let all := fun (_ : Z) (_ : row) => true in
  (let '(e, w') := outcome (guarded_update "netbox_proxbox.PBSEndpoint" all {[ "enabled" := CBool false ]}) w in
     (e, sample_cell w' "enabled")) = (None, Some (CBool false)) /\
  fst (outcome (guarded_update "netbox_proxbox.PBSEndpoint" all {[ "token_secret_enc" := CText "x" ]}) w) = Some ciphertext_write_refused /\
  fst (outcome (guarded_bulk_update "netbox_proxbox.PBSEndpoint" [(4, ∅)] ["token_secret_enc"]) w) = Some ciphertext_write_refused /\
  fst (outcome (guarded_update SETTINGS_MODEL all {[ "encryption_key" := CText other_key ]}) w) = Some key_write_refused /\
  fst (outcome (settings_save true other_key None) w) = Some (ValidationError (exn_msg key_mutation_blocked)) /\
  db_key (ew_db (snd (outcome (settings_save true other_key None) (sample_er "")))) = Some other_key.
Proof. repeat split; vm_compute; reflexivity. Qed.

Lemma delayed_update_yields_witness :
  let read := sample_pbs (token_of sample_key "s3cret") in
  let now := sample_pbs "" in
  db_rows (ew_db (snd (conditional_updates "netbox_proxbox.PBSEndpoint" (fun _ _ => true) {[ "enabled" := CBool true ]}
    [(4, snapshot_of ["enabled"; "fingerprint"; "token_secret_enc"] read)] (sample_er "")))) !! ("netbox_proxbox.PBSEndpoint", 4) = Some now.
Proof.
  apply delayed_update_yields.
  - vm_compute. reflexivity.
  - intros _ s Hs. apply list_elem_of_singleton in Hs. injection Hs as ->. vm_compute. reflexivity.
Defined.
End Samples.
