(* ===== verification/EncryptionRecovery.v ===== *)
(** * Rotation and reset of the plugin's encryption key (services/encryption_recovery.py)

    The rotation of the key with every ciphertext that depends on it, and the
    destructive reset of what can no longer be decrypted. *)
From Stdlib Require Import ZArith Lia Ascii String.
From stdpp Require Import base list sets strings pretty gmap sorting.
From S2P Require Import Prelude Json Text Effects StageFailure Deadline BackendPath ConnectionAuthority Fernet BackendKey EncryptionGuards.

#[local] Notation W := er_world.

Definition RESET_CONFIRMATION_PHRASE : string := "RESET PROXBOX ENCRYPTED SECRETS".

Record EncryptedFamilyStatus := mkStatus { st_key : string; st_label : string; st_rows : Z; st_recovery_required : bool }.
Record RotationResult := mkRotation { rr_rows : Z; rr_ciphertexts : Z }.
Record ResetResult := mkReset { rs_families : list string; rs_rows : Z }.

(** ** Reading columns *)

Definition bool_of (v : option column) : bool := match v with Some (CBool b) => b | _ => false end.
Definition int_of (v : option column) : option Z := match v with Some (CInt z) => Some z | _ => None end.

Definition FASTAPI_MODEL : string := "netbox_proxbox.FastAPIEndpoint".

(** The target of a row, captured once. *)
Definition _BackendTargetSnapshot (r : row) (ip : option string) : key_endpoint :=
  mkKeyEndpoint None true (text_of (r !! "domain")) ip (default 0 (int_of (r !! "port"))) (bool_of (r !! "use_https"))
    (bool_of (r !! "verify_ssl")) (bool_of (r !! "use_websocket")) (bool_of (r !! "server_side_websocket"))
    (match r !! "websocket_domain" with Some (CText s) => Some s | _ => None end) (int_of (r !! "websocket_port")) "".

(** An enabled endpoint with a token and an adopted target. *)
Definition adopted_backend (r : row) : bool :=
  (bool_of (r !! "enabled") && negb (bool_decide (r !! "token_enc" = Some (CText "")))
   && negb (bool_decide (r !! "backend_key_target_fingerprint" = Some (CText ""))))%bool.

Definition dependency_error (msg : string) : exn := recovery_error "BackendEncryptionDependencyError" msg.

Definition unauthenticated : exn :=
  dependency_error "Plugin-key rotation could not authenticate every configured proxbox-api encryption-source attestation.".

(** The body of an attestation: [active_source] is looked up in a set, which
    needs a value that can be hashed. *)
Definition attestation_ok (body : pyval) : result bool :=
  let get k := match body with VDict d => dget k d | _ => None end in
  match get "attestation_version" with
  | Some (VInt 1) =>
      match get "active_key_source" with
      | Some (VList _) => Err (TypeError "unhashable type: 'list'")
      | Some (VDict _) => Err (TypeError "unhashable type: 'dict'")
      | Some (VStr s) =>
          Ok ((String.eqb s "env" || String.eqb s "local") && match get "encrypted_credentials_verified" with Some (VBool true) => true | _ => false end)%bool
      | _ => Ok false
      end
  | _ => Ok false
  end.

Definition attest (url token : string) (verify : bool) : M W attest_reply := fun w =>
  let '(reply, rest) := match ew_replies w with [] => (AttestFailed, []) | r :: rest => (r, rest) end in
  (Ok reply, mkEr (ew_db w) (ew_install w) (ew_guards w) (ew_permits w) (ew_skip w) (ew_faults w) (ew_ips w) rest
               ((url, token, verify) :: ew_sent w) (ew_nonce w) (ew_next w)).

Section Recovery.
Context {FL : FernetLib}.
Variable sha256 : string -> string.

(** ** States of ciphertext *)

Definition ciphertext_state (value key : string) : string :=
  if is_empty value then "missing" else if decryptable key value then "configured" else "recovery_required".

(** [ProxboxPluginSettings.get_solo()] *)
Definition get_solo : M W string :=
  k ← query db_key;
  match (k : option string) with
  | Some k => mret k
  | None => _ ← settings_save false "" None; mret ""
  end.

(** The nonempty ciphertexts of a row of a family. *)
Definition ciphertexts_of (f : EncryptedFieldFamily) (r : row) : list (string * string) :=
  List.filter (fun fc => nonempty fc.2) (List.map (fun x => (x, text_of (r !! x))) (fam_encrypted f)).

Definition encrypted_family_statuses (key : option string) : M W (list EncryptedFamilyStatus) :=
  key ← match key with Some k => mret k | None => get_solo end;
  database_errors (configuration_error ("Encrypted-secret recovery could not inspect the registered database tables. "
                                        +:+ "Key mutation remains blocked until the installation is repaired."))
    (families ← _available_family_models;
     for_each families [] (fun f statuses =>
       rows ← query (rows_of (fam_model f) (_ciphertext_query f));
       _ ← statement;
       let required := existsb (fun kr : Z * row => existsb (fun fc => String.eqb (ciphertext_state fc.2 key) "recovery_required") (ciphertexts_of f kr.2)) rows in
       mret (statuses ++ [mkStatus (fam_key f) (fam_label f) (Z.of_nat (length rows)) required]))).

(** ** The attestation of the backends *)

Definition attest_endpoint (old_key : string) (r : row) : M W () :=
  ip ← match int_of (r !! "ip_address_id") with
       | None => mret None
       | Some id => _ ← statement; gets (fun w => ew_ips w !! id)
       end;
  let target := _BackendTargetSnapshot r ip in
  let stored_fingerprint := lower (strip (text_of (r !! "backend_key_target_fingerprint"))) in
  match backend_key_target_fingerprint sha256 target with
  | Err (BackendKeyAdoptionError _ _ _ _) => mret ()
  | Err e => raise e
  | Ok captured_fingerprint =>
      same ← (if Nat.eqb (String.length stored_fingerprint) 64 then lift (compare_digest stored_fingerprint captured_fingerprint) else mret false);
      if negb (same : bool) then mret ()
      else
        match backend_key_target target, decrypt (text_of (r !! "token_enc")) old_key with
        | Ok (base_url, verify_ssl), Ok token =>
            reply ← attest (rstrip_char "/" base_url +:+ "/admin/encryption/status") token verify_ssl;
            match (reply : attest_reply) with
            | AttestFailed =>
                raise (dependency_error "Plugin-key rotation could not reach every configured proxbox-api encryption-source attestation endpoint.")
            | AttestResponse status body =>
                if negb (status =? 200) then
                  raise (dependency_error "Plugin-key rotation requires a successful encryption-source attestation from every configured proxbox-api target.")
                else
                  match body with
                  | None => raise (dependency_error "Plugin-key rotation received an invalid encryption-source attestation from a configured proxbox-api target.")
                  | Some payload =>
                      ok ← lift (attestation_ok payload);
                      if (ok : bool) then mret ()
                      else raise (dependency_error ("Plugin-key rotation requires proxbox-api's versioned attestation that its active cached key is "
                                    +:+ "independent and decrypts every stored backend credential. Upgrade and migrate the backend first."))
                  end
            end
        | _, _ => raise unauthenticated
        end
  end.

Definition _assert_backends_use_independent_encryption (old_key : string) : M W () :=
  endpoints ← query (rows_of FASTAPI_MODEL adopted_backend);
  for_each endpoints () (fun kr _ => attest_endpoint old_key (kr : Z * row).2).

(** [record_encryption_recovery_event] *)
Definition record_encryption_recovery_event (operation : string) (families : list string) (rows ciphertexts : Z) : M W () :=
  execute (fun d => mkDb (db_key d) (db_rows d) (db_log d ++ [mkEvent operation "succeeded" families rows ciphertexts])).

(** ** Rotation *)

Definition old_key_rejected (msg : string) : exn := recovery_error "OldEncryptionKeyRejected" msg.
Definition verification_failed (msg : string) : exn := recovery_error "CiphertextVerificationFailed" msg.

(** The first pass, over a row and over the rows of a family: how many
    ciphertexts there are, and which rows. *)
Definition verify_row (old_value : string) (stored_matches_old : bool) (f : EncryptedFieldFamily) (kr : Z * row) (acc : Z * gset (string * Z)) :
    M W (Z * gset (string * Z)) :=
  let cs := ciphertexts_of f kr.2 in
  if forallb (fun fc => decryptable old_value fc.2) cs then
    mret (acc.1 + Z.of_nat (length cs), {[ (fam_model f, kr.1) ]} ∪ acc.2)
  else if negb stored_matches_old then
    raise (old_key_rejected "The supplied current encryption key was not accepted by the stored setting or every encrypted value.")
  else
    raise (verification_failed ("Key rotation was aborted because at least one encrypted value in " +:+ fam_label f +:+ " row " +:+ pretty kr.1
                                +:+ " could not be verified. No encrypted values or settings were changed.")).

Definition verify_family (old_value : string) (stored_matches_old : bool) (f : EncryptedFieldFamily) (acc : Z * gset (string * Z)) :
    M W (Z * gset (string * Z)) :=
  rows ← query (rows_of (fam_model f) (_ciphertext_query f));
  for_each rows acc (verify_row old_value stored_matches_old f).

(** An encryption, with the time and random bytes it uses. *)
Definition encrypt_now (plaintext key : string) : M W string := fun w =>
  (encrypt plaintext key (ew_nonce w),
   mkEr (ew_db w) (ew_install w) (ew_guards w) (ew_permits w) (ew_skip w) (ew_faults w) (ew_ips w) (ew_replies w) (ew_sent w) (ew_nonce w + 1)
     (ew_next w)).

Definition rotation_rolled_back (f : EncryptedFieldFamily) (pk : Z) : exn :=
  verification_failed ("Key rotation was rolled back because a previously verified value in " +:+ fam_label f +:+ " row " +:+ pretty pk
                       +:+ " changed or could not be re-encrypted. No encrypted values or settings were changed.").

(** The ciphertexts of a row under the new key. *)
Definition replacements_of (old_value new_value : string) (f : EncryptedFieldFamily) (pk : Z) (r : row) : M W row :=
  for_each (ciphertexts_of f r) ∅ (fun fc (acc : row) =>
    try_except
      (plaintext ← lift (decrypt fc.2 old_value);
       c ← encrypt_now plaintext new_value;
       mret (<[fc.1 := CText c]> acc))
      (fun e => match e with EncryptionError _ _ => raise (rotation_rolled_back f pk) | _ => raise e end)).

Definition rotate_family (old_value new_value : string) (f : EncryptedFieldFamily) : M W () :=
  rows ← query (rows_of (fam_model f) (_ciphertext_query f));
  for_each rows () (fun kr _ =>
    replacements ← replacements_of old_value new_value f (kr : Z * row).1 kr.2;
    if bool_decide ((replacements : row) = ∅) then mret ()
    else _ ← _locked_encrypted_queryset_update (fam_model f) (fun pk _ => Z.eqb pk kr.1) replacements; mret ()).

Definition rotation_unavailable : exn :=
  configuration_error "Encryption-key rotation could not access every registered database table. No encrypted values or settings were changed.".

(** Inside the transaction. *)
Definition rotation (old_value new_value : string) : M W (Z * gset (string * Z)) :=
  _ ← get_solo;
  k ← locked_settings_key;
  let stored_matches_old := match keys_match old_value (strip k) with Ok b => b | Err _ => false end in
  families ← lock_encrypted_field_tables;
  '(count, row_keys) ← for_each families (0, ∅) (verify_family old_value stored_matches_old);
  if ((count =? 0) && negb stored_matches_old)%bool then raise (old_key_rejected "The supplied current encryption key was not accepted.")
  else
    _ ← _assert_backends_use_independent_encryption old_value;
    p ← gets ew_permits;
    _ ← with_permits (mkPermits (pm_encrypted p) (Some new_value) (pm_upsert p))
          (guarded_update SETTINGS_MODEL (fun _ _ => true) {[ "encryption_key" := CText new_value ]});
    _ ← for_each families () (fun f _ => rotate_family old_value new_value f);
    _ ← record_encryption_recovery_event "rotate" (List.map fam_key families) (Z.of_nat (size row_keys)) count;
    mret (count, row_keys).

Definition rotate_encryption_key (old_key new_key : string) : M W RotationResult :=
  let old_value := strip old_key in
  let new_value := strip new_key in
  match keys_match old_value new_value with
  | Err _ => raise (old_key_rejected "Both the current and replacement keys must be valid Fernet keys.")
  | Ok true => raise (old_key_rejected "The replacement encryption key must differ from the current key.")
  | Ok false =>
      if negb (is_canonical_fernet_key new_value) then raise (old_key_rejected NON_CANONICAL_KEY_MESSAGE)
      else
        '(count, row_keys) ← database_errors rotation_unavailable (atomic (rotation old_value new_value));
        mret (mkRotation (Z.of_nat (size (row_keys : gset (string * Z)))) count)
  end.

(** ** Reset *)

Definition reset_rejected (msg : string) : exn := recovery_error "DestructiveResetRejected" msg.

Definition family_named (key : string) : option EncryptedFieldFamily :=
  List.find (fun f => String.eqb (fam_key f) key) ENCRYPTED_FIELD_FAMILIES.

(** Whether a column of a model may be null. *)
Definition nullable (i : installation) (label field : string) : bool :=
  match dget label (in_models i) with Some fields => default false (dget field fields) | None => false end.

(** What a row whose columns [lost] cannot be decrypted is set to. *)
Definition cleared (i : installation) (f : EncryptedFieldFamily) (lost : list string) : row :=
  list_to_map (fam_reset f)
  ∪ list_to_map (List.map (fun x => (x, if nullable i (fam_model f) x then CNull else CText "")) (fam_trust f))
  ∪ list_to_map (List.map (fun x => (x, CText "")) lost).

Definition lost_columns (key : string) (f : EncryptedFieldFamily) (r : row) : list string :=
  List.map fst (List.filter (fun fc => negb (decryptable key fc.2)) (ciphertexts_of f r)).

Definition reset_family (configured_key : string) (f : EncryptedFieldFamily) (acc : gset (string * Z) * Z) : M W (gset (string * Z) * Z) :=
  rows ← query (rows_of (fam_model f) (_ciphertext_query f));
  for_each rows acc (fun kr acc =>
    let '(matched_rows, count) := acc in
    let lost := lost_columns configured_key f (kr : Z * row).2 in
    match lost with
    | [] => mret (matched_rows, count)
    | _ :: _ =>
        i ← gets ew_install;
        _ ← _locked_encrypted_queryset_update (fam_model f) (fun pk _ => Z.eqb pk kr.1) (cleared i f lost);
        mret ({[ (fam_model f, kr.1) ]} ∪ matched_rows, count + Z.of_nat (length lost))
    end).

Definition reset_unavailable : exn :=
  configuration_error "Encrypted-secret reset could not access every selected database table. No encrypted values or trust state were changed.".

(** [tuple(dict.fromkeys(...))] *)
Definition selection_of (family_keys : list string) : list string := dedup [] (List.filter nonempty family_keys).

Definition reset (selected : list string) : M W (list string * gset (string * Z)) :=
  k ← locked_settings_key;
  let configured_key := strip k in
  families ← lock_encrypted_field_tables;
  '(done, matched_rows, count) ← for_each selected ([], ∅, 0) (fun key acc =>
    let '(done, matched_rows, count) := acc in
    match List.find (fun f => String.eqb (fam_key f) key) (families : list EncryptedFieldFamily) with
    | None => mret (done, matched_rows, count)
    | Some f =>
        '(matched_rows, count) ← reset_family configured_key f (matched_rows, count);
        mret (done ++ [key], matched_rows, count)
    end);
  _ ← record_encryption_recovery_event "reset" done (Z.of_nat (size (matched_rows : gset (string * Z)))) count;
  mret (done, matched_rows).

Definition reset_encrypted_families (family_keys : list string) (confirmation : string) : M W ResetResult :=
  let selected := selection_of family_keys in
  if (bool_decide (selected = []) || existsb (fun k => match family_named k with None => true | Some _ => false end) selected)%bool then
    raise (reset_rejected "Select at least one recognized encrypted field family.")
  else if negb (String.eqb confirmation RESET_CONFIRMATION_PHRASE) then
    raise (reset_rejected ("Type the exact confirmation phrase: " +:+ RESET_CONFIRMATION_PHRASE))
  else
    _ ← get_solo;
    '(done, matched_rows) ← database_errors reset_unavailable (atomic (reset selected));
    mret (mkReset done (Z.of_nat (size (matched_rows : gset (string * Z))))).

End Recovery.

(** A loop with what is done so far. *)
Lemma wp_for_each_prefix {A S} (l : list A) (body : A -> S -> M W S) (Inv : list A -> S -> W -> Prop) (Exc : exn -> W -> Prop) :
  (forall before x after s w, l = before ++ x :: after -> Inv before s w ->
     wp (body x s) (fun r w' => match r with Ok s' => Inv (before ++ [x]) s' w' | Err e => Exc e w' end) w) ->
  forall s w, Inv [] s w -> wp (for_each l s body) (fun r w' => match r with Ok s' => Inv l s' w' | Err e => Exc e w' end) w.
Proof.
  intros Hb. assert (Hgen : forall rest before, l = before ++ rest -> forall s w, Inv before s w ->
    wp (for_each rest s body) (fun r w' => match r with Ok s' => Inv l s' w' | Err e => Exc e w' end) w); [|by apply (Hgen l [])].
  induction rest as [|x rest IH]; intros before Hl s w Hi; [apply wp_ret; by rewrite Hl, app_nil_r|]. apply wp_bind.
  eapply wp_mono; [by apply (Hb before x rest)|]. intros [s'|e] w1 H1; [|done]. apply (IH (before ++ [x])); [|done]. by rewrite <- app_assoc.
Qed.

(** ** What the pieces of a recovery change *)

(** The environment, the key and the log stay; the rows become [f rows]. *)
Definition rows_become (f : gmap (string * Z) row -> gmap (string * Z) row) (w w' : W) : Prop :=
  same_env w w' /\ db_key (ew_db w') = db_key (ew_db w) /\ db_log (ew_db w') = db_log (ew_db w) /\
  db_rows (ew_db w') = f (db_rows (ew_db w)).

Lemma rows_become_unchanged (f : gmap (string * Z) row -> gmap (string * Z) row) (w w1 w2 : W) :
  unchanged w w1 -> rows_become f w1 w2 -> rows_become f w w2.
Proof. intros [He Hd] (He2 & Hk & Hl & Hr). split; [by etrans|]. by rewrite Hk, Hl, Hr, Hd. Qed.

Lemma update_effect (label : string) (flt : Z -> row -> bool) (ups : row) (w : W) :
  wp (original_update label flt ups) (fun r w' => same_env w w' /\ forall n, r = Ok n -> rows_become (updated label flt ups) w w') w.
Proof.
  unfold original_update. apply wp_bind. eapply wp_mono; [apply inspects_query|]. intros [rows|e] w1 [[He Hd] _]; [|by split].
  apply wp_bind, wp_modify, wp_ret. split; [exact He|]. intros n _. split; [exact He|]. cbn [set_rows set_db ew_db db_key db_log db_rows]. by rewrite Hd.
Qed.

Lemma lookup_updated (label : string) (pk0 : Z) (ups : row) (m : gmap (string * Z) row) (k : string * Z) :
  updated label (fun pk _ => Z.eqb pk pk0) ups m !! k = if bool_decide (k = (label, pk0)) then (fun r => ups ∪ r) <$> m !! k else m !! k.
Proof.
  unfold updated. rewrite map_lookup_imap. destruct k as [l pk]. simpl. destruct (String.eqb_spec l label) as [->|Hl]; simpl.
  - destruct (Z.eqb_spec pk pk0) as [->|Hp]; [by rewrite bool_decide_eq_true_2 by done; destruct (m !! _)|].
    rewrite bool_decide_eq_false_2 by congruence. by destruct (m !! _).
  - rewrite bool_decide_eq_false_2 by congruence. by destruct (m !! _).
Qed.

Section Effects.
Context {FL : FernetLib}.

(** The private update, when it returns, has written its columns. *)
Lemma locked_update_effect (label : string) (flt : Z -> row -> bool) (ups : row) (w : W) :
  label <> SETTINGS_MODEL ->
  wp (_locked_encrypted_queryset_update label flt ups)
    (fun r w' => same_env w w' /\ forall n, r = Ok n -> rows_become (updated label flt ups) w w') w.
Proof.
  intros Hl. unfold _locked_encrypted_queryset_update. apply wp_bind, wp_gets. case_bool_decide as Hn; [by apply wp_raise|].
  destruct (existsb _ _); [by apply wp_raise|]. set (m := locked_settings_key ≫= _).
  enough (Hm : wp m (fun r w' => same_env w w' /\ forall n, r = Ok n -> rows_become (updated label flt ups) w w') w).
  { unfold wp, atomic in *. by destruct (m w) as [[a|e] w1]; [|destruct Hm as [He _]]. }
  unfold m. apply wp_bind. eapply wp_mono; [apply locked_key_looks|]. intros [k|e] w1 [Hu _]; [|split; [by destruct Hu|done]].
  destruct (forallb _ _); [|apply wp_raise; split; [by destruct Hu|done]]. apply wp_bind, wp_gets.
  set (p := mkPermits _ _ _).
  assert (Hbody : wp (guarded_update label flt ups)
    (fun r w' => same_env (set_permits p w1) w' /\ forall n, r = Ok n -> rows_become (updated label flt ups) (set_permits p w1) w') (set_permits p w1)).
  { unfold guarded_update. apply wp_bind, wp_gets. destruct (String.eqb_spec label SETTINGS_MODEL); [done|]. apply wp_bind, wp_gets.
    change (guard_of label (set_permits p w1)) with (guard_of label w1). rewrite (same_env_guard w w1) by apply Hu.
    rewrite (bool_decide_eq_false_2 _ Hn). cbn [negb]. rewrite bool_decide_eq_true_2 by done. apply update_effect. }
  unfold with_permits. apply wp_bind, wp_gets, wp_bind, wp_modify, wp_finally. eapply wp_mono; [exact Hbody|].
  intros r w2 [(H1 & H2 & H3 & H4) Hr]. apply wp_modify.
  assert (He : same_env w (set_permits (ew_permits w1) w2)) by (etrans; [apply Hu|by repeat split]).
  destruct r as [n|e]; (split; [exact He|]); [|by intros n [=]]. intros n' _. destruct (Hr n eq_refl) as (_ & Hk & Hlog & Hrows).
  destruct Hu as [_ Hd]. split; [exact He|]. cbn [set_permits ew_db] in *. by rewrite Hk, Hlog, Hrows, Hd.
Qed.

Lemma get_solo_effect (w : W) :
  wp get_solo (fun _ w' => same_env w w' /\ db_rows (ew_db w') = db_rows (ew_db w) /\ db_log (ew_db w') = db_log (ew_db w) /\
    key_of (ew_db w') = key_of (ew_db w)) w.
Proof.
  unfold get_solo. apply wp_bind. eapply wp_mono; [apply inspects_query|].
  intros [[k|]|e] w1 [[He Hd] Hq]; [apply wp_ret; by rewrite Hd| |by rewrite Hd].
  apply wp_bind. unfold settings_save. cbn [negb orb andb]. apply wp_bind, wp_lift. cbn [_require_canonical_new_key strip lstrip rstrip is_empty orb].
  unfold write_settings. apply wp_bind. eapply wp_mono; [apply inspects_query|]. intros [k|e] w2 [[He2 Hd2] _].
  - destruct k; [apply wp_raise|apply wp_modify, wp_ret]; cbn [set_key set_db ew_db db_rows db_log]; rewrite Hd2, Hd; (split; [by etrans|]); [done|].
    split; [done|]. split; [done|]. unfold key_of. cbn [db_key]. by rewrite <- (Hq _ eq_refl).
  - rewrite Hd2, Hd. split; [by etrans|done].
Qed.
End Effects.

(** ** One row under two keys *)

Section Secrets.
Context {FL : FernetLib} {Laws : FernetLaws}.
Variables old_value new_value : string.

(** A column holds the same secret under the old and the new key. *)
Definition same_secret (v v' : option column) : Prop :=
  (text_of v = "" /\ v' = v) \/ exists p, decrypt (text_of v) old_value = Ok p /\ decrypt (text_of v') new_value = Ok p.

Lemma elem_of_ciphertexts (f : EncryptedFieldFamily) (r : row) (x c : string) :
  (x, c) ∈ ciphertexts_of f r <-> x ∈ fam_encrypted f /\ c = text_of (r !! x) /\ c <> "".
Proof.
  unfold ciphertexts_of. rewrite list_elem_of_In, filter_In, in_map_iff. setoid_rewrite <- list_elem_of_In. simpl. split.
  - intros [(y & [= <- <-] & Hy) Hn]. split; [done|]. split; [done|]. intros He. by rewrite He in Hn.
  - intros (Hx & -> & Hn). split; [by exists x|]. by destruct (text_of (r !! x)).
Qed.

(** What the replacements of a row are. *)
Definition replaced (f : EncryptedFieldFamily) (r : row) (before : list (string * string)) (reps : row) : Prop :=
  (forall x v, reps !! x = Some v -> x ∈ fam_encrypted f /\ same_secret (r !! x) (Some v) /\ text_of (r !! x) <> "" /\ exists c, v = CText c) /\
  (forall x c, (x, c) ∈ before -> is_Some (reps !! x)).

Lemma encrypt_now_looks (p key : string) : looks (encrypt_now p key) (fun _ c => decrypt c key = Ok p).
Proof.
  intros w. unfold wp, encrypt_now. simpl. split; [done|]. intros c Hc. by apply encrypt_decrypts in Hc as [Hd _].
Qed.

(** One ciphertext under the new key. *)
Definition replace_step (f : EncryptedFieldFamily) (pk : Z) (fc : string * string) (acc : row) : M W row :=
  try_except (plaintext ← lift (decrypt fc.2 old_value); c ← encrypt_now plaintext new_value; mret (<[fc.1 := CText c]> acc))
    (fun e => match e with EncryptionError _ _ => raise (rotation_rolled_back f pk) | _ => raise e end).

Lemma replace_step_looks (f : EncryptedFieldFamily) (pk : Z) (r : row) (before : list (string * string)) (fc : string * string) (acc : row) :
  fc ∈ ciphertexts_of f r -> looks (replace_step f pk fc acc) (fun _ acc' => replaced f r before acc -> replaced f r (before ++ [fc]) acc').
Proof.
  destruct fc as [x c]. intros (Hx & -> & Hn)%elem_of_ciphertexts. apply looks_try; [|intros []; apply looks_raise]. cbn [fst snd].
  eapply (looks_bind _ _ (fun _ p => decrypt (text_of (r !! x)) old_value = Ok p)); [by apply looks_lift| |by intros ? ? ? _|by intros ? ? ? _].
  intros p. eapply looks_bind; [apply encrypt_now_looks| |by intros ? ? ? _|by intros ? ? ? _]. intros c'. apply looks_ret. intros w Hc' Hc [Ha Hb]. split.
  - intros y v [[<- <-]|[_ Hv]]%lookup_insert_Some; [|by apply Ha]. split; [done|]. split; [right; by exists p|]. split; [done|by exists c'].
  - intros y d [Hy|[= -> _]%list_elem_of_singleton]%elem_of_app; [|by rewrite lookup_insert_eq].
    destruct (decide (x = y)) as [->|Hne]; [by rewrite lookup_insert_eq|]. rewrite lookup_insert_ne by done. by eapply Hb.
Qed.

Lemma replacements_looks (f : EncryptedFieldFamily) (pk : Z) (r : row) :
  looks (replacements_of old_value new_value f pk r) (fun _ reps => replaced f r (ciphertexts_of f r) reps).
Proof.
  unfold replacements_of. fold (replace_step f pk).
  assert (Hsub : forall l, (forall fc, fc ∈ l -> fc ∈ ciphertexts_of f r) -> forall before acc,
    looks (for_each l acc (replace_step f pk)) (fun _ reps => replaced f r before acc -> replaced f r (before ++ l) reps)).
  { intros l. induction l as [|fc l IH]; intros Hl before acc; simpl; [apply looks_ret; intros w H; by rewrite app_nil_r|].
    eapply looks_bind; [apply (replace_step_looks f pk r before); apply Hl; left| |by intros ? ? ? _|by intros ? ? ? _].
    intros acc'. eapply looks_mono; [apply (IH ltac:(intros; apply Hl; by right) (before ++ [fc]) acc')|].
    intros w reps H H1 H2. rewrite <- app_assoc in H. by apply H, H1. }
  eapply looks_mono; [apply (Hsub _ ltac:(done) [] ∅)|]. intros w reps H. apply H.
  split; [by intros x v; rewrite lookup_empty|by intros x c []%not_elem_of_nil].
Qed.

(** ** All rows under two keys *)

Definition column_of (f : EncryptedFieldFamily) (label x : string) : bool := (String.eqb (fam_model f) label && mem_str x (fam_encrypted f))%bool.

(** In the columns [P] the secrets are the same, all other columns are equal. *)
Definition related (P : string -> string -> bool) (m m' : gmap (string * Z) row) : Prop :=
  forall k, match m !! k, m' !! k with
            | None, None => True
            | Some r, Some r' => forall x, if P k.1 x then same_secret (r !! x) (r' !! x) else r' !! x = r !! x
            | _, _ => False
            end.

(** Within a family: the rows [before] are done, the others may still be as
    they were. *)
Definition family_inv (f : EncryptedFieldFamily) (m : gmap (string * Z) row) (before : list Z) (m' : gmap (string * Z) row) : Prop :=
  forall k, match m !! k, m' !! k with
            | None, None => True
            | Some r, Some r' =>
                forall x, if column_of f k.1 x then (r' !! x = r !! x \/ same_secret (r !! x) (r' !! x)) /\ (k.2 ∈ before -> same_secret (r !! x) (r' !! x))
                          else r' !! x = r !! x
            | _, _ => False
            end.

Lemma family_inv_start (f : EncryptedFieldFamily) (m : gmap (string * Z) row) : family_inv f m [] m.
Proof.
  intros k. destruct (m !! k); [|done]. intros x. destruct (column_of f k.1 x); [|done]. split; [by left|]. by intros []%not_elem_of_nil.
Qed.

Lemma family_inv_step (f : EncryptedFieldFamily) (m m' m2 : gmap (string * Z) row) (before : list Z) (pk : Z) (r reps : row) :
  family_inv f m before m' -> m !! (fam_model f, pk) = Some r -> replaced f r (ciphertexts_of f r) reps ->
  (forall k, m2 !! k = if bool_decide (k = (fam_model f, pk)) then (fun r => reps ∪ r) <$> m' !! k else m' !! k) ->
  family_inv f m (before ++ [pk]) m2.
Proof.
  intros Hi Hm [Hr1 Hr2] H2 k. specialize (Hi k). rewrite H2. case_bool_decide as Hk.
  - subst k. rewrite Hm in *. destruct (m' !! (fam_model f, pk)) as [r'|]; [|done]. simpl. intros x. specialize (Hi x). simpl in Hi.
    assert (Hu : (reps ∪ r') !! x = reps !! x ∪ r' !! x) by apply lookup_union.
    destruct (column_of f (fam_model f) x) eqn:Ec.
    + enough (Hs : same_secret (r !! x) ((reps ∪ r') !! x)) by (split; [by right|done]). rewrite Hu.
      destruct (reps !! x) as [v|] eqn:Ev; [rewrite union_Some_l; by apply (Hr1 x v)|]. rewrite (left_id_L None _).
      destruct (decide (text_of (r !! x) = "")) as [Ht|Ht].
      * destruct Hi as [[->|Hs] _]; [by left|done].
      * exfalso. assert (Hin : (x, text_of (r !! x)) ∈ ciphertexts_of f r).
        { apply elem_of_ciphertexts. split; [|done]. unfold column_of in Ec. apply andb_prop in Ec as [_ Ec]. by apply mem_str_spec. }
        destruct (Hr2 _ _ Hin). congruence.
    + rewrite Hu. destruct (reps !! x) as [v|] eqn:Ev; [|by rewrite (left_id_L None _)]. destruct (Hr1 x v Ev) as [Hx _].
      unfold column_of in Ec. apply mem_str_spec in Hx. by rewrite String.eqb_refl, Hx in Ec.
  - destruct (m !! k) as [r0|], (m' !! k) as [r0'|]; try done. intros x. specialize (Hi x). destruct (column_of f k.1 x) eqn:Ec; [|done].
    destruct Hi as [Ha Hb]. split; [done|]. intros [Hin|Hin%list_elem_of_singleton]%elem_of_app; [by apply Hb|]. exfalso. apply Hk.
    unfold column_of in Ec. apply andb_prop in Ec as [Ec _]. apply String.eqb_eq in Ec. destruct k. simpl in *. by subst.
Qed.

(** The rows a family has no ciphertext in are blank. *)
Lemma family_inv_end (f : EncryptedFieldFamily) (m m' : gmap (string * Z) row) (d : er_db) :
  m = db_rows d -> family_inv f m (rows_of (fam_model f) (_ciphertext_query f) d).*1 m' -> related (column_of f) m m'.
Proof.
  intros -> Hi k. specialize (Hi k). destruct (db_rows d !! k) as [r|] eqn:Er, (m' !! k) as [r'|]; try done. intros x. specialize (Hi x).
  destruct (column_of f k.1 x) eqn:Ec; [|done]. destruct Hi as [Ha Hb]. unfold column_of in Ec.
  apply andb_prop in Ec as [El%String.eqb_eq Ex%mem_str_spec]. destruct k as [l pk]. simpl in *. subst l.
  destruct (_ciphertext_query f r) eqn:Eq.
  - apply Hb. apply list_elem_of_fmap. exists (pk, r). split; [done|]. by apply elem_of_rows.
  - assert (Hx : r !! x = Some (CText "")) by by eapply query_misses.
    destruct Ha as [->|Hs]; [left; by rewrite Hx|done].
Qed.

Lemma related_compose (P Q : string -> string -> bool) (m m1 m2 : gmap (string * Z) row) :
  (forall l x, P l x = true -> Q l x = true -> False) -> related P m m1 -> related Q m1 m2 -> related (fun l x => P l x || Q l x)%bool m m2.
Proof.
  intros Hd H1 H2 k. specialize (H1 k). specialize (H2 k). destruct (m !! k), (m1 !! k), (m2 !! k); try done. intros x. specialize (H1 x). specialize (H2 x).
  destruct (P k.1 x) eqn:Ep; simpl.
  - destruct (Q k.1 x) eqn:Eq; [by destruct (Hd k.1 x)|]. by rewrite H2.
  - destruct (Q k.1 x); [by rewrite <- H1|]. congruence.
Qed.

Lemma rotate_family_effect (f : EncryptedFieldFamily) (w : W) :
  fam_model f <> SETTINGS_MODEL ->
  wp (rotate_family old_value new_value f)
    (fun r w' => same_env w w' /\ forall u, r = Ok u ->
       db_key (ew_db w') = db_key (ew_db w) /\ db_log (ew_db w') = db_log (ew_db w) /\ related (column_of f) (db_rows (ew_db w)) (db_rows (ew_db w'))) w.
Proof.
  intros Hs. unfold rotate_family. apply wp_bind. eapply wp_mono; [apply inspects_query|].
  intros [rows|e] w1 [[He Hd] Hq]; [|by split]. specialize (Hq rows eq_refl).
  set (Inv := fun (before : list (Z * row)) (_ : ()) w' => same_env w w' /\ db_key (ew_db w') = db_key (ew_db w) /\ db_log (ew_db w') = db_log (ew_db w) /\
    family_inv f (db_rows (ew_db w)) before.*1 (db_rows (ew_db w'))).
  eapply wp_mono; [apply (wp_for_each_prefix rows _ Inv (fun _ w' => same_env w w'))|].
  - intros before [pk r] after [] w2 Hl (He2 & Hk2 & Hl2 & Hi2). assert (Hin : (pk, r) ∈ rows) by (rewrite Hl; set_solver). rewrite Hq in Hin. apply elem_of_rows in Hin as [Hm _].
    apply wp_bind. eapply wp_mono; [apply replacements_looks|]. intros [reps|e] w3 [[He3 Hd3] Hr]; [|by etrans].
    specialize (Hr reps eq_refl). case_bool_decide as Hz.
    + apply wp_ret. split; [by etrans|]. rewrite Hd3. split; [done|]. split; [done|]. rewrite fmap_app. eapply family_inv_step; [done..|].
      intros k. case_bool_decide; [|done]. rewrite Hz. destruct (db_rows (ew_db w2) !! k); simpl; [|done]. by rewrite (left_id_L ∅ _).
    + apply wp_bind. eapply wp_mono; [by apply locked_update_effect|]. intros [n|e] w4 [He4 Hr4]; [apply wp_ret|by do 2 etrans].
      destruct (Hr4 n eq_refl) as (_ & Hk4 & Hl4 & Hrows4). split; [by do 2 (etrans; [eassumption|])|]. rewrite Hk4, Hl4, Hrows4, Hd3.
      split; [done|]. split; [done|]. rewrite fmap_app. eapply family_inv_step; [done..|]. intros k. apply lookup_updated.
  - split; [exact He|]. rewrite Hd. split; [done|]. split; [done|]. apply family_inv_start.
  - intros [u|e] w2; [|by intros He2]. intros (He2 & Hk2 & Hl2 & Hi2). split; [exact He2|]. intros _ _. split; [done|]. split; [done|].
    eapply (family_inv_end f _ _ (ew_db w)); [done|]. by rewrite Hq in Hi2.
Qed.

(** ** The families *)

Definition done_in (fs : list EncryptedFieldFamily) (label x : string) : bool := existsb (fun f => column_of f label x) fs.

Definition columns (fs : list EncryptedFieldFamily) : list (string * string) := flat_map (fun f => List.map (fun x => (fam_model f, x)) (fam_encrypted f)) fs.

Lemma column_of_spec (f : EncryptedFieldFamily) (label x : string) : column_of f label x = true <-> fam_model f = label /\ x ∈ fam_encrypted f.
Proof. unfold column_of. rewrite andb_true_iff, String.eqb_eq. by rewrite mem_str_spec. Qed.

Lemma done_in_spec (fs : list EncryptedFieldFamily) (label x : string) :
  done_in fs label x = true <-> exists f, f ∈ fs /\ fam_model f = label /\ x ∈ fam_encrypted f.
Proof.
  unfold done_in. rewrite existsb_exists. setoid_rewrite column_of_spec. setoid_rewrite <- list_elem_of_In. naive_solver.
Qed.

Lemma elem_of_columns (fs : list EncryptedFieldFamily) (label x : string) :
  (label, x) ∈ columns fs <-> exists f, f ∈ fs /\ fam_model f = label /\ x ∈ fam_encrypted f.
Proof.
  unfold columns. rewrite list_elem_of_In, in_flat_map. setoid_rewrite in_map_iff. setoid_rewrite <- list_elem_of_In. naive_solver.
Qed.

(** No column belongs to two families. *)
Lemma columns_disjoint (before after : list EncryptedFieldFamily) (f : EncryptedFieldFamily) (label x : string) :
  NoDup (columns (before ++ f :: after)) -> done_in before label x = true -> column_of f label x = true -> False.
Proof.
  unfold columns. rewrite flat_map_app. intros (_ & Hd & _)%NoDup_app Hb%done_in_spec Hf%column_of_spec.
  apply (Hd (label, x)); [by apply elem_of_columns|]. simpl. apply elem_of_app. left. destruct Hf as [<- Hx].
  apply list_elem_of_In, in_map_iff. exists x. split; [done|by apply list_elem_of_In].
Qed.

Lemma resolve_sublist (i : installation) (l fs : list EncryptedFieldFamily) : resolve_families i l = Ok fs -> fs `sublist_of` l.
Proof.
  revert fs. induction l as [|f l IH]; intros fs; simpl; [by intros [= <-]|]. destruct (_model_for i f) as [[m|]|]; simpl; [| |done];
    (destruct (resolve_families i l) as [rest|]; simpl; [|done]); intros [= <-]; [by apply sublist_skip, IH|by apply sublist_cons, IH].
Qed.

Lemma columns_sublist (fs l : list EncryptedFieldFamily) : fs `sublist_of` l -> columns fs `sublist_of` columns l.
Proof. induction 1; simpl; [done|by apply sublist_app|]. by apply sublist_inserts_l. Qed.

Lemma registry_columns (w : W) (fs : list EncryptedFieldFamily) : families_of w = Ok fs -> NoDup (columns fs) /\ Forall (fun f => fam_model f <> SETTINGS_MODEL) fs.
Proof.
  intros Hf%resolve_sublist. split.
  - eapply sublist_NoDup; [|by apply columns_sublist]. apply NoDup_ListNoDup. vm_compute.
    repeat (constructor; [intros Hin; repeat (destruct Hin as [Hin|Hin]; [discriminate Hin|]); exact Hin|]). constructor.
  - apply Forall_forall. intros f Hin. eapply elem_of_sublist in Hin; [|done].
    assert (Hall : Forall (fun f => fam_model f <> SETTINGS_MODEL) ENCRYPTED_FIELD_FAMILIES) by (repeat constructor; discriminate).
    rewrite Forall_forall in Hall. by apply Hall.
Qed.

(** One more family. *)
Lemma related_extend (before after : list EncryptedFieldFamily) (f : EncryptedFieldFamily) (m m1 m2 : gmap (string * Z) row) :
  NoDup (columns (before ++ f :: after)) -> related (done_in before) m m1 -> related (column_of f) m1 m2 -> related (done_in (before ++ [f])) m m2.
Proof.
  intros Hn Hr Hr2. assert (Hq : related (fun l x => done_in before l x || column_of f l x)%bool m m2).
  { eapply related_compose; [|exact Hr|exact Hr2]. intros l x Hb Hc. by eapply columns_disjoint. }
  intros k. specialize (Hq k). destruct (m !! k), (m2 !! k); try done. intros x. specialize (Hq x).
  unfold done_in in *. rewrite existsb_app. simpl. by rewrite orb_false_r.
Qed.

Lemma rotate_families_effect (fs : list EncryptedFieldFamily) (w : W) :
  NoDup (columns fs) -> Forall (fun f => fam_model f <> SETTINGS_MODEL) fs ->
  wp (for_each fs () (fun f _ => rotate_family old_value new_value f))
    (fun r w' => same_env w w' /\ forall u, r = Ok u ->
       db_key (ew_db w') = db_key (ew_db w) /\ db_log (ew_db w') = db_log (ew_db w) /\ related (done_in fs) (db_rows (ew_db w)) (db_rows (ew_db w'))) w.
Proof.
  intros Hn Hs.
  set (Inv := fun (before : list EncryptedFieldFamily) (_ : ()) w' => same_env w w' /\ db_key (ew_db w') = db_key (ew_db w) /\
    db_log (ew_db w') = db_log (ew_db w) /\ related (done_in before) (db_rows (ew_db w)) (db_rows (ew_db w'))).
  eapply wp_mono; [apply (wp_for_each_prefix fs _ Inv (fun _ w' => same_env w w'))|].
  - intros before f after [] w1 Hl (He & Hk & Hlog & Hr). eapply wp_mono; [apply rotate_family_effect|].
    + rewrite Forall_forall in Hs. apply Hs. rewrite Hl. set_solver.
    + intros [u|e] w2 [He2 H2]; [|by etrans]. destruct (H2 u eq_refl) as (Hk2 & Hl2 & Hr2). split; [by etrans|]. rewrite Hk2, Hl2.
      split; [done|]. split; [done|]. rewrite Hl in Hn. by eapply related_extend.
  - split; [done|]. split; [done|]. split; [done|]. intros k. by destruct (db_rows (ew_db w) !! k).
  - intros [u|e] w1; [|by intros He]. intros (He & Hrest). split; [done|]. by intros _ _.
Qed.
End Secrets.

(** ** A rotation *)

Section Rotation.
Context {FL : FernetLib} {Laws : FernetLaws}.
Variable sha256 : string -> string.

(** The ciphertexts of a family in the database. *)
Definition family_total (d : er_db) (f : EncryptedFieldFamily) : Z :=
  foldr (fun (kr : Z * row) n => Z.of_nat (length (ciphertexts_of f kr.2)) + n) 0 (rows_of (fam_model f) (_ciphertext_query f) d).

Definition total (d : er_db) (fs : list EncryptedFieldFamily) : Z := foldr (fun f n => family_total d f + n) 0 fs.

Lemma total_rows (d d' : er_db) (fs : list EncryptedFieldFamily) : db_rows d = db_rows d' -> total d fs = total d' fs.
Proof. intros Hr. unfold total, family_total, rows_of. by rewrite Hr. Qed.

Lemma verify_rows_looks (old : string) (matches : bool) (f : EncryptedFieldFamily) (rows : list (Z * row)) (acc : Z * gset (string * Z)) :
  looks (for_each rows acc (verify_row old matches f))
    (fun _ acc' => acc'.1 = acc.1 + foldr (fun (kr : Z * row) n => Z.of_nat (length (ciphertexts_of f kr.2)) + n) 0 rows).
Proof.
  revert acc. induction rows as [|kr rows IH]; intros acc; simpl; [apply looks_ret; intros w; lia|].
  eapply (looks_bind _ _ (fun _ acc' => acc'.1 = acc.1 + Z.of_nat (length (ciphertexts_of f kr.2)))); [| |by intros ? ? ? _|by intros ? ? ? _].
  - unfold verify_row. destruct (forallb _ _); [by apply looks_ret|]. destruct matches; apply looks_raise.
  - intros acc'. eapply looks_mono; [apply IH|]. simpl. intros w a Ha Hc. lia.
Qed.

Lemma verify_looks (old : string) (matches : bool) (fs : list EncryptedFieldFamily) (acc : Z * gset (string * Z)) :
  looks (for_each fs acc (verify_family old matches)) (fun w acc' => acc'.1 = acc.1 + total (ew_db w) fs).
Proof.
  revert acc. unfold total in *. induction fs as [|f fs IH]; intros acc; simpl; [apply looks_ret; intros w; lia|].
  eapply (looks_bind _ _ (fun w acc' => acc'.1 = acc.1 + family_total (ew_db w) f)).
  - unfold verify_family. eapply looks_bind;
      [by apply (looks_query _ (fun w rows => rows = rows_of (fam_model f) (_ciphertext_query f) (ew_db w)))| | |].
    + intros rows. eapply looks_mono; [apply verify_rows_looks|]. intros w acc' Ha ->. done.
    + intros w w' rows [_ Hd]. by rewrite Hd.
    + intros w w' acc' [_ Hd]. by rewrite Hd.
  - intros acc'. eapply looks_mono; [apply IH|]. intros w a Ha Hc. cbv beta in *. lia.
  - intros w w' acc' [_ Hd]. by rewrite Hd.
  - intros w w' acc' [_ Hd]. by rewrite Hd.
Qed.

Lemma attest_looks (url token : string) (verify : bool) : looks (attest url token verify) (fun _ _ => True).
Proof. intros w. unfold wp, attest. by destruct (ew_replies w). Qed.

Lemma attest_endpoint_looks (old : string) (r : row) : looks (attest_endpoint sha256 old r) (fun _ _ => True).
Proof.
  unfold attest_endpoint. eapply (looks_bind _ _ (fun _ _ => True)); [| |done|done].
  - destruct (int_of _); [|by apply looks_ret]. eapply (looks_bind _ _ (fun _ _ => True)); [by apply looks_statement| |done|done].
    intros _. by apply looks_gets.
  - intros ip. destruct (backend_key_target_fingerprint _ _) as [fp|[]]; try (by apply looks_ret || apply looks_raise).
    eapply (looks_bind _ _ (fun _ _ => True)); [destruct (Nat.eqb _ _); [by apply looks_lift|by apply looks_ret]| |done|done]. intros same.
    destruct (negb same); [by apply looks_ret|]. destruct (backend_key_target _) as [[base verify]|]; [|apply looks_raise].
    destruct (decrypt _ _) as [token|]; [|apply looks_raise]. eapply looks_bind; [apply attest_looks| |done|done].
    intros [|status body]; [apply looks_raise|]. destruct (negb _); [apply looks_raise|]. destruct body as [b|]; [|apply looks_raise].
    eapply (looks_bind _ _ (fun _ _ => True)); [by apply looks_lift| |done|done]. intros []; [by apply looks_ret|apply looks_raise].
Qed.

Lemma attestation_looks (old : string) : looks (_assert_backends_use_independent_encryption sha256 old) (fun _ _ => True).
Proof.
  unfold _assert_backends_use_independent_encryption. eapply (looks_bind _ _ (fun _ _ => True)); [by apply looks_query| |done|done]. intros rows.
  induction rows as [|kr rows IH]; simpl; [by apply looks_ret|]. eapply looks_bind; [apply attest_endpoint_looks| |done|done]. intros [].
  eapply looks_mono; [exact IH|done].
Qed.

(** The new key in the settings. *)
Lemma set_key_effect (new : string) (w : W) :
  wp (with_permits (mkPermits (pm_encrypted (ew_permits w)) (Some new) (pm_upsert (ew_permits w)))
        (guarded_update SETTINGS_MODEL (fun _ _ => true) {[ "encryption_key" := CText new ]}))
    (fun r w' => same_env w w' /\ forall n, r = Ok n -> db_rows (ew_db w') = db_rows (ew_db w) /\ db_log (ew_db w') = db_log (ew_db w) /\
       (is_Some (db_key (ew_db w)) -> db_key (ew_db w') = Some new)) w.
Proof.
  unfold with_permits. apply wp_bind, wp_gets, wp_bind, wp_modify, wp_finally. unfold guarded_update. apply wp_bind, wp_gets.
  rewrite String.eqb_refl, lookup_singleton_eq. cbn [text_of set_permits ew_permits pm_key].
  rewrite bool_decide_eq_true_2 by done. apply wp_bind, wp_bind. eapply wp_mono; [apply inspects_statement|].
  intros [[]|e] w1 [[(H1 & H2 & H3 & H4) Hd] _]; [apply wp_modify, wp_ret|]; apply wp_modify; (split; [by repeat split|]); [|by intros n [=]].
  intros n _. cbn [set_permits set_db ew_db db_rows db_log db_key] in *. rewrite Hd. split; [done|]. split; [done|]. by intros [k ->].
Qed.

(** What a rotation has done when it returns. *)
Definition rotated (old new : string) (w w' : W) (count : Z) : Prop :=
  exists fs n, families_of w = Ok fs /\ db_key (ew_db w') = Some new /\ related old new (done_in fs) (db_rows (ew_db w)) (db_rows (ew_db w')) /\
    count = total (ew_db w) fs /\ db_log (ew_db w') = db_log (ew_db w) ++ [mkEvent "rotate" "succeeded" (List.map fam_key fs) n count].

Lemma rotation_effect (old new : string) (w : W) :
  wp (rotation sha256 old new) (fun r w' => same_env w w' /\ forall a, r = Ok a -> rotated old new w w' a.1) w.
Proof.
  unfold rotation. apply wp_bind. eapply wp_mono; [apply get_solo_effect|]. intros [s|e] w1 (He1 & Hr1 & Hl1 & _); [|by split].
  apply wp_bind. eapply wp_mono; [apply locked_key_looks|]. intros [k|e] w2 [[He2 Hd2] Hk]; [|by split; [etrans|]]. specialize (Hk k eq_refl).
  apply wp_bind. eapply wp_mono; [apply looks_lock|]. intros [fs|e] w3 [[He3 Hd3] Hf]; [|by split; [do 2 (etrans; [eassumption|])|]].
  specialize (Hf fs eq_refl). assert (He : same_env w w3) by (etrans; [exact He1|]; by etrans).
  assert (Hfw : families_of w = Ok fs). { unfold families_of in *. destruct He2 as [Hi2 _], He1 as [Hi1 _]. by rewrite <- Hi1, <- Hi2. }
  apply wp_bind. eapply wp_mono; [apply verify_looks|]. intros [[count keys]|e] w4 [[He4 Hd4] Hc]; [|by split; [etrans|]].
  specialize (Hc _ eq_refl). cbn [fst] in Hc. destruct (_ && _)%bool; [apply wp_raise; by split; [etrans|]|].
  apply wp_bind. eapply wp_mono; [apply attestation_looks|]. intros [u|e] w5 [[He5 Hd5] _]; [|by split; [do 2 (etrans; [eassumption|])|]].
  assert (Hall : same_env w w5) by (etrans; [exact He|]; by etrans).
  apply wp_bind, wp_gets, wp_bind. eapply wp_mono; [apply set_key_effect|]. intros [n|e] w6 [He6 H6]; [|by split; [etrans|]]. destruct (H6 n eq_refl) as (Hr6 & Hl6 & Hk6).
  destruct (registry_columns w fs Hfw) as [Hn Hs].
  apply wp_bind. eapply wp_mono; [by apply rotate_families_effect|]. intros [v|e] w7 [He7 H7]; [|by split; [do 2 (etrans; [eassumption|])|]].
  destruct (H7 v eq_refl) as (Hk7 & Hl7 & Hr7). apply wp_bind, wp_bind. eapply wp_mono; [apply inspects_statement|].
  intros [[]|e] w8 [[He8 Hd8] _]; [apply wp_modify, wp_ret|]; (split; [by do 3 (etrans; [eassumption|])|]); [|by intros a [=]].
  intros a [= <-]. exists fs, (Z.of_nat (size keys)). cbn [fst set_db ew_db db_key db_rows db_log]. rewrite Hd8.
  split; [done|]. rewrite Hd5, Hd4, Hd3, Hd2 in *. split; [rewrite Hk7; apply Hk6; by exists k|]. rewrite Hr6, Hr1 in Hr7. split; [exact Hr7|].
  split; [rewrite Hc, (total_rows (ew_db w1) (ew_db w)) by done; lia|]. by rewrite Hl7, Hl6, Hl1.
Qed.

Lemma database_errors_effect {A} (e' : exn) (m : M W A) (Q : result A -> W -> Prop) (w : W) :
  (forall e w', Q (Err e) w' -> Q (Err e') w') -> wp m Q w -> wp (database_errors e' m) Q w.
Proof. intros He Hm. apply wp_try. eapply wp_mono; [exact Hm|]. intros [a|e] w1 H1; [done|]. destruct e; apply wp_raise; eauto. Qed.

Lemma rotate_effect (old_key new_key : string) (w : W) :
  wp (rotate_encryption_key sha256 old_key new_key) (fun r w' => match r with
    | Err _ => ew_db w' = ew_db w
    | Ok result => keys_match (strip old_key) (strip new_key) = Ok false /\ is_canonical_fernet_key (strip new_key) = true /\
        rotated (strip old_key) (strip new_key) w w' (rr_ciphertexts result) end) w.
Proof.
  unfold rotate_encryption_key. destruct (keys_match _ _) as [[]|]; [by apply wp_raise| |by apply wp_raise].
  destruct (is_canonical_fernet_key _); cbn [negb]; [|by apply wp_raise]. apply wp_bind.
  apply (wp_mono _ (fun r w' => match r with Err _ => ew_db w' = ew_db w | Ok a => rotated (strip old_key) (strip new_key) w w' a.1 end)).
  - apply database_errors_effect; [done|]. pose proof (rotation_effect (strip old_key) (strip new_key) w) as He. unfold wp, atomic in *.
    destruct (rotation sha256 _ _ w) as [[a|e] w1]; [|done]. cbn [fst snd] in *. by apply He.
  - intros [[count keys]|e] w1 Hr; [|done]. by apply wp_ret.
Qed.

(** C7: The rotation of the key, wherever a statement of the database, a backend or
    a ciphertext fails: either it raises and the settings, every row and the
    changelog are as they were; or it returns, the stored key is the new one (a
    canonical key and another one than the old), every ciphertext of every
    registered column decrypts with the new key to what it decrypted to with
    the old one, all other columns of all rows are unchanged, the number of
    ciphertexts it reports is the number there were and one event is logged. *)
Theorem rotation_keeps_secrets (old_key new_key : string) (w : W) :
  match rotate_encryption_key sha256 old_key new_key w with
  | (Err _, w') => ew_db w' = ew_db w
  | (Ok result, w') =>
      keys_match (strip old_key) (strip new_key) = Ok false /\ is_canonical_fernet_key (strip new_key) = true /\
      rotated (strip old_key) (strip new_key) w w' (rr_ciphertexts result)
  end.
Proof.
  pose proof (rotate_effect old_key new_key w) as H. unfold wp in H. by destruct (rotate_encryption_key sha256 old_key new_key w) as [[a|e] w'].
Qed.
End Rotation.

(** ** A reset *)

Section Reset.
Context {FL : FernetLib}.

(** What a reset of family [f] makes of a row, and of all rows. *)
Definition reset_row (i : installation) (key : string) (f : EncryptedFieldFamily) (r : row) : row :=
  match lost_columns key f r with [] => r | lost => cleared i f lost ∪ r end.

Definition reset_rows (i : installation) (key : string) (f : EncryptedFieldFamily) (m : gmap (string * Z) row) : gmap (string * Z) row :=
  map_imap (fun k r => Some (if String.eqb k.1 (fam_model f) then reset_row i key f r else r)) m.

Lemma lookup_reset (i : installation) (key : string) (f : EncryptedFieldFamily) (m : gmap (string * Z) row) (k : string * Z) :
  reset_rows i key f m !! k = (fun r => if String.eqb k.1 (fam_model f) then reset_row i key f r else r) <$> m !! k.
Proof. unfold reset_rows. rewrite map_lookup_imap. by destruct (m !! k). Qed.

(** The rows [before] of the family are done. *)
Definition reset_inv (i : installation) (key : string) (f : EncryptedFieldFamily) (m : gmap (string * Z) row) (before : list Z) (m' : gmap (string * Z) row) : Prop :=
  forall k, m' !! k = (fun r => if (String.eqb k.1 (fam_model f) && bool_decide (k.2 ∈ before))%bool then reset_row i key f r else r) <$> m !! k.

Lemma reset_inv_step (i : installation) (key : string) (f : EncryptedFieldFamily) (m m' m2 : gmap (string * Z) row) (before : list Z) (pk : Z) (r ups : row) :
  reset_inv i key f m before m' -> m !! (fam_model f, pk) = Some r -> reset_row i key f r = ups ∪ r ->
  (forall k, m2 !! k = if bool_decide (k = (fam_model f, pk)) then (fun r => ups ∪ r) <$> m' !! k else m' !! k) ->
  reset_inv i key f m (before ++ [pk]) m2.
Proof.
  intros Hi Hm Hr H2 k. rewrite H2, (Hi k). case_bool_decide as Hk.
  - subst k. rewrite Hm. simpl. rewrite String.eqb_refl, (bool_decide_eq_true_2 (pk ∈ before ++ [pk])) by set_solver. simpl. f_equal.
    case_bool_decide; simpl; rewrite Hr; [|done]. by rewrite (assoc_L (∪)), (idemp_L (∪)).
  - destruct (m !! k) as [r0|]; [|done]. simpl. f_equal. destruct (String.eqb_spec k.1 (fam_model f)) as [El|]; [|done]. simpl.
    assert (Hne : k.2 <> pk) by (intros He; apply Hk; destruct k; simpl in *; congruence).
    by rewrite (bool_decide_ext (k.2 ∈ before ++ [pk]) (k.2 ∈ before)) by set_solver.
Qed.

Lemma lost_blank (key : string) (f : EncryptedFieldFamily) (r : row) : _ciphertext_query f r = false -> lost_columns key f r = [].
Proof.
  intros Hq. unfold lost_columns. destruct (List.filter _ _) as [|[x c] l] eqn:El; [done|]. exfalso.
  assert (Hin : In (x, c) (List.filter (fun fc => negb (decryptable key fc.2)) (ciphertexts_of f r))) by (rewrite El; by left).
  apply filter_In in Hin as [Hin%list_elem_of_In _]. apply elem_of_ciphertexts in Hin as (Hx & -> & Hn). apply Hn. by rewrite (query_misses f r x).
Qed.

Lemma reset_inv_end (i : installation) (key : string) (f : EncryptedFieldFamily) (m' : gmap (string * Z) row) (d : er_db) :
  reset_inv i key f (db_rows d) (rows_of (fam_model f) (_ciphertext_query f) d).*1 m' -> m' = reset_rows i key f (db_rows d).
Proof.
  intros Hi. apply map_eq. intros k. rewrite (Hi k), lookup_reset. destruct (db_rows d !! k) as [r|] eqn:Er; [|done]. simpl. f_equal.
  destruct (String.eqb_spec k.1 (fam_model f)) as [El|]; [|done]. simpl. case_bool_decide as Hb; [done|]. unfold reset_row.
  destruct (_ciphertext_query f r) eqn:Eq; [|by rewrite (lost_blank key f r)]. exfalso. apply Hb. apply list_elem_of_fmap. exists (k.2, r).
  split; [done|]. apply elem_of_rows. split; [|done]. rewrite <- El. by destruct k.
Qed.

Lemma reset_family_effect (key : string) (f : EncryptedFieldFamily) (acc : gset (string * Z) * Z) (w : W) :
  fam_model f <> SETTINGS_MODEL ->
  wp (reset_family key f acc)
    (fun r w' => same_env w w' /\ forall a, r = Ok a -> rows_become (reset_rows (ew_install w) key f) w w') w.
Proof.
  intros Hs. unfold reset_family. apply wp_bind. eapply wp_mono; [apply inspects_query|].
  intros [rows|e] w1 [[He Hd] Hq]; [|by split]. specialize (Hq rows eq_refl).
  set (Inv := fun (before : list (Z * row)) (_ : gset (string * Z) * Z) w' => same_env w w' /\ db_key (ew_db w') = db_key (ew_db w) /\
    db_log (ew_db w') = db_log (ew_db w) /\ reset_inv (ew_install w) key f (db_rows (ew_db w)) before.*1 (db_rows (ew_db w'))).
  eapply wp_mono; [apply (wp_for_each_prefix rows _ Inv (fun _ w' => same_env w w'))|].
  - intros before [pk r] after [matched n] w2 Hl (He2 & Hk2 & Hl2 & Hi2). assert (Hin : (pk, r) ∈ rows) by (rewrite Hl; set_solver).
    rewrite Hq in Hin. apply elem_of_rows in Hin as [Hm _]. cbn [fst snd]. destruct (lost_columns key f r) as [|x lost] eqn:El.
    + apply wp_ret. split; [done|]. split; [done|]. split; [done|]. rewrite fmap_app. eapply (reset_inv_step _ _ _ _ _ _ _ _ r ∅); [done|done| |].
      * unfold reset_row. rewrite El. by rewrite (left_id_L ∅ _).
      * intros k. case_bool_decide; [|done]. destruct (db_rows (ew_db w2) !! k); simpl; [|done]. by rewrite (left_id_L ∅ _).
    + apply wp_bind, wp_gets, wp_bind. eapply wp_mono; [by apply locked_update_effect|]. intros [c|e] w3 [He3 H3]; [apply wp_ret|by etrans].
      destruct (H3 c eq_refl) as (_ & Hk3 & Hl3 & Hr3). split; [by etrans|]. rewrite Hk3, Hl3, Hr3. split; [done|]. split; [done|]. rewrite fmap_app.
      assert (Hi : ew_install w2 = ew_install w) by apply He2. rewrite Hi.
      eapply reset_inv_step; [done|done| |intros k; apply lookup_updated]. unfold reset_row. by rewrite El.
  - split; [done|]. rewrite Hd. split; [done|]. split; [done|]. intros k. destruct (db_rows (ew_db w) !! k); [|done]. simpl.
    by destruct (String.eqb _ _).
  - intros [a|e] w2; [|by intros He2]. intros (He2 & Hk2 & Hl2 & Hi2). split; [exact He2|]. intros _ _. split; [done|]. split; [done|]. split; [done|].
    rewrite Hq in Hi2. by apply reset_inv_end in Hi2.
Qed.

(** The families that are reset: those selected whose owner is installed. *)
Definition picked (fs : list EncryptedFieldFamily) (selected : list string) : list EncryptedFieldFamily :=
  omap (fun key => List.find (fun f => String.eqb (fam_key f) key) fs) selected.

Definition all_reset (i : installation) (key : string) (fs : list EncryptedFieldFamily) (m : gmap (string * Z) row) : gmap (string * Z) row :=
  foldl (fun m f => reset_rows i key f m) m fs.

(** One selected key. *)
Definition reset_selected (key : string) (fs : list EncryptedFieldFamily) (name : string) (acc : list string * gset (string * Z) * Z) :
    M W (list string * gset (string * Z) * Z) :=
  let '(done, matched_rows, count) := acc in
  match List.find (fun f => String.eqb (fam_key f) name) fs with
  | None => mret (done, matched_rows, count)
  | Some f => '(matched_rows, count) ← reset_family key f (matched_rows, count); mret (done ++ [name], matched_rows, count)
  end.

Lemma find_in (fs : list EncryptedFieldFamily) (name : string) (f : EncryptedFieldFamily) :
  List.find (fun f => String.eqb (fam_key f) name) fs = Some f -> f ∈ fs /\ fam_key f = name.
Proof. intros [Hin He%String.eqb_eq]%find_some. split; [by apply list_elem_of_In|done]. Qed.

Lemma picked_app (fs : list EncryptedFieldFamily) (l1 l2 : list string) : picked fs (l1 ++ l2) = picked fs l1 ++ picked fs l2.
Proof. unfold picked. apply omap_app. Qed.

Lemma reset_loop_effect (key : string) (fs : list EncryptedFieldFamily) (selected : list string) (w : W) :
  Forall (fun f => fam_model f <> SETTINGS_MODEL) fs ->
  wp (for_each selected ([], ∅, 0) (reset_selected key fs))
    (fun r w' => same_env w w' /\ forall a, r = Ok a ->
       a.1.1 = List.map fam_key (picked fs selected) /\ rows_become (all_reset (ew_install w) key (picked fs selected)) w w') w.
Proof.
  intros Hs.
  set (Inv := fun (before : list string) (a : list string * gset (string * Z) * Z) w' =>
    same_env w w' /\ a.1.1 = List.map fam_key (picked fs before) /\ rows_become (all_reset (ew_install w) key (picked fs before)) w w').
  eapply wp_mono; [apply (wp_for_each_prefix selected _ Inv (fun _ w' => same_env w w'))|].
  - intros before name after [[done matched] n] w1 Hl (He & Ha & Hb). cbn [fst] in Ha. unfold reset_selected, Inv. rewrite picked_app.
    change (picked fs [name]) with (match List.find (fun f => String.eqb (fam_key f) name) fs with Some f => [f] | None => [] end).
    destruct (List.find _ fs) as [f|] eqn:Ef; [|apply wp_ret; by rewrite app_nil_r].
    destruct (find_in fs name f Ef) as [Hin Hname]. rewrite Forall_forall in Hs.
    apply wp_bind. eapply wp_mono; [apply reset_family_effect; by apply Hs|]. intros [[matched' n']|e] w2 [He2 H2]; [apply wp_ret|by etrans].
    destruct (H2 _ eq_refl) as (_ & Hk2 & Hl2 & Hr2). destruct Hb as (_ & Hk & Hlog & Hr). split; [by etrans|]. cbn [fst].
    split; [rewrite map_app, Ha; simpl; by rewrite Hname|]. split; [by etrans|]. rewrite Hk2, Hl2, Hr2, Hr. split; [done|]. split; [done|].
    unfold all_reset. rewrite foldl_app. simpl. by destruct He as [-> _].
  - by repeat split.
  - intros [a|e] w1; [|by intros He]. intros (He & Hrest). split; [done|]. by intros a' [= <-].
Qed.

(** ** What is left of a column *)

Definition lost (key : string) (v : option column) : bool := negb (ok_text key (text_of v)).

(** Whether a recovery of [g] leaves the ciphertext of [f] alone. *)
Definition separate (f g : EncryptedFieldFamily) : bool :=
  (negb (String.eqb (fam_model f) (fam_model g))
   || forallb (fun x => negb (mem_str x (fam_trust g ++ List.map fst (fam_reset g)))
                        && (String.eqb (fam_key f) (fam_key g) || negb (mem_str x (fam_encrypted g)))) (fam_encrypted f))%bool.

Lemma registry_separate (f g : EncryptedFieldFamily) : f ∈ ENCRYPTED_FIELD_FAMILIES -> g ∈ ENCRYPTED_FIELD_FAMILIES -> separate f g = true.
Proof.
  assert (Hall : forallb (fun f => forallb (separate f) ENCRYPTED_FIELD_FAMILIES) ENCRYPTED_FIELD_FAMILIES = true) by (vm_compute; reflexivity).
  rewrite forallb_forall in Hall. intros Hf%list_elem_of_In Hg%list_elem_of_In. specialize (Hall f Hf). rewrite forallb_forall in Hall. by apply Hall.
Qed.

Lemma registry_named (f : EncryptedFieldFamily) : f ∈ ENCRYPTED_FIELD_FAMILIES -> family_named (fam_key f) = Some f.
Proof. intros Hf%list_elem_of_In. repeat (destruct Hf as [<-|Hf]; [reflexivity|]). destruct Hf. Qed.

Lemma registry_keys (f g : EncryptedFieldFamily) : f ∈ ENCRYPTED_FIELD_FAMILIES -> g ∈ ENCRYPTED_FIELD_FAMILIES -> fam_key f = fam_key g -> f = g.
Proof. intros Hf%registry_named Hg%registry_named He. rewrite He, Hg in Hf. by injection Hf. Qed.

(** Columns that a recovery of [f] names only as ciphertext. *)
Lemma cleared_column (i : installation) (f : EncryptedFieldFamily) (gone : list string) (x : string) :
  mem_str x (fam_trust f ++ List.map fst (fam_reset f)) = false -> cleared i f gone !! x = if mem_str x gone then Some (CText "") else None.
Proof.
  intros Hx%mem_str_false. rewrite elem_of_app in Hx. unfold cleared.
  assert (H1 : (list_to_map (fam_reset f) : row) !! x = None).
  { apply not_elem_of_list_to_map_1. intros Hin. apply Hx. right. exact Hin. }
  assert (H2 : (list_to_map (List.map (fun x => (x, if nullable i (fam_model f) x then CNull else CText "")) (fam_trust f)) : row) !! x = None).
  { apply not_elem_of_list_to_map_1. intros Hin. apply Hx. left. apply list_elem_of_fmap in Hin as ([y v] & -> & Hin).
    apply list_elem_of_In, in_map_iff in Hin as (z & [= <- _] & Hz). by apply list_elem_of_In. }
  rewrite !lookup_union, H1, H2, !(left_id_L None _). clear. induction gone as [|y gone IH]; [done|]. unfold mem_str in *. simpl.
  destruct (String.eqb_spec x y) as [->|Hn]; [by rewrite lookup_insert_eq|]. rewrite lookup_insert_ne by done. exact IH.
Qed.

Lemma mem_lost (key : string) (f : EncryptedFieldFamily) (r : row) (x : string) :
  mem_str x (lost_columns key f r) = (mem_str x (fam_encrypted f) && lost key (r !! x))%bool.
Proof.
  apply eq_true_iff_eq. rewrite andb_true_iff, !mem_str_spec. unfold lost_columns, lost, ok_text. rewrite list_elem_of_In, in_map_iff.
  setoid_rewrite filter_In. setoid_rewrite <- list_elem_of_In. split.
  - intros ([y c] & <- & (Hy & -> & Hn)%elem_of_ciphertexts & Hd). simpl in *. split; [done|]. by destruct (text_of (r !! y)).
  - intros [Hx Hl]. exists (x, text_of (r !! x)). split; [done|]. rewrite negb_orb, andb_true_iff in Hl. destruct Hl as [He Hd]. split; [|done].
    apply elem_of_ciphertexts. split; [done|]. split; [done|]. intros Ht. by rewrite Ht in He.
Qed.

(** The reset of [g] at a column of ciphertext of [f]. *)
Lemma reset_row_column (i : installation) (key : string) (f g : EncryptedFieldFamily) (r : row) (x : string) :
  f ∈ ENCRYPTED_FIELD_FAMILIES -> g ∈ ENCRYPTED_FIELD_FAMILIES -> fam_model f = fam_model g -> x ∈ fam_encrypted f ->
  reset_row i key g r !! x = if (String.eqb (fam_key f) (fam_key g) && lost key (r !! x))%bool then Some (CText "") else r !! x.
Proof.
  intros Hf Hg Hm Hx. pose proof (registry_separate f g Hf Hg) as Hs. unfold separate in Hs. rewrite Hm, String.eqb_refl in Hs. simpl in Hs.
  rewrite forallb_forall in Hs. specialize (Hs x ltac:(by apply list_elem_of_In)). apply andb_prop in Hs as [Ht%negb_true_iff Hk].
  assert (Hmem : mem_str x (lost_columns key g r) = (String.eqb (fam_key f) (fam_key g) && lost key (r !! x))%bool).
  { rewrite mem_lost. f_equal. destruct (String.eqb_spec (fam_key f) (fam_key g)) as [He|Hn].
    - rewrite <- (registry_keys f g) by done. by apply mem_str_spec.
    - simpl in Hk. by apply negb_true_iff. }
  rewrite <- Hmem. unfold reset_row. destruct (lost_columns key g r) as [|y l] eqn:El; [done|].
  rewrite lookup_union, (cleared_column i g (y :: l) x Ht). destruct (mem_str x (y :: l)); [apply union_Some_l|by rewrite (left_id_L None _)].
Qed.

(** A cell after all resets. *)
Lemma all_reset_column (i : installation) (key : string) (fs : list EncryptedFieldFamily) (m : gmap (string * Z) row) (f : EncryptedFieldFamily)
    (pk : Z) (r : row) (x : string) :
  Forall (fun g => g ∈ ENCRYPTED_FIELD_FAMILIES) fs -> f ∈ ENCRYPTED_FIELD_FAMILIES -> x ∈ fam_encrypted f -> m !! (fam_model f, pk) = Some r ->
  exists r', all_reset i key fs m !! (fam_model f, pk) = Some r' /\
    r' !! x = if (mem_str (fam_key f) (List.map fam_key fs) && lost key (r !! x))%bool then Some (CText "") else r !! x.
Proof.
  intros Hfs Hf Hx. revert m r. induction Hfs as [|g fs Hg Hfs IH]; intros m r Hm; [by exists r|]. unfold all_reset. simpl. fold (all_reset i key fs (reset_rows i key g m)).
  set (r1 := if String.eqb (fam_model f) (fam_model g) then reset_row i key g r else r).
  destruct (IH (reset_rows i key g m) r1) as (r' & Hr' & Hc); [by rewrite lookup_reset, Hm|]. exists r'. split; [done|]. rewrite Hc.
  assert (Hr1 : r1 !! x = if (String.eqb (fam_key f) (fam_key g) && lost key (r !! x))%bool then Some (CText "") else r !! x).
  { unfold r1. destruct (String.eqb_spec (fam_model f) (fam_model g)) as [Hm2|Hn]; [by apply reset_row_column|].
    destruct (String.eqb_spec (fam_key f) (fam_key g)) as [Hk|]; [|done]. by destruct Hn; rewrite (registry_keys f g). }
  rewrite Hr1. unfold mem_str. cbn [List.map existsb]. fold (mem_str (fam_key f) (List.map fam_key fs)).
  destruct (String.eqb (fam_key f) (fam_key g)), (lost key (r !! x)) eqn:El, (mem_str (fam_key f) (List.map fam_key fs)); simpl; try done; by rewrite El.
Qed.

Lemma picked_names (fs : list EncryptedFieldFamily) (selected : list string) (f : EncryptedFieldFamily) :
  fs `sublist_of` ENCRYPTED_FIELD_FAMILIES -> f ∈ fs -> mem_str (fam_key f) (List.map fam_key (picked fs selected)) = mem_str (fam_key f) selected.
Proof.
  intros Hsub Hf. apply eq_true_iff_eq. rewrite !mem_str_spec. rewrite list_elem_of_In, in_map_iff. setoid_rewrite <- list_elem_of_In. unfold picked.
  setoid_rewrite list_elem_of_omap. split.
  - intros (g & Hk & name & Hin & Hg). apply find_in in Hg as [_ Hname]. by rewrite <- Hk, Hname.
  - intros Hin. destruct (List.find (fun g => String.eqb (fam_key g) (fam_key f)) fs) as [g|] eqn:Eg.
    + exists g. apply find_in in Eg as He. destruct He as [_ He]. split; [done|]. by exists (fam_key f).
    + exfalso. eapply find_none in Eg; [|by apply list_elem_of_In]. by rewrite String.eqb_refl in Eg.
Qed.

Lemma reset_effect (selected : list string) (w : W) :
  wp (reset selected) (fun r w' => same_env w w' /\ forall a, r = Ok a -> exists fs n count,
    families_of w = Ok fs /\ a.1 = List.map fam_key (picked fs selected) /\ db_key (ew_db w') = db_key (ew_db w) /\
    db_rows (ew_db w') = all_reset (ew_install w) (key_of (ew_db w)) (picked fs selected) (db_rows (ew_db w)) /\
    db_log (ew_db w') = db_log (ew_db w) ++ [mkEvent "reset" "succeeded" a.1 n count]) w.
Proof.
  unfold reset. apply wp_bind. eapply wp_mono; [apply locked_key_looks|]. intros [k|e] w1 [[He1 Hd1] Hk]; [|by split]. specialize (Hk k eq_refl).
  apply wp_bind. eapply wp_mono; [apply looks_lock|]. intros [fs|e] w2 [[He2 Hd2] Hf]; [|by split; [etrans|]]. specialize (Hf fs eq_refl).
  assert (Hfw : families_of w = Ok fs). { unfold families_of in *. destruct He1 as [Hi1 _]. by rewrite <- Hi1. }
  apply wp_bind. fold (reset_selected (strip k) fs). destruct (registry_columns w fs Hfw) as [_ Hs].
  eapply wp_mono; [by apply reset_loop_effect|]. intros [[[names matched] count]|e] w3 [He3 H3]; [|by split; [do 2 (etrans; [eassumption|])|]].
  destruct (H3 _ eq_refl) as [Hn (_ & Hk3 & Hl3 & Hr3)]. cbn [fst] in Hn. assert (He : same_env w w3) by (do 2 (etrans; [eassumption|]); done).
  apply wp_bind, wp_bind. eapply wp_mono; [apply inspects_statement|]. intros [[]|e] w4 [[He4 Hd4] _]; [apply wp_modify, wp_ret|]; (split; [by etrans|]); [|by intros a [=]].
  intros a [= <-]. exists fs, (Z.of_nat (size matched)), count. cbn [fst set_db ew_db db_key db_rows db_log]. rewrite Hd4, Hk3, Hl3, Hr3, Hd2, Hd1.
  assert (Hi : ew_install w2 = ew_install w) by (destruct He1 as [<- _], He2 as [<- _]; done). rewrite Hi.
  unfold key_of. rewrite Hk. by rewrite Hn.
Qed.

(** C19: The destructive reset needs the exact phrase.  Whatever fails, rows, key
    and changelog stay.  When it returns, the rows are those that resetting
    each selected, installed family gives, in order; in every registered
    column of ciphertext that means: a value is blanked exactly if its family
    was selected and it does not decrypt with the stored key, and otherwise
    kept, whatever else was reset in its row. *)
Theorem reset_clears_only_lost (family_keys : list string) (confirmation : string) (w : W) :
  match reset_encrypted_families family_keys confirmation w with
  | (Err _, w') => db_rows (ew_db w') = db_rows (ew_db w) /\ key_of (ew_db w') = key_of (ew_db w) /\ db_log (ew_db w') = db_log (ew_db w)
  | (Ok result, w') =>
      confirmation = RESET_CONFIRMATION_PHRASE /\ key_of (ew_db w') = key_of (ew_db w) /\
      exists fs, families_of w = Ok fs /\ rs_families result = List.map fam_key (picked fs (selection_of family_keys)) /\
        db_rows (ew_db w') = all_reset (ew_install w) (key_of (ew_db w)) (picked fs (selection_of family_keys)) (db_rows (ew_db w)) /\
        forall f pk r x, f ∈ fs -> x ∈ fam_encrypted f -> db_rows (ew_db w) !! (fam_model f, pk) = Some r ->
          exists r', db_rows (ew_db w') !! (fam_model f, pk) = Some r' /\
            r' !! x = if (mem_str (fam_key f) (selection_of family_keys) && lost (key_of (ew_db w)) (r !! x))%bool then Some (CText "") else r !! x
  end.
Proof.
  unfold reset_encrypted_families. destruct (_ || _)%bool; [by repeat split|].
  destruct (String.eqb_spec confirmation RESET_CONFIRMATION_PHRASE) as [Hc|]; cbn [negb]; [|by repeat split].
  pose proof (get_solo_effect w) as Hg. unfold mbind, M_bind, wp in *. destruct (get_solo w) as [[s|e] w1]; cbn [fst snd] in *; [|by destruct Hg as (_ & ? & ? & ?)].
  destruct Hg as (He & Hr & Hl & Hk). pose proof (reset_effect (selection_of family_keys) w1) as Hm. unfold wp in Hm.
  unfold database_errors, try_except, atomic. destruct (reset (selection_of family_keys) w1) as [[[names matched]|e] w2]; cbn [fst snd] in *.
  - destruct Hm as [_ Hm]. destruct (Hm _ eq_refl) as (fs & n & count & Hf & Hn & Hk2 & Hr2 & Hl2). cbn [fst] in *.
    assert (Hi : ew_install w1 = ew_install w) by apply He. assert (Hfw : families_of w = Ok fs) by (unfold families_of in *; by rewrite Hi in Hf).
    split; [done|]. split; [unfold key_of in *; by rewrite Hk2|]. exists fs. split; [done|]. split; [done|]. rewrite Hi, Hk, Hr in Hr2. split; [done|].
    intros f pk r x Hin Hx Hm2. pose proof (resolve_sublist _ _ _ Hfw) as Hsub. rewrite <- (picked_names fs (selection_of family_keys) f) by done.
    rewrite Hr2. apply all_reset_column; [|by eapply elem_of_sublist|done|done].
    apply Forall_forall. intros g (name & _ & Hg)%list_elem_of_omap. apply find_in in Hg as [Hg _]. by eapply elem_of_sublist.
  - destruct e; simpl; by rewrite Hr, Hk, Hl.
Qed.
End Reset.

(** ** The life of the encrypted columns *)

Section Life.
Context {FL : FernetLib} {Laws : FernetLaws}.
Variable sha256 : string -> string.

Lemma log_sound (operation : string) (families : list string) (rows ciphertexts : Z) : sound (record_encryption_recovery_event operation families rows ciphertexts).
Proof.
  intros w (_ & _ & _ & _ & Ha). apply wp_bind. eapply wp_mono; [by apply statement_keeps|]. intros [[]|e] w1 [He Ha1]; [|done].
  apply wp_modify. split; [exact He|exact Ha1].
Qed.

Lemma get_solo_sound : sound get_solo.
Proof.
  apply sound_bind; [by apply (sound_looks _ (fun _ _ => True)), looks_query|]. intros [k|]; [by apply (sound_looks _ (fun _ _ => True)), looks_ret|].
  apply sound_bind; [apply settings_save_sound|]. intros _. by apply (sound_looks _ (fun _ _ => True)), looks_ret.
Qed.

Lemma sound_database_errors {A} (e' : exn) (m : M W A) : sound m -> sound (database_errors e' m).
Proof. intros Hm. apply sound_try; [done|]. intros []; apply (sound_looks _ (fun _ _ => True)), looks_raise. Qed.

Lemma reset_family_sound (key : string) (f : EncryptedFieldFamily) (acc : gset (string * Z) * Z) : sound (reset_family key f acc).
Proof.
  apply sound_bind; [by apply (sound_looks _ (fun _ _ => True)), looks_query|]. intros rows. apply sound_for_each. intros kr [matched n].
  destruct (lost_columns key f kr.2); [by apply (sound_looks _ (fun _ _ => True)), looks_ret|].
  apply sound_bind; [by apply (sound_looks _ (fun _ _ => True)), looks_gets|]. intros i. apply sound_bind; [apply locked_update_sound|].
  intros c. by apply (sound_looks _ (fun _ _ => True)), looks_ret.
Qed.

Lemma reset_sound (family_keys : list string) (confirmation : string) : sound (reset_encrypted_families family_keys confirmation).
Proof.
  unfold reset_encrypted_families. destruct (_ || _)%bool; [apply (sound_looks _ (fun _ _ => True)), looks_raise|].
  destruct (negb _); [apply (sound_looks _ (fun _ _ => True)), looks_raise|]. apply sound_bind; [apply get_solo_sound|]. intros _.
  apply sound_bind; [|intros []; by apply (sound_looks _ (fun _ _ => True)), looks_ret]. apply sound_database_errors, sound_atomic.
  apply sound_bind; [eapply sound_looks, locked_key_looks|]. intros k. apply sound_bind; [eapply sound_looks, looks_lock|]. intros fs.
  apply sound_bind.
  - apply sound_for_each. intros name [[names matched] n]. destruct (List.find _ _) as [f|]; [|by apply (sound_looks _ (fun _ _ => True)), looks_ret].
    apply sound_bind; [apply reset_family_sound|]. intros []. by apply (sound_looks _ (fun _ _ => True)), looks_ret.
  - intros [[names matched] n]. apply sound_bind; [apply log_sound|]. intros _. by apply (sound_looks _ (fun _ _ => True)), looks_ret.
Qed.

(** A rotation that returns has moved everything to the new key. *)
Lemma rotated_readable (old new : string) (w w' : W) (count : Z) :
  installed w -> same_env w w' -> rotated old new w w' count -> strip new = new -> all_readable w'.
Proof.
  intros Hi He (fs & n & Hf & Hk & Hr & _ & _) Hs label pk r' Hl x Hx. rewrite (same_env_guard w w') in Hx by done.
  specialize (Hr (label, pk)). rewrite Hl in Hr. destruct (db_rows (ew_db w) !! (label, pk)) as [r|]; [|done]. specialize (Hr x). cbn [fst] in Hr.
  assert (Hd : done_in fs label x = true) by (apply done_in_spec; by apply (guard_encrypted w fs)). rewrite Hd in Hr.
  unfold key_of. rewrite Hk. simpl. rewrite Hs. unfold ok_text, decryptable. destruct Hr as [[Ht ->]|(p & _ & ->)]; [by rewrite Ht|]. apply orb_true_r.
Qed.

Lemma rotate_same_env (old_key new_key : string) (w : W) : same_env w (snd (rotate_encryption_key sha256 old_key new_key w)).
Proof.
  change (wp (rotate_encryption_key sha256 old_key new_key) (fun _ w' => same_env w w') w). unfold rotate_encryption_key.
  destruct (keys_match _ _) as [[]|]; [by apply wp_raise| |by apply wp_raise]. destruct (negb _); [by apply wp_raise|]. apply wp_bind.
  eapply wp_mono; [apply (database_errors_effect _ _ (fun _ w' => same_env w w')); [done|]|by intros [[]|] w1].
  pose proof (rotation_effect sha256 (strip old_key) (strip new_key) w) as H. unfold wp, atomic in *. by destruct (rotation sha256 _ _ w) as [[a|e] w1]; destruct H.
Qed.

Lemma rotate_sound (old_key new_key : string) : sound (rotate_encryption_key sha256 old_key new_key).
Proof.
  intros w Hw. pose proof (rotate_same_env old_key new_key w) as He. pose proof (rotate_effect sha256 old_key new_key w) as Hr. unfold wp in *.
  split; [exact He|]. destruct (rotate_encryption_key sha256 old_key new_key w) as [[result|e] w']; cbn [fst snd] in *.
  - destruct Hr as (_ & _ & Hr). eapply rotated_readable; [apply Hw|done|exact Hr|apply strip_strip].
  - destruct Hw as (_ & _ & _ & _ & Ha). by eapply readable_frame.
Qed.

(** What may happen: every guarded way to write, the save of the settings, a
    rotation, a reset, a deletion, and an environment that changes. *)
Inductive er_step (w : W) : W -> Prop :=
| StepSave i update_fields : er_step w (snd (guarded_save i update_fields w))
| StepUpdate label flt ups : er_step w (snd (guarded_update label flt ups w))
| StepBulkUpdate label objs fields : er_step w (snd (guarded_bulk_update label objs fields w))
| StepBulkCreate label objs conflicts fields : er_step w (snd (guarded_bulk_create label objs conflicts fields w))
| StepConflictCreate label objs conflicts fields : er_step w (snd (_locked_recovery_conflict_bulk_create label objs conflicts fields w))
| StepLockedUpdate label flt ups : er_step w (snd (_locked_encrypted_queryset_update label flt ups w))
| StepSettings saved key update_fields : er_step w (snd (settings_save saved key update_fields w))
| StepRotate old_key new_key : er_step w (snd (rotate_encryption_key sha256 old_key new_key w))
| StepReset family_keys confirmation : er_step w (snd (reset_encrypted_families family_keys confirmation w))
| StepDelete k : er_step w (set_rows (delete k (db_rows (ew_db w))) w)
| StepEnvironment faults ips replies :
    er_step w (mkEr (ew_db w) (ew_install w) (ew_guards w) (ew_permits w) (ew_skip w) faults ips replies (ew_sent w) (ew_nonce w) (ew_next w)).

(** A new installation after its guards were installed. *)
Definition fresh (w : W) : Prop := installed w /\ ew_skip w = false /\ ew_permits w = no_permits /\ db_rows (ew_db w) = ∅.

Inductive reachable : W -> Prop :=
| ReachFresh w : fresh w -> reachable w
| ReachStep w w' : reachable w -> er_step w w' -> reachable w'.

Lemma sound_step {A} (m : M W A) (w : W) : sound m -> safe w -> safe (snd (m w)).
Proof. intros Hm Hw. destruct (Hm w Hw) as [He Ha]. by eapply safe_frame. Qed.

Lemma reachable_safe (w : W) : reachable w -> safe w.
Proof.
  induction 1 as [w (Hi & Hs & Hp & Hr)|w w' _ IH Hstep].
  - split; [done|]. rewrite Hs, Hp. repeat split. intros label pk r. by rewrite Hr, lookup_empty.
  - destruct Hstep; try (apply sound_step; [|exact IH]).
    + apply guarded_save_sound.
    + apply guarded_update_sound.
    + apply bulk_update_sound.
    + apply bulk_create_sound.
    + apply conflict_create_sound.
    + apply locked_update_sound.
    + apply settings_save_sound.
    + apply rotate_sound.
    + apply reset_sound.
    + destruct IH as (Hi & Hs & Hp & Hk & Ha). repeat split; try done. intros label pk r Hl. cbn [set_rows set_db ew_db db_rows] in Hl.
      apply lookup_delete_Some in Hl as [_ Hl]. by apply (Ha label pk).
    + exact IH.
Qed.

(** C8: Once the guards are installed, no sequence of saves, queryset updates, bulk
    writes, saves of the settings, rotations and resets, with statements of the
    database failing anywhere in them, leaves a registered column with a
    ciphertext that the stored key does not decrypt. *)
Theorem stored_key_reads_everything (w : W) (label : string) (pk : Z) (r : row) (x : string) :
  reachable w -> db_rows (ew_db w) !! (label, pk) = Some r -> x ∈ g_encrypted (guard_of label w) ->
  text_of (r !! x) = "" \/ exists plain, decrypt (text_of (r !! x)) (key_of (ew_db w)) = Ok plain.
Proof.
  intros (_ & _ & _ & _ & Ha)%reachable_safe Hl Hx. specialize (Ha label pk r Hl x Hx). unfold ok_text, decryptable in Ha.
  destruct (decrypt (text_of (r !! x)) (key_of (ew_db w))) as [p|]; [right; by exists p|]. left. rewrite orb_false_r in Ha. by destruct (text_of (r !! x)).
Qed.
End Life.

(** ** A rotation that goes through *)

Section Success.
Context {FL : FernetLib} {Laws : FernetLaws}.
Variable sha256 : string -> string.

Definition no_faults (w : W) : Prop := ew_faults w = [].

Lemma statement_ok (w : W) : no_faults w -> statement w = (Ok (), w).
Proof. unfold no_faults, statement. by intros ->. Qed.

Lemma query_ok {A} (f : er_db -> A) (w : W) : no_faults w -> query f w = (Ok (f (ew_db w)), w).
Proof. intros Hn. unfold query, mbind, M_bind. by rewrite statement_ok. Qed.

(** [m] returns and later statements still work. *)
Definition goes_through {A} (m : M W A) (w : W) : Prop := wp m (fun r w' => (exists a, r = Ok a) /\ no_faults w') w.

Lemma through_bind {A B} (m : M W A) (k : A -> M W B) (P : result A -> W -> Prop) (w : W) :
  goes_through m w -> wp m P w -> (forall a w1, P (Ok a) w1 -> no_faults w1 -> goes_through (k a) w1) -> goes_through (m ≫= k) w.
Proof.
  intros [[a Ha] Hn] HP Hk. unfold goes_through, wp, mbind, M_bind in *. destruct (m w) as [r w1]. cbn [fst snd] in *. subst r. by apply Hk.
Qed.

Lemma through_for_each {A S} (l : list A) (body : A -> S -> M W S) (Inv : S -> W -> Prop) :
  (forall x s w, x ∈ l -> Inv s w -> no_faults w -> goes_through (body x s) w /\ wp (body x s) (fun r w' => forall s', r = Ok s' -> Inv s' w') w) ->
  forall s w, Inv s w -> no_faults w -> goes_through (for_each l s body) w.
Proof.
  induction l as [|x l IH]; intros Hb s w Hi Hn; [split; [by exists s|done]|]. destruct (Hb x s w ltac:(left) Hi Hn) as [Hg HI].
  eapply through_bind; [exact Hg|exact HI|]. intros s' w1 Hs' Hn1. apply IH; [|by apply Hs'|done]. intros y s2 w2 Hy. apply Hb. by right.
Qed.

Lemma keys_match_decrypt (a b c : string) : keys_match a b = Ok true -> decrypt c a = decrypt c b.
Proof.
  intros (m & m' & Ha & Hb & He)%keys_match_eq. symmetry in He. apply String.eqb_eq in He as ->. unfold decrypt. by rewrite Ha, Hb.
Qed.

(** Every ciphertext of the family can be decrypted with [old]. *)
Definition family_readable (old : string) (f : EncryptedFieldFamily) (d : er_db) : Prop :=
  forall pk r x, db_rows d !! (fam_model f, pk) = Some r -> x ∈ fam_encrypted f -> ok_text old (text_of (r !! x)) = true.

Lemma readable_ciphertexts (old : string) (f : EncryptedFieldFamily) (d : er_db) (pk : Z) (r : row) (fc : string * string) :
  family_readable old f d -> db_rows d !! (fam_model f, pk) = Some r -> fc ∈ ciphertexts_of f r -> decryptable old fc.2 = true.
Proof.
  destruct fc as [x c]. intros Hf Hl (Hx & -> & Hn)%elem_of_ciphertexts. specialize (Hf pk r x Hl Hx). unfold ok_text in Hf. simpl.
  by destruct (text_of (r !! x)).
Qed.

Lemma verify_through (old : string) (matches : bool) (f : EncryptedFieldFamily) (acc : Z * gset (string * Z)) (w : W) :
  no_faults w -> family_readable old f (ew_db w) -> exists acc', verify_family old matches f acc w = (Ok acc', w).
Proof.
  intros Hn Hf. unfold verify_family, mbind, M_bind. rewrite query_ok by done.
  assert (Hall : Forall (fun kr : Z * row => forallb (fun fc => decryptable old fc.2) (ciphertexts_of f kr.2) = true) (rows_of (fam_model f) (_ciphertext_query f) (ew_db w))).
  { apply Forall_forall. intros [pk r] [Hl _]%elem_of_rows. apply forallb_forall. intros fc Hin%list_elem_of_In. by eapply readable_ciphertexts. }
  revert acc. induction Hall as [|kr rows Hk Hall IH]; intros acc; [by exists acc|]. simpl. unfold mbind, M_bind, verify_row at 1. rewrite Hk. apply IH.
Qed.

Lemma verify_all_through (old : string) (matches : bool) (fs : list EncryptedFieldFamily) (acc : Z * gset (string * Z)) (w : W) :
  no_faults w -> Forall (fun f => family_readable old f (ew_db w)) fs -> exists acc', for_each fs acc (verify_family old matches) w = (Ok acc', w).
Proof.
  intros Hn Hf. revert acc. induction Hf as [|f fs Hf Hfs IH]; intros acc; [by exists acc|]. simpl. unfold mbind, M_bind.
  destruct (verify_through old matches f acc w Hn Hf) as [acc' ->]. apply IH.
Qed.

Lemma replacements_through (old new m : string) (f : EncryptedFieldFamily) (pk : Z) (r : row) (w : W) :
  no_faults w -> key_material new = Ok m -> (forall fc, fc ∈ ciphertexts_of f r -> decryptable old fc.2 = true) ->
  goes_through (replacements_of old new f pk r) w.
Proof.
  intros Hn Hm Hd. unfold replacements_of. apply (through_for_each _ _ (fun _ _ => True)); [|done|done].
  intros fc acc w1 Hin _ Hn1. split; [|by intros s' _]. specialize (Hd fc Hin). unfold decryptable in Hd.
  destruct (decrypt fc.2 old) as [p|] eqn:Ed; [|done]. destruct (encrypt_total p new m (ew_nonce w1) Hm) as [c Hc].
  unfold goes_through, wp, try_except, mbind, M_bind, lift, encrypt_now. simpl. rewrite Hc. simpl. split; [by eexists|done].
Qed.

(** The private update of replacements that are under the stored key. *)
Lemma locked_update_through (new : string) (f : EncryptedFieldFamily) (flt : Z -> row -> bool) (r reps : row) (old : string) (w : W) :
  no_faults w -> fam_model f <> SETTINGS_MODEL -> (forall x, x ∈ fam_encrypted f -> x ∈ g_encrypted (guard_of (fam_model f) w)) ->
  db_key (ew_db w) = Some new -> strip new = new -> replaced old new f r (ciphertexts_of f r) reps ->
  reps <> ∅ -> goes_through (_locked_encrypted_queryset_update (fam_model f) flt reps) w.
Proof.
  intros Hn Hs Hg Hk Hst [Hr _] Hne.
  assert (Ht : forall x v, reps !! x = Some v -> exists c, v = CText c) by (intros x v Hv; by apply (Hr x v)). unfold goes_through, _locked_encrypted_queryset_update. apply wp_bind, wp_gets.
  set (g := guard_of (fam_model f) w) in *.
  assert (Hpart : encrypted_part g reps <> ∅).
  { intros He. apply Hne. apply map_empty. intros x. destruct (reps !! x) as [v|] eqn:Ev; [|done]. exfalso. destruct (Hr x v Ev) as [Hx _].
    pose proof (encrypted_part_spec g reps x) as Hp. apply Hg, mem_str_spec in Hx. by rewrite He, Hx, Ev, lookup_empty in Hp. }
  rewrite bool_decide_eq_false_2 by done.
  assert (Htext : existsb (fun f => match reps !! f with None | Some (CText _) => false | _ => true end) (g_encrypted g) = false).
  { apply not_true_iff_false. rewrite existsb_exists. intros (x & _ & Hx). destruct (reps !! x) as [v|] eqn:Ev; [|done]. by destruct (Ht x v Ev) as [c ->]. }
  rewrite Htext. unfold wp, atomic, locked_settings_key, mbind, M_bind. rewrite query_ok, Hk by done. cbn [mret M_ret].
  assert (Hok : forallb (fun fv => is_empty fv.2 || decryptable (strip new) fv.2)%bool (map_to_list (encrypted_part g reps)) = true).
  { apply forallb_forall. intros [x c] Hin%list_elem_of_In. apply elem_of_map_to_list in Hin. rewrite encrypted_part_spec in Hin.
    destruct (mem_str x _); [|done]. destruct (reps !! x) as [v|] eqn:Ev; [|done]. destruct (Ht x v Ev) as [c' ->]. simpl in Hin. injection Hin as ->.
    destruct (Hr x _ Ev) as (_ & Hsec & Hn0 & _). destruct Hsec as [[He _]|(p & _ & Hp)]; [done|]. simpl in *. unfold decryptable. by rewrite Hst, Hp, orb_true_r. }
  rewrite Hok. unfold with_permits, guarded_update, mbind, M_bind, gets, modify, try_finally.
  destruct (String.eqb_spec (fam_model f) SETTINGS_MODEL); [done|]. set (w1 := set_permits _ w).
  change (guard_of (fam_model f) w1) with g. rewrite (bool_decide_eq_false_2 (encrypted_part g reps = ∅)) by done. cbn [negb].
  rewrite bool_decide_eq_true_2 by done. unfold original_update, mbind, M_bind. rewrite query_ok by exact Hn. simpl. split; [by eexists|exact Hn].
Qed.

Lemma rotate_family_through (old new m : string) (f : EncryptedFieldFamily) (w : W) :
  no_faults w -> fam_model f <> SETTINGS_MODEL -> (forall x, x ∈ fam_encrypted f -> x ∈ g_encrypted (guard_of (fam_model f) w)) ->
  db_key (ew_db w) = Some new -> strip new = new -> key_material new = Ok m -> family_readable old f (ew_db w) ->
  goes_through (rotate_family old new f) w.
Proof.
  intros Hn Hs Hg Hk Hst Hm Hf. unfold rotate_family. eapply (through_bind _ _ (fun r w' => w' = w /\ r = Ok (rows_of (fam_model f) (_ciphertext_query f) (ew_db w)))).
  { unfold goes_through, wp. rewrite query_ok by done. split; [by eexists|done]. }
  { unfold wp. by rewrite query_ok. }
  intros rows w1 [-> [= ->]] _. apply (through_for_each _ _ (fun _ w' => same_env w w' /\ db_key (ew_db w') = Some new)); [|by split|done].
  intros [pk r] [] w2 [Hl _]%elem_of_rows [He Hk2] Hn2. cbn [fst snd].
  assert (Hd : forall fc, fc ∈ ciphertexts_of f r -> decryptable old fc.2 = true) by (intros fc; by eapply readable_ciphertexts). split.
  - eapply through_bind; [by eapply replacements_through|apply replacements_looks|]. intros reps w3 [[He3 Hd3] Hr] Hn3.
    case_bool_decide as Hz; [split; [by exists ()|done]|]. eapply (through_bind _ _ (fun _ _ => True)); [|done|by split; [exists ()|]].
    eapply locked_update_through; [done|done| |by rewrite Hd3|done|by apply Hr|done]. intros x Hx. rewrite (same_env_guard w w3) by (by etrans). by apply Hg.
  - apply wp_bind. eapply wp_mono; [apply replacements_looks|]. intros [reps|e] w3 [[He3 Hd3] _]; [|by intros ? [=]].
    case_bool_decide; [apply wp_ret; intros u _; split; [by etrans|by rewrite Hd3]|]. apply wp_bind. eapply wp_mono; [by apply locked_update_effect|].
    intros [c|e] w4 [He4 H4]; [apply wp_ret|by intros ? [=]]. intros u _. destruct (H4 c eq_refl) as (_ & Hk4 & _). split; [by do 2 (etrans; [eassumption|])|].
    by rewrite Hk4, Hd3.
Qed.

(** A family that is not done yet is as readable as at the start. *)
Lemma related_readable (old new : string) (before : list EncryptedFieldFamily) (f : EncryptedFieldFamily) (d d' : er_db) :
  (forall x, done_in before (fam_model f) x = true -> x ∈ fam_encrypted f -> False) ->
  related old new (done_in before) (db_rows d) (db_rows d') -> family_readable old f d -> family_readable old f d'.
Proof.
  intros Hdis Hr Hf pk r' x Hl Hx. specialize (Hr (fam_model f, pk)). rewrite Hl in Hr. destruct (db_rows d !! (fam_model f, pk)) as [r|] eqn:Er; [|done].
  specialize (Hr x). cbn [fst] in Hr. destruct (done_in before (fam_model f) x) eqn:Ed; [by destruct (Hdis x)|]. rewrite Hr. by apply (Hf pk).
Qed.

Lemma rotate_families_through (old new m : string) (fs : list EncryptedFieldFamily) (w : W) :
  no_faults w -> NoDup (columns fs) -> Forall (fun f => fam_model f <> SETTINGS_MODEL) fs ->
  (forall f x, f ∈ fs -> x ∈ fam_encrypted f -> x ∈ g_encrypted (guard_of (fam_model f) w)) ->
  db_key (ew_db w) = Some new -> strip new = new -> key_material new = Ok m -> Forall (fun f => family_readable old f (ew_db w)) fs ->
  goes_through (for_each fs () (fun f _ => rotate_family old new f)) w.
Proof.
  intros Hn Hc Hs Hg Hk Hst Hm Hf. rewrite Forall_forall in Hs. rewrite Forall_forall in Hf.
  assert (Hgen : forall rest before w', fs = before ++ rest -> no_faults w' -> same_env w w' -> db_key (ew_db w') = Some new ->
    related old new (done_in before) (db_rows (ew_db w)) (db_rows (ew_db w')) -> goes_through (for_each rest () (fun f _ => rotate_family old new f)) w').
  { induction rest as [|f rest IH]; intros before w' Hl Hn' He Hk' Hr; [split; [by exists ()|done]|]. simpl. assert (Hin : f ∈ fs) by (rewrite Hl; set_solver).
    eapply through_bind; [|apply rotate_family_effect; by apply Hs|].
    - eapply rotate_family_through; [done|by apply Hs| |done|done|done|].
      + intros x Hx. rewrite (same_env_guard w w') by done. by apply Hg.
      + eapply related_readable; [|exact Hr|by apply Hf]. intros x Hb Hx. rewrite Hl in Hc. eapply columns_disjoint; [exact Hc|exact Hb|].
        by apply column_of_spec.
    - intros [] w2 [He2 H2] Hn2. destruct (H2 () eq_refl) as (Hk2 & _ & Hr2). apply (IH (before ++ [f])); [by rewrite <- app_assoc|done|by etrans|by rewrite Hk2|].
      rewrite Hl in Hc. by eapply related_extend. }
  apply (Hgen fs []); [done..|]. intros k. by destruct (db_rows (ew_db w) !! k).
Qed.

(** The attestation leaves the database working. *)
Lemma attestation_faults (old : string) (w : W) : no_faults w -> wp (_assert_backends_use_independent_encryption sha256 old) (fun _ w' => no_faults w') w.
Proof.
  assert (Hstep : forall r, keeps no_faults (attest_endpoint sha256 old r)).
  { intros r. unfold attest_endpoint. apply keeps_bind.
    - destruct (int_of _); [|apply keeps_ret]. apply keeps_bind; [|intros; apply keeps_gets]. intros w' Hw'. by rewrite statement_ok.
    - intros ip. destruct (backend_key_target_fingerprint _ _) as [fp|[]]; try (apply keeps_ret || apply keeps_raise).
      apply keeps_bind; [destruct (Nat.eqb _ _); [apply keeps_lift|apply keeps_ret]|]. intros same. destruct (negb same); [apply keeps_ret|].
      destruct (backend_key_target _) as [[base verify]|]; [|apply keeps_raise]. destruct (decrypt _ _) as [token|]; [|apply keeps_raise].
      apply keeps_bind; [intros w' Hw'; unfold attest; by destruct (ew_replies w')|]. intros [|status body]; [apply keeps_raise|].
      destruct (negb _); [apply keeps_raise|]. destruct body; [|apply keeps_raise]. apply keeps_bind; [apply keeps_lift|].
      intros []; [apply keeps_ret|apply keeps_raise]. }
  intros Hn. apply wp_keeps; [|done]. unfold _assert_backends_use_independent_encryption. apply keeps_bind.
  - intros w' Hw'. by rewrite query_ok.
  - intros rows. induction rows as [|kr rows IH]; simpl; [apply keeps_ret|]. apply keeps_bind; [apply Hstep|]. intros []. apply IH.
Qed.

(** What a working installation answers before a rotation writes. *)
Lemma preliminaries_ok (fs : list EncryptedFieldFamily) (k : string) (w : W) :
  no_faults w -> families_of w = Ok fs -> in_postgres (ew_install w) = true -> dormant_of (ew_install w) ENCRYPTED_FIELD_FAMILIES = Ok [] ->
  db_key (ew_db w) = Some k ->
  get_solo w = (Ok k, w) /\ locked_settings_key w = (Ok k, w) /\ lock_encrypted_field_tables w = (Ok fs, w).
Proof.
  intros Hn Hf Hp Hd Hk. unfold get_solo, locked_settings_key, mbind, M_bind. rewrite query_ok, Hk by done. split; [done|]. split; [done|].
  unfold lock_encrypted_field_tables, _available_family_models, _dormant_optional_tables, _dormant_optional_ciphertext_exists, database_errors, try_except,
    mbind, M_bind, gets, lift. rewrite Hp. cbn [negb]. fold (families_of w). rewrite Hf, !statement_ok by done. rewrite Hd. simpl.
  by rewrite ?statement_ok by done.
Qed.

Lemma safe_family (old k : string) (f : EncryptedFieldFamily) (fs : list EncryptedFieldFamily) (w : W) :
  safe w -> families_of w = Ok fs -> f ∈ fs -> db_key (ew_db w) = Some k -> keys_match old (strip k) = Ok true -> family_readable old f (ew_db w).
Proof.
  intros (Hi & _ & _ & _ & Ha) Hf Hin Hk Hm pk r x Hl Hx. assert (Hg : x ∈ g_encrypted (guard_of (fam_model f) w)) by (apply (guard_encrypted w fs); [done|done|by exists f]).
  specialize (Ha _ _ _ Hl x Hg). unfold key_of in Ha. rewrite Hk in Ha. simpl in Ha. unfold ok_text, decryptable in *.
  by rewrite (keys_match_decrypt old (strip k)).
Qed.

Lemma rotation_through (old new k m : string) (fs : list EncryptedFieldFamily) (w : W) :
  safe w -> no_faults w -> families_of w = Ok fs -> in_postgres (ew_install w) = true -> dormant_of (ew_install w) ENCRYPTED_FIELD_FAMILIES = Ok [] ->
  db_key (ew_db w) = Some k -> keys_match old (strip k) = Ok true -> strip new = new -> key_material new = Ok m ->
  fst (_assert_backends_use_independent_encryption sha256 old w) = Ok () -> goes_through (rotation sha256 old new) w.
Proof.
  intros Hsafe Hn Hf Hp Hd Hk Hmatch Hst Hm Hatt. destruct (preliminaries_ok fs k w Hn Hf Hp Hd Hk) as (H1 & H2 & H3).
  assert (Hr : Forall (fun f => family_readable old f (ew_db w)) fs) by (apply Forall_forall; intros f Hin; by eapply safe_family).
  destruct (verify_all_through old true fs (0, ∅) w Hn Hr) as [[count keys] H4].
  unfold goes_through, rotation, wp, mbind, M_bind. rewrite H1, H2, H3, Hmatch. rewrite H4. rewrite andb_false_r.
  pose proof (attestation_faults old w Hn) as H5. pose proof (attestation_looks sha256 old w) as H6. unfold wp in H5, H6.
  destruct (_assert_backends_use_independent_encryption sha256 old w) as [r5 w5]. cbn [fst snd] in *. subst r5. destruct H6 as [[He5 Hd5] _].
  change (goes_through (p ← gets ew_permits; _ ← with_permits (mkPermits (pm_encrypted p) (Some new) (pm_upsert p))
    (guarded_update SETTINGS_MODEL (fun _ _ => true) {[ "encryption_key" := CText new ]});
    _ ← for_each fs () (fun f _ => rotate_family old new f);
    _ ← record_encryption_recovery_event "rotate" (List.map fam_key fs) (Z.of_nat (size keys)) count; mret (count, keys)) w5).
  eapply (through_bind _ _ (fun r w' => r = Ok (ew_permits w5) /\ w' = w5)); [split; [by eexists|exact H5]|by split|]. intros p w' [[= ->] ->] _.
  eapply through_bind; [|apply set_key_effect|].
  { unfold goes_through, wp, with_permits, guarded_update, execute, mbind, M_bind, gets, modify, try_finally. rewrite String.eqb_refl, lookup_singleton_eq.
    cbn [text_of set_permits ew_permits pm_key]. rewrite bool_decide_eq_true_2 by done. rewrite statement_ok by exact H5. split; [by eexists|exact H5]. }
  intros n w6 [He6 Hs6] Hn6. destruct (Hs6 n eq_refl) as (Hr6 & _ & Hk6). specialize (Hk6 ltac:(rewrite Hd5, Hk; by eexists)).
  destruct (registry_columns w fs Hf) as [Hc Hs]. eapply (through_bind _ _ (fun _ _ => True)); [|done|].
  - eapply rotate_families_through; [done|done|done| |done|done|done|].
    + intros f x Hin Hx. rewrite (same_env_guard w w6) by (by etrans). apply (guard_encrypted w fs); [apply Hsafe|done|by exists f].
    + eapply Forall_impl; [exact Hr|]. intros f Hfr pk r x. rewrite Hr6, Hd5. apply Hfr.
  - intros u w7 _ Hn7. eapply (through_bind _ _ (fun _ _ => True)); [|done|by split; [eexists|]].
    unfold goes_through, wp, record_encryption_recovery_event, execute, mbind, M_bind. rewrite statement_ok by done. by split; [eexists|].
Qed.

(** C18: Rotation is not only safe but possible: where the guards have kept every
    ciphertext readable, the database works, no table of a companion is left
    while the companion is unloaded, and every adopted backend attests, an operator who knows the
    stored key (in any spelling) and brings another canonical key gets the
    rotation done. *)
Theorem healthy_rotation_succeeds (old_key new_key k : string) (fs : list EncryptedFieldFamily) (w : W) :
  safe w -> no_faults w -> families_of w = Ok fs -> in_postgres (ew_install w) = true -> dormant_of (ew_install w) ENCRYPTED_FIELD_FAMILIES = Ok [] ->
  db_key (ew_db w) = Some k -> keys_match (strip old_key) (strip k) = Ok true -> keys_match (strip old_key) (strip new_key) = Ok false ->
  is_canonical_fernet_key (strip new_key) = true ->
  fst (_assert_backends_use_independent_encryption sha256 (strip old_key) w) = Ok () ->
  exists result w', rotate_encryption_key sha256 old_key new_key w = (Ok result, w').
Proof.
  intros Hsafe Hn Hf Hp Hd Hk Hold Hnew Hc Hatt. destruct (canonical_material _ Hc) as (m & Hm & _).
  pose proof (rotation_through (strip old_key) (strip new_key) k m fs w Hsafe Hn Hf Hp Hd Hk Hold (strip_strip _) Hm Hatt) as [[a Ha] _].
  unfold rotate_encryption_key. rewrite Hnew, Hc. cbn [negb]. unfold mbind, M_bind, database_errors, try_except, atomic.
  destruct (rotation sha256 _ _ w) as [r w1]. cbn [fst] in Ha. subst r. destruct a as [count keys]. by eexists _, _.
Qed.
End Success.

(** ** Rotations and resets of a concrete database *)

#[local] Existing Instance toy_fernet.
#[local] Existing Instance toy_laws.

(** A new installation, and one with a stored credential. *)
Definition sample_fresh : W :=
  snd (install_encrypted_writer_guards (mkEr (mkDb (Some sample_key) ∅ []) sample_installation [] no_permits false [] ∅ [] [] 0 4)).

Definition sample_saved : W := snd (guarded_save (mkEi "netbox_proxbox.PBSEndpoint" None (sample_pbs (token_of sample_key "s3cret")) [] ∅) None sample_fresh).

Lemma sample_fresh_ok : fresh sample_fresh.
Proof.
  split; [|by repeat split; vm_compute]. destruct (guarded_families (ew_install sample_fresh) ENCRYPTED_FIELD_FAMILIES) as [fs|] eqn:E; [|by vm_compute in E].
  exists fs. split; [exact E|]. vm_compute in E. injection E as <-. vm_compute. reflexivity.
Qed.

Lemma sample_saved_reachable : reachable sample_sha sample_saved.
Proof. eapply ReachStep; [apply ReachFresh, sample_fresh_ok|]. apply StepSave. Qed.

Definition sample_secret : row := sample_pbs (token_of sample_key "s3cret").

Lemma sample_saved_row : db_rows (ew_db sample_saved) !! ("netbox_proxbox.PBSEndpoint", 4) = Some sample_secret.
Proof. vm_compute. reflexivity. Qed.

Lemma sample_guarded : "token_secret_enc" ∈ g_encrypted (guard_of "netbox_proxbox.PBSEndpoint" sample_saved).
Proof. apply mem_str_spec. vm_compute. reflexivity. Qed.

Lemma stored_key_reads_everything_witness :
  exists plain, decrypt (text_of (sample_secret !! "token_secret_enc")) (key_of (ew_db sample_saved)) = Ok plain.
Proof.
  destruct (stored_key_reads_everything sample_sha sample_saved "netbox_proxbox.PBSEndpoint" 4 sample_secret "token_secret_enc" sample_saved_reachable
              sample_saved_row sample_guarded) as [He|Hp]; [vm_compute in He; discriminate He|exact Hp].
Defined.

Definition sample_rotation : result RotationResult * W := rotate_encryption_key sample_sha sample_key other_key sample_saved.

Lemma sample_rotation_ok : match fst sample_rotation with Ok result => rr_ciphertexts result = 1 | Err _ => False end.
Proof. vm_compute. reflexivity. Qed.

Lemma rotation_keeps_secrets_witness : rotated (strip sample_key) (strip other_key) sample_saved (snd sample_rotation) 1.
Proof.
  pose proof (rotation_keeps_secrets sample_sha sample_key other_key sample_saved) as H. fold sample_rotation in H.
  pose proof sample_rotation_ok as Hr. destruct sample_rotation as [[result|e] w']; cbn [fst snd] in *; [|destruct Hr].
  destruct H as (_ & _ & H). rewrite Hr in H. exact H.
Defined.

Lemma healthy_rotation_succeeds_witness :
  exists result w', rotate_encryption_key sample_sha (" " +:+ sample_key) other_key sample_saved = (Ok result, w').
Proof.
  destruct (families_of sample_saved) as [fs|] eqn:Ef; [|by vm_compute in Ef].
  apply (healthy_rotation_succeeds sample_sha (" " +:+ sample_key) other_key sample_key fs sample_saved);
    [exact (reachable_safe sample_sha sample_saved sample_saved_reachable)| |exact Ef|..]; vm_compute; reflexivity.
Defined.

Definition pbs_view (w : W) : option string * list (option column) :=
  (db_key (ew_db w), List.map (sample_cell w) ["token_secret_enc"; "fingerprint"; "enabled"; "name"]).

(** The wrong old key and a damaged value stop a rotation; a reset blanks the
    damaged value with the trust and the operation that depend on it; a
    statement that fails in the middle takes everything back. *)
Example recoveries :
  let damaged := sample_er "junk" in
  let with_fault n w := set_faults (repeat false n ++ [true]) w in
  pbs_view (snd (rotate_encryption_key sample_sha sample_key other_key damaged)) = pbs_view damaged /\
  pbs_view (snd (rotate_encryption_key sample_sha other_key sample_key sample_saved)) = pbs_view sample_saved /\
  fst (outcome (rotate_encryption_key sample_sha sample_key other_key) (with_fault 20%nat sample_saved)) = Some rotation_unavailable /\
  pbs_view (snd (rotate_encryption_key sample_sha sample_key other_key (with_fault 20%nat sample_saved))) = pbs_view sample_saved /\
  pbs_view (snd (reset_encrypted_families ["pbs_api"] RESET_CONFIRMATION_PHRASE damaged)) =
    (Some sample_key, [Some (CText ""); Some (CText ""); Some (CBool false); Some (CText "pbs1")]) /\
  pbs_view (snd (reset_encrypted_families ["pbs_api"] "yes" damaged)) = pbs_view damaged /\
  pbs_view (snd (reset_encrypted_families ["pbs_api"] RESET_CONFIRMATION_PHRASE sample_saved)) = pbs_view sample_saved.
Proof. repeat split; vm_compute; reflexivity. Qed.

(** An attestation whose key source is a list raises an error that the
    rotation does not expect. *)
Example unhashable_key_source :
  attestation_ok (VDict [("attestation_version", VInt 1); ("active_key_source", VList []); ("encrypted_credentials_verified", VBool true)]) =
    Err (TypeError "unhashable type: 'list'").
Proof. reflexivity. Qed.
