(* ===== verification/BackendRegistration.v ===== *)
(** * Registration of Proxmox endpoints on the backend

    The first half of views/backend_sync.py (with [cloud_image_ssh_target_matches_host]
    of cloud_image_ssh.py): what is sent to the backend for one endpoint, to which
    of its rows, after which checks, and what is recorded about it afterwards.

    The world is an environment [E] (clock, backend, database, approvals), the
    cache of earlier pushes, and a log of what was done, the last first: every
    approval check, request and database write. *)
From Stdlib Require Import ZArith Lia Ascii String.
From stdpp Require Import base list sets strings pretty.
From S2P Require Import Prelude Effects SyncModes Deadline EndpointScope Text IntentPayload ConnectionAuthority.

(** ** Endpoints *)

(** A related site or tenant: primary key, slug, name. *)
Definition related : Type := Z * string * string.

Record RegEndpoint := mkRegEndpoint {
  ep_row : ProxmoxEndpoint;
  ep_username : string; ep_token_name : string; ep_verify_ssl : bool;
  ep_allow_writes : bool; ep_allow_packer : bool; ep_access_methods : string;
  ep_template : string; ep_site : option related; ep_tenant : option related;
  ep_timeout : option Z; ep_max_retries : option Z; ep_retry_backoff : option pyval;
  ep_ssh_host : string; ep_ssh_username : string; ep_ssh_port : Z; ep_known_host : string;
  ep_ci_target_node : string; ep_ci_identity_file : string;
  ep_binding_fingerprint : string; ep_pushed_fingerprint : string
}.

Definition ep_pk (e : RegEndpoint) : Z := endpoint_pk (ep_row e).

(** [str(endpoint)] where it has no name *)
Definition endpoint_label (e : ProxmoxEndpoint) : string :=
  let ip := match endpoint_ip_address e with Some a => default "" (ip_interface_ip a) | None => "" end in
  str_or (endpoint_name e)
    (str_or (endpoint_domain e) (str_or ip ("ProxmoxEndpoint(" +:+ pretty (endpoint_pk e) +:+ ")"))).

Definition _disabled_endpoint_detail (e : ProxmoxEndpoint) : option string :=
  if endpoint_enabled e then None
  else Some ("Proxmox endpoint '" +:+ endpoint_label e +:+ "' (id=" +:+ pretty (endpoint_pk e) +:+ ") is disabled; skipping.").

(** ** Requests, database writes and the environment *)

Record http_request := mkRequest {
  hr_method : string; hr_url : string; hr_body : option (dict pyval); hr_timeout : Z
}.

(** A response with its status and its parsed body ([None]: not JSON), or a
    transport error. *)
Inductive http_answer := HResp (status : Z) (body : option pyval) | HFail (error : string).

(** [QuerySet.update] of one column of the endpoint's row. *)
Inductive db_write :=
| WritePacker (authorized : bool)
| WritePushed (fingerprint : string)
| WriteReceipt (fingerprint : string)
| EraseReceipt (expected : string).

Inductive db_outcome := DbFailed | DbRows (updated : Z).

Class RegEnv (E : Type) := {
  (* time.monotonic(), in nanoseconds *)
  rg_clock : E -> Z * E;
  rg_http : http_request -> E -> http_answer * E;
  (* extract_backend_error_detail() of an error answer *)
  rg_detail : http_answer -> string * option Z;
  (* approved_connection_allows_secrets() *)
  rg_approved : ProxmoxEndpoint -> E -> bool * E;
  (* resolve_endpoint_api_credentials(): password and token value *)
  rg_credentials : RegEndpoint -> E -> result (string * string) * E;
  (* ProxboxPluginSettings: proxmox_timeout, proxmox_max_retries, proxmox_retry_backoff *)
  rg_tuning : E -> result (Z * Z * pyval);
  (* ProxmoxNode rows of the endpoint or its cluster: name and address *)
  rg_nodes : RegEndpoint -> E -> list (string * string);
  rg_db : db_write -> E -> db_outcome * E;
  (* connection.in_atomic_block or not get_autocommit() *)
  rg_in_transaction : E -> bool;
  (* does the cache have delete_pattern()? *)
  rg_delete_pattern : bool;
  (* hashlib.sha256(...).hexdigest(), json.dumps(sort_keys=True), salted_hmac() *)
  rg_sha256 : string -> string;
  rg_json : dict pyval -> string;
  rg_hmac : string -> string -> string
}.

Inductive cache_entry := CachedPush (fingerprint : string) (backend_id : Z) | CacheIndex (keys : list string).

Inductive reg_event :=
| EvApproval (approved : bool)
| EvHttp (req : http_request) (answer : http_answer)
| EvDb (write : db_write) (outcome : db_outcome).

Record reg_world (E : Type) := mkReg { rw_env : E; rw_cache : dict cache_entry; rw_log : list reg_event }.
Arguments mkReg {E} _ _ _.
Arguments rw_env {E} _.
Arguments rw_cache {E} _.
Arguments rw_log {E} _.

(** ** What is sent *)

Definition _packer_template_builds_effectively_allowed (e : RegEndpoint) : bool :=
  (endpoint_enabled (ep_row e) && ep_allow_writes e && ep_allow_packer e)%bool.

Definition _CLOUD_IMAGE_SSH_CLEAR : dict pyval :=
  [("ssh_target_node", VNone); ("ssh_host", VNone); ("ssh_username", VNone); ("ssh_identity_file", VNone);
   ("ssh_known_host_fingerprint", VNone)].

(** [posixpath.normpath] *)
Definition norm_step (absolute : bool) (stack : list string) (comp : string) : list string :=
  if mem_str comp [""; "."] then stack
  else if negb (String.eqb comp "..") then comp :: stack
  else match stack with
       | [] => if absolute then [] else [comp]
       | top :: rest => if String.eqb top ".." then comp :: stack else rest
       end.

Definition normpath (path : string) : string :=
  if is_empty path then "."
  else
    let initial := if startswith "/" path then
                     if (startswith "//" path && negb (startswith "///" path))%bool then "//" else "/"
                   else "" in
    let comps := List.rev (foldl (norm_step (nonempty initial)) [] (split "/" path)) in
    str_or (initial +:+ join "/" comps) ".".

Definition cloud_image_ssh_target_matches_host (nodes : list (string * string)) (e : RegEndpoint) : bool :=
  let wanted_node := strip (ep_ci_target_node e) in
  let wanted_host := normalize_host (ep_ssh_host e) in
  if (is_empty wanted_node || is_empty wanted_host)%bool then false
  else
    let names := List.map (fun n => lower (strip (fst n)))
                   (List.filter (fun n => String.eqb (normalize_host (snd n)) wanted_host) nodes) in
    match names with
    | [] => false
    | _ => forallb (String.eqb (lower wanted_node)) names
    end.

Definition binding_keys : list string :=
  ["ssh_target_node"; "ssh_host"; "ssh_username"; "ssh_port"; "ssh_identity_file"; "ssh_known_host_fingerprint"].

(** The binding keys of the payload, and whether the Packer grant is revoked. *)
Definition _cloud_image_ssh_binding (nodes : list (string * string)) (e : RegEndpoint) : dict pyval * bool :=
  let clear := if nonempty (strip (ep_binding_fingerprint e)) then _CLOUD_IMAGE_SSH_CLEAR else [] in
  let gates_open :=
    (String.eqb (strip (ep_access_methods e)) "api_ssh" && _packer_template_builds_effectively_allowed e)%bool in
  if negb gates_open then (clear, false)
  else
    let target_node := strip (ep_ci_target_node e) in
    let file := strip (ep_ci_identity_file e) in
    let identity_file := if nonempty file then normpath file else file in
    if (is_empty target_node && is_empty identity_file)%bool then (clear, false)
    else
      let binding :=
        [("ssh_target_node", VStr target_node); ("ssh_host", VStr (strip (ep_ssh_host e)));
         ("ssh_username", VStr (strip (ep_ssh_username e))); ("ssh_port", VInt (ep_ssh_port e));
         ("ssh_identity_file", VStr identity_file);
         ("ssh_known_host_fingerprint", VStr (strip (ep_known_host e)))] in
      if negb (forallb (fun kv => truthy (snd kv)) binding) then (clear, true)
      else if negb (cloud_image_ssh_target_matches_host nodes e) then (clear, true)
      else (binding, false).

Definition _packer_payload_allowed (e : RegEndpoint) (revoke_packer : bool) : bool :=
  (_packer_template_builds_effectively_allowed e && negb revoke_packer)%bool.

Definition _related_object_metadata (prefix : string) (value : option related) : dict pyval :=
  match value with
  | None => [(prefix +:+ "_id", VNone); (prefix +:+ "_slug", VNone); (prefix +:+ "_name", VNone)]
  | Some (pk, slug, name) =>
      [(prefix +:+ "_id", VInt pk); (prefix +:+ "_slug", VStr slug); (prefix +:+ "_name", VStr name)]
  end.

(** [x.strip() or None] *)
Definition text_or_none (s : string) : pyval := if is_empty (strip s) then VNone else VStr (strip s).

Definition effective_connection_tuning (settings : Z * Z * pyval) (e : RegEndpoint) : Z * Z * pyval :=
  let '(timeout, max_retries, retry_backoff) := settings in
  (default timeout (ep_timeout e), default max_retries (ep_max_retries e), default retry_backoff (ep_retry_backoff e)).

Definition backend_payload (nodes : list (string * string)) (settings : Z * Z * pyval) (credentials : string * string)
    (e : RegEndpoint) : dict pyval :=
  let '(timeout, max_retries, retry_backoff) := effective_connection_tuning settings e in
  let '(binding, revoke_packer) := _cloud_image_ssh_binding nodes e in
  let row := ep_row e in
  [("name", VStr (proxmox_backend_name row));
   ("node_device_name_template", VStr (strip (ep_template e)));
   ("ip_address", VStr (match endpoint_ip_address row with Some a => split_first slash a | None => "127.0.0.1" end));
   ("domain", text_or_none (endpoint_domain row));
   ("port", VInt (if endpoint_port row =? 0 then 8006 else endpoint_port row));
   ("username", VStr (str_or (strip (str_or (ep_username e) "root@pam")) "root@pam"));
   ("password", text_or_none (fst credentials));
   ("verify_ssl", VBool (ep_verify_ssl e));
   ("timeout", VInt timeout);
   ("max_retries", VInt max_retries);
   ("retry_backoff", retry_backoff);
   ("token_name", text_or_none (ep_token_name e));
   ("token_value", text_or_none (snd credentials));
   ("enabled", VBool (endpoint_enabled row));
   ("allow_packer_template_builds", VBool (_packer_payload_allowed e revoke_packer));
   ("access_methods", VStr (str_or (strip (str_or (ep_access_methods e) "api")) "api"))]
  ++ _related_object_metadata "site" (ep_site e) ++ _related_object_metadata "tenant" (ep_tenant e) ++ binding.

Definition _managed_binding_revocation_payload : dict pyval :=
  ("allow_packer_template_builds", VBool false) :: _CLOUD_IMAGE_SSH_CLEAR.

Definition duplicate_revocation : dict pyval :=
  [("enabled", VBool false); ("allow_packer_template_builds", VBool false)].

(** ** Fingerprints *)

(** Length prefixes keep the fields apart. *)
Definition _fingerprint_material (values : list string) : string :=
  String.concat "" (List.map (fun v => pretty (Z.of_nat (String.length v)) +:+ ":" +:+ v) values).

(** [str(payload.get(key) or "")] *)
Definition credential_fields (keys : list string) (payload : dict pyval) : list string :=
  List.map (fun k => row_text k payload) keys.

Definition _PROXMOX_CREDENTIAL_FINGERPRINT_SALT : string := "netbox_proxbox.proxmox_endpoint.pushed_credential".

Section Registration.
Context {E : Type} `{!RegEnv E}.

Abbreviation W := (reg_world E).

(** ** Effects *)

Definition log_event (ev : reg_event) (w : W) : W := mkReg (rw_env w) (rw_cache w) (ev :: rw_log w).

Definition with_env {A} (op : E -> A * E) : M W A := fun w =>
  let '(a, e') := op (rw_env w) in (Ok a, mkReg e' (rw_cache w) (rw_log w)).

(** [requests.get/post/put]: a transport error raises. *)
Definition request (req : http_request) : M W http_answer :=
  answer ← with_env (rg_http req);
  _ ← modify (log_event (EvHttp req answer));
  match answer with
  | HFail _ => raise (RequestFailed (fst (rg_detail answer)) (snd (rg_detail answer)))
  | HResp _ _ => mret answer
  end.

Definition raise_for_status (answer : http_answer) : M W () :=
  match answer with
  | HResp status _ =>
      if 400 <=? status then raise (RequestFailed (fst (rg_detail answer)) (snd (rg_detail answer))) else mret ()
  | HFail _ => mret ()
  end.

Definition answer_status (answer : http_answer) : Z := match answer with HResp s _ => s | HFail _ => 0 end.

(** [parse_requests_response_json] *)
Definition response_json (answer : http_answer) : pyval + string :=
  match answer with
  | HResp _ (Some body) => inl body
  | _ => inr ("ProxBox backend returned a response that is not valid JSON. "
              +:+ "Check that the FastAPI URL points to proxbox-api, not another service.")
  end.

Definition require_approved (e : RegEndpoint) : M W () :=
  ok ← with_env (rg_approved (ep_row e));
  _ ← modify (log_event (EvApproval ok));
  if (ok : bool) then mret () else raise (ConnectionAuthorityError _UNAPPROVED).

Definition db_update (write : db_write) : M W db_outcome :=
  outcome ← with_env (rg_db write);
  _ ← modify (log_event (EvDb write outcome));
  mret outcome.

(** [_remaining_request_timeout], in nanoseconds *)
Definition _remaining_request_timeout (timeout : Z) (deadline : option Z) : M W Z :=
  match deadline with
  | None => mret timeout
  | Some d => now ← with_env rg_clock; mret (Z.max 1000000 (Z.min timeout (d - now)))
  end.

(** ** The cache of earlier pushes *)

Definition cache_prefix : string := "netbox_proxbox:proxmox_endpoint_push".

Definition _proxmox_push_cache_key (e : ProxmoxEndpoint) (base_url : string) : string :=
  cache_prefix +:+ ":" +:+ pretty (endpoint_pk e) +:+ ":" +:+ take_str 16 (rg_sha256 (rstrip_char "/" base_url)).

Definition _proxmox_push_cache_index_key (e : ProxmoxEndpoint) : string :=
  cache_prefix +:+ ":" +:+ pretty (endpoint_pk e) +:+ ":keys".

Definition set_cache (c : dict cache_entry) : M W () := modify (fun w => mkReg (rw_env w) c (rw_log w)).

Definition invalidate_proxmox_endpoint_push_cache (e : ProxmoxEndpoint) : M W () :=
  cache ← gets rw_cache;
  match dget (_proxmox_push_cache_index_key e) cache with
  | Some (CacheIndex keys) => set_cache (foldr ddel (ddel (_proxmox_push_cache_index_key e) cache) keys)
  | _ =>
      if rg_delete_pattern
      then set_cache (List.filter
             (fun kv => negb (startswith (cache_prefix +:+ ":" +:+ pretty (endpoint_pk e) +:+ ":") (fst kv))) cache)
      else mret ()
  end.

Definition _cached_proxmox_push (e : ProxmoxEndpoint) (base_url fingerprint : string) : M W (option Z) :=
  cache ← gets rw_cache;
  mret match dget (_proxmox_push_cache_key e base_url) cache with
       | Some (CachedPush fp id) => if String.eqb fp fingerprint then Some id else None
       | _ => None
       end.

Definition _cache_proxmox_push (e : ProxmoxEndpoint) (base_url fingerprint : string) (backend_id : pyval) : M W () :=
  match _int_or_none backend_id with
  | None => mret ()
  | Some id =>
      let key := _proxmox_push_cache_key e base_url in
      let index := _proxmox_push_cache_index_key e in
      cache ← gets rw_cache;
      let cache := dset key (CachedPush fingerprint id) cache in
      let keys := match dget index cache with Some (CacheIndex ks) => ks | _ => [] end in
      set_cache (if mem_str key keys then cache else dset index (CacheIndex (keys ++ [key])) cache)
  end.

(** ** The payload of one push *)

Definition proxmox_credential_fingerprint (payload : dict pyval) : string :=
  rg_hmac _PROXMOX_CREDENTIAL_FINGERPRINT_SALT
    (_fingerprint_material (credential_fields ["password"; "token_name"; "token_value"] payload)).

Definition _proxmox_payload_fingerprint (payload : dict pyval) : string :=
  let safe := foldl (fun d field => dset (field +:+ "_hash") (VStr (rg_sha256 (row_text field d))) (ddel field d))
                payload ["password"; "token_name"; "token_value"] in
  rg_sha256 (rg_json safe).

(** [None]: no binding key; [Some ""]: a clear; else the digest of a whole binding. *)
Definition _cloud_image_ssh_binding_fingerprint (payload : dict pyval) : option string :=
  let emitted := omap (fun k => match dget k payload with Some v => Some (k, v) | None => None end) binding_keys in
  if Nat.eqb (List.length emitted) 0 then None
  else if (Nat.eqb (List.length emitted) (List.length binding_keys) &&
           forallb (fun kv => negb match snd kv with VNone => true | _ => false end) emitted)%bool
  then Some (rg_sha256 (rg_json emitted))
  else Some "".

Definition _proxmox_backend_payload (e : RegEndpoint) : M W (dict pyval) :=
  _ ← require_approved e;
  credentials ← with_env (rg_credentials e);
  credentials ← lift credentials;
  settings ← gets (fun w => rg_tuning (rw_env w));
  settings ← lift settings;
  nodes ← gets (fun w => rg_nodes e (rw_env w));
  _ ← require_approved e;
  mret (backend_payload nodes settings credentials e).

(** Payload, fingerprint and the backend id the cache hints at. *)
Definition _prepare_proxmox_push (e : RegEndpoint) (base_url : string) (existing : option (list (dict pyval)))
    (disabled_detail : option string) : M W (option (dict pyval * string) * option Z) :=
  match disabled_detail with
  | Some _ => mret (None, None)
  | None =>
      payload ← _proxmox_backend_payload e;
      let fingerprint := _proxmox_payload_fingerprint payload in
      cached_id ← match existing with
                  | None => _cached_proxmox_push (ep_row e) base_url fingerprint
                  | Some _ => mret None
                  end;
      mret (Some (payload, fingerprint), match cached_id with Some 0 => None | c => c end)
  end.

(** ** Listing and confirming rows *)

Definition dicts_of (l : list pyval) : list (dict pyval) :=
  omap (fun v => match v with VDict d => Some d | _ => None end) l.

Definition _confirmed_cached_proxmox_row (e : ProxmoxEndpoint) (base_url : string) (backend_id : Z) (timeout : Z) :
    M W (option (dict pyval) * option string) :=
  answer ← try_except
    (answer ← request (mkRequest "get" (base_url +:+ "/proxmox/endpoints/" +:+ pretty backend_id) None timeout);
     if answer_status answer =? 404 then
       _ ← invalidate_proxmox_endpoint_push_cache e; mret (inr (None, None))
     else
       _ ← raise_for_status answer; mret (inl answer))
    (fun exc =>
       match exc with
       | RequestFailed detail _ =>
           mret (inr (None, Some ("Failed to verify cached ProxBox backend endpoint: " +:+ detail)))
       | _ => raise exc
       end);
  match answer with
  | inr outcome => mret outcome
  | inl answer =>
      match response_json answer with
      | inl (VDict row) =>
          match _resolve_backend_row_id [row] e with
          | inl id => if id =? backend_id then mret (Some row, None)
                      else _ ← invalidate_proxmox_endpoint_push_cache e; mret (None, None)
          | inr _ => _ ← invalidate_proxmox_endpoint_push_cache e; mret (None, None)
          end
      | _ => _ ← invalidate_proxmox_endpoint_push_cache e; mret (None, None)
      end
  end.

Definition list_rows (base_url : string) (timeout : Z) : M W (list (dict pyval) + string) :=
  answer ← try_except
    (answer ← request (mkRequest "get" (base_url +:+ "/proxmox/endpoints") None timeout);
     _ ← raise_for_status answer;
     mret (inl answer))
    (fun exc =>
       match exc with
       | RequestFailed detail _ => mret (inr ("Failed to list Proxmox endpoints on ProxBox backend: " +:+ detail))
       | _ => raise exc
       end);
  mret match answer with
       | inr error => inr error
       | inl answer =>
           match response_json answer with
           | inr json_err => inr ("Failed to read Proxmox endpoint list: " +:+ json_err)
           | inl (VList rows) => inl (dicts_of rows)
           | inl _ => inr "ProxBox backend returned invalid endpoint list payload."
           end
       end.

(** [resolve_backend_endpoint_id]: any failure to build the payload is no hint. *)
Definition resolve_backend_endpoint_id (e : RegEndpoint) (base_url : string) (timeout : Z) : M W (Z + string) :=
  match _disabled_endpoint_detail (ep_row e) with
  | Some detail => mret (inr detail)
  | None =>
      cached_id ← try_except
        (payload ← _proxmox_backend_payload e;
         _cached_proxmox_push (ep_row e) base_url (_proxmox_payload_fingerprint payload))
        (fun _ => mret None);
      confirmed ← match cached_id with
                  | None => mret None
                  | Some id =>
                      '(row, error) ← _confirmed_cached_proxmox_row (ep_row e) base_url id timeout;
                      mret match error, row with
                           | Some err, _ => Some (inr err)
                           | None, Some _ => Some (inl id)
                           | None, None => None
                           end
                  end;
      match confirmed with
      | Some outcome => mret outcome
      | None =>
          rows ← list_rows base_url timeout;
          mret match rows with
               | inl rows => _resolve_backend_row_id rows (ep_row e)
               | inr error => inr error
               end
      end
  end.

(** ** What is recorded about a push *)

Definition _record_confirmed_packer_template_authorization (authorized : bool) : M W () :=
  _ ← db_update (WritePacker authorized); mret ().

Definition _record_pushed_proxmox_credential_fingerprint (payload : dict pyval) : M W () :=
  _ ← db_update (WritePushed (proxmox_credential_fingerprint payload)); mret ().

(** The receipt must be committed, on its own, before the binding is sent. *)
Definition _record_cloud_image_ssh_binding_fingerprint (payload : dict pyval) : M W () :=
  match _cloud_image_ssh_binding_fingerprint payload with
  | None => mret ()
  | Some fingerprint =>
      if is_empty fingerprint then mret ()
      else
        inside ← gets (fun w => rg_in_transaction (rw_env w));
        if (inside : bool)
        then raise (CloudImageBindingReceiptError
               ("Cloud Image SSH binding was not sent: its ownership receipt requires "
                +:+ "a committed transaction. Retry after the current transaction commits."))
        else
          outcome ← db_update (WriteReceipt fingerprint);
          match outcome with
          | DbRows 1 => mret ()
          | DbRows _ =>
              raise (CloudImageBindingReceiptError
                ("Cloud Image SSH binding was not sent: its endpoint ownership "
                 +:+ "receipt could not be recorded. Refresh the endpoint and retry."))
          | DbFailed =>
              raise (CloudImageBindingReceiptError
                ("Cloud Image SSH binding was not sent: its ownership receipt could "
                 +:+ "not be committed. Retry after database recovery."))
          end
  end.

Definition _erase_cloud_image_ssh_binding_fingerprint (expected : string) : M W () :=
  _ ← db_update (EraseReceipt expected); mret ().

(** [existing.get("id") if existing else None], else the id of the answer *)
Definition _cache_successful_proxmox_push (e : RegEndpoint) (base_url : string) (payload : dict pyval)
    (fingerprint : string) (existing : option (dict pyval)) (answer : http_answer) : M W () :=
  let backend_id := match existing with Some (_ :: _ as row) => get "id" row | _ => VNone end in
  let backend_id := match backend_id, response_json answer with
                    | VNone, inl (VDict body) => get "id" body
                    | id, _ => id
                    end in
  _ ← _cache_proxmox_push (ep_row e) base_url fingerprint backend_id;
  _record_pushed_proxmox_credential_fingerprint payload.

(** ** One push *)

(** Success, error text, HTTP status. *)
Definition outcome : Type := bool * option string * option Z.

Definition failed (error : string) : outcome := (false, Some error, None).

Definition row_url (list_url : string) (id : pyval) : string := list_url +:+ "/" +:+ str id.

(** The id of a row that has one. *)
Definition row_id (row : dict pyval) : option pyval := match get "id" row with VNone => None | v => Some v end.

Definition revoke_row (list_url : string) (timeout : Z) (deadline : option Z) (row : dict pyval)
    (failures : list string) : M W (list string) :=
  match row_id row with
  | None => mret failures
  | Some id =>
      try_except
        (t ← _remaining_request_timeout timeout deadline;
         answer ← request (mkRequest "put" (row_url list_url id) (Some duplicate_revocation) t);
         _ ← raise_for_status answer;
         mret failures)
        (fun exc =>
           match exc with
           | RequestFailed detail _ => mret (failures ++ ["backend row " +:+ str id +:+ ": " +:+ detail])
           | _ => raise exc
           end)
  end.

Definition _revoke_duplicate_proxmox_rows (e : RegEndpoint) (rows : list (dict pyval)) (list_url : string)
    (timeout : Z) (deadline : option Z) : M W outcome :=
  failures ← for_each rows [] (revoke_row list_url timeout deadline);
  let failure_detail :=
    match failures with
    | [] => " All identifiable rows were disabled."
    | _ => " Revocation failed for " +:+ join "; " failures +:+ "."
    end in
  mret (failed ("Multiple ProxBox backend rows claim immutable identity nb:" +:+ pretty (ep_pk e)
                +:+ "; every identifiable row was attempted and operator cleanup is required." +:+ failure_detail)).

(** The rows of the backend: those handed in, or listed now. *)
Definition known_rows (existing : option (list (dict pyval))) (list_url prefix : string) (timeout : Z)
    (deadline : option Z) : M W (list (dict pyval) + outcome) :=
  match existing with
  | Some rows => mret (inl rows)
  | None =>
      t ← _remaining_request_timeout timeout deadline;
      answer ← request (mkRequest "get" list_url None t);
      _ ← raise_for_status answer;
      mret match response_json answer with
           | inr json_err => inr (failed (prefix +:+ json_err))
           | inl (VList rows) => inl (dicts_of rows)
           | inl _ => inr (failed "ProxBox backend returned invalid endpoint list payload.")
           end
  end.

Definition _revoke_managed_cloud_image_binding (e : RegEndpoint) (receipt list_url : string) (timeout : Z)
    (deadline : option Z) (existing : option (list (dict pyval))) : M W outcome :=
  let missing := failed "Connection target approval is missing or stale." in
  if is_empty receipt then mret missing
  else
    sent ← try_except
      (rows ← known_rows existing list_url "Failed to revoke managed SSH binding: " timeout deadline;
       match rows with
       | inr out => mret (Some out)
       | inl rows =>
           match _backend_rows_for_endpoint rows (ep_row e) with
           | (_ :: _ :: _) as matching =>
               out ← _revoke_duplicate_proxmox_rows e matching list_url timeout deadline; mret (Some out)
           | matching =>
               match hd_error matching ≫= row_id with
               | None => mret (Some missing)
               | Some id =>
                   t ← _remaining_request_timeout timeout deadline;
                   answer ← request (mkRequest "put" (row_url list_url id) (Some _managed_binding_revocation_payload) t);
                   _ ← raise_for_status answer;
                   mret None
               end
           end
       end)
      (fun exc =>
         match exc with
         | RequestFailed detail status =>
             mret (Some (false, Some ("Failed to revoke managed SSH binding: " +:+ detail), status))
         | _ => raise exc
         end);
    match sent with
    | Some out => mret out
    | None =>
        _ ← _erase_cloud_image_ssh_binding_fingerprint receipt;
        mret (failed "The managed SSH binding was revoked; the full update requires connection approval.")
    end.

Definition _update_disabled_proxmox_policy (existing : option (dict pyval)) (receipt list_url : string)
    (timeout : Z) (deadline : option Z) : M W outcome :=
  match existing ≫= row_id with
  | None => _ ← _record_confirmed_packer_template_authorization false; mret (true, None, None)
  | Some id =>
      let policy := if nonempty receipt then dupdate duplicate_revocation _CLOUD_IMAGE_SSH_CLEAR
                    else duplicate_revocation in
      t ← _remaining_request_timeout timeout deadline;
      answer ← request (mkRequest "put" (row_url list_url id) (Some policy) t);
      _ ← raise_for_status answer;
      _ ← (if nonempty receipt then _erase_cloud_image_ssh_binding_fingerprint receipt else mret ());
      _ ← _record_confirmed_packer_template_authorization false;
      mret (true, None, None)
  end.

Definition _send_approved_proxmox_payload (e : RegEndpoint) (payload : dict pyval) (fingerprint : string)
    (existing : option (dict pyval)) (receipt list_url base_url : string) (timeout : Z) (deadline : option Z) :
    M W outcome :=
  let desired := _cloud_image_ssh_binding_fingerprint payload in
  refused ← match desired with
            | Some (String _ _) =>
                try_except (_ ← _record_cloud_image_ssh_binding_fingerprint payload; mret None)
                  (fun exc => match exc with CloudImageBindingReceiptError msg => mret (Some msg) | _ => raise exc end)
            | _ => mret None
            end;
  match refused with
  | Some error => mret (failed error)
  | None =>
      t ← _remaining_request_timeout timeout deadline;
      answer ← request
        match existing ≫= row_id with
        | Some id => mkRequest "put" (row_url list_url id) (Some payload) t
        | None => mkRequest "post" list_url (Some payload) t
        end;
      _ ← raise_for_status answer;
      _ ← (if (bool_decide (desired = Some "") && nonempty receipt)%bool
           then _erase_cloud_image_ssh_binding_fingerprint receipt else mret ());
      _ ← _cache_successful_proxmox_push e base_url payload fingerprint existing answer;
      _ ← _record_confirmed_packer_template_authorization
            (truthy (get "enabled" payload) && truthy (get "allow_packer_template_builds" payload))%bool;
      mret (true, None, None)
  end.

(** The part inside the second [try]. *)
Definition push_rows (e : RegEndpoint) (base_url list_url receipt : string) (timeout : Z) (deadline : option Z)
    (existing : option (list (dict pyval))) (disabled_detail : option string)
    (prepared : option (dict pyval * string)) : M W outcome :=
  rows ← known_rows existing list_url "Failed to sync Proxmox endpoint to ProxBox backend: " timeout deadline;
  match rows with
  | inr out => mret out
  | inl rows =>
      match _backend_rows_for_endpoint rows (ep_row e) with
      | (_ :: _ :: _) as matching => _revoke_duplicate_proxmox_rows e matching list_url timeout deadline
      | matching =>
          let row := hd_error matching in
          match disabled_detail, prepared with
          | Some _, _ => _update_disabled_proxmox_policy row receipt list_url timeout deadline
          | None, None => raise (AssertionError "")
          | None, Some (payload, fingerprint) =>
              _ ← require_approved e;
              _send_approved_proxmox_payload e payload fingerprint row receipt list_url base_url timeout deadline
          end
      end
  end.

Definition sync_proxmox_endpoint_to_backend (e : RegEndpoint) (base_url : string) (timeout : Z) (deadline : option Z)
    (existing : option (list (dict pyval))) (allow_disabled_policy_update : bool) : M W outcome :=
  let disabled_detail := _disabled_endpoint_detail (ep_row e) in
  match disabled_detail, allow_disabled_policy_update with
  | Some detail, false => mret (failed detail)
  | _, _ =>
      let list_url := base_url +:+ "/proxmox/endpoints" in
      let receipt := strip (ep_binding_fingerprint e) in
      let revoke := _revoke_managed_cloud_image_binding e receipt list_url timeout deadline existing in
      prepared ← try_except
        (p ← _prepare_proxmox_push e base_url existing disabled_detail; mret (inl p))
        (fun exc => match exc with
                    | ConnectionAuthorityError _ => out ← revoke; mret (inr out)
                    | _ => raise exc
                    end);
      match prepared with
      | inr out => mret out
      | inl (prepared, cached_id) =>
          confirmed ← match cached_id with
                      | None => mret None
                      | Some id =>
                          t ← _remaining_request_timeout timeout deadline;
                          '(row, error) ← _confirmed_cached_proxmox_row (ep_row e) base_url id t;
                          mret match error, row with
                               | Some err, _ => Some (failed err)
                               | None, Some _ => Some (true, None, None)
                               | None, None => None
                               end
                      end;
          match confirmed with
          | Some out => mret out
          | None =>
              try_except (push_rows e base_url list_url receipt timeout deadline existing disabled_detail prepared)
                (fun exc =>
                   match exc with
                   | ConnectionAuthorityError _ => revoke
                   | RequestFailed detail status =>
                       mret (false, Some ("Failed to sync Proxmox endpoint to ProxBox backend: " +:+ detail), status)
                   | _ => raise exc
                   end)
          end
      end
  end.

End Registration.

(** ** What a run may do *)

Definition carries_secret (body : dict pyval) : bool := (dmem "password" body || dmem "token_value" body)%bool.

(** Every key of a binding is there and set. *)
Definition binds (body : dict pyval) : bool :=
  forallb (fun k => match dget k body with None | Some VNone => false | Some _ => true end) binding_keys.

Definition binding_of (body : dict pyval) : dict pyval :=
  omap (fun k => match dget k body with Some v => Some (k, v) | None => None end) binding_keys.

Definition secret_request (ev : reg_event) : bool :=
  match ev with EvHttp req _ => match hr_body req with Some b => carries_secret b | None => false end | _ => false end.

(** The outcome of the last approval check, if no request was sent since. *)
Fixpoint fresh_approval (l : list reg_event) : option bool :=
  match l with
  | EvApproval b :: _ => Some b
  | EvDb _ _ :: l' => fresh_approval l'
  | EvHttp _ _ :: _ | [] => None
  end.

(** An event that sends no credential and no binding, and grants nothing. *)
Definition harmless (ev : reg_event) : bool :=
  match ev with
  | EvHttp req _ => match hr_body req with Some b => negb (carries_secret b || binds b) | None => true end
  | EvDb (WritePacker true) _ => false
  | _ => true
  end.

Section Runs.
Context {E : Type} `{!RegEnv E}.
Context (e : RegEndpoint) (list_url : string) (existing : option (list (dict pyval))).

(** The backend's rows, as the run knows them. *)
Definition rows_known (old : list reg_event) (rows : list (dict pyval)) : Prop :=
  match existing with
  | Some given => rows = given
  | None => exists t status l, EvHttp (mkRequest "get" list_url None t) (HResp status (Some (VList l))) ∈ old /\
                               rows = dicts_of l
  end.

(** A request for the one row that claims the endpoint's identity, or for a
    new row where there is none. *)
Definition targets_own_row (req : http_request) (old : list reg_event) : Prop :=
  exists rows, rows_known old rows /\
    (List.length (_backend_rows_for_endpoint rows (ep_row e)) <= 1)%nat /\
    match hd_error (_backend_rows_for_endpoint rows (ep_row e)) ≫= row_id with
    | Some id => hr_method req = "put" /\ hr_url req = row_url list_url id
    | None => hr_method req = "post" /\ hr_url req = list_url
    end.

Definition event_ok (ev : reg_event) (old : list reg_event) : Prop :=
  match ev with
  | EvHttp req _ =>
      match hr_body req with
      | Some body =>
          (carries_secret body = true ->
             endpoint_enabled (ep_row e) = true /\ fresh_approval old = Some true /\
             Forall (fun ev => secret_request ev = false) old /\ targets_own_row req old) /\
          (binds body = true ->
             EvDb (WriteReceipt (rg_sha256 (rg_json (binding_of body)))) (DbRows 1) ∈ old)
      | None => True
      end
  | EvDb (WritePacker true) _ =>
      exists req body status answer, EvHttp req (HResp status answer) ∈ old /\ hr_body req = Some body /\ status < 400 /\
        truthy (get "enabled" body) = true /\ truthy (get "allow_packer_template_builds" body) = true
  | _ => True
  end.

Fixpoint log_ok (l : list reg_event) : Prop :=
  match l with [] => True | ev :: old => event_ok ev old /\ log_ok old end.

(** Nothing secret sent so far. *)
Definition clean (l : list reg_event) : Prop := log_ok l /\ Forall (fun ev => secret_request ev = false) l.

Lemma harmless_ok (ev : reg_event) (l : list reg_event) : harmless ev = true -> event_ok ev l.
Proof.
  destruct ev as [b|[m u [body|] t] a|[[]| | |] o]; simpl; try done.
  intros [Hs Hb]%negb_true_iff%orb_false_iff. by rewrite Hs, Hb.
Qed.

Lemma harmless_secret (ev : reg_event) : harmless ev = true -> secret_request ev = false.
Proof.
  destruct ev as [b|[m u [body|] t] a|w o]; simpl; try done. by intros [Hs _]%negb_true_iff%orb_false_iff.
Qed.

(** Properties of logs that harmless events keep. *)
Definition stable (P : list reg_event -> Prop) : Prop := forall ev l, harmless ev = true -> P l -> P (ev :: l).

Lemma log_ok_stable : stable log_ok.
Proof. intros ev l Hev Hl. split; [by apply harmless_ok|done]. Qed.

Lemma clean_stable : stable clean.
Proof.
  intros ev l Hev [Hl Hc]. split; [by apply log_ok_stable|]. constructor; [by apply harmless_secret|done].
Qed.

(** ** The parts of a run that send nothing secret *)

Definition kept (P : list reg_event -> Prop) : reg_world E -> Prop := fun w => P (rw_log w).

Context (P : list reg_event -> Prop) (HP : stable P).

Lemma with_env_kept {A} (op : E -> A * E) : keeps (kept P) (with_env op).
Proof. intros w Hw. unfold with_env. by destruct (op (rw_env w)). Qed.

Lemma log_kept (ev : reg_event) : harmless ev = true -> keeps (kept P) (modify (log_event ev)).
Proof. intros Hev. apply keeps_modify. intros w. by apply HP. Qed.

Lemma request_kept (req : http_request) :
  match hr_body req with Some b => (carries_secret b || binds b)%bool = false | None => True end ->
  keeps (kept P) (request req).
Proof.
  intros Hb. apply keeps_bind; [apply with_env_kept|]. intros a. apply keeps_bind.
  - apply log_kept. simpl. destruct (hr_body req); [by rewrite Hb|done].
  - intros _. destruct a; auto with effects.
Qed.

Lemma raise_for_status_kept (a : http_answer) : keeps (kept P) (raise_for_status a).
Proof. destruct a; simpl; split_ifs; auto with effects. Qed.

Lemma db_kept (wr : db_write) : wr <> WritePacker true -> keeps (kept P) (db_update wr).
Proof.
  intros Hw. apply keeps_bind; [apply with_env_kept|]. intros o. apply keeps_bind; [|auto with effects].
  apply log_kept. by destruct wr as [[]| | |].
Qed.

Lemma timeout_kept (timeout : Z) (deadline : option Z) : keeps (kept P) (_remaining_request_timeout timeout deadline).
Proof. destruct deadline; simpl; [apply keeps_bind; [apply with_env_kept|]|]; auto with effects. Qed.

Lemma set_cache_kept (c : dict cache_entry) : keeps (kept P) (set_cache c).
Proof. by apply keeps_modify. Qed.

Lemma approved_kept : keeps (kept P) (require_approved e).
Proof.
  apply keeps_bind; [apply with_env_kept|]. intros b. apply keeps_bind; [by apply log_kept|].
  intros _. destruct b; auto with effects.
Qed.

End Runs.

Create HintDb registration.
#[export] Hint Resolve with_env_kept raise_for_status_kept timeout_kept set_cache_kept approved_kept : registration.
#[export] Hint Resolve log_ok_stable clean_stable : registration.
#[export] Hint Extern 1 (keeps _ (request _)) => apply request_kept; [|reflexivity || exact I] : registration.
#[export] Hint Extern 1 (keeps _ (db_update _)) => apply db_kept; [|discriminate] : registration.

Ltac kept_step := first [keeps_step | solve [eauto with effects registration]].
Ltac kept := repeat kept_step.

Section Quiet.
Context {E : Type} `{!RegEnv E}.
Context (P : list reg_event -> Prop) (HP : stable P).

Lemma invalidate_kept (e : ProxmoxEndpoint) : keeps (kept (E := E) P) (invalidate_proxmox_endpoint_push_cache e).
Proof. unfold invalidate_proxmox_endpoint_push_cache. kept. Qed.

Lemma confirmed_kept (e : ProxmoxEndpoint) (base_url : string) (id timeout : Z) :
  keeps (kept (E := E) P) (_confirmed_cached_proxmox_row e base_url id timeout).
Proof.
  pose proof invalidate_kept as Hinv. unfold _confirmed_cached_proxmox_row. kept.
Qed.

Lemma payload_kept (e : RegEndpoint) : keeps (kept (E := E) P) (_proxmox_backend_payload e).
Proof. unfold _proxmox_backend_payload. kept. Qed.

Lemma cached_kept (e : ProxmoxEndpoint) (base_url fingerprint : string) :
  keeps (kept (E := E) P) (_cached_proxmox_push e base_url fingerprint).
Proof. unfold _cached_proxmox_push. kept. Qed.

Lemma prepare_kept (e : RegEndpoint) base_url existing disabled :
  keeps (kept (E := E) P) (_prepare_proxmox_push e base_url existing disabled).
Proof.
  pose proof payload_kept as H1. pose proof cached_kept as H2. unfold _prepare_proxmox_push. kept.
Qed.

Lemma revoke_row_kept list_url timeout deadline row failures :
  keeps (kept (E := E) P) (revoke_row list_url timeout deadline row failures).
Proof. unfold revoke_row. kept. Qed.

Lemma duplicates_kept (e : RegEndpoint) rows list_url timeout deadline :
  keeps (kept (E := E) P) (_revoke_duplicate_proxmox_rows e rows list_url timeout deadline).
Proof. pose proof revoke_row_kept. unfold _revoke_duplicate_proxmox_rows. kept. Qed.

Lemma known_rows_kept existing list_url prefix timeout deadline :
  keeps (kept (E := E) P) (known_rows existing list_url prefix timeout deadline).
Proof. unfold known_rows. kept. Qed.

Lemma erase_kept receipt : keeps (kept (E := E) P) (_erase_cloud_image_ssh_binding_fingerprint receipt).
Proof. unfold _erase_cloud_image_ssh_binding_fingerprint. kept. Qed.

Lemma revoke_kept (e : RegEndpoint) receipt list_url timeout deadline existing :
  keeps (kept (E := E) P) (_revoke_managed_cloud_image_binding e receipt list_url timeout deadline existing).
Proof.
  pose proof known_rows_kept. pose proof duplicates_kept. pose proof erase_kept.
  unfold _revoke_managed_cloud_image_binding. kept.
Qed.

Lemma disabled_kept existing receipt list_url timeout deadline :
  keeps (kept (E := E) P) (_update_disabled_proxmox_policy existing receipt list_url timeout deadline).
Proof.
  pose proof erase_kept. unfold _update_disabled_proxmox_policy, _record_confirmed_packer_template_authorization.
  destruct (nonempty receipt); kept.
Qed.

Lemma cache_success_kept (e : RegEndpoint) base_url payload fingerprint existing answer :
  keeps (kept (E := E) P) (_cache_successful_proxmox_push e base_url payload fingerprint existing answer).
Proof.
  unfold _cache_successful_proxmox_push, _cache_proxmox_push, _record_pushed_proxmox_credential_fingerprint. kept.
Qed.

End Quiet.

Section Sending.
Context {E : Type} `{!RegEnv E}.
Context (e : RegEndpoint) (list_url : string) (existing : option (list (dict pyval))).

Abbreviation ok := (log_ok e list_url existing).
Abbreviation tidy := (clean e list_url existing).
Abbreviation known := (rows_known list_url existing).

Lemma rows_known_cons (ev : reg_event) (l : list reg_event) (rows : list (dict pyval)) : known l rows -> known (ev :: l) rows.
Proof.
  unfold rows_known. destruct existing; [done|]. intros (t & s & l' & Hin & ->). exists t, s, l'. split; [by right|done].
Qed.

Lemma rows_known_stable (rows : list (dict pyval)) : stable (fun l => tidy l /\ known l rows).
Proof. intros ev l Hev [Ht Hk]. split; [by apply clean_stable|by apply rows_known_cons]. Qed.

(** The rule for requests: the answer is in the log, whatever it is. *)
Lemma wp_request (req : http_request) (Q : result http_answer -> reg_world E -> Prop) (w : reg_world E) :
  (forall env' answer, let w' := mkReg env' (rw_cache w) (EvHttp req answer :: rw_log w) in
     match answer with
     | HFail _ => forall exc, exc = RequestFailed (fst (rg_detail answer)) (snd (rg_detail answer)) -> Q (Err exc) w'
     | HResp _ _ => Q (Ok answer) w'
     end) -> wp (request req) Q w.
Proof.
  intros H. unfold wp, request, mbind, M_bind, with_env. destruct (rg_http req (rw_env w)) as [a env'].
  specialize (H env' a). simpl. destruct a; simpl in *; [exact H|by apply H].
Qed.

Lemma wp_known_rows (prefix : string) (timeout : Z) (deadline : option Z) (w : reg_world E) :
  tidy (rw_log w) ->
  wp (known_rows existing list_url prefix timeout deadline)
     (fun r w' => tidy (rw_log w') /\ match r with Ok (inl rows) => known (rw_log w') rows | _ => True end) w.
Proof.
  unfold known_rows. destruct existing as [rows|]; intros Hw; [by apply wp_ret|].
  apply wp_bind. eapply wp_mono; [apply wp_keeps; [apply (timeout_kept (clean e list_url None))|exact Hw]|].
  intros [t|exc] w1 Hw1; [|done]. apply wp_bind, wp_request. intros env' answer.
  assert (Ht : clean e list_url None (EvHttp (mkRequest "get" list_url None t) answer :: rw_log w1))
    by (by apply clean_stable).
  destruct answer as [status body|]; [|by intros w2 exc _]. unfold raise_for_status.
  destruct (400 <=? status); wp_steps; [done|]. split; [exact Ht|].
  destruct body as [[]|]; simpl; try done. unfold rows_known. eexists t, status, _. split; [left|done].
Qed.

(** The check that precedes a send. *)
Lemma wp_require_approved (P : list reg_event -> Prop) (w : reg_world E) :
  stable P -> P (rw_log w) ->
  wp (require_approved e)
     (fun r w' => P (rw_log w') /\ match r with Ok _ => fresh_approval (rw_log w') = Some true | Err _ => True end) w.
Proof.
  intros HP Hw. unfold wp, require_approved, mbind, M_bind, with_env. destruct (rg_approved _ (rw_env w)) as [b env'].
  simpl. destruct b; simpl; split; try done; by apply HP.
Qed.

(** A database write leaves the last approval check where it is. *)
Lemma wp_db (wr : db_write) (Q : result db_outcome -> reg_world E -> Prop) (w : reg_world E) :
  (forall env' o, Q (Ok o) (mkReg env' (rw_cache w) (EvDb wr o :: rw_log w))) -> wp (db_update wr) Q w.
Proof.
  intros H. unfold wp, db_update, mbind, M_bind, with_env. destruct (rg_db wr (rw_env w)) as [o env']. simpl. apply H.
Qed.

(** Everything a send needs. *)
Definition ready (rows : list (dict pyval)) (l : list reg_event) : Prop :=
  tidy l /\ known l rows /\ fresh_approval l = Some true.

Lemma ready_db (rows : list (dict pyval)) (wr : db_write) (o : db_outcome) (l : list reg_event) :
  wr <> WritePacker true -> ready rows l -> ready rows (EvDb wr o :: l).
Proof.
  intros Hw (Ht & Hk & Ha). split; [|split; [by apply rows_known_cons|done]].
  apply clean_stable; [|done]. by destruct wr as [[]| | |].
Qed.

Lemma emitted_all (payload : dict pyval) (keys : list string) :
  forallb (fun k => match dget k payload with None | Some VNone => false | Some _ => true end) keys = true ->
  let emitted := omap (fun k => match dget k payload with Some v => Some (k, v) | None => None end) keys in
  List.length emitted = List.length keys /\
  forallb (fun kv : string * pyval => negb match snd kv with VNone => true | _ => false end) emitted = true.
Proof.
  induction keys as [|k keys IH]; [done|]. cbn [forallb]. intros [Hk Hks]%andb_prop. specialize (IH Hks) as [Hl Hf].
  cbn [omap list_omap]. destruct (dget k payload) as [v|]; [|done]. cbn [List.length forallb snd].
  split; [by f_equal|]. rewrite andb_true_iff. split; [by destruct v|exact Hf].
Qed.

Lemma binding_fingerprint (payload : dict pyval) :
  binds payload = true ->
  _cloud_image_ssh_binding_fingerprint payload = Some (rg_sha256 (rg_json (binding_of payload))).
Proof.
  intros [Hl Hf]%emitted_all. unfold _cloud_image_ssh_binding_fingerprint, binding_of. by rewrite Hl, Hf.
Qed.

Lemma wp_receipt (payload : dict pyval) (rows : list (dict pyval)) (w : reg_world E) :
  (forall t, rg_sha256 t <> "") -> ready rows (rw_log w) ->
  wp match _cloud_image_ssh_binding_fingerprint payload with
     | Some (String _ _) =>
         try_except (_ ← _record_cloud_image_ssh_binding_fingerprint payload; mret None)
           (fun exc => match exc with CloudImageBindingReceiptError msg => mret (Some msg) | _ => raise exc end)
     | _ => mret None
     end
     (fun r w' => ready rows (rw_log w') /\
        (r = Ok None -> binds payload = true ->
         EvDb (WriteReceipt (rg_sha256 (rg_json (binding_of payload)))) (DbRows 1) ∈ rw_log w')) w.
Proof.
  intros Hsha Hw. destruct (binds payload) eqn:Hb.
  - unfold _record_cloud_image_ssh_binding_fingerprint. rewrite (binding_fingerprint payload Hb).
    pose proof (Hsha (rg_json (binding_of payload))) as Hne. set (fp := rg_sha256 _) in *.
    assert (is_empty fp = false) as -> by (by apply String.eqb_neq). destruct fp as [|c s]; [done|].
    wp_steps. destruct (rg_in_transaction (rw_env w)); wp_steps; [done|].
    apply wp_db. intros env' o. assert (Hr : ready rows (EvDb (WriteReceipt (String c s)) o :: rw_log w)) by (by apply ready_db).
    destruct o as [|[|[]|]]; wp_steps; try (by split); (split; [exact Hr|intros _ _; left]).
  - destruct (_cloud_image_ssh_binding_fingerprint payload) as [[|c s]|] eqn:Ef; [by apply wp_ret| |by apply wp_ret].
    unfold _record_cloud_image_ssh_binding_fingerprint. rewrite Ef. cbn [is_empty String.eqb].
    wp_steps. destruct (rg_in_transaction (rw_env w)); wp_steps; [done|].
    apply wp_db. intros env' o. assert (Hr : ready rows (EvDb (WriteReceipt (String c s)) o :: rw_log w)) by (by apply ready_db).
    destruct o as [|[|[]|]]; wp_steps; by split.
Qed.

(** Where the payload goes. *)
Definition own_request (row : option (dict pyval)) (payload : dict pyval) (t : Z) : http_request :=
  match row ≫= row_id with
  | Some id => mkRequest "put" (row_url list_url id) (Some payload) t
  | None => mkRequest "post" list_url (Some payload) t
  end.

Lemma own_request_body (row : option (dict pyval)) (payload : dict pyval) (t : Z) :
  hr_body (own_request row payload t) = Some payload.
Proof. unfold own_request. by destruct (row ≫= row_id). Qed.

Lemma own_request_ok (rows : list (dict pyval)) (payload : dict pyval) (t : Z) (answer : http_answer) (l : list reg_event) :
  let matching := _backend_rows_for_endpoint rows (ep_row e) in
  (List.length matching <= 1)%nat -> endpoint_enabled (ep_row e) = true -> ready rows l ->
  (binds payload = true -> EvDb (WriteReceipt (rg_sha256 (rg_json (binding_of payload)))) (DbRows 1) ∈ l) ->
  ok (EvHttp (own_request (hd_error matching) payload t) answer :: l).
Proof.
  intros matching Hlen Hen ([Hok Hclean] & Hk & Ha) Hrec. split; [|done]. cbn [event_ok].
  rewrite own_request_body. split; [|done]. intros _. repeat (split; [done|]). exists rows.
  split; [done|]. split; [done|]. unfold own_request. fold matching.
  by destruct (hd_error matching ≫= row_id).
Qed.

(** The grant is recorded after an accepted push that carries it. *)
Lemma packer_ok (req : http_request) (payload : dict pyval) (status : Z) (answer : option pyval) (o : db_outcome)
    (l : list reg_event) :
  EvHttp req (HResp status answer) ∈ l -> hr_body req = Some payload -> status < 400 -> ok l ->
  ok (EvDb (WritePacker (truthy (get "enabled" payload) && truthy (get "allow_packer_template_builds" payload))) o :: l).
Proof.
  intros Hin Hb Hs Hl. split; [|done]. destruct (_ && _)%bool eqn:Hp; [|done].
  apply andb_prop in Hp as [? ?]. exists req, payload, status, answer. by repeat split.
Qed.

(** Log properties a push keeps once it is sent. *)
Lemma sent_stable (ev0 : reg_event) : stable (fun l => ok l /\ ev0 ∈ l).
Proof. intros ev l Hev [Hl Hin]. split; [by apply log_ok_stable|by right]. Qed.

Lemma wp_send (payload : dict pyval) (fingerprint receipt base_url : string) (timeout : Z) (deadline : option Z)
    (rows : list (dict pyval)) (w : reg_world E) :
  (forall t, rg_sha256 t <> "") -> endpoint_enabled (ep_row e) = true ->
  (List.length (_backend_rows_for_endpoint rows (ep_row e)) <= 1)%nat -> ready rows (rw_log w) ->
  wp (_send_approved_proxmox_payload e payload fingerprint (hd_error (_backend_rows_for_endpoint rows (ep_row e)))
        receipt list_url base_url timeout deadline) (fun _ w' => ok (rw_log w')) w.
Proof.
  intros Hsha Hen Hlen Hw. unfold _send_approved_proxmox_payload. apply wp_bind.
  eapply wp_mono; [by apply wp_receipt|]. intros [[msg|]|exc] w1 [Hw1 Hrec]; [by apply Hw1| |by apply Hw1].
  specialize (Hrec eq_refl). apply wp_bind. unfold _remaining_request_timeout.
  eapply (wp_mono _ (fun _ w' => rw_log w' = rw_log w1)).
  { destruct deadline; [|done]. unfold wp, mbind, M_bind, with_env. by destruct (rg_clock (rw_env w1)). }
  intros [t|exc] w2 Hw2; [|rewrite Hw2; apply Hw1]. apply wp_bind.
  fold (own_request (hd_error (_backend_rows_for_endpoint rows (ep_row e))) payload t).
  apply wp_request. intros env' answer w3.
  assert (Hok : ok (rw_log w3)) by (unfold w3; cbn [rw_log]; rewrite Hw2; by apply own_request_ok).
  destruct answer as [status body|]; [|by intros exc _]. set (req := own_request _ _ _) in *.
  unfold raise_for_status. destruct (400 <=? status) eqn:Hs; wp_steps; [done|]. apply Z.leb_gt in Hs.
  set (Sent := fun l => ok l /\ EvHttp req (HResp status body) ∈ l).
  assert (Hsent : Sent (rw_log w3)) by (split; [done|left]).
  assert (Hst : stable Sent) by apply sent_stable. clearbody w3.
  eapply (wp_mono _ (fun _ => kept Sent)).
  { apply wp_keeps; [|exact Hsent]. split_ifs; [by apply erase_kept|apply keeps_ret]. }
  intros [[]|exc] w4 Hw4; [|apply Hw4]. apply wp_bind.
  eapply (wp_mono _ (fun _ => kept Sent)); [apply wp_keeps; [by apply cache_success_kept|exact Hw4]|].
  intros [[]|exc] w5 Hw5; [|apply Hw5]. unfold _record_confirmed_packer_template_authorization. wp_steps.
  apply wp_db. intros env'' o. wp_steps. cbn [rw_log].
  eapply packer_ok; [apply Hw5|apply own_request_body|done|apply Hw5].
Qed.

Lemma wp_push_rows (base_url receipt : string) (timeout : Z) (deadline : option Z) (disabled : option string)
    (prepared : option (dict pyval * string)) (w : reg_world E) :
  (forall t, rg_sha256 t <> "") -> (disabled = None -> endpoint_enabled (ep_row e) = true) -> tidy (rw_log w) ->
  wp (push_rows e base_url list_url receipt timeout deadline existing disabled prepared) (fun _ w' => ok (rw_log w')) w.
Proof.
  intros Hsha Hdis Hw. unfold push_rows. apply wp_bind. eapply wp_mono; [by apply wp_known_rows|].
  intros [[rows|out]|exc] w1 [Hw1 Hk]; [|by apply wp_ret, Hw1|by apply Hw1].
  assert (Hone : (List.length (_backend_rows_for_endpoint rows (ep_row e)) <= 1)%nat ->
    wp match disabled, prepared with
       | Some _, _ => _update_disabled_proxmox_policy (hd_error (_backend_rows_for_endpoint rows (ep_row e))) receipt
                        list_url timeout deadline
       | None, None => raise (AssertionError "")
       | None, Some (payload, fingerprint) =>
           _ ← require_approved e;
           _send_approved_proxmox_payload e payload fingerprint
             (hd_error (_backend_rows_for_endpoint rows (ep_row e))) receipt list_url base_url timeout deadline
       end (fun _ w' => ok (rw_log w')) w1).
  { intros Hlen. destruct disabled as [d|]; [apply (wp_keeps (kept ok)); [by apply disabled_kept, log_ok_stable|apply Hw1]|].
    destruct prepared as [[payload fp]|]; [|apply wp_raise, Hw1]. apply wp_bind.
    eapply wp_mono; [apply (wp_require_approved (fun l => tidy l /\ known l rows)); [apply rows_known_stable|done]|].
    intros [[]|exc] w2 [[Ht2 Hk2] Ha]; [|apply Ht2]. apply wp_send; auto. by split. }
  destruct (_backend_rows_for_endpoint rows (ep_row e)) as [|r1 [|r2 rs]]; [by apply Hone; simpl; lia..|].
  apply (wp_keeps (kept ok)); [by apply duplicates_kept, log_ok_stable|apply Hw1].
Qed.

End Sending.

(** C5: No push can leak: whatever the backend, the database and concurrent
    approvals do during the call, (1) a request that carries a password or
    token is sent at most once, only for an enabled endpoint, only when an
    approval check succeeded after the last exchange with the backend, and
    only to the one backend row that claims the endpoint's identity, or to the
    collection where no row does or the one that does has no id; (2) a request
    that carries a complete SSH binding is sent only after a receipt with the
    digest of that binding was committed; (3) the Packer
    grant is recorded as confirmed only after the backend accepted a payload
    that enables the endpoint and carries the grant. *)
Theorem registration_safe {E : Type} `{!RegEnv E} (e : RegEndpoint) (base_url : string) (timeout : Z)
    (deadline : option Z) (existing : option (list (dict pyval))) (allow_disabled : bool) (env : E)
    (cache : dict cache_entry) :
  (forall t, rg_sha256 t <> "") ->
  log_ok e (base_url +:+ "/proxmox/endpoints") existing
    (rw_log (snd (sync_proxmox_endpoint_to_backend e base_url timeout deadline existing allow_disabled
                    (mkReg env cache [])))).
Proof.
  intros Hsha. set (list_url := base_url +:+ "/proxmox/endpoints"). set (w := mkReg env cache []).
  assert (Hw : clean e list_url existing (rw_log w)) by (split; [done|constructor]). clearbody w.
  change (wp (sync_proxmox_endpoint_to_backend e base_url timeout deadline existing allow_disabled)
            (fun _ w' => log_ok e list_url existing (rw_log w')) w).
  set (tidy := clean e list_url existing) in *. assert (Htidy : stable tidy) by apply clean_stable.
  unfold sync_proxmox_endpoint_to_backend. fold list_url.
  destruct (_disabled_endpoint_detail (ep_row e)) as [d|] eqn:Ed;
    [destruct allow_disabled; [|apply wp_ret, Hw]|].
  all: apply wp_bind; eapply (wp_mono _ (fun _ => kept tidy));
    [apply wp_keeps; [|exact Hw]; apply keeps_try; [apply keeps_bind; [by apply prepare_kept|]; auto with effects|];
     intros []; auto with effects; apply keeps_bind; [by apply revoke_kept|]; auto with effects|].
  all: intros [[[prepared cached]|out]|exc] w1 Hw1; [|apply Hw1|apply Hw1].
  all: apply wp_bind; eapply (wp_mono _ (fun _ => kept tidy));
    [apply wp_keeps; [|exact Hw1]; destruct cached; [|auto with effects];
     apply keeps_bind; [by apply timeout_kept|]; intros ?; apply keeps_bind; [by apply confirmed_kept|];
     intros []; auto with effects|].
  all: intros [[out|]|exc] w2 Hw2; [apply Hw2| |apply Hw2].
  all: apply wp_try; eapply wp_mono; [apply wp_push_rows; [done| |exact Hw2]|].
  all: try (intros [out|exc] w3 Hw3; [done|]; destruct exc; try exact Hw3; try (by apply wp_raise);
            apply (wp_keeps (kept (log_ok e list_url existing))); [by apply revoke_kept, log_ok_stable|done]).
  - done.
  - intros _. unfold _disabled_endpoint_detail in Ed. by destruct (endpoint_enabled (ep_row e)).
Qed.

(** ** Fingerprints of credentials *)

(** A text of digits ends at the first colon. *)
Lemma digits_colon (s s' t t' : string) :
  all_chars is_digit s = true -> all_chars is_digit s' = true ->
  s +:+ String ":" t = s' +:+ String ":" t' -> s = s' /\ t = t'.
Proof.
  revert s'. induction s as [|c s IH]; intros [|c' s']; cbn [all_chars String.append].
  - intros _ _ [= ->]. done.
  - intros _ [Hc _]%andb_prop [= <- _]. done.
  - intros [Hc _]%andb_prop _ [= -> _]. done.
  - intros [_ Hs]%andb_prop [_ Hs']%andb_prop [= -> H]. destruct (IH _ Hs Hs' H) as [-> ->]. done.
Qed.

Lemma append_length_inj (s s' t t' : string) :
  String.length s = String.length s' -> s +:+ t = s' +:+ t' -> s = s' /\ t = t'.
Proof.
  revert s'. induction s as [|c s IH]; intros [|c' s']; cbn; try done. intros [= Hl] [= -> H].
  destruct (IH _ Hl H) as [-> ->]. done.
Qed.

Lemma material_cons (v : string) (l : list string) :
  _fingerprint_material (v :: l) =
  pretty (Z.of_nat (String.length v)) +:+ String ":" (v +:+ _fingerprint_material l).
Proof.
  unfold _fingerprint_material. destruct l as [|v' l]; cbn [List.map String.concat].
  - by rewrite app_empty_r.
  - by rewrite !app_assoc_string.
Qed.

Lemma pretty_nat_digits (n : nat) : all_chars is_digit (pretty (Z.of_nat n)) = true.
Proof.
  rewrite <- nat_N_Z. destruct (N.of_nat n) as [|p]; [done|].
  change (pretty (Z.of_N (N.pos p))) with (pretty (N.pos p)). apply pretty_N_chars.
Qed.

(** C40: The material of a credential fingerprint is unambiguous: no two lists of
    fields, of any contents and lengths, give the same material, so a rotation
    of a secret always changes what is hashed. *)
Theorem fingerprint_material_injective (l l' : list string) :
  _fingerprint_material l = _fingerprint_material l' <-> l = l'.
Proof.
  split; [|by intros ->]. revert l'.
  assert (Hne : forall v m, _fingerprint_material (v :: m) <> "").
  { intros v m. rewrite material_cons. by destruct (pretty (Z.of_nat (String.length v))). }
  induction l as [|v l IH]; intros [|v' l'] H; [done|by destruct (Hne v' l')|by destruct (Hne v l)|].
  rewrite !material_cons in H. apply digits_colon in H as [Hp H]; [|apply pretty_nat_digits..].
  apply (inj pretty) in Hp. apply append_length_inj in H as [-> H]; [|lia]. by rewrite (IH l' H).
Qed.

(** ** Translating an endpoint to its backend id *)

(** The answer that a resolution rests on: one row, or a listing. *)
Definition answered_rows (l : list reg_event) (rows : list (dict pyval)) : Prop :=
  (exists req status row, EvHttp req (HResp status (Some (VDict row))) ∈ l /\ rows = [row]) \/
  (exists req status items, EvHttp req (HResp status (Some (VList items))) ∈ l /\ rows = dicts_of items).

Section Resolution.
Context {E : Type} `{!RegEnv E}.

Lemma wp_confirmed (e : ProxmoxEndpoint) (base_url : string) (id timeout : Z) (w : reg_world E) :
  wp (_confirmed_cached_proxmox_row e base_url id timeout)
     (fun r w' => forall row err, r = Ok (Some row, err) ->
        answered_rows (rw_log w') [row] /\ _resolve_backend_row_id [row] e = inl id) w.
Proof.
  unfold _confirmed_cached_proxmox_row. apply wp_bind, wp_try, wp_bind, wp_request. intros env' answer w1.
  destruct answer as [status body|error]; [|intros exc ->; by wp_steps]. cbn [answer_status].
  assert (Hin : EvHttp (mkRequest "get" (base_url +:+ "/proxmox/endpoints/" +:+ pretty id) None timeout)
                  (HResp status body) ∈ rw_log w1) by left. clearbody w1.
  assert (Hquiet : forall (Q : result (option (dict pyval) * option string) -> reg_world E -> Prop) w',
    (forall w'', Q (Ok (None, None)) w'') ->
    wp (_ ← invalidate_proxmox_endpoint_push_cache e; mret (None, None)) Q w').
  { intros Q w' HQ. unfold invalidate_proxmox_endpoint_push_cache. wp_steps.
    destruct (dget _ (rw_cache w')) as [[]|]; unfold set_cache; try destruct rg_delete_pattern; wp_steps; apply HQ. }
  destruct (status =? 404).
  - wp_steps. unfold invalidate_proxmox_endpoint_push_cache. wp_steps.
    destruct (dget _ (rw_cache w1)) as [[]|]; unfold set_cache; try destruct rg_delete_pattern; by wp_steps.
  - unfold raise_for_status. destruct (400 <=? status); wp_steps; [by wp_steps|].
    destruct body as [[| | | | | |row]|]; cbn [response_json]; try (apply Hquiet; done).
    destruct (_resolve_backend_row_id [row] e) as [id'|] eqn:Er; [|by apply Hquiet].
    destruct (id' =? id) eqn:Eid; [|by apply Hquiet]. apply Z.eqb_eq in Eid as ->. wp_steps.
    intros row' err [= <- _]. split; [|done]. left. eexists _, status, row. split; [exact Hin|done].
Qed.

(** A resolved id is that of a row the backend just showed, that claims the
    endpoint's identity and dials its target. *)
Lemma resolution_confirmed (e : RegEndpoint) (base_url : string) (timeout id : Z) (w w' : reg_world E) :
  resolve_backend_endpoint_id e base_url timeout w = (Ok (inl id), w') ->
  endpoint_enabled (ep_row e) = true /\
  exists rows, answered_rows (rw_log w') rows /\ row_of rows (ep_row e) id.
Proof.
  intros Hrun. refine (wp_intro _ (fun r w' => forall id', r = Ok (inl id') ->
    endpoint_enabled (ep_row e) = true /\ exists rows, answered_rows (rw_log w') rows /\ row_of rows (ep_row e) id')
    w w' _ _ Hrun id eq_refl). clear. unfold resolve_backend_endpoint_id.
  destruct (_disabled_endpoint_detail (ep_row e)) as [d|] eqn:Ed; [by apply wp_ret|].
  assert (Hen : endpoint_enabled (ep_row e) = true)
    by (unfold _disabled_endpoint_detail in Ed; by destruct (endpoint_enabled (ep_row e))).
  apply wp_bind. eapply (wp_mono _ (fun _ _ => True)); [done|]. intros [cached|exc] w1 _; [|done].
  apply wp_bind. eapply (wp_mono _ (fun r w' => forall id', r = Ok (Some (inl id')) ->
    exists rows, answered_rows (rw_log w') rows /\ _resolve_backend_row_id rows (ep_row e) = inl id')).
  { destruct cached as [cid|]; [|by apply wp_ret]. apply wp_bind. eapply wp_mono; [apply wp_confirmed|].
    intros [[row err]|exc] w2 Hc; [|done]. apply wp_ret. intros id' Hid. destruct err, row as [row|]; try done.
    injection Hid as <-. exists [row]. by apply Hc with None. }
  intros [[[id0|err]|]|exc] w2 Hc; [| | |done].
  - apply wp_ret. intros id' [= <-]. split; [done|]. destruct (Hc id0 eq_refl) as (rows & ? & ?%resolve_row_sound). eauto.
  - by apply wp_ret.
  - unfold list_rows. apply wp_bind, wp_bind, wp_try, wp_bind, wp_request. intros env' answer w3.
    destruct answer as [status body|]; [|intros exc ->; by wp_steps].
    unfold raise_for_status. destruct (400 <=? status); wp_steps; [by wp_steps|].
    intros id'. destruct body as [[]|]; simpl; try done. intros [= Hid]. split; [done|].
    eexists. split; [|by apply resolve_row_sound]. right. eexists _, status, _. split; [left|done].
Qed.

End Resolution.

(** ** A scripted environment *)

(** Answers of the backend and of the approval check, in order; the last
    answer of each repeats. *)
Record reg_script := mkScript { rs_answers : list http_answer; rs_approvals : list bool; rs_transaction : bool }.

Definition next {A} (dflt : A) (l : list A) : A * list A :=
  match l with [] => (dflt, []) | [a] => (a, [a]) | a :: l' => (a, l') end.

#[global] Instance script_reg_env : RegEnv reg_script := {|
  rg_clock := fun s => (0, s);
  rg_http := fun _ s => let '(a, l) := next (HFail "gone") (rs_answers s) in
                        (a, mkScript l (rs_approvals s) (rs_transaction s));
  rg_detail := fun a => match a with HResp s _ => ("HTTP " +:+ pretty s, Some s) | HFail m => (m, None) end;
  rg_approved := fun _ s => let '(b, l) := next false (rs_approvals s) in
                            (b, mkScript (rs_answers s) l (rs_transaction s));
  rg_credentials := fun _ s => (Ok ("hunter2", ""), s);
  rg_tuning := fun _ => Ok (30, 3, VFloat "0.5");
  rg_nodes := fun _ _ => [("pve1", "10.0.0.5/24")];
  rg_db := fun _ s => (DbRows 1, s);
  rg_in_transaction := rs_transaction;
  rg_delete_pattern := false;
  rg_sha256 := fun t => "s" +:+ pretty (Z.of_nat (String.length t));
  rg_json := fun d => repr (VDict d);
  rg_hmac := fun salt t => "m" +:+ t
|}.

Definition registered_row : ProxmoxEndpoint :=
  {| endpoint_pk := 7; endpoint_name := "pve"; endpoint_enabled := true; endpoint_domain := "";
     endpoint_ip_address := Some "10.0.0.5/24"; endpoint_port := 8006;
     endpoint_overwrite := fun _ => None; endpoint_sync_mode := fun _ => None;
     endpoint_enable_tenant_name_regex := None; endpoint_tenant_name_regex_rules := None;
     endpoint_enable_tenant_tag_assignment := None; endpoint_enable_tenant_from_cluster := None |}.

(** An endpoint with every gate open and a complete SSH binding. *)
Definition registered_endpoint : RegEndpoint :=
  mkRegEndpoint registered_row "root@pam" "" true true true "api_ssh" "" None None None None None
    "10.0.0.5" "root" 22 "SHA256:abc" "pve1" "/keys/../keys/id" "" "".

Definition backend_row (id : Z) : pyval :=
  VDict [("id", VInt id); ("name", VStr "old name (nb:7)"); ("ip_address", VStr "10.0.0.5"); ("port", VInt 8006)].

Definition listing (rows : list pyval) : http_answer := HResp 200 (Some (VList rows)).

Definition run_push (s : reg_script) : result outcome * reg_world reg_script :=
  sync_proxmox_endpoint_to_backend registered_endpoint "http://api" 30 None None false (mkReg s [] []).

Definition sent (r : result outcome * reg_world reg_script) : list (string * string * bool) :=
  omap (fun ev => match ev with EvHttp req _ => Some (hr_method req, hr_url req, secret_request ev) | _ => None end)
    (List.rev (rw_log (snd r))).

(** An update of the one row; a refusal inside a transaction; an approval
    withdrawn between the listing and the send; two rows with one identity. *)
Example pushes :
  List.map sent
    [run_push (mkScript [listing [backend_row 4]; HResp 200 None] [true] false);
     run_push (mkScript [listing [backend_row 4]; HResp 200 None] [true] true);
     run_push (mkScript [listing [backend_row 4]] [true; true; false] false);
     run_push (mkScript [listing [backend_row 4; backend_row 5]; HResp 500 None] [true] false)] =
  let list := ("get", "http://api/proxmox/endpoints", false) in
  [[list; ("put", "http://api/proxmox/endpoints/4", true)]; [list]; [list];
   [list; ("put", "http://api/proxmox/endpoints/4", false); ("put", "http://api/proxmox/endpoints/5", false)]].
Proof. vm_compute. reflexivity. Qed.

Lemma registration_safe_witness :
  log_ok registered_endpoint "http://api/proxmox/endpoints" None
    (rw_log (snd (run_push (mkScript [listing [backend_row 4]; HResp 200 None] [true] false)))) /\
  List.map fst (sent (run_push (mkScript [listing [backend_row 4]; HResp 200 None] [true] false))) <> [].
Proof.
  split; [|vm_compute; discriminate].
  apply (registration_safe registered_endpoint "http://api" 30 None None false). intros t. discriminate.
Defined.
