(* ===== verification/FirewallPush.v ===== *)
(** * Pushing firewall objects

    intent/firewall_common.py and services/operational_target.py: a firewall
    object of NetBox is written to Proxmox through the backend, at a path that
    depends on its kind and scope, only when its endpoint owns everything the
    object is linked to, is enabled, allows writes and is within the
    permissions of the user; the outcome is kept in the status of the object.

    The world is the one of BackendRegistration.v, which translates the endpoint
    to the backend's own id, with a log of the statuses saved and the requests
    sent, the last first. *)
From Stdlib Require Import ZArith Lia Ascii String.
From stdpp Require Import base list sets strings pretty.
From S2P Require Import Prelude Effects SyncModes Deadline StageExec VmObjects Text BackendPath.
From S2P Require Import EndpointScope BackendRegistration.

(** ** Objects *)

Record FwNode := mkFwNode { fn_name : string; fn_endpoint : option RegEndpoint }.

Record FwGroup := mkFwGroup {
  fg_pk : Z; fg_name : string; fg_comment : pyval; fg_endpoint : option RegEndpoint
}.

Record FwIpset := mkFwIpset {
  fi_pk : Z; fi_name : string; fi_comment : pyval; fi_scope : string;
  fi_endpoint : option RegEndpoint; fi_vm : option VirtualMachine
}.

Record FwEntry := mkFwEntry {
  fy_pk : Z; fy_ipset : FwIpset; fy_cidr : string; fy_comment : pyval; fy_nomatch : bool; fy_raw_config : pyval
}.

Record FwAlias := mkFwAlias {
  fa_pk : Z; fa_name : string; fa_cidr : string; fa_comment : pyval; fa_scope : string;
  fa_endpoint : option RegEndpoint; fa_vm : option VirtualMachine
}.

Record FwOptions := mkFwOptions {
  fo_pk : Z; fo_zone : string; fo_endpoint : option RegEndpoint; fo_node : option FwNode;
  fo_vm : option VirtualMachine; fo_enable : pyval; fo_policy_in : string; fo_policy_out : string;
  fo_options : dict pyval
}.

Record FwRule := mkFwRule {
  fr_pk : Z; fr_zone : string; fr_endpoint : option RegEndpoint; fr_node : option FwNode;
  fr_vm : option VirtualMachine; fr_group : option FwGroup; fr_pos : Z; fr_rule_type : string;
  fr_action : string; fr_enable : bool; fr_macro : string; fr_iface : string; fr_source : string;
  fr_dest : string; fr_proto : string; fr_dport : string; fr_sport : string; fr_log : string;
  fr_icmp_type : string; fr_comment : pyval; fr_digest : string; fr_raw_config : pyval
}.

Inductive fw_object :=
| OGroup (g : FwGroup)
| ORule (r : FwRule)
| OIpset (s : FwIpset)
| OEntry (e : FwEntry)
| OAlias (a : FwAlias)
| OOptions (o : FwOptions).

(** The row whose status an object has: an entry has that of its set. *)
Inductive status_row := SGroup (pk : Z) | SRule (pk : Z) | SIpset (pk : Z) | SAlias (pk : Z) | SOptions (pk : Z).

Definition _status_target (o : fw_object) : status_row :=
  match o with
  | OGroup g => SGroup (fg_pk g)
  | ORule r => SRule (fr_pk r)
  | OIpset s => SIpset (fi_pk s)
  | OEntry e => SIpset (fi_pk (fy_ipset e))
  | OAlias a => SAlias (fa_pk a)
  | OOptions o => SOptions (fo_pk o)
  end.

Definition DATACENTER : string := "datacenter".
Definition NODE : string := "node".
Definition VM_QEMU : string := "vm_qemu".
Definition VM_LXC : string := "vm_lxc".
Definition SECURITY_GROUP : string := "security_group".
Definition VNET : string := "vnet".

Definition vm_zone (z : string) : bool := mem_str z [VM_QEMU; VM_LXC].

Definition _firewall_scope_for_object (o : fw_object) : option string :=
  match o with
  | OGroup _ => None
  | ORule r => Some (fr_zone r)
  | OIpset s => Some (fi_scope s)
  | OEntry e => Some (fi_scope (fy_ipset e))
  | OAlias a => Some (fa_scope a)
  | OOptions o => Some (fo_zone o)
  end.

Definition _virtual_machine_for_scope (o : fw_object) : option VirtualMachine :=
  match o with
  | OGroup _ => None
  | ORule r => fr_vm r
  | OIpset s => fi_vm s
  | OEntry e => fi_vm (fy_ipset e)
  | OAlias a => fa_vm a
  | OOptions o => fo_vm o
  end.

(** ** Which endpoint owns an object *)

Definition _explicit_firewall_endpoint (o : fw_object) : option RegEndpoint :=
  match o with
  | OGroup g => fg_endpoint g
  | ORule r => fr_endpoint r
  | OIpset s => fi_endpoint s
  | OEntry e => fi_endpoint (fy_ipset e)
  | OAlias a => fa_endpoint a
  | OOptions o => fo_endpoint o
  end.

(** [_vm_sync_state_endpoint]: is there an endpoint, and is it disabled? *)
Definition state_endpoint_disabled (vm : option VirtualMachine) : bool :=
  match vm with
  | Some vm =>
      match vm_sync_state vm with
      | Some ss => match ss_endpoint ss with Some (_, enabled) => negb enabled | None => false end
      | None => false
      end
  | None => false
  end.

Definition _validate_vm_endpoint_identity (o : fw_object) (endpoint : RegEndpoint) : result () :=
  let vm := _virtual_machine_for_scope o in
  match match vm with Some vm => resolve_vm_endpoint_context vm | None => None end with
  | None =>
      if state_endpoint_disabled vm
      then Err (FirewallPushError "endpoint_disabled" "The VM's authoritative Proxmox endpoint is disabled." 403)
      else Err (FirewallPushError "vm_endpoint_identity_required"
                  "VM-scoped firewall operations require a complete, consistent Proxbox sync-state endpoint identity."
                  400)
  | Some (authoritative_endpoint_id, _, vm_type) =>
      if negb (ep_pk endpoint =? authoritative_endpoint_id)
      then Err (FirewallPushError "endpoint_mismatch"
                  "The firewall object's endpoint does not own its virtual machine." 403)
      else
        let expected_type :=
          if bool_decide (_firewall_scope_for_object o = Some VM_LXC) then "lxc" else "qemu" in
        if negb (String.eqb vm_type expected_type)
        then Err (FirewallPushError "firewall_scope_mismatch"
                    "The firewall object's VM scope does not match its authoritative VM type." 400)
        else Ok ()
  end.

Definition _require_matching_endpoint (endpoint : RegEndpoint) (related : option RegEndpoint) (detail : string) :
    result () :=
  match related with
  | Some r => if ep_pk endpoint =? ep_pk r then Ok () else Err (FirewallPushError "endpoint_mismatch" detail 403)
  | None => Err (FirewallPushError "endpoint_mismatch" detail 403)
  end.

Definition object_node (o : fw_object) : option FwNode :=
  match o with ORule r => fr_node r | OOptions o => fo_node o | _ => None end.

Definition object_group (o : fw_object) : option FwGroup :=
  match o with ORule r => fr_group r | _ => None end.

Definition _require_consistent_firewall_endpoint (o : fw_object) : result RegEndpoint :=
  match _explicit_firewall_endpoint o with
  | None => Err (FirewallPushError "endpoint_required"
                   "This firewall object is not explicitly linked to a Proxmox endpoint." 400)
  | Some endpoint =>
      match _firewall_scope_for_object o with
      | Some scope =>
          if vm_zone scope then _ ← _validate_vm_endpoint_identity o endpoint; mret endpoint
          else if String.eqb scope NODE then
            _ ← _require_matching_endpoint endpoint (match object_node o with Some n => fn_endpoint n | None => None end)
                  "The firewall object's node belongs to a different Proxmox endpoint.";
            mret endpoint
          else if String.eqb scope SECURITY_GROUP then
            _ ← _require_matching_endpoint endpoint (match object_group o with Some g => fg_endpoint g | None => None end)
                  "The firewall object's security group belongs to a different Proxmox endpoint.";
            mret endpoint
          else mret endpoint
      | None => mret endpoint
      end
  end.

Definition resolve_firewall_endpoint (o : fw_object) : option RegEndpoint :=
  match _require_consistent_firewall_endpoint o with Ok e => Some e | Err _ => None end.

(** ** Paths *)

Definition fw_fail {A} (reason detail : string) (status : Z) : result A := Err (FirewallPushError reason detail status).

(** [_path_segment]: an unsafe value becomes a refusal. *)
Definition _path_segment (value : string) : result string :=
  match safe_path_segment (VStr value) with
  | Ok s => Ok s
  | Err _ => fw_fail "invalid_identifier"
               "A firewall object name, node name, or VNet name is not a valid Proxmox identifier, so no backend request was made."
               400
  end.

Definition _ipset_entry_segment (cidr : string) : result string :=
  let text := strip cidr in
  if is_ip_network text then Ok (quote text) else _path_segment text.

Definition _extract_vm_id (vm : option VirtualMachine) : option Z :=
  match vm with None => None | Some vm => int_of_string (resolve_vm_vmid vm) end.

Definition _vm_node_name (vm : option VirtualMachine) : string :=
  match vm with None => "" | Some vm => strip (resolve_vm_node vm) end.

(** The safe VMID as a number, the node and the type. *)
Definition _vm_context (vm : option VirtualMachine) (zone : string) : result (Z * string * string) :=
  let vm_type := if String.eqb zone VM_LXC then "lxc" else "qemu" in
  match _extract_vm_id vm with
  | None => fw_fail "vmid_required"
              "VM-scoped firewall pushes require a Proxmox VM ID in the Proxbox sync-state record. Run a Proxbox sync." 400
  | Some vmid =>
      let node := _vm_node_name vm in
      if is_empty node
      then fw_fail "vm_node_required" "VM-scoped firewall pushes require a Proxmox node name on the VM." 400
      else match safe_vmid (VInt vmid) with
           | Ok _ => Ok (vmid, node, vm_type)
           | Err _ => fw_fail "vmid_invalid" "The Proxmox VM ID recorded for this VM is not a valid identifier." 400
           end
  end.

Definition _node_name (node : option FwNode) : result string :=
  let name := strip (match node with Some n => fn_name n | None => "" end) in
  if is_empty name then fw_fail "node_required" "Node-level firewall pushes require a Proxmox node." 400 else Ok name.

(** A path: its segments, and the query behind them. *)
Record fw_path := mkPath { path_segs : list string; path_query : string }.

(** [f"/proxmox/firewall/{...}?{query}"] *)
Definition path_text (p : fw_path) : string :=
  "/" +:+ join "/" (["proxmox"; "firewall"] ++ path_segs p) +:+
  (if is_empty (path_query p) then "" else "?" +:+ path_query p).

Definition vm_query (node vm_type : string) : string := "node=" +:+ quote node +:+ "&vm_type=" +:+ vm_type.

(** [_has_remote_marker]: a digest or a recorded configuration *)
Definition remote_marker (digest : string) (raw_config : pyval) : bool :=
  (nonempty digest || match raw_config with VDict [] => false | VDict _ => true | _ => false end)%bool.

Definition _rule_push_target (rule : FwRule) : result (string * fw_path) :=
  let create := negb (remote_marker (fr_digest rule) (fr_raw_config rule)) in
  let suffix := if create then [] else [pretty (fr_pos rule)] in
  let method := if create then "post" else "put" in
  let zone := fr_zone rule in
  if String.eqb zone DATACENTER then Ok (method, mkPath (["datacenter"; "rules"] ++ suffix) "")
  else if String.eqb zone NODE then
    name ← _node_name (fr_node rule);
    seg ← _path_segment name;
    mret (method, mkPath (["nodes"; seg; "rules"] ++ suffix) "")
  else if String.eqb zone SECURITY_GROUP then
    let name := match fr_group rule with Some g => fg_name g | None => "" end in
    if is_empty name
    then fw_fail "security_group_required" "Security-group firewall rules require a security group." 400
    else
      seg ← _path_segment name;
      mret (method, mkPath (["datacenter"; "groups"; seg; "rules"] ++ suffix) "")
  else if vm_zone zone then
    '(vmid, node, vm_type) ← _vm_context (fr_vm rule) zone;
    mret (method, mkPath (["vms"; pretty vmid; "rules"] ++ suffix) (vm_query node vm_type))
  else if String.eqb zone VNET then
    let vnet := strip (fr_iface rule) in
    if is_empty vnet
    then fw_fail "vnet_required" "VNet firewall rules require the interface field to hold the VNet name." 400
    else
      seg ← _path_segment vnet;
      mret (method, mkPath (["vnets"; seg; "rules"] ++ suffix) "")
  else fw_fail "unsupported_firewall_zone" ("Unsupported firewall rule zone: " +:+ zone) 400.

Definition _scoped_collection_path (scope : string) (vm : option VirtualMachine) (noun : string) : result fw_path :=
  if String.eqb scope DATACENTER then Ok (mkPath ["datacenter"; noun] "")
  else if vm_zone scope then
    '(vmid, node, vm_type) ← _vm_context vm scope;
    mret (mkPath ["vms"; pretty vmid; noun] (vm_query node vm_type))
  else fw_fail "unsupported_firewall_scope" ("Unsupported firewall scope: " +:+ scope) 400.

(** [_path_add_segments]: in front of the query *)
Definition _path_add_segments (p : fw_path) (segments : list string) : fw_path :=
  mkPath (path_segs p ++ segments) (path_query p).

Definition _ipset_entry_path (e : FwEntry) : result fw_path :=
  collection ← _scoped_collection_path (fi_scope (fy_ipset e)) (fi_vm (fy_ipset e)) "ipsets";
  seg ← _path_segment (fi_name (fy_ipset e));
  mret (_path_add_segments collection [seg; "entries"]).

Definition _options_path (o : FwOptions) : result fw_path :=
  if String.eqb (fo_zone o) DATACENTER then Ok (mkPath ["datacenter"; "options"] "")
  else if String.eqb (fo_zone o) NODE then
    name ← _node_name (fo_node o);
    seg ← _path_segment name;
    mret (mkPath ["nodes"; seg; "options"] "")
  else if vm_zone (fo_zone o) then
    '(vmid, node, vm_type) ← _vm_context (fo_vm o) (fo_zone o);
    mret (mkPath ["vms"; pretty vmid; "options"] (vm_query node vm_type))
  else fw_fail "unsupported_firewall_options_zone"
         "Firewall options pushes are only supported for datacenter, node, and VM zones." 400.

(** ** Payloads *)

Definition _drop_empty (payload : dict pyval) : dict pyval :=
  List.filter (fun kv => negb (none_or_empty (snd kv))) payload.

Definition _rule_payload (rule : FwRule) : dict pyval :=
  _drop_empty
    [("pos", VInt (fr_pos rule)); ("type", VStr (fr_rule_type rule)); ("action", VStr (fr_action rule));
     ("enable", VBool (fr_enable rule)); ("macro", VStr (fr_macro rule)); ("iface", VStr (fr_iface rule));
     ("source", VStr (fr_source rule)); ("dest", VStr (fr_dest rule)); ("proto", VStr (fr_proto rule));
     ("dport", VStr (fr_dport rule)); ("sport", VStr (fr_sport rule)); ("log", VStr (fr_log rule));
     ("icmp-type", VStr (fr_icmp_type rule)); ("comment", fr_comment rule); ("digest", VStr (fr_digest rule))].

Definition firewall_object_state (o : fw_object) : dict pyval :=
  match o with
  | OGroup g => _drop_empty [("name", VStr (fg_name g)); ("comment", fg_comment g)]
  | ORule r => _rule_payload r
  | OIpset s => _drop_empty [("name", VStr (fi_name s)); ("comment", fi_comment s)]
  | OEntry e => _drop_empty [("cidr", VStr (fy_cidr e)); ("comment", fy_comment e); ("nomatch", VBool (fy_nomatch e))]
  | OAlias a => _drop_empty [("name", VStr (fa_name a)); ("cidr", VStr (fa_cidr a)); ("comment", fa_comment a)]
  | OOptions o =>
      _drop_empty (dupdate [("enable", fo_enable o); ("policy_in", VStr (fo_policy_in o));
                            ("policy_out", VStr (fo_policy_out o))] (fo_options o))
  end.

(** Method, path and payload of a push: the first lines of [push_rule] and its
    siblings.  An alias has neither a digest nor a recorded configuration. *)
Definition push_target (o : fw_object) : result (string * string * dict pyval) :=
  match o with
  | OGroup g =>
      Ok ("post", path_text (mkPath ["datacenter"; "groups"] ""),
          _drop_empty [("group", VStr (fg_name g)); ("comment", fg_comment g)])
  | ORule r =>
      '(method, p) ← _rule_push_target r;
      mret (method, path_text p, _rule_payload r)
  | OIpset s =>
      p ← _scoped_collection_path (fi_scope s) (fi_vm s) "ipsets";
      mret ("post", path_text p, _drop_empty [("name", VStr (fi_name s)); ("comment", fi_comment s)])
  | OEntry e =>
      p ← _ipset_entry_path e;
      let payload := firewall_object_state (OEntry e) in
      if remote_marker "" (fy_raw_config e) then
        seg ← _ipset_entry_segment (fy_cidr e);
        mret ("put", path_text p +:+ "/" +:+ seg, payload)
      else mret ("post", path_text p, payload)
  | OAlias a =>
      p ← _scoped_collection_path (fa_scope a) (fa_vm a) "aliases";
      if remote_marker "" VNone then
        seg ← _path_segment (fa_name a);
        mret ("put", path_text (_path_add_segments p [seg]), firewall_object_state (OAlias a))
      else mret ("post", path_text p, firewall_object_state (OAlias a))
  | OOptions o =>
      p ← _options_path o;
      mret ("put", path_text p,
            _drop_empty [("enable", fo_enable o); ("policy_in", VStr (fo_policy_in o));
                         ("policy_out", VStr (fo_policy_out o)); ("options", VDict (fo_options o))])
  end.

(** ** Who may use an endpoint *)

(** A user: the legacy permission for all endpoints, or object permissions. *)
Record op_user := mkOpUser { ou_legacy : bool; ou_restrict : Z -> bool }.

Record OperationalTarget := mkTarget {
  tg_endpoint : RegEndpoint; tg_backend_endpoint_id : Z; tg_context : BackendRequestContext
}.

Record fw_request := mkFwRequest {
  fq_method : string; fq_url : string; fq_json : dict pyval; fq_headers : dict string; fq_verify : bool
}.

(** A response: status, parsed body ([VNone] when it is not JSON), text. *)
Record fw_response := mkFwResponse { fp_status : Z; fp_body : pyval; fp_text : string }.

Class FirewallEnv (E : Type) := {
  (* ProxmoxEndpoint.objects.all() *)
  fw_rows : E -> list RegEndpoint;
  (* get_fastapi_request_context() *)
  fw_context : E -> option BackendRequestContext;
  (* the HTTP client: a response, or a translated HttpError *)
  fw_http : fw_request -> E -> (fw_response + string) * E;
  (* save(update_fields=["status"]) *)
  fw_save : status_row -> string -> E -> result () * E
}.

(** A save of a status, and whether it went through; a request. *)
Inductive fw_event := EvStatus (row : status_row) (status : string) (saved : bool) | EvRequest (req : fw_request).

Record fw_world (E : Type) := mkFw { fw_reg : reg_world E; fw_log : list fw_event }.
Arguments mkFw {E} _ _.
Arguments fw_reg {E} _.
Arguments fw_log {E} _.

(** [FirewallPushResult] *)
Record FirewallPushResult := mkPushResult {
  pr_status : string; pr_endpoint_id : Z; pr_path : string; pr_method : string; pr_payload : dict pyval;
  pr_response : option (dict pyval); pr_reason : pyval; pr_detail : pyval; pr_http_status : Z
}.

Definition ACTIVE : string := "active".
Definition STALE : string := "stale".
Definition ERROR : string := "error".

(** [_payload_value]: in the body, or in the body's own [detail] *)
Definition _payload_value (payload : pyval) (key : string) : pyval :=
  match payload with
  | VDict d =>
      match dget key d with
      | Some v => v
      | None => match get "detail" d with VDict detail => get key detail | _ => VNone end
      end
  | _ => VNone
  end.

Section Push.
Context {E : Type} `{!RegEnv E, !FirewallEnv E}.

Abbreviation W := (fw_world E).

Definition in_reg {A} (m : M (reg_world E) A) : M W A := fun w =>
  let '(r, reg') := m (fw_reg w) in (r, mkFw reg' (fw_log w)).

Definition log_fw (ev : fw_event) : M W () := modify (fun w => mkFw (fw_reg w) (ev :: fw_log w)).

Definition fw_env (w : W) : E := rw_env (fw_reg w).

Definition _authorized_endpoint (user : op_user) (pk : Z) (rows : list RegEndpoint) : option RegEndpoint :=
  hd_error (List.filter (fun e => ((ou_legacy user || ou_restrict user (ep_pk e)) && (ep_pk e =? pk))%bool) rows).

(** [base_url=resolved_context.http_url.rstrip("/")] *)
Definition resolve_operational_target (endpoint : RegEndpoint) (user : option op_user) (timeout : Z) :
    M W OperationalTarget :=
  rows ← gets (fun w => fw_rows (fw_env w));
  match match user with Some u => _authorized_endpoint u (ep_pk endpoint) rows | None => Some endpoint end with
  | None =>
      raise (OperationalTargetError "permission_denied"
               "Proxmox endpoint is outside the operational permission scope." 404)
  | Some authorized =>
      if negb (endpoint_enabled (ep_row authorized))
      then raise (OperationalTargetError "endpoint_disabled" "The selected Proxmox endpoint is disabled." 403)
      else
        context ← gets (fun w => fw_context (fw_env w));
        match context ≫= fun c => url ← ctx_http_url c; if is_empty url then None else Some (c, url) with
        | None => raise (OperationalTargetError "fastapi_endpoint_required"
                           "No enabled ProxBox (FastAPI) backend is configured." 503)
        | Some (context, http_url) =>
            resolved ← in_reg (resolve_backend_endpoint_id authorized (rstrip_char "/" http_url) timeout);
            match resolved with
            | inl backend_endpoint_id => mret (mkTarget authorized backend_endpoint_id context)
            | inr error =>
                raise (OperationalTargetError "backend_endpoint_unresolved"
                         (str_or error "Could not resolve this endpoint on the ProxBox backend.") 502)
            end
        end
  end.

Definition set_fw_env (e : E) (w : W) : W := mkFw (mkReg e (rw_cache (fw_reg w)) (rw_log (fw_reg w))) (fw_log w).

Definition save_status_for_firewall_object (o : fw_object) (status : string) : M W () :=
  answer ← (fun w : W => let '(r, e) := fw_save (_status_target o) status (fw_env w) in (Ok r, set_fw_env e w));
  _ ← log_fw (EvStatus (_status_target o) status (match answer with Ok _ => true | Err _ => false end));
  lift answer.

(** Save the error status, then raise. *)
Definition refuse {A} (o : fw_object) (exc : exn) : M W A :=
  _ ← save_status_for_firewall_object o ERROR; raise exc.

Definition endpoint_disabled : exn :=
  FirewallPushError "endpoint_disabled" "The linked Proxmox endpoint is disabled." 403.

Definition writes_disabled : exn :=
  FirewallPushError "writes_disabled_for_endpoint" "Firewall writes are disabled on the linked Proxmox endpoint." 403.

Definition actor_required : exn :=
  FirewallPushError "actor_required" "Firewall pushes require an authenticated actor." 422.

Definition FIREWALL_TARGET_TIMEOUT : Z := sec 30.

(** The owning endpoint, or the refusal with its status. *)
Definition require_owner (o : fw_object) : M W RegEndpoint :=
  match _require_consistent_firewall_endpoint o with
  | Ok endpoint => mret endpoint
  | Err exc => refuse o exc
  end.

Definition _firewall_operational_target (o : fw_object) (user : option op_user) : M W OperationalTarget :=
  endpoint ← require_owner o;
  if negb (endpoint_enabled (ep_row endpoint)) then refuse o endpoint_disabled
  else if negb (ep_allow_writes endpoint) then refuse o writes_disabled
  else try_except (resolve_operational_target endpoint user FIREWALL_TARGET_TIMEOUT)
         (fun exc =>
            match exc with
            | OperationalTargetError reason detail status => refuse o (FirewallPushError reason detail status)
            | _ => raise exc
            end).

(** [?] or [&] *)
Definition query_separator (path : string) : string := if contains "?" path then "&" else "?".

Definition push_request (method path : string) (payload : dict pyval) (actor : string) (t : OperationalTarget) :
    fw_request :=
  let context := tg_context t in
  let headers := dset "X-Proxbox-Actor" actor (ctx_headers context) in
  let headers := if dmem "Content-Type" headers then headers else dset "Content-Type" "application/json" headers in
  mkFwRequest method
    (rstrip_char "/" (default "" (ctx_http_url context)) +:+ path +:+ query_separator path +:+ "endpoint_id="
       +:+ pretty (tg_backend_endpoint_id t))
    payload headers (ctx_verify_ssl context).

Definition _call_firewall_backend (o : fw_object) (method path : string) (payload : dict pyval) (actor : string)
    (target : OperationalTarget) : M W FirewallPushResult :=
  let actor_value := strip actor in
  if is_empty actor_value then raise actor_required
  else
    endpoint ← require_owner o;
    if negb (endpoint_enabled (ep_row endpoint)) then refuse o endpoint_disabled
    else if negb (ep_pk (tg_endpoint target) =? ep_pk endpoint)
    then refuse o (FirewallPushError "endpoint_mismatch"
                     "The authorized endpoint does not own this firewall object." 403)
    else if negb (ep_allow_writes (tg_endpoint target)) then refuse o writes_disabled
    else
      let req := push_request method path payload actor_value target in
      _ ← log_fw (EvRequest req);
      answer ← (fun w : W => let '(a, e) := fw_http req (fw_env w) in (Ok a, set_fw_env e w));
      match answer with
      | inr error => refuse o (FirewallPushError "backend_request_failed" error 502)
      | inl resp =>
          let body := fp_body resp in
          if 400 <=? fp_status resp then
            refuse o (FirewallPushError
              (str (py_or (_payload_value body "reason") (VStr "proxmox_firewall_push_failed")))
              (str (py_or (_payload_value body "detail") (VStr (fp_text resp)))) (fp_status resp))
          else
            let status := str (py_or (_payload_value body "status") (VStr "pushed")) in
            _ ← save_status_for_firewall_object o (if String.eqb status "skipped" then STALE else ACTIVE);
            mret (mkPushResult status (tg_backend_endpoint_id target) path method payload
                    (match body with VDict d => Some d | _ => None end)
                    (_payload_value body "reason") (_payload_value body "detail") (fp_status resp))
      end.

(** [push_firewall_object], over the supported kinds of object *)
Definition push_firewall_object (o : fw_object) (actor : string) (user : option op_user) : M W FirewallPushResult :=
  if is_empty (strip actor) then raise actor_required
  else
    target ← _firewall_operational_target o user;
    '(method, path, payload) ← lift (push_target o);
    _call_firewall_backend o method path payload actor target.

End Push.

(** ** What a push may do *)

(** The row the user may use, with the endpoint's own key. *)
Definition may_use (user : option op_user) (endpoint target : RegEndpoint) (rows : list RegEndpoint) : Prop :=
  match user with
  | Some u => target ∈ rows /\ ep_pk target = ep_pk endpoint /\ (ou_legacy u || ou_restrict u (ep_pk target))%bool = true
  | None => target = endpoint
  end.

Section PushFacts.
Context {E : Type} `{!RegEnv E, !FirewallEnv E}.

(** A request of a push that started in [env], given the exchanges with the
    backend during it: allowed when the object has one consistent owner that is
    enabled and writable, the user may use that endpoint among the rows there
    are, the row it was authorized with is enabled and writable too, and the
    request goes to the configured backend, for the object's own path and
    payload, for the id of the row that the backend showed for that endpoint
    during the push, in the name of a non-blank actor. *)
Definition allowed (o : fw_object) (user : option op_user) (actor : string) (env : E) (exchanges : list reg_event)
    (req : fw_request) : Prop :=
  exists endpoint target method path payload answers,
    _require_consistent_firewall_endpoint o = Ok endpoint /\
    endpoint_enabled (ep_row endpoint) = true /\ ep_allow_writes endpoint = true /\
    may_use user endpoint (tg_endpoint target) (fw_rows env) /\ fw_context env = Some (tg_context target) /\
    endpoint_enabled (ep_row (tg_endpoint target)) = true /\ ep_allow_writes (tg_endpoint target) = true /\
    answered_rows exchanges answers /\ row_of answers (ep_row (tg_endpoint target)) (tg_backend_endpoint_id target) /\
    push_target o = Ok (method, path, payload) /\ strip actor <> "" /\
    req = push_request method path payload (strip actor) target.

Lemma authorized_row (u : op_user) (pk : Z) (rows : list RegEndpoint) (e : RegEndpoint) :
  _authorized_endpoint u pk rows = Some e ->
  e ∈ rows /\ ep_pk e = pk /\ (ou_legacy u || ou_restrict u (ep_pk e))%bool = true.
Proof.
  unfold _authorized_endpoint. destruct (List.filter _ rows) as [|e' l] eqn:Ef; [done|]. intros [= ->].
  assert (Hin : In e (List.filter (fun e0 => ((ou_legacy u || ou_restrict u (ep_pk e0)) && (ep_pk e0 =? pk))%bool) rows))
    by (rewrite Ef; by left).
  apply filter_In in Hin as [Hin [Hu Hpk%Z.eqb_eq]%andb_prop]. split; [by apply list_elem_of_In|done].
Qed.

(** The operational target of an endpoint: nothing of the log changes. *)
Lemma wp_operational_target (endpoint : RegEndpoint) (user : option op_user) (timeout : Z) (w : fw_world E) :
  wp (resolve_operational_target endpoint user timeout)
     (fun r w' => fw_log w' = fw_log w /\ forall t, r = Ok t ->
        endpoint_enabled (ep_row (tg_endpoint t)) = true /\
        may_use user endpoint (tg_endpoint t) (fw_rows (fw_env w)) /\ fw_context (fw_env w) = Some (tg_context t) /\
        exists answers, answered_rows (rw_log (fw_reg w')) answers /\
          row_of answers (ep_row (tg_endpoint t)) (tg_backend_endpoint_id t)) w.
Proof.
  unfold resolve_operational_target. apply wp_bind, wp_gets.
  destruct (match user with Some u => _ | None => _ end) as [a|] eqn:Ea; [|by apply wp_raise].
  assert (Huse : may_use user endpoint a (fw_rows (fw_env w))).
  { destruct user as [u|]; simpl; [by apply authorized_row|by injection Ea]. }
  destruct (endpoint_enabled (ep_row a)) eqn:Een; [|by apply wp_raise]. cbn [negb]. apply wp_bind, wp_gets.
  destruct (fw_context (fw_env w)) as [ctx|] eqn:Ec; [|by apply wp_raise]. simpl.
  destruct (ctx_http_url ctx) as [url|]; [|by apply wp_raise]. simpl. destruct (is_empty url); [by apply wp_raise|]. apply wp_bind.
  unfold wp at 1, in_reg.
  destruct (resolve_backend_endpoint_id a (rstrip_char "/" url) timeout (fw_reg w)) as [r reg'] eqn:Er.
  destruct r as [[id|error]|exc]; [|by apply wp_raise|done]. cbn [fst snd].
  apply wp_ret. split; [done|]. intros t [= <-]. cbn [tg_endpoint tg_backend_endpoint_id tg_context]. do 3 (split; [done|]).
  apply resolution_confirmed in Er as (_ & rows & Ha & Hr). eauto.
Qed.

Lemma wp_save_status (o : fw_object) (status : string) (w : fw_world E) (Q : result () -> fw_world E -> Prop) :
  (forall r w', fw_log w' = EvStatus (_status_target o) status (match r with Ok _ => true | Err _ => false end) :: fw_log w ->
     rw_log (fw_reg w') = rw_log (fw_reg w) -> Q r w') -> wp (save_status_for_firewall_object o status) Q w.
Proof.
  intros HQ. unfold save_status_for_firewall_object, log_fw. apply wp_bind. unfold wp at 1.
  destruct (fw_save _ _ _) as [[[]|x] e]; cbn [fst snd]; apply wp_bind, wp_modify, wp_lift; by apply HQ.
Qed.

Lemma wp_refuse {A} (o : fw_object) (exc : exn) (w : fw_world E) (Q : result A -> fw_world E -> Prop) :
  (forall x b w', fw_log w' = EvStatus (_status_target o) ERROR b :: fw_log w ->
     rw_log (fw_reg w') = rw_log (fw_reg w) -> Q (Err x) w') -> wp (refuse o exc) Q w.
Proof. intros HQ. unfold refuse. apply wp_bind, wp_save_status. intros [[]|x] w' Hl Hr; [apply wp_raise|]; by eapply HQ. Qed.

Lemma wp_firewall_target (o : fw_object) (user : option op_user) (w : fw_world E) :
  wp (_firewall_operational_target o user)
     (fun r w' => match r with
        | Err _ => (exists b, fw_log w' = EvStatus (_status_target o) ERROR b :: fw_log w) \/ fw_log w' = fw_log w
        | Ok t => fw_log w' = fw_log w /\ exists endpoint answers,
            _require_consistent_firewall_endpoint o = Ok endpoint /\
            endpoint_enabled (ep_row endpoint) = true /\ ep_allow_writes endpoint = true /\
            may_use user endpoint (tg_endpoint t) (fw_rows (fw_env w)) /\ fw_context (fw_env w) = Some (tg_context t) /\
            endpoint_enabled (ep_row (tg_endpoint t)) = true /\
            answered_rows (rw_log (fw_reg w')) answers /\ row_of answers (ep_row (tg_endpoint t)) (tg_backend_endpoint_id t)
        end) w.
Proof.
  unfold _firewall_operational_target, require_owner. apply wp_bind.
  destruct (_require_consistent_firewall_endpoint o) as [endpoint|exc] eqn:Eo; [|apply wp_refuse; left; eauto].
  apply wp_ret. destruct (endpoint_enabled (ep_row endpoint)) eqn:Een; [|apply wp_refuse; left; eauto].
  destruct (ep_allow_writes endpoint) eqn:Ew; [|apply wp_refuse; left; eauto]. cbn [negb].
  apply wp_try. eapply wp_mono; [apply wp_operational_target|]. intros [t|exc] w' [Hlog Ht].
  - destruct (Ht t eq_refl) as (Ht1 & Hu & Hc & answers & Ha & Hr). split; [done|]. by exists endpoint, answers.
  - destruct exc; try (apply wp_raise; by right). apply wp_refuse. intros x b w2 Hl _. left. exists b. by rewrite Hl, Hlog.
Qed.

End PushFacts.

(** How a push ends: the log it leaves, and its result.  [allow] says which
    requests may be sent. *)
Definition push_ends (o : fw_object) (allow : fw_request -> Prop) (log : list fw_event) (r : result FirewallPushResult) : Prop :=
  let status s b := EvStatus (_status_target o) s b in
  ((exists exc, r = Err exc) /\ (log = [] \/ exists b, log = [status ERROR b])) \/
  (exists req, allow req /\
     (((exists exc, r = Err exc) /\ exists b, log = [status ERROR b; EvRequest req]) \/
      ((exists exc, r = Err exc) /\ exists s, s ∈ [ACTIVE; STALE] /\ log = [status s false; EvRequest req]) \/
      exists res, r = Ok res /\
        log = [status (if String.eqb (pr_status res) "skipped" then STALE else ACTIVE) true; EvRequest req])).


(** ** Where a push goes *)

Definition confined (p : fw_path) : Prop :=
  Forall (fun s => plain s = true) (path_segs p) /\
  (path_query p = "" \/ exists node vm_type, path_query p = vm_query node vm_type /\ vm_type ∈ ["qemu"; "lxc"]).

Lemma confined_segs (segs : list string) : forallb plain segs = true -> confined (mkPath segs "").
Proof. intros H. split; [|by left]. apply Forall_forall. intros s Hs%list_elem_of_In. by eapply forallb_forall in H. Qed.

Lemma pretty_plain (z : Z) : plain (pretty z) = true.
Proof.
  unfold plain. rewrite !andb_true_iff. split; [split|].
  - assert (H : int_of_string (pretty z) = Some z) by apply int_of_string_pretty. by destruct (pretty z).
  - eapply all_chars_impl; [|apply pretty_Z_chars]. all_ascii.
  - apply negb_true_iff, mem_str_false. pose proof (int_of_string_pretty z) as H. intros Hin.
    rewrite !elem_of_cons, elem_of_nil in Hin. by destruct Hin as [Hin|[Hin|[]]]; rewrite Hin in H.
Qed.

Lemma segment_plain (s t : string) : _path_segment s = Ok t -> plain t = true.
Proof.
  unfold _path_segment. destruct (safe_path_segment (VStr s)) as [t'|] eqn:E; [|done]. intros [= ->].
  by apply safe_segment_confined in E as [? _].
Qed.

Lemma entry_segment_plain (s t : string) : _ipset_entry_segment s = Ok t -> plain t = true.
Proof.
  unfold _ipset_entry_segment. destruct (is_ip_network (strip s)) eqn:E; [|apply segment_plain].
  intros [= <-]. by apply network_segment.
Qed.

Lemma vm_context_type (vm : option VirtualMachine) (zone : string) (vmid : Z) (node vm_type : string) :
  _vm_context vm zone = Ok (vmid, node, vm_type) -> vm_type ∈ ["qemu"; "lxc"].
Proof.
  unfold _vm_context. destruct (_extract_vm_id vm); [|done]. destruct (is_empty _); [done|].
  destruct (safe_vmid _); [|done]. intros [= _ _ <-]. destruct (String.eqb zone VM_LXC); [right; left|left].
Qed.

Lemma vm_path_confined (front : string) (vmid : Z) (rest : list string) (node vm_type : string) :
  plain front = true -> forallb plain rest = true -> vm_type ∈ ["qemu"; "lxc"] ->
  confined (mkPath (front :: pretty vmid :: rest) (vm_query node vm_type)).
Proof.
  intros Hf Hr Hvt. split; [|right; eauto]. constructor; [done|]. constructor; [apply pretty_plain|].
  apply Forall_forall. intros s Hs%list_elem_of_In. by eapply forallb_forall in Hr.
Qed.

Lemma suffix_plain (create : bool) (pos : Z) : forallb plain (if create then [] else [pretty pos]) = true.
Proof. destruct create; simpl; [done|]. by rewrite pretty_plain. Qed.

(** The test at the head of a computation that succeeded. *)
Ltac path_step :=
  match goal with
  | H : Err _ = Ok _ |- _ => discriminate H
  | H : fw_fail _ _ _ = Ok _ |- _ => discriminate H
  | H : match ?x with _ => _ end = Ok _ |- _ => destruct x eqn:?
  end.

Lemma rule_path_confined (r : FwRule) (m : string) (p : fw_path) : _rule_push_target r = Ok (m, p) -> confined p.
Proof.
  unfold _rule_push_target. set (create := negb _). set (suffix := if create then [] else [pretty (fr_pos r)]).
  assert (Hs : forallb plain suffix = true) by (apply suffix_plain). clearbody suffix.
  unfold mbind, result_bind, mret, result_ret. intros H. repeat path_step; injection H as _ <-;
    repeat match goal with E : _path_segment _ = Ok _ |- _ => apply segment_plain in E end;
    repeat match goal with E : _vm_context _ _ = Ok _ |- _ => apply vm_context_type in E end;
    first [apply confined_segs|apply vm_path_confined; [done| |done]]; simpl;
    repeat match goal with E : plain ?s = true |- context [plain ?s] => rewrite E end; done.
Qed.

Lemma collection_confined (scope : string) (vm : option VirtualMachine) (noun : string) (p : fw_path) :
  plain noun = true -> _scoped_collection_path scope vm noun = Ok p -> confined p.
Proof.
  intros Hn. unfold _scoped_collection_path, mbind, result_bind, mret, result_ret. intros H.
  repeat path_step; injection H as <-.
  - apply confined_segs. simpl. by rewrite Hn.
  - apply vm_path_confined; [done|simpl; by rewrite Hn|by eapply vm_context_type].
Qed.

Lemma add_segments_confined (p : fw_path) (segs : list string) :
  confined p -> forallb plain segs = true -> confined (_path_add_segments p segs).
Proof.
  intros [Hp Hq] Hs. split; [|done]. apply Forall_app. split; [done|].
  apply Forall_forall. intros s Hin%list_elem_of_In. by eapply forallb_forall in Hs.
Qed.

Lemma options_path_confined (o : FwOptions) (p : fw_path) : _options_path o = Ok p -> confined p.
Proof.
  unfold _options_path, mbind, result_bind, mret, result_ret. intros H. repeat path_step; injection H as <-.
  - by apply confined_segs.
  - apply confined_segs. simpl. by erewrite segment_plain.
  - apply vm_path_confined; [done|done|by eapply vm_context_type].
Qed.

(** C38: The path of every push stays below [/proxmox/firewall]: it consists of
    plain segments (no separator, query, fragment or parent level, whatever
    names the objects carry), then the query that names node and type of a
    virtual machine, and for the update of an entry one more plain segment. *)
Theorem push_path_confined (o : fw_object) (method path : string) (payload : dict pyval) :
  push_target o = Ok (method, path, payload) ->
  mem_str method ["post"; "put"] = true /\
  exists p extra, path = path_text p +:+ extra /\ confined p /\
    (extra = "" \/ exists seg, extra = "/" +:+ seg /\ plain seg = true).
Proof.
  assert (Hplain : forall p, confined p -> exists p' extra, path_text p = path_text p' +:+ extra /\ confined p' /\
    (extra = "" \/ exists seg, extra = "/" +:+ seg /\ plain seg = true)).
  { intros p Hp. exists p, "". split; [by rewrite app_empty_r|]. split; [done|by left]. }
  unfold push_target, mbind, result_bind, mret, result_ret. destruct o as [g|r|s|e|a|o].
  - intros [= <- <- _]. split; [done|]. apply Hplain. by apply confined_segs.
  - destruct (_rule_push_target r) as [[m p]|] eqn:E; [|done]. intros [= <- <- _]. split.
    + unfold _rule_push_target, mbind, result_bind, mret, result_ret in E.
      set (create := negb _) in E. repeat path_step; injection E as <- _; by destruct create.
    + apply Hplain. by eapply rule_path_confined.
  - destruct (_scoped_collection_path _ _ _) as [p|] eqn:E; [|done]. intros [= <- <- _]. split; [done|].
    apply Hplain. by eapply collection_confined in E.
  - unfold _ipset_entry_path, mbind, result_bind, mret, result_ret.
    destruct (_scoped_collection_path _ _ _) as [c|] eqn:E; [|done].
    destruct (_path_segment _) as [seg|] eqn:Eseg; [|done].
    assert (Hc : confined (_path_add_segments c [seg; "entries"])).
    { apply add_segments_confined; [by eapply collection_confined in E|]. simpl. by erewrite segment_plain. }
    destruct (remote_marker "" (fy_raw_config e)).
    + destruct (_ipset_entry_segment (fy_cidr e)) as [t|] eqn:Et; [|done]. intros [= <- <- _]. split; [done|].
      eexists _, ("/" +:+ t). split; [reflexivity|]. split; [done|]. right. exists t. split; [done|].
      by eapply entry_segment_plain.
    + intros [= <- <- _]. split; [done|]. by apply Hplain.
  - destruct (_scoped_collection_path _ _ _) as [p|] eqn:E; [|done]. cbn [remote_marker nonempty is_empty].
    intros [= <- <- _]. split; [done|]. apply Hplain. by eapply collection_confined in E.
  - destruct (_options_path o) as [p|] eqn:E; [|done]. intros [= <- <- _]. split; [done|].
    apply Hplain. by eapply options_path_confined.
Qed.

(** ** Concrete pushes *)

Definition firewall_set : FwIpset :=
  mkFwIpset 3 "mgmt" VNone VM_QEMU (Some registered_endpoint) (Some sample_vm).

Definition firewall_entry (raw : pyval) : fw_object := OEntry (mkFwEntry 8 firewall_set "10.0.0.0/8" VNone false raw).

Lemma push_path_confined_witness :
  exists p extra, "/proxmox/firewall/vms/100/ipsets/mgmt/entries?node=pve1&vm_type=qemu" = path_text p +:+ extra /\ confined p.
Proof.
  destruct (push_path_confined (firewall_entry VNone) "post"
              "/proxmox/firewall/vms/100/ipsets/mgmt/entries?node=pve1&vm_type=qemu"
              [("cidr", VStr "10.0.0.0/8"); ("nomatch", VBool false)]) as (_ & p & extra & Hp & Hc & _);
    [vm_compute; reflexivity|]. by exists p, extra.
Defined.

(** The update of an entry of a virtual machine's set: the entry comes after
    the query, where it is part of [vm_type]. *)
Example entry_update_behind_query :
  push_target (firewall_entry (VDict [("cidr", VStr "10.0.0.0/8")])) =
  Ok ("put", "/proxmox/firewall/vms/100/ipsets/mgmt/entries?node=pve1&vm_type=qemu/10.0.0.0%2F8",
      [("cidr", VStr "10.0.0.0/8"); ("nomatch", VBool false)]).
Proof. vm_compute. reflexivity. Qed.

(** An alias is created anew by every push. *)
Example alias_never_updated (a : FwAlias) (method path : string) (payload : dict pyval) :
  push_target (OAlias a) = Ok (method, path, payload) -> method = "post".
Proof.
  unfold push_target, mbind, result_bind, mret, result_ret. destruct (_scoped_collection_path _ _ _); [|done].
  cbn [remote_marker nonempty is_empty]. by intros [= <- _ _].
Qed.

#[global] Instance script_firewall_env : FirewallEnv reg_script := {|
  fw_rows := fun _ => [registered_endpoint];
  fw_context := fun _ => Some {| ctx_http_url := Some "http://api/"; ctx_headers := [("X-Proxbox-API-Key", "k")];
                                 ctx_verify_ssl := true |};
  fw_http := fun _ s => (inl (mkFwResponse 200 (VDict [("status", VStr "pushed")]) ""), s);
  fw_save := fun _ _ s => (Ok (), s)
|}.

Definition firewall_push (user : option op_user) : list fw_event :=
  fw_log (snd (push_firewall_object (firewall_entry VNone) " alice " user
                 (mkFw (mkReg (mkScript [listing [backend_row 4]] [true] false) [] []) []))).

(** A push that goes through, and one by a user without the permission. *)
Example firewall_pushes :
  firewall_push (Some (mkOpUser false (fun pk => pk =? 7))) =
    [EvStatus (SIpset 3) ACTIVE true;
     EvRequest (mkFwRequest "post"
       "http://api/proxmox/firewall/vms/100/ipsets/mgmt/entries?node=pve1&vm_type=qemu&endpoint_id=4"
       [("cidr", VStr "10.0.0.0/8"); ("nomatch", VBool false)]
       [("X-Proxbox-API-Key", "k"); ("X-Proxbox-Actor", "alice"); ("Content-Type", "application/json")] true)] /\
  firewall_push (Some (mkOpUser false (fun _ => false))) = [EvStatus (SIpset 3) ERROR true].
Proof. split; vm_compute; reflexivity. Qed.
