(* ===== verification/FirewallIntent.v ===== *)
(** * Firewall changes of a branch

    intent/firewall_payload.py: the ChangeDiff rows of the firewall models of a
    branch as diffs for the backend.  A row may have lost its object; then the
    diff is built from the recorded data.  Values read from either are the
    constructors of [fval]. *)
From Stdlib Require Import ZArith Lia Ascii String.
From stdpp Require Import base list sets strings pretty.
From S2P Require Import Prelude SyncModes EndpointScope VmObjects Text BackendPath BackendRegistration FirewallPush.

(** A value that is data, a firewall object, or an object it is linked to. *)
Inductive fval :=
| FVal (v : pyval)
| FObj (o : fw_object)
| FNode (n : FwNode)
| FVm (vm : VirtualMachine).

(** A ChangeDiff row of a firewall model. *)
Record FwDiff := mkFwDiff {
  fd_model : string;
  fd_action : pyval;
  fd_object_id : option Z;
  fd_object_repr : pyval;
  fd_object : option fw_object;
  fd_prechange : pyval;
  fd_postchange : pyval
}.

Definition FIREWALL_MODEL_NAMES : list string :=
  ["proxmoxfirewallsecuritygroup"; "proxmoxfirewallrule"; "proxmoxfirewallipset"; "proxmoxfirewallipsetentry";
   "proxmoxfirewallalias"; "proxmoxfirewalloptions"].

Definition GROUP_MODEL : string := "proxmoxfirewallsecuritygroup".
Definition RULE_MODEL : string := "proxmoxfirewallrule".
Definition IPSET_MODEL : string := "proxmoxfirewallipset".
Definition ENTRY_MODEL : string := "proxmoxfirewallipsetentry".
Definition ALIAS_MODEL : string := "proxmoxfirewallalias".
Definition OPTIONS_MODEL : string := "proxmoxfirewalloptions".

(** The ChangeDiffs of the firewall models as a branch gives them: the rows,
    and the errors of the query for all models and of the query for one. *)
Record FwChanges := mkFwChanges {
  fc_rows : list FwDiff;
  fc_error : option exn;
  fc_model_error : string -> option exn
}.

Definition rows_of_models (models : list string) (rows : list FwDiff) : list FwDiff :=
  List.filter (fun r => mem_str (fd_model r) models) rows.

(** [None]: the branch has no ChangeDiffs at all.  When the query for all
    models fails, each model is asked for on its own, and a model whose query
    fails is left out. *)
Definition firewall_changediffs (branch : option FwChanges) : list FwDiff :=
  match branch with
  | None => []
  | Some c =>
      match fc_error c with
      | None => rows_of_models FIREWALL_MODEL_NAMES (fc_rows c)
      | Some _ =>
          flat_map (fun model =>
            match fc_model_error c model with
            | None => rows_of_models [model] (fc_rows c)
            | Some _ => []
            end) FIREWALL_MODEL_NAMES
      end
  end.

Definition _SUPPORTED_OPS : list string := ["create"; "update"; "delete"].

(** ** Reading attributes *)

Definition opt_text (s : string) : option fval := Some (FVal (VStr s)).

(** [getattr(obj, name)] of the attributes the builder reads; [None] where
    there is no such attribute or it is [None]. *)
Definition obj_attr (o : fw_object) (name : string) : option fval :=
  let named n := String.eqb name n in
  match o with
  | OGroup g => if named "name" then opt_text (fg_name g) else None
  | ORule r =>
      if named "pos" then Some (FVal (VInt (fr_pos r)))
      else if named "zone" then opt_text (fr_zone r)
      else if named "iface" then opt_text (fr_iface r)
      else if named "proxmox_node" then FNode <$> fr_node r
      else if named "virtual_machine" then FVm <$> fr_vm r
      else if named "security_group" then (fun g => FObj (OGroup g)) <$> fr_group r
      else None
  | OIpset s =>
      if named "name" then opt_text (fi_name s)
      else if named "scope" then opt_text (fi_scope s)
      else if named "virtual_machine" then FVm <$> fi_vm s
      else None
  | OEntry e =>
      if named "ipset" then Some (FObj (OIpset (fy_ipset e)))
      else if named "cidr" then opt_text (fy_cidr e)
      else None
  | OAlias a =>
      if named "name" then opt_text (fa_name a)
      else if named "cidr" then opt_text (fa_cidr a)
      else if named "scope" then opt_text (fa_scope a)
      else if named "virtual_machine" then FVm <$> fa_vm a
      else None
  | OOptions o =>
      if named "zone" then opt_text (fo_zone o)
      else if named "proxmox_node" then FNode <$> fo_node o
      else if named "virtual_machine" then FVm <$> fo_vm o
      else None
  end.

(** [value not in (None, "")] *)
Definition given (v : option fval) : option fval :=
  match v with
  | Some (FVal v) => if none_or_empty v then None else Some (FVal v)
  | v => v
  end.

Definition or_else {A} (a b : option A) : option A := match a with Some x => Some x | None => b end.

(** [_field]: of an object or a dictionary, else of the recorded data *)
Definition _field (obj : option fval) (data : dict pyval) (name : string) : option fval :=
  or_else
    (given match obj with
           | Some (FVal (VDict d)) => FVal <$> dget name d
           | Some (FObj o) => obj_attr o name
           | Some (FNode n) => if String.eqb name "name" then opt_text (fn_name n) else None
           | Some (FVm vm) => if String.eqb name "name" then opt_text (vm_name vm) else None
           | _ => None
           end)
    (given (FVal <$> dget name data)).

Definition _related (obj : option fval) (data : dict pyval) (name : string) : option fval :=
  or_else (_field obj data name)
    (match dget (name +:+ "_id") data with Some VNone | None => None | Some v => Some (FVal v) end).

Definition _str_or_none (v : option pyval) : option string :=
  match v with Some v => if none_or_empty v then None else Some (str v) | None => None end.

(** [_object_name]; node, group and set names are not blank *)
Definition _object_name (v : option fval) : option string :=
  match v with
  | None => None
  | Some (FVal (VDict d)) => _str_or_none (Some (py_or (get "name" d) (get "display" d)))
  | Some (FVal v) => _str_or_none (Some v)
  | Some (FNode n) => _str_or_none (Some (VStr (fn_name n)))
  | Some (FVm vm) => _str_or_none (Some (VStr (vm_name vm)))
  | Some (FObj o) =>
      match obj_attr o "name" with Some (FVal v) => _str_or_none (Some v) | _ => None end
  end.

(** [_object_id] of a value of the data *)
Definition _object_id (v : pyval) : option Z :=
  match v with
  | VDict d => py_int (py_or (get "id" d) (get "pk" d))
  | v => py_int v
  end.

Definition field_text (obj : option fval) (data : dict pyval) (name : string) : option string :=
  match _field obj data name with Some (FVal v) => _str_or_none (Some v) | _ => None end.

(** ** The row *)

Definition _row_op (row : FwDiff) : string :=
  let action := lower (str (py_or (fd_action row) (VStr ""))) in
  if mem_str action _SUPPORTED_OPS then action
  else match fd_prechange row, fd_postchange row with
       | VNone, VDict _ => "create"
       | VDict _, VNone => "delete"
       | _, _ => "update"
       end.

Definition _row_data (row : FwDiff) (op : string) : dict pyval :=
  let '(preferred, fallback) :=
    if String.eqb op "delete" then (fd_prechange row, fd_postchange row)
    else (fd_postchange row, fd_prechange row) in
  match preferred, fallback with VDict d, _ => d | _, VDict d => d | _, _ => [] end.

Definition _row_model_name (row : FwDiff) : string := lower (fd_model row).

Definition object_pk (o : fw_object) : option Z :=
  match o with
  | OGroup g => Some (fg_pk g) | ORule r => Some (fr_pk r) | OIpset s => Some (fi_pk s)
  | OEntry e => Some (fy_pk e) | OAlias a => Some (fa_pk a) | OOptions o => Some (fo_pk o)
  end.

(** An object id of zero does not count. *)
Definition _row_object_id (row : FwDiff) : option Z :=
  match fd_object_id row with
  | Some id => if id =? 0 then fd_object row ≫= object_pk else Some id
  | None => fd_object row ≫= object_pk
  end.

Definition _row_name (row : FwDiff) : option string := _str_or_none (Some (fd_object_repr row)).

Definition firewall_result_key (row : FwDiff) (fallback : Z) : string :=
  let model_name := str_or (_row_model_name row) "firewall" in
  let identifier :=
    match _row_object_id row with
    | Some id => if id =? 0 then default (pretty fallback) (_row_name row) else pretty id
    | None => default (pretty fallback) (_row_name row)
    end in
  "firewall:" +:+ model_name +:+ ":" +:+ identifier.

Definition unsupported_firewall_diff_message (row : FwDiff) : string :=
  "Firewall intent for " +:+ str_or (_row_model_name row) "object" +:+ " " +:+ repr_str (_row_op row)
  +:+ " is not supported by proxbox-api apply.".

(** ** Where a change applies *)

Definition _zone_from_scope (scope : option string) : option string := scope.

Definition _zone_for (model : string) (obj : option fval) (data : dict pyval) : option string :=
  if String.eqb model GROUP_MODEL then Some DATACENTER
  else if mem_str model [RULE_MODEL; OPTIONS_MODEL] then field_text obj data "zone"
  else if mem_str model [IPSET_MODEL; ALIAS_MODEL] then _zone_from_scope (field_text obj data "scope")
  else if String.eqb model ENTRY_MODEL
  then _zone_from_scope (field_text (_related obj data "ipset") data "scope")
  else None.

Definition in_vm_zone (zone : option string) : bool := match zone with Some z => vm_zone z | None => false end.

Definition _vm_for (model : string) (obj : option fval) (data : dict pyval) : option fval :=
  if String.eqb model ENTRY_MODEL
  then or_else (_related (_related obj data "ipset") data "virtual_machine") (_related obj data "virtual_machine")
  else _related obj data "virtual_machine".

(** [resolve_vm_vmid] and [resolve_vm_node], of an object or a dictionary *)
Definition sync_state_of (d : dict pyval) : dict pyval :=
  match get "proxbox_sync_state" d with VDict ss => ss | _ => [] end.

Definition any_vm_vmid (vm : option fval) : pyval :=
  match vm with
  | Some (FVm vm) => VStr (resolve_vm_vmid vm)
  | Some (FVal (VDict d)) =>
      let v := get "proxmox_vm_id" (sync_state_of d) in if none_or_empty v then VStr "" else VStr (str v)
  | _ => VStr ""
  end.

Definition sub (d : dict pyval) (key : string) : dict pyval := match get key d with VDict v => v | _ => [] end.

Definition any_vm_node (vm : option fval) : pyval :=
  match vm with
  | Some (FVm vm) => VStr (resolve_vm_node vm)
  | Some (FVal (VDict d)) =>
      let ss := sync_state_of d in
      let name := py_or (get "name" (sub ss "proxmox_node")) (get "proxmox_node_name" ss) in
      if truthy name then VStr (str name) else VStr (row_text "name" (sub d "device"))
  | _ => VStr ""
  end.

Definition _vmid (vm : option fval) (data : dict pyval) : option Z :=
  py_int (py_or (any_vm_vmid vm) (py_or (get "vmid" data) (get "proxmox_vm_id" data))).

Definition _vm_node (vm : option fval) (data : dict pyval) : option string :=
  _str_or_none (Some (py_or (any_vm_node vm) (py_or (get "node" data) (get "proxmox_node" data)))).

Definition _node_for (model : string) (obj : option fval) (data : dict pyval) : option string :=
  let zone := _zone_for model obj data in
  if bool_decide (zone = Some NODE)
  then or_else (_object_name (_related obj data "proxmox_node")) (_str_or_none (Some (get "node" data)))
  else if in_vm_zone zone then _vm_node (_vm_for model obj data) data
  else None.

Definition _vmid_for (model : string) (obj : option fval) (data : dict pyval) : option Z :=
  if in_vm_zone (_zone_for model obj data) then _vmid (_vm_for model obj data) data else None.

Definition _vm_type_for (model : string) (obj : option fval) (data : dict pyval) : option string :=
  let zone := _zone_for model obj data in
  if bool_decide (zone = Some VM_QEMU) then Some "qemu"
  else if bool_decide (zone = Some VM_LXC) then Some "lxc"
  else None.

Definition _vnet_for (model : string) (obj : option fval) (data : dict pyval) : option string :=
  if bool_decide (_zone_for model obj data = Some VNET) then field_text obj data "iface" else None.

Definition _group_for (model : string) (obj : option fval) (data : dict pyval) : option string :=
  if String.eqb model GROUP_MODEL then field_text obj data "name"
  else if bool_decide (_zone_for model obj data = Some SECURITY_GROUP)
  then or_else (_object_name (_related obj data "security_group")) (_str_or_none (Some (get "group" data)))
  else None.

Definition _name_for (model : string) (obj : option fval) (data : dict pyval) : option string :=
  if String.eqb model ENTRY_MODEL
  then or_else (_object_name (_related obj data "ipset")) (_str_or_none (Some (get "ipset_name" data)))
  else field_text obj data "name".

(** ** The diff *)

Definition _action_for (model op : string) : option string :=
  if String.eqb model RULE_MODEL then Some ("firewall.rule." +:+ op)
  else if String.eqb model GROUP_MODEL then
    if mem_str op ["create"; "delete"] then Some ("firewall.group." +:+ op) else None
  else if String.eqb model IPSET_MODEL then
    if mem_str op ["create"; "delete"] then Some ("firewall.ipset." +:+ op) else None
  else if String.eqb model ENTRY_MODEL then Some ("firewall.ipset.entry." +:+ op)
  else if String.eqb model ALIAS_MODEL then Some ("firewall.alias." +:+ op)
  else if (String.eqb model OPTIONS_MODEL && mem_str op ["create"; "update"])%bool
  then Some "firewall.options.update"
  else None.

(** [data.get(a) or data.get(b)] *)
Definition first_of (data : dict pyval) (a b : string) : pyval := py_or (get a data) (get b data).

(** The body built from the recorded data alone. *)
Definition recorded_body (model op : string) (data : dict pyval) : dict pyval :=
  let item k := (k, get k data) in
  if String.eqb model RULE_MODEL then
    _drop_empty
      ([item "pos"; ("type", first_of data "rule_type" "type")] ++
       List.map item ["action"; "enable"; "macro"; "iface"; "source"; "dest"; "proto"; "dport"; "sport"; "log"] ++
       [("icmp-type", first_of data "icmp_type" "icmp-type"); item "comment"; item "digest"])
  else if String.eqb model GROUP_MODEL then _drop_empty [("group", get "name" data); item "comment"]
  else if String.eqb model IPSET_MODEL then _drop_empty [item "name"; item "comment"]
  else if String.eqb model ENTRY_MODEL then _drop_empty [item "cidr"; item "comment"; item "nomatch"]
  else if String.eqb model ALIAS_MODEL then
    _drop_empty ((if String.eqb op "update" then [] else [item "name"]) ++ [item "cidr"; item "comment"])
  else if String.eqb model OPTIONS_MODEL then
    _drop_empty [item "enable"; item "policy_in"; item "policy_out"; ("options", py_or (get "options" data) (VDict []))]
  else [].

Definition _body_for (model op : string) (obj : option fw_object) (data : dict pyval) : dict pyval :=
  match obj with
  | Some o =>
      if String.eqb model GROUP_MODEL then
        match o with
        | OGroup g => _drop_empty [("group", VStr (fg_name g)); ("comment", fg_comment g)]
        | _ => firewall_object_state o
        end
      else if (String.eqb model ALIAS_MODEL && String.eqb op "update")%bool
      then ddel "name" (firewall_object_state o)
      else firewall_object_state o
  | None => recorded_body model op data
  end.

Definition opt_val (v : option string) : option pyval := VStr <$> v.

Definition _drop_none (payload : dict (option pyval)) : dict pyval :=
  omap (fun kv => match snd kv with Some v => Some (fst kv, v) | None => None end) payload.

(** [_field(obj, data, name)] as a value of the payload; an attribute read
    here is always data. *)
Definition field_val (obj : option fval) (data : dict pyval) (name : string) : option pyval :=
  match _field obj data name with Some (FVal v) => Some v | _ => None end.

Definition _firewall_payload (model op action : string) (o : option fw_object) (data : dict pyval) : dict pyval :=
  let obj := FObj <$> o in
  let body := if String.eqb op "delete" then [] else _body_for model op o data in
  _drop_none
    [("action", Some (VStr action)); ("zone", opt_val (_zone_for model obj data));
     ("node", opt_val (_node_for model obj data)); ("vmid", VInt <$> _vmid_for model obj data);
     ("vm_type", opt_val (_vm_type_for model obj data)); ("vnet", opt_val (_vnet_for model obj data));
     ("group", opt_val (_group_for model obj data));
     ("pos", VInt <$> (field_val obj data "pos" ≫= py_int));
     ("name", opt_val (_name_for model obj data)); ("cidr", field_val obj data "cidr"); ("body", Some (VDict body))].

Definition _endpoint_id_for (o : option fw_object) (data : dict pyval) : option Z :=
  let own := match o ≫= resolve_firewall_endpoint with
             | Some e => if ep_pk e =? 0 then None else Some (ep_pk e)
             | None => None
             end in
  or_else own (or_else (_object_id (get "endpoint_id" data)) (_object_id (get "endpoint" data))).

Record FirewallApplyDiff := mkApplyDiff {
  ad_op : string; ad_diff : dict pyval; ad_endpoint_id : option Z; ad_obj : option fw_object
}.

Definition build_firewall_apply_diff (row : FwDiff) : option FirewallApplyDiff :=
  let op := _row_op row in
  let model := _row_model_name row in
  let data := _row_data row op in
  match _action_for model op with
  | None => None
  | Some action =>
      let payload := _firewall_payload model op action (fd_object row) data in
      Some (mkApplyDiff op
        (_drop_none [("op", Some (VStr op)); ("kind", Some (VStr "firewall"));
                     ("netbox_id", VInt <$> _row_object_id row); ("payload", Some (VDict payload))])
        (_endpoint_id_for (fd_object row) data) (fd_object row))
  end.

Definition build_firewall_plan_diffs (branch : option FwChanges) : list (dict pyval) :=
  omap (fun row =>
    match build_firewall_apply_diff row with
    | None => None
    | Some d =>
        let payload := match dget "payload" (ad_diff d) with Some (VDict p) => p | _ => [] end in
        Some (_drop_none
          [("op", Some (VStr (ad_op d))); ("kind", Some (VStr "firewall"));
           ("netbox_id", dget "netbox_id" (ad_diff d)); ("name", opt_val (_row_name row));
           ("type", dget "action" payload); ("endpoint_id", VInt <$> ad_endpoint_id d)])
    end) (firewall_changediffs branch).

Definition first_endpoint_id_from_diffs (diffs : list (dict pyval)) : option Z :=
  list_find_map (fun d => py_int (get "endpoint_id" d)) diffs.

(** [default_proxmox_endpoint_id]: the first enabled endpoint that allows
    writes, else the first enabled one; none when the rows cannot be read *)
Definition default_proxmox_endpoint_id (endpoints : result (list RegEndpoint)) : option Z :=
  let rows := match endpoints with Ok rows => rows | Err _ => [] end in
  let first l := hd_error l ≫= fun e => if ep_pk e =? 0 then None else Some (ep_pk e) in
  let enabled := List.filter (fun e => endpoint_enabled (ep_row e)) rows in
  match List.filter ep_allow_writes enabled with
  | [] => first enabled
  | writable => first writable
  end.
