(* ===== verification/ApplyJob.v ===== *)
(** * Applying a merged branch to Proxmox

    intent/apply_job.py (with [tag_pending_deletion] of proxmox_tags.py and
    [stamp_intent_state] of intent_writes.py): the job that walks the changed
    virtual machines and firewall objects of a branch.  Creations and updates
    are sent to the backend; a deletion only becomes a request that somebody
    else has to authorise.

    The world is an environment [E] with a log of what was done, the last
    first. *)
From Stdlib Require Import ZArith Lia Ascii String.
From stdpp Require Import base list sets strings pretty.
From S2P Require Import Prelude Effects SyncModes StageExec VmObjects Text IntentDiffs IntentPayload.
From S2P Require Import BackendRegistration FirewallPush FirewallIntent.

(** ** Data *)

(** The user of the job: the name and the permissions. *)
Record apply_actor := mkActor { aa_username : string; aa_has_perm : string -> bool }.

Record apply_job := mkApplyJob {
  aj_branch : Branch; aj_firewall : option FwChanges; aj_actor : option apply_actor; aj_run_uuid : string
}.

Inductive apply_state := queued | running | succeeded | failed_state | partial.

(** One entry of [per_vm_results]. *)
Record result_entry := mkEntry {
  en_vmid : pyval; en_op : string; en_kind : string; en_status : string; en_message : string;
  en_upid : pyval; en_deletion_request : option Z
}.

(** A new [DeletionRequest], always in state PENDING. *)
Record pending_deletion := mkPending {
  pd_branch_id : option Z; pd_branch_name : string; pd_vmid : Z; pd_node : string; pd_kind : string;
  pd_name : string; pd_snapshot : dict pyval
}.

(** A diff of the request body. *)
Record apply_request := mkApplyRequest {
  aq_endpoint_id : option Z; aq_op : string; aq_kind : string; aq_diff : dict pyval; aq_actor : option string;
  aq_run_uuid : string
}.

(** What POST /intent/apply gave: the parsed object, or the text of the
    [RuntimeError] that [_call_apply_endpoint] makes of every failure. *)
Definition apply_answer : Type := dict pyval + string.

Class ApplyEnv (E : Type) := {
  (* ProxmoxApplyJob.objects.get(run_uuid=...) *)
  ap_job : string -> E -> result apply_job;
  ap_gates : E -> gate_env;
  ap_db : E -> intent_db;
  ap_context : E -> option BackendRequestContext;
  ap_endpoints : E -> result (list RegEndpoint);
  ap_setting : E -> result bool;
  ap_post : string -> apply_request -> E -> apply_answer * E;
  (* DeletionRequest.save(): its key *)
  ap_save_deletion : pending_deletion -> E -> result Z * E;
  (* PUT /intent/tag-pending-deletion: an answer, or an error *)
  ap_tag : string -> Z -> string -> string -> E -> result (option pyval) * E;
  ap_stamp : Z -> E -> result () * E;
  ap_fw_status : status_row -> string -> E -> result () * E;
  ap_save : apply_state -> option (dict result_entry) -> E -> result () * E
}.

(** What was tried; for a row that is saved, whether that worked. *)
Inductive apply_event :=
| EvApply (req : apply_request)
| EvDeletion (req : pending_deletion) (saved : bool)
| EvTag (vmid : Z) (node kind : string)
| EvStamp (vm : Z)
| EvFwActive (row : status_row) (saved : bool)
| EvSave (state : apply_state) (results : option (dict result_entry)) (saved : bool).

Record ap_world (E : Type) := mkAp { aw_env : E; aw_log : list apply_event }.
Arguments mkAp {E} _ _.
Arguments aw_env {E} _.
Arguments aw_log {E} _.

(** ** Permissions, statuses and keys *)

(** [_CREATE_PERMISSIONS.get(kind, ...["qemu"])] and its siblings *)
Definition permission (op kind : string) : string :=
  "netbox_proxbox.intent_" +:+ op +:+ (if String.eqb kind "lxc" then "_lxc" else "_vm").

Definition permitted (actor : option apply_actor) (perm : string) : bool :=
  match actor with Some a => aa_has_perm a perm | None => false end.

Definition _SUCCESS_STATUSES : list string := ["succeeded"; "success"; "applied"; "intent-logged"; "delete-pending-approval"].
Definition _FAILED_STATUSES : list string := ["failed"].

Definition _status_is_success (status : string) : bool := mem_str (lower status) _SUCCESS_STATUSES.

Definition _state_from_results (results : dict result_entry) : apply_state :=
  let statuses := List.map (fun kv => lower (en_status (snd kv))) results in
  if forallb (fun s => mem_str s _SUCCESS_STATUSES) statuses then succeeded
  else if forallb (fun s => mem_str s _FAILED_STATUSES) statuses then failed_state
  else partial.

Definition _diff_identifier (row : ChangeDiff) (fallback : Z) : string :=
  match list_find_map (fun v => if none_or_empty v then None else Some (str v))
          [cdf_object_repr row; opt_int (cdf_object_id row); cdf_pk row] with
  | Some s => s
  | None => "changediff-" +:+ pretty fallback
  end.

Definition _result_key (row : ChangeDiff) (vm : option IntentVM) (vmid : pyval) (fallback : Z) : string :=
  if negb (none_or_empty vmid) then str vmid
  else match vm with
       | Some vm => pretty (vm_pk (iv_core vm))
       | None => _diff_identifier row fallback
       end.

Definition _result_entry (vmid : pyval) (op kind status message : string) (upid : pyval) : result_entry :=
  mkEntry vmid op kind status message upid None.

Definition _first_apply_result (body : dict pyval) : dict pyval :=
  match get "results" body with
  | VList (VDict item :: _) => item
  | _ => [("status", VStr "failed");
          ("message", VStr "proxbox-api returned no ApplyResultItem for the CREATE diff.")]
  end.

Section Apply.
Context {E : Type} `{!ApplyEnv E}.

Abbreviation W := (ap_world E).

Definition ap_op {A} (ev : apply_event) (op : E -> A * E) : M W A := fun w =>
  let '(a, env') := op (aw_env w) in (Ok a, mkAp env' (ev :: aw_log w)).

Definition is_ok {A} (r : result A) : bool := match r with Ok _ => true | Err _ => false end.

(** A save: the event tells whether it worked. *)
Definition lift_op {A} (ev : bool -> apply_event) (op : E -> result A * E) : M W A := fun w =>
  let '(r, env') := op (aw_env w) in (r, mkAp env' (ev (is_ok r) :: aw_log w)).

(** [_call_apply_endpoint] *)
Definition _call_apply_endpoint (req : apply_request) : M W (dict pyval) :=
  context ← gets (fun w => ap_context (aw_env w));
  match context with
  | None => raise (RuntimeError "No FastAPIEndpoint is configured; cannot apply intent.")
  | Some c =>
      match ctx_http_url c with
      | None | Some "" => raise (RuntimeError "FastAPIEndpoint has no resolvable http_url.")
      | Some http_url =>
          let url := rstrip_char "/" http_url +:+ "/intent/apply" in
          let url := match aq_endpoint_id req with
                     | Some id => url +:+ "?endpoint_id=" +:+ pretty id
                     | None => url
                     end in
          answer ← ap_op (EvApply req) (ap_post url req);
          match answer with
          | inl body => mret body
          | inr error => raise (RuntimeError error)
          end
      end
  end.

(** [tag_pending_deletion]: every failure is a no. *)
Definition tag_pending_deletion (context : option BackendRequestContext) (vmid : Z) (node kind : string) : M W bool :=
  match context ≫= ctx_http_url with
  | None | Some "" => mret false
  | Some http_url =>
      answer ← ap_op (EvTag vmid node kind)
                 (ap_tag (rstrip_char "/" http_url +:+ "/intent/tag-pending-deletion") vmid node kind);
      mret match answer with
           | Err _ => false
           | Ok (Some (VDict body)) => negb match dget "ok" body with Some (VBool false) => true | _ => false end
           | Ok (Some _) => true
           | Ok None => false
           end
  end.

Definition stamp_intent_state (vm : IntentVM) : M W () :=
  _ ← ap_op (EvStamp (vm_pk (iv_core vm))) (ap_stamp (vm_pk (iv_core vm))); mret ().

Definition text_of (v : pyval) (dflt : string) : string := str (py_or v (VStr dflt)).

(** The entry for the backend's answer to one diff. *)
Definition answer_entry (item : dict pyval) (vmid : pyval) (op kind : string) : result_entry :=
  _result_entry (dget_or "vmid" vmid item) op kind (text_of (get "status" item) "failed")
    (text_of (get "message" item) "") (py_or (get "proxmox_upid" item) (get "upid" item)).

(** Sending one creation or update. *)
Definition send_diff (job : apply_job) (vm : IntentVM) (vmid : pyval) (op kind : string) (payload : dict pyval) :
    M W result_entry :=
  endpoint_id ← gets (fun w => default_proxmox_endpoint_id (ap_endpoints (aw_env w)));
  body ← _call_apply_endpoint
    (mkApplyRequest endpoint_id op kind payload (aa_username <$> aj_actor job) (aj_run_uuid job));
  let entry := answer_entry (_first_apply_result body) vmid op kind in
  _ ← (if _status_is_success (en_status entry) then stamp_intent_state vm else mret ());
  mret entry.

Definition denied (vmid : pyval) (op kind : string) : result_entry :=
  _result_entry vmid op kind "skipped" ("permission denied: " +:+ permission op kind) VNone.

Definition failed_entry (vmid : pyval) (op kind : string) (exc : exn) : result_entry :=
  _result_entry vmid op kind "failed" (exn_msg exc) VNone.

(** Turning a deletion into a request. *)
Definition request_deletion (job : apply_job) (snapshot : dict pyval) (vmid : Z) (node name kind : string) :
    M W result_entry :=
  let branch := aj_branch job in
  let pending := mkPending (br_pk branch) (br_name branch) vmid node kind name snapshot in
  id ← lift_op (EvDeletion pending) (ap_save_deletion pending);
  context ← gets (fun w => ap_context (aw_env w));
  _ ← tag_pending_deletion context vmid node kind;
  mret (mkEntry (VInt vmid) "delete" kind "delete-pending-approval" "pending authorization" VNone (Some id)).

(** A deletion: the key is the one of the snapshot once there is one. *)
Definition apply_deletion (job : apply_job) (destroy_confirmed : bool) (vm : option IntentVM) (row : ChangeDiff)
    (index : Z) (key : string) (vmid : pyval) (kind : string) : M W (string * result_entry) :=
  if negb destroy_confirmed
  then mret (key, _result_entry vmid "delete" kind "skipped" "apply_destroy_confirmed not set" VNone)
  else if negb (permitted (aj_actor job) (permission "delete" kind)) then mret (key, denied vmid "delete" kind)
  else
    match (snapshot ← match vm with None => build_deleted_metadata_snapshot row | Some vm => build_metadata_snapshot vm end;
           identity ← _deletion_identity snapshot;
           mret (snapshot, identity)) with
    | Err exc => mret (key, failed_entry vmid "delete" kind exc)
    | Ok (snapshot, (snapshot_vmid, node, name)) =>
        let key := _result_key row vm (VInt snapshot_vmid) index in
        try_except
          (entry ← request_deletion job snapshot snapshot_vmid node name kind; mret (key, entry))
          (fun exc => mret (key, failed_entry (VInt snapshot_vmid) "delete" kind exc))
    end.

(** One changed virtual machine: the key of its result and the result. *)
Definition apply_vm_diff (job : apply_job) (destroy_confirmed : bool) (index : Z) (e : entry) :
    M W (string * result_entry) :=
  let '(vm, requested_op, row) := e in
  let '(op, kind) := classify_diff vm requested_op row in
  setting ← gets (fun w => ap_setting (aw_env w));
  match match vm with
        | Some v => if String.eqb kind "lxc" then build_lxc_payload setting v else build_vm_payload setting v
        | None => Ok []
        end with
  | Err exc => mret (_diff_identifier row index, failed_entry VNone op kind exc)
  | Ok payload =>
      let vmid := get "vmid" payload in
      let key := _result_key row vm vmid index in
      if String.eqb op "delete" then apply_deletion job destroy_confirmed vm row index key vmid kind
      else match vm with
           | None =>
               mret (key, _result_entry vmid op kind "failed"
                 ("Could not resolve NetBox VM for ChangeDiff " +:+ _diff_identifier row index +:+ ".") VNone)
           | Some v =>
               try_except
                 (entry ←
                    (if String.eqb op "update" then
                       delta ← lift (build_update_delta setting v []);
                       match delta with
                       | [] => mret (_result_entry vmid op kind "skipped" "no real change" VNone)
                       | _ => if negb (permitted (aj_actor job) (permission op kind)) then mret (denied vmid op kind)
                              else send_diff job v vmid op kind delta
                       end
                     else
                       if negb (permitted (aj_actor job) (permission op kind)) then mret (denied vmid op kind)
                       else send_diff job v vmid op kind payload);
                  mret (key, entry))
                 (fun exc => mret (key, failed_entry vmid op kind exc))
           end
  end.

(** One changed firewall object. *)
Definition apply_fw_diff (job : apply_job) (index : Z) (row : FwDiff) : M W (string * result_entry) :=
  let key := firewall_result_key row index in
  match build_firewall_apply_diff row with
  | None =>
      let op := if truthy (fd_action row) then str (fd_action row) else "update" in
      mret (key, _result_entry (VInt 0) op "firewall" "skipped" (unsupported_firewall_diff_message row) VNone)
  | Some d =>
      let op := str_or (ad_op d) "update" in
      try_except
        (body ← _call_apply_endpoint (mkApplyRequest (ad_endpoint_id d) op "firewall" (ad_diff d)
                  (aa_username <$> aj_actor job) (aj_run_uuid job));
         let entry := answer_entry (_first_apply_result body) (VInt 0) op "firewall" in
         _ ← (if _status_is_success (en_status entry) then
                match ad_obj d with
                | Some o => lift_op (EvFwActive (_status_target o)) (ap_fw_status (_status_target o) ACTIVE)
                | None => mret ()
                end
              else mret ());
         mret (key, entry))
        (fun exc => mret (key, failed_entry (VInt 0) op "firewall" exc))
  end.

(** [for index, x in enumerate(l, start=1): results[key] = entry] *)
Fixpoint record_all {A} (f : Z -> A -> M W (string * result_entry)) (index : Z) (l : list A)
    (results : dict result_entry) : M W (dict result_entry) :=
  match l with
  | [] => mret results
  | x :: l' => '(key, entry) ← f index x; record_all f (index + 1) l' (dset key entry results)
  end.

Definition _branch_destroy_confirmed (branch : Branch) : M W bool :=
  gates ← gets (fun w => ap_gates (aw_env w));
  mret (apply_destroy_confirmed (resolve_branch_intent_flags gates branch)).

(** The rest of [run] once the job row is there. *)
Definition apply_branch (job : apply_job) : M W () :=
  _ ← lift_op (EvSave running None) (ap_save running None);
  destroy_confirmed ← _branch_destroy_confirmed (aj_branch job);
  db ← gets (fun w => ap_db (aw_env w));
  diffs ← lift (virtual_machine_diff_union db (aj_branch job));
  results ← record_all (apply_vm_diff job destroy_confirmed) 1 diffs [];
  results ← record_all (apply_fw_diff job) 1 (firewall_changediffs (aj_firewall job)) results;
  let state := _state_from_results results in
  lift_op (EvSave state (Some results)) (ap_save state (Some results)).

Definition run (run_uuid : string) : M W () :=
  found ← gets (fun w => ap_job run_uuid (aw_env w));
  match found with
  | Err _ => mret ()
  | Ok job =>
      try_except (apply_branch job)
        (fun _ => try_except (lift_op (EvSave failed_state None) (ap_save failed_state None)) (fun _ => mret ()))
  end.

End Apply.

(** ** What a run may do *)

Section Safety.
Context {E : Type} `{!ApplyEnv E}.
Context (job : apply_job) (confirmed : bool).

Definition event_ok (ev : apply_event) (old : list apply_event) : Prop :=
  match ev with
  | EvApply req =>
      (aq_op req = "create" \/ aq_op req = "update") /\
        permitted (aj_actor job) (permission (aq_op req) (aq_kind req)) = true \/
      exists row d, row ∈ firewall_changediffs (aj_firewall job) /\ build_firewall_apply_diff row = Some d /\
        aq_kind req = "firewall" /\ aq_diff req = ad_diff d /\ aq_endpoint_id req = ad_endpoint_id d
  | EvDeletion p _ =>
      confirmed = true /\ permitted (aj_actor job) (permission "delete" (pd_kind p)) = true /\
      0 < pd_vmid p /\ pd_branch_id p = br_pk (aj_branch job)
  | EvTag vmid node kind => exists p, EvDeletion p true ∈ old /\ pd_vmid p = vmid /\ pd_node p = node /\ pd_kind p = kind
  | _ => True
  end.

Fixpoint log_ok (l : list apply_event) : Prop :=
  match l with [] => True | ev :: old => event_ok ev old /\ log_ok old end.

Definition safe (w : ap_world E) : Prop := log_ok (aw_log w).

Lemma wp_ap_op {A} (ev : apply_event) (op : E -> A * E) (Q : result A -> ap_world E -> Prop) (w : ap_world E) :
  (forall a env', Q (Ok a) (mkAp env' (ev :: aw_log w))) -> wp (ap_op ev op) Q w.
Proof. intros H. unfold wp, ap_op. destruct (op (aw_env w)) as [a env']. apply H. Qed.

Lemma wp_lift_op {A} (ev : bool -> apply_event) (op : E -> result A * E) (Q : result A -> ap_world E -> Prop)
    (w : ap_world E) :
  Q (fst (op (aw_env w))) (mkAp (snd (op (aw_env w))) (ev (is_ok (fst (op (aw_env w)))) :: aw_log w)) -> wp (lift_op ev op) Q w.
Proof. intros H. unfold wp, lift_op. by destruct (op (aw_env w)) as [a env']. Qed.

Lemma ap_op_safe {A} (ev : apply_event) (op : E -> A * E) :
  (forall l, event_ok ev l) -> keeps safe (ap_op ev op).
Proof. intros Hev w Hw. unfold ap_op. destruct (op (aw_env w)). split; [apply Hev|done]. Qed.

Lemma lift_op_safe {A} (ev : bool -> apply_event) (op : E -> result A * E) :
  (forall saved l, event_ok (ev saved) l) -> keeps safe (lift_op ev op).
Proof. intros Hev w Hw. unfold lift_op. destruct (op (aw_env w)). split; [apply Hev|done]. Qed.

Lemma call_safe (req : apply_request) : (forall l, event_ok (EvApply req) l) -> keeps safe (_call_apply_endpoint req).
Proof.
  intros Hreq. unfold _call_apply_endpoint. apply keeps_bind; [auto with effects|]. intros [c|]; [|auto with effects].
  destruct (ctx_http_url c) as [[|ch url]|]; [auto with effects| |auto with effects].
  apply keeps_bind; [by apply ap_op_safe|]. intros []; auto with effects.
Qed.

Lemma stamp_safe (vm : IntentVM) : keeps safe (stamp_intent_state vm).
Proof. apply keeps_bind; [by apply ap_op_safe|]. auto with effects. Qed.

Lemma send_safe (vm : IntentVM) (vmid : pyval) (op kind : string) (payload : dict pyval) :
  (op = "create" \/ op = "update") -> permitted (aj_actor job) (permission op kind) = true ->
  keeps safe (send_diff job vm vmid op kind payload).
Proof.
  intros Hop Hp. unfold send_diff. apply keeps_bind; [auto with effects|]. intros id.
  apply keeps_bind; [apply call_safe; intros l; by left|]. intros body. apply keeps_bind; [|auto with effects].
  split_ifs; [apply stamp_safe|auto with effects].
Qed.

Lemma deletion_safe (snapshot : dict pyval) (vmid : Z) (node name kind : string) :
  confirmed = true -> permitted (aj_actor job) (permission "delete" kind) = true -> 0 < vmid ->
  keeps safe (request_deletion job snapshot vmid node name kind).
Proof.
  intros Hc Hp Hv w Hw. unfold request_deletion. set (p := mkPending _ _ _ _ _ _ _).
  change (wp (id ← lift_op (EvDeletion p) (ap_save_deletion p);
     context ← gets (fun w => ap_context (aw_env w));
     _ ← tag_pending_deletion context vmid node kind;
     mret (mkEntry (VInt vmid) "delete" kind "delete-pending-approval" "pending authorization" VNone (Some id)))
     (fun _ => safe) w).
  apply wp_bind, wp_lift_op.
  assert (Hw1 : forall saved, log_ok (EvDeletion p saved :: aw_log w)) by (intros saved; split; [by repeat split|done]).
  destruct (fst _) as [id|]; [|apply Hw1]. apply wp_bind, wp_gets, wp_bind. unfold tag_pending_deletion.
  destruct (_ ≫= ctx_http_url) as [[|c url]|]; [by apply wp_ret| |by apply wp_ret].
  apply wp_bind, wp_ap_op. intros a env''. wp_steps. split; [|apply Hw1].
  exists p. split; [left|done].
Qed.

Lemma identity_positive (snapshot : dict pyval) (vmid : Z) (node name : string) :
  _deletion_identity snapshot = Ok (vmid, node, name) -> 0 < vmid.
Proof.
  unfold _deletion_identity. destruct (get "vmid" snapshot) as [| |z| | | |]; try done.
  destruct (Z.leb_spec z 0); [done|]. split_ifs; try done. intros [= <- _ _]. done.
Qed.

Lemma apply_deletion_safe (vm : option IntentVM) (row : ChangeDiff) (index : Z) (key : string) (vmid : pyval) (kind : string) :
  keeps safe (apply_deletion job confirmed vm row index key vmid kind).
Proof.
  unfold apply_deletion. destruct (negb confirmed) eqn:Hc; [apply keeps_ret|]. apply negb_false_iff in Hc.
  destruct (negb (permitted _ _)) eqn:Hp; [apply keeps_ret|]. apply negb_false_iff in Hp.
  destruct (_ ≫= _) as [[snapshot [[v node] name]]|exc] eqn:Hs; [|auto with effects].
  assert (Hv : 0 < v).
  { destruct (match vm with Some _ => _ | None => _ end) as [sn|]; [|done]. cbn [mbind result_bind] in Hs.
    destruct (_deletion_identity sn) as [[[v' n'] m']|] eqn:Hi; [|done]. cbn in Hs. injection Hs as _ <- _ _.
    by eapply identity_positive. }
  apply keeps_try; [|auto with effects]. apply keeps_bind; [|auto with effects]. by apply deletion_safe.
Qed.

Lemma apply_vm_safe (index : Z) (e : entry) : keeps safe (apply_vm_diff job confirmed index e).
Proof.
  unfold apply_vm_diff. destruct e as [[vm requested] row]. destruct (classify_diff vm requested row) as [op kind] eqn:Hop.
  assert (Hops : op = "create" \/ op = "update" \/ op = "delete").
  { unfold classify_diff in Hop. injection Hop as <- _. destruct (mem_str (lower requested) ACTIONS) eqn:Hm; [|by right; left].
    apply mem_str_spec in Hm. unfold ACTIONS in Hm. set_solver. }
  apply keeps_bind; [auto with effects|]. intros setting.
  destruct (match vm with Some _ => _ | None => _ end) as [payload|exc]; [|auto with effects].
  destruct (String.eqb_spec op "delete") as [->|Hnd]; [apply apply_deletion_safe|].
  destruct vm as [v|]; [|auto with effects]. apply keeps_try; [|auto with effects].
  apply keeps_bind; [|intros ?; auto with effects]. destruct (String.eqb_spec op "update") as [->|Hnu].
  - apply keeps_bind; [auto with effects|]. intros [|kv delta]; [auto with effects|].
    destruct (permitted _ _) eqn:Hp; cbn [negb]; [apply send_safe; [by right|done]|auto with effects].
  - destruct (permitted _ _) eqn:Hp; cbn [negb]; [|auto with effects]. apply send_safe; [|done].
    destruct Hops as [?|[?|?]]; [by left|done|done].
Qed.

Lemma apply_fw_safe (index : Z) (row : FwDiff) :
  row ∈ firewall_changediffs (aj_firewall job) -> keeps safe (apply_fw_diff job index row).
Proof.
  intros Hrow. unfold apply_fw_diff. destruct (build_firewall_apply_diff row) as [d|] eqn:Hd; [|auto with effects].
  apply keeps_try; [|auto with effects]. apply keeps_bind.
  - apply call_safe. intros l. right. by exists row, d.
  - intros body. apply keeps_bind; [|auto with effects]. destruct (_status_is_success _); [|auto with effects].
    destruct (ad_obj d); [by apply lift_op_safe|auto with effects].
Qed.

Lemma record_all_safe {A} (f : Z -> A -> M (ap_world E) (string * result_entry)) (l : list A) (index : Z) results :
  (forall i x, x ∈ l -> keeps safe (f i x)) -> keeps safe (record_all f index l results).
Proof.
  revert index results. induction l as [|x l IH]; intros index results Hf; [apply keeps_ret|].
  cbn [record_all]. apply keeps_bind; [apply Hf; left|]. intros [key entry]. apply IH. intros. apply Hf. by right.
Qed.

End Safety.

(** C10: An apply job never destroys a guest, and does nothing its user may not:
    each request it sends is a creation or update that the user has the
    permission for, of the right kind, or a firewall change of the branch; a
    deletion only becomes a pending request, only when the branch's deletions
    were confirmed and the user may delete that kind of guest; and only guests
    with such a request are tagged. *)
Theorem apply_never_destroys {E : Type} `{!ApplyEnv E} (run_uuid : string) (env : E) :
  match ap_job run_uuid env with
  | Err _ => aw_log (snd (run run_uuid (mkAp env []))) = []
  | Ok job =>
      log_ok job
        (apply_destroy_confirmed (resolve_branch_intent_flags (ap_gates (snd (ap_save running None env))) (aj_branch job)))
        (aw_log (snd (run run_uuid (mkAp env []))))
  end.
Proof.
  destruct (ap_job run_uuid env) as [job|exc] eqn:Ej.
  2:{ unfold run, mbind, M_bind, gets. cbn [aw_env]. by rewrite Ej. }
  set (confirmed := apply_destroy_confirmed _).
  change (wp (run run_uuid) (fun _ w' => log_ok job confirmed (aw_log w')) (mkAp env [])).
  unfold run. apply wp_bind, wp_gets. cbn [aw_env]. rewrite Ej. apply wp_try.
  assert (Hfail : forall w, safe job confirmed w ->
    wp (try_except (lift_op (EvSave failed_state None) (ap_save failed_state None)) (fun _ => mret ()))
       (fun _ w' => log_ok job confirmed (aw_log w')) w).
  { intros w Hw. apply (wp_keeps (safe job confirmed)); [|exact Hw]. apply keeps_try; [by apply lift_op_safe|auto with effects]. }
  eapply (wp_mono _ (fun _ w' => safe job confirmed w')).
  2:{ intros [[]|exc] w Hw; [done|by apply Hfail]. }
  unfold apply_branch. apply wp_bind, wp_lift_op. cbn [aw_env aw_log].
  destruct (fst (ap_save running None env)) as [[]|exc]; [|exact (conj I I)]. unfold _branch_destroy_confirmed.
  apply wp_bind, wp_bind, wp_gets, wp_ret. cbn [aw_env]. fold confirmed.
  apply (wp_keeps (safe job confirmed)); [|exact (conj I I)].
  apply keeps_bind; [auto with effects|]. intros db. apply keeps_bind; [auto with effects|]. intros diffs.
  apply keeps_bind; [apply record_all_safe; intros; apply apply_vm_safe|]. intros results.
  apply keeps_bind; [apply record_all_safe; intros; by apply apply_fw_safe|]. intros results'. by apply lift_op_safe.
Qed.

(** ** Every run ends *)

(** The state that a list of results calls for: succeeded when all of them are
    successes, failed when there are some and all of them failed, and partial
    otherwise. *)
Definition calls_for (results : dict result_entry) (state : apply_state) : Prop :=
  let all words := forall k e, (k, e) ∈ results -> lower (en_status e) ∈ words in
  state ∈ [succeeded; failed_state; partial] /\
  (state = succeeded <-> all ["succeeded"; "success"; "applied"; "intent-logged"; "delete-pending-approval"]) /\
  (state = failed_state <-> results <> [] /\ all ["failed"]).

Lemma state_of_results (results : dict result_entry) : calls_for results (_state_from_results results).
Proof.
  set (statuses := List.map (fun kv : string * result_entry => lower (en_status (snd kv))) results).
  assert (Hall : forall words, forallb (fun s => mem_str s words) statuses = true <->
    forall k e, (k, e) ∈ results -> lower (en_status e) ∈ words).
  { intros words. unfold statuses. rewrite forallb_forall. split.
    - intros H k e Hin. apply mem_str_spec, H, in_map_iff. exists (k, e). split; [done|]. by apply list_elem_of_In.
    - intros H t ([k e] & <- & Hin)%in_map_iff. apply mem_str_spec, (H k), list_elem_of_In, Hin. }
  unfold calls_for, _state_from_results. fold statuses. rewrite <- !Hall. fold _SUCCESS_STATUSES _FAILED_STATUSES.
  destruct (forallb (fun s => mem_str s _SUCCESS_STATUSES) statuses) eqn:Hs.
  - split; [left|]. split; [done|]. split; [done|]. intros [Hne Hf]. destruct results as [|[k e] rest]; [done|].
    cbn [statuses List.map forallb] in Hs, Hf. apply andb_prop in Hs as [Hs _], Hf as [Hf _].
    apply mem_str_spec in Hs, Hf. apply list_elem_of_singleton in Hf. cbn [snd] in *. rewrite Hf in Hs. set_solver.
  - destruct (forallb (fun s => mem_str s _FAILED_STATUSES) statuses) eqn:Hf.
    + split; [right; left|]. split; [done|]. split; [|done]. intros _. split; [|done]. by intros ->.
    + split; [right; right; left|]. split; [done|]. by split; [|intros [_ ?]].
Qed.

(** Code that never raises. *)
Definition unraising {E A} (m : M (ap_world E) A) : Prop := forall w, exists a w', m w = (Ok a, w').

Lemma unraising_ret {E A} (a : A) : unraising (E := E) (mret a).
Proof. intros w. by eexists _, _. Qed.

Lemma unraising_gets {E A} (f : ap_world E -> A) : unraising (gets f).
Proof. intros w. by eexists _, _. Qed.

Lemma unraising_bind {E A B} (m : M (ap_world E) A) (f : A -> M (ap_world E) B) :
  unraising m -> (forall a, unraising (f a)) -> unraising (m ≫= f).
Proof. intros Hm Hf w. unfold mbind, M_bind. destruct (Hm w) as (a & w' & ->). apply Hf. Qed.

Lemma unraising_try {E A} (m : M (ap_world E) A) (h : exn -> M (ap_world E) A) :
  (forall e, unraising (h e)) -> unraising (try_except m h).
Proof. intros Hh w. unfold try_except. destruct (m w) as [[a|e] w']; [by eexists _, _|apply Hh]. Qed.

Create HintDb unraising.
#[local] Hint Resolve unraising_ret unraising_gets unraising_try : unraising.

Lemma apply_vm_unraising {E : Type} `{!ApplyEnv E} job confirmed index (e : entry) :
  unraising (apply_vm_diff job confirmed index e).
Proof.
  destruct e as [[vm op] row]. unfold apply_vm_diff. destruct (classify_diff vm op row) as [op' kind].
  apply unraising_bind; [auto with unraising|]. intros setting. destruct (match vm with Some _ => _ | None => _ end); [|auto with unraising].
  destruct (String.eqb op' "delete"); [|destruct vm; auto with unraising]. unfold apply_deletion.
  destruct (negb confirmed); [auto with unraising|]. destruct (negb _); [auto with unraising|].
  destruct (_ ≫= _) as [[? [[? ?] ?]]|]; auto with unraising.
Qed.

Lemma apply_fw_unraising {E : Type} `{!ApplyEnv E} job index (row : FwDiff) : unraising (apply_fw_diff job index row).
Proof. unfold apply_fw_diff. destruct (build_firewall_apply_diff row); auto with unraising. Qed.

Lemma dset_nonempty {A} (k : string) (v : A) (d : dict A) : dset k v d <> [].
Proof. destruct d as [|[k' v'] d]; simpl; [done|]. by destruct (String.eqb k k'). Qed.

(** A loop over the changes leaves results unless there was nothing to do. *)
Lemma record_all_results {E A} (f : Z -> A -> M (ap_world E) (string * result_entry)) (index : Z) (l : list A)
    (results : dict result_entry) (w : ap_world E) :
  (forall i x, unraising (f i x)) ->
  exists r w', record_all f index l results w = (Ok r, w') /\ (r = [] <-> results = [] /\ l = []).
Proof.
  intros Hf. revert index results w. induction l as [|x l IH]; intros index results w; cbn [record_all].
  - exists results, w. split; [done|]. naive_solver.
  - unfold mbind, M_bind. destruct (Hf index x w) as ([key e] & w1 & ->).
    destruct (IH (index + 1) (dset key e results) w1) as (r & w' & -> & Hr). exists r, w'. split; [done|].
    rewrite Hr. split; [|by intros [_ ?]]. intros [Hd _]. by apply dset_nonempty in Hd.
Qed.

(** What can keep the run from saving its results: the start, the read of the
    changed virtual machines, and the save itself. *)
Inductive went_wrong {E : Type} `{!ApplyEnv E} (job : apply_job) (env : E) : list apply_event -> Prop :=
| start_unsaved : went_wrong job env [EvSave running None false]
| changes_unread exc :
    virtual_machine_diff_union (ap_db (snd (ap_save running None env))) (aj_branch job) = Err exc ->
    went_wrong job env [EvSave running None true]
| results_unsaved s r old : went_wrong job env (EvSave s (Some r) false :: old).

(** How the run of a job ends, by its last act. *)
Inductive finished {E : Type} `{!ApplyEnv E} (job : apply_job) (env : E) : list apply_event -> Prop :=
| finished_results s r old diffs :
    virtual_machine_diff_union (ap_db (snd (ap_save running None env))) (aj_branch job) = Ok diffs ->
    (r = [] <-> diffs = [] /\ firewall_changediffs (aj_firewall job) = []) -> calls_for r s ->
    finished job env (EvSave s (Some r) true :: old)
| finished_failed saved old : went_wrong job env old -> finished job env (EvSave failed_state None saved :: old).


(** ** A concrete run *)

(** The answers of the backend in order, and the job. *)
Record apply_script := mkApplyScript { as_job : apply_job; as_answers : list apply_answer }.

#[global] Instance script_apply_env : ApplyEnv apply_script := {|
  ap_job := fun _ s => Ok (as_job s);
  ap_gates := fun _ => mkGateEnv (Ok true) (fun _ _ => Ok true) (fun _ _ => Ok (Some (VBool true, VBool true)));
  ap_db := fun _ => mkIntentDb (fun _ => Ok None) (fun _ => Ok None) (fun _ => None);
  ap_context := fun _ => Some {| ctx_http_url := Some "http://api/"; ctx_headers := []; ctx_verify_ssl := true |};
  ap_endpoints := fun _ => Ok [registered_endpoint];
  ap_setting := fun _ => Ok false;
  ap_post := fun _ _ s => match as_answers s with
                          | [] => (inr "no answer", s)
                          | a :: l => (a, mkApplyScript (as_job s) l)
                          end;
  ap_save_deletion := fun _ s => (Ok 31, s);
  ap_tag := fun _ _ _ _ s => (Ok (Some (VDict [("ok", VBool true)])), s);
  ap_stamp := fun _ s => (Ok (), s);
  ap_fw_status := fun _ _ s => (Ok (), s);
  ap_save := fun _ _ s => (Ok (), s)
|}.

(** A virtual machine with the key [pk], and a VMID where it is synced. *)
Definition changed_vm (pk : Z) (vmid : option Z) : IntentVM :=
  mkIntentVM
    {| vm_pk := pk; vm_name := "vm" +:+ pretty pk; vm_cluster := None; vm_device_name := None; vm_type_slug := None;
       vm_sync_state := match vmid with
                        | None => None
                        | Some v => Some {| ss_virtual_machine_id := Some pk; ss_endpoint := Some (7, true);
                            ss_endpoint_id := Some 7; ss_proxmox_cluster := None; ss_proxmox_cluster_name := "";
                            ss_proxmox_node := None; ss_proxmox_node_name := "pve1"; ss_proxmox_vm_type := "qemu";
                            ss_proxmox_vm_id := Some v |}
                        end;
       vm_tenant := None; vm_tags := [] |}
    None None [] [] [] None None VNone [] None.

Definition vm_change (pk : Z) (vmid : option Z) (action : string) : ChangeDiff :=
  mkDiff (VInt (pk + 100)) VM_MODEL (VStr action) (Some pk) VNone (Ok (Some (ChangedVM (changed_vm pk vmid))))
    VNone VNone VNone.

Definition job_of (diffs : list ChangeDiff) : apply_job :=
  mkApplyJob (mkBranch (Some 4) "b" (VStr "s") (Some diffs)) None (Some (mkActor "alice" (fun _ => true))) "uuid".

Definition answer (status : string) : apply_answer :=
  inl [("results", VList [VDict [("status", VStr status)]])].

Definition run_of (diffs : list ChangeDiff) (answers : list apply_answer) : list apply_event :=
  aw_log (snd (run "uuid" (mkAp (mkApplyScript (job_of diffs) answers) []))).

Definition last_save (l : list apply_event) : option (apply_state * list (string * string)) :=
  match l with
  | EvSave s (Some r) true :: _ => Some (s, List.map (fun kv => (fst kv, en_status (snd kv))) r)
  | _ => None
  end.

(** A creation that fails, an update that works, a deletion that waits. *)
Example apply_run :
  last_save (run_of [vm_change 20 None "create"; vm_change 21 (Some 121) "update"; vm_change 22 (Some 122) "delete"]
               [answer "failed"; answer "applied"]) =
  Some (partial, [("20", "failed"); ("121", "applied"); ("122", "delete-pending-approval")]).
Proof. vm_compute. reflexivity. Qed.

(** The key of a result is the VMID of one machine or the primary key of
    another: here the failed update of VMID 12 is overwritten by the creation
    of the machine with primary key 12, and the job counts as succeeded. *)
Example result_keys_collide :
  last_save (run_of [vm_change 20 (Some 12) "update"; vm_change 12 None "create"] [answer "failed"; answer "applied"]) =
  Some (succeeded, [("12", "applied")]).
Proof. vm_compute. reflexivity. Qed.
