(* ===== verification/MergeValidator.v ===== *)
(** * Validation of a merge

    intent/merge_validator.py and intent/plan_client.py: before a branch is
    merged, its changes are shown to the backend, which may refuse.  The
    environment is what the validator reads: settings, gates, rows, the FastAPI
    endpoint, and the backend's answer to the one request it sends. *)
From Stdlib Require Import ZArith Lia Ascii String.
From stdpp Require Import base list sets strings pretty.
From S2P Require Import Prelude SyncModes StageExec VmObjects Text IntentDiffs IntentPayload.
From S2P Require Import BackendRegistration FirewallPush FirewallIntent.

(** [BranchActionIndicator] *)
Record indicator := mkIndicator { in_permitted : bool; in_message : string }.

Record PlanClientResult := mkPlanResult {
  plan_permitted : bool; plan_summary : string; plan_verdicts : list pyval
}.

(** What [requests.post] gives: a transport error with the text that the
    client makes of it, or a response with its status, the detail of an error,
    and its parsed body. *)
Inductive plan_answer := PlanFailed (error : string) | PlanResponse (status : Z) (detail : string) (body : option pyval).

Record plan_env := mkPlanEnv {
  pe_settings : result (option (pyval * pyval));  (* netbox_to_proxmox_enabled, intent_warn_plaintext_password *)
  pe_gates : gate_env;
  pe_db : intent_db;
  pe_endpoints : result (list RegEndpoint);
  pe_context : result (option BackendRequestContext);
  pe_post : string -> dict pyval -> plan_answer
}.

Definition _is_intent_enabled (env : plan_env) : result bool :=
  settings ← pe_settings env;
  mret match settings with Some (enabled, _) => truthy enabled | None => false end.

Definition _warn_plaintext_password_enabled (env : plan_env) : result bool :=
  settings ← pe_settings env;
  mret match settings with Some (_, warn) => truthy warn | None => true end.

Definition flags (env : plan_env) (branch : Branch) : BranchIntentFlags := resolve_branch_intent_flags (pe_gates env) branch.

(** ** plan_client.py *)

Definition from_payload (payload : dict pyval) : result PlanClientResult :=
  verdicts ← (match py_or (get "verdicts" payload) (VList []) with
              | VList l => mret l
              | VDict d => mret (List.map (fun kv => VStr (fst kv)) d)
              | VStr s => mret (List.map (fun c => VStr (String c "")) (list_ascii_of_string s))
              | _ => Err (TypeError "object is not iterable")
              end);
  mret (mkPlanResult (truthy (get "permitted" payload)) (str (dget_or "summary" (VStr "") payload)) verdicts).

Definition call_plan_endpoint (env : plan_env) (payload : dict pyval) : result PlanClientResult :=
  context ← pe_context env;
  match context with
  | None => Err (PlanClientError "No FastAPIEndpoint is configured; cannot validate merge intent.")
  | Some c =>
      match ctx_http_url c with
      | None | Some "" =>
          Err (PlanClientError "FastAPIEndpoint has no resolvable http_url; cannot reach proxbox-api.")
      | Some http_url =>
          match pe_post env (rstrip_char "/" http_url +:+ "/intent/plan") payload with
          | PlanFailed error => Err (PlanClientError error)
          | PlanResponse status detail body =>
              if 400 <=? status
              then Err (PlanClientError ("proxbox-api returned HTTP " +:+ pretty status +:+ " for /intent/plan: " +:+ detail))
              else match body with
                   | None => Err (PlanClientError ("proxbox-api returned a non-JSON body for /intent/plan: " +:+ detail))
                   | Some (VDict d) => from_payload d
                   | Some v => Err (PlanClientError
                       ("proxbox-api returned an unexpected body for /intent/plan: " +:+ repr v))
                   end
          end
      end
  end.

(** ** The diffs of the branch *)

Definition plan_diff (e : entry) : dict pyval :=
  let '(vm, action, row) := e in
  let '(op, _) := classify_diff vm action row in
  [("op", VStr op); ("kind", VStr VM_MODEL); ("netbox_id", opt_int (virtual_machine_diff_id vm row));
   ("name", let name := virtual_machine_diff_name vm row in if is_empty name then VNone else VStr name)].

Definition _classify_vm_diffs (env : plan_env) (branch : Branch) : result (list (dict pyval)) :=
  l ← virtual_machine_diff_union (pe_db env) branch; mret (List.map plan_diff l).

Definition is_value (v : pyval) (s : string) : bool := match v with VStr t => String.eqb t s | _ => false end.

Definition _has_vm_delete (diffs : list (dict pyval)) : bool :=
  existsb (fun d => (is_value (get "op" d) "delete" && negb (is_value (get "kind" d) "firewall"))%bool) diffs.

(** ** Warnings and messages *)

Definition _contains_plaintext_password (user_data : pyval) : bool :=
  contains "password:" (lower (str (py_or user_data (VStr "")))).

Definition _vm_name (vm : option IntentVM) : string :=
  match vm with
  | Some vm => str_or (vm_name (iv_core vm)) (pretty (vm_pk (iv_core vm)))
  | None => "unknown"
  end.

Definition warning (vm : option IntentVM) : pyval :=
  VDict [("vm", VStr (_vm_name vm)); ("level", VStr "warn"); ("code", VStr "plaintext_password_warning");
         ("message", VStr "cloud_init_user_data contains a plaintext password line")].

Definition diff_warning (e : entry) : option pyval :=
  let '(vm, op, _) := e in
  if String.eqb op "delete" then None
  else
    let intent := match vm with Some v => iv_intent v | None => None end in
    if _contains_plaintext_password (match intent with Some i => get "cloud_init_user_data" i | None => VNone end)
    then Some (warning vm) else None.

Definition _plaintext_password_warnings (env : plan_env) (branch : Branch) : result (list pyval) :=
  warn ← _warn_plaintext_password_enabled env;
  if negb warn then Ok []
  else l ← virtual_machine_diff_union (pe_db env) branch; Ok (omap diff_warning (l : list entry)).

(** [v.get(key, dflt)]; only dictionaries have [get]. *)
Definition verdict_get (v : pyval) (key : string) (dflt : pyval) : result pyval :=
  match v with VDict d => mret (dget_or key dflt d) | _ => Err (AttributeError "object has no attribute 'get'") end.

(** [v.get("message", "").strip()] *)
Definition verdict_message (v : pyval) : result string :=
  m ← verdict_get v "message" (VStr "");
  match m with VStr s => mret (strip s) | _ => Err (AttributeError "object has no attribute 'strip'") end.

Definition filter_verdicts (P : pyval -> result bool) (l : list pyval) : result (list pyval) :=
  kept ← mapM (fun v => b ← P v; mret (if (b : bool) then [v] else [])) l; mret (List.concat kept).

Definition verdict_line (v : pyval) (key dflt : string) : result string :=
  head ← verdict_get v key (VStr dflt);
  message ← verdict_message v;
  mret (str head +:+ ": " +:+ message).

Definition _format_remote_failure (r : PlanClientResult) : result string :=
  blockers ← filter_verdicts (fun v => x ← verdict_get v "verdict" VNone; mret (is_value x "blocked")) (plan_verdicts r);
  match blockers with
  | [] => mret (if nonempty (plan_summary r) then "proxbox-api refused the merge: " +:+ plan_summary r
                else "proxbox-api refused the merge.")
  | _ =>
      lines ← mapM (fun v => verdict_line v "reason" "blocked") blockers;
      mret ("proxbox-api blocked the merge: " +:+ join "; " lines)
  end.

Definition _format_success (r : PlanClientResult) : result string :=
  warned ← filter_verdicts
    (fun v => level ← verdict_get v "level" VNone;
              if negb (is_value level "warn") then mret false
              else code ← verdict_get v "code" VNone; mret (is_value code "plaintext_password_warning"))
    (plan_verdicts r);
  match warned with
  | [] => mret (plan_summary r)
  | _ =>
      lines ← mapM (fun v => verdict_line v "vm" "unknown") warned;
      let text := join "; " lines in
      mret (if nonempty (plan_summary r) then plan_summary r +:+ " Warnings: " +:+ text else "Warnings: " +:+ text)
  end.

(** ** The validator *)

Definition plan_payload (endpoint_id : Z) (branch : Branch) (username : option string) (diffs : list (dict pyval)) :
    dict pyval :=
  [("endpoint_id", VInt endpoint_id); ("branch_id", opt_int (br_pk branch)); ("actor", opt_str username);
   ("diffs", VList (List.map VDict diffs))].

(** [first_endpoint_id_from_diffs(diffs) or default_proxmox_endpoint_id()] *)
Definition plan_endpoint (env : plan_env) (diffs : list (dict pyval)) : option Z :=
  match first_endpoint_id_from_diffs diffs with
  | Some id => if id =? 0 then default_proxmox_endpoint_id (pe_endpoints env) else Some id
  | None => default_proxmox_endpoint_id (pe_endpoints env)
  end.

Definition branch_diffs (env : plan_env) (branch : Branch) (firewall : option FwChanges) :
    result (list (dict pyval)) :=
  vms ← _classify_vm_diffs env branch; mret (vms ++ build_firewall_plan_diffs firewall).

Definition validate_proxmox_intent (env : plan_env) (branch : Branch) (firewall : option FwChanges)
    (username : option string) : result indicator :=
  enabled ← _is_intent_enabled env;
  if negb enabled then mret (mkIndicator true "")
  else if negb (apply_to_proxmox (flags env branch)) then mret (mkIndicator true "")
  else
    diffs ← branch_diffs env branch firewall;
    match diffs with
    | [] => mret (mkIndicator true "No VM or firewall diffs on branch; Proxmox merge will be a no-op.")
    | _ =>
        if (_has_vm_delete diffs && negb (apply_destroy_confirmed (flags env branch)))%bool
        then mret (mkIndicator false
               ("Branch contains DELETE diffs but apply_destroy_confirmed=False. "
                +:+ "Enable the Proxbox branch intent setting (and grant "
                +:+ "authorize_deletion_request to a separate user) before merging."))
        else
          local_warnings ← _plaintext_password_warnings env branch;
          match plan_endpoint env diffs with
          | None => mret (mkIndicator false "No ProxmoxEndpoint is configured; cannot validate Proxmox intent.")
          | Some endpoint_id =>
              match call_plan_endpoint env (plan_payload endpoint_id branch username diffs) with
              | Err (PlanClientError msg) =>
                  mret (mkIndicator false ("Could not validate merge against proxbox-api: " +:+ msg))
              | Err exc => Err exc
              | Ok r =>
                  let r := mkPlanResult (plan_permitted r) (plan_summary r) (plan_verdicts r ++ local_warnings) in
                  if negb (plan_permitted r)
                  then message ← _format_remote_failure r; mret (mkIndicator false message)
                  else message ← _format_success r; mret (mkIndicator true message)
              end
          end
    end.

(** ** A merge is permitted only after the backend said so *)

(** The switch of the instance was read, and it is off. *)
Definition switched_off (env : plan_env) : Prop :=
  pe_settings env = Ok None \/ exists enabled warn, pe_settings env = Ok (Some (enabled, warn)) /\ truthy enabled = false.

(** The two columns of the intent row that is stored for the branch. *)
Definition stored_gates (g : gate_env) (branch : Branch) (apply_column destroy_column : pyval) : Prop :=
  exists id, br_pk branch = Some id /\ truthy (br_schema_id branch) = true /\ ge_branching_available g = Ok true /\
    ge_branch_exists g id (str (br_schema_id branch)) = Ok true /\
    ge_branch_intent g id (str (br_schema_id branch)) = Ok (Some (apply_column, destroy_column)).

(** The item of a plan for an entry of the branch, and for a firewall row. *)
Definition planned (e : entry) (item : dict pyval) : Prop :=
  let '(vm, op, row) := e in
  get "op" item = VStr op /\ get "kind" item = VStr "virtualmachine" /\
  get "netbox_id" item = match vm, cdf_object_id row with
                         | Some vm, _ => VInt (vm_pk (iv_core vm))
                         | None, Some pk => VInt pk
                         | None, None => VNone
                         end.

Definition firewall_planned (row : FwDiff) (item : dict pyval) : Prop :=
  get "op" item = VStr (_row_op row) /\ get "kind" item = VStr "firewall" /\
  forall id, fd_object_id row = Some id -> id <> 0 -> get "netbox_id" item = VInt id.

(** The backend's own word for one request: an answer below 400 whose object
    says permitted. *)
Definition backend_permits (env : plan_env) (payload : dict pyval) : Prop :=
  exists c http_url status detail body,
    pe_context env = Ok (Some c) /\ ctx_http_url c = Some http_url /\ http_url <> "" /\
    pe_post env (rstrip_char "/" http_url +:+ "/intent/plan") payload = PlanResponse status detail (Some (VDict body)) /\
    status < 400 /\ truthy (get "permitted" body) = true.

Lemma gates_stored (g : gate_env) (branch : Branch) :
  (apply_to_proxmox (resolve_branch_intent_flags g branch) = true <-> exists d, stored_gates g branch (VBool true) d) /\
  (apply_destroy_confirmed (resolve_branch_intent_flags g branch) = true <-> exists a, stored_gates g branch a (VBool true)).
Proof.
  assert (Hf : forall a d, stored_gates g branch a d -> resolve_branch_intent_flags g branch = mkFlags (is_true a) (is_true d)).
  { intros a d (id & Hid & Hs & Ha & He & Hi). unfold resolve_branch_intent_flags, resolve_branch_reference.
    by rewrite Ha, Hid, Hs; cbn; rewrite He; cbn; rewrite Hi. }
  assert (Hb : resolve_branch_intent_flags g branch = FALSE_BRANCH_INTENT \/
    exists a d, stored_gates g branch a d /\ resolve_branch_intent_flags g branch = mkFlags (is_true a) (is_true d)).
  { unfold resolve_branch_intent_flags, resolve_branch_reference, stored_gates.
    destruct (ge_branching_available g) as [[]|] eqn:Ea; cbn; [|by left..].
    destruct (br_pk branch) as [id|] eqn:Eid; cbn; [|by left]. destruct (truthy (br_schema_id branch)) eqn:Es; cbn; [|by left].
    destruct (ge_branch_exists g id _) as [[]|] eqn:Ee; cbn; [|by left..].
    destruct (ge_branch_intent g id _) as [[[a d]|]|] eqn:Ei; [|by left..]. right. exists a, d. split; [by exists id|done]. }
  split; (split; [|intros [x Hx]; by rewrite (Hf _ _ Hx)]);
    destruct Hb as [->|(a & d & Hs & ->)]; [done| |done|]; cbn.
  - destruct a as [|[]| | | | |]; try done. eauto.
  - destruct d as [|[]| | | | |]; try done. eauto.
Qed.

Lemma call_plan_permits (env : plan_env) (payload : dict pyval) (r : PlanClientResult) :
  call_plan_endpoint env payload = Ok r -> plan_permitted r = true -> backend_permits env payload.
Proof.
  unfold call_plan_endpoint, backend_permits. destruct (pe_context env) as [[c|]|]; cbn [mbind result_bind]; [|done..].
  destruct (ctx_http_url c) as [[|ch url]|] eqn:Eu; [done| |done].
  destruct (pe_post env _ payload) as [|status detail body] eqn:Ep; [done|].
  destruct (Z.leb_spec 400 status) as [|Hs]; [done|]. destruct body as [[]|]; try done. unfold from_payload.
  destruct (match py_or _ _ with VStr _ => _ | _ => _ end) as [l|]; [|done]. cbn [mbind result_bind].
  intros [= <-] Hp. exists c, (String ch url), status, detail, d. by repeat split.
Qed.

Lemma plan_diff_planned (env : plan_env) (branch : Branch) (entries : list entry) (e : entry) :
  virtual_machine_diff_union (pe_db env) branch = Ok entries -> e ∈ entries -> planned e (plan_diff e).
Proof.
  intros Hu He. pose proof (union_op _ _ _ _ Hu He) as Hop. destruct e as [[vm op] row]. cbn in Hop.
  unfold planned, plan_diff, classify_diff.
  assert (Hl : (if mem_str (lower op) ACTIONS then lower op else "update") = op).
  { rewrite !elem_of_cons in Hop. destruct Hop as [->|[->|[->|H]]]; [done..|by apply elem_of_nil in H]. }
  cbn zeta. rewrite Hl. repeat split. unfold virtual_machine_diff_id. by destruct vm, (cdf_object_id row).
Qed.

Lemma has_delete (env : plan_env) (branch : Branch) (entries : list entry) (vm : option IntentVM) (row : ChangeDiff)
    (others : list (dict pyval)) :
  virtual_machine_diff_union (pe_db env) branch = Ok entries -> (vm, "delete", row) ∈ entries ->
  _has_vm_delete (List.map plan_diff entries ++ others) = true.
Proof.
  intros Hu He. unfold _has_vm_delete. apply existsb_exists. exists (plan_diff (vm, "delete", row)). split.
  - apply in_or_app. left. apply in_map_iff. eexists. split; [done|]. by apply list_elem_of_In.
  - destruct (plan_diff_planned _ _ _ _ Hu He) as (-> & -> & _). done.
Qed.

Lemma firewall_items (firewall : option FwChanges) (row : FwDiff) (d : FirewallApplyDiff) :
  row ∈ firewall_changediffs firewall -> build_firewall_apply_diff row = Some d ->
  exists item, item ∈ build_firewall_plan_diffs firewall /\ firewall_planned row item.
Proof.
  intros Hr Hb. eexists. split.
  - unfold build_firewall_plan_diffs. apply list_elem_of_omap. exists row. split; [done|]. by rewrite Hb.
  - unfold build_firewall_apply_diff in Hb. destruct (_action_for _ _); [|done]. injection Hb as <-.
    split; [done|]. split; [done|]. intros id Hid Hz. unfold _row_object_id. rewrite Hid.
    by destruct (Z.eqb_spec id 0).
Qed.

(** C17: A merge is let through in four cases only: the intent path is switched
    off for the instance; no intent row that opts the branch in could be read
    (so a failing read of the gates lets the merge through); the branch changes
    no virtual machine and no firewall object that a plan can be made for; or
    the backend answered "permitted", below status 400, to a plan with an item
    for every changed virtual machine and every such firewall object that was
    read.  In that last case a branch that deletes a virtual machine has its
    own stored confirmation.  Firewall rows whose query fails are not part of
    it: they are lost without an error. *)
Theorem merge_needs_backend (env : plan_env) (branch : Branch) (firewall : option FwChanges)
    (username : option string) (message : string) :
  validate_proxmox_intent env branch firewall username = Ok (mkIndicator true message) ->
  switched_off env \/ (forall d, ~ stored_gates (pe_gates env) branch (VBool true) d) \/
  exists entries, virtual_machine_diff_union (pe_db env) branch = Ok entries /\
    let plannable row := exists d, build_firewall_apply_diff row = Some d in
    (entries = [] /\ (forall row, row ∈ firewall_changediffs firewall -> ~ plannable row) \/
     ((exists vm row, (vm, "delete", row) ∈ entries) -> exists a, stored_gates (pe_gates env) branch a (VBool true)) /\
     exists endpoint_id diffs, backend_permits env (plan_payload endpoint_id branch username diffs) /\
       (forall e, e ∈ entries -> exists item, item ∈ diffs /\ planned e item) /\
       (forall row, row ∈ firewall_changediffs firewall -> plannable row ->
          exists item, item ∈ diffs /\ firewall_planned row item)).
Proof.
  unfold validate_proxmox_intent, flags. destruct (gates_stored (pe_gates env) branch) as [Ha Hd].
  unfold _is_intent_enabled at 1. destruct (pe_settings env) as [settings|] eqn:Es; [|done]. cbn [mbind result_bind].
  destruct (match settings with Some _ => _ | None => _ end) eqn:Een; cbn [mret result_ret].
  2: { left. unfold switched_off. destruct settings as [[enabled warn]|]; eauto. }
  cbn [mbind result_bind negb]. destruct (apply_to_proxmox _).
  2: { intros _. right. left. intros d Hs. assert (false = true) by (apply Ha; eauto). done. }
  cbn [negb]. unfold branch_diffs, _classify_vm_diffs.
  destruct (virtual_machine_diff_union (pe_db env) branch) as [entries|] eqn:Eu; [|done]. cbn [mbind result_bind mret result_ret].
  intros H. right. right. exists entries. split; [done|]. cbv zeta.
  set (diffs := List.map plan_diff entries ++ build_firewall_plan_diffs firewall) in *.
  assert (Hvm : forall e, e ∈ entries -> exists item, item ∈ diffs /\ planned e item).
  { intros e He. exists (plan_diff e). split; [|by eapply plan_diff_planned]. apply elem_of_app. left.
    apply list_elem_of_In, in_map_iff. eexists. split; [done|]. by apply list_elem_of_In. }
  assert (Hfw : forall row, row ∈ firewall_changediffs firewall -> (exists d, build_firewall_apply_diff row = Some d) ->
    exists item, item ∈ diffs /\ firewall_planned row item).
  { intros row Hr [d Hb]. destruct (firewall_items _ _ _ Hr Hb) as (item & Hi & Hp). exists item. split; [|done].
    apply elem_of_app. by right. }
  destruct diffs as [|d0 ds] eqn:Ediffs.
  { left. split.
    - destruct entries as [|e entries]; [done|]. destruct (Hvm e) as (item & Hi & _); [by left|]. by apply elem_of_nil in Hi.
    - intros row Hr Hp. destruct (Hfw row Hr Hp) as (item & Hi & _). by apply elem_of_nil in Hi. }
  rewrite <- Ediffs in *. clear Ediffs. right. split.
  - intros (vm & row & He). apply Hd. destruct (apply_destroy_confirmed _); [done|].
    unfold diffs in H. by erewrite has_delete in H by done.
  - destruct (_has_vm_delete diffs && negb _)%bool; [done|].
    destruct (_plaintext_password_warnings env branch) as [ws|]; [|done]. cbn [mbind result_bind] in H.
    destruct (plan_endpoint env diffs) as [id|]; [|done].
    destruct (call_plan_endpoint env _) as [r|exc] eqn:Ec; [|by destruct exc]. cbn [plan_permitted] in H.
    destruct (plan_permitted r) eqn:Er; cbn [negb] in H; [|by destruct (_format_remote_failure _)].
    exists id, diffs. split; [by eapply call_plan_permits|done].
Qed.

(** A branch that deletes a virtual machine. *)
Definition deleting_branch : Branch :=
  mkBranch (Some 4) "b" (VStr "s")
    (Some [mkDiff (VInt 1) VM_MODEL (VStr "delete") (Some 9) (VStr "web") (Ok None) VNone VNone VNone]).

Definition planning (destroy_confirmed : bool) (answer : plan_answer) : plan_env :=
  mkPlanEnv (Ok (Some (VBool true, VBool true)))
    (mkGateEnv (Ok true) (fun _ _ => Ok true) (fun _ _ => Ok (Some (VBool true, VBool destroy_confirmed))))
    (mkIntentDb (fun _ => Ok None) (fun _ => Ok None) (fun _ => None)) (Ok [registered_endpoint])
    (Ok (Some {| ctx_http_url := Some "http://api/"; ctx_headers := []; ctx_verify_ssl := true |})) (fun _ _ => answer).

Definition permits : plan_answer := PlanResponse 200 "" (Some (VDict [("permitted", VBool true); ("summary", VStr "1 diff")])).

Lemma merge_needs_backend_witness :
  validate_proxmox_intent (planning true permits) deleting_branch None None = Ok (mkIndicator true "1 diff") /\
  exists endpoint_id diffs, backend_permits (planning true permits) (plan_payload endpoint_id deleting_branch None diffs).
Proof.
  split; [vm_compute; reflexivity|].
  destruct (merge_needs_backend (planning true permits) deleting_branch None None "1 diff") as
    [[H|(e & w & H & Hf)]|[H|(entries & Hu & [[H _]|(_ & id & diffs & Hp & _)])]].
  - vm_compute. reflexivity.
  - discriminate H.
  - injection H as <- _. discriminate Hf.
  - exfalso. apply (H (VBool true)). exists 4. repeat split; vm_compute; reflexivity.
  - subst. vm_compute in Hu. discriminate Hu.
  - by exists id, diffs.
Defined.

Example merges_refused :
  List.map (fun env => in_permitted <$> match validate_proxmox_intent env deleting_branch None None with
                                        | Ok i => Some i | Err _ => None end)
    [planning false permits; planning true (PlanFailed "down"); planning true (PlanResponse 500 "" None);
     planning true (PlanResponse 200 "" (Some (VDict []))); planning true (PlanResponse 200 "" None)] =
  List.repeat (Some false) 5.
Proof. vm_compute. reflexivity. Qed.

(** Reading the gates fails, and the merge is let through without a plan. *)
Example gate_failure_permits :
  validate_proxmox_intent
    (mkPlanEnv (Ok (Some (VBool true, VBool true)))
       (mkGateEnv (Ok true) (fun _ _ => Ok true) (fun _ _ => Err (DatabaseError "gone")))
       (mkIntentDb (fun _ => Ok None) (fun _ => Ok None) (fun _ => None)) (Ok []) (Ok None) (fun _ _ => PlanFailed "down"))
    deleting_branch None None = Ok (mkIndicator true "").
Proof. vm_compute. reflexivity. Qed.

(** The queries of the firewall rows fail: the changed alias is not planned. *)
Example lost_firewall_rows :
  let changes error := Some (mkFwChanges
    [mkFwDiff ALIAS_MODEL (VStr "delete") (Some 3) (VStr "office") None (VDict [("name", VStr "office")]) VNone]
    error (fun _ => error)) in
  (List.length (build_firewall_plan_diffs (changes None)),
   List.length (build_firewall_plan_diffs (changes (Some (DatabaseError "gone"))))) = (1%nat, 0%nat).
Proof. vm_compute. reflexivity. Qed.
